(* ===== verification/_CoqProject ===== *)
-Q . S2P
Prelude.v
Hw.v
Regs.v
Dev.v
Pwr.v
Efuse.v
Sha1.v
Aes.v
Trx.v
Rx.v
Sec.v
Media.v
Coex.v
Wpa.v
Handshake.v
Fw.v
FwImage.v
MacInit.v
Phy.v
PhyTables.v
Channel.v
Scan.v
Assoc.v
Bringup.v
Judge.v
Kctl.v
Config.v
Wire.v
Calls.v
Daemon.v
Reorder.v
Deliver.v
RxFrame.v
Bridge.v
DataPath.v
Server.v
Driver.v
Client.v
Abi.v
Startup.v
Session.v
