(* ===== verification/Prelude.v ===== *)
(** * A verification of the RTL8821CE driver for macOS

    The repository holds a Wi-Fi driver for the Realtek RTL8821CE: control code
    in C (core/, crypto/) lifted from Linux rtw88, run inside the kernel by
    server/kctl.c on top of an IOKit object (server/RTW88Server.cpp), and a root
    daemon (client/) that chooses networks and talks to the menu-bar client.
    This library models the C control code, the IOKit object with its data path,
    and the daemon's configuration, protocol and threads, and proves what each
    part is for.

    ** How code becomes definitions

    Driver code is a tree of hardware calls, [Hw.prog]: a node is one call of
    core/rtw_hw.h (a register access, a delay, a DMA allocation, an access to
    DMA memory the chip can also write, an interrupt wait), a branch is an
    answer.  Nothing is assumed of the answers: a [Hw.Device] is any function
    that gives them, and the theorems quantify over all of them, through a
    monitor that reads the log of calls ([Hw.wp]), a set of allowed calls
    ([Hw.safe]), or an execution against a given device ([Hw.exec]).  Where a
    property needs the hardware to behave, the monitor says so: it stops
    judging a run at the first answer the hardware would not give
    ([Bringup.chip_fair], [Rx.idx_ok], [Efuse.efuse_answer], [Media.fw_mon]).
    C globals are records passed and returned; a w-bit integer is a [Z] that is
    wrapped where the code assigns it; a byte array is a list.  An access
    through a null or freed buffer is the call [Fault]; a loop that the code
    would never leave is the call [Hang].

    ** Files

    - Prelude: integers, bytes, strings, tactics, hints.
    - Hw, Regs, Dev: the hardware calls with their program logic, register
      names, the device record (core/rtw_hw.h, core/rtw_shim.h,
      core/trx_regs.h, core/upstream/reg.h).
    - Pwr (core/pwr.c): the power tables, their interpreter, power-on and off.
    - Efuse (core/efuse.c): physical dump, logical decode, board fields.
    - Sha1, Aes (crypto/rtw_crypto.c): SHA-1, HMAC, PBKDF2, AES-128.
    - Trx (core/trx.c): ring allocation, the transmit leaves, halting.
    - Rx: the receive-ring loop scan.c, assoc.c and wpa.c share.
    - Sec, Media, Coex (core/sec.c, media.c, h2c.c, coex.c): key CAM, firmware
      commands, antenna grant.
    - Wpa, Handshake (core/wpa.c): key derivation, EAPOL-Key frames; the
      4-way handshake.
    - Fw (core/fwdownload.c): firmware download; FwImage (core/fw_blob.c): the
      image the driver ships.
    - MacInit, Phy, Channel (core/macinit.c, phy.c, phy_tbl.h, channel.c):
      MAC, baseband and RF set-up, tuning; PhyTables: the parameter tables
      (core/upstream/rtw8821c_table.c).
    - Scan, Assoc (core/scan.c, assoc.c): the network table, joining.
    - Bringup: what the stages promise each other about the rings.
    - Judge: the terms a control call is judged on, and what a halted chip is.
    - Kctl (server/kctl.c): the entry points, and any sequence of them.
    - Config (client/config.c): the saved networks and their file.
    - Wire, Daemon (client/rtwd.c, client/main.c): the line protocol; the command
      handlers, the accept loop and the auto-connect thread, interleaved.
    - Reorder, Deliver, RxFrame (server/RTW88Server.cpp): the per-TID reorder
      windows, one data frame up to the stack, the dispatch of a received frame.
    - Bridge (server/RTW88Server.cpp): register access, the DMA table,
      interrupts, and the shims that carry [Hw]'s calls out.
    - DataPath, Server (server/RTW88Server.cpp): transmit, the receive pass,
      start and stop of the data path; the driver object and its clients.
    - Driver: the control code on the driver object, as one transition system.
    - Calls: programs of calls on the system, for the user-space code.
    - Client (client/main.c, client/rtw_hw.c): the command line and its own calls
      into the kernel.
    - Abi (server/rtw88_abi.h, server/RTW88Server.cpp, client/rtw_hw.c): the
      structures, the dispatch table and the control methods between the two.
    - Startup (client/rtwd.c): the start of the daemon among other processes, the
      interface of the card.
    - Session: a command line and the daemon talking over the socket.

    A component's operations are named after the C functions.  Inner loops and
    blocks of a long function are definitions of their own, in its order.

    ** What is proved

    Composition.  From load, any sequence of calls of the control interface, each
    run in whatever state the one before left, touches only live buffers and never
    hangs, and none but the two diagnostics powers or reprograms the chip while the
    data path runs ([Kctl.kctl_session_safe]).  The terms ([Judge.terms]) are what
    the code relies on: the chip keeps its index inside the ring and its size
    register; and a bring-up or a scan, which goes on whatever [trx_init] returned,
    is refused no memory.  A connect that does not end with keys in place leaves
    the chip halted, whatever the chip ([Kctl.connect_halts]); a connection is
    published exactly when all four stages succeeded, with the data of the
    network found ([Kctl.connect_publishes]).  The pieces: [Trx.trx_session_mem_safe],
    [Handshake.wpa_handshake_safe], [Assoc.associate_safe],
    [Scan.scan_networks_safe], [Fw.download_firmware_safe].

    Security.  A handshake completes only on frames it took from the ring, the
    last of which has a MIC that verifies under the derived key
    ([Handshake.wpa_exchange_authentic]), and wipes its keys; a failed one touches neither CAM nor
    link registers; an association is reported only after both responses of
    the access point; the key-data parser stays in bounds and recovers the
    group key of every well-formed key data.

    Functional behaviour.  SHA-1 in pieces, HMAC and PBKDF2 equal their RFC
    definitions; AES decryption and key unwrapping invert encryption and
    wrapping; the EFUSE decoder inverts a reference encoder; a download that
    succeeds has placed every section of the image; the page and queue
    registers split the transmit FIFO exactly; the table interpreter selects
    the first matching arm of each conditional; the RF self-check; tuning.

    Termination and liveness.  Power-on's total delay is bounded; the drain
    loop ends on a sound index and spins forever on one beyond the ring.

    The daemon.  Names and passwords stay terminated strings whatever file is
    read; saving then loading gives the networks back; the operations refine a
    map from names to passwords; a crash at any moment of a save leaves the old
    file or the new one.  Lines of the protocol are read back as they were
    written, whatever pieces the socket gives; whatever the interleaving, the
    kernel and the table are used under their locks and no thread waits for
    ever; the auto-connect thread keeps its policy.  The command line goes to the
    kernel itself only when it found no daemon, or for a forced diagnostic, and
    always closes what it opened ([Client.client_one_path]).  At most one daemon
    is at the controls ([Startup.single_daemon]), and what it runs as root for the
    interface is one of three commands ([Startup.data_online_commands]).  All it
    sends, until a send fails, is whole lines that fit both buffers
    ([Session.daemon_lines_read]), and the exit code of a connect whose reply is not
    cut says what the kernel said ([Session.connect_told_true]).

    The data path.  The reorder engine, with its 12-bit sequence numbers and 64
    slots, refines a buffer on unbounded numbers, which delivers in order, once
    each, and everything that arrived in its window, sweeps included
    ([Reorder.reorder_refines], [Reorder.reorder_in_order],
    [Reorder.reorder_complete]); frames built to the
    standard reach the stack as what they carry and no frame is read past its
    end; packet numbers never repeat; the transmit ring is never written over;
    every access is inside the buffers named at the start
    ([DataPath.data_session_safe]).

    The kernel object.  In every state the driver reaches, the parts agree: the
    table holds what the control code counts on, and a connection is claimed
    exactly when an interface runs on live rings ([Driver.driver_composed]).
    The DMA table implements the allocator the control code
    is verified against ([Bridge.bridge_refines]); the hand-over from connect to
    the data path passes every check; no request of a client moves a live buffer or
    writes a ring base but through the table ([Abi.client_call_guarded], which
    also says what the one hole in that is); tearing down quiesces the chip, then
    releases memory exactly when no thread may use it
    ([Server.server_stop_sound]).  A call of the client is, through the bytes of both sides, the entry
    point it names, and its answer is the entry point's
    ([Abi.control_call_carried]).

    ** Fuel

    Polls run on [Hw.poll_fuel], the tries their timeout allows plus two, which
    [Hw.poll_fuel_enough] shows is never used up.  The drain loop has one unit
    more than the ring is deep ([Rx.drain_fuel]): it either meets the chip's
    index within that or never does, and then the model hangs.  The other loops
    recurse on a list or on the count in the code.

    The receive pass of the data path has one unit more than the ring has slots,
    and hangs in the model when the chip's index is beyond the ring; the drain
    and the sweep of a reorder window have 65 units for 64 slots
    ([Reorder.reorder_refines] holds for them, so they are enough); an A-MSDU
    has one unit per byte of the frame.

    ** Not modelled

    The power by-rate and limit tables of core/upstream/rtw8821c_table.c are not
    read by the driver.  kmod_info.c declares the module.  Of RTW88Server.cpp: the
    medium dictionary, reference counts, and locks, each method being one step; the
    text of the health log.  Log lines, and what the command line prints beyond
    what decides its exit code, have no effect on state and are left out.  The
    system's side of a socket, a process or a file is an answer that may be
    anything, but for the laws a theorem names (a lock has one holder, a path is
    bound once, a size is checked).  The Swift client and the scripts are not
    modelled. *)
From stdpp Require Export base tactics list option numbers.
From Stdlib Require Export ZArith Lia Bool.
#[export] Set Default Goal Selector "!".

Declare Scope rtw_scope.
Delimit Scope rtw_scope with rtw.
Open Scope Z_scope.
Open Scope rtw_scope.

(** ** Fixed-width integers: a w-bit C integer is its value in Z, and every
    assignment to a w-bit object wraps. *)

Definition wrap (w z : Z) : Z := z mod 2 ^ w.
Abbreviation u8 := (wrap 8).
Abbreviation u16 := (wrap 16).
Abbreviation u32 := (wrap 32).
Abbreviation u64 := (wrap 64).

(** The signed [int]. *)
Definition i32 (z : Z) : Z := if u32 z <? 2 ^ 31 then u32 z else u32 z - 2 ^ 32.

Definition BIT (n : Z) : Z := Z.shiftl 1 n.
Definition GENMASK (h l : Z) : Z := Z.shiftl (Z.ones (h - l + 1)) l.

Infix ".&" := Z.land (at level 40, left associativity) : rtw_scope.
Infix ".|" := Z.lor (at level 45, left associativity) : rtw_scope.
Infix ".^" := Z.lxor (at level 43, left associativity) : rtw_scope.
Infix "<<" := Z.shiftl (at level 38, left associativity) : rtw_scope.
Infix ">>" := Z.shiftr (at level 38, left associativity) : rtw_scope.
Notation ".~ x" := (Z.lnot x) (at level 35, right associativity) : rtw_scope.

(** A truth value of a C condition on an integer: non-zero. *)
Definition nz (z : Z) : bool := negb (z =? 0).

(** Position of the lowest set bit of a non-zero mask ([__builtin_ctz]). *)
Fixpoint ctz_pos (p : positive) : Z :=
  match p with
  | xO p => 1 + ctz_pos p
  | _ => 0
  end.
Definition ctz (z : Z) : Z := match z with Zpos p => ctz_pos p | _ => 0 end.

(** ** Hint databases *)
Create HintDb rtw.
Create Rewrite HintDb bits.

Lemma wrap_range w z : 0 <= w -> 0 <= wrap w z < 2 ^ w.
Proof. intros; unfold wrap; apply Z.mod_pos_bound, Z.pow_pos_nonneg; lia. Qed.

Lemma wrap_small w z : 0 <= z < 2 ^ w -> wrap w z = z.
Proof. apply Z.mod_small. Qed.

Lemma wrap_wrap w z : 0 <= w -> wrap w (wrap w z) = wrap w z.
Proof. intros; apply wrap_small, wrap_range; lia. Qed.

Lemma wrap_testbit w z i :
  0 <= w -> Z.testbit (wrap w z) i = ((0 <=? i) && (i <? w) && Z.testbit z i)%bool.
Proof.
  intros Hw. unfold wrap.
  destruct (Z.leb_spec 0 i); [|by rewrite Z.testbit_neg_r by lia].
  destruct (Z.ltb_spec i w); simpl.
  - by apply Z.mod_pow2_bits_low.
  - apply Z.mod_pow2_bits_high; lia.
Qed.

Lemma testbit_high w z i : 0 <= z < 2 ^ w -> w <= i -> Z.testbit z i = false.
Proof.
  intros Hz Hi. destruct (decide (0 <= w)).
  - rewrite <- (wrap_small w z) by done. rewrite wrap_testbit by done.
    destruct (Z.ltb_spec i w); [lia|]. by rewrite andb_false_r.
  - rewrite Z.pow_neg_r in Hz; lia.
Qed.

(** Two n-bit values with the same low n bits are equal. *)
Lemma bits_ext w a b :
  0 <= a < 2 ^ w -> 0 <= b < 2 ^ w ->
  (forall i, 0 <= i < w -> Z.testbit a i = Z.testbit b i) -> a = b.
Proof.
  intros Ha Hb H. apply Z.bits_inj'; intros i Hi.
  destruct (decide (i < w)); [by apply H|].
  by rewrite !(testbit_high w) by lia.
Qed.

Lemma bits_range w z :
  0 <= w -> 0 <= z -> (forall i, w <= i -> Z.testbit z i = false) -> 0 <= z < 2 ^ w.
Proof.
  intros Hw Hz H. assert (z = wrap w z) as ->; [|by apply wrap_range].
  apply Z.bits_inj'; intros i Hi. rewrite wrap_testbit by done.
  destruct (Z.ltb_spec i w); destruct (Z.leb_spec 0 i); try lia; simpl; [done|].
  apply H; lia.
Qed.

Lemma lxor_range w a b : 0 <= w -> 0 <= a < 2 ^ w -> 0 <= b < 2 ^ w -> 0 <= a .^ b < 2 ^ w.
Proof.
  intros Hw Ha Hb. apply bits_range; [done|by apply Z.lxor_nonneg; split; lia|].
  intros i Hi. by rewrite Z.lxor_spec, !(testbit_high w) by lia.
Qed.
Lemma lor_range w a b : 0 <= w -> 0 <= a < 2 ^ w -> 0 <= b < 2 ^ w -> 0 <= a .| b < 2 ^ w.
Proof.
  intros Hw Ha Hb. apply bits_range; [done|by apply Z.lor_nonneg; split; lia|].
  intros i Hi. by rewrite Z.lor_spec, !(testbit_high w) by lia.
Qed.
Lemma land_range w a b : 0 <= w -> 0 <= a < 2 ^ w -> 0 <= a .& b < 2 ^ w.
Proof.
  intros Hw Ha. apply bits_range; [done|apply Z.land_nonneg; left; lia|].
  intros i Hi. by rewrite Z.land_spec, (testbit_high w a) by lia.
Qed.
Lemma land_ones_range w a : 0 <= w -> 0 <= a .& Z.ones w < 2 ^ w.
Proof. intros Hw. rewrite Z.land_ones by done. apply Z.mod_pos_bound. lia. Qed.
#[export] Hint Resolve wrap_range lxor_range lor_range land_range : rtw.
#[export] Hint Rewrite Z.land_spec Z.lor_spec Z.lxor_spec : bits.

(** ** Tactics shared by the development *)

(** Case on the innermost boolean test of a goal, as arithmetic facts. *)
Ltac case_bool :=
  match goal with
  | |- context [?a <? ?b] => destruct (Z.ltb_spec a b)
  | |- context [?a <=? ?b] => destruct (Z.leb_spec a b)
  | |- context [?a =? ?b] => destruct (Z.eqb_spec a b)
  end.
Ltac case_bool_in H :=
  match type of H with
  | context [?a <? ?b] => destruct (Z.ltb_spec a b)
  | context [?a <=? ?b] => destruct (Z.leb_spec a b)
  | context [?a =? ?b] => destruct (Z.eqb_spec a b)
  end.

(** Prove an equation of integers bit by bit. *)
Ltac bitwise :=
  apply Z.bits_inj'; intros ?i ?Hi; autorewrite with bits;
  repeat match goal with
         | |- context [Z.testbit ?x ?i] => destruct (Z.testbit x i)
         end; try reflexivity.

(** ** Bytes and buffers *)

Definition byte_ok (b : Z) : Prop := 0 <= b < 256.
Definition bytes_ok (l : list Z) : Prop := Forall byte_ok l.

Lemma u8_byte_ok z : byte_ok (u8 z).
Proof. apply (wrap_range 8); lia. Qed.
Lemma lxor_byte_ok a b : byte_ok a -> byte_ok b -> byte_ok (a .^ b).
Proof. unfold byte_ok. apply (lxor_range 8); lia. Qed.
#[export] Hint Resolve u8_byte_ok lxor_byte_ok : rtw.

#[export] Instance byte_ok_dec b : Decision (byte_ok b).
Proof. unfold byte_ok; apply _. Defined.

(** Exhaustive check of a decidable property of bytes. *)
Definition all_bytes : list Z := seqZ 0 256.
Lemma all_bytes_elem b : byte_ok b -> b ∈ all_bytes.
Proof. intros H. apply elem_of_seqZ. unfold byte_ok in H. lia. Qed.

Lemma forall_bytes (f : Z -> bool) :
  forallb f all_bytes = true -> forall b, byte_ok b -> f b = true.
Proof.
  intros H b Hb. rewrite forallb_forall in H.
  apply H, list_elem_of_In, all_bytes_elem, Hb.
Qed.

(** A literal list of bytes. *)
Ltac bytes_ok_tac :=
  unfold bytes_ok;
  repeat (apply Forall_cons_2; [first [assumption | apply u8_byte_ok | unfold byte_ok in *; lia]|]);
  apply Forall_nil_2.

(** C buffers accessed at a computed index; an access out of bounds is [None]. *)
Definition rd (b : list Z) (i : Z) : option Z :=
  if i <? 0 then None else b !! Z.to_nat i.
Definition wr (b : list Z) (i v : Z) : option (list Z) :=
  if (i <? 0) || (Z.of_nat (length b) <=? i) then None else Some (<[Z.to_nat i := v]> b).

Lemma rd_Some b i : 0 <= i < Z.of_nat (length b) -> exists v, rd b i = Some v /\ v ∈ b.
Proof.
  intros Hi. unfold rd. destruct (Z.ltb_spec i 0); [lia|].
  destruct (lookup_lt_is_Some_2 b (Z.to_nat i)) as [v Hv]; [lia|].
  exists v; split; [done|]. by eapply list_elem_of_lookup_2.
Qed.
Lemma wr_Some b i v :
  0 <= i < Z.of_nat (length b) -> wr b i v = Some (<[Z.to_nat i := v]> b).
Proof.
  intros Hi. unfold wr.
  destruct (Z.ltb_spec i 0); [lia|]. destruct (Z.leb_spec (Z.of_nat (length b)) i); [lia|done].
Qed.

Lemma rd_middle pre x post : rd (pre ++ x :: post) (Z.of_nat (length pre)) = Some x.
Proof.
  unfold rd. destruct (Z.ltb_spec (Z.of_nat (length pre)) 0); [lia|].
  by rewrite Nat2Z.id, list_lookup_middle.
Qed.
Lemma rd_middle1 pre x y post : rd (pre ++ x :: y :: post) (Z.of_nat (length pre) + 1) = Some y.
Proof.
  replace (pre ++ x :: y :: post) with ((pre ++ [x]) ++ y :: post) by by rewrite <- app_assoc.
  replace (Z.of_nat (length pre) + 1) with (Z.of_nat (length (pre ++ [x])))
    by (rewrite length_app; simpl; lia).
  apply rd_middle.
Qed.
(** Read [n] bytes at [i]: [None] outside the buffer. *)
Definition rd_bytes (b : list Z) (i n : Z) : option (list Z) :=
  if (i <? 0) || (n <? 0) || (Z.of_nat (length b) <? i + n) then None
  else Some (take (Z.to_nat n) (drop (Z.to_nat i) b)).

Lemma rd_byte b i : bytes_ok b -> 0 <= i < Z.of_nat (length b) -> exists v, rd b i = Some v /\ byte_ok v.
Proof.
  intros Hb Hi. destruct (rd_Some b i Hi) as (v & Hv & Hin). exists v. split; [done|].
  by apply (proj1 (Forall_forall _ _) Hb), list_elem_of_In.
Qed.

Lemma rd_bytes_Some b i n : 0 <= i -> 0 <= n -> i + n <= Z.of_nat (length b) ->
  rd_bytes b i n = Some (take (Z.to_nat n) (drop (Z.to_nat i) b)).
Proof. intros. unfold rd_bytes. by repeat (case_bool; try lia). Qed.

Lemma rd_bytes_middle pre mid post :
  rd_bytes (pre ++ mid ++ post) (Z.of_nat (length pre)) (Z.of_nat (length mid)) = Some mid.
Proof.
  rewrite rd_bytes_Some by (rewrite ?length_app; lia). rewrite !Nat2Z.id.
  by rewrite drop_app_length, take_app_length.
Qed.

Lemma u32_small z : 0 <= z < 2 ^ 32 -> u32 z = z.
Proof. apply wrap_small. Qed.

(** A constant-size array read at an index known to be in range. *)
Notation "l .[ i ]" := (nth i l 0) (at level 1, format "l .[ i ]") : rtw_scope.

(** [memcpy(b + i, src, len src)] into a buffer. *)
Definition splice (b : list Z) (i : nat) (src : list Z) : list Z :=
  take i b ++ src ++ drop (i + length src) b.

Lemma splice_length b i src :
  (i + length src <= length b)%nat -> length (splice b i src) = length b.
Proof. intros. unfold splice. rewrite !length_app, length_take, length_drop. lia. Qed.

Lemma take_splice b i src :
  (i <= length b)%nat -> take (i + length src) (splice b i src) = take i b ++ src.
Proof.
  intros. unfold splice. rewrite app_assoc, take_app_length'; [done|].
  rewrite length_app, length_take. lia.
Qed.

(** Replacing the field under a mask of byte-sized data. *)
Lemma GENMASK_bit h l i : 0 <= l <= h -> 0 <= i ->
  Z.testbit (GENMASK h l) i = ((l <=? i) && (i <=? h))%bool.
Proof.
  intros Hl Hi. unfold GENMASK. rewrite Z.shiftl_spec by done.
  destruct (Z.leb_spec l i); [|by rewrite Z.testbit_neg_r by lia].
  rewrite Z.testbit_ones_nonneg by lia. destruct (Z.ltb_spec (i - l) (h - l + 1)), (Z.leb_spec i h); lia || done.
Qed.

(** Little-endian words. *)
Definition le16 (v : Z) : list Z := [u8 v; u8 (v >> 8)].
Definition le32 (v : Z) : list Z := [u8 v; u8 (v >> 8); u8 (v >> 16); u8 (v >> 24)].
Definition word32 (a b c d : Z) : Z := a .| (b << 8) .| (c << 16) .| (d << 24).

Lemma shiftl_byte_bit x j i : byte_ok x -> 0 <= i -> 0 <= j ->
  Z.testbit (x << j) i = ((j <=? i) && (i <? j + 8) && Z.testbit x (i - j))%bool.
Proof.
  intros Hx Hi Hj. rewrite Z.shiftl_spec by done.
  destruct (Z.leb_spec j i); [|by rewrite Z.testbit_neg_r by lia].
  destruct (Z.ltb_spec i (j + 8)); [done|]. apply (testbit_high 8); [done|lia].
Qed.

Lemma word32_bits a b c d i :
  byte_ok a -> byte_ok b -> byte_ok c -> byte_ok d -> 0 <= i ->
  Z.testbit (word32 a b c d) i =
    (((i <? 8) && Z.testbit a i) || ((8 <=? i) && (i <? 16) && Z.testbit b (i - 8))
     || ((16 <=? i) && (i <? 24) && Z.testbit c (i - 16))
     || ((24 <=? i) && (i <? 32) && Z.testbit d (i - 24)))%bool.
Proof.
  intros. unfold word32. rewrite !Z.lor_spec, !shiftl_byte_bit by (done || lia).
  destruct (Z.ltb_spec i 8); [done|]. by rewrite (testbit_high 8 a) by (done || lia).
Qed.

(** The bytes of a word are what it was built from. *)
Lemma le32_word32 a b c d :
  byte_ok a -> byte_ok b -> byte_ok c -> byte_ok d -> le32 (word32 a b c d) = [a; b; c; d].
Proof.
  intros Ha Hb Hc Hd. unfold le32.
  assert (H : forall k x, 0 <= k -> byte_ok x ->
    (forall i, 0 <= i < 8 -> Z.testbit (word32 a b c d) (i + k) = Z.testbit x i) ->
    u8 (word32 a b c d >> k) = x).
  { intros k x Hk Hx H. apply (bits_ext 8); [by apply wrap_range|done|]. intros i Hi.
    rewrite wrap_testbit, Z.shiftr_spec, H by lia.
    destruct (Z.leb_spec 0 i), (Z.ltb_spec i 8); try lia. done. }
  rewrite <- (Z.shiftr_0_r (word32 a b c d)) at 1.
  rewrite (H 0 a), (H 8 b), (H 16 c), (H 24 d); try done; intros i Hi;
    rewrite word32_bits by (done || lia);
    repeat (case_bool; try lia); cbn [andb orb]; rewrite ?orb_false_r, ?Z.add_0_r, ?Z.add_simpl_r; done.
Qed.

Lemma le32_bytes a b c d :
  byte_ok a -> byte_ok b -> byte_ok c -> byte_ok d ->
  le32 (a .| (b << 8) .| (c << 16) .| (d << 24)) = [a; b; c; d].
Proof. apply le32_word32. Qed.

Lemma word32_range a b c d :
  byte_ok a -> byte_ok b -> byte_ok c -> byte_ok d -> 0 <= word32 a b c d < 2 ^ 32.
Proof.
  intros Ha Hb Hc Hd. apply bits_range; [done| |].
  - unfold word32, byte_ok in *. rewrite !Z.lor_nonneg, !Z.shiftl_nonneg. lia.
  - intros i Hi. rewrite word32_bits by (done || lia). by repeat (case_bool; try lia).
Qed.

Lemma word32_le32 v : 0 <= v < 2 ^ 32 -> word32 (u8 v) (u8 (v >> 8)) (u8 (v >> 16)) (u8 (v >> 24)) = v.
Proof.
  intros Hv. apply (bits_ext 32); [apply word32_range; apply u8_byte_ok|done|].
  intros j Hj. rewrite word32_bits by (apply u8_byte_ok || lia).
  rewrite !wrap_testbit by lia.
  repeat (case_bool; try lia); cbn; rewrite ?orb_false_r, ?Z.shiftr_spec, ?Z.sub_add by lia; done.
Qed.

Lemma le32_u32 v : le32 (u32 v) = le32 v.
Proof.
  unfold le32. assert (H : forall k, 0 <= k <= 24 -> u8 (u32 v >> k) = u8 (v >> k)).
  { intros k Hk. apply (bits_ext 8); [by apply wrap_range..|]. intros i Hi.
    rewrite !wrap_testbit, !Z.shiftr_spec, wrap_testbit by lia.
    destruct (Z.leb_spec 0 i), (Z.ltb_spec i 8), (Z.leb_spec 0 (i + k)), (Z.ltb_spec (i + k) 32);
      try lia; done. }
  rewrite <- (Z.shiftr_0_r (u32 v)) at 1. rewrite <- (Z.shiftr_0_r v) at 2. by rewrite !H by lia.
Qed.

(** Big-endian fields. *)
Definition be16 (v : Z) : list Z := [u8 (v >> 8); u8 v].
Definition be32 (v : Z) : list Z := [u8 (v >> 24); u8 (v >> 16); u8 (v >> 8); u8 v].
Definition be64 (v : Z) : list Z :=
  map (fun i => u8 (v >> (i * 8))) [7; 6; 5; 4; 3; 2; 1; 0].

Definition xor_bytes : list Z -> list Z -> list Z := zip_with Z.lxor.

Lemma xor_bytes_length a b : length a = length b -> length (xor_bytes a b) = length a.
Proof. intros. unfold xor_bytes. rewrite length_zip_with. lia. Qed.

Lemma xor_bytes_invol a b : length a = length b -> xor_bytes (xor_bytes a b) b = a.
Proof.
  revert b. induction a as [|x a IH]; intros [|y b] H; try done.
  simpl in *. f_equal; [|apply IH; lia].
  by rewrite Z.lxor_assoc, Z.lxor_nilpotent, Z.lxor_0_r.
Qed.

Lemma xor_bytes_ok a b : bytes_ok a -> bytes_ok b -> bytes_ok (xor_bytes a b).
Proof.
  intros Ha. revert b. induction Ha as [|x a Hx Ha IH]; intros [|y b] Hb; try constructor.
  - inversion Hb; subst. by apply lxor_byte_ok.
  - inversion Hb; subst. by apply IH.
Qed.

(** A type/length/value element. *)
Definition tlv (e : Z * list Z) : list Z := e.1 :: Z.of_nat (length e.2) :: e.2.

Lemma bytes_ok_app a b : bytes_ok (a ++ b) <-> bytes_ok a /\ bytes_ok b.
Proof. apply Forall_app. Qed.
Lemma bytes_ok_take n l : bytes_ok l -> bytes_ok (take n l).
Proof. apply Forall_take. Qed.
Lemma bytes_ok_drop n l : bytes_ok l -> bytes_ok (drop n l).
Proof. apply Forall_drop. Qed.
Lemma bytes_ok_replicate n v : byte_ok v -> bytes_ok (replicate n v).
Proof. intros. by apply Forall_replicate. Qed.
#[export] Hint Resolve xor_bytes_ok bytes_ok_take bytes_ok_drop bytes_ok_replicate : rtw.

Lemma forallb_Forall' {A} (f : A -> bool) l : forallb f l = true -> Forall (fun x => f x = true) l.
Proof. induction l as [|x l IH]; cbn; [by constructor|]. intros [? ?]%andb_true_iff. constructor; auto. Qed.

(** ** C library comparisons *)

(** [memcmp]: the difference at the first mismatch. *)
Fixpoint memcmp (a b : list Z) : Z :=
  match a, b with
  | x :: a, y :: b => if x =? y then memcmp a b else x - y
  | _, _ => 0
  end.

Lemma memcmp_sym a : forall b, memcmp b a = - memcmp a b.
Proof.
  induction a as [|x a IH]; intros [|y b]; try done. cbn [memcmp].
  rewrite (Z.eqb_sym y x). destruct (Z.eqb_spec x y); [apply IH|lia].
Qed.

Lemma memcmp_eq a : forall b, length a = length b -> memcmp a b = 0 -> a = b.
Proof.
  induction a as [|x a IH]; intros [|y b] Hl H; try done. cbn [memcmp] in H.
  destruct (Z.eqb_spec x y) as [->|]; [f_equal; apply IH; [simpl in Hl; lia|done]|lia].
Qed.

Lemma memcmp_refl a : memcmp a a = 0.
Proof. induction a as [|x a IH]; [done|]. cbn [memcmp]. by rewrite Z.eqb_refl. Qed.

Lemma memcmp_eqb a b : length a = length b -> (memcmp a b =? 0) = bool_decide (a = b).
Proof.
  intros Hl. destruct (Z.eqb_spec (memcmp a b) 0) as [E|E].
  - symmetry. by apply bool_decide_eq_true, memcmp_eq.
  - symmetry. apply bool_decide_eq_false. intros ->. by rewrite memcmp_refl in E.
Qed.

(** The string a [char] array holds: its bytes up to the first NUL. *)
Fixpoint c_str (l : list Z) : list Z :=
  match l with
  | [] => []
  | b :: l => if b =? 0 then [] else b :: c_str l
  end.
(** [strcmp(a, b) == 0] *)
Definition str_eq (a b : list Z) : bool := bool_decide (c_str a = c_str b).

Lemma c_str_app s rest : Forall (fun b => b <> 0) s -> c_str (s ++ 0 :: rest) = s.
Proof.
  induction 1 as [|b s Hb _ IH]; [done|]. cbn [app c_str].
  destruct (Z.eqb_spec b 0); [done|]. by rewrite IH.
Qed.
Lemma c_str_nonzero l : Forall (fun b => b <> 0) (c_str l).
Proof.
  induction l as [|b l IH]; [constructor|]. cbn [c_str]. destruct (Z.eqb_spec b 0); by constructor.
Qed.
Lemma c_str_length l : (length (c_str l) <= length l)%nat.
Proof. induction l as [|b l IH]; [done|]. cbn. destruct (b =? 0); cbn; lia. Qed.
Lemma c_str_prefix l : take (length (c_str l)) l = c_str l.
Proof.
  induction l as [|b l IH]; [done|]. cbn. destruct (b =? 0); [done|]. cbn. by rewrite IH.
Qed.
(** A NUL inside the array ends its string inside it. *)
Lemma c_str_terminated l : 0 ∈ l <-> (length (c_str l) < length l)%nat.
Proof.
  induction l as [|b l IH]; [split; [intros H; inversion H|cbn; lia]|]. cbn [c_str].
  rewrite elem_of_cons. destruct (Z.eqb_spec b 0); cbn; [split; [lia|by left]|].
  rewrite IH. split; [intros [|]; lia|right; lia].
Qed.
