(* ===== verification/Hw.v ===== *)
(** * Hw: the hardware-access layer (core/rtw_hw.h, core/rtw_shim.h,
    the MMIO shim of server/kctl.c)

    Driver code is a tree of hardware calls ([prog]); what a call answers is
    decided by a [Device], an interface the theorems quantify over.  [exec]
    runs a program against a device and returns the log of calls and answers;
    [wp] states what holds of every answer sequence, through a monitor that
    reads the log. *)
From stdpp Require Import gmap.
From S2P Require Import Prelude.
Open Scope Z_scope.
Open Scope rtw_scope.

(** ** Calls *)

Inductive width : Set := W8 | W16 | W32.
Definition bits_of (w : width) : Z := match w with W8 => 8 | W16 => 16 | W32 => 32 end.
Definition bytes_of (w : width) : Z := match w with W8 => 1 | W16 => 2 | W32 => 4 end.

(** One constructor per call of rtw_hw.h (and of the kernel services the
    lifted code uses) that the modelled code makes.  DMA memory is shared with
    the chip, so an access to it is a call as well. *)
Inductive hwop : Set :=
| Read (w : width) (off : Z)
| Write (w : width) (off v : Z)
| Udelay (us : Z)
| Malloc (n : Z)
| DmaAlloc (size : Z)
| DmaFree (handle : Z)
| RegWriteDma (reg handle buf_off w : Z)
| MemRead (handle off len : Z)
| MemWrite (handle off : Z) (bs : list Z)
| MemSet (handle off len v : Z)
| PciPower (mem_enable busmaster : bool)
| CfgRead (w : width) (off : Z)
| CfgWrite (w : width) (off v : Z)
| SetMacPower (on : bool)
| IrqEnable | IrqDisable
| IrqWait (timeout_ms : Z)
| RandomBuf (n : Z)
| DataStart (cfg : list Z) | DataStop | DataLink (up : bool)
| Fault   (* an access outside an object: undefined in C, answers anything *)
| Hang.   (* a loop that is known never to exit *)

Definition hwres (o : hwop) : Set :=
  match o with
  | Read _ _ | CfgRead _ _ => Z
  | Malloc _ => bool
  | DmaAlloc _ => option (Z * Z)          (* handle, bus address *)
  | MemRead _ _ _ => list Z
  | IrqEnable | IrqWait _ | DataStart _ | Fault | Hang => Z
  | RandomBuf _ => list Z
  | _ => unit
  end.

#[export] Instance width_eq_dec : EqDecision width.
Proof. solve_decision. Defined.
#[export] Instance hwop_eq_dec : EqDecision hwop.
Proof. solve_decision. Defined.

(** Some answer to each call. *)
Definition hw_default (o : hwop) : hwres o :=
  match o with
  | Read _ _ | CfgRead _ _ | IrqEnable | IrqWait _ | DataStart _ | Fault | Hang => 0
  | Malloc _ => true
  | DmaAlloc _ => None
  | MemRead _ _ _ | RandomBuf _ => []
  | _ => tt
  end.

(** ** Programs *)

Inductive prog (A : Type) : Type :=
| Ret (x : A)
| Act (o : hwop) (k : hwres o -> prog A).
Arguments Ret {A} x.
Arguments Act {A} o k.

Fixpoint prog_bind {A B} (f : A -> prog B) (p : prog A) : prog B :=
  match p with
  | Ret x => f x
  | Act o k => Act o (fun r => prog_bind f (k r))
  end.
#[export] Instance prog_ret : MRet prog := @Ret.
#[export] Instance prog_mbind : MBind prog := @prog_bind.

Definition act (o : hwop) : prog (hwres o) := Act o Ret.

(** ** Devices and runs *)

(** What the rest of the machine promises the driver: an answer to each call. *)
Class Device (W : Type) := dev_step : forall o : hwop, W -> hwres o * W.

Record event : Set := Ev { ev_op : hwop; ev_res : hwres ev_op }.

Fixpoint exec {W A} `{Device W} (p : prog A) (w : W) : A * W * list event :=
  match p with
  | Ret x => (x, w, [])
  | Act o k =>
      let '(r, w1) := dev_step o w in
      let '(x, w2, t) := exec (k r) w1 in
      (x, w2, Ev o r :: t)
  end.

Definition result {A W} (o : A * W * list event) : A := o.1.1.
Definition world {A W} (o : A * W * list event) : W := o.1.2.
Definition trace {A W} (o : A * W * list event) : list event := o.2.

(** The calls of a run, without their answers. *)
Definition ops {A W} (o : A * W * list event) : list hwop := map ev_op (trace o).

Lemma exec_bind {W A B} `{Device W} (f : A -> prog B) (p : prog A) (w : W) :
  exec (p ≫= f) w =
  let '(x, w1, t1) := exec p w in
  let '(y, w2, t2) := exec (f x) w1 in (y, w2, t1 ++ t2).
Proof.
  revert w. induction p as [x|o k IH]; intros w; simpl.
  - by destruct (exec (f x) w) as [[? ?] ?].
  - destruct (dev_step o w) as [r w1]. rewrite IH.
    destruct (exec (k r) w1) as [[x w2] t1]. by destruct (exec (f x) w2) as [[y w3] t2].
Qed.

(** A log of a run of [p] that returns [x], whatever the device was. *)
Fixpoint runs {A} (p : prog A) (t : list event) (x : A) : Prop :=
  match p with
  | Ret y => t = [] /\ x = y
  | Act o k => exists r t', t = Ev o r :: t' /\ runs (k r) t' x
  end.
Lemma exec_runs {W A} `{Device W} (p : prog A) (w : W) : runs p (trace (exec p w)) (result (exec p w)).
Proof.
  revert w. induction p as [x|o k IH]; intros w; simpl; [done|]. destruct (dev_step o w) as [r w1].
  specialize (IH r w1). destruct (exec (k r) w1) as [[x w2] t]. by exists r, t.
Qed.
Lemma runs_bind {A B} (f : A -> prog B) (p : prog A) : forall t y, runs (p ≫= f) t y ->
  exists t1 t2 x, t = t1 ++ t2 /\ runs p t1 x /\ runs (f x) t2 y.
Proof.
  induction p as [x|o k IH]; intros t y Hr; [by exists [], t, x|]. destruct Hr as (r & t' & -> & Hr).
  destruct (IH r t' y Hr) as (t1 & t2 & x & -> & H1 & H2). exists (Ev o r :: t1), t2, x. split; [done|]. split; [by exists r, t1|done].
Qed.
Lemma runs_ret {A} (x y : A) t : runs (mret x) t y -> t = [] /\ y = x.
Proof. done. Qed.

(** A run without its log: what it returns and the world it leaves. *)
Fixpoint run {W A} `{Device W} (p : prog A) (w : W) : A * W :=
  match p with
  | Ret x => (x, w)
  | Act o k => let '(r, w1) := dev_step o w in run (k r) w1
  end.

Lemma run_exec {W A} `{Device W} (p : prog A) (w : W) : (exec p w).1 = run p w.
Proof.
  revert w. induction p as [x|o k IH]; intros w; simpl; [done|].
  destruct (dev_step o w) as [r w1]. rewrite <- IH. by destruct (exec (k r) w1) as [[? ?] ?].
Qed.
Lemma run_bind {W A B} `{Device W} (f : A -> prog B) (p : prog A) (w : W) :
  run (p ≫= f) w = let '(x, w1) := run p w in run (f x) w1.
Proof.
  revert w. induction p as [x|o k IH]; intros w; simpl; [done|].
  destruct (dev_step o w) as [r w1]. apply IH.
Qed.

(** ** Monitors and weakest preconditions *)

Section Wp.
Context {S : Type} (mon : S -> forall o, hwres o -> option S).

(** [wp p s Q]: whatever the device answers, the monitor accepts every call
    of [p] from monitor state [s], and [Q] holds at the end. *)
Fixpoint wp {A} (p : prog A) (s : S) (Q : A -> S -> Prop) : Prop :=
  match p with
  | Ret x => Q x s
  | Act o k => forall r, match mon s o r with
                         | Some s' => wp (k r) s' Q
                         | None => False
                         end
  end.

Fixpoint mon_trace (s : S) (t : list event) : option S :=
  match t with
  | [] => Some s
  | Ev o r :: t => match mon s o r with Some s' => mon_trace s' t | None => None end
  end.

Lemma wp_mono {A} (p : prog A) s (Q Q' : A -> S -> Prop) :
  wp p s Q -> (forall x s', Q x s' -> Q' x s') -> wp p s Q'.
Proof.
  intros H HQ. revert s H. induction p as [x|o k IH]; simpl; intros s H; [auto|].
  intros r. specialize (H r). destruct (mon s o r); [by apply IH|done].
Qed.

Lemma wp_ret {A} (x : A) s (Q : A -> S -> Prop) : Q x s -> wp (mret x) s Q.
Proof. done. Qed.

Lemma wp_bind {A B} (f : A -> prog B) (p : prog A) s (Q : B -> S -> Prop) :
  wp p s (fun x s' => wp (f x) s' Q) -> wp (p ≫= f) s Q.
Proof.
  revert s. induction p as [x|o k IH]; simpl; intros s H; [done|].
  intros r. specialize (H r). destruct (mon s o r); [by apply IH|done].
Qed.

(** A [wp] fact holds of every run on every device. *)
Lemma wp_exec {W A} `{Device W} (p : prog A) (w : W) s (Q : A -> S -> Prop) :
  wp p s Q ->
  exists s', mon_trace s (trace (exec p w)) = Some s' /\ Q (result (exec p w)) s'.
Proof.
  revert s w. induction p as [x|o k IH]; simpl; intros s w Hp.
  - eauto.
  - destruct (dev_step o w) as [r w1]. specialize (Hp r).
    destruct (mon s o r) as [s1|] eqn:Hm; [|done].
    destruct (IH r s1 w1 Hp) as (s' & Ht & HQ).
    destruct (exec (k r) w1) as [[x w2] t]. cbn in *. rewrite Hm. eauto.
Qed.
End Wp.

(** The monitor that only forbids: a safety property of the calls alone. *)
Definition only (P : hwop -> bool) (_ : unit) (o : hwop) (_ : hwres o) : option unit :=
  if P o then Some tt else None.

Definition safe (P : hwop -> bool) {A} (p : prog A) (Q : A -> Prop) : Prop :=
  wp (only P) p tt (fun x _ => Q x).

Lemma safe_act P {A} o (k : hwres o -> prog A) Q :
  P o = true -> (forall r, safe P (k r) Q) -> safe P (Act o k) Q.
Proof. intros HP Hk r. unfold only. rewrite HP. apply Hk. Qed.

Lemma safe_bind P {A B} (f : A -> prog B) (p : prog A) (R : A -> Prop) Q :
  safe P p R -> (forall x, R x -> safe P (f x) Q) -> safe P (p ≫= f) Q.
Proof.
  intros Hp Hf. apply wp_bind. eapply wp_mono; [apply Hp|].
  intros x [] Hx. by apply Hf.
Qed.

Lemma safe_mono P {A} (p : prog A) (Q Q' : A -> Prop) :
  safe P p Q -> (forall x, Q x -> Q' x) -> safe P p Q'.
Proof. intros H HQ. eapply wp_mono; [apply H|]. auto. Qed.

(** Every call of every run of a safe program satisfies the predicate. *)
Lemma safe_exec P {W A} `{Device W} (p : prog A) (w : W) (Q : A -> Prop) :
  safe P p Q -> Forall (fun o => P o = true) (ops (exec p w)) /\ Q (result (exec p w)).
Proof.
  intros Hp. destruct (wp_exec (only P) p w tt _ Hp) as (s' & Ht & HQ).
  split; [|done]. unfold ops. clear HQ Hp. revert Ht.
  generalize (trace (exec p w)) as t. intros t.
  induction t as [|[o r] t IH]; simpl; [constructor|].
  unfold only at 1. destruct (P o) eqn:HP; [|done].
  intros Ht. constructor; [done|]. apply IH. destruct s'. done.
Qed.

(** ** Extensional equality of programs (the setoid the rewriting uses) *)

Inductive prog_eq {A} : prog A -> prog A -> Prop :=
| prog_eq_ret x : prog_eq (Ret x) (Ret x)
| prog_eq_act o k k' : (forall r, prog_eq (k r) (k' r)) -> prog_eq (Act o k) (Act o k').

#[export] Instance prog_equiv {A} : Equiv (prog A) := prog_eq.
Lemma prog_eq_act_inv {A} o k (q : prog A) :
  Act o k ≡ q -> exists k', q = Act o k' /\ forall r, k r ≡ k' r.
Proof.
  intros H. inversion H as [|o1 l l1 Hl]; subst.
  match goal with E : existT _ _ = existT _ _ |- _ =>
    apply Eqdep_dec.inj_pair2_eq_dec in E; [subst|intros; apply hwop_eq_dec] end.
  eauto.
Qed.

#[export] Instance prog_equivalence {A} : Equivalence (≡@{prog A}).
Proof.
  split.
  - intros p. induction p; constructor; auto.
  - intros p q H. induction H; constructor; auto.
  - intros p q r H. revert r. induction H as [|o k k' H IH]; intros r Hr; [done|].
    apply prog_eq_act_inv in Hr as (l & -> & Hl). constructor. intros x. apply IH, Hl.
Qed.

#[export] Instance prog_bind_proper {A B} :
  Proper (pointwise_relation A (≡) ==> (≡) ==> (≡)) (@prog_bind A B).
Proof.
  intros f g Hfg p q H. induction H as [x|o k k' H IH]; simpl; [apply Hfg|].
  by constructor.
Qed.

(** Equal programs have the same runs. *)
Lemma prog_eq_exec {W A} `{Device W} (p q : prog A) (w : W) :
  p ≡ q -> exec p w = exec q w.
Proof.
  intros Heq. revert w. induction Heq as [x|o k k' _ IH]; intros w; simpl; [done|].
  destruct (dev_step o w) as [r w1]. by rewrite IH.
Qed.

Lemma prog_bind_assoc {A B C} (f : B -> prog C) (g : A -> prog B) (p : prog A) :
  (p ≫= g) ≫= f ≡ p ≫= (fun x => g x ≫= f).
Proof. induction p as [x|o k IH]; simpl; [done|]. by constructor. Qed.

(** ** The calls of rtw_hw.h and the accessors of rtw_shim.h

    Reads answer a value of their width: the C return type truncates. *)

Definition hw_read8 (off : Z) : prog Z := v ← act (Read W8 off); mret (u8 v).
Definition hw_read16 (off : Z) : prog Z := v ← act (Read W16 off); mret (u16 v).
Definition hw_read32 (off : Z) : prog Z := v ← act (Read W32 off); mret (u32 v).
Definition hw_write8 (off v : Z) : prog unit := act (Write W8 off (u8 v)).
Definition hw_write16 (off v : Z) : prog unit := act (Write W16 off (u16 v)).
Definition hw_write32 (off v : Z) : prog unit := act (Write W32 off (u32 v)).

Definition udelay (us : Z) : prog unit := act (Udelay (if us =? 0 then 1 else us)).
Definition mdelay (ms : Z) : prog unit := act (Udelay (1000 * (if ms =? 0 then 1 else ms))).
Definition usleep (us : Z) : prog unit :=
  act (Udelay (if 1000 <=? us then 1000 * ((us + 999) / 1000) else if us =? 0 then 1 else us)).
Definition usleep_range (lo hi : Z) : prog unit := udelay lo.

Definition rtw_write8_set (a bits : Z) : prog unit := v ← hw_read8 a; hw_write8 a (v .| u8 bits).
Definition rtw_write8_clr (a bits : Z) : prog unit := v ← hw_read8 a; hw_write8 a (v .& .~ (u8 bits)).
Definition rtw_write16_set (a bits : Z) : prog unit := v ← hw_read16 a; hw_write16 a (v .| u16 bits).
Definition rtw_write16_clr (a bits : Z) : prog unit := v ← hw_read16 a; hw_write16 a (v .& .~ (u16 bits)).
Definition rtw_write32_set (a bits : Z) : prog unit := v ← hw_read32 a; hw_write32 a (v .| u32 bits).
Definition rtw_write32_clr (a bits : Z) : prog unit := v ← hw_read32 a; hw_write32 a (v .& .~ (u32 bits)).

(** Masked writes: the data is shifted to the mask's low bit. *)
Definition rtw_write8_mask (a mask data : Z) : prog unit :=
  v ← hw_read8 a; hw_write8 a ((v .& .~ (u8 mask)) .| ((u8 data << ctz mask) .& u8 mask)).
Definition rtw_write16_mask (a mask data : Z) : prog unit :=
  v ← hw_read16 a; hw_write16 a ((v .& .~ (u16 mask)) .| ((u16 data << ctz mask) .& u16 mask)).
Definition rtw_write32_mask (a mask data : Z) : prog unit :=
  v ← hw_read32 a; hw_write32 a ((v .& .~ (u32 mask)) .| (u32 (u32 data << ctz mask) .& u32 mask)).

(** A DMA buffer as the code's globals describe it: the bridge handle, the bus
    address, whether it is mapped (a non-null pointer) and its size. *)
Record dma := Dma { d_handle : Z; d_paddr : Z; d_mapped : bool; d_size : Z }.
Definition dma0 : dma := Dma 0 0 false 0.
Definition unmap (b : dma) : dma := Dma (d_handle b) (d_paddr b) false (d_size b).

(** Accesses through a mapped pointer; through a null one they fault. *)
Definition fault : prog unit := _ ← act Fault; mret tt.
Definition mem_write (b : dma) (off : Z) (bs : list Z) : prog unit :=
  if d_mapped b then act (MemWrite (d_handle b) off bs) else fault.
Definition mem_set (b : dma) (off len v : Z) : prog unit :=
  if d_mapped b then act (MemSet (d_handle b) off len v) else fault.
(** DMA memory holds bytes, as many as are read. *)
Definition norm_bytes (n : Z) (bs : list Z) : list Z :=
  take (Z.to_nat n) (map u8 bs ++ replicate (Z.to_nat n) 0).
Definition mem_read (handle off n : Z) : prog (list Z) :=
  bs ← act (MemRead handle off n); mret (norm_bytes n bs).

Definition le32_encode_bits (v mask : Z) : Z := u32 (v << ctz mask) .& mask.

(** Error numbers of the kernel's <sys/errno.h>. *)
Definition ENOMEM : Z := 12.
Definition EBUSY : Z := 16.
Definition EINVAL : Z := 22.
Definition EALREADY : Z := 37.
Definition ETIMEDOUT : Z := 60.

(** [read_poll_timeout_atomic]: evaluate [op] until [cond], sleeping
    [delay_us] between tries, giving up after about [timeout_us].  [elapsed]
    and [d] are the macro's locals; [fuel] bounds the tries
    ([poll_fuel_enough] below). *)
Fixpoint poll_loop (fuel : nat) (op : prog Z) (cond : Z -> bool)
    (d timeout_us elapsed : Z) : prog Z :=
  match fuel with
  | O => mret (- ETIMEDOUT)
  | S fuel =>
      v ← op;
      if cond v then mret 0
      else if nz timeout_us && (timeout_us <=? elapsed) then mret (- ETIMEDOUT)
      else (udelay d;; poll_loop fuel op cond d timeout_us (elapsed + d))
  end.

Definition poll_fuel (d timeout_us : Z) : nat := Z.to_nat (timeout_us / d + 2).

Definition read_poll_timeout_atomic (op : prog Z) (cond : Z -> bool)
    (delay_us timeout_us : Z) : prog Z :=
  let d := if nz delay_us then delay_us else 1 in
  poll_loop (poll_fuel d timeout_us) op cond d timeout_us 0.

(** More fuel than [poll_fuel] changes nothing: the loop has given up by then. *)
Lemma poll_loop_fuel op cond d t : 0 < d -> 0 < t ->
  forall fuel fuel' e, 0 <= e ->
    t - e <= d * (Z.of_nat fuel - 1) -> t - e <= d * (Z.of_nat fuel' - 1) ->
    (0 < fuel)%nat -> (0 < fuel')%nat ->
    poll_loop fuel op cond d t e ≡ poll_loop fuel' op cond d t e.
Proof.
  intros Hd Ht. induction fuel as [|fuel IH]; intros [|fuel'] e He H H' Hf Hf'; try lia.
  simpl. apply prog_bind_proper; [|done]. intros v.
  destruct (cond v); [done|].
  destruct (nz t && (t <=? e)) eqn:Hto; [done|].
  apply prog_eq_act. intros _.
  assert (e < t).
  { unfold nz in Hto. lia. }
  apply IH; try lia; nia.
Qed.

Lemma poll_fuel_enough op cond d t n : 0 < d -> 0 < t ->
  poll_loop (poll_fuel d t + n) op cond d t 0 ≡ poll_loop (poll_fuel d t) op cond d t 0.
Proof.
  intros Hd Ht. unfold poll_fuel.
  assert (0 <= t / d) by (apply Z.div_pos; lia).
  assert (t < d * (t / d + 1)) by (apply Z.mul_succ_div_gt; lia).
  apply poll_loop_fuel; try lia; nia.
Qed.

(** [check_hw_ready] (trx_regs.h): poll a masked field up to a thousand times. *)
Definition rtw_read32_mask (addr mask : Z) : prog Z :=
  v ← hw_read32 addr; mret ((v .& mask) >> ctz mask).

Fixpoint check_hw_ready_loop (c : nat) (addr mask target : Z) : prog bool :=
  match c with
  | O => mret false
  | S c =>
      v ← rtw_read32_mask addr mask;
      if v =? target then mret true
      else (udelay 10;; check_hw_ready_loop c addr mask target)
  end.
Definition DDMA_POLLING_COUNT_DEF : nat := 1000.
Definition check_hw_ready (addr mask target : Z) : prog bool :=
  check_hw_ready_loop DDMA_POLLING_COUNT_DEF addr mask target.

(** ** Rules for [safe]: one per call, used by the [safe_go] tactic *)

Lemma safe_ret P {A} (x : A) (Q : A -> Prop) : Q x -> safe P (mret x) Q.
Proof. done. Qed.
Lemma safe_bind_any P {A B} (f : A -> prog B) (p : prog A) Q :
  safe P p (fun _ => True) -> (forall x, safe P (f x) Q) -> safe P (p ≫= f) Q.
Proof. intros Hp Hf. eapply safe_bind; [apply Hp|]. auto. Qed.

Lemma safe_read8 P a (Q : Z -> Prop) :
  P (Read W8 a) = true -> (forall v, 0 <= v < 2 ^ 8 -> Q v) -> safe P (hw_read8 a) Q.
Proof. intros HP HQ. apply safe_act; [done|]. intros r. apply HQ, wrap_range; lia. Qed.
Lemma safe_read16 P a (Q : Z -> Prop) :
  P (Read W16 a) = true -> (forall v, 0 <= v < 2 ^ 16 -> Q v) -> safe P (hw_read16 a) Q.
Proof. intros HP HQ. apply safe_act; [done|]. intros r. apply HQ, wrap_range; lia. Qed.
Lemma safe_read32 P a (Q : Z -> Prop) :
  P (Read W32 a) = true -> (forall v, 0 <= v < 2 ^ 32 -> Q v) -> safe P (hw_read32 a) Q.
Proof. intros HP HQ. apply safe_act; [done|]. intros r. apply HQ, wrap_range; lia. Qed.

Lemma safe_op P (o : hwop) (Q : hwres o -> Prop) :
  P o = true -> (forall r, Q r) -> safe P (act o) Q.
Proof. intros HP HQ. apply safe_act; [done|]. intros r. apply HQ. Qed.

Lemma safe_write8 P a v (Q : unit -> Prop) :
  P (Write W8 a (u8 v)) = true -> Q tt -> safe P (hw_write8 a v) Q.
Proof. intros HP HQ. apply safe_act; [done|]. by intros []. Qed.
Lemma safe_write16 P a v (Q : unit -> Prop) :
  P (Write W16 a (u16 v)) = true -> Q tt -> safe P (hw_write16 a v) Q.
Proof. intros HP HQ. apply safe_act; [done|]. by intros []. Qed.
Lemma safe_write32 P a v (Q : unit -> Prop) :
  P (Write W32 a (u32 v)) = true -> Q tt -> safe P (hw_write32 a v) Q.
Proof. intros HP HQ. apply safe_act; [done|]. by intros []. Qed.
Lemma safe_udelay P us (Q : unit -> Prop) :
  (forall u, P (Udelay u) = true) -> Q tt -> safe P (udelay us) Q.
Proof. intros HP HQ. apply safe_act; [done|]. by intros []. Qed.
Lemma safe_mdelay P ms (Q : unit -> Prop) :
  (forall u, P (Udelay u) = true) -> Q tt -> safe P (mdelay ms) Q.
Proof. intros HP HQ. apply safe_act; [done|]. by intros []. Qed.

Lemma check_ready_safe P a m t : P (Read W32 a) = true -> (forall u, P (Udelay u) = true) ->
  safe P (check_hw_ready a m t) (fun _ => True).
Proof.
  intros Hr Hu. unfold check_hw_ready. generalize DDMA_POLLING_COUNT_DEF. intros n.
  induction n as [|n IH]; [by apply safe_ret|]. cbn [check_hw_ready_loop]. unfold rtw_read32_mask.
  apply safe_bind_any; [apply safe_bind_any; [by apply safe_read32|intros ?; by apply safe_ret]|].
  intros v. destruct (v =? t); [by apply safe_ret|].
  apply safe_bind_any; [by apply safe_udelay|]. intros _. apply IH.
Qed.

Lemma safe_poll_loop P op cond d t : forall fuel e,
  safe P op (fun _ => True) -> (forall us, P (Udelay us) = true) ->
  safe P (poll_loop fuel op cond d t e) (fun _ => True).
Proof.
  intros fuel e Hop Hd. revert e. induction fuel as [|fuel IH]; intros e; [done|].
  cbn [poll_loop]. apply safe_bind_any; [done|]. intros v.
  destruct (cond v); [done|]. destruct (_ && _); [done|].
  apply safe_bind_any; [by apply safe_udelay|]. intros _. apply IH.
Qed.

(** With nothing forbidden, [safe] speaks of results only. *)
Definition any_call (_ : hwop) : bool := true.
Lemma safe_any {A} (p : prog A) : safe any_call p (fun _ => True).
Proof. induction p as [x|o k IH]; [done|]. by apply safe_act. Qed.

Lemma safe_ret_inv P {A} (x : A) (Q : A -> Prop) : safe P (Ret x) Q -> Q x.
Proof. done. Qed.
Lemma safe_act_inv P {A} o (k : hwres o -> prog A) Q :
  safe P (Act o k) Q -> forall r, safe P (k r) Q.
Proof. intros H r. specialize (H r). unfold only in H. by destruct (P o). Qed.
Lemma safe_act_op P {A} o (k : hwres o -> prog A) Q : safe P (Act o k) Q -> P o = true.
Proof. intros H. specialize (H (hw_default o)). unfold only in H. by destruct (P o). Qed.
(** Fewer calls may be allowed than are known to be safe. *)
Lemma safe_weaken (P P' : hwop -> bool) {A} (p : prog A) (Q Q' : A -> Prop) :
  safe P p Q -> (forall o, P o = true -> P' o = true) -> (forall x, Q x -> Q' x) -> safe P' p Q'.
Proof.
  intros Hp HP HQ. induction p as [x|o k IH]; [by apply HQ|].
  apply safe_act; [|intros r; by apply IH, (safe_act_inv _ _ _ _ Hp)].
  apply HP. specialize (Hp (hw_default o)).
  unfold only in Hp. by destruct (P o).
Qed.

(** Watching a run: whether every call so far satisfies the predicate. *)
Definition watch (P : hwop -> bool) (b : bool) (o : hwop) (_ : hwres o) : option bool := Some (b && P o).

Lemma watch_safe P {A} (p : prog A) b (Q : A -> Prop) :
  safe P p Q -> wp (watch P) p b (fun x b' => b' = b /\ Q x).
Proof.
  intros Hp. unfold safe in Hp. revert b. induction p as [x|o k IH]; intros b; [done|].
  intros r. cbn [watch]. specialize (Hp r). unfold only in Hp. destruct (P o); [|done].
  rewrite andb_true_r. by apply IH.
Qed.

Lemma watch_any P {A} (p : prog A) b : wp (watch P) p b (fun _ _ => True).
Proof. revert b. induction p as [x|o k IH]; intros b; [done|]. intros r. apply IH. Qed.

(** What a watched run ends with says what its calls were. *)
Lemma watch_exec P {W A} `{Device W} (p : prog A) (w : W) (Q : A -> bool -> Prop) :
  wp (watch P) p true Q ->
  exists b, Q (result (exec p w)) b /\ (b = true -> Forall (fun o => P o = true) (ops (exec p w))).
Proof.
  intros Hp. destruct (wp_exec (watch P) p w true Q Hp) as (b & Ht & HQ). exists b. split; [done|].
  intros ->. unfold ops. clear HQ Hp. revert Ht. generalize (trace (exec p w)) as t. intros t.
  assert (Hall : forall t b, mon_trace (watch P) b t = Some true -> b = true /\ Forall (fun o => P o = true) (map ev_op t)).
  { clear t. intros t. induction t as [|[o r] t IH]; intros b Ht; cbn in *; [by injection Ht as ->|].
    apply IH in Ht as [Hb Ht]. apply andb_true_iff in Hb as [-> Ho]. split; [done|]. by constructor. }
  intros Ht. by apply (Hall t true).
Qed.

(** Calls a monitor does not react to leave its state alone. *)
Lemma wp_safe_frame {S} (mon : S -> forall o, hwres o -> option S) (P : hwop -> bool) {A} (p : prog A) s Q :
  (forall o r, P o = true -> mon s o r = Some s) -> safe P p Q ->
  wp mon p s (fun x s' => s' = s /\ Q x).
Proof.
  intros HP. induction p as [x|o k IH]; intros Hp; [exact (conj eq_refl Hp)|].
  intros r. rewrite HP by (by eapply safe_act_op). apply IH. by apply (safe_act_inv _ _ _ _ Hp).
Qed.


#[global] Opaque safe.

(** Decompose a program into its calls, branch by branch; a goal about a
    single call is left to [done] (the predicate evaluates). *)
Ltac safe_step :=
  match goal with
  | |- forall _, _ => intros ?
  | |- True => exact I
  | |- safe _ (mret _) _ => apply safe_ret; try done
  | |- safe _ (hw_read8 _) _ => apply safe_read8; [done|]
  | |- safe _ (hw_read16 _) _ => apply safe_read16; [done|]
  | |- safe _ (hw_read32 _) _ => apply safe_read32; [done|]
  | |- safe _ (hw_write8 _ _) _ => apply safe_write8; [done|]
  | |- safe _ (hw_write16 _ _) _ => apply safe_write16; [done|]
  | |- safe _ (hw_write32 _ _) _ => apply safe_write32; [done|]
  | |- safe _ (udelay _) _ => apply safe_udelay; [done|]
  | |- safe _ (mdelay _) _ => apply safe_mdelay; [done|]
  | |- safe _ (act _) _ => apply safe_op; [done|]
  | |- safe _ (_ ≫= _) _ => apply safe_bind_any
  | |- safe _ (if ?b then _ else _) _ => destruct b
  | |- safe _ (match ?b with _ => _ end) _ => destruct b
  | |- safe _ (rtw_write8_set _ _) _ => unfold rtw_write8_set
  | |- safe _ (rtw_write8_clr _ _) _ => unfold rtw_write8_clr
  | |- safe _ (rtw_write16_set _ _) _ => unfold rtw_write16_set
  | |- safe _ (rtw_write16_clr _ _) _ => unfold rtw_write16_clr
  | |- safe _ (rtw_write32_set _ _) _ => unfold rtw_write32_set
  | |- safe _ (rtw_write32_clr _ _) _ => unfold rtw_write32_clr
  | |- safe _ (rtw_write8_mask _ _ _) _ => unfold rtw_write8_mask
  | |- safe _ (rtw_write16_mask _ _ _) _ => unfold rtw_write16_mask
  | |- safe _ (rtw_write32_mask _ _ _) _ => unfold rtw_write32_mask
  | |- safe _ (usleep_range _ _) _ => unfold usleep_range
  end.
Ltac safe_go := repeat safe_step.

(** ** Cost: an upper bound, over all devices, on a sum over the calls made *)

Fixpoint cost_le (c : hwop -> Z) {A} (p : prog A) (t : Z) : Prop :=
  match p with
  | Ret _ => 0 <= t
  | Act o k => forall r, cost_le c (k r) (t - c o)
  end.

Definition total (c : hwop -> Z) (l : list hwop) : Z := foldr Z.add 0 (map c l).

Lemma cost_exec c {W A} `{Device W} (p : prog A) (w : W) t :
  cost_le c p t -> total c (ops (exec p w)) <= t.
Proof.
  unfold ops. revert w t. induction p as [x|o k IH]; intros w t Hp; simpl in *; [done|].
  destruct (dev_step o w) as [r w1]. specialize (IH r w1 _ (Hp r)).
  destruct (exec (k r) w1) as [[x w2] tr]. cbn in *. lia.
Qed.

Lemma cost_mono c {A} (p : prog A) t t' : cost_le c p t -> t <= t' -> cost_le c p t'.
Proof.
  revert t t'. induction p as [x|o k IH]; simpl; intros t t' Hp Ht; [lia|].
  intros r. eapply IH; [apply Hp|lia].
Qed.

Lemma cost_bind c {A B} (f : A -> prog B) (p : prog A) t t1 t2 :
  cost_le c p t1 -> (forall x, cost_le c (f x) t2) -> t1 + t2 <= t -> cost_le c (p ≫= f) t.
Proof.
  unfold mbind, prog_mbind. revert t t1.
  induction p as [x|o k IH]; simpl; intros t t1 Hp Hf Ht.
  - eapply cost_mono; [apply Hf|lia].
  - intros r. eapply IH; [apply Hp|apply Hf|lia].
Qed.

(** The second program's bound may rely on what the first returns. *)
Lemma cost_bind_post c {A B} (R : A -> Prop) (f : A -> prog B) (p : prog A) t t1 t2 :
  cost_le c p t1 -> safe any_call p R -> (forall x, R x -> cost_le c (f x) t2) ->
  t1 + t2 <= t -> cost_le c (p ≫= f) t.
Proof.
  unfold mbind, prog_mbind. revert t t1.
  induction p as [x|o k IH]; simpl; intros t t1 Hp Hs Hf Ht.
  - apply safe_ret_inv in Hs. eapply cost_mono; [by apply Hf|lia].
  - intros r. eapply IH; [apply Hp|by apply (safe_act_inv _ _ _ _ Hs)|apply Hf|lia].
Qed.

(** Time spent in delays, the cost the poll loops are bounded by. *)
Definition delay_us (o : hwop) : Z := match o with Udelay us => us | _ => 0 end.

Lemma cost_poll_loop op cond d t : 0 < d -> 0 < t -> cost_le delay_us op 0 ->
  forall fuel e k, 0 <= e -> 0 <= k -> t - e <= d * k ->
    cost_le delay_us (poll_loop fuel op cond d t e) (d * k).
Proof.
  intros Hd Ht Hop. induction fuel as [|fuel IH]; intros e k He Hk Hek; [simpl; nia|].
  cbn [poll_loop]. apply (cost_bind _ _ _ _ 0 (d * k)); [done| |lia].
  intros v. destruct (cond v); [simpl; nia|].
  destruct (nz t && (t <=? e)) eqn:Hto; [simpl; nia|].
  assert (0 < k) by (unfold nz in Hto; nia).
  apply (cost_bind _ _ _ _ d (d * (k - 1))).
  - unfold udelay. simpl. case_bool; simpl; lia.
  - intros _. apply IH; lia.
  - lia.
Qed.

Lemma cost_read8 a : cost_le delay_us (hw_read8 a) 0.
Proof. intros r. simpl. lia. Qed.
Lemma cost_read16 a : cost_le delay_us (hw_read16 a) 0.
Proof. intros r. simpl. lia. Qed.
Lemma cost_read32 a : cost_le delay_us (hw_read32 a) 0.
Proof. intros r. simpl. lia. Qed.
Lemma cost_write8 a v : cost_le delay_us (hw_write8 a v) 0.
Proof. intros r. simpl. lia. Qed.
Lemma cost_write16 a v : cost_le delay_us (hw_write16 a v) 0.
Proof. intros r. simpl. lia. Qed.
Lemma cost_write32 a v : cost_le delay_us (hw_write32 a v) 0.
Proof. intros r. simpl. lia. Qed.
Lemma cost_udelay us : cost_le delay_us (udelay us) (Z.max 1 us).
Proof. unfold udelay. intros r. simpl. case_bool; lia. Qed.
Lemma cost_mdelay ms : cost_le delay_us (mdelay ms) (1000 * Z.max 1 ms).
Proof. unfold mdelay. intros r. simpl. case_bool; lia. Qed.
Lemma cost_op0 o : delay_us o = 0 -> forall t, 0 <= t -> cost_le delay_us (act o) t.
Proof. intros Ho t Ht r. simpl. lia. Qed.
Lemma cost_ret {A} (x : A) t : 0 <= t -> cost_le delay_us (mret x) t.
Proof. done. Qed.
Lemma cost_bind0 {A B} (f : A -> prog B) (p : prog A) t :
  cost_le delay_us p 0 -> (forall x, cost_le delay_us (f x) t) -> cost_le delay_us (p ≫= f) t.
Proof. intros Hp Hf. by eapply (cost_bind _ _ _ t 0 t). Qed.

#[global] Opaque cost_le.

(** Decompose a program of register accesses, all of cost 0. *)
Ltac cost_step :=
  match goal with
  | |- forall _, _ => intros ?
  | |- cost_le _ (mret _) _ => apply cost_ret; lia
  | |- cost_le _ (hw_read8 _) _ => apply cost_read8
  | |- cost_le _ (hw_read16 _) _ => apply cost_read16
  | |- cost_le _ (hw_read32 _) _ => apply cost_read32
  | |- cost_le _ (hw_write8 _ _) _ => apply cost_write8
  | |- cost_le _ (hw_write16 _ _) _ => apply cost_write16
  | |- cost_le _ (hw_write32 _ _) _ => apply cost_write32
  | |- cost_le _ (_ ≫= _) _ => apply cost_bind0
  | |- cost_le _ (if ?b then _ else _) _ => destruct b
  | |- cost_le _ (rtw_write8_set _ _) _ => unfold rtw_write8_set
  | |- cost_le _ (rtw_write8_clr _ _) _ => unfold rtw_write8_clr
  | |- cost_le _ (rtw_write32_set _ _) _ => unfold rtw_write32_set
  | |- cost_le _ (rtw_write32_clr _ _) _ => unfold rtw_write32_clr
  end.
Ltac cost_go := repeat cost_step.

(** ** The MMIO shim of server/kctl.c: before BAR2 is mapped ([g_kmmio] null)
    reads answer all ones and writes are dropped. *)
Section Shim.
Context {W : Type} (g_kmmio : bool).

Definition unmapped (w : width) : Z :=
  match w with W8 => 255 | W16 => 65535 | W32 => 4294967295 end.

#[local] Instance mmio_shim (dev : Device W) : Device W := fun o w =>
  match o as o return hwres o * W with
  | Read wd off => if g_kmmio then dev (Read wd off) w else (unmapped wd, w)
  | Write wd off v => if g_kmmio then dev (Write wd off v) w else (tt, w)
  | o => dev o w
  end.
End Shim.

(** ** A register file: the device that remembers what is written (little
    endian), answers reads from it, and grants every resource request. *)
Definition regfile := gmap Z Z.

Definition rf_byte (m : regfile) (a : Z) : Z := default 0 (m !! a).
Definition rf_read (m : regfile) (w : width) (a : Z) : Z :=
  match w with
  | W8 => rf_byte m a
  | W16 => rf_byte m a + 256 * rf_byte m (a + 1)
  | W32 => rf_byte m a + 256 * rf_byte m (a + 1) + 65536 * rf_byte m (a + 2)
           + 16777216 * rf_byte m (a + 3)
  end.
Definition rf_write (m : regfile) (w : width) (a v : Z) : regfile :=
  match w with
  | W8 => <[a := u8 v]> m
  | W16 => <[a + 1 := u8 (v >> 8)]> (<[a := u8 v]> m)
  | W32 => <[a + 3 := u8 (v >> 24)]> (<[a + 2 := u8 (v >> 16)]>
             (<[a + 1 := u8 (v >> 8)]> (<[a := u8 v]> m)))
  end.

#[export] Instance regfile_dev : Device regfile := fun o m =>
  match o as o return hwres o * regfile with
  | Read w a => (rf_read m w a, m)
  | Write w a v => (tt, rf_write m w a v)
  | Malloc _ => (true, m)
  | DmaAlloc _ => (Some (0, 0), m)
  | MemRead _ _ n => (replicate (Z.to_nat n) 0, m)
  | CfgRead _ _ => (0, m)
  | IrqEnable => (0, m)
  | IrqWait _ => (0, m)
  | DataStart _ => (0, m)
  | Fault | Hang => (0, m)
  | RandomBuf n => (replicate (Z.to_nat n) 0, m)
  | Udelay _ | DmaFree _ | RegWriteDma _ _ _ _ | MemWrite _ _ _ | MemSet _ _ _ _
  | PciPower _ _ | CfgWrite _ _ _
  | SetMacPower _ | IrqDisable | DataStop | DataLink _ => (tt, m)
  end.

(** ** Live DMA buffers: the monitor of memory safety

    The state is the live buffers (handle to size), or [None] once the bridge
    has answered an allocation with a handle that is still live, after which
    nothing is promised.  A freed or written handle must be live and the access
    in bounds; faults and endless loops are never allowed. *)

Definition live := option (gmap Z Z).

Definition in_buf (m : gmap Z Z) (h off n : Z) : bool :=
  match m !! h with
  | Some size => (0 <=? off) && (0 <=? n) && (off + n <=? size)
  | None => false
  end.

Definition mem_mon (st : live) (o : hwop) : hwres o -> option live :=
  match st with
  | None => fun _ => Some None
  | Some m =>
      match o as o return hwres o -> option live with
      | DmaAlloc n => fun r =>
          match r with
          | None => Some (Some m)
          | Some (h, _) => match m !! h with Some _ => Some None | None => Some (Some (<[h := n]> m)) end
          end
      | DmaFree h => fun _ => match m !! h with Some _ => Some (Some (delete h m)) | None => None end
      | RegWriteDma _ h off w => fun _ => if in_buf m h off w then Some (Some m) else None
      | MemRead h off n => fun _ => if in_buf m h off n then Some (Some m) else None
      | MemWrite h off bs => fun _ => if in_buf m h off (Z.of_nat (length bs)) then Some (Some m) else None
      | MemSet h off n _ => fun _ => if in_buf m h off n then Some (Some m) else None
      | Fault | Hang => fun _ => None
      | _ => fun _ => Some (Some m)
      end
  end.

(** Memory safety of a program from the live buffers [m]. *)
Definition mem_safe {A} (p : prog A) (m : gmap Z Z) (Q : A -> gmap Z Z -> Prop) : Prop :=
  wp mem_mon p (Some m) (fun x st => match st with Some m' => Q x m' | None => True end).

(** Calls that do not touch DMA memory. *)
Definition no_mem (o : hwop) : bool :=
  match o with
  | DmaAlloc _ | DmaFree _ | RegWriteDma _ _ _ _ | MemRead _ _ _ | MemWrite _ _ _ | MemSet _ _ _ _
  | Fault | Hang => false
  | _ => true
  end.

(** The registers of the DMA rings: bases, sizes, indices. *)
Definition ring_reg (w : width) (a : Z) : bool := (0x304 <? a + bytes_of w) && (a <? 0x3d0).

(** Register code that leaves DMA memory, the rings and the data path alone. *)
Definition reg_call (o : hwop) : bool :=
  no_mem o && match o with Write w a _ => negb (ring_reg w a) | DataStart _ | DataStop | DataLink _ => false | _ => true end.

Lemma reg_no_mem o : reg_call o = true -> no_mem o = true.
Proof. unfold reg_call. by intros [? _]%andb_true_iff. Qed.

Lemma wp_released {A} (p : prog A) (Q : A -> live -> Prop) :
  (forall x, Q x None) -> wp mem_mon p None Q.
Proof. intros HQ. induction p as [x|o k IH]; [apply HQ|]. intros r. apply IH. Qed.

Lemma safe_equiv {A} P (p q : prog A) Q : p ≡ q -> safe P p Q -> safe P q Q.
Proof.
  induction 1 as [x|o k k' _ IH]; intros Hp; [done|].
  apply safe_act; [by apply safe_act_op in Hp|]. intros r. apply IH. by apply (safe_act_inv _ _ _ _ Hp).
Qed.

Lemma mem_safe_ret {A} (x : A) m (Q : A -> gmap Z Z -> Prop) : Q x m -> mem_safe (mret x) m Q.
Proof. done. Qed.

Lemma mem_safe_bind {A B} (f : A -> prog B) (p : prog A) m R Q :
  mem_safe p m R -> (forall x m', R x m' -> mem_safe (f x) m' Q) -> mem_safe (p ≫= f) m Q.
Proof.
  intros Hp Hf. apply wp_bind. eapply wp_mono; [apply Hp|].
  intros x [m'|] Hx; [by apply Hf|by apply wp_released].
Qed.

Lemma mem_safe_mono {A} (p : prog A) m (R Q : A -> gmap Z Z -> Prop) :
  mem_safe p m R -> (forall x m', R x m' -> Q x m') -> mem_safe p m Q.
Proof. intros Hp HQ. eapply wp_mono; [apply Hp|]. intros x [m'|]; auto. Qed.

(** Register code changes no buffer. *)
Lemma mem_safe_regs {A} (p : prog A) m (Q : A -> Prop) :
  safe no_mem p Q -> mem_safe p m (fun x m' => m' = m /\ Q x).
Proof.
  intros Hp. unfold mem_safe. induction p as [x|o k IH].
  - apply safe_ret_inv in Hp. done.
  - assert (Ho := safe_act_op _ _ _ _ Hp).
    intros r. pose proof (IH r (safe_act_inv _ _ _ _ Hp r)) as H.
    by destruct o.
Qed.

Lemma mem_safe_bind_regs {A B} (f : A -> prog B) (p : prog A) m Q :
  safe no_mem p (fun _ => True) -> (forall x, mem_safe (f x) m Q) -> mem_safe (p ≫= f) m Q.
Proof.
  intros Hp Hf. eapply mem_safe_bind; [by apply mem_safe_regs|]. intros x m' [-> _]. apply Hf.
Qed.

Lemma in_buf_true m h off n size :
  m !! h = Some size -> 0 <= off -> 0 <= n -> off + n <= size -> in_buf m h off n = true.
Proof. intros Hm H1 H2 H3. unfold in_buf. rewrite Hm. lia. Qed.

Lemma mem_safe_write b off bs m :
  d_mapped b = true -> in_buf m (d_handle b) off (Z.of_nat (length bs)) = true ->
  mem_safe (mem_write b off bs) m (fun _ m' => m' = m).
Proof. intros Hb Hi. unfold mem_write. rewrite Hb. intros r. cbn. by rewrite Hi. Qed.
Lemma mem_safe_set b off n v m :
  d_mapped b = true -> in_buf m (d_handle b) off n = true ->
  mem_safe (mem_set b off n v) m (fun _ m' => m' = m).
Proof. intros Hb Hi. unfold mem_set. rewrite Hb. intros r. cbn. by rewrite Hi. Qed.
Lemma mem_safe_memwrite h off bs m :
  in_buf m h off (Z.of_nat (length bs)) = true ->
  mem_safe (act (MemWrite h off bs)) m (fun _ m' => m' = m).
Proof. intros Hi r. cbn. by rewrite Hi. Qed.
Lemma mem_safe_read h off n m :
  in_buf m h off n = true ->
  mem_safe (mem_read h off n) m (fun bs m' => m' = m /\ length bs = Z.to_nat n /\ bytes_ok bs).
Proof.
  intros Hi r. cbn. rewrite Hi. cbn. split; [done|]. unfold norm_bytes. split.
  - rewrite length_take, length_app, length_replicate. lia.
  - apply bytes_ok_take, bytes_ok_app. split; [|by apply bytes_ok_replicate].
    apply Forall_map, Forall_forall. intros x _. apply u8_byte_ok.
Qed.
Lemma mem_safe_regdma reg h off w m :
  in_buf m h off w = true -> mem_safe (act (RegWriteDma reg h off w)) m (fun _ m' => m' = m).
Proof. intros Hi r. cbn. by rewrite Hi. Qed.
Lemma mem_safe_free h m :
  is_Some (m !! h) -> mem_safe (act (DmaFree h)) m (fun _ m' => m' = delete h m).
Proof. intros [n Hn] r. cbn. by rewrite Hn. Qed.
Lemma mem_safe_alloc n m :
  mem_safe (act (DmaAlloc n)) m (fun r m' =>
    match r with None => m' = m | Some (h, _) => m !! h = None /\ m' = <[h := n]> m end).
Proof. intros [[h pa]|]; cbn; [|done]. by destruct (m !! h) eqn:E. Qed.

(** Memory safety of a program for the devices whose answers satisfy [A]: what
    follows an answer that does not is not looked at. *)
Section Assuming.
Context (A : forall o, hwres o -> bool).

Definition mem_mon_if (st : live) (o : hwop) (r : hwres o) : option live :=
  match st with
  | None => Some None
  | Some m => if A o r then mem_mon (Some m) o r else Some None
  end.

Definition mem_safe_if {B} (p : prog B) (m : gmap Z Z) (Q : B -> gmap Z Z -> Prop) : Prop :=
  wp mem_mon_if p (Some m) (fun x st => match st with Some m' => Q x m' | None => True end).

Lemma wp_released_if {B} (p : prog B) (Q : B -> live -> Prop) :
  (forall x, Q x None) -> wp mem_mon_if p None Q.
Proof. intros HQ. induction p as [x|o k IH]; [apply HQ|]. intros r. apply IH. Qed.

Lemma mem_safe_if_ret {B} (x : B) m (Q : B -> gmap Z Z -> Prop) : Q x m -> mem_safe_if (mret x) m Q.
Proof. done. Qed.

Lemma mem_safe_if_bind {B C} (f : B -> prog C) (p : prog B) m R Q :
  mem_safe_if p m R -> (forall x m', R x m' -> mem_safe_if (f x) m' Q) -> mem_safe_if (p ≫= f) m Q.
Proof.
  intros Hp Hf. apply wp_bind. eapply wp_mono; [apply Hp|].
  intros x [m'|] Hx; [by apply Hf|by apply wp_released_if].
Qed.

Lemma mem_safe_if_mono {B} (p : prog B) m (R Q : B -> gmap Z Z -> Prop) :
  mem_safe_if p m R -> (forall x m', R x m' -> Q x m') -> mem_safe_if p m Q.
Proof. intros Hp HQ. eapply wp_mono; [apply Hp|]. intros x [m'|]; auto. Qed.

(** What is safe on every device is safe on these. *)
Lemma mem_safe_if_lift {B} (p : prog B) m (Q : B -> gmap Z Z -> Prop) :
  mem_safe p m Q -> mem_safe_if p m Q.
Proof.
  unfold mem_safe, mem_safe_if. generalize (Some m : live) as st. clear m.
  induction p as [x|o k IH]; intros st Hp; [done|]. intros r. specialize (Hp r).
  destruct st as [m|]; cbn [mem_mon_if].
  - destruct (A o r); [|by apply wp_released_if].
    destruct (mem_mon (Some m) o r); [by apply IH|done].
  - cbn [mem_mon] in Hp. by apply IH.
Qed.

Lemma mem_safe_if_bind_eq {B C} (f : B -> prog C) (p : prog B) m Q :
  mem_safe p m (fun _ m' => m' = m) -> (forall x, mem_safe_if (f x) m Q) -> mem_safe_if (p ≫= f) m Q.
Proof.
  intros Hp Hf. eapply mem_safe_if_bind; [by apply mem_safe_if_lift|]. intros x m' ->. apply Hf.
Qed.

Lemma regs_mem {B} (p : prog B) Q : safe reg_call p Q -> safe no_mem p Q.
Proof. intros Hp. eapply safe_weaken; [apply Hp|apply reg_no_mem|done]. Qed.

Lemma mem_safe_if_bind_regs {B C} (f : B -> prog C) (p : prog B) m Q :
  safe no_mem p (fun _ => True) -> (forall x, mem_safe_if (f x) m Q) -> mem_safe_if (p ≫= f) m Q.
Proof.
  intros Hp Hf. eapply mem_safe_if_bind; [by apply mem_safe_if_lift, mem_safe_regs|].
  intros x m' [-> _]. apply Hf.
Qed.

(** An answer the assumption speaks of. *)
Lemma mem_safe_if_act o m : no_mem o = true ->
  mem_safe_if (act o) m (fun r m' => m' = m /\ A o r = true).
Proof.
  intros Ho r. cbn [mem_mon_if]. destruct (A o r) eqn:E; [|done].
  by destruct o.
Qed.

End Assuming.

#[global] Opaque mem_safe mem_safe_if.

(** Sequence a call whose effect on the buffers is none. *)
Lemma mem_safe_bind_eq {A B} (f : A -> prog B) (p : prog A) m Q :
  mem_safe p m (fun _ m' => m' = m) -> (forall x, mem_safe (f x) m Q) -> mem_safe (p ≫= f) m Q.
Proof. intros Hp Hf. eapply mem_safe_bind; [apply Hp|]. intros x m' ->. apply Hf. Qed.
