(* ===== verification/Regs.v ===== *)
(** * Regs: register addresses and bit masks (core/upstream/reg.h,
    core/trx_regs.h, core/rtw_shim.h)

    The constants the modelled code names, with the headers' names and values. *)
From S2P Require Import Prelude.

Definition REG_SYS_FUNC_EN : Z := 2.
Definition BIT_FEN_PCIEA : Z := BIT 6.
Definition BIT_FEN_CPUEN : Z := BIT 2.
Definition BIT_FEN_BB_GLB_RST : Z := BIT 1.
Definition BIT_FEN_BB_RSTB : Z := BIT 0.
Definition REG_SYS_PW_CTRL : Z := 4.
Definition BIT_PFM_WOWL : Z := BIT 3.
Definition REG_SYS_CLK_CTRL : Z := 8.
Definition BIT_CPU_CLK_EN : Z := BIT 14.
Definition REG_RSV_CTRL : Z := 0x1c.
Definition BIT_WLMCU_IOIF : Z := BIT 0.
Definition REG_RF_CTRL : Z := 0x1f.
Definition BIT_RF_SDM_RSTB : Z := BIT 2.
Definition BIT_RF_RSTB : Z := BIT 1.
Definition BIT_RF_EN : Z := BIT 0.
Definition REG_EFUSE_CTRL : Z := 0x30.
Definition BIT_EF_FLAG : Z := BIT 31.
Definition BIT_SHIFT_EF_ADDR : Z := 8.
Definition BIT_MASK_EF_ADDR : Z := 0x3ff.
Definition BIT_MASK_EF_DATA : Z := 0xff.
Definition BITS_EF_ADDR : Z := 0x3ff00.
Definition REG_AFE_XTAL_CTRL : Z := 0x24.
Definition REG_AFE_PLL_CTRL : Z := 0x28.
Definition REG_LDO_EFUSE_CTRL : Z := 0x34.
Definition BIT_MASK_EFUSE_BANK_SEL : Z := 0x300.
Definition REG_GPIO_MUXCFG : Z := 0x40.
Definition BIT_FSPI_EN : Z := BIT 19.
Definition BIT_PO_BT_PTA_PINS : Z := BIT 9.
Definition BIT_BT_PTA_EN : Z := BIT 5.
Definition BIT_WLRFE_4_5_EN : Z := BIT 2.
Definition REG_LED_CFG : Z := 0x4c.
Definition BIT_LNAON_SEL_EN : Z := BIT 26.
Definition BIT_PAPE_SEL_EN : Z := BIT 25.
Definition REG_PAD_CTRL1 : Z := 0x64.
Definition BIT_PAPE_WLBT_SEL : Z := BIT 29.
Definition BIT_LNAON_WLBT_SEL : Z := BIT 28.
Definition REG_SYS_SDIO_CTRL : Z := 0x70.
Definition BIT_DBG_GNT_WL_BT : Z := BIT 27.
Definition BIT_LTE_MUX_CTRL_PATH : Z := BIT 26.
Definition REG_HCI_OPT_CTRL : Z := 0x74.
Definition BIT_USB_SUS_DIS : Z := BIT 8.
Definition BIT_SDIO_PAD_E5 : Z := BIT 18.
Definition REG_LDO_SWR_CTRL : Z := 0x7c.
Definition LDO_SEL : Z := 0xc3.
Definition SPS_SEL : Z := 0x83.
Definition REG_MCUFW_CTRL : Z := 0x80.
Definition BIT_BOOT_FSPI_EN : Z := BIT 20.
Definition BIT_FW_DW_RDY : Z := BIT 14.
Definition BIT_RPWM_TOGGLE : Z := BIT 7.
Definition BIT_DMEM_CHKSUM_OK : Z := BIT 6.
Definition BIT_DMEM_DW_OK : Z := BIT 5.
Definition BIT_IMEM_CHKSUM_OK : Z := BIT 4.
Definition BIT_IMEM_DW_OK : Z := BIT 3.
Definition BIT_MCUFWDL_EN : Z := BIT 0.
Definition BIT_CHECK_SUM_OK : Z := 0x50.
Definition FW_READY : Z := 0xc078.
Definition FW_READY_MASK : Z := 0xcfff.
Definition REG_EFUSE_ACCESS : Z := 0xcf.
Definition EFUSE_ACCESS_ON : Z := 0x69.
Definition REG_WLRF1 : Z := 0xec.
Definition REG_WIFI_BT_INFO : Z := 0xaa.
Definition BIT_BT_INT_EN : Z := BIT 15.
Definition REG_SYS_CFG1 : Z := 0xf0.
Definition BIT_LDO : Z := BIT 24.
Definition REG_SYS_STATUS1 : Z := 0xf4.
Definition BIT_WLRF1_BBRF_EN : Z := 0x7000000.
Definition REG_CR : Z := 0x100.
Definition BIT_ENSWBCN : Z := BIT 8.
Definition BIT_TXDMA_EN : Z := BIT 2.
Definition BIT_HCI_TXDMA_EN : Z := BIT 0.
Definition MAC_TRX_ENABLE : Z := 0xff.
Definition REG_TXDMA_PQ_MAP : Z := 0x10c.
Definition REG_TRXFF_BNDY : Z := 0x114.
Definition REG_RXFF_BNDY : Z := 0x11c.
Definition REG_HMETFR : Z := 0x1cc.
Definition REG_HMEBOX0 : Z := 0x1d0.
Definition REG_HMEBOX1 : Z := 0x1d4.
Definition REG_HMEBOX2 : Z := 0x1d8.
Definition REG_HMEBOX3 : Z := 0x1dc.
Definition REG_HMEBOX0_EX : Z := 0x1f0.
Definition REG_HMEBOX1_EX : Z := 0x1f4.
Definition REG_HMEBOX2_EX : Z := 0x1f8.
Definition REG_HMEBOX3_EX : Z := 0x1fc.
Definition REG_FIFOPAGE_CTRL_2 : Z := 0x204.
Definition BIT_BCN_VALID_V1 : Z := BIT 15.
Definition BIT_MASK_BCN_HEAD_1_V1 : Z := 0xfff.
Definition REG_AUTO_LLT_V1 : Z := 0x208.
Definition BIT_AUTO_INIT_LLT_V1 : Z := BIT 0.
Definition REG_TXDMA_OFFSET_CHK : Z := 0x20c.
Definition REG_TXDMA_STATUS : Z := 0x210.
Definition BTI_PAGE_OVF : Z := BIT 2.
Definition REG_RQPN_CTRL_2 : Z := 0x22c.
Definition BIT_LD_RQPN : Z := BIT 31.
Definition REG_FIFOPAGE_INFO_1 : Z := 0x230.
Definition REG_FIFOPAGE_INFO_2 : Z := 0x234.
Definition REG_FIFOPAGE_INFO_3 : Z := 0x238.
Definition REG_FIFOPAGE_INFO_4 : Z := 0x23c.
Definition REG_FIFOPAGE_INFO_5 : Z := 0x240.
Definition REG_H2C_HEAD : Z := 0x244.
Definition REG_H2C_TAIL : Z := 0x248.
Definition REG_H2C_READ_ADDR : Z := 0x24c.
Definition REG_H2C_INFO : Z := 0x254.
Definition REG_FWHW_TXQ_CTRL : Z := 0x420.
Definition BIT_EN_BCNQ_DL : Z := BIT 22.
Definition BIT_EN_WR_FREE_TAIL : Z := BIT 20.
Definition REG_BCNQ_BDNY_V1 : Z := 0x424.
Definition REG_RRSR : Z := 0x440.
Definition REG_CCK_CHECK : Z := 0x454.
Definition REG_AMPDU_MAX_TIME_V1 : Z := 0x455.
Definition REG_BCNQ1_BDNY_V1 : Z := 0x456.
Definition REG_TX_HANG_CTRL : Z := 0x45e.
Definition BIT_EN_EOF_V1 : Z := BIT 2.
Definition REG_ARFR4 : Z := 0x49c.
Definition BIT_WL_RFK : Z := BIT 0.
Definition REG_QUEUE_CTRL : Z := 0x4c6.
Definition BIT_PTA_WL_TX_EN : Z := BIT 4.
Definition BIT_PTA_EDCCA_EN : Z := BIT 5.
Definition REG_PROT_MODE_CTRL : Z := 0x4c8.
Definition REG_BAR_MODE_CTRL : Z := 0x4cc.
Definition REG_PRECNT_CTRL : Z := 0x4e5.
Definition BIT_EN_PRECNT : Z := BIT 11.
Definition REG_EDCA_VO_PARAM : Z := 0x500.
Definition REG_EDCA_VI_PARAM : Z := 0x504.
Definition REG_PIFS : Z := 0x512.
Definition REG_SIFS : Z := 0x514.
Definition BIT_SHIFT_SIFS_OFDM_CTX : Z := 8.
Definition BIT_SHIFT_SIFS_CCK_TRX : Z := 0x10.
Definition BIT_SHIFT_SIFS_OFDM_TRX : Z := 0x18.
Definition REG_SLOT : Z := 0x51b.
Definition REG_TX_PTCL_CTRL : Z := 0x520.
Definition BIT_SIFS_BK_EN : Z := BIT 12.
Definition REG_TXPAUSE : Z := 0x522.
Definition REG_TBTT_PROHIBIT : Z := 0x540.
Definition BIT_SHIFT_TBTT_HOLD_TIME_AP : Z := 8.
Definition REG_RD_NAV_NXT : Z := 0x544.
Definition REG_BCN_CTRL : Z := 0x550.
Definition BIT_DIS_TSF_UDT : Z := BIT 4.
Definition BIT_EN_BCN_FUNCTION : Z := BIT 3.
Definition REG_DRVERLYINT : Z := 0x558.
Definition REG_BCNDMATIM : Z := 0x559.
Definition REG_RXTSF_OFFSET_CCK : Z := 0x55e.
Definition REG_TIMER0_SRC_SEL : Z := 0x5b4.
Definition BIT_TSFT_SEL_TIMER0 : Z := 0x70.
Definition REG_TCR : Z := 0x604.
Definition REG_RCR : Z := 0x608.
Definition BIT_APP_PHYSTS : Z := BIT 28.
Definition REG_RX_PKT_LIMIT : Z := 0x60c.
Definition REG_RX_DRVINFO_SZ : Z := 0x60f.
Definition REG_ACKTO_CCK : Z := 0x639.
Definition REG_WMAC_TRXPTCL_CTL_H : Z := 0x66c.
Definition REG_RXFLTMAP0 : Z := 0x6a0.
Definition REG_RXFLTMAP2 : Z := 0x6a4.
Definition REG_BT_COEX_V2 : Z := 0x762.
Definition BIT_GNT_BT_POLARITY : Z := BIT 12.
Definition REG_BT_STAT_CTRL : Z := 0x778.
Definition REG_BT_TDMA_TIME : Z := 0x790.
Definition BIT_MASK_SAMPLE_RATE : Z := 0x3f.
Definition REG_WMAC_OPTION_FUNCTION : Z := 0x7d0.
Definition REG_RXPSEL : Z := 0x808.
Definition BIT_RX_PSEL_RST : Z := 0x30000000.
Definition REG_CLKTRK : Z := 0x860.
Definition REG_ADCCLK : Z := 0x8ac.
Definition REG_ADC160 : Z := 0x8c4.
Definition REG_RXSB : Z := 0xa00.
Definition REG_CCK0_FAREPORT : Z := 0xa2c.
Definition REG_TXSCALE_A : Z := 0xc1c.
Definition REG_CPU_DMEM_CON : Z := 0x1080.
Definition BIT_WL_PLATFORM_RST : Z := BIT 16.
Definition BIT_DDMA_EN : Z := BIT 8.
Definition REG_H2C_PKT_READADDR : Z := 0x10d0.
Definition REG_H2C_PKT_WRITEADDR : Z := 0x10d4.
Definition REG_FW_DBG7 : Z := 0x10fc.
Definition FW_KEY_MASK : Z := 0xffffff00.
Definition REG_CR_EXT : Z := 0x1100.
Definition REG_DDMA_CH0SA : Z := 0x1200.
Definition REG_DDMA_CH0DA : Z := 0x1204.
Definition REG_DDMA_CH0CTRL : Z := 0x1208.
Definition BIT_DDMACH0_OWN : Z := BIT 31.
Definition BIT_DDMACH0_CHKSUM_EN : Z := BIT 29.
Definition BIT_DDMACH0_CHKSUM_STS : Z := BIT 27.
Definition BIT_DDMACH0_RESET_CHKSUM_STS : Z := BIT 25.
Definition BIT_DDMACH0_CHKSUM_CONT : Z := BIT 24.
Definition BIT_MASK_DDMACH0_DLEN : Z := 0x3ffff.
Definition REG_H2CQ_CSR : Z := 0x1330.
Definition BIT_H2CQ_FULL : Z := BIT 31.
Definition REG_FAST_EDCA_VOVI_SETTING : Z := 0x1448.
Definition REG_FAST_EDCA_BEBK_SETTING : Z := 0x144c.
Definition LTECOEX_READY : Z := BIT 29.
Definition RF18_BAND_MASK : Z := 0x10300.
Definition RF18_RFSI_MASK : Z := 0x60000.
Definition RF_XTALX2 : Z := 0xb8.
Definition RF_LUTDBG : Z := 0xdf.
Definition RTK_DEFAULT_TX_DESC_NUM : Z := 0x80.
Definition RTK_BEQ_TX_DESC_NUM : Z := 0x100.
Definition RTK_PCI_CTRL : Z := 0x300.
Definition RTK_PCI_TXBD_DESA_BCNQ : Z := 0x308.
Definition RTK_PCI_TXBD_DESA_H2CQ : Z := 0x1320.
Definition RTK_PCI_TXBD_DESA_MGMTQ : Z := 0x310.
Definition RTK_PCI_TXBD_DESA_BKQ : Z := 0x330.
Definition RTK_PCI_TXBD_DESA_BEQ : Z := 0x328.
Definition RTK_PCI_TXBD_DESA_VIQ : Z := 0x320.
Definition RTK_PCI_TXBD_DESA_VOQ : Z := 0x318.
Definition RTK_PCI_TXBD_DESA_HI0Q : Z := 0x340.
Definition RTK_PCI_RXBD_DESA_MPDUQ : Z := 0x338.
Definition RTK_PCI_TXBD_NUM_H2CQ : Z := 0x1328.
Definition RTK_PCI_TXBD_NUM_MGMTQ : Z := 0x380.
Definition RTK_PCI_TXBD_NUM_BKQ : Z := 0x38a.
Definition RTK_PCI_TXBD_NUM_BEQ : Z := 0x388.
Definition RTK_PCI_TXBD_NUM_VIQ : Z := 0x386.
Definition RTK_PCI_TXBD_NUM_VOQ : Z := 0x384.
Definition RTK_PCI_TXBD_NUM_HI0Q : Z := 0x38c.
Definition RTK_PCI_RXBD_NUM_MPDUQ : Z := 0x382.
Definition RTK_PCI_TXBD_IDX_H2CQ : Z := 0x132c.
Definition RTK_PCI_TXBD_IDX_MGMTQ : Z := 0x3b0.
Definition RTK_PCI_TXBD_IDX_BEQ : Z := 0x3a8.
Definition RTK_PCI_RXBD_IDX_MPDUQ : Z := 0x3b4.
Definition RTK_PCI_TXBD_RWPTR_CLR : Z := 0x39c.
Definition RTK_PCI_TXBD_H2CQ_CSR : Z := 0x1330.
Definition BIT_CLR_H2CQ_HOST_IDX : Z := BIT 16.
Definition BIT_CLR_H2CQ_HW_IDX : Z := BIT 8.
Definition RTK_PCI_TXBD_OWN_OFFSET : Z := 0xf.
Definition RTK_PCI_TXBD_BCN_WORK : Z := 0x383.
Definition BIT_PCI_BCNQ_FLAG : Z := BIT 4.
Definition RTW_TX_DESC_W0_TXPKTSIZE : Z := 0xffff.
Definition RTW_TX_DESC_W0_OFFSET : Z := 0xff0000.
Definition RTW_TX_DESC_W0_BMC : Z := BIT 24.
Definition RTW_TX_DESC_W0_LS : Z := BIT 26.
Definition RTW_TX_DESC_W0_DISQSELSEQ : Z := BIT 31.
Definition RTW_TX_DESC_W1_QSEL : Z := 0x1f00.
Definition RTW_TX_DESC_W1_RATE_ID : Z := 0x1f0000.
Definition RTW_TX_DESC_W3_USE_RATE : Z := BIT 8.
Definition RTW_TX_DESC_W3_DISDATAFB : Z := BIT 10.
Definition RTW_TX_DESC_W4_DATARATE : Z := 0x7f.
Definition RTW_TX_DESC_W8_EN_HWSEQ : Z := BIT 15.
Definition TX_DESC_QSEL_BEACON : Z := 0x10.
Definition TX_DESC_QSEL_MGMT : Z := 0x12.
Definition TX_DESC_QSEL_H2C : Z := 0x13.
Definition DESC_RATE1M : Z := 0.
Definition DESC_RATE6M : Z := 4.
Definition DESC_RATE54M : Z := 0xb.
Definition RTW_RATEID_BGN_20M_1SS : Z := 3.
Definition RTW_RATEID_GN_N1SS : Z := 5.
Definition RTW_RATEID_BG : Z := 6.
Definition RTW_RATEID_G : Z := 7.
Definition RTW_RATEID_B_20M : Z := 8.
Definition RTW_RATEID_ARFR1_AC_1SS : Z := 0xa.
Definition RTW_RATEID_ARFR2_AC_2G_1SS : Z := 0xb.
Definition OCPBASE_TXBUF_88XX : Z := 0x18780000.
Definition OCPBASE_DMEM_88XX : Z := 0x200000.
Definition FW_HDR_SIZE : Z := 0x40.
Definition FW_HDR_CHKSUM_SIZE : Z := 8.
Definition RTW_PWR_POLLING_CNT : Z := 0x4e20.
Definition RTW_PWR_CMD_READ : Z := 0.
Definition RTW_PWR_CMD_WRITE : Z := 1.
Definition RTW_PWR_CMD_POLLING : Z := 2.
Definition RTW_PWR_CMD_DELAY : Z := 3.
Definition RTW_PWR_CMD_END : Z := 4.
Definition RTW_PWR_ADDR_MAC : Z := 0.
Definition RTW_PWR_ADDR_SDIO : Z := 3.
Definition RTW_PWR_INTF_SDIO_MSK : Z := BIT 0.
Definition RTW_PWR_INTF_USB_MSK : Z := BIT 1.
Definition RTW_PWR_INTF_PCI_MSK : Z := BIT 2.
Definition RTW_PWR_INTF_ALL_MSK : Z := 0xf.
Definition RTW_PWR_CUT_ALL_MSK : Z := 0xff.
Definition SDIO_LOCAL_OFFSET : Z := 0x10250000.
Definition INTF_PCIE : Z := BIT 0.
Definition BRANCH_IF : Z := 0.
Definition BRANCH_ELIF : Z := 1.
Definition BRANCH_ELSE : Z := 2.
Definition BRANCH_ENDIF : Z := 3.
Definition RFREG_MASK : Z := 0xfffff.
Definition REG_SDIO_HSUS_CTRL : Z := 0x86.
Definition BIT_HCI_SUS_REQ : Z := BIT 0.
Definition BIT_HCI_RESUME_RDY : Z := BIT 1.
Definition REG_SDIO_HIMR : Z := 0x10250014.

(** Function-like macros of reg.h. *)
Definition BIT_TXDMA_VOQ_MAP (x : Z) : Z := (x .& 3) << 4.
Definition BIT_TXDMA_VIQ_MAP (x : Z) : Z := (x .& 3) << 6.
Definition BIT_TXDMA_BEQ_MAP (x : Z) : Z := (x .& 3) << 8.
Definition BIT_TXDMA_BKQ_MAP (x : Z) : Z := (x .& 3) << 10.
Definition BIT_TXDMA_MGQ_MAP (x : Z) : Z := (x .& 3) << 12.
Definition BIT_TXDMA_HIQ_MAP (x : Z) : Z := (x .& 3) << 14.
Definition BIT_GET_CHIP_VER (x : Z) : Z := (x >> 12) .& 0xf.
