(* ===== verification/Dev.v ===== *)
(** * Dev: the driver's device record (core/rtw_shim.h)

    [rtw_dev] and the chip description it points to, with only the fields the
    lifted code uses; a C structure passed by pointer and mutated is passed and
    returned. *)
From S2P Require Import Prelude Regs.

Inductive rtw_hci_type := RTW_HCI_TYPE_PCIE | RTW_HCI_TYPE_USB | RTW_HCI_TYPE_SDIO | RTW_HCI_TYPE_UNDEFINE.
Inductive rtw_wlan_cpu := RTW_WCPU_3081 | RTW_WCPU_8051.
Inductive rtw_chip_type :=
| RTW_CHIP_TYPE_8822B | RTW_CHIP_TYPE_8822C | RTW_CHIP_TYPE_8723D
| RTW_CHIP_TYPE_8821C | RTW_CHIP_TYPE_8703B | RTW_CHIP_TYPE_8821A
| RTW_CHIP_TYPE_8812A | RTW_CHIP_TYPE_8814A.

#[export] Instance rtw_hci_type_eq_dec : EqDecision rtw_hci_type.
Proof. solve_decision. Defined.
#[export] Instance rtw_wlan_cpu_eq_dec : EqDecision rtw_wlan_cpu.
Proof. solve_decision. Defined.
#[export] Instance rtw_chip_type_eq_dec : EqDecision rtw_chip_type.
Proof. solve_decision. Defined.

(** One step of a power sequence. *)
Record rtw_pwr_seq_cmd := PwrCmd {
  pc_offset : Z; pc_cut_mask : Z; pc_intf_mask : Z;
  pc_base : Z; pc_cmd : Z; pc_mask : Z; pc_value : Z;
}.

Record rtw_page_table := PageTable { hq_num : Z; nq_num : Z; lq_num : Z; exq_num : Z; gapq_num : Z }.

(** Values of [enum rtw_dma_mapping]. *)
Definition RTW_DMA_MAPPING_EXTRA : Z := 0.
Definition RTW_DMA_MAPPING_LOW : Z := 1.
Definition RTW_DMA_MAPPING_NORMAL : Z := 2.
Definition RTW_DMA_MAPPING_HIGH : Z := 3.

Record rtw_rqpn := Rqpn {
  dma_map_vo : Z; dma_map_vi : Z; dma_map_be : Z;
  dma_map_bk : Z; dma_map_mg : Z; dma_map_hi : Z;
}.

Record rtw_fifo_conf := FifoConf {
  rsvd_drv_pg_num : Z; txff_pg_num : Z; rsvd_pg_num : Z; acq_pg_num : Z; rsvd_boundary : Z;
  rsvd_csibuf_addr : Z; rsvd_fw_txbuf_addr : Z; rsvd_cpu_instr_addr : Z;
  rsvd_h2cq_addr : Z; rsvd_h2c_sta_info_addr : Z; rsvd_h2c_info_addr : Z; rsvd_drv_addr : Z;
  fifo_rqpn : option rtw_rqpn;
}.

Record rtw_chip_info := ChipInfo {
  chip_id : rtw_chip_type;
  wlan_cpu : rtw_wlan_cpu;
  chip_sys_func_en : Z;
  pwr_on_seq : list (list rtw_pwr_seq_cmd);
  pwr_off_seq : list (list rtw_pwr_seq_cmd);
  tx_pkt_desc_sz : Z; tx_buf_desc_sz : Z; rx_pkt_desc_sz : Z; rx_buf_desc_sz : Z;
  ltecoex_addr : Z;
  txff_size : Z; rxff_size : Z;
  chip_rsvd_drv_pg_num : Z; csi_buf_pg_num : Z; page_size : Z;
  page_table : list rtw_page_table;
  rqpn_table : list rtw_rqpn;
  phy_efuse_size : Z; log_efuse_size : Z; ptct_efuse_size : Z;
}.

(** [struct rtw_phy_cond]: the bit fields, low to high. *)
Record rtw_phy_cond := PhyCond {
  cond_rfe : Z; cond_intf : Z; cond_pkg : Z; cond_plat : Z; cond_intf_rsvd : Z;
  cond_cut : Z; cond_branch : Z; cond_neg : Z; cond_pos : Z;
}.
Definition phy_cond0 : rtw_phy_cond := PhyCond 0 0 0 0 0 0 0 0 0.

Record rtw_hal_min := Hal {
  cut_version : Z; pkg_type : Z; rfe_btg : bool; rf_path_num : Z; rf_phy_num : Z;
  phy_cond : rtw_phy_cond;
  ch_param : Z * Z * Z;
}.

Record rtw_efuse := Efuse {
  rtl_id : Z; ef_addr : list Z; rfe_option : Z; crystal_cap : Z;
  rf_board_option : Z; channel_plan : Z; btcoex : bool;
}.

Record rtw_dev := Dev {
  chip : rtw_chip_info;
  hci_type : rtw_hci_type; rpwm_addr : Z;
  hal : rtw_hal_min;
  fifo : rtw_fifo_conf;
  efuse : rtw_efuse;
  flags : Z;
}.

Definition set_hal (h : rtw_hal_min) (d : rtw_dev) : rtw_dev :=
  Dev (chip d) (hci_type d) (rpwm_addr d) h (fifo d) (efuse d) (flags d).
Definition set_fifo (f : rtw_fifo_conf) (d : rtw_dev) : rtw_dev :=
  Dev (chip d) (hci_type d) (rpwm_addr d) (hal d) f (efuse d) (flags d).
Definition set_efuse (e : rtw_efuse) (d : rtw_dev) : rtw_dev :=
  Dev (chip d) (hci_type d) (rpwm_addr d) (hal d) (fifo d) e (flags d).
Definition set_flags (f : Z) (d : rtw_dev) : rtw_dev :=
  Dev (chip d) (hci_type d) (rpwm_addr d) (hal d) (fifo d) (efuse d) f.

(** Bit indices of [flags], and the bitmap helpers. *)
Definition RTW_FLAG_POWERON : Z := 0.
Definition RTW_FLAG_FW_RUNNING : Z := 1.
Definition set_bit (b : Z) (d : rtw_dev) : rtw_dev := set_flags (flags d .| BIT b) d.
Definition clear_bit (b : Z) (d : rtw_dev) : rtw_dev := set_flags (flags d .& .~ (BIT b)) d.
Definition test_bit (b : Z) (d : rtw_dev) : bool := nz ((flags d >> b) .& 1).

Definition rtw_chip_wcpu_8051 (d : rtw_dev) : bool := bool_decide (wlan_cpu (chip d) = RTW_WCPU_8051).
Definition rtw_chip_wcpu_3081 (d : rtw_dev) : bool := bool_decide (wlan_cpu (chip d) = RTW_WCPU_3081).
Definition rtw_sdio_is_sdio30_supported (d : rtw_dev) : bool := false.
Definition cut_version_to_mask (cut : Z) : Z := 1 << (cut + 1).

Lemma test_set_bit b d : 0 <= b -> test_bit b (set_bit b d) = true.
Proof.
  intros Hb. unfold test_bit, set_bit, nz. simpl.
  rewrite Z.shiftr_lor. unfold BIT. rewrite Z.shiftr_shiftl_l by lia.
  rewrite Z.sub_diag, Z.shiftl_0_r, Z.land_lor_distr_l.
  destruct (Z.eqb_spec (((flags d >> b) .& 1) .| (1 .& 1)) 0) as [H|]; [|done].
  apply Z.lor_eq_0_iff in H as [_ H]. done.
Qed.

Lemma test_clear_bit b d : 0 <= b -> test_bit b (clear_bit b d) = false.
Proof.
  intros Hb. unfold test_bit, clear_bit, nz. simpl. rewrite negb_false_iff, Z.eqb_eq.
  apply Z.bits_inj'; intros i Hi. rewrite Z.land_spec, Z.shiftr_spec, Z.bits_0 by lia.
  destruct (decide (i = 0)) as [->|].
  - rewrite Z.add_0_l, Z.land_spec, Z.lnot_spec by lia. unfold BIT.
    rewrite Z.shiftl_spec, Z.sub_diag by lia. simpl. by rewrite andb_false_r.
  - assert (Z.testbit 1 i = false) as ->; [|by rewrite andb_false_r].
    apply (testbit_high 1); lia.
Qed.

(** A device with the sizes of the 8821C, for the witnesses. *)
Definition example_dev (on off : list (list rtw_pwr_seq_cmd)) : rtw_dev :=
  Dev (ChipInfo RTW_CHIP_TYPE_8821C RTW_WCPU_3081 0xD8 on off
         48 16 24 8 0 65536 16384 8 0 128 [] [] 512 512 96)
    RTW_HCI_TYPE_PCIE 0x3d9 (Hal 1 0 false 1 1 phy_cond0 (0, 0, 0))
    (FifoConf 0 0 0 0 0 0 0 0 0 0 0 0 None) (Efuse 0 [0x00; 0xe0; 0x4c; 0x12; 0x34; 0x56] 0 0 0 0 false) 0.
