(* ===== verification/Pwr.v ===== *)
(** * Pwr: MAC power-on and power-off (core/pwr.c)

    The 8821C power tables, the sequence parser, and the power switch. *)
From S2P Require Import Prelude Hw Regs Dev.

(** ** Tables.  Delay steps carry [RTW_PWR_DELAY_MS] (1) or [_US] (0). *)
Definition RTW_PWR_DELAY_US : Z := 0.

Definition trans_carddis_to_cardemu_8821c : list rtw_pwr_seq_cmd := [
   PwrCmd 0x0086 RTW_PWR_CUT_ALL_MSK RTW_PWR_INTF_SDIO_MSK RTW_PWR_ADDR_SDIO RTW_PWR_CMD_WRITE (BIT 0) 0;
   PwrCmd 0x0086 RTW_PWR_CUT_ALL_MSK RTW_PWR_INTF_SDIO_MSK RTW_PWR_ADDR_SDIO RTW_PWR_CMD_POLLING (BIT 1) (BIT 1);
   PwrCmd 0x004A RTW_PWR_CUT_ALL_MSK RTW_PWR_INTF_USB_MSK RTW_PWR_ADDR_MAC RTW_PWR_CMD_WRITE (BIT 0) 0;
   PwrCmd 0x0005 RTW_PWR_CUT_ALL_MSK RTW_PWR_INTF_ALL_MSK RTW_PWR_ADDR_MAC RTW_PWR_CMD_WRITE (BIT 3 .| BIT 4 .| BIT 7) 0;
   PwrCmd 0x0300 RTW_PWR_CUT_ALL_MSK RTW_PWR_INTF_PCI_MSK RTW_PWR_ADDR_MAC RTW_PWR_CMD_WRITE 0xFF 0;
   PwrCmd 0x0301 RTW_PWR_CUT_ALL_MSK RTW_PWR_INTF_PCI_MSK RTW_PWR_ADDR_MAC RTW_PWR_CMD_WRITE 0xFF 0;
   PwrCmd 0xFFFF RTW_PWR_CUT_ALL_MSK RTW_PWR_INTF_ALL_MSK 0 RTW_PWR_CMD_END 0 0].

Definition trans_cardemu_to_act_8821c : list rtw_pwr_seq_cmd := [
   PwrCmd 0x0020 RTW_PWR_CUT_ALL_MSK (RTW_PWR_INTF_USB_MSK .| RTW_PWR_INTF_SDIO_MSK) RTW_PWR_ADDR_MAC RTW_PWR_CMD_WRITE (BIT 0) (BIT 0);
   PwrCmd 0x0001 RTW_PWR_CUT_ALL_MSK (RTW_PWR_INTF_USB_MSK .| RTW_PWR_INTF_SDIO_MSK) RTW_PWR_ADDR_MAC RTW_PWR_CMD_DELAY 1 1;
   PwrCmd 0x0000 RTW_PWR_CUT_ALL_MSK (RTW_PWR_INTF_USB_MSK .| RTW_PWR_INTF_SDIO_MSK) RTW_PWR_ADDR_MAC RTW_PWR_CMD_WRITE (BIT 5) 0;
   PwrCmd 0x0005 RTW_PWR_CUT_ALL_MSK RTW_PWR_INTF_ALL_MSK RTW_PWR_ADDR_MAC RTW_PWR_CMD_WRITE (BIT 4 .| BIT 3 .| BIT 2) 0;
   PwrCmd 0x0075 RTW_PWR_CUT_ALL_MSK RTW_PWR_INTF_PCI_MSK RTW_PWR_ADDR_MAC RTW_PWR_CMD_WRITE (BIT 0) (BIT 0);
   PwrCmd 0x0006 RTW_PWR_CUT_ALL_MSK RTW_PWR_INTF_ALL_MSK RTW_PWR_ADDR_MAC RTW_PWR_CMD_POLLING (BIT 1) (BIT 1);
   PwrCmd 0x0075 RTW_PWR_CUT_ALL_MSK RTW_PWR_INTF_PCI_MSK RTW_PWR_ADDR_MAC RTW_PWR_CMD_WRITE (BIT 0) 0;
   PwrCmd 0x0006 RTW_PWR_CUT_ALL_MSK RTW_PWR_INTF_ALL_MSK RTW_PWR_ADDR_MAC RTW_PWR_CMD_WRITE (BIT 0) (BIT 0);
   PwrCmd 0x0005 RTW_PWR_CUT_ALL_MSK RTW_PWR_INTF_ALL_MSK RTW_PWR_ADDR_MAC RTW_PWR_CMD_WRITE (BIT 7) 0;
   PwrCmd 0x0005 RTW_PWR_CUT_ALL_MSK RTW_PWR_INTF_ALL_MSK RTW_PWR_ADDR_MAC RTW_PWR_CMD_WRITE (BIT 4 .| BIT 3) 0;
   PwrCmd 0x10C3 RTW_PWR_CUT_ALL_MSK RTW_PWR_INTF_USB_MSK RTW_PWR_ADDR_MAC RTW_PWR_CMD_WRITE (BIT 0) (BIT 0);
   PwrCmd 0x0005 RTW_PWR_CUT_ALL_MSK RTW_PWR_INTF_ALL_MSK RTW_PWR_ADDR_MAC RTW_PWR_CMD_WRITE (BIT 0) (BIT 0);
   PwrCmd 0x0005 RTW_PWR_CUT_ALL_MSK RTW_PWR_INTF_ALL_MSK RTW_PWR_ADDR_MAC RTW_PWR_CMD_POLLING (BIT 0) 0;
   PwrCmd 0x0020 RTW_PWR_CUT_ALL_MSK RTW_PWR_INTF_ALL_MSK RTW_PWR_ADDR_MAC RTW_PWR_CMD_WRITE (BIT 3) (BIT 3);
   PwrCmd 0x0074 RTW_PWR_CUT_ALL_MSK RTW_PWR_INTF_PCI_MSK RTW_PWR_ADDR_MAC RTW_PWR_CMD_WRITE (BIT 5) (BIT 5);
   PwrCmd 0x0022 RTW_PWR_CUT_ALL_MSK RTW_PWR_INTF_PCI_MSK RTW_PWR_ADDR_MAC RTW_PWR_CMD_WRITE (BIT 1) 0;
   PwrCmd 0x0062 RTW_PWR_CUT_ALL_MSK RTW_PWR_INTF_PCI_MSK RTW_PWR_ADDR_MAC RTW_PWR_CMD_WRITE (BIT 7 .| BIT 6 .| BIT 5) (BIT 7 .| BIT 6 .| BIT 5);
   PwrCmd 0x0061 RTW_PWR_CUT_ALL_MSK RTW_PWR_INTF_PCI_MSK RTW_PWR_ADDR_MAC RTW_PWR_CMD_WRITE (BIT 7 .| BIT 6 .| BIT 5) 0;
   PwrCmd 0x007C RTW_PWR_CUT_ALL_MSK RTW_PWR_INTF_ALL_MSK RTW_PWR_ADDR_MAC RTW_PWR_CMD_WRITE (BIT 1) 0;
   PwrCmd 0xFFFF RTW_PWR_CUT_ALL_MSK RTW_PWR_INTF_ALL_MSK 0 RTW_PWR_CMD_END 0 0].

Definition trans_act_to_cardemu_8821c : list rtw_pwr_seq_cmd := [
   PwrCmd 0x0093 RTW_PWR_CUT_ALL_MSK RTW_PWR_INTF_ALL_MSK RTW_PWR_ADDR_MAC RTW_PWR_CMD_WRITE (BIT 3) 0;
   PwrCmd 0x001F RTW_PWR_CUT_ALL_MSK RTW_PWR_INTF_ALL_MSK RTW_PWR_ADDR_MAC RTW_PWR_CMD_WRITE 0xFF 0;
   PwrCmd 0x0049 RTW_PWR_CUT_ALL_MSK RTW_PWR_INTF_ALL_MSK RTW_PWR_ADDR_MAC RTW_PWR_CMD_WRITE (BIT 1) 0;
   PwrCmd 0x0006 RTW_PWR_CUT_ALL_MSK RTW_PWR_INTF_ALL_MSK RTW_PWR_ADDR_MAC RTW_PWR_CMD_WRITE (BIT 0) (BIT 0);
   PwrCmd 0x0002 RTW_PWR_CUT_ALL_MSK RTW_PWR_INTF_ALL_MSK RTW_PWR_ADDR_MAC RTW_PWR_CMD_WRITE (BIT 1) 0;
   PwrCmd 0x10C3 RTW_PWR_CUT_ALL_MSK RTW_PWR_INTF_USB_MSK RTW_PWR_ADDR_MAC RTW_PWR_CMD_WRITE (BIT 0) 0;
   PwrCmd 0x0005 RTW_PWR_CUT_ALL_MSK RTW_PWR_INTF_ALL_MSK RTW_PWR_ADDR_MAC RTW_PWR_CMD_WRITE (BIT 1) (BIT 1);
   PwrCmd 0x0005 RTW_PWR_CUT_ALL_MSK RTW_PWR_INTF_ALL_MSK RTW_PWR_ADDR_MAC RTW_PWR_CMD_POLLING (BIT 1) 0;
   PwrCmd 0x0020 RTW_PWR_CUT_ALL_MSK RTW_PWR_INTF_ALL_MSK RTW_PWR_ADDR_MAC RTW_PWR_CMD_WRITE (BIT 3) 0;
   PwrCmd 0x0000 RTW_PWR_CUT_ALL_MSK (RTW_PWR_INTF_USB_MSK .| RTW_PWR_INTF_SDIO_MSK) RTW_PWR_ADDR_MAC RTW_PWR_CMD_WRITE (BIT 5) (BIT 5);
   PwrCmd 0xFFFF RTW_PWR_CUT_ALL_MSK RTW_PWR_INTF_ALL_MSK 0 RTW_PWR_CMD_END 0 0].

Definition trans_cardemu_to_carddis_8821c : list rtw_pwr_seq_cmd := [
   PwrCmd 0x0007 RTW_PWR_CUT_ALL_MSK (RTW_PWR_INTF_USB_MSK .| RTW_PWR_INTF_SDIO_MSK) RTW_PWR_ADDR_MAC RTW_PWR_CMD_WRITE 0xFF 0x20;
   PwrCmd 0x0067 RTW_PWR_CUT_ALL_MSK RTW_PWR_INTF_ALL_MSK RTW_PWR_ADDR_MAC RTW_PWR_CMD_WRITE (BIT 5) 0;
   PwrCmd 0x0005 RTW_PWR_CUT_ALL_MSK RTW_PWR_INTF_PCI_MSK RTW_PWR_ADDR_MAC RTW_PWR_CMD_WRITE (BIT 2) (BIT 2);
   PwrCmd 0x004A RTW_PWR_CUT_ALL_MSK RTW_PWR_INTF_USB_MSK RTW_PWR_ADDR_MAC RTW_PWR_CMD_WRITE (BIT 0) 0;
   PwrCmd 0x0067 RTW_PWR_CUT_ALL_MSK RTW_PWR_INTF_SDIO_MSK RTW_PWR_ADDR_MAC RTW_PWR_CMD_WRITE (BIT 5) 0;
   PwrCmd 0x0067 RTW_PWR_CUT_ALL_MSK RTW_PWR_INTF_SDIO_MSK RTW_PWR_ADDR_MAC RTW_PWR_CMD_WRITE (BIT 4) 0;
   PwrCmd 0x004F RTW_PWR_CUT_ALL_MSK RTW_PWR_INTF_SDIO_MSK RTW_PWR_ADDR_MAC RTW_PWR_CMD_WRITE (BIT 0) 0;
   PwrCmd 0x0067 RTW_PWR_CUT_ALL_MSK RTW_PWR_INTF_SDIO_MSK RTW_PWR_ADDR_MAC RTW_PWR_CMD_WRITE (BIT 1) 0;
   PwrCmd 0x0046 RTW_PWR_CUT_ALL_MSK RTW_PWR_INTF_SDIO_MSK RTW_PWR_ADDR_MAC RTW_PWR_CMD_WRITE (BIT 6) (BIT 6);
   PwrCmd 0x0067 RTW_PWR_CUT_ALL_MSK RTW_PWR_INTF_SDIO_MSK RTW_PWR_ADDR_MAC RTW_PWR_CMD_WRITE (BIT 2) 0;
   PwrCmd 0x0046 RTW_PWR_CUT_ALL_MSK RTW_PWR_INTF_SDIO_MSK RTW_PWR_ADDR_MAC RTW_PWR_CMD_WRITE (BIT 7) (BIT 7);
   PwrCmd 0x0062 RTW_PWR_CUT_ALL_MSK RTW_PWR_INTF_SDIO_MSK RTW_PWR_ADDR_MAC RTW_PWR_CMD_WRITE (BIT 4) (BIT 4);
   PwrCmd 0x0081 RTW_PWR_CUT_ALL_MSK RTW_PWR_INTF_ALL_MSK RTW_PWR_ADDR_MAC RTW_PWR_CMD_WRITE (BIT 7 .| BIT 6) 0;
   PwrCmd 0x0005 RTW_PWR_CUT_ALL_MSK (RTW_PWR_INTF_USB_MSK .| RTW_PWR_INTF_SDIO_MSK) RTW_PWR_ADDR_MAC RTW_PWR_CMD_WRITE (BIT 3 .| BIT 4) (BIT 3);
   PwrCmd 0x0086 RTW_PWR_CUT_ALL_MSK RTW_PWR_INTF_SDIO_MSK RTW_PWR_ADDR_SDIO RTW_PWR_CMD_WRITE (BIT 0) (BIT 0);
   PwrCmd 0x0086 RTW_PWR_CUT_ALL_MSK RTW_PWR_INTF_SDIO_MSK RTW_PWR_ADDR_SDIO RTW_PWR_CMD_POLLING (BIT 1) 0;
   PwrCmd 0x0090 RTW_PWR_CUT_ALL_MSK (RTW_PWR_INTF_USB_MSK .| RTW_PWR_INTF_PCI_MSK) RTW_PWR_ADDR_MAC RTW_PWR_CMD_WRITE (BIT 1) 0;
   PwrCmd 0x0044 RTW_PWR_CUT_ALL_MSK RTW_PWR_INTF_SDIO_MSK RTW_PWR_ADDR_SDIO RTW_PWR_CMD_WRITE 0xFF 0;
   PwrCmd 0x0040 RTW_PWR_CUT_ALL_MSK RTW_PWR_INTF_SDIO_MSK RTW_PWR_ADDR_SDIO RTW_PWR_CMD_WRITE 0xFF 0x90;
   PwrCmd 0x0041 RTW_PWR_CUT_ALL_MSK RTW_PWR_INTF_SDIO_MSK RTW_PWR_ADDR_SDIO RTW_PWR_CMD_WRITE 0xFF 0x00;
   PwrCmd 0x0042 RTW_PWR_CUT_ALL_MSK RTW_PWR_INTF_SDIO_MSK RTW_PWR_ADDR_SDIO RTW_PWR_CMD_WRITE 0xFF 0x04;
   PwrCmd 0xFFFF RTW_PWR_CUT_ALL_MSK RTW_PWR_INTF_ALL_MSK 0 RTW_PWR_CMD_END 0 0].

Definition card_enable_flow_8821c : list (list rtw_pwr_seq_cmd) :=
  [trans_carddis_to_cardemu_8821c; trans_cardemu_to_act_8821c].
Definition card_disable_flow_8821c : list (list rtw_pwr_seq_cmd) :=
  [trans_act_to_cardemu_8821c; trans_cardemu_to_carddis_8821c].

(** ** Power functions *)

(** The SDIO resume poll of [rtw_mac_pre_system_cfg]: the number of retries
    left counts down from [RTW_PWR_POLLING_CNT]; [false] when it reaches 0. *)
Fixpoint sdio_resume_poll (retry : nat) : prog bool :=
  match retry with
  | O => mret false
  | S retry =>
      v ← hw_read8 REG_SDIO_HSUS_CTRL;
      if nz (v .& BIT_HCI_RESUME_RDY) then mret true
      else (usleep_range 10 50;; sdio_resume_poll retry)
  end.

(** Pin mux and BB/RF off: the tail shared by the non-8051 interfaces. *)
Definition pre_system_cfg_tail : prog Z :=
  v ← hw_read32 REG_PAD_CTRL1;
  hw_write32 REG_PAD_CTRL1 (v .| (BIT_PAPE_WLBT_SEL .| BIT_LNAON_WLBT_SEL));;
  v ← hw_read32 REG_LED_CFG;
  hw_write32 REG_LED_CFG (v .& .~ (BIT_PAPE_SEL_EN .| BIT_LNAON_SEL_EN));;
  v ← hw_read32 REG_GPIO_MUXCFG;
  hw_write32 REG_GPIO_MUXCFG (v .| BIT_WLRFE_4_5_EN);;
  v ← hw_read8 REG_SYS_FUNC_EN;
  hw_write8 REG_SYS_FUNC_EN (v .& .~ (BIT_FEN_BB_RSTB .| BIT_FEN_BB_GLB_RST));;
  v ← hw_read8 REG_RF_CTRL;
  hw_write8 REG_RF_CTRL (v .& .~ (BIT_RF_SDM_RSTB .| BIT_RF_RSTB .| BIT_RF_EN));;
  v ← hw_read32 REG_WLRF1;
  hw_write32 REG_WLRF1 (v .& .~ BIT_WLRF1_BBRF_EN);;
  mret 0.

Definition rtw_mac_pre_system_cfg (d : rtw_dev) : prog Z :=
  hw_write8 REG_RSV_CTRL 0;;
  if rtw_chip_wcpu_8051 d then
    v ← hw_read32 REG_SYS_CFG1;
    (if nz (v .& BIT_LDO) then hw_write8 REG_LDO_SWR_CTRL LDO_SEL
     else hw_write8 REG_LDO_SWR_CTRL SPS_SEL);;
    mret 0
  else
    match hci_type d with
    | RTW_HCI_TYPE_PCIE =>
        rtw_write32_set REG_HCI_OPT_CTRL BIT_USB_SUS_DIS;; pre_system_cfg_tail
    | RTW_HCI_TYPE_SDIO =>
        rtw_write8_clr REG_SDIO_HSUS_CTRL BIT_HCI_SUS_REQ;;
        ok ← sdio_resume_poll (Z.to_nat RTW_PWR_POLLING_CNT);
        if ok : bool then
          (if rtw_sdio_is_sdio30_supported d
           then rtw_write8_set (REG_HCI_OPT_CTRL + 2) (BIT_SDIO_PAD_E5 >> 16)
           else rtw_write8_clr (REG_HCI_OPT_CTRL + 2) (BIT_SDIO_PAD_E5 >> 16));;
          pre_system_cfg_tail
        else mret (- ETIMEDOUT)
    | RTW_HCI_TYPE_USB => pre_system_cfg_tail
    | RTW_HCI_TYPE_UNDEFINE => mret (- EINVAL)
    end.

Definition do_pwr_poll_cmd (addr mask target : Z) : prog bool :=
  let target := target .& mask in
  r ← read_poll_timeout_atomic (hw_read8 addr) (fun v => (v .& mask) =? target)
        50 (50 * RTW_PWR_POLLING_CNT);
  mret (r =? 0).

(** The register a step addresses. *)
Definition pc_addr (c : rtw_pwr_seq_cmd) : Z :=
  if pc_base c =? RTW_PWR_ADDR_SDIO then pc_offset c .| SDIO_LOCAL_OFFSET else pc_offset c.

Definition rtw_pwr_cmd_polling (d : rtw_dev) (c : rtw_pwr_seq_cmd) : prog Z :=
  ok ← do_pwr_poll_cmd (pc_addr c) (pc_mask c) (pc_value c);
  if ok : bool then mret 0
  else if negb (bool_decide (hci_type d = RTW_HCI_TYPE_PCIE)) then mret (- EBUSY)
  else
    (* PCIe: toggle BIT_PFM_WOWL and try again *)
    value ← hw_read8 REG_SYS_PW_CTRL;
    (if bool_decide (chip_id (chip d) = RTW_CHIP_TYPE_8723D)
     then hw_write8 REG_SYS_PW_CTRL (value .& .~ BIT_PFM_WOWL) else mret tt);;
    hw_write8 REG_SYS_PW_CTRL (value .| BIT_PFM_WOWL);;
    hw_write8 REG_SYS_PW_CTRL (value .& .~ BIT_PFM_WOWL);;
    (if bool_decide (chip_id (chip d) = RTW_CHIP_TYPE_8723D)
     then hw_write8 REG_SYS_PW_CTRL (value .| BIT_PFM_WOWL) else mret tt);;
    ok ← do_pwr_poll_cmd (pc_addr c) (pc_mask c) (pc_value c);
    if ok : bool then mret 0 else mret (- EBUSY).

(** Does a step apply to this interface and chip cut? *)
Definition pc_applies (intf_mask cut_mask : Z) (c : rtw_pwr_seq_cmd) : bool :=
  nz (pc_intf_mask c .& intf_mask) && nz (pc_cut_mask c .& cut_mask).

(** One applicable step that is not [RTW_PWR_CMD_END]; 0 to go on. *)
Definition pwr_step (d : rtw_dev) (c : rtw_pwr_seq_cmd) : prog Z :=
  if pc_cmd c =? RTW_PWR_CMD_WRITE then
    value ← hw_read8 (pc_addr c);
    hw_write8 (pc_addr c) ((value .& .~ (pc_mask c)) .| (pc_value c .& pc_mask c));;
    mret 0
  else if pc_cmd c =? RTW_PWR_CMD_POLLING then
    r ← rtw_pwr_cmd_polling d c;
    mret (if nz r then - EBUSY else 0)
  else if pc_cmd c =? RTW_PWR_CMD_DELAY then
    (if pc_value c =? RTW_PWR_DELAY_US then udelay (pc_offset c) else mdelay (pc_offset c));;
    mret 0
  else if pc_cmd c =? RTW_PWR_CMD_READ then mret 0
  else mret (- EINVAL).

(** A table ends with [RTW_PWR_CMD_END]; running past its end is a fault. *)
Fixpoint rtw_sub_pwr_seq_parser (d : rtw_dev) (intf_mask cut_mask : Z)
    (cmd : list rtw_pwr_seq_cmd) : prog Z :=
  match cmd with
  | [] => act Fault
  | c :: rest =>
      if pc_cmd c =? RTW_PWR_CMD_END then mret 0
      else if negb (pc_applies intf_mask cut_mask c) then
        rtw_sub_pwr_seq_parser d intf_mask cut_mask rest
      else
        r ← pwr_step d c;
        if nz r then mret r else rtw_sub_pwr_seq_parser d intf_mask cut_mask rest
  end.

Fixpoint pwr_seq_loop (d : rtw_dev) (intf_mask cut_mask : Z)
    (cmd_seq : list (list rtw_pwr_seq_cmd)) : prog Z :=
  match cmd_seq with
  | [] => mret 0
  | cmd :: rest =>
      ret ← rtw_sub_pwr_seq_parser d intf_mask cut_mask cmd;
      if nz ret then mret ret else pwr_seq_loop d intf_mask cut_mask rest
  end.

Definition intf_mask_of (t : rtw_hci_type) : option Z :=
  match t with
  | RTW_HCI_TYPE_PCIE => Some RTW_PWR_INTF_PCI_MSK
  | RTW_HCI_TYPE_USB => Some RTW_PWR_INTF_USB_MSK
  | RTW_HCI_TYPE_SDIO => Some RTW_PWR_INTF_SDIO_MSK
  | RTW_HCI_TYPE_UNDEFINE => None
  end.

Definition rtw_pwr_seq_parser (d : rtw_dev) (cmd_seq : list (list rtw_pwr_seq_cmd)) : prog Z :=
  let cut_mask := u8 (cut_version_to_mask (cut_version (hal d))) in
  match intf_mask_of (hci_type d) with
  | None => mret (- EINVAL)
  | Some intf_mask => pwr_seq_loop d intf_mask cut_mask cmd_seq
  end.

(** Is the MAC powered, as far as the registers tell? *)
Definition read_cur_pwr (d : rtw_dev) : prog bool :=
  cr ← hw_read8 REG_CR;
  if cr =? 0xea then mret false
  else if bool_decide (hci_type d = RTW_HCI_TYPE_USB)
          && negb (bool_decide (chip_id (chip d) = RTW_CHIP_TYPE_8814A)) then
    s ← hw_read8 (REG_SYS_STATUS1 + 1);
    mret (negb (nz (s .& BIT 0)))
  else mret true.

Definition is_sdio (d : rtw_dev) : bool := bool_decide (hci_type d = RTW_HCI_TYPE_SDIO).
Definition is_usb (d : rtw_dev) : bool := bool_decide (hci_type d = RTW_HCI_TYPE_USB).

(** The switch once the current state is known to differ from [pwr_on]. *)
Definition power_switch_run (d : rtw_dev) (pwr_on : bool) : prog (Z * rtw_dev) :=
  imr ← (if is_sdio d then
           v ← hw_read32 REG_SDIO_HIMR; hw_write32 REG_SDIO_HIMR 0;; mret v
         else mret 0);
  let d := if pwr_on then d else clear_bit RTW_FLAG_POWERON d in
  ret ← rtw_pwr_seq_parser d (if pwr_on then pwr_on_seq (chip d) else pwr_off_seq (chip d));
  (if pwr_on && is_usb d &&
      bool_decide (chip_id (chip d) ∈ [RTW_CHIP_TYPE_8822C; RTW_CHIP_TYPE_8822B; RTW_CHIP_TYPE_8821C])
   then rtw_write8_clr (REG_SYS_STATUS1 + 1) (BIT 0) else mret tt);;
  (if is_sdio d then hw_write32 REG_SDIO_HIMR imr else mret tt);;
  mret (ret, if negb (nz ret) && pwr_on then set_bit RTW_FLAG_POWERON d else d).

Definition rtw_mac_power_switch (d : rtw_dev) (pwr_on : bool) : prog (Z * rtw_dev) :=
  (if rtw_chip_wcpu_3081 d then
     rpwm ← hw_read8 (rpwm_addr d);
     fw ← hw_read16 REG_MCUFW_CTRL;
     if fw =? 0xC078
     then hw_write8 (rpwm_addr d) ((rpwm .^ BIT_RPWM_TOGGLE) .& BIT_RPWM_TOGGLE)
     else mret tt
   else mret tt);;
  cur_pwr ← read_cur_pwr d;
  if Bool.eqb pwr_on cur_pwr then mret (- EALREADY, d)
  else power_switch_run d pwr_on.

Definition rtw_mac_init_system_cfg (d : rtw_dev) : prog Z :=
  value ← hw_read32 REG_CPU_DMEM_CON;
  hw_write32 REG_CPU_DMEM_CON (value .| (BIT_WL_PLATFORM_RST .| BIT_DDMA_EN));;
  rtw_write8_set (REG_SYS_FUNC_EN + 1) (chip_sys_func_en (chip d));;
  v ← hw_read8 (REG_CR_EXT + 3);
  hw_write8 (REG_CR_EXT + 3) ((v .& 0xF0) .| 0x0C);;
  tmp ← hw_read32 REG_MCUFW_CTRL;
  (if nz (tmp .& BIT_BOOT_FSPI_EN) then
     hw_write32 REG_MCUFW_CTRL (tmp .& .~ BIT_BOOT_FSPI_EN);;
     v ← hw_read32 REG_GPIO_MUXCFG;
     hw_write32 REG_GPIO_MUXCFG (v .& .~ BIT_FSPI_EN)
   else mret tt);;
  mret 0.

Definition rtw_mac_power_on (d : rtw_dev) : prog (Z * rtw_dev) :=
  ret ← rtw_mac_pre_system_cfg d;
  if nz ret then mret (ret, d) else
  '(ret, d) ← rtw_mac_power_switch d true;
  if ret =? - EALREADY then
    '(_, d) ← rtw_mac_power_switch d false;
    ret ← rtw_mac_pre_system_cfg d;
    if nz ret then mret (ret, d) else
    '(ret, d) ← rtw_mac_power_switch d true;
    if nz ret then mret (ret, d) else
    ret ← rtw_mac_init_system_cfg d; mret (ret, d)
  else if nz ret then mret (ret, d)
  else ret ← rtw_mac_init_system_cfg d; mret (ret, d).

Definition rtw_mac_power_off (d : rtw_dev) : prog rtw_dev :=
  '(_, d) ← rtw_mac_power_switch d false; mret d.

(** ** Theorems *)

(** *** Register safety *)

(** The PCIe device of this driver: an RTL8821C with its own flows. *)
Record pcie_8821c (d : rtw_dev) : Prop := {
  p8_hci : hci_type d = RTW_HCI_TYPE_PCIE;
  p8_on : pwr_on_seq (chip d) = card_enable_flow_8821c;
  p8_off : pwr_off_seq (chip d) = card_disable_flow_8821c;
  p8_id : chip_id (chip d) = RTW_CHIP_TYPE_8821C;
  p8_rpwm : rpwm_addr d = 0x03d9;
}.

(** The calls the power code may make: accesses inside the first 8 KB of the
    register window, no write to a ring register, and delays.  The SDIO window
    is far outside. *)
Definition pwr_call (o : hwop) : bool :=
  match o with
  | Read w a => (0 <=? a) && (a + bytes_of w <=? 0x2000)
  | Write w a _ => (0 <=? a) && (a + bytes_of w <=? 0x2000) && negb (ring_reg w a)
  | Udelay _ => true
  | _ => false
  end.

Fixpoint pcie_table_ok (t : list rtw_pwr_seq_cmd) : bool :=
  match t with
  | [] => false
  | c :: t =>
      (pc_cmd c =? RTW_PWR_CMD_END) ||
      ((negb (nz (pc_intf_mask c .& RTW_PWR_INTF_PCI_MSK)) || pwr_call (Write W8 (pc_addr c) 0))
       && pcie_table_ok t)
  end.

Lemma do_pwr_poll_cmd_safe a m t :
  pwr_call (Read W8 a) = true -> safe pwr_call (do_pwr_poll_cmd a m t) (fun _ => True).
Proof.
  intros Ha. unfold do_pwr_poll_cmd, read_poll_timeout_atomic.
  apply safe_bind_any; [|by safe_go]. apply safe_poll_loop; [by apply safe_read8|done].
Qed.

Lemma pwr_call_read w a v : pwr_call (Write w a v) = true -> pwr_call (Read w a) = true.
Proof. cbn. by intros [? _]%andb_true_iff. Qed.

Lemma rtw_pwr_cmd_polling_safe d c :
  pwr_call (Read W8 (pc_addr c)) = true ->
  safe pwr_call (rtw_pwr_cmd_polling d c) (fun _ => True).
Proof.
  intros Hc. unfold rtw_pwr_cmd_polling.
  apply safe_bind_any; [by apply do_pwr_poll_cmd_safe|]. intros [].
  { by safe_go. }
  destruct (negb _); [by safe_go|].
  repeat (apply safe_bind_any; [by safe_go|intros ?]).
  apply safe_bind_any; [by apply do_pwr_poll_cmd_safe|]. by safe_go.
Qed.

Lemma pwr_step_safe d c :
  pwr_call (Write W8 (pc_addr c) 0) = true -> safe pwr_call (pwr_step d c) (fun _ => True).
Proof.
  intros Hw. pose proof (pwr_call_read _ _ _ Hw) as Hc. unfold pwr_step. destruct (_ =? _).
  { apply safe_bind_any; [by apply safe_read8|]. intros v.
    apply safe_bind_any; [by apply safe_write8|]. by safe_go. }

  destruct (_ =? _).
  { apply safe_bind_any; [by apply rtw_pwr_cmd_polling_safe|]. by safe_go. }
  by safe_go.
Qed.

Lemma sub_parser_safe d cut t :
  pcie_table_ok t = true ->
  safe pwr_call (rtw_sub_pwr_seq_parser d RTW_PWR_INTF_PCI_MSK cut t) (fun _ => True).
Proof.
  induction t as [|c t IH]; [done|]. cbn [pcie_table_ok rtw_sub_pwr_seq_parser].
  destruct (pc_cmd c =? RTW_PWR_CMD_END); [by safe_go|]. cbn [orb]. intros [Hc Ht]%andb_true_iff.
  unfold pc_applies. destruct (nz (pc_intf_mask c .& _)) eqn:Hi; [|by apply IH].
  destruct (nz (pc_cut_mask c .& cut)); [|by apply IH]. cbn [negb andb].
  apply safe_bind_any; [by apply pwr_step_safe|].
  intros r. destruct (nz r); [by safe_go|by apply IH].
Qed.

Lemma pwr_seq_loop_safe d cut ts :
  forallb pcie_table_ok ts = true ->
  safe pwr_call (pwr_seq_loop d RTW_PWR_INTF_PCI_MSK cut ts) (fun _ => True).
Proof.
  induction ts as [|t ts IH]; [by safe_go|]. cbn [forallb pwr_seq_loop].
  intros [Ht Hts]%andb_true_iff. apply safe_bind_any; [by apply sub_parser_safe|].
  intros r. destruct (nz r); [by safe_go|by apply IH].
Qed.

Lemma parser_safe d seqs :
  pcie_8821c d -> seqs = pwr_on_seq (chip d) \/ seqs = pwr_off_seq (chip d) ->
  safe pwr_call (rtw_pwr_seq_parser d seqs) (fun _ => True).
Proof.
  intros Hd Hs. unfold rtw_pwr_seq_parser. rewrite (p8_hci d Hd).
  rewrite (p8_on d Hd), (p8_off d Hd) in Hs.
  apply pwr_seq_loop_safe. by destruct Hs; subst.
Qed.

Lemma pre_system_cfg_safe d :
  pcie_8821c d -> safe pwr_call (rtw_mac_pre_system_cfg d) (fun _ => True).
Proof.
  intros Hd. unfold rtw_mac_pre_system_cfg, pre_system_cfg_tail. rewrite (p8_hci d Hd). by safe_go.
Qed.

Lemma pcie_8821c_flags f d : pcie_8821c d -> pcie_8821c (set_flags f d).
Proof. intros [? ? ? ? ?]. by constructor. Qed.

Lemma pcie_not_sdio d : pcie_8821c d -> is_sdio d = false.
Proof. intros Hd. unfold is_sdio. by rewrite (p8_hci d Hd). Qed.
Lemma pcie_not_usb d : pcie_8821c d -> is_usb d = false.
Proof. intros Hd. unfold is_usb. by rewrite (p8_hci d Hd). Qed.

Lemma power_switch_run_safe d on :
  pcie_8821c d -> safe pwr_call (power_switch_run d on) (fun x => pcie_8821c x.2 /\ exists f, x.2 = set_flags f d).
Proof.
  intros Hd. unfold power_switch_run. rewrite (pcie_not_sdio d Hd).
  apply safe_bind_any; [by safe_go|]. intros imr. cbv zeta.
  assert (Hd' : pcie_8821c (if on then d else clear_bit RTW_FLAG_POWERON d))
    by (destruct on; [done|by apply pcie_8821c_flags]).
  apply safe_bind_any; [destruct on; apply parser_safe; auto|].
  intros ret. rewrite (pcie_not_usb _ Hd'), (pcie_not_sdio _ Hd'), andb_false_r. cbn [andb].
  do 2 (apply safe_bind_any; [by safe_go|intros _]).
  apply safe_ret. simpl. split; [destruct (_ && _); [by apply pcie_8821c_flags|done]|].
  destruct (_ && _), on; try by eexists. by exists (flags d); destruct d.
Qed.

Lemma power_switch_safe d on :
  pcie_8821c d -> safe pwr_call (rtw_mac_power_switch d on) (fun x => pcie_8821c x.2 /\ exists f, x.2 = set_flags f d).
Proof.
  intros Hd. unfold rtw_mac_power_switch, read_cur_pwr. rewrite (p8_hci d Hd).
  pose proof (p8_rpwm d Hd) as Hr.
  apply safe_bind_any.
  { rewrite Hr.
    destruct (rtw_chip_wcpu_3081 d); [|by safe_go].
    apply safe_bind_any; [by apply safe_read8|intros v].
    apply safe_bind_any; [by apply safe_read16|intros f].
    destruct (f =? _); [by apply safe_write8|by safe_go]. }
  intros _. apply safe_bind_any; [by safe_go|].
  intros cur. destruct (Bool.eqb on cur); [|by apply power_switch_run_safe].
  apply safe_ret. split; [done|]. by exists (flags d); destruct d.
Qed.

Lemma power_switch_keeps d on :
  pcie_8821c d -> safe any_call (rtw_mac_power_switch d on) (fun x => pcie_8821c x.2).
Proof. intros Hd. by eapply safe_weaken; [apply power_switch_safe| |intros x []]. Qed.

Lemma init_system_cfg_safe d : safe pwr_call (rtw_mac_init_system_cfg d) (fun r => r = 0).
Proof. unfold rtw_mac_init_system_cfg. by safe_go. Qed.

Lemma power_on_calls d : pcie_8821c d -> safe pwr_call (rtw_mac_power_on d) (fun x => exists f, x.2 = set_flags f d).
Proof.
  intros Hd. unfold rtw_mac_power_on.
  apply safe_bind_any; [by apply pre_system_cfg_safe|]. intros r. destruct (nz r); [apply safe_ret; by eexists (flags d); destruct d|].
  eapply safe_bind; [by apply power_switch_safe|]. intros [r1 d1] [Hd1 [f1 E1]]. cbn in Hd1, E1.
  assert (Hinit : forall f, safe pwr_call
    (ret ← rtw_mac_init_system_cfg (set_flags f d); mret (ret, set_flags f d)) (fun x => exists f, x.2 = set_flags f d)).
  { intros f. apply safe_bind_any; [|intros ?; apply safe_ret; by eexists].
    eapply safe_mono; [apply init_system_cfg_safe|done]. }
  subst d1. destruct (r1 =? _); [|destruct (nz r1); [apply safe_ret; by eexists|apply Hinit]].
  eapply safe_bind; [by apply power_switch_safe|]. intros [r2 d2] [Hd2 [f2 E2]]. cbn in Hd2, E2. subst d2.
  apply safe_bind_any; [by apply pre_system_cfg_safe|]. intros r3. destruct (nz r3); [apply safe_ret; by eexists|].
  eapply safe_bind; [by apply power_switch_safe|]. intros [r4 d4] [Hd4 [f4 E4]]. cbn in E4. subst d4.
  destruct (nz r4); [apply safe_ret; by eexists|apply Hinit].
Qed.

(** On a PCIe 8821C the power-on sequence, whatever the chip answers, only
    accesses registers in the first 8 KB of the register window, never an
    SDIO-window register, never writes a register of the DMA rings, and never
    runs past the end of a power table; of the device record it changes the
    flags only. *)
Theorem rtw_mac_power_on_safe (d : rtw_dev) :
  pcie_8821c d ->
  forall (W : Type) (dev : Device W) (w : W),
    let run := exec (rtw_mac_power_on d) w in
    Forall (fun o => pwr_call o = true) (ops run) /\ exists f, (result run).2 = set_flags f d.
Proof. intros Hd W dev w run. apply (safe_exec pwr_call _ w _ (power_on_calls d Hd)). Qed.

(** *** The power flag *)

Definition powered (d : rtw_dev) : bool := test_bit RTW_FLAG_POWERON d.

Lemma powered_set d : powered (set_bit RTW_FLAG_POWERON d) = true.
Proof. by apply test_set_bit. Qed.
Lemma powered_clear d : powered (clear_bit RTW_FLAG_POWERON d) = false.
Proof. by apply test_clear_bit. Qed.

(** What one switch does to the flag. *)
Lemma power_switch_flag d on :
  powered d = false ->
  safe any_call (rtw_mac_power_switch d on)
    (fun '(ret, d') => powered d' = ((ret =? 0) && on)%bool).
Proof.
  intros Hd. unfold rtw_mac_power_switch.
  apply safe_bind_any; [apply safe_any|]. intros _.
  apply safe_bind_any; [apply safe_any|]. intros cur.
  destruct (Bool.eqb on cur); [by apply safe_ret|].
  unfold power_switch_run. apply safe_bind_any; [apply safe_any|]. intros imr. cbv zeta.
  set (d1 := if on then d else _).
  assert (Hd1 : powered d1 = false) by (unfold d1; destruct on; [done|apply powered_clear]).
  apply safe_bind_any; [apply safe_any|]. intros ret.
  do 2 (apply safe_bind_any; [apply safe_any|intros _]).
  apply safe_ret. unfold nz. rewrite negb_involutive.
  destruct (ret =? 0), on; simpl; by rewrite ?powered_set.
Qed.

Lemma pre_system_cfg_ret d :
  safe any_call (rtw_mac_pre_system_cfg d) (fun ret => ret = 0 \/ ret = - ETIMEDOUT \/ ret = - EINVAL).
Proof.
  assert (Ht : safe any_call pre_system_cfg_tail
                 (fun ret => ret = 0 \/ ret = - ETIMEDOUT \/ ret = - EINVAL)).
  { unfold pre_system_cfg_tail.
    repeat (apply safe_bind_any; [apply safe_any|intros ?]). apply safe_ret; auto. }
  unfold rtw_mac_pre_system_cfg. apply safe_bind_any; [apply safe_any|]. intros _.
  destruct (rtw_chip_wcpu_8051 d).
  { repeat (apply safe_bind_any; [apply safe_any|intros ?]). apply safe_ret; auto. }
  destruct (hci_type d); [by apply safe_bind_any; [apply safe_any|]|done| |by apply safe_ret; auto].
  apply safe_bind_any; [apply safe_any|]. intros _.
  apply safe_bind_any; [apply safe_any|]. intros []; [|by apply safe_ret; auto].
  by apply safe_bind_any; [apply safe_any|].
Qed.

Lemma init_system_cfg_ret d : safe any_call (rtw_mac_init_system_cfg d) (fun r => r = 0).
Proof.
  unfold rtw_mac_init_system_cfg.
  repeat (apply safe_bind_any; [apply safe_any|intros ?]). by apply safe_ret.
Qed.

(** Whatever the chip answers, power-on started with the power flag clear
    ends with the flag set exactly when it reports success. *)
Theorem rtw_mac_power_on_flag (d : rtw_dev) :
  test_bit RTW_FLAG_POWERON d = false ->
  forall (W : Type) (dev : Device W) (w : W),
    let '(ret, d') := result (exec (rtw_mac_power_on d) w) in
    test_bit RTW_FLAG_POWERON d' = (ret =? 0).
Proof.
  intros Hd W dev w.
  assert (Hs : safe any_call (rtw_mac_power_on d) (fun '(ret, d') => powered d' = (ret =? 0)));
    [|by apply (safe_exec _ _ _ _ Hs)].
  assert (Hz : forall ret d', nz ret = true -> powered d' = false ->
                powered d' = (ret =? 0)) by (unfold nz; intros ret d'; by destruct (ret =? 0)).
  assert (Hinit : forall ret d', nz ret = false -> powered d' = ((ret =? 0) && true)%bool ->
    safe any_call (ret ← rtw_mac_init_system_cfg d'; mret (ret, d'))
      (fun '(ret, d') => powered d' = (ret =? 0))).
  { intros ret d' Hr Hp. eapply safe_bind; [apply init_system_cfg_ret|].
    intros r ->. apply safe_ret. unfold nz in Hr. by destruct (ret =? 0). }
  unfold rtw_mac_power_on. apply safe_bind_any; [apply safe_any|]. intros r.
  destruct (nz r) eqn:Hr; [by apply safe_ret, Hz|].
  eapply safe_bind; [by apply power_switch_flag|]. intros [r1 d1] H1. cbn in H1.
  destruct (Z.eqb_spec r1 (- EALREADY)) as [->|].
  - eapply safe_bind; [by apply (power_switch_flag d1 false)|]. intros [r2 d2] H2. cbn in H2.
    rewrite andb_false_r in H2. apply safe_bind_any; [apply safe_any|]. intros r3.
    destruct (nz r3) eqn:Hr3; [by apply safe_ret, Hz|].
    eapply safe_bind; [by apply power_switch_flag|]. intros [r4 d4] H4. cbn in H4.
    destruct (nz r4) eqn:Hr4; [|by eapply Hinit].
    apply safe_ret, Hz; [done|]. unfold nz in Hr4. by destruct (r4 =? 0).
  - destruct (nz r1) eqn:Hr1; [|by eapply Hinit].
    apply safe_ret, Hz; [done|]. unfold nz in Hr1. by destruct (r1 =? 0).
Qed.

(** *** Only applicable steps count *)

(** A table with the steps of other interfaces and cuts removed. *)
Definition applicable (intf cut : Z) (t : list rtw_pwr_seq_cmd) : list rtw_pwr_seq_cmd :=
  filter (fun c => (pc_cmd c =? RTW_PWR_CMD_END) || pc_applies intf cut c) t.

(** Parsing a table is parsing the sub-table of its applicable steps: a step
    for another interface or another chip cut makes no hardware access at all. *)
Theorem sub_pwr_seq_parser_filter (d : rtw_dev) (intf cut : Z) (t : list rtw_pwr_seq_cmd) :
  rtw_sub_pwr_seq_parser d intf cut t
  ≡ rtw_sub_pwr_seq_parser d intf cut (applicable intf cut t).
Proof.
  unfold applicable. induction t as [|c t IH]; [done|].
  rewrite filter_cons. cbn [rtw_sub_pwr_seq_parser].
  destruct (pc_cmd c =? RTW_PWR_CMD_END) eqn:He; cbn [orb].
  { rewrite decide_True by done. cbn [rtw_sub_pwr_seq_parser]. by rewrite He. }
  destruct (pc_applies intf cut c) eqn:Ha; cbn [negb].
  - rewrite decide_True by done. cbn [rtw_sub_pwr_seq_parser]. rewrite He, Ha. cbn [negb].
    apply prog_bind_proper; [|done]. intros r. by destruct (nz r).
  - by rewrite decide_False by (by intros ?).
Qed.

(** The PCIe steps of the enable flow, the same for every cut up to 6. *)
Lemma pcie_enable_steps cut :
  0 <= cut <= 6 ->
  map (fun t => length (applicable RTW_PWR_INTF_PCI_MSK (u8 (cut_version_to_mask cut)) t))
    card_enable_flow_8821c = [4; 16]%nat.
Proof.
  intros Hc. assert (cut = 0 \/ cut = 1 \/ cut = 2 \/ cut = 3 \/ cut = 4 \/ cut = 5 \/ cut = 6)
    as Hcs by lia. repeat destruct Hcs as [->|Hcs]; try subst; reflexivity.
Qed.

(** *** The effect of a write step *)

(** A write step reads its register once and writes it once; the bits under
    the step's mask take the step's value and the other bits keep what was read. *)
Theorem pwr_step_write_bits (d : rtw_dev) (c : rtw_pwr_seq_cmd) :
  pc_cmd c = RTW_PWR_CMD_WRITE ->
  forall (W : Type) (dev : Device W) (w : W),
    exists old new,
      trace (exec (pwr_step d c) w) = [Ev (Read W8 (pc_addr c)) old; Ev (Write W8 (pc_addr c) new) tt]
      /\ result (exec (pwr_step d c) w) = 0
      /\ forall i, 0 <= i < 8 ->
           Z.testbit new i = if Z.testbit (pc_mask c) i then Z.testbit (pc_value c) i
                             else Z.testbit old i.
Proof.
  intros Hc W dev w. unfold pwr_step. rewrite Hc. cbn.
  destruct (dev_step (Read W8 (pc_addr c)) w) as [r w1]. cbn in r |- *.
  destruct (dev_step _ w1) as [[] w2]. cbn.
  eexists r, _; split_and!; [done|done|]. intros i Hi.
  rewrite wrap_testbit, Z.lor_spec, !Z.land_spec, Z.lnot_spec, wrap_testbit by lia.
  destruct (Z.leb_spec 0 i), (Z.ltb_spec i 8); try lia. cbn [andb].
  destruct (Z.testbit r i), (Z.testbit (pc_mask c) i), (Z.testbit (pc_value c) i); done.
Qed.

(** *** Time *)

Definition step_delay (c : rtw_pwr_seq_cmd) : Z :=
  if pc_cmd c =? RTW_PWR_CMD_POLLING then 2000000
  else if pc_cmd c =? RTW_PWR_CMD_DELAY then
    (if pc_value c =? RTW_PWR_DELAY_US then Z.max 1 (pc_offset c) else 1000 * Z.max 1 (pc_offset c))
  else 0.

Fixpoint table_delay (intf : Z) (t : list rtw_pwr_seq_cmd) : Z :=
  match t with
  | [] => 0
  | c :: t =>
      if pc_cmd c =? RTW_PWR_CMD_END then 0
      else (if nz (pc_intf_mask c .& intf) then step_delay c else 0) + table_delay intf t
  end.

Lemma do_pwr_poll_cmd_delay a m t : cost_le delay_us (do_pwr_poll_cmd a m t) 1000000.
Proof.
  unfold do_pwr_poll_cmd, read_poll_timeout_atomic.
  apply (cost_bind _ _ _ _ 1000000 0); [|intros; by cost_go|lia].
  apply (cost_poll_loop _ _ 50 1000000 ltac:(lia) ltac:(lia) (cost_read8 a) _ 0 20000); lia.
Qed.

Lemma rtw_pwr_cmd_polling_delay d c : cost_le delay_us (rtw_pwr_cmd_polling d c) 2000000.
Proof.
  unfold rtw_pwr_cmd_polling.
  apply (cost_bind _ _ _ _ 1000000 1000000); [apply do_pwr_poll_cmd_delay| |lia].
  intros []; [by apply cost_ret|]. destruct (negb _); [by apply cost_ret|].
  do 5 (apply cost_bind0; [by cost_go|intros ?]).
  apply (cost_bind _ _ _ _ 1000000 0); [apply do_pwr_poll_cmd_delay| |lia].
  intros []; by apply cost_ret.
Qed.

Lemma pwr_step_delay d c : cost_le delay_us (pwr_step d c) (step_delay c).
Proof.
  unfold pwr_step, step_delay.
  destruct (Z.eqb_spec (pc_cmd c) RTW_PWR_CMD_WRITE) as [->|]; [|].
  { by apply (cost_mono _ _ 0); [cost_go|]. }
  destruct (pc_cmd c =? RTW_PWR_CMD_POLLING).
  { apply (cost_bind _ _ _ _ 2000000 0); [apply rtw_pwr_cmd_polling_delay|by cost_go|lia]. }
  destruct (pc_cmd c =? RTW_PWR_CMD_DELAY); [|by cost_go].
  destruct (pc_value c =? RTW_PWR_DELAY_US);
    (eapply cost_bind with (t2 := 0); [apply cost_udelay || apply cost_mdelay|intros; by apply cost_ret|lia]).
Qed.

Lemma sub_parser_delay d intf cut t :
  cost_le delay_us (rtw_sub_pwr_seq_parser d intf cut t) (table_delay intf t).
Proof.
  assert (Hs : forall c, 0 <= step_delay c) by (intros c; unfold step_delay; repeat case_bool; lia).
  assert (Hn : forall t, 0 <= table_delay intf t).
  { intros u. induction u as [|c u IH]; simpl; [done|]. specialize (Hs c).
    destruct (pc_cmd c =? _), (nz (pc_intf_mask c .& intf)); lia. }
  induction t as [|c t IH]; [by apply (cost_op0 Fault)|]. cbn [rtw_sub_pwr_seq_parser table_delay].
  destruct (pc_cmd c =? RTW_PWR_CMD_END); [by apply cost_ret|].
  unfold pc_applies. specialize (Hs c).
  destruct (nz (pc_intf_mask c .& intf)); cbn [andb negb]; [|by rewrite Z.add_0_l].
  destruct (nz (pc_cut_mask c .& cut)); cbn [negb]; [|eapply cost_mono; [apply IH|lia]].
  eapply cost_bind; [apply pwr_step_delay| |done].
  intros r. destruct (nz r); [by apply cost_ret|apply IH].
Qed.

Definition flow_delay (intf : Z) (ts : list (list rtw_pwr_seq_cmd)) : Z :=
  foldr Z.add 0 (map (fun t => Z.max 0 (table_delay intf t)) ts).

Lemma flow_delay_delay d intf cut ts :
  cost_le delay_us (pwr_seq_loop d intf cut ts) (flow_delay intf ts).
Proof.
  unfold flow_delay. induction ts as [|t ts IH]; [by apply cost_ret|]. cbn [pwr_seq_loop map foldr].
  eapply cost_bind; [eapply cost_mono; [apply sub_parser_delay|apply Z.le_max_r]| |done].
  intros r. destruct (nz r); [|apply IH]. apply cost_ret.
  clear. induction ts; simpl; lia.
Qed.

(** Two PCIe polls in the enable flow, one in the disable flow. *)
Lemma power_switch_delay d on :
  pcie_8821c d ->
  cost_le delay_us (rtw_mac_power_switch d on) (if on then 4000000 else 2000000).
Proof.
  intros Hd. unfold rtw_mac_power_switch, read_cur_pwr. rewrite (p8_hci d Hd).
  apply cost_bind0; [by cost_go|]. intros _. apply cost_bind0; [by cost_go|]. intros cur.
  destruct (Bool.eqb on cur); [by destruct on; apply cost_ret|].
  unfold power_switch_run. rewrite (pcie_not_sdio d Hd).
  apply cost_bind0; [by cost_go|]. intros imr. cbv zeta.
  assert (Hd' : pcie_8821c (if on then d else clear_bit RTW_FLAG_POWERON d))
    by (destruct on; [done|by apply pcie_8821c_flags]).
  eapply cost_bind with (t2 := 0); [| |by rewrite Z.add_0_r].
  - unfold rtw_pwr_seq_parser. rewrite (p8_hci _ Hd').
    eapply cost_mono; [apply flow_delay_delay|].
    destruct on; [rewrite (p8_on _ Hd')|rewrite (p8_off _ Hd')]; by vm_compute.
  - intros ret. rewrite (pcie_not_usb _ Hd'), (pcie_not_sdio _ Hd'), andb_false_r. cbn [andb].
    by cost_go.
Qed.

Lemma pre_system_cfg_delay d : pcie_8821c d -> cost_le delay_us (rtw_mac_pre_system_cfg d) 0.
Proof.
  intros Hd. unfold rtw_mac_pre_system_cfg, pre_system_cfg_tail. rewrite (p8_hci d Hd). by cost_go.
Qed.
Lemma init_system_cfg_delay d : cost_le delay_us (rtw_mac_init_system_cfg d) 0.
Proof. unfold rtw_mac_init_system_cfg. by cost_go. Qed.

(** C39: power-on of a PCIe 8821C finishes after at most ten seconds of delays
    whatever the chip answers, counting the failed first attempt, the power-off
    and the second attempt (every poll of the flows is bounded). *)
Theorem rtw_mac_power_on_time (d : rtw_dev) :
  pcie_8821c d ->
  forall (W : Type) (dev : Device W) (w : W),
    total delay_us (ops (exec (rtw_mac_power_on d) w)) <= 10000000.
Proof.
  intros Hd W dev w. apply cost_exec. unfold rtw_mac_power_on.
  assert (Hinit : forall d' t, 0 <= t -> cost_le delay_us
    (ret ← rtw_mac_init_system_cfg d'; mret (ret, d')) t).
  { intros d' t Ht. apply cost_bind0; [apply init_system_cfg_delay|]. intros; by apply cost_ret. }
  apply cost_bind0; [by apply pre_system_cfg_delay|]. intros r. destruct (nz r); [by apply cost_ret|].
  apply (cost_bind_post delay_us (fun x => pcie_8821c x.2) _ _ _ 4000000 6000000);
    [by apply (power_switch_delay d true)|by apply power_switch_keeps| |lia].
  intros [r1 d1] Hd1. destruct (r1 =? _); [|destruct (nz r1); [by apply cost_ret|by apply Hinit]].
  apply (cost_bind_post delay_us (fun x => pcie_8821c x.2) _ _ _ 2000000 4000000);
    [by apply (power_switch_delay d1 false)|by apply power_switch_keeps| |lia].
  intros [r2 d2] Hd2. apply cost_bind0; [by apply pre_system_cfg_delay|].
  intros r3. destruct (nz r3); [by apply cost_ret|].
  apply (cost_bind _ _ _ _ 4000000 0); [by apply (power_switch_delay d2 true)| |lia].
  intros [r4 d4]. destruct (nz r4); [by apply cost_ret|by apply Hinit].
Qed.

(** ** Witnesses *)

(** A PCIe 8821C whose register file starts out all zero. *)
Definition dev_example : rtw_dev := example_dev card_enable_flow_8821c card_disable_flow_8821c.

Lemma dev_example_ok : pcie_8821c dev_example.
Proof. by constructor. Qed.

Lemma rtw_mac_power_on_safe_witness :
  pcie_8821c dev_example /\
  Forall (fun o => pwr_call o = true) (ops (exec (rtw_mac_power_on dev_example) (∅ : regfile))).
Proof. split; [apply dev_example_ok|apply (rtw_mac_power_on_safe dev_example dev_example_ok)]. Defined.

Lemma rtw_mac_power_on_flag_witness :
  test_bit RTW_FLAG_POWERON dev_example = false /\
  let '(ret, d') := result (exec (rtw_mac_power_on dev_example) (∅ : regfile)) in
  test_bit RTW_FLAG_POWERON d' = (ret =? 0).
Proof. split; [done|]. by apply (rtw_mac_power_on_flag dev_example). Defined.

Lemma pwr_step_write_bits_witness :
  let c := PwrCmd 0x5 0xff 0xff RTW_PWR_ADDR_MAC RTW_PWR_CMD_WRITE 0x80 0 in
  exists old new,
    trace (exec (pwr_step dev_example c) (<[5 := 0xff]> ∅ : regfile))
      = [Ev (Read W8 5) old; Ev (Write W8 5 new) tt]
    /\ result (exec (pwr_step dev_example c) (<[5 := 0xff]> ∅ : regfile)) = 0
    /\ forall i, 0 <= i < 8 ->
         Z.testbit new i = if Z.testbit 0x80 i then Z.testbit 0 i else Z.testbit old i.
Proof.
  exact (pwr_step_write_bits dev_example
           (PwrCmd 0x5 0xff 0xff RTW_PWR_ADDR_MAC RTW_PWR_CMD_WRITE 0x80 0)
           eq_refl regfile _ (<[5 := 0xff]> ∅)).
Defined.

Lemma rtw_mac_power_on_time_witness :
  pcie_8821c dev_example /\
  total delay_us (ops (exec (rtw_mac_power_on dev_example) (∅ : regfile))) <= 10000000.
Proof. split; [apply dev_example_ok|apply (rtw_mac_power_on_time dev_example dev_example_ok)]. Defined.
