(* ===== verification/Efuse.v ===== *)
(** * Efuse: reading and decoding the chip EFUSE (core/efuse.c)

    The physical dump drives REG_EFUSE_CTRL under an access grant; the logical
    map is decoded from run-length packets; the board fields are extracted from
    fixed offsets.  Proved: the decoder never leaves its buffers and inverts a
    reference encoder, the grant is always given back, and the read either fails
    with the device untouched or fills in exactly the decoded fields. *)
From S2P Require Import Prelude Hw Regs Dev.

Definition EF_OFF_CHANNEL_PLAN : Z := 0xB8.
Definition EF_OFF_XTAL_K : Z := 0xB9.
Definition EF_OFF_RF_BOARD_OPT : Z := 0xC1.
Definition EF_OFF_RFE_OPTION : Z := 0xCA.
Definition EF_OFF_MAC_PCIE : Z := 0xD0.
Definition EFUSE_READ_FAIL : Z := 0xff.

(** ** The physical dump *)

Definition cfg_ldo25 (enable : bool) : prog unit :=
  ldo_pwr ← hw_read8 (REG_LDO_EFUSE_CTRL + 3);
  hw_write8 (REG_LDO_EFUSE_CTRL + 3)
    (if enable then ldo_pwr .| BIT 7 else ldo_pwr .& .~ (BIT 7)).

Definition grant_on : prog unit := hw_write8 REG_EFUSE_ACCESS EFUSE_ACCESS_ON.
Definition grant_off : prog unit := hw_write8 REG_EFUSE_ACCESS 0.
Definition switch_efuse_bank : prog unit :=
  rtw_write32_mask REG_LDO_EFUSE_CTRL BIT_MASK_EFUSE_BANK_SEL 0.

(** The [do ... while] on BIT_EF_FLAG, [cnt] tries left; the count is tested
    before the flag. *)
Fixpoint efuse_wait (cnt : nat) : prog (option Z) :=
  match cnt with
  | O => mret None
  | S cnt =>
      udelay 1;;
      efuse_ctl ← hw_read32 REG_EFUSE_CTRL;
      match cnt with
      | O => grant_off;; mret None
      | _ => if negb (nz (efuse_ctl .& BIT_EF_FLAG)) then efuse_wait cnt
             else mret (Some efuse_ctl)
      end
  end.
Definition efuse_tries : nat := Z.to_nat 1000000.

(** The address loop; [map] holds the bytes read so far. *)
Fixpoint dump_physical_loop (n : nat) (addr efuse_ctl : Z) (map : list Z)
    : prog (Z * list Z) :=
  match n with
  | O => grant_off;; mret (0, map)
  | S n =>
      let ctl := (efuse_ctl .& .~ (BIT_MASK_EF_DATA .| BITS_EF_ADDR))
                 .| ((addr .& BIT_MASK_EF_ADDR) << BIT_SHIFT_EF_ADDR) in
      hw_write32 REG_EFUSE_CTRL (ctl .& .~ BIT_EF_FLAG);;
      r ← efuse_wait efuse_tries;
      match r with
      | None => mret (- EBUSY, map)
      | Some ctl => dump_physical_loop n (addr + 1) ctl (map ++ [u8 (ctl .& BIT_MASK_EF_DATA)])
      end
  end.

Definition dump_physical_efuse_map (d : rtw_dev) : prog (Z * list Z) :=
  grant_on;;
  switch_efuse_bank;;
  cfg_ldo25 false;;
  efuse_ctl ← hw_read32 REG_EFUSE_CTRL;
  dump_physical_loop (Z.to_nat (phy_efuse_size (chip d))) 0 efuse_ctl [].

(** ** The logical decoder; [None] is an access outside a buffer *)

Definition invalid_efuse_header (hdr1 hdr2 : Z) : bool :=
  (hdr1 =? 0xff) || (((hdr1 .& 0x1f) =? 0xf) && (hdr2 =? 0xff)).
Definition invalid_efuse_content (word_en i : Z) : bool := nz (word_en .& BIT i).
Definition get_efuse_blk_idx_2_byte (hdr1 hdr2 : Z) : Z :=
  ((hdr2 .& 0xf0) >> 1) .| ((hdr1 >> 5) .& 0x07).
Definition get_efuse_blk_idx_1_byte (hdr1 : Z) : Z := (hdr1 .& 0xf0) >> 4.
Definition block_idx_to_logical_idx (blk_idx i : Z) : Z := (blk_idx << 3) + (i << 1).

(** The word loop from word [i]; [inr] is the -EINVAL return. *)
Fixpoint efuse_words (n : nat) (i : Z) (lim logical_size : Z) (phy_map : list Z)
    (blk_idx word_en phy_idx : Z) (log_map : list Z) : option (Z * list Z + Z * list Z) :=
  match n with
  | O => Some (inl (phy_idx, log_map))
  | S n =>
      if invalid_efuse_content word_en i then
        efuse_words n (i + 1) lim logical_size phy_map blk_idx word_en phy_idx log_map
      else
        let log_idx := u32 (block_idx_to_logical_idx blk_idx i) in
        if (lim <? u32 (phy_idx + 1)) || (logical_size <? u32 (log_idx + 1))
        then Some (inr (- EINVAL, log_map))
        else
          b0 ← rd phy_map phy_idx;
          log_map ← wr log_map log_idx b0;
          b1 ← rd phy_map (u32 (phy_idx + 1));
          log_map ← wr log_map (u32 (log_idx + 1)) b1;
          efuse_words n (i + 1) lim logical_size phy_map blk_idx word_en (u32 (phy_idx + 2)) log_map
  end.

(** The packet loop.  Each round consumes at least a byte, so [physical_size]
    rounds are enough ([dump_logical_in_bounds] shows the fuel never runs out). *)
Fixpoint dump_logical_loop (fuel : nat) (lim logical_size : Z) (phy_map : list Z)
    (phy_idx : Z) (log_map : list Z) : option (Z * list Z) :=
  match fuel with
  | O => None
  | S fuel =>
      if lim <=? phy_idx then Some (0, log_map) else
      hdr1 ← rd phy_map phy_idx;
      hdr2 ← rd phy_map (u32 (phy_idx + 1));
      if invalid_efuse_header hdr1 hdr2 then Some (0, log_map) else
      let '(blk_idx, word_en, phy_idx) :=
        if (hdr1 .& 0x1f) =? 0xf
        then (u8 (get_efuse_blk_idx_2_byte hdr1 hdr2), hdr2 .& 0xf, u32 (phy_idx + 2))
        else (u8 (get_efuse_blk_idx_1_byte hdr1), hdr1 .& 0xf, u32 (phy_idx + 1)) in
      r ← efuse_words 4 0 lim logical_size phy_map blk_idx word_en phy_idx log_map;
      match r with
      | inr err => Some err
      | inl (phy_idx, log_map) => dump_logical_loop fuel lim logical_size phy_map phy_idx log_map
      end
  end.

Definition dump_logical_efuse_map (d : rtw_dev) (phy_map log_map : list Z) : option (Z * list Z) :=
  let physical_size := phy_efuse_size (chip d) in
  let lim := u32 (physical_size - ptct_efuse_size (chip d)) in
  dump_logical_loop (S (Z.to_nat lim)) lim (log_efuse_size (chip d)) phy_map 0 log_map.

(** ** Field extraction and the orchestrator *)

Definition rfe_is_btg (rfe_option : Z) : bool :=
  bool_decide (rfe_option ∈ [0x2; 0x4; 0x7; 0xa; 0xc; 0xf]).

Definition efuse_extract (log_map : list Z) : option rtw_efuse :=
  b0 ← rd log_map 0;
  b1 ← rd log_map 1;
  addr ← mapM (fun i => rd log_map (EF_OFF_MAC_PCIE + i)) [0; 1; 2; 3; 4; 5];
  rfe ← rd log_map EF_OFF_RFE_OPTION;
  xtal ← rd log_map EF_OFF_XTAL_K;
  board ← rd log_map EF_OFF_RF_BOARD_OPT;
  plan ← rd log_map EF_OFF_CHANNEL_PLAN;
  let crystal_cap := if xtal =? EFUSE_READ_FAIL then 0 else xtal in
  let channel_plan := if plan =? EFUSE_READ_FAIL then 0x7f else plan in
  let rf_board_option := if board =? EFUSE_READ_FAIL then 0 else board in
  Some (Efuse (u16 (b0 .| (b1 << 8))) addr (rfe .& 0x1f) crystal_cap rf_board_option channel_plan
          ((rf_board_option .& 0xe0) =? 0x20)).

Definition set_rfe_btg (b : bool) (h : rtw_hal_min) : rtw_hal_min :=
  Hal (cut_version h) (pkg_type h) b (rf_path_num h) (rf_phy_num h) (phy_cond h) (ch_param h).

Definition efuse_read (d : rtw_dev) : prog (Z * rtw_dev) :=
  let log_size := log_efuse_size (chip d) in
  phy_ok ← act (Malloc (phy_efuse_size (chip d)));
  log_ok ← act (Malloc log_size);
  if negb phy_ok || negb log_ok then mret (- ENOMEM, d) else
  '(ret, phy_map) ← dump_physical_efuse_map d;
  if nz ret then mret (ret, d) else
  match dump_logical_efuse_map d phy_map (replicate (Z.to_nat log_size) 0xff) with
  | None => f ← act Fault; mret (f, d)
  | Some (ret, log_map) =>
      if nz ret then mret (ret, d) else
      match efuse_extract log_map with
      | None => f ← act Fault; mret (f, d)
      | Some e =>
          mret (0, set_efuse e (set_hal (set_rfe_btg (rfe_is_btg (rfe_option e)) (hal d)) d))
      end
  end.

(** ** The decoder stays in bounds and terminates *)

(** Sizes a chip description may have: at least one protected byte, which the
    header look-ahead of the last packet may read, and whole 16-bit words. *)
Record efuse_sizes_ok (d : rtw_dev) : Prop := {
  es_ptct : 0 < ptct_efuse_size (chip d) <= phy_efuse_size (chip d);
  es_phy : phy_efuse_size (chip d) < 2 ^ 31;
  es_log : 0 <= log_efuse_size (chip d) < 2 ^ 31;
  es_even : log_efuse_size (chip d) `mod` 2 = 0;
}.

Lemma block_idx_even blk i : block_idx_to_logical_idx blk i = 2 * (4 * blk + i).
Proof. unfold block_idx_to_logical_idx. rewrite !Z.shiftl_mul_pow2 by lia. lia. Qed.

Section Bounds.
Context (lim logical_size : Z) (phy_map : list Z).
Context (Hlim : 0 <= lim < 2 ^ 31) (Hphy : lim < Z.of_nat (length phy_map))
        (Hlog : 0 <= logical_size < 2 ^ 31) (Heven : logical_size `mod` 2 = 0).

Lemma efuse_words_bounds n : forall i blk en idx log,
  0 <= i -> i + Z.of_nat n <= 4 -> 0 <= blk < 256 -> 0 <= idx <= lim + 1 ->
  Z.of_nat (length log) = logical_size ->
  exists r, efuse_words n i lim logical_size phy_map blk en idx log = Some r /\
    match r with
    | inl (idx', log') => idx <= idx' <= lim + 1 /\ length log' = length log
    | inr (ret, log') => ret = - EINVAL /\ length log' = length log
    end.
Proof.
  induction n as [|n IH]; intros i blk en idx log Hi Hn Hb Hx Hl; cbn [efuse_words].
  { eexists; split; [done|]. simpl. lia. }
  destruct (invalid_efuse_content en i); [apply IH; lia|].
  rewrite block_idx_even, (u32_small (2 * _)) by lia. repeat rewrite u32_small by lia.
  destruct (Z.ltb_spec lim (idx + 1)); cbn [orb]; [by eexists; split; [reflexivity|split]|].
  destruct (Z.ltb_spec logical_size (2 * (4 * blk + i) + 1)); [by eexists; split; [reflexivity|split]|].
  assert (2 * (4 * blk + i) + 1 < logical_size)
    by (apply Z.div_exact in Heven; [|lia]; lia).
  destruct (rd_Some phy_map idx) as (b0 & -> & _); [lia|].
  destruct (rd_Some phy_map (idx + 1)) as (b1 & Hb1 & _); [lia|]. cbn [mbind option_bind].
  rewrite wr_Some by lia. cbn [mbind option_bind]. rewrite Hb1. cbn [mbind option_bind].
  rewrite wr_Some by (rewrite length_insert; lia). cbn [mbind option_bind].
  edestruct (IH (i + 1) blk en (idx + 2)) as (r & -> & Hr); [lia|lia|lia|lia| |].
  { by rewrite !length_insert. }
  exists r. split; [done|].
  destruct r as [[idx' log']|[ret log']]; rewrite !length_insert in Hr; [|done].
  destruct Hr as [? ->]. split; [lia|done].
Qed.

Lemma dump_logical_loop_bounds fuel : forall idx log,
  0 <= idx -> lim + 1 <= idx + Z.of_nat fuel -> idx <= lim + 1 -> (0 < fuel)%nat ->
  Z.of_nat (length log) = logical_size -> bytes_ok phy_map ->
  exists ret log', dump_logical_loop fuel lim logical_size phy_map idx log = Some (ret, log') /\
    (ret = 0 \/ ret = - EINVAL) /\ length log' = length log.
Proof.
  induction fuel as [|fuel IH]; intros idx log Hx Hf Hx' Hpos Hl Hok; [lia|].
  cbn [dump_logical_loop]. destruct (Z.leb_spec lim idx); [eauto 10|].
  destruct (rd_Some phy_map idx) as (h1 & -> & Hh1); [lia|].
  rewrite (u32_small (idx + 1)), (u32_small (idx + 2)) by lia.
  destruct (rd_Some phy_map (idx + 1)) as (h2 & -> & Hh2); [lia|]. cbn [mbind option_bind].
  destruct (invalid_efuse_header h1 h2); [eauto 10|].
  set (hdr := if (h1 .& 0x1f) =? 0xf then _ else _).
  assert (Hhdr : exists blk en k, hdr = (blk, en, idx + k) /\ 0 <= blk < 256 /\ 1 <= k <= 2).
  { unfold hdr. destruct (_ =? _); eexists _, _, _; split; [reflexivity| |reflexivity|];
      (split; [apply u8_byte_ok|lia]). }
  destruct Hhdr as (blk & en & k & -> & Hb & Hk). clearbody hdr || idtac.
  destruct (efuse_words_bounds 4 0 blk en (idx + k) log) as (r & -> & Hr); try lia.
  cbn [mbind option_bind]. destruct r as [[idx' log']|[ret log']].
  - destruct Hr as [Hi Hl'].
    destruct (IH idx' log') as (ret & l & H1 & H2 & H3); try lia; [done|].
    exists ret, l. split_and!; [done|done|congruence].
  - destruct Hr as [-> ?]. eauto 10.
Qed.
End Bounds.

Lemma dump_logical_bounds (d : rtw_dev) (phy_map log_map : list Z) :
  efuse_sizes_ok d -> bytes_ok phy_map ->
  Z.of_nat (length phy_map) = phy_efuse_size (chip d) ->
  Z.of_nat (length log_map) = log_efuse_size (chip d) ->
  exists ret log', dump_logical_efuse_map d phy_map log_map = Some (ret, log') /\
    (ret = 0 \/ ret = - EINVAL) /\ length log' = length log_map.
Proof.
  intros [Hp Hs Hl He] Hok Hlp Hll. unfold dump_logical_efuse_map.
  rewrite (u32_small (phy_efuse_size (chip d) - _)) by lia.
  apply dump_logical_loop_bounds; try done; lia.
Qed.

(** ** Round trip with a reference encoder *)

(** A packet: a block of four 16-bit words, those absent not programmed. *)
Record packet := Packet { pk_blk : Z; pk_words : list (option (Z * Z)) }.

Fixpoint words_en (i : Z) (ws : list (option (Z * Z))) : Z :=
  match ws with
  | [] => 0
  | w :: ws => (match w with Some _ => 0 | None => BIT i end) .| words_en (i + 1) ws
  end.

Definition enc_header (blk en : Z) : list Z :=
  if blk <? 16 then [(blk << 4) .| en]
  else [((blk .& 7) << 5) .| 0xf; ((blk >> 3) << 4) .| en].

Fixpoint enc_words (ws : list (option (Z * Z))) : list Z :=
  match ws with
  | [] => []
  | Some (a, b) :: ws => a :: b :: enc_words ws
  | None :: ws => enc_words ws
  end.

Definition enc_packet (p : packet) : list Z :=
  enc_header (pk_blk p) (words_en 0 (pk_words p)) ++ enc_words (pk_words p).

(** What programming a packet means for the logical map. *)
Fixpoint apply_words (blk i : Z) (ws : list (option (Z * Z))) (log : list Z) : list Z :=
  match ws with
  | [] => log
  | None :: ws => apply_words blk (i + 1) ws log
  | Some (a, b) :: ws =>
      let k := Z.to_nat (8 * blk + 2 * i) in
      apply_words blk (i + 1) ws (<[S k := b]> (<[k := a]> log))
  end.
Definition apply_packet (log : list Z) (p : packet) : list Z :=
  apply_words (pk_blk p) 0 (pk_words p) log.

(** A packet the format can hold: some word programmed, the block in range. *)
Definition packet_ok (logical_size : Z) (p : packet) : Prop :=
  0 <= pk_blk p < 64 /\ 8 * pk_blk p + 8 <= logical_size /\ length (pk_words p) = 4%nat /\
  pk_words p <> replicate 4 None.

Lemma header_decode blk en :
  0 <= blk < 64 -> 0 <= en < 15 ->
  match enc_header blk en with
  | [h1] => h1 <> 0xff /\ (h1 .& 0x1f) <> 0xf /\
            u8 (get_efuse_blk_idx_1_byte h1) = blk /\ h1 .& 0xf = en
  | [h1; h2] => h1 <> 0xff /\ h2 <> 0xff /\ h1 .& 0x1f = 0xf /\
            u8 (get_efuse_blk_idx_2_byte h1 h2) = blk /\ h2 .& 0xf = en
  | _ => False
  end.
Proof.
  intros Hb He.
  pose (chk := fun b e => match enc_header b e with
    | [h1] => negb (h1 =? 0xff) && negb ((h1 .& 0x1f) =? 0xf) &&
              (u8 (get_efuse_blk_idx_1_byte h1) =? b) && ((h1 .& 0xf) =? e)
    | [h1; h2] => negb (h1 =? 0xff) && negb (h2 =? 0xff) && ((h1 .& 0x1f) =? 0xf) &&
              (u8 (get_efuse_blk_idx_2_byte h1 h2) =? b) && ((h2 .& 0xf) =? e)
    | _ => false
    end).
  assert (H : forallb (fun b => forallb (chk b) (seqZ 0 15)) (seqZ 0 64) = true) by by vm_compute.
  rewrite forallb_forall in H. specialize (H blk).
  rewrite <- list_elem_of_In, elem_of_seqZ in H. specialize (H ltac:(lia)).
  rewrite forallb_forall in H. specialize (H en).
  rewrite <- list_elem_of_In, elem_of_seqZ in H. specialize (H ltac:(lia)). unfold chk in H.
  destruct (enc_header blk en) as [|h1 [|h2 [|]]]; try done; lia.
Qed.

Lemma words_en_spec ws : length ws = 4%nat -> ws <> replicate 4 None ->
  0 <= words_en 0 ws < 15 /\
  forall j, (j < 4)%nat ->
    invalid_efuse_content (words_en 0 ws) (Z.of_nat j) = bool_decide (ws !! j = Some None).
Proof.
  intros Hl Hn. destruct ws as [|w0 [|w1 [|w2 [|w3 [|]]]]]; try done.
  destruct w0 as [[]|], w1 as [[]|], w2 as [[]|], w3 as [[]|]; try done;
    (split; [by vm_compute|]); intros j Hj;
    (destruct j as [|[|[|[|j]]]]; [reflexivity..|lia]).
Qed.

Section RoundTrip.
Context (lim logical_size : Z).
Context (Hlim : 0 <= lim < 2 ^ 31) (Hlog : 0 <= logical_size < 2 ^ 31).

Lemma efuse_words_enc blk en : 0 <= blk < 64 -> 8 * blk + 8 <= logical_size ->
  forall ws i pre post log,
  0 <= i -> i + Z.of_nat (length ws) = 4 ->
  (forall j, (j < length ws)%nat ->
     invalid_efuse_content en (i + Z.of_nat j) = bool_decide (ws !! j = Some None)) ->
  Z.of_nat (length (pre ++ enc_words ws)) <= lim ->
  Z.of_nat (length log) = logical_size ->
  efuse_words (length ws) i lim logical_size (pre ++ enc_words ws ++ post) blk en
    (Z.of_nat (length pre)) log
  = Some (inl (Z.of_nat (length (pre ++ enc_words ws)), apply_words blk i ws log)).
Proof.
  intros Hb Hfit ws. induction ws as [|w ws IH]; intros i pre post log Hi Hn Hen Hl Hll.
  { simpl. by rewrite app_nil_r. }
  cbn [efuse_words length]. pose proof (Hen 0%nat ltac:(simpl; lia)) as H0.
  rewrite Z.add_0_r in H0. rewrite H0.
  assert (Hen' : forall j, (j < length ws)%nat ->
     invalid_efuse_content en (i + 1 + Z.of_nat j) = bool_decide (ws !! j = Some None)).
  { intros j Hj. specialize (Hen (S j) ltac:(simpl; lia)). simpl in Hen.
    rewrite <- Hen. f_equal. lia. }
  cbn [length] in Hn. destruct w as [[a b]|]; [rewrite bool_decide_false by done|].
  2:{ rewrite bool_decide_true by done. cbn [enc_words apply_words] in *. apply IH; try lia; done. }
  cbn [enc_words apply_words] in *. rewrite length_app in Hl. simpl in Hl.
  rewrite block_idx_even, (u32_small (2 * _)) by lia. rewrite !(u32_small (_ + _)) by lia.
  destruct (Z.ltb_spec lim (Z.of_nat (length pre) + 1)); [lia|].
  destruct (Z.ltb_spec logical_size (2 * (4 * blk + i) + 1)); [lia|]. cbn [orb].
  rewrite <- !app_comm_cons, rd_middle, rd_middle1. cbn [mbind option_bind].
  rewrite wr_Some by lia. cbn [mbind option_bind].
  rewrite wr_Some by (rewrite length_insert; lia). cbn [mbind option_bind].
  replace (Z.to_nat (2 * (4 * blk + i))) with (Z.to_nat (8 * blk + 2 * i)) by lia.
  replace (Z.to_nat (2 * (4 * blk + i) + 1)) with (S (Z.to_nat (8 * blk + 2 * i))) by lia.
  specialize (IH (i + 1) (pre ++ [a; b]) post
    (<[S (Z.to_nat (8 * blk + 2 * i)) := b]> (<[Z.to_nat (8 * blk + 2 * i) := a]> log))).
  rewrite <- !app_assoc in IH. cbn [app] in IH.
  rewrite !length_insert, !length_app in IH. rewrite !length_app. cbn [length] in *.
  replace (Z.of_nat (length pre) + 2) with (Z.of_nat (length pre + 2)) by lia.
  apply IH; try done; lia.
Qed.

Lemma apply_words_length blk ws : forall i log, length (apply_words blk i ws log) = length log.
Proof.
  induction ws as [|[[a b]|] ws IH]; intros i log; cbn [apply_words]; [done| |done].
  by rewrite IH, !length_insert.
Qed.

Lemma enc_header_length blk en : (1 <= length (enc_header blk en))%nat.
Proof. unfold enc_header. destruct (_ <? _); simpl; lia. Qed.

(** The header of a packet is read back as its block, word mask and length. *)
Lemma read_header blk en pre x tl :
  0 <= blk < 64 -> 0 <= en < 15 -> Z.of_nat (length pre) < 2 ^ 31 ->
  exists h1 h2,
    rd ((pre ++ enc_header blk en) ++ x :: tl) (Z.of_nat (length pre)) = Some h1 /\
    rd ((pre ++ enc_header blk en) ++ x :: tl) (Z.of_nat (length pre) + 1) = Some h2 /\
    invalid_efuse_header h1 h2 = false /\
    (if (h1 .& 0x1f) =? 0xf
     then (u8 (get_efuse_blk_idx_2_byte h1 h2), h2 .& 0xf, u32 (Z.of_nat (length pre) + 2))
     else (u8 (get_efuse_blk_idx_1_byte h1), h1 .& 0xf, u32 (Z.of_nat (length pre) + 1)))
    = (blk, en, Z.of_nat (length (pre ++ enc_header blk en))).
Proof.
  intros Hb Hen Hl. pose proof (header_decode blk en Hb Hen) as Hdec.
  rewrite (u32_small (_ + 1)), (u32_small (_ + 2)) by lia.
  unfold invalid_efuse_header.
  destruct (enc_header blk en) as [|h1 [|h2 [|]]]; try done;
    rewrite length_app, <- app_assoc; cbn [app length].
  - destruct Hdec as (Hd1 & Hd2 & Hd3 & Hd4). exists h1, x.
    rewrite rd_middle, rd_middle1, Hd3, Hd4.
    destruct (Z.eqb_spec h1 0xff); [done|]. destruct (Z.eqb_spec (h1 .& 0x1f) 0xf); [done|].
    split_and!; try done. f_equal. lia.
  - destruct Hdec as (Hd1 & Hd2 & Hd3 & Hd4 & Hd5). exists h1, h2.
    rewrite rd_middle, rd_middle1, Hd3, Hd4, Hd5.
    destruct (Z.eqb_spec h1 0xff); [done|]. destruct (Z.eqb_spec h2 0xff); [done|].
    split_and!; try done. cbn. f_equal. lia.
Qed.

Lemma enc_words_nonempty ws : length ws = 4%nat -> ws <> replicate 4 None ->
  exists x tl, enc_words ws = x :: tl.
Proof.
  intros H4 Hne. destruct ws as [|[[]|] [|[[]|] [|[[]|] [|[[]|] [|]]]]]; try done; by eexists _, _.
Qed.

Lemma dump_logical_loop_enc ps : forall fuel pre pad log,
  Forall (packet_ok logical_size) ps ->
  lim < Z.of_nat (length pre + length (concat (map enc_packet ps)) + pad) ->
  Z.of_nat (length pre + length (concat (map enc_packet ps))) <= lim ->
  Z.of_nat (length log) = logical_size ->
  (length (concat (map enc_packet ps)) < fuel)%nat ->
  dump_logical_loop fuel lim logical_size
    (pre ++ concat (map enc_packet ps) ++ replicate pad 0xff) (Z.of_nat (length pre)) log
  = Some (0, foldl apply_packet log ps).
Proof.
  induction ps as [|p ps IH]; intros fuel pre pad log Hps Hpad Hlen Hl Hf;
    (destruct fuel as [|fuel]; [simpl in Hf; lia|]).
  { cbn in Hlen, Hpad. cbn [map concat app foldl dump_logical_loop].
    destruct (Z.leb_spec lim (Z.of_nat (length pre))); [done|].
    destruct pad as [|[|pad]]; [lia|lia|]. cbn [replicate].
    rewrite rd_middle, (u32_small (_ + 1)) by lia. by rewrite rd_middle1. }
  apply Forall_cons_1 in Hps as [(Hb & Hfit & H4 & Hne) Hps'].
  cbn [map concat] in *. set (rest := concat (map enc_packet ps) ++ replicate pad 0xff).
  assert (Hep : enc_packet p = enc_header (pk_blk p) (words_en 0 (pk_words p)) ++ enc_words (pk_words p))
    by done.
  rewrite Hep in *. clear Hep. destruct (words_en_spec (pk_words p) H4 Hne) as [Hen Hinv].
  set (en := words_en 0 (pk_words p)) in *. set (hdr := enc_header (pk_blk p) en) in *.
  pose proof (enc_header_length (pk_blk p) en) as Hhl. fold hdr in Hhl.
  rewrite !length_app in Hlen, Hpad, Hf.
  pose proof (efuse_words_enc (pk_blk p) en Hb Hfit (pk_words p) 0 (pre ++ hdr) rest log) as Hw.
  rewrite H4, !length_app in Hw.
  specialize (Hw ltac:(lia) ltac:(lia) Hinv ltac:(lia) Hl).
  specialize (IH fuel ((pre ++ hdr) ++ enc_words (pk_words p)) pad (apply_packet log p) Hps').
  rewrite !length_app in IH. unfold apply_packet at 1 in IH. rewrite apply_words_length in IH.
  specialize (IH ltac:(lia) ltac:(lia) Hl ltac:(lia)). rewrite <- app_assoc in IH. fold rest in IH.
  replace (pre ++ ((hdr ++ enc_words (pk_words p)) ++ concat (map enc_packet ps)) ++
    replicate pad 255) with ((pre ++ hdr) ++ enc_words (pk_words p) ++ rest)
    by (unfold rest; by rewrite <- !app_assoc).
  destruct (enc_words_nonempty (pk_words p) H4 Hne) as (x & tl & Hx).
  destruct (read_header (pk_blk p) en pre x (tl ++ rest) Hb Hen) as (h1 & h2 & E1 & E2 & E3 & E4); [lia|].
  fold hdr in E1, E2, E4. rewrite app_comm_cons, <- Hx in E1, E2.
  cbn [foldl dump_logical_loop].
  destruct (Z.leb_spec lim (Z.of_nat (length pre))); [lia|].
  rewrite (u32_small (_ + 1)) in E4 |- * by lia.
  rewrite E1, E2. cbn [mbind option_bind]. rewrite E3, E4, length_app, Hw. cbn [mbind option_bind].
  apply IH.
Qed.
End RoundTrip.

Lemma apply_packets_length log ps : length (foldl apply_packet log ps) = length log.
Proof.
  revert log. induction ps as [|p ps IH]; intros log; cbn [foldl]; [done|].
  by rewrite IH; apply apply_words_length.
Qed.

(** The decoder inverts the encoder. *)
Lemma dump_logical_enc_lemma (d : rtw_dev) (ps : list packet) (log_map : list Z) :
  efuse_sizes_ok d ->
  Forall (packet_ok (log_efuse_size (chip d))) ps ->
  Z.of_nat (length log_map) = log_efuse_size (chip d) ->
  let bytes := concat (map enc_packet ps) in
  let pad := (Z.to_nat (phy_efuse_size (chip d)) - length bytes)%nat in
  Z.of_nat (length bytes) <= phy_efuse_size (chip d) - ptct_efuse_size (chip d) ->
  dump_logical_efuse_map d (bytes ++ replicate pad 0xff) log_map
  = Some (0, foldl apply_packet log_map ps).
Proof.
  intros [Hp Hs Hl He] Hps Hll bytes pad Hb. unfold dump_logical_efuse_map.
  rewrite (u32_small (phy_efuse_size (chip d) - _)) by lia.
  apply (dump_logical_loop_enc (phy_efuse_size (chip d) - ptct_efuse_size (chip d)) _
           ltac:(lia) Hl ps _ []); try done; cbn [length]; fold bytes; lia.
Qed.

(** ** The access grant *)

(** State of the grant, and the calls it allows: REG_EFUSE_CTRL only while
    granted. *)
Definition efuse_mon (granted : bool) (o : hwop) (_ : hwres o) : option bool :=
  match o with
  | Write W8 a v => if a =? REG_EFUSE_ACCESS then Some (v =? EFUSE_ACCESS_ON) else Some granted
  | Read _ a | Write _ a _ =>
      if (a =? REG_EFUSE_CTRL) && negb granted then None else Some granted
  | _ => Some granted
  end.

Lemma efuse_wait_grant n :
  wp efuse_mon (efuse_wait n) true (fun r g => g = bool_decide (is_Some r) \/ n = O).
Proof.
  induction n as [|n IH]; [by right|]. cbn [efuse_wait]. intros u. cbn. intros v.
  destruct n as [|n]; [by left|]. destruct (negb _); [|by left].
  eapply wp_mono; [apply IH|]. intros r g [|]; [by left|done].
Qed.

Lemma dump_physical_loop_grant n : forall addr ctl map,
  wp efuse_mon (dump_physical_loop n addr ctl map) true
    (fun '(ret, map') g => g = false /\ (ret = - EBUSY \/ (ret = 0 /\ length map' = (length map + n)%nat))).
Proof.
  induction n as [|n IH]; intros addr ctl map; cbn [dump_physical_loop].
  { intros u. cbn. split; [done|]. right. split; [done|lia]. }
  intros u. cbn -[efuse_wait efuse_tries]. apply wp_bind.
  eapply wp_mono; [apply efuse_wait_grant|].
  assert (efuse_tries <> O) by by apply Nat.neq_0_lt_0, (Nat2Z.inj_lt 0).
  intros [v|] g [Hg|]; try done; cbn in Hg; subst g; [|cbn; auto].
  eapply wp_mono; [apply IH|]. intros [ret m] g. rewrite length_app. cbn [length].
  intros [? [?|[? ?]]]; split; auto. right; split; [done|lia].
Qed.

(** On every run, whatever the chip answers, the physical dump touches
    REG_EFUSE_CTRL only under the access grant and gives the grant back before
    it returns, on the timeout path too; on success it has read every byte. *)
Theorem dump_physical_grant (d : rtw_dev) (g : bool) :
  wp efuse_mon (dump_physical_efuse_map d) g
    (fun '(ret, map) g' => g' = false /\
       (ret = - EBUSY \/ (ret = 0 /\ length map = Z.to_nat (phy_efuse_size (chip d))))).
Proof.
  unfold dump_physical_efuse_map. repeat (intros ?; cbn -[dump_physical_loop]).
  eapply wp_mono; [apply dump_physical_loop_grant|]. done.
Qed.

(** ** The whole read *)

Lemma rd_total l i : 0 <= i < Z.of_nat (length l) -> is_Some (rd l i).
Proof. intros Hi. destruct (rd_Some l i Hi) as (v & -> & _). by eexists. Qed.

Lemma efuse_extract_addr log e : efuse_extract log = Some e -> length (ef_addr e) = 6%nat.
Proof.
  unfold efuse_extract. intros H. repeat (apply bind_Some in H as (? & ? & H)).
  injection H as <-. cbn [ef_addr]. match goal with E : mapM _ _ = Some _ |- _ => by apply length_mapM in E end.
Qed.

Lemma efuse_extract_total log : 0xD6 <= Z.of_nat (length log) -> is_Some (efuse_extract log).
Proof.
  intros Hl. unfold efuse_extract, EF_OFF_MAC_PCIE, EF_OFF_RFE_OPTION, EF_OFF_XTAL_K,
    EF_OFF_RF_BOARD_OPT, EF_OFF_CHANNEL_PLAN. cbn [mapM].
  repeat match goal with
  | |- context [rd log ?i] =>
      destruct (rd_total log i) as [? ->]; [lia|]; cbn [mbind option_bind mret option_ret]
  end.
  by eexists.
Qed.

Lemma bytes_physical n : forall addr ctl map,
  bytes_ok map ->
  safe reg_call (dump_physical_loop n addr ctl map)
    (fun '(ret, map') => bytes_ok map' /\
       (ret = - EBUSY \/ (ret = 0 /\ length map' = (length map + n)%nat))).
Proof.
  induction n as [|n IH]; intros addr ctl map Hm; cbn [dump_physical_loop].
  { unfold grant_off. apply safe_bind_any; [by safe_go|]. intros _. apply safe_ret. split; [done|].
    right. split; [done|lia]. }
  apply safe_bind_any; [by safe_go|]. intros _.
  apply safe_bind_any.
  { generalize efuse_tries. intros m. induction m as [|m IHm]; [by safe_go|]. cbn [efuse_wait].
    apply safe_bind_any; [by safe_go|]. intros _. apply safe_bind_any; [by safe_go|]. intros v.
    unfold grant_off. destruct m; [by safe_go|]. destruct (negb _); [apply IHm|by safe_go]. }
  intros [v|]; [|apply safe_ret; auto].
  eapply safe_mono; [apply IH|].
  - apply bytes_ok_app. split; [done|]. constructor; [apply u8_byte_ok|constructor].
  - intros [ret m] [Hok Hr]. rewrite length_app in Hr. cbn [length] in Hr. split; [done|].
    destruct Hr as [|[? ?]]; [by left|right; split; [done|lia]].
Qed.

Lemma efuse_read_calls (d : rtw_dev) :
  efuse_sizes_ok d -> 0xD6 <= log_efuse_size (chip d) ->
  safe reg_call (efuse_read d) (fun '(ret, d') =>
    (ret ∈ [- ENOMEM; - EBUSY; - EINVAL] /\ d' = d) \/
    (ret = 0 /\ exists phy_map log_map,
       dump_logical_efuse_map d phy_map (replicate (Z.to_nat (log_efuse_size (chip d))) 0xff)
         = Some (0, log_map) /\
       efuse_extract log_map = Some (efuse d') /\
       rfe_btg (hal d') = rfe_is_btg (rfe_option (efuse d')) /\
       d' = set_efuse (efuse d') (set_hal (hal d') d))).
Proof.
  intros Hd Hl. unfold efuse_read.
  apply safe_bind_any; [by apply (safe_op _ (Malloc _))|]. intros ok1.
  apply safe_bind_any; [by apply (safe_op _ (Malloc _))|]. intros ok2.
  destruct (negb ok1 || negb ok2); [apply safe_ret; left; by split; [rewrite !elem_of_cons; auto|]|].
  eapply safe_bind with (R := fun '(ret, map') => bytes_ok map' /\ (ret = - EBUSY \/
    (ret = 0 /\ length map' = Z.to_nat (phy_efuse_size (chip d))))).
  { unfold dump_physical_efuse_map, grant_on, switch_efuse_bank, cfg_ldo25.
    do 3 (apply safe_bind_any; [by safe_go|intros _]). apply safe_bind_any; [by safe_go|]. intros ctl.
    apply (bytes_physical _ 0 ctl []). constructor. }
  intros [ret phy] [Hok [->|[-> Hlen]]]; [apply safe_ret; left; by split; [rewrite !elem_of_cons; auto|]|].
  cbn [nz negb Z.eqb]. set (log0 := replicate _ _).
  assert (Hl0 : Z.of_nat (length log0) = log_efuse_size (chip d))
    by (unfold log0; rewrite length_replicate; lia).
  destruct (dump_logical_bounds d phy log0 Hd Hok) as (ret & log & Hdump & Hr & Hll); [|done|].
  { rewrite Hlen. destruct Hd as [? ? ? ?]. lia. }
  rewrite Hdump. destruct Hr as [-> | ->]; [|apply safe_ret; left; by split; [rewrite !elem_of_cons; auto|]].
  cbn [nz negb Z.eqb]. destruct (efuse_extract_total log) as [e He]; [lia|]. rewrite He.
  apply safe_ret. right. split; [done|]. by exists phy, log.
Qed.

(** On every run of the EFUSE read no access leaves a buffer and no DMA
    register is written; it fails with -ENOMEM, -EBUSY or -EINVAL and then leaves
    the device record untouched, or succeeds with the fields, and the RF
    front-end choice, decoded from a dump. *)
Theorem efuse_read_result (d : rtw_dev) :
  efuse_sizes_ok d -> 0xD6 <= log_efuse_size (chip d) ->
  safe reg_call (efuse_read d) (fun '(ret, d') =>
    (ret ∈ [- ENOMEM; - EBUSY; - EINVAL] /\ d' = d) \/
    (ret = 0 /\ exists phy_map log_map,
       dump_logical_efuse_map d phy_map (replicate (Z.to_nat (log_efuse_size (chip d))) 0xff)
         = Some (0, log_map) /\
       efuse_extract log_map = Some (efuse d') /\
       rfe_btg (hal d') = rfe_is_btg (rfe_option (efuse d')))).
Proof.
  intros Hd Hl. eapply safe_mono; [by apply efuse_read_calls|].
  intros [ret d'] [H|(Hret & phy & log & H1 & H2 & H3 & _)]; [by left|right]. split; [done|]. by exists phy, log.
Qed.

(** ** End to end: a chip with a programmed EFUSE *)

(** A chip that answers REG_EFUSE_CTRL with the addressed byte, raising the
    ready flag after [latency] reads; its state is the last command and the
    reads still to wait. *)
Section Chip.
Context (content : list Z) (latency : nat).

#[local] Instance efuse_chip : Device (Z * nat) := fun o w =>
  match o as o return hwres o * (Z * nat) with
  | Read W32 a =>
      if a =? REG_EFUSE_CTRL then
        match w.2 with
        | O => ((w.1 .& .~ BIT_MASK_EF_DATA) .| BIT_EF_FLAG
                .| default 0 (content !! Z.to_nat ((w.1 >> BIT_SHIFT_EF_ADDR) .& BIT_MASK_EF_ADDR)), w)
        | S n => (w.1 .& .~ BIT_EF_FLAG, (w.1, n))
        end
      else (0, w)
  | Write W32 a v => (tt, if a =? REG_EFUSE_CTRL then (v, latency) else w)
  | o => (hw_default o, w)
  end.

Context (Hcontent : bytes_ok content) (Hsize : (length content <= 1024)%nat)
        (Hlat : Z.of_nat latency < 999999).

Lemma efuse_ctl_addr addr ctl : 0 <= addr < 1024 ->
  let c := u32 ((ctl .& .~ (BIT_MASK_EF_DATA .| BITS_EF_ADDR)
            .| (addr .& BIT_MASK_EF_ADDR) << BIT_SHIFT_EF_ADDR) .& .~ BIT_EF_FLAG) in
  (c >> BIT_SHIFT_EF_ADDR) .& BIT_MASK_EF_ADDR = addr.
Proof.
  intros Ha c. change BIT_MASK_EF_ADDR with (Z.ones 10). unfold BIT_SHIFT_EF_ADDR.
  apply (bits_ext 10); [by apply land_ones_range|done|]. intros i Hi. unfold c.
  rewrite Z.land_spec, Z.shiftr_spec, wrap_testbit, Z.testbit_ones_nonneg by lia.
  rewrite !Z.land_spec, Z.lor_spec, Z.land_spec, !Z.lnot_spec, Z.shiftl_spec by lia.
  change BIT_MASK_EF_ADDR with (Z.ones 10).
  rewrite Z.land_spec, Z.add_simpl_r, (Z.testbit_ones_nonneg 10) by lia.
  change (BIT_MASK_EF_DATA .| BITS_EF_ADDR) with (Z.ones 18).
  change BIT_EF_FLAG with (Z.shiftl 1 31).
  rewrite (Z.testbit_ones_nonneg 18), Z.shiftl_spec by lia.
  destruct (Z.ltb_spec i 10), (Z.ltb_spec (i + 8) 18), (Z.leb_spec 0 (i + 8)),
    (Z.ltb_spec (i + 8) 32); try lia.
  rewrite (Z.testbit_neg_r 1) by lia. cbn. rewrite andb_false_r. cbn.
  by rewrite !andb_true_r.
Qed.

(** The command a read answers, once the wait is over. *)
Definition efuse_answer (c : Z) : Z :=
  u32 ((c .& .~ BIT_MASK_EF_DATA) .| BIT_EF_FLAG
       .| default 0 (content !! Z.to_nat ((c >> BIT_SHIFT_EF_ADDR) .& BIT_MASK_EF_ADDR))).

Lemma content_byte i : byte_ok (default 0 (content !! i)).
Proof.
  destruct (content !! i) as [b|] eqn:Hb; [|by split].
  by apply (Forall_lookup_1 _ _ _ _ Hcontent Hb).
Qed.

Lemma efuse_answer_flag c : nz (efuse_answer c .& BIT_EF_FLAG) = true.
Proof.
  unfold nz. destruct (Z.eqb_spec (efuse_answer c .& BIT_EF_FLAG) 0) as [H|]; [|done].
  apply (f_equal (fun z => Z.testbit z 31)) in H. revert H. unfold efuse_answer.
  change BIT_EF_FLAG with (Z.shiftl 1 31).
  rewrite Z.land_spec, wrap_testbit, !Z.lor_spec, Z.shiftl_spec by lia. cbn.
  by rewrite orb_true_r.
Qed.

Lemma efuse_answer_data c :
  u8 (efuse_answer c .& BIT_MASK_EF_DATA)
  = default 0 (content !! Z.to_nat ((c >> BIT_SHIFT_EF_ADDR) .& BIT_MASK_EF_ADDR)).
Proof.
  set (b := default 0 _). assert (byte_ok b) as Hb by apply content_byte.
  unfold efuse_answer. fold b. change BIT_MASK_EF_DATA with (Z.ones 8).
  change BIT_EF_FLAG with (Z.shiftl 1 31).
  apply (bits_ext 8); [by apply wrap_range|done|]. intros i Hi.
  rewrite wrap_testbit, Z.land_spec, wrap_testbit, !Z.lor_spec, Z.land_spec, Z.lnot_spec,
    Z.testbit_ones_nonneg, Z.shiftl_spec, (Z.testbit_neg_r 1) by lia.
  destruct (Z.leb_spec 0 i), (Z.ltb_spec i 8), (Z.ltb_spec i 32); try lia. cbn.
  by rewrite andb_false_r, andb_true_r.
Qed.

Lemma efuse_busy c : nz (u32 (c .& .~ BIT_EF_FLAG) .& BIT_EF_FLAG) = false.
Proof.
  unfold nz. rewrite negb_false_iff, Z.eqb_eq. apply Z.bits_inj'; intros i Hi.
  change BIT_EF_FLAG with (Z.shiftl 1 31).
  rewrite Z.land_spec, wrap_testbit, Z.land_spec, Z.lnot_spec, Z.bits_0 by lia.
  destruct (Z.testbit (1 << 31) i); by rewrite ?andb_false_r.
Qed.

Lemma efuse_wait_chip n c w : (w < n)%nat ->
  run (efuse_wait (S n)) (c, w) = (Some (efuse_answer c), (c, O)).
Proof.
  revert w. induction n as [|n IH]; intros w Hw; [lia|].
  cbn [efuse_wait]. unfold hw_read32, udelay, grant_off.
  destruct w as [|w]; cbn -[efuse_wait nz].
  - fold (efuse_answer c). by rewrite efuse_answer_flag.
  - rewrite efuse_busy. cbn -[efuse_wait]. apply IH. lia.
Qed.

Lemma dump_physical_loop_chip n : forall addr ctl map w,
  addr + Z.of_nat n <= 1024 -> 0 <= addr ->
  (run (dump_physical_loop n addr ctl map) w).1
  = (0, map ++ ((fun i => default 0 (content !! Z.to_nat i)) <$> seqZ addr (Z.of_nat n))).
Proof.
  induction n as [|n IH]; intros addr ctl map w Ha H0.
  { by rewrite app_nil_r. }
  rewrite seqZ_cons by lia. cbn [dump_physical_loop fmap list_fmap].
  rewrite run_bind. cbn [run hw_write32 act dev_step efuse_chip].
  rewrite Z.eqb_refl, run_bind.
  replace efuse_tries with (S (pred efuse_tries)) by (unfold efuse_tries; lia).
  rewrite efuse_wait_chip by (unfold efuse_tries; lia).
  rewrite efuse_answer_data, efuse_ctl_addr by lia.
  rewrite IH by lia. rewrite <- app_assoc. cbn [app].
  replace (Z.pred (Z.of_nat (S n))) with (Z.of_nat n) by lia.
  by replace (Z.succ addr) with (addr + 1) by lia.
Qed.

Lemma dump_physical_chip d w : phy_efuse_size (chip d) = Z.of_nat (length content) ->
  (run (dump_physical_efuse_map d) w).1 = (0, content).
Proof.
  intros Hd. unfold dump_physical_efuse_map. rewrite Hd, Nat2Z.id.
  unfold grant_on, switch_efuse_bank, cfg_ldo25.
  do 3 (rewrite run_bind; destruct (run _ _) as [[] ?]).
  rewrite run_bind. destruct (run _ _) as [ctl w'].
  rewrite dump_physical_loop_chip by lia. cbn [app]. f_equal.
  apply list_eq. intros i. rewrite list_lookup_fmap.
  destruct (decide (i < length content)%nat).
  - rewrite lookup_seqZ_lt by lia. cbn [fmap option_fmap option_map].
    rewrite Z.add_0_l, Nat2Z.id.
    by destruct (lookup_lt_is_Some_2 content i) as [v ->].
  - rewrite lookup_seqZ_ge by lia. symmetry. apply lookup_ge_None. lia.
Qed.

Lemma efuse_read_chip d log e :
  phy_efuse_size (chip d) = Z.of_nat (length content) ->
  dump_logical_efuse_map d content (replicate (Z.to_nat (log_efuse_size (chip d))) 0xff)
    = Some (0, log) ->
  efuse_extract log = Some e ->
  forall w, result (exec (efuse_read d) w)
  = (0, set_efuse e (set_hal (set_rfe_btg (rfe_is_btg (rfe_option e)) (hal d)) d)).
Proof.
  intros Hd Hl He w. unfold result. rewrite run_exec. unfold efuse_read.
  rewrite run_bind. cbn [run act dev_step efuse_chip hw_default].
  rewrite run_bind. cbn [run act dev_step efuse_chip hw_default negb orb].
  rewrite run_bind. pose proof (dump_physical_chip d w Hd) as Hp.
  destruct (run (dump_physical_efuse_map d) w) as [[ret phy] w']. injection Hp as -> ->.
  cbn [nz negb Z.eqb]. rewrite Hl. cbn [nz negb Z.eqb]. by rewrite He.
Qed.
End Chip.

(** C29: end to end: on a chip whose EFUSE was programmed with the packets [ps],
    and which answers each byte within 999,999 polls, the read succeeds and the
    device record holds the fields of the logical map those packets program. *)
Theorem efuse_read_programmed (d : rtw_dev) (ps : list packet) (latency : nat) :
  efuse_sizes_ok d -> phy_efuse_size (chip d) <= 1024 -> 0xD6 <= log_efuse_size (chip d) ->
  Z.of_nat latency < 999999 ->
  Forall (packet_ok (log_efuse_size (chip d))) ps ->
  let bytes := concat (map enc_packet ps) in
  let pad := (Z.to_nat (phy_efuse_size (chip d)) - length bytes)%nat in
  bytes_ok bytes ->
  Z.of_nat (length bytes) <= phy_efuse_size (chip d) - ptct_efuse_size (chip d) ->
  forall w, exists e,
    efuse_extract (foldl apply_packet (replicate (Z.to_nat (log_efuse_size (chip d))) 0xff) ps) = Some e /\
    result (exec (H := efuse_chip (bytes ++ replicate pad 0xff) latency) (efuse_read d) w)
    = (0, set_efuse e (set_hal (set_rfe_btg (rfe_is_btg (rfe_option e)) (hal d)) d)).
Proof.
  intros Hd Hp1 Hl1 Hlat Hps bytes pad Hok Hb w. pose proof Hd as [Hp Hs Hl He].
  assert (Hlen : length (bytes ++ replicate pad 0xff) = Z.to_nat (phy_efuse_size (chip d)))
    by (rewrite length_app, length_replicate; unfold pad; lia).
  assert (Hll : Z.of_nat (length (replicate (Z.to_nat (log_efuse_size (chip d))) 0xff))
                = log_efuse_size (chip d)) by (rewrite length_replicate; lia).
  assert (Hdump := dump_logical_enc_lemma d ps _ Hd Hps Hll Hb).
  destruct (efuse_extract_total (foldl apply_packet
    (replicate (Z.to_nat (log_efuse_size (chip d))) 0xff) ps)) as [e Hx].
  { rewrite apply_packets_length. lia. }
  exists e. split; [done|]. eapply efuse_read_chip; [| |done| |done|done].
  - apply bytes_ok_app. split; [done|]. by apply bytes_ok_replicate.
  - rewrite Hlen. lia.
  - rewrite Hlen. lia.
Qed.

(** ** Witnesses *)

Definition efuse_dev_example : rtw_dev := example_dev [] [].

(** Channel plan and crystal trim in block 23, the MAC address in block 26. *)
Definition packets_example : list packet :=
  [Packet 23 [Some (0x26, 0x1b); None; None; None];
   Packet 26 [Some (0x02, 0x11); Some (0x22, 0x33); Some (0x44, 0x55); None]].

Lemma efuse_dev_example_ok : efuse_sizes_ok efuse_dev_example.
Proof. by constructor. Qed.
Lemma packets_example_ok : Forall (packet_ok 512) packets_example.
Proof. repeat constructor; by vm_compute. Qed.

Lemma efuse_read_result_witness :
  efuse_sizes_ok efuse_dev_example /\
  safe reg_call (efuse_read efuse_dev_example) (fun '(ret, d') =>
    (ret ∈ [- ENOMEM; - EBUSY; - EINVAL] /\ d' = efuse_dev_example) \/
    (ret = 0 /\ exists phy_map log_map,
       dump_logical_efuse_map efuse_dev_example phy_map (replicate 512 0xff) = Some (0, log_map) /\
       efuse_extract log_map = Some (efuse d') /\
       rfe_btg (hal d') = rfe_is_btg (rfe_option (efuse d')))).
Proof.
  split; [apply efuse_dev_example_ok|].
  apply (efuse_read_result efuse_dev_example efuse_dev_example_ok ltac:(done)).
Defined.

Lemma efuse_read_programmed_witness :
  exists e,
    efuse_extract (foldl apply_packet (replicate 512 0xff) packets_example) = Some e /\
    channel_plan e = 0x26 /\ ef_addr e = [0x02; 0x11; 0x22; 0x33; 0x44; 0x55] /\
    result (exec (H := efuse_chip (concat (map enc_packet packets_example)
                                   ++ replicate 500 0xff) 3) (efuse_read efuse_dev_example) (0, O))
    = (0, set_efuse e (set_hal (set_rfe_btg (rfe_is_btg (rfe_option e)) (hal efuse_dev_example))
                         efuse_dev_example)).
Proof.
  destruct (efuse_read_programmed efuse_dev_example packets_example 3 efuse_dev_example_ok
    ltac:(done) ltac:(done) ltac:(done) packets_example_ok
    ltac:(repeat constructor; by vm_compute) ltac:(done) (0, O)) as (e & He & Hr).
  exists e. split; [done|]. revert He. intros [= <-]. split; [done|]. split; [done|apply Hr].
Defined.
