(* ===== verification/Sha1.v ===== *)
(** * Sha1: SHA-1, HMAC-SHA1 and PBKDF2-SHA1 (crypto/rtw_crypto.c)

    The streaming context is a state machine; its abstract state is the message
    absorbed so far.  Proved: updates in any pieces followed by the final step
    compute the padded-message digest of FIPS 180; HMAC and PBKDF2 are the
    functions of RFC 2104 and RFC 8018 over that digest. *)
From S2P Require Import Prelude.

(** ** The code *)

Record sha1_ctx := Sha1Ctx { sh_h : list Z; sh_bits : Z; sh_buf : list Z; sh_n : Z }.

Definition rol32 (v s : Z) : Z := u32 (v << s) .| (v >> (32 - s)).

(** The message schedule. *)
Definition sha1_w (p : list Z) : list Z :=
  let w0 := map (fun i => (p.[i*4] << 24) .| (p.[i*4+1] << 16) .| (p.[i*4+2] << 8) .| p.[i*4+3])%nat
              (seq 0 16) in
  foldl (fun w i => w ++ [rol32 (w.[i-3] .^ w.[i-8] .^ w.[i-14] .^ w.[i-16])%nat 1])
    w0 (seq 16 64).

Definition sha1_round (w : list Z) (st : Z * Z * Z * Z * Z) (i : nat) : Z * Z * Z * Z * Z :=
  let '(aa, bb, cc, dd, ee) := st in
  let '(f, k) :=
    if (i <? 20)%nat then ((bb .& cc) .| (u32 (.~ bb) .& dd), 0x5A827999)
    else if (i <? 40)%nat then (bb .^ cc .^ dd, 0x6ED9EBA1)
    else if (i <? 60)%nat then ((bb .& cc) .| (bb .& dd) .| (cc .& dd), 0x8F1BBCDC)
    else (bb .^ cc .^ dd, 0xCA62C1D6) in
  let t := u32 (rol32 aa 5 + f + ee + k + w.[i]) in
  (t, aa, rol32 bb 30, cc, dd).

(** The compression of one 64-byte block into the five state words. *)
Definition sha1_compress (h : list Z) (p : list Z) : list Z :=
  let '(aa, bb, cc, dd, ee) :=
    foldl (sha1_round (sha1_w p)) (h.[0], h.[1], h.[2], h.[3], h.[4])%nat (seq 0 80) in
  [u32 (h.[0]%nat + aa); u32 (h.[1]%nat + bb); u32 (h.[2]%nat + cc);
   u32 (h.[3]%nat + dd); u32 (h.[4]%nat + ee)].

Definition sha1_block (c : sha1_ctx) (p : list Z) : sha1_ctx :=
  Sha1Ctx (sha1_compress (sh_h c) p) (sh_bits c) (sh_buf c) (sh_n c).

Definition sha1_h0 : list Z := [0x67452301; 0xEFCDAB89; 0x98BADCFE; 0x10325476; 0xC3D2E1F0].

(** [buf] is left uninitialised by the code: an argument here. *)
Definition sha1_init (junk : list Z) : sha1_ctx := Sha1Ctx sha1_h0 0 junk 0.

(** The copy loop of [sha1_update]; each round takes at least a byte. *)
Fixpoint sha1_update_loop (fuel : nat) (c : sha1_ctx) (p : list Z) : sha1_ctx :=
  match fuel with
  | O => c
  | S fuel =>
      match p with
      | [] => c
      | _ =>
          let room := u32 (64 - sh_n c) in
          let take_n := if Z.of_nat (length p) <? room then Z.of_nat (length p) else room in
          let buf := splice (sh_buf c) (Z.to_nat (sh_n c)) (take (Z.to_nat take_n) p) in
          let c := Sha1Ctx (sh_h c) (sh_bits c) buf (sh_n c + take_n) in
          let c := if sh_n c =? 64
                   then let c := sha1_block c (sh_buf c) in Sha1Ctx (sh_h c) (sh_bits c) (sh_buf c) 0
                   else c in
          sha1_update_loop fuel c (drop (Z.to_nat take_n) p)
      end
  end.

Definition sha1_update (c : sha1_ctx) (p : list Z) : sha1_ctx :=
  sha1_update_loop (length p)
    (Sha1Ctx (sh_h c) (u64 (sh_bits c + u64 (Z.of_nat (length p) * 8))) (sh_buf c) (sh_n c)) p.

Fixpoint sha1_pad_loop (fuel : nat) (c : sha1_ctx) : sha1_ctx :=
  match fuel with
  | O => c
  | S fuel => if negb (sh_n c =? 56) then sha1_pad_loop fuel (sha1_update c [0]) else c
  end.

Definition sha1_final (c : sha1_ctx) : list Z :=
  let bits := sh_bits c in
  let c := sha1_update c [0x80] in
  let c := sha1_pad_loop 64 c in
  let c := foldl (fun c i => sha1_update c [u8 (bits >> (i * 8))]) c [7; 6; 5; 4; 3; 2; 1; 0] in
  concat (map (fun i => be32 (sh_h c).[i]) (seq 0 5)).

Definition sha1 (junk : list Z) (m : list Z) : list Z :=
  sha1_final (sha1_update (sha1_init junk) m).

Definition rtw_hmac_sha1 (junk key msg : list Z) : list Z :=
  let k := if (64 <? Z.of_nat (length key))
           then sha1 junk key ++ replicate 44 0
           else key ++ replicate (64 - length key) 0 in
  let ipad := map (fun b => b .^ 0x36) k in
  let opad := map (fun b => b .^ 0x5c) k in
  let inner := sha1_final (sha1_update (sha1_update (sha1_init junk) ipad) msg) in
  sha1_final (sha1_update (sha1_update (sha1_init junk) opad) inner).

(** The inner loop of PBKDF2 on ([U], [T]). *)
Fixpoint pbkdf2_iter (n : nat) (junk pass U T : list Z) : list Z :=
  match n with
  | O => T
  | S n =>
      let U := rtw_hmac_sha1 junk pass U in
      pbkdf2_iter n junk pass U (xor_bytes T U)
  end.

(** One round of the outer loop per 20 output bytes, [outlen] rounds at most. *)
Fixpoint pbkdf2_loop (fuel : nat) (junk pass salt : list Z) (iterations block : Z)
    (outlen : nat) : list Z :=
  match fuel with
  | O => []
  | S fuel =>
      if (outlen =? 0)%nat then [] else
      let U := rtw_hmac_sha1 junk pass (salt ++ be32 block) in
      let T := pbkdf2_iter (Z.to_nat iterations - 1) junk pass U U in
      let c := if (outlen <? 20)%nat then outlen else 20%nat in
      take c T ++ pbkdf2_loop fuel junk pass salt iterations (u32 (block + 1)) (outlen - c)
  end.

Definition rtw_pbkdf2_sha1 (junk pass salt : list Z) (iterations : Z) (outlen : nat) : list Z :=
  pbkdf2_loop outlen junk pass (take 64 salt) iterations 1 outlen.

(** ** The abstract digest *)

Definition sha1_pad (m : list Z) : list Z :=
  m ++ [0x80] ++ replicate ((119 - length m mod 64) mod 64) 0 ++ be64 (u64 (Z.of_nat (length m) * 8)).

Definition blocks64 (m : list Z) : list (list Z) := reshape (replicate (length m / 64) 64%nat) m.

Definition sha1_spec (m : list Z) : list Z :=
  concat (map be32 (foldl sha1_compress sha1_h0 (blocks64 (sha1_pad m)))).

Definition hmac_key (key : list Z) : list Z :=
  let k := if (64 <? length key)%nat then sha1_spec key else key in k ++ replicate (64 - length k) 0.
Definition hmac_spec (key msg : list Z) : list Z :=
  sha1_spec (map (fun b => b .^ 0x5c) (hmac_key key) ++
             sha1_spec (map (fun b => b .^ 0x36) (hmac_key key) ++ msg)).

(** RFC 8018: U_1 ... U_c and their exclusive or, per block. *)
Fixpoint pbkdf2_U (pass salt : list Z) (block : Z) (n : nat) : list Z :=
  match n with
  | O => hmac_spec pass (salt ++ be32 block)
  | S n => hmac_spec pass (pbkdf2_U pass salt block n)
  end.
Definition pbkdf2_T (pass salt : list Z) (iterations : nat) (block : Z) : list Z :=
  foldl xor_bytes (pbkdf2_U pass salt block 0)
    (map (pbkdf2_U pass salt block) (seq 1 (iterations - 1))).
Definition pbkdf2_spec (pass salt : list Z) (iterations : nat) (outlen : nat) : list Z :=
  take outlen (concat (map (fun i => pbkdf2_T pass salt iterations (Z.of_nat i))
                           (seq 1 ((outlen + 19) / 20)))).

(** ** Published test vectors *)

Example sha1_abc :
  sha1 (replicate 64 0xaa) [0x61; 0x62; 0x63]
  = [0xa9; 0x99; 0x3e; 0x36; 0x47; 0x06; 0x81; 0x6a; 0xba; 0x3e;
     0x25; 0x71; 0x78; 0x50; 0xc2; 0x6c; 0x9c; 0xd0; 0xd8; 0x9d].
Proof. by vm_compute. Qed.

(** RFC 2202, case 1. *)
Example hmac_sha1_rfc2202 :
  rtw_hmac_sha1 (replicate 64 0) (replicate 20 0x0b) [0x48; 0x69; 0x20; 0x54; 0x68; 0x65; 0x72; 0x65]
  = [0xb6; 0x17; 0x31; 0x86; 0x55; 0x05; 0x72; 0x64; 0xe2; 0x8b;
     0xc0; 0xb6; 0xfb; 0x37; 0x8c; 0x8e; 0xf1; 0x46; 0xbe; 0x00].
Proof. by vm_compute. Qed.

(** RFC 6070, case 2: "password", "salt", two iterations. *)
Example pbkdf2_sha1_rfc6070 :
  rtw_pbkdf2_sha1 (replicate 64 0) [0x70; 0x61; 0x73; 0x73; 0x77; 0x6f; 0x72; 0x64]
    [0x73; 0x61; 0x6c; 0x74] 2 20
  = [0xea; 0x6c; 0x01; 0x4d; 0xc7; 0x2d; 0x6f; 0x8c; 0xcd; 0x1e;
     0xd9; 0x2a; 0xce; 0x1d; 0x41; 0xf0; 0xd8; 0xde; 0x89; 0x57].
Proof. by vm_compute. Qed.

#[global] Opaque sha1_compress.

(** ** Refinement: the context represents the message absorbed so far *)

Record repr (c : sha1_ctx) (m : list Z) : Prop := {
  rp_split : exists full r,
    m = full ++ r /\ (length full = 64 * (length m / 64))%nat /\
    sh_h c = foldl sha1_compress sha1_h0 (reshape (replicate (length m / 64) 64%nat) full) /\
    take (Z.to_nat (sh_n c)) (sh_buf c) = r /\ Z.of_nat (length r) = sh_n c;
  rp_n : 0 <= sh_n c < 64;
  rp_buf : length (sh_buf c) = 64%nat;
  rp_bits : sh_bits c = u64 (Z.of_nat (length m) * 8);
}.

Lemma reshape_snoc {A} k (l b : list A) :
  length l = (64 * k)%nat -> length b = 64%nat ->
  reshape (replicate (S k) 64%nat) (l ++ b) = reshape (replicate k 64%nat) l ++ [b].
Proof.
  revert l. induction k as [|k IH]; intros l Hl Hb.
  { destruct l; [|simpl in Hl; lia]. cbn. by rewrite firstn_all2 by lia. }
  change (replicate (S (S k)) 64%nat) with (64%nat :: replicate (S k) 64%nat).
  change (replicate (S k) 64%nat) with (64%nat :: replicate k 64%nat) at 2.
  cbn [reshape]. rewrite take_app_le, drop_app_le by lia.
  rewrite IH by (rewrite ?length_drop; lia). done.
Qed.

Lemma repr_init junk : length junk = 64%nat -> repr (sha1_init junk) [].
Proof. intros Hj. split; try done. by exists [], []. Qed.

(** One round of the copy loop: [x] fits in the buffer. *)
Lemma repr_step c m x :
  repr c m -> (Z.of_nat (length x) <= 64 - sh_n c) -> x <> [] ->
  let buf := splice (sh_buf c) (Z.to_nat (sh_n c)) x in
  let c1 := Sha1Ctx (sh_h c) (u64 (Z.of_nat (length (m ++ x)) * 8)) buf
              (sh_n c + Z.of_nat (length x)) in
  repr (if sh_n c1 =? 64 then Sha1Ctx (sh_h (sha1_block c1 (sh_buf c1))) (sh_bits c1) (sh_buf c1) 0
        else c1) (m ++ x).
Proof.
  intros [(full & r & -> & Hf & Hh & Ht & Hr) Hn Hb Hbits] Hx Hne buf c1.
  assert (Hbl : length buf = 64%nat) by (unfold buf; rewrite splice_length; lia).
  assert (Htake : take (Z.to_nat (sh_n c + Z.of_nat (length x))) buf = r ++ x).
  { rewrite <- Ht. unfold buf. rewrite <- take_splice by lia. f_equal. lia. }
  rewrite length_app in Hf, Hh. set (k := ((length full + length r) / 64)%nat) in *.
  unfold c1. clear c1. cbn [sh_n]. destruct (Z.eqb_spec (sh_n c + Z.of_nat (length x)) 64) as [H64|H64].
  - assert (Hk : (length ((full ++ r) ++ x) / 64 = S k)%nat).
    { rewrite !length_app, Hf. symmetry. apply (Nat.div_unique _ 64 _ 0); lia. }
    rewrite H64, firstn_all2 in Htake by lia.
    assert (Hrx : length (r ++ x) = 64%nat) by (rewrite length_app; lia).
    split; cbn [sh_n sh_buf sh_bits sh_h sha1_block]; [|lia|done|done].
    exists (full ++ (r ++ x)), []. rewrite Hk, app_nil_r, app_assoc.
    split; [done|]. split; [rewrite !length_app in *; lia|]. split; [|done].
    rewrite <- app_assoc, reshape_snoc by lia. by rewrite foldl_app, <- Hh, <- Htake.
  - assert (Hk : (length ((full ++ r) ++ x) / 64 = k)%nat).
    { rewrite !length_app, Hf. symmetry. apply (Nat.div_unique _ 64 _ (length r + length x)); lia. }
    split; cbn [sh_n sh_buf sh_bits sh_h]; [|lia|done|done].
    exists full, (r ++ x). rewrite Hk, app_assoc. split; [done|]. split; [done|].
    split; [done|]. split; [done|]. rewrite length_app. lia.
Qed.

Lemma repr_update_loop fuel : forall c m p,
  (length p <= fuel)%nat ->
  repr (Sha1Ctx (sh_h c) (u64 (Z.of_nat (length m) * 8)) (sh_buf c) (sh_n c)) m ->
  sh_bits c = u64 (Z.of_nat (length (m ++ p)) * 8) ->
  repr (sha1_update_loop fuel c p) (m ++ p).
Proof.
  induction fuel as [|fuel IH]; intros c m p Hf Hc Hb.
  { destruct p; [|simpl in Hf; lia]. rewrite app_nil_r in *. cbn. destruct c; cbn in *. by subst. }
  destruct p as [|x p].
  { rewrite app_nil_r in *. cbn. destruct c; cbn in *. by subst. }
  pose proof (rp_n _ _ Hc) as Hn. cbn [sh_n] in Hn.
  cbn [sha1_update_loop]. set (q := x :: p) in *. cbv zeta.
  rewrite (u32_small (64 - _)) by lia.
  set (t := if _ <? _ then _ else _).
  assert (Ht : 0 < t <= 64 - sh_n c /\ t <= Z.of_nat (length q))
    by (unfold t, q; cbn [length]; case_bool; lia).
  assert (Hlen : length (take (Z.to_nat t) q) = Z.to_nat t) by (rewrite length_take; lia).
  pose proof (repr_step _ m (take (Z.to_nat t) q) Hc) as Hstep. cbn [sh_n sh_h sh_buf] in Hstep.
  rewrite Hlen, Z2Nat.id in Hstep by lia.
  specialize (Hstep ltac:(lia) ltac:(intros E; rewrite E in Hlen; simpl in Hlen; lia)).
  set (c1 := Sha1Ctx _ _ _ _).
  replace (m ++ q) with ((m ++ take (Z.to_nat t) q) ++ drop (Z.to_nat t) q)
    by (by rewrite <- app_assoc, take_drop).
  apply IH.
  - rewrite length_drop. unfold q in *. simpl in *. lia.
  - cbn [sh_n c1] in *. revert Hstep. destruct (_ =? 64); exact id.
  - rewrite <- app_assoc, take_drop. unfold c1. cbn [sh_n]. by destruct (_ =? 64).
Qed.

Lemma repr_update c m p : repr c m -> repr (sha1_update c p) (m ++ p).
Proof.
  intros Hc. unfold sha1_update. apply repr_update_loop; [done| |].
  - cbn. rewrite <- (rp_bits _ _ Hc). by destruct c.
  - cbn. rewrite (rp_bits _ _ Hc), length_app. unfold wrap.
    rewrite Nat2Z.inj_add, Z.mul_add_distr_r, <- Zplus_mod. done.
Qed.

Lemma repr_n c m : repr c m -> sh_n c = Z.of_nat (length m mod 64).
Proof.
  intros [(full & r & -> & Hf & _ & _ & Hr) Hn _ _]. rewrite <- Hr. f_equal.
  rewrite length_app in *. set (k := ((length full + length r) / 64)%nat) in *.
  apply (Nat.mod_unique _ 64 k); lia.
Qed.

Lemma repr_pad_loop fuel : forall c m,
  repr c m -> ((120 - (length m mod 64)) mod 64 < fuel)%nat ->
  repr (sha1_pad_loop fuel c) (m ++ replicate ((120 - (length m mod 64)) mod 64) 0).
Proof.
  induction fuel as [|fuel IH]; intros c m Hc Hf; [lia|].
  cbn [sha1_pad_loop]. rewrite (repr_n _ _ Hc).
  assert (Hm : (length m mod 64 < 64)%nat) by (apply Nat.mod_upper_bound; lia).
  destruct (Z.eqb_spec (Z.of_nat (length m mod 64)) 56) as [E|E]; cbn [negb].
  { replace (length m mod 64)%nat with 56%nat by lia. by rewrite app_nil_r. }
  assert (Hs : (length (m ++ [0%Z]) mod 64 = if (length m mod 64 =? 63)%nat then 0 else S (length m mod 64))%nat).
  { rewrite length_app. cbn [length].
    assert (Hd := Nat.div_mod_eq (length m) 64).
    destruct (Nat.eqb_spec (length m mod 64) 63); symmetry.
    - apply (Nat.mod_unique _ 64 (S (length m / 64))); lia.
    - apply (Nat.mod_unique _ 64 (length m / 64)); lia. }
  assert (Hk : ((120 - (length m mod 64)) mod 64 = S ((120 - (length (m ++ [0%Z]) mod 64)) mod 64))%nat).
  { rewrite Hs. generalize (length m mod 64)%nat E Hm. intros k Ek Hkk. clear -Ek Hkk.
    do 64 (destruct k as [|k]; [first [reflexivity|lia]|]). lia. }
  rewrite Hk. cbn [replicate]. rewrite (cons_middle 0), app_assoc.
  apply IH; [by apply repr_update|lia].
Qed.

Lemma foldl_update c m bs :
  repr c m -> repr (foldl (fun c b => sha1_update c [b]) c bs) (m ++ bs).
Proof.
  revert c m. induction bs as [|b bs IH]; intros c m Hc; cbn [foldl]; [by rewrite app_nil_r|].
  rewrite (cons_middle b), app_assoc. by apply IH, repr_update.
Qed.

Lemma repr_blocks c m : repr c m -> (length m mod 64 = 0)%nat ->
  sh_h c = foldl sha1_compress sha1_h0 (blocks64 m).
Proof.
  intros Hc Hm. pose proof (repr_n _ _ Hc) as Hn. rewrite Hm in Hn.
  destruct Hc as [(full & r & -> & _ & Hh & _ & Hr) _ _ _].
  destruct r as [|]; [|simpl in Hr; lia]. rewrite app_nil_r in *. done.
Qed.

Lemma repr_words c m : repr c m ->
  exists h0 h1 h2 h3 h4, sh_h c = [h0; h1; h2; h3; h4].
Proof.
  intros [(full & r & _ & _ & -> & _) _ _ _].
  assert (Hc : forall h p, exists h0 h1 h2 h3 h4, sha1_compress h p = [h0; h1; h2; h3; h4]).
  { intros h p. Transparent sha1_compress. unfold sha1_compress.
    destruct (foldl _ _ _) as [[[[? ?] ?] ?] ?]. eauto 10. }
  generalize (reshape (replicate (length m / 64) 64%nat) full). intros bs.
  induction bs as [|b bs _] using rev_ind; [by eexists _, _, _, _, _|].
  rewrite foldl_app. apply Hc.
Qed.
#[global] Opaque sha1_compress sha1_update.

Lemma repr_digest c m : repr c m -> (length m mod 64 = 0)%nat ->
  concat (map (fun i => be32 (sh_h c).[i]) (seq 0 5))
  = concat (map be32 (foldl sha1_compress sha1_h0 (blocks64 m))).
Proof.
  intros Hc Hm. pose proof (repr_blocks c m Hc Hm) as Hb.
  destruct (repr_words _ _ Hc) as (h0 & h1 & h2 & h3 & h4 & E).
  rewrite E in Hb |- *. by rewrite <- Hb.
Qed.

(** The final step gives the padded digest of whatever was absorbed. *)
Lemma sha1_final_repr c m : repr c m -> sha1_final c = sha1_spec m.
Proof.
  intros Hc. unfold sha1_final, sha1_spec. rewrite (rp_bits _ _ Hc).
  pose proof (repr_update _ _ [0x80] Hc) as H1.
  assert (Hm : (length m mod 64 < 64)%nat) by (apply Nat.mod_upper_bound; lia).
  pose proof (repr_pad_loop 64 _ _ H1 ltac:(apply Nat.mod_upper_bound; lia)) as H2.
  set (c2 := sha1_pad_loop _ _) in *.
  set (bits := u64 _).
  pose proof (foldl_update _ _ (be64 bits) H2) as H3.
  assert (Hpad : ((m ++ [128]) ++ replicate ((120 - (length (m ++ [128%Z]) mod 64)) mod 64) 0)
                 ++ be64 bits = sha1_pad m).
  { unfold sha1_pad. fold bits. rewrite <- !app_assoc. do 4 f_equal.
    rewrite length_app. cbn [length]. assert (Hd := Nat.div_mod_eq (length m) 64).
    destruct (decide (length m mod 64 = 63)%nat) as [E|E].
    - rewrite E. rewrite <- (Nat.mod_unique (length m + 1) 64 (S (length m / 64)) 0) by lia. done.
    - rewrite <- (Nat.mod_unique (length m + 1) 64 (length m / 64) (S (length m mod 64))) by lia.
      done. }
  rewrite Hpad in H3.
  assert (Hfold : foldl (fun c i => sha1_update c [u8 (bits >> (i * 8))]) c2 [7; 6; 5; 4; 3; 2; 1; 0]
                  = foldl (fun c b => sha1_update c [b]) c2 (be64 bits)).
  { unfold be64. generalize [7; 6; 5; 4; 3; 2; 1; 0] c2. intros l.
    induction l as [|i l IH]; intros c'; cbn [foldl map]; [done|apply IH]. }
  rewrite Hfold. set (c3 := foldl _ _ _) in *.
  clearbody c3. clear Hfold H2 c2. rewrite (repr_digest _ _ H3); [done|].
  rewrite <- Hpad, !length_app, length_replicate.
  set (k := (length m + length [128%Z])%nat). cbn [length be64 map].
  assert (Hd := Nat.div_mod_eq k 64). assert (k mod 64 < 64)%nat by (apply Nat.mod_upper_bound; lia).
  generalize dependent (k mod 64)%nat. intros j Hj Hj64. rewrite Hj. clear -Hj64.
  replace (64 * (k / 64) + j + (120 - j) mod 64 + 8)%nat
    with (j + (120 - j) mod 64 + 8 + (k / 64) * 64)%nat by lia.
  rewrite Nat.Div0.mod_add.
  do 64 (destruct j as [|j]; [reflexivity|]). lia.
Qed.

(** C37: absorbing the message in any pieces and finishing gives the digest of
    the padded message, whatever the buffer held before. *)
Theorem sha1_pieces (junk : list Z) (ps : list (list Z)) :
  length junk = 64%nat ->
  sha1_final (foldl sha1_update (sha1_init junk) ps) = sha1_spec (concat ps).
Proof.
  intros Hj. apply sha1_final_repr.
  assert (H : forall c m, repr c m -> repr (foldl sha1_update c ps) (m ++ concat ps)).
  { induction ps as [|p ps IH]; intros c m Hc; cbn [foldl concat]; [by rewrite app_nil_r|].
    rewrite app_assoc. by apply IH, repr_update. }
  by apply (H _ []), repr_init.
Qed.

Lemma sha1_is_spec junk m : length junk = 64%nat -> sha1 junk m = sha1_spec m.
Proof. intros Hj. by apply sha1_final_repr, (repr_update _ []), repr_init. Qed.

Lemma sha1_spec_length m : length (sha1_spec m) = 20%nat.
Proof.
  rewrite <- (sha1_is_spec (replicate 64 0) m) by done. unfold sha1, sha1_final. done.
Qed.

Lemma sha1_spec_bytes m : bytes_ok (sha1_spec m).
Proof.
  unfold sha1_spec. apply Forall_concat, Forall_fmap, Forall_forall. intros h _.
  unfold be32. repeat constructor; apply u8_byte_ok.
Qed.

Lemma hmac_is_spec junk key msg : length junk = 64%nat ->
  rtw_hmac_sha1 junk key msg = hmac_spec key msg.
Proof.
  intros Hj. unfold rtw_hmac_sha1.
  assert (Hk : (if 64 <? Z.of_nat (length key) then sha1 junk key ++ replicate 44 0
                else key ++ replicate (64 - length key) 0) = hmac_key key).
  { unfold hmac_key. destruct (Z.ltb_spec 64 (Z.of_nat (length key))), (Nat.ltb_spec 64 (length key));
      try lia; [|done]. by rewrite sha1_is_spec, sha1_spec_length. }
  rewrite Hk. unfold hmac_spec.
  assert (H2 : forall a b, sha1_final (sha1_update (sha1_update (sha1_init junk) a) b) = sha1_spec (a ++ b)).
  { intros a b. apply sha1_final_repr, repr_update. by apply (repr_update _ []), repr_init. }
  by rewrite !H2.
Qed.

(** HMAC-SHA1 of the code is the HMAC of RFC 2104 over that digest, for keys
    of any length. *)
Theorem rtw_hmac_sha1_spec (junk key msg : list Z) :
  length junk = 64%nat -> rtw_hmac_sha1 junk key msg = hmac_spec key msg.
Proof. apply hmac_is_spec. Qed.

Lemma hmac_spec_length key msg : length (hmac_spec key msg) = 20%nat.
Proof. apply sha1_spec_length. Qed.
Lemma hmac_spec_bytes key msg : bytes_ok (hmac_spec key msg).
Proof. apply sha1_spec_bytes. Qed.

Lemma pbkdf2_iter_spec junk pass salt block : length junk = 64%nat -> forall n k T,
  pbkdf2_iter n junk pass (pbkdf2_U pass salt block k) T
  = foldl xor_bytes T (map (pbkdf2_U pass salt block) (seq (S k) n)).
Proof.
  intros Hj. induction n as [|n IH]; intros k T; [done|].
  cbn [pbkdf2_iter seq map foldl]. rewrite hmac_is_spec by done. apply (IH (S k)).
Qed.

Lemma pbkdf2_U_length pass salt block n : length (pbkdf2_U pass salt block n) = 20%nat.
Proof. destruct n; apply hmac_spec_length. Qed.

Lemma pbkdf2_T_length pass salt n block : length (pbkdf2_T pass salt n block) = 20%nat.
Proof.
  unfold pbkdf2_T. generalize (seq 1 (n - 1)). intros l.
  assert (H : forall T, length T = 20%nat ->
    length (foldl xor_bytes T (map (pbkdf2_U pass salt block) l)) = 20%nat);
    [|apply H, hmac_spec_length].
  induction l as [|i l IH]; intros T HT; cbn [map foldl]; [done|].
  apply IH. rewrite xor_bytes_length; [done|]. by rewrite HT, pbkdf2_U_length.
Qed.

Lemma pbkdf2_loop_spec junk pass salt iterations : length junk = 64%nat ->
  forall fuel block outlen,
  (outlen <= fuel)%nat -> 1 <= block -> block + Z.of_nat outlen < 2 ^ 32 ->
  pbkdf2_loop fuel junk pass salt iterations block outlen
  = take outlen (concat (map (fun i => pbkdf2_T pass salt (Z.to_nat iterations) (Z.of_nat i))
                             (seq (Z.to_nat block) ((outlen + 19) / 20)))).
Proof.
  intros Hj. induction fuel as [|fuel IH]; intros block outlen Hf Hb Ho.
  { replace outlen with O by lia. done. }
  cbn [pbkdf2_loop]. destruct (Nat.eqb_spec outlen 0) as [->|H0]; [done|].
  rewrite hmac_is_spec by done.
  rewrite (pbkdf2_iter_spec junk pass salt block Hj _ 0).
  match goal with |- context [foldl xor_bytes ?U ?l] =>
    change (foldl xor_bytes U l) with (pbkdf2_T pass salt (Z.to_nat iterations) block) end.
  assert (Hc : ((outlen + 19) / 20 =
    S ((outlen - (if outlen <? 20 then outlen else 20) + 19) / 20))%nat).
  { destruct (Nat.ltb_spec outlen 20).
    - rewrite Nat.sub_diag. symmetry. apply (Nat.div_unique _ 20 1 (outlen - 1)); lia.
    - replace (outlen + 19)%nat with (outlen - 20 + 19 + 1 * 20)%nat by lia.
      rewrite Nat.div_add by lia. lia. }
  rewrite Hc. cbn [seq map concat]. rewrite Z2Nat.id by lia.
  rewrite u32_small by (destruct (Nat.ltb_spec outlen 20); lia).
  rewrite IH by (destruct (Nat.ltb_spec outlen 20); lia).
  replace (Z.to_nat (block + 1)) with (S (Z.to_nat block)) by lia.
  rewrite take_app, pbkdf2_T_length. destruct (Nat.ltb_spec outlen 20).
  - by rewrite (proj2 (Nat.sub_0_le outlen 20)), Nat.sub_diag by lia.
  - by rewrite (firstn_all2 (n := 20)), (firstn_all2 (n := outlen))
      by (rewrite pbkdf2_T_length; lia).
Qed.

Lemma pbkdf2_is_spec junk pass salt iterations outlen :
  length junk = 64%nat -> (length salt <= 64)%nat -> Z.of_nat outlen < 2 ^ 32 - 1 ->
  rtw_pbkdf2_sha1 junk pass salt iterations outlen
  = pbkdf2_spec pass salt (Z.to_nat iterations) outlen.
Proof.
  intros Hj Hs Ho. unfold rtw_pbkdf2_sha1. rewrite firstn_all2 by done.
  rewrite pbkdf2_loop_spec by (done || lia). done.
Qed.

(** PBKDF2 of the code is PBKDF2 of RFC 8018 over HMAC-SHA1, for salts of
    at most 64 bytes, any iteration count and any output length. *)
Theorem rtw_pbkdf2_sha1_spec (junk pass salt : list Z) (iterations : Z) (outlen : nat) :
  length junk = 64%nat -> (length salt <= 64)%nat -> Z.of_nat outlen < 2 ^ 32 - 1 ->
  rtw_pbkdf2_sha1 junk pass salt iterations outlen
  = pbkdf2_spec pass salt (Z.to_nat iterations) outlen.
Proof. apply pbkdf2_is_spec. Qed.

Lemma pbkdf2_length junk pass salt iterations outlen :
  length junk = 64%nat -> (length salt <= 64)%nat -> Z.of_nat outlen < 2 ^ 32 - 1 ->
  length (rtw_pbkdf2_sha1 junk pass salt iterations outlen) = outlen.
Proof.
  intros Hj Hs Ho. rewrite pbkdf2_is_spec by done. unfold pbkdf2_spec. rewrite length_take.
  assert (H : forall k n, length (concat (map (fun i => pbkdf2_T pass salt (Z.to_nat iterations) (Z.of_nat i))
                (seq k n))) = (20 * n)%nat).
  { intros k n. revert k. induction n as [|n IH]; intros k; [done|].
    cbn [seq map concat]. rewrite length_app, IH, pbkdf2_T_length. lia. }
  rewrite H. pose proof (Nat.div_mod_eq (outlen + 19) 20).
  pose proof (Nat.mod_upper_bound (outlen + 19) 20). lia.
Qed.

(** ** Witnesses *)

Lemma sha1_pieces_witness :
  sha1_final (foldl sha1_update (sha1_init (replicate 64 7)) [[0x61]; []; [0x62; 0x63]])
  = sha1_spec [0x61; 0x62; 0x63].
Proof. exact (sha1_pieces (replicate 64 7) [[0x61]; []; [0x62; 0x63]] eq_refl). Defined.

Lemma rtw_hmac_sha1_spec_witness :
  rtw_hmac_sha1 (replicate 64 0) (replicate 80 0xaa) [1; 2; 3]
  = hmac_spec (replicate 80 0xaa) [1; 2; 3].
Proof. exact (rtw_hmac_sha1_spec (replicate 64 0) (replicate 80 0xaa) [1; 2; 3] eq_refl). Defined.

Lemma rtw_pbkdf2_sha1_spec_witness :
  rtw_pbkdf2_sha1 (replicate 64 0) [1] [2; 3] 2 32 = pbkdf2_spec [1] [2; 3] 2 32.
Proof.
  apply (rtw_pbkdf2_sha1_spec (replicate 64 0) [1] [2; 3] 2 32); [done|simpl; lia|lia].
Defined.
