(* ===== verification/Aes.v ===== *)
(** * Aes: AES-128, one ECB block (crypto/rtw_crypto.c)

    The state is 16 bytes, column-major; round keys are expanded at each call;
    the inverse S-box is a global built on first use.  Proved: decryption
    inverts encryption for every key and block, whatever the table's state. *)
From Stdlib Require Import Btauto.
From S2P Require Import Prelude.

(** ** The code *)

Definition sbox : list Z :=
  [0x63; 0x7c; 0x77; 0x7b; 0xf2; 0x6b; 0x6f; 0xc5; 0x30; 0x01; 0x67; 0x2b; 0xfe; 0xd7; 0xab; 0x76;
   0xca; 0x82; 0xc9; 0x7d; 0xfa; 0x59; 0x47; 0xf0; 0xad; 0xd4; 0xa2; 0xaf; 0x9c; 0xa4; 0x72; 0xc0;
   0xb7; 0xfd; 0x93; 0x26; 0x36; 0x3f; 0xf7; 0xcc; 0x34; 0xa5; 0xe5; 0xf1; 0x71; 0xd8; 0x31; 0x15;
   0x04; 0xc7; 0x23; 0xc3; 0x18; 0x96; 0x05; 0x9a; 0x07; 0x12; 0x80; 0xe2; 0xeb; 0x27; 0xb2; 0x75;
   0x09; 0x83; 0x2c; 0x1a; 0x1b; 0x6e; 0x5a; 0xa0; 0x52; 0x3b; 0xd6; 0xb3; 0x29; 0xe3; 0x2f; 0x84;
   0x53; 0xd1; 0x00; 0xed; 0x20; 0xfc; 0xb1; 0x5b; 0x6a; 0xcb; 0xbe; 0x39; 0x4a; 0x4c; 0x58; 0xcf;
   0xd0; 0xef; 0xaa; 0xfb; 0x43; 0x4d; 0x33; 0x85; 0x45; 0xf9; 0x02; 0x7f; 0x50; 0x3c; 0x9f; 0xa8;
   0x51; 0xa3; 0x40; 0x8f; 0x92; 0x9d; 0x38; 0xf5; 0xbc; 0xb6; 0xda; 0x21; 0x10; 0xff; 0xf3; 0xd2;
   0xcd; 0x0c; 0x13; 0xec; 0x5f; 0x97; 0x44; 0x17; 0xc4; 0xa7; 0x7e; 0x3d; 0x64; 0x5d; 0x19; 0x73;
   0x60; 0x81; 0x4f; 0xdc; 0x22; 0x2a; 0x90; 0x88; 0x46; 0xee; 0xb8; 0x14; 0xde; 0x5e; 0x0b; 0xdb;
   0xe0; 0x32; 0x3a; 0x0a; 0x49; 0x06; 0x24; 0x5c; 0xc2; 0xd3; 0xac; 0x62; 0x91; 0x95; 0xe4; 0x79;
   0xe7; 0xc8; 0x37; 0x6d; 0x8d; 0xd5; 0x4e; 0xa9; 0x6c; 0x56; 0xf4; 0xea; 0x65; 0x7a; 0xae; 0x08;
   0xba; 0x78; 0x25; 0x2e; 0x1c; 0xa6; 0xb4; 0xc6; 0xe8; 0xdd; 0x74; 0x1f; 0x4b; 0xbd; 0x8b; 0x8a;
   0x70; 0x3e; 0xb5; 0x66; 0x48; 0x03; 0xf6; 0x0e; 0x61; 0x35; 0x57; 0xb9; 0x86; 0xc1; 0x1d; 0x9e;
   0xe1; 0xf8; 0x98; 0x11; 0x69; 0xd9; 0x8e; 0x94; 0x9b; 0x1e; 0x87; 0xe9; 0xce; 0x55; 0x28; 0xdf;
   0x8c; 0xa1; 0x89; 0x0d; 0xbf; 0xe6; 0x42; 0x68; 0x41; 0x99; 0x2d; 0x0f; 0xb0; 0x54; 0xbb; 0x16].

Definition sub (b : Z) : Z := sbox.[Z.to_nat b].

(** The globals [rsbox] and [rsbox_ready]. *)
Record rsbox_state := RsboxState { rsbox : list Z; rsbox_ready : bool }.
Definition build_rsbox (g : rsbox_state) : rsbox_state :=
  RsboxState (foldl (fun t i => <[Z.to_nat sbox.[i] := Z.of_nat i]> t) (rsbox g) (seq 0 256)) true.

Definition xtime (x : Z) : Z := u8 ((x << 1) .^ ((x >> 7) * 0x1b)).

(** At most eight rounds: [b] is a byte. *)
Fixpoint mul_loop (fuel : nat) (a b r : Z) : Z :=
  match fuel with
  | O => r
  | S fuel =>
      if nz b then mul_loop fuel (xtime a) (b >> 1) (if nz (b .& 1) then r .^ a else r) else r
  end.
Definition mul (a b : Z) : Z := mul_loop 8 a b 0.

Definition rcon : list Z := [0x01; 0x02; 0x04; 0x08; 0x10; 0x20; 0x40; 0x80; 0x1b; 0x36].

(** Word [i] of the schedule, from the bytes [rk] of the words before it. *)
Definition expand_word (rk : list Z) (i : nat) : list Z :=
  let t := take 4 (drop ((i - 1) * 4) rk) in
  let t := if (i mod 4 =? 0)%nat
           then [sub t.[1] .^ rcon.[(i / 4 - 1)%nat]; sub t.[2]; sub t.[3]; sub t.[0]] else t in
  rk ++ xor_bytes (take 4 (drop ((i - 4) * 4) rk)) t.

Definition aes128_expand (key : list Z) : list Z := foldl expand_word key (seq 4 40).

Definition round_key (rk : list Z) (r : nat) : list Z := take 16 (drop (r * 16) rk).
Definition add_rk (s rk : list Z) : list Z := xor_bytes s rk.

Definition shift_rows (s : list Z) : list Z :=
  map (fun i => s.[i]) [0; 5; 10; 15; 4; 9; 14; 3; 8; 13; 2; 7; 12; 1; 6; 11]%nat.
Definition inv_shift_rows (s : list Z) : list Z :=
  map (fun i => s.[i]) [0; 13; 10; 7; 4; 1; 14; 11; 8; 5; 2; 15; 12; 9; 6; 3]%nat.

Definition mix_col (a0 a1 a2 a3 : Z) : list Z :=
  [mul a0 2 .^ mul a1 3 .^ a2 .^ a3; a0 .^ mul a1 2 .^ mul a2 3 .^ a3;
   a0 .^ a1 .^ mul a2 2 .^ mul a3 3; mul a0 3 .^ a1 .^ a2 .^ mul a3 2].
Definition inv_mix_col (a0 a1 a2 a3 : Z) : list Z :=
  [mul a0 14 .^ mul a1 11 .^ mul a2 13 .^ mul a3 9; mul a0 9 .^ mul a1 14 .^ mul a2 11 .^ mul a3 13;
   mul a0 13 .^ mul a1 9 .^ mul a2 14 .^ mul a3 11; mul a0 11 .^ mul a1 13 .^ mul a2 9 .^ mul a3 14].

Definition columns (f : Z -> Z -> Z -> Z -> list Z) (t : list Z) : list Z :=
  concat (map (fun i => f t.[i*4] t.[i*4+1] t.[i*4+2] t.[i*4+3])%nat (seq 0 4)).

Definition enc_round (rk s : list Z) (r : nat) : list Z :=
  let t := shift_rows (map sub s) in
  let s := if negb (r =? 10)%nat then columns mix_col t else t in
  add_rk s (round_key rk r).

Definition rtw_aes128_ecb_encrypt (key inp : list Z) : list Z :=
  let rk := aes128_expand key in
  foldl (enc_round rk) (add_rk inp (round_key rk 0)) (seq 1 10).

Definition dec_round (g : rsbox_state) (rk s : list Z) (r : nat) : list Z :=
  let t := map (fun b => (rsbox g).[Z.to_nat b]) (inv_shift_rows s) in
  let t := add_rk t (round_key rk r) in
  if negb (r =? 0)%nat then columns inv_mix_col t else t.

Definition rtw_aes128_ecb_decrypt (g : rsbox_state) (key inp : list Z) : list Z * rsbox_state :=
  let g := if rsbox_ready g then g else build_rsbox g in
  let rk := aes128_expand key in
  (foldl (dec_round g rk) (add_rk inp (round_key rk 10)) [9; 8; 7; 6; 5; 4; 3; 2; 1; 0]%nat, g).

(** ** Published test vector (FIPS 197, appendix C.1) *)

Example aes128_fips197 :
  rtw_aes128_ecb_encrypt (seqZ 0 16) (map (fun i => i * 0x11) (seqZ 0 16))
  = [0x69; 0xc4; 0xe0; 0xd8; 0x6a; 0x7b; 0x04; 0x30; 0xd8; 0xcd; 0xb7; 0x80; 0x70; 0xb4; 0xc5; 0x5a].
Proof. by vm_compute. Qed.

(** ** Bytes and tables *)

(** The globals as the code leaves them: empty, or built. *)
Definition rsbox_ok (g : rsbox_state) : Prop :=
  length (rsbox g) = 256%nat /\
  (rsbox_ready g = true -> forall b, byte_ok b -> (rsbox g).[Z.to_nat (sub b)] = b).

Definition rsbox_init : rsbox_state := RsboxState (replicate 256 0) false.

Lemma sub_byte b : byte_ok b -> byte_ok (sub b).
Proof.
  intros Hb. pose (f := fun b => bool_decide (byte_ok (sub b))).
  assert (H : f b = true) by (apply (forall_bytes f); [by vm_compute|done]).
  by apply bool_decide_eq_true in H.
Qed.

(** A byte function that distributes over exclusive or. *)
Definition linear (f : Z -> Z) : Prop :=
  forall a b, byte_ok a -> byte_ok b -> f (a .^ b) = f a .^ f b.

Lemma xtime_linear : linear xtime.
Proof.
  intros a b Ha Hb.
  assert (H : forallb (fun a => forallb (fun b => xtime (a .^ b) =? xtime a .^ xtime b) all_bytes)
            all_bytes = true) by by vm_compute.
  apply Z.eqb_eq, (forall_bytes (fun b => xtime (a .^ b) =? xtime a .^ xtime b)); [|done].
  by apply (forall_bytes (fun a => forallb (fun b => xtime (a .^ b) =? xtime a .^ xtime b) all_bytes)).
Qed.

Lemma xtime_byte a : byte_ok (xtime a).
Proof. apply u8_byte_ok. Qed.
#[local] Hint Resolve sub_byte xtime_byte : rtw.

(** The products the cipher uses, as sums of doublings. *)
Definition mul_expanded (k a : Z) : Z :=
  let a2 := xtime a in let a4 := xtime a2 in let a8 := xtime a4 in
  if k =? 2 then a2 else if k =? 3 then a .^ a2 else if k =? 9 then a .^ a8
  else if k =? 11 then a .^ a2 .^ a8 else if k =? 13 then a .^ a4 .^ a8
  else a2 .^ a4 .^ a8.

Lemma mul_expand k a : k ∈ [2; 3; 9; 11; 13; 14] -> mul a k = mul_expanded k a.
Proof.
  intros Hk. repeat (apply elem_of_cons in Hk as [->|Hk]; [unfold mul; simpl; by rewrite ?Z.lxor_0_l|]).
  by apply not_elem_of_nil in Hk.
Qed.

Lemma mul_linear k : k ∈ [2; 3; 9; 11; 13; 14] -> linear (fun a => mul a k).
Proof.
  intros Hk a b Ha Hb. rewrite !mul_expand by done. unfold mul_expanded.
  rewrite !xtime_linear by auto with rtw.
  repeat case_match; bitwise.
Qed.

Lemma mul_byte k a : k ∈ [2; 3; 9; 11; 13; 14] -> byte_ok a -> byte_ok (mul a k).
Proof.
  intros Hk Ha. rewrite mul_expand by done. unfold mul_expanded.
  repeat case_match; auto 6 with rtw.
Qed.

(** ** The column transforms are inverse *)

Definition col_lin (f : Z -> Z -> Z -> Z -> list Z) : Prop :=
  forall a0 a1 a2 a3 b0 b1 b2 b3,
    bytes_ok [a0; a1; a2; a3] -> bytes_ok [b0; b1; b2; b3] ->
    f (a0 .^ b0) (a1 .^ b1) (a2 .^ b2) (a3 .^ b3) = xor_bytes (f a0 a1 a2 a3) (f b0 b1 b2 b3).

Lemma bytes_ok4 a b c d :
  bytes_ok [a; b; c; d] <-> byte_ok a /\ byte_ok b /\ byte_ok c /\ byte_ok d.
Proof. unfold bytes_ok. rewrite !Forall_cons_iff. pose proof (Forall_nil byte_ok). tauto. Qed.

Lemma mul_xor k a b : bool_decide (k ∈ [2; 3; 9; 11; 13; 14]) = true ->
  byte_ok a -> byte_ok b -> mul (a .^ b) k = mul a k .^ mul b k.
Proof. intros Hk. apply (mul_linear k). by apply bool_decide_eq_true in Hk. Qed.
Lemma mul_ok k a : bool_decide (k ∈ [2; 3; 9; 11; 13; 14]) = true -> byte_ok a -> byte_ok (mul a k).
Proof. intros Hk. apply mul_byte. by apply bool_decide_eq_true in Hk. Qed.
#[local] Hint Resolve mul_ok : rtw.

(** Solve an equation of sums of bytes by comparing bits. *)
Ltac xor_solve := apply Z.bits_inj'; intros i Hi; autorewrite with bits; btauto.

Lemma mix_col_lin : col_lin mix_col.
Proof.
  intros a0 a1 a2 a3 b0 b1 b2 b3 (?&?&?&?)%bytes_ok4 (?&?&?&?)%bytes_ok4.
  unfold mix_col, xor_bytes. cbn [zip_with].
  rewrite !(mul_xor 2), !(mul_xor 3) by done. repeat (apply f_equal2; [xor_solve|]); done.
Qed.
Lemma inv_mix_col_lin : col_lin inv_mix_col.
Proof.
  intros a0 a1 a2 a3 b0 b1 b2 b3 (?&?&?&?)%bytes_ok4 (?&?&?&?)%bytes_ok4.
  unfold inv_mix_col, xor_bytes. cbn [zip_with].
  rewrite !(mul_xor 14), !(mul_xor 11), !(mul_xor 13), !(mul_xor 9) by done.
  repeat (apply f_equal2; [xor_solve|]); done.
Qed.

Definition apply4 (f : Z -> Z -> Z -> Z -> list Z) (l : list Z) : list Z :=
  f l.[0] l.[1] l.[2] l.[3].

Lemma mix_col_bytes a0 a1 a2 a3 :
  bytes_ok [a0; a1; a2; a3] -> bytes_ok (mix_col a0 a1 a2 a3).
Proof. intros (?&?&?&?)%bytes_ok4. unfold mix_col. apply bytes_ok4. auto 10 with rtw. Qed.

(** On one non-zero byte, by computing all 256 cases; in general by linearity. *)
Lemma mix_col_inv_unit i b : (i < 4)%nat -> byte_ok b ->
  let v := <[i := b]> [0; 0; 0; 0] in apply4 inv_mix_col (apply4 mix_col v) = v.
Proof.
  intros Hi Hb v. unfold v. clear v. eapply (proj1 (bool_decide_eq_true _)).
  pose (f := fun b => forallb (fun i => bool_decide
    (apply4 inv_mix_col (apply4 mix_col (<[i := b]> [0; 0; 0; 0])) = <[i := b]> [0; 0; 0; 0])) (seq 0 4)).
  assert (H : f b = true) by (apply forall_bytes; [by vm_compute|done]).
  unfold f in H. rewrite forallb_forall in H. apply H, in_seq. lia.
Qed.

Lemma mix_col_inv a0 a1 a2 a3 :
  bytes_ok [a0; a1; a2; a3] -> apply4 inv_mix_col (mix_col a0 a1 a2 a3) = [a0; a1; a2; a3].
Proof.
  intros Ha. pose proof Ha as (H0&H1&H2&H3)%bytes_ok4.
  assert (byte_ok 0) by done.
  pose (F := fun a b c d => apply4 inv_mix_col (mix_col a b c d)).
  assert (HF : col_lin F).
  { intros x0 x1 x2 x3 y0 y1 y2 y3 Hx Hy. unfold F.
    rewrite mix_col_lin by done. pose proof (mix_col_bytes _ _ _ _ Hx). pose proof (mix_col_bytes _ _ _ _ Hy).
    by apply inv_mix_col_lin. }
  pose proof (mix_col_inv_unit 0 a0 ltac:(lia) H0) as E0.
  pose proof (mix_col_inv_unit 1 a1 ltac:(lia) H1) as E1.
  pose proof (mix_col_inv_unit 2 a2 ltac:(lia) H2) as E2.
  pose proof (mix_col_inv_unit 3 a3 ltac:(lia) H3) as E3.
  assert (HF2 := HF a0 a1 0 0 0 0 a2 a3). assert (HF0 := HF a0 0 0 0 0 a1 0 0).
  assert (HF1 := HF 0 0 a2 0 0 0 0 a3).
  rewrite ?Z.lxor_0_l, ?Z.lxor_0_r in HF0. rewrite ?Z.lxor_0_l, ?Z.lxor_0_r in HF1.
  rewrite ?Z.lxor_0_l, ?Z.lxor_0_r in HF2.
  change (F a0 a1 a2 a3 = [a0; a1; a2; a3]).
  rewrite HF2, HF0, HF1 by (apply bytes_ok4; auto).
  change (F a0 0 0 0 = [a0; 0; 0; 0]) in E0. change (F 0 a1 0 0 = [0; a1; 0; 0]) in E1.
  change (F 0 0 a2 0 = [0; 0; a2; 0]) in E2. change (F 0 0 0 a3 = [0; 0; 0; a3]) in E3.
  rewrite E0, E1, E2, E3. unfold xor_bytes. cbn [zip_with].
  by rewrite !Z.lxor_0_l, !Z.lxor_0_r.
Qed.

(** ** The rounds are inverse *)

Definition block (s : list Z) : Prop := length s = 16%nat /\ bytes_ok s.

Lemma block_cases s : block s ->
  exists a b c d e f g h i j k l m n o p, s = [a;b;c;d;e;f;g;h;i;j;k;l;m;n;o;p].
Proof.
  intros [Hs _]. do 16 (destruct s as [|? s]; [done|]). destruct s; [|done]. eauto 20.
Qed.

Lemma shift_rows_inv s : block s -> inv_shift_rows (shift_rows s) = s.
Proof. intros (a&b&c&d&e&f&g&h&i&j&k&l&m&n&o&p&->)%block_cases. done. Qed.

Lemma shift_rows_block s : block s -> block (shift_rows s).
Proof.
  intros Hb. pose proof Hb as (a&b&c&d&e&f&g&h&i&j&k&l&m&n&o&p&->)%block_cases.
  destruct Hb as [_ Hb]. split; [done|]. unfold bytes_ok, shift_rows in *.
  rewrite !Forall_cons_iff in Hb. destruct_and!. cbn.
  repeat (apply Forall_cons_2; [done|]). apply Forall_nil_2.
Qed.

Lemma sub_block s : block s -> block (map sub s).
Proof.
  intros [Hl Hb]. split; [by rewrite length_map|].
  apply Forall_map. exact (List.Forall_impl _ sub_byte Hb).
Qed.

Lemma xor_block s t : block s -> block t -> block (add_rk s t).
Proof.
  intros [Hs Hs'] [Ht Ht']. unfold add_rk.
  split; [rewrite xor_bytes_length; lia|by apply xor_bytes_ok].
Qed.

Lemma columns_block s : block s -> block (columns mix_col s).
Proof.
  intros Hb. pose proof Hb as (a&b&c&d&e&f&g&h&i&j&k&l&m&n&o&p&->)%block_cases.
  destruct Hb as [_ Hb]. split; [done|]. unfold bytes_ok in Hb. rewrite !Forall_cons_iff in Hb.
  destruct_and!. unfold columns. cbn [seq map concat].
  rewrite !bytes_ok_app. split_and!; try done; apply mix_col_bytes, bytes_ok4; auto.
Qed.

Lemma columns_inv s : block s -> columns inv_mix_col (columns mix_col s) = s.
Proof.
  intros Hb. pose proof Hb as (a&b&c&d&e&f&g&h&i&j&k&l&m&n&o&p&->)%block_cases.
  destruct Hb as [_ Hb]. unfold bytes_ok in Hb. rewrite !Forall_cons_iff in Hb. destruct_and!.
  pose proof (mix_col_inv a b c d ltac:(by apply bytes_ok4)) as E0.
  pose proof (mix_col_inv e f g h ltac:(by apply bytes_ok4)) as E1.
  pose proof (mix_col_inv i j k l ltac:(by apply bytes_ok4)) as E2.
  pose proof (mix_col_inv m n o p ltac:(by apply bytes_ok4)) as E3.
  change (apply4 inv_mix_col (mix_col a b c d) ++ apply4 inv_mix_col (mix_col e f g h) ++
    apply4 inv_mix_col (mix_col i j k l) ++ apply4 inv_mix_col (mix_col m n o p) ++ []
    = [a;b;c;d;e;f;g;h;i;j;k;l;m;n;o;p]).
  by rewrite E0, E1, E2, E3.
Qed.

Section Rounds.
Context (g : rsbox_state) (rk : list Z).
Context (Hg : forall b, byte_ok b -> (rsbox g).[Z.to_nat (sub b)] = b).
Context (Hrk : forall r, (r <= 10)%nat -> block (round_key rk r)).

(** The state after [r] full rounds. *)
Fixpoint enc_state (inp : list Z) (r : nat) : list Z :=
  match r with
  | O => add_rk inp (round_key rk 0)
  | S r => enc_round rk (enc_state inp r) (S r)
  end.

Lemma enc_state_foldl inp n : foldl (enc_round rk) (add_rk inp (round_key rk 0)) (seq 1 n) = enc_state inp n.
Proof.
  induction n as [|n IH]; [done|]. rewrite seq_S, foldl_app, IH. done.
Qed.

Lemma enc_state_block inp r : block inp -> (r <= 10)%nat -> block (enc_state inp r).
Proof.
  intros Hi. induction r as [|r IH]; intros Hr; cbn [enc_state].
  { apply xor_block; [done|by apply Hrk]. }
  unfold enc_round. apply xor_block; [|by apply Hrk].
  assert (block (shift_rows (map sub (enc_state inp r))))
    by (apply shift_rows_block, sub_block, IH; lia).
  destruct (negb _); [by apply columns_block|done].
Qed.

Lemma inv_sub s : block s -> map (fun b => (rsbox g).[Z.to_nat b]) (map sub s) = s.
Proof.
  intros [_ Hb]. induction Hb as [|b s Hb _ IH]; [done|]. cbn [map]. by rewrite Hg, IH.
Qed.

(** The decryption round undoes the substitution, the rotation and the key of
    round [r], and the column mixing of the round before. *)
Lemma dec_round_inv inp r : block inp -> (r <= 9)%nat ->
  dec_round g rk (shift_rows (map sub (enc_state inp r))) r
  = match r with
    | O => inp
    | S r' => shift_rows (map sub (enc_state inp r'))
    end.
Proof.
  intros Hi Hr. pose proof (enc_state_block inp r Hi ltac:(lia)) as Hb. unfold dec_round.
  rewrite shift_rows_inv by by apply sub_block. rewrite inv_sub by done.
  destruct r as [|r]; cbn [enc_state Nat.eqb negb].
  - unfold add_rk. apply xor_bytes_invol. destruct Hi, (Hrk 0); lia.
  - pose proof (enc_state_block inp r Hi ltac:(lia)) as Hb'.
    unfold enc_round, add_rk. destruct (Nat.eqb_spec (S r) 10); [lia|]. cbn [negb].
    assert (block (shift_rows (map sub (enc_state inp r)))) as Ht by by apply shift_rows_block, sub_block.
    rewrite xor_bytes_invol; [by apply columns_inv|].
    destruct (columns_block _ Ht), (Hrk (S r)); lia.
Qed.

Lemma dec_enc inp : block inp ->
  foldl (dec_round g rk) (add_rk (enc_state inp 10) (round_key rk 10)) [9; 8; 7; 6; 5; 4; 3; 2; 1; 0]%nat
  = inp.
Proof.
  intros Hi. change (enc_state inp 10) with (enc_round rk (enc_state inp 9) 10).
  unfold enc_round, add_rk. cbn [Nat.eqb negb].
  assert (Hb : block (shift_rows (map sub (enc_state inp 9))))
    by by apply shift_rows_block, sub_block, enc_state_block; [|lia].
  rewrite xor_bytes_invol by (destruct Hb, (Hrk 10); lia). cbn [foldl].
  by rewrite !dec_round_inv by (done || lia).
Qed.
End Rounds.

Lemma expand_words n : forall k rk, length rk = (4 * k)%nat -> (4 <= k)%nat -> bytes_ok rk ->
  length (foldl expand_word rk (seq k n)) = (4 * (k + n))%nat /\
  bytes_ok (foldl expand_word rk (seq k n)).
Proof.
  induction n as [|n IH]; intros k rk Hl Hk Hb; cbn [seq foldl]; [by rewrite Nat.add_0_r|].
  assert (Hw : length (expand_word rk k) = (4 * S k)%nat /\ bytes_ok (expand_word rk k)).
  { unfold expand_word. set (t0 := take 4 (drop ((k - 1) * 4) rk)). set (t := if _ : bool then _ else _).
    assert (Ht0 : length t0 = 4%nat) by (unfold t0; rewrite length_take, length_drop; lia).
    assert (Hok : bytes_ok t0) by (unfold t0; auto with rtw).
    assert (Ht : length t = 4%nat /\ bytes_ok t).
    { unfold t. destruct (_ =? 0)%nat; [|done]. split; [done|].
      destruct t0 as [|b0 [|b1 [|b2 [|b3 [|]]]]]; try done. apply bytes_ok4 in Hok as (?&?&?&?).
      apply bytes_ok4. split_and!; try (apply sub_byte; done).
      apply lxor_byte_ok; [by apply sub_byte|]. generalize (k / 4 - 1)%nat. intros j.
      do 10 (destruct j as [|j]; [by vm_compute|]). destruct j; by vm_compute. }
    destruct Ht as [Ht Hto]. rewrite length_app, xor_bytes_length
      by (rewrite length_take, length_drop; lia).
    split; [rewrite length_take, length_drop; lia|].
    apply bytes_ok_app. split; [done|]. apply xor_bytes_ok; auto with rtw. }
  destruct Hw as [Hw1 Hw2]. destruct (IH (S k) (expand_word rk k)) as [H1 H2]; [lia|lia|done|].
  split; [rewrite H1; lia|done].
Qed.

Lemma expand_keys key r : block key -> (r <= 10)%nat -> block (round_key (aes128_expand key) r).
Proof.
  intros [Hl Hb] Hr. destruct (expand_words 40 4 key) as [H1 H2]; [lia|lia|done|].
  unfold round_key, aes128_expand. split; [|auto with rtw].
  rewrite length_take, length_drop, H1. lia.
Qed.

(** A table filled by index: each entry is what was last written to it. *)
Lemma fill_other (f : nat -> nat) (v : nat -> Z) l : forall (t : list Z) k,
  k ∉ map f l -> foldl (fun t i => <[f i := v i]> t) t l !! k = t !! k.
Proof.
  induction l as [|i l IH]; intros t k Hk; cbn [foldl map]; [done|].
  apply not_elem_of_cons in Hk as [Hk Hl]. rewrite IH by done.
  by apply list_lookup_insert_ne.
Qed.

Lemma fill_lookup (f : nat -> nat) (v : nat -> Z) l : forall (t : list Z) i,
  NoDup (map f l) -> i ∈ l -> (f i < length t)%nat ->
  foldl (fun t i => <[f i := v i]> t) t l !! f i = Some (v i).
Proof.
  induction l as [|j l IH]; intros t i Hn Hi Ht; [by apply not_elem_of_nil in Hi|].
  cbn [map] in Hn. pose proof (NoDup_cons_1_1 _ _ Hn) as Hj. apply NoDup_cons_1_2 in Hn. cbn [foldl].
  apply elem_of_cons in Hi as [->|Hi].
  - rewrite fill_other by done. by apply list_lookup_insert_eq.
  - apply IH; [done|done|]. by rewrite length_insert.
Qed.

Lemma build_rsbox_table g : length (rsbox g) = 256%nat ->
  forall b, byte_ok b -> (rsbox (build_rsbox g)).[Z.to_nat (sub b)] = b.
Proof.
  intros Hg b Hb. cbn [build_rsbox rsbox].
  pose proof (fill_lookup (fun i => Z.to_nat sbox.[i]) Z.of_nat (seq 0 256) (rsbox g) (Z.to_nat b)) as H.
  pose proof (sub_byte b Hb) as Hs. unfold byte_ok in *.
  assert (Hn : NoDup (map (fun i => Z.to_nat sbox.[i]) (seq 0 256))).
  { apply (bool_decide_unpack _). by vm_compute. }
  specialize (H Hn). rewrite elem_of_seq in H. specialize (H ltac:(lia)).
  fold (sub b) in H. specialize (H ltac:(lia)). rewrite Z2Nat.id in H by lia.
  by apply nth_lookup_Some with (d := 0) in H.
Qed.

(** Decryption keeps blocks blocks, for any ciphertext. *)
Lemma sub_onto c : byte_ok c -> exists b, byte_ok b /\ sub b = c.
Proof.
  intros Hc. pose (f := fun c => existsb (fun b => sub b =? c) all_bytes).
  assert (H : f c = true) by (apply (forall_bytes f); [by vm_compute|done]).
  apply existsb_exists in H as (b & Hb & E). exists b. split; [|by apply Z.eqb_eq].
  apply list_elem_of_In, elem_of_seqZ in Hb. unfold byte_ok. lia.
Qed.

Lemma inv_mix_col_bytes a0 a1 a2 a3 :
  bytes_ok [a0; a1; a2; a3] -> bytes_ok (inv_mix_col a0 a1 a2 a3).
Proof. intros (?&?&?&?)%bytes_ok4. unfold inv_mix_col. apply bytes_ok4. auto 10 with rtw. Qed.

Lemma inv_columns_block s : block s -> block (columns inv_mix_col s).
Proof.
  intros Hb. pose proof Hb as (a&b&c&d&e&f&g&h&i&j&k&l&m&n&o&p&->)%block_cases.
  destruct Hb as [_ Hb]. split; [done|]. unfold bytes_ok in Hb. rewrite !Forall_cons_iff in Hb.
  destruct_and!. unfold columns. cbn [seq map concat].
  rewrite !bytes_ok_app. split_and!; try done; apply inv_mix_col_bytes, bytes_ok4; auto.
Qed.

Lemma inv_shift_rows_block s : block s -> block (inv_shift_rows s).
Proof.
  intros Hb. pose proof Hb as (a&b&c&d&e&f&g&h&i&j&k&l&m&n&o&p&->)%block_cases.
  destruct Hb as [_ Hb]. split; [done|]. unfold bytes_ok, inv_shift_rows in *.
  rewrite !Forall_cons_iff in Hb. destruct_and!. cbn.
  repeat (apply Forall_cons_2; [done|]). apply Forall_nil_2.
Qed.

Lemma dec_round_block g rk s r :
  (forall b, byte_ok b -> (rsbox g).[Z.to_nat (sub b)] = b) -> block (round_key rk r) ->
  block s -> block (dec_round g rk s r).
Proof.
  intros Hg Hrk Hs. unfold dec_round.
  assert (Ht : block (add_rk (map (fun b => (rsbox g).[Z.to_nat b]) (inv_shift_rows s)) (round_key rk r))).
  { apply xor_block; [|done]. apply inv_shift_rows_block in Hs as [Hl Hb].
    split; [by rewrite length_map|]. apply Forall_map. refine (List.Forall_impl _ _ Hb).
    intros c (b & Hb' & <-)%sub_onto. by rewrite Hg. }
  destruct (negb _); [by apply inv_columns_block|done].
Qed.

Lemma rsbox_ready_ok g : rsbox_ok g -> rsbox_ok (if rsbox_ready g then g else build_rsbox g) /\
  rsbox_ready (if rsbox_ready g then g else build_rsbox g) = true.
Proof.
  intros [Hg Hr]. destruct (rsbox_ready g) eqn:E; [split; [split; [done|intros _; by apply Hr]|done]|].
  split; [|done]. split; [|intros _; by apply build_rsbox_table].
  cbn [build_rsbox rsbox]. transitivity (length (rsbox g)); [|done]. generalize (seq 0 256) (rsbox g).
  intros l. induction l as [|i l IH]; intros t; cbn [foldl]; [done|]. by rewrite IH, length_insert.
Qed.

Lemma decrypt_block g key inp : rsbox_ok g -> block key -> block inp ->
  block (rtw_aes128_ecb_decrypt g key inp).1 /\ rsbox_ok (rtw_aes128_ecb_decrypt g key inp).2.
Proof.
  intros Hg Hk Hi. destruct (rsbox_ready_ok g Hg) as [Hok Hr]. unfold rtw_aes128_ecb_decrypt.
  set (g1 := if rsbox_ready g then _ else _) in *. cbv zeta. cbn [fst snd]. split; [|done].
  pose proof (proj2 Hok Hr) as Hinv.
  assert (Hs : block (add_rk inp (round_key (aes128_expand key) 10)))
    by (apply xor_block; [done|apply expand_keys; [done|lia]]).
  revert Hs. generalize (add_rk inp (round_key (aes128_expand key) 10)).
  assert (Hr9 : Forall (fun r => (r <= 10)%nat) [9; 8; 7; 6; 5; 4; 3; 2; 1; 0]%nat)
    by (repeat (apply Forall_cons_2; [lia|]); apply Forall_nil_2).
  revert Hr9. generalize [9; 8; 7; 6; 5; 4; 3; 2; 1; 0]%nat. intros l Hl.
  induction Hl as [|r l Hrr _ IH]; intros s Hs; [done|].
  cbn [foldl]. apply IH, dec_round_block; [done|by apply expand_keys|done].
Qed.

Lemma decrypt_encrypt_id g key inp :
  rsbox_ok g -> block key -> block inp ->
  let '(out, g') := rtw_aes128_ecb_decrypt g key (rtw_aes128_ecb_encrypt key inp) in
  out = inp /\ rsbox_ok g'.
Proof.
  intros Hg Hk Hi. destruct (rsbox_ready_ok g Hg) as [Hok Hr].
  unfold rtw_aes128_ecb_decrypt, rtw_aes128_ecb_encrypt. rewrite enc_state_foldl.
  split; [|done]. apply dec_enc; [by apply Hok|by intros; apply expand_keys|done].
Qed.

Lemma encrypt_block kek inp : block kek -> block inp -> block (rtw_aes128_ecb_encrypt kek inp).
Proof.
  intros Hk Hi. unfold rtw_aes128_ecb_encrypt. rewrite enc_state_foldl.
  apply enc_state_block; [by intros; apply expand_keys|done|lia].
Qed.

(** The table is there after any decryption. *)
Definition rsbox_built (g : rsbox_state) : Prop :=
  length (rsbox g) = 256%nat /\ rsbox_ready g = true /\ forall b, byte_ok b -> (rsbox g).[Z.to_nat (sub b)] = b.
Lemma decrypt_builds g key inp : rsbox_ok g -> rsbox_built (rtw_aes128_ecb_decrypt g key inp).2.
Proof. intros Hg. destruct (rsbox_ready_ok g Hg) as [[Hl Hok] Hr]. split; [exact Hl|]. split; [exact Hr|by apply Hok]. Qed.

#[global] Opaque rtw_aes128_ecb_encrypt rtw_aes128_ecb_decrypt.

(** C38: AES-128 decryption inverts encryption for every key and block, whether
    or not the inverse table has been built yet, and leaves the table built: 256
    entries, marked ready, the inverse of the S-box. *)
Theorem aes128_decrypt_encrypt (g : rsbox_state) (key inp : list Z) :
  rsbox_ok g -> block key -> block inp ->
  let '(out, g') := rtw_aes128_ecb_decrypt g key (rtw_aes128_ecb_encrypt key inp) in
  out = inp /\ rsbox_built g'.
Proof.
  intros Hg Hk Hi. pose proof (decrypt_encrypt_id g key inp Hg Hk Hi) as H.
  pose proof (decrypt_builds g key (rtw_aes128_ecb_encrypt key inp) Hg) as Hb.
  destruct (rtw_aes128_ecb_decrypt _ _ _) as [out g']. by destruct H.
Qed.

(** ** Witness *)

Lemma aes128_decrypt_encrypt_witness :
  let '(out, g') := rtw_aes128_ecb_decrypt rsbox_init (seqZ 0 16)
                      (rtw_aes128_ecb_encrypt (seqZ 0 16) (replicate 16 0xa5)) in
  out = replicate 16 0xa5 /\ rsbox_built g'.
Proof.
  apply (aes128_decrypt_encrypt rsbox_init (seqZ 0 16) (replicate 16 0xa5)).
  - by split.
  - split; [done|]. apply (bool_decide_unpack _). by vm_compute.
  - split; [done|]. apply (bool_decide_unpack _). by vm_compute.
Defined.
