(* ===== verification/Trx.v ===== *)
(** * Trx: DMA rings and the transmit leaves (core/trx.c)

    The globals of the file are one state record, passed and returned.  Proved:
    the ring layout, that every write to DMA memory stays inside a live buffer
    whatever the order of calls, that the buffers are allocated once, and what
    the transmit leaves put in the descriptor, the ring and the doorbell. *)
From stdpp Require Import gmap.
From S2P Require Import Prelude Hw Regs Dev.
Open Scope Z_scope.
Open Scope rtw_scope.

(** ** State *)

Definition RTW_TX_QUEUE_BK : nat := 0.
Definition RTW_TX_QUEUE_BE : nat := 1.
Definition RTW_TX_QUEUE_VI : nat := 2.
Definition RTW_TX_QUEUE_VO : nat := 3.
Definition RTW_TX_QUEUE_BCN : nat := 4.
Definition RTW_TX_QUEUE_MGMT : nat := 5.
Definition RTW_TX_QUEUE_HI0 : nat := 6.
Definition RTW_TX_QUEUE_H2C : nat := 7.
Definition RTK_MAX_TX_QUEUE_NUM : nat := 8.

Definition USCAN_RX_DESC_NUM : Z := 64.
Definition USCAN_RX_PKT_DESC_SZ : Z := 24.
Definition USCAN_RX_DRVINFO_SZ : Z := 32.
Definition USCAN_RX_SHIFT_MAX : Z := 8.
Definition USCAN_RX_MAX_MPDU : Z := 11454.
Definition USCAN_RX_BUF_SIZE : Z :=
  (USCAN_RX_PKT_DESC_SZ + USCAN_RX_SHIFT_MAX + USCAN_RX_DRVINFO_SZ + USCAN_RX_MAX_MPDU + 7) .& .~ 7.
Definition RTW_ETH_SLOT_SIZE : Z := 2048.

(** [r_bd] is the mapped descriptor array: a handle and an offset, or null. *)
Record tx_ring := TxRing {
  r_bd : option (Z * Z); bd_off : Z; r_len : Z; r_wp : Z; r_rp : Z; desa_reg : Z; num_reg : Z;
}.
Definition tx_ring0 : tx_ring := TxRing None 0 0 0 0 0 0.

(** The globals; [g_rxbd] and [g_rxdata] have no size in the code, theirs is
    recorded at allocation. *)
Record trx_state := Trx {
  g_txbd : dma; g_pkt : dma; g_rxbd : dma; g_rxdata : dma; g_txpool : dma;
  g_rx_ok : bool; g_rx_n : Z; g_trx_alloced : bool; g_tx : list tx_ring;
}.
Definition trx_state0 : trx_state :=
  Trx dma0 dma0 dma0 dma0 dma0 false USCAN_RX_DESC_NUM false (replicate RTK_MAX_TX_QUEUE_NUM tx_ring0).

Definition set_txbd b s := Trx b (g_pkt s) (g_rxbd s) (g_rxdata s) (g_txpool s) (g_rx_ok s) (g_rx_n s) (g_trx_alloced s) (g_tx s).
Definition set_pkt b s := Trx (g_txbd s) b (g_rxbd s) (g_rxdata s) (g_txpool s) (g_rx_ok s) (g_rx_n s) (g_trx_alloced s) (g_tx s).
Definition set_rx bd data ok n s := Trx (g_txbd s) (g_pkt s) bd data (g_txpool s) ok n (g_trx_alloced s) (g_tx s).
Definition set_txpool b s := Trx (g_txbd s) (g_pkt s) (g_rxbd s) (g_rxdata s) b (g_rx_ok s) (g_rx_n s) (g_trx_alloced s) (g_tx s).
Definition set_alloced a s := Trx (g_txbd s) (g_pkt s) (g_rxbd s) (g_rxdata s) (g_txpool s) (g_rx_ok s) (g_rx_n s) a (g_tx s).
Definition set_tx l s := Trx (g_txbd s) (g_pkt s) (g_rxbd s) (g_rxdata s) (g_txpool s) (g_rx_ok s) (g_rx_n s) (g_trx_alloced s) l.

Definition ring_of (s : trx_state) (q : nat) : tx_ring := default tx_ring0 (g_tx s !! q).
Definition set_ring (q : nat) (r : tx_ring) (s : trx_state) : trx_state := set_tx (<[q := r]> (g_tx s)) s.
Definition set_bd (b : option (Z * Z)) (r : tx_ring) : tx_ring :=
  TxRing b (bd_off r) (r_len r) (r_wp r) (r_rp r) (desa_reg r) (num_reg r).
Definition set_wp (w rp : Z) (r : tx_ring) : tx_ring :=
  TxRing (r_bd r) (bd_off r) (r_len r) w rp (desa_reg r) (num_reg r).

(** ** Initialisation *)

Definition tx_len_for (q : nat) : Z :=
  if (q =? RTW_TX_QUEUE_BE)%nat then RTK_BEQ_TX_DESC_NUM
  else if (q =? RTW_TX_QUEUE_BCN)%nat then 1
  else RTK_DEFAULT_TX_DESC_NUM.

(** Queue, DESA register, NUM register. *)
Definition q_regs : list (nat * Z * Z) := [
  (RTW_TX_QUEUE_BK, RTK_PCI_TXBD_DESA_BKQ, RTK_PCI_TXBD_NUM_BKQ);
  (RTW_TX_QUEUE_BE, RTK_PCI_TXBD_DESA_BEQ, RTK_PCI_TXBD_NUM_BEQ);
  (RTW_TX_QUEUE_VI, RTK_PCI_TXBD_DESA_VIQ, RTK_PCI_TXBD_NUM_VIQ);
  (RTW_TX_QUEUE_VO, RTK_PCI_TXBD_DESA_VOQ, RTK_PCI_TXBD_NUM_VOQ);
  (RTW_TX_QUEUE_BCN, RTK_PCI_TXBD_DESA_BCNQ, 0);
  (RTW_TX_QUEUE_MGMT, RTK_PCI_TXBD_DESA_MGMTQ, RTK_PCI_TXBD_NUM_MGMTQ);
  (RTW_TX_QUEUE_HI0, RTK_PCI_TXBD_DESA_HI0Q, RTK_PCI_TXBD_NUM_HI0Q);
  (RTW_TX_QUEUE_H2C, RTK_PCI_TXBD_DESA_H2CQ, RTK_PCI_TXBD_NUM_H2CQ)].

(** The layout of all descriptor rings inside one buffer. *)
Definition layout_step (bd_sz : Z) (acc : Z * list tx_ring) (e : nat * Z * Z) : Z * list tx_ring :=
  let '(size, rings) := acc in
  let '(q, desa, num) := e in
  let len := tx_len_for q in
  let bd := from_option r_bd None (rings !! q) in
  (u64 (u64 (size + len * bd_sz) + 7) .& .~ 7,
   <[q := TxRing bd size len 0 0 desa num]> rings).
Definition trx_layout (bd_sz : Z) (rings : list tx_ring) : Z * list tx_ring :=
  foldl (layout_step bd_sz) (0, rings) q_regs.

Definition set_all_bd (f : tx_ring -> option (Z * Z)) (s : trx_state) : trx_state :=
  set_tx (map (fun r => set_bd (f r) r) (g_tx s)) s.

Definition trx_reset_ring (txbd_handle : Z) (s : trx_state) (e : nat * Z * Z) : prog trx_state :=
  let '(q, _, _) := e in
  let s := set_ring q (set_wp 0 0 (ring_of s q)) s in
  let r := ring_of s q in
  (if nz (num_reg r) then hw_write16 (num_reg r) (r_len r .& 0xfff) else mret tt);;
  act (RegWriteDma (desa_reg r) txbd_handle (bd_off r) 4);;
  mret s.

Fixpoint trx_reset_rings (txbd_handle : Z) (s : trx_state) (l : list (nat * Z * Z)) : prog trx_state :=
  match l with
  | [] => mret s
  | e :: l => s ← trx_reset_ring txbd_handle s e; trx_reset_rings txbd_handle s l
  end.

Definition trx_reset (d : rtw_dev) (s : trx_state) : prog trx_state :=
  tmp ← hw_read8 (RTK_PCI_CTRL + 3);
  hw_write8 (RTK_PCI_CTRL + 3) (tmp .| 0xf7);;
  s ← trx_reset_rings (d_handle (g_txbd s)) s q_regs;
  (if g_rx_ok s then
     hw_write16 RTK_PCI_RXBD_NUM_MPDUQ (g_rx_n s .& 0xfff);;
     act (RegWriteDma RTK_PCI_RXBD_DESA_MPDUQ (d_handle (g_rxbd s)) 0 4)
   else mret tt);;
  hw_write32 RTK_PCI_TXBD_RWPTR_CLR 0xffffffff;;
  (if rtw_chip_wcpu_3081 d then
     v ← hw_read32 RTK_PCI_TXBD_H2CQ_CSR;
     hw_write32 RTK_PCI_TXBD_H2CQ_CSR (v .| BIT_CLR_H2CQ_HOST_IDX .| BIT_CLR_H2CQ_HW_IDX)
   else mret tt);;
  mret s.

(** Fill the receive descriptors: [n] slots of the data pool, from slot [i]. *)
Fixpoint fill_rx_bds (k : nat) (rxbd rxdata : dma) (rx_bd_sz i : Z) : prog unit :=
  match k with
  | O => mret tt
  | S k =>
      mem_write rxbd (i * rx_bd_sz)
        (le16 USCAN_RX_BUF_SIZE ++ le16 0 ++ le32 (d_paddr rxdata + i * USCAN_RX_BUF_SIZE));;
      fill_rx_bds k rxbd rxdata rx_bd_sz (i + 1)
  end.

(** The allocation attempts of the receive ring, largest first; a failed
    [hw_dma_alloc] leaves the globals alone. *)
Fixpoint rx_ring_try (tries : list Z) (rx_bd_sz : Z) (s : trx_state) : prog trx_state :=
  match tries with
  | [] => mret s
  | n :: tries =>
      r ← act (DmaAlloc (n * rx_bd_sz));
      match r with
      | None => rx_ring_try tries rx_bd_sz s
      | Some (h, pa) =>
          let rxbd := Dma h pa true (n * rx_bd_sz) in
          r ← act (DmaAlloc (n * USCAN_RX_BUF_SIZE));
          match r with
          | None =>
              act (DmaFree h);;
              rx_ring_try tries rx_bd_sz (set_rx (unmap rxbd) (g_rxdata s) (g_rx_ok s) (g_rx_n s) s)
          | Some (h', pa') =>
              let rxdata := Dma h' pa' true (n * USCAN_RX_BUF_SIZE) in
              mem_set rxbd 0 (n * rx_bd_sz) 0;;
              fill_rx_bds (Z.to_nat n) rxbd rxdata rx_bd_sz 0;;
              mret (set_rx rxbd rxdata true n s)
          end
      end
  end.
Definition rx_try : list Z := [USCAN_RX_DESC_NUM; 48; 32; 16; 8].

Definition trx_init (d : rtw_dev) (s : trx_state) : prog (Z * trx_state) :=
  let bd_sz := tx_buf_desc_sz (chip d) in
  let rx_bd_sz := rx_buf_desc_sz (chip d) in
  if g_trx_alloced s then s ← trx_reset d s; mret (0, s) else
  let '(size, rings) := trx_layout bd_sz (g_tx s) in
  let s := set_tx rings s in
  r ← act (DmaAlloc size);
  match r with
  | None => mret (-1, set_txbd (Dma (d_handle (g_txbd s)) (d_paddr (g_txbd s)) (d_mapped (g_txbd s)) size) s)
  | Some (h, pa) =>
  let s := set_txbd (Dma h pa true size) s in
  mem_set (g_txbd s) 0 size 0;;
  let s := set_all_bd (fun r => Some (h, bd_off r)) s in
  r ← act (DmaAlloc 0x2000);
  match r with
  | None =>
      act (DmaFree h);;
      mret (-1, set_all_bd (fun _ => None) (set_txbd (unmap (g_txbd s))
                 (set_pkt (Dma (d_handle (g_pkt s)) (d_paddr (g_pkt s)) (d_mapped (g_pkt s)) 0x2000) s)))
  | Some (hp, pap) =>
  let s := set_pkt (Dma hp pap true 0x2000) s in
  let pool := r_len (ring_of s RTW_TX_QUEUE_BE) * RTW_ETH_SLOT_SIZE in
  r ← act (DmaAlloc pool);
  match r with
  | None =>
      act (DmaFree hp);; act (DmaFree h);;
      mret (-1, set_all_bd (fun _ => None) (set_txbd (unmap (g_txbd s)) (set_pkt (unmap (g_pkt s))
                 (set_txpool (Dma (d_handle (g_txpool s)) (d_paddr (g_txpool s))
                                (d_mapped (g_txpool s)) pool) s))))
  | Some (ht, pat) =>
  let s := set_txpool (Dma ht pat true pool) s in
  mem_set (g_txpool s) 0 pool 0;;
  s ← rx_ring_try rx_try rx_bd_sz (set_rx (g_rxbd s) (g_rxdata s) false (g_rx_n s) s);
  s ← trx_reset d (set_alloced true s);
  mret (0, s)
  end end end.

(** ** Transmit leaves *)

(** A 16-byte buffer descriptor: two segments. *)
Definition tx_bd (seg0 psb_len pkt_paddr seg1 desc_sz : Z) : list Z :=
  le16 (u16 seg0) ++ le16 (u16 psb_len) ++ le32 (u32 pkt_paddr) ++
  le16 (u16 seg1) ++ le16 0 ++ le32 (u32 (pkt_paddr + desc_sz)).

Definition bd_write (r : tx_ring) (off : Z) (bs : list Z) : prog unit :=
  match r_bd r with
  | Some (h, base) => act (MemWrite h (base + off) bs)
  | None => fault
  end.

(** One descriptor word. *)
Definition put_w (s : trx_state) (i v : Z) : prog unit := mem_write (g_pkt s) (4 * i) (le32 (u32 v)).

Definition trx_write_data_rsvd_page (d : rtw_dev) (s : trx_state) (buf : list Z) : prog (Z * trx_state) :=
  let size := Z.of_nat (length buf) in
  let desc_sz := tx_pkt_desc_sz (chip d) in
  let total := u32 (size + desc_sz) in
  if d_size (g_pkt s) <? total then mret (-1, s) else
  mem_set (g_pkt s) 0 desc_sz 0;;
  mem_write (g_pkt s) desc_sz buf;;
  let bmc := if nz (hd 0 buf .& 1) then 1 else 0 in
  put_w s 0 (le32_encode_bits size RTW_TX_DESC_W0_TXPKTSIZE .|
             le32_encode_bits desc_sz RTW_TX_DESC_W0_OFFSET .|
             le32_encode_bits bmc RTW_TX_DESC_W0_BMC .|
             le32_encode_bits 1 RTW_TX_DESC_W0_LS .|
             le32_encode_bits 1 RTW_TX_DESC_W0_DISQSELSEQ);;
  put_w s 1 (le32_encode_bits TX_DESC_QSEL_BEACON RTW_TX_DESC_W1_QSEL);;
  put_w s 8 (le32_encode_bits 1 RTW_TX_DESC_W8_EN_HWSEQ);;
  let s := set_ring RTW_TX_QUEUE_BCN (set_wp 0 0 (ring_of s RTW_TX_QUEUE_BCN)) s in
  let psb_len := (u32 (total - 1) / 128 + 1) .| (1 << RTK_PCI_TXBD_OWN_OFFSET) in
  bd_write (ring_of s RTW_TX_QUEUE_BCN) 0 (tx_bd desc_sz psb_len (d_paddr (g_pkt s)) size desc_sz);;
  work ← hw_read8 RTK_PCI_TXBD_BCN_WORK;
  hw_write8 RTK_PCI_TXBD_BCN_WORK (work .| u8 BIT_PCI_BCNQ_FLAG);;
  mret (0, s).

(** The ring and doorbell half the queue leaves share: fill the descriptor at
    the write pointer, advance it, ring the doorbell. *)
Definition trx_submit (s : trx_state) (q : nat) (doorbell desc_sz len : Z) : prog (Z * trx_state) :=
  let total := u32 (len + desc_sz) in
  let r := ring_of s q in
  let psb_len := u32 (total - 1) / 128 + 1 in
  bd_write r (r_wp r * 16) (tx_bd desc_sz psb_len (d_paddr (g_pkt s)) len desc_sz);;
  let wp := (r_wp r + 1) mod r_len r in
  let s := set_ring q (set_wp wp (r_rp r) r) s in
  hw_write16 doorbell (wp .& 0xfff);;
  mret (0, s).

Definition ring_ready (s : trx_state) (q : nat) : bool :=
  d_mapped (g_pkt s) && bool_decide (is_Some (r_bd (ring_of s q))).

Definition trx_tx_mgmt (d : rtw_dev) (s : trx_state) (frame : list Z) (rate : Z) (bmc : bool)
    : prog (Z * trx_state) :=
  let len := Z.of_nat (length frame) in
  let desc_sz := tx_pkt_desc_sz (chip d) in
  let total := u32 (len + desc_sz) in
  if negb (ring_ready s RTW_TX_QUEUE_MGMT) then mret (-1, s) else
  if d_size (g_pkt s) <? total then mret (-1, s) else
  mem_set (g_pkt s) 0 desc_sz 0;;
  mem_write (g_pkt s) desc_sz frame;;
  let rate_id := if rate =? DESC_RATE1M then RTW_RATEID_B_20M else RTW_RATEID_G in
  put_w s 0 (le32_encode_bits len RTW_TX_DESC_W0_TXPKTSIZE .|
             le32_encode_bits desc_sz RTW_TX_DESC_W0_OFFSET .|
             le32_encode_bits (if bmc then 1 else 0) RTW_TX_DESC_W0_BMC .|
             le32_encode_bits 1 RTW_TX_DESC_W0_LS .|
             le32_encode_bits 1 RTW_TX_DESC_W0_DISQSELSEQ);;
  put_w s 1 (le32_encode_bits TX_DESC_QSEL_MGMT RTW_TX_DESC_W1_QSEL .|
             le32_encode_bits rate_id RTW_TX_DESC_W1_RATE_ID);;
  put_w s 3 (le32_encode_bits 1 RTW_TX_DESC_W3_USE_RATE .|
             le32_encode_bits 1 RTW_TX_DESC_W3_DISDATAFB);;
  put_w s 4 (le32_encode_bits rate RTW_TX_DESC_W4_DATARATE);;
  put_w s 8 (le32_encode_bits 1 RTW_TX_DESC_W8_EN_HWSEQ);;
  trx_submit s RTW_TX_QUEUE_MGMT RTK_PCI_TXBD_IDX_MGMTQ desc_sz len.

Definition trx_tx_data (d : rtw_dev) (s : trx_state) (frame : list Z) (rate : Z)
    : prog (Z * trx_state) :=
  let len := Z.of_nat (length frame) in
  let desc_sz := tx_pkt_desc_sz (chip d) in
  if negb (ring_ready s RTW_TX_QUEUE_BE) then mret (-1, s) else
  if d_size (g_pkt s) <? u32 (desc_sz + len) then mret (-1, s) else
  mem_set (g_pkt s) 0 desc_sz 0;;
  mem_write (g_pkt s) desc_sz frame;;
  let rate_id := if rate <? DESC_RATE6M then RTW_RATEID_B_20M else RTW_RATEID_G in
  put_w s 0 (le32_encode_bits len RTW_TX_DESC_W0_TXPKTSIZE .|
             le32_encode_bits desc_sz RTW_TX_DESC_W0_OFFSET .|
             le32_encode_bits 1 RTW_TX_DESC_W0_LS);;
  put_w s 1 (le32_encode_bits rate_id RTW_TX_DESC_W1_RATE_ID);;
  put_w s 3 (le32_encode_bits 1 RTW_TX_DESC_W3_USE_RATE .|
             le32_encode_bits 1 RTW_TX_DESC_W3_DISDATAFB);;
  put_w s 4 (le32_encode_bits rate RTW_TX_DESC_W4_DATARATE);;
  put_w s 8 (le32_encode_bits 1 RTW_TX_DESC_W8_EN_HWSEQ);;
  trx_submit s RTW_TX_QUEUE_BE RTK_PCI_TXBD_IDX_BEQ desc_sz len.

(** [pkt] points to 32 bytes. *)
Definition trx_tx_h2c (d : rtw_dev) (s : trx_state) (pkt : list Z) : prog (Z * trx_state) :=
  let desc_sz := tx_pkt_desc_sz (chip d) in
  let len := 32 in
  let total := u32 (len + desc_sz) in
  if negb (ring_ready s RTW_TX_QUEUE_H2C) then mret (-1, s) else
  if d_size (g_pkt s) <? total then mret (-1, s) else
  mem_set (g_pkt s) 0 desc_sz 0;;
  mem_write (g_pkt s) desc_sz (take 32 pkt);;
  put_w s 0 (le32_encode_bits len RTW_TX_DESC_W0_TXPKTSIZE .|
             le32_encode_bits desc_sz RTW_TX_DESC_W0_OFFSET .|
             le32_encode_bits 1 RTW_TX_DESC_W0_LS);;
  put_w s 1 (le32_encode_bits TX_DESC_QSEL_H2C RTW_TX_DESC_W1_QSEL);;
  trx_submit s RTW_TX_QUEUE_H2C RTK_PCI_TXBD_IDX_H2CQ desc_sz len.

(** ** Receive-ring access and shutdown *)

Definition trx_rx_ok (s : trx_state) : bool := g_rx_ok s.
Definition trx_rx_count (s : trx_state) : Z := g_rx_n s.
Definition trx_rx_buf_size : Z := USCAN_RX_BUF_SIZE.
Definition trx_rx_hw_idx : prog Z :=
  v ← hw_read32 RTK_PCI_RXBD_IDX_MPDUQ; mret ((v >> 16) .& 0xfff).
(** The slot's address: a handle and an offset, or null. *)
Definition trx_rx_slot_buf (s : trx_state) (slot : Z) : option (Z * Z) :=
  if d_mapped (g_rxdata s) then Some (d_handle (g_rxdata s), slot * USCAN_RX_BUF_SIZE) else None.
Definition trx_rx_set_host_idx (rp : Z) : prog unit := hw_write16 RTK_PCI_RXBD_IDX_MPDUQ (rp .& 0xfff).

(** [struct rtw_data_cfg], the fields this function fills. *)
Record rtw_data_cfg := DataCfg {
  cfg_txbd_handle : Z; cfg_txbd_be_off : Z; cfg_be_len : Z; cfg_bd_sz : Z; cfg_desc_sz : Z;
  cfg_rxdata_handle : Z; cfg_rx_nslots : Z; cfg_rx_buf_size : Z; cfg_rx_desc_sz : Z; cfg_txpool_handle : Z;
}.
Definition trx_fill_data_cfg (d : rtw_dev) (s : trx_state) : rtw_data_cfg :=
  DataCfg (u32 (d_handle (g_txbd s))) (u32 (bd_off (ring_of s RTW_TX_QUEUE_BE)))
    (r_len (ring_of s RTW_TX_QUEUE_BE)) (tx_buf_desc_sz (chip d)) (tx_pkt_desc_sz (chip d))
    (u32 (d_handle (g_rxdata s))) (g_rx_n s) USCAN_RX_BUF_SIZE 24 (u32 (d_handle (g_txpool s))).

Definition trx_free : prog unit :=
  hw_write16 RTK_PCI_RXBD_NUM_MPDUQ 0;;
  hw_write32 RTK_PCI_RXBD_DESA_MPDUQ 0;;
  hw_write8 REG_CR 0;;
  act (PciPower true false);;
  usleep 30000.

(** Only the fields the function clears change: [g_rxbd] and [g_rxdata] have no
    size global, and the bus addresses stay. *)
Definition trx_unload_reset (s : trx_state) : trx_state :=
  let clear b size := Dma 0 (d_paddr b) false size in
  Trx (clear (g_txbd s) 0) (clear (g_pkt s) 0) (clear (g_rxbd s) (d_size (g_rxbd s)))
    (clear (g_rxdata s) (d_size (g_rxdata s))) (clear (g_txpool s) 0) false 0 false
    (map (set_bd None) (g_tx s)).

(** ** Ring layout *)

Lemma align8 x : 0 <= x -> x .& .~ 7 = 8 * (x / 8).
Proof.
  intros Hx. change 7 with (Z.ones 3). rewrite <- Z.ldiff_land, Z.ldiff_ones_r by lia.
  rewrite Z.shiftr_div_pow2, Z.shiftl_mul_pow2 by lia. change (2 ^ 3) with 8. lia.
Qed.

Lemma layout_step_spec bd_sz size rings q desa num :
  0 <= size < 2 ^ 40 -> 0 < bd_sz < 2 ^ 16 ->
  exists size', layout_step bd_sz (size, rings) (q, desa, num)
    = (size', <[q := TxRing (from_option r_bd None (rings !! q)) size (tx_len_for q) 0 0 desa num]> rings)
    /\ size' mod 8 = 0 /\ size + tx_len_for q * bd_sz <= size' < size + tx_len_for q * bd_sz + 8.
Proof.
  intros Hs Hb. unfold layout_step.
  assert (1 <= tx_len_for q <= 256).
  { unfold tx_len_for, RTK_BEQ_TX_DESC_NUM, RTK_DEFAULT_TX_DESC_NUM. repeat case_match; lia. }
  assert (0 <= tx_len_for q * bd_sz < 2 ^ 30) by nia.
  rewrite !(wrap_small 64) by (rewrite ?(wrap_small 64); lia).
  rewrite align8 by lia. eexists. split; [reflexivity|].
  generalize dependent (tx_len_for q * bd_sz). intros n Hn.
  split; [rewrite Z.mul_comm; apply Z.mod_mul; lia|].
  pose proof (Z.div_mod (size + n + 7) 8). pose proof (Z.mod_pos_bound (size + n + 7) 8). lia.
Qed.

(** For every descriptor size the queue rings are laid out 8-byte aligned,
    pairwise disjoint, and inside the one buffer that is allocated for them. *)
Theorem trx_layout_disjoint (bd_sz : Z) (rings : list tx_ring) :
  0 < bd_sz < 2 ^ 16 -> length rings = RTK_MAX_TX_QUEUE_NUM ->
  let '(size, rings') := trx_layout bd_sz rings in
  length rings' = RTK_MAX_TX_QUEUE_NUM /\
  forall q q' r r', rings' !! q = Some r -> rings' !! q' = Some r' ->
    bd_off r mod 8 = 0 /\ r_len r = tx_len_for q /\
    0 <= bd_off r /\ bd_off r + r_len r * bd_sz <= size /\
    (q <> q' -> bd_off r + r_len r * bd_sz <= bd_off r' \/ bd_off r' + r_len r' * bd_sz <= bd_off r).
Proof.
  intros Hb Hl. unfold trx_layout, q_regs.
  do 8 (destruct rings as [|? rings]; [done|]). destruct rings; [|done].
  cbv [RTW_TX_QUEUE_BK RTW_TX_QUEUE_BE RTW_TX_QUEUE_VI RTW_TX_QUEUE_VO RTW_TX_QUEUE_BCN
       RTW_TX_QUEUE_MGMT RTW_TX_QUEUE_HI0 RTW_TX_QUEUE_H2C].
  cbn [foldl].
  do 8 (match goal with |- context [layout_step bd_sz (?s, ?l) (?q, ?a, ?b)] =>
    let s' := fresh "s" in let E := fresh "E" in let M := fresh "M" in let R := fresh "R" in
    destruct (layout_step_spec bd_sz s l q a b) as (s' & E & M & R); [lia|lia|];
    rewrite E; clear E;
    cbv [tx_len_for Nat.eqb RTK_BEQ_TX_DESC_NUM RTK_DEFAULT_TX_DESC_NUM
         RTW_TX_QUEUE_BE RTW_TX_QUEUE_BCN] in R;
    cbn [insert list_insert] end).
  unfold tx_len_for, RTK_BEQ_TX_DESC_NUM, RTK_DEFAULT_TX_DESC_NUM in *. cbn [Nat.eqb] in *.
  split; [done|]. match goal with |- forall q q' r r', ?l !! _ = _ -> _ => set (rs := l) end.
  assert (H1 : forall q r, rs !! q = Some r -> bd_off r mod 8 = 0 /\ r_len r = tx_len_for q /\
    0 <= bd_off r /\ bd_off r + r_len r * bd_sz <= s6).
  { intros q r Hq. destruct q as [|[|[|[|[|[|[|[|q]]]]]]]]; try done; injection Hq as <-;
    cbn [bd_off r_len]; (split; [assumption || reflexivity|]);
    (split_and!; [done|lia|lia]). }
  assert (H2 : forall q q' r r', rs !! q = Some r -> rs !! q' = Some r' -> (q < q')%nat ->
    bd_off r + r_len r * bd_sz <= bd_off r').
  { repeat match goal with M : _ mod 8 = 0 |- _ => clear M end.
    intros q q' r r' Hq Hq' Hlt.
    destruct q as [|[|[|[|[|[|[|[|q]]]]]]]]; try done; injection Hq as <-;
    (destruct q' as [|[|[|[|[|[|[|[|q']]]]]]]]; try done; try (exfalso; lia); injection Hq' as <-);
    cbn [bd_off r_len]; lia. }
  clearbody rs. intros q q' r r' Hq Hq'. destruct (H1 q r Hq) as (?&?&?&?).
  split_and!; try done. intros Hne. destruct (decide (q < q')%nat); [left|right]; eapply H2; eauto; lia.
Qed.

(** ** Memory safety of the whole interface *)

(** The chip's descriptor sizes. *)
Record trx_chip (d : rtw_dev) : Prop := {
  tc_bd : tx_buf_desc_sz (chip d) = 16;
  tc_rxbd : rx_buf_desc_sz (chip d) = 8;
  tc_desc : tx_pkt_desc_sz (chip d) = 48;
}.

(** Offset and length of each queue's ring, in queue order. *)
Definition ring_geom : list (Z * Z) :=
  [(0, 128); (2048, 256); (6144, 128); (8192, 128); (10240, 1); (10256, 128); (12304, 128); (14352, 128)].
Definition rings_size : Z := 16400.

Definition ring_ok (bd : Z -> option (Z * Z)) (g : Z * Z) (r : tx_ring) : Prop :=
  r_bd r = bd g.1 /\ bd_off r = g.1 /\ r_len r = g.2 /\ 0 <= r_wp r < g.2.

(** The state after a successful [trx_init], against the live buffers. *)
Record trx_up (s : trx_state) (m : gmap Z Z) : Prop := {
  tu_txbd : m !! d_handle (g_txbd s) = Some rings_size;
  tu_pkt : d_mapped (g_pkt s) = true /\ d_size (g_pkt s) = 0x2000 /\ m !! d_handle (g_pkt s) = Some 0x2000;
  tu_rings : Forall2 (ring_ok (fun off => Some (d_handle (g_txbd s), off))) ring_geom (g_tx s);
  tu_rx : if g_rx_ok s
          then g_rx_n s ∈ rx_try /\ d_mapped (g_rxdata s) = true /\
               m !! d_handle (g_rxbd s) = Some (g_rx_n s * 8) /\
               m !! d_handle (g_rxdata s) = Some (g_rx_n s * USCAN_RX_BUF_SIZE)
          else True;
  tu_pool : m !! d_handle (g_txpool s) = Some (RTK_BEQ_TX_DESC_NUM * RTW_ETH_SLOT_SIZE);
}.

(** Before it: nothing mapped, no ring pointer. *)
Record trx_down (s : trx_state) : Prop := {
  td_alloced : g_trx_alloced s = false;
  td_bufs : d_mapped (g_txbd s) = false /\ d_mapped (g_pkt s) = false /\ d_mapped (g_txpool s) = false;
  td_len : length (g_tx s) = RTK_MAX_TX_QUEUE_NUM;
  td_bd : Forall (fun r => r_bd r = None) (g_tx s);
  td_rx : g_rx_ok s = false;
}.

Definition trx_inv (s : trx_state) (m : gmap Z Z) : Prop :=
  if g_trx_alloced s then trx_up s m else trx_down s.

Lemma ring_up s m q g : trx_up s m -> ring_geom !! q = Some g ->
  ring_ok (fun off => Some (d_handle (g_txbd s), off)) g (ring_of s q).
Proof.
  intros Hs Hg. destruct (Forall2_lookup_l _ _ _ _ _ (tu_rings s m Hs) Hg) as (r & Hr & Hok).
  unfold ring_of. by rewrite Hr.
Qed.

(** Writing a ring back keeps the invariant. *)
Lemma up_set_ring s m q g w rp :
  trx_up s m -> ring_geom !! q = Some g -> 0 <= w < g.2 ->
  trx_up (set_ring q (set_wp w rp (ring_of s q)) s) m.
Proof.
  intros Hs Hg Hw. destruct (ring_up s m q g Hs Hg) as (H1 & H2 & H3 & H4).
  destruct Hs as [? ? Hr ? ?]. split; try done. cbn.
  assert (Hi : <[q := g]> ring_geom = ring_geom) by by apply list_insert_id.
  rewrite <- Hi. apply Forall2_insert; [done|]. by split.
Qed.

Lemma reset_rings_safe l : forall s m,
  trx_up s m -> Forall (fun e => e.1.1 < 8)%nat l ->
  mem_safe (trx_reset_rings (d_handle (g_txbd s)) s l) m (fun s' m' =>
    m' = m /\ trx_up s' m /\ g_trx_alloced s' = g_trx_alloced s).
Proof.
  induction l as [|[[q a] b] l IH]; intros s m Hs Hl; [by apply mem_safe_ret|].
  apply Forall_cons_1 in Hl as [Hq Hl]. cbn [trx_reset_rings fst] in *.
  destruct (lookup_lt_is_Some_2 ring_geom q) as [g Hg]; [done|].
  assert (Hlen : 0 <= g.1 /\ 0 < g.2 /\ g.1 + 4 <= rings_size).
  { assert (Hf : Forall (fun g => 0 <= g.1 /\ 0 < g.2 /\ g.1 + 4 <= rings_size) ring_geom)
      by (repeat constructor; by vm_compute).
    by apply (Forall_lookup_1 _ _ _ _ Hf Hg). }
  pose proof (up_set_ring s m q g 0 0 Hs Hg ltac:(lia)) as Hs'.
  eapply mem_safe_bind with (R := fun s' m' => m' = m /\ s' = set_ring q (set_wp 0 0 (ring_of s q)) s).
  - unfold trx_reset_ring. apply mem_safe_bind_regs; [by safe_go|]. intros _.
    apply mem_safe_bind_eq; [|intros _; by apply mem_safe_ret].
    apply mem_safe_regdma. destruct (ring_up _ m q g Hs' Hg) as (_ & -> & _).
    eapply in_buf_true; [apply (tu_txbd s m Hs)|lia..].
  - intros s' m' [-> ->]. by apply (IH _ m Hs' Hl).
Qed.

Lemma reset_safe d s m :
  trx_up s m ->
  mem_safe (trx_reset d s) m (fun s' m' =>
    m' = m /\ trx_up s' m /\ g_trx_alloced s' = g_trx_alloced s).
Proof.
  intros Hs. unfold trx_reset.
  do 2 (apply mem_safe_bind_regs; [by safe_go|intros ?]).
  eapply mem_safe_bind.
  { apply reset_rings_safe; [done|]. repeat constructor. }
  intros s' m' (-> & Hs' & Ha). apply mem_safe_bind_eq.
  { pose proof (tu_rx s' m Hs') as Hrx. destruct (g_rx_ok s'); [|by apply mem_safe_ret].
    destruct Hrx as (Hn & _ & Hbd & _). apply mem_safe_bind_regs; [by safe_go|]. intros _.
    apply mem_safe_regdma. eapply in_buf_true; [apply Hbd|done|done|].
    assert (8 <= g_rx_n s'); [|lia].
    assert (Hf : Forall (fun n => 8 <= n) rx_try) by (repeat constructor; by vm_compute).
    rewrite Forall_forall in Hf. by apply Hf, list_elem_of_In. }
  intros _. do 2 (apply mem_safe_bind_regs; [by safe_go|intros ?]).
  by apply mem_safe_ret.
Qed.

Lemma fill_rx_bds_safe rxbd rxdata rx_bd_sz size m k : forall i,
  d_mapped rxbd = true -> m !! d_handle rxbd = Some size -> rx_bd_sz = 8 ->
  0 <= i -> (i + Z.of_nat k) * 8 <= size ->
  mem_safe (fill_rx_bds k rxbd rxdata rx_bd_sz i) m (fun _ m' => m' = m).
Proof.
  induction k as [|k IH]; intros i Hb Hm -> Hi Hk; cbn [fill_rx_bds]; [by apply mem_safe_ret|].
  apply mem_safe_bind_eq; [|intros _; apply IH; try done; lia].
  apply mem_safe_write; [done|]. apply (in_buf_true m _ _ _ size Hm); cbn; lia.
Qed.

(** The receive ring: whatever is granted, the other buffers stay, and the
    state describes what was obtained. *)
Lemma rx_ring_try_safe tries : forall s m,
  Forall (fun n => 0 < n) tries -> (forall n, n ∈ tries -> n ∈ rx_try) -> g_rx_ok s = false ->
  mem_safe (rx_ring_try tries 8 s) m (fun s' m' =>
    m ⊆ m' /\ g_txbd s' = g_txbd s /\ g_pkt s' = g_pkt s /\ g_tx s' = g_tx s /\ g_txpool s' = g_txpool s /\
    g_trx_alloced s' = g_trx_alloced s /\
    (g_rx_ok s' = true ->
      g_rx_n s' ∈ rx_try /\ d_mapped (g_rxdata s') = true /\
      m' !! d_handle (g_rxbd s') = Some (g_rx_n s' * 8) /\
      m' !! d_handle (g_rxdata s') = Some (g_rx_n s' * USCAN_RX_BUF_SIZE))).
Proof.
  induction tries as [|n tries IH]; intros s m Hpos Hin Hrx; cbn [rx_ring_try].
  { apply mem_safe_ret. split_and!; try done. by rewrite Hrx. }
  apply Forall_cons_1 in Hpos as [Hn Hpos].
  assert (Hin' : forall k, k ∈ tries -> k ∈ rx_try) by (intros k Hk; apply Hin; by right).
  eapply mem_safe_bind; [apply mem_safe_alloc|]. intros [[h pa]|] m1; [|by intros ->; apply IH].
  intros [Hh ->]. eapply mem_safe_bind; [apply mem_safe_alloc|].
  intros [[h' pa']|] m2; cbn beta iota.
  - intros [Hh' ->]. apply lookup_insert_None in Hh' as [Hh' Hne].
    set (m2 := <[h' := _]> _).
    assert (Hl : m2 !! h = Some (n * 8)) by (unfold m2; by simplify_map_eq).
    apply mem_safe_bind_eq; [apply mem_safe_set; [done|]|intros _].
    { apply (in_buf_true m2 _ _ _ _ Hl); lia. }
    apply mem_safe_bind_eq; [eapply fill_rx_bds_safe; [done|exact Hl|done|lia|lia]|intros _].
    apply mem_safe_ret. split_and!; try done.
    + unfold m2. transitivity (<[h := n * 8]> m); [by apply insert_subseteq|].
      apply insert_subseteq. by rewrite lookup_insert_ne.
    + intros _. split_and!; [apply Hin; by left|done|done|]. unfold m2. cbn. by simplify_map_eq.
  - intros ->. eapply mem_safe_bind; [apply mem_safe_free; by rewrite lookup_insert_eq|].
    intros _ m3 ->. rewrite delete_insert_id by done.
    eapply mem_safe_mono; [by apply IH|done].
Qed.

Lemma trx_layout_16 rings : length rings = RTK_MAX_TX_QUEUE_NUM ->
  Forall (fun r => r_bd r = None) rings ->
  exists rings', trx_layout 16 rings = (rings_size, rings') /\
    length rings' = RTK_MAX_TX_QUEUE_NUM /\ Forall2 (ring_ok (fun _ => None)) ring_geom rings'.
Proof.
  intros Hl Hbd. do 8 (destruct rings as [|? rings]; [done|]). destruct rings; [|done].
  repeat (apply Forall_cons_1 in Hbd as [? Hbd]).
  eexists. split; [reflexivity|]. split; [done|].
  repeat (apply Forall2_cons; [unfold ring_ok; cbn; split_and!; lia || done|]). constructor.
Qed.

Lemma set_all_bd_ok (f : Z -> option (Z * Z)) (rings : list tx_ring) :
  Forall2 (ring_ok (fun _ => None)) ring_geom rings ->
  Forall2 (ring_ok f) ring_geom (map (fun r => set_bd (f (bd_off r)) r) rings).
Proof.
  intros H. rewrite <- (map_id ring_geom). apply Forall2_fmap_2.
  eapply Forall2_impl; [|apply H]. intros g r (_ & H2 & H3 & H4).
  unfold ring_ok. cbn. by rewrite H2.
Qed.

Lemma down_fail s : length (g_tx s) = RTK_MAX_TX_QUEUE_NUM -> g_rx_ok s = false ->
  g_trx_alloced s = false -> d_mapped (g_txbd s) = false -> d_mapped (g_pkt s) = false ->
  d_mapped (g_txpool s) = false -> trx_down (set_all_bd (fun _ => None) s).
Proof.
  intros Hl Hrx Ha H1 H2 H3. split; try done.
  - cbn. by rewrite length_map.
  - apply Forall_map, Forall_forall. done.
Qed.

Lemma inv_down s m : trx_down s -> trx_inv s m.
Proof. intros Hs. unfold trx_inv. by rewrite (td_alloced s Hs). Qed.

(** Initialisation: on success everything is up; on failure nothing is, and
    every buffer obtained on the way has been returned. *)
Lemma init_safe d s m : trx_chip d -> trx_inv s m ->
  mem_safe (trx_init d s) m (fun '(ret, s') m' =>
    trx_inv s' m' /\
    ((ret = 0 /\ g_trx_alloced s' = true /\ m ⊆ m') \/
     (ret = -1 /\ g_trx_alloced s' = false /\ m' = m))).
Proof.
  intros [Hbd Hrxbd Hdesc] Hinv. unfold trx_init. rewrite Hbd, Hrxbd.
  destruct (g_trx_alloced s) eqn:Ha; unfold trx_inv in Hinv; rewrite Ha in Hinv.
  { eapply mem_safe_bind; [by apply reset_safe|]. intros s' m' (-> & Hs' & Ha').
    apply mem_safe_ret. unfold trx_inv. rewrite Ha', Ha. split; [done|]. by left. }
  destruct Hinv as [_ (D1 & D2 & D3) D4 D5 D6].
  destruct (trx_layout_16 (g_tx s) D4 D5) as (rings & -> & Hlen & Hgeom).
  eapply mem_safe_bind; [apply mem_safe_alloc|].
  assert (Hnone : Forall (fun r => r_bd r = None) rings).
  { apply Forall_lookup. intros q r Hr.
    by destruct (Forall2_lookup_r _ _ _ _ _ Hgeom Hr) as (g & _ & ? & _). }
  intros [[h pa]|] m1; [|intros ->; apply mem_safe_ret; split; [by apply inv_down; split|by right]].
  intros [Hh ->]. apply mem_safe_bind_eq.
  { apply mem_safe_set; [done|]. apply (in_buf_true _ _ _ _ rings_size); cbn; [|done..].
    by rewrite lookup_insert_eq. }
  intros _. eapply mem_safe_bind; [apply mem_safe_alloc|]. intros [[hp pap]|] m2.
  2:{ intros ->. eapply mem_safe_bind; [apply mem_safe_free; by rewrite lookup_insert_eq|].
      intros _ m3 ->. apply mem_safe_ret.
      split; [apply inv_down, down_fail; cbn; rewrite ?length_map; done|].
      right. split_and!; [done|done|by rewrite delete_insert_id]. }
  intros [Hp ->]. pose proof Hp as Hp'. apply lookup_insert_None in Hp' as [Hp1 Hp2].
  eapply mem_safe_bind; [apply mem_safe_alloc|]. intros [[ht pat]|] m3.
  2:{ intros ->. eapply mem_safe_bind; [apply mem_safe_free; by rewrite lookup_insert_eq|].
      intros _ m4 ->. rewrite delete_insert_id by done.
      eapply mem_safe_bind; [apply mem_safe_free; by rewrite lookup_insert_eq|].
      intros _ m4 ->. apply mem_safe_ret.
      split; [apply inv_down, down_fail; cbn; rewrite ?length_map; done|].
      right. split_and!; [done|done|by rewrite delete_insert_id]. }
  intros [Ht ->]. pose proof Ht as Ht'. apply lookup_insert_None in Ht' as [Ht1 Ht2].
  apply lookup_insert_None in Ht1 as [Ht1 Ht3].
  set (pool := _ * RTW_ETH_SLOT_SIZE). set (m3 := <[ht := pool]> _).
  assert (Hm3 : m ⊆ m3 /\ m3 !! h = Some rings_size /\ m3 !! hp = Some 0x2000 /\ m3 !! ht = Some pool).
  { unfold m3. split_and!; [|by simplify_map_eq..].
    transitivity (<[h := rings_size]> m); [by apply insert_subseteq|].
    transitivity (<[hp := 0x2000]> (<[h := rings_size]> m)); by apply insert_subseteq. }
  destruct Hm3 as (Hsub & H3h & H3p & H3t).
  assert (Hpool : pool = RTK_BEQ_TX_DESC_NUM * RTW_ETH_SLOT_SIZE).
  { unfold pool, RTW_TX_QUEUE_BE. cbn.
    destruct rings as [|? [|r rings]]; try done. cbn.
    apply Forall2_cons_1 in Hgeom as [_ Hgeom]. apply Forall2_cons_1 in Hgeom as [(_ & _ & -> & _) _]. done. }
  assert (Hpos : 0 <= pool) by by rewrite Hpool.
  apply mem_safe_bind_eq.
  { apply mem_safe_set; [done|]. apply (in_buf_true _ _ _ _ pool); cbn; [done|lia..]. }
  intros _. eapply mem_safe_bind.
  { apply rx_ring_try_safe; [repeat constructor|done|done]. }
  intros s' m' (Hm' & E1 & E2 & E3 & E4 & _ & Hrx).
  assert (Hup : trx_up (set_alloced true s') m').
  { split; cbn; rewrite ?E1, ?E2, ?E3, ?E4; cbn.
    - by eapply lookup_weaken.
    - split_and!; [done|done|]. by eapply lookup_weaken.
    - apply (set_all_bd_ok (fun off => Some (h, off))), Hgeom.
    - destruct (g_rx_ok s'); [by apply Hrx|done].
    - rewrite <- Hpool. by eapply lookup_weaken. }
  eapply mem_safe_bind; [by apply reset_safe|]. intros s'' m'' (-> & Hs'' & Ha'').
  apply mem_safe_ret. unfold trx_inv. rewrite Ha''. cbn. split; [done|]. left.
  split_and!; [done|done|]. by etransitivity.
Qed.

(** *** The transmit leaves *)

(** A write inside the packet buffer. *)
Lemma pkt_write_safe s m off bs :
  trx_up s m -> 0 <= off -> off + Z.of_nat (length bs) <= 0x2000 ->
  mem_safe (mem_write (g_pkt s) off bs) m (fun _ m' => m' = m).
Proof.
  intros Hs H1 H2. destruct (tu_pkt s m Hs) as (Hm & _ & Hl).
  apply mem_safe_write; [done|]. eapply in_buf_true; [exact Hl|lia..].
Qed.
Lemma pkt_set_safe s m n :
  trx_up s m -> 0 <= n <= 0x2000 -> mem_safe (mem_set (g_pkt s) 0 n 0) m (fun _ m' => m' = m).
Proof.
  intros Hs H1. destruct (tu_pkt s m Hs) as (Hm & _ & Hl).
  apply mem_safe_set; [done|]. eapply in_buf_true; [exact Hl|lia..].
Qed.
Lemma put_w_safe s m i v : trx_up s m -> 0 <= i < 12 -> mem_safe (put_w s i v) m (fun _ m' => m' = m).
Proof. intros Hs Hi. apply pkt_write_safe; [done|lia|]. cbn. lia. Qed.

Lemma bd_write_safe s m q g off bs :
  trx_up s m -> ring_geom !! q = Some g -> 0 <= off -> off + Z.of_nat (length bs) <= g.2 * 16 ->
  mem_safe (bd_write (ring_of s q) off bs) m (fun _ m' => m' = m).
Proof.
  intros Hs Hg H1 H2. unfold bd_write. destruct (ring_up s m q g Hs Hg) as (-> & _).
  assert (Hf : Forall (fun g => 0 <= g.1 /\ g.1 + g.2 * 16 <= rings_size) ring_geom)
    by (repeat constructor; by vm_compute).
  apply (Forall_lookup_1 _ _ _ _ Hf) in Hg. apply mem_safe_memwrite.
  eapply in_buf_true; [apply (tu_txbd s m Hs)|lia..].
Qed.

(** Sending on a queue: the state afterwards is the same but for the write
    pointer, which has advanced around the ring. *)
Definition sent (q : nat) (s s' : trx_state) : Prop :=
  s' = set_ring q (set_wp ((r_wp (ring_of s q) + 1) mod r_len (ring_of s q))
                          (r_rp (ring_of s q)) (ring_of s q)) s.

Lemma submit_safe s m q g doorbell desc_sz len :
  trx_up s m -> ring_geom !! q = Some g ->
  mem_safe (trx_submit s q doorbell desc_sz len) m (fun '(ret, s') m' =>
    m' = m /\ ret = 0 /\ sent q s s' /\ trx_up s' m).
Proof.
  intros Hs Hg. unfold trx_submit.
  destruct (ring_up s m q g Hs Hg) as (H1 & H2 & H3 & H4).
  apply mem_safe_bind_eq; [eapply bd_write_safe; [done|done|lia|cbn; lia]|]. intros _.
  apply mem_safe_bind_regs; [by safe_go|]. intros _. apply mem_safe_ret.
  split_and!; [done|done|done|]. eapply up_set_ring; [done|done|].
  rewrite H3. apply Z.mod_pos_bound. lia.
Qed.

Lemma ring_ready_down s q : trx_down s -> ring_ready s q = false.
Proof. intros [_ (_ & H & _) _ _]. unfold ring_ready. by rewrite H. Qed.

Definition leaf_post (q : nat) (s : trx_state) (m : gmap Z Z) (x : Z * trx_state) (m' : gmap Z Z) : Prop :=
  m' = m /\ ((x.1 = -1 /\ x.2 = s) \/ (x.1 = 0 /\ sent q s x.2 /\ trx_up x.2 m)).

(** The steps all leaves share, once the guards have passed. *)
Ltac leaf_tac Hs :=
  repeat first
    [ apply mem_safe_bind_eq; [first [apply put_w_safe; [exact Hs|lia]
        | apply pkt_set_safe; [exact Hs|lia]
        | apply pkt_write_safe; [exact Hs|lia|lia]]|intros _] ];
  eapply mem_safe_mono; [eapply submit_safe; [exact Hs|reflexivity]|
    intros [ret s'] m' (-> & -> & Hsent & Hup); split; [done|by right]].

Lemma guard_fits s m n : trx_up s m -> (d_size (g_pkt s) <? u32 n) = false ->
  0 <= n < 2 ^ 32 -> n <= 0x2000.
Proof. intros Hs. destruct (tu_pkt s m Hs) as (_ & -> & _). intros H Hn. rewrite u32_small in H; lia. Qed.

Lemma tx_mgmt_safe d s m frame rate bmc :
  trx_chip d -> trx_inv s m -> Z.of_nat (length frame) < 2 ^ 31 ->
  mem_safe (trx_tx_mgmt d s frame rate bmc) m (leaf_post RTW_TX_QUEUE_MGMT s m).
Proof.
  intros Hd Hinv Hf. unfold trx_tx_mgmt. rewrite (tc_desc d Hd).
  destruct (ring_ready s _) eqn:Hr; cbn [negb]; [|apply mem_safe_ret; split; auto].
  destruct (d_size (g_pkt s) <? _) eqn:Hsz; [apply mem_safe_ret; split; auto|].
  unfold trx_inv in Hinv. destruct (g_trx_alloced s); [|by rewrite ring_ready_down in Hr].
  pose proof (guard_fits s m _ Hinv Hsz ltac:(lia)). leaf_tac Hinv.
Qed.

Lemma tx_data_safe d s m frame rate :
  trx_chip d -> trx_inv s m -> Z.of_nat (length frame) < 2 ^ 31 ->
  mem_safe (trx_tx_data d s frame rate) m (leaf_post RTW_TX_QUEUE_BE s m).
Proof.
  intros Hd Hinv Hf. unfold trx_tx_data. rewrite (tc_desc d Hd).
  destruct (ring_ready s _) eqn:Hr; cbn [negb]; [|apply mem_safe_ret; split; auto].
  destruct (d_size (g_pkt s) <? _) eqn:Hsz; [apply mem_safe_ret; split; auto|].
  unfold trx_inv in Hinv. destruct (g_trx_alloced s); [|by rewrite ring_ready_down in Hr].
  pose proof (guard_fits s m _ Hinv Hsz ltac:(lia)). leaf_tac Hinv.
Qed.

Lemma tx_h2c_safe d s m pkt :
  trx_chip d -> trx_inv s m ->
  mem_safe (trx_tx_h2c d s pkt) m (leaf_post RTW_TX_QUEUE_H2C s m).
Proof.
  intros Hd Hinv. unfold trx_tx_h2c. rewrite (tc_desc d Hd).
  destruct (ring_ready s _) eqn:Hr; cbn [negb]; [|apply mem_safe_ret; split; auto].
  destruct (d_size (g_pkt s) <? _) eqn:Hsz; [apply mem_safe_ret; split; auto|].
  unfold trx_inv in Hinv. destruct (g_trx_alloced s); [|by rewrite ring_ready_down in Hr].
  assert (length (take 32 pkt) <= 32)%nat by (rewrite length_take; lia). leaf_tac Hinv.
Qed.

Lemma rsvd_safe d s m buf :
  trx_chip d -> trx_up s m -> Z.of_nat (length buf) < 2 ^ 31 ->
  mem_safe (trx_write_data_rsvd_page d s buf) m (fun '(ret, s') m' =>
    m' = m /\ trx_up s' m /\ g_trx_alloced s' = g_trx_alloced s /\ (ret = -1 \/ ret = 0)).
Proof.
  intros Hd Hs Hf. unfold trx_write_data_rsvd_page. rewrite (tc_desc d Hd).
  destruct (d_size (g_pkt s) <? _) eqn:Hsz; [apply mem_safe_ret; auto|].
  pose proof (guard_fits s m _ Hs Hsz ltac:(lia)).
  pose proof (up_set_ring s m RTW_TX_QUEUE_BCN (10240, 1) 0 0 Hs eq_refl ltac:(simpl; lia)) as Hs'.
  repeat (apply mem_safe_bind_eq; [first [apply put_w_safe; [exact Hs|lia]
        | apply pkt_set_safe; [exact Hs|lia]
        | apply pkt_write_safe; [exact Hs|lia|lia]]|intros _]).
  apply mem_safe_bind_eq; [eapply bd_write_safe; [exact Hs'|reflexivity|lia|cbn; lia]|intros _].
  do 2 (apply mem_safe_bind_regs; [by safe_go|intros ?]). apply mem_safe_ret. auto.
Qed.

(** *** Any sequence of calls *)

Inductive trx_op :=
| OInit
| ORsvd (buf : list Z)
| OMgmt (frame : list Z) (rate : Z) (bmc : bool)
| OData (frame : list Z) (rate : Z)
| OH2c (pkt : list Z)
| OSetHost (rp : Z)
| OFree.

Definition trx_op_ok (o : trx_op) : Prop :=
  match o with
  | ORsvd f | OMgmt f _ _ | OData f _ => Z.of_nat (length f) < 2 ^ 31
  | _ => True
  end.

(** A reserved page is written only once [trx_init] has returned 0, as
    [rtw_kctl_connect] (server/kctl.c) sees to; the other calls come at any
    time. *)
Definition trx_do (d : rtw_dev) (s : trx_state) (o : trx_op) : prog trx_state :=
  match o with
  | OInit => '(_, s) ← trx_init d s; mret s
  | ORsvd buf => if g_trx_alloced s then '(_, s) ← trx_write_data_rsvd_page d s buf; mret s else mret s
  | OMgmt f rate bmc => '(_, s) ← trx_tx_mgmt d s f rate bmc; mret s
  | OData f rate => '(_, s) ← trx_tx_data d s f rate; mret s
  | OH2c pkt => '(_, s) ← trx_tx_h2c d s pkt; mret s
  | OSetHost rp => trx_rx_set_host_idx rp;; mret s
  | OFree => trx_free;; mret s
  end.
Fixpoint trx_session (d : rtw_dev) (s : trx_state) (os : list trx_op) : prog trx_state :=
  match os with
  | [] => mret s
  | o :: os => s ← trx_do d s o; trx_session d s os
  end.

Lemma leaf_inv q s m x m' : leaf_post q s m x m' -> trx_inv s m -> m' = m /\ trx_inv x.2 m'.
Proof.
  intros [-> [[_ ->]|(_ & Hsent & Hup)]] Hinv; [done|]. split; [done|].
  unfold trx_inv in *. rewrite Hsent. cbn. rewrite Hsent in Hup.
  destruct (g_trx_alloced s); [done|].
  destruct Hinv as [_ (_ & H & _) _ _ _]. destruct (tu_pkt _ _ Hup) as (H' & _). cbn in H'. congruence.
Qed.

Lemma trx_do_safe d s m o : trx_chip d -> trx_op_ok o -> trx_inv s m ->
  mem_safe (trx_do d s o) m (fun s' m' => trx_inv s' m' /\ m ⊆ m').
Proof.
  intros Hd Ho Hinv. destruct o as [|buf|f rate bmc|f rate|pkt|rp|]; cbn [trx_do trx_op_ok] in *.
  - eapply mem_safe_bind; [by apply init_safe|]. intros [ret s'] m' [Hi H]. apply mem_safe_ret.
    split; [done|]. by destruct H as [(_ & _ & ?)|(_ & _ & ->)].
  - destruct (g_trx_alloced s) eqn:Ha; [|by apply mem_safe_ret].
    unfold trx_inv in Hinv; rewrite Ha in Hinv.
    eapply mem_safe_bind; [by apply rsvd_safe|]. intros [ret s'] m' (-> & Hs & Ha' & _).
    apply mem_safe_ret. unfold trx_inv. by rewrite Ha', Ha.
  - eapply mem_safe_bind; [by apply tx_mgmt_safe|]. intros [ret s'] m' H.
    apply leaf_inv in H as [-> H]; [|done]. by apply mem_safe_ret.
  - eapply mem_safe_bind; [by apply tx_data_safe|]. intros [ret s'] m' H.
    apply leaf_inv in H as [-> H]; [|done]. by apply mem_safe_ret.
  - eapply mem_safe_bind; [by apply tx_h2c_safe|]. intros [ret s'] m' H.
    apply leaf_inv in H as [-> H]; [|done]. by apply mem_safe_ret.
  - unfold trx_rx_set_host_idx. apply mem_safe_bind_regs; [by safe_go|]. intros _. by apply mem_safe_ret.
  - unfold trx_free, usleep. apply mem_safe_bind_regs; [|intros _; by apply mem_safe_ret].
    do 3 (apply safe_bind_any; [by safe_go|intros _]).
    apply safe_bind_any; [by apply (safe_op _ (PciPower _ _))|intros _]. by apply (safe_op _ (Udelay _)).
Qed.

(** From the state at load, no sequence of initialisations, transmissions,
    receive acknowledgements and shutdowns ever writes or arms DMA outside a
    live buffer, and no buffer that was live is ever lost. *)
Theorem trx_session_mem_safe (d : rtw_dev) (os : list trx_op) (m : gmap Z Z) :
  trx_chip d -> Forall trx_op_ok os ->
  mem_safe (trx_session d trx_state0 os) m (fun s' m' => trx_inv s' m' /\ m ⊆ m').
Proof.
  intros Hd Hos. assert (Hi : trx_inv trx_state0 m) by (by apply inv_down; split; repeat constructor).
  revert Hi. generalize trx_state0 as s. revert m.
  induction Hos as [|o os Ho _ IH]; intros m s Hi; cbn [trx_session]; [by apply mem_safe_ret|].
  eapply mem_safe_bind; [by apply trx_do_safe|]. intros s' m' [Hi' Hm].
  eapply mem_safe_mono; [by apply IH|]. intros s'' m'' [? ?]. split; [done|by etransitivity].
Qed.

(** *** Allocate once *)

Definition no_alloc (o : hwop) : bool :=
  match o with DmaAlloc _ | DmaFree _ => false | _ => true end.

Lemma reset_rings_no_alloc h l : forall s,
  safe no_alloc (trx_reset_rings h s l) (fun s' => g_trx_alloced s' = g_trx_alloced s).
Proof.
  induction l as [|[[q a] b] l IH]; intros s; cbn [trx_reset_rings]; [by apply safe_ret|].
  eapply safe_bind with (R := fun s' => g_trx_alloced s' = g_trx_alloced s).
  - unfold trx_reset_ring. apply safe_bind_any; [by safe_go|]. intros _.
    apply safe_bind_any; [by apply (safe_op _ (RegWriteDma _ _ _ _))|]. intros _. by apply safe_ret.
  - intros s' <-. apply IH.
Qed.

Lemma reset_no_alloc d s :
  safe no_alloc (trx_reset d s) (fun s' => g_trx_alloced s' = g_trx_alloced s).
Proof.
  unfold trx_reset. do 2 (apply safe_bind_any; [by safe_go|intros ?]).
  eapply safe_bind; [apply reset_rings_no_alloc|]. intros s' <-.
  apply safe_bind_any.
  { destruct (g_rx_ok s'); [|by apply safe_ret]. apply safe_bind_any; [by safe_go|].
    intros _. by apply (safe_op _ (RegWriteDma _ _ _ _)). }
  intros _. do 2 (apply safe_bind_any; [by safe_go|intros ?]). by apply safe_ret.
Qed.

Lemma safe_fault P : P Fault = true -> safe P fault (fun _ => True).
Proof. intros HP. unfold fault. apply safe_bind_any; [by apply (safe_op _ Fault)|]. by safe_go. Qed.
Lemma safe_mem_write P b off bs :
  P (MemWrite (d_handle b) off bs) = true -> P Fault = true -> safe P (mem_write b off bs) (fun _ => True).
Proof.
  intros H1 H2. unfold mem_write. destruct (d_mapped b); [by apply (safe_op _ (MemWrite _ _ _))|by apply safe_fault].
Qed.
Lemma safe_mem_set P b off n v :
  P (MemSet (d_handle b) off n v) = true -> P Fault = true -> safe P (mem_set b off n v) (fun _ => True).
Proof.
  intros H1 H2. unfold mem_set. destruct (d_mapped b); [by apply (safe_op _ (MemSet _ _ _ _))|by apply safe_fault].
Qed.

Lemma submit_no_alloc s q db desc_sz len :
  safe no_alloc (trx_submit s q db desc_sz len) (fun x => g_trx_alloced x.2 = g_trx_alloced s).
Proof.
  unfold trx_submit, bd_write. apply safe_bind_any.
  - destruct (r_bd _) as [[h base]|]; [by apply (safe_op _ (MemWrite _ _ _))|by apply safe_fault].
  - intros _. apply safe_bind_any; [by safe_go|]. intros _. by apply safe_ret.
Qed.

Lemma trx_do_no_alloc d s o : g_trx_alloced s = true ->
  safe no_alloc (trx_do d s o) (fun s' => g_trx_alloced s' = true).
Proof.
  intros Ha.
  assert (Hx : forall p : prog (Z * trx_state),
    safe no_alloc p (fun x => g_trx_alloced x.2 = g_trx_alloced s) ->
    safe no_alloc ('(_, s') ← p; mret s') (fun s' => g_trx_alloced s' = true)).
  { intros p Hp. eapply safe_bind; [apply Hp|]. intros [r s'] H. apply safe_ret. cbn in H. congruence. }
  assert (Hm : forall b off bs, safe no_alloc (mem_write b off bs) (fun _ => True)) by (intros; by apply safe_mem_write).
  assert (Hs : forall b off n v, safe no_alloc (mem_set b off n v) (fun _ => True)) by (intros; by apply safe_mem_set).
  destruct o as [|buf|f rate bmc|f rate|pkt|rp|]; cbn [trx_do]; rewrite ?Ha; try apply Hx.
  - unfold trx_init. rewrite Ha. eapply safe_bind; [apply reset_no_alloc|].
    intros s' Hs'. apply safe_ret. cbn. congruence.
  - unfold trx_write_data_rsvd_page. destruct (_ <? _); [by apply safe_ret|].
    do 5 (apply safe_bind_any; [apply Hm || apply Hs|intros _]).
    apply safe_bind_any.
    { unfold bd_write. destruct (r_bd _) as [[h base]|]; [by apply (safe_op _ (MemWrite _ _ _))|by apply safe_fault]. }
    intros _. do 2 (apply safe_bind_any; [by safe_go|intros ?]). by apply safe_ret.
  - unfold trx_tx_mgmt. destruct (negb _); [by apply safe_ret|]. destruct (_ <? _); [by apply safe_ret|].
    do 7 (apply safe_bind_any; [apply Hm || apply Hs|intros _]). apply submit_no_alloc.
  - unfold trx_tx_data. destruct (negb _); [by apply safe_ret|]. destruct (_ <? _); [by apply safe_ret|].
    do 7 (apply safe_bind_any; [apply Hm || apply Hs|intros _]). apply submit_no_alloc.
  - unfold trx_tx_h2c. destruct (negb _); [by apply safe_ret|]. destruct (_ <? _); [by apply safe_ret|].
    do 4 (apply safe_bind_any; [apply Hm || apply Hs|intros _]). apply submit_no_alloc.
  - unfold trx_rx_set_host_idx. apply safe_bind_any; [by safe_go|]. intros _. by apply safe_ret.
  - unfold trx_free, usleep. apply safe_bind_any; [|intros _; by apply safe_ret].
    do 3 (apply safe_bind_any; [by safe_go|intros _]).
    apply safe_bind_any; [by apply (safe_op _ (PciPower _ _))|intros _]. by apply (safe_op _ (Udelay _)).
Qed.

(** Once the buffers are allocated no call, in any sequence and whatever the
    bridge answers, allocates or frees a DMA buffer again. *)
Theorem trx_allocate_once (d : rtw_dev) (s : trx_state) (os : list trx_op) :
  g_trx_alloced s = true ->
  forall (W : Type) (dev : Device W) (w : W),
    Forall (fun o => no_alloc o = true) (ops (exec (trx_session d s os) w)).
Proof.
  intros Ha W dev w.
  assert (H : safe no_alloc (trx_session d s os) (fun s' => g_trx_alloced s' = true));
    [|by apply (safe_exec _ _ _ _ H)].
  revert s Ha. induction os as [|o os IH]; intros s Ha; cbn [trx_session]; [by apply safe_ret|].
  eapply safe_bind; [by apply trx_do_no_alloc|]. intros s' Hs'. by apply IH.
Qed.

(** *** The calls the queue leaves make *)

(** Writes of the shared buffers, and the three doorbells. *)
Definition leaf_call (o : hwop) : bool :=
  match o with
  | MemWrite _ _ _ | MemSet _ _ _ _ | Fault => true
  | Write W16 a _ => (a =? RTK_PCI_TXBD_IDX_MGMTQ) || (a =? RTK_PCI_TXBD_IDX_BEQ) || (a =? RTK_PCI_TXBD_IDX_H2CQ)
  | _ => false
  end.

Lemma submit_calls s q db desc_sz len : leaf_call (Write W16 db 0) = true ->
  safe leaf_call (trx_submit s q db desc_sz len) (fun _ => True).
Proof.
  intros Hdb. unfold trx_submit, bd_write. apply safe_bind_any.
  - destruct (r_bd _) as [[h base]|]; [by apply (safe_op _ (MemWrite _ _ _))|by apply safe_fault].
  - intros _. apply safe_bind_any; [by apply safe_write16|]. intros _. by apply safe_ret.
Qed.

Lemma leaf_mem_calls b off bs : safe leaf_call (mem_write b off bs) (fun _ => True).
Proof. by apply safe_mem_write. Qed.
Lemma leaf_set_calls b off n v : safe leaf_call (mem_set b off n v) (fun _ => True).
Proof. by apply safe_mem_set. Qed.

Ltac leaf_calls_tac :=
  destruct (negb _); [by apply safe_ret|]; destruct (_ <? _); [by apply safe_ret|];
  repeat (apply safe_bind_any; [first [apply leaf_mem_calls|apply leaf_set_calls]|intros _]);
  by apply submit_calls.

Lemma tx_mgmt_calls d s frame rate bmc : safe leaf_call (trx_tx_mgmt d s frame rate bmc) (fun _ => True).
Proof. unfold trx_tx_mgmt. leaf_calls_tac. Qed.
Lemma tx_data_calls d s frame rate : safe leaf_call (trx_tx_data d s frame rate) (fun _ => True).
Proof. unfold trx_tx_data. leaf_calls_tac. Qed.
Lemma tx_h2c_calls d s pkt : safe leaf_call (trx_tx_h2c d s pkt) (fun _ => True).
Proof. unfold trx_tx_h2c. leaf_calls_tac. Qed.

(** ** Witnesses *)

Lemma trx_layout_disjoint_witness :
  let '(size, rings') := trx_layout 16 (g_tx trx_state0) in
  length rings' = RTK_MAX_TX_QUEUE_NUM /\
  forall q q' r r', rings' !! q = Some r -> rings' !! q' = Some r' ->
    bd_off r mod 8 = 0 /\ r_len r = tx_len_for q /\
    0 <= bd_off r /\ bd_off r + r_len r * 16 <= size /\
    (q <> q' -> bd_off r + r_len r * 16 <= bd_off r' \/ bd_off r' + r_len r' * 16 <= bd_off r).
Proof. apply (trx_layout_disjoint 16 (g_tx trx_state0)); [lia|reflexivity]. Defined.

Lemma trx_session_mem_safe_witness :
  mem_safe (trx_session (example_dev [] []) trx_state0 [OInit; OData [1; 2; 3] 4; OFree; OInit; ORsvd [0]])
    ∅ (fun s' m' => trx_inv s' m' /\ ∅ ⊆ m').
Proof.
  apply (trx_session_mem_safe (example_dev [] []) [OInit; OData [1; 2; 3] 4; OFree; OInit; ORsvd [0]] ∅).
  - by constructor.
  - repeat constructor.
Defined.

(** A run of the initialisation on a device that grants fresh handles. *)
#[local] Instance bump_dev : Device Z := fun o w =>
  match o as o return hwres o * Z with
  | DmaAlloc n => (Some (w, 4096 * w), w + 1)
  | o => (hw_default o, w)
  end.
Definition trx_up_example : trx_state :=
  (result (exec (trx_init (example_dev [] []) trx_state0) (1 : Z))).2.

Lemma trx_allocate_once_witness :
  g_trx_alloced trx_up_example = true /\
  Forall (fun o => no_alloc o = true)
    (ops (exec (trx_session (example_dev [] []) trx_up_example [OInit; OH2c (replicate 32 0)]) (9 : Z))).
Proof.
  split; [by vm_compute|].
  apply (trx_allocate_once (example_dev [] []) trx_up_example [OInit; OH2c (replicate 32 0)]).
  by vm_compute.
Defined.

(** The buffers live after it. *)
Definition mem_example : gmap Z Z :=
  <[1 := rings_size]> (<[2 := 0x2000]> (<[3 := RTK_BEQ_TX_DESC_NUM * RTW_ETH_SLOT_SIZE]> (<[4 := 64 * 8]> (<[5 := 64 * USCAN_RX_BUF_SIZE]> ∅)))).

Lemma trx_up_example_ok : trx_up trx_up_example mem_example.
Proof.
  split.
  - by vm_compute.
  - by vm_compute.
  - apply (bool_decide_unpack _). by vm_compute.
  - vm_compute. split_and!; try done. by left.
  - by vm_compute.
Qed.
