(* ===== verification/Rx.v ===== *)
(** * Rx: draining the receive ring (the loops of core/scan.c, core/assoc.c and
    core/wpa.c)

    The three files drain the ring with the same loop: from the driver's read
    index to the chip's write index, looking into each slot, wrapping at the
    ring's depth.  Proved: for a chip whose index stays below the depth the loop
    ends after visiting exactly the slots between the two indices, in order, and
    every access stays inside the receive pool. *)
From stdpp Require Import gmap.
From S2P Require Import Prelude Hw Regs Dev Trx.
Open Scope Z_scope.
Open Scope rtw_scope.

(** ** Slots *)

(** An address inside a mapped buffer: a handle and an offset. *)
Definition addr_plus (p : Z * Z) (n : Z) : Z * Z := (p.1, p.2 + n).
Definition slot_bytes (p : Z * Z) (i n : Z) : prog (list Z) := mem_read p.1 (p.2 + i) n.
Definition slot8 (p : Z * Z) (i : Z) : prog Z := b ← slot_bytes p i 1; mret b.[0%nat].
Definition slot32 (p : Z * Z) (i : Z) : prog Z :=
  b ← slot_bytes p i 4; mret (word32 b.[0%nat] b.[1%nat] b.[2%nat] b.[3%nat]).

(** Word 0 of the receive descriptor, and where it puts the frame. *)
Definition RX_PKT_DESC_SZ : Z := 24.
Definition rx_pkt_len (w0 : Z) : Z := w0 .& 0x3fff.
Definition rx_drv_info (w0 : Z) : Z := (w0 >> 16) .& 0xf.
Definition rx_shift (w0 : Z) : Z := (w0 >> 24) .& 0x3.
Definition rx_error (w0 : Z) : bool := nz (w0 .& (BIT 14 .| BIT 15)).
Definition rx_frame (buf : Z * Z) (w0 : Z) : Z * Z :=
  addr_plus buf (RX_PKT_DESC_SZ + rx_shift w0 + rx_drv_info w0 * 8).

(** Frame control: the two bytes, then type and subtype. *)
Definition frame_control (f : Z * Z) : prog Z :=
  b0 ← slot8 f 0; b1 ← slot8 f 1; mret (u16 (b0 .| (b1 << 8))).
Definition fc_type (fc : Z) : Z := (fc >> 2) .& 0x3.
Definition fc_subtype (fc : Z) : Z := (fc >> 4) .& 0xf.

(** [memcpy] of [bs] into an array of [room] bytes. *)
Definition copy_out (room : Z) (bs : list Z) : prog (list Z) :=
  (if room <? Z.of_nat (length bs) then act Fault;; mret tt else mret tt);; mret bs.

(** ** The loop *)

(** [(rp + 1) % n] divides by the ring's depth. *)
Definition rp_next (n rp : Z) : prog Z := if n =? 0 then act Fault else mret ((rp + 1) mod n).

(** What a slot's visit decides: go on with the new accumulator, or stop. *)
Inductive visit (A R : Type) := Go (a : A) | Stop (r : R).
Arguments Go {A R} a.
Arguments Stop {A R} r.

(** [while (rp != hw)] from read index [rp]; a visit that stops leaves with the
    index already past its slot.  [fuel] is one more than the ring is deep: a
    loop that has gone all the way round never meets [hw] (the chip's index is
    beyond the ring), and hangs. *)
Fixpoint rx_drain {A R : Type} (fuel : nat) (s : trx_state) (look : Z -> A -> prog (visit A R))
    (hw rp : Z) (a : A) : prog (visit A R * Z) :=
  if rp =? hw then mret (Go a, rp) else
  match fuel with
  | O => act Hang;; mret (Go a, rp)
  | S fuel =>
      v ← look rp a;
      rp ← rp_next (trx_rx_count s) rp;
      match v with
      | Stop r => mret (Stop r, rp)
      | Go a => rx_drain fuel s look hw rp a
      end
  end.
Definition drain_fuel (s : trx_state) : nat := S (Z.to_nat (trx_rx_count s)).

(** Look into the slot at [rp] if the pool is mapped. *)
Definition at_slot {A R} (s : trx_state) (f : Z * Z -> A -> prog (visit A R)) (rp : Z) (a : A)
    : prog (visit A R) :=
  match trx_rx_slot_buf s rp with
  | Some buf => f buf a
  | None => mret (Go a)
  end.

(** The receivers' poll loop: [k] rounds of a 5 ms pause, a drain and the new
    read index, each if [until] does not hold of the accumulator yet. *)
Fixpoint poll_ring {A R : Type} (k : nat) (s : trx_state) (look : Z * Z -> A -> prog (visit A R))
    (until : A -> bool) (rp : Z) (a : A) : prog (visit A R * Z) :=
  match k with
  | O => mret (Go a, rp)
  | S k =>
      if until a then mret (Go a, rp) else
      usleep_range 5000 5000;;
      hw ← trx_rx_hw_idx;
      '(v, rp) ← rx_drain (drain_fuel s) s (at_slot s look) hw rp a;
      trx_rx_set_host_idx rp;;
      match v with
      | Stop r => mret (Stop r, rp)
      | Go a => poll_ring k s look until rp a
      end
  end.
(** [for (t = 0; t < ms; t += 5)] *)
Definition poll_rounds (ms : Z) : nat := Z.to_nat ((ms + 4) / 5).

(** ** What stopped a receiver *)

(** Somewhere in the log, a visit of a slot stopped with [r]. *)
Definition stopped_in {A R} (look : Z * Z -> A -> prog (visit A R)) (t : list event) (r : R) : Prop :=
  exists t1 t2 t3 buf a, t = t1 ++ t2 ++ t3 /\ runs (look buf a) t2 (Stop r).

Section Stopped.
Context {A R : Type} (look : Z * Z -> A -> prog (visit A R)).
Lemma stopped_left t t' r : stopped_in look t r -> stopped_in look (t ++ t') r.
Proof. intros (t1 & t2 & t3 & buf & a & -> & H). exists t1, t2, (t3 ++ t'), buf, a. by rewrite <- !app_assoc. Qed.
Lemma stopped_right t t' r : stopped_in look t' r -> stopped_in look (t ++ t') r.
Proof. intros (t1 & t2 & t3 & buf & a & -> & H). exists (t ++ t1), t2, t3, buf, a. by rewrite <- !app_assoc. Qed.

Lemma drain_stopped s hw r : forall fuel rp a rp' t, runs (rx_drain fuel s (at_slot s look) hw rp a) t (Stop r, rp') -> stopped_in look t r.
Proof.
  induction fuel as [|fuel IH]; intros rp a rp' t Hr; cbn [rx_drain] in Hr; (destruct (rp =? hw); [by apply runs_ret in Hr as [_ [=]]|]).
  - apply runs_bind in Hr as (t1 & t2 & x & _ & _ & Hr). by apply runs_ret in Hr as [_ [=]].
  - apply runs_bind in Hr as (t1 & t2 & v & -> & Hv & Hr). apply runs_bind in Hr as (t3 & t4 & rp1 & -> & _ & Hr).
    destruct v as [a1|r1]; [apply stopped_right, stopped_right; by eapply IH|]. apply runs_ret in Hr as [-> [= -> ->]].
    apply stopped_left. unfold at_slot in Hv. destruct (trx_rx_slot_buf s rp) as [buf|]; [|by apply runs_ret in Hv as [_ [=]]].
    exists [], t1, [], buf, a. by rewrite app_nil_r.
Qed.
Lemma poll_stopped s until r : forall k rp a rp' t, runs (poll_ring k s look until rp a) t (Stop r, rp') -> stopped_in look t r.
Proof.
  induction k as [|k IH]; intros rp a rp' t Hr; cbn [poll_ring] in Hr; [by apply runs_ret in Hr as [_ [=]]|]. destruct (until a); [by apply runs_ret in Hr as [_ [=]]|].
  apply runs_bind in Hr as (t1 & t2 & [] & -> & _ & Hr). apply runs_bind in Hr as (t3 & t4 & hw & -> & _ & Hr).
  apply runs_bind in Hr as (t5 & t6 & [v rp1] & -> & Hv & Hr). apply runs_bind in Hr as (t7 & t8 & [] & -> & _ & Hr).
  do 2 apply stopped_right. destruct v as [a1|r1]; [apply stopped_right, stopped_right; by eapply IH|].
  apply runs_ret in Hr as [-> [= -> ->]]. apply stopped_left. by eapply drain_stopped.
Qed.
End Stopped.

(** ** The slots a drain visits *)

(** From [rp] to [hw] around a ring of [n]. *)
Definition ring_dist (n rp hw : Z) : nat := Z.to_nat ((hw - rp) mod n).
Definition ring_slots (n rp hw : Z) : list Z :=
  map (fun k => (rp + Z.of_nat k) mod n) (seq 0 (ring_dist n rp hw)).

(** Visit a list of slots until one stops; the read index follows the slot. *)
Fixpoint visit_slots {A R} (n : Z) (look : Z -> A -> prog (visit A R)) (l : list Z) (hw : Z) (a : A)
    : prog (visit A R * Z) :=
  match l with
  | [] => mret (Go a, hw)
  | rp :: l =>
      v ← look rp a;
      match v with
      | Stop r => mret (Stop r, (rp + 1) mod n)
      | Go a => visit_slots n look l hw a
      end
  end.

Lemma ring_dist_zero n rp hw : 0 <= rp < n -> 0 <= hw < n -> rp = hw <-> ring_dist n rp hw = 0%nat.
Proof.
  intros Hr Hh. unfold ring_dist. split; [intros ->; by rewrite Z.sub_diag, Z.mod_0_l by lia|].
  intros H. assert (Hm : (hw - rp) mod n = 0) by (pose proof (Z.mod_pos_bound (hw - rp) n); lia).
  apply Z.mod_divide in Hm as [k Hk]; [|lia].
  assert (Hlt : k < 1) by nia. assert (Hgt : -1 < k) by nia. assert (k = 0) as -> by lia. lia.
Qed.

Lemma ring_dist_next n rp hw : 0 <= rp < n -> 0 <= hw < n -> rp <> hw ->
  ring_dist n rp hw = S (ring_dist n ((rp + 1) mod n) hw).
Proof.
  intros Hr Hh Hne. pose proof (ring_dist_zero n rp hw Hr Hh) as Hz. unfold ring_dist in *.
  rewrite Zminus_mod_idemp_r. replace (hw - (rp + 1)) with (hw - rp - 1) by lia.
  pose proof (Z.mod_pos_bound (hw - rp) n ltac:(lia)) as Hb.
  assert (Hp : 0 < (hw - rp) mod n).
  { destruct (Z.eq_dec ((hw - rp) mod n) 0) as [E|]; [|lia]. rewrite E in Hz. tauto. }
  assert ((hw - rp - 1) mod n = (hw - rp) mod n - 1); [|lia].
  rewrite <- Zminus_mod_idemp_l. apply Z.mod_small. lia.
Qed.

Lemma ring_slots_next n rp hw : 0 <= rp < n -> 0 <= hw < n -> rp <> hw ->
  ring_slots n rp hw = rp :: ring_slots n ((rp + 1) mod n) hw.
Proof.
  intros Hr Hh Hne. unfold ring_slots. rewrite (ring_dist_next n rp hw) by done.
  cbn [seq map]. rewrite Z.add_0_r, Z.mod_small by done. f_equal.
  rewrite <- seq_shift, map_map. apply map_ext. intros k.
  rewrite Zplus_mod_idemp_l. f_equal. lia.
Qed.

Lemma ring_dist_lt n rp hw : 0 < n -> (ring_dist n rp hw < Z.to_nat n)%nat.
Proof. intros Hn. unfold ring_dist. pose proof (Z.mod_pos_bound (hw - rp) n). lia. Qed.

Lemma ring_slots_in n rp hw slot : 0 < n -> slot ∈ ring_slots n rp hw -> 0 <= slot < n.
Proof.
  intros Hn Hs. unfold ring_slots in Hs. apply list_elem_of_fmap in Hs as (k & -> & _).
  by apply Z.mod_pos_bound.
Qed.

Lemma rx_drain_slots {A R} (s : trx_state) (look : Z -> A -> prog (visit A R)) hw :
  0 <= hw < g_rx_n s -> forall fuel rp a, 0 <= rp < g_rx_n s ->
  (ring_dist (g_rx_n s) rp hw <= fuel)%nat ->
  rx_drain fuel s look hw rp a ≡ visit_slots (g_rx_n s) look (ring_slots (g_rx_n s) rp hw) hw a.
Proof.
  intros Hh. induction fuel as [|fuel IH]; intros rp a Hr Hf; cbn [rx_drain].
  - assert (rp = hw) as -> by (apply (ring_dist_zero (g_rx_n s)); lia).
    rewrite Z.eqb_refl. unfold ring_slots. by rewrite (proj1 (ring_dist_zero _ hw hw Hh Hh) eq_refl).
  - destruct (Z.eqb_spec rp hw) as [->|Hne].
    { unfold ring_slots. by rewrite (proj1 (ring_dist_zero _ hw hw Hh Hh) eq_refl). }
    rewrite ring_slots_next by done. cbn [visit_slots].
    apply prog_bind_proper; [|done]. intros v. unfold rp_next, trx_rx_count.
    destruct (Z.eqb_spec (g_rx_n s) 0); [lia|]. cbn [mbind prog_mbind prog_bind mret prog_ret].
    destruct v as [a'|r]; [|done]. apply IH; [apply Z.mod_pos_bound; lia|].
    rewrite ring_dist_next in Hf by done. lia.
Qed.

Lemma ring_slots_NoDup n rp hw : 0 < n -> NoDup (ring_slots n rp hw).
Proof.
  intros Hn. apply NoDup_ListNoDup, NoDup_nth with (d := 0). intros i j Hi Hj E.
  unfold ring_slots in *. rewrite length_map, length_seq in *.
  pose proof (ring_dist_lt n rp hw Hn).
  rewrite !(nth_indep _ 0 ((rp + Z.of_nat 0) mod n)) in E by by rewrite length_map, length_seq.
  rewrite !(map_nth (fun k => (rp + Z.of_nat k) mod n)), !seq_nth in E by done.
  rewrite !Nat.add_0_l in E.
  assert (Hm : ((rp + Z.of_nat i) - (rp + Z.of_nat j)) mod n = 0)
    by (rewrite Zminus_mod, E, Z.sub_diag; by apply Z.mod_0_l; lia).
  apply Z.mod_divide in Hm as [k Hk]; [|lia].
  assert (Hlt : k < 1) by nia. assert (Hgt : -1 < k) by nia. assert (k = 0) as -> by lia. lia.
Qed.

(** For a chip whose index is inside the ring the drain loop ends, having
    visited exactly the slots from the read index up to the chip's, in ring
    order, each once and none outside the ring (fewer only if a visit stops). *)
Theorem rx_drain_visits (A R : Type) (s : trx_state) (look : Z -> A -> prog (visit A R)) (hw rp : Z) (a : A) :
  let n := trx_rx_count s in
  0 <= rp < n -> 0 <= hw < n ->
  rx_drain (drain_fuel s) s look hw rp a ≡ visit_slots n look (ring_slots n rp hw) hw a /\
  NoDup (ring_slots n rp hw) /\
  Z.of_nat (length (ring_slots n rp hw)) = (hw - rp) mod n /\
  Forall (fun slot => 0 <= slot < n) (ring_slots n rp hw).
Proof.
  intros n Hr Hh. unfold n, trx_rx_count in *. split_and!.
  - apply rx_drain_slots; [done|done|]. pose proof (ring_dist_lt (g_rx_n s) rp hw ltac:(lia)).
    unfold drain_fuel, trx_rx_count. lia.
  - apply ring_slots_NoDup. lia.
  - unfold ring_slots. rewrite length_map, length_seq. unfold ring_dist.
    pose proof (Z.mod_pos_bound (hw - rp) (g_rx_n s)). lia.
  - apply Forall_forall. intros slot Hs. eapply ring_slots_in; [lia|by apply list_elem_of_In].
Qed.

(** An index at or beyond the ring's depth is never met: however long it
    runs, a drain that finds nothing to stop for does not end (the model's bound
    runs out and the call [Hang] records it, for every bound).  A read of all
    ones, what a chip that fell off the bus answers, is such an index. *)
Theorem rx_drain_beyond_ring (A : Type) (s : trx_state) (hw rp : Z) (a : A) (fuel : nat) :
  let n := trx_rx_count s in
  0 < n <= hw -> 0 <= rp < n ->
  forall (W : Type) (dev : Device W) (w : W),
    Hang ∈ ops (exec (rx_drain (R := unit) fuel s (fun _ a => mret (Go a)) hw rp a) w).
Proof.
  intros n Hn Hr W dev w. unfold n, trx_rx_count in *. revert rp Hr.
  induction fuel as [|fuel IH]; intros rp Hr; cbn [rx_drain];
    (destruct (Z.eqb_spec rp hw); [lia|]).
  - unfold ops. cbn [mbind prog_mbind prog_bind act exec].
    destruct (dev_step Hang w) as [r w1]. cbn. by left.
  - unfold rp_next, trx_rx_count. destruct (Z.eqb_spec (g_rx_n s) 0); [lia|].
    cbn [mbind prog_mbind prog_bind mret prog_ret]. apply IH, Z.mod_pos_bound. lia.
Qed.

(** ** Memory safety *)

(** The chip's index is inside the ring. *)
Definition idx_ok (n : Z) (o : hwop) : hwres o -> bool :=
  match o as o return hwres o -> bool with
  | Read W32 a => fun r => if a =? RTK_PCI_RXBD_IDX_MPDUQ then ((u32 r >> 16) .& 0xfff) <? n else true
  | _ => fun _ => true
  end.

(** The receive pool is live, as deep as the driver thinks. *)
Definition rx_live (s : trx_state) (m : gmap Z Z) : Prop :=
  0 < g_rx_n s /\
  (d_mapped (g_rxdata s) = true -> m !! d_handle (g_rxdata s) = Some (g_rx_n s * USCAN_RX_BUF_SIZE)).

Abbreviation rx_safe s := (mem_safe_if (idx_ok (g_rx_n s))).

Lemma rx_hw_idx_safe s m :
  rx_safe s trx_rx_hw_idx m (fun hw m' => m' = m /\ 0 <= hw < g_rx_n s).
Proof.
  unfold trx_rx_hw_idx, hw_read32.
  apply (mem_safe_if_bind _ _ _ _ (fun v m' => m' = m /\ ((v >> 16) .& 0xfff) < g_rx_n s)).
  - eapply mem_safe_if_bind.
    + by apply (mem_safe_if_act (idx_ok (g_rx_n s)) (Read W32 RTK_PCI_RXBD_IDX_MPDUQ)).
    + intros r m' [-> Hr]. apply mem_safe_if_ret. split; [done|].
      cbn [idx_ok] in Hr. rewrite Z.eqb_refl in Hr. by apply Z.ltb_lt.
  - intros v m' [-> Hv]. apply mem_safe_if_ret. split; [done|].
    pose proof (land_ones_range 12 (v >> 16)) as Hl. change (Z.ones 12) with 0xfff in Hl. lia.
Qed.

(** A slot of the pool, and reading inside it. *)
Definition slot_live (m : gmap Z Z) (buf : Z * Z) : Prop :=
  exists size, m !! buf.1 = Some size /\ 0 <= buf.2 /\ buf.2 + USCAN_RX_BUF_SIZE <= size.

Lemma slot_bytes_safe m buf i n :
  slot_live m buf -> 0 <= i -> 0 <= n -> i + n <= USCAN_RX_BUF_SIZE ->
  mem_safe (slot_bytes buf i n) m (fun bs m' => m' = m /\ length bs = Z.to_nat n /\ bytes_ok bs).
Proof.
  intros (size & Hm & H1 & H2) Hi Hn Hle. apply mem_safe_read. eapply in_buf_true; [done|lia..].
Qed.

Lemma slot8_safe m buf i : slot_live m buf -> 0 <= i < USCAN_RX_BUF_SIZE ->
  mem_safe (slot8 buf i) m (fun b m' => m' = m /\ byte_ok b).
Proof.
  intros Hb Hi. unfold slot8. eapply mem_safe_bind; [apply slot_bytes_safe; [done|lia..]|].
  intros bs m' (-> & Hl & Hok). apply mem_safe_ret. split; [done|].
  destruct bs as [|b bs]; [done|]. by apply Forall_cons_1 in Hok as [? _].
Qed.

Lemma slot32_safe m buf i : slot_live m buf -> 0 <= i -> i + 4 <= USCAN_RX_BUF_SIZE ->
  mem_safe (slot32 buf i) m (fun v m' => m' = m /\ 0 <= v < 2 ^ 32).
Proof.
  intros Hb Hi Hle. unfold slot32. eapply mem_safe_bind; [apply slot_bytes_safe; [done|lia..]|].
  intros bs m' (-> & Hl & Hok). apply mem_safe_ret. split; [done|].
  destruct bs as [|b0 [|b1 [|b2 [|b3 [|]]]]]; try done. unfold bytes_ok in Hok.
  rewrite !Forall_cons_iff in Hok. apply word32_range; tauto.
Qed.

Section DrainSafe.
Context {A R : Type} (s : trx_state) (m : gmap Z Z) (Inv : A -> Prop) (Post : R -> Prop).

(** What a visit or a drain ends with. *)
Definition visit_ok (v : visit A R) : Prop := match v with Go a => Inv a | Stop r => Post r end.

Context (look : Z -> A -> prog (visit A R)).
Context (Hlook : forall slot a, 0 <= slot < g_rx_n s -> Inv a ->
  rx_safe s (look slot a) m (fun v m' => m' = m /\ visit_ok v)).

Lemma rx_drain_safe fuel hw : 0 <= hw < g_rx_n s -> forall rp a,
  (ring_dist (g_rx_n s) rp hw <= fuel)%nat -> 0 <= rp < g_rx_n s -> Inv a ->
  rx_safe s (rx_drain fuel s look hw rp a) m (fun '(v, rp') m' =>
    m' = m /\ visit_ok v /\ 0 <= rp' < g_rx_n s).
Proof.
  intros Hh. induction fuel as [|fuel IH]; intros rp a Hf Hr Ha; cbn [rx_drain].
  - assert (rp = hw) as -> by (apply (ring_dist_zero (g_rx_n s)); lia).
    rewrite Z.eqb_refl. by apply mem_safe_if_ret.
  - destruct (Z.eqb_spec rp hw) as [->|Hne]; [by apply mem_safe_if_ret|].
    eapply mem_safe_if_bind; [by apply Hlook|]. intros v m' [-> Hv].
    unfold rp_next, trx_rx_count. destruct (Z.eqb_spec (g_rx_n s) 0); [lia|].
    eapply (mem_safe_if_bind _ _ _ _ (fun rp' m' => m' = m /\ rp' = (rp + 1) mod g_rx_n s));
      [by apply mem_safe_if_ret|].
    intros rp' m' [-> ->]. pose proof (Z.mod_pos_bound (rp + 1) (g_rx_n s) ltac:(lia)).
    destruct v as [a'|r]; [|by apply mem_safe_if_ret].
    apply IH; [|done|done]. rewrite ring_dist_next in Hf by done. lia.
Qed.

Lemma rx_drain_all_safe hw rp a : 0 <= hw < g_rx_n s -> 0 <= rp < g_rx_n s -> Inv a ->
  rx_safe s (rx_drain (drain_fuel s) s look hw rp a) m (fun '(v, rp') m' =>
    m' = m /\ visit_ok v /\ 0 <= rp' < g_rx_n s).
Proof.
  intros Hh Hr Ha. apply rx_drain_safe; [done| |done|done].
  pose proof (ring_dist_lt (g_rx_n s) rp hw ltac:(lia)). unfold drain_fuel, trx_rx_count. lia.
Qed.
End DrainSafe.

(** Looking only into the pool. *)
Lemma at_slot_safe {A R} s m (f : Z * Z -> A -> prog (visit A R)) slot a (Q : visit A R -> Prop) :
  rx_live s m -> 0 <= slot < g_rx_n s -> Q (Go a) ->
  (forall buf, slot_live m buf -> mem_safe (f buf a) m (fun v m' => m' = m /\ Q v)) ->
  rx_safe s (at_slot s f slot a) m (fun v m' => m' = m /\ Q v).
Proof.
  intros [Hn Hp] Hs HQ Hf. unfold at_slot, trx_rx_slot_buf.
  destruct (d_mapped (g_rxdata s)); [|by apply mem_safe_if_ret].
  apply mem_safe_if_lift, Hf. eexists; split; [by apply Hp|]. cbn [snd].
  assert (0 < USCAN_RX_BUF_SIZE) by done. nia.
Qed.

Lemma copy_out_safe m room bs : Z.of_nat (length bs) <= room ->
  mem_safe (copy_out room bs) m (fun bs' m' => m' = m /\ bs' = bs).
Proof. intros H. unfold copy_out. destruct (Z.ltb_spec room (Z.of_nat (length bs))); [lia|]. by apply mem_safe_ret. Qed.

(** The frame starts at most 160 bytes into the slot; a frame of up to 2048
    bytes stays inside. *)
Lemma rx_frame_live m buf w0 n :
  slot_live m buf -> 0 <= n <= 2048 ->
  exists size, m !! (rx_frame buf w0).1 = Some size /\ 0 <= (rx_frame buf w0).2 /\
    (rx_frame buf w0).2 + n <= size.
Proof.
  intros (size & Hm & H1 & H2) Hn. exists size. unfold rx_frame, addr_plus. cbn [fst snd].
  split; [done|].
  assert (Hs : 0 <= rx_shift w0 < 4) by (apply (land_ones_range 2 (w0 >> 24)); lia).
  assert (Hd : 0 <= rx_drv_info w0 < 16) by (apply (land_ones_range 4 (w0 >> 16)); lia).
  unfold RX_PKT_DESC_SZ. assert (USCAN_RX_BUF_SIZE = 11520) by done. lia.
Qed.

(** Reading inside a received frame of at most 2048 bytes. *)
Definition frame_live (m : gmap Z Z) (f : Z * Z) : Prop :=
  exists size, m !! f.1 = Some size /\ 0 <= f.2 /\ f.2 + 2048 <= size.

Lemma rx_frame_ok m buf w0 : slot_live m buf -> frame_live m (rx_frame buf w0).
Proof. intros Hb. by apply rx_frame_live. Qed.

Lemma frame_bytes_safe m f i n : frame_live m f -> 0 <= i -> 0 <= n -> i + n <= 2048 ->
  mem_safe (slot_bytes f i n) m (fun bs m' => m' = m /\ length bs = Z.to_nat n /\ bytes_ok bs).
Proof.
  intros (size & Hm & H1 & H2) Hi Hn Hle. apply mem_safe_read. eapply in_buf_true; [done|lia..].
Qed.

Lemma frame8_safe m f i : frame_live m f -> 0 <= i < 2048 ->
  mem_safe (slot8 f i) m (fun b m' => m' = m /\ byte_ok b).
Proof.
  intros Hf Hi. unfold slot8. eapply mem_safe_bind; [apply frame_bytes_safe; [done|lia..]|].
  intros bs m' (-> & Hl & Hok). apply mem_safe_ret. split; [done|].
  destruct bs as [|b bs]; [done|]. by apply Forall_cons_1 in Hok as [? _].
Qed.

Lemma frame_control_safe m f : frame_live m f ->
  mem_safe (frame_control f) m (fun fc m' => m' = m /\ 0 <= fc < 2 ^ 16).
Proof.
  intros Hf. unfold frame_control.
  eapply mem_safe_bind; [by apply frame8_safe|]. intros b0 m' [-> _].
  eapply mem_safe_bind; [by apply frame8_safe|]. intros b1 m' [-> _].
  apply mem_safe_ret. split; [done|]. apply wrap_range. lia.
Qed.

Lemma rx_pkt_len_range w0 : 0 <= rx_pkt_len w0 < 2 ^ 14.
Proof. apply (land_ones_range 14). lia. Qed.

Lemma poll_ring_safe {A R} s m (look : Z * Z -> A -> prog (visit A R)) (until : A -> bool)
    (Inv : A -> Prop) (Post : R -> Prop) : rx_live s m ->
  (forall buf a, slot_live m buf -> Inv a -> mem_safe (look buf a) m (fun v m' => m' = m /\ visit_ok Inv Post v)) ->
  forall k rp a, 0 <= rp < g_rx_n s -> Inv a ->
  rx_safe s (poll_ring k s look until rp a) m (fun '(v, rp') m' =>
    m' = m /\ visit_ok Inv Post v /\ 0 <= rp' < g_rx_n s).
Proof.
  intros Hs Hlook. induction k as [|k IH]; intros rp a Hr Ha; cbn [poll_ring]; [by apply mem_safe_if_ret|].
  destruct (until a); [by apply mem_safe_if_ret|].
  apply mem_safe_if_bind_regs; [by safe_go|]. intros _.
  eapply mem_safe_if_bind; [apply rx_hw_idx_safe|]. intros hw m' [-> Hh].
  eapply mem_safe_if_bind.
  { apply (rx_drain_all_safe s m Inv Post); [|done|done|done].
    intros slot a' Hslot Ha'. apply at_slot_safe; [done|done|done|]. intros buf Hbuf. by apply Hlook. }
  intros [v rp'] m' (-> & Hv & Hrp'). apply mem_safe_if_bind_regs; [by unfold trx_rx_set_host_idx; safe_go|].
  intros _. destruct v as [a'|e]; [by apply IH|by apply mem_safe_if_ret].
Qed.

(** ** Rings that are up *)

(** The transmit side as [trx_init] leaves it, and the receive pool. *)
Definition rings_up (s : trx_state) (m : gmap Z Z) : Prop := trx_inv s m /\ rx_live s m.

(** A transmission keeps the rings, the receive side included. *)
Definition same_rx (s s' : trx_state) : Prop :=
  g_rx_n s' = g_rx_n s /\ g_rxdata s' = g_rxdata s /\ g_rx_ok s' = g_rx_ok s.

Lemma same_rx_live s s' m : same_rx s s' -> rx_live s m -> rx_live s' m.
Proof. intros (E1 & E2 & _) Hs. unfold rx_live. by rewrite E1, E2. Qed.

Lemma same_rx_trans s s' s'' : same_rx s s' -> same_rx s' s'' -> same_rx s s''.
Proof. unfold same_rx. intros (-> & -> & ->) (-> & -> & ->). done. Qed.

Lemma rx_safe_same {A} s0 s (p : prog A) m Q : same_rx s0 s -> rx_safe s p m Q -> rx_safe s0 p m Q.
Proof. intros [-> _]. done. Qed.

(** Rings that are up with a receive ring have its pool. *)
Lemma inv_rx_live s m : trx_inv s m -> trx_rx_ok s = true -> rx_live s m.
Proof.
  unfold trx_inv, trx_rx_ok. intros Hinv Hok.
  destruct (g_trx_alloced s); [|by rewrite (td_rx s Hinv) in Hok].
  pose proof (tu_rx s m Hinv) as Hrx. rewrite Hok in Hrx. destruct Hrx as (Hn & _ & _ & Hd).
  split; [|done]. unfold rx_try, USCAN_RX_DESC_NUM in Hn. set_unfold in Hn. lia.
Qed.

(** A transmission through a leaf keeps both. *)
Lemma leaf_rings q s m x m' : leaf_post q s m x m' -> rings_up s m -> m' = m /\ rings_up x.2 m /\ same_rx s x.2.
Proof.
  intros Hpost [Hinv Hrx]. pose proof (leaf_inv _ _ _ _ _ Hpost Hinv) as [-> Hinv'].
  destruct Hpost as (_ & Hpost).
  assert (Hsame : same_rx s x.2) by (destruct Hpost as [[_ ->]|(_ & -> & _)]; done).
  split; [done|]. split; [|done]. split; [done|by eapply same_rx_live].
Qed.

(** ** Slots whose contents stay put

    What a client of the ring reads when the chip is not writing: the interface
    a device meets when buffer [h] holds the bytes [img]. *)
Class SlotMem {W : Type} (dev : Device W) (h : Z) (img : list Z) : Prop := {
  slot_mem_ok : bytes_ok img;
  slot_mem off n w : 0 <= off -> 0 <= n -> off + n <= Z.of_nat (length img) ->
    dev (MemRead h off n) w = (take (Z.to_nat n) (drop (Z.to_nat off) img), w);
}.

(** [bs] stands at offset [off]. *)
Definition holds (img : list Z) (off : Z) (bs : list Z) : Prop :=
  0 <= off /\ off + Z.of_nat (length bs) <= Z.of_nat (length img) /\
  take (length bs) (drop (Z.to_nat off) img) = bs.

Lemma holds_sub img off bs i n : holds img off bs -> (i + n <= length bs)%nat ->
  take n (drop (Z.to_nat off + i) img) = take n (drop i bs).
Proof.
  intros (Ho & Hle & E) Hn. rewrite <- E. rewrite <- drop_drop, skipn_firstn_comm, take_take.
  f_equal. lia.
Qed.

Lemma norm_bytes_id n bs : bytes_ok bs -> length bs = Z.to_nat n -> norm_bytes n bs = bs.
Proof.
  intros Hb Hl. unfold norm_bytes. rewrite <- Hl, take_app_length'; [|by rewrite length_map].
  clear Hl. induction Hb as [|b bs Hb _ IH]; [done|]. cbn. rewrite IH. f_equal. by apply wrap_small.
Qed.

Section SlotRun.
Context {W : Type} (dev : Device W) (h : Z) (img : list Z) {SM : SlotMem dev h img}.

Lemma run_slot_bytes off bs i n w : holds img off bs -> 0 <= i -> 0 <= n -> i + n <= Z.of_nat (length bs) ->
  run (slot_bytes (h, off) i n) w = (take (Z.to_nat n) (drop (Z.to_nat i) bs), w).
Proof.
  intros Hh Hi Hn Hle. unfold slot_bytes, mem_read. rewrite run_bind. cbn [run act fst snd].
  unfold dev_step. pose proof Hh as (Ho & Hl & _). rewrite slot_mem by lia. cbn. f_equal.
  replace (Z.to_nat (off + i)) with (Z.to_nat off + Z.to_nat i)%nat by lia.
  rewrite (holds_sub img off bs) by (done || lia).
  apply norm_bytes_id; [|rewrite length_take, length_drop; lia].
  rewrite <- (holds_sub img off bs) by (done || lia). by apply bytes_ok_take, bytes_ok_drop, slot_mem_ok.
Qed.

Lemma run_slot8 off bs i w : holds img off bs -> 0 <= i < Z.of_nat (length bs) ->
  run (slot8 (h, off) i) w = (bs.[Z.to_nat i], w).
Proof.
  intros Hh Hi. unfold slot8. rewrite run_bind, (run_slot_bytes off bs) by (done || lia). cbn [run mret prog_ret].
  f_equal. destruct (lookup_lt_is_Some_2 bs (Z.to_nat i)) as [b Hb]; [lia|].
  by rewrite (drop_S _ b _ Hb), (nth_lookup_Some _ _ 0 b Hb).
Qed.

Lemma run_slot32 off v w : holds img off (le32 v) -> 0 <= v < 2 ^ 32 -> run (slot32 (h, off) 0) w = (v, w).
Proof.
  intros Hh Hv. unfold slot32. rewrite run_bind, (run_slot_bytes off (le32 v)) by (done || cbn; lia).
  cbn [run mret prog_ret]. f_equal. by apply word32_le32.
Qed.
End SlotRun.

(** ** The calls a drain makes *)

(** Pool reads, the ring index, pauses; a fault or a hang where the code has one. *)
Definition rx_call (o : hwop) : bool :=
  match o with
  | MemRead _ _ _ | Udelay _ | Fault | Hang => true
  | Read W32 a | Write W16 a _ => a =? RTK_PCI_RXBD_IDX_MPDUQ
  | _ => false
  end.

Lemma slot_bytes_calls p i n : safe rx_call (slot_bytes p i n) (fun _ => True).
Proof. unfold slot_bytes, mem_read. apply safe_bind_any; [by apply (safe_op _ (MemRead _ _ _))|]. intros ?. by apply safe_ret. Qed.
Lemma copy_out_calls room bs : safe rx_call (copy_out room bs) (fun _ => True).
Proof.
  unfold copy_out. destruct (_ <? _); [|by apply safe_ret]. apply safe_bind_any; [|intros _; by apply safe_ret].
  apply safe_bind_any; [by apply (safe_op rx_call Fault)|]. intros _. by apply safe_ret.
Qed.
Lemma slot8_calls p i : safe rx_call (slot8 p i) (fun _ => True).
Proof. apply safe_bind_any; [apply slot_bytes_calls|]. intros ?. by apply safe_ret. Qed.
Lemma slot32_calls p i : safe rx_call (slot32 p i) (fun _ => True).
Proof. apply safe_bind_any; [apply slot_bytes_calls|]. intros ?. by apply safe_ret. Qed.
Lemma frame_control_calls p : safe rx_call (frame_control p) (fun _ => True).
Proof. do 2 (apply safe_bind_any; [apply slot8_calls|intros ?]). by apply safe_ret. Qed.
Lemma rx_hw_idx_calls : safe rx_call trx_rx_hw_idx (fun _ => True).
Proof. unfold trx_rx_hw_idx. by safe_go. Qed.
Lemma rx_set_host_calls rp : safe rx_call (trx_rx_set_host_idx rp) (fun _ => True).
Proof. unfold trx_rx_set_host_idx. by safe_go. Qed.

Lemma rx_drain_calls {A R} fuel s (look : Z -> A -> prog (visit A R)) hw : 
  (forall rp a, safe rx_call (look rp a) (fun _ => True)) -> forall rp a,
  safe rx_call (rx_drain fuel s look hw rp a) (fun _ => True).
Proof.
  intros Hl. induction fuel as [|fuel IH]; intros rp a; cbn [rx_drain]; destruct (rp =? hw);
    try by apply safe_ret.
  - apply safe_bind_any; [by apply (safe_op _ Hang)|]. intros _. by apply safe_ret.
  - apply safe_bind_any; [apply Hl|]. intros v. apply safe_bind_any.
    + unfold rp_next. destruct (_ =? 0); [by apply (safe_op _ Fault)|by apply safe_ret].
    + intros rp'. destruct v; [apply IH|by apply safe_ret].
Qed.

Lemma at_slot_calls {A R} s (f : Z * Z -> A -> prog (visit A R)) rp a :
  (forall buf, safe rx_call (f buf a) (fun _ => True)) -> safe rx_call (at_slot s f rp a) (fun _ => True).
Proof. intros Hf. unfold at_slot. destruct (trx_rx_slot_buf s rp); [apply Hf|by apply safe_ret]. Qed.

Lemma poll_ring_calls {A R} s (look : Z * Z -> A -> prog (visit A R)) until :
  (forall buf a, safe rx_call (look buf a) (fun _ => True)) ->
  forall k rp a, safe rx_call (poll_ring k s look until rp a) (fun _ => True).
Proof.
  intros Hl. induction k as [|k IH]; intros rp a; cbn [poll_ring]; [by apply safe_ret|].
  destruct (until a); [by apply safe_ret|].
  apply safe_bind_any; [by safe_go|]. intros _. apply safe_bind_any; [apply rx_hw_idx_calls|]. intros hw.
  apply safe_bind_any; [apply rx_drain_calls; intros; apply at_slot_calls; intros; apply Hl|].
  intros [v rp']. apply safe_bind_any; [apply rx_set_host_calls|]. intros _.
  destruct v; [apply IH|by apply safe_ret].
Qed.

(** Receiving and transmitting through the rings. *)
Definition air_call (o : hwop) : bool := rx_call o || leaf_call o.

Lemma rx_air {A} (p : prog A) : safe rx_call p (fun _ => True) -> safe air_call p (fun _ => True).
Proof. intros Hp. eapply safe_weaken; [apply Hp| |done]. intros o Ho. unfold air_call. by rewrite Ho. Qed.
Lemma leaf_air {A} (p : prog A) : safe leaf_call p (fun _ => True) -> safe air_call p (fun _ => True).
Proof. intros Hp. eapply safe_weaken; [apply Hp| |done]. intros o Ho. unfold air_call. by rewrite Ho, orb_true_r. Qed.

(** ** Witnesses *)

Lemma rings_up_example : rings_up trx_up_example mem_example.
Proof.
  split; [|by vm_compute]. unfold trx_inv. change (g_trx_alloced trx_up_example) with true.
  exact trx_up_example_ok.
Qed.

Lemma rx_drain_visits_witness :
  let s := trx_up_example in
  rx_drain (drain_fuel s) s (fun slot l => mret (Go (R := unit) (l ++ [slot]))) 2 62 [] ≡
    visit_slots 64 (fun slot l => mret (Go (l ++ [slot]))) (ring_slots 64 62 2) 2 [] /\
  NoDup (ring_slots 64 62 2) /\
  Z.of_nat (length (ring_slots 64 62 2)) = (2 - 62) mod 64 /\
  Forall (fun slot => 0 <= slot < 64) (ring_slots 64 62 2).
Proof.
  apply (rx_drain_visits (list Z) unit trx_up_example (fun slot l => mret (Go (l ++ [slot]))) 2 62 []);
    vm_compute; split; congruence.
Defined.

(** The ring of 64 and an index of all ones. *)
Lemma rx_drain_beyond_ring_witness :
  Hang ∈ ops (exec (rx_drain (R := unit) 100 trx_up_example (fun _ (a : unit) => mret (Go a)) 0xfff 0 tt)
                (∅ : regfile)).
Proof.
  apply (rx_drain_beyond_ring unit trx_up_example 0xfff 0 tt 100); vm_compute; split; congruence.
Defined.
