(* ===== verification/Sec.v ===== *)
(** * Sec: key installation in the security CAM (core/sec.c)

    The CAM is written through a data and a command register.  Proved, against a
    model of the CAM that interprets those two registers: what the two entries
    hold afterwards, that a group key never lands on a pairwise entry, and that
    the crypto engine is on. *)
From S2P Require Import Prelude Hw Regs.
Open Scope Z_scope.
Open Scope rtw_scope.

Definition RTW_SEC_CMD_REG : Z := 0x670.
Definition RTW_SEC_WRITE_REG : Z := 0x674.
Definition RTW_SEC_CONFIG : Z := 0x680.
Definition RTW_SEC_CAM_ENTRY_SHIFT : Z := 3.
Definition RTW_SEC_CMD_WRITE_ENABLE : Z := BIT 16.
Definition RTW_SEC_CMD_POLLING : Z := BIT 31.
Definition RTW_SEC_TX_UNI_USE_DK : Z := BIT 0.
Definition RTW_SEC_RX_UNI_USE_DK : Z := BIT 1.
Definition RTW_SEC_TX_DEC_EN : Z := BIT 2.
Definition RTW_SEC_RX_DEC_EN : Z := BIT 3.
Definition RTW_SEC_TX_BC_USE_DK : Z := BIT 6.
Definition RTW_SEC_RX_BC_USE_DK : Z := BIT 7.
Definition RTW_SEC_ENGINE_EN : Z := BIT 9.
Definition RTW_CAM_AES : Z := 4.
Definition RTW_SEC_DEFAULT_KEY_NUM : Z := 4.

(** Dword [i] of a CAM entry. *)
Definition cam_content (i : nat) (keyidx group : Z) (mac key : list Z) : Z :=
  match i with
  | 0%nat => (keyidx .& 0x3) .| ((RTW_CAM_AES .& 0x7) << 2) .| (group << 6) .| (1 << 15)
             .| (mac.[0] << 16) .| (mac.[1] << 24)
  | 1%nat => mac.[2] .| (mac.[3] << 8) .| (mac.[4] << 16) .| (mac.[5] << 24)
  | 6%nat | 7%nat => 0
  | _ => let j := ((i - 2) * 4)%nat in
         key.[j] .| (key.[(j + 1)%nat] << 8) .| (key.[(j + 2)%nat] << 16) .| (key.[(j + 3)%nat] << 24)
  end.

(** The loop of [write_cam] from dword [i] down to 0. *)
Fixpoint write_cam_loop (i : nat) (write_cmd addr keyidx group : Z) (mac key : list Z) : prog unit :=
  hw_write32 RTW_SEC_WRITE_REG (cam_content i keyidx group mac key);;
  hw_write32 RTW_SEC_CMD_REG (write_cmd .| (addr + Z.of_nat i));;
  match i with
  | O => mret tt
  | S i => write_cam_loop i write_cmd addr keyidx group mac key
  end.

Definition write_cam (hw_key_idx keyidx group : Z) (mac key : list Z) : prog unit :=
  write_cam_loop 7 (RTW_SEC_CMD_WRITE_ENABLE .| RTW_SEC_CMD_POLLING)
    (u8 hw_key_idx << RTW_SEC_CAM_ENTRY_SHIFT) (u8 keyidx) (u8 group) mac key.

Definition bcast : list Z := replicate 6 0xff.

Definition install_keys (bssid g_tk g_gtk : list Z) (g_gtk_len g_gtk_keyidx : Z) : prog unit :=
  write_cam RTW_SEC_DEFAULT_KEY_NUM 0 0 bssid g_tk;;
  (if 16 <=? g_gtk_len then write_cam g_gtk_keyidx g_gtk_keyidx 1 bcast g_gtk else mret tt);;
  cr ← hw_read16 REG_CR;
  hw_write16 REG_CR (cr .| RTW_SEC_ENGINE_EN);;
  sc ← hw_read16 RTW_SEC_CONFIG;
  hw_write16 RTW_SEC_CONFIG
    (sc .| (RTW_SEC_TX_DEC_EN .| RTW_SEC_RX_DEC_EN .| RTW_SEC_TX_UNI_USE_DK .| RTW_SEC_RX_UNI_USE_DK
            .| RTW_SEC_TX_BC_USE_DK .| RTW_SEC_RX_BC_USE_DK)).

(** ** The CAM as the command register drives it *)

Record cam := Cam { cam_data : Z; cam_mem : Z -> Z; cam_engine : Z }.

Definition cam_mon (c : cam) (o : hwop) (_ : hwres o) : option cam :=
  match o with
  | Write W32 a v =>
      if a =? RTW_SEC_WRITE_REG then Some (Cam v (cam_mem c) (cam_engine c))
      else if (a =? RTW_SEC_CMD_REG) && nz (v .& RTW_SEC_CMD_WRITE_ENABLE) && nz (v .& RTW_SEC_CMD_POLLING)
      then let k := v .& 0xffff in
           Some (Cam (cam_data c) (fun i => if i =? k then cam_data c else cam_mem c i) (cam_engine c))
      else Some c
  | Write W16 a v => if a =? REG_CR then Some (Cam (cam_data c) (cam_mem c) v) else Some c
  | _ => Some c
  end.

Record cam_entry := CamEntry {
  ce_valid : bool; ce_keyidx : Z; ce_algo : Z; ce_group : bool; ce_mac : list Z; ce_key : list Z;
}.
Definition cam_decode (m : Z -> Z) (entry : Z) : cam_entry :=
  let w i := le32 (m (8 * entry + i)) in
  let b0 := (w 0).[0] in
  CamEntry (Z.testbit (w 0).[1] 7) (b0 .& 3) ((b0 >> 2) .& 7) (Z.testbit b0 6)
    (drop 2 (w 0) ++ w 1) (w 2 ++ w 3 ++ w 4 ++ w 5).

(** ** What a write leaves *)

Lemma write_cmd_addr n : 0 <= n < 64 ->
  let v := u32 ((RTW_SEC_CMD_WRITE_ENABLE .| RTW_SEC_CMD_POLLING) .| n) in
  nz (v .& RTW_SEC_CMD_WRITE_ENABLE) = true /\ nz (v .& RTW_SEC_CMD_POLLING) = true /\ v .& 0xffff = n.
Proof.
  intros Hn. pose (f := fun n => let v := u32 ((RTW_SEC_CMD_WRITE_ENABLE .| RTW_SEC_CMD_POLLING) .| n) in
    nz (v .& RTW_SEC_CMD_WRITE_ENABLE) && nz (v .& RTW_SEC_CMD_POLLING) && (v .& 0xffff =? n)).
  assert (H : forallb f (seqZ 0 64) = true) by by vm_compute.
  rewrite forallb_forall in H. specialize (H n). rewrite <- list_elem_of_In, elem_of_seqZ in H.
  specialize (H ltac:(lia)).
  apply andb_true_iff in H as [[H1 H2]%andb_true_iff H3%Z.eqb_eq]. done.
Qed.

Lemma write_cam_loop_wp i addr keyidx group mac key : forall c (Q : unit -> cam -> Prop),
  0 <= addr < 56 -> (i < 8)%nat ->
  (forall c', cam_engine c' = cam_engine c ->
    (forall a, cam_mem c' a = if (addr <=? a) && (a <=? addr + Z.of_nat i)
                              then u32 (cam_content (Z.to_nat (a - addr)) keyidx group mac key)
                              else cam_mem c a) -> Q tt c') ->
  wp cam_mon (write_cam_loop i (RTW_SEC_CMD_WRITE_ENABLE .| RTW_SEC_CMD_POLLING) addr keyidx group mac key) c Q.
Proof.
  induction i as [|i IH]; intros c Q Ha Hi HQ; cbn [write_cam_loop]; intros u;
    cbn -[cam_content write_cam_loop Z.lor Z.land wrap Z.of_nat]; intros u'.
  - destruct (write_cmd_addr (addr + Z.of_nat 0)) as (E1 & E2 & E3); [lia|].
    rewrite E1, E2, E3. cbn [andb]. apply HQ; [done|].
    intros a. cbn -[cam_content wrap Z.of_nat]. rewrite Z.add_0_r. destruct (Z.eqb_spec a addr) as [->|].
    + by rewrite Z.leb_refl, Z.sub_diag.
    + destruct (Z.leb_spec addr a), (Z.leb_spec a addr); try lia; done.
  - destruct (write_cmd_addr (addr + Z.of_nat (S i))) as (F1 & F2 & F3); [lia|].
    rewrite F1, F2, F3. cbn [andb]. apply IH; [lia|lia|]. intros c' He Hc. apply HQ; [done|].
    intros a. rewrite Hc. cbn [cam_mem cam_data].
    destruct (Z.leb_spec addr a), (Z.leb_spec a (addr + Z.of_nat i)),
      (Z.leb_spec a (addr + Z.of_nat (S i))), (Z.eqb_spec a (addr + Z.of_nat (S i)));
      try lia; cbn [andb]; try done.
    subst. replace (addr + Z.of_nat (S i) - addr) with (Z.of_nat (S i)) by lia. by rewrite Nat2Z.id.
Qed.

(** The first dword's low half, for every key index and kind. *)
Lemma cam_word0 k g m0 m1 : 0 <= k < 4 -> 0 <= g < 2 -> byte_ok m0 -> byte_ok m1 ->
  le32 (u32 ((k .& 0x3) .| ((RTW_CAM_AES .& 0x7) << 2) .| (g << 6) .| (1 << 15)
             .| (m0 << 16) .| (m1 << 24))) = [k + 16 + 64 * g; 0x80; m0; m1].
Proof.
  intros Hk Hg H0 H1. rewrite le32_u32.
  assert (E : (k .& 0x3) .| ((RTW_CAM_AES .& 0x7) << 2) .| (g << 6) .| (1 << 15)
              = (k + 16 + 64 * g) .| (0x80 << 8)).
  { assert (k = 0 \/ k = 1 \/ k = 2 \/ k = 3) as Hk' by lia.
    assert (g = 0 \/ g = 1) as Hg' by lia.
    destruct Hk' as [->|[->|[->| ->]]], Hg' as [->| ->]; done. }
  rewrite E. apply le32_word32; try done; unfold byte_ok; lia.
Qed.

Definition key_entry (keyidx : Z) (group : bool) (mac key : list Z) : cam_entry :=
  CamEntry true keyidx RTW_CAM_AES group mac (take 16 key).

(** One entry written: it decodes to the key, the other entries are as before. *)
Lemma write_cam_wp h k g mac key c (Q : unit -> cam -> Prop) :
  0 <= h < 7 -> 0 <= k < 4 -> 0 <= g < 2 ->
  length mac = 6%nat -> bytes_ok mac -> (16 <= length key)%nat -> bytes_ok key ->
  (forall c', cam_engine c' = cam_engine c ->
     cam_decode (cam_mem c') h = key_entry k (g =? 1) mac key ->
     (forall h', h' <> h -> cam_decode (cam_mem c') h' = cam_decode (cam_mem c) h') -> Q tt c') ->
  wp cam_mon (write_cam h k g mac key) c Q.
Proof.
  intros Hh Hk Hg Hm Hmb Hl Hkb HQ. unfold write_cam.
  rewrite !(wrap_small 8) by lia. unfold RTW_SEC_CAM_ENTRY_SHIFT. rewrite Z.shiftl_mul_pow2 by lia.
  change (2 ^ 3) with 8. apply write_cam_loop_wp; [lia|lia|]. intros c' He Hc. apply HQ; [done| |].
  - do 6 (destruct mac as [|? mac]; [done|]). destruct mac; [|done]. clear Hm.
    do 16 (destruct key as [|? key]; [simpl in Hl; lia|]). clear Hl.
    unfold bytes_ok in *. rewrite !Forall_cons_iff in Hmb. rewrite !Forall_cons_iff in Hkb. destruct_and!.
    assert (Hw : forall i, 0 <= i < 8 -> cam_mem c' (8 * h + i) =
      u32 (cam_content (Z.to_nat i) k g [z; z0; z1; z2; z3; z4]
        (z5 :: z6 :: z7 :: z8 :: z9 :: z10 :: z11 :: z12 :: z13 :: z14 :: z15 :: z16 :: z17 :: z18 :: z19 :: z20 :: key))).
    { intros i Hi. rewrite Hc. destruct (Z.leb_spec (h * 8) (8 * h + i)),
        (Z.leb_spec (8 * h + i) (h * 8 + Z.of_nat 7)); try lia. cbn [andb]. do 2 f_equal. lia. }
    unfold cam_decode. rewrite !Hw by lia. clear Hw Hc.
    unfold key_entry. change (Z.to_nat 0) with 0%nat. change (Z.to_nat 1) with 1%nat.
    change (Z.to_nat 2) with 2%nat. change (Z.to_nat 3) with 3%nat.
    change (Z.to_nat 4) with 4%nat. change (Z.to_nat 5) with 5%nat.
    cbn [cam_content nth Nat.sub Nat.mul Nat.add].
    rewrite cam_word0 by done. rewrite !le32_u32.
    rewrite !le32_bytes by done.
    assert (k = 0 \/ k = 1 \/ k = 2 \/ k = 3) as Hk' by lia. assert (g = 0 \/ g = 1) as Hg' by lia.
    destruct Hk' as [->|[->|[->| ->]]], Hg' as [->| ->]; done.
  - intros h' Hne. unfold cam_decode.
    assert (Hw : forall i, 0 <= i < 8 -> cam_mem c' (8 * h' + i) = cam_mem c (8 * h' + i)).
    { intros i Hi. rewrite Hc. destruct (Z.leb_spec (h * 8) (8 * h' + i)),
        (Z.leb_spec (8 * h' + i) (h * 8 + Z.of_nat 7)); try lia; done. }
    by rewrite !Hw by lia.
Qed.

(** ** The installation *)

(** C36: after [install_keys], on any chip and whatever the CAM held, entry 4
    decodes to the pairwise key of the access point; a usable group key decodes
    from the entry of its own index, below 4; every other entry is untouched; and
    the crypto engine is enabled. *)
Theorem install_keys_cam (bssid g_tk g_gtk : list Z) (g_gtk_len g_gtk_keyidx : Z) (c : cam) :
  length bssid = 6%nat -> bytes_ok bssid -> length g_tk = 16%nat -> bytes_ok g_tk ->
  length g_gtk = 32%nat -> bytes_ok g_gtk -> 0 <= g_gtk_keyidx < 4 ->
  wp cam_mon (install_keys bssid g_tk g_gtk g_gtk_len g_gtk_keyidx) c (fun _ c' =>
    cam_decode (cam_mem c') 4 = key_entry 0 false bssid g_tk /\
    (16 <= g_gtk_len ->
       cam_decode (cam_mem c') g_gtk_keyidx = key_entry g_gtk_keyidx true bcast g_gtk) /\
    (forall h, h <> 4 -> (16 <= g_gtk_len -> h <> g_gtk_keyidx) ->
       cam_decode (cam_mem c') h = cam_decode (cam_mem c) h) /\
    Z.testbit (cam_engine c') 9 = true).
Proof.
  intros Hb Hbok Ht Htok Hg Hgok Hk. unfold install_keys.
  apply wp_bind, write_cam_wp; try done; try lia. intros c1 E1 D1 O1.
  change RTW_SEC_DEFAULT_KEY_NUM with 4 in *.
  assert (Htail : forall c2, wp cam_mon
    (cr ← hw_read16 REG_CR; hw_write16 REG_CR (cr .| RTW_SEC_ENGINE_EN);;
     sc ← hw_read16 RTW_SEC_CONFIG;
     hw_write16 RTW_SEC_CONFIG
       (sc .| (RTW_SEC_TX_DEC_EN .| RTW_SEC_RX_DEC_EN .| RTW_SEC_TX_UNI_USE_DK .| RTW_SEC_RX_UNI_USE_DK
               .| RTW_SEC_TX_BC_USE_DK .| RTW_SEC_RX_BC_USE_DK))) c2
    (fun _ c' => cam_mem c' = cam_mem c2 /\ Z.testbit (cam_engine c') 9 = true)).
  { intros c2. repeat (intros ?; cbn -[Z.testbit Z.lor wrap]). split; [done|].
    rewrite wrap_testbit, Z.lor_spec by lia. cbn. by rewrite orb_true_r. }
  apply wp_bind. case_bool.
  - apply write_cam_wp; try done; try lia; [by apply bytes_ok_replicate|]. intros c2 E2 D2 O2.
    eapply wp_mono; [apply Htail|]. intros _ c3 [-> He]. split_and!; [|done| |done].
    + rewrite O2 by lia. apply D1.
    + intros h H4 Hh. rewrite O2 by auto. by apply O1.
  - apply wp_ret. eapply wp_mono; [apply Htail|]. intros _ c3 [-> He].
    split_and!; [done|lia| |done]. intros h H4 _. by apply O1.
Qed.

Lemma install_keys_cam_witness :
  wp cam_mon (install_keys (seqZ 1 6) (seqZ 16 16) (seqZ 32 32) 16 1) (Cam 0 (fun _ => 0) 0) (fun _ c' =>
    cam_decode (cam_mem c') 4 = key_entry 0 false (seqZ 1 6) (seqZ 16 16) /\
    (16 <= 16 -> cam_decode (cam_mem c') 1 = key_entry 1 true bcast (seqZ 32 32)) /\
    (forall h, h <> 4 -> (16 <= 16 -> h <> 1) ->
       cam_decode (cam_mem c') h = cam_decode (fun _ => 0) h) /\
    Z.testbit (cam_engine c') 9 = true).
Proof.
  apply (install_keys_cam (seqZ 1 6) (seqZ 16 16) (seqZ 32 32) 16 1 (Cam 0 (fun _ => 0) 0));
    try done; try lia; apply (bool_decide_unpack _); by vm_compute.
Defined.
