(* ===== verification/Media.v ===== *)
(** * Media: firmware commands (core/media.c, core/h2c.c)

    The H2C mailboxes rotate; a command is delivered when the low dword of its
    box is written, with what the box's upper dword then holds.  Proved: commands
    are delivered intact and in rotation, the media-status and rate-adaptation
    commands and the link registers carry the session's parameters, and the
    handshake packets have the firmware's layout. *)
From S2P Require Import Prelude Hw Regs Dev Trx.
Open Scope Z_scope.
Open Scope rtw_scope.

Definition H2C_CMD_MEDIA_STATUS_RPT : Z := 0x01.
Definition H2C_CMD_RA_INFO : Z := 0x40.
Definition REG_MACID : Z := 0x0610.
Definition REG_BSSID : Z := 0x0618.
Definition REG_MSR : Z := 0x0102.
Definition MSR_NETTYPE_INFRA : Z := 0x02.

(** [struct wifi_session] *)
Record wifi_session := Session { has_ht : bool; has_vht : bool; s_raid : Z; init_rate : Z }.

(** ** The mailbox *)

Definition hmebox (box_num : Z) : Z * Z :=
  if box_num =? 1 then (REG_HMEBOX1, REG_HMEBOX1_EX)
  else if box_num =? 2 then (REG_HMEBOX2, REG_HMEBOX2_EX)
  else if box_num =? 3 then (REG_HMEBOX3, REG_HMEBOX3_EX)
  else (REG_HMEBOX0, REG_HMEBOX0_EX).

Fixpoint hmebox_wait (n : nat) (box_num : Z) : prog unit :=
  match n with
  | O => mret tt
  | S n =>
      v ← hw_read8 REG_HMETFR;
      if negb (nz (v .& BIT box_num)) then mret tt
      else (usleep_range 1000 1000;; hmebox_wait n box_num)
  end.

(** The static [box_num] is passed and returned. *)
Definition h2c_command (box_num : Z) (h2c : list Z) : prog Z :=
  let '(box_reg, box_ex_reg) := hmebox box_num in
  hmebox_wait 100 box_num;;
  let lo := h2c.[0] .| (h2c.[1] << 8) .| (h2c.[2] << 16) .| (h2c.[3] << 24) in
  let hi := h2c.[4] .| (h2c.[5] << 8) .| (h2c.[6] << 16) .| (h2c.[7] << 24) in
  hw_write32 box_ex_reg hi;;
  hw_write32 box_reg lo;;
  mret ((box_num + 1) mod 4).

Definition fw_ra_info (box_num mac_id rate_id ra_mask bw sgi vht_en : Z) : prog Z :=
  let w0 := H2C_CMD_RA_INFO .| ((mac_id .& 0xff) << 8) .| ((rate_id .& 0x1f) << 16)
            .| ((0 .& 0x03) << 21) .| ((if nz sgi then 1 else 0) << 23) .| ((bw .& 0x03) << 24)
            .| (0 << 26) .| (0 << 27) .| ((vht_en .& 0x03) << 28) .| (1 << 30) in
  box_num ← h2c_command box_num
    [u8 w0; u8 (w0 >> 8); u8 (w0 >> 16); u8 (w0 >> 24);
     u8 ra_mask; u8 (ra_mask >> 8); u8 (ra_mask >> 16); u8 (ra_mask >> 24)];
  usleep_range 5000 5000;;
  mret box_num.

(** Rate table, rate mask and VHT flag for what the access point granted. *)
Definition ra_choice (s : wifi_session) (five : bool) : Z * Z * Z :=
  if has_vht s then
    (if five then RTW_RATEID_ARFR1_AC_1SS else RTW_RATEID_ARFR2_AC_2G_1SS,
     (0x00000ff0 .| 0x003ff000) .| (if five then 0 else 0x0000000f), 1)
  else if has_ht s then
    (if five then RTW_RATEID_GN_N1SS else RTW_RATEID_BGN_20M_1SS,
     (0x00000ff0 .| 0x000ff000) .| (if five then 0 else 0x0000000f), 0)
  else
    (if five then RTW_RATEID_G else RTW_RATEID_BG,
     0x00000ff0 .| (if five then 0 else 0x0000000f), 0).

Definition media_connect (d : rtw_dev) (box_num : Z) (g_session : wifi_session)
    (bssid : list Z) (mac_id channel : Z) : prog (Z * wifi_session) :=
  let a := ef_addr (efuse d) in
  hw_write32 REG_MACID (a.[0] .| (a.[1] << 8) .| (a.[2] << 16) .| (a.[3] << 24));;
  hw_write16 (REG_MACID + 4) (a.[4] .| (a.[5] << 8));;
  hw_write32 REG_BSSID (bssid.[0] .| (bssid.[1] << 8) .| (bssid.[2] << 16) .| (bssid.[3] << 24));;
  hw_write16 (REG_BSSID + 4) (bssid.[4] .| (bssid.[5] << 8));;
  msr ← hw_read8 REG_MSR;
  hw_write8 REG_MSR ((msr .& .~ 0x03) .| MSR_NETTYPE_INFRA);;
  box_num ← h2c_command box_num [H2C_CMD_MEDIA_STATUS_RPT; 0x01; mac_id; 0; 0; 0; 0; 0];
  usleep_range 5000 5000;;
  let five := 14 <? channel in
  hw_write32 REG_RRSR (if five then 0x150 else 0x15f);;
  let '(raid, mask, vht_en) := ra_choice g_session five in
  box_num ← fw_ra_info box_num mac_id raid mask 0 1 vht_en;
  mret (box_num, Session (has_ht g_session) (has_vht g_session) raid DESC_RATE54M).

(** ** The handshake packets (core/h2c.c) *)

Definition H2C_PKT_CATEGORY : Z := 0x01.
Definition H2C_PKT_CMD_ID : Z := 0xFF.
Definition H2C_PKT_GENERAL_INFO : Z := 0x0D.
Definition H2C_PKT_PHYDM_INFO : Z := 0x11.
Definition H2C_PKT_HDR_SIZE : Z := 8.
Definition FW_RF_1T1R : Z := 4.

(** A packet as its eight little-endian words. *)
Definition set_bits (pkt : list Z) (word : nat) (val mask : Z) : list Z :=
  <[word := (pkt.[word] .& .~ mask) .| (u32 (val << ctz mask) .& mask)]> pkt.

Definition set_header (pkt : list Z) (sub_id : Z) : list Z :=
  set_bits (set_bits (set_bits pkt 0 H2C_PKT_CATEGORY (GENMASK 6 0))
              0 H2C_PKT_CMD_ID (GENMASK 15 8)) 0 sub_id (GENMASK 31 16).

Definition general_info (f : rtw_fifo_conf) : list Z :=
  let pkt := set_header (replicate 8 0) H2C_PKT_GENERAL_INFO in
  let pkt := set_bits pkt 1 (H2C_PKT_HDR_SIZE + 4) (GENMASK 15 0) in
  let pkt := set_bits pkt 1 0 (GENMASK 31 16) in
  let fw_tx_boundary := u32 (rsvd_fw_txbuf_addr f - rsvd_boundary f) in
  set_bits pkt 2 fw_tx_boundary (GENMASK 23 16).

Definition phydm_info (rfe_option cut_version : Z) : list Z :=
  let pkt := set_header (replicate 8 0) H2C_PKT_PHYDM_INFO in
  let pkt := set_bits pkt 1 (H2C_PKT_HDR_SIZE + 8) (GENMASK 15 0) in
  let pkt := set_bits pkt 1 1 (GENMASK 31 16) in
  let pkt := set_bits pkt 2 rfe_option (GENMASK 7 0) in
  let pkt := set_bits pkt 2 FW_RF_1T1R (GENMASK 15 8) in
  let pkt := set_bits pkt 2 cut_version (GENMASK 23 16) in
  let pkt := set_bits pkt 2 1 (GENMASK 27 24) in
  set_bits pkt 2 1 (GENMASK 31 28).

Definition pkt_bytes (pkt : list Z) : list Z := concat (map le32 pkt).

Definition fw_handshake (d : rtw_dev) (s : trx_state) : prog trx_state :=
  '(_, s) ← trx_tx_h2c d s (pkt_bytes (general_info (fifo d)));
  usleep_range 2000 2000;;
  '(_, s) ← trx_tx_h2c d s (pkt_bytes (phydm_info (rfe_option (efuse d)) (cut_version (hal d))));
  usleep_range 2000 2000;;
  mret s.

(** ** The firmware's side of the mailboxes *)

(** Upper dwords, delivered commands (box, eight bytes), and the link registers. *)
Record fw_side := FwSide {
  fw_ex : Z -> Z; fw_cmds : list (Z * list Z);
  fw_macid : list Z * list Z; fw_bssid : list Z * list Z; fw_msr : Z;
}.
Definition box_of (a : Z) : option Z :=
  if a =? REG_HMEBOX0 then Some 0 else if a =? REG_HMEBOX1 then Some 1
  else if a =? REG_HMEBOX2 then Some 2 else if a =? REG_HMEBOX3 then Some 3 else None.
Definition ex_of (a : Z) : option Z :=
  if a =? REG_HMEBOX0_EX then Some 0 else if a =? REG_HMEBOX1_EX then Some 1
  else if a =? REG_HMEBOX2_EX then Some 2 else if a =? REG_HMEBOX3_EX then Some 3 else None.

Definition fw_mon (f : fw_side) (o : hwop) (_ : hwres o) : option fw_side :=
  match o with
  | Write W32 a v =>
      match box_of a, ex_of a with
      | Some b, _ => Some (FwSide (fw_ex f) (fw_cmds f ++ [(b, le32 v ++ le32 (fw_ex f b))])
                             (fw_macid f) (fw_bssid f) (fw_msr f))
      | None, Some b => Some (FwSide (fun i => if i =? b then v else fw_ex f i) (fw_cmds f)
                                (fw_macid f) (fw_bssid f) (fw_msr f))
      | None, None =>
          if a =? REG_MACID then Some (FwSide (fw_ex f) (fw_cmds f) (le32 v, (fw_macid f).2) (fw_bssid f) (fw_msr f))
          else if a =? REG_BSSID then Some (FwSide (fw_ex f) (fw_cmds f) (fw_macid f) (le32 v, (fw_bssid f).2) (fw_msr f))
          else Some f
      end
  | Write W16 a v =>
      if a =? REG_MACID + 4 then Some (FwSide (fw_ex f) (fw_cmds f) ((fw_macid f).1, le16 v) (fw_bssid f) (fw_msr f))
      else if a =? REG_BSSID + 4 then Some (FwSide (fw_ex f) (fw_cmds f) (fw_macid f) ((fw_bssid f).1, le16 v) (fw_msr f))
      else Some f
  | Write W8 a v => if a =? REG_MSR then Some (FwSide (fw_ex f) (fw_cmds f) (fw_macid f) (fw_bssid f) v) else Some f
  | _ => Some f
  end.

(** ** Delivery *)

Lemma hmebox_cases n : 0 <= n < 4 -> box_of (hmebox n).1 = Some n /\ box_of (hmebox n).2 = None /\
  ex_of (hmebox n).2 = Some n.
Proof.
  intros Hn. assert (n = 0 \/ n = 1 \/ n = 2 \/ n = 3) as H by lia.
  by destruct H as [->|[->|[->| ->]]].
Qed.

(** Calls that neither the mailboxes nor the link registers see. *)
Definition quiet (o : hwop) : bool :=
  match o with Write _ _ _ => false | _ => true end.

Lemma fw_quiet f o r : quiet o = true -> fw_mon f o r = Some f.
Proof. by destruct o. Qed.

Lemma hmebox_wait_quiet n b : safe quiet (hmebox_wait n b) (fun _ => True).
Proof.
  induction n as [|n IH]; cbn [hmebox_wait]; [by safe_go|].
  apply safe_bind_any; [by safe_go|]. intros v. destruct (negb _); [by safe_go|].
  apply safe_bind_any; [by safe_go|]. intros _. apply IH.
Qed.

Lemma bytes8 l : length l = 8%nat -> bytes_ok l ->
  exists a b c d e f g h, l = [a; b; c; d; e; f; g; h] /\
    le32 (a .| (b << 8) .| (c << 16) .| (d << 24)) ++ le32 (e .| (f << 8) .| (g << 16) .| (h << 24)) = l.
Proof.
  intros Hl Hb. do 8 (destruct l as [|? l]; [done|]). destruct l; [|done].
  unfold bytes_ok in Hb. rewrite !Forall_cons_iff in Hb. destruct_and!.
  eexists _, _, _, _, _, _, _, _. split; [done|]. by rewrite !le32_bytes by done.
Qed.

(** One command arrives intact in its box; the rest of the firmware's view is
    unchanged. *)
Lemma h2c_command_wp n h2c f (Q : Z -> fw_side -> Prop) :
  0 <= n < 4 -> length h2c = 8%nat -> bytes_ok h2c ->
  (forall f', fw_cmds f' = fw_cmds f ++ [(n, h2c)] -> fw_macid f' = fw_macid f ->
     fw_bssid f' = fw_bssid f -> fw_msr f' = fw_msr f -> Q ((n + 1) mod 4) f') ->
  wp fw_mon (h2c_command n h2c) f Q.
Proof.
  intros Hn Hl Hb HQ. destruct (hmebox_cases n Hn) as (E1 & E2 & E3).
  destruct (bytes8 h2c Hl Hb) as (x0&x1&x2&x3&x4&x5&x6&x7&->&E).
  unfold h2c_command. destruct (hmebox n) as [box ex]. cbn [fst snd] in *.
  apply wp_bind. eapply wp_mono.
  { eapply wp_safe_frame; [|apply hmebox_wait_quiet]. intros; by apply fw_quiet. }
  intros _ f' [-> _]. cbn [nth]. intros u.
  cbn -[le32 wrap Z.lor Z.shiftl box_of ex_of]. rewrite E2, E3.
  intros u'. cbn -[le32 wrap Z.lor Z.shiftl box_of ex_of]. rewrite E1.
  apply HQ; try done. cbn [fw_cmds fw_ex]. rewrite Z.eqb_refl, !le32_u32. by rewrite E.
Qed.

(** Any sequence of commands is delivered complete, in order, and to the
    four mailboxes in rotation. *)
Theorem h2c_commands_delivered (cmds : list (list Z)) (box_num : Z) (f : fw_side) :
  0 <= box_num < 4 -> Forall (fun c => length c = 8%nat /\ bytes_ok c) cmds ->
  wp fw_mon (foldl (fun p c => b ← p; h2c_command b c) (mret box_num) cmds) f (fun b f' =>
    b = (box_num + Z.of_nat (length cmds)) mod 4 /\
    fw_cmds f' = fw_cmds f ++
      imap (fun i c => ((box_num + Z.of_nat i) mod 4, c)) cmds).
Proof.
  intros Hb Hc. induction cmds as [|c cmds IH] using rev_ind.
  { cbn. rewrite Z.add_0_r, app_nil_r, Z.mod_small by lia. done. }
  apply Forall_app in Hc as [Hcs Hc]. apply Forall_cons_1 in Hc as [[Hl Hok] _]. rewrite foldl_app. cbn [foldl].
  apply wp_bind. eapply wp_mono; [by apply IH|]. intros b f' [-> Hf'].
  apply h2c_command_wp; [apply Z.mod_pos_bound; lia|done|done|].
  intros f'' Hf'' _ _ _. rewrite Hf'', Hf', length_app, imap_app. cbn [length imap].
  rewrite Nat.add_0_r, <- app_assoc. split; [|done].
  rewrite Zplus_mod_idemp_l. f_equal. lia.
Qed.

Lemma le_bytes_ok v : bytes_ok [u8 v; u8 (v >> 8); u8 (v >> 16); u8 (v >> 24)].
Proof. repeat constructor; apply u8_byte_ok. Qed.

Lemma le16_bytes a b : byte_ok a -> byte_ok b -> le16 (u16 (a .| (b << 8))) = [a; b].
Proof.
  intros Ha Hb. unfold le16.
  assert (Hw : forall k x, 0 <= k -> byte_ok x ->
    (forall i, 0 <= i < 8 -> i + k < 16 /\ Z.testbit (a .| (b << 8)) (i + k) = Z.testbit x i) ->
    u8 (u16 (a .| (b << 8)) >> k) = x).
  { intros k x Hk Hx H. apply (bits_ext 8); [by apply wrap_range|done|]. intros i Hi.
    destruct (H i Hi) as [H1 H2].
    rewrite wrap_testbit, Z.shiftr_spec, wrap_testbit, H2 by lia.
    destruct (Z.leb_spec 0 i), (Z.ltb_spec i 8), (Z.leb_spec 0 (i + k)), (Z.ltb_spec (i + k) 16);
      try lia. done. }
  rewrite <- (Z.shiftr_0_r (u16 _)) at 1.
  rewrite (Hw 0 a), (Hw 8 b); try done; intros i Hi; (split; [lia|]);
    rewrite Z.lor_spec, shiftl_byte_bit by (done || lia).
  - destruct (Z.leb_spec 8 (i + 8)), (Z.ltb_spec (i + 8) (8 + 8)); try lia. cbn [andb].
    by rewrite (testbit_high 8 a), Z.add_simpl_r by (done || lia).
  - destruct (Z.leb_spec 8 (i + 0)); [lia|]. by rewrite orb_false_r, Z.add_0_r.
Qed.

Lemma split6 l : length l = 6%nat -> bytes_ok l ->
  exists a b c d e f, l = [a; b; c; d; e; f] /\ byte_ok a /\ byte_ok b /\ byte_ok c /\
    byte_ok d /\ byte_ok e /\ byte_ok f.
Proof.
  intros Hl Hb. do 6 (destruct l as [|? l]; [done|]). destruct l; [|done].
  unfold bytes_ok in Hb. rewrite !Forall_cons_iff in Hb. destruct_and!. eauto 15.
Qed.

(** The six rate choices, and the command word each gives. *)
(** Read a word off its four bytes. *)
Ltac word_is H c2 c3 :=
  solve [exists c2, c3; split; [apply H; [done|done|
    unfold word32; rewrite <- !Z.lor_assoc; do 2 f_equal; reflexivity]|reflexivity]].

Lemma ra_choice_word g five mac_id : byte_ok mac_id ->
  let '(raid, mask, vht_en) := ra_choice g five in
  let w0 := H2C_CMD_RA_INFO .| ((mac_id .& 0xff) << 8) .| ((raid .& 0x1f) << 16)
            .| ((0 .& 0x03) << 21) .| ((if nz 1 then 1 else 0) << 23) .| ((0 .& 0x03) << 24)
            .| (0 << 26) .| (0 << 27) .| ((vht_en .& 0x03) << 28) .| (1 << 30) in
  exists c2 c3, le32 w0 = [H2C_CMD_RA_INFO; mac_id; c2; c3] /\ c2 .& 0x1f = raid.
Proof.
  intros Hm. assert (Hm' : mac_id .& 0xff = mac_id).
  { change 0xff with (Z.ones 8). rewrite Z.land_ones by lia. by apply Z.mod_small. }
  rewrite Hm'. unfold ra_choice.
  assert (H : forall c2 c3 w, byte_ok c2 -> byte_ok c3 ->
    w = word32 H2C_CMD_RA_INFO mac_id c2 c3 -> le32 w = [H2C_CMD_RA_INFO; mac_id; c2; c3]).
  { intros c2 c3 w H2 H3 ->. by apply le32_word32. }
  destruct (has_vht g), (has_ht g), five;
    first [ word_is H (10 + 128) 0x50 | word_is H (11 + 128) 0x50 | word_is H (5 + 128) 0x40
          | word_is H (3 + 128) 0x40 | word_is H (7 + 128) 0x40 | word_is H (6 + 128) 0x40 ].
Qed.

Lemma fw_ra_info_wp n mac_id g five f (Q : Z -> fw_side -> Prop) :
  0 <= n < 4 -> byte_ok mac_id ->
  let '(raid, mask, vht_en) := ra_choice g five in
  (forall f' ra, fw_cmds f' = fw_cmds f ++ [(n, ra)] -> fw_macid f' = fw_macid f ->
     fw_bssid f' = fw_bssid f -> fw_msr f' = fw_msr f ->
     ra.[0] = H2C_CMD_RA_INFO -> ra.[1] = mac_id -> ra.[2] .& 0x1f = raid -> Q ((n + 1) mod 4) f') ->
  wp fw_mon (fw_ra_info n mac_id raid mask 0 1 vht_en) f Q.
Proof.
  intros Hn Hm. pose proof (ra_choice_word g five mac_id Hm) as Hw.
  destruct (ra_choice g five) as [[raid mask] vht_en]. destruct Hw as (c2 & c3 & Hw & Hc).
  intros HQ. unfold fw_ra_info. apply wp_bind.
  apply h2c_command_wp; [done|done| |].
  { apply (bytes_ok_app [_; _; _; _]). split; apply le_bytes_ok. }
  intros f' H1 H2 H3 H4. intros []. cbn. unfold le32 in Hw. injection Hw as E1 E2 E3 E4.
  eapply HQ; [exact H1|done|done|done|exact E1|exact E2|].
  etransitivity; [|exact Hc]. exact (f_equal (fun z => z .& 0x1f) E3).
Qed.

(** [media_connect] leaves the chip's self-MAC at the device's address, the
    BSSID filter at the access point's and the network type at infrastructure; it
    delivers the connect report for the peer and then a rate-adaptation command
    whose rate table is the one recorded in the session. *)
Theorem media_connect_link (d : rtw_dev) (box_num : Z) (g : wifi_session)
    (bssid : list Z) (mac_id channel : Z) (f : fw_side) :
  0 <= box_num < 4 -> length (ef_addr (efuse d)) = 6%nat -> bytes_ok (ef_addr (efuse d)) ->
  length bssid = 6%nat -> bytes_ok bssid -> 0 <= mac_id < 256 ->
  wp fw_mon (media_connect d box_num g bssid mac_id channel) f (fun '(b, g') f' =>
    (fw_macid f').1 ++ (fw_macid f').2 = ef_addr (efuse d) /\
    (fw_bssid f').1 ++ (fw_bssid f').2 = bssid /\ fw_msr f' .& 3 = MSR_NETTYPE_INFRA /\
    b = (box_num + 2) mod 4 /\ has_ht g' = has_ht g /\ has_vht g' = has_vht g /\
    exists ra, fw_cmds f' = fw_cmds f ++
      [(box_num, [H2C_CMD_MEDIA_STATUS_RPT; 1; mac_id; 0; 0; 0; 0; 0]); ((box_num + 1) mod 4, ra)] /\
      ra.[0] = H2C_CMD_RA_INFO /\ ra.[1] = mac_id /\ ra.[2] .& 0x1f = s_raid g').
Proof.
  intros Hb Ha Hao Hbs Hbso Hm. unfold media_connect.
  destruct (split6 _ Ha Hao) as (a0&a1&a2&a3&a4&a5&Ea&?&?&?&?&?&?). rewrite Ea.
  destruct (split6 _ Hbs Hbso) as (b0&b1&b2&b3&b4&b5&Eb&?&?&?&?&?&?). rewrite Eb.
  cbn [nth]. do 4 (intros ?; cbn -[le32 le16 wrap Z.lor Z.shiftl Z.land Z.lnot h2c_command fw_ra_info ra_choice]).
  intros msr. cbn -[le32 le16 wrap Z.lor Z.shiftl Z.land Z.lnot h2c_command fw_ra_info ra_choice].
  intros ?. cbn -[le32 le16 wrap Z.lor Z.shiftl Z.land Z.lnot h2c_command fw_ra_info ra_choice].
  assert (Hmsr : u8 (u8 msr .& .~ 3 .| MSR_NETTYPE_INFRA) .& 3 = MSR_NETTYPE_INFRA).
  { generalize (u8 msr). intros v. apply Z.bits_inj'; intros i Hi.
    change 3 with (Z.ones 2). rewrite Z.land_spec, wrap_testbit, Z.lor_spec, Z.land_spec, Z.lnot_spec by lia.
    rewrite Z.testbit_ones_nonneg by lia.
    destruct (Z.ltb_spec i 2); [|rewrite andb_false_r; symmetry; by apply (testbit_high 2)].
    assert (i = 0 \/ i = 1) as [->| ->] by lia; cbn; by rewrite andb_false_r. }
  apply wp_bind, h2c_command_wp; [done|done|unfold H2C_CMD_MEDIA_STATUS_RPT; bytes_ok_tac|].
  intros f' C1 M1 B1 S1. intros []. cbn -[fw_ra_info wrap le32 le16 ra_choice]. intros [].
  cbn -[fw_ra_info wrap le32 le16 ra_choice].
  pose proof (fw_ra_info_wp ((box_num + 1) mod 4) mac_id g (14 <? channel) f') as Hra.
  destruct (ra_choice g (14 <? channel)) as [[raid mask] vht_en].
  apply wp_bind, Hra; [apply Z.mod_pos_bound; lia|done|].
  intros f'' ra C2 M2 B2 S2 R0 R1 R2. apply wp_ret.
  rewrite M2, M1, B2, B1, S2, S1, C2, C1. cbn [fst snd fw_macid fw_bssid fw_msr fw_cmds].
  rewrite !le32_u32, !le32_bytes, !le16_bytes by done. cbn [app].
  split_and!; try done.
  - rewrite Zplus_mod_idemp_l. f_equal. lia.
  - exists ra. rewrite <- app_assoc. done.
Qed.

(** ** The handshake packets *)

(** Both handshake packets carry the category, command, sub-command, length
    and sequence number the firmware expects, and nothing but the parameters
    given: the transmit boundary, and the front end, cut and antenna path. *)
Theorem handshake_packets (f : rtw_fifo_conf) (rfe cut : Z) :
  byte_ok rfe -> byte_ok cut ->
  pkt_bytes (general_info f)
    = [1; 0xff; 0x0d; 0; 12; 0; 0; 0; 0; 0; u8 (rsvd_fw_txbuf_addr f - rsvd_boundary f); 0]
      ++ replicate 20 0 /\
  pkt_bytes (phydm_info rfe cut)
    = [1; 0xff; 0x11; 0; 16; 0; 1; 0; rfe; FW_RF_1T1R; cut; 0x11] ++ replicate 20 0.
Proof.
  intros Hr Hc. split.
  - unfold general_info. set (b := u32 _).
    assert (Hb : le32 (u32 (b << 16) .& GENMASK 23 16) = [0; 0; u8 (rsvd_fw_txbuf_addr f - rsvd_boundary f); 0]).
    { assert (E : u32 (b << 16) .& GENMASK 23 16 = word32 0 0 (u8 (rsvd_fw_txbuf_addr f - rsvd_boundary f)) 0).
      { apply Z.bits_inj'; intros i Hi. rewrite word32_bits; try done; [|apply u8_byte_ok].
        unfold GENMASK. rewrite Z.land_spec, !Z.shiftl_spec, wrap_testbit, Z.shiftl_spec by lia.
        unfold b. rewrite !wrap_testbit by lia. rewrite !Z.bits_0.
        destruct (decide (16 <= i < 24)).
        - rewrite Z.testbit_ones_nonneg by lia. repeat (case_bool; try lia). cbn.
          by rewrite ?andb_true_r, ?orb_false_r.
        - destruct (decide (i < 16)); [rewrite (Z.testbit_neg_r (Z.ones _)) by lia|
            rewrite Z.testbit_ones_nonneg by lia]; repeat (case_bool; try lia); cbn;
            by rewrite ?andb_false_r. }
      rewrite E. apply le32_word32; try done. apply u8_byte_ok. }
    unfold pkt_bytes. cbn -[le32 Z.lor Z.land Z.lnot GENMASK b u32].
    change (0 .& .~ GENMASK 23 16) with 0. change (ctz (GENMASK 23 16)) with 16.
    by rewrite (Z.lor_0_l (u32 (b << 16) .& GENMASK 23 16)), Hb.
  - unfold phydm_info, pkt_bytes. cbn -[le32 Z.lor Z.land Z.lnot GENMASK u32 word32].
    match goal with |- context [le32 ?w ++ le32 0 ++ _] =>
      assert (E : w = word32 rfe FW_RF_1T1R cut 0x11) end.
    { assert (Hm : forall h l v i, 0 <= l <= h -> h < 32 -> byte_ok v -> 0 <= i ->
        Z.testbit (u32 (v << l) .& GENMASK h l) i
        = ((l <=? i) && (i <? l + 8) && (i <=? h) && Z.testbit v (i - l))%bool).
      { intros h l v i H1 H2 Hv Hi. rewrite Z.land_spec, wrap_testbit, shiftl_byte_bit, GENMASK_bit by (done || lia).
        repeat (case_bool; try lia); cbn; by rewrite ?andb_true_r, ?andb_false_r. }
      apply Z.bits_inj'; intros i Hi. rewrite word32_bits by done.
      change (ctz (GENMASK 7 0)) with 0. change (ctz (GENMASK 15 8)) with 8.
      change (ctz (GENMASK 23 16)) with 16. change (ctz (GENMASK 27 24)) with 24.
      change (ctz (GENMASK 31 28)) with 28.
      rewrite !Z.lor_spec, !(Z.land_spec _ (.~ _)), !Z.lor_spec, !(Z.land_spec _ (.~ _)).
      rewrite !Z.lor_spec, !(Z.land_spec _ (.~ _)), !Z.lor_spec, !(Z.land_spec _ (.~ _)).
      rewrite !Z.lor_spec, !(Z.land_spec _ (.~ _)), !Z.lnot_spec by done.
      rewrite !Hm, !GENMASK_bit by (done || lia).
      rewrite Z.bits_0, Z.sub_0_r.
      destruct (decide (24 <= i < 32)).
      - assert (i = 24 \/ i = 25 \/ i = 26 \/ i = 27 \/ i = 28 \/ i = 29 \/ i = 30 \/ i = 31) as Hx by lia.
        repeat destruct Hx as [->|Hx]; subst; done.
      - repeat (case_bool; try lia); cbn; by rewrite ?andb_true_r, ?andb_false_r, ?orb_false_r. }
    rewrite E, le32_word32 by done. done.
Qed.

(** ** Witnesses *)

Definition fw_side0 : fw_side := FwSide (fun _ => 0) [] ([], []) ([], []) 0.

Lemma h2c_commands_delivered_witness :
  wp fw_mon (foldl (fun p c => b ← p; h2c_command b c) (mret 3) [[1; 1; 0; 0; 0; 0; 0; 0]; seqZ 0 8])
    fw_side0 (fun b f' => b = 1 /\
      fw_cmds f' = [(3, [1; 1; 0; 0; 0; 0; 0; 0]); (0, seqZ 0 8)]).
Proof.
  apply (h2c_commands_delivered [[1; 1; 0; 0; 0; 0; 0; 0]; seqZ 0 8] 3 fw_side0); [lia|].
  apply (bool_decide_unpack _). by vm_compute.
Defined.

Definition media_dev : rtw_dev :=
  set_efuse (Efuse 0 (seqZ 1 6) 0 0 0 0 false) (example_dev [] []).

Lemma media_connect_link_witness :
  wp fw_mon (media_connect media_dev 0 (Session true true 0 0) (seqZ 0x10 6) 0 36) fw_side0 (fun '(b, g') f' =>
    (fw_macid f').1 ++ (fw_macid f').2 = seqZ 1 6 /\
    (fw_bssid f').1 ++ (fw_bssid f').2 = seqZ 0x10 6 /\ fw_msr f' .& 3 = MSR_NETTYPE_INFRA /\
    b = 2 /\ has_ht g' = true /\ has_vht g' = true /\
    exists ra, fw_cmds f' =
      [(0, [H2C_CMD_MEDIA_STATUS_RPT; 1; 0; 0; 0; 0; 0; 0]); (1, ra)] /\
      ra.[0] = H2C_CMD_RA_INFO /\ ra.[1] = 0 /\ ra.[2] .& 0x1f = s_raid g').
Proof.
  apply (media_connect_link media_dev 0 (Session true true 0 0) (seqZ 0x10 6) 0 36 fw_side0);
    try done; try lia; apply (bool_decide_unpack _); by vm_compute.
Defined.

Lemma handshake_packets_witness :
  let f := FifoConf 0 0 0 0 100 0 105 0 0 0 0 0 None in
  pkt_bytes (general_info f)
    = [1; 0xff; 0x0d; 0; 12; 0; 0; 0; 0; 0; u8 (105 - 100); 0] ++ replicate 20 0 /\
  pkt_bytes (phydm_info 4 1)
    = [1; 0xff; 0x11; 0; 16; 0; 1; 0; 4; FW_RF_1T1R; 1; 0x11] ++ replicate 20 0.
Proof. apply (handshake_packets (FifoConf 0 0 0 0 100 0 105 0 0 0 0 0 None) 4 1); by split. Defined.
