(* ===== verification/Coex.v ===== *)
(** * Coex: handing the shared antenna to WiFi (core/coex.c)

    The grant bits live in an indirect register behind a command interface.
    Proved: an update never runs on a failed read, changes only the bits under
    its mask, and reaches the register it names. *)
From S2P Require Import Prelude Hw Regs Dev.
Open Scope Z_scope.
Open Scope rtw_scope.

Definition LTECOEX_CTRL : Z := 0x1700.
Definition LTECOEX_WDATA : Z := 0x1704.
Definition LTECOEX_RDATA : Z := 0x1708.
Definition LTE_COEX_CTRL : Z := 0x38.
Definition COEX_GNT_HW_PTA : Z := 0x0.
Definition COEX_GNT_SW_HIGH : Z := 0x3.
Definition COEX_SCBD_ACTIVE : Z := 0x0001.
Definition COEX_SCBD_ONOFF : Z := 0x0002.
Definition BT_CNT_ENABLE : Z := 0x1.

Definition lte_read (off : Z) : prog (option Z) :=
  ok ← check_hw_ready LTECOEX_CTRL LTECOEX_READY 1;
  if negb ok then mret None else
  hw_write32 LTECOEX_CTRL (0x800F0000 .| off);;
  v ← hw_read32 LTECOEX_RDATA;
  mret (Some v).

Definition lte_write (off val : Z) : prog unit :=
  ok ← check_hw_ready LTECOEX_CTRL LTECOEX_READY 1;
  if negb ok then mret tt else
  hw_write32 LTECOEX_WDATA val;;
  hw_write32 LTECOEX_CTRL (0xC00F0000 .| off).

Definition indirect_write (addr mask val : Z) : prog unit :=
  r ← lte_read addr;
  match r with
  | None => mret tt
  | Some tmp => lte_write addr ((tmp .& .~ mask) .| (u32 (val << ctz mask) .& mask))
  end.

Definition coex_wifi_antenna : prog unit :=
  rtw_write32_set REG_GPIO_MUXCFG (BIT_BT_PTA_EN .| BIT_PO_BT_PTA_PINS);;
  rtw_write8_set REG_QUEUE_CTRL BIT_PTA_WL_TX_EN;;
  rtw_write8_clr REG_QUEUE_CTRL BIT_PTA_EDCCA_EN;;
  hw_write8 REG_BT_STAT_CTRL BT_CNT_ENABLE;;
  rtw_write8_mask REG_BT_TDMA_TIME BIT_MASK_SAMPLE_RATE 0x5;;
  rtw_write16_set REG_BT_COEX_V2 BIT_GNT_BT_POLARITY;;
  rtw_write8_set REG_BCN_CTRL BIT_EN_BCN_FUNCTION;;
  rtw_write32_clr REG_SYS_SDIO_CTRL BIT_DBG_GNT_WL_BT;;
  hw_write16 REG_WIFI_BT_INFO (u16 (0x2 .| COEX_SCBD_ACTIVE .| COEX_SCBD_ONOFF .| BIT_BT_INT_EN));;
  _ ← hw_read16 REG_WIFI_BT_INFO;
  rtw_write8_set (REG_SYS_SDIO_CTRL + 3) (BIT_LTE_MUX_CTRL_PATH >> 24);;
  indirect_write LTE_COEX_CTRL 0x3000 COEX_GNT_SW_HIGH;;
  indirect_write LTE_COEX_CTRL 0x0300 COEX_GNT_SW_HIGH;;
  indirect_write LTE_COEX_CTRL 0xc000 COEX_GNT_HW_PTA;;
  indirect_write LTE_COEX_CTRL 0x0c00 COEX_GNT_HW_PTA.

(** ** The indirect interface *)

(** What the protocol has seen: the register a read command named, the value
    read back, and the data armed for a write. *)
Record lte_proto := Lte { lp_cmd : option Z; lp_read : option (Z * Z); lp_data : option Z }.
Definition lte_idle : lte_proto := Lte None None None.

(** An update of the field [mask] of register [addr] to [val]: data may be armed
    only from a value just read from that register, and must agree with it
    outside the mask; the write command must name the same register. *)
Definition lte_mon (addr mask val : Z) (s : lte_proto) (o : hwop) : hwres o -> option lte_proto :=
  match o as o return hwres o -> option lte_proto with
  | Read W32 a => fun r => if a =? LTECOEX_RDATA
      then Some (Lte (lp_cmd s) (option_map (fun c => (c, u32 r)) (lp_cmd s)) (lp_data s)) else Some s
  | Write W32 a v => fun _ =>
      if a =? LTECOEX_WDATA then
        match lp_read s with
        | Some (c, r) =>
            if (c =? addr) && (v .& .~ mask =? r .& .~ mask) && (v .& mask =? (val << ctz mask) .& mask)
            then Some (Lte (lp_cmd s) (lp_read s) (Some v)) else None
        | None => None
        end
      else if a =? LTECOEX_CTRL then
        if v =? (0x800F0000 .| addr) then Some (Lte (Some addr) None None)
        else if (v =? (0xC00F0000 .| addr)) && bool_decide (is_Some (lp_data s)) then Some lte_idle
        else None
      else None
  | Udelay _ => fun _ => Some s
  | _ => fun _ => None
  end.

Lemma check_ready_lte addr mask val a m t s : a <> LTECOEX_RDATA ->
  wp (lte_mon addr mask val) (check_hw_ready a m t) s (fun _ s' => s' = s).
Proof.
  intros Ha. unfold check_hw_ready. generalize DDMA_POLLING_COUNT_DEF. intros n.
  induction n as [|n IH]; [done|]. cbn [check_hw_ready_loop]. unfold rtw_read32_mask.
  intros r. cbn. destruct (Z.eqb_spec a LTECOEX_RDATA); [done|].
  destruct (_ =? t); [done|]. intros u. apply IH.
Qed.

Lemma field_update v mask x : 0 <= mask < 2 ^ 32 -> 0 <= v < 2 ^ 32 -> 
  let w := u32 ((v .& .~ mask) .| (u32 x .& mask)) in
  w .& .~ mask = v .& .~ mask /\ w .& mask = x .& mask.
Proof.
  intros Hm Hv w. unfold w. split; apply Z.bits_inj'; intros i Hi;
    rewrite ?Z.land_spec, wrap_testbit, Z.lor_spec, !Z.land_spec, !Z.lnot_spec, !wrap_testbit by lia;
    (destruct (Z.leb_spec 0 i); [|lia]);
    (destruct (Z.ltb_spec i 32); cbn [andb];
      [|rewrite ?(testbit_high 32 mask), ?(testbit_high 32 v) by lia; cbn; by rewrite ?andb_false_r]);
    destruct (Z.testbit v i), (Z.testbit mask i), (Z.testbit x i); done.
Qed.

(** An indirect update follows the protocol on every run, whatever the chip
    answers: a failed or timed-out read leads to no write at all, and a write
    carries the value just read with only the bits under the mask replaced. *)
Theorem indirect_write_protocol (addr mask val : Z) :
  0 <= addr < 0x10000 -> 0 <= mask < 2 ^ 32 ->
  wp (lte_mon addr mask val) (indirect_write addr mask val) lte_idle (fun _ _ => True).
Proof.
  intros Ha Hm. unfold indirect_write, lte_read, lte_write.
  apply wp_bind, wp_bind. eapply wp_mono; [by apply check_ready_lte|].
  intros [] s ->; [|done]. cbn [negb].
  assert (Hcmd : forall c, c = 0x800F0000 \/ c = 0xC00F0000 -> u32 (c .| addr) = (c .| addr)).
  { intros c Hc. apply wrap_small, (lor_range 32); [done|destruct Hc as [->| ->]; done|].
    change (2 ^ 32) with 4294967296. lia. }
  intros u. cbn -[Z.lor Z.land Z.lnot wrap check_hw_ready]. rewrite Hcmd by auto.
  rewrite Z.eqb_refl. intros r. cbn -[Z.lor Z.land Z.lnot wrap check_hw_ready].
  set (v := u32 r). assert (Hv : 0 <= v < 2 ^ 32) by by apply wrap_range.
  apply wp_bind. eapply wp_mono; [by apply check_ready_lte|].
  intros [] s ->; [|done]. intros u'. cbn -[Z.lor Z.land Z.lnot wrap ctz].
  destruct (field_update v mask (val << ctz mask) Hm Hv) as [E1 E2].
  rewrite E1, E2, !Z.eqb_refl. cbn [andb]. intros u''. cbn -[Z.lor Z.land Z.lnot wrap ctz].
  rewrite Hcmd by auto.
  destruct (Z.eqb_spec (0xC00F0000 .| addr) (0x800F0000 .| addr)) as [E|]; [|by rewrite Z.eqb_refl].
  exfalso. apply (f_equal (fun z => Z.testbit z 30)) in E. rewrite !Z.lor_spec in E.
  rewrite (testbit_high 16 addr) in E by (change (2 ^ 16) with 0x10000; lia). done.
Qed.

Lemma indirect_write_protocol_witness :
  wp (lte_mon LTE_COEX_CTRL 0x3000 COEX_GNT_SW_HIGH)
     (indirect_write LTE_COEX_CTRL 0x3000 COEX_GNT_SW_HIGH) lte_idle (fun _ _ => True).
Proof. apply (indirect_write_protocol LTE_COEX_CTRL 0x3000 COEX_GNT_SW_HIGH); done. Defined.
