(* ===== verification/Wpa.v ===== *)
(** * Wpa: keys of the WPA2 4-way handshake (core/wpa.c, first half)

    Key derivation, the key-wrap decryption, the key-data parser, and the
    EAPOL-Key frames.  Proved: both ends derive the same keys, unwrapping inverts
    RFC 3394 wrapping, the parser stays in bounds and finds the group key of any
    well-formed key data, and a built frame carries a MIC that verifies. *)
From S2P Require Import Prelude Sha1 Aes.
Open Scope Z_scope.
Open Scope rtw_scope.

(** ** Byte strings *)

Definition put_be16 (v : Z) : list Z := [u8 (v >> 8); v .& 0xff].
Definition get_be16 (p : list Z) (i : nat) : Z := u16 ((p.[i] << 8) .| p.[S i]).

(** [SHA1] contexts start on whatever the stack holds. *)
Definition stack_junk : list Z := replicate 64 0.
Definition hmac (key msg : list Z) : list Z := rtw_hmac_sha1 stack_junk key msg.

(** "Pairwise key expansion" *)
Definition ptk_label : list Z :=
  [0x50; 0x61; 0x69; 0x72; 0x77; 0x69; 0x73; 0x65; 0x20; 0x6b; 0x65; 0x79; 0x20;
   0x65; 0x78; 0x70; 0x61; 0x6e; 0x73; 0x69; 0x6f; 0x6e].

(** One round per 20 output bytes; [outlen] rounds at most. *)
Fixpoint prf_loop (fuel : nat) (key label seed : list Z) (i : Z) (pos outlen : nat) : list Z :=
  match fuel with
  | O => []
  | S fuel =>
      if (pos <? outlen)%nat then
        let digest := hmac key (label ++ [0] ++ seed ++ [u8 i]) in
        let c := if (outlen - pos <? 20)%nat then (outlen - pos)%nat else 20%nat in
        take c digest ++ prf_loop fuel key label seed (i + 1) (pos + c) outlen
      else []
  end.
Definition prf (key label seed : list Z) (outlen : nat) : list Z :=
  prf_loop outlen key label seed 0 0 outlen.

Definition derive_ptk (pmk aa spa anonce snonce : list Z) : list Z :=
  let seed :=
    (if memcmp aa spa <? 0 then aa ++ spa else spa ++ aa) ++
    (if memcmp anonce snonce <? 0 then anonce ++ snonce else snonce ++ anonce) in
  prf pmk ptk_label seed 48.

(** ** Key unwrap (RFC 3394) *)

Definition aes_dec_block (g : rsbox_state) (kek inp : list Z) : list Z * rsbox_state :=
  rtw_aes128_ecb_decrypt g kek inp.

(** One step on ([a], [r]); [r] is the register file of eight-byte blocks. *)
Definition unwrap_step (kek : list Z) (st : list Z * list Z * rsbox_state) (ti : Z * nat)
    : list Z * list Z * rsbox_state :=
  let '(a, r, g) := st in
  let '(t, i) := ti in
  let off := ((i - 1) * 8)%nat in
  let b := xor_bytes a (be64 t) ++ take 8 (drop off r) in
  let '(b, g) := aes_dec_block g kek b in
  (take 8 b, splice r off (drop 8 b), g).

Definition unwrap_steps (n : nat) : list (Z * nat) :=
  flat_map (fun j => map (fun i => (Z.of_nat (n * j + i), i)) (rev (seq 1 n))) [5; 4; 3; 2; 1; 0]%nat.

(** The plaintext, empty on failure; [None] if the register file would overflow
    its 32 blocks. *)
Definition aes_unwrap (g : rsbox_state) (kek cipher : list Z) : option (list Z * rsbox_state) :=
  let clen := length cipher in
  let n := (clen / 8 - 1)%nat in
  if (clen / 8 <? 2)%nat || negb (clen mod 8 =? 0)%nat then Some ([], g) else
  if (32 <? n)%nat then None else
  let '(a, r, g) := foldl (unwrap_step kek) (take 8 cipher, take (n * 8) (drop 8 cipher), g) (unwrap_steps n) in
  if forallb (fun b => b =? 0xa6) (take 8 a) then Some (r, g) else Some ([], g).

(** ** Key data *)

Definition oui : list Z := [0x00; 0x0f; 0xac].

(** The group key and its index if a GTK KDE is found. *)
Fixpoint parse_gtk_loop (fuel : nat) (kd : list Z) (len i : Z) : option (option (list Z * Z)) :=
  match fuel with
  | O => None
  | S fuel =>
      if len <? i + 2 then Some None else
      type ← rd kd i;
      dlen ← rd kd (i + 1);
      if len <? i + 2 + dlen then Some None else
      let next := if type =? 0 then Some None else parse_gtk_loop fuel kd len (i + 2 + dlen) in
      if (type =? 0xdd) && (6 <=? dlen) then
        o ← rd_bytes kd (i + 2) 3;
        hit ← (if memcmp o oui =? 0 then ty ← rd kd (i + 5); Some (ty =? 0x01) else Some false);
        if hit : bool then
          idx ← rd kd (i + 6);
          let glen := dlen - 6 in
          let glen := if 32 <? glen then 32 else glen in
          gtk ← rd_bytes kd (i + 8) glen;
          Some (Some (gtk, idx .& 0x03))
        else next
      else next
  end.

(** Every round moves forward by at least two bytes. *)
Definition parse_gtk_kde (kd : list Z) (len : Z) : option (option (list Z * Z)) :=
  parse_gtk_loop (S (Z.to_nat len)) kd len 0.

(** The derived keys, the file's globals. *)
Record wpa_keys := WpaKeys {
  g_kck : list Z; g_kek : list Z; g_tk : list Z; g_gtk : list Z;
  g_gtk_len : Z; g_gtk_keyidx : Z; g_wpa_done : bool;
}.
Definition set_gtk (gtk : list Z) (len idx : Z) (k : wpa_keys) : wpa_keys :=
  WpaKeys (g_kck k) (g_kek k) (g_tk k) gtk len idx (g_wpa_done k).

(** [None] is an access outside a buffer; the result says whether a usable group
    key landed.  [gtk] and the index are written as soon as a KDE is found. *)
Definition extract_gtk (g : rsbox_state) (k : wpa_keys) (eapol : list Z) (elen : Z)
    : option (bool * wpa_keys * rsbox_state) :=
  b0 ← rd eapol 97;
  b1 ← rd eapol 98;
  let data_len := u16 ((b0 << 8) .| b1) in
  if (data_len <? 16) || (256 <? data_len) || nz (data_len mod 8) then Some (false, k, g) else
  if u32 elen <? 4 + 95 + data_len then Some (false, k, g) else
  cipher ← rd_bytes eapol 99 data_len;
  '(plain, g) ← aes_unwrap g (g_kek k) cipher;
  if (length plain =? 0)%nat then Some (false, k, g) else
  r ← parse_gtk_kde plain (Z.of_nat (length plain));
  match r with
  | None => Some (false, k, g)
  | Some (gtk, idx) =>
      let glen := Z.of_nat (length gtk) in
      let gtk' := splice (g_gtk k) 0 gtk in
      if 16 <=? glen then Some (true, set_gtk gtk' glen idx k, g)
      else Some (false, set_gtk gtk' (g_gtk_len k) idx k, g)
  end.

(** ** EAPOL-Key frames *)

Definition eapol_hdr (bssid sa : list Z) : list Z :=
  [0x08; 0x01; 0; 0] ++ bssid ++ sa ++ bssid ++ [0; 0] ++ [0xaa; 0xaa; 0x03; 0; 0; 0; 0x88; 0x8e].

Definition rsn_ie : list Z :=
  [48; 20; 0x01; 0x00; 0x00; 0x0f; 0xac; 0x04; 0x01; 0x00;
   0x00; 0x0f; 0xac; 0x04; 0x01; 0x00; 0x00; 0x0f; 0xac; 0x02; 0x00; 0x00].

Definition ct_memcmp16 (a b : list Z) : Z :=
  foldl (fun d i => d .| (a.[i] .^ b.[i])) 0 (seq 0 16).

(** The MIC over the frame with its MIC field (byte 81) cleared. *)
Definition eapol_mic (kck eapol : list Z) : list Z :=
  take 16 (hmac kck (splice eapol 81 (replicate 16 0))).

Definition build_eapol_key (key_info : Z) (replay : list Z) (snonce : option (list Z))
    (kck : list Z) (include_rsn : bool) : list Z :=
  let kd := if include_rsn then rsn_ie else [] in
  let body_len := 95 + Z.of_nat (length kd) in
  let eapol :=
    [0x02; 0x03] ++ put_be16 body_len ++
    [0x02] ++ put_be16 key_info ++ put_be16 16 ++ replay ++
    default (replicate 32 0) snonce ++ replicate 32 0 ++ replicate 16 0 ++
    put_be16 (Z.of_nat (length kd)) ++ kd in
  splice eapol 81 (eapol_mic kck eapol).

(** ** Both ends derive the same keys *)

Lemma ordered_pair (a b : list Z) : length a = length b ->
  (if memcmp a b <? 0 then a ++ b else b ++ a) = (if memcmp b a <? 0 then b ++ a else a ++ b).
Proof.
  intros Hl. rewrite (memcmp_sym a b).
  destruct (Z.ltb_spec (memcmp a b) 0), (Z.ltb_spec (- memcmp a b) 0); try lia; try done.
  assert (memcmp a b = 0) as H' by lia. by apply memcmp_eq in H' as ->.
Qed.

(** The pairwise key is symmetric in the two parties: access point and
    station derive the same 48 bytes, each calling with its own view of who is
    who and whose nonce is whose. *)
Theorem derive_ptk_symmetric (pmk aa spa anonce snonce : list Z) :
  length aa = length spa -> length anonce = length snonce ->
  derive_ptk pmk aa spa anonce snonce = derive_ptk pmk spa aa snonce anonce.
Proof.
  intros Ha Hn. unfold derive_ptk. by rewrite (ordered_pair aa spa Ha), (ordered_pair anonce snonce Hn).
Qed.

(** ** Key wrap *)

Section Wrap.
Context (kek : list Z) (Hkek : block kek).

(** RFC 3394 wrapping, over the code's own block cipher. *)
Definition wrap_step (st : list Z * list Z) (ti : Z * nat) : list Z * list Z :=
  let '(a, r) := st in
  let '(t, i) := ti in
  let off := ((i - 1) * 8)%nat in
  let b := rtw_aes128_ecb_encrypt kek (a ++ take 8 (drop off r)) in
  (xor_bytes (take 8 b) (be64 t), splice r off (drop 8 b)).

Definition wrap_steps (n : nat) : list (Z * nat) :=
  flat_map (fun j => map (fun i => (Z.of_nat (n * j + i), i)) (seq 1 n)) [0; 1; 2; 3; 4; 5]%nat.

Definition aes_wrap (plain : list Z) : list Z :=
  let '(a, r) := foldl wrap_step (replicate 8 0xa6, plain) (wrap_steps (length plain / 8)) in a ++ r.

Definition wrap_inv (n : nat) (st : list Z * list Z) : Prop :=
  length st.1 = 8%nat /\ bytes_ok st.1 /\ length st.2 = (n * 8)%nat /\ bytes_ok st.2.

Lemma splice_ok b i src : bytes_ok b -> bytes_ok src -> bytes_ok (splice b i src).
Proof. intros Hb Hs. unfold splice. rewrite !bytes_ok_app. auto with rtw. Qed.

Lemma be64_ok t : length (be64 t) = 8%nat /\ bytes_ok (be64 t).
Proof. split; [done|]. unfold be64. cbn [map]. bytes_ok_tac. Qed.

Lemma wrap_block n a r i : wrap_inv n (a, r) -> (1 <= i <= n)%nat ->
  block (a ++ take 8 (drop ((i - 1) * 8) r)).
Proof.
  intros (H1 & H2 & H3 & H4) Hi. cbn in *. split.
  - rewrite length_app, length_take, length_drop. lia.
  - apply bytes_ok_app. auto with rtw.
Qed.

Lemma wrap_step_inv n st t i : wrap_inv n st -> (1 <= i <= n)%nat ->
  wrap_inv n (wrap_step st (t, i)).
Proof.
  destruct st as [a r]. intros Hst Hi. pose proof (wrap_block n a r i Hst Hi) as Hb.
  destruct Hst as (H1 & H2 & H3 & H4). cbn [fst snd] in H1, H2, H3, H4.
  destruct (encrypt_block kek _ Hkek Hb) as [E1 E2]. destruct (be64_ok t) as [B1 B2].
  unfold wrap_inv. cbn [wrap_step fst snd]. split_and!.
  - rewrite xor_bytes_length; rewrite ?length_take; lia.
  - apply xor_bytes_ok; auto with rtw.
  - rewrite splice_length; [lia|]. rewrite length_drop. lia.
  - apply splice_ok; auto with rtw.
Qed.

(** Writing back the block that is there changes nothing. *)
Lemma splice_restore (r new : list Z) off :
  length new = 8%nat -> (off + 8 <= length r)%nat ->
  splice (splice r off new) off (take 8 (drop off r)) = r /\
  take 8 (drop off (splice r off new)) = new.
Proof.
  intros Hn Ho. unfold splice.
  assert (Hlt : length (take off r) = off) by (rewrite length_take; lia).
  split.
  - rewrite take_app_length' by done.
    rewrite drop_app_ge by lia. rewrite Hlt.
    assert (Hl8 : length (take 8 (drop off r)) = 8%nat) by (rewrite length_take, length_drop; lia).
    rewrite Hl8. replace (off + 8 - off)%nat with 8%nat by lia.
    rewrite drop_app_length' by done. rewrite Hn.
    rewrite <- (drop_drop r off 8) || rewrite <- drop_drop.
    rewrite take_drop. by rewrite take_drop.
  - rewrite drop_app_length' by done. by rewrite take_app_length'.
Qed.

(** The unwrap step undoes the wrap step. *)
Lemma unwrap_wrap_step n g st t i : rsbox_ok g -> wrap_inv n st -> (1 <= i <= n)%nat ->
  exists g', rsbox_ok g' /\
    unwrap_step kek (wrap_step st (t, i), g) (t, i) = (st, g').
Proof.
  destruct st as [a r]. intros Hg Hst Hi. pose proof (wrap_block n a r i Hst Hi) as Hb.
  pose proof Hst as (H1 & H2 & H3 & H4). cbn in H1, H2, H3, H4.
  destruct (encrypt_block kek _ Hkek Hb) as [E1 E2]. destruct (be64_ok t) as [B1 B2].
  cbn [wrap_step]. unfold unwrap_step, aes_dec_block.
  set (off := ((i - 1) * 8)%nat) in *. set (b := rtw_aes128_ecb_encrypt kek _) in *.
  assert (Hd8 : length (drop 8 b) = 8%nat) by (rewrite length_drop; lia).
  destruct (splice_restore r (drop 8 b) off Hd8) as [S1 S2]; [lia|].
  rewrite S2, xor_bytes_invol by (rewrite length_take; lia). rewrite take_drop.
  pose proof (decrypt_encrypt_id g kek _ Hg Hkek Hb) as Hdec. fold b in Hdec.
  destruct (rtw_aes128_ecb_decrypt g kek b) as [out g'] eqn:Eo. destruct Hdec as [-> Hg'].
  exists g'. split; [done|].
  rewrite take_app_length', drop_app_length' by done. by rewrite S1.
Qed.

Lemma wrap_fold_inv n l : forall st, Forall (fun ti => 1 <= ti.2 <= n)%nat l -> wrap_inv n st ->
  wrap_inv n (foldl wrap_step st l).
Proof.
  induction l as [|[t i] l IH]; intros st Hl Hst; [done|]. apply Forall_cons_1 in Hl as [Hi Hl].
  cbn [foldl]. by apply IH, wrap_step_inv.
Qed.

Lemma unwrap_wrap_fold n l : forall g st, Forall (fun ti => 1 <= ti.2 <= n)%nat l ->
  rsbox_ok g -> wrap_inv n st ->
  exists g', rsbox_ok g' /\
    foldl (unwrap_step kek) (foldl wrap_step st l, g) (rev l) = (st, g').
Proof.
  induction l as [|[t i] l IH] using rev_ind; intros g st Hl Hg Hst; [by exists g|].
  apply Forall_app in Hl as [Hl Hi]. apply Forall_cons_1 in Hi as [Hi _]. cbn in Hi.
  rewrite rev_app_distr, (foldl_app wrap_step). cbn [rev app foldl].
  destruct (unwrap_wrap_step n g (foldl wrap_step st l) t i Hg) as (g' & Hg' & E);
    [by apply wrap_fold_inv|done|]. rewrite E. by apply IH.
Qed.

Lemma unwrap_steps_rev n : unwrap_steps n = rev (wrap_steps n).
Proof.
  unfold unwrap_steps, wrap_steps. cbn [flat_map]. rewrite !app_nil_r, !rev_app_distr, <- !app_assoc.
  by rewrite <- !map_rev.
Qed.

Lemma wrap_steps_ok n : Forall (fun ti => 1 <= ti.2 <= n)%nat (wrap_steps n).
Proof.
  apply Forall_forall. intros [t i] Hin. unfold wrap_steps in Hin.
  apply in_flat_map in Hin as (j & _ & Hin). apply in_map_iff in Hin as (k & E & Hk).
  injection E as _ <-. apply in_seq in Hk. cbn. lia.
Qed.

Lemma unwrap_wrap_lemma g plain :
  rsbox_ok g -> bytes_ok plain -> (length plain mod 8 = 0)%nat -> (8 <= length plain <= 256)%nat ->
  exists g', rsbox_ok g' /\ aes_unwrap g kek (aes_wrap plain) = Some (plain, g').
Proof.
  intros Hg Hp H8 Hl. unfold aes_wrap. set (n := (length plain / 8)%nat).
  assert (Hn : length plain = (n * 8)%nat) by (unfold n; pose proof (Nat.div_mod_eq (length plain) 8); lia).
  assert (Hst : wrap_inv n (replicate 8 0xa6, plain)).
  { unfold wrap_inv. cbn [fst snd]. split_and!; [done|by apply bytes_ok_replicate|lia|done]. }
  pose proof (wrap_fold_inv n _ _ (wrap_steps_ok n) Hst) as Hinv.
  destruct (unwrap_wrap_fold n _ g _ (wrap_steps_ok n) Hg Hst) as (g' & Hg' & E).
  destruct (foldl wrap_step _ (wrap_steps n)) as [a r]. destruct Hinv as (A1 & A2 & A3 & A4). cbn [fst snd] in *.
  exists g'. split; [done|]. unfold aes_unwrap.
  rewrite length_app, A1, A3.
  assert (Hc : ((8 + n * 8) / 8 = S n)%nat) by (rewrite Nat.div_add by lia; done).
  assert (Hm : ((8 + n * 8) mod 8 = 0)%nat) by (rewrite Nat.Div0.mod_add; done).
  rewrite Hc, Hm. replace (S n - 1)%nat with n by lia.
  destruct (Nat.ltb_spec (S n) 2); [lia|]. destruct (Nat.ltb_spec 32 n); [lia|]. cbn [negb orb Nat.eqb].
  rewrite take_app_length', drop_app_length' by done.
  rewrite (take_ge r) by lia. rewrite unwrap_steps_rev, E. done.
Qed.
End Wrap.

(** Unwrapping inverts RFC 3394 wrapping for every key-encryption key and
    every plaintext of one to 32 blocks; the result is accepted. *)
Theorem aes_unwrap_wrap (g : rsbox_state) (kek plain : list Z) :
  rsbox_ok g -> block kek -> bytes_ok plain ->
  (length plain mod 8 = 0)%nat -> (8 <= length plain <= 256)%nat ->
  exists g', rsbox_ok g' /\ aes_unwrap g kek (aes_wrap kek plain) = Some (plain, g').
Proof. intros Hg Hk. by apply unwrap_wrap_lemma. Qed.

(** ** The key-data parser *)

Definition gtk_result_ok (r : option (list Z * Z)) : Prop :=
  match r with
  | Some (gtk, idx) => (length gtk <= 32)%nat /\ bytes_ok gtk /\ 0 <= idx < 4
  | None => True
  end.

Lemma parse_gtk_loop_safe kd : bytes_ok kd -> forall fuel i,
  0 <= i -> Z.of_nat (length kd) - i < Z.of_nat fuel -> (0 < fuel)%nat ->
  exists r, parse_gtk_loop fuel kd (Z.of_nat (length kd)) i = Some r /\ gtk_result_ok r.
Proof.
  intros Hk. induction fuel as [|fuel IH]; intros i Hi Hf Hp; [lia|]. cbn [parse_gtk_loop].
  destruct (Z.ltb_spec (Z.of_nat (length kd)) (i + 2)); [by eexists|].
  destruct (rd_byte kd i Hk) as (type & -> & Ht); [lia|].
  destruct (rd_byte kd (i + 1) Hk) as (dlen & -> & Hd); [lia|]. cbn [mbind option_bind].
  unfold byte_ok in Ht, Hd.
  destruct (Z.ltb_spec (Z.of_nat (length kd)) (i + 2 + dlen)); [by eexists|].
  set (next := if type =? 0 then _ else _).
  assert (Hnext : exists r, next = Some r /\ gtk_result_ok r).
  { unfold next. destruct (type =? 0); [by eexists|]. apply IH; lia. }
  destruct ((type =? 0xdd) && (6 <=? dlen)) eqn:E; [|done].
  apply andb_true_iff in E as [_ E]. apply Z.leb_le in E.
  rewrite (rd_bytes_Some kd (i + 2) 3) by lia. cbn [mbind option_bind].
  destruct (rd_byte kd (i + 5) Hk) as (ty & -> & _); [lia|].
  destruct (rd_byte kd (i + 6) Hk) as (idx & -> & Hx); [lia|].
  destruct (memcmp _ _ =? 0); [|done]. cbn [mbind option_bind]. destruct (ty =? 1); [|done].
  set (glen := if 32 <? dlen - 6 then _ else _).
  assert (Hg : 0 <= glen <= 32 /\ glen <= dlen - 6).
  { unfold glen. destruct (Z.ltb_spec 32 (dlen - 6)); lia. }
  rewrite rd_bytes_Some by lia. eexists; split; [done|]. split_and!.
  - rewrite length_take. lia.
  - by apply bytes_ok_take, bytes_ok_drop.
  - apply land_ones_range with (w := 2). lia.
  - change 3 with (Z.ones 2). pose proof (land_ones_range 2 idx). lia.
Qed.

Lemma parse_gtk_kde_safe kd : bytes_ok kd ->
  exists r, parse_gtk_kde kd (Z.of_nat (length kd)) = Some r /\ gtk_result_ok r.
Proof. intros Hk. apply parse_gtk_loop_safe; [done|lia..]. Qed.

(** Key data as the access point writes it: a list of elements. *)
Definition gtk_kde (idx : Z) (gtk : list Z) : list Z := tlv (0xdd, oui ++ [0x01; idx; 0] ++ gtk).

(** An element the search passes over. *)
Definition other_element (e : Z * list Z) : Prop :=
  0 < e.1 < 256 /\ (length e.2 < 256)%nat /\
  (e.1 = 0xdd -> (6 <= length e.2)%nat -> take 4 e.2 <> oui ++ [0x01]).

(** Reading at a known place of a buffer split there. *)
Lemma rd_at pre (mid : list Z) x post i : i = Z.of_nat (length pre) + Z.of_nat (length mid) ->
  rd (pre ++ mid ++ x :: post) i = Some x.
Proof. intros ->. rewrite app_assoc, <- Nat2Z.inj_add, <- length_app. apply rd_middle. Qed.
Lemma rd_bytes_at pre (mid x : list Z) post i n :
  i = Z.of_nat (length pre) + Z.of_nat (length mid) -> n = Z.of_nat (length x) ->
  rd_bytes (pre ++ mid ++ x ++ post) i n = Some x.
Proof. intros -> ->. rewrite app_assoc, <- Nat2Z.inj_add, <- length_app. apply rd_bytes_middle. Qed.

Lemma parse_gtk_hit fuel kd len pre idx gtk post :
  kd = pre ++ gtk_kde idx gtk ++ post -> len = Z.of_nat (length kd) -> (length gtk < 250)%nat ->
  parse_gtk_loop (S fuel) kd len (Z.of_nat (length pre)) = Some (Some (take 32 gtk, idx .& 3)).
Proof.
  intros -> -> Hg. set (kd := pre ++ _). set (i := Z.of_nat (length pre)).
  set (dlen := Z.of_nat (6 + length gtk)).
  assert (Hl : Z.of_nat (length kd) = i + 2 + dlen + Z.of_nat (length post)).
  { unfold kd, gtk_kde, tlv. rewrite !length_app. cbn. rewrite ?length_app. cbn. lia. }
  assert (R0 : rd kd i = Some 0xdd) by (apply (rd_at pre []); cbn; lia).
  assert (R1 : rd kd (i + 1) = Some dlen) by (apply (rd_at pre [0xdd]); cbn; lia).
  assert (R2 : rd_bytes kd (i + 2) 3 = Some oui) by (apply (rd_bytes_at pre [0xdd; dlen] oui); cbn; lia).
  assert (R5 : rd kd (i + 5) = Some 1) by (apply (rd_at pre [0xdd; dlen; 0; 15; 172]); cbn; lia).
  assert (R6 : rd kd (i + 6) = Some idx) by (apply (rd_at pre [0xdd; dlen; 0; 15; 172; 1]); cbn; lia).
  cbn [parse_gtk_loop]. rewrite R0, R1. cbn [mbind option_bind].
  destruct (Z.ltb_spec (Z.of_nat (length kd)) (i + 2)); [lia|].
  destruct (Z.ltb_spec (Z.of_nat (length kd)) (i + 2 + dlen)); [lia|].
  destruct (Z.leb_spec 6 dlen); [|lia]. change (0xdd =? 0xdd) with true. cbn [andb].
  rewrite R2. cbn [mbind option_bind]. rewrite memcmp_refl. cbn [Z.eqb]. rewrite R5.
  cbn [mbind option_bind Z.eqb Pos.eqb]. rewrite R6. cbn [mbind option_bind].
  set (glen := if 32 <? dlen - 6 then _ else _).
  assert (Hglen : glen = Z.of_nat (length (take 32 gtk))).
  { unfold glen. rewrite length_take. destruct (Z.ltb_spec 32 (dlen - 6)); lia. }
  assert (R8 : rd_bytes kd (i + 8) glen = Some (take 32 gtk)); [|by rewrite R8].
  unfold kd, gtk_kde, tlv. cbn [fst snd]. rewrite <- (take_drop 32 gtk) at 2.
  rewrite !app_comm_cons, <- !app_assoc.
  apply (rd_bytes_at pre [0xdd; dlen; 0; 15; 172; 1; idx; 0]); [cbn; lia|done].
Qed.

Lemma parse_gtk_skip fuel kd len pre e post :
  kd = pre ++ tlv e ++ post -> len = Z.of_nat (length kd) -> other_element e ->
  parse_gtk_loop (S fuel) kd len (Z.of_nat (length pre)) =
  parse_gtk_loop fuel kd len (Z.of_nat (length (pre ++ tlv e))).
Proof.
  destruct e as [t body]. intros -> -> (Ht & Hb & Hno). cbn [fst snd] in *.
  set (kd := pre ++ _). set (i := Z.of_nat (length pre)). set (dlen := Z.of_nat (length body)).
  assert (Hi' : Z.of_nat (length (pre ++ tlv (t, body))) = i + 2 + dlen)
    by (rewrite length_app; cbn; lia).
  assert (Hl : Z.of_nat (length kd) = i + 2 + dlen + Z.of_nat (length post)).
  { unfold kd, tlv. rewrite !length_app. cbn. lia. }
  assert (R0 : rd kd i = Some t) by (apply (rd_at pre []); cbn; lia).
  assert (R1 : rd kd (i + 1) = Some dlen) by (apply (rd_at pre [t]); cbn; lia).
  rewrite Hi'. cbn [parse_gtk_loop]. rewrite R0, R1. cbn [mbind option_bind].
  destruct (Z.ltb_spec (Z.of_nat (length kd)) (i + 2)); [lia|].
  destruct (Z.ltb_spec (Z.of_nat (length kd)) (i + 2 + dlen)); [lia|].
  destruct (Z.eqb_spec t 0); [lia|]. destruct (Z.eqb_spec t 0xdd); [|done].
  destruct (Z.leb_spec 6 dlen); [|done]. cbn [andb]. specialize (Hno ltac:(done) ltac:(lia)).
  destruct body as [|b0 [|b1 [|b2 [|b3 body]]]]; try (cbn in *; lia).
  assert (R2 : rd_bytes kd (i + 2) 3 = Some [b0; b1; b2])
    by (apply (rd_bytes_at pre [t; dlen] [b0; b1; b2]); cbn; lia).
  assert (R5 : rd kd (i + 5) = Some b3) by (apply (rd_at pre [t; dlen; b0; b1; b2]); cbn; lia).
  rewrite R2, R5. cbn [mbind option_bind].
  destruct (Z.eqb_spec (memcmp [b0; b1; b2] oui) 0) as [E|]; [|done]. cbn [mbind option_bind].
  apply memcmp_eq in E; [|done]. injection E as -> -> ->.
  by destruct (Z.eqb_spec b3 1) as [->|].
Qed.

Lemma parse_gtk_finds kd es : forall fuel pre idx gtk post,
  kd = pre ++ concat (map tlv es) ++ gtk_kde idx gtk ++ post ->
  Forall other_element es -> (length gtk < 250)%nat -> (length es < fuel)%nat ->
  parse_gtk_loop fuel kd (Z.of_nat (length kd)) (Z.of_nat (length pre)) =
    Some (Some (take 32 gtk, idx .& 3)).
Proof.
  induction es as [|e es IH]; intros fuel pre idx gtk post Hkd Hes Hg Hf;
    (destruct fuel as [|fuel]; [cbn in Hf; lia|]).
  - by apply (parse_gtk_hit _ _ _ _ _ _ post).
  - apply Forall_cons_1 in Hes as [He Hes].
    erewrite parse_gtk_skip; [|rewrite Hkd; cbn [map concat]; by rewrite <- app_assoc|done|done].
    eapply IH; [|done|done|cbn in Hf; lia].
    rewrite Hkd. cbn [map concat]. by rewrite <- !app_assoc.
Qed.

Lemma parse_gtk_kde_finds es idx gtk post :
  Forall other_element es -> (length gtk < 250)%nat ->
  let kd := concat (map tlv es) ++ gtk_kde idx gtk ++ post in
  parse_gtk_kde kd (Z.of_nat (length kd)) = Some (Some (take 32 gtk, idx .& 3)).
Proof.
  intros Hes Hg kd. apply (parse_gtk_finds kd es _ [] idx gtk post); [done|done|done|].
  unfold kd. rewrite Nat2Z.id. enough (length es <= length (concat (map tlv es)))%nat by (rewrite length_app; lia).
  clear. induction es as [|e es IH]; [done|]. cbn [map concat]. rewrite length_app. cbn. lia.
Qed.

(** ** The group key from message 3 *)

Definition unwrap_inv (n : nat) (st : list Z * list Z * rsbox_state) : Prop :=
  wrap_inv n st.1 /\ rsbox_ok st.2.

Lemma unwrap_step_inv kek n st t i : block kek -> unwrap_inv n st -> (1 <= i <= n)%nat ->
  unwrap_inv n (unwrap_step kek st (t, i)).
Proof.
  destruct st as [[a r] g]. intros Hk [(H1 & H2 & H3 & H4) Hg] Hi. cbn [fst snd] in H1, H2, H3, H4, Hg.
  unfold unwrap_step, aes_dec_block. destruct (be64_ok t) as [B1 B2].
  set (inp := xor_bytes a (be64 t) ++ _).
  assert (Hb : block inp).
  { unfold inp. split.
    - rewrite length_app, xor_bytes_length, length_take, length_drop by lia. lia.
    - apply bytes_ok_app. auto with rtw. }
  destruct (decrypt_block g kek inp Hg Hk Hb) as [[D1 D2] Dg].
  destruct (rtw_aes128_ecb_decrypt g kek inp) as [b g']. cbn [fst snd] in *.
  split; [|done]. unfold wrap_inv. cbn [fst snd]. split_and!.
  - rewrite length_take. lia.
  - auto with rtw.
  - rewrite splice_length; [done|]. rewrite length_drop. lia.
  - apply splice_ok; auto with rtw.
Qed.

Lemma unwrap_fold_inv kek n l : block kek -> Forall (fun ti => 1 <= ti.2 <= n)%nat l ->
  forall st, unwrap_inv n st -> unwrap_inv n (foldl (unwrap_step kek) st l).
Proof.
  intros Hk Hl. induction Hl as [|[t i] l Hi _ IH]; intros st Hst; [done|].
  cbn [foldl]. by apply IH, unwrap_step_inv.
Qed.

Lemma aes_unwrap_safe g kek cipher :
  rsbox_ok g -> block kek -> bytes_ok cipher -> (length cipher <= 256)%nat ->
  exists plain g', aes_unwrap g kek cipher = Some (plain, g') /\
    bytes_ok plain /\ (length plain <= 256)%nat /\ rsbox_ok g'.
Proof.
  intros Hg Hk Hc Hl. unfold aes_unwrap. set (n := (length cipher / 8 - 1)%nat).
  assert (Hnil : exists plain g', Some ([], g) = Some (plain, g') /\
    bytes_ok plain /\ (length plain <= 256)%nat /\ rsbox_ok g')
    by (exists [], g; split_and!; [done|apply Forall_nil_2|cbn; lia|done]).
  destruct ((length cipher / 8 <? 2)%nat || negb (length cipher mod 8 =? 0)%nat) eqn:E; [done|].
  apply orb_false_iff in E as [E1 E2]. apply Nat.ltb_ge in E1. apply negb_false_iff, Nat.eqb_eq in E2.
  assert (Hn : length cipher = (8 + n * 8)%nat).
  { pose proof (Nat.div_mod_eq (length cipher) 8). unfold n. lia. }
  destruct (Nat.ltb_spec 32 n); [lia|].
  assert (Hst : unwrap_inv n (take 8 cipher, take (n * 8) (drop 8 cipher), g)).
  { split; [|done]. unfold wrap_inv. cbn [fst snd]. rewrite !length_take, length_drop.
    split_and!; [lia|auto with rtw|lia|auto with rtw]. }
  pose proof (wrap_steps_ok n) as Hs.
  apply (unwrap_fold_inv kek n (unwrap_steps n) Hk) in Hst.
  - destruct (foldl _ _ (unwrap_steps n)) as [[a r] g']. destruct Hst as [(H1 & H2 & H3 & H4) Hg'].
    cbn [fst snd] in *.
    destruct (forallb _ _); [exists r, g'|exists [], g']; (split_and!; try done); [lia|apply Forall_nil_2|cbn; lia].
  - rewrite unwrap_steps_rev. apply Forall_rev, Hs.
Qed.

(** The globals' sizes. *)
Definition keys_ok (k : wpa_keys) : Prop :=
  block (g_kck k) /\ block (g_kek k) /\ length (g_gtk k) = 32%nat /\ bytes_ok (g_gtk k).

(** Only the group key may differ. *)
Definition same_ptk (k k' : wpa_keys) : Prop :=
  g_kck k' = g_kck k /\ g_kek k' = g_kek k /\ g_tk k' = g_tk k /\ g_wpa_done k' = g_wpa_done k.

Lemma extract_gtk_ok g k eapol elen :
  rsbox_ok g -> keys_ok k -> bytes_ok eapol -> 99 <= elen <= Z.of_nat (length eapol) -> elen < 2 ^ 32 ->
  exists b k' g', extract_gtk g k eapol elen = Some (b, k', g') /\
    rsbox_ok g' /\ keys_ok k' /\ same_ptk k k' /\
    (if b : bool then 16 <= g_gtk_len k' <= 32 /\ 0 <= g_gtk_keyidx k' < 4
     else g_gtk_len k' = g_gtk_len k).
Proof.
  intros Hg Hk He Hl Hw. unfold extract_gtk.
  destruct (rd_byte eapol 97 He) as (b0 & -> & _); [lia|].
  destruct (rd_byte eapol 98 He) as (b1 & -> & _); [lia|]. cbn [mbind option_bind].
  set (data_len := u16 _).
  assert (Hfail : forall g', rsbox_ok g' -> exists b k' g'', Some (false, k, g') = Some (b, k', g'') /\
    rsbox_ok g'' /\ keys_ok k' /\ same_ptk k k' /\
    (if b : bool then 16 <= g_gtk_len k' <= 32 /\ 0 <= g_gtk_keyidx k' < 4
     else g_gtk_len k' = g_gtk_len k)) by (intros g' Hg'; by exists false, k, g').
  destruct ((data_len <? 16) || (256 <? data_len) || nz (data_len mod 8)) eqn:Hd; [by apply Hfail|].
  apply orb_false_iff in Hd as [Hd _]. apply orb_false_iff in Hd as [Hd1 Hd2].
  apply Z.ltb_ge in Hd1, Hd2. rewrite u32_small by lia.
  destruct (Z.ltb_spec elen (4 + 95 + data_len)); [by apply Hfail|].
  rewrite rd_bytes_Some by lia. cbn [mbind option_bind]. set (cipher := take _ _).
  assert (Hc : bytes_ok cipher) by (unfold cipher; auto with rtw).
  assert (Hcl : (length cipher <= 256)%nat) by (unfold cipher; rewrite length_take; lia).
  destruct Hk as (K1 & K2 & K3 & K4).
  destruct (aes_unwrap_safe g (g_kek k) cipher Hg K2 Hc Hcl) as (plain & g' & -> & P1 & P2 & Hg').
  cbn [mbind option_bind]. destruct (length plain =? 0)%nat; [by apply Hfail|].
  destruct (parse_gtk_kde_safe plain P1) as (r & -> & Hr). cbn [mbind option_bind].
  destruct r as [[gtk idx]|]; [|by apply Hfail]. destruct Hr as (R1 & R2 & R3).
  assert (Hs : length (splice (g_gtk k) 0 gtk) = 32%nat /\ bytes_ok (splice (g_gtk k) 0 gtk))
    by (split; [rewrite splice_length; lia|by apply splice_ok]).
  destruct (Z.leb_spec 16 (Z.of_nat (length gtk))); eexists _, _, _; (split; [done|]); (split; [done|]);
    cbn; (split; [by destruct Hs|]); (split; [done|]); [lia|done].
Qed.

(** Message 3 is read within its received bytes whatever it holds: the
    frame's own length fields, the unwrapped key data and its elements never
    lead outside the buffers.  The keys of the pairwise hierarchy stay as they
    are, the group-key globals keep their size, and the function reports
    success exactly with a group key of 16 to 32 bytes and an index below 4. *)
Theorem extract_gtk_safe (g : rsbox_state) (k : wpa_keys) (eapol : list Z) (elen : Z) :
  rsbox_ok g -> keys_ok k -> bytes_ok eapol -> 99 <= elen <= Z.of_nat (length eapol) -> elen < 2 ^ 32 ->
  exists b k' g', extract_gtk g k eapol elen = Some (b, k', g') /\
    rsbox_ok g' /\ keys_ok k' /\ same_ptk k k' /\
    (if b : bool then 16 <= g_gtk_len k' <= 32 /\ 0 <= g_gtk_keyidx k' < 4
     else g_gtk_len k' = g_gtk_len k).
Proof. apply extract_gtk_ok. Qed.

Lemma put_be16_word v : 0 <= v < 2 ^ 16 -> u16 ((u8 (v >> 8) << 8) .| (v .& 0xff)) = v.
Proof.
  intros Hv. apply (bits_ext 16); [by apply wrap_range|done|]. intros i Hi.
  rewrite wrap_testbit, Z.lor_spec, shiftl_byte_bit by (lia || apply u8_byte_ok).
  change 0xff with (Z.ones 8). rewrite Z.land_spec, wrap_testbit, Z.testbit_ones_nonneg by lia.
  destruct (Z.leb_spec 8 i) as [H8|H8].
  - rewrite Z.shiftr_spec by lia. replace (i - 8 + 8) with i by lia.
    repeat (case_bool; try lia). cbn [andb orb]. by rewrite andb_false_r, orb_false_r.
  - repeat (case_bool; try lia). cbn [andb orb]. by rewrite andb_true_r.
Qed.

Lemma wrap_length kek plain : block kek -> bytes_ok plain -> (length plain mod 8 = 0)%nat ->
  length (aes_wrap kek plain) = (8 + length plain)%nat /\ bytes_ok (aes_wrap kek plain).
Proof.
  intros Hk Hp H8. unfold aes_wrap. set (n := (length plain / 8)%nat).
  assert (Hn : length plain = (n * 8)%nat) by (unfold n; pose proof (Nat.div_mod_eq (length plain) 8); lia).
  assert (Hst : wrap_inv n (replicate 8 0xa6, plain)).
  { unfold wrap_inv. cbn [fst snd]. split_and!; [done|by apply bytes_ok_replicate|lia|done]. }
  pose proof (wrap_fold_inv kek Hk n _ _ (wrap_steps_ok n) Hst) as Hinv.
  destruct (foldl _ _ (wrap_steps n)) as [a r]. destruct Hinv as (A1 & A2 & A3 & A4). cbn [fst snd] in *.
  rewrite length_app, bytes_ok_app. by split; [lia|].
Qed.

(** The station recovers the group key the access point wrapped: for any
    key-encryption key, any elements before the key, any padding after it, and
    any bytes around the key data, the key (16 to 32 bytes) and its index land
    in the globals. *)
Theorem extract_gtk_delivers (g : rsbox_state) (k : wpa_keys) (head : list Z)
    (es : list (Z * list Z)) (idx : Z) (gtk pad rest : list Z) :
  let kd := concat (map tlv es) ++ gtk_kde idx gtk ++ pad in
  let data := aes_wrap (g_kek k) kd in
  let eapol := head ++ put_be16 (Z.of_nat (length data)) ++ data ++ rest in
  rsbox_ok g -> block (g_kek k) -> length head = 97%nat ->
  Forall other_element es -> (16 <= length gtk <= 32)%nat -> bytes_ok kd ->
  (length kd mod 8 = 0)%nat -> (length kd <= 248)%nat -> Z.of_nat (length eapol) < 2 ^ 32 ->
  exists g', rsbox_ok g' /\
    extract_gtk g k eapol (Z.of_nat (length eapol)) =
      Some (true, set_gtk (splice (g_gtk k) 0 gtk) (Z.of_nat (length gtk)) (idx .& 3) k, g').
Proof.
  intros kd data eapol Hg Hk Hh Hes Hgl Hb H8 Hl Hw.
  destruct (wrap_length (g_kek k) kd Hk Hb H8) as [Dl _]. fold data in Dl.
  assert (Hkl : (8 <= length kd)%nat) by (unfold kd, gtk_kde, tlv; rewrite !length_app; cbn; lia).
  destruct (unwrap_wrap_lemma (g_kek k) Hk g kd Hg Hb H8 ltac:(lia)) as (g' & Hg' & Hun).
  fold data in Hun. exists g'. split; [done|].
  set (v := Z.of_nat (length data)) in *.
  assert (Hel : Z.of_nat (length eapol) = 99 + v + Z.of_nat (length rest))
    by (unfold eapol; rewrite !length_app, Hh; cbn; lia).
  assert (R0 : rd eapol 97 = Some (u8 (v >> 8))) by (apply (rd_at head []); cbn; lia).
  assert (R1 : rd eapol 98 = Some (v .& 0xff)) by (apply (rd_at head [u8 (v >> 8)]); cbn; lia).
  assert (R2 : rd_bytes eapol 99 v = Some data)
    by (apply (rd_bytes_at head (put_be16 v) data); [rewrite Hh; cbn; lia|done]).
  unfold extract_gtk. rewrite R0, R1. cbn [mbind option_bind]. rewrite put_be16_word by lia.
  assert (Hv8 : v mod 8 = 0).
  { unfold v. rewrite Dl. change 8 with (Z.of_nat 8). rewrite <- Nat2Z.inj_mod.
    change (8 + length kd)%nat with (1 * 8 + length kd)%nat. by rewrite Nat.add_comm, Nat.Div0.mod_add, H8. }
  destruct (Z.ltb_spec v 16); [lia|]. destruct (Z.ltb_spec 256 v); [lia|]. rewrite Hv8. cbn [nz negb orb Z.eqb].
  rewrite u32_small by lia.
  destruct (Z.ltb_spec (Z.of_nat (length eapol)) (4 + 95 + v)); [lia|].
  rewrite R2. cbn [mbind option_bind]. rewrite Hun. cbn [mbind option_bind].
  destruct (Nat.eqb_spec (length kd) 0); [lia|].
  pose proof (parse_gtk_kde_finds es idx gtk pad Hes ltac:(lia)) as Hp. cbv zeta in Hp. fold kd in Hp.
  rewrite Hp, (take_ge gtk) by lia. cbn [mbind option_bind].
  by destruct (Z.leb_spec 16 (Z.of_nat (length gtk))); [|lia].
Qed.

(** ** The message integrity code *)

Lemma splice_middle (pre old new post : list Z) i : i = length pre -> length old = length new ->
  splice (pre ++ old ++ post) i new = pre ++ new ++ post.
Proof.
  intros -> Hl. unfold splice. rewrite take_app_length. f_equal. f_equal.
  by rewrite app_assoc, drop_app_length' by (rewrite length_app; lia).
Qed.

Lemma ct_fold a b : forall l d, 0 <= d -> (forall i, i ∈ l -> 0 <= a.[i] /\ 0 <= b.[i]) ->
  foldl (fun d i => d .| (a.[i] .^ b.[i])) d l = 0 <-> d = 0 /\ forall i, i ∈ l -> a.[i] = b.[i].
Proof.
  induction l as [|i l IH]; intros d Hd Hl; cbn [foldl].
  - split; [intros ->; split; [done|]|by intros [-> _]]. intros i Hi. by apply not_elem_of_nil in Hi.
  - pose proof (Hl i ltac:(by left)) as [Ha Hb].
    assert (Hx : 0 <= a.[i] .^ b.[i]) by (apply Z.lxor_nonneg; lia).
    rewrite IH; [|by apply Z.lor_nonneg|intros j Hj; apply Hl; by right].
    rewrite Z.lor_eq_0_iff, Z.lxor_eq_0_iff. split.
    + intros [[-> E] H]. split; [done|]. intros j Hj. apply elem_of_cons in Hj as [->|Hj]; auto.
    + intros [-> H]. split; [split; [done|]|]; [apply H; by left|]. intros j Hj. apply H. by right.
Qed.

Lemma ct_memcmp16_eq a b : bytes_ok a -> bytes_ok b -> (16 <= length a)%nat -> (16 <= length b)%nat ->
  ct_memcmp16 a b = 0 <-> take 16 a = take 16 b.
Proof.
  intros Ha Hb La Lb.
  assert (Hn : forall l i, bytes_ok l -> (i < length l)%nat -> l !! i = Some l.[i] /\ 0 <= l.[i]).
  { intros l i Hl Hi. destruct (lookup_lt_is_Some_2 l i Hi) as [v Hv].
    rewrite (nth_lookup_Some l i 0 v Hv). split; [done|].
    eapply Forall_lookup_1 in Hl; [|done]. unfold byte_ok in Hl. lia. }
  unfold ct_memcmp16. rewrite ct_fold; [|done|].
  - split.
    + intros [_ H]. apply list_eq. intros i. destruct (decide (i < 16)%nat).
      * rewrite !lookup_take_lt by done.
        rewrite (proj1 (Hn a i Ha ltac:(lia))), (proj1 (Hn b i Hb ltac:(lia))), H; [done|].
        apply elem_of_seq. lia.
      * by rewrite !lookup_take_ge by lia.
    + intros H. split; [done|]. intros i Hi. apply elem_of_seq in Hi.
      assert (E : take 16 a !! i = take 16 b !! i) by by rewrite H.
      rewrite !lookup_take_lt in E by lia.
      rewrite (proj1 (Hn a i Ha ltac:(lia))), (proj1 (Hn b i Hb ltac:(lia))) in E. by injection E.
  - intros i Hi. apply elem_of_seq in Hi. split; [by apply Hn; [|lia]|by apply Hn; [|lia]].
Qed.

Lemma eapol_mic_block kck f : length (eapol_mic kck f) = 16%nat /\ bytes_ok (eapol_mic kck f).
Proof.
  unfold eapol_mic, hmac. rewrite hmac_is_spec by done.
  split; [by rewrite length_take, hmac_spec_length|apply bytes_ok_take, hmac_spec_bytes].
Qed.

(** The MIC does not depend on what the MIC field holds. *)
Lemma eapol_mic_field kck pre m post :
  length pre = 81%nat -> length m = 16%nat ->
  eapol_mic kck (pre ++ m ++ post) = eapol_mic kck (pre ++ replicate 16 0 ++ post).
Proof. intros Hp Hm. unfold eapol_mic. by rewrite !splice_middle by done. Qed.

(** The frame before its MIC field. *)
Definition key_frame_head (key_info : Z) (replay : list Z) (snonce : option (list Z)) (kd : list Z) : list Z :=
  [0x02; 0x03] ++ put_be16 (95 + Z.of_nat (length kd)) ++ [0x02] ++ put_be16 key_info ++ put_be16 16 ++
  replay ++ default (replicate 32 0) snonce ++ replicate 32 0.

Definition nonce_ok (snonce : option (list Z)) : Prop := length (default (replicate 32 0) snonce) = 32%nat.

Lemma key_frame_head_length key_info replay snonce kd : length replay = 8%nat -> nonce_ok snonce ->
  length (key_frame_head key_info replay snonce kd) = 81%nat.
Proof. intros Hr Hs. unfold key_frame_head. rewrite !length_app, Hr, Hs. done. Qed.

Lemma build_eapol_key_shape key_info replay snonce kck rsn :
  length replay = 8%nat -> nonce_ok snonce ->
  let kd := if rsn : bool then rsn_ie else [] in
  let pre := key_frame_head key_info replay snonce kd in
  let post := put_be16 (Z.of_nat (length kd)) ++ kd in
  build_eapol_key key_info replay snonce kck rsn =
    pre ++ eapol_mic kck (pre ++ replicate 16 0 ++ post) ++ post.
Proof.
  intros Hr Hs kd pre post. unfold build_eapol_key. fold kd.
  match goal with |- splice ?e _ (eapol_mic _ ?e') = _ =>
    replace e with (pre ++ replicate 16 0 ++ post) by (unfold pre, key_frame_head; rewrite <- !app_assoc; done)
  end.
  apply splice_middle; [unfold pre; by rewrite key_frame_head_length|]. symmetry. apply eapol_mic_block.
Qed.

Lemma mic_accepts kck pre m post : length pre = 81%nat -> length m = 16%nat -> bytes_ok m ->
  bytes_ok post ->
  ct_memcmp16 (drop 81 (pre ++ m ++ post)) (eapol_mic kck (pre ++ m ++ post)) = 0 <->
  m = eapol_mic kck (pre ++ replicate 16 0 ++ post).
Proof.
  intros Hp Hm Hb Hpost. rewrite eapol_mic_field by done. rewrite drop_app_length' by done.
  destruct (eapol_mic_block kck (pre ++ replicate 16 0 ++ post)) as [E1 E2].
  rewrite ct_memcmp16_eq; [|by apply bytes_ok_app|done|rewrite length_app; lia|lia].
  rewrite take_app_length' by done. by rewrite take_ge by lia.
Qed.

(** A key frame the station builds has its fields where the protocol
    wants them, and passes the very check the station applies to the frames it
    receives; with any other value in the MIC field it fails it. *)
Theorem build_eapol_key_authentic (key_info : Z) (replay : list Z) (snonce : option (list Z))
    (kck : list Z) (rsn : bool) :
  0 <= key_info < 2 ^ 16 -> length replay = 8%nat -> nonce_ok snonce ->
  let f := build_eapol_key key_info replay snonce kck rsn in
  length f = (99 + if rsn then 22 else 0)%nat /\
  get_be16 f 5 = key_info /\ take 8 (drop 9 f) = replay /\
  take 32 (drop 17 f) = default (replicate 32 0) snonce /\
  forall m, length m = 16%nat -> bytes_ok m ->
    let f' := splice f 81 m in
    ct_memcmp16 (drop 81 f') (eapol_mic kck f') = 0 <-> m = take 16 (drop 81 f).
Proof.
  intros Hk Hr Hs f. pose proof (build_eapol_key_shape key_info replay snonce kck rsn Hr Hs) as E.
  cbv zeta in E. fold f in E. set (kd := if rsn then rsn_ie else []) in *.
  set (pre := key_frame_head key_info replay snonce kd) in *.
  set (post := put_be16 (Z.of_nat (length kd)) ++ kd) in *.
  set (mic := eapol_mic kck _) in *.
  assert (Hpre : length pre = 81%nat) by by apply key_frame_head_length.
  destruct (eapol_mic_block kck (pre ++ replicate 16 0 ++ post)) as [M1 M2]. fold mic in M1, M2.
  assert (Hpost : bytes_ok post) by (apply (bool_decide_unpack _); destruct rsn; by vm_compute).
  split_and!.
  - rewrite E, !length_app, Hpre, M1. unfold post, kd. by destruct rsn.
  - rewrite E. unfold get_be16. cbn. apply put_be16_word. lia.
  - rewrite E. unfold pre, key_frame_head. cbn [put_be16 app drop]. rewrite <- !app_assoc.
    by apply take_app_length'.
  - rewrite E. unfold pre, key_frame_head. cbn [put_be16 app]. rewrite <- !app_assoc.
    change (drop 17 ?l) with (drop 8 (drop 9 l)). cbn [drop].
    rewrite drop_0, (drop_app_length' replay) by done. by apply take_app_length'.
  - intros m Hm Hb f'. unfold f'. rewrite E, splice_middle by (done || lia).
    rewrite mic_accepts by done. rewrite drop_app_length' by done. by rewrite take_app_length' by done.
Qed.

(** ** Witnesses *)

Definition keys_example : wpa_keys :=
  WpaKeys (replicate 16 0) (seqZ 0 16) (replicate 16 0) (replicate 32 0) 0 0 false.
Lemma block_example : block (seqZ 0 16).
Proof. split; [done|]. apply (bool_decide_unpack _). by vm_compute. Defined.
Lemma rsbox_init_ok : rsbox_ok rsbox_init.
Proof. by split. Defined.
Lemma keys_example_ok : keys_ok keys_example.
Proof.
  split; [|split; [apply block_example|split; [done|]]].
  - split; [done|by apply bytes_ok_replicate].
  - by apply bytes_ok_replicate.
Defined.

Lemma derive_ptk_symmetric_witness :
  derive_ptk (replicate 32 7) (replicate 6 1) (replicate 6 2) (replicate 32 3) (replicate 32 4) =
  derive_ptk (replicate 32 7) (replicate 6 2) (replicate 6 1) (replicate 32 4) (replicate 32 3).
Proof. by apply (derive_ptk_symmetric (replicate 32 7)). Defined.

Lemma aes_unwrap_wrap_witness :
  exists g', rsbox_ok g' /\
    aes_unwrap rsbox_init (seqZ 0 16) (aes_wrap (seqZ 0 16) (replicate 24 9)) = Some (replicate 24 9, g').
Proof.
  apply (aes_unwrap_wrap rsbox_init (seqZ 0 16) (replicate 24 9));
    [apply rsbox_init_ok|apply block_example|by apply bytes_ok_replicate|done|cbn; lia].
Defined.

Lemma extract_gtk_safe_witness :
  exists b k' g', extract_gtk rsbox_init keys_example (replicate 120 255) 120 = Some (b, k', g') /\
    rsbox_ok g' /\ keys_ok k' /\ same_ptk keys_example k' /\
    (if b : bool then 16 <= g_gtk_len k' <= 32 /\ 0 <= g_gtk_keyidx k' < 4
     else g_gtk_len k' = g_gtk_len keys_example).
Proof.
  apply (extract_gtk_safe rsbox_init keys_example (replicate 120 255) 120);
    [apply rsbox_init_ok|apply keys_example_ok|by apply bytes_ok_replicate|cbn; lia|lia].
Defined.

(** An RSN element, the key, one element of padding. *)
Lemma extract_gtk_delivers_witness :
  let kd := concat (map tlv [(48, replicate 20 1)]) ++ gtk_kde 2 (replicate 16 5) ++ [0xdd; 0] in
  let data := aes_wrap (seqZ 0 16) kd in
  let eapol := replicate 97 0 ++ put_be16 (Z.of_nat (length data)) ++ data ++ [] in
  exists g', rsbox_ok g' /\
    extract_gtk rsbox_init keys_example eapol (Z.of_nat (length eapol)) =
      Some (true, set_gtk (splice (replicate 32 0) 0 (replicate 16 5)) 16 2 keys_example, g').
Proof.
  apply (extract_gtk_delivers rsbox_init keys_example (replicate 97 0) [(48, replicate 20 1)] 2
           (replicate 16 5) [0xdd; 0] []).
  - apply rsbox_init_ok.
  - apply block_example.
  - done.
  - apply Forall_cons_2; [|apply Forall_nil_2]. unfold other_element. cbn [fst snd].
    split; [lia|]. split; [cbn; lia|lia].
  - cbn; lia.
  - apply (bool_decide_unpack _). by vm_compute.
  - done.
  - cbn; lia.
  - by vm_compute.
Defined.

Lemma build_eapol_key_authentic_witness :
  let f := build_eapol_key 0x010a (replicate 8 1) None (replicate 16 2) true in
  length f = 121%nat /\ get_be16 f 5 = 0x010a /\ take 8 (drop 9 f) = replicate 8 1 /\
  take 32 (drop 17 f) = replicate 32 0 /\
  forall m, length m = 16%nat -> bytes_ok m ->
    let f' := splice f 81 m in
    ct_memcmp16 (drop 81 f') (eapol_mic (replicate 16 2) f') = 0 <-> m = take 16 (drop 81 f).
Proof.
  apply (build_eapol_key_authentic 0x010a (replicate 8 1) None (replicate 16 2) true); [lia|done|done].
Defined.
