(* ===== verification/Handshake.v ===== *)
(** * Handshake: the WPA2 4-way handshake (core/wpa.c, second half)

    Receiving EAPOL-Key frames off the ring, the message exchange, the
    installation of the keys and the wipe.  Proved: on every chip whose ring
    index is sound the handshake stays inside its buffers, ends with one of its
    four results and leaves no key in the globals; it completes only on a frame
    that carries a valid MIC and a group key; and a handshake that fails touches
    neither the security CAM nor the link registers. *)
From stdpp Require Import gmap.
From S2P Require Import Prelude Hw Regs Dev Sha1 Aes Trx Sec Media Wpa Rx.
Open Scope Z_scope.
Open Scope rtw_scope.

(** ** State: the globals the handshake reads and writes *)

Record supp := Supp {
  su_trx : trx_state; su_keys : wpa_keys; su_rsbox : rsbox_state;
  su_session : wifi_session; su_box : Z;
}.
Definition set_trx (s : trx_state) (u : supp) : supp :=
  Supp s (su_keys u) (su_rsbox u) (su_session u) (su_box u).
Definition set_keys (k : wpa_keys) (u : supp) : supp :=
  Supp (su_trx u) k (su_rsbox u) (su_session u) (su_box u).

(** ** Receiving *)

(** What [recv_eapol] does with one slot: the EAPOL bytes, if there are any,
    copied to the caller's array of [room] bytes; [outcap] is the size it was
    told. *)
Definition eapol_in_slot (bssid : list Z) (room outcap : Z) (buf : Z * Z) : prog (visit unit (list Z)) :=
  let skip := mret (Go tt) in
  w0 ← slot32 buf 0;
  let pkt_len := rx_pkt_len w0 in
  if rx_error w0 || (pkt_len <? 32) || (2048 <? pkt_len) then skip else
  let f := rx_frame buf w0 in
  fc ← frame_control f;
  if negb (fc_type fc =? 2) then skip else
  ta ← slot_bytes f 10 6;
  if negb (memcmp ta bssid =? 0) then skip else
  let qos := if nz (fc_subtype fc .& 0x8) then 2 else 0 in
  let hdr := 24 + qos + (if nz qos && nz (fc .& 0x8000) then 4 else 0) in
  if pkt_len <? hdr + 8 + 4 then skip else
  l0 ← slot8 f hdr;
  if negb (l0 =? 0xaa) then skip else
  l6 ← slot8 f (hdr + 6);
  if negb (l6 =? 0x88) then skip else
  l7 ← slot8 f (hdr + 7);
  if negb (l7 =? 0x8e) then skip else
  let avail := pkt_len - hdr - 8 in
  body ← slot_bytes f (hdr + 8 + 2) 2;
  let elen := 4 + get_be16 body 0 in
  let elen := if outcap <? elen then outcap else elen in
  let elen := if avail <? elen then avail else elen in
  if 99 <=? elen then
    eapol ← slot_bytes f (hdr + 8) elen;
    out ← copy_out room eapol;
    mret (Stop out)
  else skip.

(** The frame ([None] on timeout) and the read index to resume from. *)
Definition recv_eapol (s : trx_state) (bssid : list Z) (rp room outcap ms : Z) : prog (option (list Z) * Z) :=
  '(v, rp) ← poll_ring (poll_rounds ms) s (fun buf _ => eapol_in_slot bssid room outcap buf) (fun _ => false) rp tt;
  mret (match v with Stop eapol => Some eapol | Go _ => None end, rp).

(** ** The exchange *)

Definition replay_of (eapol : list Z) : list Z := take 8 (drop 9 eapol).
Definition anonce_of (eapol : list Z) : list Z := take 32 (drop 17 eapol).
Definition mic_valid (kck eapol : list Z) : bool :=
  ct_memcmp16 (take 16 (drop 81 eapol)) (eapol_mic kck eapol) =? 0.

(** The header is built once in front of every message. *)
Definition send_eapol (d : rtw_dev) (s : trx_state) (bssid : list Z) (rate : Z) (eapol : list Z)
    : prog trx_state :=
  '(_, s) ← trx_tx_data d s (eapol_hdr bssid (ef_addr (efuse d)) ++ eapol) rate;
  mret s.

(** [u8 eapol[512]], and [sizeof(eapol)] at each call. *)
Definition eapol_size : Z := 512.

(** The window after M4: answer retransmitted M3s. *)
Fixpoint m4_window (w : nat) (d : rtw_dev) (s : trx_state) (kck bssid : list Z) (rate rp : Z)
    : prog trx_state :=
  match w with
  | O => mret s
  | S w =>
      '(r, rp) ← recv_eapol s bssid rp eapol_size eapol_size 150;
      match r with
      | None => mret s
      | Some eapol =>
          let rki := get_be16 eapol 5 in
          if negb (nz (rki .& 0x0100)) || negb (nz (rki .& 0x0008)) then m4_window w d s kck bssid rate rp
          else if negb (mic_valid kck eapol) then m4_window w d s kck bssid rate rp
          else
            s ← send_eapol d s bssid rate (build_eapol_key 0x030a (replay_of eapol) None kck false);
            m4_window w d s kck bssid rate rp
      end
  end.

(** The wait for M3: at most [iters] more frames or silences, [timeouts]
    silences so far; [m2] is what a silence retransmits.  The result is 0, -4
    (no valid M3) or -5 (M3 without a usable group key). *)
Fixpoint m3_loop (iters : nat) (d : rtw_dev) (u : supp) (bssid snonce : list Z) (rate rp : Z)
    (m2 : list Z) (timeouts : Z) : prog (Z * supp) :=
  match iters with
  | O => mret (-4, u)
  | S iters =>
      if 8 <=? timeouts then mret (-4, u) else
      let kck := g_kck (su_keys u) in
      '(r, rp) ← recv_eapol (su_trx u) bssid rp eapol_size eapol_size 500;
      match r with
      | None =>
          s ← send_eapol d (su_trx u) bssid rate m2;
          m3_loop iters d (set_trx s u) bssid snonce rate rp m2 (timeouts + 1)
      | Some eapol =>
          let ki := get_be16 eapol 5 in
          if negb (nz (ki .& 0x0100)) then
            let m2 := build_eapol_key 0x010a (replay_of eapol) (Some snonce) kck true in
            s ← send_eapol d (su_trx u) bssid rate m2;
            m3_loop iters d (set_trx s u) bssid snonce rate rp m2 timeouts
          else if negb (mic_valid kck eapol) then
            m3_loop iters d u bssid snonce rate rp m2 timeouts
          else
            match extract_gtk (su_rsbox u) (su_keys u) eapol (Z.of_nat (length eapol)) with
            | None => act Fault;; mret (-5, u)
            | Some (got, k, g) =>
                let u := Supp (su_trx u) k g (su_session u) (su_box u) in
                if negb got then mret (-5, u) else
                let m4 := build_eapol_key 0x030a (replay_of eapol) None kck false in
                s ← send_eapol d (su_trx u) bssid rate m4;
                s ← m4_window 3 d s kck bssid rate rp;
                mret (0, set_trx s u)
            end
      end
  end.

Definition wipe_keys (k : wpa_keys) : wpa_keys :=
  WpaKeys (replicate 16 0) (replicate 16 0) (replicate 16 0) (replicate 32 0)
          (g_gtk_len k) (g_gtk_keyidx k) (g_wpa_done k).
Definition reset_gtk (k : wpa_keys) : wpa_keys :=
  WpaKeys (g_kck k) (g_kek k) (g_tk k) (replicate 32 0) 0 0 (g_wpa_done k).
Definition set_ptk (ptk : list Z) (k : wpa_keys) : wpa_keys :=
  WpaKeys (take 16 ptk) (take 16 (drop 16 ptk)) (drop 32 ptk)
          (g_gtk k) (g_gtk_len k) (g_gtk_keyidx k) (g_wpa_done k).
Definition set_done (k : wpa_keys) : wpa_keys :=
  WpaKeys (g_kck k) (g_kek k) (g_tk k) (g_gtk k) (g_gtk_len k) (g_gtk_keyidx k) true.

(** From the wait for M1 to the end of the exchange. *)
Definition wpa_exchange (d : rtw_dev) (u : supp) (bssid pmk snonce : list Z) (rate : Z) : prog (Z * supp) :=
  rp ← trx_rx_hw_idx;
  trx_rx_set_host_idx rp;;
  '(r, rp) ← recv_eapol (su_trx u) bssid rp eapol_size eapol_size 2000;
  match r with
  | None => mret (-2, u)
  | Some eapol =>
      let ptk := derive_ptk pmk bssid (ef_addr (efuse d)) (anonce_of eapol) snonce in
      let u := set_keys (set_ptk ptk (su_keys u)) u in
      let m2 := build_eapol_key 0x010a (replay_of eapol) (Some snonce) (g_kck (su_keys u)) true in
      s ← send_eapol d (su_trx u) bssid rate m2;
      m3_loop 30 d (set_trx s u) bssid snonce rate rp m2 0
  end.

(** After the exchange: install the keys and report the link. *)
Definition wpa_link_up (d : rtw_dev) (u : supp) (bssid : list Z) (channel : Z) : prog supp :=
  let k := set_done (su_keys u) in
  install_keys bssid (g_tk k) (g_gtk k) (g_gtk_len k) (g_gtk_keyidx k);;
  '(box, session) ← media_connect d (su_box u) (su_session u) bssid 0 channel;
  mret (Supp (su_trx u) k (su_rsbox u) session box).

(** The stack buffers are wiped with the globals; they are gone on return. *)
Definition wpa_handshake (d : rtw_dev) (u : supp) (bssid ssid pass : list Z) (channel : Z) : prog (Z * supp) :=
  let rate := if 14 <? channel then DESC_RATE6M else DESC_RATE1M in
  let u := set_keys (reset_gtk (su_keys u)) u in
  let pmk := rtw_pbkdf2_sha1 stack_junk pass ssid 4096 32 in
  nonce ← act (RandomBuf 32);
  let snonce := norm_bytes 32 nonce in
  '(rc, u) ← wpa_exchange d u bssid pmk snonce rate;
  u ← (if rc =? 0 then wpa_link_up d u bssid channel else mret u);
  mret (rc, set_keys (wipe_keys (su_keys u)) u).

(** ** Receiving is safe *)

Definition eapol_ok (outcap : Z) (e : list Z) : Prop := bytes_ok e /\ 99 <= Z.of_nat (length e) <= outcap.

Lemma eapol_in_slot_safe m bssid room outcap buf : outcap <= room -> slot_live m buf ->
  mem_safe (eapol_in_slot bssid room outcap buf) m (fun v m' => m' = m /\ visit_ok (fun _ => True) (eapol_ok outcap) v).
Proof.
  intros Hroom Hb. unfold eapol_in_slot.
  assert (Hskip : mem_safe (mret (Go tt)) m (fun (v : visit unit (list Z)) m' =>
    m' = m /\ visit_ok (fun _ => True) (eapol_ok outcap) v)) by by apply mem_safe_ret.
  eapply mem_safe_bind; [apply slot32_safe; done|]. intros w0 m' [-> _].
  destruct (rx_error w0 || (rx_pkt_len w0 <? 32) || (2048 <? rx_pkt_len w0)) eqn:Hlen; [done|].
  apply orb_false_iff in Hlen as [Hlen H2048%Z.ltb_ge]. apply orb_false_iff in Hlen as [_ H32%Z.ltb_ge].
  pose proof (rx_frame_ok m buf w0 Hb) as Hf. set (f := rx_frame buf w0) in *.
  eapply mem_safe_bind; [by apply frame_control_safe|]. intros fc m' [-> _].
  destruct (negb (fc_type fc =? 2)); [done|].
  eapply mem_safe_bind; [apply frame_bytes_safe; [done|lia..]|]. intros ta m' [-> _].
  destruct (negb (memcmp ta bssid =? 0)); [done|].
  set (qos := if nz (fc_subtype fc .& 8) then 2 else 0).
  set (hdr := 24 + qos + _).
  assert (Hhdr : 24 <= hdr <= 30).
  { unfold hdr, qos. destruct (nz (fc_subtype fc .& 8)); cbn; [destruct (nz (fc .& 0x8000))|]; cbn; lia. }
  destruct (Z.ltb_spec (rx_pkt_len w0) (hdr + 8 + 4)); [done|].
  do 3 (eapply mem_safe_bind; [apply frame8_safe; [done|lia]|]; intros ? m' [-> _];
        destruct (negb _); [done|]).
  eapply mem_safe_bind; [apply frame_bytes_safe; [done|lia..]|]. intros body m' [-> _].
  set (e1 := if outcap <? _ then _ else _).
  assert (He1 : e1 <= outcap) by (unfold e1; case_bool; lia).
  set (elen := if _ <? e1 then _ else _).
  assert (He : elen <= rx_pkt_len w0 - hdr - 8 /\ elen <= outcap) by (unfold elen; case_bool; lia).
  destruct (Z.leb_spec 99 elen); [|done].
  eapply mem_safe_bind; [apply frame_bytes_safe; [done|lia..]|]. intros out m' (-> & Hl & Hok).
  eapply mem_safe_bind; [apply copy_out_safe; lia|]. intros out' m' [-> ->].
  apply mem_safe_ret. split; [done|]. split; [done|]. lia.
Qed.

Lemma recv_live s m bssid room outcap ms rp : outcap <= room -> rx_live s m -> 0 <= rp < g_rx_n s ->
  rx_safe s (recv_eapol s bssid rp room outcap ms) m (fun '(r, rp') m' =>
    m' = m /\ 0 <= rp' < g_rx_n s /\ (if r is Some e then eapol_ok outcap e else True)).
Proof.
  intros Hroom Hs Hr. unfold recv_eapol. eapply mem_safe_if_bind.
  { apply (poll_ring_safe s m _ _ (fun _ : unit => True) (eapol_ok outcap)); [done| |done|done].
    intros buf a Hbuf _. by apply eapol_in_slot_safe. }
  intros [v rp'] m' (-> & Hv & Hrp'). apply mem_safe_if_ret. by destruct v.
Qed.

(** ** The exchange is safe *)

Lemma send_eapol_safe d s m bssid rate eapol :
  trx_chip d -> rings_up s m -> (length (ef_addr (efuse d)) = 6)%nat -> length bssid = 6%nat ->
  (length eapol <= 512)%nat ->
  mem_safe (send_eapol d s bssid rate eapol) m (fun s' m' => m' = m /\ rings_up s' m /\ same_rx s s').
Proof.
  intros Hd [Hinv Hrx] Ha Hb Hl. unfold send_eapol.
  assert (Hlen : Z.of_nat (length (eapol_hdr bssid (ef_addr (efuse d)) ++ eapol)) < 2 ^ 31)
    by (unfold eapol_hdr; rewrite !length_app, Ha, Hb; cbn; lia).
  eapply mem_safe_bind; [by apply tx_data_safe|].
  intros [ret s'] m' Hpost. apply leaf_rings in Hpost as (-> & Hup & Hsame); [|done]. by apply mem_safe_ret.
Qed.

(** The derived keys have their sizes. *)
Lemma hmac_block key msg : length (hmac key msg) = 20%nat /\ bytes_ok (hmac key msg).
Proof. unfold hmac. rewrite hmac_is_spec by done. split; [apply hmac_spec_length|apply hmac_spec_bytes]. Qed.

Lemma prf_loop_ok key label seed outlen : forall fuel i pos, (outlen - pos <= fuel)%nat ->
  length (prf_loop fuel key label seed i pos outlen) = (outlen - pos)%nat /\
  bytes_ok (prf_loop fuel key label seed i pos outlen).
Proof.
  induction fuel as [|fuel IH]; intros i pos Hf; cbn [prf_loop]; [split; [cbn; lia|apply Forall_nil_2]|].
  destruct (Nat.ltb_spec pos outlen); [|split; [cbn; lia|apply Forall_nil_2]].
  set (digest := hmac _ _). set (c := if (outlen - pos <? 20)%nat then _ else _).
  destruct (hmac_block key (label ++ [0] ++ seed ++ [u8 i])) as [D1 D2]. fold digest in D1, D2.
  assert (Hc : (0 < c <= 20)%nat /\ (c <= outlen - pos)%nat)
    by (unfold c; destruct (Nat.ltb_spec (outlen - pos) 20); lia).
  destruct (IH (i + 1) (pos + c)%nat ltac:(lia)) as [IH1 IH2].
  rewrite length_app, bytes_ok_app, length_take. split; [lia|]. split; [by apply bytes_ok_take|done].
Qed.

Lemma derive_ptk_ok pmk aa spa anonce snonce :
  length (derive_ptk pmk aa spa anonce snonce) = 48%nat /\ bytes_ok (derive_ptk pmk aa spa anonce snonce).
Proof. apply prf_loop_ok. lia. Qed.

Lemma set_ptk_ok ptk k : length ptk = 48%nat -> bytes_ok ptk ->
  length (g_gtk k) = 32%nat -> bytes_ok (g_gtk k) ->
  keys_ok (set_ptk ptk k) /\ block (g_tk (set_ptk ptk k)).
Proof.
  intros Hl Hb Hg Hgb. unfold keys_ok, block. cbn [set_ptk g_kck g_kek g_gtk g_tk].
  split_and!; try done; try (rewrite ?length_take, ?length_drop; lia); auto with rtw.
Qed.

Lemma build_eapol_key_length key_info replay snonce kck rsn :
  length replay = 8%nat -> nonce_ok snonce -> (length (build_eapol_key key_info replay snonce kck rsn) <= 121)%nat.
Proof.
  intros Hr Hs. rewrite build_eapol_key_shape by done. cbv zeta.
  set (kd := if rsn then rsn_ie else []).
  destruct (eapol_mic_block kck (key_frame_head key_info replay snonce kd ++ replicate 16 0 ++
    put_be16 (Z.of_nat (length kd)) ++ kd)) as [M _].
  rewrite length_app, (length_app (eapol_mic _ _)), M, key_frame_head_length by done.
  unfold kd. destruct rsn; cbn; lia.
Qed.

Lemma replay_length e cap : eapol_ok cap e -> length (replay_of e) = 8%nat.
Proof. intros [_ He]. unfold replay_of. rewrite length_take, length_drop. lia. Qed.

Lemma nonce_none : nonce_ok None.
Proof. done. Qed.

(** ** The exchange *)

Section Exchange.
Context (d : rtw_dev) (bssid : list Z) (rate : Z).
Context (Hd : trx_chip d) (Ha : length (ef_addr (efuse d)) = 6%nat) (Hb : length bssid = 6%nat).

(** Safe for the devices that respect the ring of [s0]; all later states have
    the same receive ring. *)
Context (s0 : trx_state).

Lemma recv_eapol_safe s m rp room outcap ms : outcap <= room -> same_rx s0 s -> rx_live s m -> 0 <= rp < g_rx_n s0 ->
  rx_safe s0 (recv_eapol s bssid rp room outcap ms) m (fun '(r, rp') m' =>
    m' = m /\ 0 <= rp' < g_rx_n s0 /\ (if r is Some e then eapol_ok outcap e else True)).
Proof.
  intros Hroom Hs Hrx Hr. apply (rx_safe_same s0 s); [done|]. destruct Hs as [E _]. rewrite <- E in *.
  by apply recv_live.
Qed.

Lemma m4_window_safe m kck : forall w s rp, rings_up s m -> same_rx s0 s -> 0 <= rp < g_rx_n s0 ->
  rx_safe s0 (m4_window w d s kck bssid rate rp) m (fun s' m' => m' = m /\ rings_up s' m /\ same_rx s0 s').
Proof.
  induction w as [|w IH]; intros s rp Hs Hsame Hr; cbn [m4_window]; [by apply mem_safe_if_ret|].
  eapply mem_safe_if_bind; [apply recv_eapol_safe; [done|done|apply Hs|done]|].
  intros [r rp'] m' (-> & Hrp' & He). destruct r as [e|]; [|by apply mem_safe_if_ret].
  destruct (_ || _); [by apply IH|]. destruct (negb _); [by apply IH|].
  eapply mem_safe_if_bind; [apply mem_safe_if_lift, send_eapol_safe; try done|].
  - pose proof (build_eapol_key_length 0x030a (replay_of e) None kck false
      (replay_length e _ He) nonce_none). lia.
  - intros s' m' (-> & Hs' & Hsame'). apply IH; [done| |done]. by eapply same_rx_trans.
Qed.

(** What a supplicant's state promises between messages. *)
Definition supp_ok (u : supp) (m : gmap Z Z) : Prop :=
  rings_up (su_trx u) m /\ same_rx s0 (su_trx u) /\ keys_ok (su_keys u) /\
  block (g_tk (su_keys u)) /\ rsbox_ok (su_rsbox u).

Lemma supp_ok_trx u m s : supp_ok u m -> rings_up s m -> same_rx (su_trx u) s -> supp_ok (set_trx s u) m.
Proof. intros (H1 & H2 & H3) Hs Hsame. split; [done|]. split; [by eapply same_rx_trans|done]. Qed.

Definition m3_rc (rc : Z) : Prop := rc = 0 \/ rc = -4 \/ rc = -5.

Lemma m3_loop_safe m snonce : length snonce = 32%nat -> forall iters u rp m2 timeouts,
  supp_ok u m -> 0 <= rp < g_rx_n s0 -> (length m2 <= 512)%nat ->
  rx_safe s0 (m3_loop iters d u bssid snonce rate rp m2 timeouts) m (fun '(rc, u') m' =>
    m' = m /\ supp_ok u' m /\ m3_rc rc).
Proof.
  intros Hn. induction iters as [|iters IH]; intros u rp m2 timeouts Hu Hr Hm2; cbn [m3_loop];
    [apply mem_safe_if_ret; by split_and!; [|apply Hu..|right; left]|].
  destruct (Z.leb_spec 8 timeouts); [apply mem_safe_if_ret; by split_and!; [|apply Hu..|right; left]|].
  pose proof Hu as (Hs & Hsame & Hk & Htk & Hg).
  eapply mem_safe_if_bind; [apply recv_eapol_safe; [done|done|apply Hs|done]|].
  intros [r rp'] m' (-> & Hrp' & He). destruct r as [e|].
  2: { eapply mem_safe_if_bind; [by apply mem_safe_if_lift, send_eapol_safe|].
       intros s' m' (-> & Hs' & Hsame'). apply IH; [by apply supp_ok_trx|done|done]. }
  pose proof (replay_length e _ He) as Hre.
  destruct (negb (nz (get_be16 e 5 .& 0x0100))).
  { pose proof (build_eapol_key_length 0x010a (replay_of e) (Some snonce) (g_kck (su_keys u)) true Hre Hn).
    eapply mem_safe_if_bind; [apply mem_safe_if_lift, send_eapol_safe; try done; lia|].
    intros s' m' (-> & Hs' & Hsame'). apply IH; [by apply supp_ok_trx|done|lia]. }
  destruct (negb (mic_valid _ e)); [by apply IH|]. destruct He as [Heb Hel].
  destruct (extract_gtk_ok (su_rsbox u) (su_keys u) e (Z.of_nat (length e)) Hg Hk Heb)
    as (got & k' & g' & -> & Hg' & Hk' & Hptk & Hgot); [unfold eapol_size in *; lia..|].
  assert (Hu' : supp_ok (Supp (su_trx u) k' g' (su_session u) (su_box u)) m).
  { split_and!; try done; try apply Hs. cbn [su_keys]. destruct Hptk as (_ & _ & -> & _). apply Htk. }
  destruct got; cbn [negb]; [|apply mem_safe_if_ret; split_and!; try done; try apply Hu'; by right; right].
  pose proof (build_eapol_key_length 0x030a (replay_of e) None (g_kck (su_keys u)) false Hre nonce_none).
  eapply mem_safe_if_bind; [apply mem_safe_if_lift, send_eapol_safe; try done; lia|].
  intros s' m' (-> & Hs' & Hsame').
  eapply mem_safe_if_bind; [apply m4_window_safe; [done|by eapply same_rx_trans|done]|].
  intros s'' m' (-> & Hs'' & Hsame''). apply mem_safe_if_ret. split; [done|]. split; [|by left].
  destruct Hu' as (_ & _ & Hu'). split; [done|]. split; [done|]. apply Hu'.
Qed.
End Exchange.

Lemma wpa_exchange_safe d u bssid pmk snonce rate m :
  trx_chip d -> length (ef_addr (efuse d)) = 6%nat -> length bssid = 6%nat -> length snonce = 32%nat ->
  rings_up (su_trx u) m -> rsbox_ok (su_rsbox u) ->
  length (g_gtk (su_keys u)) = 32%nat -> bytes_ok (g_gtk (su_keys u)) ->
  rx_safe (su_trx u) (wpa_exchange d u bssid pmk snonce rate) m (fun '(rc, u') m' =>
    m' = m /\ rings_up (su_trx u') m /\ same_rx (su_trx u) (su_trx u') /\ rsbox_ok (su_rsbox u') /\
    (m3_rc rc \/ rc = -2)).
Proof.
  intros Hd Ha Hb Hn Hs Hg Hgl Hgb. unfold wpa_exchange.
  eapply mem_safe_if_bind; [apply rx_hw_idx_safe|]. intros rp m' [-> Hr].
  apply mem_safe_if_bind_regs; [by unfold trx_rx_set_host_idx; safe_go|]. intros _.
  eapply mem_safe_if_bind; [apply recv_eapol_safe; [done|done|apply Hs|done]|].
  intros [r rp'] m' (-> & Hrp' & He). destruct r as [e|]; [|apply mem_safe_if_ret; do 3 (split; [done|]); auto].
  set (ptk := derive_ptk _ _ _ _ _).
  destruct (derive_ptk_ok pmk bssid (ef_addr (efuse d)) (anonce_of e) snonce) as [P1 P2]. fold ptk in P1, P2.
  destruct (set_ptk_ok ptk (su_keys u) P1 P2 Hgl Hgb) as [K1 K2].
  set (u1 := set_keys _ u).
  assert (Hu1 : supp_ok (su_trx u) u1 m) by by split_and!; try apply Hs.
  pose proof (build_eapol_key_length 0x010a (replay_of e) (Some snonce) (g_kck (su_keys u1)) true
    (replay_length e _ He) Hn).
  eapply mem_safe_if_bind; [apply mem_safe_if_lift, send_eapol_safe; try done; lia|].
  intros s' m' (-> & Hs' & Hsame').
  eapply mem_safe_if_mono; [apply m3_loop_safe; try done; first [by apply supp_ok_trx|lia]|].
  intros [rc u'] m' (-> & Hu' & Hrc). split; [done|]. split; [apply Hu'|]. split; [apply Hu'|].
  split; [apply Hu'|by left].
Qed.

(** Register code only. *)
Lemma write_cam_loop_regs i : forall cmd addr keyidx group mac key,
  safe reg_call (write_cam_loop i cmd addr keyidx group mac key) (fun _ => True).
Proof.
  induction i as [|i IH]; intros; cbn [write_cam_loop];
    (apply safe_bind_any; [by safe_go|intros _]; apply safe_bind_any; [by safe_go|intros _]); [by safe_go|apply IH].
Qed.

Lemma install_keys_regs bssid tk gtk len idx : safe reg_call (install_keys bssid tk gtk len idx) (fun _ => True).
Proof.
  unfold install_keys, write_cam. apply safe_bind_any; [apply write_cam_loop_regs|intros _].
  apply safe_bind_any; [destruct (_ <=? _); [apply write_cam_loop_regs|by safe_go]|intros _].
  by safe_go.
Qed.

Lemma h2c_command_regs box c : safe reg_call (h2c_command box c) (fun _ => True).
Proof.
  assert (Hw : safe reg_call (hmebox_wait 100 box) (fun _ => True)).
  { generalize 100%nat. intros n. induction n as [|n IH]; cbn [hmebox_wait]; [by safe_go|].
    apply safe_bind_any; [by safe_go|]. intros v. destruct (negb _); [by safe_go|].
    apply safe_bind_any; [by safe_go|]. intros _. apply IH. }
  unfold h2c_command, hmebox.
  repeat (destruct (box =? _); [apply safe_bind_any; [exact Hw|intros _; by safe_go]|]).
  apply safe_bind_any; [exact Hw|intros _; by safe_go].
Qed.

Lemma media_connect_regs d box g bssid mac_id channel :
  safe reg_call (media_connect d box g bssid mac_id channel) (fun _ => True).
Proof.
  unfold media_connect. repeat (apply safe_bind_any; [first [apply h2c_command_regs|by safe_go]|intros ?]).
  destruct (ra_choice _ _) as [[raid mask] vht]. apply safe_bind_any; [|intros ?; by safe_go].
  unfold fw_ra_info. apply safe_bind_any; [apply h2c_command_regs|intros ?]. by safe_go.
Qed.

Definition keys_wiped (k : wpa_keys) : Prop :=
  g_kck k = replicate 16 0 /\ g_kek k = replicate 16 0 /\ g_tk k = replicate 16 0 /\
  g_gtk k = replicate 32 0.

Lemma wpa_handshake_mem (d : rtw_dev) (u : supp) (bssid ssid pass : list Z) (channel : Z) (m : gmap Z Z) :
  trx_chip d -> length (ef_addr (efuse d)) = 6%nat -> length bssid = 6%nat ->
  rings_up (su_trx u) m -> rsbox_ok (su_rsbox u) ->
  rx_safe (su_trx u) (wpa_handshake d u bssid ssid pass channel) m (fun '(rc, u') m' =>
    m' = m /\ rings_up (su_trx u') m /\ same_rx (su_trx u) (su_trx u') /\ rsbox_ok (su_rsbox u') /\
    (rc = 0 \/ rc = -2 \/ rc = -4 \/ rc = -5) /\ keys_wiped (su_keys u')).
Proof.
  intros Hd Ha Hb Hs Hg. unfold wpa_handshake.
  apply mem_safe_if_bind_regs; [by apply (safe_op no_mem (RandomBuf 32) (fun _ => True))|]. intros nonce.
  set (pmk := rtw_pbkdf2_sha1 _ _ _ _ _). set (snonce := norm_bytes 32 nonce).
  assert (Hn : length snonce = 32%nat)
    by (unfold snonce, norm_bytes; rewrite length_take, length_app, length_replicate; lia).
  set (u1 := set_keys _ u).
  eapply mem_safe_if_bind; [apply (wpa_exchange_safe d u1); try done; by apply bytes_ok_replicate|].
  intros [rc u2] m' (-> & Hs2 & Hsame & Hg2 & Hrc).
  eapply (mem_safe_if_bind _ _ _ _ (fun u3 m' => m' = m /\ su_trx u3 = su_trx u2 /\ su_rsbox u3 = su_rsbox u2)).
  { destruct (rc =? 0); [|by apply mem_safe_if_ret]. unfold wpa_link_up.
    apply mem_safe_if_bind_regs; [apply regs_mem, install_keys_regs|]. intros _.
    apply mem_safe_if_bind_regs; [apply regs_mem, media_connect_regs|]. intros [box g]. by apply mem_safe_if_ret. }
  intros u3 m' (-> & E1 & E2). apply mem_safe_if_ret. cbn [set_keys su_trx su_rsbox su_keys]. rewrite E1, E2.
  split; [done|]. split; [done|]. split; [done|]. split; [done|]. split; [|done]. destruct Hrc as [[->|[->| ->]]| ->]; auto.
Qed.

(** C8: on every chip whose ring index is sound, and whatever frames arrive,
    the handshake reads each frame inside its slot, copies no more of it than its
    array of 512 bytes holds, stays inside its other buffers and never hangs; it
    ends with 0, -2, -4 or -5, the rings are as usable as before, and on every path
    no pairwise or group key remains in the globals. *)
Theorem wpa_handshake_safe (d : rtw_dev) (u : supp) (bssid ssid pass : list Z) (channel : Z) (m : gmap Z Z) :
  trx_chip d -> length (ef_addr (efuse d)) = 6%nat -> length bssid = 6%nat ->
  rings_up (su_trx u) m -> rsbox_ok (su_rsbox u) ->
  rx_safe (su_trx u) (wpa_handshake d u bssid ssid pass channel) m (fun '(rc, u') m' =>
    m' = m /\ rings_up (su_trx u') m /\ rsbox_ok (su_rsbox u') /\
    (rc = 0 \/ rc = -2 \/ rc = -4 \/ rc = -5) /\ keys_wiped (su_keys u')).
Proof.
  intros. eapply mem_safe_if_mono; [by apply wpa_handshake_mem|].
  intros [rc u'] m' (-> & ? & _ & ? & ?). done.
Qed.

(** ** Completion means authenticated *)

(** A frame taken from the ring in the logged run: a slot was looked into, its
    frame came from [bssid], carried EAPOL and ended the wait. *)
Definition received (bssid : list Z) (t : list event) (eapol : list Z) : Prop :=
  stopped_in (fun buf (_ : unit) => eapol_in_slot bssid eapol_size eapol_size buf) t eapol.
#[local] Opaque runs extract_gtk mic_valid.
Lemma recv_received s bssid rp ms e rp' t :
  runs (recv_eapol s bssid rp eapol_size eapol_size ms) t (Some e, rp') -> received bssid t e.
Proof.
  unfold recv_eapol. intros Hr. apply runs_bind in Hr as (t1 & t2 & [v rp1] & -> & Hv & Hr).
  apply runs_ret in Hr as [-> [= E ->]]. destruct v as [|e1]; [done|]. injection E as ->.
  apply stopped_left. by eapply poll_stopped.
Qed.
(** The frame that completed the exchange, given the keys it was checked with. *)
Definition m3_accepted (g : rsbox_state) (k : wpa_keys) (u' : supp) (m3 : list Z) : Prop :=
  nz (get_be16 m3 5 .& 0x0100) = true /\ mic_valid (g_kck k) m3 = true /\
  extract_gtk g k m3 (Z.of_nat (length m3)) = Some (true, su_keys u', su_rsbox u').

Lemma m3_loop_accepts d bssid snonce rate : forall iters u rp m2 timeouts t u',
  runs (m3_loop iters d u bssid snonce rate rp m2 timeouts) t (0, u') ->
  exists m3, received bssid t m3 /\ m3_accepted (su_rsbox u) (su_keys u) u' m3.
Proof.
  induction iters as [|iters IH]; intros u rp m2 timeouts t u' Hr; cbn [m3_loop] in Hr; [by destruct Hr|].
  destruct (8 <=? timeouts); [by destruct Hr|].
  assert (Hlater : forall t1 t2 s' m2 timeouts rp, runs (s ← s'; m3_loop iters d (set_trx s u) bssid snonce rate rp m2 timeouts) t2 (0, u') ->
    exists m3, received bssid (t1 ++ t2) m3 /\ m3_accepted (su_rsbox u) (su_keys u) u' m3).
  { intros t1 t2 p m2' to' rp1 H. apply runs_bind in H as (t3 & t4 & s' & -> & _ & H). apply IH in H as (m3 & H1 & H2).
    exists m3. split; [by do 2 apply stopped_right|exact H2]. }
  apply runs_bind in Hr as (t1 & t2 & [r rp'] & -> & Hrecv & Hr). destruct r as [e|]; [|by eapply Hlater].
  destruct (nz (get_be16 e 5 .& 0x0100)) eqn:Hki; cbn [negb] in Hr; [|by eapply Hlater].
  destruct (mic_valid _ e) eqn:Hmic; cbn [negb] in Hr.
  2: { apply IH in Hr as (m3 & H1 & H2). exists m3. split; [by apply stopped_right|exact H2]. }
  exists e. split; [by eapply stopped_left, recv_received|].
  destruct (extract_gtk _ _ e _) as [[[got k'] g']|] eqn:Hx.
  2: { apply runs_bind in Hr as (t3 & t4 & x & _ & _ & Hr). by apply runs_ret in Hr as [_ [=]]. }
  destruct got; cbn [negb] in Hr; [|by apply runs_ret in Hr as [_ [=]]].
  apply runs_bind in Hr as (t3 & t4 & s' & _ & _ & Hr). apply runs_bind in Hr as (t5 & t6 & s'' & _ & _ & Hr).
  apply runs_ret in Hr as [_ [= ->]]. split; [exact Hki|]. split; [exact Hmic|exact Hx].
Qed.

Lemma exchange_accepts d u bssid pmk snonce rate t u' : runs (wpa_exchange d u bssid pmk snonce rate) t (0, u') ->
  exists t1 t3 m1 m3, t = t1 ++ t3 /\ received bssid t1 m1 /\ received bssid t3 m3 /\
    m3_accepted (su_rsbox u) (set_ptk (derive_ptk pmk bssid (ef_addr (efuse d)) (anonce_of m1) snonce) (su_keys u)) u' m3.
Proof.
  intros Hr. unfold wpa_exchange in Hr. apply runs_bind in Hr as (ta & t2 & rp & -> & _ & Hr). apply runs_bind in Hr as (tb & t3 & [] & -> & _ & Hr).
  apply runs_bind in Hr as (t1 & t4 & [r rp'] & -> & Hm1 & Hr). destruct r as [m1|]; [|by apply runs_ret in Hr as [_ [=]]].
  apply runs_bind in Hr as (tc & t5 & s' & -> & _ & Hr). apply m3_loop_accepts in Hr as (m3 & H3 & Hacc).
  exists (ta ++ tb ++ t1), (tc ++ t5), m1, m3. split; [by rewrite <- !app_assoc|].
  split; [do 2 apply stopped_right; by eapply recv_received|]. split; [by apply stopped_right|exact Hacc].
Qed.

(** C16: the exchange completes only if, in this run and in this order, it took
    from the ring two EAPOL frames sent with the access point's address: a
    message 1, and a message 3 that carries a MIC valid under the
    key-confirmation key derived from the master key, that message 1's nonce and
    its own, and from which a usable group key was unwrapped; the keys it ends
    with are the ones of that message 3. *)
Theorem wpa_exchange_authentic (d : rtw_dev) (u : supp) (bssid pmk snonce : list Z) (rate : Z) :
  forall (W : Type) (dev : Device W) (w : W),
    let run := exec (wpa_exchange d u bssid pmk snonce rate) w in
    (result run).1 = 0 -> exists t1 t3 m1 m3,
      let k := set_ptk (derive_ptk pmk bssid (ef_addr (efuse d)) (anonce_of m1) snonce) (su_keys u) in
      trace run = t1 ++ t3 /\ received bssid t1 m1 /\ received bssid t3 m3 /\
      m3_accepted (su_rsbox u) k (result run).2 m3.
Proof.
  intros W dev w. pose proof (exec_runs (wpa_exchange d u bssid pmk snonce rate) w) as Hr.
  destruct (exec _ w) as [[[rc u'] w'] t]. unfold result, trace in *. cbn [fst snd] in *. cbv zeta. intros ->.
  apply exchange_accepts in Hr as (t1 & t3 & m1 & m3 & H). by exists t1, t3, m1, m3.
Qed.

(** ** Failure leaves the link alone *)

(** Not a write to the CAM, the engine, the link registers or the mailboxes. *)
Definition link_quiet (o : hwop) : bool :=
  match o with
  | Write _ a _ => negb (bool_decide (a ∈
      [RTW_SEC_WRITE_REG; RTW_SEC_CMD_REG; RTW_SEC_CONFIG; REG_CR; REG_MACID; REG_MACID + 4;
       REG_BSSID; REG_BSSID + 4; REG_MSR; REG_RRSR; REG_HMEBOX0; REG_HMEBOX1; REG_HMEBOX2; REG_HMEBOX3]))
  | _ => true
  end.

Lemma leaf_quiet o : leaf_call o = true -> link_quiet o = true.
Proof.
  destruct o; cbn; try done. case_match; try done.
  intros Ho. apply orb_true_iff in Ho as [Ho|Ho%Z.eqb_eq]; [|by subst].
  apply orb_true_iff in Ho as [Ho%Z.eqb_eq|Ho%Z.eqb_eq]; by subst.
Qed.
Lemma rx_quiet o : rx_call o = true -> link_quiet o = true.
Proof. destruct o; cbn; try done. case_match; try done. intros Ho%Z.eqb_eq. by subst. Qed.

Lemma eapol_in_slot_calls bssid room cap buf : safe rx_call (eapol_in_slot bssid room cap buf) (fun _ => True).
Proof.
  unfold eapol_in_slot. apply safe_bind_any; [apply slot32_calls|]. intros w0.
  destruct (_ || _); [by apply safe_ret|].
  apply safe_bind_any; [apply frame_control_calls|]. intros fc. destruct (negb _); [by apply safe_ret|].
  apply safe_bind_any; [apply slot_bytes_calls|]. intros ta. destruct (negb _); [by apply safe_ret|].
  destruct (rx_pkt_len w0 <? _); [by apply safe_ret|].
  do 3 (apply safe_bind_any; [apply slot8_calls|]; intros ?; destruct (negb _); [by apply safe_ret|]).
  apply safe_bind_any; [apply slot_bytes_calls|]. intros body. destruct (99 <=? _); [|by apply safe_ret].
  apply safe_bind_any; [apply slot_bytes_calls|]. intros out. apply safe_bind_any; [apply copy_out_calls|]. intros ?. by apply safe_ret.
Qed.

Lemma recv_air s bssid rp room cap ms : safe air_call (recv_eapol s bssid rp room cap ms) (fun _ => True).
Proof.
  unfold recv_eapol. apply safe_bind_any; [|intros [v rp']; by apply safe_ret].
  apply rx_air, poll_ring_calls. intros. apply eapol_in_slot_calls.
Qed.
Lemma send_air d s bssid rate e : safe air_call (send_eapol d s bssid rate e) (fun _ => True).
Proof.
  unfold send_eapol. apply safe_bind_any; [apply leaf_air, tx_data_calls|].
  intros [r s']. by apply safe_ret.
Qed.

Lemma m4_window_air d kck bssid rate : forall w s rp,
  safe air_call (m4_window w d s kck bssid rate rp) (fun _ => True).
Proof.
  induction w as [|w IH]; intros s rp; cbn [m4_window]; [by apply safe_ret|].
  apply safe_bind_any; [apply recv_air|]. intros [r rp']. destruct r as [e|]; [|by apply safe_ret].
  destruct (_ || _); [apply IH|]. destruct (negb _); [apply IH|].
  apply safe_bind_any; [apply send_air|]. intros s'. apply IH.
Qed.

Lemma m3_loop_air d bssid snonce rate : forall iters u rp m2 timeouts,
  safe air_call (m3_loop iters d u bssid snonce rate rp m2 timeouts) (fun _ => True).
Proof.
  induction iters as [|iters IH]; intros u rp m2 timeouts; cbn [m3_loop]; [by apply safe_ret|].
  destruct (8 <=? timeouts); [by apply safe_ret|].
  apply safe_bind_any; [apply recv_air|]. intros [r rp']. destruct r as [e|].
  2: { apply safe_bind_any; [apply send_air|]. intros s'. apply IH. }
  destruct (negb _); [apply safe_bind_any; [apply send_air|]; intros s'; apply IH|].
  destruct (negb _); [apply IH|].
  destruct (extract_gtk _ _ e _) as [[[got k'] g']|].
  2: { apply safe_bind_any; [by apply (safe_op air_call Fault)|]. intros _. by apply safe_ret. }
  destruct (negb got); [by apply safe_ret|].
  apply safe_bind_any; [apply send_air|]. intros s'.
  apply safe_bind_any; [apply m4_window_air|]. intros s''. by apply safe_ret.
Qed.

Lemma wpa_exchange_air d u bssid pmk snonce rate :
  safe air_call (wpa_exchange d u bssid pmk snonce rate) (fun _ => True).
Proof.
  unfold wpa_exchange.
  apply safe_bind_any; [apply rx_air, rx_hw_idx_calls|]. intros rp.
  apply safe_bind_any; [apply rx_air, rx_set_host_calls|]. intros _.
  apply safe_bind_any; [apply recv_air|]. intros [r rp']. destruct r as [e|]; [|by apply safe_ret].
  apply safe_bind_any; [apply send_air|]. intros s'. apply m3_loop_air.
Qed.

Lemma air_quiet o : air_call o = true -> link_quiet o = true.
Proof. unfold air_call. intros [|]%orb_true_iff; [by apply rx_quiet|by apply leaf_quiet]. Qed.

(** A handshake that does not complete writes no key, does not switch the
    crypto engine on, and leaves the link registers and the firmware mailboxes
    alone. *)
Theorem wpa_handshake_failure_quiet (d : rtw_dev) (u : supp) (bssid ssid pass : list Z) (channel : Z) :
  forall (W : Type) (dev : Device W) (w : W),
    let run := exec (wpa_handshake d u bssid ssid pass channel) w in
    (result run).1 = 0 \/ Forall (fun o => link_quiet o = true) (ops run).
Proof.
  intros W dev w run.
  assert (H : wp (watch link_quiet) (wpa_handshake d u bssid ssid pass channel) true
                (fun x b => x.1 <> 0 -> b = true)).
  { unfold wpa_handshake. apply wp_bind.
    eapply wp_mono; [apply watch_safe, (safe_op link_quiet (RandomBuf 32) (fun _ => True)); done|].
    intros nonce b [-> _]. apply wp_bind.
    eapply wp_mono; [apply watch_safe; eapply safe_weaken; [apply wpa_exchange_air|apply air_quiet|done]|]. intros [rc u'] b [-> _]. apply wp_bind.
    destruct (Z.eqb_spec rc 0) as [->|Hrc].
    - eapply wp_mono; [apply watch_any|]. intros u'' b _. by apply wp_ret.
    - apply wp_ret, wp_ret. done. }
  apply (watch_exec link_quiet _ w) in H as (b & HQ & HF).
  destruct (Z.eq_dec (result run).1 0) as [|Hrc]; [by left|right]. apply HF, HQ, Hrc.
Qed.

(** ** Witnesses *)

Definition supp_example : supp :=
  Supp trx_up_example keys_example rsbox_init (Session true false RTW_RATEID_G DESC_RATE54M) 0.
Lemma wpa_handshake_safe_witness :
  rx_safe (su_trx supp_example)
    (wpa_handshake (example_dev [] []) supp_example (replicate 6 2) [104; 105] (replicate 8 97) 6) mem_example
    (fun '(rc, u') m' =>
      m' = mem_example /\ rings_up (su_trx u') mem_example /\ rsbox_ok (su_rsbox u') /\
      (rc = 0 \/ rc = -2 \/ rc = -4 \/ rc = -5) /\ keys_wiped (su_keys u')).
Proof.
  refine (wpa_handshake_safe (example_dev [] []) supp_example (replicate 6 2) [104; 105] (replicate 8 97) 6
            mem_example _ eq_refl eq_refl rings_up_example rsbox_init_ok).
  by constructor.
Defined.

(** An access point: message 1 in slot 0, message 3 in slot 1, one more frame
    visible at each of the first polls. *)
Definition ap_mac : list Z := replicate 6 2.
Definition sta_mac : list Z := [0x00; 0xe0; 0x4c; 0x12; 0x34; 0x56].
Definition pmk_example : list Z := seqZ 0 32.
Definition snonce_example : list Z := replicate 32 7.
Definition ptk_example : list Z := derive_ptk pmk_example ap_mac sta_mac (replicate 32 9) snonce_example.
Definition m1_example : list Z :=
  [2; 3; 0; 95; 2; 0x00; 0x8a; 0; 16] ++ replicate 8 1 ++ replicate 32 9 ++ replicate 48 0 ++ [0; 0].
Definition m3_example : list Z :=
  let data := aes_wrap (take 16 (drop 16 ptk_example)) (gtk_kde 1 (replicate 16 0x5a)) in
  let eapol := [2; 3; 0; 127; 2; 0x13; 0xca; 0; 16] ++ replicate 8 2 ++ replicate 32 9 ++ replicate 48 0 ++
    [0; 32] ++ data in
  splice eapol 81 (eapol_mic (take 16 ptk_example) eapol).
(** A received slot: descriptor, data header from the access point, SNAP, frame. *)
Definition slot_image (eapol : list Z) : list Z :=
  le32 (Z.of_nat (36 + length eapol)) ++ replicate 20 0 ++
  [0x08; 0x02; 0; 0] ++ sta_mac ++ ap_mac ++ ap_mac ++ [0; 0] ++
  [0xaa; 0xaa; 3; 0; 0; 0; 0x88; 0x8e] ++ eapol ++ [0; 0; 0; 0].
Definition ap_slots : list (list Z) := [slot_image m1_example; slot_image m3_example].

#[local] Instance ap_dev : Device Z := fun o w =>
  match o as o return hwres o * Z with
  | Read W32 a => if a =? RTK_PCI_RXBD_IDX_MPDUQ then (Z.min w 2 << 16, w + 1) else (0, w)
  | MemRead _ off n =>
      (take (Z.to_nat n) (drop (Z.to_nat (off mod USCAN_RX_BUF_SIZE))
        (nth (Z.to_nat (off / USCAN_RX_BUF_SIZE)) ap_slots [])), w)
  | o => (hw_default o, w)
  end.

Lemma wpa_exchange_authentic_witness :
  let run := exec (wpa_exchange (example_dev [] []) supp_example ap_mac pmk_example snonce_example DESC_RATE1M) (0 : Z) in
  (result run).1 = 0 /\ exists t1 t3 m1 m3,
    let k := set_ptk (derive_ptk pmk_example ap_mac (ef_addr (efuse (example_dev [] []))) (anonce_of m1) snonce_example) (su_keys supp_example) in
    trace run = t1 ++ t3 /\ received ap_mac t1 m1 /\ received ap_mac t3 m3 /\
    m3_accepted (su_rsbox supp_example) k (result run).2 m3.
Proof.
  pose proof (wpa_exchange_authentic (example_dev [] []) supp_example ap_mac pmk_example snonce_example DESC_RATE1M Z ap_dev 0) as H.
  cbv zeta in H |- *. split; [vm_compute; reflexivity|]. apply H. vm_compute. reflexivity.
Defined.
