(* ===== verification/Fw.v ===== *)
(** * Fw: firmware download (core/fwdownload.c)

    The image's sections go to the chip in chunks: each through the reserved page
    into the transmit buffer, then by the on-chip DMA engine into place.  Proved:
    an image whose header adds up is read inside its bounds only; against a model
    of the reserved page and the engine, a download that succeeds has put every
    section where its header says; and the beacon registers the page borrows are
    given back on every path. *)
From stdpp Require Import gmap.
From S2P Require Import Prelude Hw Regs Dev Trx.
Open Scope Z_scope.
Open Scope rtw_scope.

Definition ILLEGAL_KEY_GROUP : Z := 0xFAAAAA00.

(** [struct rtw_backup_info]: length, register, value. *)
Definition rtw_backup_info : Type := Z * Z * Z.

Fixpoint rtw_restore_reg (bckp : list rtw_backup_info) : prog unit :=
  match bckp with
  | [] => mret tt
  | (len, reg, val) :: bckp =>
      (if len =? 1 then hw_write8 reg val
       else if len =? 2 then hw_write16 reg val
       else if len =? 4 then hw_write32 reg val
       else mret tt);;
      rtw_restore_reg bckp
  end.

Definition wlan_cpu_enable (enable : bool) : prog unit :=
  if enable then
    rtw_write8_set (REG_RSV_CTRL + 1) BIT_WLMCU_IOIF;;
    rtw_write8_set (REG_SYS_FUNC_EN + 1) BIT_FEN_CPUEN
  else
    rtw_write8_clr (REG_SYS_FUNC_EN + 1) BIT_FEN_CPUEN;;
    rtw_write8_clr (REG_RSV_CTRL + 1) BIT_WLMCU_IOIF.

(** ** The image *)

(** A read of the image outside its bounds faults. *)
Definition img_bytes (data : list Z) (off n : Z) : prog (list Z) :=
  match rd_bytes data off n with
  | Some bs => mret bs
  | None => act Fault;; mret (replicate (Z.to_nat n) 0)
  end.
Definition img8 (data : list Z) (off : Z) : prog Z := bs ← img_bytes data off 1; mret bs.[0].
Definition img32 (data : list Z) (off : Z) : prog Z :=
  bs ← img_bytes data off 4; mret (word32 bs.[0] bs.[1] bs.[2] bs.[3]).

(** Field offsets of [struct rtw_fw_hdr]. *)
Definition HDR_MEM_USAGE : Z := 24.
Definition HDR_DMEM_ADDR : Z := 32.
Definition HDR_DMEM_SIZE : Z := 36.
Definition HDR_IMEM_SIZE : Z := 48.
Definition HDR_EMEM_SIZE : Z := 52.
Definition HDR_EMEM_ADDR : Z := 56.
Definition HDR_IMEM_ADDR : Z := 60.

(** The three section sizes, checksums included. *)
Definition fw_sizes (data : list Z) : prog (Z * Z * Z) :=
  dmem_size ← img32 data HDR_DMEM_SIZE;
  imem_size ← img32 data HDR_IMEM_SIZE;
  usage ← img8 data HDR_MEM_USAGE;
  emem_size ← (if nz (usage .& BIT 4) then img32 data HDR_EMEM_SIZE else mret 0);
  mret (u32 (dmem_size + FW_HDR_CHKSUM_SIZE), u32 (imem_size + FW_HDR_CHKSUM_SIZE),
        u32 (emem_size + (if nz emem_size then FW_HDR_CHKSUM_SIZE else 0))).

Definition check_firmware_size (data : list Z) : prog bool :=
  '(dmem_size, imem_size, emem_size) ← fw_sizes data;
  mret (u32 (FW_HDR_SIZE + dmem_size + imem_size + emem_size) =? Z.of_nat (length data)).

(** ** Preparation *)

Definition download_firmware_reg_backup : prog (list rtw_backup_info) :=
  pq ← hw_read8 (REG_TXDMA_PQ_MAP + 1);
  hw_write8 (REG_TXDMA_PQ_MAP + 1) (RTW_DMA_MAPPING_HIGH << 6);;
  cr ← hw_read8 REG_CR;
  hw_write8 REG_CR (BIT_HCI_TXDMA_EN .| BIT_TXDMA_EN);;
  hw_write32 REG_H2CQ_CSR BIT_H2CQ_FULL;;
  info ← hw_read16 REG_FIFOPAGE_INFO_1;
  rqpn ← hw_read32 REG_RQPN_CTRL_2;
  let rqpn := rqpn .| BIT_LD_RQPN in
  hw_write16 REG_FIFOPAGE_INFO_1 0x200;;
  hw_write32 REG_RQPN_CTRL_2 rqpn;;
  bcn ← hw_read8 REG_BCN_CTRL;
  hw_write8 REG_BCN_CTRL ((bcn .& .~ BIT_EN_BCN_FUNCTION) .| BIT_DIS_TSF_UDT);;
  mret [(1, REG_TXDMA_PQ_MAP + 1, pq); (1, REG_CR, cr); (4, REG_H2CQ_CSR, BIT_H2CQ_FULL);
        (2, REG_FIFOPAGE_INFO_1, info); (4, REG_RQPN_CTRL_2, rqpn); (1, REG_BCN_CTRL, bcn)].

Definition download_firmware_reset_platform : prog unit :=
  rtw_write8_clr (REG_CPU_DMEM_CON + 2) (BIT_WL_PLATFORM_RST >> 16);;
  rtw_write8_clr (REG_SYS_CLK_CTRL + 1) (BIT_CPU_CLK_EN >> 8);;
  rtw_write8_set (REG_CPU_DMEM_CON + 2) (BIT_WL_PLATFORM_RST >> 16);;
  rtw_write8_set (REG_SYS_CLK_CTRL + 1) (BIT_CPU_CLK_EN >> 8).

(** ** The DMA engine *)

Definition iddma_enable (src dst ctrl : Z) : prog Z :=
  hw_write32 REG_DDMA_CH0SA src;;
  hw_write32 REG_DDMA_CH0DA dst;;
  hw_write32 REG_DDMA_CH0CTRL ctrl;;
  ready ← check_hw_ready REG_DDMA_CH0CTRL BIT_DDMACH0_OWN 0;
  mret (if ready : bool then 0 else - EBUSY).

Definition iddma_download_firmware (src dst len : Z) (first : bool) : prog Z :=
  ready ← check_hw_ready REG_DDMA_CH0CTRL BIT_DDMACH0_OWN 0;
  if negb ready then mret (- EBUSY) else
  let ch0_ctrl := (BIT_DDMACH0_CHKSUM_EN .| BIT_DDMACH0_OWN) .| (len .& BIT_MASK_DDMACH0_DLEN) in
  let ch0_ctrl := if first then ch0_ctrl else ch0_ctrl .| BIT_DDMACH0_CHKSUM_CONT in
  ret ← iddma_enable src dst ch0_ctrl;
  mret (if nz ret then - EBUSY else 0).

Definition check_fw_checksum (addr : Z) : prog bool :=
  fw_ctrl ← hw_read8 REG_MCUFW_CTRL;
  ctrl ← hw_read32 REG_DDMA_CH0CTRL;
  if nz (ctrl .& BIT_DDMACH0_CHKSUM_STS) then
    (if addr <? OCPBASE_DMEM_88XX
     then hw_write8 REG_MCUFW_CTRL ((fw_ctrl .| BIT_IMEM_DW_OK) .& .~ BIT_IMEM_CHKSUM_OK)
     else hw_write8 REG_MCUFW_CTRL ((fw_ctrl .| BIT_DMEM_DW_OK) .& .~ BIT_DMEM_CHKSUM_OK));;
    mret false
  else
    (if addr <? OCPBASE_DMEM_88XX
     then hw_write8 REG_MCUFW_CTRL (fw_ctrl .| (BIT_IMEM_DW_OK .| BIT_IMEM_CHKSUM_OK))
     else hw_write8 REG_MCUFW_CTRL (fw_ctrl .| (BIT_DMEM_DW_OK .| BIT_DMEM_CHKSUM_OK)));;
    mret true.

(** ** The reserved page *)

Definition rtw_fw_write_data_rsvd_page (d : rtw_dev) (s : trx_state) (pg_addr : Z) (buf : list Z)
    : prog (Z * trx_state) :=
  if (length buf =? 0)%nat then mret (- EINVAL, s) else
  bcn ← hw_read8 REG_BCN_CTRL;
  hw_write16 REG_FIFOPAGE_CTRL_2 ((pg_addr .& BIT_MASK_BCN_HEAD_1_V1) .| BIT_BCN_VALID_V1);;
  cr ← hw_read8 (REG_CR + 1);
  hw_write8 (REG_CR + 1) (cr .| (BIT_ENSWBCN >> 8));;
  hw_write8 REG_BCN_CTRL ((bcn .& .~ BIT_EN_BCN_FUNCTION) .| BIT_DIS_TSF_UDT);;
  txq ← hw_read8 (REG_FWHW_TXQ_CTRL + 2);
  hw_write8 (REG_FWHW_TXQ_CTRL + 2) (txq .& .~ (BIT_EN_BCNQ_DL >> 16));;
  '(ret, s) ← trx_write_data_rsvd_page d s buf;
  ret ← (if nz ret then mret ret else
           ready ← check_hw_ready REG_FIFOPAGE_CTRL_2 BIT_BCN_VALID_V1 1;
           mret (if ready : bool then 0 else - EBUSY));
  hw_write16 REG_FIFOPAGE_CTRL_2 BIT_BCN_VALID_V1;;
  hw_write8 REG_BCN_CTRL bcn;;
  hw_write8 (REG_FWHW_TXQ_CTRL + 2) txq;;
  hw_write8 (REG_CR + 1) cr;;
  mret (ret, s).

(** A chunk of the image at [off], copied before it is sent. *)
Definition send_firmware_pkt (d : rtw_dev) (s : trx_state) (pg_addr : Z) (data : list Z) (off size : Z)
    : prog (Z * trx_state) :=
  ok ← act (Malloc size);
  if negb ok then mret (- ENOMEM, s) else
  buf ← img_bytes data off size;
  rtw_fw_write_data_rsvd_page d s pg_addr buf.

(** ** Downloading a section *)

Definition max_size : Z := 0x1000.

(** The section at [base] of the image, from [mem_offset] on.  Each round takes
    a chunk off [residue]: [fuel] is one more than the number of full chunks. *)
Fixpoint to_mem_loop (fuel : nat) (d : rtw_dev) (s : trx_state) (data : list Z)
    (base src dst mem_offset residue : Z) (first : bool) : prog (Z * trx_state) :=
  if residue =? 0 then mret (0, s) else
  match fuel with
  | O => act Hang;; mret (0, s)
  | S fuel =>
      let pkt_size := if max_size <=? residue then max_size else residue in
      '(ret, s) ← send_firmware_pkt d s (u16 (src >> 7)) data (base + mem_offset) pkt_size;
      if nz ret then mret (ret, s) else
      ret ← iddma_download_firmware (u32 (OCPBASE_TXBUF_88XX + src + tx_pkt_desc_sz (chip d)))
              (u32 (dst + mem_offset)) pkt_size first;
      if nz ret then mret (ret, s) else
      to_mem_loop fuel d s data base src dst (mem_offset + pkt_size) (residue - pkt_size) false
  end.

Definition download_firmware_to_mem (d : rtw_dev) (s : trx_state) (data : list Z) (base src dst size : Z)
    : prog (Z * trx_state) :=
  val ← hw_read32 REG_DDMA_CH0CTRL;
  hw_write32 REG_DDMA_CH0CTRL (val .| BIT_DDMACH0_RESET_CHKSUM_STS);;
  '(ret, s) ← to_mem_loop (Z.to_nat (size / max_size + 1)) d s data base src dst 0 size true;
  if nz ret then mret (ret, s) else
  ok ← check_fw_checksum dst;
  mret (if ok : bool then 0 else - EINVAL, s).

Definition start_download_firmware (d : rtw_dev) (s : trx_state) (data : list Z) : prog (Z * trx_state) :=
  '(dmem_size, imem_size, emem_size) ← fw_sizes data;
  val ← hw_read16 REG_MCUFW_CTRL;
  hw_write16 REG_MCUFW_CTRL ((val .& 0x3800) .| BIT_MCUFWDL_EN);;
  addr ← img32 data HDR_DMEM_ADDR;
  '(ret, s) ← download_firmware_to_mem d s data FW_HDR_SIZE 0 (addr .& .~ (BIT 31)) dmem_size;
  if nz ret then mret (ret, s) else
  addr ← img32 data HDR_IMEM_ADDR;
  '(ret, s) ← download_firmware_to_mem d s data (FW_HDR_SIZE + dmem_size) 0 (addr .& .~ (BIT 31)) imem_size;
  if nz ret then mret (ret, s) else
  if nz emem_size then
    addr ← img32 data HDR_EMEM_ADDR;
    download_firmware_to_mem d s data (FW_HDR_SIZE + dmem_size + imem_size) 0 (addr .& .~ (BIT 31)) emem_size
  else mret (0, s).

(** ** The whole download *)

Definition download_firmware_validate : prog Z :=
  ready ← check_hw_ready REG_MCUFW_CTRL FW_READY_MASK FW_READY;
  if ready : bool then mret 0
  else (_ ← hw_read32 REG_FW_DBG7; mret (- EINVAL)).

Definition download_firmware_end_flow : prog unit :=
  hw_write32 REG_TXDMA_STATUS BTI_PAGE_OVF;;
  fw_ctrl ← hw_read16 REG_MCUFW_CTRL;
  if negb ((fw_ctrl .& BIT_CHECK_SUM_OK) =? BIT_CHECK_SUM_OK) then mret tt
  else hw_write16 REG_MCUFW_CTRL ((fw_ctrl .| BIT_FW_DW_RDY) .& .~ BIT_MCUFWDL_EN).

Definition dlfw_fail (ret : Z) (d : rtw_dev) (s : trx_state) : prog (Z * rtw_dev * trx_state) :=
  rtw_write8_clr REG_MCUFW_CTRL BIT_MCUFWDL_EN;;
  rtw_write8_set (REG_SYS_FUNC_EN + 1) BIT_FEN_CPUEN;;
  mret (ret, d, s).

Definition download_firmware (d : rtw_dev) (s : trx_state) (data : list Z) : prog (Z * rtw_dev * trx_state) :=
  ok ← check_firmware_size data;
  if negb ok then mret (- EINVAL, d, s) else
  wlan_cpu_enable false;;
  bckp ← download_firmware_reg_backup;
  download_firmware_reset_platform;;
  '(ret, s) ← start_download_firmware d s data;
  if nz ret then dlfw_fail ret d s else
  rtw_restore_reg bckp;;
  download_firmware_end_flow;;
  wlan_cpu_enable true;;
  ret ← download_firmware_validate;
  if nz ret then dlfw_fail ret d s else
  s ← trx_reset d s;
  mret (0, set_bit RTW_FLAG_FW_RUNNING d, s).

(** ** The header of an image, read purely *)

Definition word_at (data : list Z) (off : nat) : Z :=
  word32 data.[off] data.[(off + 1)%nat] data.[(off + 2)%nat] data.[(off + 3)%nat].
Definition hdr_emem (data : list Z) : Z :=
  if nz (data.[24%nat] .& BIT 4) then word_at data 52 else 0.
(** Section sizes as the header means them, checksums included. *)
Definition dmem_len (data : list Z) : Z := word_at data 36 + FW_HDR_CHKSUM_SIZE.
Definition imem_len (data : list Z) : Z := word_at data 48 + FW_HDR_CHKSUM_SIZE.
Definition emem_len (data : list Z) : Z :=
  hdr_emem data + (if nz (hdr_emem data) then FW_HDR_CHKSUM_SIZE else 0).

(** The image adds up, in the integers. *)
Definition image_ok (data : list Z) : Prop :=
  bytes_ok data /\ (64 <= length data)%nat /\ Z.of_nat (length data) < 2 ^ 32 /\
  FW_HDR_SIZE + dmem_len data + imem_len data + emem_len data = Z.of_nat (length data).

Lemma word_at_range data off : bytes_ok data -> (off + 4 <= length data)%nat -> 0 <= word_at data off < 2 ^ 32.
Proof.
  intros Hb Hl. unfold word_at.
  assert (Hn : forall i, (i < length data)%nat -> byte_ok data.[i]).
  { intros i Hi. destruct (lookup_lt_is_Some_2 data i Hi) as [v Hv].
    rewrite (nth_lookup_Some data i 0 v Hv). by eapply Forall_lookup_1 in Hb. }
  apply word32_range; apply Hn; lia.
Qed.

Lemma take_drop4 (data : list Z) off : (off + 4 <= length data)%nat ->
  take 4 (drop off data) = [data.[off]; data.[(off + 1)%nat]; data.[(off + 2)%nat]; data.[(off + 3)%nat]].
Proof.
  intros Hl. apply list_eq. intros i. destruct (decide (i < 4)%nat) as [Hi|Hi].
  - rewrite lookup_take_lt, lookup_drop by done.
    destruct (lookup_lt_is_Some_2 data (off + i)) as [v Hv]; [lia|].
    pose proof (nth_lookup_Some data (off + i) 0 v Hv) as E. rewrite Hv, <- E.
    do 4 (destruct i as [|i]; [by rewrite ?Nat.add_0_r|]). lia.
  - rewrite lookup_take_ge by lia. symmetry. apply lookup_ge_None_2. cbn. lia.
Qed.

Lemma img32_ret data off : (off + 4 <= length data)%nat -> img32 data (Z.of_nat off) = mret (word_at data off).
Proof.
  intros Hl. unfold img32, img_bytes. rewrite rd_bytes_Some by lia. rewrite Nat2Z.id.
  change (Z.to_nat 4) with 4%nat. by rewrite take_drop4.
Qed.
Lemma img8_ret data off : (off < length data)%nat -> img8 data (Z.of_nat off) = mret data.[off].
Proof.
  intros Hl. unfold img8, img_bytes. rewrite rd_bytes_Some by lia. rewrite Nat2Z.id.
  destruct (lookup_lt_is_Some_2 data off Hl) as [v Hv]. rewrite (nth_lookup_Some data off 0 v Hv).
  change (Z.to_nat 1) with 1%nat. rewrite (drop_S data v off Hv). done.
Qed.

Lemma fw_sizes_ret data : image_ok data ->
  fw_sizes data = mret (dmem_len data, imem_len data, emem_len data).
Proof.
  intros (Hb & Hl & Hw & Hsum). unfold fw_sizes.
  pose proof (word_at_range data 36 Hb ltac:(lia)). pose proof (word_at_range data 48 Hb ltac:(lia)).
  pose proof (word_at_range data 52 Hb ltac:(lia)).
  change HDR_DMEM_SIZE with (Z.of_nat 36). change HDR_IMEM_SIZE with (Z.of_nat 48).
  change HDR_MEM_USAGE with (Z.of_nat 24). change HDR_EMEM_SIZE with (Z.of_nat 52).
  rewrite !img32_ret, img8_ret by lia.
  unfold dmem_len, imem_len, emem_len, hdr_emem, FW_HDR_SIZE, FW_HDR_CHKSUM_SIZE in *.
  cbn [mbind prog_mbind prog_bind mret prog_ret].
  destruct (nz (data.[24%nat] .& BIT 4)); cbn [mbind prog_mbind prog_bind mret prog_ret] in *.
  - destruct (nz (word_at data 52)) eqn:E; rewrite ?E in *; by rewrite !u32_small by lia.
  - change (nz 0) with false in *. cbn iota in *. by rewrite !u32_small by lia.
Qed.

Lemma check_firmware_size_ret data : image_ok data -> check_firmware_size data = mret true.
Proof.
  intros Hi. unfold check_firmware_size. rewrite (fw_sizes_ret data Hi).
  cbn [mbind prog_mbind prog_bind mret prog_ret]. destruct Hi as (_ & _ & Hw & Hsum).
  rewrite Hsum, u32_small by lia. by rewrite Z.eqb_refl.
Qed.

(** The three sections tile the image after its header. *)
Lemma image_sections data : image_ok data ->
  8 <= dmem_len data /\ 8 <= imem_len data /\ 0 <= emem_len data /\
  FW_HDR_SIZE + dmem_len data + imem_len data + emem_len data = Z.of_nat (length data) /\
  Z.of_nat (length data) < 2 ^ 32.
Proof.
  intros (Hb & Hl & Hw & Hsum).
  pose proof (word_at_range data 36 Hb ltac:(lia)). pose proof (word_at_range data 48 Hb ltac:(lia)).
  pose proof (word_at_range data 52 Hb ltac:(lia)).
  unfold dmem_len, imem_len, emem_len, hdr_emem, FW_HDR_CHKSUM_SIZE in *.
  destruct (nz (data.[24%nat] .& BIT 4)); repeat case_match; lia.
Qed.

(** The bytes of the image from [off], [n] of them. *)
Definition section (data : list Z) (off n : Z) : list Z := take (Z.to_nat n) (drop (Z.to_nat off) data).

Lemma section_length data off n : 0 <= off -> 0 <= n -> off + n <= Z.of_nat (length data) ->
  Z.of_nat (length (section data off n)) = n.
Proof. intros. unfold section. rewrite length_take, length_drop. lia. Qed.

Lemma section_0 data off : section data off 0 = [].
Proof. apply take_0. Qed.

Lemma img_bytes_ret data off n : 0 <= off -> 0 <= n -> off + n <= Z.of_nat (length data) ->
  img_bytes data off n = mret (section data off n).
Proof. intros. unfold img_bytes. by rewrite rd_bytes_Some. Qed.

(** ** Memory safety *)

(** [safe_go] with the polls and the code the components share. *)
Ltac fw_go := repeat first [safe_step | apply check_ready_safe; [done|done]].

Lemma restore_regs P l : (forall w a v, P (Write w a v) = true) -> safe P (rtw_restore_reg l) (fun _ => True).
Proof.
  intros HP. induction l as [|[[len reg] val] l IH]; [by apply safe_ret|]. cbn [rtw_restore_reg].
  apply safe_bind_any; [|intros _; exact IH].
  repeat (destruct (_ =? _); [first [by apply safe_write8|by apply safe_write16|by apply safe_write32]|]).
  by apply safe_ret.
Qed.

Section Safe.
Context (d : rtw_dev) (data : list Z) (m : gmap Z Z) (Hd : trx_chip d).

Definition fw_post (x : Z * trx_state) (m' : gmap Z Z) : Prop := m' = m /\ trx_up x.2 m.

Lemma rsvd_page_safe s pg buf : trx_up s m -> Z.of_nat (length buf) < 2 ^ 31 ->
  mem_safe (rtw_fw_write_data_rsvd_page d s pg buf) m fw_post.
Proof.
  intros Hs Hb. unfold rtw_fw_write_data_rsvd_page.
  destruct (length buf =? 0)%nat; [by apply mem_safe_ret|].
  do 7 (apply mem_safe_bind_regs; [by fw_go|intros ?]).
  eapply mem_safe_bind; [by apply rsvd_safe|]. intros [ret s'] m' (-> & Hs' & _).
  do 5 (apply mem_safe_bind_regs; [by fw_go|intros ?]). by apply mem_safe_ret.
Qed.

Lemma send_pkt_safe s pg off n : trx_up s m ->
  0 <= off -> 0 <= n < 2 ^ 31 -> off + n <= Z.of_nat (length data) ->
  mem_safe (send_firmware_pkt d s pg data off n) m fw_post.
Proof.
  intros Hs Ho Hn Hl. unfold send_firmware_pkt.
  apply mem_safe_bind_regs; [by apply (safe_op _ (Malloc n) (fun _ => True))|]. intros ok.
  destruct (negb ok); [by apply mem_safe_ret|].
  rewrite img_bytes_ret by lia. cbn [mbind prog_mbind prog_bind mret prog_ret].
  apply rsvd_page_safe; [done|]. rewrite section_length by lia. lia.
Qed.

Lemma iddma_safe P src dst len first :
  (forall w a v, P (Write w a v) = true) -> (forall w a, P (Read w a) = true) -> (forall u, P (Udelay u) = true) ->
  safe P (iddma_download_firmware src dst len first) (fun _ => True).
Proof.
  intros Hw Hr Hu. unfold iddma_download_firmware, iddma_enable.
  apply safe_bind_any; [by apply check_ready_safe|]. intros ready. destruct (negb ready); [by apply safe_ret|].
  apply safe_bind_any; [|intros ?; by apply safe_ret].
  do 3 (apply safe_bind_any; [by apply safe_write32|intros _]).
  apply safe_bind_any; [by apply check_ready_safe|intros ?; by apply safe_ret].
Qed.

Lemma to_mem_loop_safe base src dst fuel : forall s mem_offset residue first,
  trx_up s m -> 0 <= base -> 0 <= mem_offset -> 0 <= residue ->
  residue <= max_size * Z.of_nat fuel -> base + mem_offset + residue <= Z.of_nat (length data) ->
  mem_safe (to_mem_loop fuel d s data base src dst mem_offset residue first) m fw_post.
Proof.
  induction fuel as [|fuel IH]; intros s mo res first Hs Hb Hmo Hres Hf Hl; cbn [to_mem_loop];
    (destruct (Z.eqb_spec res 0) as [->|Hne]; [by apply mem_safe_ret|]); [lia|].
  unfold max_size in *. set (n := if 4096 <=? res then 4096 else res).
  assert (Hn : 0 < n <= res /\ n <= 4096 /\ (n < 4096 -> n = res)) by (unfold n; case_bool; lia).
  eapply mem_safe_bind; [apply send_pkt_safe; [done|lia..]|]. intros [ret s'] m' [-> Hs']. cbn [snd] in *.
  destruct (nz ret); [by apply mem_safe_ret|].
  apply mem_safe_bind_regs; [by apply iddma_safe|]. intros ret'. destruct (nz ret'); [by apply mem_safe_ret|].
  apply IH; try done; lia.
Qed.

Lemma to_mem_safe s base src dst size : trx_up s m -> 0 <= base -> 0 <= size ->
  base + size <= Z.of_nat (length data) ->
  mem_safe (download_firmware_to_mem d s data base src dst size) m fw_post.
Proof.
  intros Hs Hb Hsz Hl. unfold download_firmware_to_mem.
  do 2 (apply mem_safe_bind_regs; [by safe_go|intros ?]).
  eapply mem_safe_bind.
  { apply to_mem_loop_safe; try done; [|lia]. unfold max_size.
    rewrite Z2Nat.id by (pose proof (Z.div_pos size 4096); lia).
    pose proof (Z.mul_succ_div_gt size 4096). lia. }
  intros [ret s'] m' [-> Hs']. cbn [snd] in *. destruct (nz ret); [by apply mem_safe_ret|].
  apply mem_safe_bind_regs; [unfold check_fw_checksum; by safe_go|]. intros ok. by apply mem_safe_ret.
Qed.

(** The header reads of an image that adds up. *)
Lemma img32_at off : image_ok data -> (off + 4 <= 64)%nat -> img32 data (Z.of_nat off) = mret (word_at data off).
Proof. intros (_ & Hl & _) Ho. apply img32_ret. lia. Qed.

Lemma start_safe s : trx_up s m -> image_ok data -> mem_safe (start_download_firmware d s data) m fw_post.
Proof.
  intros Hs Hi. unfold start_download_firmware. rewrite (fw_sizes_ret data Hi).
  destruct (image_sections data Hi) as (H1 & H2 & H3 & H4 & H5). unfold FW_HDR_SIZE in *.
  cbn [mbind prog_mbind prog_bind mret prog_ret].
  do 2 (apply mem_safe_bind_regs; [by safe_go|intros ?]).
  change HDR_DMEM_ADDR with (Z.of_nat 32). change HDR_IMEM_ADDR with (Z.of_nat 60).
  change HDR_EMEM_ADDR with (Z.of_nat 56).
  rewrite (img32_at 32 Hi), (img32_at 60 Hi), (img32_at 56 Hi) by lia.
  cbn [mbind prog_mbind prog_bind mret prog_ret].
  eapply mem_safe_bind; [apply to_mem_safe; [done|lia..]|]. intros [ret s1] m' [-> Hs1].
  destruct (nz ret); [by apply mem_safe_ret|].
  eapply mem_safe_bind; [apply to_mem_safe; [done|lia..]|]. intros [ret2 s2] m' [-> Hs2].
  destruct (nz ret2); [by apply mem_safe_ret|].
  destruct (nz (emem_len data)); [|by apply mem_safe_ret].
  apply to_mem_safe; [done|lia..].
Qed.
End Safe.

(** What a download leaves: the rings as they were, and the running flag set
    exactly on success. *)
Definition dl_post (d : rtw_dev) (m : gmap Z Z) (x : Z * rtw_dev * trx_state) (m' : gmap Z Z) : Prop :=
  m' = m /\ trx_up x.2 m /\
  ((x.1.1 = 0 /\ x.1.2 = set_bit RTW_FLAG_FW_RUNNING d) \/ (x.1.1 <> 0 /\ x.1.2 = d)).

Lemma nz_true z : nz z = true -> z <> 0.
Proof. unfold nz. intros H ->. done. Qed.
Lemma nz_false z : nz z = false -> z = 0.
Proof. unfold nz. intros H. lia. Qed.

Lemma dlfw_fail_safe d s m ret : trx_up s m -> nz ret = true -> mem_safe (dlfw_fail ret d s) m (dl_post d m).
Proof.
  intros Hs Hr. unfold dlfw_fail. do 2 (apply mem_safe_bind_regs; [by safe_go|intros ?]).
  apply mem_safe_ret. split_and!; [done|done|]. right. split; [by apply nz_true|done].
Qed.

Lemma download_firmware_mem (d : rtw_dev) (s : trx_state) (data : list Z) (m : gmap Z Z) :
  trx_chip d -> trx_up s m -> image_ok data ->
  mem_safe (download_firmware d s data) m (dl_post d m).
Proof.
  intros Hd Hs Hi. unfold download_firmware. rewrite (check_firmware_size_ret data Hi).
  cbn [mbind prog_mbind prog_bind mret prog_ret negb].
  apply mem_safe_bind_regs; [unfold wlan_cpu_enable; by safe_go|intros ?].
  apply mem_safe_bind_regs; [unfold download_firmware_reg_backup; by safe_go|intros bckp].
  apply mem_safe_bind_regs; [unfold download_firmware_reset_platform; by safe_go|intros ?].
  eapply mem_safe_bind; [by apply start_safe|]. intros [ret s1] m' [-> Hs1]. cbn [snd] in *.
  destruct (nz ret) eqn:E1; [by apply dlfw_fail_safe|].
  apply mem_safe_bind_regs; [by apply restore_regs|intros ?].
  apply mem_safe_bind_regs; [unfold download_firmware_end_flow; by safe_go|intros ?].
  apply mem_safe_bind_regs; [unfold wlan_cpu_enable; by safe_go|intros ?].
  apply mem_safe_bind_regs; [unfold download_firmware_validate; by fw_go|intros ret2].
  destruct (nz ret2) eqn:E2; [by apply dlfw_fail_safe|].
  eapply mem_safe_bind; [by apply reset_safe|]. intros s2 m' (-> & Hs2 & _). apply mem_safe_ret.
  split_and!; [done|done|by left].
Qed.

(** With the rings up and an image whose header adds up, a download reads
    the image inside its bounds only, touches no memory outside the live
    buffers, ends on every device, keeps the rings' invariant, and sets the
    running flag exactly when it returns 0. *)
Theorem download_firmware_safe (d : rtw_dev) (s : trx_state) (data : list Z) (m : gmap Z Z) :
  trx_chip d -> trx_up s m -> image_ok data ->
  mem_safe (download_firmware d s data) m (dl_post d m).
Proof. apply download_firmware_mem. Qed.

(** ** Placement *)

(** The transfers a run has programmed.  [dl_pkt]: the payload last written into
    the packet buffer (after the 48-byte descriptor); [dl_sent]: the one the
    beacon doorbell was last rung for; then the engine's source and destination
    and, for each start of the engine, where it was told to put which payload. *)
Record dl_log := DlLog { dl_pkt : list Z; dl_sent : list Z; dl_sa : Z; dl_da : Z; dl_out : list (Z * list Z) }.
Definition dl_log0 : dl_log := DlLog [] [] 0 0 [].

(** The engine is started by a control word that owns the channel and does not
    reset the checksum.  The monitor refuses a start whose source is not the
    payload in the transmit buffer or whose length is not the payload's. *)
Definition dl_mon (h : Z) (l : dl_log) (o : hwop) : hwres o -> option dl_log :=
  match o as o return hwres o -> option dl_log with
  | MemWrite h' off bs => fun _ =>
      Some (if (h' =? h) && (off =? 48) then DlLog bs (dl_sent l) (dl_sa l) (dl_da l) (dl_out l) else l)
  | Write W8 a v => fun _ =>
      Some (if (a =? RTK_PCI_TXBD_BCN_WORK) && nz (v .& BIT_PCI_BCNQ_FLAG)
            then DlLog (dl_pkt l) (dl_pkt l) (dl_sa l) (dl_da l) (dl_out l) else l)
  | Write W32 a v => fun _ =>
      if a =? REG_DDMA_CH0SA then Some (DlLog (dl_pkt l) (dl_sent l) v (dl_da l) (dl_out l))
      else if a =? REG_DDMA_CH0DA then Some (DlLog (dl_pkt l) (dl_sent l) (dl_sa l) v (dl_out l))
      else if (a =? REG_DDMA_CH0CTRL) && nz (v .& BIT_DDMACH0_OWN)
              && negb (nz (v .& BIT_DDMACH0_RESET_CHKSUM_STS)) then
        if (dl_sa l =? OCPBASE_TXBUF_88XX + 48) && (v .& BIT_MASK_DDMACH0_DLEN =? Z.of_nat (length (dl_sent l)))
        then Some (DlLog (dl_pkt l) (dl_sent l) (dl_sa l) (dl_da l) (dl_out l ++ [(dl_da l, dl_sent l)]))
        else None
      else Some l
  | _ => fun _ => Some l
  end.

(** A section in chunks of at most [max_size], each with its address. *)
Fixpoint chunks (fuel : nat) (dst : Z) (off : Z) (bs : list Z) : list (Z * list Z) :=
  match bs, fuel with
  | [], _ | _, O => []
  | _, S fuel =>
      let n := Z.to_nat max_size in
      (u32 (dst + off), take n bs) :: chunks fuel dst (off + max_size) (drop n bs)
  end.
Definition section_chunks (dst : Z) (bs : list Z) : list (Z * list Z) :=
  chunks (S (length bs / Z.to_nat max_size)) dst 0 bs.

(** The sections of an image with the addresses of its header. *)
Definition image_sections_at (data : list Z) : list (Z * list Z) :=
  [(word_at data 32 .& .~ (BIT 31), section data FW_HDR_SIZE (dmem_len data));
   (word_at data 60 .& .~ (BIT 31), section data (FW_HDR_SIZE + dmem_len data) (imem_len data));
   (word_at data 56 .& .~ (BIT 31), section data (FW_HDR_SIZE + dmem_len data + imem_len data) (emem_len data))].

(** Calls the monitor does not react to. *)
Definition dl_quiet (o : hwop) : bool :=
  match o with
  | Read _ _ | Udelay _ | Malloc _ | Write W16 _ _ | Fault | MemSet _ _ _ _ | RegWriteDma _ _ _ _ => true
  | MemWrite _ off _ => negb (off =? 48)
  | Write W8 a _ => negb (a =? RTK_PCI_TXBD_BCN_WORK)
  | Write W32 a v => negb ((a =? REG_DDMA_CH0SA) || (a =? REG_DDMA_CH0DA) ||
      ((a =? REG_DDMA_CH0CTRL) && negb (nz (v .& BIT_DDMACH0_RESET_CHKSUM_STS))))
  | _ => false
  end.

Lemma dl_quiet_frame h l o r : dl_quiet o = true -> dl_mon h l o r = Some l.
Proof.
  destruct o as [|w a v| | | | | | |h' off bs| | | | | | | | | | | | | |]; try done.
  - destruct w; cbn; [| done|].
    + by destruct (a =? RTK_PCI_TXBD_BCN_WORK).
    + destruct (a =? REG_DDMA_CH0SA); [done|]. destruct (a =? REG_DDMA_CH0DA); [done|].
      destruct (a =? REG_DDMA_CH0CTRL); [|done].
      destruct (nz (v .& BIT_DDMACH0_RESET_CHKSUM_STS)); [|done].
      by destruct (nz (v .& BIT_DDMACH0_OWN)).
  - cbn. destruct (off =? 48); [done|]. by rewrite andb_false_r.
Qed.

Lemma dl_bind_quiet h {A B} (f : A -> prog B) (p : prog A) l Q :
  safe dl_quiet p (fun _ => True) -> (forall x, wp (dl_mon h) (f x) l Q) -> wp (dl_mon h) (p ≫= f) l Q.
Proof.
  intros Hp Hf. apply wp_bind. eapply wp_mono; [eapply wp_safe_frame; [apply dl_quiet_frame|exact Hp]|].
  intros x l' [-> _]. apply Hf.
Qed.

(** The engine's control word: it starts the channel and carries the length. *)
Lemma u32_land v k : k .& Z.ones 32 = k -> u32 v .& k = v .& k.
Proof. intros Hk. unfold wrap. rewrite <- Z.land_ones by done. by rewrite <- Z.land_assoc, (Z.land_comm _ k), Hk. Qed.

Lemma ddma_ctrl n (first : bool) : 0 <= n < 2 ^ 18 ->
  let c := (BIT_DDMACH0_CHKSUM_EN .| BIT_DDMACH0_OWN) .| (n .& BIT_MASK_DDMACH0_DLEN) in
  let v := u32 (if first then c else c .| BIT_DDMACH0_CHKSUM_CONT) in
  nz (v .& BIT_DDMACH0_OWN) = true /\ nz (v .& BIT_DDMACH0_RESET_CHKSUM_STS) = false /\
  v .& BIT_MASK_DDMACH0_DLEN = n.
Proof.
  intros Hn c v. unfold v. rewrite !u32_land by done. clear v.
  assert (Hl : n .& BIT_MASK_DDMACH0_DLEN = n).
  { change BIT_MASK_DDMACH0_DLEN with (Z.ones 18). rewrite Z.land_ones by done. by apply Z.mod_small. }
  unfold c. rewrite Hl. clear c.
  assert (H1 : n .& BIT_DDMACH0_OWN = 0) by (rewrite <- Hl, <- Z.land_assoc; apply Z.land_0_r).
  assert (H2 : n .& BIT_DDMACH0_RESET_CHKSUM_STS = 0) by (rewrite <- Hl, <- Z.land_assoc; apply Z.land_0_r).
  destruct first; rewrite !Z.land_lor_distr_l, H1, H2, Hl, ?Z.lor_0_r; (split; [done|split; [done|]]);
    apply Z.lor_0_l.
Qed.

Lemma reset_bit v : nz ((u32 (v .| BIT_DDMACH0_RESET_CHKSUM_STS)) .& BIT_DDMACH0_RESET_CHKSUM_STS) = true.
Proof.
  apply negb_true_iff, Z.eqb_neq. intros E. apply (f_equal (fun z => Z.testbit z 25)) in E.
  rewrite Z.land_spec, wrap_testbit, Z.lor_spec in E by lia.
  change (Z.testbit BIT_DDMACH0_RESET_CHKSUM_STS 25) with true in E. by rewrite orb_true_r in E.
Qed.

Section Placed.
Context (d : rtw_dev) (data : list Z) (m : gmap Z Z) (Hd : trx_chip d) (h : Z).

(** The rings are up and the packet buffer is the one the monitor watches. *)
Definition dl_up (s : trx_state) : Prop := trx_up s m /\ d_handle (g_pkt s) = h.

Definition sent_log (buf : list Z) (l : dl_log) : dl_log := DlLog buf buf (dl_sa l) (dl_da l) (dl_out l).
Definition send_post (buf : list Z) (l : dl_log) (x : Z * trx_state) (l' : dl_log) : Prop :=
  dl_up x.2 /\ (x.1 = 0 -> l' = sent_log buf l).

Lemma mem_set_quiet b off n v : safe dl_quiet (mem_set b off n v) (fun _ => True).
Proof. by apply safe_mem_set. Qed.
Lemma put_w_quiet s i v : (i =? 12) = false -> safe dl_quiet (put_w s i v) (fun _ => True).
Proof.
  intros Hi. unfold put_w, mem_write. destruct (d_mapped _); [|by apply safe_fault].
  apply (safe_op _ (MemWrite _ _ _) (fun _ => True)); [|done]. cbn [dl_quiet].
  destruct (Z.eqb_spec (4 * i) 48); [lia|done].
Qed.

Lemma work_flag work : nz ((u8 (work .| u8 BIT_PCI_BCNQ_FLAG)) .& BIT_PCI_BCNQ_FLAG) = true.
Proof.
  apply negb_true_iff, Z.eqb_neq. intros E. apply (f_equal (fun z => Z.testbit z 4)) in E.
  rewrite Z.land_spec, wrap_testbit, Z.lor_spec in E by lia.
  change (Z.testbit (u8 BIT_PCI_BCNQ_FLAG) 4) with true in E.
  change (Z.testbit BIT_PCI_BCNQ_FLAG 4) with true in E. by rewrite orb_true_r in E.
Qed.

Lemma rsvd_placed s buf l : dl_up s ->
  wp (dl_mon h) (trx_write_data_rsvd_page d s buf) l (send_post buf l).
Proof.
  intros [Hs Hh]. unfold trx_write_data_rsvd_page. rewrite (tc_desc d Hd).
  pose proof (up_set_ring s m RTW_TX_QUEUE_BCN (10240, 1) 0 0 Hs eq_refl ltac:(simpl; lia)) as Hs'.
  destruct (_ <? _); [by apply wp_ret|].
  apply dl_bind_quiet; [apply mem_set_quiet|intros _].
  apply wp_bind. unfold mem_write. destruct (tu_pkt s m Hs) as (-> & _). intros r.
  cbn [dl_mon]. rewrite Hh, !Z.eqb_refl. cbn [andb wp mret prog_ret].
  do 3 (apply dl_bind_quiet; [by apply put_w_quiet|intros _]).
  apply dl_bind_quiet.
  { unfold bd_write. destruct (ring_up _ m RTW_TX_QUEUE_BCN (10240, 1) Hs' eq_refl) as (E & _). rewrite E.
    by apply (safe_op _ (MemWrite _ _ _)). }
  intros _. apply dl_bind_quiet; [by safe_go|intros work].
  apply wp_bind. intros ?. cbn [dl_mon]. rewrite work_flag, Z.eqb_refl. cbn [andb wp mret prog_ret].
  by split.
Qed.

Lemma rsvd_page_placed s pg buf l : dl_up s ->
  wp (dl_mon h) (rtw_fw_write_data_rsvd_page d s pg buf) l (send_post buf l).
Proof.
  intros Hs. unfold rtw_fw_write_data_rsvd_page. destruct (length buf =? 0)%nat; [by apply wp_ret|].
  do 7 (apply dl_bind_quiet; [by safe_go|intros ?]).
  apply wp_bind. eapply wp_mono; [by apply rsvd_placed|]. intros [ret s'] l' [Hs' Hl']. cbn [fst snd] in *.
  destruct (nz ret) eqn:E.
  - cbn [mbind prog_mbind prog_bind mret prog_ret].
    do 4 (apply dl_bind_quiet; [by safe_go|intros ?]). apply wp_ret. split; [done|]. cbn [fst].
    intros ->. done.
  - apply nz_false in E. specialize (Hl' E). subst l'.
    do 5 (apply dl_bind_quiet; [by fw_go|intros ?]). by apply wp_ret.
Qed.

Lemma send_pkt_placed s pg off n l : dl_up s ->
  0 <= off -> 0 <= n -> off + n <= Z.of_nat (length data) ->
  wp (dl_mon h) (send_firmware_pkt d s pg data off n) l (send_post (section data off n) l).
Proof.
  intros Hs Ho Hn Hl. unfold send_firmware_pkt.
  apply dl_bind_quiet; [by apply (safe_op _ (Malloc n) (fun _ => True))|]. intros ok.
  destruct (negb ok); [by apply wp_ret|].
  rewrite img_bytes_ret by lia. cbn [mbind prog_mbind prog_bind mret prog_ret].
  by apply rsvd_page_placed.
Qed.

Lemma dl_step32 {A} a v l l' (f : unit -> prog A) Q :
  dl_mon h l (Write W32 a (u32 v)) tt = Some l' -> wp (dl_mon h) (f tt) l' Q ->
  wp (dl_mon h) (hw_write32 a v ≫= f) l Q.
Proof. intros Hl Hf. apply wp_bind. intros []. by rewrite Hl. Qed.

(** A start of the engine the monitor accepts. *)
Lemma dl_start l ctrl :
  nz (u32 ctrl .& BIT_DDMACH0_OWN) = true -> nz (u32 ctrl .& BIT_DDMACH0_RESET_CHKSUM_STS) = false ->
  dl_sa l = OCPBASE_TXBUF_88XX + 48 -> u32 ctrl .& BIT_MASK_DDMACH0_DLEN = Z.of_nat (length (dl_sent l)) ->
  dl_mon h l (Write W32 REG_DDMA_CH0CTRL (u32 ctrl)) tt =
    Some (DlLog (dl_pkt l) (dl_sent l) (dl_sa l) (dl_da l) (dl_out l ++ [(dl_da l, dl_sent l)])).
Proof.
  intros H1 H2 H3 H4. cbn [dl_mon]. change (REG_DDMA_CH0CTRL =? REG_DDMA_CH0SA) with false.
  change (REG_DDMA_CH0CTRL =? REG_DDMA_CH0DA) with false.
  by rewrite H1, H2, H3, H4, !Z.eqb_refl.
Qed.

Lemma iddma_placed dst n first l : 0 <= n < 2 ^ 18 -> Z.of_nat (length (dl_sent l)) = n ->
  wp (dl_mon h) (iddma_download_firmware (u32 (OCPBASE_TXBUF_88XX + 0 + tx_pkt_desc_sz (chip d))) dst n first) l
    (fun ret l' => ret = 0 -> dl_sent l' = dl_sent l /\ dl_out l' = dl_out l ++ [(u32 dst, dl_sent l)]).
Proof.
  intros Hn Hl. unfold iddma_download_firmware, iddma_enable. rewrite (tc_desc d Hd).
  destruct (ddma_ctrl n first Hn) as (H1 & H2 & H3).
  set (ctrl := if first then _ else _) in *. clearbody ctrl.
  apply dl_bind_quiet; [by apply check_ready_safe|]. intros ready.
  destruct (negb ready); [by apply wp_ret|].
  apply wp_bind.
  eapply dl_step32; [done|]. eapply dl_step32; [done|]. eapply dl_step32.
  { apply (dl_start _ ctrl H1 H2); [done|]. cbn [dl_sent]. by rewrite H3. }
  cbn [dl_da dl_out dl_sent dl_pkt dl_sa]. apply dl_bind_quiet; [by apply check_ready_safe|]. intros ok.
  apply wp_ret. cbn [wp]. intros _. done.
Qed.

(** A chunk of the section, and what is left of it. *)
Lemma section_chunk base res n : n = (if max_size <=? res then max_size else res) -> 0 <= base -> 0 < res ->
  base + res <= Z.of_nat (length data) ->
  section data base n = take (Z.to_nat max_size) (section data base res) /\
  section data (base + n) (res - n) = drop (Z.to_nat max_size) (section data base res).
Proof.
  intros -> Hb Hr Hl. unfold section. rewrite skipn_firstn_comm, drop_drop, take_take.
  replace (Z.to_nat base + Z.to_nat max_size)%nat with (Z.to_nat (base + max_size)) by (unfold max_size; lia).
  destruct (Z.leb_spec max_size res) as [H|H]; unfold max_size in *.
  - split; [by rewrite Nat.min_l by lia|]. f_equal. lia.
  - split; [by rewrite Nat.min_r by lia|]. replace (Z.to_nat res - Z.to_nat 4096)%nat with 0%nat by lia.
    by replace (Z.to_nat (res - res)) with 0%nat by lia.
Qed.

Definition out_post (cs : list (Z * list Z)) (l : dl_log) (x : Z * trx_state) (l' : dl_log) : Prop :=
  dl_up x.2 /\ (x.1 = 0 -> dl_out l' = dl_out l ++ cs).

Lemma chunks_nil fuel dst off : chunks fuel dst off [] = [].
Proof. by destruct fuel. Qed.

Lemma to_mem_loop_placed base dst fuel : forall s mo res first l,
  dl_up s -> 0 <= base -> 0 <= mo -> 0 <= res ->
  res <= max_size * Z.of_nat fuel -> base + mo + res <= Z.of_nat (length data) ->
  wp (dl_mon h) (to_mem_loop fuel d s data base 0 dst mo res first) l
    (out_post (chunks fuel dst mo (section data (base + mo) res)) l).
Proof.
  induction fuel as [|fuel IH]; intros s mo res first l Hs Hb Hmo Hres Hf Hl; cbn [to_mem_loop].
  all: destruct (Z.eqb_spec res 0) as [->|Hne];
    [apply wp_ret; split; [done|]; intros _; unfold section; by rewrite take_0, chunks_nil, app_nil_r|].
  { unfold max_size in *. lia. }
  set (n := if max_size <=? res then max_size else res).
  assert (Hn : 0 < n <= res /\ n <= 4096 /\ (n < 4096 -> n = res)) by (unfold n, max_size; case_bool; lia).
  destruct (section_chunk (base + mo) res n eq_refl ltac:(lia) ltac:(lia) Hl) as [E1 E2].
  assert (El : Z.of_nat (length (section data (base + mo) n)) = n) by (apply section_length; lia).
  apply wp_bind. eapply wp_mono; [apply send_pkt_placed; [done|lia..]|].
  intros [ret s1] l1 [Hs1 Hl1]. cbn [fst snd] in *.
  destruct (nz ret) eqn:E; [apply wp_ret; split; [done|]; cbn [fst]; by intros ->|].
  apply nz_false in E. specialize (Hl1 E). subst l1.
  apply wp_bind. eapply wp_mono; [apply iddma_placed; [lia|done]|]. intros ret2 l2 Hl2.
  destruct (nz ret2) eqn:E2'; [apply wp_ret; split; [done|]; cbn [fst]; by intros ->|].
  apply nz_false in E2'. destruct (Hl2 E2') as [_ Ho]. cbn [dl_out dl_sent sent_log] in Ho.
  eapply wp_mono; [apply IH; [done|lia|lia|lia|unfold max_size in *; lia|lia]|].
  intros [ret3 s3] l3 [Hs3 Hl3]. split; [done|]. cbn [fst snd] in *. intros H0. rewrite (Hl3 H0), Ho, <- app_assoc.
  f_equal. rewrite Z.add_assoc, E2, E1.
  assert (Hd0 : n <> max_size -> drop (Z.to_nat max_size) (section data (base + mo) res) = []).
  { intros Hm. rewrite <- E2. replace (res - n) with 0 by (unfold max_size in *; lia). unfold section. by rewrite take_0. }
  assert (Hne' : section data (base + mo) res <> []).
  { intros E'. pose proof (section_length data (base + mo) res). rewrite E' in *. cbn in *. lia. }
  destruct (section data (base + mo) res) as [|b bs] eqn:Eb; [done|]. cbn [chunks app].
  rewrite wrap_wrap by done. f_equal.
  destruct (Z.eq_dec n max_size) as [->|Hm]; [done|]. by rewrite (Hd0 Hm), !chunks_nil.
Qed.

Lemma to_mem_placed s base dst size l : dl_up s -> 0 <= base -> 0 <= size ->
  base + size <= Z.of_nat (length data) ->
  wp (dl_mon h) (download_firmware_to_mem d s data base 0 dst size) l
    (out_post (section_chunks dst (section data base size)) l).
Proof.
  intros Hs Hb Hsz Hl. unfold download_firmware_to_mem.
  apply dl_bind_quiet; [by safe_go|intros val].
  apply wp_bind. intros []. rewrite dl_quiet_frame.
  2:{ cbn [dl_quiet]. rewrite reset_bit. done. }
  cbn [wp mret prog_ret]. pose proof (Z.mul_succ_div_gt size 4096). pose proof (Z.div_pos size 4096).
  apply wp_bind. eapply wp_mono; [apply to_mem_loop_placed; [done|lia|lia|lia|unfold max_size; lia|lia]|].
  intros [ret s1] l1 [Hs1 Hl1]. cbn [fst snd] in *.
  destruct (nz ret) eqn:E; [apply wp_ret; split; [done|]; cbn [fst]; by intros ->|].
  apply nz_false in E. specialize (Hl1 E).
  apply dl_bind_quiet; [unfold check_fw_checksum; by safe_go|]. intros ok. apply wp_ret. split; [done|].
  intros _. rewrite Hl1. f_equal. unfold section_chunks. rewrite Z.add_0_r. f_equal.
  pose proof (section_length data base size Hb Hsz Hl) as E2.
  change (Z.to_nat max_size) with 4096%nat. change max_size with 4096.
  rewrite <- E2 at 1. rewrite (Z2Nat.inj_add _ 1) by (try apply Z.div_pos; lia).
  change 4096 with (Z.of_nat 4096). rewrite <- Nat2Z.inj_div, Nat2Z.id. lia.
Qed.

Lemma start_placed s l : dl_up s -> image_ok data ->
  wp (dl_mon h) (start_download_firmware d s data) l
    (out_post (concat (map (fun '(a, bs) => section_chunks a bs) (image_sections_at data))) l).
Proof.
  intros Hs Hi. unfold start_download_firmware. rewrite (fw_sizes_ret data Hi).
  destruct (image_sections data Hi) as (H1 & H2 & H3 & H4 & H5). unfold image_sections_at, FW_HDR_SIZE in *.
  cbn [mbind prog_mbind prog_bind mret prog_ret map concat].
  do 2 (apply dl_bind_quiet; [by safe_go|intros ?]).
  change HDR_DMEM_ADDR with (Z.of_nat 32). change HDR_IMEM_ADDR with (Z.of_nat 60).
  change HDR_EMEM_ADDR with (Z.of_nat 56).
  rewrite (img32_at data 32 Hi), (img32_at data 60 Hi), (img32_at data 56 Hi) by lia.
  cbn [mbind prog_mbind prog_bind mret prog_ret].
  apply wp_bind. eapply wp_mono; [apply to_mem_placed; [done|lia..]|]. intros [ret s1] l1 [Hs1 Hl1]. cbn [fst snd] in *.
  destruct (nz ret) eqn:E; [apply wp_ret; split; [done|]; cbn [fst]; by intros ->|].
  apply nz_false in E. specialize (Hl1 E).
  apply wp_bind. eapply wp_mono; [apply to_mem_placed; [done|lia..]|]. intros [ret2 s2] l2 [Hs2 Hl2]. cbn [fst snd] in *.
  destruct (nz ret2) eqn:E2; [apply wp_ret; split; [done|]; cbn [fst]; by intros ->|].
  apply nz_false in E2. specialize (Hl2 E2). rewrite Hl1 in Hl2.
  destruct (nz (emem_len data)) eqn:E3.
  - eapply wp_mono; [apply to_mem_placed; [done|lia..]|]. intros [ret3 s3] l3 [Hs3 Hl3]. split; [done|].
    intros H0. rewrite (Hl3 H0), Hl2. by rewrite <- !app_assoc, app_nil_r.
  - apply wp_ret. split; [done|]. intros _. rewrite Hl2. apply nz_false in E3. rewrite E3.
    rewrite (section_0 data). change (section_chunks (word_at data 56 .& .~ BIT 31) []) with (@nil (Z * list Z)).
    by rewrite <- !app_assoc, !app_nil_r.
Qed.
End Placed.

Lemma reset_rings_quiet h l : forall s, safe dl_quiet (trx_reset_rings h s l) (fun _ => True).
Proof.
  induction l as [|[[q a] b] l IH]; intros s; cbn [trx_reset_rings]; [by apply safe_ret|].
  apply safe_bind_any; [|intros ?; apply IH]. unfold trx_reset_ring.
  apply safe_bind_any; [by safe_go|]. intros _.
  apply safe_bind_any; [by apply (safe_op _ (RegWriteDma _ _ _ _))|]. intros _. by apply safe_ret.
Qed.

Lemma reset_quiet d s : safe dl_quiet (trx_reset d s) (fun _ => True).
Proof.
  unfold trx_reset. do 2 (apply safe_bind_any; [by safe_go|intros ?]).
  apply safe_bind_any; [apply reset_rings_quiet|]. intros s'. apply safe_bind_any.
  { destruct (g_rx_ok s'); [|by apply safe_ret]. apply safe_bind_any; [by safe_go|].
    intros _. by apply (safe_op _ (RegWriteDma _ _ _ _)). }
  intros _. do 2 (apply safe_bind_any; [by safe_go|intros ?]). by apply safe_ret.
Qed.

(** The saved registers are none the monitor reacts to. *)
Definition bckp_quiet (e : rtw_backup_info) : Prop :=
  e.1.2 ∈ [REG_TXDMA_PQ_MAP + 1; REG_CR; REG_H2CQ_CSR; REG_FIFOPAGE_INFO_1; REG_RQPN_CTRL_2; REG_BCN_CTRL].

Lemma backup_quiet : safe dl_quiet download_firmware_reg_backup (fun l => Forall bckp_quiet l).
Proof.
  unfold download_firmware_reg_backup.
  repeat (apply safe_bind_any; [by safe_go|intros ?]). apply safe_ret. unfold bckp_quiet.
  repeat constructor; cbn; set_solver.
Qed.

Lemma restore_quiet l : Forall bckp_quiet l -> safe dl_quiet (rtw_restore_reg l) (fun _ => True).
Proof.
  induction 1 as [|[[len reg] val] l He _ IH]; [by apply safe_ret|]. cbn [rtw_restore_reg].
  apply safe_bind_any; [|intros _; exact IH]. unfold bckp_quiet in He. cbn [fst snd] in He.
  assert (Hq : forall w v, dl_quiet (Write w reg v) = true).
  { intros w v. rewrite !elem_of_cons in He. destruct w; [|done|];
      destruct He as [->|[->|[->|[->|[->|[->|He]]]]]]; try done; by apply elem_of_nil in He. }
  repeat (destruct (_ =? _); [first [by apply safe_write8|by apply safe_write16|by apply safe_write32]|]).
  by apply safe_ret.
Qed.

(** The chunks of a section are its bytes, and the sections are the image's. *)
Lemma chunks_concat fuel dst : forall off bs, (length bs <= fuel * Z.to_nat max_size)%nat ->
  concat (map snd (chunks fuel dst off bs)) = bs.
Proof.
  induction fuel as [|fuel IH]; intros off bs Hl;
    [destruct bs; [done|cbn in Hl; lia]|].
  destruct bs as [|b bs]; [done|]. cbn [chunks map snd concat].
  rewrite IH; [by rewrite take_drop|]. rewrite length_drop. lia.
Qed.

Lemma section_chunks_concat dst bs : concat (map snd (section_chunks dst bs)) = bs.
Proof.
  apply chunks_concat. change (Z.to_nat max_size) with 4096%nat.
  pose proof (Nat.mul_succ_div_gt (length bs) 4096). lia.
Qed.

Lemma section_app data off n k : 0 <= off -> 0 <= n -> 0 <= k ->
  section data off n ++ section data (off + n) k = section data off (n + k).
Proof.
  intros Ho Hn Hk. unfold section. rewrite (Z2Nat.inj_add n k), (Z2Nat.inj_add off n) by lia.
  rewrite <- drop_drop. by rewrite take_take_drop.
Qed.

Lemma image_sent_once data : image_ok data ->
  concat (map snd (concat (map (fun '(a, bs) => section_chunks a bs) (image_sections_at data)))) = drop 64 data.
Proof.
  intros Hi. destruct (image_sections data Hi) as (H1 & H2 & H3 & H4 & H5). unfold FW_HDR_SIZE in *.
  unfold image_sections_at. cbn [map concat]. rewrite !map_app, !concat_app, !section_chunks_concat.
  cbn [map concat]. rewrite app_nil_r. unfold FW_HDR_SIZE. rewrite !section_app by lia.
  unfold section. apply take_ge. rewrite length_drop. lia.
Qed.

Lemma download_places (d : rtw_dev) (s : trx_state) (data : list Z) (m : gmap Z Z) :
  trx_chip d -> trx_up s m -> image_ok data ->
  wp (dl_mon (d_handle (g_pkt s))) (download_firmware d s data) dl_log0 (fun '(ret, _, _) l =>
    ret = 0 -> dl_out l = concat (map (fun '(a, bs) => section_chunks a bs) (image_sections_at data)) /\
               concat (map snd (dl_out l)) = drop 64 data).
Proof.
  intros Hd Hs Hi. pose proof (image_sent_once data Hi) as Honce. unfold download_firmware. rewrite (check_firmware_size_ret data Hi).
  cbn [mbind prog_mbind prog_bind mret prog_ret negb].
  apply dl_bind_quiet; [unfold wlan_cpu_enable; by safe_go|intros _].
  apply wp_bind. eapply wp_mono; [eapply wp_safe_frame; [apply dl_quiet_frame|apply backup_quiet]|].
  intros bckp l [-> Hb].
  apply dl_bind_quiet; [unfold download_firmware_reset_platform; by safe_go|intros _].
  apply wp_bind. eapply wp_mono; [by apply (start_placed d data m Hd (d_handle (g_pkt s)))|].
  intros [ret s1] l1 [Hs1 Hl1]. cbn [fst snd] in *.
  assert (Hfail : forall r (Q : dl_log -> Prop), r <> 0 ->
    wp (dl_mon (d_handle (g_pkt s))) (dlfw_fail r d s1) l1 (fun '(ret, _, _) l => ret = 0 -> Q l)).
  { intros r Q Hr. unfold dlfw_fail. do 2 (apply dl_bind_quiet; [by safe_go|intros _]). apply wp_ret. by intros ->. }
  destruct (nz ret) eqn:E; [by apply (Hfail _ (fun l => _)), nz_true|]. apply nz_false in E. specialize (Hl1 E).
  apply dl_bind_quiet; [by apply restore_quiet|intros _].
  apply dl_bind_quiet; [unfold download_firmware_end_flow; by safe_go|intros _].
  apply dl_bind_quiet; [unfold wlan_cpu_enable; by safe_go|intros _].
  apply dl_bind_quiet; [unfold download_firmware_validate; by fw_go|intros ret2].
  destruct (nz ret2) eqn:E2; [by apply (Hfail _ (fun l => _)), nz_true|].
  apply dl_bind_quiet; [apply reset_quiet|intros s2]. apply wp_ret. intros _.
  rewrite Hl1. exact (conj eq_refl Honce).
Qed.

(** A download that returns 0 has programmed the on-chip DMA engine with
    exactly the chunks of the image's data, instruction and emulation sections,
    in order, each at the header's address (bit 31 cleared) plus its offset and
    with its own bytes in the transmit buffer, every byte after the header once;
    whatever it returns it never starts the engine with another source or length. *)
Theorem download_firmware_places (d : rtw_dev) (s : trx_state) (data : list Z) (m : gmap Z Z) :
  trx_chip d -> trx_up s m -> image_ok data ->
  wp (dl_mon (d_handle (g_pkt s))) (download_firmware d s data) dl_log0 (fun '(ret, _, _) l =>
    ret = 0 -> dl_out l = concat (map (fun '(a, bs) => section_chunks a bs) (image_sections_at data)) /\
               concat (map snd (dl_out l)) = drop 64 data).
Proof. apply download_places. Qed.

(** ** The registers the reserved page borrows *)

(** For one byte register: its value when first read, and the last value written. *)
Definition save_mon (reg : Z) (st : option Z * option Z) (o : hwop) : hwres o -> option (option Z * option Z) :=
  match o as o return hwres o -> option (option Z * option Z) with
  | Read W8 a => fun r =>
      Some (if a =? reg then (match st.1 with None => Some (u8 r) | Some v => Some v end, st.2) else st)
  | Write W8 a v => fun _ => Some (if a =? reg then (st.1, Some v) else st)
  | _ => fun _ => Some st
  end.

(** Calls that do not access the three borrowed registers by bytes. *)
Definition borrowed : list Z := [REG_BCN_CTRL; REG_FWHW_TXQ_CTRL + 2; REG_CR + 1].
Definition save_quiet (o : hwop) : bool :=
  match o with
  | Read W8 a | Write W8 a _ => negb (bool_decide (a ∈ borrowed))
  | _ => true
  end.

Lemma save_frame reg st o r : reg ∈ borrowed -> save_quiet o = true -> save_mon reg st o r = Some st.
Proof.
  intros Hr. destruct o as [w a|w a v| | | | | | | | | | | | | | | | | | | | |]; try done; destruct w; cbn [save_mon save_quiet]; try done;
    rewrite negb_true_iff, bool_decide_eq_false; intros Ha; destruct (Z.eqb_spec a reg) as [->|]; done.
Qed.

Lemma save_bind_quiet reg {A B} (f : A -> prog B) (p : prog A) st Q : reg ∈ borrowed ->
  safe save_quiet p (fun _ => True) -> (forall x, wp (save_mon reg) (f x) st Q) -> wp (save_mon reg) (p ≫= f) st Q.
Proof.
  intros Hr Hp Hf. apply wp_bind.
  eapply wp_mono; [eapply wp_safe_frame; [intros o r; by apply save_frame|exact Hp]|].
  intros x l' [-> _]. apply Hf.
Qed.

Lemma save_read reg {B} a (f : Z -> prog B) st Q :
  (forall v, u8 v = v -> wp (save_mon reg) (f v) (if a =? reg then (match st.1 with None => Some v | s => s end, st.2) else st) Q) ->
  wp (save_mon reg) (hw_read8 a ≫= f) st Q.
Proof. intros Hf. do 2 apply wp_bind. intros r. by apply (Hf (u8 r)), wrap_wrap. Qed.
Lemma save_write reg {B} a v (f : unit -> prog B) st Q :
  wp (save_mon reg) (f tt) (if a =? reg then (st.1, Some (u8 v)) else st) Q ->
  wp (save_mon reg) (hw_write8 a v ≫= f) st Q.
Proof. intros Hf. apply wp_bind. intros []. exact Hf. Qed.

Lemma bd_write_quiet r off bs : safe save_quiet (bd_write r off bs) (fun _ => True).
Proof. unfold bd_write. destruct (r_bd r) as [[? ?]|]; [by apply (safe_op _ (MemWrite _ _ _))|by apply safe_fault]. Qed.

Lemma rsvd_quiet d s buf : safe save_quiet (trx_write_data_rsvd_page d s buf) (fun _ => True).
Proof.
  unfold trx_write_data_rsvd_page, put_w. destruct (_ <? _); [by apply safe_ret|].
  repeat (apply safe_bind_any;
    [first [by apply safe_mem_set|by apply safe_mem_write|apply bd_write_quiet|by safe_go]|intros ?]).
  by apply safe_ret.
Qed.

(** Writing a reserved page of a non-empty buffer leaves the beacon control,
    the beacon queue's download bit and the software-beacon bit with the values
    first read from them, on every path. *)
Theorem rsvd_page_restores (d : rtw_dev) (s : trx_state) (pg reg : Z) (buf : list Z) :
  buf <> [] -> reg ∈ borrowed ->
  wp (save_mon reg) (rtw_fw_write_data_rsvd_page d s pg buf) (None, None) (fun _ st =>
    exists v, st = (Some v, Some v)).
Proof.
  intros Hb Hr. unfold rtw_fw_write_data_rsvd_page. destruct buf as [|b buf]; [done|].
  change (length (b :: buf) =? 0)%nat with false. cbn iota.
  apply save_read. intros bcn Hbcn.
  apply save_bind_quiet; [done|by safe_go|intros _]. apply save_read. intros cr Hcr. do 2 apply save_write.
  apply save_read. intros txq Htxq. apply save_write.
  apply save_bind_quiet; [done|apply rsvd_quiet|intros [ret s']].
  apply save_bind_quiet; [done| |intros ret'].
  { destruct (nz ret); [by apply safe_ret|]. apply safe_bind_any; [by apply check_ready_safe|].
    intros ?. by apply safe_ret. }
  apply save_bind_quiet; [done|by safe_go|intros _]. do 3 apply save_write. apply wp_ret.
  rewrite Hbcn, Hcr, Htxq. unfold borrowed in Hr. rewrite !elem_of_cons in Hr.
  destruct Hr as [->|[->|[->|Hr]]]; [by exists bcn|by exists txq|by exists cr|by apply elem_of_nil in Hr].
Qed.

(** ** Witnesses *)

(** An image with two sections of 8 bytes and no emulation section. *)
Definition image_example : list Z := replicate 64 0 ++ seqZ 1 16.
Lemma image_example_ok : image_ok image_example.
Proof.
  split; [apply (bool_decide_unpack (Forall byte_ok image_example)); by vm_compute|].
  split; [vm_compute; lia|]. split; by vm_compute.
Qed.

Lemma download_firmware_safe_witness :
  mem_safe (download_firmware (example_dev [] []) trx_up_example image_example) mem_example
    (dl_post (example_dev [] []) mem_example).
Proof.
  apply (download_firmware_safe (example_dev [] []) trx_up_example image_example mem_example).
  - by constructor.
  - apply trx_up_example_ok.
  - apply image_example_ok.
Defined.

Lemma download_firmware_places_witness :
  wp (dl_mon 2) (download_firmware (example_dev [] []) trx_up_example image_example) dl_log0 (fun '(ret, _, _) l =>
    ret = 0 -> dl_out l = [(0, [1; 2; 3; 4; 5; 6; 7; 8]); (0, [9; 10; 11; 12; 13; 14; 15; 16])] /\
               concat (map snd (dl_out l)) = drop 64 image_example).
Proof.
  apply (download_firmware_places (example_dev [] []) trx_up_example image_example mem_example).
  - by constructor.
  - apply trx_up_example_ok.
  - apply image_example_ok.
Defined.

Lemma rsvd_page_restores_witness :
  wp (save_mon REG_BCN_CTRL) (rtw_fw_write_data_rsvd_page (example_dev [] []) trx_up_example 0 [1]) (None, None)
    (fun _ st => exists v, st = (Some v, Some v)).
Proof.
  apply (rsvd_page_restores (example_dev [] []) trx_up_example 0 REG_BCN_CTRL [1]); [done|].
  apply (bool_decide_unpack _). by vm_compute.
Defined.

(** An 80-byte image whose data section claims 2{^32} - 16 bytes: the sizes add
    up modulo 2{^32}, so the size check passes, and the first chunk is read past
    the image's end. *)
Definition image_wrapped : list Z :=
  replicate 36 0 ++ le32 (2 ^ 32 - 16) ++ replicate 8 0 ++ le32 16 ++ replicate 28 0.
Lemma size_check_wraps :
  length image_wrapped = 80%nat /\ check_firmware_size image_wrapped = mret true /\
  Fault ∈ ops (exec (send_firmware_pkt (example_dev [] []) trx_up_example 0 image_wrapped FW_HDR_SIZE max_size)
                 (∅ : regfile)).
Proof. split_and!; [done|by vm_compute|]. apply (bool_decide_unpack _). by vm_compute. Qed.
