(* ===== verification/FwImage.v ===== *)
(** * FwImage: the firmware the driver ships (core/fw_blob.c)

    The image byte for byte, a number of twelve bytes for each line of the source,
    in blocks of 150 lines.  Proved: its header adds up, so every theorem about an
    image applies to it, and where the download puts it: three regions of the chip
    that do not meet. *)
From stdpp Require Import gmap.
From S2P Require Import Prelude Hw Regs Dev Trx Fw.
Open Scope Z_scope.
Open Scope rtw_scope.
Open Scope list_scope.

(** ** The image *)

(** The [k] bytes of a number, first the highest. *)
Definition be (k : nat) (n : Z) : list Z := map (fun i => (n >> (8 * Z.of_nat i)) .& 0xff) (rev (seq 0 k)).
Definition lines (l : list Z) : list Z := concat (map (be 12) l).
Definition fw_rows_00 : list Z := [
  0x2188000018000b000f5cde0a; 0x07000000010a0f10e6070000; 0x180000000c00000000002080; 0xe87c00000000030000000000;
  0x08f7000088ac000000001080; 0x000003800000040408080808; 0x0c0c0c0c0c0c0c0c10101010; 0x101010101010101010101010;
  0x141414141414141414141414; 0x141414141414141414141414; 0x141414141414141418181818; 0x181818181818181818181818;
  0x181818181818181818181818; 0x181818181818181818181818; 0x181818181818181818181818; 0x181818181818181818181818;
  0x1c1c1c1c1c1c1c1c1c1c1c1c; 0x1c1c1c1c1c1c1c1c1c1c1c1c; 0x1c1c1c1c1c1c1c1c1c1c1c1c; 0x1c1c1c1c1c1c1c1c1c1c1c1c;
  0x1c1c1c1c1c1c1c1c1c1c1c1c; 0x1c1c1c1c1c1c1c1c1c1c1c1c; 0x1c1c1c1c1c1c1c1c1c1c1c1c; 0x1c1c1c1c1c1c1c1c1c1c1c1c;
  0x1c1c1c1c1c1c1c1c1c1c1c1c; 0x1c1c1c1c1c1c1c1c1c1c1c1c; 0x1c1c1c1c1c1c1c1c00000000; 0x000000000000000000000000;
  0x000000000000000000000000; 0x000000000000000000000000; 0x000000000000000000000000; 0x000000000000000000000000;
  0x0000000000000000030001fe; 0x030101fe030201fe030301fe; 0x030401fe030501fe030601fe; 0x030701fe0600000005000000;
  0x010000004000000000011000; 0x010003809d0103809d010380; 0xf55003800000000000040000; 0x000000000000000000000000;
  0x000000000000000000000000; 0x000000000000000000000000; 0x000000000000000000000000; 0x000000000000000000000000;
  0x000000000000000000000000; 0x000000000000000000000000; 0x000000000000000000000000; 0x000000000000000000000000;
  0x000000000000000000000000; 0x000000000000000000000000; 0x000000000000000000000000; 0x000000000000000000000000;
  0x000000000000000000000000; 0x000000000000000000000000; 0x000000000000000000000000; 0x000000000000000000000000;
  0x000000000000000000000000; 0x000000000000000000000000; 0x000000000000000000000000; 0x000000000000000000000000;
  0x000000000000000000000000; 0x000000000000000000000000; 0x000000000000000000000000; 0x000000000000000000000000;
  0x000000000000000000000000; 0x000000000000000000000000; 0x000000000000000000000000; 0x000000000000000000000000;
  0x000000000000000000000000; 0x000000000000000000000000; 0x000000000000000000000000; 0x000000000000000000000000;
  0x000000000000000000000000; 0x000000000000000000000000; 0x000000000000000000000000; 0x000000000000000000000000;
  0x000000000000000000000000; 0x000000000000000000000000; 0x000000000000000000000000; 0x000000000000000000000000;
  0x000000000000000000000000; 0x000000000000000000000000; 0x000000000000000000000000; 0x000000000000000000000000;
  0x000000000000000000000000; 0x000000000000000000000000; 0x000000000000000000000000; 0x000000000000000000000000;
  0x000000000000000000000000; 0x000000000000000000000000; 0x000000000000000000000000; 0x000000000000000000000000;
  0x000000000000000000000000; 0x000000000000000000000000; 0x000000000000000000000000; 0x000000000000000000000000;
  0x000000000000000000000000; 0x000000000000000000000000; 0x000000000000000000000000; 0x000000000000000000000000;
  0x000000000000000000000000; 0x000000000000000000000000; 0x000000000000000000000000; 0x000000000000000000000000;
  0x000000000000000000000000; 0x000000000000000000000000; 0x000000000000000000000000; 0x000000000000000000000000;
  0x000000000000000000000000; 0x000000000000000000000000; 0x000000000000000000000000; 0x000000000000000000000000;
  0x000000000000000000000000; 0x000000000000000000000000; 0x000000000000000000000000; 0x000000000000000000000000;
  0x000000000000000000000000; 0x000000000000000000000000; 0x000000000000000000000000; 0x000000000000000000000000;
  0x000000000000000000000000; 0x000000000000000000000000; 0x000000000000000000000000; 0x000000000000000000000000;
  0x000000000000000000000000; 0x000000000000000000000000; 0x000000000000000000000000; 0x000000000000000000000000;
  0x000000000000000000000000; 0x000000000000000000000000; 0x000000000000000000000000; 0x000000000000000000000000;
  0x000000000000000000000000; 0x000000000000000000000000; 0x000000000000000000000000; 0x000000000000000000000000;
  0x000000000000000000000000; 0x000000000000000000000000; 0x000000000000000000000000; 0x000000000000000000000000;
  0x000000000000000000000000; 0x000000000000000000000000; 0x000000000000000000000000; 0x000000000000000000000000;
  0x000000000000000000000000; 0x000000000000000000000000; 0x000000000000000000000000; 0x000000000000000000000000;
  0x000000000000000000000000; 0x000000000000000000000000].
Definition fw_rows_01 : list Z := [
  0x000000000000000000000000; 0x000000000000000000000000; 0x000000000000000000000000; 0x000000000000000000000000;
  0x000000000000000000000000; 0x000000000000000000000000; 0x000000000000000000000000; 0x000000000000000000000000;
  0x000000000000000000000000; 0x000000000000000000000000; 0x000000000000000000000000; 0x000000000000000000000000;
  0x000000000000000000000000; 0x000000000000000000000000; 0x000000000000000000000000; 0x000000000000000000000000;
  0x000000000000000000000000; 0x000000000000000000000000; 0x000000000000000000000000; 0x000000000000000000000000;
  0x000000000000000000000000; 0x000000000000000000000000; 0x000000000000000000000000; 0x000000000000000000000000;
  0x000000000000000000000000; 0x000000000000000000000000; 0x000000000000000000000000; 0x000000000000000000000000;
  0x000000000000000000000000; 0x000000000000000000000000; 0x000000000000000000000000; 0x000000000000000000000000;
  0x000000000000000000000000; 0x000000000000000000000000; 0x000000000000000000000000; 0x000000000000000000000000;
  0x000000000000000000000000; 0x000000000000000000000000; 0x000000000000000000000000; 0x000000000000000000000000;
  0x000000000000000000000000; 0x000000000000000000000000; 0x000000000000000000000000; 0x000000000000000000000000;
  0x000000000000000000000000; 0x000000000000000000000000; 0x000000000000000000000000; 0x000000000000000000000000;
  0x000000000000000000000000; 0x000000000000000000000000; 0x000000000000000000000000; 0x000000000000000000000000;
  0x000000000000000000000000; 0x000000000000000000000000; 0x000000000000000000000000; 0x000000000000000000000000;
  0x000000000000000000000000; 0x000000000000000000000000; 0x000000000000000000000000; 0x000000000000000000000000;
  0x000000000000000000000000; 0x000000000000000000000000; 0x000000000000000000000000; 0x000000000000000000000000;
  0x000000000000000000000000; 0x000000000000000000000000; 0x000000000000000000000000; 0x000000000000000000000000;
  0x000000000000000000000000; 0x000000000000000000000000; 0x000000000000000000000000; 0x000000000000000000000000;
  0x000000000000000000000000; 0x000000000000000000000000; 0x000000000000000000000000; 0x000000000000000000000000;
  0x000000000000000000000000; 0x000000000000000000000000; 0x000000000000000000000000; 0x000000000000000000000000;
  0x000000000000000000000000; 0x000000000000000000000000; 0x000000000000000000000000; 0x000000000000000000000000;
  0x000000000000000000000000; 0x000000000000000000000000; 0x000000000000000000000000; 0x000000000000000000000000;
  0x000000000000000000000000; 0x000000000000000000000000; 0x000000000000000000000000; 0x000000000000000000000000;
  0x000000000000000000000000; 0x000000000000000000000000; 0x000000000000000000000000; 0x000000000000000000000000;
  0x000000000000000000000000; 0x000000000000000000000000; 0x000000000000000000000000; 0x000000000000000000000000;
  0x000000000000000000000000; 0x000000000000000000000000; 0x000000000000000000000000; 0x000000000000000000000000;
  0x000000000000000000000000; 0x000000000000000000000000; 0x000000000000000000000000; 0x000000000000000000000000;
  0x000000000000000000000000; 0x000000000000000000000000; 0x000000000000000000000000; 0x000000000000000000000000;
  0x000000000000000000000000; 0x000000000000000000000000; 0x000000000000000000000000; 0x000000000000000000000000;
  0x000000000000000000000000; 0x000000000000000000000000; 0x000000000000000000000000; 0x000000000000000000000000;
  0x000000000000000000000000; 0x000000000000000000000000; 0x000000000000000000000000; 0x000000000000000000000000;
  0x000000000000000000000000; 0x000000000000000000000000; 0x000000000000000000000000; 0x000000000000000000000000;
  0x000000000000000000000000; 0x000000000000000000000000; 0x000000000000000000000000; 0x000000000000000000000000;
  0x000000000000000000000000; 0x000000000000000000000000; 0x000000000000000000000000; 0x000000000000000000000000;
  0x000000000000000000000000; 0x000000000000000000000000; 0x000000000000000000000000; 0x000000000000000000000000;
  0x000000000000000000000000; 0x000000000000000000000000; 0x000000000000000000000000; 0x000000000000000000000000;
  0x000000000000000000000000; 0x000000000000000000000000; 0x000000000000000000000000; 0x000000000000000000000000;
  0x000000000000000000000000; 0x000000000000000000000000].
Definition fw_rows_02 : list Z := [
  0x000000000000000000000000; 0x000000000000000000000000; 0x000000000000000000000000; 0x000000000000000000000000;
  0x000000000000000000000000; 0x000000000000000000000000; 0x000000000000000000000000; 0x000000000000000000000000;
  0x000000000000000000000000; 0x000000000000000000000000; 0x000000000000000000000000; 0x000000000000000000000000;
  0x000000000000000000000000; 0x000000000000000000000000; 0x000000000000000000000000; 0x000000000000000000000000;
  0x000000000000000000000000; 0x000000000000000000000000; 0x000000000000000000000000; 0x000000000000000000000000;
  0x000000000000000000000000; 0x000000000000000000000000; 0x000000000000000000000000; 0x000000000000000000000000;
  0x000000000000000000000000; 0x000000000000000000000000; 0x000000000000000000000000; 0x000000000000000000000000;
  0x000000000000000000000000; 0x000000000000000000000000; 0x000000000000000000000000; 0x000000000000000000000000;
  0x000000000000000000000000; 0x000000000000000000000000; 0x000000000000000000000000; 0x000000000000000000000000;
  0x000000000000000000000000; 0x000000000000000000000000; 0x000000000000000000000000; 0x000000000000000000000000;
  0x000000000000000000000000; 0x000000000000000000000000; 0x000000000000000000000000; 0x000000000000000000000000;
  0x000000000000000000000000; 0x000000000000000000000000; 0x000000000000000000000000; 0x000000000000000000000000;
  0x000000000000000000000000; 0x000000000000000000000000; 0x000000000000000000000000; 0x000000000000000000000000;
  0x000000000000000000000000; 0x000000000000000000000000; 0x000000000000000000000000; 0x000000000000000000000000;
  0x000000000000000000000000; 0x000000000000000000000000; 0x000000000000000000000000; 0x000000000000000000000000;
  0x000000000000000000000000; 0x000000000000000000000000; 0x000000000000000000000000; 0x000000000000000000000000;
  0x000000000000000000000000; 0x000000000000000000000000; 0x000000000000000000000000; 0x000000000000000000000000;
  0x000000000000000000000000; 0x000000000000000000000000; 0x000000000000000000000000; 0x000000000000000000000000;
  0x000000000000000000000000; 0x000000000000000000000000; 0x000000000000000000000000; 0x000000000000000000000000;
  0x000000000000000000000000; 0x000000000000000000000000; 0x000000000000000000000000; 0x000000000000000000000000;
  0x000000000000000000000000; 0x000000000000000000000000; 0x000000000000000000000000; 0x000000000000000000000000;
  0x000000000000000000000000; 0x000000000000000000000000; 0x000000000000000000000000; 0x000000000000000000000000;
  0x000000000000000000000000; 0x000000000000000000000000; 0x000000000000000000000000; 0x000000000000000000000000;
  0x000000000000000000000000; 0x000000000000000000000000; 0x000000000000000000000000; 0x000000000000000000000000;
  0x000000000000000000000000; 0x000000000000000000000000; 0x000000000000000000000000; 0x000000000000000000000000;
  0x000000000000000000000000; 0x000000000000000000000000; 0x000000000000000000000000; 0x000000000000000000000000;
  0x000000000000000000000000; 0x000000000000000000000000; 0x000000000000000000000000; 0x000000000000000000000000;
  0x000000000000000000000000; 0x000000000000000000000000; 0x000000000000000000000000; 0x000000000000000000000000;
  0x000000000000000000000000; 0x000000000000000000000000; 0x000000000000000000000000; 0x000000000000000000000000;
  0x000000000000000000000000; 0x000000000000000000000000; 0x000000000000000000000000; 0x000000000000000000000000;
  0x000000000000000000000000; 0x000000000000000000000000; 0x000000000000000000000000; 0x000000000000000000000000;
  0x000000000000000000000000; 0x000000000000000000000000; 0x000000000000000000000000; 0x000000000000000000000000;
  0x000000000000000000000000; 0x000000000000000000000000; 0x000000000000000000000000; 0x000000000000000000000000;
  0x000000000000000000000000; 0x000000000000000000000000; 0x000000000000000000000000; 0x000000000000000000000000;
  0x000000000000000000000000; 0x000000000000000000000000; 0x000000000000000000000000; 0x000000000000000000000000;
  0x000000000000000000000000; 0x000000000000000000000000; 0x000000000000000000000000; 0x000000000000000000000000;
  0x000000000000000000000000; 0x000000000000000000000000; 0x000000000000000000000000; 0x000000000000000000000000;
  0x000000000000000000000000; 0x000000000000000000000000].
Definition fw_rows_03 : list Z := [
  0x000000000000000000000000; 0x000000000000000000000000; 0x000000000000000000000000; 0x000000000000000000000000;
  0x000000000000000000000000; 0x000000000000000000000000; 0x000000000000000000000000; 0x000000000000000000000000;
  0x000000000000000000000000; 0x000000000000000000000000; 0x000000000000000000000000; 0x000000000000000000000000;
  0x000000000000000000000000; 0x000000000000000000000000; 0x000000000000000000000000; 0x000000000000000000000000;
  0x000000000000000000000000; 0x000000000000000000000000; 0x000000000000000000000000; 0x000000000000000000000000;
  0x000000000000000000000000; 0x000000000000000000000000; 0x000000000000000000000000; 0x000000000000000000000000;
  0x000000000000000000000000; 0x000000000000000000000000; 0x000000000000000000000000; 0x000000000000000000000000;
  0x000000000000000000000000; 0x000000000000000000000000; 0x000000000000000000000000; 0x000000000000000000000000;
  0x000000000000000000000000; 0x000000000000000000000000; 0x000000000000000000000000; 0x000000000000000000000000;
  0x000000000000000000000000; 0x000000000000000000000000; 0x000000000000000000000000; 0x000000000000000000000000;
  0x000000000000000000000000; 0x000000000000000000000000; 0x000000000000000000000000; 0x000000000000000000000000;
  0x000000000000000000000000; 0x000000000000000000000000; 0x000000000000000000000000; 0x000000000000000000000000;
  0x000000000000000000000000; 0x000000000000000000000000; 0x000000000000000000000000; 0x000000000000000000000000;
  0x000000000000000000000000; 0x000000000000000000000000; 0x000000000000000000000000; 0x000000000000000000000000;
  0x000000000000000000000000; 0x000000000000000000000000; 0x000000000000000000000000; 0x000000000000000000000000;
  0x000000000000000000000000; 0x000000000000000000000000; 0x000000000000000000000000; 0x000000000000000000000000;
  0x000000000000000000000000; 0x000000000000000000000000; 0x000000000000000000000000; 0x000000000000000000000000;
  0x000000000000000000000000; 0x000000000000000000000000; 0x000000000000000000000000; 0x000000000000000000000000;
  0x000000000000000000000000; 0x000000000000000000000000; 0x000000000000000000000000; 0x000000000000000000000000;
  0x000000000000000000000000; 0x000000000000000000000000; 0x000000000000000000000000; 0x000000000000000000000000;
  0x000000000000000000000000; 0x000000000000000000000000; 0x000000000000000000000000; 0x000000000000000000000000;
  0x000000000000000000000000; 0x000000000000000000000000; 0x000000000000000000000000; 0x000000000000000000000000;
  0x000000000000000000000000; 0x000000000000000000000000; 0x000000000000000000000000; 0x000000000000000000000000;
  0x000000000000000000000000; 0x000000000000000000000000; 0x000000000000000000000000; 0x000000000000000000000000;
  0x000000000000000000000000; 0x000000000000000000000000; 0x000000000000000000000000; 0x000000000000000000000000;
  0x000000000000000000000000; 0x000000000000000000000000; 0x000000000000000000000000; 0x000000000000000000000000;
  0x000000000000000000000000; 0x000000000000000000000000; 0x000000000000000000000000; 0x000000000000000000000000;
  0x000000000000000000000000; 0x000000000000000000000000; 0x000000000000000000000000; 0x000000000000000000000000;
  0x000000000000000000000000; 0x000000000000000000000000; 0x000000000000000000000000; 0x000000000000000000000000;
  0x000000000000000000000000; 0x000000000000000000000000; 0x000000000000000000000000; 0x000000000000000000000000;
  0x000000000000000000000000; 0x000000000000000000000000; 0x000000000000000000000000; 0x000000000000000000000000;
  0x000000000000000000000000; 0x000000000000000000000000; 0x000000000000000000000000; 0x000000000000000000000000;
  0x000000000000000000000000; 0x000000000000000000000000; 0x000000000000000000000000; 0x000000000000000000000000;
  0x000000000000000000000000; 0x000000000000000000000000; 0x000000000000000000000000; 0x000000000000000000000000;
  0x000000000000000000000000; 0x000000000000000000000000; 0x000000000000000000000000; 0x000000000000000000000000;
  0x000000000000000000000000; 0x000000000000000000000000; 0x000000000000000000000000; 0x000000000000000000000000;
  0x000000000000000000000000; 0x000000000000000000000000; 0x000000000000000000000000; 0x000000000000000000000000;
  0x000000000000000000000000; 0x000000000000000000000000].
Definition fw_rows_04 : list Z := [
  0x000000000000000000000000; 0x000000000000000000000000; 0x000000000000000000000000; 0x000000000000000000000000;
  0x000000000000000000000000; 0x000000000000000000000000; 0x000000000000000000000000; 0x000000000000000000000000;
  0x000000000000000000000000; 0x000000000000000000000000; 0x000000000000000000000000; 0x000000000000000000000000;
  0x000000000000000000000000; 0x000000000000000000000000; 0x000000000000000000000000; 0x000000000000000000000000;
  0x000000000000000000000000; 0x000000000000000000000000; 0x000000000000000000000000; 0x000000000000000000000000;
  0x000000000000000000000000; 0x000000000000000000000000; 0x000000000000000000000000; 0x000000000000000000000000;
  0x000000000000000000000000; 0x000000000000000000000000; 0x000000000000000000000000; 0x000000000000000000000000;
  0x000000000000000000000000; 0x000000000000000000000000; 0x000000000000000000000000; 0x000000000000000000000000;
  0x000000000000000000000000; 0x000000000000000000000000; 0x000000000000000000000000; 0x000000000000000000000000;
  0x000000000000000000000000; 0x000000000000000000000000; 0x000000000000000000000000; 0x000000000000000000000000;
  0x000000000000000000000000; 0x000000000000000000000000; 0x000000000000000000000000; 0x000000000000000000000000;
  0x000000000000000000000000; 0x000000000000000000000000; 0x000000000000000000000000; 0x000000000000000000000000;
  0x000000000000000000000000; 0x000000000000000000000000; 0x000000000000000000000000; 0x000000000000000000000000;
  0x000000000000000000000000; 0x000000000000000000000000; 0x000000000000000000000000; 0x000000000000000000000000;
  0x000000000000000000000000; 0x000000000000000000000000; 0x000000000000000000000000; 0x000000000000000000000000;
  0x000000000000000000000000; 0x000000000000000000000000; 0x000000000000000000000000; 0x000000000000000000000000;
  0x000000000000000000000000; 0x000000000000000000000000; 0x000000000000000000000000; 0x000000000000000000000000;
  0x000000000000000000000000; 0x000000000000000000000000; 0x000000000000000000000000; 0x000000000000000000000000;
  0x000000000000000000000000; 0x000000000000000000000000; 0x000000000000000000000000; 0x000000000000000000000000;
  0x000000000000000000000000; 0x000000000000000000000000; 0x000000000000000000000000; 0x000000000000000000000000;
  0x000000000000000000000000; 0x000000000000000000000000; 0x000000000000000000000000; 0x000000000000000000000000;
  0x000000000000000000000000; 0x000000000000000000000000; 0x000000000000000000000000; 0x000000000000000000000000;
  0x000000000000000000000000; 0x000000000000000000000000; 0x000000000000000000000000; 0x000000000000000000000000;
  0x000000000000000000000000; 0x000000000000000000000000; 0x000000000000000000000000; 0x000000000000000000000000;
  0x000000000000000000000000; 0x000000000000000000000000; 0x000000000000000000000000; 0x000000000000000000000000;
  0x000000000000000000000000; 0x000000000000000000000000; 0x000000000000000000000000; 0x000000000000000000000000;
  0x000000000000000000000000; 0x000000000000000000000000; 0x000000000000000000000000; 0x000000000000000000000000;
  0x000000000000000000000000; 0x000000000000000000000000; 0x000000000000000000000000; 0x000000000000000000000000;
  0x000000000000000000000000; 0x000000000000000000000000; 0x000000000000000000000000; 0x000000000000000000000000;
  0x000000000000000000000000; 0x000000000000000000000000; 0x000000000000000000000000; 0x000000000000000000000000;
  0x000000000000000000000000; 0x000000000000000000000000; 0x000000000000000000000000; 0x000000000000000000000000;
  0x000000000000000000000000; 0x000000000000000000000000; 0x000000000000000000000000; 0x000000000000000000000000;
  0x000000000000000000000000; 0x000000000000000000000000; 0x000000000000000000000000; 0x000000000000000000000000;
  0x000000000000000000000000; 0x000000000000000000000000; 0x000000000000000000000000; 0x000000000000000000000000;
  0x000000000000000000000000; 0x000000000000000000000000; 0x000000000000000000000000; 0x000000000000000000000000;
  0x000000000000000000000000; 0x000000000000000000000000; 0x000000000000000000000000; 0x000000000000000000000000;
  0x000000000000000000000000; 0x000000000000000000000000; 0x000000000000000000000000; 0x000000000000000000000000;
  0x000000000000000000000000; 0x000000000000000000000000].
Definition fw_rows_05 : list Z := [
  0x000000000000000000000000; 0x000000000000000000000000; 0x000000000000000000000000; 0x000000000000000000000000;
  0x000000000000000000000000; 0x000000000000000000000000; 0x000000000000000000000000; 0x000000000000000000000000;
  0x000000000000000000000000; 0x000000000000000000000000; 0x000000000000000000000000; 0x000000000000000000000000;
  0x000000000000000000000000; 0x000000000000000000000000; 0x000000000000000000000000; 0x000000000000000000000000;
  0x000000000000000000000000; 0x000000000000000000000000; 0x000000000000000000000000; 0x000000000000000000000000;
  0x000000000000000000000000; 0x000000000000000000000000; 0x000000000000000000000000; 0x000000000000000000000000;
  0x000000000000000000000000; 0x000000000000000000000000; 0x000000000000000000000000; 0x000000000000000000000000;
  0x000000000000000000000000; 0x000000000000000000000000; 0x000000000000000000000000; 0x000000000000000000000000;
  0x000000000000000000000000; 0x000000000000000000000000; 0x000000000000000000000000; 0x000000000000000000000000;
  0x000000000000000000000000; 0x000000000000000000000000; 0x000000000000000000000000; 0x000000000000000000000000;
  0x000000000000000000000000; 0x000000000000000000000000; 0x000000000000000000000000; 0x000000000000000000000000;
  0x000000000000000000000000; 0x000000000000000000000000; 0x000000000000000000000000; 0x000000000000000000000000;
  0x000000000000000000000000; 0x000000000000000000000000; 0x000000000000000000000000; 0x000000000000000000000000;
  0x000000000000000000000000; 0x000000000000000000000000; 0x000000000000000000000000; 0x000000000000000000000000;
  0x000000000000000000000000; 0x000000000000000000000000; 0x000000000000000000000000; 0x000000000000000000000000;
  0x000000000000000000000000; 0x000000000000000000000000; 0x000000000000000000000000; 0x000000000000000000000000;
  0x000000000000000000000000; 0x000000000000000000000000; 0x000000000000000000000000; 0x000000000000000000000000;
  0x000000000000000000000000; 0x000000000000000000000000; 0x000000000000000000000000; 0x000000000000000000000000;
  0x000000000000000000000000; 0x000000000000000000000000; 0x000000000000000000000000; 0x000000000000000000000000;
  0x000000000000000000000000; 0x000000000000000000000000; 0x000000000000000000000000; 0x000000000000000000000000;
  0x000000000000000000000000; 0x000000000000000000000000; 0x000000000000000000000000; 0x000000000000000000000000;
  0x000000000000000000000000; 0x000000000000000000000000; 0x000000000000000000000000; 0x000000000000000000000000;
  0x000000000000000000000000; 0x000000000000000000000000; 0x000000000000000000000000; 0x000000000000000000000000;
  0x000000000000000000000000; 0x000000000000000000000000; 0x000000000000000000000000; 0x000000000000000000000000;
  0x000000000000000000000000; 0x000000000000000000000000; 0x000000000000000000000000; 0x000000000000000000000000;
  0x000000000000000000000000; 0x000000000000000000000000; 0x000000000000000000000000; 0x000000000000000000000000;
  0x000000000000000000000000; 0x000000000000000000000000; 0x000000000000000000000000; 0x000000000000000000000000;
  0x000000000000000000000000; 0x000000000000000000000000; 0x000000000000000000000000; 0x000000000000000000000000;
  0x000000000000000000000000; 0x000000000000000000000000; 0x000000000000000000000000; 0x000000000000000000000000;
  0x000000000000000000000000; 0x000000000000000000000000; 0x000000000000000000000000; 0x000000000000000000000000;
  0x000000000000000000000000; 0x000000000000000000000000; 0x000000000000000000000000; 0x000000000000000000000000;
  0x000000000000000000000000; 0x000000000000000000000000; 0x000000000000000000000000; 0x000000000000000000000000;
  0x000000000000000000000000; 0x000000000000000000000000; 0x000000000000000000000000; 0x000000000000000000000000;
  0x000000000000000000000000; 0x000000000000000000000000; 0x000000000000000000000000; 0x000000000000000000000000;
  0x000000000000000000000000; 0x000000000000000000000000; 0x000000000000000000000000; 0x000000000000000000000000;
  0x000000000000000000000000; 0x000000000000000000000000; 0x000000000000000000000000; 0x000000000000000000000000;
  0x000000000000000000000000; 0x000000000000000000000000; 0x000000000000000000000000; 0x000000000000000000000000;
  0x000000000000000000000000; 0x000000000000000000000000].
Definition fw_rows_06 : list Z := [
  0x000000000000000000000000; 0x000000000000000000000000; 0x000000000000000000000000; 0x000000000000000000000000;
  0x000000000000000000000000; 0x000000000000000000000000; 0x000000000000000000000000; 0x000000000000000000000000;
  0x000000000000000000000000; 0x000000000000000000000000; 0x000000000000000000000000; 0x000000000000000000000000;
  0x000000000000000000000000; 0x000000000000000000000000; 0x000000000000000000000000; 0x000000000000000000000000;
  0x000000000000000000000000; 0x000000000000000000000000; 0x000000000000000000000000; 0x000000000000000000000000;
  0x000000000000000000000000; 0x000000000000000000000000; 0x000000000000000000000000; 0x000000000000000000000000;
  0x000000000000000000000000; 0x000000000000000000000000; 0x000000000000000000000000; 0x000000000000000000000000;
  0x000000000000000000000000; 0x000000000000000000000000; 0x000000000000000000000000; 0x000000000000000000000000;
  0x000000000000000000000000; 0x000000000000000000000000; 0x000000000000000000000000; 0x000000000000000000000000;
  0x000000000000000000000000; 0x000000000000000000000000; 0x000000000000000000000000; 0x000000000000000000000000;
  0x000000000000000000000000; 0x000000000000000000000000; 0x000000000000000000000000; 0x000000000000000000000000;
  0x000000000000000000000000; 0x000000000000000000000000; 0x000000000000000000000000; 0x000000000000000000000000;
  0x000000000000000000000000; 0x000000000000000000000000; 0x000000000000000000000000; 0x000000000000000000000000;
  0x000000000000000000000000; 0x000000000000000000000000; 0x000000000000000000000000; 0x000000000000000000000000;
  0x000000000000000000000000; 0x000000000000000000000000; 0x000000000000000000000000; 0x000000000000000000000000;
  0x000000000000000000000000; 0x000000000000000000000000; 0x000000000000000000000000; 0x000000000000000000000000;
  0x000000000000000000000000; 0x000000000000000000000000; 0x000000000000000000000000; 0x000000000000000000000000;
  0x000000000000000000000000; 0x000000000000000000000000; 0x000000000000000000000000; 0x000000000000000000000000;
  0x000000000000000000000000; 0x000000000000000000000000; 0x000000000000000000000000; 0x000000000000000000000000;
  0x000000000000000000000000; 0x000000000000000000000000; 0x000000000000000000000000; 0x000000000000000000000000;
  0x000000000000000000000000; 0x000000000000000000000000; 0x000000000000000000000000; 0x000000000000000000000000;
  0x000000000000000000000000; 0x000000000000000000000000; 0x000000000000000000000000; 0x000000000000000000000000;
  0x000000000000000000000000; 0x000000000000000000000000; 0x000000000000000000000000; 0x000000000000000000000000;
  0x000000000000000000000000; 0x000000000000000000000000; 0x000000000000000000000000; 0x000000000000000000000000;
  0x000000000000000000000000; 0x000000000000000000000000; 0x000000000000000000000000; 0x000000000000000000000000;
  0x000000000000000000000000; 0x000000000000000000000000; 0x000000000000000000000000; 0x000000000000000000000000;
  0x000000000000000000000000; 0x000000000000000000000000; 0x000000000000000000000000; 0x000000000000000000000000;
  0x000000000000000000000000; 0x000000000000000000000000; 0x000000000000000000000000; 0x000000000000000000000000;
  0x000000000000000000000000; 0x000000000000000000000000; 0x000000000000000000000000; 0x000000000000000000000000;
  0x000000000000000000000000; 0x000000000000000000000000; 0x000000000000000000000000; 0x000000000000000000000000;
  0x000000000000000000000000; 0x000000000000000000000000; 0x000000000000000000000000; 0x000000000000000000000000;
  0x000000000000000000000000; 0x000000000000000000000000; 0x000000000000000000000000; 0x000000000000000000000000;
  0x000000000000000000000000; 0x000000000000000000000000; 0x000000000000000000000000; 0x000000000000000000000000;
  0x000000000000000000000000; 0x000000000000000000000000; 0x000000000000000000000000; 0x000000000000000000000000;
  0x000000000000000000000000; 0x000000000000000000000000; 0x000000000000000000000000; 0x000000000000000000000000;
  0x000000000000000000000000; 0x000000000000000000000000; 0x000000000000000000000000; 0x000000000000000000000000;
  0x000000000000000000000000; 0x000000000000000000000000; 0x000000000000000000000000; 0x000000000000000000000000;
  0x000000000000000000000000; 0x000000000000000000000000].
Definition fw_rows_07 : list Z := [
  0x000000000000000000000000; 0x000000000000000000000000; 0x000000000000000000000000; 0x000000000000000000000000;
  0x000000000000000000000000; 0x000000000000000000000000; 0x000000000000000000000000; 0x000000000000000000000000;
  0x000000000000000000000000; 0x000000000000000000000000; 0x000000000000000000000000; 0x000000000000000000000000;
  0x000000000000000000000000; 0x000000000000000000000000; 0x000000000000000000000000; 0x000000000000000000000000;
  0x000000000000000000000000; 0x000000000000000000000000; 0x000000000000000000000000; 0x000000000000000000000000;
  0x000000000000000000000000; 0x000000000000000000000000; 0x000000000000000000000000; 0x000000000000000000000000;
  0x000000000000000000000000; 0x000000000000000000000000; 0x000000000000000000000000; 0x000000000000000000000000;
  0x000000000000000000000000; 0x000000000000000000000000; 0x000000000000000000000000; 0x000000000000000000000000;
  0x000000000000000000000000; 0x000000000000000000000000; 0x000000000000000000000000; 0x000000000000000000000000;
  0x000000000000000000000000; 0x000000000000000000000000; 0x000000000000000000000000; 0x000000000000000000000000;
  0x000000000000000000000000; 0x000000000000000000000000; 0x000000000000000000000000; 0x000000000000000000000000;
  0x000000000000000000000000; 0x000000000000000000000000; 0x000000000000000000000000; 0x000000000000000000000000;
  0x000000000000000000000000; 0x000000000000000000000000; 0x000000000000000000000000; 0x000000000000000000000000;
  0x000000000000000000000000; 0x000000000000000000000000; 0x000000000000000000000000; 0x000000000000000000000000;
  0x000000000000000000000000; 0x000000000000000000000000; 0x000000000000000000000000; 0x000000000000000000000000;
  0x000000000000000000000000; 0x000000000000000000000000; 0x000000000000000000000000; 0x000000000000000000000000;
  0x000000000000000000000000; 0x000000000000000000000000; 0x000000000000000000000000; 0x000000000000000000000000;
  0x000000000000000000000000; 0x000000000000000000000000; 0x000000000000000000000000; 0x000000000000000000000000;
  0x000000000000000000000000; 0x000000000000000000000000; 0x000000000000000000000000; 0x000000000000000000000000;
  0x000000000000000000000000; 0x000000000000000000000000; 0x000000000000000000000000; 0x000000000000000000000000;
  0x000000000000000000000000; 0x000000000000000000000000; 0x000000000000000000000000; 0x000000000000000000000000;
  0x000000000000000000000000; 0x000000000000000000000000; 0x000000000000000000000000; 0x000000000000000000000000;
  0x000000000000000000000000; 0x000000000000000000000000; 0x000000000000000000000000; 0x000000000000000000000000;
  0x000000000000000000000000; 0x000000000000000000000000; 0x000000000000000000000000; 0x000000000000000000000000;
  0x000000000000000000000000; 0x000000000000000000000000; 0x000000000000000000000000; 0x000000000000000000000000;
  0x000000000000000000000000; 0x000000000000000000000000; 0x000000000000000000000000; 0x000000000000000000000000;
  0x000000000000000000000000; 0x000000000000000000000000; 0x000000000000000000000000; 0x000000000000000000000000;
  0x000000000000000000000000; 0x000000000000000000000000; 0x000000000000000000000000; 0x000000000000000000000000;
  0x000000000000000000000000; 0x000000000000000000000000; 0x000000000000000000000000; 0x000000000000000000000000;
  0x000000000000000000000000; 0x000000000000000000000000; 0x000000000000000000000000; 0x000000000000000000000000;
  0x000000000000000000000000; 0x000000000000000000000000; 0x000000000000000000000000; 0x000000000000000000000000;
  0x000000000000000000000000; 0x000000000000000000000000; 0x000000000000000000000000; 0x000000000000000000000000;
  0x000000000000000000000000; 0x000000000000000000000000; 0x000000000000000000000000; 0x000000000000000000000000;
  0x000000000000000000000000; 0x000000000000000000000000; 0x000000000000000000000000; 0x000000000000000000000000;
  0x000000000000000000000000; 0x000000000000000000000000; 0x000000000000000000000000; 0x000000000000000000000000;
  0x000000000000000000000000; 0x000000000000000000000000; 0x000000000000000000000000; 0x000000000000000000000000;
  0x000000000000000000000000; 0x000000000000000000000000; 0x000000000000000000000000; 0x000000000000000000000000;
  0x000000000000000000000000; 0x000000000000000000000000].
Definition fw_rows_08 : list Z := [
  0x000000000000000000000000; 0x000000000000000000000000; 0x000000000000000000000000; 0x000000000000000000000000;
  0x000000000000000000000000; 0x000000000000000000000000; 0x000000000000000000000000; 0x000000000000000000000000;
  0x000000000000000000000000; 0x000000000000000000000000; 0x000000000000000000000000; 0x000000000000000000000000;
  0x000000000000000000000000; 0x000000000000000000000000; 0x000000000000000000000000; 0x000000000000000000000000;
  0x000000000000000000000000; 0x000000000000000000000000; 0x000000000000000000000000; 0x000000000000000000000000;
  0x000000000000000000000000; 0x000000000000000000000000; 0x000000000000000000000000; 0x000000000000000000000000;
  0x000000000000000000000000; 0x000000000000000000000000; 0x000000000000000000000000; 0x000000000000000000000000;
  0x000000000000000000000000; 0x000000000000000000000000; 0x000000000000000000000000; 0x000000000000000000000000;
  0x000000000000000000000000; 0x000000000000000000000000; 0x000000000000000000000000; 0x000000000000000000000000;
  0x000000000000000000000000; 0x000000000000000000000000; 0x000000000000000000000000; 0x000000000000000000000000;
  0x000000000000000000000000; 0x000000000000000000000000; 0x000000000000000000000000; 0x000000000000000000000000;
  0x000000000000000000000000; 0x000000000000000000000000; 0x000000000000000000000000; 0x000000000000000000000000;
  0x000000000000000000000000; 0x000000000000000000000000; 0x000000000000000000000000; 0x000000000000000000000000;
  0x000000000000000000000000; 0x000000000000000000000000; 0x000000000000000000000000; 0x000000000000000000000000;
  0x000000000000000000000000; 0x000000000000000000000000; 0x000000000000000000000000; 0x000000000000000000000000;
  0x000000000000000000000000; 0x000000000000000000000000; 0x000000000000000000000000; 0x000000000000000000000000;
  0x000000000000000000000000; 0x000000000000000000000000; 0x000000000000000000000000; 0x000000000000000000000000;
  0x000000000000000000000000; 0x000000000000000000000000; 0x000000000000000000000000; 0x000000000000000000000000;
  0x000000000000000000000000; 0x000000000000000000000000; 0x000000000000000000000000; 0x000000000000000000000000;
  0x000000000000000000000000; 0x000000000000000000000000; 0x000000000000000000000000; 0x000000000000000000000000;
  0x000000000000000000000000; 0x000000000000000000000000; 0x000000000000000000000000; 0x000000000000000000000000;
  0x000000000000000000000000; 0x000000000000000000000000; 0x000000000000000000000000; 0x000000000000000000000000;
  0x000000000000000000000000; 0x000000000000000000000000; 0x000000000000000000000000; 0x000000000000000000000000;
  0x000000000000000000000000; 0x000000000000000000000000; 0x000000000000000000000000; 0x000000000000000000000000;
  0x000000000000000000000000; 0x000000000000000000000000; 0x000000000000000000000000; 0x000000000000000000000000;
  0x000000000000000000000000; 0x000000000000000000000000; 0x000000000000000000000000; 0x000000000000000000000000;
  0x000000000000000000000000; 0x000000000000000000000000; 0x000000000000000000000000; 0x000000000000000000000000;
  0x000000000000000000000000; 0x000000000000000000000000; 0x000000000000000000000000; 0x000000000000000000000000;
  0x000000000000000000000000; 0x000000000000000000000000; 0x000000000000000000000000; 0x000000000000000000000000;
  0x000000000000000000000000; 0x000000000000000000000000; 0x000000000000000000000000; 0x000000000000000000000000;
  0x000000000000000000000000; 0x000000000000000000000000; 0x000000000000000000000000; 0x000000000000000000000000;
  0x000000000000000000000000; 0x000000000000000000000000; 0x000000000000000000000000; 0x000000000000000000000000;
  0x000000000000000000000000; 0x000000000000000000000000; 0x000000000000000000000000; 0x000000000000000000000000;
  0x000000000000000000000000; 0x000000000000000000000000; 0x000000000000000000000000; 0x000000000000000000000000;
  0x000000000000000000000000; 0x000000000000000000000000; 0x000000000000000000000000; 0x000000000000000000000000;
  0x000000000000000000000000; 0x000000000000000000000000; 0x000000000000000000000000; 0x000000000000000000000000;
  0x000000000000000000000000; 0x000000000000000000000000; 0x000000000000000000000000; 0x000000000000000000000000;
  0x000000000000000000000000; 0x000000000000000000000000].
Definition fw_rows_09 : list Z := [
  0x000000000000000000000000; 0x000000000000000000000000; 0x000000000000000000000000; 0x000000000000000000000000;
  0x000000000000000000000000; 0x000000000000000000000000; 0x000000000000000000000000; 0x000000000000000000000000;
  0x000000000000000000000000; 0x000000000000000000000000; 0x000000000000000000000000; 0x000000000000000000000000;
  0x000000000000000000000000; 0x000000000000000000000000; 0x000000000000000000000000; 0x000000000000000000000000;
  0x000000000000000000000000; 0x000000000000000000000000; 0x000000000000000000000000; 0x000000000000000000000000;
  0x000000000000000000000000; 0x000000000000000000000000; 0x000000000000000000000000; 0x000000000000000000000000;
  0x000000000000000000000000; 0x000000000000000000000000; 0x000000000000000000000000; 0x000000000000000000000000;
  0x000000000000000000000000; 0x000000000000000000000000; 0x000000000000000000000000; 0x000000000000000000000000;
  0x000000000000000000000000; 0x000000000000000000000000; 0x000000000000000000000000; 0x000000000000000000000000;
  0x000000000000000000000000; 0x000000000000000000000000; 0x000000000000000000000000; 0x000000000000000000000000;
  0x000000000000000000000000; 0x000000000000000000000000; 0x000000000000000000000000; 0x000000000000000000000000;
  0x000000000000000000000000; 0x000000000000000000000000; 0x000000000000000000000000; 0x000000000000000000000000;
  0x000000000000000000000000; 0x000000000000000000000000; 0x000000000000000000000000; 0x000000000000000000000000;
  0x000000000000000000000000; 0x000000000000000000000000; 0x000000000000000000000000; 0x000000000000000000000000;
  0x000000000000000000000000; 0x000000000000000000000000; 0x000000000000000000000000; 0x000000000000000000000000;
  0x000000000000000000000000; 0x000000000000000000000000; 0x000000000000000000000000; 0x000000000000000000000000;
  0x000000000000000000000000; 0x000000000000000000000000; 0x000000000000000000000000; 0x000000000000000000000000;
  0x000000000000000000000000; 0x000000000000000000000000; 0x000000000000000000000000; 0x000000000000000000000000;
  0x000000000000000000000000; 0x000000000000000000000000; 0x000000000000000000000000; 0x000000000000000000000000;
  0x000000000000000000000000; 0x000000000000000000000000; 0x000000000000000000000000; 0x000000000000000000000000;
  0x000000000000000000000000; 0x000000000000000000000000; 0x000000000000000000000000; 0x000000000000000000000000;
  0x000000000000000000000000; 0x000000000000000000000000; 0x000000000000000000000000; 0x000000000000000000000000;
  0x000000000000000000000000; 0x000000000000000000000000; 0x000000000000000000000000; 0x000000000000000000000000;
  0x000000000000000000000000; 0x000000000000000000000000; 0x000000000000000000000000; 0x000000000000000000000000;
  0x000000000000000000000000; 0x000000000000000000000000; 0x000000000000000000000000; 0x000000000000000000000000;
  0x000000000000000000000000; 0x000000000000000000000000; 0x000000000000000000000000; 0x000000000000000000000000;
  0x000000000000000000000000; 0x000000000000000000000000; 0x000000000000000000000000; 0x000000000000000000000000;
  0x000000000000000000000000; 0x000000000000000000000000; 0x000000000000000000000000; 0x000000000000000000000000;
  0x000000000000000000000000; 0x000000000000000000000000; 0x000000000000000000000000; 0x000000000000000000000000;
  0x000000000000000000000000; 0x000000000000000000000000; 0x000000000000000000000000; 0x000000000000000000000000;
  0x000000000000000000000000; 0x000000000000000000000000; 0x000000000000000000000000; 0x000000000000000000000000;
  0x000000000000000000000000; 0x000000000000000000000000; 0x000000000000000000000000; 0x000000000000000000000000;
  0x000000000000000000000000; 0x000000000000000000000000; 0x000000000000000000000000; 0x000000000000000000000000;
  0x000000000000000000000000; 0x000000000000000000000000; 0x000000000000000000000000; 0x000000000000000000000000;
  0x000000000000000000000000; 0x000000000000000000000000; 0x000000000000000000000000; 0x000000000000000000000000;
  0x000000000000000000000000; 0x000000000000000000000000; 0x000000000000000000000000; 0x000000000000000000000000;
  0x000000000000000000000000; 0x000000000000000000000000; 0x000000000000000000000000; 0x000000000000000000000000;
  0x000000000000000000000000; 0x000000000000000000000000].
Definition fw_rows_10 : list Z := [
  0x000000000000000000000000; 0x000000000000000000000000; 0x000000000000000000000000; 0x000000000000000000000000;
  0x000000000000000000000000; 0x000000000000000000000000; 0x000000000000000000000000; 0x000000000000000000000000;
  0x000000000000000000000000; 0x000000000000000000000000; 0x000000000000000000000000; 0x000000000000000000000000;
  0x000000000000000000000000; 0x000000000000000000000000; 0x000000000000000000000000; 0x000000000000000000000000;
  0x000000000000000000000000; 0x000000000000000000000000; 0x000000000000000000000000; 0x000000000000000000000000;
  0x000000000000000000000000; 0x000000000000000000000000; 0x000000000000000000000000; 0x000000000000000000000000;
  0x000000000000000000000000; 0x000000000000000000000000; 0x000000000000000000000000; 0x000000000000000000000000;
  0x000000000000000000000000; 0x000000000000000000000000; 0x000000000000000000000000; 0x000000000000000000000000;
  0x000000000000000000000000; 0x000000000000000000000000; 0x000000000000000000000000; 0x000000000000000000000000;
  0x000000000000000000000000; 0x000000000000000000000000; 0x000000000000000000000000; 0x000000000000000000000000;
  0x000000000000000000000000; 0x000000000000000000000000; 0x000000000000000000000000; 0x000000000000000000000000;
  0x000000000000000000000000; 0x000000000000000000000000; 0x000000000000000000000000; 0x000000000000000000000000;
  0x000000000000000000000000; 0x000000000000000000000000; 0x000000000000000000000000; 0x000000000000000000000000;
  0x000000000000000000000000; 0x000000000000000000000000; 0x000000000000000000000000; 0x000000000000000000000000;
  0x000000000000000000000000; 0x000000000000000000000000; 0x000000000000000000000000; 0x000000000000000000000000;
  0x000000000000000000000000; 0x000000000000000000000000; 0x000000000000000000000000; 0x000000000000000000000000;
  0x000000000000000000000000; 0x000000000000000000000000; 0x000000000000000000000000; 0x000000000000000000000000;
  0x000000000000000000000000; 0x000000000000000000000000; 0x000000000000000000000000; 0x000000000000000000000000;
  0x000000000000000000000000; 0x000000000000000000000000; 0x000000000000000000000000; 0x000000000000000000000000;
  0x000000000000000000000000; 0x000000000000000000000000; 0x000000000000000000000000; 0x000000000000000000000000;
  0x000000000000000000000000; 0x000000000000000000000000; 0x000000000000000000000000; 0x000000000000000000000000;
  0x000000000000000000000000; 0x000000000000000000000000; 0x000000000000000000000000; 0x000000000000000000000000;
  0x000000000000000000000000; 0x000000000000000000000000; 0x000000000000000000000000; 0x000000000000000000000000;
  0x000000000000000000000000; 0x000000000000000000000000; 0x000000000000000000000000; 0x000000000000000000000000;
  0x000000000000000000000000; 0x000000000000000000000000; 0x000000000000000000000000; 0x000000000000000000000000;
  0x000000000000000000000000; 0x000000000000000000000000; 0x000000000000000000000000; 0x000000000000000000000000;
  0x000000000000000000000000; 0x000000000000000000000000; 0x000000000000000000000000; 0x000000000000000000000000;
  0x000000000000000000000000; 0x000000000000000000000000; 0x000000000000000000000000; 0x000000000000000000000000;
  0x000000000000000000000000; 0x000000000000000000000000; 0x000000000000000000000000; 0x000000000000000000000000;
  0x000000000000000000000000; 0x000000000000000000000000; 0x000000000000000000000000; 0x000000000000000000000000;
  0x000000000000000000000000; 0x000000000000000000000000; 0x000000000000000000000000; 0x000000000000000000000000;
  0x000000000000000000000000; 0x000000000000000000000000; 0x000000000000000000000000; 0x000000000000000000000000;
  0x000000000000000000000000; 0x000000000000000000000000; 0x000000000000000000000000; 0x000000000000000000000000;
  0x000000000000000000000000; 0x000000000000000000000000; 0x000000000000000000000000; 0x000000000000000000000000;
  0x000000000000000000000000; 0x000000000000000000000000; 0x000000000000000000000000; 0x000000000000000000000000;
  0x000000000000000000000000; 0x000000000000000000000000; 0x000000000000000000000000; 0x000000000000000000000000;
  0x000000000000000000000000; 0x000000000000000000000000; 0x000000000000000000000000; 0x000000000000000000000000;
  0x000000000000000000000000; 0x000000000000000000000000].
Definition fw_rows_11 : list Z := [
  0x000000000000000000000000; 0x000000000000000000000000; 0x000000000000000000000000; 0x000000000000000000000000;
  0x000000000000000000000000; 0x000000000000000000000000; 0x000000000000000000000000; 0x000000000000000000000000;
  0x000000000000000000000000; 0x000000000000000000000000; 0x000000000000000000000000; 0x000000000000000000000000;
  0x000000000000000000000000; 0x000000000000000000000000; 0x000000000000000000000000; 0x000000000000000000000000;
  0x000000000000000000000000; 0x000000000000000000000000; 0x000000000000000000000000; 0x000000000000000000000000;
  0x000000000000000000000000; 0x000000000000000000000000; 0x000000000000000000000000; 0x000000000000000000000000;
  0x000000000000000000000000; 0x000000000000000000000000; 0x000000000000000000000000; 0x000000000000000000000000;
  0x000000000000000000000000; 0x000000000000000000000000; 0x000000000000000000000000; 0x000000000000000000000000;
  0x000000000000000000000000; 0x000000000000000000000000; 0x000000000000000000000000; 0x000000000000000000000000;
  0x000000000000000000000000; 0x000000000000000000000000; 0x000000000000000000000000; 0x000000000000000000000000;
  0x000000000000000000000000; 0x000000000000000000000000; 0x000000000000000000000000; 0x000000000000000000000000;
  0x000000000000000000000000; 0x000000000000000000000000; 0x000000000000000000000000; 0x000000000000000000000000;
  0x000000000000000000000000; 0x000000000000000000000000; 0x000000000000000000000000; 0x000000000000000000000000;
  0x000000000000000000000000; 0x000000000000000000000000; 0x000000000000000000000000; 0x000000000000000000000000;
  0x000000000000000000000000; 0x000000000000000000000000; 0x000000000000000000000000; 0x000000000000000000000000;
  0x000000000000000000000000; 0x000000000000000000000000; 0x000000000000000000000000; 0x000000000000000000000000;
  0x000000000000000000000000; 0x000000000000000000000000; 0x000000000000000000000000; 0x000000000000000000000000;
  0x000000000000000000000000; 0x000000000000000000000000; 0x000000000000000000000000; 0x000000000000000000000000;
  0x000000000000000000000000; 0x000000000000000000000000; 0x000000000000000000000000; 0x000000000000000000000000;
  0x000000000000000000000000; 0x000000000000000000000000; 0x000000000000000000000000; 0x000000000000000000000000;
  0x000000000000000000000000; 0x000000000000000000000000; 0x000000000000000000000000; 0x000000000000000000000000;
  0x000000000000000000000000; 0x000000000000000000000000; 0x000000000000000000000000; 0x000000000000000000000000;
  0x000000000000000000000000; 0x000000000000000000000000; 0x000000000000000000000000; 0x000000000000000000000000;
  0x000000000000000000000000; 0x000000000000000000000000; 0x000000000000000000000000; 0x000000000000000000000000;
  0x000000000000000000000000; 0x000000000000000000000000; 0x000000000000000000000000; 0x000000000000000000000000;
  0x000000000000000000000000; 0x000000000000000000000000; 0x000000000000000000000000; 0x000000000000000000000000;
  0x000000000000000000000000; 0x000000000000000000000000; 0x000000000000000000000000; 0x000000000000000000000000;
  0x000000000000000000000000; 0x000000000000000000000000; 0x000000000000000000000000; 0x000000000000000000000000;
  0x000000000000000000000000; 0x000000000000000000000000; 0x000000000000000000000000; 0x000000000000000000000000;
  0x000000000000000000000000; 0x000000000000000000000000; 0x000000000000000000000000; 0x000000000000000000000000;
  0x000000000000000000000000; 0x000000000000000000000000; 0x000000000000000000000000; 0x000000000000000000000000;
  0x000000000000000000000000; 0x000000000000000000000000; 0x000000000000000000000000; 0x000000000000000000000000;
  0x000000000000000000000000; 0x000000000000000000000000; 0x000000000000000000000000; 0x000000000000000000000000;
  0x000000000000000000000000; 0x000000000000000000000000; 0x000000000000000000000000; 0x000000000000000000000000;
  0x000000000000000000000000; 0x000000000000000000000000; 0x000000000000000000000000; 0x000000000000000000000000;
  0x000000000000000000000000; 0x000000000000000000000000; 0x000000000000000000000000; 0x000000000000000000000000;
  0x000000000000000000000000; 0x000000000000000000000000; 0x000000000000000000000000; 0x000000000000000000000000;
  0x000000000000000000000000; 0x000000000000000000000000].
Definition fw_rows_12 : list Z := [
  0x000000000000000000000000; 0x000000000000000000000000; 0x000000000000000000000000; 0x000000000000000000000000;
  0x000000000000000000000000; 0x000000000000000000000000; 0x000000000000000000000000; 0x000000000000000000000000;
  0x000000000000000000000000; 0x000000000000000000000000; 0x000000000000000000000000; 0x000000000000000000000000;
  0x000000000000000000000000; 0x000000000000000000000000; 0x000000000000000000000000; 0x000000000000000000000000;
  0x000000000000000000000000; 0x000000000000000000000000; 0x000000000000000000000000; 0x000000000000000000000000;
  0x000000000000000000000000; 0x000000000000000000000000; 0x000000000000000000000000; 0x000000000000000000000000;
  0x000000000000000000000000; 0x000000000000000000000000; 0x000000000000000000000000; 0x000000000000000000000000;
  0x000000000000000000000000; 0x000000000000000000000000; 0x000000000000000000000000; 0x000000000000000000000000;
  0x000000000000000000000000; 0x000000000000000000000000; 0x000000000000000000000000; 0x000000000000000000000000;
  0x000000000000000000000000; 0x000000000000000000000000; 0x000000000000000000000000; 0x000000000000000000000000;
  0x000000000000000000000000; 0x000000000000000000000000; 0x000000000000000000000000; 0x000000000000000000000000;
  0x000000000000000000000000; 0x000000000000000000000000; 0x000000000000000000000000; 0x000000000000000000000000;
  0x000000000000000000000000; 0x000000000000000000000000; 0x000000000000000000000000; 0x000000000000000000000000;
  0x000000000000000000000000; 0x000000000000000000000000; 0x000000000000000000000000; 0x000000000000000000000000;
  0x000000000000000000000000; 0x000000000000000000000000; 0x000000000000000000000000; 0x000000000000000000000000;
  0x000000000000000000000000; 0x000000000000000000000000; 0x000000000000000000000000; 0x000000000000000000000000;
  0x000000000000000000000000; 0x000000000000000000000000; 0x000000000000000000000000; 0x000000000000000000000000;
  0x000000000000000000000000; 0x000000000000000000000000; 0x000000000000000000000000; 0x000000000000000000000000;
  0x000000000000000000000000; 0x000000000000000000000000; 0x000000000000000000000000; 0x000000000000000000000000;
  0x000000000000000000000000; 0x000000000000000000000000; 0x000000000000000000000000; 0x000000000000000000000000;
  0x000000000000000000000000; 0x000000000000000000000000; 0x000000000000000000000000; 0x000000000000000000000000;
  0x000000000000000000000000; 0x000000000000000000000000; 0x000000000000000000000000; 0x000000000000000000000000;
  0x000000000000000000000000; 0x000000000000000000000000; 0x000000000000000000000000; 0x000000000000000000000000;
  0x000000000000000000000000; 0x000000000000000000000000; 0x000000000000000000000000; 0x000000000000000000000000;
  0x000000000000000000000000; 0x000000000000000000000000; 0x000000000000000000000000; 0x000000000000000000000000;
  0x000000000000000000000000; 0x000000000000000000000000; 0x000000000000000000000000; 0x000000000000000000000000;
  0x000000000000000000000000; 0x000000000000000000000000; 0x000000000000000000000000; 0x000000000000000000000000;
  0x000000000000000000000000; 0x000000000000000000000000; 0x000000000000000000000000; 0x000000000000000000000000;
  0x000000000000000000000000; 0x000000000000000000000000; 0x000000000000000000000000; 0x000000000000000000000000;
  0x000000000000000000000000; 0x000000000000000000000000; 0x000000000000000000000000; 0x000000000000000000000000;
  0x000000000000000000000000; 0x000000000000000000000000; 0x000000000000000000000000; 0x000000000000000000000000;
  0x000000000000000000000000; 0x000000000000000000000000; 0x000000000000000000000000; 0x000000000000000000000000;
  0x000000000000000000000000; 0x000000000000000000000000; 0x000000000000000000000000; 0x000000000000000000000000;
  0x000000000000000000000000; 0x000000000000000000000000; 0x000000000000000000000000; 0x000000000000000000000000;
  0x000000000000000000000000; 0x000000000000000000000000; 0x000000000000000000000000; 0x000000000000000000000000;
  0x000000000000000000000000; 0x000000000000000000000000; 0x000000000000000000000000; 0x000000000000000000000000;
  0x000000000000000000000000; 0x000000000000000000000000; 0x000000000000000000000000; 0x000000000000000000000000;
  0x000000000000000000000000; 0x000000000000000000000000].
Definition fw_rows_13 : list Z := [
  0x000000000000000000000000; 0x000000000000000000000000; 0x000000000000000000000000; 0x000000000000000000000000;
  0x000000000000000000000000; 0x000000000000000000000000; 0x000000000000000000000000; 0x000000000000000000000000;
  0x000000000000000000000000; 0x000000000000000000000000; 0x000000000000000000000000; 0x000000000000000000000000;
  0x000000000000000000000000; 0x000000000000000000000000; 0x000000000000000000000000; 0x000000000000000000000000;
  0x000000000000000000000000; 0x000000000000000000000000; 0x000000000000000000000000; 0x000000000000000000000000;
  0x000000000000000000000000; 0x000000000000000000000000; 0x000000000000000000000000; 0x000000000000000000000000;
  0x000000000000000000000000; 0x000000000000000000000000; 0x000000000000000000000000; 0x000000000000000000000000;
  0x000000000000000000000000; 0x000000000000000000000000; 0x000000000000000000000000; 0x000000000000000000000000;
  0x000000000000000000000000; 0x000000000000000000000000; 0x000000000000000000000000; 0x000000000000000000000000;
  0x000000000000000000000000; 0x000000000000000000000000; 0x000000000000000000000000; 0x000000000000000000000000;
  0x000000000000000000000000; 0x000000000000000000000000; 0x000000000000000000000000; 0x000000000000000000000000;
  0x000000000000000000000000; 0x000000000000000000000000; 0x000000000000000000000000; 0x000000000000000000000000;
  0x000000000000000000000000; 0x000000000000000000000000; 0x000000000000000000000000; 0x000000000000000000000000;
  0x000000000000000000000000; 0x000000000000000000000000; 0x000000000000000000000000; 0x000000000000000000000000;
  0x000000000000000000000000; 0x000000000000000000000000; 0x000000000000000000000000; 0x000000000000000000000000;
  0x000000000000000000000000; 0x000000000000000000000000; 0x000000000000000000000000; 0x000000000000000000000000;
  0x000000000000000000000000; 0x000000000000000000000000; 0x000000000000000000000000; 0x000000000000000000000000;
  0x000000000000000000000000; 0x000000000000000000000000; 0x000000000000000000000000; 0x000000000000000000000000;
  0x000000000000000000000000; 0x000000000000000000000000; 0x000000000000000000000000; 0x000000000000000000000000;
  0x000000000000000000000000; 0x000000000000000000000000; 0x000000000000000000000000; 0x000000000000000000000000;
  0x000000000000000000000000; 0x000000000000000000000000; 0x000000000000000000000000; 0x000000000000000000000000;
  0x000000000000000000000000; 0x000000000000000000000000; 0x000000000000000000000000; 0x000000000000000000000000;
  0x000000000000000000000000; 0x000000000000000000000000; 0x000000000000000000000000; 0x000000000000000000000000;
  0x000000000000000000000000; 0x000000000000000000000000; 0x000000000000000000000000; 0x000000000000000000000000;
  0x000000000000000000000000; 0x000000000000000000000000; 0x000000000000000000000000; 0x000000000000000000000000;
  0x000000000000000000000000; 0x000000000000000000000000; 0x000000000000000000000000; 0x000000000000000000000000;
  0x000000000000000000000000; 0x000000000000000000000000; 0x000000000000000000000000; 0x000000000000000000000000;
  0x000000000000000000000000; 0x000000000000000000000000; 0x000000000000000000000000; 0x000000000000000000000000;
  0x000000000000000000000000; 0x000000000000000000000000; 0x000000000000000000000000; 0x000000000000000000000000;
  0x000000000000000000000000; 0x000000000000000000000000; 0x000000000000000000000000; 0x000000000000000000000000;
  0x000000000000000000000000; 0x000000000000000000000000; 0x000000000000000000000000; 0x000000000000000000000000;
  0x000000000000000000000000; 0x000000000000000000000000; 0x000000000000000000000000; 0x000000000000000000000000;
  0x000000000000000000000000; 0x000000000000000000000000; 0x000000000000000000000000; 0x000000000000000000000000;
  0x000000000000000000000000; 0x000000000000000000000000; 0x000000000000000000000000; 0x000000000000000000000000;
  0x000000000000000000000000; 0x000000000000000000000000; 0x000000000000000000000000; 0x000000000000000000000000;
  0x000000000000000000000000; 0x000000000000000000000000; 0x000000000000000000000000; 0x000000000000000000000000;
  0x000000000000000000000000; 0x000000000000000000000000; 0x000000000000000000000000; 0x000000000000000000000000;
  0x000000000000000000000000; 0x000000000000000000000000].
Definition fw_rows_14 : list Z := [
  0x000000000000000000000000; 0x000000000000000000000000; 0x000000000000000000000000; 0x000000000000000000000000;
  0x000000000000000000000000; 0x000000000000000000000000; 0x000000000000000000000000; 0x000000000000000000000000;
  0x000000000000000000000000; 0x000000000000000000000000; 0x000000000000000000000000; 0x000000000000000000000000;
  0x000000000000000000000000; 0x000000000000000000000000; 0x000000000000000000000000; 0x000000000000000000000000;
  0x000000000000000000000000; 0x000000000000000000000000; 0x000000000000000000000000; 0x000000000000000000000000;
  0x000000000000000000000000; 0x000000000000000000000000; 0x000000000000000000000000; 0x000000000000000000000000;
  0x000000000000000000000000; 0x000000000000000000000000; 0x000000000000000000000000; 0x000000000000000000000000;
  0x000000000000000000000000; 0x000000000000000000000000; 0x000000000000000000000000; 0x000000000000000000000000;
  0x000000000000000000000000; 0x000000000000000000000000; 0x000000000000000000000000; 0x000000000000000000000000;
  0x000000000000000000000000; 0x000000000000000000000000; 0x000000000000000000000000; 0x000000000000000000000000;
  0x000000000000000000000000; 0x000000000000000000000000; 0x000000000000000000000000; 0x000000000000000000000000;
  0x000000000000000000000000; 0x000000000000000000000000; 0x000000000000000000000000; 0x000000000000000000000000;
  0x000000000000000000000000; 0x000000000000000000000000; 0x000000000000000000000000; 0x000000000000000000000000;
  0x000000000000000000000000; 0x000000000000000000000000; 0x000000000000000000000000; 0x000000000000000000000000;
  0x000000000000000000000000; 0x000000000000000000000000; 0x000000000000000000000000; 0x000000000000000000000000;
  0x000000000000000000000000; 0x000000000000000000000000; 0x000000000000000000000000; 0x000000000000000000000000;
  0x000000000000000000000000; 0x000000000000000000000000; 0x000000000000000000000000; 0x000000000000000000000000;
  0x000000000000000000000000; 0x000000000000000000000000; 0x000000000000000000000000; 0x000000000000000000000000;
  0x000000000000000000000000; 0x000000000000000000000000; 0x000000000000000000000000; 0x000000000000000000000000;
  0x000000000000000000000000; 0x000000000000000000000000; 0x000000000000000000000000; 0x000000000000000000000000;
  0x000000000000000000000000; 0x000000000000000000000000; 0x000000000000000000000000; 0x000000000000000000000000;
  0x000000000000000000000000; 0x000000000000000000000000; 0x000000000000000000000000; 0x000000000000000000000000;
  0x000000000000000000000000; 0x000000000000000000000000; 0x000000000000000000000000; 0x000000000000000000000000;
  0x000000000000000000000000; 0x000000000000000000000000; 0x000000000000000000000000; 0x000000000000000000000000;
  0x000000000000000000000000; 0x000000000000000000000000; 0x000000000000000000000000; 0x000000000000000000000000;
  0x000000000000000000000000; 0x000000000000000000000000; 0x000000000000000000000000; 0x000000000000000000000000;
  0x000000000000000000000000; 0x000000000000000000000000; 0x000000000000000000000000; 0x000000000000000000000000;
  0x000000000000000000000000; 0x000000000000000000000000; 0x000000000000000000000000; 0x000000000000000000000000;
  0x000000000000000000000000; 0x000000000000000000000000; 0x000000000000000000000000; 0x000000000000000000000000;
  0x000000000000000000000000; 0x000000000000000000000000; 0x000000000000000000000000; 0x000000000000000000000000;
  0x000000000000000000000000; 0x000000000000000000000000; 0x000000000000000000000000; 0x000000000000000000000000;
  0x000000000000000000000000; 0x000000000000000000000000; 0x000000000000000000000000; 0x000000000000000000000000;
  0x000000000000000000000000; 0x000000000000000000000000; 0x000000000000000000000000; 0x000000000000000000000000;
  0x000000000000000000000000; 0x000000000000000000000000; 0x000000000000000000000000; 0x000000000000000000000000;
  0x000000000000000000000000; 0x000000000000000000000000; 0x000000000000000000000000; 0x000000000000000000000000;
  0x000000000000000000000000; 0x000000000000000000000000; 0x000000000000000000000000; 0x000000000000000000000000;
  0x000000000000000000000000; 0x000000000000000000000000; 0x000000000000000000000000; 0x000000000000000000000000;
  0x000000000000000000000000; 0x000000000000000000000000].
Definition fw_rows_15 : list Z := [
  0x000000000000000000000000; 0x000000000000000000000000; 0x000000000000000000000000; 0x000000000000000000000000;
  0x000000000000000000000000; 0x000000000000000000000000; 0x000000000000000000000000; 0x000000000000000000000000;
  0x000000000000000000000000; 0x000000000000000000000000; 0x000000000000000000000000; 0x000000000000000000000000;
  0x000000000000000000000000; 0x000000000000000000000000; 0x000000000000000000000000; 0x000000000000000000000000;
  0x000000000000000000000000; 0x000000000000000000000000; 0x000000000000000000000000; 0x000000000000000000000000;
  0x000000000000000000000000; 0x000000000000000000000000; 0x000000000000000000000000; 0x000000000000000000000000;
  0x000000000000000000000000; 0x000000000000000000000000; 0x000000000000000000000000; 0x000000000000000000000000;
  0x000000000000000000000000; 0x000000000000000000000000; 0x000000000000000000000000; 0x000000000000000000000000;
  0x000000000000000000000000; 0x000000000000000000000000; 0x000000000000000000000000; 0x000000000000000000000000;
  0x000000000000000000000000; 0x000000000000000000000000; 0x000000000000000000000000; 0x000000000000000000000000;
  0x000000000000000000000000; 0x000000000000000000000000; 0x000000000000000000000000; 0x000000000000000000000000;
  0x000000000000000000000000; 0x000000000000000000000000; 0x000000000000000000000000; 0x000000000000000000000000;
  0x000000000000000000000000; 0x000000000000000000000000; 0x000000000000000000000000; 0x000000000000000000000000;
  0x000000000000000000000000; 0x000000000000000000000000; 0x000000000000000000000000; 0x000000000000000000000000;
  0x000000000000000000000000; 0x000000000000000000000000; 0x000000000000000000000000; 0x000000000000000000000000;
  0x000000000000000000000000; 0x000000000000000000000000; 0x000000000000000000000000; 0x000000000000000000000000;
  0x000000000000000000000000; 0x000000000000000000000000; 0x000000000000000000000000; 0x000000000000000000000000;
  0x000000000000000000000000; 0x000000000000000000000000; 0x000000000000000000000000; 0x000000000000000000000000;
  0x000000000000000000000000; 0x000000000000000000000000; 0x000000000000000000000000; 0x000000000000000000000000;
  0x000000000000000000000000; 0x000000000000000000000000; 0x000000000000000000000000; 0x000000000000000000000000;
  0x000000000000000000000000; 0x000000000000000000000000; 0x000000000000000000000000; 0x000000000000000000000000;
  0x000000000000000000000000; 0x000000000000000000000000; 0x000000000000000000000000; 0x000000000000000000000000;
  0x000000000000000000000000; 0x000000000000000000000000; 0x000000000000000000000000; 0x000000000000000000000000;
  0x000000000000000000000000; 0x000000000000000000000000; 0x000000000000000000000000; 0x000000000000000000000000;
  0x000000000000000000000000; 0x000000000000000000000000; 0x000000000000000000000000; 0x000000000000000000000000;
  0x000000000000000000000000; 0x000000000000000000000000; 0x000000000000000000000000; 0x000000000000000000000000;
  0x000000000000000000000000; 0x000000000000000000000000; 0x000000000000000000000000; 0x000000000000000000000000;
  0x000000000000000000000000; 0x000000000000000000000000; 0x000000000000000000000000; 0x000000000000000000000000;
  0x000000000000000000000000; 0x000000000000000000000000; 0x000000000000000000000000; 0x000000000000000000000000;
  0x000000000000000000000000; 0x000000000000000000000000; 0x000000000000000000000000; 0x000000000000000000000000;
  0x000000000000000000000000; 0x000000000000000000000000; 0x000000000000000000000000; 0x000000000000000000000000;
  0x000000000000000000000000; 0x000000000000000000000000; 0x000000000000000000000000; 0x000000000000000000000000;
  0x000000000000000000000000; 0x000000000000000000000000; 0x000000000000000000000000; 0x000000000000000000000000;
  0x000000000000000000000000; 0x000000000000000000000000; 0x000000000000000000000000; 0x000000000000000000000000;
  0x000000000000000000000000; 0x000000000000000000000000; 0x000000000000000000000000; 0x000000000000000000000000;
  0x000000000000000000000000; 0x000000000000000000000000; 0x000000000000000000000000; 0x000000000000000000000000;
  0x000000000000000000000000; 0x000000000000000000000000; 0x000000000000000000000000; 0x000000000000000000000000;
  0x000000000000000000000000; 0x000000000000000000000000].
Definition fw_rows_16 : list Z := [
  0x000000000000000000000000; 0x000000000000000000000000; 0x000000000000000000000000; 0x000000000000000000000000;
  0x000000000000000000000000; 0x000000000000000000000000; 0x000000000000000000000000; 0x000000000000000000000000;
  0x000000000000000000000000; 0x000000000000000000000000; 0x000000000000000000000000; 0x000000000000000000000000;
  0x000000000000000000000000; 0x000000000000000000000000; 0x000000000000000000000000; 0x000000000000000000000000;
  0x000000000000000000000000; 0x000000000000000000000000; 0x000000000000000000000000; 0x000000000000000000000000;
  0x000000000000000000000000; 0x000000000000000000000000; 0x000000000000000000000000; 0x000000000000000000000000;
  0x000000000000000000000000; 0x000000000000000000000000; 0x000000000000000000000000; 0x000000000000000000000000;
  0x000000000000000000000000; 0x000000000000000000000000; 0x000000000000000000000000; 0x000000000000000000000000;
  0x000000000000000000000000; 0x000000000000000000000000; 0x000000000000000000000000; 0x000000000000000000000000;
  0x000000000000000000000000; 0x000000000000000000000000; 0x000000000000000000000000; 0x000000000000000000000000;
  0x000000000000000000000000; 0x000000000000000000000000; 0x000000000000000000000000; 0x000000000000000000000000;
  0x000000000000000000000000; 0x000000000000000000000000; 0x000000000000000000000000; 0x000000000000000000000000;
  0x000000000000000000000000; 0x000000000000000000000000; 0x000000000000000000000000; 0x000000000000000000000000;
  0x000000000000000000000000; 0x000000000000000000000000; 0x000000000000000000000000; 0x000000000000000000000000;
  0x000000000000000000000000; 0x000000000000000000000000; 0x000000000000000000000000; 0x000000000000000000000000;
  0x000000000000000000000000; 0x000000000000000000000000; 0x000000000000000000000000; 0x000000000000000000000000;
  0x000000000000000000000000; 0x000000000000000000000000; 0x000000000000000000000000; 0x000000000000000000000000;
  0x000000000000000000000000; 0x000000000000000000000000; 0x000000000000000000000000; 0x000000000000000000000000;
  0x000000000000000000000000; 0x000000000000000000000000; 0x000000000000000000000000; 0x000000000000000000000000;
  0x000000000000000000000000; 0x000000000000000000000000; 0x000000000000000000000000; 0x000000000000000000000000;
  0x000000000000000000000000; 0x000000000000000000000000; 0x000000000000000000000000; 0x000000000000000000000000;
  0x000000000000000000000000; 0x000000000000000000000000; 0x000000000000000000000000; 0x000000000000000000000000;
  0x000000000000000000000000; 0x000000000000000000000000; 0x000000000000000000000000; 0x000000000000000000000000;
  0x000000000000000000000000; 0x000000000000000000000000; 0x000000000000000000000000; 0x000000000000000000000000;
  0x000000000000000000000000; 0x000000000000000000000000; 0x000000000000000000000000; 0x000000000000000000000000;
  0x000000000000000000000000; 0x000000000000000000000000; 0x000000000000000000000000; 0x000000000000000000000000;
  0x000000000000000000000000; 0x000000000000000000000000; 0x000000000000000000000000; 0x000000000000000000000000;
  0x000000000000000000000000; 0x000000000000000000000000; 0x000000000000000000000000; 0x000000000000000000000000;
  0x000000000000000000000000; 0x000000000000000000000000; 0x000000000000000000000000; 0x000000000000000000000000;
  0x000000000000000000000000; 0x000000000000000000000000; 0x000000000000000000000000; 0x000000000000000000000000;
  0x000000000000000000000000; 0x000000000000000000000000; 0x000000000000000000000000; 0x000000000000000000000000;
  0x000000000000000000000000; 0x000000000000000000000000; 0x000000000000000000000000; 0x000000000000000000000000;
  0x000000000000000000000000; 0x000000000000000000000000; 0x000000000000000000000000; 0x000000000000000000000000;
  0x000000000000000000000000; 0x000000000000000000000000; 0x000000000000000000000000; 0x000000000000000000000000;
  0x000000000000000000000000; 0x000000000000000000000000; 0x000000000000000000000000; 0x000000000000000000000000;
  0x000000000000000000000000; 0x000000000000000000000000; 0x000000000000000000000000; 0x000000000000000000000000;
  0x000000000000000000000000; 0x000000000000000000000000; 0x000000000000000000000000; 0x000000000000000000000000;
  0x000000000000000000000000; 0x000000000000000000000000].
Definition fw_rows_17 : list Z := [
  0x000000000000000000000000; 0x000000000000000000000000; 0x000000000000000000000000; 0x000000000000000000000000;
  0x000000000000000000000000; 0x000000000000000000000000; 0x000000000000000000000000; 0x000000000000000000000000;
  0x000000000000000000000000; 0x000000000000000000000000; 0x000000000000000000000000; 0x000000000000000000000000;
  0x000000000000000000000000; 0x000000000000000000000000; 0x000000000000000000000000; 0x000000000000000000000000;
  0x000000000000000000000000; 0x000000000000000000000000; 0x0000000000000000a5500380; 0x010000000004000000000000;
  0x000000000000000000000000; 0x000000000000000000000000; 0x000000000000000000000000; 0x000000000000000000000000;
  0x9c8320802205500551051a15; 0x08080c09000cb00cb40cbc0c; 0x9019a409040a000b38080000; 0xdfde8f000100000006090c12;
  0x182430360102050b00000000; 0x0102030605060708090a0b2c; 0xff000102020405060708090a; 0x282832281e1919191818120f;
  0x1e1e191e18160c0c1e1e191e; 0x18160c0c1e1e191c18140c0a; 0x1e1e191e19180f0e1e1e1e1e; 0x1c1614120c0a1e1e1e1e1a16;
  0x12100c0a1e1e1e1e18160d0e; 0x0c0a0a0a0a0a0a0a0a0a0a0a; 0x121214120f0f0c0c09080807; 0x0a0a0907070605040c0c0a0a;
  0x090707060c0c0a0a09070706; 0x0c0c0a0a090707060a0a0808; 0x0807070604040c0c0a0a0907; 0x070605040c0c0a0a09070706;
  0x05040a0a0a0a0a0a0a0a0a0a; 0x020202040204060608080909; 0x040808080c10101804080808; 0x0c1010180508080910141c20;
  0x0406080a1018182003050809; 0x10141c242a2c0507090a1014; 0x1c282c3006080a0c12181e30; 0x38420a0c0c12161c20242430;
  0x010101010102030405060708; 0x010203040506070802040607; 0x080a0b0c03050607080a0b0c; 0x05060708090a0b0c02040607;
  0x08090b0c0c0c030506070809; 0x0b0c0c0c05060708090a0b0c; 0x0c0c05060708090a0b0c0c0c; 0x2c0004002d002c012d012c02;
  0x2e01ff002d02ff00362dff36; 0x2eff372fff41383039423142; 0x3a32433a33433a343a443544; 0x3bff372e403830413942313a;
  0x43323b43353c44ff3d45ff3e; 0x45ff453fff46ffff37412f39; 0x4231433a33443b35453dff46; 0x473e47ffff48ffff49ffffff;
  0xffff00000d14ff150eff150f; 0xff1610ff171e111e18121f18; 0x13181fff150eff161d10171e; 0x10181e11191fff1a20ff211b;
  0xff21ffff15130f171e11181f; 0x132019ff211bff22ffff23ff; 0xffffffff040404362cff2dff; 0xff2e37ff38412f3942304339;
  0x31423932433a33433a342d2c; 0xff362eff372f403830414233; 0x3943353a3b4334443c3b453d; 0x3c453e3d372eff382f403931;
  0x413a42ff433bff443cff453d; 0x3c463f454746454847470000; 0x04ffff0cffff0d14ff0e15ff; 0x160fff1710ff1711ff1712ff;
  0x0d0cff140eff150fff161d10; 0x171e12181f13192019201a19; 0x140eff151cff171d11181e13; 0x191f1e201a1f211b2022211b;
  0x00000000000000000024262a; 0x0000001f2125272800000000; 0x23262830000000002326282a; 0x000000002326282a00000000;
  0x24282a2c2e30000000002629; 0x2b2d2f3100000000282a2c2e; 0x30320000001f2326282a2a2a; 0x0100020005000b0006000900;
  0x0c0012001800240030003600; 0x0e001b002900360051006c00; 0x7a0087001b00360051006c00; 0xa200d800f3000e0129005100;
  0x7a00a200f30044016d019501; 0x36006c00a200d8004401b001; 0xe6011c020e001b0029003600; 0x51006c007a008700a200b400;
  0x1b00360051006c00a200d800; 0xf300ff002301440129005100; 0x7a00a200f300440164016401; 0xb501e60136006c00a200d800;
  0x4401b001e6011c028802d002; 0x14141515161717181c1c1c1c; 0x1d1d1e1e1c1c1d1e1f202020; 0x363637373839393a3a3a0000;
  0x404040404141424243430000; 0x404041424344444445460000; 0x00f001000000000000f00100; 0x0000000000f0070000000000;
  0x00f007000000000000030000; 0x000030c0e0000000000c0e38; 0x180000000083010680030000; 0x000070e00004000000000000;
  0xb24400000000000030f0216c; 0x18f0004cbc651ff7006c8cb9; 0x00650065006577f0206c80f0; 0x809c80f0206eccec1e2430f0;
  0x216cf4f71c4c809cbc6530f0; 0x216cf4f7184c809cfc659f67; 0x77f0246de0f290dd9d6777f0; 0x246de0f294dd9d67859c77f0;
  0x246de0f298dd20e8006530f0; 0x206cc0f1084c006e30f0206f; 0x2ff0084fc0dc044ce3ecb867; 0xfb2d30f0216c90f31c4c006e;
  0x30f0216ff0f4104fc0dc044c; 0xe3ecb867fb2d30f0216c15f0; 0x004c006e30f0216f18f0004f; 0xc0dc044ce3ecb867fb2d10f0;
  0x236cc0f0014c00ecfd630562; 0x04d010f0246b1cf4789b10f0; 0x236ac0f0014a40db001c9400; 0x801824078018020680182406;
  0x8018e4068018500680180007; 0x8018340430f0206aaef7549a; 0x30f0206840ea30f0206c30f0; 0x216a80f1084c15f0004a43dc;
  0xcef74098006d40ea30f0206b; 0x2df150db30f0206aeef7509a; 0x30f0206c6ff0084c016d40ea; 0x30f0216bf0f444db30f0206c;
  0x30f0216a2ff0084c15f4004a; 0x43dccef74098006d40ea30f0].
Definition fw_rows_18 : list Z := [
  0x216bd0f45cdb001844e110f0; 0x246afcf56c9afff71f6c10f0; 0x006d40ababed8ceaadea8cea; 0x40cb30f0206aaef7589a40ea;
  0x001c9545ff17006520e80065; 0x6db8006500f0206a7c4a6cea; 0x1c2200f0206b284b6aea0b61; 0x4eb8006500f0206b014b6be2;
  0x60aabff61a6a6aea316077f0; 0x246aa0f11c4a1df4006b60da; 0x10f0236a24f0114a00ea00f0; 0x206a1ff7006a4ceb4cb80065;
  0x6cea423230f0206b00f0004b; 0x49e340a230f0206b40f1084b; 0x69e230f0206b4ef2084b609b; 0x052b10f0236b80f3014b00eb;
  0x10f0236b00f4154b00eb0065; 0x30f0206a0df11c4a00f0206b; 0x016b60da10f0236b40f2094b; 0x00eb00655ab800657bb80065;
  0x40e85ab90065006500657bb9; 0x00650065006530f0206a0df1; 0x1c4a00f0206b60da30f0206a; 0x2df1184a609a419a6aea0d61;
  0x6eb800656243cbb900650065; 0x00655ab800657bb8006500ba; 0x00653623dff7000386dba7db; 0xc8dbe9db0adb2bdb98678cdb;
  0x9f678edb12ec10ed82dba3db; 0x9ab8006584db9bb8006585db; 0x8eb80065824481db8cb80065; 0x80db30f0206b2df1184b609b;
  0x9d6789db6a9bcff7804462ec; 0x0d6077f0246ca0f11c4c1df4; 0x016b60dc10f0236c24f0114c; 0x00ec006530f0206b2df1184b;
  0x419b40db899abc657d67dff7; 0x00034cb8006500f0206d054d; 0xafedaceaa09b046c8cedadea; 0x829ba39b32ec30ed8e9bfc65;
  0x8c9b1c65849b5cb900650065; 0x0065859b7cb9006500650065; 0x2b9b0a9be99bc89ba79b869b; 0x619bcbb90065006500658ab9;
  0x0065006500657bb800655ab8; 0x006500badff7000386dba7db; 0xc8dbe9db0adb2bdb98678cdb; 0x9f678edb12ec10ed82dba3db;
  0x9ab8006584db9bb8006585db; 0x7d675bb9006500650065409a; 0x30f0206cadf1084c00f4004c; 0xbc65826740ea00657ab80065;
  0xbb65dff70003829ba39b32ec; 0x30ed8e9bfc658c9b1c65849b; 0x5cb9006500650065859b7cb9; 0x0065006500652b9b0a9be99b;
  0xc89ba79b869b5ab800657bb8; 0x006500ba0065006530f0206b; 0x0df11c4b40dbdff7000386db; 0xa7dbc8dbe9db0adb2bdb9867;
  0x8cdb9f678edb12ec10ed82db; 0xa3db9ab8006584db9bb80065; 0x85db8eb8006581db8cb80065; 0x80db30f0206b2df1184b609b;
  0x9d6789db6a9bcff7804462ec; 0x0d6077f0246ca0f11c4c1df4; 0x016b60dc10f0236c24f0114c; 0x00ec0065409a30f0206cadf1;
  0x084c00f4004cbc65826740ea; 0x30f0206c0df11c4c00f0206d; 0xa0dc30f0206a2df1184a10f0; 0x236ba0f41d4b00eb619a60da;
  0x499bba65dff700034cb80065; 0x00f0206d054dafedaceaa09b; 0x00f0206c044c8cedadea829b; 0xa39b32ec30ed8e9bfc658c9b;
  0x1c65849b5cb9006500650065; 0x859b7cb90065006500652b9b; 0x0a9be99bc89ba79b869b619b; 0xcbb90065006500658ab90065;
  0x006500657bb800655ab80065; 0x00ba00655f675ab900650065; 0x0065001866c0001ca9415ab8; 0x006500ea6db800f0206a00f2;
  0x004a4fea4cebabb900650065; 0x00655f675ab9006500650065; 0x001c6c415ab8006500ea0065; 0xfd630562001888c105970363;
  0x00ef0065fd63056200187bc1; 0x0597036300ef0065fd630562; 0x0018b6c10597036300ef0065; 0xfd6305620018fbc205970363;
  0x00ef0065fd630562001818c3; 0x0597036300ef0065fd630562; 0x001875c10597036300ef0065; 0x10f0246b1cf4789b10f0236a;
  0xc0f5154a40db014a40db20e8; 0xfc63076206d105d010f0246a; 0x1cf4389a10f02368e0f50d48; 0x00d930f0206acef3409a0148;
  0x40ea00d90797069105900463; 0x00ef006510f0246b1cf4789b; 0x10f0236a20f6014a40db10f0; 0x246a1df24c9ac09a10f0246a;
  0x1df2509aa09a10f0246a1df2; 0x549a809a10f0246a1df2589a; 0x409a332210f0246adcf4789a; 0x10f0246f9cf5f89f409bedea;
  0x40db10f0246a1df25c9aff6b; 0xc0da10f0246a3df2409aa0da; 0x10f0246a3df2449a106dabed; 0x80da10f0246a3df2889a40a4;
  0x6ceaacea026dadea6cea40c4; 0x10f0246abcf58c9a806dabed; 0x40a46ceaaeea6cea40c410f0; 0x246b1cf4789b10f0236a20f6;
  0x024a40db20e80065fd630562; 0x10f0246b1cf4789b10f0236a; 0xc0f6194a40db0018b6e330f0; 0x206a00f26c9a6c23016a6cea;
  0x02220018e7e330f0206a00f2; 0x4c9a026b6cea02220018dae6; 0x30f0206a00f24c9a046b6cea; 0x02220018c1e630f0206a00f2;
  0x4c9a086b6cea02220018e8e3; 0x30f0206a00f24c9a106b6cea; 0x02220018e9e330f0206a00f2; 0x4c9a206b6cea02220018eae3;
  0x30f0206a00f24c9a406b6cea; 0x02220018ebe330f0206a00f2; 0x4c9a806b6cea02220018bde6; 0x30f0206b00f26c9bff6a014a;
  0x6cea02220018b5e630f0206b; 0x00f26c9b04f0006a6cea0222; 0x0018ece330f0206b00f26c9b; 0x08f0006a6cea02220018ede3;
  0x30f0206b00f26c9b10f0006a; 0x6cea02220018eee330f0206a; 0x00f2709aa0f10823016a6cea; 0x0222001894e630f0206a00f2;
  0x509a026b6cea02220018efe3; 0x30f0206a00f2509a046b6cea; 0x0322006c00189ee410f0246a; 0x30f0206bbcf4589a00f2749b;
  0x6cea0322016c00189ee410f0; 0x246a30f0206b9cf5589a00f2; 0x749b6cea0322026c00189ee4; 0x10f0246a30f0206b5cf5509a;
  0x00f2749b6cea0322036c0018; 0x9ee410f0246a30f0206b7cf4].
Definition fw_rows_19 : list Z := [
  0x549a00f2749b6cea0322046c; 0x00189ee430f0206a00f2509a; 0x086b6cea0322006c0018f0e3; 0x10f0246a30f0206bbcf45c9a;
  0x00f2749b6cea0322016c0018; 0xf0e310f0246a30f0206b3df2; 0x4c9a00f2749b6cea0322026c; 0x0018f0e310f0246a30f0206b;
  0xbcf5489a00f2749b6cea0322; 0x036c0018f0e310f0246a30f0; 0x206b7cf4589a00f2749b6cea; 0x0322046c0018f0e330f0206a;
  0x00f2509a106b6cea0322006c; 0x0018f6e310f0246a30f0206b; 0xdcf4409a00f2749b6cea0322; 0x016c0018f6e310f0246a30f0;
  0x206bdcf45c9a00f2749b6cea; 0x0322026c0018f6e310f0246a; 0x30f0206bdcf5489a00f2749b; 0x6cea0322036c0018f6e310f0;
  0x246a30f0206b9cf4409a00f2; 0x749b6cea0322046c0018f6e3; 0x30f0206a00f2509a206b6cea; 0x0322006c0018f7e310f0246a;
  0x30f0206bdcf4449a00f2749b; 0x6cea0322016c0018f7e310f0; 0x246a30f0206bfdf15c9a00f2; 0x709b6cea0322026c0018f7e3;
  0x10f0246a30f0206b3df2509a; 0x00f2749b6cea0322036c0018; 0xf7e330f0206a00f2549a0052; 0x0360046c0018f7e330f0206b;
  0x00f2709b04f0006a6cea0322; 0x006c0018c0e530f0206b00f2; 0x709b08f0006a6cea0322006c; 0x001888e530f0206b00f2709b;
  0x10f0006a6cea042200180de4; 0x001894f010f0246a30f0206b; 0xbcf4589a00f2709b6cea0422; 0x001815e400189cf010f0246a;
  0x30f0206bbcf45c9a00f2709b; 0x6cea042200181de40018a4f0; 0x30f0206a00f2509a406b6cea; 0x0422001874e6001821f630f0;
  0x206a00f2509a806b6cea0422; 0x001819e6001804f330f0206b; 0x00f2709bff6a014a6cea0422; 0x001854e600181df630f0206b;
  0x00f2709b00f2006a6cea0422; 0x0018fee5001800f330f0206b; 0x00f2709b00f4006a6cea0422; 0x001834e6001819f630f0206b;
  0x00f2709b01f0006a6cea0422; 0x0018e3e50018fcf230f0206b; 0x00f2709b02f0006a6cea0222; 0x0018f8e310f0246a30f0206b;
  0x5cf5509a00f2709b6cea0222; 0x001826e410f0246a30f0206b; 0xbcf5489a00f2709b6cea0222; 0x001884e530f0206a00f2749a;
  0x5523016a6cea0322016c0018; 0xc0e530f0206a00f2549a026b; 0x6cea0322016c001888e530f0; 0x206a00f2549a046b6cea0322;
  0x026c0018c0e530f0206a00f2; 0x549a086b6cea0322026c0018; 0x88e530f0206a00f2549a106b; 0x6cea0322036c0018c0e530f0;
  0x206a00f2549a206b6cea0322; 0x036c001888e530f0206a00f2; 0x549a406b6cea0322046c0018; 0xc0e530f0206a00f2549a806b;
  0x6cea0322046c001888e510f0; 0x246b1cf4789b10f0236ac0f6; 0x1a4a40db0597036300ef0065; 0xfd63056204d010f0246b1cf4;
  0x789b10f0236ae1f30d4a40db; 0x001886e330f0206ae0f15c9a; 0x2222006830f0206be0f17c9b; 0x02f0006a44e86cea03229067;
  0x0018e5e601481070f16130f0; 0x206ae0f15c9a806b6cea0222; 0x001823e710f0246b1cf4789b; 0x10f0236ae1f30e4a40db0597;
  0x0490036300ef0065fd630562; 0x10f0246b1cf4789b10f0236a; 0x61f4014a40db00188de330f0; 0x206ac0f17c9a6123086a6cea;
  0x0322006c00184ae430f0206a; 0xc0f15c9a026b6cea02220018; 0xcae330f0206ac0f15c9a106b; 0x6cea022200181fe730f0206a;
  0xc0f15c9a206b6cea02220018; 0x1be730f0206ac0f15c9a406b; 0x6cea02220018cfe330f0206a; 0xc0f15c9a806b6cea052230f0;
  0x206a6ef2509a40ea30f0206b; 0xc0f17c9bff6a014a6cea0222; 0x001817e730f0206bc0f17c9b; 0x00f2006a6cea0222001813e7;
  0x10f0246a30f0206b3df2549a; 0xc0f17c9b6cea0d2210f0246a; 0x5cf5509a6cea0422006c0018; 0x26e50310006c00182ce430f0;
  0x206ae0f1609a7d2310f0246a; 0x3df24c9a6cea0322006c0018; 0xc9e410f0246a30f0206bdcf4; 0x5c9ae0f1609b6cea0322016c;
  0x0018c9e410f0246a30f0206b; 0xfdf15c9ae0f1609b6cea0322; 0x026c0018c9e410f0246a30f0; 0x206b5cf5509ae0f1609b6cea;
  0x0322036c0018c9e410f0246a; 0x30f0206bbcf5489ae0f1609b; 0x6cea0322046c0018c9e410f0; 0x246a30f0206bbcf45c9ae0f1;
  0x609b6cea0322006c00182de4; 0x10f0246a30f0206bdcf4409a; 0xe0f1609b6cea0322006c0018; 0x7de410f0246a30f0206bdcf4;
  0x449ae0f1609b6cea0322006c; 0x0018a8e410f0246a30f0206b; 0x9cf5589ae0f1609b6cea0322; 0x006c001865e410f0246a30f0;
  0x206bbcf4589ae0f1609b6cea; 0x0222001808e730f0206ae0f1; 0x649a7823016a6cea0322006c; 0x00187de730f0206ae0f1449a;
  0x026b6cea0322106c001830e7; 0x30f0206ae0f1449a046b6cea; 0x0322206c001830e730f0206a; 0xe0f1449a086b6cea0322306c;
  0x001830e730f0206ae0f1449a; 0x106b6cea0322406c001830e7; 0x30f0206ae0f1449a206b6cea; 0x0322506c001830e730f0206a;
  0xe0f1449a406b6cea0322606c; 0x001830e730f0206ae0f1449a; 0x806b6cea0322706c001830e7; 0x30f0206be0f1649bff6a014a;
  0x6cea0322016c00187de730f0; 0x206be0f1649b00f2006a6cea; 0x0322026c00187de730f0206b; 0xe0f1649b00f4006a6cea0322;
  0x036c00187de730f0206be0f1; 0x649b01f0006a6cea0322046c; 0x00187de730f0206ae0f1689a; 0xa0f01323016a6cea0322006c;
  0x0018f3e630f0206ae0f1489a; 0x026b6cea0322106c0018eae6].
Definition fw_rows_20 : list Z := [
  0x30f0206ae0f1489a046b6cea; 0x0322206c0018eae630f0206a; 0xe0f1489a086b6cea0322306c; 0x0018eae630f0206ae0f1489a;
  0x106b6cea0322406c0018eae6; 0x30f0206ae0f1489a206b6cea; 0x0322506c0018eae630f0206a; 0xe0f1489a406b6cea0322606c;
  0x0018eae630f0206ae0f1489a; 0x806b6cea0322706c0018eae6; 0x30f0206be0f1689bff6a014a; 0x6cea0322016c0018f3e630f0;
  0x206be0f1689b00f2006a6cea; 0x0322026c0018f3e630f0206b; 0xe0f1689b00f4006a6cea0322; 0x036c0018f3e630f0206be0f1;
  0x689b01f0006a6cea0322046c; 0x0018f3e630f0206be0f1689b; 0x10f0006a6cea0322006c0018; 0x6cc710f0246a30f0206b7cf4;
  0x549ae0f1689b6cea0322016c; 0x00186cc710f0246a30f0206b; 0x7cf4589ae0f1689b6cea0322; 0x026c00186cc710f0246a30f0;
  0x206b9cf4409ae0f1689b6cea; 0x0322036c00186cc730f0206a; 0xe0f1489a00520360046c0018; 0x6cc730f0206ae0f16c9ac0f0;
  0x1823016a6cea0322016c0018; 0x2de430f0206ae0f14c9a026b; 0x6cea0322016c00187de430f0; 0x206ae0f14c9a046b6cea0322;
  0x016c0018a8e430f0206ae0f1; 0x4c9a086b6cea0322016c0018; 0x65e430f0206ae0f14c9a106b; 0x6cea0322026c00182de430f0;
  0x206ae0f14c9a206b6cea0322; 0x026c00187de430f0206ae0f1; 0x4c9a406b6cea0322026c0018; 0xa8e430f0206ae0f14c9a806b;
  0x6cea0322026c001865e430f0; 0x206be0f16c9bff6a014a6cea; 0x0322036c00182de430f0206b; 0xe0f16c9b00f2006a6cea0322;
  0x036c00187de430f0206be0f1; 0x6c9b00f4006a6cea0322036c; 0x0018a8e430f0206be0f16c9b; 0x01f0006a6cea0322036c0018;
  0x65e430f0206be0f16c9b02f0; 0x006a6cea0322046c00182de4; 0x30f0206be0f16c9b04f0006a; 0x6cea0322046c00187de430f0;
  0x206be0f16c9b08f0006a6cea; 0x0322046c0018a8e430f0206b; 0xe0f16c9b10f0006a6cea0322; 0x046c001865e410f0246a30f0;
  0x206bbcf4589ae0f16c9b6cea; 0x0322016c00184ae410f0246a; 0x30f0206bbcf45c9ae0f16c9b; 0x6cea0322026c00184ae410f0;
  0x246a30f0206bdcf4409ae0f1; 0x6c9b6cea0322036c00184ae4; 0x10f0246a30f0206bdcf4449a; 0xe0f16c9b6cea0322046c0018;
  0x4ae410f0246b1cf4789b10f0; 0x236a61f4024a40db05970363; 0x00ef0065fd63056230f0206a; 0x4ef24c9a30f0206cc8f4124c;
  0x006d016e40ea30f0206ac0f1; 0x084a08f38aa2036b6beb8ceb; 0x08f36ac2006b08f36bc208f3; 0x6cc208f36dc20c6b08f36ec2;
  0x0597036300ef0065fd630562; 0x04d010f0246a3cf5489a60a2; 0x4223006b60c210f0246abcf4; 0x509a026b30f0206860c2c0f1;
  0x084868f379a0026aff6c6cea; 0x8cea0b22036a4bea4ceb68f3; 0x79c068f37da06cea68f35dc0; 0x241088f345a068f37da0014a;
  0x88f345c0116a4bea6cea68f3; 0x5dc088f365a0e8f344a063ea; 0x126030f0206b30f0206a6ef5; 0x589aeff689a340ea01720761;
  0x68f379a0216a4bea6cea68f3; 0x59c005970490036300ef0065; 0xff6a4cec1f6b8ceb96344cec; 0x01740b60052402740d600374;
  0x106020e810f0246a7cf5989a; 0x0e1010f0246a7cf59c9a0910; 0x10f0246a9cf5809a041010f0; 0x246a9cf5849aa09c016a44eb;
  0xadea40dc20e80065ff6a4cec; 0x1f6b8ceb96344cec01740b60; 0x052402740d600374106020e8; 0x10f0246a7cf5989a0e1010f0;
  0x246a7cf59c9a091010f0246a; 0x9cf5809a041010f0246a9cf5; 0x849aa09c016a44eb4feaacea; 0x40dc20e8fc63076206d105d0;
  0xff6a8cea055a0068246010f0; 0x246b48349bf70c4b8de3609b; 0x00eb10f0246bfcf4689b1310; 0x10f0246bfcf46c9b0e1010f0;
  0x246bfcf4709b091010f0246b; 0xfcf4749b041010f0246bfcf4; 0x789b60abfff71f686ce818f0; 0x006b0ceb0f2b30f0206bc0f1;
  0x084b68f39da3026a4bea8cea; 0x036c8bec8cea68f35dc37910; 0x08f0006b0ceb422330f0206b; 0xc0f1084b68f3d4a37f6dff6c;
  0xcced02751f6168f357a3016d; 0xacea8cea062a68f35da34ded; 0x68f3bdc3211068f3b5a3106a; 0x4beaacea8cea10722e6168f3;
  0x9da3046a006d8dea68f35dc3; 0x016c001874d2231068f3dda3; 0x016dcded68f3bdc368f3b5a3; 0x106b6bebaceb8ceb20730660;
  0x30f0206a2ef4549a40ea0f10; 0x8267001894ce0b1030f0206a; 0xc0f1084a68f39da2026b6beb; 0x8ceb68f37dc202301e301a20;
  0x30f02068c0f1084868f35da0; 0x0269e8f3c5a02dea68f35dc0; 0x30f0206aaef2509aff6c554c; 0x006d40ea68f359a04de968f3;
  0x39c00b1030f0206ac0f1084a; 0x68f39da2036b6beb8ceb68f3; 0x7dc2079706910590046300ef; 0xfd63056204d0ff688ce80018;
  0x09c9032a906700188bce0597; 0x0490036300ef0065fd630562; 0x001882f00172016c0160026c; 0x00180df40597036300ef0065;
  0x30f0206beff666abff6a4cec; 0x71e44cec10f0246a7cf5549a; 0x80c210f0246a9cf5489a80c2; 0x20e80065fd63056230f0206a;
  0x4ef2509aa46730f0206ceff6; 0x004c056e40ea0597036300ef; 0xfc63076206d105d010f0246b; 0xbcf4184b30f02069ff68ace8;
  0xcef45099a09b82f0006c016e; 0x40ea10f0246bdcf5a89bcef4; 0x5099006c016e40ea016da1f4; 0x186cabed00189ce701700f60;
  0x0320027016601f1010f0246b; 0xbcf4184b609b6dea10f0246b].
Definition fw_rows_21 : list Z := [
  0x9cf76c9b131010f0246b9cf7; 0x709b6dea10f0246b9cf7749b; 0x091010f0246b9cf7789b6dea; 0x10f0246b9cf77c9b6cea30f0;
  0x206bcef4709b016da1f4186c; 0xabedc26740eb079706910590; 0x046300efff6a4cedff754cec; 0xccea066130f0206bc0f1084b;
  0x71e40b1030f0206bc0f1084b; 0x71e40cf77ea4aceaafed6ced; 0xadea0cf75ec420e8f7631162; 0x10d10fd040a408d208931f6a;
  0x4ceb08d342a461a40bd243a4; 0x84a409d40894085c80f01160; 0x84300994012c2822ff692cea; 0x2ceba267c36790670cd20dd3;
  0x0018b1c50b94099341402cec; 0x0bd40b962cea2ceb8267a367; 0x30f020690ad209d30018b1c5; 0xcef244990c950d969067016f;
  0x40eacef244990a9409950b96; 0x026f40ea0f58086010f0246a; 0x0833bcf2084a69e2409a00ea; 0x006a4410d0f444401ff7006b;
  0x6cea052a10f0246a7df0489a; 0x341010f0246a7cf5589a2f10; 0x80f444401ff7006b6cea052a; 0x10f0246a7df04c9a241010f0;
  0x246a9cf5449a1f10c0f44840; 0x1ff7006b6cea052a10f0246a; 0x7df0509a141010f0246a7df0; 0x549a0f1070f448401ff7006b;
  0x6cea052a10f0246a7df0589a; 0x041010f0246a7df05c9a49e0; 0x60aafff71f6a6cea7d6753c3; 0x423254c330f0206ac0f1084a;
  0x41e00cf75ea055c30cf75fa0; 0x56c32cf74ea057c32cf74fa0; 0x58c39d67216a50c4076a4fcc; 0x4744194a40a252c430f0206a;
  0xaef2589a040440ea11971091; 0x0f90096300ef0065ff6a4cec; 0xff74acea056130f0206b0df1; 0x46c320e830f0206bc0f1084b;
  0x2cf7bea38cea8fecacec8dea; 0x2cf75ec320e80065fa630b62; 0x0ad109d001a420a40c209067; 0xb16700181bc630f0206a6ef2;
  0x589a9067b167536e40ea7d67; 0x206a50c3036a4fcb10f0246a; 0xbcf4549a9d6740a252c330f0; 0x206ac0f1084a2cf77ea22cf7;
  0x5fa273c454c430f0206aaef2; 0x589a040440ea0b970a910990; 0x066300effc63076230f0206a; 0x4ef2509aa46730f0206ceff6;
  0x084c076e40ea30f0206aeff6; 0x48a2055a136010f0246b4832; 0xfcf2044b4de3409b00ea006c; 0x0710016c0510026c0310036c;
  0x0110046c001874e230f0206b; 0xc0f1084b69f348a31f6c016d; 0x4a328cea30f0206ceff688a4; 0x47ecacea032269f389c30410;
  0x016a4bea69f349c330f0206a; 0xc0f1084a69f388a2026b8ceb; 0x1c23036b6beb8ceb69f368c2; 0x001899e904d230f0206a0493;
  0xeff5409a6eea032204940018; 0xbae930f0206ac0f1084a69f3; 0x88a2026b8deb69f368c20797; 0x046300effd63056230f0206a;
  0x4ef2509aa46730f0206caff5; 0x144c046e40ea0018c4cb0597; 0x036300effb63096208d107d0; 0x10f0246a9df0149a0ad4ff69;
  0x40a00a9530f0206c626730f0; 0x206a4ef2509a2ceb05d3c8f4; 0x124c016e40ea10f0246a9df0; 0x789af86a80a38cea40c310f0;
  0x246a9df05c9a026b006c60c2; 0x10f0246bbdf0609b80c310f0; 0x246bbdf0649b206c80c340a2; 0x10f0246bbdf0689b2cea5032;
  0x014a2cea40c30a94026b40a4; 0x6cea2ceaa0f00a2230f0206c; 0xc0f1084c04d408f36aa4016a; 0x6cea2cea80f0132230f0206b;
  0x4ef2549b016cc06d40ea0492; 0x0594206808f36aa2046a8de8; 0x6cea2cea2ce81a2210f0246a; 0xbdf04c9a016c10f0006d60a2;
  0x2ceb60c230f0206b4ef2549b; 0x40ea10f0246a5cf4749a026c; 0x40a32cea8dea2cea40c30a10; 0x0493016c10f0006d08f34bc3;
  0x08f34cc30018ece130f0206a; 0xc8f492a2086aff6b8cea0d22; 0x026a4de810f0246a5cf4949a; 0x016d6ce840a46ceaadea6cea;
  0x40c430f0206ac8f492a2106a; 0xff6b8cea0d22046a4de810f0; 0x246a5cf4949a016d6ce840a4; 0x6ceaadea6cea40c430f0206a;
  0xc8f472a2206a6cea0522806a; 0x4bea4de8ff6a4ce830f0206a; 0xc8f472a2406a4ceb032b4de8; 0xff6a4ce810f0246a9df0549a;
  0x00c230f0206ac8f455a2032a; 0x016c00180df430f0206ac8f4; 0x72a2406a046c6cea052a0018; 0x82f0016c012a026c00180df4;
  0xa91040c0049408f34da40472; 0xc0f00f61006c00180df4cb10; 0x30f0206ac0f1084a04d208f3; 0x4aa2016b6cea2cea80f01922;
  0x30f0206c4ef2549cc06d8367; 0x40ea10f0246b5cf4144b0592; 0x609b20684de840a3016c2ce8; 0x2cea8dea2cea40c30494046a;
  0x08f36aa46cea2cea1b2210f0; 0x246abdf04c9a016c10f0006d; 0x60a22ceb60c230f0206b4ef2; 0x549b40ea10f0246c5cf4144c;
  0x809c026b40a42cea6dea2cea; 0x40c40510016c10f0006d0018; 0xece130f0206ac8f472a2086a; 0x6cea0422026a4de8ff6a4ce8;
  0x30f0206ac8f472a2106a6cea; 0x0422046a4de8ff6a4ce810f0; 0x246a9df0749a406dff6c00c3; 0x30f02068c0f1084808f34aa0;
  0xacea0b2208f34ea002722c60; 0x30f0206a2ef4489a026c006d; 0x1e1040a38ceaadea8cea40c3; 0x08f34ea0027218610018a5cc;
  0x001882f00172096130f0206a; 0x2ef4489a68f398a0016d006e; 0x071030f0206a2ef4489a006c; 0xa467c56740ea041068f35ca0;
  0x08f34ec010f0246abdf0509a; 0x226b60c2261040c0049308f3; 0x4ea30272066130f0206a2ef4; 0x489a046c07100872086130f0;
  0x206a2ef4489a0c6c016d006e; 0x40ea006c001865c530f0206b; 0x30f0206a2ef4489a48f580a3; 0x016d006e40ea0018a3c40997;
  0x08910790056300effd630562; 0xff6a64674ceb876701734ced].
Definition fw_rows_22 : list Z := [
  0x4cee4cec0661017502610176; 0x0760006d0a10017506610176; 0x016d05600018a0df0410015b; 0xb867001895df0597036300ef;
  0xfd63056204d0ff688ce89067; 0x001824cc90670018ccec016c; 0x001831ca90670018e8cb30f0; 0x206aeff4084a00f267a2082b;
  0xe0f061a2076a6cea4ee80228; 0x0018b6d705970490036300ef; 0xfc63076206d105d0ff6a2767; 0x4ce96f414ceb0467025b4ce8;
  0x4ced4cee036190670018e9e8; 0x30f0206ac0f1084a49e00cf7; 0x7ea22cf74ea210586deaff6b; 0x6cea496010f0246b08347cf3;
  0x0c4b8de3609b00ebd0f46440; 0x1ff7006c8ceb052b10f0246b; 0x7df0689b341010f0246b7cf5; 0x789b2f1080f464401ff7006c;
  0x8ceb052b10f0246b7df06c9b; 0x241010f0246b9cf5649b1f10; 0xc0f468401ff7006c8ceb052b; 0x10f0246b7df0709b141010f0;
  0x246b7df0749b0f1070f46840; 0x1ff7006c8ceb052b10f0246b; 0x7df0789b041010f0246b7df0; 0x7c9b61e040c030f0206ae8f2;
  0x3bc2079706910590046300ef; 0xfd63056230f0206aaef24c9a; 0x42f1186c016d026e40ea0597; 0x056a036300ef006510f0246b;
  0x1cf4789b10f0236ae3f61d4a; 0x40db014a40dbf417fb630962; 0x08d107d010f0246a1cf47c9a; 0x10f0246a1cf4589a016ca467;
  0x60da00185cd330f0206a00f1; 0x004a10f0246bef9a3cf4609b; 0x8c9ace9aad9ae0db10f0246b; 0x3cf4649b0068c0db10f0246b;
  0x3cf4689ba0db10f0246b3cf4; 0x6c9b80db10f0246b899a3cf4; 0x709b80db689a10f0246a3cf4; 0x549a60da30f0206a60f148aa;
  0x0b1030f0206b08342ef20c4b; 0x6de4609b05230148ff6b6ce8; 0x43e8f36110f0246a3cf4789a; 0x7f6a006980a320f0206d00f1;
  0x004d8cea40c330f0206baef2; 0x409b10f0246b3cf4dc9b9167; 0x486f04d105d140ea30f0206b; 0xaef2409b10f0246b5cf4c09b;
  0x20f0206d9167adf1084d00f4; 0x006f04d105d140ea30f0206b; 0xaef2409b10f0246b5cf4c49b; 0x20f0216d0037916715f0004d;
  0xe83704d105d140ea001c9645; 0xff17006530f0206a00f1004a; 0x60da81daa2dac3dae4da05da; 0x26da786767da7d6768da7f67;
  0x69da12eb6ada10eb6bda6db8; 0x00656cda68b800656dda6cb8; 0x00656eda6eb800656fda10f0; 0x236a03f7154a00ea00650065;
  0xff6301d0ff6a4cec4ced8e37; 0x4cef076e01758cee52f46047; 0x596130f0206dc0f1084dbde7; 0xe8f2afa7016804ee0dede8f2;
  0xafc71ff7006d6ced02f00075; 0x0160252d1ff7006a6cea02f0; 0x00720160072a10f0246a5cf4; 0xa89ab5e360a50b1010f0246a;
  0x5cf4a89a10f0246a5cf44c9a; 0xb5e34de360a3016a00f66033; 0x44ee00f663334fea6ceaff6b; 0x6cea40c50e1010f0246d5cf4;
  0xac9d0fe8ade3a0a300f6a035; 0x00f6a3350ced4ceda0c330f0; 0x206aeff649a24eec522c10f0; 0x246a5cf4509a609a30f0206a;
  0x703300f5623348f568ca4510; 0x30f0206cc0f1084c9de7e8f2; 0x0fa7016da4eeafec0cece8f2; 0x8fc71ff7006c6cec02f00074;
  0x0160242c1ff7006a6cea02f0; 0x00720160072a10f0246a5cf4; 0x889a91e360a40b1010f0246a; 0x5cf4889a10f0246a5cf44c9a;
  0x91e34de360a300f66033016a; 0x00f6633344ee6deaff6b6cea; 0x40c40d1010f0246c5cf48c9c; 0x8de380a300f6803400f68334;
  0xadec4cec80c30190016320e8; 0xff6a4cec055cacea4b6010f0; 0x246b8834bbf60c4b8de3609b; 0x00eb052210f0246a5cf4749a;
  0x2d1010f0246a5cf4749a2010; 0x052210f0246a5cf4789a2210; 0x10f0246a5cf4789a15100522; 0x10f0246a5cf47c9a171010f0;
  0x246a5cf47c9a0a10052210f0; 0x246a7cf4609a0c1010f0246a; 0x7cf4609a80a3f76a0a100c22; 0x10f0246a7cf4649a40a3ff6c;
  0x086d8ceaadea8cea40c320e8; 0x10f0246a7cf4649af76a80a3; 0x8cea40c320e80065ff6a4cec; 0x016bacea6eea015a5867055c;
  0x4832086010f0246b8834dbf6; 0x004b8de3609b00eb016a4bea; 0x20e810f0246b5cf4909b10f0; 0x246d7cf4a89d609caceb1e10;
  0x10f0246b5cf4909b10f0246d; 0x7cf4a89d609caceb10f0246d; 0x7cf4b49d0e1010f0246b5cf4; 0x909b10f0246d7cf4a89d609c;
  0xaceb10f0246d7cf4b89dadeb; 0x60dc60f560421ff7006c8ceb; 0x02f0007310612e1010f0246b; 0x5cf4909b10f0246d7cf4a89d;
  0x609caceb10f0246d7cf4bc9d; 0xe6171e2310f0246b7cf4709b; 0x1d1010f0246b5cf4909b10f0; 0x246d7cf4a89d609caceb10f0;
  0x246d9cf4a09dadeb60dc60f5; 0x60421ff7006c8ceb02f00073; 0x0160072b10f0246b7cf46c9b; 0x69e2409a20e810f0246b7cf4;
  0x709b69e2409a20e8ff6a4cec; 0x0174acea1360032402741560; 0x181030f0206bc0f1084b68f3; 0xd9a3016d4ced026a4beaccea;
  0xadea68f359c3091030f0206b; 0x48f544c3041030f0206b48f5; 0x40c310f0246a9cf4449a60a2; 0x106a6cea2422025c03610274;
  0x176020e830f0206bc0f1084b; 0x68f399a3016a8cea68f39ca3; 0x7f6b5c328ceb6deaff6b6cea; 0x10f0246b9cf4689b40c320e8;
  0x30f0206a48f560a210f0246a; 0x9cf44c9a60c220e810f0246a; 0x9cf4509a60a2ff6a6ceaff72; 0x006a0b6110f0246a9cf4549a;
  0x60a2076a6cea076b6eea015a; 0x586720e8ff6a4cec0174acea; 0x03600274096020e830f0206a; 0xc0f1084a026b88f362c21510;
  0x092a30f0206ac0f1084ae8f3; 0x67a288f362c20510ff4a30f0].
Definition fw_rows_23 : list Z := [
  0x206b48f54ac330f0206ac0f1; 0x084a88f362a268f399a288f3; 0x63c2406b8deb68f379c220e8; 0xfd630562001809c901720e61;
  0x30f0206ac0f1084a68f399a2; 0x046b8ceb052b68f358a2055a; 0x58670110006a0597036300ef; 0xff6301d100d010f0246b30f0;
  0x20699cf4f89beff46899ff6a; 0x4cececebeeeb4ced4cee80f0; 0x1e2330f0206bc0f1084b68f3; 0x1aa3206f0cef4cef80f00f2f;
  0xeff408a1016fece84ce86128; 0x68f319a30cef4cef092788f3; 0x5ba3e442034a88f3f3c388f3; 0x52c30810056f88f3f3c3054e;
  0x046f88f3f2c34cee30f0206a; 0xc0f1084a88f3f1a288f372a2; 0xe3eb096188f373a288f3c4c2; 0x71e4b7e488f3b6c2091088f3;
  0x93a277e5b9e66fe488f3c4c2; 0x88f376c230f0206ac0f1084a; 0x88f373a288f396a20a4b82eb; 0x026088f376c230f0206ac0f1;
  0x084a88f376a288f384a2234b; 0x82eb026088f364c230f0206a; 0xc0f1084a88f376a268f397a2; 0x88f36aca186b8ceb10730761;
  0xc8f379a2036c76338ceb88f3; 0x64c210f0246a9cf45c9a60a2; 0x072360a2ff6a4ceb30f0206a; 0x48f572ca10f0246abcf4409a;
  0x30f0206c48f592aca0a2ff6b; 0x6ced8eed02258ceb60c230f0; 0x206ac0f1084a68f39aa2416b; 0x6beb8ceb68f37ac20410406a;
  0x0dea68f35ac3019100900163; 0x20e80065fd63056230f0206a; 0xc0f1084a88f365a2e8f384a2; 0x63ec226088f398a2014c88f3;
  0x98c288f3b8a2e8f381a2a3ec; 0x1761036db8eb88f390a288f3; 0xb1a2046f014c88f390c288f3; 0x84a2fe4c12eb6de488f377c2;
  0x88f390a288f3d7a2001837c9; 0x0597036300ef006530f0206b; 0x68f5044bff6aa7438cea264d; 0x006c80c3014b8367aeecfa2c;
  0x30f0206bc0f1084b88f394c3; 0x88f398c388f390c3016c8eea; 0x052a2d6c88f399c388f35ac3; 0x20e80065fd63056230f0206b;
  0xeff4a8a3016bff6aaceb4ceb; 0x4cec102330f0206ac0f1084a; 0x88f374a2014b88f374c288f3; 0x74a2c8f35eaa43eba0f01e60;
  0x006d0018a0c830f0206bc0f1; 0x084bc8f3949bc8f350db83ea; 0x316168f3f9a3016dff6eeced; 0x0e2588f3fba388f3b6a393e2;
  0x0e4fbfe7c8f3bca382348a34; 0xafe789e30b10c8f3fda388f3; 0xb6a38be2ebefafe742320a4b; 0x4a3249e3ccea2d5a0f6030f0;
  0x206bc0f1084b69e288f39ca2; 0x014c88f39cc288f354a3014a; 0x88f354c330f0206ac0f1084a; 0x88f394a2c8f37eaa63ec7a60;
  0x8210a0a4ade3ff6daceb63ee; 0x0260c2670610014aacea2d72; 0x014cf361006e30f0206ac0f1; 0x084ac8f3feaae8f340a230f0;
  0x206d006c5fe768f5044d6467; 0x40a551e4ff6a4cec82ef0661; 0x014b4ceb2d73014df561006b; 0x30f0206ac0f1084a88f3d9c2;
  0x88f37ac288f379a20a5b0561; 0xf64b88f371c2006b0510006c; 0x88f391c20a6c6fe488f370c2; 0x30f0206ac0f1084a88f379a2;
  0x88f39aa268f3b9a273e4016b; 0xaceb0323c8f37ca20210c8f3; 0x7da271e4014c88f397c230f0; 0x206ac0f1084a88f377a2105b;
  0x0360106b88f377c230f0206a; 0xc0f1084a88f377a288f390a2; 0x88f3b1a2024b88f377c288f3; 0xd7a2036f001837c9006c0018;
  0xabc9091030f0206c006be8f3; 0xc0a268f5044c43677e170597; 0x036300effb63096230f0206b; 0x28f5bfa3046bff6aaceb4ceb;
  0x4cec0c237d671e6a50c3016a; 0x4fcb30f0206aaef2589a92c3; 0x040440ea0997056300ef0065; 0xfc63076206d105d030f0206b;
  0x30f0206a24676ef5589aeff6; 0x89a3ff680ce940ea01723561; 0x30f0206bc0f1084b68f394a3; 0x7f6a8cea0cea2b2268f375a3;
  0x0f6a6cea0172256105590361; 0xa0f6086a071010f0246a2431; 0x7bf70c4a49e140aa61421ff7; 0x006c8ceb02f000730160052b;
  0x10f0246bbcf4649b041010f0; 0x246bbcf4689b69e260a2206a; 0x6cea4beac0f742320110016a; 0x079706910590046300ef0065;
  0x30f0206a28f57ca27f6a6cea; 0x015a586720e80065fd630562; 0x30f0206a4ef24c9a30f0206c; 0xaff5144c006d076e40ea0597;
  0x036300ef30f0206aaff554a2; 0x016b46326cea20e830f0206a; 0xaff574a2016a6cea20e80065; 0x30f0206aaff554a2ff6b5632;
  0x8eea6cea015a58676cea20e8; 0xfd630562001877ca006b0622; 0x30f0206aaff57ea2016a4ceb; 0x05974367036300effc630762;
  0x06d105d030f02068c0f10848; 0xa9f068a0016aff694ceb0b23; 0xc9f065a06cea2cea262a68f3; 0x58a0232ae8f352a01d100018;
  0x09c901721c6168f37da0036a; 0x6cea172a68f358a0142a046a; 0x6cea112a106a6cea0e2a68f3; 0x79a0206a6cea2cea0822e8f3;
  0x52a0052a001881ca015a5867; 0x0110006a0797069105900463; 0x00ef0065fb630962ff6a4cec; 0x326baceabd6770c5025c026b;
  0x6fcd92c5026053c50410016a; 0x4bea7d6753c330f0206aaef2; 0x589a040440ea0997056300ef; 0xfb63096208d107d0ff6a30f0;
  0x20684cecc0f1084804d468f3; 0x9da0106b30f020698deb68f3; 0x7dc0eff488a1016b8ceb4ceb; 0x2923eff4084942a1ff725460;
  0x10f0246abcf44c9a006b30f0; 0x206860c210f0246abcf4509a; 0x046bff6c60c2aef25098594c; 0x006d056e40eac2a1aef25098;
  0xff6c554c006d054e40ea0018; 0x77ca342a04940018f2ec3010; 0x88f365a0025b136088f3c4a0; 0x30f0206aaef2509aff6cd9e3;
  0x554c006d40ea88f365a088f3; 0x44a049e388f357c019100369].
Definition fw_rows_24 : list Z := [
  0x38eb88f3c4a030f0206aaef2; 0x509afe4eff6c554c006d12eb; 0x79e640ea88f365a088f344a0; 0x38ebfe4a12e925e288f337c0;
  0x30f0206a48f544a2046b6cea; 0x082a30f0206a2ef4489a0496; 0x8367016d40ea099708910790; 0x056300effb63096208d107d0;
  0xff6a4cec30f0206904d4eff4; 0x0849c0f08ca1046b8ceb4ceb; 0x3723c0f00ea1c0f04da158e8; 0x12e8c0f014c1001866ca0322;
  0xc0f015c10310016ac0f055c1; 0x30f0206aaff51da202581161; 0x001866ca062204940018f9ec; 0x04940018f2ec04940018c2ec;
  0x0494b067001891ed0f100170; 0x046104940018ccec09100018; 0x66ca062204940018f9ec0494; 0x0018f2ec0997089107900563;
  0x00ef0065fc63076206d0ff6a; 0x4cec122c10f0236c06f0094c; 0x001843ea30f0206aeff4084a; 0xc0f096a2026b6beb8cebc0f0;
  0x76c21f1030f02068eff40848; 0xc0f08ca0046b8ceb4ceb1523; 0xc0f0cfa0006a04d2a2670a6a; 0x58ee10f0236c06f0094c016f;
  0x12ee001856eac0f076a0016a; 0x6deac0f056c0079706900463; 0x00ef0065fd63056230f0216a; 0x90f360a2806a4bea6ceaff6b;
  0x6cea022a0018c9ed30f0206b; 0xeff4084b80f698a3806a4bea; 0x8ceaff6c8cea052280f69ba3; 0x0018f2c4081030f0206a6ef2;
  0x589a006dff6cc56740ea0c6d; 0x016c0018e2c80c6c00184af2; 0x0597036300ef0065fd630562; 0x04d0ff688ce80018c9ed0820;
  0x30f0206a6ef2589a006dff6c; 0xc56740ea046d016c0018e2c8; 0x046c00184af2059704900363; 0x00ef0065fc63076206d105d0;
  0x30f0206bff6930f0206a8ce9; 0x6ef5589aeff689a340ea0172; 0x2c6130f02068c0f1084868f3; 0x7aa0096a4bea6cea68f35ac0;
  0x30f0206a6ef2589aff6c6f6d; 0x2c6e40ea30f0206a2ef4509a; 0xc8f29fa0016d086ef16740ea; 0x01720d6168f37aa0026a016c;
  0x6dea0e6d68f35ac00018e2c8; 0x0e6c00184af2079706910590; 0x046300effd63056230f0206b; 0xeff4084b80f698a3806a4bea;
  0x8ceaff6c8cea052280f69ba3; 0x0018dec4081030f0206a6ef2; 0x589aff6ca4672f6e40ea30f0; 0x206acef2409a40ea30f0216a;
  0x90f360a2806a4bea6ceaff6b; 0x6cea022a00189ced086d016c; 0x0018e2c8086c00184af20597; 0x036300effc63076206d105d0;
  0xff6904672ce8ace9001866ca; 0x07220328001887cb0d100018; 0x3fcb0a100170086130f0206a; 0x2ef4489a046c016dd16740ea;
  0x079706910590046300ef0065; 0xfd63056204d030f0206aaff5; 0x14a2006c1630001821cb0018; 0x77ca1022001866ca0d229067;
  0x0018e8ec90670018f9ec9067; 0x0018f2ec006cb0670018a2cb; 0x05970490036300effd630562; 0x04d030f0206aaff514a2006c;
  0x001821cb001877ca1630016c; 0x042290670018faca006cb067; 0x0018a2cb05970490036300ef; 0xfd63056204d030f0206beff4;
  0x084b0467c0f08ca3ff6a4ce8; 0x96340eecacea192cc0f0b4a3; 0x43ed04614be5c0f054c30210; 0xc0f094c330f0206aaff55ca2;
  0x0a2a90670018faca016cb067; 0x0018a2cb016c001821cb0597; 0x0490036300ef0065fd630562; 0x04d0ff688ce8001877ca0e22;
  0x906700187bca0a22001866ca; 0x072230f0206aaff5bda29067; 0x0018d1cb05970490036300ef; 0xfd63056204d0ff688ce80018;
  0x77ca0e22906700187bca0a22; 0x001866ca072a30f0206aaff5; 0xbda290670018d1cb05970490; 0x036300effd63056230f0206a;
  0xeff4084ac0f096a2c0f0aca2; 0x026b6beb8cebb635006cc0f0; 0x76c20018a2cb0597036300ef; 0xfd63056204d030f0206ac0f1;
  0x084aff688ce868f399a2036b; 0x6beb416d8cebabedaceb68f3; 0xbaa268f379c2116b006c6beb; 0x88f385c268f39dc2aceb88f3;
  0x86c2906768f37ac20018d3ec; 0x90670018ccec90670018e8ec; 0x05970490036300effb630962; 0x08d107d0ff6a8cea30f02068;
  0x04d2c0f1084868f374a0006a; 0xe8f342c07f6a6ceaff6b6cea; 0x472230f02069eff4084930f0; 0x206a6ef5589a00f281a140ea;
  0x0172786705d3382b049488f3; 0xa2a0001891ed0494006d0018; 0xa0c868f37aa0c8f354d8206a; 0x6dea9d6768f35ac047440d4a;
  0x80a208f36aa0016a88f383c0; 0x4cebff6c8ceb052b80f678a1; 0x6cea8cea122230f0206ac8f4; 0x56a200680272076030f0216a;
  0x90f35ba20272016001680018; 0x82f00422032004940018b7ca; 0x099708910790056300ef0065; 0xfb63096208d107d030f02068;
  0xc0f1084868f374a0006ae8f3; 0x42c07f6aff696cea2cec2cea; 0x04d4472230f0206b30f0206a; 0x6ef5589aeff689a340ea0172;
  0x3c610494006d0018a0c868f3; 0x7aa0c8f354d8206a6dea68f3; 0x75a068f35ac00f6a6cea2cea; 0x0169062268f33aa0016a3231;
  0x4ee94ce930f0206ac8f472a2; 0x016a4ceb082b30f0216b90f3; 0x60a36ceaff6b6cea102230f0; 0x206ac8f456a20272066030f0;
  0x216a90f35ba2027201610069; 0x001882f00422032104940018; 0xb7ca099708910790056300ef; 0xfd63056230f0206bc0f1084b;
  0x08f3aaa3c467016cff6a8ced; 0x4ced4cee072d30f0216d90f3; 0xa0a5acec4cec072430f0206a; 0x48f580a2001899f1081030f0;
  0x206a2ef4489a68f398a3016d; 0x40ea0597036300effd630562; 0xf06d016c0018e2c8006c0018; 0x74f6001895e80018cce8016c;
  0x001874f6016c006d0018e2c8; 0x0597036300ef0065fd630562].
Definition fw_rows_25 : list Z := [
  0x04d030f0206a6ef2589a006d; 0xc567ff6c40ea046d016c0018; 0xe2c830f0216a90f302a29067; 0x001866f0406b4debff6d9067;
  0x6ced001859f0046c00184af2; 0x05970490036300effd630562; 0x04d030f0206a6ef2589a2e6e; 0xff6c6f6d40ea026d016c0018;
  0xe2c830f0216a90f302a29067; 0x001866f0bf6d90674ced0018; 0x59f0026c00184af205970490; 0x036300effb63096208d107d0;
  0x10f0246bbcf4749bff6a2467; 0x60a34ce930f020686cea04d2; 0x6ef25898ff6ca4672d6e40ea; 0x30f0206acef2409a40ea072a;
  0x6ef258980495ff6c2d6e40ea; 0x2f100559246010f0246a2831; 0xdbf6144a29e2409a00ea006c; 0x086d171010f0246a046cbcf4;
  0xb89a111010f0246a046cbcf4; 0xbc9a0b1010f0246a046cdcf4; 0xa09a051010f0246adcf4a49a; 0x046c00186be100189ced016c;
  0x006d0018e2c8006c00184af2; 0x099708910790056300ef0065; 0xfc63076206d105d030f02068; 0xc0f1084868f37aa0086aff69;
  0x6cea2cea2cec0e2a016c0c6d; 0x0018e2c830f0206aaff550a2; 0x4822006ca4670018a9ca4310; 0x016d001882d1016c046d0018;
  0xe2c808f36aa0016a4ceb2ceb; 0x072b30f0216b90f360a36cea; 0x2cea2c2230f0206ac8f472a2; 0x046a4ceb082b30f0216b90f3;
  0x60a36ceaff6b6cea1d2230f0; 0x2068eff4084880f63aa09167; 0x001866f0806dabed4dedff6a; 0x4ced9167001859f080f61aa0;
  0x9067001866f0206d4dedff6a; 0x90674ced001859f0046c0018; 0x4af230f0206a6ef2589a006d; 0xff6cc56740ea079706910590;
  0x046300effc63076206d105d0; 0x30f0206b48f5a2a3046bff6a; 0xaceb4ceb4cec0e2b30f0206b; 0xaff570a3092310f0246bdcf4;
  0xa89b60a54ceb014b4ceb60c5; 0x30f0206a48f562a2046a6cea; 0x0d2a30f0206aaff550a2082a; 0x036d001882d1016c046d0018;
  0xe2c82210006d30f020690018; 0x82d1eff408490c6d016c0018; 0xe2c880f61aa19067001866f0; 0x7f6d90674ced001859f080f6;
  0x1aa19067001866f0df6d9067; 0x4ced001859f00c6c00184af2; 0x30f0206a6ef2589a006dff6c; 0xc56740ea0797069105900463;
  0x00ef0065fd630562ff6a4cec; 0x006d001882d130f0206a6ef2; 0x589a006dc567ff6c40ea016c; 0x0c6d0018e2c80597036300ef;
  0xfc63076206d105d0ff692cec; 0xace9562430f02068eff40848; 0x30f0206a6ef5589a00f281a0; 0x40ea0172496130f0206ac0f1;
  0x084a68f39aa2056b6beb8ceb; 0x68f37ac230f0206a6ef2589a; 0x2b6eff6c0f6d40ea9167026d; 0x001882d1c0f048a0016e012a;
  0x086e30f02068c0f1084830f0; 0x206a2ef4509ac8f29fa0006d; 0xf16740ea01720e6168f37aa0; 0x016a016c6dea68f35ac0066d;
  0x0018e2c8066c00184af21010; 0x30f0206aaff550a20b22066d; 0x016c0018e2c89167001885cc; 0x006c026d0018a9ca07970691;
  0x0590046300ef0065fc630762; 0x06d105d0256730f0206dc0f1; 0x084d066768f3daa5036bff6a; 0xcceb4ceb4cec4ce94ce8e0f0;
  0x032b68f35ca58eeac0f01e22; 0x0d5cc0f01b6010f0246a8834; 0xfbf6084a89e2409a00ea30f0; 0x206a48f544a20e7203619067;
  0x0018f4cc30f0206a48f544a2; 0x032a016c001858cb30f0206a; 0x48f544a20672036190670018; 0x2bcd30f0206a48f544a20472;
  0x096105219167b067001866cd; 0x0310906700185bcd30f0206a; 0x48f544a20872a0f003610018; 0x3fcba01030f0206a48f544a2;
  0x032a016c001858cb30f0206a; 0x48f544a20672036190670018; 0x2bcd30f0206a48f544a20e72; 0x076100182bc9017203619067;
  0x0018f4cc30f0206a48f544a2; 0x0c727c6100182bc901727861; 0x9067001866cb741030f0206a; 0x48f544a20e72076100182bc9;
  0x0172036190670018f4cc30f0; 0x206a48f544a2067203619067; 0x00182bcd30f0206a48f544a2; 0x0c72076100182bc901720361;
  0x9067001866cb30f0206a48f5; 0x44a204724b61001889ca0172; 0x476190670018c8cc431030f0; 0x206a48f544a20e7207610018;
  0x2bc90172036190670018f4cc; 0x30f0206a48f544a206720361; 0x906700182bcd30f0206a48f5; 0x44a20c72076100182bc90172;
  0x03619067001866cb30f0206a; 0x48f544a2032a016c001858cb; 0x30f0206a48f544a204721261; 0x0018b7cc0f1030f0206ac0f1;
  0x084a68f37ca20c73076168f3; 0x79a2206a6cea0222001887cb; 0x079706910590046300ef0065; 0xfd630562001873ca142a10f0;
  0x246adcf44c9a40a2232a10f0; 0x246adcf4509a40a21d2a10f0; 0x246adcf4549a60a2026a6cea; 0x1522001809c901720c6010f0;
  0x246adcf4789a10f0246cdcf4; 0x9c9c409b8dea40db05100018; 0x4cf7015a58670110006a0597; 0x036300effd63056230f0206a;
  0x48f544a20222087206610018; 0x17ce01720261001899cc0597; 0x036300effd63056230f0206a; 0xc0f1084a68f3b9a2016bff6c;
  0x6ced212508f34aa26cea8cea; 0x072a30f0216a90f340a24ceb; 0x8ceb132330f0206ac8f472a2; 0x026a4ceb082b30f0216b90f3;
  0x60a36ceaff6b6cea04220018; 0x89f101720261001830ce0597; 0x036300effc63076206d105d0; 0x30f0206b48f5a1a3046bff6a;
  0xaceb4ceb4cec062310f0246a; 0xbcf44c9a006b60c2026d0018; 0xdde810f0246abcf4509a0469; 0x30f0206820dac0f10848e8f3;
  0xc6a030f0206aaef2509aff6c; 0x594c006dc63640ea68f359a0].
Definition fw_rows_26 : list Z := [
  0x07974de968f339c006910590; 0x046300effd63056204d030f0; 0x206bc0f1084b68f3b4a30467; 0x7f6cff6aacec4cec01744ce8;
  0x1b6168f3b5a3106c8becacec; 0x4cec162430f0206a2ef4489a; 0xd0670c6c006d40ea30f0206a; 0x6ef2589a006dff6cc56740ea;
  0x9067001851ce0d1002740b61; 0x68f35ca3082a30f0206a2ef4; 0x489a046c016dd06740ea0597; 0x0490036300ef0065fd630562;
  0x30f0206b69f2b0a3016bff6a; 0xaceb4ceb4cec022b00186cce; 0x0597036300ef0065fc630762; 0x06d105d0ff698ce930f02068;
  0x9167c0f10848001851ce68f3; 0x5ca00c72206030f0206a2ef4; 0x489a0c6c006dd16740ea30f0; 0x206a6ef2589a006dc567ff6c;
  0x40ea68f37aa0016ac8f29fa0; 0x6dea68f35ac030f0206a2ef4; 0x509a006d086ef16740ea0797; 0x06910590046300effc630762;
  0x06d105d0046730f0206cc0f1; 0x084c68f3b9a4406bff6aaceb; 0x4ceb4ce80c2368f39aa4106b; 0x8ceb4ceb0623001877ca032a;
  0x90670018f2ec30f0206ac0f1; 0x084a68f399a2026b8ceb1023; 0x036b6beb6cec68f399c268f3; 0x9da28ceb68f37dc268f35da2;
  0x076b6cea6a2a661010f0246b; 0xfcf4849bfff71f6d60acaceb; 0x014baceb60cc88f365a268f3; 0x9da2014b88f365c2116b6beb;
  0x8ceb68f37dc288f365a2e8f3; 0x44a263ea496030f020697167; 0xeff4084b30f0206a6ef5589a; 0x00f281a340ea01723e61eff4;
  0x68a1016a6ceaff6b6cea022a; 0x001892c930f0206ac0f1084a; 0x68f395a2106b6beb8cebff6c; 0x8ceb072b68f399a2df4b8ceb;
  0x68f379c2221088f366a2014b; 0x88f366c288f366a2025b0b61; 0x68f399a2216b6beb8ceb68f3; 0x79c2006b88f366c203109067;
  0x001894ce30f0206ac0f1084a; 0x006b88f365c2031090670018; 0x85cc079706910590046300ef; 0xfc63076206d105d0ff6a8cea;
  0x055a0068246010f0246b4834; 0x1bf71c4b8de3609b00eb10f0; 0x246bfcf4689b131010f0246b; 0xfcf46c9b0e1010f0246bfcf4;
  0x709b091010f0246bfcf4749b; 0x041010f0246bfcf4789b60ab; 0xfff71f686ce818f0006b0ceb; 0x132b30f0206cc0f1084c68f3;
  0xbda4fe4baceb056dabedaceb; 0x024daceb68f37dc482670018; 0x85cc7d1008f0006b0ceb4323; 0x30f0206bc0f1084b68f3d4a3;
  0x7f6cff6dccec0174126168f3; 0xdda3016ccdec68f39dc368f3; 0x95a3106b6beb8cebaceb2073; 0x11618267001894ce34100274;
  0x326168f357a3016c8ceaacea; 0x0b2a68f35da34dec68f39dc3; 0x30f0206a2ef4549a40ea2110; 0x68f395a3106a4bea8ceaacea;
  0x1072196168f39da3046a006d; 0x8dea68f35dc3016c001874d2; 0x0e1030f0206bc0f1084b68f3; 0x9da3026a4bea8cea056c8bec;
  0x8cea68f35dc302301e301a20; 0x30f02068c0f1084868f35da0; 0x0269e8f3c5a02dea68f35dc0; 0x30f0206aaef2509aff6c554c;
  0x006d40ea68f359a04de968f3; 0x39c00b1030f0206ac0f1084a; 0x68f39da2036b6beb8ceb68f3; 0x7dc2079706910590046300ef;
  0xfb63096208d107d030f0206b; 0x30f0206a24676ef5589aeff6; 0x89a3ff680ce940ea017220f1; 0x0c6130f0206bc0f1084b68f3;
  0x94a37f6a8cea0cea20f10122; 0x68f375a30f6a6cea01726961; 0x05595a6010f0246a28333bf7; 0x104a69e2409a00ea10f0246a;
  0xfcf45c9a60a230f0206ac0f1; 0x084a88f363c210f0246b1cf5; 0x609b3f1010f0246a1cf5449a; 0x60a230f0206ac0f1084a88f3;
  0x63c210f0246b1cf5689b2f10; 0x10f0246a1cf54c9a60a230f0; 0x206ac0f1084a88f363c210f0; 0x246b1cf5709b1f1010f0246a;
  0x1cf5549a60a230f0206ac0f1; 0x084a88f363c210f0246b1cf5; 0x789b0f1010f0246a1cf55c9a; 0x60a230f0206ac0f1084a88f3;
  0x63c210f0246b3cf5609b60a3; 0x88f362c230f0206ac0f1084a; 0x88f363a2022b88f362a230f0; 0x206a48f56bc291670018bcc9;
  0x10f0246c3cf5a49c30f0206a; 0xc0f1084a006b88f365c288f3; 0x66c280adfff71f6eccec014c; 0xccec80cd10f0246c88f3aaa2;
  0xbcf4809ca0c410f0246c3cf5; 0x889c60c410f0246bbcf4709b; 0x026c80c368f39da2036b6beb; 0x8ceb116c8bec8ceb68f37dc2;
  0x08f36aa2016a4ceb082b30f0; 0x216b90f360a36ceaff6b6cea; 0x04229167001806c503109167; 0x001801cf30f02068c0f10848;
  0x68f379a0406a6cea552268f3; 0x9aa0106bff6d44676ceaacea; 0x222a88f343a088f3a2a0aeea; 0x472a8deb68f37ac091670018;
  0x91ed91670018c2ec001877ca; 0x062a91670018f9ec91670018; 0xf2ec30f0206ac0f1084a88f3; 0x63a2ff4b88f363c22b1068f3;
  0x75a00f6a6cea0172256188f3; 0x43a004d2049388f342a06eea; 0x1d229167001886ed0495aeea; 0x172268f379a0206a6ceaff6b;
  0x6cea102268f37aa0116a4bea; 0x6cea68f35ac091670018e8ec; 0x91670018d3ec91670018ccec; 0x30f0206ac0f1084a68f399a2;
  0x016be8f362c2206b8deb68f3; 0x79c230f0206ac8f472a2026a; 0x4ceb082330f0216b90f360a3; 0x6ceaff6b6cea0a2a30f0206a;
  0xc0f1084a68f399a2206b8deb; 0x68f379c20997089107900563; 0x00ef0065fd630562ff6a4ced; 0x4ceccceaa0f01d25055ca0f0;
  0x106010f0246b88345bf7044b; 0x8de3609b00eb02720a6010f0; 0x246a3cf5ac9a016c00186be1; 0x006c086d1d1010f0246a3cf5;
  0xb09a016c00186be1006c086d; 0x00186be130f0206a4ef2549a].
Definition fw_rows_27 : list Z := [
  0x016c0c6d891002720c60046c; 0x0f6d00186be110f0246abcf4; 0xb89a046c00186be17c10046c; 0x036d00186be110f0246abcf4;
  0xb89a046c00186be130f0206a; 0x10f0246b4ef2549a026c3cf5; 0xb49b661002720a60046cf06d; 0x00186be110f0246a046cbcf4;
  0xbc9adc17046c306d00186be1; 0x10f0246abcf4bc9a046c0018; 0x6be130f0206a10f0246b4ef2; 0x549a026c3cf5b89b45100272;
  0x0b60046c01f7006d00186be1; 0x10f0246a046cdcf4a09aba17; 0x046c00f3006d00186be110f0; 0x246adcf4a09a046c00186be1;
  0x30f0206a10f0246b4ef2549a; 0x026c3cf5bc9b221002720b60; 0x046c1ef0006d00186be110f0; 0x246a046cdcf4a49a9717046c;
  0x06f0006d00186be110f0246a; 0xdcf4a49a046c00186be130f0; 0x206a10f0246b4ef2549a7cf4; 0xbc9b026c40ea10f0246afcf4;
  0x609aff6c076d40a38ceaadea; 0x6510055c5d6010f0246a8834; 0x5bf7184a89e2409a00ea10f0; 0x246a3cf5ac9a016c00189ce1;
  0x006c086d00189ce1016c0c6d; 0x4510046c0f6d00189ce110f0; 0x246abcf4b89a046c00189ce1; 0x10f0246a026c3cf5b49a3410;
  0x046cf06d00189ce110f0246a; 0xbcf4bc9a046c00189ce110f0; 0x246a026c3cf5b89a2310046c; 0x01f7006d00189ce110f0246a;
  0xdcf4a09a046c00189ce110f0; 0x246a026c3cf5bc9a1110046c; 0x1ef0006d00189ce110f0246a; 0xdcf4a49a046c00189ce110f0;
  0x246a7cf4bc9a026c0018ece1; 0x10f0246afcf4609af86a80a3; 0x8cea40c30597036300ef0065; 0xfb63096208d107d030f02068;
  0xc0f1084868f354a07f6eff69; 0x4cee2cec016d2cee04d40018; 0x13d088f36aa810f0246abcf4; 0x409a2ceb60c2c8f399a0806a;
  0x4bea1f6b8cea8ceb2cea2ceb; 0x11226f322cea8242014ac8f3; 0x5dc0076a6cea68f377a0c8f3; 0x9cc076336c336dea2cea0610;
  0x046bc8f37cc0036bc8f37dc0; 0x10f0246b5cf5609b40c330f0; 0x206b30f0206a6ef5589aeff6; 0x89a340ea0172196130f0206a;
  0xc0f1084a68f399a2216b6beb; 0x8ceb68f379c268f35ca2046b; 0x6cea132a30f0206a2ef4489a; 0x04968367016d40ea0a1030f0;
  0x206ac0f1084a68f399a2206b; 0x8deb68f379c2099708910790; 0x056300effb63096208d107d0; 0x30f02068c0f1084868f354a0;
  0x7f6eff694cee2cec016d2cee; 0x04d4001813d088f36aa810f0; 0x246abcf4409a2ceb60c2c8f3; 0x99a0806a4bea1f6b8cea8ceb;
  0x2cea2ceb11226f322cea8242; 0x014ac8f35dc0076a6cea68f3; 0x77a0c8f39cc076336c336dea; 0x2cea0610046bc8f37cc0036b;
  0xc8f37dc010f0246b5cf5609b; 0x40c330f0206b30f0206a6ef5; 0x589aeff689a340ea01721961; 0x30f0206ac0f1084a68f399a2;
  0x216b6beb8ceb68f379c268f3; 0x5ca2046b6cea132a30f0206a; 0x2ef4489a04968367016d40ea; 0x0a1030f0206ac0f1084a68f3;
  0x99a2206b8deb68f379c20997; 0x08910790056300effb630962; 0x08d107d0ff6a4cec256704d4; 0x4ce96e2c30f02068c0f10848;
  0x68f374a07f6e91676cee4cee; 0x006d001813d07d67874310f0; 0x246a094c60a43cf5489a60c2; 0x10f0246abcf4509a026b60da;
  0x30f0206aaff550a2082268f3; 0x5ca00c720461006ca4670018; 0xa9ca30f0206a30f0206b6ef5; 0x589aeff689a340ea142a0018;
  0xc9ed916700185bcd30f0206b; 0xc0f1084b68f39aa3026a4bea; 0x8cea036c8bec8cea68f35ac3; 0x081030f0206a2ef4489a0c6c;
  0x016dd16740ea30f0206ac0f1; 0x084a68f399a2056b6beb8ceb; 0x68f379c230f0206aeff468a2; 0x016a6cea1c2210f0246abcf4;
  0x4c9a006b60c210f0246abcf4; 0x509a046b60c20f1004940174; 0x066191670018e5d080189513; 0x061004920272036191670018;
  0xabd0099708910790056300ef; 0xfb63096208d107d0ff692ced; 0x30f020680ad4c0f108488567; 0x04d500180dcc68f394a07f6a;
  0x04954cec2cec00181fd168f3; 0x54a07f6b6cea2cea18220a93; 0x0f6c41a3a2a34cec2cec0018; 0x14c928f154a003720c6110f0;
  0x246a5cf5649a40a34ce9026a; 0x2cea0322fd6a2cea40c30997; 0x08910790056300efff6a4cec; 0xacea0b2a10f0246b5cf5a89b;
  0x10f0246e5cf5cc9e609dcceb; 0x0c1001720b6110f0246b5cf5; 0xa89b10f0246e5cf5d09e609d; 0xcdeb60dd055c60f1066010f0;
  0x246b88347bf7184b8de3609b; 0x00eb052a10f0246a5cf5689a; 0x0d110172106110f0246a5cf5; 0x689aff6c406d40a38ceaadea;
  0x8cea40c340a3804dc04d8cea; 0x14100272076110f0246a5cf5; 0x689abf6a80a3f410037220f1; 0x1a6110f0246a5cf5689aff6c;
  0x406d40a38ceaadeae710072a; 0x10f0246a5cf5749afd6a80a3; 0xdf100172196110f0246a5cf5; 0x889aff6a406d60a44cebadeb;
  0x4ceb60c410f0246b5cf5949b; 0x016d60a44cebadeb4ceb60c4; 0x60a4026d4cebe11002720f61; 0x10f0246a5cf5689abf6a80a3;
  0x8cea40c310f0246a5cf5749a; 0xfe6a80a3b3100372e0f01961; 0x10f0246a5cf5889aff6b406d; 0x40a46ceaadea6cea40c410f0;
  0x246a5cf5949a016d40a46cea; 0x9210072a10f0246a5cf5749a; 0xf76a80a395100172196110f0; 0x246a5cf5889aff6a406d60a4;
  0x4cebadeb4ceb60c410f0246b; 0x5cf5949b046d60a44cebadeb; 0x4ceb60c460a4086d4ceb9710; 0x02720f6110f0246a5cf5689a;
  0xbf6a80a38cea40c310f0246a; 0x5cf5749afb6a80a369100372].
Definition fw_rows_28 : list Z := [
  0xa0f00f6110f0246a5cf5889a; 0xff6b406d40a46ceaadea6cea; 0x40c410f0246a5cf5949a046d; 0x40a46cea4810072a10f0246a;
  0x5cf5749adf6a80a34b100172; 0x196110f0246a5cf5889aff6a; 0x406d60a44cebadeb4ceb60c4; 0x10f0246b5cf5949b106d60a4;
  0x4cebadeb4ceb60c460a4206d; 0x4ceb4d1002720f6110f0246a; 0x5cf5689abf6a80a38cea40c3; 0x10f0246a5cf5749aef6a80a3;
  0x1f100372666110f0246a5cf5; 0x889aff6b406d40a46ceaadea; 0x6cea40c410f0246a5cf5949a; 0x106d40a46ceaadea6cea40c4;
  0x20e8092a10f0246a5cf5749a; 0x80a37f6a8cea40c320e80172; 0x1c6110f0246a5cf5889aff6a; 0x406d60a44cebadeb4ceb60c4;
  0x10f0246b5cf5949b60a44ceb; 0xadeb4ceb60c460a4804dc04d; 0x4cebadeb4ceb60c420e80272; 0x106110f0246a5cf5489abf6b;
  0x80a26cec80c210f0246a5cf5; 0x549a80a28ceb60c220e80372; 0x146110f0246a5cf5889aff6b; 0x406d40a46ceaadea6cea40c4;
  0x10f0246a5cf5949a40a46cea; 0xadea6cea40c420e8ff6301d0; 0x10f0246b5cf5789bff6a4cec; 0x6de500a33f6f01740cef4cee;
  0xe0c3106110f0246c5cf5fc9c; 0x1068fde580a74cec0dec4cec; 0x80c780a3806febef4cec0d10; 0x0f2c10f0246c5cf5fc9cef6c;
  0xfde500a70cec80c780a3406f; 0x4cecedec4cec80c310f0246a; 0x7cf5409a80f4c03655e5409d; 0x4deec0dd0190016320e80065;
  0xfd63056210f0246a7cf5449a; 0xff6b40a26cea52326cea112a; 0x30f0206b30f0206a6ef25c9a; 0xa8f486a3006d186ee56740ea;
  0x30f0206a8ef25c9a40ea0597; 0x036300effb63096208d107d0; 0x30f02068c0f1084828f170a0; 0xff6a4ced014b28f170c010f0;
  0x246b7cf5649b04d5246760a3; 0x4ce94ceb72334ceb312310f0; 0x246bbcf4749b006cff6d60a3; 0x296e6cea05d230f0206a6ef2;
  0x589a40ea30f0206acef2409a; 0x40ea0172126130f0206ae8f2; 0x80a06ef25c9a016d086e006f; 0x40ea30f0206b2ef46c9b0496;
  0x9167a26740eb30f0206a6ef2; 0x589a0595006c2a6e40ea1210; 0x30f0206ae8f280a06ef25c9a; 0x016d086e006f40ea30f0206b;
  0x2ef46c9b04969167a26740eb; 0x30f0206a8ef25c9a40ea0997; 0x08910790056300effff71f6a; 0xaceaff6ba26742326ced6cea;
  0x10f0246b7cf5689b6de4a0c3; 0x10f0246b7cf56c9b71e440c4; 0x20e80065fb63096208d107d0; 0x10f0246bfff71f687cf5649b;
  0x0ced04d560a3ff6a24674ce9; 0x2d2310f0246bbcf4749b006c; 0xff6d60a3366e6cea05d230f0; 0x206a6ef2589a40ea30f0206a;
  0xcef2409a40ea01720e6130f0; 0x206a6ef25c9a006e9167016d; 0xe66740ea049582670cec0018; 0xa8d230f0206a6ef2589a0595;
  0x006c376e40ea0e1030f0206a; 0x6ef25c9a006e9167016de667; 0x40ea049582670cec0018a8d2; 0x10f0246abcf4549a6f6d906c;
  0x60a230f0206a6ef2589a6ced; 0x386e40ea30f0206a8ef25c9a; 0x40ea099708910790056300ef; 0xfd63056204d0ff6a64674ceb;
  0x8567025b4cec436010f0246d; 0x7cf5b09dfff71f6e30f02068; 0xe0ad10f0246d7cf5b49dccef; 0xc0f10848a0adaceed7e7c8f2;
  0xdfa04cedceed2b2d68f35ca0; 0x0e720f61262b68f37aa0036a; 0x4bea6cea68f35ac0001882d1; 0x016c0c6d0018e2c810100672;
  0x1661152368f37aa0026a4bea; 0x6cea016d68f35ac0001882d1; 0x046a68f35cc030f0206a6ef2; 0x589a006dff6cc56740ea0597;
  0x0490036300ef0065fa630b62; 0x0ad109d010f0246bff6a7cf5; 0x649b4cee4cef05d604d760a3; 0xfff71f6825674ceb72334ceb;
  0x8ce84ce9342310f0246bbcf4; 0x749b006cff6d60a3266e6cea; 0x06d230f0206a6ef2589a40ea; 0x30f0206acef2409a40ea0172;
  0x116130f0206a05966ef25c9a; 0x9067016d006f40ea30f0206b; 0x2ef46c9b04969167a26740eb; 0x30f0206a06956ef2589a006c;
  0x276e40ea049591670018e5d2; 0x1510049591670018e5d230f0; 0x206a05966ef25c9a9067016d; 0x006f40ea30f0206b2ef46c9b;
  0x04969167a26740eb30f0206a; 0x8ef25c9a40ea0b970a910990; 0x066300ef10f0246a9cf55c9a; 0xff6b80a200f6803400f68334;
  0x00542460a0a27f6cacec80c2; 0x80a2406d6cecadec6cec80c2; 0x80a210f0246c9cf4889c3f6d; 0x80a410f0246c9cf48c9c80a4;
  0x10f0246cbcf5809c80a480a2; 0x6cecadec6cec80c280a2bf6b; 0x8ceb60c220e8006510f0246b; 0xbcf5649bff6a4cecc0a34ced;
  0x0c2610f0246adcf4789a10f0; 0x246cbcf5889c409b8dea40db; 0x20e880c30b2510f0246bbcf5; 0x8c9b806dabed60a44cebaeeb;
  0x4ceb60c420e80065fb630962; 0x08d107d0fff71f6a0e902467; 0x4ce9036b4cef2ceb006a0bd5; 0x0cd604d740c8006a0a232810;
  0x30f0206acef45c9a0a6c40ea; 0x40a8014a40c81ff7006a2cea; 0x02f000720160052a10f0246a; 0x5cf4489a041010f0246a5cf4;
  0x4c9a49e10b93409a6cea0c93; 0x6eea042240a8049363eadc61; 0x40a8049363ea586709970891; 0x0790056300ef006510f0246b;
  0xbcf5709bff6accea6deae0f1; 0x1f6baceb10f0246cbcf5949c; 0x603360336dea40dc10f0246a; 0x7cf4589a6dea40dc20e80065;
  0xe0f11f6a10f0246b7cf4789b; 0xacea403240326dea10f0246b; 0xbcf5749b40db10f0246abcf5; 0x589aff6b40a26cea20e80065;
  0xfc63076206d105d0016804ec; 0x04f71069131030f0206acef4].
Definition fw_rows_29 : list Z := [
  0x5c9a016cff4940ea0b2910f0; 0x246adcf4789a08f0006c409b; 0x8dea40db006a0b1010f0246a; 0xbcf55c9a60aafff71f6a6cea;
  0x0ceae32a016a079706910590; 0x046300effb63096208d107d0; 0x0e9204670f9104d20493ff6a; 0x4ce84ceb90670bd50cd60dd7;
  0x04d34ce90018a8d380f00722; 0x065880f0046010f0246a0830; 0xbbf7004a09e2409a00ea02f2; 0x106a0e1002f2006a0b1022f2;
  0x006a081022f2106a051042f2; 0x006a021042f2106a10f0246b; 0x0d94dcf5609b8ceb10f0246c; 0xdcf5849c8deb062110f0246c;
  0xdcf5889c6dec051010f0246c; 0xdcf58c9c6cec0496062610f0; 0x246b7cf4789b8deb051010f0; 0x246bdcf5709b8ceb1ff7006c;
  0x4cec02f000740160052c10f0; 0x246c5cf4a89c041010f0246c; 0x5cf4ac9c10f0246c0b96dcf5; 0x949cb5e2ccec80dd84421ff7;
  0x006dacec02f000740160052c; 0x10f0246cdcf5b89c041010f0; 0x246cdcf5bc9c10f0246c0c96; 0xdcf5949cb5e2ccec80dd8742;
  0x014c1ff7006dacec02f00074; 0x0160052c10f0246cfcf5809c; 0x041010f0246cfcf5849c89e2; 0x60da016a0110006a09970891;
  0x0790056300ef0065fd630562; 0x04d004f71068131030f0206a; 0xcef45c9a056cff4840ea0b28; 0x10f0246adcf4789a08f0006c;
  0x409b8dea40db006a091010f0; 0x246abcf55c9a60aa3f6a6cea; 0xe52a016a05970490036300ef; 0x10f0246abcf55c9a40aa20e8;
  0x10f0246abcf55c9a40aa20e8; 0xfd630562006a10f0246c1cf4; 0x989c10f0236baaf0054b0a72; 0x60dc0c6130f0216b30f0206a;
  0xeef7549af0f4849b016dabed; 0x40ea006a10f0246cff6b014a; 0x1cf4989c6cea10f0236baaf0; 0x064b60dcdc170065fb630962;
  0x08d107d0006a04d204920172; 0x586704d210f0236a7867eaf0; 0x154a69e210f0246b1cf4789b; 0x40db001c9645001843d3001c;
  0x9545001c964530f0206ac0f1; 0x084a80f08c9a026b8ceb0923; 0x036b6beb8ceb80f06cda0018; 0xa3dd001805de001c9545001c;
  0x964530f0206ac0f1084a80f0; 0x8c9a046b8ceb0923056b6beb; 0x8ceb80f06cda0018bcd90018; 0x05d9001c9545001c964530f0;
  0x206ac0f1084a68f394a27f6b; 0x8ceb0d2368f398a268f37ca2; 0x8eeb072368f397a2ff6a9634; 0x4cec001885cc30f0206a40f2;
  0x549a022a001839ce001c9545; 0x001c964530f0206ac0f1084a; 0x80f08c9a106b8ceb0c23116b; 0x6beb8ceb80f06cda30f0206a;
  0xeff64fa2022a80180020001c; 0x9545001c964530f0206ac0f1; 0x084a80f08c9aff6b014b8ceb; 0x0823ff6b024b6beb8ceb80f0;
  0x6cda0018cfd7001c9545001c; 0x964530f0206ac0f1084a80f0; 0x8c9a02f0006b8ceb082302f0; 0x016b6beb8ceb80f06cda0018;
  0x07eb001c9545001c964530f0; 0x206ac0f1084a10f0246bbcf4; 0x7c9b80f08c9a8ceb202310f0; 0x246bfcf5709b8ceb68f394a2;
  0x80f06cda7f6b8ceb072b68f3; 0x5ca20c72036100182edb0d10; 0x30f0206ac0f1084a10f0246c; 0x80f06c9abcf49c9c8deb80f0;
  0x6cda001c954530f0206accf1; 0x53a20f2a10f0246afcf5549a; 0x016b80a28ceb072380a2fe6b; 0x8ceb60c2036c0018dcde30f0;
  0x2069eff4084900f208a1016a; 0x4ee805280b6c0018dcde00f2; 0x08c130f0216b30f0206af0f4; 0x849beef7589a40eafd160065;
  0x10f0246afcf5789adf6a80a3; 0x8cea40c320e8006510f0246b; 0xfcf5b89bff6a206e60a54cec; 0x4cebcdeb4ceb07f7014a4dec;
  0x10f0246afcf55c9a60c580ca; 0x20e8006510f0246afcf55c9a; 0x68f0046b60ca20e8036f8cef; 0x6467466704270710a0dbfc4a;
  0x044b045afb60036a4cee0426; 0xa0c4ff4e014cfb17006a20e8; 0xff6aacea031040c4ff4e014c; 0xfc2e006a20e80065006a0726;
  0x5de5e0a74de4ff4ee0c3014a; 0xf817006a20e80065091060a4; 0x40a5ff4e4aeb02604be320e8; 0x014c014df62e006a20e80065;
  0x062c646b30f0216ab0f368da; 0x041030f0216ab0f388da30f0; 0x216ab0f3489a28722d60295a; 0x07601472196019721f600a72;
  0x0d6020e850723260515a0360; 0x3272266020e864723360c872; 0x396020e8026b30f0216ab0f3; 0x6cdae0f71e4b3910036b30f0;
  0x216ab0f36cdae1f31d4b3110; 0x096b30f0216ab0f36cdae4f3; 0x174b2910056b30f0216ab0f3; 0x6cdae2f31b4b2110116b30f0;
  0x216ab0f36cdae8f30f4b1910; 0x0a6b30f0216ab0f36cdae4f7; 0x164b1110226b30f0216ab0f3; 0x6cda11f0006b0910436b30f0;
  0x216ab0f36cda10f0246a1cf6; 0x609a30f0216ab0f370da20e8; 0x30f0216ab0f3489a20e80065; 0xff630c2430f0216ab0f3509a;
  0x58ec12ec00d40092ff4a00d2; 0x0092fb2a016320e8ff630d24; 0x30f0216ab0f34c9a58ec12ec; 0x00d4009204220092ff4a00d2;
  0xfa17016320e80065fd630562; 0x0018ebd40597036300ef0065; 0xfd630562ff6a4ced0018e0d4; 0x0597006a036300effd630562;
  0x04d0ff6a04674cee0018e5d4; 0x506705970490036300ef0065; 0xfa630b620ad109d030f0206a; 0x05d20593ff688ce8d0f74540;
  0xc0f1084b4c3269e24aa2016c; 0x30f020698cea04d20c3269e2; 0xa7f6d3a2eff4084929e08cee; 0xd03607d660f6d8a2036a05d3;
  0x4cee30f0206acef4709ac036; 0x10f0246a06d61cf6c49a016d; 0xe3f21f4cabed40eb06930796; 0x30f0206ccef4509c6dee0493;
  0xe3f3106cfff71f6d6dee40ea; 0x059430f34440103001e408f1].
Definition fw_rows_30 : list Z := [
  0xd098443229e261aa30f0206c; 0x04d2c036cef4509cc036016d; 0x6deee3f3086cabed40ea0493; 0x41ab01720461016c60f69bc1;
  0x0310006a60f65bc10b970a91; 0x0990066300ef0065f9630d62; 0x0cd10bd0ff6a8cea04d20069; 0x30f0206810f0246b1cf6c49b;
  0xcef45098016d03f3006cabed; 0x40eacef45098016d23f30c6c; 0xabed076e40ea10f0246b7cf4; 0x184bc09bcef45098016d23f3;
  0x186cabed40ea10f0246b7cf4; 0x184bc09bcef45098016d23f3; 0x1c6cabed40eacef45098016d; 0xc3f30c6cabed006e40eaff6a;
  0x2cea082acef4509803f30c6c; 0x06f0006d036e0710cef45098; 0x03f30c6c06f0006d016e40ea; 0x10f0246b30f0206a1cf6b09b;
  0xcef4509ac3f3146c106e40ea; 0x049510f0246a1cf6549aac34; 0x91e130f0206b9035c0f1084b; 0x9034b5e38de346e9e7f60c4d;
  0xe7f70c4b08d507d3a3426142; 0x234a05d506d309d208940593; 0x30f02068c0accef45098016d; 0xc036c436d9e3c3f3186cabed;
  0x40ea07940693cef45098c0ac; 0x016dc3f3186cc036c436abed; 0xd9e340ea089405950792024c; 0x069308d40994044d024a044b;
  0x8aed05d507d206d3d561ff6a; 0x2cea102a049330f0206ac0f1; 0x084ac0f7154b6c3349e3caa2; 0x81f4146ccef45098016d0f10;
  0x049530f0206ac0f1084aac33; 0x49e3a7f6d3a2cef4509881f4; 0x146c00f4006dcfee014940ea; 0x02713ff71d6130f02068cef4;
  0x5098016dc3f3186cabed006e; 0x40eacef4509803f30c6c06f0; 0x006d006e40ea0d970c910b90; 0x076300effb63096208d107d0;
  0xff6a30f0206810f0246b4cec; 0x4cedbcf4184b006ac0f10848; 0x30f0206905d528f14dc0a09b; 0xcef4509904d4006ee3f3106c;
  0x40ea04920622006ae7f644d8; 0xe7f648d8511028f14ca04e22; 0x87f67098e7f644984eeb04d3; 0x1f2b0595006c001881d5006c;
  0x00184cd510f0246bbcf4184b; 0xcef45099a09be3f3106c016e; 0x40ea30f0216a70f343a20522; 0x5d676742094b40a30110016a;
  0x28f14dc030f02068c0f10848; 0x87f63098e7f648984ee91e29; 0x0595016c001881d5016c0018; 0x4cd510f0246b30f0206acef4;
  0x509abcf4b89be3f3106c016e; 0x40ea30f0216a70f343a2042a; 0x016a28f14dc0021028f12dc0; 0x30f0206ae8f255a209970891;
  0x0790056300ef0065fd630562; 0x30f0206ae8f256a20522006c; 0x016d0018f2d50410006c016d; 0x001881d50597036300ef0065;
  0xfc63076206d105d010f0246a; 0x2567bcf4b89aff688ce8a1f4; 0x186c00189ce7282227200321; 0x01711260341010f0246a5cf6;
  0x009a006c016dd0670018e7e7; 0x0e6b6beb4ceb006c016dd067; 0x096f101010f0246a5cf6009a; 0x006c016dd0670018e7e70e6b;
  0x6beb4ceb006c016dd067056f; 0x6def0f1010f0246a5cf6009a; 0x006c016dd0670018e7e7026f; 0xebef006c016dd0674cef0018;
  0xfae7079706910590046300ef; 0xfb630962276a7d6750c3096a; 0x4fcb086a52c330f0206aeff4; 0x084ae0f062a29d6773c4e0f0;
  0x63a274c4e0f06aa275c4e0f0; 0x69a276c4e0f068a277c4e0f0; 0x71a278c4e0f072a2e0f053a2; 0x79c45ac430f0206aaef2589a;
  0x040440ea0997056300ef0065; 0xfd63056204d030f0206a4ef2; 0x509a046730f0216cd0f4084c; 0xb067056e40ea60a0016a4ceb;
  0x052330f0216bd0f44dc30610; 0x30f0206aaef3489a906740ea; 0x05970490036300effd630562; 0x30f0206acef3449ac467016d;
  0x236c40ea0597036300ef0065; 0xfd63056230f0206acef3449a; 0xc467016d176c40ea05970363; 0x00ef0065fd63056230f0206a;
  0xcef3449ac467016d1b6c40ea; 0x0597036300ef006530f0206b; 0xc0f1084bc0a4a9f0efa3026a; 0x016d4beaaceeeceacdeaa9f0;
  0x4fc380a48634acec8435036c; 0x8bec4cecadeca9f08fc320e8; 0xfd63056230f0206acef3449a; 0xc467036d116c40ea05970363;
  0x00ef0065fc63076240a47d67; 0x076d50c341a4040651c342a4; 0x52c343a453c344a4306c54c3; 0x006a55c356c330f0206acef3;
  0x449a40ea0797046300ef0065; 0xfd63056230f0206acef3449a; 0xc467016d286c40ea05970363; 0x00ef0065fc63076261a4bd67;
  0x40a470c562a40d5a71c563a4; 0x72c564a473c565a474c566a4; 0xff6c75c580f0146010f0246b; 0x48327cf2144b4de3409b00ea;
  0x2a6c0810296c026d8810316c; 0x8510326c8310336c066d8110; 0x30f0206acef3509a040440ea; 0x80109d6770a430f0206ac0f1;
  0x084ac9f074c271a4c9f075c2; 0x72a4c9f076c273a4c9f077c2; 0x74a4c9f078c26b10bd6750a5; 0x30f0206beff4084b93a5e0f0;
  0x40c354a58034803400f64032; 0x8dea91a58dea92a580348dea; 0xc0f05cdb5410001863d65110; 0x7d6790a330f0206a016b8434;
  0xeff4084a6dece0f08bc2e0f0; 0x8ba286351e5505608ceb3c6c; 0x8debe0f06bc230f0206aeff4; 0x084ae0f06ba2663451543361;
  0x016c6cec606b6beb6dece0f0; 0x8bc22b109d6770a430f0206a; 0xcff574c22410bd6750a53f6b; 0x4ceb68335a326dea30f0206b;
  0xcff556c31810bd6750a530f0; 0x206beff4084be0f0afa3016c; 0x4cec026a4beaacea8deae0f0; 0x4fc30710016d30f0206acef3;
  0x449a040640ea0797046300ef; 0x60a430f0206aeff4084ae0f0; 0xa1a2076c6cec086b6bebaceb; 0x8debe0f061c220e8fd630562;
  0x30f0206acef3449ac467026d; 0x386c40ea0597036300ef0065].
Definition fw_rows_31 : list Z := [
  0xff6301d100d030f0206a60a4; 0xc0f1084ac9f085a2016e116d; 0xccebabed70338ced6ded10f0; 0x246b3cf4709bc9f0a5c2fe6f;
  0x80a31068ace8ecec80c3ff6c; 0x272010f0246dfcf70c9d0869; 0x2be9a0a08ced2ced05692ded; 0x8ceda0c010f0246dfcf7b09d;
  0x00a50f6d0ced04750b61c9f0; 0x04a2086d0ced8ced0b2dc9f0; 0x5eaaa6f50d72066040a38cea; 0xcdea8cea40c3031040a34cef;
  0xe0c301910090016320e80065; 0x40a40c2210f0246afcf7749a; 0xff6c186d40a38ceaadea8cea; 0x40c320e830f0206a89f26ca2;
  0x086a6cea082a10f0246afcf7; 0x749ae76a80a38cea40c320e8; 0x80a430f0206ac0f1084a016b; 0xc9f0a5a28ceb6c34096b6beb;
  0xaceb8debc9f065c2086a6cea; 0x072210f0246afcf7549a186b; 0x60c220e810f0246bfcf7749b; 0x40c320e8fd63056230f0206a;
  0xc0f1084aa0a4a9f0dda2026b; 0x016c6beb8cedccebadeba9f0; 0x7dc28cebff6a452310f0246b; 0xfcf7989be56dabed60a44ceb;
  0xaceba46dadeb60dc10f0246b; 0xfcf77c9b80a38cea40db10f0; 0x246a1df0409a42f2156b016c; 0x60ca30f0206a6ef3449a40ea;
  0x10f0246afcf7689a036c409b; 0x8dea40db10f0246a1df0649a; 0xfef51c4c409b8cea40db10f0; 0x246a1df0689a81f1004c409b;
  0x8cea40db10f0246a1df06c9a; 0x10f0246c1df0909c409b8cea; 0x40db0597036300effd630562; 0x04d0016d0467abed41f4186c;
  0x00189ce730f0206bc0f1084b; 0xc9f050db10f0246d80a01df0; 0xb49d059704904ced00f68034; 0xadecc9f08cdb036300ef0065;
  0xfd63056230f0216ad0f46da2; 0x0c23006bd0f46dc230f0206a; 0xaef3489a30f0216cd0f4084c; 0x40ea016c8018fb0d05970363;
  0x00ef0065fd630562006c8018; 0xfb0d0597036300effd630562; 0x016c8018a80e0597036300ef; 0xfd630562006c8018a80e0597;
  0x036300effb63096208d107d0; 0x30f02068c0f10848c9f05ca0; 0x27725060285a056015720b60; 0x23724460de10347257603972;
  0x80f0186030724960d610c9f0; 0x9ea0406a8cea0e2210f0246a; 0x1df0589a3f6dafeb409a8deb; 0x4632acea49e3ff6b6cea0a10;
  0x10f0246a1df0589a609a3f6a; 0x66334ceb8cea49e3405a7867; 0x6beb6cea10f0246bfcf5a89b; 0x10f0246e1df0dc9e809d40f6;
  0x40334432ccec8deb60dd10f0; 0x246b1df0989b7f6dabed609c; 0xaceb6dea40dc9b1030f0206a; 0xcef34c9a016c051030f0206a;
  0xcef34c9a026c40ea8e1030f0; 0x206acef3549a006d016cc567; 0x40ea8510c9f05ea0016b6cea; 0x2722c9f045a010692cea7b2a;
  0x5d6770c230f0206acef3449a; 0xa367346c040640ea026c0018; 0x93eec9f064a0086aff6c6dea; 0x2dea306bc9f044c010f0246a;
  0xc9f06ac03cf4709a40a38cea; 0x026c8deaff6c1510036c0018; 0x93ee30f0206aaef3509a40ea; 0xc9f064a0096a4bea6ceac9f0;
  0x44c010f0246a3cf4709afd6a; 0x80a38cea40c34110a9f088a0; 0x016aff6b8cea3b22a9f04ca0; 0x046dacea6cea3522c9f084a0;
  0x806a4bea8cea6cea2e2230f0; 0x206aeff4084ae0f0c9a2014e; 0xe0f0c9c2a9f04aa0acea0b22; 0xc9f0a5a0206aacea6cea0522;
  0x7f6a8ceac9f044c0161030f0; 0x206a89f251a2022203720f61; 0x30f0206ac0f1084ac9f084a2; 0x7f6b8cebc9f064c230f0206a;
  0x8ef3509a40ea099708910790; 0x056300effd63056204d00068; 0x1710e0f308700a6110f0246a; 0xdcf4789a806c409b8dea40db;
  0x006a1310fff71f6a01484ce8; 0x30f0206acef45c9a0a6c40ea; 0x10f0246adcf4509a60a2016a; 0x6ceae12a016a059704900363;
  0x00ef0065fff71f6a8cea10f0; 0x246b10f0246c3df0609b3df0; 0x849c6de591e5006ec0db044b; 0x8aebfb61e7f71f6b4ceb10f0;
  0x246adcf5449a106c4deb10f0; 0x246a3df0409a49e560da10f0; 0x246a3df0489aff6b55e540a5; 0x6cea8dea6cea40c520e80065;
  0xfc63076206d105d030f0216a; 0xd0f471a208d430f0206961c5; 0x014bd0f471c210f0246b3df0; 0x809b08934ef25099026e91e3;
  0x056740ea10f0246b3df08c9b; 0x0893cea04ef25099a24091e3; 0x40ea079706910590046300ef; 0xfc63076206d105d024670018;
  0x4ad8006b362210f0246a3df0; 0x509afff71f6eff6f009a10f0; 0x246adcf5409a106c8bec4ce8; 0x10f0246aa1403df0549a6567;
  0xcceb60ca10f0246a3df0589a; 0x60a2fa65a232eceb8ceb4232; 0x6deaecea7f6740c387a9024c; 0xccec00185fd88740124cb167;
  0x001876d810f0246adcf4509a; 0x016b60c2016b079706910590; 0x4367046300ef0065fd630562; 0x04d030f0206ac0f1084a80f0;
  0x6c9aa467046c8deb30f02068; 0x80f06cdaeff40848a0f04ca8; 0x01f100720760a0f06ca0a0f0; 0x4da0ff4b4eeb0a2b10f0246a;
  0xdcf4789a00f2006c409b8dea; 0x40db1210503251e00c4c106e; 0x0018e5d4a0f04da00a6b014a; 0xa0f04dc0a0f04da06eea022a;
  0xa0f04dc005970490036300ef; 0xfd63056204d030f0216bd0f4; 0x50a3ff6fe0f0c7a541c543a5; 0xd0f470a3034aecea0910ed42;
  0xff680ceffde564c7e6a7034f; 0xe9e20ceaef46e2eaf46130f0; 0x216ad0f470a2014bd0f470c2; 0x10f0246b3df0609b30f0206a;
  0x4ef2509a71e440ea05970490; 0x036300effc63076206d105d0; 0x246700184ad8006b2e2210f0; 0x246a3df0509a0f6cfff71f6b;
  0x009a10f0246adcf5409a4ce8; 0xa140a23242328cea10f0246c].
Definition fw_rows_32 : list Z := [
  0x3df0949cc5676ceec0cc10f0; 0x246c3df0989c40c4e0f087a1; 0x6cec00185fd88740124cb167; 0x0018cdd810f0246adcf4509a;
  0x016b60c2016b079706910590; 0x4367046300ef0065fd630562; 0x04d010f0246b1cf4789b10f0; 0x236a0cf4154a10f0306840db;
  0x00f00048c1f662a0c1f643a0; 0x6eea392210f0246a3df05c9a; 0x10f0246cdcf4809c409a8cea; 0x2e2ae86a58eb87403b4c12eb;
  0x71e40018e6d81622c1f642a0; 0x106b014ac1f642c0c1f642a0; 0x6eea022ac1f642c010f0306a; 0x00f0004ac1f682a2c1f663a2;
  0x8eeb0b2330f0206ac0f1084a; 0x80f06c9a046c8deb80f06cda; 0x0410c1f684c2c1f665c20597; 0x0490036300ef0065fc630762;
  0x06d105d010f0306800f00048; 0xc1f642a8a46701f700720760; 0xc1f642a0c1f683a0ff4a8eea; 0x092a10f0246adcf4789aff6a;
  0x80a38cea40c3a71023a5c1f6; 0x45a0ff6b04496ce91f2ae86a; 0x58ec30f0206a67404ef2509a; 0x3b4bd16712ec91e340eac1f6;
  0x43a0c1f662a0c1f625c04eeb; 0x742b014ac1f643c0c1f643a0; 0x106b6eea6c2ac1f643c06910; 0x82a5372c51e1e3543460c1f6;
  0x84a0e86ed8ec12ec11e440f0; 0xc4a42b2e40f0c5a4fc4a6cea; 0xff4e40f0c5c4c1f685a0e86e; 0xff4cc1f685c0c1f684a0d8ec;
  0xd16712ec91e051e430f0206a; 0x4ef2509a454c40eac1f644a0; 0xe86b78ea12ea09e240f065a2; 0x6de140f065c2c1f645a045e1;
  0xc1f625c0301010f0306800f0; 0x0048c1f663a0e86a874058eb; 0x30f0206a4ef2509a3b4cd167; 0x12eb71e440eac1f643a0106b;
  0xc1f625c0014ac1f643c0c1f6; 0x43a06eea022ac1f643c010f0; 0x306a00f0004ac1f664a2106c; 0x014bc1f664c2c1f664a28eeb;
  0x022bc1f664c210f0306a00f0; 0x004ac1f684a2e86b78ec046c; 0x12eb4de3c1f645a220f149c3; 0x30f0206ac0f1084a80f06c9a;
  0x8deb80f06cda079706910590; 0x046300effc63076206d105d0; 0xfff71f680ced08d4a0cc0892; 0xcce8226701ca04490b270a20;
  0x30f0206a4ef2509aff6e9167; 0xa7670cee40ea05e108920797; 0x059047e1fff71f6a2cea0691; 0x046300efdf63416240d13fd0;
  0x30f0206a4ef24c9aff68cce8; 0x246743d50404006de86e40ea; 0x016a7d674bea50c31b6a52c3; 0x444053c330f0206a43954ef2;
  0x509ad06705d1060440ea30f0; 0x206aaef25c9a040440ea4197; 0x40913f90216300effd630562; 0x04d010f0246b1cf4789b10f0;
  0x236aecf6114a30f0206840db; 0xeff40848a0f08ca0a0f04da0; 0x8eea3d2210f0246a3df05c9a; 0x10f0246bdcf4609b409a6cea;
  0x322a47409034054a91e20018; 0x8bd80b2a30f0206ac0f1084a; 0x80f06c9a046c8deb80f06cda; 0x2210a0f04ca0014aa0f04cc0;
  0xa0f06ca0a0f04da06eea0a22; 0x30f0206ac0f1084a80f06c9a; 0x046c8deb80f06cda30f0206a; 0xeff4084aa0f06ca20a6c8eeb;
  0x022ba0f06cc2001829da0597; 0x0490036300ef0065fb630962; 0x10f0246a9cf56c9a10f0246c; 0x7cf4989c409b8dea40db30f0;
  0x206aaff550a20d22060204d2; 0x30f0206aaef4549a00f41f6c; 0x206d006ee0f1146f0c100602; 0x04d230f0206aaef4549a00f4;
  0x1d6c106d006e82f3086f40ea; 0x0b2a10f0246bdcf4989b10f0; 0x246d7cf4b89d609cadeb60dc; 0x0997056300ef006560a430f0;
  0x206ac0f1084ac8f27dc261a4; 0xc8f27ec262a4c8f27fc263a4; 0xe8f260c264a4e8f261c265a4; 0xe8f262c266a4e8f263c220e8;
  0xfc63076206d105d030f02069; 0x30f0206a11674ef2509aeff4; 0x0848a467046e906740eaeff4; 0x68a1016a6cea0e2242a0ff72;
  0x0b6030f0206ac0f1084a81a0; 0x88f37ba26de4044b88f36aca; 0x079706910590046300ef0065; 0xfb63096208d107d010f0246a;
  0x5df0409a60a2036a6cea106b; 0x64eaff6a4ceb10f0246a5df0; 0x449a04d3409a05d210f0246a; 0x5df0489a009a05920aeaa0f0;
  0x156030f0206ac0f1084a80f0; 0x6c9a026c8deb80f06cda10f0; 0x306900f00049c1f746a900f7; 0x00720760c1f766a1c1f787a1;
  0xaf438eed0a2d10f0246adcf4; 0x789aff6c014c409b8dea40db; 0x911010f0246d5df0ac9d7f6e; 0xb5e0e0a5ccef442f00f40072;
  0x80f00460ac438eed80f00025; 0x00f501727d6000f602727a60; 0x00f70372776000f500727460; 0xfd4b6eec712410f0306900f0;
  0x0049c1f746a900f601726860; 0x00f70272656000f600726260; 0xc1f766a1c1f787a1fe4b8eeb; 0x5b2300f70172586010f0246a;
  0x5df0509a10f0246d764c5df0; 0xac9d49e0943460aa91e130f0; 0x206a4ef2509a064cb5e01210; 0x40a54cee01761e6110f0246a;
  0x5df0509a764c943449e060aa; 0x30f0206a4ef2509a91e1064c; 0xff6e6cee40eac1f747a1086b; 0x014ac1f747c1c1f747a16eea;
  0x0e2ac1f747c10b1010f0246a; 0xdcf4789a10f0246c5cf5909c; 0x409b8dea40db10f0246a5df0; 0x549a0493409a0eea61e0052a;
  0x10f0246a5df0589a009a10f0; 0x246a5df0489a00da05924ae8; 0x5ff715610997089107900563; 0x00ef0065fe6303d102d010f0;
  0x246a5df05c9a0f6b40a24ceb; 0x0a2330f0206ac0f1084a80f0; 0x8c9a026dadec80f08cda10f0; 0x306a40f040a2ff4a00d2e210;
  0x10f0306a00f0004a40f080aa; 0x00f70074056040f001a20094; 0x8ae80a6110f0246adcf4789a; 0xff6c014c409b8dea40dbcc10;
  0x30f0216dd0f492a5c367c7ec; 0x8667016ecceca0f008240c35].
Definition fw_rows_33 : list Z := [
  0x044db5e2006a30f0216ed0f4; 0xf2a6ff6c1ff700698cef744f; 0xe837fde22cef02f000770860; 0xd0f4f2a68cef744fe837fde2;
  0x2cef0f2f30f0216cd0f432a4; 0xff6c10f0246e8ce974492831; 0xe26725e25cf4c89e0b10d0f4; 0x32a610f0246e5cf4cc9e8ce9;
  0x74492831e26725e2d9e1c0a6; 0x0c31fde1ccec10f0306e00f0; 0x004ed9e780c630f0216ed0f4; 0xf2a6ff6c1ff700698cef7c4f;
  0xe837fde22cef02f000770860; 0xd0f4f2a68cef7c4fe837fde2; 0x2cef0e2f30f0216cd0f4d2a4; 0xff6c10f0246f8cee7c4ec836;
  0xd9e25cf4e89f0a10d0f4d2a6; 0x10f0246f5cf4ec9f8cee7c4e; 0xc836d9e2f9e6c0a6014a0472; 0xccec80c5014d8d6130f0216a;
  0xd0f4b2a2016cc467c4edcfed; 0xd0f4d2a2acebff6d84ee10f0; 0x246e5df0dc9eacec80c6d0f4; 0x92a2acec014cacecd0f492c2;
  0xd0f4b2a2036cacecd0f492c2; 0x10f0306a00f0004a40f081a2; 0x086d014c40f081c240f081a2; 0xaeec1a2c40f081c2171010f0;
  0x246adcf4989a026e409ccdea; 0x40dc10f0246a7df0409a60c2; 0xd0f472a5ff6a4ceb10f0246a; 0x7df0449a60c202101ff71c2b;
  0x03910290026320e8fd630562; 0x04d010f0246a9df0409aff68; 0x60a26ce81d20006b60c230f0; 0x206acef45c9a016c40ea10f0;
  0x246a9df0449a206b207060c2; 0x0d6130f0206ac0f1084a10f0; 0x246c80f06c9abcf49c9c8deb; 0x80f06cda05970490036300ef;
  0xfd630562001c964500180be2; 0x056c016d00185cd300650065; 0x006500650065006500650065; 0x006500650065006500650065;
  0x006500650065006500650065; 0x006500650065006500650065; 0x006500650065006500650065; 0x006500650065006500650065;
  0x006500650065006500650065; 0x006500650065006500650065; 0x00650065006500650065ff17; 0xde63436242d141d0016a7d67;
  0x4bea58c3016a5ac3086a5bc3; 0x10f0306a00f0004ac1f766a2; 0x764b743349e366a27f6a6cea; 0x01727e3080f01c6148a4bd67;
  0x5cc541a45dc542a45ec546a4; 0x20f040c543a45fc547a420f0; 0x41c55ca580f0042a7d675fa3; 0x7ea340326dea037205600872;
  0x2160027237607810062030f0; 0x206aaef25c9a060440ea9d67; 0x20f0e1a420f040a4fff71f6b; 0xe0375de730f0206acef5509a;
  0x30f0206d056cecf6064d00f2; 0x006e6cef40ea7510bd6730f0; 0x206b106a5bc530f020694ef2; 0x509b09f604490904b167046e;
  0x40ea30f0206c4ef2509ca441; 0x0a04046e40ea4210062030f0; 0x206aaef25c9a060440ea30f0; 0x2068c0f10848ebf674a0016a;
  0x6cea272230f0206aeef4509a; 0x40eaebf660a0046a6ceaff6b; 0x6cea182210f0246a9df0489a; 0xebf6cc98006b409a10f0246a;
  0x7cf4509a10f0246c15f6094c; 0x409aa367016f5be604d30018; 0x56ea2910001882eb261030f0; 0x206aeef4549a40eaebf6b2a8;
  0x006c00182feb1b101a2030f0; 0x206aaef25c9a1310142a69a4; 0xbd677cc568a45ec55fc57dc5; 0x46a420f040c567a4082030f0;
  0x206aaef25c9a20f061c50604; 0x40ea439742914190226300ef; 0xfd630562ff6a4cec6844fa4b; 0x4ceb045b0360801802194c10;
  0x097430600a5c076003742160; 0x087425600274126035100c74; 0x13600d5c03600a7426602e10; 0x0d74036024742660291030f0;
  0x206acef5489a081085670018; 0x45eb2c1030f0206aeef5449a; 0x856740ea251030f0206acef5; 0x549a40ea1f1030f0206acef5;
  0x589af21730f0206acef55c9a; 0xed1730f0206aeef5409ae817; 0x8567001852f40c1010f0246a; 0xdcf4789a10f0246cbcf49c9c;
  0x409b8dea40dbff6a05970363; 0x00ef0065fa630b620ad109d0; 0x30f0206aeff4084aa0a4c7a2; 0x026b01686beb0cedccebadeb;
  0x67c2a1a40ceba8c282a489c2; 0x49a206d2202301692be9d167; 0x006c426d0018e7e710f0246b; 0x3cf5f49bd167006c4def426d;
  0x0018fae70696646a10f0246c; 0x014e58ee5bf31d4c006df167; 0x04d012ee001856ea061010f0; 0x246c5bf31d4c001843ea0b97;
  0x0a910990066300effa630b62; 0x0ad109d060a4016a04674ceb; 0x682361a4085b176010f0246c; 0x9df0ac9cc7432267e09d104b;
  0x014e826724eb84ee7167edeb; 0x8fec6cec60a066334ceb64ee; 0x6dec80dd151010f0246c9df0; 0xd09c8743014ca09ee267e4ec;
  0x8767adeca267a4ebafedacec; 0xa0a0a6354ceda4ebadec80de; 0x41a0085a076010f0246b9df0; 0x8c9b084aa09c051010f0246b;
  0x9df0909ba09c016b64eaaeeb; 0x60dc80a0006d92340018a0c8; 0x80a0016d226792340018a0c8; 0x9d67246b70c4086b6fcc2233;
  0x73c4623374c456c4423300f6; 0x423259c430f0206aaef2589a; 0x32c477c400f62231623335c4; 0x78c4040440ea0b970a910990;
  0x066300effc63076206d105d0; 0x30f0206a4ef2509a046730f0; 0x206c28f51c4cb067056e40ea; 0x30f0206ac0f1084a66a0c8f3;
  0x99a27f6e7e337c33ccec6dec; 0xc8f399c266a01f6d6ced206b; 0x6beb8cebadebc8f379c286a0; 0x036d9634acec9435616c8bec;
  0x6cecadecc8f399c268f354a2; 0x4cee062e016b30f0206aaff5; 0x70c2071030f0206aeff4084a; 0x006bc0f068c230f02069c0f1;
  0x084968f3b7a19067b6350018; 0x65d168f358a10c720461006c; 0x016d00183cd6079706910590; 0x046300eff9630d620cd10bd0;
  0x10f0246b1cf4789b10f0236a; 0xcef1014a08d440db41a42467].
Definition fw_rows_34 : list Z := [
  0x06d260a4026a6cea069307d3; 0x022242a407d206901c100893; 0x016d906740a34ced001820c8; 0x30f0206a6ef5589a906740ea;
  0x052a30f0206a6ef5549a0410; 0x30f0206a6ef5509a906740ea; 0x0148ff6a4ce8079203eae160; 0x30f0206aeff689a206928eea;
  0x222a30f0206a6ef5589a40ea; 0x1c2a30f02068c0f108480018; 0xc9ed68f397a0963400185bcd; 0x68f379a0056a4bea6cea68f3;
  0x7aa068f359c0026a4bea6cea; 0x036b6beb6cea68f35ac030f0; 0x206a60a1ccf150a27234152a; 0x046a6ceaff6b6cea102210f0;
  0x246a1cf7509a006b60c210f0; 0x246abdf0749a10f0246a1cf4; 0x589a60daf0170574156130f0; 0x206accf152a2102a10f0246a;
  0x1cf7509a006b60c210f0246a; 0xbdf0789a10f0246a1cf4589a; 0x60daf01763a1076a016c6cea; 0x60a18ceb1e2b30f0206bc0f1;
  0x084b69f3c8a384ea1f6fca35; 0x8fececed8ced7d6c8beca835; 0xccecadec69f388c330f0206c; 0xeff688a48eea202a016a4bea;
  0x69f349c31b1030f0206bc0f1; 0x084b69f3c8a31f6f84eaca35; 0xecedadececec88357d6c8bec; 0xccecadec69f388c330f0206c;
  0xeff688a48eea022a69f389c3; 0x30f0206ac0f1084a69f388a2; 0x026b8ceb1c23036b6beb8ceb; 0x69f368c2001899e904d230f0;
  0x206a0493eff5409a6eea0322; 0x04940018bae930f0206ac0f1; 0x084a69f388a2026b8deb69f3; 0x68c20d970c910b90076300ef;
  0xfd63056204d0ff6a4cec6844; 0xc84b4ceb205b0567096030f0; 0x206aeff64fa240f10f2a8018; 0xbe1b4c112f7440f10960305c;
  0x48601d74a0f01e601e5c1e60; 0x1574a0f00560165c0c600174; 0x80f0146080f00e24097480f0; 0x1360107480f0146022111774;
  0x80f01c60175c80f015611974; 0x80f01a601c7480f01b601511; 0x237420f10160245c0d601f74; 0x80f019601f5c80f01a612074;
  0x80f01b60217400f113600311; 0x2c74a0f000602d5c07602474; 0x80f01360277480f01460f710; 0x2d7480f018602e7480f01960;
  0xf0106974c0f001606a5c2860; 0x6374a0f00460645c10606074; 0x80f01360615c0460307480f0; 0x0a60dd10617480f00e606274;
  0x80f00f60d610667480f01b60; 0x675c0760647480f00e606574; 0x80f00f60ca10677480f01360; 0x687480f01460c3107174a0f0;
  0x0860725c10606e7480f01760; 0x6f5c04606d7480f00e60b510; 0x6f7480f01260707480f01360; 0xae10c97480f01b60ca5c0760;
  0xba7480f01260c37480f01f60; 0xa210cb7480f01360d17480f0; 0x14609b108567001807daa610; 0x8567001870dca21085670018;
  0x7ec59e1085678018e9089a10; 0x856780184009961085678018; 0x5809921085678018b0098e10; 0x8567801864098a1085678018;
  0x490b8610856780184a0b9067; 0x0018bec57f108567001827c6; 0x7b108567001843dc77108567; 0x00187dc673108567001874c6;
  0x6f108567001841c66b108567; 0x001814da67108567001842e0; 0x631085670018c8e05f108567; 0x00187bd65b10856700188cd6;
  0x57108567001893d653108567; 0x00189ad64f1085670018a6d7; 0x4b1085670018a1d647108567; 0x0018aed6431085670018b5d6;
  0x3f1085670018c3d63b108567; 0x0018cad637108567001832d7; 0x33108567001859d72f108567; 0x001868d72b108567001878d7;
  0x27108567001823d723108567; 0x801880081f108567001808dc; 0x1b1085670018e6db17108567; 0x00181ef7131085670018f9de;
  0x0f1010f0246adcf4789a016d; 0x409badea40db10f0246a3cf4; 0x409a80c20e6a0110006a40c0; 0x05970490036300effd630562;
  0x04d010f0246b1cf4789b10f0; 0x236a8ef60d4a10f0306840db; 0x00f0004840f040a040f061a0; 0x4eeb29234c320de280a3a142;
  0xb5e00018f0dc40f040a0014a; 0x40f040c040f060a040f041a0; 0x6eea0a2230f0206ac0f1084a; 0x80f06c9a026c8deb80f06cda;
  0x10f0306a00f0004a40f060a2; 0x086c8eeb022b40f060c20018; 0x96da05970490036300ef0065; 0xfd63056204d010f0306800f0;
  0x0048c1f766a07f6ca7436f4d; 0xb43515e546a58cea202a7433; 0x09e3c1f68ea2a267c1f60f4d; 0x0018f0dcc1f746a010f0246c;
  0xbdf09c9c54330de3c1f6aca3; 0x764a5432a0c4c1f68da310f0; 0x246bddf0609b41e080c38640; 0x49100172496174330de3c1f6;
  0x47a3ff720c61c1f688a3064d; 0x0018b8dbc1f766a0743301e3; 0xc1f64ec00410016a4beac1f6; 0x4ec310f0306a00f0004ac1f7;
  0x66a210f0246dbdf0bc9d7434; 0x51e4c1f6cca4764b7433c0c5; 0xc1f6ada410f0246cddf0809c; 0x49e3a0c4468200520b6010f0;
  0x246adcf4789a10f0246c7cf4; 0x949c409b8dea40db10f0306a; 0x00f0004ac1f766a2764b7433; 0x69e2864200184fdb05970490;
  0x036300effd63056204d010f0; 0x246b1cf4789b10f0236a0ff0; 0x154a10f0306840db00f00048; 0xc1f766a0c1f747a06eea4a22;
  0x30f0206aeff4084aa0f06caa; 0x01f000731060a0f08da2a0f0; 0x4ca2ae428eed092501f10173; 0x066001f100730360ff4a4eec;
  0x0d2c30f0206bc0f1084b80f0; 0x4c9b046c8dea026c8dea80f0; 0x4cdb24100018c5ddc1f746a0; 0x014ac1f746c0c1f766a0c1f7;
  0x47a06eea0a2230f0206ac0f1; 0x084a80f06c9a026c8deb80f0; 0x6cda10f0306a00f0004ac1f7; 0x66a2086c8eeb022bc1f766c2;
  0x001829da05970490036300ef; 0xfd63056230f0206aeef4449a].
Definition fw_rows_35 : list Z := [
  0xfff71f6b6cec40ea052a016b; 0x30f0206aeff670c205970363; 0x00ef0065fb63096208d107d0; 0xe0f114680ad4246790670405;
  0x001837de7d6750a30148e0f1; 0x1a7040c10149f46130f0206a; 0xc0f1084a0cf06da20cf08ea2; 0x6c3394348deb0cf08ca28deb;
  0x0a9466c40cf06fa20cf050a2; 0x683358324deb336a4deb67c4; 0x099708910790056300ef0065; 0xfb63096208d107d0e0f11068;
  0x0ad4246790670405001837de; 0x7d6750a30148e0f1147040c1; 0x0149f461e0f11c6c04050018; 0x37de7d6750a30a9344c30997;
  0x08910790056300effb630962; 0x08d004009067001841dea0f1; 0x026a1ff7006b4ceb02f00073; 0x0160052b10f0246b5cf4689b;
  0x041010f0246b5cf46c9b80a0; 0x6de2014aa0f10a7280c30148; 0xe8610400906700185bdea0f1; 0x0a6a1ff7006b4ceb02f00073;
  0x0160052b10f0246b5cf4689b; 0x041010f0246b5cf46c9b80a0; 0x6de2014aa0f10f7280c30148; 0xe86110f0246addf0449a196b;
  0x60c209970890056300ef0065; 0xfc63076206d030f02068c0f1; 0x08480cf04ca00b2ae0f11a6c; 0x0405001837de9d6770a4076a;
  0x6cea0cf04cc030f02068c0f1; 0x08480cf04ea00a2ae0f11a6c; 0x0405001837de7d6750a35632; 0x0cf04ec030f02068c0f10848;
  0x0cf04fa00b2ae0f11d6c0405; 0x001837de9d6770a4036a6cea; 0x0cf04fc030f02068c0f10848; 0x0cf050a00c2ae0f11d6c0405;
  0x001837de7d6750a3306b6cea; 0x53320cf050c0079706900463; 0x00ef0065fb63096208d107d0; 0x30f020680401c0f10848016a;
  0xe0f11b6cb1670cf048c00cf0; 0x49c00cf04ac00cf04bc00018; 0x37de9d6770a4076ae0f11d6c; 0x6cea0cf04cc0186a6cea4f32;
  0x7633b1670cf04dc00cf06ec0; 0x001837de5d6770a20c6a6cea; 0x4b327a330cf04fc00cf070c0; 0x001891de10f0246addf0449a;
  0x60a2ff6a6ceafd7202610018; 0x6cde099708910790056300ef; 0xfb630962226a7d6750c3016a; 0x4fcb30f0206aaef2589a92c3;
  0x040440ea0997056300ef0065; 0xfb6309621a6a7d6750c300f0; 0x1204056a4fcb00185bde30f0; 0x206aaef2589a040440ea0997;
  0x056300effb630962196a7d67; 0x50c300f01204086a4fcb0018; 0x41de30f0206aaef2589a0404; 0x40ea0997056300effd630562;
  0x40a4017204610018efde0018; 0xe5de0597036300ef30f0206a; 0xc0f1084a006b0cf57ac2006b; 0x0cf578c220e80065ff6301d0;
  0x10f0246bddf0689b10f02468; 0xddf00c98e09bff6a4cec0cef; 0x085c4ced4ceee0db4660b075; 0x2e61b276136110f0246a9df0;
  0xac9a016a44ecc09d00f64034; 0xcdec80ddc09d403480348fec; 0xccec80dd809b4e10b17680f0; 0x136110f0246a9df0ac9a016a;
  0x44ecc09d00f64034cdec80dd; 0xc09d403480348fecccec80dd; 0x809b4fea8cea40db7b10a075; 0x7d61a176086110f0246a9df0;
  0x4c9a016b64eca09a5110a276; 0x6f6110f0246a9df04c9a016b; 0x64eca09a5a10e8444cef085f; 0xe06a6560b0753561b2761861;
  0x10f0246a9df0509a016ea667; 0x009aa4efe56700f6a0350ded; 0xa0daa09ae037e037efefacef; 0xe0da409bc4ec86674dec1910;
  0xb176446110f0246a9df0509a; 0x016ea667009aa4efe56700f6; 0xa0350deda0daa09ae037e037; 0xefefacefe0da409bc4eccfec;
  0x4cec80db2910a0752b61a176; 0x116110f0246a9df0509a016b; 0x64efa09a00f660348fecacec; 0x80da809a603360338deb1310;
  0xa276146110f0246a9df0509a; 0x016b64efa09a00f660348fec; 0xacec80da809a603360336feb; 0x8ceb60daf06a0310e26a0110;
  0xe16a0190016320e8ff6b6cec; 0x085c6ced206010f0246addf0; 0x509a016e40a26cea47ecccea; 0x482a10f0246addf0549ac4ec;
  0x866740a26ceacceaceea3b2a; 0x052510f0246addf0b89a2410; 0x10f0246addf0589a2910f84c; 0x6cec085ce06a2e6010f0246a;
  0xddf05c9a016e40a26cea47ec; 0xccea232a10f0246afdf0409a; 0xc4ec866740a26ceacceaceea; 0x162a0a2510f0246afdf0a49a;
  0x40a56cea8dea6cea40c50910; 0x10f0246afdf0449aa0a28fec; 0x6cecacec80c2f06a20e8e56a; 0x20e8e46a20e80065fc630762;
  0x06d105d0ff6824670ce99167; 0xace8a16ea06d001805df9167; 0xb067001868df079706910590; 0x046300effd63056210f0246a;
  0xddf0689a10f0246dddf0ac9d; 0x409ba26eacea40dbff6a4cec; 0xa06d001805df0597036300ef; 0xff6b6cec085c0f6010f0246a;
  0xddf0509a016d40a26cea47ec; 0xacea1f2a10f0246addf0549a; 0x1310f84c6cec085ce06a1660; 0x10f0246addf05c9a016d40a2;
  0x6cea47ecacea0b2a10f0246a; 0xfdf0409a40a24ceb67ec4567; 0x6eeaacea20e8006a20e80065; 0xff6b6cec085c1a6010f0246a;
  0xddf0509a016e40a26cea47ec; 0xccea352a10f0246addf0549a; 0xc4ec8667a0a26cedccedceed; 0x2a2d10f0246addf0589a1e10;
  0xf84c6cec085ce06a216010f0; 0x246addf05c9a016e40a26cea; 0x47ecccea162a10f0246afdf0; 0x409ac4ec8667a0a26cedcced;
  0xceed0b2d10f0246afdf0449a; 0x40a24ceb8ceb6eec015c5867; 0x20e8006a20e80065fd630562; 0x04d0ff6a04674ce8aceaa472;
  0x0c6190670018abdf01720461; 0x90670018a0df1f109067006d; 0x0d10a572116190670018abdf; 0x0172046190670018a0df1810;
  0x9067016d001895df90670018; 0xa0df141090670018c3df0172].
Definition fw_rows_36 : list Z := [
  0x07619067016d001895df9067; 0x006d06109067006d001895df; 0x9067016d001895df05970490; 0x036300effd630562ff6a8cea;
  0x0172fff71f6cacec056130f0; 0x206acef4589a041030f0206a; 0xcef45c9a40ea0597036300ef; 0xfd63056230f0206aeff4084a;
  0x40f272a20b2340f273a20423; 0x40f290a2a56d071040f290a2; 0xa46d031040f290a2a36d0018; 0xe6df0597036300effb630962;
  0x08d107d0ff6a30f020694cec; 0x4ceefff71f68eff4084904d4; 0xace805d6001811e040f254a1; 0x2b220494b067001806e00018;
  0x11e040f255a101691e2210f0; 0x246afdf0489a60a2106a6cea; 0x192a0494b067001806e00018; 0x11e0f1170494b06701490018;
  0x06e0001811e00494b0670018; 0x06e0001811e0ff6a4ce90592; 0x43e9ee610997089107900563; 0x00ef0065fd63056230f0206a;
  0x4ef2509aa46730f0206ceff6; 0x114c076e40ea30f0206beff4; 0x084b00f289a3016fff6aecec; 0x122400f2c9a300f26aa3c634;
  0xca35ce36ecececedecee7f6f; 0x6cef4cec4ced4cee4cef0018; 0x5cc70597036300effb630962; 0x08d0ff6a4cec2f6baceabd67;
  0x0dd70cd670c50a6b6fcdb2a5; 0x086bdd6730f020686bebaceb; 0x53c64ef250986dec92c60c05; 0x0504046e40ea4ef250980604;
  0x0d05046e40ea30f0206aaef2; 0x589a040440ea099708900563; 0x00ef0065fa630b620ad109d0; 0x30f0206aeff4084a00f2d8a2;
  0x1f6bff6dcceb8eebaceb80f0; 0x1b2b00f297a2016b8cebaceb; 0x072320f2609a20f2589a6eea; 0x80f00e2230f0206aeff4084a;
  0x00f297a2106b8ceb062320f2; 0x689a40f2409a6eea7f2210f0; 0x246afdf04c9a30f02068eff4; 0x0848409aff6907d210f0246a;
  0xfdf0509a409a06d210f0246a; 0xfdf0749a8f6a80a38cea40c3; 0x10f0246a7cf4509a006ca467; 0x409a05d210f0246a9df0489a;
  0x409a04d207960697001858e0; 0x05960497016c006d001858e0; 0x00f277a0106a6cea222220f2; 0xc89820f2ec987635026c2ced;
  0x001858e000f2b7a020f2d098; 0x20f2f498b635046c2ced0018; 0x58e030f0206a4ef2509a30f0; 0x206c30f0206d2ff7084c0ff7;
  0x104d106e40ea30f0206aeff4; 0x084a00f297a2016b8ceb1e23; 0x20f2c09a20f2789aceeb1823; 0x8635076b20f2e49a6cedff6b;
  0x036c6ced001858e030f0206a; 0x4ef2509a30f0206c30f0206d; 0x2ff7004c0ff7084d086e40ea; 0x0b970a910990066300ef0065;
  0xfd63056204d030f0206a4ef2; 0x509aa46730f0206ceff61f4c; 0x076e40ea30f0206aeff4084a; 0x00f297a2106b8ceb05239634;
  0xff6a4cec0018daec30f0206a; 0x0ff740a21f6cff684cec0c4c; 0x016a44ec826700182ae110f0; 0x246afdf0789a086c40a30cea;
  0x8dea0cea40c3059704900363; 0x00ef0065fff71f6a10f0246b; 0x8ceafdf07c9b10f0246c1df1; 0x809ccceb40f6a0358deb1ff7;
  0x006c4cec02f00074adeb0160; 0x052c10f0246c5cf4889c0410; 0x10f0246c5cf48c9c89e260da; 0x20e80065fff71f6a8cea1ff7;
  0x006c4cecff6b02f00074aceb; 0x0160052c10f0246c5cf4889c; 0x041010f0246c5cf48c9c91e2; 0x006da0dc10f0246cfdf09c9c;
  0xd43640f660338cee6dee10f0; 0x246b1df1609b6dee1ff7006b; 0x4ceb02f000730160052b10f0; 0x246b5cf4689b041010f0246b;
  0x5cf46c9b69e2c0da20e80065; 0x0ff5006b78eefff71f6a8cea; 0x10f0246cfdf09c9c40f6a035; 0x12eb8ceb10f0246c1df1809c;
  0xadeb8deb1ff7006c4cec02f0; 0x00740160052c10f0246c5cf4; 0x889c041010f0246c5cf48c9c; 0x89e260da20e8006510f0246a;
  0xfdf04c9a409a20e830f0206b; 0xc0f1084b4c9b8dea4cdb10f0; 0x246b1df1749b80db10f0246b; 0x1df1789b40db20e8fd630562;
  0x04d010f0246a1df17c9ac06a; 0xff6880a38cea40c330f0206a; 0xcef45c9a0a6c40ea10f0246a; 0x3df1409a016b059740a20cea;
  0x5e326eea6cea0cea04900363; 0x00ef0065fd63056204d010f0; 0x246b1cf4789b10f0246a10f5; 0x114a40db0068281082f30870;
  0x116110f0246adcf4789a02f0; 0x006c409b8dea40db10f0246a; 0x3df1449a036b6beb60c21810; 0xfff71f6a01484ce830f0206a;
  0xcef45c9a146c40ea33580861; 0x10f0246afdf0489a60a2086a; 0x6cea042a001833e10172d461; 0x10f0246a3df1449a026b6beb;
  0x60c210f0246b1cf4789b10f0; 0x246a10f5124a40db05970490; 0x036300ef055c5e6010f0246a; 0x8834fcf2184a89e2409a00ea;
  0x30f0206bc0f1489badeac0f1; 0x48db10f0246b9df0649ba0db; 0x10f0246b3df1689b321030f0; 0x206bc0f1084b419badea41db;
  0x10f0246b3df16c9ba0db10f0; 0x246b3df1709b211030f0206b; 0xc0f1084b429badea42db10f0; 0x246b3df1749ba0db10f0246b;
  0x3df1789b101030f0206bc0f1; 0x084b439badea43db10f0246b; 0x3df17c9ba0db10f0246b5df1; 0x609b40db20e830f0206bc0f1;
  0x084b449badea44db10f0246b; 0x5df1649ba0db10f0246b5df1; 0x689b40db20e80065055c6360; 0x10f0246a88341cf30c4a89e2;
  0x409a00ea30f0206bc0f1889b; 0xafea8ceac0f148db10f0246b; 0x3df1689b40db10f0246a9df0; 0x449a351030f0206bc0f1084b;
  0x819bafea8cea41db10f0246b; 0x3df1709b40db10f0246a3df1; 0x4c9a231030f0206bc0f1084b; 0x829bafea8cea42db10f0246b;
  0x3df1789b40db10f0246a3df1; 0x549a111030f0206bc0f1084b].
Definition fw_rows_37 : list Z := [
  0x839bafea8cea43db10f0246b; 0x5df1609b40db10f0246a3df1; 0x5c9aa0da20e830f0206bc0f1; 0x084b849bafea8cea44db10f0;
  0x246b5df1689b40db10f0246a; 0x5df1449aa0da20e801741560; 0x03240274236020e830f0206b; 0xc0f1084b4e9badea4edb10f0;
  0x246bbcf4709ba0db10f0246b; 0x5df16c9b211030f0206bc0f1; 0x084b4f9badea4fdb10f0246b; 0xbdf06c9ba0db10f0246b5df1;
  0x709b101030f0206bc0f1084b; 0x509badea50db10f0246b5df1; 0x749ba0db10f0246b5df1789b; 0x40db20e80174166003240274;
  0x256020e830f0206bc0f1084b; 0x8e9bafea8cea4edb10f0246b; 0x5df16c9b40db10f0246abcf4; 0x509a231030f0206bc0f1084b;
  0x8f9bafea8cea4fdb10f0246b; 0x5df1709b40db10f0246abdf0; 0x4c9a111030f0206bc0f1084b; 0x909bafea8cea50db10f0246b;
  0x5df1789b40db10f0246a5df1; 0x549aa0da20e8006510f0246c; 0x3df1889c006a30f0206bc0f1; 0x48dbc0f1084b41db42db43db;
  0x44db40dc10f0246c3df1909c; 0x40dc10f0246c3df1989c40dc; 0x10f0246c5df1809c40dc10f0; 0x246c5df1889c40dc10f0246c;
  0x5df18c9c4edb4fdb40dc10f0; 0x246c5df1909c40dc10f0246c; 0x5df1989c50db40dc4cdb10f0; 0x246b1df1789b40db20e80065;
  0x10f0246b9df0649b016a4bea; 0x40db10f0246b3df16c9b40db; 0x10f0246b3df1749b40db10f0; 0x246b3df17c9b40db10f0246b;
  0xbcf4709b40db10f0246bbdf0; 0x6c9b40db10f0246b5df1789b; 0x40db10f0246b1df1749b40db; 0x20e80065ff6a4cec055c4ced;
  0x006a616010f0246a88343cf3; 0x004a89e2409a00ea052d10f0; 0x246a7df1449a0a1010f0246a; 0x7df1449a0c10072d10f0246a;
  0x7df1489a60a2016a391010f0; 0x246a7df1489a60a2ff6a6cea; 0x46322f10092d10f0246a7df1; 0x489a60a2ff6a6cea4a322510;
  0x10f0246a7df1489a60a2ff6a; 0x6cea4e321c10092d10f0246a; 0x7df1489a60a2ff6a6cea5232; 0x121010f0246a7df1489a60a2;
  0xff6a6cea563209100b2d10f0; 0x246a7df1489a60a2ff6a6cea; 0x5a32016b6cea20e810f0246a; 0x7df1489a40a200f6403200f6;
  0x4332c0f7423220e8fc630762; 0x06d105d0ff698ce90068ff6a; 0x0cea2eea102a91670018ccec; 0x91670018bbec91670018d3ec;
  0x916700188dec916700189aec; 0x0f1090670018f2ec90670018; 0xe1ec90670018f9ec90670018; 0xb1ec90670018a7ec01480570;
  0xda61079706910590046300ef; 0xfc63076206d105d010f0246a; 0xfff71f698ce97df1909aff6b; 0x8e6aa0a400686cedacea40c4;
  0x716aadea6cea40c410f0246a; 0x7df1949a016d40a46ceaadea; 0x6cea40c4191064700d6110f0; 0x246adcf4789a10f0246cdcf4;
  0x809c409b8dea40db006a1c10; 0xfff71f6a01484ce830f0206a; 0xcef45c9a0a6c40ea10f0246a; 0x7df1549a60a2016a6ceadf2a;
  0xfff71f6a01494ce910f0246a; 0x7cf5549a20ca016a07970691; 0x0590046300ef0065f9630d62; 0x0cd10bd030f0206bff694ef2;
  0x4c9b2cedfff71f6811d78ce8; 0x08d50404006dcce9046e40ea; 0x30f0206b4ef24c9b0504006d; 0x046e40ea30f0206b4ef2509b;
  0x11950404046e40ea30f0206b; 0x4ef2509b12950604046e40ea; 0x00f1005808610ef04040fff7; 0x1f6b6cea00f1005a39600892;
  0x0472116110f0246a5cf4489a; 0xff6b49e040a24ceb5f210694; 0x8fea6cea04938ceb6dea04d2; 0x571008920572126110f0246a;
  0x5cf4489afff71f6b49e040aa; 0x4ceb7f2106948fea6cea0493; 0x8ceb6dea04d2771010f0246a; 0x5cf4489a49e0609a80f01e21;
  0x06948fea6cea04938ceb6dea; 0x04d2961001f0005809610df7; 0x4040fff71f6b6cea00f7005a; 0x80f017600892047231611ff7;
  0x006a0cea02f000720160052a; 0x10f0246a5cf4489a041010f0; 0x246a5cf44c9a49e060a2ff6a; 0x6cea072106948feb4ceb0492;
  0x8cea4deb04d31ff7006a0cea; 0x02f000720160052a10f0246a; 0x5cf4489a041010f0246a5cf4; 0x4c9a7d6741e050a340c07e10;
  0x0892057232611ff7006a0cea; 0x02f000720160052a10f0246a; 0x5cf4489a041010f0246a5cf4; 0x4c9a49e060aafff71f6a6cea;
  0x072106948feb4ceb04928cea; 0x4deb04d31ff7006a0cea02f0; 0x00720160052a10f0246a5cf4; 0x489a041010f0246a5cf44c9a;
  0x7d6741e048ab40c849101ff7; 0x006a0cea02f000720160052a; 0x10f0246a5cf4489a041010f0; 0x246a5cf44c9a49e0609a0721;
  0x06948fea6cea04938ceb6dea; 0x04d21ff7006a0cea02f00072; 0x0160052a10f0246a5cf4489a; 0x041010f0246a5cf44c9a41e0;
  0x049240d81b10fff71c6a0cea; 0x016d8267abed08d200189ce7; 0x05d2072106948feb4ceb0492; 0x8cea4deb04d330f0206acef4;
  0x509a08940496016dabed40ea; 0x0d970c910b90076300ef0065; 0xf9630d620cd10bd0419c61a4; 0x01ac06d2429cff7307d2006a;
  0x59607f6d6ced4c45ff6b6cea; 0x0e5a086010f0246b48323cf3; 0x144b4de3409b00ea036a4810; 0x61a4806a4bea6ceaff6e0703;
  0x90674cee060704d30018b6e2; 0x1f1081a4806aff6964674ceb; 0x0ce90232016e8267b167cbee; 0x08d309d20018e7e708930723;
  0x07948feb4ceb06928cea4deb; 0x06d309940697016eb167cbee; 0x0018fae730f0206ac0f1084a; 0x29f47c9a069461e049f4609a;
  0x29f41cda6de449f460da0b10; 0x30f0206acef45c9a041030f0].
Definition fw_rows_38 : list Z := [
  0x206acef4589a906740ea016a; 0x0d970c910b90076300ef0065; 0x10f0246a1df1949a30f0206b; 0xc0f1084ba09c4c9bacea4ddb;
  0x40dc20e8fd6305d104d010f0; 0x246a9df0249a10f0246a3df1; 0x0c4a409a609910f0246ca09a; 0x10f0246a3df1549a3df11c4c;
  0x809c009a1a6510f0246a809c; 0x5df1044a409a01d430f0206c; 0x409ac0f1e89c00d24467c0f1; 0x084ac19a839a6cefacee0193;
  0xa29ae5da6cec0ced649a0090; 0x88dac6da0ceba7da69da10f0; 0x246a3df10c4a409ae0d91867; 0xc0da10f0246a3df11c4a409a;
  0xa0d880da10f0246c5df1044c; 0x809c60dc05910490036320e8; 0xff6301d100d010f0246abcf4; 0x109a10f0246abdf0ec9a10f0;
  0x246a5df1d49a30f0206ac0f1; 0x084a8098ae9a609f209e8ced; 0x8f9ab1da6cec709a92da2ceb; 0x73daa0d880df60de01910090;
  0x016320e820e80065fd630562; 0x30f0206a6ef2509a40ea0597; 0x036300ef20e80065ff6a4cec; 0x076db8ec30f0206bc0f1084b;
  0x016e12ec71e4e9f0a5a4cced; 0x1d25e9f0a6a429f1609be9f0; 0x85a475e510f0246b5df06c9b; 0xbc35214d75e5e0a59e339a34;
  0xccec78339c344cef8debedeb; 0x00f6603300f663334ceb60c5; 0x20e8006520e8006520e80065; 0x20e8006520e8006520e80065;
  0x20e8006520e8006520e80065; 0x20e8006530f0206ac0f1084a; 0x68f39da2046b8deb68f37dc2; 0x20e8006520e8006520e80065;
  0x10f0246a7df1589a40a210f0; 0x246a7df15c9a40a210f0246a; 0x9df1409a40a210f0246a9df0; 0x489a40a210f0246a9df1449a;
  0x40a210f0246a9df1489a40a2; 0x10f0246a9df14c9a40a210f0; 0x246a7cf4509a40a220e80065; 0x30f0206ac0f1084a08f38aa2;
  0x016b8ceb0523006b08f36bc2; 0x08f36cc220e8006530f0206a; 0xc0f1084a08f38aa2016b8ceb; 0x0523006b08f36bc208f36cc2;
  0x20e8006530f0206ac0f1084a; 0x08f38aa2016b8ceb0523006b; 0x08f36bc208f36cc220e80065; 0x20e8006510f0246adcf4789a;
  0x10f0246cbcf4989c409b8dea; 0x40db20e820e80065fd630562; 0x30f0206b30f0206aeff689a3; 0x6ef5589a40ea016b6eea1e2a;
  0x30f0206bc0f1084b68f3b4a3; 0x7f6cacec152410f0246c3cf5; 0x889c006d40c410f0246abcf4; 0x509a026c80c230f0206aaef2;
  0x509ae8f3c5a3ff6c554c40ea; 0x0597036300ef006520e80065; 0x20e8006520e8006520e80065; 0x20e80065fd63056230f0206d;
  0xc0f1084d68f3d4a57f6bff6a; 0xcceb4ceb4cec0d2b08f3aaa5; 0x016b6ced4ced072d30f0216d; 0x90f3a0a5aceb4ceb182330f0;
  0x206ac8f472a2016a4ceb082b; 0x30f0216b90f360a36ceaff6b; 0x6cea0722001882f001720561; 0x001857f2021000188bce0597;
  0x036300effc63076206d105d0; 0x30f0206b30f0206a24676ef5; 0x589aeff689a3ff680ce940ea; 0x0172196130f0206ac0f1084a;
  0x68f394a27f6b8ceb0ceb0f23; 0x68f39da2026b6beb8ceb68f3; 0x7dc268f35da2076b6cea032a; 0x9167001885cc079706910590;
  0x046300effc63076206d105d0; 0x30f0206b30f0206a24676ef5; 0x589aeff689a3ff680ce940ea; 0x016b6eea292a30f0206bc0f1;
  0x084b68f3b4a37f6cacec0cec; 0x1f2410f0246c3cf5889c40c4; 0x10f0246abcf4509a026c80c2; 0x68f399a3036a4bea4cec68f3;
  0x99c368f39da38cea68f35dc3; 0x68f35da3076b6cea032a9167; 0x001885cc0797069105900463; 0x00ef0065fd63056230f0206a;
  0xc0f1084a68f3bda2056b6beb; 0xaceb68f37dc2ff6a4cec0018; 0x85cc0597036300effc630762; 0x06d105d030f0206b30f0206a;
  0x24676ef5589aeff689a3ff68; 0x0ce940ea01721b6130f0206b; 0xc0f1084b68f394a37f6a8cea; 0x0cea112268f375a3106a4bea;
  0x6cea0cea2072066030f0206a; 0x2ef4549a40ea031091670018; 0x94ce30f0206aeff4084a00f2; 0x67a2082be0f061a2076a6cea;
  0x4ee9022900183cef07970691; 0x0590046300ef0065fd630562; 0x04d030f0206beff4084b00f2; 0xb7a30467016cff6aacec4cec;
  0x4ce81324a632076c8cea0eea; 0x0e2a10f0246afdf0509a409a; 0x20f244db10f0246afdf04c9a; 0x409a20f240db906700183fca;
  0x80f00e2230f0206ac8f472a2; 0x016a4ceb082b30f0216b90f3; 0x60a36ceaff6b6cea0c2230f0; 0x206ac8f456a20272366030f0;
  0x216a90f35ba20272306030f0; 0x206ac0f1084a68f3b4a27f6b; 0xff6caceb0d2b08f36aa2016a; 0x4ceb8ceb072b30f0216b90f3;
  0x60a36cea8cea092230f0206a; 0x48f544a20272136090670018; 0x64cf30f0206aeff4084a00f2; 0x67a2092be0f061a2076a6cea;
  0x0eea032a906780186b0e30f0; 0x206aeff4084a00f2a9a2016c; 0xff6bacec3924b6348ee83628; 0x00f2aca200f2cba27f6c8ced;
  0x8cee00f28ca26ced6cee9e34; 0x6cec052cb435d04dfff71f6a; 0x4ced30f0206aeff4084a00f2; 0xeaa27f6beceb40f270c200f2;
  0x69a2016f6630ece840f211c2; 0x00f20ba21e3040f214c26a30; 0x6e33ecebece840f273c2006b; 0x40f212c240f275c200181fe0;
  0x05970490036300eff9630d62; 0x0cd10bd010f0246a9df1509a; 0xff698ce960a2036a6cea0372; 0x086110f0246a9df1749a7f6a;
  0x80a38cea40c330f0206aeff4; 0x084a00f297a2106b8ceb2723; 0x96332eeb242b10f0246bfdf0; 0x949b8f6ba0a4aceb60c410f0;
  0x246bfdf0709b609b20f26cda; 0x10f0246bfdf06c9b609b20f2].
Definition fw_rows_39 : list Z := [
  0x68da10f0246b9df0689b609b; 0x20f274da10f0246b7cf4709b; 0x609b20f270da30f02068eff4; 0x084800f270a0016a6cea6622;
  0x76322eea632a10f0246a7cf4; 0x509a7d6700f01a04409a0505; 0x046e05d210f0246a9df0489a; 0x409a04d22d6a58c3096a53cb;
  0x30f0206b4ef2509b40ea30f0; 0x206b4ef2509b0405046e00f0; 0x1e0440ea5d6720f022c230f0; 0x206aaef2589a060440ea00f2;
  0x93a000f2b3a000f2d2a0ff6b; 0x7f6a9e344ced4cee6cec6ced; 0x6cee052cb435d04dfff71f6a; 0x4ced30f0206aeff4084a00f2;
  0xf1a27f6beceb40f270c200f2; 0x70a2016f6630ece840f211c2; 0x00f212a21e3040f214c26a30; 0x6e33ecebece840f273c2006b;
  0x40f212c240f275c200181fe0; 0x0d970c910b90076300ef0065; 0xfd630562001829da05970363; 0x00ef0065fb63096208d107d0;
  0x30f02068c0f1084868f37aa0; 0x026aff696cea2cec2cea04d4; 0x2022036a4bea6cea016d68f3; 0x5ac0001840e268f39aa0016b;
  0x4ceb096a4bea8cea68f394a0; 0x6c336dea7f6b8ceb2ceb68f3; 0x5ac00723086b4ceb2ceb0323; 0x0494001885cc30f02068c0f1;
  0x0848a9f068a0116aff696cea; 0x11722761c9f064a0026a6cea; 0x2cea21220494036a4bea6cea; 0x016dc9f044c0001840e2c9f0;
  0x84a0016b4ceb056a4bea6833; 0x8cea6dea046b4ceb2cebc9f0; 0x44c0092330f0206aeff4084a; 0xe0f06aa2014be0f06ac230f0;
  0x206aeff64fa2032a04948018; 0x940d099708910790056300ef; 0xfc63076206d105d030f02068; 0xc0f1084868f37aa0ff69016a;
  0x8ce96ceaff6c8cea2f22026a; 0x4bea6cea9167006d68f35ac0; 0x001840e268f39aa0016b6cea; 0xfa4b48328ceb4deb046a6cea;
  0xff6c8cea68f37ac00b229167; 0x001885cc30f0206aaff550a2; 0x0f22006ca4670a1030f0206a; 0xaff550a207229167001885cc;
  0x006c016d0018a9ca07970691; 0x0590046300ef0065fd630562; 0x04d030f02068c0f1084808f3; 0x6aa0016a6cea252208f34da0;
  0x0472216008f34ea002721d60; 0x026a6ceaff6b6cea03220018; 0x6dc51510001876f208f34ea0; 0x0872066130f0206a2ef4489a;
  0x0c6c0610082a30f0206a2ef4; 0x489a046c006dc56740ea0597; 0x0490036300ef0065fd630562; 0x04d030f02068c0f1084808f3;
  0x6aa0016a6cea252208f34da0; 0x0472216008f34ea002721d60; 0x026a6ceaff6b6cea03220018; 0x6dc51510001876f208f34ea0;
  0x0872066130f0206a2ef4489a; 0x0c6c0610082a30f0206a2ef4; 0x489a046c006dc56740ea0597; 0x0490036300ef0065fd630562;
  0x04d030f02068c0f1084808f3; 0x6aa0016a6cea252208f34da0; 0x0472216008f34ea002721d60; 0x026a6ceaff6b6cea03220018;
  0x6dc51510001876f208f34ea0; 0x0872066130f0206a2ef4489a; 0x0c6c0610082a30f0206a2ef4; 0x489a046c006dc56740ea0597;
  0x0490036300ef0065fd630562; 0x04d030f02068c0f1084808f3; 0x6aa0016a6cea2f2208f34da0; 0x04722b6008f34ea002722760;
  0x026a6ceaff6b6cea03220018; 0x6dc51f1030f0206a6ef2589a; 0xff6ca467c46740ea0018b6c4; 0x08f34ea00c72076130f0206a;
  0x2ef4489a086c006d08100472; 0x086130f0206a2ef4489a006c; 0xa467c56740ea059704900363; 0x00ef0065fd63056204d030f0;
  0x2068c0f1084808f36aa0016a; 0x6cea2f2208f34da004722b60; 0x08f34ea002722760026a6cea; 0xff6b6cea032200186dc51f10;
  0x30f0206a6ef2589aff6ca467; 0xc46740ea0018b6c408f34ea0; 0x0c72076130f0206a2ef4489a; 0x086c006d08100472086130f0;
  0x206a2ef4489a006ca467c567; 0x40ea05970490036300ef0065; 0xfd63056204d030f02068c0f1; 0x084808f36aa0016a6cea2f22;
  0x08f34da004722b6008f34ea0; 0x02722760026a6ceaff6b6cea; 0x032200186dc51f1030f0206a; 0x6ef2589aff6ca467c46740ea;
  0x0018b6c408f34ea00c720761; 0x30f0206a2ef4489a086c006d; 0x08100472086130f0206a2ef4; 0x489a006ca467c56740ea0597;
  0x0490036300ef0065fd630562; 0x04d000184fe80267016a0cea; 0x1122006c016d0018e2c810f0; 0x246a9df1589aff6c014c609a;
  0x8ceb0823609a8deb60da0410; 0x006ca4670018e2c8406a0cea; 0x0f2210f0246a9df15c9a60a2; 0x00f6603300f663330053006b;
  0x0261806b6beb60c230f0206a; 0xc0f1084a88f390a288f3b1a2; 0x88f3d7a2026f001837c90597; 0x0490036300ef0065fd630562;
  0x30f0206a29f570a2026a6cea; 0x0322016c0018abea05970363; 0x00ef0065fd63056200184cc1; 0x0597036300ef0065fc630762;
  0x06d105d030f02068c0f10848; 0x68f374a07f6aff696cea1e22; 0x68f397a096342cec0018e3e8; 0x026b4ceb2ceb072368f397a0;
  0x96342cec001851ce0d1068f3; 0x97a068f379a0056a4bea9634; 0x6cea2cec68f359c0001885cc; 0x079706910590046300ef0065;
  0xfd63056230f0206ac0f1084a; 0x68f394a27f6b8ceb072368f3; 0x97a2ff6a96344cec0018afce; 0x0597036300ef0065fd630562;
  0xff6a4cec00186fe005970363; 0x00ef0065fd63056230f0206b; 0xeff6a5a3016bff6aaceb4ceb; 0x4cec022380180d0805970363;
  0x00ef0065fd63056204d0ff68; 0x8ce800189ff29067001855cc; 0x006c001831ca30f0206aeff4; 0x084a00f267a2122be0f061a2;
  0x076a6cea0eea022a0018b6d7; 0x30f0206aeff665a2016a6cea].
Definition fw_rows_40 : list Z := [
  0x0322906780180d0805970490; 0x036300effd63056230f0206a; 0x69f270a2016a4ceb0a2330f0; 0x206bcff577a36ceaff6b6cea;
  0x022a8018d10d0597036300ef; 0xfd630562001826d405970363; 0x00ef0065fd630562001823d4; 0x0597036300ef0065fd630562;
  0x001818db0597036300ef0065; 0xfd630562001896da05970363; 0x00ef0065fd630562001877ee; 0x0597036300ef0065fd630562;
  0x30f0206beff6a5a3016bff6a; 0xaceb4ceb4cec022380185708; 0x0597036300ef0065fd630562; 0xff6a4cec001827e705970363;
  0x00ef0065fc63076206d105d0; 0x30f0206aeff4084a2467e0f0; 0x81a2ff6d076bace98ceb2eeb; 0x0f2be0f08ea2036b8cebaceb;
  0x072be0f0ada28a3482ed0461; 0xe0f06dc20018c7d730f02068; 0xc0f1084800183ef268f374a0; 0x7f6a6cea322268f35aa0216b;
  0x6beb4ceb406a6cea68f37ac0; 0xff6b6cea102288f390a088f3; 0xb1a088f3d7a0056f001837c9; 0x68f37aa0416a4bea6cea68f3;
  0x5ac030f0206ac0f1084a68f3; 0x99a2406b8ceb0d2368f37aa2; 0x106a6ceaff6b6cea06220018; 0x77ca032a91670018f2ec30f0;
  0x206ac0f1084a69f369a22eeb; 0x112b69f368a21f6c6a328cea; 0x47e9016c8cea0822026a6cea; 0xff6b6cea0322006c0018abea;
  0x30f020689167eff408480018; 0xf5cb00f247a00b2a91678018; 0xa20be0f17da0016a6cea0322; 0x916780185708079706910590;
  0x046300effd630562ff6a4cec; 0x001835e70597036300ef0065; 0xff6301d010f0246b5df06c9b; 0xff6a4cee6de4086880a3dbe0;
  0x02674ced07eed0674cef04ed; 0x4cecccef0fe88ce8e4edede8; 0x4ce800c30190016320e80065; 0x10f0246a5df04c9afff71f6b;
  0x8ceb4de340a3ff6c8cee086b; 0xdbe38ced8cea646747ed67ee; 0x6cea8cea20e80065fc630762; 0x06d105d010f0246b5cf46c9b;
  0xfff71f6a8cea69e2009a4145; 0x2567082230f0206aaef4509a; 0x85672ce840ea06ea50670797; 0x06910590046300effb630962;
  0x08d107d0fff71f6841452567; 0x0cd68ce8072a10f0246a5cf4; 0x4c9a41e0c0d81a10016d9067; 0xabed00189ce704d230f0206a;
  0xaef4509a916740ea0c9364ea; 0x436704932cea2fe96ce910f0; 0x246b5cf46c9b2dea61e040d8; 0x099708910790056300ef0065;
  0x01740d600624027410600374; 0x006a1c61141010f0246aa835; 0xbdf1409a0b1010f0246aa835; 0xbdf1449a051010f0246abdf1;
  0x489aa83555e5409d20e810f0; 0x246abdf14c9aa83555e5409d; 0x20e80065fd63056230f0206a; 0x08f3004a883491e210f0246a;
  0x5cf6609a30f0206a00f5a035; 0xcceb10f0246ebcf7c09ecef4; 0x509a80acadeb016dabed6cee; 0x40ea0597036300effc630762;
  0x06d105d0ff6b8cebfff71f6a; 0x81460667acea062c8367a267; 0x0018c4e702670d108367a267; 0x0018c4e7226730f0206aaef4;
  0x509a90672ce840ea06ea5067; 0x079706910590046300ef0065; 0xfb63096208d107d04667ff68; 0xfff71f69014a0cd60dd78ce8;
  0xace9042a9067b167c7671510; 0xb16790670018c4e704d230f0; 0x206a0c94aef4509a40ea0d96; 0x9067b167c4ea0c924cee4feb;
  0x04924ceb6dee0018d7e730f0; 0x206acef45c9a0a6c40ea0997; 0x08910790056300effb630962; 0x08d107d0ff6a8cea0e9104d2;
  0xfff71f6a4ced4ce90cd60dd7; 0x0f9005d5006a081030f0206a; 0xcef45c9a0a6c40ea40a8014a; 0x40c810f0246a049405955cf6;
  0xc09a0018e7e70c936cea0d93; 0x6eea032240a823eae76140a8; 0x0997079023ea089158670563; 0x00ef0065fd63056204d010f0;
  0x246b1cf4789b10f0246ab4f0; 0x194a40db006810f0246abdf1; 0x509a40a2122a10f0246abdf1; 0x549a40a20c2a10f0246abdf1;
  0x589a40a2062a10f0246abdf1; 0x5c9a40a21822e0f309700a61; 0x10f0246adcf4789a206c409b; 0x8dea40db006a0c1030f0206a;
  0xcef45c9a326c014840eafff7; 0x1f6a4ce8d017016a05970490; 0x036300ef10f0246b1cf4789b; 0x10f0246a34f11d4a40db006b;
  0x10f0246addf1a09aff6c40a5; 0xa0a58ceaacec4eec10246473; 0x096110f0246bdcf4989b406d; 0x609cadeb60dc20e8014bfff7;
  0x1f6a4cebe51720e8fc630762; 0x06d105d010f0246b1cf4789b; 0x10f0246aff6994f1094a8ce9; 0x40db0068201082f308700961;
  0x10f0246adcf4789a106c409b; 0x8dea40db1f10fff71f6a0148; 0x4ce830f0206acef45c9a146c; 0x40ea3358086110f0246afdf0;
  0x489a016b40a26cea0b2a10f0; 0x246addf1449a016b409a4232; 0x5e326cea2eead52a10f0246b; 0x1cf4789b10f0246a94f10a4a;
  0x40db079706910590046300ef; 0x10f0246b1cf4789b10f0246a; 0x14f21d4a40db10f0246addf1; 0x489a60a2016a6ceaf82a10f0;
  0x246b1cf4789b10f0246a14f2; 0x1e4a40db20e80065fd630562; 0x04d030f0206ac0f1084a68f3; 0x99a2806b6beb8deb68f379c2;
  0x88f368aa10f0246addf14c9a; 0xff68106c60ca10f0246afcf5; 0x609a40a30cea8dea0cea40c3; 0x016c001862e810f0246a5df1;
  0x4c9a006b016c60da10f0246a; 0xddf1689a40a30cea8dea0cea; 0x40c300650065006500650065; 0x006500650065006500650065;
  0x006500650065006500650065; 0x006500650065006500650065; 0x006500650065006500650065; 0x006500650065006500650065;
  0x006500650065006500650065; 0x006500650065006500650065].
Definition fw_rows_41 : list Z := [
  0x006500650065006500650065; 0x0065006505970490036300ef; 0xfd630562001887e810f0246a; 0xfcf5609aef6a80a38cea40c3;
  0x006c001862e830f0206ac0f1; 0x084a10f0246b8e9a5df16c9b; 0x80db68f399a27f6b8ceb68f3; 0x79c20597036300efff6a4cec;
  0x94344ced4cec10f0246addf1; 0x509a80c2a0c220e8ff6a10f0; 0x246bddf1709b4cec94344cec; 0x80c360a36cea20e8ff6a4ced;
  0xff754cecccea066130f0206b; 0xc0f1084b71e40b1030f0206b; 0xc0f1084b71e42cf76ea4acea; 0xafed6cedadea2cf74ec420e8;
  0xfd63056204d0ff6b6cec076a; 0x6ced8cea0168e66704eaabee; 0x30f0206aadeecef2449a6ce8; 0xc0f7c3368e346cefb0670cee;
  0x6cec40ea05970490036300ef; 0xff6a4cecff74acea056130f0; 0x206b0df147c320e830f0206b; 0xc0f1084b2cf7bfa38cea8fec;
  0xacec8dea2cf75fc320e80065; 0xfd63056204d0ff6a06674ce8; 0x53704cec4ced0a6130f0206b; 0xc0f1084b2cf79fa32cf77ea3;
  0x8deb06100c2c30f0206b0df1; 0x66a3adeb4ceb10f0246abcf4; 0x549a60c22c10477012604858; 0x066017700e6044700c600170;
  0x09104c7008604d5802604970; 0x03104e7002605170066130f0; 0x206a0df146a2adea0d100018; 0x05e930f0206ac0f1084a2cf7;
  0x7fa22cf75ea26deaff6b6cea; 0x10f0246bbcf4749b40c330f0; 0x206ae8f21ac210f0246addf1; 0x549a00c205970490036300ef;
  0xff6301d100d030f02068c0f1; 0x0848ff6a2567a9f0a8a008f3; 0x10a04cef1f65016feced0cef; 0x4ce94cee4ced4cef10f0246a;
  0x7cf5549afff71f6b6cec00aa; 0xe1f71f6a0cea10f024687cf5; 0x109851e46cec80c89c3210f0; 0x246cddf1989c10f02468ddf1;
  0x1c9891e280ac01e200986cec; 0x052110f000692be92dec6cec; 0xd8f0006b8ceb10f0246cddf1; 0x989c91e260cc10f0246bfdf1;
  0x609b6de280a3016b8ceb0523; 0x03f7016b6beb0ceb07101ff7; 0x016b6beb0ceb186700348deb; 0xff76136010f0246cfdf1849c;
  0x80f4c0366cec10f0246bbcf4; 0x7c9b6dee10f0246bddf17c9b; 0x8dee6de2c0db012f152510f0; 0x246bfdf1889bff6d806e91e2;
  0x60a4cbeeacebcdebaceb60c4; 0x10f0246bfdf16c9b006c80c3; 0x006c111010f0246bfdf1889b; 0x7f6b91e2a0a4aceb60c410f0;
  0x246bfdf16c9b1c6c80c308f4; 0x136c10f0246bfdf1709b80cb; 0x10f0246b5cf59c9bf76b91e2; 0xa0a4aceb60c4019100900163;
  0x20e8006530f0206ac0f1084a; 0x80f06c9a106c8deb80f06cda; 0x20e8006530f0206a29f551a2; 0xff63055a366010f0246b4832;
  0xbcf30c4b4de3409b00ea10f0; 0x246a5cf4509afff71f6b409a; 0x1a1010f0246a5cf4509a0910; 0x10f0246afdf1549a0d1010f0;
  0x246afdf1549a409a503200f5; 0x4232081010f0246afdf1589a; 0x409ae1f71f6b6cea00d20093; 0xe0f3086a603368335beb012a;
  0xe5e812ea0110666a00d20092; 0x016320e8ff6301d00c2c10f0; 0x246adcf4789a10f0246cfdf1; 0x9c9c409b8dea40db581030f0;
  0x206aeff5c09a30f0206aeff5; 0x1c4a006d186ff8ed30f0206b; 0xeff4084b12ef6de700f108a3; 0x016fece8232000f168a36633;
  0xecebff6feceb1c23fff7789a; 0x9beb012ce5e812ebfff77cda; 0x10ef0327014bfff77cda609a; 0x78ee12eb9beb012ce5e812eb;
  0x60dafff77c9a042b016ffff7; 0xfcda60da014d0a75184acc61; 0x30f0206aeff4084ae0f07c9a; 0xe0f098da7bec012be5e812eb;
  0x00f160da786700f164da30f0; 0x206ac0f1084a69f388a2026b; 0x8deb69f368c20190016320e8; 0xfc63076206d105d030f02068;
  0xc0f1084869f348a0036b4ceb; 0x006a332b10f0246a1df2409a; 0x30f0206930f0206c60c24ef2; 0x4c9929f5104c006dd46e40ea;
  0x4ef24c9930f0206cff6eeff5; 0x004c006d014e40ea30f0206a; 0xeff4084a016b666ce0f07cda; 0xe0f098da00f180da016a4bea;
  0x69f388a069f349c07d6a4bea; 0x8cea6dea69f348c043670797; 0x06910590046300effc630762; 0x06d030f02068c0f1084869f3;
  0x88a0016b006a8ceb242310f0; 0x246a1df2409a006b60c2036a; 0x4bea8cea69f348c0001899e9; 0x04d204940018bae969f368a0;
  0x026a42f11c6c6dea69f348c0; 0x30f0206b30f0206aaef2509a; 0xeff5c49b016d40ea016a0797; 0x0690046300ef006530f0206b;
  0xc0f1084b69f3a8a3026c006a; 0xacec0c2410f0246a1df2409a; 0x006c80c2036a4beaacea69f3; 0x48c3016a20e80065006a186c;
  0x98ea30f0206beff4084b014a; 0x0a7212ec71e400f1a8a4026b; 0x6bebaceb00f168c4ee6120e8; 0x30f0206a29f550a2016b4ceb;
  0x006a1c2330f0206a0ff6004a; 0x006ba09a8eed0f2d186ed8eb; 0x30f0206deff4084d12eeb9e6; 0x00f1e8a6026dabedeced00f1;
  0xa8c6014b0a73184aea61016a; 0x20e80065fb63096208d107d0; 0x5d6720f078a230f0206a0ad4; 0x29f590a2016a00f6e0318cea;
  0x0bd50cd600f6233180f00e22; 0x2423017380f00a610a9380f0; 0x072310f0246a1df2449ac3ea; 0x80f000617f717e60fff71f51;
  0x7b6130f0206aeff5009a1bee; 0x0128e5e810ea12e802220148; 0x04100328016850671f10016b; 0x20100a95672510f0246a1df2;
  0x449a0c96c3ea60617f715e60; 0xfff71f515b6130f0206aeff5; 0x049a1bee0128e5e810ea12e8; 0x02220148051004280168006a;
  0x04d20210006b04d30a940018; 0x43ea006cff6ea467cced1d65].
Definition fw_rows_42 : list Z := [
  0x186db8ec30f0206beff4084b; 0x016d12ea69e200f148a2acea; 0xccea2f2ad867186ff8ee0496; 0xc43604d6036ecbee12ec71e4;
  0x00f1e8a4ecee0497edee00f1; 0xc8c40a9600f1d8dc0b9700f1; 0xfcdc0c96186f00f1ccdcd867; 0x014ef8ee12eecde3e0f05cdb;
  0xe0f018db00f14ac400f148a4; 0x00f12bc44ded00f1a8c4016a; 0x0410014c0a74bc61006a0997; 0x08910790056300effc630762;
  0xff6a8cea062230f0206aeff5; 0x1c4a006c4f1030f0206aeff5; 0x1c4a006b186db8eb30f0206c; 0xeff4084c12ed91e500f1c8a4;
  0x016dacee082600f188a48634; 0xacec0324809a014c80da014b; 0x0a73184ae761001899e904d2; 0x30f0206ac0f1084a68f394a2;
  0x7f6b8ceb1a2368f377a269f3; 0x89a276338eeb132b68f395a2; 0x0f6b8cebff6c8ceb0c2388f3; 0x82a2049330f0206aeff5409a;
  0x78ec12ec8eea092a5b1030f0; 0x206a0493eff5409a6eea5422; 0x04940018bae95010186db8ec; 0x30f0206beff4084b12ed6de5;
  0x00f1c8a3016dacee0a2600f1; 0x68a36633acebff6daceb032b; 0x609a014b60da014c0a74184a; 0xe56130f0206a29f551a2ff72;
  0x2f6130f0206aeff4084a00f1; 0x649a014b00f164da00f1409a; 0x4eeb222b30f0206aeff51c4a; 0x186db8eb30f0206ceff4084c;
  0x12ed91e500f1c8a4016dacee; 0x082600f188a48634acec0324; 0x809a014c80da014b0a73184a; 0xe76130f0206a7867eff56cda;
  0x30f0206ac0f1084a80f06c9a; 0x02f0006c8deb80f06cda0797; 0x046300effb63096208d107d0; 0x10f0246b1cf4789b10f0246a;
  0x15f41d4a30f0206840dbeff5; 0x12480069186a58e930f0206b; 0xeff4084b12ea69e200f188a2; 0x016b8ceb272300f08a9800f0;
  0x669863ec21616180814304d4; 0x072c00f04e9800f0929840ea; 0x0492141080a0014c80c080a0; 0x82eb086000f188a2026b6beb;
  0x8ceb00f168c2081000f04e98; 0x00f0929840ea006a00f04ad8; 0x01490a711848c86109970891; 0x0790056300ef0065e0633f62;
  0xfff71f6aaceabd6756c5016b; 0x423257c56beb30f0206a70c5; 0xaef25c9a036b72c5046b94c5; 0x73c5040440ea3f97206300ef;
  0xfd63056230f0206a4ef2509a; 0xa74430f0206c014dacf0084c; 0x146e40ea0597036300ef0065; 0xfb63096208d107d024670018;
  0x3ceb47a166a130f02068c0f1; 0x08484032ebf680a069e20169; 0xebf652c851678ceaff6b1c2a; 0xebf6b4a0fe4aaceaebf654c0;
  0x026a8cea6cea5122ebf643a0; 0x0f6debf684a04ced523630f0; 0x206aaef2549a6ced6cee40ea; 0x01720d6a41613f10ebf674a0;
  0xebf6f0a8026a4bea6cea00f1; 0x015febf654c00c6a3360006a; 0xebf655c0ebf656c0006aebf6; 0x58c8ebf65ac810f0246a7cf5;
  0x549aebf6c1a010f0246d60aa; 0xfff71f6a1df2a89d6cead9e2; 0xdc36006ab5e610f0246e04d2; 0x05d2dcf5c49e30f0206a30f0;
  0x206baef2409accf00e4b006c; 0xd9e340eaebf654a04de9ebf6; 0x34c0006a0997089107900563; 0x00ef0065fc63076206d030f0;
  0x2068c0f10848ebf6b8a830f0; 0x206a30f0206b4ef2509accf0; 0x0e4b30f0206cb5e3ccf0084c; 0x046e40ea0bf763a0806a4bea;
  0x6ceaff6b6cea052aebf658a8; 0x044aebf658c830f02068c0f1; 0x08480bf761a030f0206aaef2; 0x549a0bf780a00f6d6ced7236;
  0x40ea0e2a30f0206aeef4549a; 0x40eaebf674a0026a4bea6cea; 0xebf654c0016c56100bf763a0; 0x7f6a6ceaff6b6cea18220172;
  0x456130f0206acef54c9a006c; 0x40ea492230f0206a4ef3509a; 0xcbf69da0006d40ea062a30f0; 0x206aeef4549a40ea3a1030f0;
  0x206ac0f1084aebf675a20bf7; 0x82a2014bebf675c2ebf67aaa; 0x6de4ebf67acaebf695a2ebf6; 0x62a28eeb092b10f0246c0bf7;
  0xc2a295f7094c04d3006d0910; 0x0bf7c2a210f0246c006a04d2; 0x75f70d4ca267646a58ee016f; 0x12ee001856ea1b10ebf674a0;
  0x026a4bea6ceaebf654c0026c; 0xebf6b2a80e1030f0206ac0f1; 0x084aebf694a2026b6bebebf6; 0xb2aa8cebebf674c2036c0018;
  0x2feb07970690046300ef0065; 0xfd63056230f0206aacf07ca2; 0x016a6cea0222001882eb0597; 0x036300effb63096208d107d0;
  0x30f02069c0f10849ebf694a1; 0x016aff6b8cea00f10c22ebf6; 0xa0a1036eae32ccea6cea0272; 0x7e6006674ee8e0f002200172;
  0x2560026a4bea8ceaebf654c1; 0x026aacea6cea1122ebf643a1; 0x0f6debf684a14ced523630f0; 0x206aaef2549a6ced6cee40ea;
  0x0172016c0161006cebf6b2a9; 0x00182feb30f0206aeef4549a; 0x40ead910026aacea6cea1122; 0xebf643a10f6debf684a14ced;
  0x523630f0206aaef2549a6ced; 0x6cee40ea0172a0f01461ebf6; 0xb2a9006c00182feb30f0206a; 0xacf04da25a3302730d600373;
  0x0f60017305603f6e4ceeff6a; 0x4cee0e103f6b4ceb0a6e0810; 0x3f6b4ceb646e04103f6b4ceb; 0xe0f3086ed8eb12ee0a6a58ee;
  0x30f0206ac0f1084aebf67aaa; 0x10f0246c75f70d4c12ee7be6; 0x006bebf675c2006bebf67aca; 0xebf678ca006a04d2a267646a;
  0x6210026aacea6cea1022ebf6; 0x43a10f6debf684a14ced5236; 0x30f0206aaef2549a6ced6cee; 0x40ea01726261ebf6b2a9006c;
  0x00182feb30f0206ac0f1084a; 0xebf687a2ebf676a2ff4c6eec; 0x032cebf666a20510014bebf6; 0x76c2ebf665a27a3202720d60;
  0x03720f60017205603f6a6cea; 0xff6b6cea0e103f6a6cea0a6b].
Definition fw_rows_43 : list Z := [
  0x08103f6a6cea646b04103f6a; 0x6ceae0f3086b78ea12ea0a6b; 0x78ea30f0206bccf062ab006c; 0x646e12ea6be230f0206bc0f1;
  0x084bebf695c3006cebf69acb; 0xebf698cb006b10f0246c04d3; 0x75f70d4ca367d8ea016f12ee; 0x001856ea1e10ebf6b2a9006c;
  0x00182febebf615c1ebf61ac9; 0xebf618c90018dbeb101030f0; 0x206ac0f1084aebf694a2026b; 0x6bebebf6b2aa8cebebf674c2;
  0x016c00182feb099708910790; 0x056300effb63096208d107d0; 0xff6a046725674cee4ce84ce9; 0x30f0206aeef44c9a04d69067;
  0xb16740ea90678018cf2a30f0; 0x206aeff66fa2006a092b0497; 0x30f0206c25f6084cb067d167; 0x8018582a0997089107900563;
  0x00ef0065ff6b6cec0f6a8cea; 0x032a92326cea20e8074a6cea; 0x20e80065fd630562ff6a8cea; 0x082a30f0206a4ef2549a016c;
  0x04f0006d0910ff4a443330f0; 0x206a4ef2549a016d026ca4eb; 0x40ea0597036300effd630562; 0xff6a8cea082a30f0206a4ef2;
  0x549a016c08f0006d09104432; 0x6f4230f0206a4ef2549a016d; 0x026ca4eb40ea0597036300ef; 0xfd630562ff6a8cea042a016c;
  0x08f0006d05104432ff4a016d; 0x026ca4ea0018ece105970363; 0x00ef0065fd630562ff6a8cea; 0x042a016c04f0006d0510ff4a;
  0x4432016d026ca4ea0018ece1; 0x0597036300ef0065fd630562; 0xff6d8ced016c4467154d44ed; 0xa26700186be10597036300ef;
  0xfd630562ff6d8ced042d036c; 0x10f0006d05101b4d016a44ed; 0x036ca26700186be105970363; 0x00ef0065fd630562ff6a4cec;
  0x001887ec016d026ca4ea0018; 0x6be10597036300effd630562; 0xff6a4cec001887ec016d036c; 0xa4ea00186be10597036300ef;
  0xfd630562ff6d8ced184d016a; 0x44ed006ca26700186be10597; 0x036300effd630562ff6d8ced; 0x016c4467154d44eda2670018;
  0x9ce10597036300effd630562; 0xff6d8ced042d036c10f0006d; 0x05101b4d016a44ed036ca267; 0x00189ce10597036300ef0065;
  0xfd630562ff6a4cec001887ec; 0x016d026ca4ea00189ce10597; 0x036300effd630562ff6a4cec; 0x001887ec016d036ca4ea0018;
  0x9ce10597036300efde634362; 0x42d141d0016a7d674bea54c3; 0x0f6a56c3106a57c310f0246a; 0x1df1509aff698ce9303149e1;
  0x409a30f02068060404d24ef2; 0x50980405046e40ea10f0246a; 0x7cf7549a0704040549e1409a; 0x046e04d24ef2509840ea10f0;
  0x246a7cf7489a0804040549e1; 0x409a046e04d24ef2509840ea; 0x10f0246a7cf75c9a09040405; 0x45e14099046e04d24ef25098;
  0x40ea30f0206aaef25c9a0504; 0x40ea439742914190226300ef; 0xfc63076206d105d010f0246a; 0x10f0246b3df25c9a5df2609b;
  0x00a220a3ff6a4ce84ce92ae8; 0x436010f0246a1df1509a1033; 0x49e340a2ff6b6cea56326cea; 0x075a2c6010f0246b4832dcf3;
  0x004b4de3409b00ea30f0206a; 0xeff64fa21f2a30f0206a6ef2; 0x549a181030f0206a4ef25c9a; 0x131030f0206a6ef2409a0e10;
  0x30f0206a6ef2449a091030f0; 0x206a6ef2489a041030f0206a; 0x6ef24c9a906740ea01487f6a; 0x4ce80ae9c26110f0246a3df2;
  0x5c9a20c20797069105900463; 0x00ef0065fc63076206d105d0; 0x10f0246addf1689a026c00f4; 0x006d409b30f020698dea40db;
  0x10f0246a7df1709afff71f6c; 0x40ab8ceaadea8cea40cb10f0; 0x246a5df2049a10f0246b5df2; 0x084b4098609b0a6c6cea10f0;
  0x246bbcf47c9b6dea40d8cef4; 0x5c9940ea4098dff7016b6beb; 0x6cea10f0246b5df26c9b0a6c; 0x6dea40d8cef45c9940ea10f0;
  0x246c5df2084c4098809c8cea; 0x40d8cef45c990a6c40ea4098; 0x1df0016b6beb6cea10f0246b; 0x5df2709b0a6c6dea40d8cef4;
  0x5c9940ea0797069105900463; 0x00ef006510f0246b5df2b49b; 0xff6a086e60a5cbee4cec4ceb; 0xcceb6dec10f0246b5df2789b;
  0x4cec80c560a36cea20e80065; 0x10f0246b5df2d49bff6a086f; 0x60a6ebef4cec4cebeceb6dec; 0x4ced4cec10f0246a5df2589a;
  0x80c6a0c220e80065fc630762; 0x06d105d0006c001893ee30f0; 0x206acef2409a01680be840ea; 0x30f0206901f4006cb0670018;
  0x9ce7cef47099046ecbee4cee; 0x01f4006cb06740eb006ca467; 0xd0670018e7e7006ce46730f0; 0x206ba467d0678ff558cb0018;
  0xfae710f0246a9cf6689afe6a; 0xb06780a38cea40c3a1f0146c; 0x00189ce7cef47099406ea1f0; 0x146cb0674dee40eb001809c9;
  0x0172066110f0246a7df1509a; 0x3f6b60c210f0246a5df27c9a; 0xfd6a80a38cea40c307970691; 0x0590046300ef0065fc630762;
  0x06d105d010f0246a5df27c9a; 0xff69026c40a301680be82cea; 0x8dea2cea40c310f0246a7df1; 0x509a016b6beb60c210f0246a;
  0x7df2409a096bb06760c210f0; 0x246a9cf6509a7a6b6beb60c2; 0xa1f0124c00189ce730f0206c; 0xcef4709c416ecbeeb0674cee;
  0xa1f0146c40eb10f0246a9cf6; 0x689a016c40a32cea8dea2cea; 0x40c330f0206acef45c9a01f3; 0x014940ea30f0206a8ff5f8aa;
  0x10f0246a3cf5549a006cd067; 0x4defa4670018fae79167b067; 0x00189ce730f0206ccef4709c; 0x036eb0674dee916740eb016c;
  0x001893ee001832d607970691; 0x0590046300ef006510f0246a; 0x7df2589a30f0206bc0f1084b; 0x80a2ebf6d4a3ebf69cc3a0aa;
  0x01f0006cacec8335036cae35; 0x8beca435ccecadecebf694c3].
Definition fw_rows_44 : list Z := [
  0x10f0246c7df29c9ca0acebf6; 0xbecba0aabff71f6baceb60ca; 0xa0aa7ff71f6baceb60cac0aa; 0xfef71f6bfff71f6dcceb60ca;
  0x40acff6b214bacea6deaacea; 0x40cc20e830f0206ac0f1084a; 0x10f0246bebf69ca27df2789b; 0x016e80c310f0246cebf6beaa;
  0x7df29c9ca0ccebf654a280ab; 0xfff71f6d4632cceaacec4032; 0xfef71e4e4c32ccec8deaacea; 0x40cb20e8fc63076206d105d0;
  0xff6a04674ce8307026674ced; 0x096141a60c72066130f0216a; 0xd0f454a2006b442a10f0246a; 0xfcf76c9aff6c086e40a3cbee;
  0x8ceaccea056ecdea8cea40c3; 0x10f0246afcf7509a60a20f6a; 0x6cea04721c6130f0206aaef3; 0x5c9a9067d16740ea0172016b;
  0x236030f0206acef3589a8367; 0x40ea30f0206ac0f1084a80f0; 0x6c9a046c8deb80f06cda026b; 0x111030f0206acef3589a026c;
  0x40ea30f0206ac0f1084a80f0; 0x6c9a046c8deb80f06cda036b; 0x2370036030700a602f100373; 0x2d6130f0206acef34c9a006c;
  0x40ea1c1041a10d720e61016a; 0x6eea062a30f0216bd0f454c3; 0x016d0910016c30f0216ad0f4; 0x94c2016a4eeb015bb86730f0;
  0x206acef3549ac0a1006c40ea; 0x30f0206ac0f1084a80f06c9a; 0x046c8deb80f06cda07970691; 0x0590046300ef0065fd630562;
  0x04d010f0246a9df2409aeff7; 0x1f68026b40aa4ce830f0206a; 0xcff55caa0eea6cea02220018; 0x56ed026b50676cea082a30f0;
  0x206acff55caa6cea022a0018; 0x56ed30f0206acff55caa806b; 0x0eea6cea06220ceb042b006c; 0x016d00183cd630f0206acff5;
  0x1cca05970490036300ef0065; 0xfd63056204d001741c600524; 0x02740e60037451605b1010f0; 0x246a9df26c9a10f0246c9df2;
  0x909c409b8cea40db10f0246a; 0x9df2749a10f0246cdcf58c9c; 0x409b8cea441010f0246a9df2; 0x6c9a10f0246c9df2909c409b;
  0x8cea10f0246c5cf5909c8dea; 0x40db30f0206acff55caa806b; 0x6cea1f2230f0206a48f540a2; 0x055a1960016ca46700183cd6;
  0x0a68016e006c016dcbee0018; 0xe7e7046b4ceb022301680410; 0x016ca46700183cd6ff48ff6a; 0x4ce8ed280410006c016d0018;
  0x3cd610f0246a9df2749a10f0; 0x246cdcf5889c409b8dea40db; 0x05970490036300effc630762; 0x06d105d030f0206a4ef2509a;
  0x046730f0206c69f2104cb067; 0x056e40ea40a001692cea5622; 0x10f0246a5cf4509a30f02068; 0xc0f1084840a2c9f065a0046c;
  0xc9f048c0006ac9f047c0076a; 0x4bea6ceac9f045c030f0206a; 0x6ef35c9a40eaa9f068a0046a; 0x6ceaff6b6cea0e22006ac9f0;
  0x59c010f0246a9df2589ac9f0; 0x2bc0609a30f0206acff560da; 0x30f0206a69f252a2046b6cea; 0x132230f0206aeff4084ae0f0;
  0x8ba2016b8ceb052b646c6dec; 0xe0f08bc20510026b6beb8ceb; 0xe0f06bc210f0246abcf4409a; 0x036b60c2066b30f0206a89f2;
  0x71c21e1030f0206a6ef3589a; 0x036c40ea30f0206a6ef35c9a; 0x036c40ea30f0206ac0f1084a; 0xc9f085a2076b6beb8ceba9f0;
  0x8ca2c9f065c2416b6beb8ceb; 0xa9f06cc230f0206ac0f1084a; 0xc9f084a2026b6beb6cecc9f0; 0x84c2c9f085a28cebc9f065c2;
  0xa9f06ba2806a4bea6ceaff6b; 0x6cea062230f0206a6ef3549a; 0x016c40ea30f0206ac0f1084a; 0xa9f06aa2086c8ceb0c2330f0;
  0x206bcff569a368f354a2076c; 0x7f6e6cec016d4cee0f1068f3; 0x74a27f6a6cea0c2a30f0206a; 0xcff569a2076aff6c6cea006d;
  0x4cecc567001813d030f02068; 0xeff40848e0f041a0076c006d; 0x4cec001882d130f0206a6ef3; 0x4c9a086c40eae0f04ea04a32;
  0xe0f04dc00797069105900463; 0x00ef0065fc63076230f0206a; 0xc0f1084aa9f088a2016bff6d; 0x6cec3124a9f08aa2086eccec;
  0x2c24c9f085a26cecacec052c; 0xa9f04ba24cebaceb172330f0; 0x206aeff4084ae0f074aaff6c; 0x014c8ceb0d2be0f041a2076c;
  0x016d4cec001882d130f0206a; 0x2ef4549a40ea0b10006a10f0; 0x246c016ef7f4114ca267e667; 0x04d2001856ea0797046300ef;
  0xfc63076206d105d0ff692cec; 0xace921249167016d30f02068; 0x001882d1c0f1084830f0206a; 0xc8f29fa02ef4509a016d086e;
  0xf16740eac9f084a0016b4ceb; 0x036a4bea64338cea6dea056b; 0x6beb6ceac9f044c01a1030f0; 0x2068c0f10848a9f04aa0086b;
  0x6cea0f2a9167006d001882d1; 0x30f0206ac8f29fa02ef4509a; 0x006d086ef16740ea02100018; 0x3cef079706910590046300ef;
  0xfd63056204d00174a0f01b60; 0x032402742260e01030f0206a; 0xc0f1084aa9f088a2206bff6d; 0x8cebc0f0152b106b8cebaceb;
  0xc0f01023c9f084a2016b8deb; 0xc9f064c230f0206acff569a2; 0x076a006c6cea4ced00185cef; 0xbf1030f0206ac0f1084aa9f0;
  0x88a2206b8ceb072ba9f06ca2; 0x086a6ceaff6b6cea452230f0; 0x206ac0f1084ac9f008a2a9f0; 0x49a243e0fff71f6a4ce82058;
  0x0361eff71f68031000300830; 0x4ce830f0206bc0f1084ba9f0; 0x8ca3086a8cea082230f0206a; 0x2ef4589ae8f282a3b06740ea;
  0x30f0206ac0f1084aa9f0a8a2; 0x206cff6b8ced1625a9f04ca2; 0x8cea6cea112230f0206acff5; 0x49a2076f02364cef30f0206a;
  0x8ef3489ab067006c6ced6cee; 0x6cef40ea30f0206bc0f1084b; 0xa9f0a8a3206cff6aacec2b2c; 0x106cacec4cec1824c9f0a4a3;
  0x026c8becacec30f02068c9f0; 0x84c3eff40848e0f061a0076d].
Definition fw_rows_45 : list Z := [
  0x016c6ced4ced00185cefe0f0; 0x42a0014ae0f042c030f0206a; 0x69f273a2016a6cea082a30f0; 0x206a6ef2589aff6c6f6d066e;
  0x40ea30f0206ac0f1084ac9f0; 0x85a2026b6beb8cebc9f065c2; 0x311030f0206ac0f1084aa9f0; 0xaba2016bff6caceb052330f0;
  0x206a6ef2589a1f10a9f068a2; 0x206a6cea8cea082230f0206a; 0x6ef2589aff6c6f6d0e6e1310; 0x106a6cea8cea102230f0206a;
  0x6ef2589aff6c6f6d0f6e0710; 0x30f0206a6ef2589aff6c006d; 0xc56740ea05970490036300ef; 0xfc63076206d010f0246b7cf5;
  0x749be9a448a4a0abe0375de7; 0xfff71f6a4cef4ced4aa4cba4; 0x025a046102720b6a30610c10; 0x00f1015f2b6030f0206b30f0;
  0x206aabf6034b2bf6e1c20b10; 0x00f1015f1f6030f0206b30f0; 0x206aabf7034b2bf6e2c2b5e6; 0x10f0246e006abdf2009e10f0;
  0x246e04d205d2dcf5c49e30f0; 0x206aaef2409abc35006c15e5; 0xd9e340ea006a01100a6a0797; 0x0690046300ef0065fc630762;
  0xff6a8cea012a016a30f0206c; 0xc0f1084ccbf6dda438268de2; 0x4bf478a3342310f0246b7cf5; 0x749bfff71f6d017260ab6ced;
  0x036002720860271030f0206b; 0xabf6034b4bf4f9a406104bf4; 0xfaa430f0206babf7034be1f7; 0x1f6aacea10f0246ddcf5a49d;
  0xd9e2006ab5e310f0246b04d2; 0x05d2bdf2609b30f0206aaef2; 0x409adc36006c79e640ea016a; 0x0110006a0797046300ef0065;
  0xfd63056230f0206a4ef24c9a; 0x30f0216c90f3004c006d186e; 0x40ea30f0206aeff4084a80f6; 0x98a2036b6beb8ceb80f678c2;
  0x006ba0f670c2a0f671c2a0f6; 0x72c20c6ba0f673c205970363; 0x00ef0065ff6a4cec0174acea; 0x0960032402740b6020e810f0;
  0x246b9df0749b091010f0246b; 0xbdf2649b041010f0246bbdf2; 0x689b40c320e80065ff6b6cec; 0x01740a6004240274006a1361;
  0x0c1010f0246a9df0549a0410; 0x10f0246abdf2449a40a26cea; 0x20e810f0246abdf2489a40a2; 0x6cea20e8ff6b6cec01740a60;
  0x04240274006a13610c1010f0; 0x246abdf24c9a041010f0246a; 0xbdf2509a40a26cea20e810f0; 0x246abdf2549a40a26cea20e8;
  0xfd63056230f0206ac8f452a2; 0x016b4ceb006a072310f0246a; 0xbdf24c9a60a2ff6a6cea30f0; 0x206beff4084b80f6b8a3016c;
  0xacec042480f69aa3001874f0; 0x0597ff6b5e326cea036300ef; 0x30f0206aeff4084a80f698a2; 0x016b8ceb0523006ba0f670c2;
  0xa0f671c220e8006530f0206a; 0xeff4084a80f698a2016b8ceb; 0x0523006ba0f670c2a0f671c2; 0x20e8006530f0206aeff4084a;
  0x80f698a2016b8ceb0523006b; 0xa0f670c2a0f671c220e80065; 0xfc63076206d105d030f0206a; 0x6ef2589aff6c6f6d1f6e40ea;
  0x30f0206ac0f1084a08f38aa2; 0x026b8ceb0b2310f0246b9df0; 0x949bbf6ba0a4aceb60c4046b; 0x08f36dc230f02069eff40849;
  0x80f678a1026a6cea0d2280f6; 0x1aa19067001866f0bf6d4ced; 0x9067001859f0046aa0f652c1; 0x079706910590046300ef0065;
  0xfc63076206d105d030f0206a; 0xc0f1084a08f38aa2026b8ceb; 0x0b2310f0246b9df0949bbf6b; 0xa0a4aceb60c4006b08f36dc2;
  0x30f02069eff4084980f678a1; 0x026a6cea0d2280f61aa19067; 0x001866f0bf6d4ced90670018; 0x59f0006aa0f652c107970691;
  0x0590046300ef0065fd630562; 0x30f0206a6ef2589aff6ca467; 0x216e40ea30f0206ac0f1084a; 0x08f38aa2026b8ceb0323036b;
  0x08f36dc230f0206aeff4084a; 0x80f698a2026b8ceb0323036b; 0xa0f672c20597036300ef0065; 0x30f0206ac0f1084a08f38aa2;
  0x026b8ceb0323016b08f36dc2; 0x30f0206aeff4084a80f698a2; 0x026b8ceb0323016ba0f672c2; 0x20e80065fd6305620018f7f0;
  0x0018acf00597036300ef0065; 0xfd6305620018f7f00018e4f0; 0x0597036300ef0065fc630762; 0x06d105d030f0206a6ef2589a;
  0x006dff6cc56740ea30f0206b; 0xc0f1084b08f38aa3026aff6d; 0x8cea0d2210f0246a9df0949a; 0x406e40a4aceacdeaacea40c4;
  0x016a08f34dc330f02068eff4; 0x084880f678a0026a6cea0f22; 0x80f63aa09167001866f0406b; 0x4debff6d91676ced001859f0;
  0x016aa0f652c0079706910590; 0x046300effd63056200180ef1; 0x0018caf00597036300ef0065; 0xfc63076206d105d030f0206a;
  0x6ef2589aff6ca467226e40ea; 0x30f0206bc0f1084b08f38aa3; 0x026aff6d8cea0d2210f0246a; 0x9df0949a406e40a4aceacdea;
  0xacea40c4036a08f34dc330f0; 0x2068eff4084880f678a0026a; 0x6cea0f2280f63aa091670018; 0x66f0406b4debff6d91676ced;
  0x001859f0036aa0f652c00797; 0x06910590046300effd630562; 0x30f0206a6ef2589a006dff6c; 0xc56740ea30f0206ac0f1084a;
  0x08f38aa2026b8ceb0323016b; 0x08f36dc230f0206aeff4084a; 0x80f698a2026b8ceb0323016b; 0xa0f672c20597036300ef0065;
  0xfd630562001853f10018caf0; 0x0597036300ef0065fc630762; 0x06d105d030f0206a6ef2589a; 0xff6c6f6d256e40ea30f0206a;
  0xc0f1084a08f38aa2026b8ceb; 0x0b2310f0246b9df0949bbf6b; 0xa0a4aceb60c4046b08f36dc2; 0x30f02069eff4084980f678a1;
  0x026a6cea0d2280f61aa19067; 0x001866f0bf6d4ced90670018; 0x59f0046aa0f652c107970691; 0x0590046300ef006530f0206a;
  0xc0f1084a08f38aa2016b8ceb; 0x052308f34da20272006a1061].
Definition fw_rows_46 : list Z := [
  0x30f0206beff4084b80f658a3; 0x016c4cec016a0624a0f652a3; 0x026b6eea015a586720e80065; 0xfc63076206d105d030f0206b;
  0xc0f1084b246708f38aa3016d; 0xff6aacec4cec4ce900680524; 0x08f30aa31a30ace84ce830f0; 0x206aeff4084a80f698a2016b;
  0x6cec062480f618a2ff6a1a30; 0x6ce84ce8001882f001722561; 0x242830f0206ac8f472a2016a; 0x6cea082230f0206a2ef4489a;
  0x9167016d006e40ea30f0206b; 0xeff4084b80f658a3016c4cec; 0x016a0c2430f0206a2ef4489a; 0x80f6d9a39167016d40ea016a;
  0x0110006a0797069105900463; 0x00ef006530f0216a90f341a2; 0x055ae0f00c6010f0246b4832; 0xfcf3104b4de3409b00ea30f0;
  0x206beff4084b80f698a3046a; 0xff6d8cea192210f0246a5cf4; 0x949a026e40a4aceacdeaacea; 0x40c410f0246a5df2949af86a;
  0xa0a4acea40c410f0246a80f6; 0x7ca3bdf2589a60c210f0246a; 0x5cf4749a831030f0206beff4; 0x084b80f6b8a3046aff6cacea;
  0x1d2210f0246a5cf4b89a026e; 0x40a58ceacdea8cea40c510f0; 0x246a5df2b49af64e40a58cea; 0xccea016ecdea8cea40c510f0;
  0x246a80f67ca3bdf2589a60c2; 0x10f0246a5cf4789a571030f0; 0x206beff4084b80f6b8a3046a; 0xff6cacea1d2210f0246a5cf4;
  0xbc9a026e086f40a5ebef8cea; 0xcdea8cea40c510f0246a5df2; 0xb49a40a58ceaeceacdea8cea; 0x40c510f0246a80f67ca3bdf2;
  0x589a60c210f0246a5cf47c9a; 0x2b1030f0206beff4084b80f6; 0xb8a3046aff6cacea1d2210f0; 0x246a7cf4a09a026e40a58cea;
  0xcdea8cea40c510f0246a5df2; 0xb49af64e40a58ceaccea036e; 0xcdea8cea40c510f0246a80f6; 0x7ca3bdf2589a60c210f0246a;
  0x7cf4609a40a3ff6c016d8cea; 0xadea8cea40c320e830f0206b; 0xeff4084b80f658a3046eff6c; 0xccea1c2210f0246a7cf4a49a;
  0x026f40a58ceaedea8cea40c5; 0x10f0246a5df2b49af64f40a5; 0x8ceaeceacdea8cea40c510f0; 0x246a80f67ca3bdf2589a60c2;
  0x10f0246a7cf4649aff6c016d; 0x40a38ceaadea8cea40c320e8; 0x30f0206ac0f1084a08f38aa2; 0x016b6cec022408f36cc230f0;
  0x206aeff4084a80f698a2016b; 0x6cec0224a0f671c220e80065; 0x30f0206dc0f1084d08f3caa5; 0x026bff6acceb4ceb4cec022b;
  0x08f38ec530f0206aeff4084a; 0x80f6b8a2026baceb022ba0f6; 0x93c220e8fc63076206d105d0; 0x30f02068c0f1084868f374a0;
  0x7f6aff696cea02722a6068f3; 0x75a0106a4bea6cea2cea2322; 0x001809c9202a08f36aa0016a; 0x6cea2cea082230f0206a2ef4;
  0x489a006d0c6cc56740ea30f0; 0x206beff4084b80f698a3016a; 0x8cea092230f0206a2ef4489a; 0x80f6d9a30c6c006d40ea0797;
  0x06910590046300effd630562; 0x30f0206bc0f1084b08f34aa3; 0x016c8cea022a0c6c081008f3; 0x4aa35a328ceaff6c8cea08f3;
  0x8ea330f0206beff4084b80f6; 0xd8a3016dacee082680f658a3; 0xff6c5a32acea8ceaa0f693a3; 0x24220274266030f0206ac8f4;
  0x72a2016a6cea082230f0206a; 0x2ef4489a026c016d006e40ea; 0x30f0206beff4084b80f698a3; 0x016a8cea0c2230f0206a2ef4;
  0x489a80f6d9a3026c016d40ea; 0x021002740260001857f20597; 0x036300effd63056230f0206a; 0xc0f1084a08f36aa2016ca467;
  0x6ced092508f38bc2026a6cea; 0xff6b6cea022200186dc530f0; 0x206aeff4084a80f678a2016c; 0xa4676ced0925a0f690c2026a;
  0x6ceaff6b6cea022200186dc5; 0x0597036300ef0065fd630562; 0x04d030f02068eff4084880f6; 0x78a0016a6cea2622a0f652a0;
  0x04722260a0f653a002721e60; 0x026a6ceaff6b6cea03220018; 0x6dc51610001876f2a0f653a0; 0x0872066130f0206a2ef4489a;
  0x0c6c0610092a30f0206a2ef4; 0x489a046c80f6d9a0006d40ea; 0x30f0206beff4084b00f247a3; 0x512a30f0206ac0f1084a08f3;
  0xd0a2016dff6cacee472680f6; 0x78a3aceb8ceb422310f0306b; 0x00f0004bc1f7b0a3ff752160; 0xff4dc1f7b0c3c1f7d0a31b2e;
  0xc1f7efa3026dabedecedc1f7; 0xeea3c1f7afc3716dabedeced; 0xc1f7aec368f3b2a208f3d4c2; 0x08f3b3c2c1f772a30f6a6cea;
  0x4cec0018ccec30f0206ac8f4; 0xb8a230f0206aeef5489a0f6b; 0xa635026c6ced40ea30f0206a; 0x0ef6489a40ea062a30f0206a;
  0xeef5509a066c40ea05970490; 0x036300effd6305620018b5f2; 0x0597036300ef0065fd630562; 0x0018b5f20597036300ef0065;
  0xfd6305620018b5f205970363; 0x00ef0065fb63096208d107d0; 0x30f0206aeff4084a04d280f6; 0x5aa2ff69046701722ce83160;
  0x032202726060c31030f0206b; 0x4ef2549b016cc06d40ea206a; 0x4de804922ce880f698a2046a; 0x8cea2cea0f2210f0246abdf0;
  0x4c9a016c10f0006d60a26ce9; 0x20c230f0206b4ef2549b6110; 0x026b8ceb2ceb05230493a0f6; 0x50c3a0f651c3016c10f0006d;
  0x641030f0206b4ef2549b016c; 0x00f3006d40ea206a4de80492; 0x2ce880f698a2046a8cea2cea; 0x112210f0246abdf04c9a016c;
  0x60a26ce920c230f0206b4ef2; 0x549b10f0246bbcf4b89b3110; 0x026b8ceb2ceb05230493a0f6; 0x50c3a0f651c310f0246a016c;
  0xbcf4b89a321030f0206b4ef2; 0x549b016c01f4006d40ea206a; 0x4de804922ce880f698a2046a; 0x8cea2cea122210f0246abdf0;
  0x4c9a016c60a26ce920c230f0; 0x206b4ef2549b10f0246bbcf4].
Definition fw_rows_47 : list Z := [
  0xbc9b40ea1010026b8ceb2ceb; 0x05230493a0f650c3a0f651c3; 0x10f0246abcf4bc9a016c0018; 0xece130f0216a90f380a2086a;
  0xff6b8cea0922106a8cea6cea; 0x022a026a0110046a4de86ce8; 0x30f0216a90f380a2026aff6b; 0x8cea0822206a8cea6cea0422;
  0x806a4bea4de86ce830f0216a; 0x90f3a0a2406c4467aceaff6b; 0x062a804aacea6cea022a8de8; 0x6ce850670997089107900563;
  0x00ef0065fd63056200189ced; 0x30f0206ac0f1084a08f38aa2; 0x026b6cec022408f36dc230f0; 0x206aeff4084a80f698a2026b;
  0x6cec0224a0f672c205970363; 0x00ef0065fd63056204d030f0; 0x206ac8f472a2026aff6c6cea; 0x0a2210f0246a9df0749a406d;
  0x40a38ceaadea8cea40c330f0; 0x206aeff4084a80f698a2026b; 0x8ceb0c2380f61aa290670018; 0x66f0406b4debff6d90676ced;
  0x001859f030f0206a6ef2589a; 0xff6ca467236e40ea00189ced; 0x30f0206ac0f1084a08f38aa2; 0x026b6cec022408f36dc230f0;
  0x206aeff4084a80f698a2026b; 0x6cec0224a0f672c205970490; 0x036300effd63056230f0206a; 0x6ef2589aff6ca467206e40ea;
  0x00189ced30f0206ac0f1084a; 0x08f38aa2026b6cec022408f3; 0x6dc230f0206aeff4084a80f6; 0x98a2026b6cec0224a0f672c2;
  0x0597036300ef0065fd630562; 0x0018f7f00018adf305970363; 0x00ef0065fd6305620018c9ed; 0x30f0206ac0f1084a08f38aa2;
  0x026b8ceb0323036b08f36dc2; 0x30f0206aeff4084a80f698a2; 0x026b8ceb0323036ba0f672c2; 0x0597036300ef0065fc630762;
  0x06d105d00018c9ed30f0206a; 0x6ef2589aff6c6f6d246e40ea; 0x30f0206ac0f1084a08f38aa2; 0x026b8ceb0b2310f0246b9df0;
  0x949bbf6ba0a4aceb60c4046b; 0x08f36dc230f02069eff40849; 0x80f678a1026a6cea0d2280f6; 0x1aa19067001866f0bf6d4ced;
  0x9067001859f0046aa0f652c1; 0x079706910590046300ef0065; 0xfd6305620018c9ed30f0206a; 0x6ef2589a006dff6cc56740ea;
  0x30f0206ac0f1084a08f38aa2; 0x026b8ceb0323016b08f36dc2; 0x30f0206aeff4084a80f698a2; 0x026b8ceb0323016ba0f672c2;
  0x0597036300ef0065fd630562; 0x0018f4f30018caf005970363; 0x00ef0065fd63056230f0206d; 0xc0f1084d08f3caa5026bff6a;
  0xcceb4ceb4cec006a022308f3; 0x4da530f0206beff4084b80f6; 0xd8a3026dcced0225a0f652a3; 0x8aea6960055c676010f0246b;
  0x88341cf4044b8de3609b00eb; 0x0472036100182ef15a100272; 0x0361001808f4551003720361; 0x001866f1501001724e610018;
  0xcaf04b100472036100180ef1; 0x4610027203610018f4f34110; 0x03720361001853f13c103b2a; 0x0018f7f03810047203610018;
  0x86f33310017203610018adf3; 0x2e1003720361001877f32910; 0x282a0018c0f3251004720361; 0x001833f12010017203610018;
  0xe4f01b10027203610018c5f3; 0x1610152a001809f112100372; 0x036100186bf10d1001720361; 0x0018acf00810027203610018;
  0xd5f30310022a001804f10597; 0x036300effb63096208d107d0; 0x30f0206a4ef2509aa74430f0; 0x216c014d90f3004c186e40ea;
  0x30f0206beff4084b00f247a3; 0x6a2a30f0206ac8f498a2016a; 0x4cec152480f698a38ceaff6c; 0x8cea0f2210f0306a00f0004a;
  0xc1f7afa2026cadecc1f78fc2; 0xa0f66c9bc1f770c24e1030f0; 0x206ac0f1084a08f3f0a2016c; 0xa467ecedff6b432530f0216d;
  0x90f3a0a58ced6ced3c2d10f0; 0x306c00f0004cc1f70fa4026e; 0xcbee0ceec1f70ea4c1f7cfc4; 0x716ecbee0ceec1f7cec468f3;
  0x92a208f3b4c208f393c21e6c; 0xecec6cec182408f3b0a20f6a; 0x026ca6354ced30f0206aeef5; 0x489a6ced40ea30f0206a0ef6;
  0x489a40ea062a30f0206aeef5; 0x509a066c40ea10f0306ac1f7; 0x52a20f6c4cec0018ccec30f0; 0x206beff4084b80f65aa30172;
  0x6c6005220272006c20f11361; 0xc91010f0246a9df0549aff6d; 0x086f80a210f0246a9df0d89a; 0xebefacec40a6aceaecea80f6;
  0xf9a3edeaacea40c680f678a3; 0x086a6ceaacea00f11622106e; 0x4367cceaacea072a10f0246a; 0xbdf27c9a8f6aa0a30a1010f0;
  0x246abdf27c9a716febef40a3; 0xaceaeceacdeaacea40c330f0; 0x206aeff4084a10f0246ba0f6; 0xa09addf2609b016ea0db10f0;
  0x246ba0f6a49addf2649ba0db; 0x10f0246ba0f6a89addf2689b; 0xa0db10f0246ba0f6ac9addf2; 0x6c9ba0db10f0246bddf2709b;
  0x80f658a2ff6de0a35232ccea; 0xc4eaacef4667edeaacea40c3; 0xcc1010f0246d10f0246a9df0; 0x189dbdf2449a80f6b9a3716e;
  0x80a2e0a0ff6acbee4cefb035; 0xccefeded4ceda0c080f6b8a3; 0x086b4cecaceb4ceba0f00f23; 0x106baceb4ceb092b10f0246b;
  0xbdf2bc9b60a54cebcceb206e; 0x081010f0246bbdf2bc9b60a5; 0x4cebcceb306ecdeb4ceb30f0; 0x206a60c5eff4084a10f0246b;
  0xa0f6a09addf2609b016fff6e; 0xa0db10f0246ba0f6a49addf2; 0x649ba0db10f0246ba0f6a89a; 0xddf2689ba0db10f0246ba0f6;
  0xac9addf26c9ba0db10f0246b; 0xddf2b09b80f678a200a57233; 0xecebcce84243641010f0246d; 0x10f0246abdf2489addf2d49d;
  0x086f80a2a0a6ff6aebef4ced; 0xeced80f6f9a34ceceded4ced; 0xa0c680f6b8a3086baceb4ceb; 0x4e23106baceb4ceb0b2b10f0;
  0x246bbdf2bc9b716ecbee60a5; 0x4cebcceb406e0a1010f0246b].
Definition fw_rows_48 : list Z := [
  0xbdf2bc9b716ecbee60a54ceb; 0xcceb506ecdeb4ceb30f0206a; 0x60c5eff4084a10f0246ba0f6; 0xa09addf2609b016fff6ea0db;
  0x10f0246ba0f6a49addf2649b; 0xa0db10f0246ba0f6a89addf2; 0x689ba0db10f0246ba0f6ac9a; 0xddf26c9ba0db10f0246bddf2;
  0xb09b80f678a200a57233eceb; 0xcce84443e4ea47670deaccea; 0x40c510f0246abcf4409aff69; 0x006d60a210f0246a9df05c9a;
  0x2ceb30f0206860c210f0246b; 0xbdf0609beff40848a0c310f0; 0x246bbdf0649b206da0c340a2; 0x10f0246bbdf0689b2cea5032;
  0x014a2cea40c380f678a0016a; 0x6cea2cea6022001808f304d2; 0x0018c4f180f69aa004950018; 0x59f080f678a0026a6cea2cea;
  0x1622a0f652a0032a016c0018; 0x0df430f0216a90f360a2406a; 0x046c6cea052a001882f0016c; 0x012a026c00180df43310406a;
  0x6cea2cea0b22a0f653a00272; 0x2b6030f0206a2ef4489a026c; 0x006d1a10a0f653a002721a61; 0x0018a5cc001882f001720a61;
  0x30f0206a30f0206b2ef4489a; 0x48f580a3016d061030f0206a; 0x2ef4489a006ca46780f6d9a0; 0x40ea061030f0206a48f544a2;
  0xa0f653c010f0246abdf0509a; 0x226b60c23e1080f69aa0006d; 0x001859f080f678a0026a6cea; 0x2cea0822a0f652a004722f61;
  0x006c00180df42b10a0f653a0; 0x0272066130f0206a2ef4489a; 0x046c07100872096130f0206a; 0x2ef4489a0c6c80f6d9a0016d;
  0x40ea30f02068eff4084880f6; 0x99a0001865c530f0206b30f0; 0x206a2ef4489a48f580a380f6; 0xd9a0016d40ea001846f00997;
  0x08910790006a056300ef0065; 0xfc63076206d105d030f0206a; 0xeff4084a80f678a2016cff6d; 0x6cec3d24a0f692a204743960;
  0xa0f693a202743560026c6cec; 0xacec032400186dc52e10806c; 0x8bec6cecacec052480f69ba2; 0x0018dec4081030f0206a6ef2;
  0x589aff6ca467c46740ea0018; 0xb6c430f0206beff4084ba0f6; 0x53a30c72076130f0206a2ef4; 0x489a086c006d081004720961;
  0x30f0206a2ef4489a006ca467; 0x80f6d9a340ea30f0206aeff4; 0x084a00f267a2a0f0042b30f0; 0x2068c0f1084808f390a0016b;
  0xff696cec80f0192480f658a2; 0x6cea2cea80f0132210f0306c; 0x00f0004cc1f7afa4026aacea; 0x2cea4822adebc1f76fc410f0;
  0x306ce6f1114c001843ea30f0; 0x206a0ef6989a001843ea08f3; 0x52a00f6b4ceb2ceb006a1110; 0x1e6db8ea30f0206cc0f1084c;
  0x12ed91e508f3b9a4076cacec; 0x02740560014aff6c8cea62ea; 0xed6130f0206dc0f1084d08f3; 0xd0a50f6c1f6b8cea6beb4432;
  0xcceb4deb10f0306808f370c5; 0x00f00048c1f752a04cec0018; 0xf2ecc1f76fa0036a4bea6cea; 0xc1f74fc030f0206ac8f4b8a2;
  0x30f0206aeef5489a0f6ba635; 0x026c6ced40ea30f0206a0ef6; 0x489a40ea062a30f0206aeef5; 0x509a066c40ea30f0206cc8f4;
  0xb8a410f0246abdf0489a0f6c; 0xa6358ced10f0306be0f7084d; 0xe0a2a43530f0216a00f0004b; 0x90f3489a6de563a3ff6e4232;
  0x4a326cecccef93e26f4730f0; 0x206a7733eef5549a73e4ccec; 0x40ea079706910590046300ef; 0xfd63056200189bf505970363;
  0x00ef0065fd63056200189bf5; 0x0597036300ef0065fd630562; 0x00189bf50597036300ef0065; 0xfb63096208d107d0ff6a4ced;
  0x4cec4ceeecea052501755661; 0x086b0c6d02100a6b0e6d0174; 0x1d6002742a602667e145c4ed; 0x24eb8267cde984efc1438de9;
  0x44ee4de9016a026704eb6267; 0x64eda2676de8a4efade844ee; 0xfff71f6c4de88ce98ce81e10; 0x016b01452267836724e8c4ed;
  0x84e8cde9fff71f6a046764ed; 0x4ce96de80e10016c01432267; 0xa46724e8c4eba4e8cde9fff7; 0x1f6a056784eb4ce98de84ce8;
  0x30f0206aeef34c9a386c0fe8; 0x04d230f0206aeef3409a40ea; 0x4ce804922de8fff71f6d386c; 0x0ced40ea0997089107900563;
  0x00ef006530f0206be8f27ca3; 0xff6aacea01730361adf4006b; 0x041003730461a5f1006b6beb; 0x021060f2006b60cc30f0206b;
  0xe8f27ca302730a6110f0246b; 0x1df3609b746da0c3a0ac806b; 0xadeb60cc092260ac00f2016a; 0x4bea6cea416b6beb6cea0610;
  0x60ac00f2006a6dea406b6dea; 0x40cc20e8ff6301d100d030f0; 0x206be8f27ca3ff6a8cea0273; 0x7061482a10f0246a1df0ec9a;
  0x30f0206aeff4084a609fc0f0; 0x64da10f0246bfcf7d89b609e; 0xa0f078da10f0246b9df2ac9b; 0x609da0f07cda10f0246b9df0;
  0x8c9b10f0246b9df0709b209c; 0xa0f034da009bc0f000da10f0; 0x246a1df3449a2dea18f00169; 0x2be92cea10f024699cf53899;
  0x0de902f001680be80ce910f0; 0x24681df3089800df046fe0de; 0x10f0246e1df3cc9ec0dd40dc; 0x20db271030f0206aeff4084a;
  0x10f0246bc0f0849a1df06c9b; 0x80db10f0246ba0f0989afcf7; 0x789b80db10f0246ba0f09c9a; 0x9df26c9b80db10f0246ba0f0;
  0x949a9df06c9b80dbc0f0609a; 0x10f0246a9df0509a60da0191; 0x0090016320e80065fa630b62; 0x0ad109d0fff71f6baceb06d3;
  0x10f0246b7cf5749bff6a8cea; 0x80abe1f71f6b00688ceb69e2; 0x10f0246b1df3909b5c3291e2; 0x04d422100492409a05d20d28;
  0x30f02069cef450990596016d; 0x83f1186cabed40eacef45099; 0x041030f0206acef4509a0596; 0x016d83f1186cabed40ea0493;
  0x0148fff71f6a044b4ce804d3; 0x069243e8db610b970a910990].
Definition fw_rows_49 : list Z := [
  0x066300efde63436242d141d0; 0x0168006a0be804d2006c30f0; 0x206a426dd067eff430a20018; 0xe7e710f0246b3cf5749b4ceb;
  0x362b006c426dd0670018e7e7; 0x1ff4006b4ceb62324a3243e9; 0x04d202614ee91629016a7d67; 0x4bea54c31d6a56c3046a57c3;
  0x30f0206a4ef2509a06040405; 0x046e40ea30f0206aaef25c9a; 0x050440ea01680be8006c426d; 0xd0670018e7e710f0246b3cf5;
  0xf49b006c426dd0674def0018; 0xfae7439742914190226300ef; 0x30f0216ad0f495c220e80065; 0x10f0246a1df3549a486b60c2;
  0x10f0246a1df3589a016b60c2; 0x10f0246a1df35c9a016b40a2; 0x6cea20e810f0246a3df3609a; 0x016dff6c40a3acea0b2210f0;
  0x246abcf5589a40a24cec8bea; 0x8deac0f7423220e810f0246a; 0xbcf5589ac0a2016a062640a3; 0x8ceaadea8cea40c3016a20e8;
  0xfc63076206d030f0206a30f0; 0x20684ef2509aeff41248a467; 0x016e906740ea30f0206a056b; 0xecf160c200a0016a4ce81928;
  0x10f0246cfbf5054c001843ea; 0x10f0246a1df3549a00c210f0; 0x246a1df3589a00c230f0216a; 0xd0f416c230f0216ad0f417c2;
  0x2710006b30f0216cd0f476c4; 0x30f0216cd0f477c410f0246b; 0x1df3749b486c006d80c310f0; 0x246b1df3789bc86e016f40c3;
  0x10f0246b3df3849b10f0246b; 0xbcf5749b80db10f0246cfbf5; 0x054c04d2001856ea07970690; 0x046300effc63076206d030f0;
  0x2168d0f476a0006a12230018; 0x03f76267016a0d2b10f0246c; 0xfbf5054c006dc86ee267d0f4; 0x76c004d2001856ea006a0797;
  0x0690046300ef0065fb630962; 0x08d05d6720f088c210f0246a; 0x3df3489a416b040060c2456b; 0x60c210f0246a3df3609afe6a;
  0x016d80a30a07c5678cea40c3; 0x006a30f0216bd0f455c330f0; 0x216bd0f456c330f0216bd0f4; 0x57c39067006a04d205d206d2;
  0x07d2001894d9ff6eb067026c; 0x4cee0018a6d9099708900563; 0x00ef0065fb63096208d107d0; 0x30f0206aeff452a201680cea;
  0x532230f0216ad0f436a21e29; 0x00180df7172a30f0216ad0f4; 0x77a2014bd0f477c2d0f457a2; 0x065a1061906700185cf710f0;
  0x246c04d0fbf5054c006dc86e; 0xf067321030f0216ad0f437c2; 0x001803f70f2230f0216ad0f4; 0x76a2014bd0f476c2d0f456a2;
  0x0b5a0861036c00185cf70410; 0x30f0216bd0f456c330f0216a; 0xd0f456a20a2a016a10f0246c; 0x04d2fbf5054c006dc86ee267;
  0x0910006a10f0246c016e04d2; 0xfbf5054ca267e667001856ea; 0x099708910790056300ef0065; 0xf72103800d22038023220380;
  0x3922038053220380ab220380; 0xc1220380df22038011230380; 0x3b2303807b33038081330380; 0x8d33038099330380a5330380;
  0x6937038051380380cb370380; 0x513803801137038051380380; 0x513803805138038033380380; 0x513803805138038051380380;
  0xab360380273c0380313c0380; 0x3b3c0380453c03804f3c0380; 0xed3d03800d3e03802d3e0380; 0x4d3e03806d3e038073400380;
  0xaf400380f540038037410380; 0x7d410380eb41038007420380; 0x294203804b4203806f420380; 0xa80610070016041608160000;
  0x57460380b346038047470380; 0xdb470380734803803b140380; 0x451403804f14038059140380; 0x63140380414f03803b4f0380;
  0x474f03804d4f0380534f0380; 0x594f0380940c940e9418941a; 0x000102030500000000010304; 0x0500000009121b24196f1080;
  0x5f6f1080216f1080516f1080; 0x5f6f10805f6f10805f6f1080; 0x296f1080316f1080396f1080; 0x5f6f10805f6f1080596f1080;
  0x496f1080416f108004080808; 0x08080a0a0a00000000040c14; 0x1c242c3640000000537e1080; 0x697e1080537e1080697e1080;
  0x537e1080697e1080997e1080; 0x997e1080997e1080577e1080; 0x7f7e10807f7e1080577e1080; 0xb17e1080cd7e1080a1911080;
  0xf191108079921080cf921080; 0xf39210800708090a0b0c0d0e; 0x0f100000121214120f0f0c0c; 0x090808070a0a090707060504;
  0x0c0c0a0a090707060c0c0a0a; 0x090707060c0c0a0a09070706; 0x0a0a08080807070604040c0c; 0x0a0a0907070605040c0c0a0a;
  0x0907070504040a0a0a0a0a0a; 0x0a0a0a0a282832281e191919; 0x1818120f141e191e18160c0c; 0x1e1e191e18160c0c1e1e191c;
  0x18140c0a1e1e191e19180f0e; 0x1428211e1a160b100a0a2d28; 0x211e1a160b100a0a1e1e1e1e; 0x18160d0d0a080a0a0a0a0a0a;
  0x0a0a0a0a4a40362c241c140c; 0x04000000c7a610801ba71080; 0xa9a71080a9a810800fa81080; 0x3fa81080636f6e6669675f70;
  0x6879646d5f726561645f7478; 0x6167635f3838323163000000; 0x636f6e6669675f706879646d; 0x5f77726974655f7478616763;
  0x5f3838323163000070687964; 0x6d5f77726974655f74786167; 0x635f31627974655f38383231; 0x63000000636f6e6669675f70;
  0x6879646d5f7377697463685f; 0x62616e6477696474685f3838; 0x32316300636f6e6669675f70; 0x6879646d5f7377697463685f;
  0x6368616e6e656c5f38383231; 0x63000000636f6e6669675f70; 0x6879646d5f7377697463685f; 0x62616e645f38383231630000;
  0x636f6e6669675f706879646d; 0x5f77726974655f72665f7265; 0x675f383832316300636f6e66; 0x69675f706879646d5f726561;
  0x645f72665f7265675f383832; 0x31630000e9a9108003aa1080].
Definition fw_rows_50 : list Z := [
  0x13aa108029aa10803faa1080; 0x3faa10805baa1080655b0380; 0x615b03806b5b03806f5b0380; 0x735b0380795b0380875b0380;
  0xb15b0380df5b0380e55b0380; 0x315c03803f5c0380575c0380; 0x911703808d17038091170380; 0x8d170380b11703808d170380;
  0xb11703808d170380d1170380; 0x8d170380d11703808d170380; 0xf11703808d170380f1170380; 0x3b1903803f19038043190380;
  0x471903804b190380c1850380; 0xe38503800586038027860380; 0x4b86038085860380a9860380; 0xcd860380f186038017870380;
  0x1d8903803389038055890380; 0x7b890380a18903807d8d0380; 0x7d8d03807d8d0380978d0380; 0x7d8d03807d8d03807d8d0380;
  0x798d0380798d0380798d0380; 0x798d0380798d0380f58d0380; 0xff8d0380491e0380491e0380; 0x491e0380491e0380691e0380;
  0x691e0380691e0380691e0380; 0x891e0380891e0380891e0380; 0x891e0380a91e0380a91e0380; 0xa91e0380a91e038083a60380;
  0x93a603809da60380a7a60380; 0xb9a60380f1b4038023b50380; 0x05b503802db503800fb50380; 0x39b5038019b50380cb391080;
  0xd5391080df391080e9391080; 0xf33910802fc703807fc70380; 0xd7c703802fc8038095c80380; 0x85d00380add00380d3d00380;
  0xf9d003801fd10380fc1060b8; 0xfafafafa8c0464b8900464b8; 0x940464b8980464b89c0464b8; 0xa00464b8010664b800006818;
  0x4800681848046818000060b8; 0x000064b8540564b8500564b8; 0x510564b8780564b8790564b8; 0x7a0564b8ffffff8f600560b8;
  0x600564b80000001000000020; 0x0000003000000040bf0164b8; 0x890060b88a0060b81a0464b8; 0x1b0464b80100ff00f01164b8;
  0x580564b8010060b8010064b8; 0x5b0164b83c0164b8220564b8; 0x000001000000020000000400; 0x000008008c0060b8870264b8;
  0x960264b8860264b8f81060b8; 0x000040000a0664b8fe1164b8; 0xa80664b8100764b8001664b8; 0x041664b8081664b8ab0664b8;
  0xaa0664b8130764b8120764b8; 0x031664b8021664b8071664b8; 0x061664b80b1664b80a1664b8; 0xfc1164b8570164b800001e00;
  0x000006000000030000003000; 0x00000003b10564b8220060b8; 0x040664b8fffffffe00000001; 0x601664b8090078b8310078b8;
  0x140078b81d0464b8320078b8; 0x330078b87a0464b8240464b8; 0xd40464b8880464b8d00464b8; 0x840464b8560464b81c0464b8;
  0x200464b8ffffefff00001000; 0x880060b88b0060b8840060b8; 0x00000002cb0164b800000060; 0xe00060b8e10060b8e81264b8;
  0xffff03000000008000000004; 0xfffffffbffffffdfffffff1f; 0x040060b8040064b8080060b8; 0x080064b8240060b8800060b8;
  0xfffffdffcc0764b8821060b8; 0x423400b8000c0100080000f8; 0x08700af8085001f800001f00; 0x000000c01a1564b877777777;
  0x17111777010000e00000ff0f; 0x210000e0001c0188000000ff; 0x08004501880c4601ffff0f00; 0xbacb080018800a0068104601;
  0xf3100500009c0a0008004500; 0x6814460008008400bacb0b00; 0x18c00a0008004401f30e0500; 0x18dc0a00c80e0500189c0a00;
  0x0000f00f0000000f020060b8; 0x620664b8b40664b806000089; 0x0000005040000f70020400d8; 0x200100d140800b70020402d8;
  0x200100de0329290048004601; 0x60100500de0f0e00ceef0d00; 0xceef0500ff3f0e001fff0f00; 0xe70e0500e80e050045230100;
  0x080800f8080700f8080200f8; 0x080300f8180000f8debc0a00; 0x010066b8000066b8cd9b7856; 0x001c66b8041c66b8ffff3f00;
  0x1f0060b804eaeffd07eaeffd; 0x08eaeffd09eaeffd0aeaeffd; 0x530464b8f01060b8ca0464b8; 0xcf0464b8f11060b8060066b8;
  0x520464b8500464b8510464b8; 0x011c66b8021c66b8031c66b8; 0x051c66b8061c66b8071c66b8; 0x021066b8081066b8031066b8;
  0x091066b8041066b8051066b8; 0x0c1066b80d1066b8061066b8; 0x00007f00ffff0bff00007000; 0xffff7aff0000d000ffffdaff;
  0xffffff0f00fff9ff0000fe1f; 0x1c0cb86467562301fffff7ff; 0xfffcfeff0001010000fccfff; 0x0000011000f33fff01000220;
  0x00cffffc0200044000fcceef; 0x400220008003300000008001; 0xcc0664b8a30060b8a00060b8; 0x650764b8400060b8680060b8;
  0x6e0764b8640764b8230564b8; 0x640060b8ffff40ffffffffe0; 0x280060b8ffffff81000070b8; 0x180070b80b0070b8020070b8;
  0x1c0164b8940264b8970264b8; 0x840264b8540264b8500264b8; 0x4c0264b8000078b8040078b8; 0x480264b8440264b8cc0164b8;
  0xf41164b8f51164b8d40460b8; 0x840460b8c80460b8c80464b8; 0x780460b8780464b8cf0164b8; 0x340164b8640564b8440060b8;
  0x600060b8270564b8b50564b8; 0x1d0564b81c0564b8b70564b8; 0x310564b83c1164b8400564b8; 0x01eaeffd02eaeffdc80164b8;
  0xc90164b8a00164b8480060b8; 0xfffffeff470060b8460060b8; 0x450060b8630060b8620060b8; 0x610060b8c60164b8680564b8;
  0x6c0564b8570564b8770564b8; 0xffffff0000000005640164b8; 0x530564b8940164b8001066b8; 0x540060b8500060b89a0164b8;
  0x990164b8c70164b8300164b8; 0x240164b8200164b8241164b8; 0x201164b82c1164b8281164b8; 0x341164b8301164b8380164b8;
  0x381164b8e41164b8e01164b8; 0x0040e00301700003e00464b8].
Definition fw_rows_51 : list Z := [
  0xe30464b8e01264b8000164b8; 0x080264b8670564b8660564b8; 0x650564b8630564b8620564b8; 0x610564b8020164b8210564b8;
  0xb40060b82f0164b8002864b8; 0x002c64b8003864b8003c64b8; 0xf80564b8f90564b8fa0564b8; 0xfb0564b8830060b8080164b8;
  0x900060b8920060b8920664b8; 0xf11164b8200078b8100078b8; 0x030078b8ffff01ff050078b8; 0x120564b8100564b8b80564b8;
  0xbc0564b8000080005f1164b8; 0xfeffff7f30007818400000b5; 0x440000b5480000b54c0000b5; 0xa40464b8a80464b8c00164b8;
  0xaf0164b80000200000000008; 0x000001017e0464b87d0464b8; 0x7c0464b8980164b8ffffc0ff; 0x40010080009800807b0564b8;
  0x730564b8010164b8b70664b8; 0x00000070680664b8ffffcfff; 0x5c0564b8380664b8080664b8; 0xa00664b8aa0060b8a80060b8;
  0x000002804c0060b8ffff7ffe; 0x700060b8c40664b8ffffffef; 0x00007818b20564b8b30564b8; 0x430564b87d0564b87f0564b8;
  0x720564b8cf0564b8e00564b8; 0xe40564b8e80564b8ec0564b8; 0xf00564b8b60564b8e40060b8; 0xe80060b8e90060b8ea0060b8;
  0xeb0060b8e50060b844000200; 0xa00764b8ffffff7ff40060b8; 0x910060b80000c00000102400; 0x82826200300078b83a0060b8;
  0xf60060b8c20060b8ec0060b8; 0x000012206a0060b85b49514b; 0x5d3d3d3d3d3d3e5048595f49; 0x5143616c6962726174655f49;
  0x6e69740a0000000063616c69; 0x62726174696f6e2074696d65; 0x6f75742121210a0064656c61; 0x7920636f756e74203d203078;
  0x25782121210a000064656c61; 0x795f636f756e74203d203078; 0x25780a0049514b7374657020; 0x3d2030782562780a00000000;
  0x5b49514b5d50617468415f4c; 0x4f4b5f6e6f74726561647920; 0x3d2025640a0000005b49514b; 0x5d50617468415f545849514b;
  0x5f6661696c203d2025640a00; 0x5b49514b5d50617468415f52; 0x5849514b5f6661696c203d20; 0x25640a005b49514b5d506174;
  0x68415f545849514b5f726574; 0x7279203d2025640a00000000; 0x5b49514b5d50617468415f52; 0x584b315f7265747279203d20;
  0x25642c2050617468415f5258; 0x4b325f7265747279203d2025; 0x640a00005b49514b5d506174; 0x68415f4753315f7265747279;
  0x203d2025642c205061746841; 0x5f4753325f7265747279203d; 0x2025640a0000000046574951; 0x4b2073746172742076313821;
  0x212100003031323334353637; 0x383941424344454600000000; 0x5365745f43616e64695f333a; 0x205b315d3d30782562582c20;
  0x205b325d3d30782562582c20; 0x205b335d3d30782562580000; 0x5365745f43616e64695f323a; 0x205b315d3d30782562582c20;
  0x205b325d3d30782562582000; 0x504552205250543a206d6964; 0x2562582c523a2562782c7274; 0x3a2562782c62773a25627800;
  0x504552205250543a206d6964; 0x2562582c54543a2577780000; 0x504552205250543a20256258; 0x2c2562782c2562782c256278;
  0x2c2562582c2562782c256278; 0x2c2562782c2562582c256278; 0x2c2562782c25627800000000; 0x5265712050455220434d443a;
  0x2047723a2562582c20545950; 0x3a2562782c2062746d703a25; 0x780000005265712050455220; 0x434d443a204964783a256278;
  0x2c206d696425627800000000; 0x5265712050455220434d443a; 0x204964783a2562782c204d69; 0x643a2562782c202562782c20;
  0x256278005365745f52415f55; 0x705f726174696f5f666f725f; 0x52415f646562756700000000; 0x5365745f446f776e5f726174;
  0x696f000076616c7565383d30; 0x782562582c2076616c756531; 0x363d30782577782c2076616c; 0x756533323d30782578000000;
  0x49443d2562782c4469735241; 0x3d2562782c44697350543d25; 0x62782c527449443d25627800; 0x42573d2562782c42574d3d25;
  0x62782c4e6f557042773d2562; 0x782c5347493d2562782c5648; 0x543d2562780000006363785f; 0x683263202562782c25627820;
  0x506572696f643d2577780000; 0x72656164793d256278000000; 0x436c6d5270743d2577780000; 0x433248202562782025627800;
  0x746274743d2562782c725f63; 0x6e743d2562780000434c4d5f; 0x44656300434c4d5f54726967; 0x000000005045523a25627820;
  0x4375723a256278204f3a2562; 0x780000004d61703a25627820; 0x4469663a256278206f66743a; 0x256278005661723a20256278;
  0x2d3e2562780000004465635f; 0x6f6673747b502c4e7d3a2025; 0x62782c25627800004d744277; 0x205570447725627820425725;
  0x627820527425627800000000; 0x486974256278205274303d25; 0x7778205274313d2577780000; 0x72256278204c256278000000;
  0x5253534920526c734c6d7400; 0x525353492055704c6d740000; 0x55704c6d743a256278202562; 0x782025627820256278000000;
  0x48523a2562782c4c523a2562; 0x782c4d533a25627800000000; 0x4669782069643d2562782042; 0x773d2562782052743d256278;
  0x0000000052614f63634e756d; 0x256278005261447754792052; 0x743d2562782c427725627800; 0x557052617465256278204257;
  0x256278204d61784257256278; 0x0000000030557064745f4257; 0x3d256278000000005347495f; 0x526174653d25627800000000;
  0x337261746525627800000000; 0x347261746525627800000000].
Definition fw_rows_52 : list Z := [
  0x357261746525627800000000; 0x305274256278202562782025; 0x627800003152742562782025; 0x62782025627800004e6f2055;
  0x70205261746500003252743a; 0x25627820256278202562782c; 0x205472793d25627800000000; 0x446e52617465256278204257;
  0x256278204d61784257256278; 0x00000000445f527425627820; 0x4277256278000000506b7420; 0x547279696e67000044726f70;
  0x000000006f72695f50256278; 0x2c256278000000004b256278; 0x205425627820442562780000; 0x42773d2562782c204277323d;
  0x2562782052743d2562780000; 0x3055702562782c44776e2562; 0x780000003155702562782c44; 0x776e25627800000032557025;
  0x62782c44776e256278000000; 0x467720466978205261746500; 0x466f72636552617465447700; 0x527444776e436e743d256278;
  0x0000000052617465446f776e; 0x0000000052745570436e743d; 0x256278005261746555500000; 0x526174655374617900000000;
  0x547279537563636573730000; 0x5472796661696c004d745472; 0x793d25627800000042572562; 0x78205274256278006f6b2562;
  0x782074742562782064702562; 0x78206f61256278005b545259; 0x5d20502562782c2562782042; 0x773d2562782052743d256278;
  0x000000005072202562782025; 0x627800005274202562782025; 0x627800005470257778202577; 0x7800000055704661696c0000;
  0x547953756352742025627800; 0x72615f6964782562782c6374; 0x726c2562780000003152743d; 0x2562782d3e25627820525b25;
  0x62785d4f6b3a2562782b4470; 0x3a2562783d543a2562782054; 0x616c6c256278000043256278; 0x204e25627820502562780000;
  0x433248506b743a2562782025; 0x627800005462747452412025; 0x627800003252743d2562782d; 0x3e25627820525b2562785d4f;
  0x6b3a2562782b44703a256278; 0x21543a2562782054616c6c25; 0x627800004469735261494420; 0x256278005b25735d3a206469;
  0x7361626c6520504859204150; 0x4920666f7220646562756721; 0x210a00005b25735d3a20756e; 0x737570706f72746564207061;
  0x746820282564290a00000000; 0x5b25735d3a20506174682d25; 0x64205261746520696e646578; 0x203078257820283078257829;
  0x203d20307825780a00000000; 0x5b25735d3a20506174682d25; 0x64207261746520696e646578; 0x2030782578203d2030782578;
  0x0a0000005b25735d3a205246; 0x2d25642030782578203d2030; 0x7825782c20626974206d6173; 0x6b203d20307825780a000000;
  0x5b25735d3a20577269746520; 0x6661696c2c20524620697320; 0x64697361626c650a00000000; 0x5b25735d3a2052462d256420;
  0x30782578203d203078257820; 0x286f726967696e616c3a2030; 0x782578292c20626974206d61; 0x736b203d20307825780a0000;
  0x5b25735d3d3d3d3d3d3d3d3d; 0x3d3d3d3d3d3d3d3d3d3d3d3d; 0x3e0a00005b25735d3a204661; 0x696c20746f20737769746368;
  0x206368616e6e656c20285246; 0x313829202863683a20256429; 0x0a0000005b25735d3a204661; 0x696c20746f20737769746368;
  0x206368616e6e656c20284147; 0x4329202863683a202564290a; 0x000000005b25735d3a204661; 0x696c20746f20737769746368;
  0x206368616e6e656c20286663; 0x5f6172656129202863683a20; 0x2564290a000000005b25735d; 0x3a204661696c20746f207377;
  0x697463682062616e64202863; 0x683a202564290a005b25735d; 0x3a204661696c20746f207377; 0x69746368206368616e6e656c;
  0x202863683a202564292c2062; 0x656361757365207772697469; 0x6e6720524620726567697374; 0x6572206973206661696c0a00;
  0x5b25735d3a20537563636573; 0x7320746f2073776974636820; 0x6368616e6e656c202863683a; 0x202564290a0000005b25735d;
  0x3d3d3d3d3d3d3d3d3d3d3d3d; 0x3d3d3d3d3d3d3d3d3d3d3e0a; 0x000000005b25735d3a204661; 0x696c20746f20737769746368;
  0x2062616e64202863683a2025; 0x64292c206265636175736520; 0x77726974696e672052462072; 0x656769737465722069732066;
  0x61696c0a000000005b25735d; 0x3a205375636365737320746f; 0x207377697463682062616e64; 0x202863683a202564290a0000;
  0x5b25735d3d3d3d3d3d3d3d3d; 0x3d3d3d3d3d3d3d3d3d3d3d3e; 0x0a0000005b25735d3a204661; 0x696c20746f20737769746368;
  0x2062616e6477696474682028; 0x62773a2025642c207072696d; 0x6172792063683a202564290a; 0x000000005b25735d3a204661;
  0x696c20746f20737769746368; 0x2062616e6477696474682028; 0x62773a2025642c207072696d; 0x6172792063683a202564292c;
  0x206265636175736520777269; 0x74696e672052462072656769; 0x73746572206973206661696c; 0x0a0000005b25735d3a205375;
  0x636365737320746f20737769; 0x7463682062616e6477696474; 0x68202862773a2025642c2070; 0x72696d6172792063683a2025;
  0x64290a0000000000bc0b0000; 0x000000000000000000000000; 0x000000000000000000000000; 0x000000000000000000000000;
  0x000000000000000000000000; 0x000000000000000000000000; 0x000000000000000000000000; 0x000000000000000000000000;
  0x000000000000000000000000; 0x000000000000000000000000].
Definition fw_rows_53 : list Z := [
  0x000000000000000000000000; 0x000000000000000000000000; 0x000000000000000000000000; 0x000000000000000000000000;
  0x000000000000000000000000; 0x000000000000000000000000; 0x000000000000000000000000; 0x000000000000000000000000;
  0x000000000000000000000000; 0x000000000000000000000000; 0x000000000000000000000000; 0x000000000000000000000000;
  0x000000000000000000000000; 0x000000000000000000000000; 0x000000000000000000000000; 0x000000000000000000000000;
  0x000000000000000000000000; 0x000000000000000000000000; 0x000000000000000000000000; 0x000000000000000000000000;
  0x000000000000000000000000; 0x000000000000000000000000; 0x000000000000000000000000; 0x000000000000000000000000;
  0x000000000000000000000000; 0x000000000000000000000000; 0x000000000000000000000000; 0x000000000000000000000000;
  0x000000000000000000000000; 0x000000000000000000000000; 0x000000000000000000000000; 0x000000000000000000000000;
  0x000000000000000000000000; 0x000000000000000000000000; 0x000000000000000000000000; 0x000000000000000000000000;
  0x000000000000000000000000; 0x000000000000000000000000; 0x000000000000000000000000; 0x000000000000000000000000;
  0x000000000000000000000000; 0x000000000000000000000000; 0x000000000000000000000000; 0x000000000000000000000000;
  0x000000000000000000000000; 0x000000000000000000000000; 0x000000000000000000000000; 0x000000000000000000000000;
  0x000000000000000000000000; 0x000000000000000000000000; 0x000000000000000000000000; 0x000000000000000000000000;
  0x000000000000000000000000; 0x000000000000000000000000; 0x000000000000000000000000; 0x000000000000000000000000;
  0x000000000000000000000000; 0x000000000000000000000000; 0x000000000000000000000000; 0x000000000000000000000000;
  0x000000000000000000000000; 0x000000000000000000000000; 0x000000000000000000000000; 0x000000000000000000000000;
  0x000000000000000000000000; 0x000000000000000000000000; 0x000000000000000000000000; 0x000000000000000000000000;
  0x000000000000000000000000; 0x000000000000000000000000; 0x000000000000000000000000; 0x000000000000000000000000;
  0x000000000000000000000000; 0x000000000000000000000000; 0x000000000000000000000000; 0x000000000000000000000000;
  0x000000000000000000000000; 0x000000000000000000000000; 0x000000000000000000000000; 0x000000000000000000000000;
  0x000000000000000000000000; 0x000000000000000000000000; 0x000000000000000000000000; 0x000000000000000000000000;
  0x000000000000000000000000; 0x000000000000000000000000; 0x000000000000000000000000; 0x000000000000000000000000;
  0x000000000000000000000000; 0x000000000000000000000000; 0x000000000000000000000000; 0x000000000000000000000000;
  0x000000000000000000000000; 0x000000000000000000000000; 0x000000000000000000000000; 0x000000000000000000000000;
  0x000000000000000000000000; 0x000000000000000000000000; 0x000000000000000000000000; 0x000000000000000000000000;
  0x000000000000000000000000; 0x000000000000000000000000; 0x000000000000000000000000; 0x000000000000000000000000;
  0x000000000000000000000000; 0x000000000000000000000000; 0x000000000000000000000000; 0x000000000000000000000000;
  0x000000000000000000000000; 0x000000000000000000000000; 0x000000000000000000000000; 0x000000000000000000000000;
  0x000000000000000000000000; 0x000000000000000000000000; 0x000000000000000000000000; 0x000000000000000000000000;
  0x000000000000000000000000; 0x000000000000000000000000; 0x000000000000000000000000; 0x000000000000000000000000;
  0x000000000000000000000000; 0x000000000000000000000000; 0x000000000000000000000000; 0x000000000000000000000000;
  0x000000000000000000000000; 0x000000000000000000000000; 0x000000000000000000000000; 0x000000000000000000000000;
  0x000000000000000000000000; 0x000000000000000000000000; 0x000000000000000000000000; 0x000000000000000000000000;
  0x000000000000000000000000; 0x000000000000000000000000; 0x000000000000000000000000; 0x000000000000000000000000;
  0x000000000000000000000000; 0x000000000000000000000000; 0x000000000000000000000000; 0x000000000000000000000000;
  0x000000000000000000000000; 0x000000000000000000000000; 0x000000000000000000000000; 0x000000000000000000000000;
  0x000000000000000000000000; 0x000000000000000000000000; 0x000000000000000000000000; 0x000000000000000000000000;
  0x000000000000000000000000; 0x000000000000000000000000].
Definition fw_rows_54 : list Z := [
  0x000000000000000000000000; 0x000000000000000000000000; 0x000000000000000000000000; 0x000000000000000000000000;
  0x000000000000000000000000; 0x000000000000000000000000; 0x000000000000000000000000; 0x000000000000000000000000;
  0x000000000000000000000000; 0x000000000000000000000000; 0x000000000000000000000000; 0x000000000000000000000000;
  0x000000000000000000000000; 0x000000000000000000000000; 0x000000000000000000000000; 0x000000000000000000000000;
  0x000000000000000000000000; 0x000000000000000000000000; 0x000000000000000000000000; 0x000000000000000000000000;
  0x000000000000000000000000; 0x000000000000000000000000; 0x000000000000000000000000; 0x000000000000000000000000;
  0x000000000000000000000000; 0x000000000000000000000000; 0x000000000000000000000000; 0x000000000000000000000000;
  0x000000000000000000000000; 0x000000000000000000000000; 0x000000000000000000000000; 0x000000000000000000000000;
  0x000000000000000000000000; 0x000000000000000000000000; 0x000000000000000000000000; 0x000000000000000000000000;
  0x000000000000000000000000; 0x000000000000000000000000; 0x000000000000000000000000; 0x000000000000000000000000;
  0x000000000000000000000000; 0x000000000000000000000000; 0x000000000000000000000000; 0x000000000000000000000000;
  0x000000000000000000000000; 0x000000000000000000000000; 0x000000000000000000000000; 0x000000000000000000000000;
  0x000000000000000000000000; 0x000000000000000000000000; 0x000000000000000000000000; 0x000000000000000000000000;
  0x000000000000000000000000; 0x000000000000000000000000; 0x000000000000000000000000; 0x000000000000000000000000;
  0x000000000000000000000000; 0x000000000000000000000000; 0x000000000000000000000000; 0x000000000000000000000000;
  0x000000000000000000000000; 0x000000000000000000000000; 0x000000000000000000000000; 0x000000000000000000000000;
  0x000000000000000000000000; 0x000000000000000000000000; 0x000000000000000000000000; 0x000000000000000000000000;
  0x000000000000000000000000; 0x000000000000000000000000; 0x000000000000000000000000; 0x000000000000000000000000;
  0x000000000000000000000000; 0x000000000000000000000000; 0x000000000000000000000000; 0x000000000000000000000000;
  0x000000000000000000000000; 0x000000000000000000000000; 0x000000000000000000000000; 0x000000000000000000000000;
  0x000000000000000000000000; 0x000000000000000000000000; 0x000000000000000000000000; 0x000000000000000000000000;
  0x000000000000000000000000; 0x000000000000000000000000; 0x000000000000000000000000; 0x000000000000000000000000;
  0x000000000000000000000000; 0x000000000000000000000000; 0x000000000000000000000000; 0x000000000000000000000000;
  0x000000000000000000000000; 0x000000000000000000000000; 0x000000000000000000000000; 0x000000000000000000000000;
  0x000000000000000000000000; 0x000000000000000000000000; 0x000000000000000000000000; 0x000000000000000000000000;
  0x000000000000000000000000; 0x000000000000000000000000; 0x000000000000000000000000; 0x000000000000000000000000;
  0x000000000000000000000000; 0x000000000000000000000000; 0x000000000000000000000000; 0x000000000000000000000000;
  0x000000000000000000000000; 0x000000000000000000000000; 0x000000000000000000000000; 0x000000000000000000000000;
  0x000000000000000000000000; 0x000000000000000000000000; 0x000000000000000000000000; 0x000000000000000000000000;
  0x000000000000000000000000; 0x000000000000000000000000; 0x000000000000000000000000; 0x000000000000000000000000;
  0x000000000000000000000000; 0x000000000000000000000000; 0x000000000000000000000000; 0x000000000000000000000000;
  0x000000000000000000000000; 0x000000000000000000000000; 0x000000000000000000000000; 0x000000000000000000000000;
  0x000000000000000000000000; 0x000000000000000000000000; 0x000000000000000000000000; 0x000000000000000000000000;
  0x000000000000000000000000; 0x000000000000000000000000; 0x000000000000000000000000; 0x000000000000000000000000;
  0x000000000000000000000000; 0x000000000000000000000000; 0x000000000000000000000000; 0x000000000000000000000000;
  0x000000000000000000000000; 0x000000000000000000000000; 0x000000000000000000000000; 0x000000000000000000000000;
  0x000000000000000000000000; 0x000000000000000000000000; 0x000000000000000000000000; 0x000000000000000000000000;
  0x000000000000000000000000; 0x000000000000000000000000].
Definition fw_rows_55 : list Z := [
  0x000000000000000000000000; 0x000000000000000000000000; 0x000000000000000000000000; 0x000000000000000000000000;
  0x000000000000000000000000; 0x000000000000000000000000; 0x000000000000000000000000; 0x000000000000000000000000;
  0x000000000000000000000000; 0x000000000000000000000000; 0x000000000000000000000000; 0x000000000000000000000000;
  0x000000000000000000000000; 0x000000000000000000000000; 0x000000000000000000000000; 0x000000000000000000000000;
  0x000000000000000000000000; 0x000000000000000000000000; 0x000000000000000000000000; 0x000000000000000000000000;
  0x000000000000000000000000; 0x000000000000000000000000; 0x000000000000000000000000; 0x000000000000000000000000;
  0x000000000000000000000000; 0x000000000000000000000000; 0x000000000000000000000000; 0x000000000000000000000000;
  0x000000000000000000000000; 0x000000000000000000000000; 0x000000000000000000000000; 0x000000000000000000000000;
  0x000000000000000000000000; 0x000000000000000000000000; 0x000000000000000000000000; 0x000000000000000000000000;
  0x000000000000000000000000; 0x000000000000000000000000; 0x000000000000000000000000; 0x000000000000000000000000;
  0x000000000000000000000000; 0x000000000000000000000000; 0x000000000000000000000000; 0x000000000000000000000000;
  0x000000000000000000000000; 0x000000000000000000000000; 0x000000000000000000000000; 0x000000000000000000000000;
  0x000000000000000000000000; 0x000000000000000000000000; 0x10f0236a40f2094a30f0206b; 0xcef644db10f0236a00f4154a;
  0x30f0206bcef648db10f0236a; 0xa0f41d4a30f0206bcef64cdb; 0x10f0236a20f5114a30f0206b; 0xcef650db10f0236a03f7154a;
  0x30f0206bcef654db10f0236a; 0x24f0114a30f0206bcef658db; 0x10f0236ae3f61d4a30f0206b; 0xcef65cdb10f0216ae2f5004a;
  0x30f0206beef640db10f0216a; 0x40f41c4a30f0206beef644db; 0x10f0216a00f2004a30f0206b; 0xeef648db10f0216a60f51c4a;
  0x30f0206beef64cdb10f0216a; 0xa0f6044a30f0206beef650db; 0x10f0216aa0f5104a30f0206b; 0xeef654db10f0216a00f11c4a;
  0x30f0206beef658db10f0216a; 0x61f6104a30f0206beef65cdb; 0x10f0216a21f5104a30f0206b; 0x0ef740db10f0216aa1f5144a;
  0x30f0206b0ef744db10f0216a; 0x02f1104a30f0206b0ef748db; 0x10f0216ae2f6084a30f0206b; 0x0ef74cdb10f0216a62f1004a;
  0x30f0206b0ef750db10f0216a; 0xa2f0184a30f0206b0ef754db; 0x10f0216a01f60c4a30f0206b; 0x0ef758db10f0216a80f51c4a;
  0x30f0206b0ef75cdb10f0216a; 0x60f00c4a30f0206b2ef740db; 0x10f0216a7ff61c4a30f0206b; 0x2ef744db10f0216ac2f5084a;
  0x30f0206b2ef748db10f0216a; 0x5ff6144a30f0206b2ef74cdb; 0x10f0216aa1f1044a30f0206b; 0x2ef750db10f0216aa1f70c4a;
  0x30f0206b2ef754db10f0216a; 0x42f61c4a30f0206b2ef758db; 0x10f0216ac1f60c4a30f0206b; 0x2ef75cdb10f0216a21f6104a;
  0x30f0206b4ef740db10f0216a; 0x00f7184a30f0206b4ef744db; 0x10f0216aa1f1004a30f0206b; 0x4ef748db10f0236ac3f61d4a;
  0x30f0206b4ef74cdb10f0216a; 0xfff71c4a30f0206b4ef750db; 0x10f0216abff7184a30f0206b; 0x4ef754db10f0216a80f0044a;
  0x30f0206b4ef758db10f0216a; 0xe0f1044a30f0206b4ef75cdb; 0x10f0216a40f3004a30f0206b; 0x6ef740db10f0216a80f1144a;
  0x30f0206b6ef744db10f0216a; 0x02f30c4a30f0206b6ef748db; 0x10f0216a02f4184a30f0206b; 0x6ef74cdb10f0216ae2f10c4a;
  0x30f0206b6ef750db10f0216a; 0x62f4184a30f0206b6ef754db; 0x10f0216ac2f4184a30f0206b; 0x6ef758db10f0216aa1f1084a;
  0x30f0206b6ef75cdb10f0216a; 0x41f4004a30f0206b8ef740db; 0x10f0216ac1f2144a30f0206b; 0x8ef744db10f0216ac1f1144a;
  0x30f0206b8ef748db10f0216a; 0x00f71c4a30f0206b8ef74cdb; 0x10f0216a61f0144a30f0206b; 0x8ef750db10f0216a01f00c4a;
  0x30f0206b8ef754db10f0216a; 0x40f7044a30f0206b8ef758db; 0x10f0216a01f1044a30f0206b; 0x8ef75cdb10f0216a21f1104a;
  0x30f0206baef740db10f0216a; 0x22f7184a30f0206baef744db; 0x10f0216a82f70c4a30f0206b; 0xaef748db10f0216aa2f7184a;
  0x30f0206baef74cdb10f0216a; 0x1ff6104a30f0206baef750db; 0x10f0216a63f0144a30f0206b; 0xaef754db10f0216aa3f0104a;
  0x30f0206baef758db10f0216a; 0xc3f01c4a30f0206baef75cdb; 0x10f0216a23f3104a30f0206b; 0xcef740db10f0216a83f30c4a;
  0x30f0206bcef744db10f0216a; 0xc3f3104a30f0206bcef748db; 0x10f0216a03f4044a30f0206b; 0xcef74cdb10f0216a23f4104a;
  0x30f0206bcef750db10f0216a; 0x63f40c4a30f0206bcef754db; 0x10f0216aa3f6004a30f0206b; 0xcef758db10f0216ae3f6044a;
  0x30f0206bcef75cdb10f0216a; 0x23f7044a30f0206beef740db; 0x10f0216aa4f0184a30f0206b; 0xeef744db10f0216a04f1084a;
  0x30f0206beef748db10f0216a; 0x64f1184a30f0206beef74cdb].
Definition fw_rows_56 : list Z := [
  0x10f0216a84f3044a30f0206b; 0xeef750db10f0216ae4f3004a; 0x30f0206beef754db10f0216a; 0x04f41c4a30f0206beef758db;
  0x10f0216a44f4144a30f0206b; 0xeef75cdb20e80065fd630562; 0x30f0206a4ef24c9a30f0206c; 0xeff6084c006d076e40ea0597;
  0x036300ef30f0206ac0f1084a; 0x046bc8f37cc2036bc8f37dc2; 0x646bc8f37eca016be8f360c2; 0x056be8f361c220e8fc630762;
  0x06d105d030f0206a4ef24c9a; 0x30f0206c706e28f51c4c006d; 0x30f0206840eac0f108480018; 0x6bca026a68f356c0106a88f3;
  0x44c0056a88f34ac888f35ba0; 0x006b0169044a88f356c0106a; 0x88f357c030f0206aeff4084a; 0xc0f068c288f322c088f323c0;
  0x80187905006ca4670018e2c8; 0x026c0c6d0018e2c8016c0c6d; 0x0018e2c830f0206c006d48f5; 0x104c001859f6e8f366a00f6a;
  0xe8f345c0016a6cea286b6dea; 0xe8f346c0076ae8f347c088f3; 0x5ba0016ce8f324c0044a88f3; 0x56c0106a88f357c00018abc9;
  0x006ca467001882d1016c006d; 0x001882d1026c006d001882d1; 0x036c006d001882d1046c006d; 0x001882d110f0246afcf4609a;
  0xf86a006d80a3c5678cea40c3; 0x30f0206a6ef2589aff6c40ea; 0x079706910590046300ef0065; 0x10f0306a00f0004a006bc1f6;
  0x62c2c1f663c2c1f664c2c1f6; 0x65c220e810f0236b30f0206a; 0x24f0114b40f168da10f0236b; 0x40f1084a40f5094b61da10f0;
  0x236bc0f5054b62da10f0236b; 0xa0f5154b63da10f0236ba0f5; 0x054b64da10f0236b80f5154b; 0x65da10f0236b80f5054b66da;
  0x10f0236b60f5154b67da20e8; 0x30f0206aa8f4174a6742094b; 0x006c80c2014a6aeafb6142f4; 0x106a1ff7006b4ceb02f00073;
  0x0160052b10f0246b5cf4689b; 0x041010f0246b5cf46c9b6de2; 0x044a006c62f4007280dbe961; 0x20e80065fd63056230f0206a;
  0x4ef24c9a30f0206ceff40f4c; 0x006d036e40ea0597036300ef; 0xfd63056210f0246afcf5489a; 0x036dff6b809a10f0246afcf5;
  0x4c9a00f58234acec409a0174; 0x42325232acea06600a2c025a; 0x286c0d60506c0b10025a146c; 0x0860286c0410025a0a6c0360;
  0x146c84ea6cec8018090730f0; 0x206aeff4084a006b00f267c2; 0x10f0246bdcf4789b006a40db; 0x10f0246b1cf4789b40db10f0;
  0x246bbcf5649b40c305970363; 0x00ef0065fb63096208d107d0; 0x30f0206ac0f1084a30f02068; 0x04d204944ef24c98006d4cf7;
  0x146e40ea30f0206aeff4084a; 0x05d205944ef24c98006da0f6; 0x146e40ea10f030694ef24c98; 0x00f000499167006dc2f0106e;
  0x40ea8018c9050492006840f0; 0x00c180f00cda8018d0050018; 0xb9de059230f0206cedf0164c; 0x00f208c230f0206aedf0064a;
  0x006b60c270c2014a62678eeb; 0xf92b30f0206ac0f1084a28f1; 0x73c22cf77ec22cf77fc228f1; 0x72c2099708910790056300ef;
  0xfb63096208d107d08018e705; 0x8018820630f0206a4ef2589a; 0x30f02068eff4084840ea8018; 0x161830f0206aaef3589a0169;
  0x2be940ea30f0206a4ef24c9a; 0x30f0206c1c6ecff5004c006d; 0x40eae0f061a0086a4beab167; 0x41f4186c6ceae0f041c00018;
  0x9ce730f0206b89f258db1e6a; 0xe0f04cc0046ae0f04ec08018; 0x8305801871050018a3c40018; 0x46f030f0206acef5449a40ea;
  0x80181a070018ffde0018efe9; 0x10f0246cf16754f60d4c006d; 0x646e016a04d2001856ea8018; 0xfa05001812ea801872080997;
  0x08910790056300ef30f0206a; 0x006beff4084aa0f06cc2a0f0; 0x6dc210f0306a00f0004a40f0; 0x60c240f061c220e810f0246a;
  0x1df1449a016b60c220e80065; 0x10f0246a1df1889aff6b206d; 0x40a46ceaadea6cea40c410f0; 0x246afdf0989a086d40a46cea;
  0xadea6cea40c420e810f0246a; 0x1df16c9afd6aff6ca0a3acea; 0x40c340a3016d8ceaadea8cea; 0x40c320e8fd63056204d010f0;
  0x246afcf61c9a30f0206a4ef2; 0x4c9a9067006d02f0006e40ea; 0x046a40c010f0246a1df1509a; 0x20480eeaf72a10f0246b30f0;
  0x206a1cf7849b4ef24c9a006d; 0x00f4006e40ea059704900363; 0x00ef006510f0246a5df1bc9a; 0x30f0206be0f3126ec0f1c8db;
  0x01f7016ac0f1084b006c42db; 0x43dba1db84db10f0246b3df1; 0x689bc0db10f0246b3df1709b; 0xa0db10f0246b3df1789b40db;
  0x10f0246b5df1609b40db10f0; 0x246a5df1489a80da20e80065; 0x806a30f0206be0f158db10f0; 0x246b1df1789b40db20e80065;
  0x10f0246b7df1809b30f0206a; 0xc0f1084ac0f1066dff6baeda; 0x8fda70da10f0246a5df14c9a; 0xa0da10f0246a5df1509a80da;
  0x10f0246a5df1589a60da20e8; 0x20e80065fd63056280180508; 0x30f0206be8f25cc380189a06; 0x001856ed10f0246a7df14c9a;
  0x3f6b60c280188b0680188f06; 0x80180f078018a20605970363; 0x00ef0065fd63056204d030f0; 0x2068006ac0f10848016c026d;
  0x006e40f050c800188fd340f0; 0xd0a8016c036dc23600188fd3; 0x05970490036300effd630562; 0x00180be200182ae28018b706;
  0x8018d4068018ce068018f306; 0x0597036300ef0065fd630562; 0x0018f2d430f0206acef4549a; 0x40ea0597036300ef30f0206a;
  0xc0f1084a81f4106b28f178da; 0x00f2004b28f17cda01f2004b; 0x48f160da00f2004b48f164da; 0x20e8006520e8006510f0246a;
  0x3df2589ae0f11b6b6beb60ca; 0x10f0246a9cf5709afb6a80a3].
Definition fw_rows_57 : list Z := [
  0x8cea40c320e8006510f0236a; 0x0af5014a30f0206b4ef24cdb; 0x10f0236a0af5154a30f0206b; 0x4ef250db10f0246a30f71d4a;
  0x30f0206b4ef254db10f0306a; 0x63f40d4a30f0206b4ef258db; 0x10f0246ab6f4014a30f0206b; 0x6ef250db10f0316ad2f4014a;
  0x30f0206b6ef254db10f0246a; 0x16f4014a30f0206b4ef25cdb; 0x10f0246a54f4054a30f0206b; 0x6ef258db10f0246af4f4194a;
  0x30f0206b6ef25cdb10f0236a; 0xacf7054a30f0206b8ef25cdb; 0x10f0236ae9f6194a30f0206b; 0xaef240db10f0236aa9f6014a;
  0x30f0206baef244db10f0246a; 0x13f6094a30f0206baef248db; 0x10f0246a90f3114a30f0206b; 0xaef24cdb10f0246ad0f3194a;
  0x30f0206baef250db10f0246a; 0xd6f1094a30f0206baef254db; 0x10f0306ac6f61d4a30f0206b; 0xeef448db10f0246a98f0054a;
  0x30f0206bcef54cdb10f0246a; 0xf7f70d4a30f0206beef544db; 0x10f0246af6f71d4a30f0206b; 0xeef450db10f0246a77f0114a;
  0x30f0206beef454db10f0236a; 0xacf2194a30f0206baef258db; 0x10f0236aacf41d4a30f0206b; 0xaef25cdb10f0246ab4f0194a;
  0x30f0206bcef240db10f0236a; 0xe3f5194a30f0206bcef244db; 0x10f0246a37f3014a30f0206b; 0xaef348db10f0306a87f1094a;
  0x30f0206b6ef350db10f0246a; 0x17f6014a30f0206b6ef35cdb; 0x10f0306ac7f5154a30f0206b; 0x8ef350db10f0306aa7f41d4a;
  0x30f0206b8ef358db10f0306a; 0x46f7194a30f0206b8ef34cdb; 0x10f0306a07f2154a30f0206b; 0x8ef340db10f0246ab7f0194a;
  0x30f0206bcef344db10f0306a; 0x07f31d4a30f0206baef344db; 0x10f0246a9bf0154a30f0206b; 0xeef354db10f0236a66f6014a;
  0x30f0206b2ef448db10f0236a; 0x09f1154a30f0206b2ef44cdb; 0x10f0236a29f4194a30f0206b; 0x2ef450db10f0236a89f1114a;
  0x30f0206b2ef454db10f0236a; 0xc9f20d4a30f0206b2ef458db; 0x10f0246ab3f60d4a30f0206b; 0xcef450db10f0236aaaf4014a;
  0x30f0206bcef454db10f0236a; 0xcaf40d4a30f0206bcef45cdb; 0x10f0236aaaf40d4a30f0206b; 0xcef458db10f0246a51f5014a;
  0x30f0206beef440db10f0306a; 0x05f6194a30f0206b0ef644db; 0x10f0306a05f1094a30f0206b; 0xeef54cdb10f0306a86f5014a;
  0x30f0206beef550db10f0306a; 0x66f3114a30f0206beef554db; 0x10f0306aa6f1014a30f0206b; 0x0ef640db10f0306ac5f6154a;
  0x30f0206b0ef648db10f0306a; 0xa6f2114a30f0206b0ef650db; 0x10f0306a25f21d4a30f0206b; 0x0ef654db10f0306a25f3094a;
  0x30f0206b0ef658db10f0306a; 0xc5f3014a30f0206b0ef65cdb; 0x10f0306a26f4114a30f0206b; 0x2ef640db20e8006510f0246a;
  0xfdf25c9a609a036a62337233; 0x4ceb026a04230173016a0160; 0x036a20e8fd630562ff6a8cea; 0x20722b60215a046008221072;
  0x166056103072336040724160; 0x511010f0246a9cf56c9a10f0; 0x246c7cf4949c409b8dea40db; 0x30f0206aeff680a23f1010f0;
  0x246a9cf56c9a10f0246c9cf4; 0x809c409b8dea40db30f0206a; 0xeff681a22f1010f0246a9cf5; 0x6c9a10f0246c7cf4949c409b;
  0x8dea40db30f0206aeff682a2; 0x1f1010f0246a9cf56c9a10f0; 0x246c9cf4809c409b8dea40db; 0x30f0206aeff683a20f1010f0;
  0x246a9cf56c9a10f0246c7cf4; 0x949c409b8dea40db30f0206a; 0xeff684a2001874c505970363; 0x00ef0065e0633f62ff6a016b;
  0x8cea6beb9d6770c4236b72c4; 0x2072106b73c40f60215a0460; 0x122210720760111030720960; 0x4072406a0a600b109d6774c4;
  0x0810206a0410306a9d6754c4; 0x02107d6754c330f0206aaef2; 0x5c9a040440ea3f97206300ef; 0xfd630562ff6a4cec20741760;
  0x215c0460082410740c602710; 0x3074156040741960221030f0; 0x206beff6a5a3026b171030f0; 0x206beff6a5a3046b111030f0;
  0x206beff6a5a3086b0b1030f0; 0x206beff6a5a3106b051030f0; 0x206beff6a5a3206baceb4ceb; 0x0223801840080597036300ef;
  0xfc63076206d105d030f02069; 0x4ef24c9930f02068eff60548; 0x9067006d016e40ea4ef24c99; 0x8140006d026e40ea07970691;
  0x0590046300ef0065fd630562; 0x30f0206a4ef2509aa46730f0; 0x206ceff6054c016e40ea30f0; 0x206aeff4084ae0f19da2016b;
  0x8ceb392330f0216bb0f365a3; 0x0a2b10f0246b7cf5749b80ab; 0xe1f71f6b8cebe0f17eca30f0; 0x216ab0f365a2006c014bb0f3;
  0x65c20018ccec106c0018ccec; 0x206c0018ccec306c0018ccec; 0x006c0018d3ec106c0018d3ec; 0x206c0018d3ec306c0018d3ec;
  0x10f0246a9cf5709a10f0246c; 0x9cf5949c409b8cea421000f2; 0x40a20a2a106c0018f2ec206c; 0x0018f2ec306c0018f2ec0f10;
  0x006c0018f2ec106c0018f2ec; 0x206c0018f2ec306c0018f2ec; 0x006c0018f9ec106c0018f9ec; 0x206c0018f9ec306c0018f9ec;
  0x006b30f0216ab0f365c230f0; 0x206a10f0246beff646aa7cf5; 0x749b10f0246c9cf5989c40cb; 0x10f0246b9cf5689b40cb10f0;
  0x246a9cf5709a409b8dea40db; 0x0597036300ef006515f0ff0f; 0x0000000015f00f0000000000; 0x05f0ff0f0000000005f00f00;
  0x0000000010f0ff0f00000000; 0x10f00f0000000000f50f0000; 0x00000000f00f000000000000; 0x0d0000000000000000f0ffff;
  0x0000000000f03f0000000000; 0x15f03f000000000015f0ffff].
Definition fw_rows_58 : list Z := [
  0x0000000000f0ffffff030000; 0x15f0ffff0f000000fa630bd1; 0x0ad010f0246a7cf5549ae1f7; 0x1f6b10f0306d40aa00f0004d;
  0x0f684ceb02d360a430f0206a; 0xc0f1084a08f37cca61a410f0; 0x306f42f0104f28f37aca62a4; 0x48f378ca63a4c1f7cea5016a;
  0x6cea7f6b5c32cceb4debc1f7; 0x6ec5c3a4106a4bead2366cea; 0xcdea4ce8c1f74ec5006e03d0; 0x6f10cde4a4a3029110f0246b;
  0x7cf5709b35e5a0cbbc35102a; 0x10f0246b5df06c9b6de560a3; 0x014d60c710f0246b5df06c9b; 0x08d275e5006b46100172f661;
  0x404df41740a5089110f03068; 0x1a650c6a58e97c6a00f00048; 0x12e904d158ee049212e929e2; 0x05e206d265e1586722f058c1;
  0x214520a15d6720c2224520a1; 0x21c2234520a122c224a5054d; 0x23c21f6938ee049112ea29e2; 0x65e2e0f31649283105e15d67;
  0x196522a203a240a220312031; 0x00f600302de83d6721a14de8; 0x586704d120312de800da014b; 0xff680ceb00a703ebbb610892;
  0xff6b014a6cea039362ea9561; 0x014e02767c4f0260006af717; 0x0b910a90066320e8fc630762; 0x06d105d060a430f02068c0f1;
  0x08480f6a4ceb08f352a02467; 0x0f6c70338cea6dea30f0206b; 0x08f352c0eef5509b096c40ea; 0x60a108f352a00f6c72337033;
  0x8cea6dea30f0206b08f352c0; 0xeef5509b096c40ea07970691; 0x0590046300ef006560a430f0; 0x206ac0f1084a08f37ac261a4;
  0x08f37bc262a428f378c263a4; 0x28f379c264a448f376c265a4; 0x48f377c220e80065fc630762; 0x06d105d045a4016904672cea;
  0x3a2210f0306a00f0004ac1f7; 0x69a22debc1f769c281a4e0f3; 0x086b803488347aec012be5e8; 0x12ebc1f76ac265a06633c1f7;
  0x6bc282a06fe4c1f76cc262a0; 0xc1f76dc2c1f76da264730660; 0x96730461036bc1f76dc20210; 0xc1f72dc230f0206b80a0c0f1;
  0x084b68f3b0a38634016a8434; 0xacea8dea68f350c33a1010f0; 0x306a00f0004ac1f789a2026b; 0x6beb8cebc1f769c230f0206a;
  0x4ef2509a30f0206c28f5184c; 0xb067046e40ea30f0206ac0f1; 0x084a68f391a2e0f3086b8034; 0x88347aec012be5e812eb68f3;
  0x71c268f372a2647306609673; 0x0461036b68f372c2021068f3; 0x32c230f0206ac0f1084a68f3; 0x72a208f373c210f0306b00f0;
  0x004ba4a0c1f7c8a3106a0f6c; 0x4bea8cedcceaadeac1f748c3; 0xa4a08ceab235b035adeac1f7; 0x48c3079706910590046300ef;
  0xfb63096208d107d040a41069; 0x04672be90f6c4cecff6d2cea; 0xff6bacea8cebf07204d32c61; 0x30f0206bc0f1084b08f3b0a3;
  0x026a4beaacea1f6dabed8434; 0xacea8dea08f350c330f0206a; 0xeef54c9a049440ea01720d61; 0x30f0206aeef5489a006ca467;
  0x40ea30f0206aeef5509a026c; 0x051030f0206aeef5509a046c; 0x40eac91004921e6c30f0206b; 0x98ea30f0206a4ef2509ac8f4;
  0x1e4ba140046e12ec91e340ea; 0x049285a010f0306be0f7084a; 0x00f0004b443269e20f6b6cec; 0x62a2ff6d2ceb8deb62c285a0;
  0x63a292342ceb8deb0f6c6cec; 0xacec63c2042c6ce9026b6de9; 0x23c204941e6b30f0206a78ec; 0xc0f1084ae0f3086cff6e12eb;
  0x4de308f3b8a3a035a8359aed; 0x012ce5e812ec08f398c360a0; 0x04947233ff4b8eeb7e2b68f3; 0x74a27f6fecebcceb062b08f3;
  0x6aa2016dacebcceb072330f0; 0x206aeef5509a056c40ea8310; 0x08f370a21f6c8bec6cec08f3; 0x90c220a0106b6beb3231f965;
  0x08f332a2196538672ceb3f67; 0x2deb08f372c204a0616b6beb; 0x8ceb10f0246cbcf4809c1a30; 0x14300deb026800c468f390a2;
  0xacecccec0a24eceb08f391a2; 0x08f370c2206b6beb8cebadeb; 0x0a10806c8bec6dec08f390c2; 0x08f391a2206b6beb8ceb08f3;
  0x71c230f0206ac0f1084a08f3; 0x90a2016b10f030688deb08f3; 0x70c2006b00f0004808f374c2; 0xc1f76fa0026a4bea6ceac1f7;
  0x4fc030f0206aeef5509a036c; 0x0f6940eac1f792a02cec0018; 0xccecc1f792a02cec00189aec; 0xc1f794a02cec00189aec30f0;
  0x206a2ef6809a001843ea30f0; 0x206a0ef69c9a001843ea30f0; 0x206a0ef6989a001843ea10f0; 0x306ce6f1114c001843ea0997;
  0x08910790056300effb630962; 0x08d107d010f0246aff68bcf4; 0x549a0cec04d440a230f02069; 0x906762676ef258990ceb05d3;
  0xb067176e40ea30f0206acef2; 0x409a40ea01724a6104931e69; 0x30f0206a38ebc0f1084a0f6d; 0x12e945e108f357a108f396a1;
  0x4ced523630f0206aaef2549a; 0x0ced0cee40ea08f379a1016c; 0x76328cea0cea232a076a6cea; 0x0cea022202721d6104931e6c;
  0x30f0206a98ebc0f1084ae0f7; 0x084b64330f6f006dff6e12ec; 0x51e410f0306a00f0004a49e3; 0x62a230f0206a2ef4509a08f3;
  0x9cac6cef40ea30f0206aeef5; 0x489a0495016c40ea016a0710; 0x6ef258990595006c4b6e40ea; 0x006a099708910790056300ef;
  0xfd63056230f0206cc0f1084c; 0x08f350a40f6b1e6d46326cea; 0xb8eae0f7084a4432ff6e12ed; 0x91e510f0306d00f0004db5e2;
  0xe2a530f0206a08f39cac2ef4; 0x509a6cef006d40ea05970363; 0x00ef0065fc63076206d105d0; 0x30f0206cc0f1084c08f3b0a4;
  0x016b0f6fa630acebece8ff6a; 0x60231e6938e8076d12eb8de3; 0x08f3d9a3cced08f3d4a44ced; 0x02760660036aceea4e220176;
  0x46604d10017504602e25045d; 0x48602b1008f3d2a4a1404ced].
Definition fw_rows_59 : list Z := [
  0xccefaeefebeeedeec0f7c336; 0xcced38ed12e985e108f398a1; 0x205c0a6108f39cab30f0206b; 0x2ef4789b4cec0ff4006d0e10;
  0x08f3b8a108f39cab30f0206b; 0xa0352ef4789ba8354cecfff7; 0x1f6a4ced40eb30f0206aeef5; 0x489a026cb06740ea30f0206a;
  0x0ef6489a40ea0f2a30f0206a; 0xeef5509a066c40ea081030f0; 0x206a0ef6509a40ea021008f3; 0x54c4079706910590046300ef;
  0xfc63076206d105d030f02068; 0xc0f1084808f370a0016a6cea; 0x392210f0306900f00049c1f7; 0x6ea1076c72328cea014a8cea;
  0x5034716a4bea6cea8deac1f7; 0x4ec130f0206a0ef6549a40ea; 0x08f350a00f6bff6c46326cea; 0x8ceac1f78ea1076d9234acec;
  0x68f3b2a082ed12611e6c98ea; 0xe0f7084a443225e243a14ceb; 0x30f0206aeef5549a12ec01e4; 0x08f398a073e440ea07970691;
  0x0590046300ef0065fc630762; 0x06d105d030f0206ac0f1084a; 0x08f390a20f6d86339e34aceb; 0x80f01d2408f393a2014c08f3;
  0x93c208f3b3a268f392a283ed; 0x80f011611e6c98eb016c12eb; 0x4de308f379a36e338ceb0723; 0x08f374a2036c8eeb022b08f3;
  0x74c210f0306a00f0004ac1f7; 0x89a2016b8ceb1923026b6beb; 0x8cebc1f78aa2c1f769c230f0; 0x206bc0f1084b68f391c3c1f7;
  0x8da268f392c3c1f78ba208f3; 0x98c3c1f74ca228f356c330f0; 0x206ac0f1084a08f3b0a21e6b; 0xaceb302308f372a20f6c8ceb;
  0xff4b8ceb64361f6b6bebaceb; 0xcdeb08f370c208f3b0a230f0; 0x206aeef5489aa6358cedff6b; 0x026c6ced40ea30f0206a0ef6;
  0x489a40ea062a30f0206aeef5; 0x509a066c40ea30f0206ac0f1; 0x084a08f390a21f6b6beb8ceb; 0x08f370c230f02069c0f10849;
  0x08f350a10f6b10f030684632; 0x6ceae0f7084a00f000484432; 0x09e243a268f391a14ceb30f0; 0x206aeef5549a73e440ea006a;
  0x08f353c1c1f76ea0716a4bea; 0x6ceac1f74ec0079706910590; 0x046300ef20e80065f9630d62; 0x0cd10bd030f0206a61a40467;
  0xaef2549a80a40f6d6ced7236; 0x40ea10f0306ac1f76ea2806a; 0x4bea6ceaff6b6cea006b08d3; 0x282a321008940c6a089658ec;
  0x30f0206c25f6084c12ea35e2; 0xe0f3164d69e2a83529e275e5; 0xa09d22f0f8a201498018ee26; 0xff6a4ce910f0306b00f0004b;
  0x42f050a343e9e0610892014a; 0x08d20893ff6a4ceb08d310f0; 0x306ac1f76ea208940f6a6cea; 0x42ec02600069e61762a0026a;
  0x6cea062280183913006ca467; 0x0018f2d57d67106a50c3076a; 0x4fcb40a09d6752c342a0016b; 0x46326cea73a46dea30f0206b;
  0xe8f275a364334deb30f0206a; 0xaef2589a73c4040440ea0d97; 0x0c910b90076300effd630562; 0x80183913006ca4670018f2d5;
  0x0597036300ef0065fc630762; 0x30f0206bc0f1084b68f390a3; 0x016aff6e8cea1d2208f3f1a3; 0x1f6ca7678ced4567ccea1522;
  0x206a1f4d4bea8cedeceaadea; 0x08f351c38ceaccea0a2a30f0; 0x206b2ef6809b006d146e016f; 0x04d2001856ea0797046300ef;
  0xfd63056210f0306b00f0004b; 0xc1f7cfa3016fff6aecee4cee; 0x4cec142ec1f772a30f6d6ced; 0x8eed0e2d30f0206bc8f478a3;
  0xeceb4ceb072330f0206a0ef6; 0x5c9a40ea80188c0b05970363; 0x00ef0065fa630b620ad109d0; 0x30f0206acef2409a40ea006b;
  0x40f1142230f0206ac0f1084a; 0x08f3b0a20f6cff6fa6338ceb; 0xc367ecee07d6014b1f6e8ceb; 0xcbee6433cced6ded08f3b0c2;
  0x08f3b0a208f372a2a6300eeb; 0x8cebeceb042b6667aceb08f3; 0x70c230f0206ac0f1084a08f3; 0x10a20f6b06306ce81e6b78e8;
  0x12ec51e408f396a40f5c0860; 0x079478ec12eb49e308f356a2; 0x0f5a14611e6b78e830f0206a; 0xc0f1084a12ec51e408f396a4;
  0x245c1261079478ec12eb49e3; 0x08f356a2245a0a6110f0306a; 0x00f0004ac1f791a2026b6beb; 0x8ceb081010f0306a00f0004a;
  0xc1f791a2016b8deb1e6c98e8; 0xc1f771c230f0206ac0f1084a; 0x0f6d12ec51e408f377a430f0; 0x206a08f396a4aef2549a6ced;
  0x723640ea10f0306a00f0004a; 0xc1f791a2026b6beb8cebc1f7; 0x71c2c1f76ea2806a4bea6cea; 0xff6b6cea006b06d3302a3a10;
  0x1f6db8e806960c6a12ed58ee; 0x12ea55e535e589e2e0f3164d; 0x69e2a83529e275e5a09d22f0; 0xf8a230f0206c25f6084c8018;
  0xee260149ff6a4ce97c6c98e8; 0x10f0306b00f0004b12ec69e4; 0x42f050a243e9d8610692014a; 0x06d20693ff6a4ceb06d310f0;
  0x306ac1f76ea206940f6a6cea; 0x42ec02600069e21730f0206a; 0x0ef6449a90671e6940ea0793; 0x30f0206ac0f1084a38eb026b;
  0x6beb12ec51e408f3bea438e8; 0xaceb08f37ec4ff6b12e945e1; 0x08f3b9a1016ab6344cec572c; 0x10f0306c00f0004cc1f7cfa4;
  0x4cee6cee2c26076aacea6cea; 0x102ae0f74840443291e242a4; 0x0f6f08f39ca94cef30f0206a; 0x2ef4509a006dc3673810026b;
  0x6eea372a30f0206beff4084b; 0xa0f6c49ba0f6609b10f0306c; 0xe5f1114c7be6c236006dce36; 0x016f04d2001856ea2210076a;
  0xacea6cea022202721c611e6c; 0x98e830f0206ac0f1084ae0f7; 0x68406433006dff6e0f6f12ec; 0x51e410f0306a00f0004a49e3;
  0x62a230f0206a2ef4509a08f3; 0x9cac6cef40ea30f0206aeef5; 0x489a016cb06740ea30f0206a; 0x006bc0f1084a08f374c230f0;
  0x206aeef5509a006c40ea016b; 0x0b970a9109904367066300ef].
Definition fw_rows_60 : list Z := [
  0xfb630962076a7d6758c330f0; 0x206aeef5509afff71f6e8cee; 0x006b82670605016f04d30018; 0x56ea0997056300effc630762;
  0x30f0206aff6e8cee0ef6989a; 0x006aa267016f04d2001856ea; 0x0797046300ef0065fc630762; 0x06d105d030f0206ac0f1084a;
  0x08f330a208f394a20f6b2631; 0x03746ce94a601e6818e9e0f7; 0x88418434ff6e016d12e841e0; 0x10f0306a00f0004a49e4e2a2;
  0x30f0206a08f39ca86cef2ef4; 0x709accef40eb0172066108f3; 0x7ea0016a6dea08f35ec010f0; 0x306be0f7084900f0004b2431;
  0x65e182a1076d9232acea014a; 0xacea5035716a4bea8ceaadea; 0x42c1c1f76fa3016a6cea0c2a; 0x30f0206ac8f45ca2072a63a1;
  0x0f6aff6c6cea4cec8018730c; 0x016b30f0206ac8f47cc20797; 0x06910590046300effb630962; 0x08d107d030f0206ac0f1084a;
  0x08f3b0a20f6ba6356ced1e6b; 0x78ed12eb49e308f319a2016a; 0x12304ce81f2810f0306ae0f7; 0x284500f0004a243145e142a1;
  0x076b52326cea025211608018; 0x7c0cc3a130f0206a0ef6949a; 0x0f6a4ceeff6a006d4cee016f; 0x04d0001856ea24101e6b78ed;
  0x30f0206ac0f1084a016c12eb; 0x4de308f379a36e338ceb132b; 0x30f0206aeef5489a026c40ea; 0x30f0206a0ef6489a40ea0a2a;
  0x30f0206aeef5509a066c40ea; 0x0310036b08f374c209970891; 0x0790056300ef0065fc630762; 0x446730f0206cc0f1084c08f3;
  0x70a40f6d6633aceb1e6db8eb; 0x12ed91e508f3b9a4076cacec; 0x017431600524027403600374; 0x2c6040101e6db8eb30f0206c;
  0xc0f1084c016e12ed95e508f3; 0xb9a5b635cced192d10f0306c; 0xe0f7084b00f0004c64338de3; 0xc2a3716c8becccec82c3fff7;
  0x1f6e10f0306ce6f1114c4cee; 0x016f04d5001856ea1910026d; 0x08f3b4c40510026d30f0206c; 0xc8f4bcc410f0306ce0f7084b;
  0x643300f0004c91e363a40f6c; 0x6cec91e2ff6b6cec8018730c; 0x0797046300ef0065fb630962; 0x08d107d010f0246abcf4549a;
  0x30f0206cff6b40a210f03068; 0x00f000484ceb6ef2589c506e; 0x05d3006cff6d40eac1f748a0; 0xff6b006d5232e0f7084a4432;
  0x09e282a20f6a30f020694cec; 0x6cec001877c8c1f748a00f6c; 0xff6b8ceae0f7084a443209e2; 0x82a20f6a016d4cec6cec0018;
  0xa0c804d2c1f748a00f6cff6b; 0x8ceae0f7084a443209e282a2; 0x0f6ac0f108494cec6cec006d; 0x0018a0c868f370a1049410f0;
  0x246e6633603368336de243eb; 0x586751e404d410f0246a5cf4; 0xb09ac1f748a07df2c49e809d; 0x5232e0f7084a443201e242a0;
  0x00f74032ccea10f0246e7cf4; 0xc89eccec8dea40dd10f0246a; 0x04949df0489a016d80da10f0; 0x246a7cf4509a60da82a00f6a;
  0xff6b4cec6cec001877c830f0; 0x206c6ef2589c0595506e006c; 0x40ea30f0206aeef5509a086c; 0x40ea08f371a1206a4bea6cea;
  0x146b6dea08f370a108f351c1; 0x806a4bea6dea08f350c10997; 0x08910790056300eff9630d62; 0x0cd10bd0ff6a04674ce86c40;
  0x4ceb035b016c03610eec015c; 0x986730f0206ac8f478a2606a; 0x6cea4072096020720161062c; 0x037004600270026009704361;
  0x0970066130f0206ac8f43aa2; 0x3231061010f0306ac1f752a2; 0x0f694ce99167006d0018a0c8; 0x9167016d08d20018a0c89d67;
  0x176b70c40a6b6fcc12c430f0; 0x206bc8f478a30f6c66338ceb; 0x9d6773c46744194b60a374c4; 0x089482339d6775c4623376c4;
  0x089400f682339d6777c458c4; 0x423300f642325bc430f0206a; 0xaef2589a79c462337ac40404; 0x40ea0d970c910b90076300ef;
  0xfc63076206d105d030f02069; 0xc0f1084908f3b0a1016bff6a; 0xa6300f6e6cedcce84ced4cec; 0x4ce82c2508f3b4a101752861;
  0x10f0306de0f7e840e43700f0; 0x004db5e7a2a5acee8eee1c2e; 0x1e6db8e812ed35e508f3dea5; 0xcceb4ceb1323fff61f4accea;
  0x08f35ec5016d001840e20a22; 0x30f0206aeef5489a026cb067; 0x40ea026a08f354c107970691; 0x0590046300ef006510f0246b;
  0x7df2689bff6a8cea609b80f1; 0x016c8bec8ceb10f0246cfcf5; 0x889c0172809c056002720561; 0xff6a014a0110806a4deb10f0;
  0x246a7df2489a60da10f0246a; 0x7df24c9a10f0246bfcf5689b; 0x8cea40db10f0246b7df2709b; 0x506a40c310f0246b7df2749b;
  0x40c320e830f0206aeff4084a; 0xe0f070a2014be0f070c220e8; 0xfd63056230f0206a69f274a2; 0x046a6cea052230f0206a8ef3;
  0x509a40ea0597036300ef0065; 0xfd63056230f0206a89f26ca2; 0x806a4bea6ceaff6b6cea052a; 0x30f0206a8ef3509a40ea30f0;
  0x206ac0f1084ac9f085a2216b; 0x6beb8cebc9f065c205970363; 0x00ef006510f0246a9df2409a; 0x10f0246c9df2889c60aaeff7;
  0x1f6a6cea30f0206bcff55ccb; 0x10f0246a9df2649a409b8dea; 0x40db20e8fc63076230f0206a; 0xeff4084ae0f08ea2036b8ceb;
  0x0d2be0f06da2014be0f06dc2; 0xe0f06da2e0f04ea24a3242eb; 0x4160b310e0f06da2e0f04ea2; 0x4a3242eb0b60006a10f0236c;
  0x2bf70d4ca267c267016f04d2; 0x001856ea30f0206aeff4084a; 0xe0f06da22223e0f06ea2036a; 0x6cea036b6eea082a10f0236c;
  0x04d20bf70d4c006d346e0810; 0x006a10f0236c04d20bf70d4c; 0xa267666e016f001856ea30f0; 0x206aeff4084ae0f06da2ff4b;
  0x0310e0f06ea26a33e0f06dc2; 0x30f0206ac0f1084aa9f0a8a2].
Definition fw_rows_61 : list Z := [
  0x016bff6caceb4523c9f0c4a2; 0x006bc9f069c2106bcceb8ceb; 0x602b806febefcdef046eacee; 0x8ceec9f0e4c21f2630f0206c;
  0xeff4084cc9f0b9a2e0f0c0a4; 0xc3ed0a61c0f0bc9c10f0246c; 0x9df2989ca0dcc9f079c21910; 0x7c4c10f0246b979c9df2789b;
  0x014d80dbc9f0b9c20e10c9f0; 0x6ba20b2330f0206bcff5809b; 0x10f0246b9df2789b80dbc9f0; 0xcbc230f0206a8ef3509a40ea;
  0x241010f0246a9df2409aeff7; 0x1f6ba0aa30f0206aeff4084a; 0xacebe0f074cae0f054aa106b; 0x6cea092210f0246afcf7689a;
  0x036d40a38ceaadea061010f0; 0x246afcf7689afc6a80a38cea; 0x40c30797046300effc630762; 0x30f0206aff6e8ceeaef3849a;
  0x006aa267016f04d2001856ea; 0x0797046300ef0065fd630562; 0xff6a8cea055a006b246010f0; 0x246b4832dcf31c4b4de3409b;
  0x00ea10f0246afcf4489a1310; 0x10f0246afcf44c9a0e1010f0; 0x246afcf4509a091010f0246a; 0xfcf4549a041010f0246afcf4;
  0x589a40aafff71f6b4ceb08f0; 0x006a6cea022200183cef0597; 0x036300effc63076206d105d0; 0x30f0206bc0f1084bc9f085a3;
  0x036dff698632acea0272016a; 0x2f61c9f047a3035a0660c9f0; 0xc4a3046dcced2ced0a25076a; 0x4bea8ceac9f045c3056ac9f0;
  0x49c3016a1b10014ac9f047c3; 0x30f0206a6ef3509a30f02068; 0xeff40848036c40eae0f041a0; 0x076d016c4ced2ced00185cef;
  0xe0f043a0014ae0f043c0006a; 0x079706910590046300ef0065; 0xfd63056204d030f0206dc0f1; 0x084da9f0c8a5016bff6acceb;
  0x4ceb4cec2b23c9f049a5282a; 0x0174076130f0216ad0f473a2; 0x014bd0f473c230f0216ad0f4; 0x73a2145b0561006bd0f473c2;
  0x001863d630f02068c0f10848; 0x30f0206a6ef3509aa9f089a0; 0x40eac9f065a0016ac9f049c0; 0x016a6deac9f045c005970490;
  0x036300effb63096208d107d0; 0x30f0206ac0f1084aa9f008a2; 0x016bff6c0ceb7c23c9f0a4a2; 0x106baceb8ceb052330f0206a;
  0xaef34c9a7010a9f06ca2406a; 0x6cea8cea062230f0206a8ef3; 0x409a40ea652230f0206ac0f1; 0x084ac9f069a2065b5d60c9f0;
  0x6982016a44eb6267246a6cea; 0x0c2a126a6cea042a096a6cea; 0x322a4e1030f0206a8ef3549a; 0x4810306a0cea20720b6030f0;
  0x2068eff40848e0f02fa0016b; 0xff6a6ce94ce9052130f0206a; 0x8ef3589a341010f0246abcf4; 0xb89a016c00186be1e0f04fa0;
  0x016b10f0306c6ceae0f04fc0; 0x27f41d4c006d056ee36704d1; 0x001856ea1d1030f0206acff5; 0x57a2016b6cea062a10f0306c;
  0x27f41d4c001843ea30f0206a; 0xc0f1084ac9f084a2806b6beb; 0x8debc9f064c230f0206a8ef3; 0x509a40ea0997089107900563;
  0x00ef0065fc63076230f0206a; 0xeff4084ae0f06fa2024be0f0; 0x6fc2e0f070a21923e0f06fa2; 0x663305531460006be0f070c2;
  0xe0f072a210f0306c27f41d4c; 0x014be0f072c2006aa267056e; 0x016f04d2001856ea151010f0; 0x246abcf4b89a016c00189ce1;
  0x30f0206aeff4084ae0f073a2; 0x014be0f073c230f0206a8ef3; 0x589a40ea0797046300ef0065; 0xfb63096208d030f0206aeff4;
  0x084ae0f071a2016c014be0f0; 0x71c230f0206a6ef35c9a40ea; 0x30f0206a6ef34c9a016c40ea; 0x30f0206a6ef3589a016c40ea;
  0x30f0206a69f273a2806a4bea; 0x6ceaff6b6cea062230f0206a; 0x6ef3549a006c40ea30f0206a; 0x69f274a2026a6cea112210f0;
  0x246afcf7489a02f0016c8bec; 0x609a8ceb60da10f0246c609a; 0x9df29c9c8ceb60da30f0206a; 0xc0f1084a006bc9f069c2a9f0;
  0x6aa2046c8ceb1b23a9f06ca2; 0x6cec1724c9f085a2206b016f; 0x8debc9f065c230f0206acff5; 0xd3a2006a04d2c63610f0306c;
  0xa267ff6a66f71d4c4cee0018; 0x56ea30f02068eff40848e0f0; 0x41a0076c006d4cec0018a0c8; 0xe0f044d8e0f04fa07d67426c;
  0x463258c330f0206acef3449a; 0x016d060640ea099708900563; 0x00ef0065fd63056204d030f0; 0x2068c0f10848c9f065a0016a;
  0x82676cec5b2c6deac9f045c0; 0x30f0206a6ef34c9a40ea30f0; 0x206a6ef3589a006c40ea30f0; 0x206a6ef35c9a006c40eaa9f0;
  0x6ba0806a4bea6ceaff6b6cea; 0x062230f0206a6ef3549a016c; 0x40ea30f0206a69f274a2026a; 0x6cea102210f0246afcf7489a;
  0x02f0006c609a8deb60da10f0; 0x246c609a7cf4949c8deb60da; 0x30f02068eff40848e0f041a0; 0x076c006d4cec0018a0c830f0;
  0x206b69f294a3046b8ceb1023; 0xe0f0649843eb0c60e0f08ca0; 0x6fe28034883463ec0560e0f0; 0x48a0014ae0f048c005970490;
  0x036300efff6a4cec036b8ceb; 0x4cee3c2b10f0246bddf2789b; 0x80c30f6bcceb3423016c6cec; 0x062410f0246cddf29c9cacea;
  0x40c4026a6cea0822ff6ca232; 0x8cea10f0246cfdf2809c40c4; 0x046a6cea0922a232ff6c4232; 0x8cea10f0246cfdf2849c40c4;
  0x6e32072210f0246afdf2489a; 0x00f6a235a0c2206a6dea10f0; 0x246bfdf26c9b40c3006a40c3; 0x016a20e8006a20e8ff6a8cea;
  0x036b4ceb0323016a4bea20e8; 0x10f0246cddf2989c40c410f0; 0x246afdf28c9a306a40c410f0; 0x246addf25c9a409a60c420e8;
  0xfd63056210f0246afdf2b09a; 0xe0f3106c0f6e8018ab0fe0f3; 0x0c6c8018cd0fff6b4ceb0b73; 0x0b6110f0246afdf2749a10f0;
  0x246cfdf2989c409b8cea40db; 0x0597036300ef006530f0206a].
Definition fw_rows_62 : list Z := [
  0xc0f1084a056b65f464da006b; 0x65f460da20e80065e5633562; 0x34d133d010f0246d0704dcf0; 0x184d546e0018e5d410f0246d;
  0x1c049cf0044d546e0018e5d4; 0x10f0246a7cf0789a7cf0184a; 0x006904d3619a44aa05d37d67; 0x4ccb526818e930f0206a60f2;
  0x084a616febef006c014912e8; 0x01e23f6a20f065a0fa6540c0; 0x096a44c00d6a4bea20f0a6a0; 0x6cea046b6beb6cea046badeb;
  0x316dabedacea406dadea804d; 0x20f0c7a0c04dadea20f0b5a0; 0x20f045c0036a1e654bead867; 0xacea416dabedccef20f0e7c0;
  0xaceb20f0e0a020f066c0086b; 0x6bebeceb20f060c0016b6beb; 0x68c0216bacea6beb6cea20f0; 0x55c040f061a05f6747c0406a;
  0x4bea6cea006facea81c083c0; 0x20f094c020f081c0f6c8e9c0; 0x40f082c040f041c030f0206e; 0x4ef24c9e87403e4cff6d026e;
  0x40ea30f0206f4ef24c9f8740; 0xff68404c006d026e0ce940ea; 0x80718d6130f0206a006bc0f1; 0x084ae5f276c230f0206a4ef5;
  0x489a40ea30f0206a4ef5549a; 0x40ea10f0246a3cf74c9a326b; 0x30f0206c60c210f0246a3cf7; 0x509a10f0246b3cf7749b40a2;
  0x05f4104c1c050ceaff4a0cea; 0x40c330f020684ef25098546e; 0x40ea4ef2509830f0206c65f4; 0x044c0705546e40ea4ef25098;
  0x30f0206c05f61a4c04050a6e; 0x40ea30f0206a30f0206bc5f4; 0x0a4a65f5124b0a6c80ca006c; 0xa0f088ca024a6aeaf8613597;
  0x349133901b6300effd630562; 0x30f0206aaef2589a06d409d7; 0x07d508d6060440ea05970363; 0x00ef0065fb63096208d107d0;
  0x4667014a05670cd627671f22; 0x1ff7006aacea02f000720160; 0x052a10f0246a5cf4489a0410; 0x10f0246a5cf44c9a49e0409a;
  0x0c9404d230f0206aaef4509a; 0x40ea0c9324ea6fea04936cea; 0x4de91ff7006a0cea02f00072; 0x0160052a10f0246a5cf4489a;
  0x041010f0246a5cf44c9a41e0; 0x20d8099708910790056300ef; 0xfc63076206d105d01ff7006a; 0xacea02f0007226670160052a;
  0x10f0246a5cf4489a041010f0; 0x246a5cf44c9a55e530f0206a; 0x009daef4509a91672ce840ea; 0x06ea50670797069105900463;
  0x00ef0065fd63056204d030f0; 0x2068eef35498006ca467e467; 0x016e40eaeef35498016de567; 0x006cc56740ea059704900363;
  0x00ef0065fc63076206d105d0; 0x10f0246b30f020681cf6044b; 0xcef45098c09b03f30069016d; 0x9167abed40ea10f0246bcef4;
  0x50981cf6c89b016d9167abed; 0x40ea10f0246bcef450981cf6; 0xcc9b016d9167abed40ea10f0; 0x246b1cf6044bcef45098c09b;
  0x016d9167abed40ea07970691; 0x0590046300ef0065fc630762; 0x06d105d0006a0bd7e0ae1ff7; 0x006beceb02f000730160092b;
  0x10f0246be0ae5cf4689b6de7; 0xe0a4e0c3071010f0246b5cf4; 0x6c9b7de760a460c7014aff6b; 0x6cea0472024e014ce1612567;
  0x00680b92c099016d0de230f0; 0x206acef4509a80ababed0248; 0x40ea16700449f16107970691; 0x0590046300ef0065fc630762;
  0x06d105d010f0246abcf4549a; 0x7f6bff6c60c210f0246a5cf4; 0x549a146b016d60c210f0246a; 0x5cf4589a106b30f0206860c2;
  0x10f0246a1cf6789a016e81f4; 0x146940a38ceaadea8cea40c3; 0xcef4509801f00d4ceff71f4d; 0x40eacef45098016d9167c567;
  0x40eacef45098916701f4006d; 0x016e40eacef45098016d01f4; 0x006cabed046e40eacef45098; 0xff6d01f3006c014d006e40ea;
  0x10f0246b7cf4b49bcef45098; 0x01f0086c006e40eacef45098; 0x21f0186c0e6d076e40ea0797; 0x06910590046300effc630762;
  0x06d105d0ff6a8cea1e2230f0; 0x206810f0246b1cf6dc9bcef4; 0x509801692be9a1f4106cb167; 0x40eacef45098a1f4146cb167;
  0x6ef7176e40eacef45098a1f4; 0x1c6cb16721f01b6e1d1030f0; 0x206810f0246b3cf6c09bcef4; 0x509801692be9a1f4106cb167;
  0x40eacef45098a1f4146cb167; 0x62f1176e40eacef45098a1f4; 0x1c6cb16700f4046e40ea0797; 0x06910590046300effc630762;
  0x06d105d0006b0bd7e0ae1ff7; 0x006aecea02f000720160082a; 0x10f0246ae0ae5cf4489a49e7; 0xe0a2061010f0246a5cf44c9a;
  0x5de7e0a7ff6aecea7de4014b; 0x047340c7024ee26125670068; 0x0b93016dabed09e380aa0248; 0x00189ce7167040d90449f461;
  0x079706910590046300ef0065; 0xfb63096208d107d010f0246b; 0xff691cf6649b30f020682cec; 0xcef45098ace92436016d04d4;
  0xabed03f3006c6dee40ea0492; 0x082acef4509803f30c6c06f0; 0x006d036e0710cef4509803f3; 0x0c6c06f0006d016e40ea10f0;
  0x246b30f0206acef4509a1cf6; 0xb09bc3f3146c106e40ea0494; 0x243130f0206a25e43033c0f1; 0x084a30316de229e2e7f70c4a;
  0x04d210f0246a3cf6249ae7f6; 0x0c4b05d330f02068cef45098; 0x016dd167c3f3186cabed40ea; 0x016de3f31c6cabed00189ce7;
  0x10f0246b3cf6689b05940449; 0x4ceb6233623360cce1f71f6b; 0x4ceb0492024c05d460ca024a; 0x04d210f0246a3cf64c9a2eea;
  0xd72acef45098016dc3f3186c; 0xabed006e40eacef4509803f3; 0x0c6c06f0006d006e40ea0997; 0x08910790056300eff9630d62;
  0x0cd10bd030f02068c0f10848; 0x28f14ca0692a10f0246c3df3; 0x0c4c80185419016aa7f646c0; 0x30f0216a50f3124a30f0206f;
  0x30f0206e30f0206ca8f00c4f; 0xa8f2144ea442c8f0044c006b].
Definition fw_rows_63 : list Z := [
  0x1a65006a186740df40c840de; 0xd0f7054330f0206a0c30c0f1; 0x084a09e20a4a05d2586704d4; 0x0069fa650590016a09d340c0;
  0x6c3001e11865103230f02068; 0xc0f1084849e0e7f60c4a08d2; 0x5867503241e00892e7f70c48; 0x06d00693006800ca00cb024b;
  0x06d30493024a6aeaf6610592; 0x01490271014a05d204920993; 0x104a04d2d56100c501c502c5; 0x014b1f67026a02487f4c6eea;
  0x044f104e1865034d014cb32a; 0x10f0246b30f0206acef4509a; 0x3cf6d09b016d03f3106cabed; 0x40ea0d970c910b90076300ef;
  0xfc63076206d105d030f0216a; 0x70f344a2ff698ce9532210f0; 0x246b30f020681cf6649bcef4; 0x50982436016d6dee03f3006c;
  0xabed40ea10f0246b3cf6b49b; 0xcef4509823f3086c806e40ea; 0xcef45098016dc3f30c6cabed; 0x096e40ea10f0246bcef45098;
  0x3cf6d89b016d23f3006cabed; 0x40ea10f0246b3cf6dc9bcef4; 0x5098016d23f3046cabed40ea; 0x10f0246a5cf6009a10f0246a;
  0x5cf6e49a006c786dd0670018; 0xfae7006c5c6dd06720f3006f; 0x0018fae710f0246a006c8f6d; 0xd0675cf6e89a791010f0246b;
  0x1cf6649b30f02068cef45098; 0x2436016d03f3006cabed6dee; 0x40ea30f0206a48f054a20322; 0x017228606410cef45098c3f3;
  0x0c6cff6d126e40ea10f0246b; 0x3cf6b49bcef4509823f3086c; 0x006e40ea10f0246b3cf6d89b; 0xcef45098016d23f3006cabed;
  0x40ea016d10f0246bcef45098; 0x23f3046cabed5cf6cc9b2610; 0xcef45098c3f30c6cff6d096e; 0x40ea10f0246b3cf6b49bcef4;
  0x509823f3086c006e40ea10f0; 0x246b5cf6d89bcef45098016d; 0x23f3006cabed40ea10f0246b; 0xcef450985cf6dc9b016d23f3;
  0x046cabed40ea10f0246a5cf6; 0x009a10f0246a5cf6f09a9167; 0x566dd0670018fae710f0246a; 0x5cf6f49a91678f6dd0670018;
  0xfae7079706910590046300ef; 0xfc63076206d105d030f0216a; 0x70f344a2ff6e8cee482210f0; 0x246b30f020681cf6649bcef4;
  0x509801692be9c4366deeb167; 0x03f3006c40eacef45098b167; 0xc3f30c6c1b6e40ea10f0246b; 0x7cf6c09bcef45098b16723f3;
  0x006c40ea10f0246a5cf6209a; 0x10f0246a7cf6e49a006c786d; 0xd1670018fae7006c5c6dd167; 0x28f3006f0018fae710f0246a;
  0x7cf6e89a006c8f6dd1670018; 0xfae710f0246bcef4509823f3; 0x086c3cf6b49b806e5d1010f0; 0x246b1cf6649b30f02068cef4;
  0x509801692be9c4366dee03f3; 0x006cb16740eacef45098c3f3; 0x0c6cb167096e40ea10f0246b; 0xcef450987cf6cc9b23f3006c;
  0xb16740ea30f0206a48f054a2; 0x032201721660351010f0246a; 0x5cf6209a10f0246a7cf6f09a; 0x006c566dd1670018fae710f0;
  0x246a006c8f6dd1677cf6f49a; 0x141010f0246a5cf6209a10f0; 0x246a7cf6f89a006c566dd167; 0x0018fae710f0246a7cf6fc9a;
  0x006c8f6dd1670018fae710f0; 0x246bcef450983cf6b49b23f3; 0x086c006e40ea079706910590; 0x046300effb63096208d0006a;
  0x7d674ccb10f0246a5cf6c09a; 0x10f0246abcf4f89a006ca467; 0x0018fae730f0206810f0246b; 0x9cf6a09bcef45098e1f0186c;
  0x006e40eacef45098016de1f0; 0x1c6cabed006e40eacef45098; 0x076dc56783f10c6c40ea0602; 0x04d230f0206aaef4549aa1f3;
  0x186fa1f7006c086d006e40ea; 0xcef4509801f0086cff6d006e; 0x40ea10f0246bcef450989cf6; 0xa49b01f2046c006e40ea10f0;
  0x246a9cf6689aff6a80a38cea; 0xfe6c4cec80c340c310f0246a; 0x9cf64c9a60a2016a6cea0922; 0x10f0246a9cf6749a10f0246a;
  0x9cf6509a60da099708900563; 0x00ef0065fc63076206d105d0; 0xff6a8cea372230f0206810f0; 0x246bcef450989cf6d89b0169;
  0x2be9b16761f4006c40ea10f0; 0x246bcef450989cf6dc9bb167; 0x61f4006c40ea10f0246bcef4; 0x5098bcf6c09bb16741f4186c;
  0x40ea10f0246bbcf6c49bcef4; 0x5098b16741f41c6c40eacef4; 0x509861f40c6cb16701f2156e; 0x40ea8018a812341030f02068;
  0x10f0246b9cf6d89bcef45098; 0x01692be961f4006cb16740ea; 0x10f0246bbcf6c89bcef45098; 0x61f4006cb16740ea10f0246b;
  0xbcf6cc9bcef4509841f4186c; 0xb16740ea10f0246bcef45098; 0xbcf6d09b41f41c6cb16740ea; 0xcef4509861f40c6cb16722f2;
  0x0a6e40ea10f0246b30f0206a; 0xcef4509adcf5a49ba1f1046c; 0x006e40ea0797069105900463; 0x00ef0065fc63076206d105d0;
  0xff688ce8006910f0246a5cf6; 0x004ac09a9067ef6d006f0018; 0xfae710f0246b5cf6004bc09b; 0x9067086d006f0018fae710f0;
  0x246a5cf6004ac09a9067086d; 0x0018e7e707220149fff71f6a; 0x4ce92ef51071db6107970691; 0x0590046300ef0065fd630562;
  0x10f0246a5cf6c09a006c186d; 0x0018e7e730f0206b01f4006c; 0xc0f1084b4cec87f650db8232; 0x4a3202720a60036c4eec0424;
  0x0172026a0560061087f68dc3; 0x0310016a87f64dc330f0206a; 0xc0f1084a10f0246bbcf4789b; 0x87f6909a8ceb6233623387f6;
  0x6cc20597036300effd630562; 0x04d0ff6a4cec056701744ce8; 0x5d600324045c71606b1030f0; 0x206ac0f1084ae7f6649a30f0;
  0x206cc8f0044ce7f668da30f0; 0x206aeff4084a60f66aaa006d; 0x60f66cca60f678a260f679c2; 0x30f0206b68f01a4b40a3b036;
  0x48c330f0206ac0f1084ac9e2; 0xe7f60c4ac0aa80f0c0ca00f1].
Definition fw_rows_64 : list Z := [
  0xc0aa80f1c0ca024a8aeaf661; 0x014d0275014b104ce76130f0; 0x206aeff4084a786760f678c2; 0x786760f66aca30f0206b006c;
  0xc0f1084b60f694c260f695c2; 0x60f68ec260f68fc260f690c2; 0x87f6509b016da7f6b2c3a7f6; 0xb3c3e7f644db171010f0246a;
  0x5cf6c09a006c586d0018e7e7; 0x22f01a4830f0206bc0f1084b; 0x08300de341db0510fe4c4cec; 0xb06780185711059704900363;
  0x00ef0065fd63056230f0206a; 0xe8f256a20c2a016c006d8018; 0x5413026c006d80185413036c; 0x006d801854130597036300ef;
  0xfc63076206d105d0006809d5; 0x24670993006c09e3a0a210f0; 0x246a5cf6c09a01480018e7e7; 0x057040d90449f16107970691;
  0x0590046300ef0065fb630962; 0x08d107d010f0246a0cd6ff68; 0x5cf6c09afff71f690c978ce8; 0xace99067b1670018fae7006a;
  0x04d210f0246b5cf6004bc09b; 0x9067b1670018e7e70c936eea; 0x162230f0206acef45c9a0a6c; 0x40ea10f0246a5cf6004ac09a;
  0x0c979067b1670018fae70493; 0x014be0f3087304d3de610997; 0x08910790056300effb630962; 0x08d107d030f02068ff6a2467;
  0xeff408484ced4ce960f65ca0; 0x04d560220625126a60f641c0; 0x026a60f644d810f0246b30f0; 0x20681cf6649bcef450982436;
  0x016d6dee03f3006cabed40ea; 0x10f0246b3cf6b49bcef45098; 0x23f3086c806e40ea30f0216b; 0x50f3c9a3cef45098c3f30c6c;
  0xff6d40ea10f0246bbcf6d49b; 0xcef45098016d03f3186cabed; 0x40ea10f0246b3cf6d89bcef4; 0x5098016d23f3006cabed40ea;
  0x10f0246b5cf6dc9bcef45098; 0x016d23f3046cabed40ea10f0; 0x246a5cf6c49a9167786d8018; 0xae1391675c6d20f3006e8018;
  0xae1310f0246a91678f6d5cf6; 0xc89ab21010f0246b1cf6649b; 0x30f0206acef4509a2436016d; 0x03f3006cabed6dee40ea30f0;
  0x206a48f054a2032201724b60; 0x9d1004920622126a60f641c0; 0x026a60f644d830f0206b30f0; 0x2068eff4084b60f6c1a3cef4;
  0x509804d3c3f30c6cff6d40ea; 0x10f0246b3cf6b49bcef45098; 0x23f3086c006e40ea10f0246b; 0x3cf6d89bcef45098016d23f3;
  0x006cabed40ea049410f0246a; 0xdbf7004a60f6649c016d23f3; 0x046c49e3c0a210f0246bbcf6; 0x789bcef45098c036c836abed;
  0x6dee40ea10f0246a9167566d; 0x5cf6d09a4910049206221b6a; 0x60f641c0026a60f644d830f0; 0x206b30f02068eff4084b60f6;
  0xc1a3cef4509804d3c3f30c6c; 0xff6d40ea10f0246b3cf6b49b; 0xcef4509823f3086c006e40ea; 0x10f0246b5cf6d89bcef45098;
  0x016d23f3006cabed40ea0494; 0x10f0246adbf7084a60f6649c; 0x016d23f3046c49e3c0a210f0; 0x246bbcf6789bcef45098c036;
  0xc836abed6dee40ea10f0246a; 0xbcf6dc9a9167566d8018ae13; 0x10f0246a5cf6d49a91678f6d; 0x8018ae130997089107900563;
  0x00ef0065fc63076206d105d0; 0x10f0246a5cf6209a08d4006c; 0x0567d167e467ef6d0018fae7; 0x006ce467d167ee6d0018fae7;
  0xc098116a4bea4cee006cdf6d; 0x8018ae13c198116a4bea4cee; 0x006cde6d8018ae130892e298; 0xd167a2a2006c0018fae70892;
  0xe398d167a3a2006c0018fae7; 0x4498026febefd1674cef006c; 0x016d0018fae7079706910590; 0x046300effc63076206d105d0;
  0x10f0246b30f020681cf6c49b; 0xcef4509801692be903f3006c; 0xb16740eacef45098a3f3186c; 0xb167006e40ea10f0246a5cf6;
  0x009a006cdf6dd0670018e7e7; 0x01f0136b6beb4ceb01f0026e; 0x006cdf6d6dee8018ae1330f0; 0x216a70f344a21022006cde6d;
  0xd0670018e7e710f0116b6beb; 0x4ceb10f0006e006cde6d6dee; 0x8018ae1330f0216a70f344a2; 0x5c2a10f0246adcf4049a006c;
  0xef6dd0678018ae13006c336d; 0x246e8018ae13006c3e6d3f6e; 0x8018ae1310f0246adcf6c09a; 0x006c3f6d8018ae13006cef6d;
  0xc4678018ae1330f0206a48f0; 0x54a201721761016f006cef6d; 0xd0670018fae7006c336d266e; 0x8018ae13006c3e6d376e8018;
  0xae1310f0246a006c3f6ddcf6; 0xc49a1610016f006cef6dd067; 0x0018fae7006c336d266e8018; 0xae13006c3e6d376e8018ae13;
  0x10f0246adcf6c89a006c3f6d; 0x8018ae13006cef6dd067e467; 0x0018fae71610006cee6d02f0; 0x006e8018ae13006c336d046e;
  0x8018ae13006c3f6dc3f6016e; 0x8018ae13006cee6dc4678018; 0xae13079706910590046300ef; 0xfb63096208d107d0ff68fff7;
  0x1f698ce8ace99067b1670cd6; 0x0dd70018fae7006a04d20c96; 0x9067b1670018e7e70d936eea; 0x122230f0206acef45c9a0a6c;
  0x40ea0c960d979067b1670018; 0xfae70492014ae0f3087204d2; 0xe661099708910790056300ef; 0xfb63096208d107d0ff6a2467;
  0x4ced4ce930f0216a70f344a2; 0x04d5562210f0246a30f02068; 0x1cf6449acef470982436016d; 0x4dee03f3006cabed40ebcef4;
  0x5098016dc3f30c6cabed1b6e; 0x40ea10f0246b3cf6144bcef4; 0x5098a09b23f3006c006e40ea; 0x10f0246b3cf6144bcef45098;
  0xa09b23f3086c806e40ea0493; 0x10f0246a5cf6009a603210f0; 0x246bdcf66c9b583291676dea; 0x10f0246b7cf6e49b786dd067;
  0x4cef0018fae791675c6dd067; 0x2af3006f0018fae710f0246a; 0x7cf6e89a91678f6dd0670018; 0xfae7006cee6d551010f0246a;
  0x30f020681cf6449acef47098; 0x2436016d4dee03f3006cabed].
Definition fw_rows_65 : list Z := [
  0x40ebcef45098016dc3f30c6c; 0xabed096e40ea10f0246b3cf6; 0x144bcef45098a09b23f3006c; 0x006e40ea30f0206a48f054a2;
  0x032201723560691010f0246b; 0x3cf6144bcef45098a09b23f3; 0x086c006e40ea049310f0246a; 0x5cf6009a743210f0246bdcf6;
  0x709b006c566d6dea10f0246b; 0xdcf6f49bd0674cef0018fae7; 0x10f0246a7cf6f49a006c8f6d; 0xd0670018fae7006cef6d106e;
  0x016f8018e114006c336d086e; 0xe467331010f0246b3cf6144b; 0xcef45098a09b23f3086c006e; 0x40ea049310f0246a5cf6009a;
  0x743210f0246bdcf6709b006c; 0x566d6dea10f0246bdcf6f89b; 0xd0674cef0018fae710f0246a; 0x7cf6f49a006c8f6dd0670018;
  0xfae7006cef6d106e016f8018; 0xe114006c336d086e016f0018; 0xfae704979167336d076e0018; 0xfae7099708910790056300ef;
  0xf9630d620cd10bd0006a7d67; 0x4ccb2ef5106aff6804d20602; 0x0cec05d210f0246a08d45cf6; 0xc09a10f0246a0894dcf6fc9a;
  0x0ced09d5086d001814e80e22; 0x09920069122210f0246adcf5; 0xa89a03f3086c00189ce72267; 0x0ce9071010f0246c5df3104c;
  0x801854190169089480182013; 0x7d67acab10f0246c7df3084c; 0x8018541951670d970c910b90; 0x076300effa630b620ad109d0;
  0xff6a24674ced4ce905d5062d; 0x30f0206a48f015a204482210; 0x05920172166130f0206a48f0; 0x55a2027208614441016804ea;
  0x10f0246afcf6409a1a104441; 0x016804ea10f0246afcf6449a; 0x12100593006802730f6130f0; 0x206a48f015a2094810f0246a;
  0x1cf6449a003064414de8016a; 0x44eb4de88018a11030f0206c; 0xcef4509c016dd06703f3006c; 0xabed40ea30f0206bcef4509b;
  0x016dc140abed03f3006c40ea; 0x30f0206acef4589a026c30f0; 0x206840ea9167016d80187a15; 0x04d2eff4084830f0206aeef3;
  0x489a80f6a098386c40ea2434; 0x30f0206a06d4cef4709a10f0; 0x246a1cf6c49a0692016d03f3; 0x006cabed4dee40eb0593162b;
  0x04940f24069410f0246abbf7; 0x184a4de430f0206ccef4509c; 0x80ab016d006e40ea7c10026c; 0xb16780185413771005920272;
  0x626110f0246a5cf6c09a9167; 0x006d0018e7e75632ff6c8cea; 0x60f681a030f3644164338034; 0x8dea0de341cb30f0206bcef4;
  0x509b10f0246b7cf4d89b016d; 0x23f3186cabed40ea04941024; 0x069410f0246abbf7184a4de4; 0x30f0206ccef4509c80ab01f4;
  0x006d006e40ea2f10036cb167; 0x801854132a1010f0246abbf7; 0x184a24334de3016d30f0206a; 0xcef4509a80abc5670d1010f0;
  0x246abbf7184a24334de330f0; 0x206acef4509a80ab016d006e; 0x40ea7d678743094c30f0206a; 0x43f7144960a42431c0f1084a;
  0x49e16ac20c107d678743094c; 0x30f0206a60a42431c0f1084a; 0x49e1a7f673c204920b970a91; 0x0990066300ef0494c224cf17;
  0xfc63076206d105d0ff698ce9; 0x4441016804ea10f0246a1cf6; 0x449a4de88018a11030f0206b; 0xcef4509b016dd06703f3006c;
  0xabed40ea30f0206bcef4509b; 0x016dc140abed03f3006c40ea; 0x30f0206acef4589a016c40ea; 0x9167006d80187a15026730f0;
  0x216b30f0206a70f3a89beef3; 0x489a386c40ea10f0246c9df3; 0x004c006d8018541930f0206a; 0xc0f1084a45e1006ca7f606c1;
  0xe467ef6d106e0018fae75067; 0x079706910590046300ef0065; 0xfa630b620ad109d0ff6a4cec; 0x4ced30f0216a50f349a204d4;
  0x06d5097200680c6012720168; 0x09601b720268066024684ee8; 0x01581867046a03e2049230f0; 0x2069cef47099443610f0246a;
  0x1cf6449a016d03f3006c4dee; 0xabed40eb30f0216b50f3c9a3; 0xcef45099016dc3f30c6cabed; 0x40ea06930173096104920169;
  0x044a24ea10f0246afcf6489a; 0x081004920169044a24ea10f0; 0x246afcf64c9a4de98018a110; 0x30f0206bcef4509b016dd167;
  0x03f3006cabed40ea30f0206b; 0xcef4509b016dc141abed03f3; 0x006c40ea30f0206acef4589a; 0x026c30f0206940ea0494016d;
  0xeff4084980187a1505d230f0; 0x206aeef3489a80f6a099386c; 0x40ea0692027280f0036110f0; 0x246a04945cf6c09a006d0018;
  0xe7e7e3f7006b4ceb76321f6b; 0x6cea025a0e6060f664990223; 0xff4b1610037001480b61016b; 0x60f67ac1016c036814100a5a;
  0x006c11610420ff48ff6b6ce8; 0x0b1060f6649904730460014b; 0x60f664d90310016b60f67ac1; 0x016c10f0246ddbf7104db5e0;
  0xa0a530f0206beff4084b0370; 0x60f6a1c30d6101720b6160f6; 0x449b082a016d60f6bbc360f6; 0xbac31b6d60f6a1c330f02068;
  0xeff4084860f65aa001722c60; 0x2b24049330f02069cef45099; 0x643610f0246b1cf6649b016d; 0x03f3006c6deeabed40eacef4;
  0x3099016dabed04d123f30469; 0x916700189ce760f6c49807f4; 0x016b6beb4cebc0360492c836; 0x016d6dee9167abed40ea016b;
  0x05d30210006a05d205920b97; 0x0a910990066300effb630962; 0x08d107d030f0206aeff4084a; 0x04d260f640a20268ff694ee8;
  0x8ce92420035a036001720760; 0x04100372376004725060016a; 0x761091678018de119167016d; 0x80184c16652230f0206b30f3;
  0x88418434eff4084b71e4a4a4; 0x025d0360014da4c4ed1765e1; 0x006c50109167016d8018cc13; 0x049360f61ac39167026d8018;
  0x4c16482230f0206b2434eff4; 0x084b6de460f695a30a5c3e60].
Definition fw_rows_66 : list Z := [
  0x014c60f695c3ed1791678018; 0xde119167016d80189c153222; 0x036c98e930f0206beff4084b; 0x12ec71e460f6afa4025d0460;
  0x014d60f6afc4eb1765e1016c; 0x1b109167006d8018cc139167; 0x026d80189c151622036c98e9; 0x30f0206beff4084b12ec71e4;
  0x60f6b0a4025d0460014d60f6; 0xb0c4eb1765e1026c60f698c1; 0x056c071030f0206beff4084b; 0x60f680a3014c60f680c30997;
  0x08910790056300effb630962; 0x08d107d030f02068c0f10848; 0xff6987f6b4a08ce910f0246c; 0x9df3144c8018541987f64da0;
  0x0272026a04d20260046b04d3; 0x30f0206a48f0bca210f0246c; 0x9df3144c8018541930f02068; 0xc0f1084887f654a002721060;
  0x03723160017200684a61b067; 0x006c8018f9140148006c8018; 0x22160870f6611910006c8018; 0x4d12006ca46780189c1587f6;
  0x75a0014b87f675c00c2230f0; 0x206aeff4084a60f66ea2035b; 0x0460014b60f66ec2261030f0; 0x206ac0f1084a87f674a2014b;
  0x87f674c21c10006c8018cf16; 0x30f0206beff4084b60f640a3; 0x0572f56130f0206ac0f1084a; 0x87f694a2014c87f694c2016c;
  0x60f680c387f675a2014b87f6; 0x75c230f02068c0f1084887f6; 0x54a004726b61a7f6a6a010f0; 0x246cbdf3084c80185419a7f6;
  0xb2a010f0246cddf3084c8018; 0x5419a7f6b3a010f0246c30f0; 0x2068eff40848fdf3044c8018; 0x541960f6aea010f0246c1df4;
  0x004c8018541960f6afa060f6; 0xd0a010f0246c3df4004c8018; 0x541960f6b5a060f6d6a010f0; 0x246c5df4144c8018541930f0;
  0x206810f0246bfcf6d09bcef4; 0x509801692be9b16703f3006c; 0x40eacef45098b16723f30c6c; 0x076e40eacef45098b167c3f3;
  0x0c6c006e40ea10f0246b7cf4; 0x184bcef45098c09bb16723f3; 0x186c40ea10f0246b7cf4184b; 0xcef45098c09b23f31c6cb167;
  0x40ea091001713ff7136187f6; 0x55a004936eea3ff70d2a0997; 0x08910790056300effc630762; 0x06d105d010f0246b30f02068;
  0x1cf6c49bcef45098ff69016d; 0xabed8ce903f3006c40eacef4; 0x5098016da3f3186cabed006e; 0x40ea30f0216a70f344a21122;
  0x10f0246a5cf6009a006c016d; 0xd0670018e7e72e6b6beb4ceb; 0x006c016dd067256f101010f0; 0x246a5cf6009a006c016dd067;
  0x0018e7e72e6b6beb4ceb006c; 0x016dd067056f6def0018fae7; 0x916780181a17079706910590; 0x046300eff2631b621ad119d0;
  0x88a4026a30f020688cea4632; 0x16d417d280189b1180183913; 0x10f0246abcf4b89aa1f4186c; 0xeff4084800189ce760f65cc0;
  0x30f0206acef35c9a386c0169; 0x40ea1694006d80f640d82cec; 0x0018f2d516d2722a10f0246c; 0x9df4084c8018541930f0206a;
  0xc0f1084a28f16ca29d6787f6; 0x34c2014b28f16cc26744514b; 0x80a328f12ec260f620c087f6; 0x95c2006ca4678018541330f0;
  0x206e30f0206f04040a056ff0; 0x0c4e6ff0144f80183b1130f0; 0x206d05048ff00c4d8018a013; 0x8018e710016c8018de12006c;
  0x801817118018ad1080188214; 0x179480189817006c8018de12; 0x30f0206e30f0206f04040a05; 0x6ff00c4e6ff0144f8018c910;
  0x30f0206c8ff00c4c05058018; 0x611430f0206ac0f1084a87f6; 0x74a204730a60006b87f675c2; 0x30f0206acef4589a326c40ea;
  0xc91717920422006c016d0018; 0x81d5006c00184cd510f0246a; 0x5cf6c09a10f0246afcf6f49a; 0x006c086d0018fae71b971a91;
  0x1990006a0e6300effd630562; 0x006a10f0246bfcf6789b5434; 0x014a71e4a0a4f86baceb60c4; 0xff6b6cea8072f1618018eb0f;
  0x8018f10f8018df248018f41b; 0x0597036300ef0065fb6309d1; 0x08d00ad44467821025730460; 0x60a560c2014a7b1061856273;
  0x7d6720616285787303605873; 0x7d671a61828560a6786feeec; 0x10f0246f72309df41c4fe1e0; 0x00a0015c986794348de83d67;
  0x00c10f686ce8fde060a7024d; 0x8deb61c100f0020381857774; 0x266182857874026058742161; 0x80ae06d307d482857874f867;
  0x015f1867143018650c6c0797; 0x0f6810f02469e7ec0cef9df4; 0x1c493de7e0a7069038672def; 0xfc4ce0c00148e44406d0ed2f;
  0x044b024d2510818578740260; 0x587420618185209e06d37874; 0x9867015cf867f43707d11f65; 0x1c6c07970f6810f02469e6ec;
  0x0cef9df41c493de7e0a70691; 0x18670deffc4ce0c10149e444; 0x06d1ed2f084b014d9d670410; 0xe0a4014ce0c2014a63ecfa61;
  0x044e014d60857ff71b2b0a94; 0x012460c20a9709910890ebe2; 0x056320e830f0206a016beff4; 0x084a6beb40f678c240f679c2;
  0x40f67ac220e80065fb630962; 0x08d060a441a482a400f01206; 0x00f01e07006da0c6014ea667; 0xeeedfa2d016ee467ccef1d27;
  0x815b1b61815a19615d67d2c2; 0x30f0206ac0f1084a87f1689a; 0x9d67dd6773c4623400f66233; 0x76c60d6b94c670c68234056b;
  0x95c66fce87f1a8daa010026e; 0xa467cced4425fd67815bd2c7; 0x186043f5a44330f0206cc3f4; 0x044bc0f1084c6433a43595e5;
  0x91e362acc2ad75c76233d3c7; 0x76c7c236006b62cdd4c762cc; 0x0410166b6beb1d6773c0815a; 0x196043f5844230f0206bc3f4;
  0x044ac0f1084b4432843471e4; 0x6de242aba2acdd6759c64232; 0xb7c65ac6a235006a42ccb8c6; 0x42cb0410166a4beafd6757c7;
  0x0d6a1d6750c0096a5210532c; 0x815b2260bd6772c5c3f3c443].
Definition fw_rows_67 : list Z := [
  0x30f0206dc0f1084dc436b9e6; 0xe0ae1d67f3c0e237f4c043f4; 0xe443e437b5e7e0ad7433f5c0; 0xe237f6c010f0246ffcf6fc9f;
  0xede360a380ce80cd77c00210; 0x9d6772c4815a2360c3f38442; 0x30f0206bc0f1084b843471e4; 0xbd6758c5a0acdd67b9c6a235;
  0xbac643f4a442a4356de5a0ab; 0x5432bbc6a235bcc610f0246d; 0xfcf6bc9da9e240a25dc6006a; 0x40cc40cb0210fd6758c7046a;
  0x1d6750c00c6a4fc804107d67; 0x046a50c3afcb30f0206aaef2; 0x589a040440ea099708900563; 0x00ef0065fd63056260a430f0;
  0x206ac0f1084ac5f671c261a4; 0x65f46ac262a4c5f670c2a3a4; 0x0f6bacebc5f674c263a47233; 0xc5f675c28018692a05970363;
  0x00ef0065fd63056268a430f0; 0x206ac0f1084ac5f671c269a4; 0x65f46ac26aa4c5f670c2aba4; 0x0f6bacebc5f674c26ba47233;
  0xc5f675c28018692a0597006a; 0x036300effd630562ff6a8cea; 0x0e7203601172056008108567; 0x8018be17101085678018f318;
  0x0c1010f0246adcf4789a10f0; 0x246cbcf49c9c409b8dea40db; 0xff6a0597036300eff8630f62; 0x0ed10dd0006a10d401686267;
  0xa0a40e25ff6d014baceb014a; 0x0b73acea03610148ace8006b; 0x3772014cf161376a30f0206b; 0xc0f1084be5f297a30f5c014c;
  0x0161006ce5f297c330f0206b; 0xa5f47fa30b6d2f4070330ad3; 0x0a94ff6b6ce96cec0ad4016c; 0x13e4b8ec12ec91e26cec09d4;
  0x006a014c0bd408d23c100894; 0x0b6b0a9578ec9d6712eb4ceb; 0x0f6a2ceaadea089552c44f40; 0xaeea0722109200f01e046de2;
  0x00f013020f101094099500f0; 0x13026de4b1e20410a0a3014b; 0xa0c2014a8aeafa610b920710; 0xa0a3014ba0c2014a8aeafa61;
  0x0c6a9d67006b4fcc70c40595; 0x049406960797ff4980186610; 0x0895ff6a4ce9014d08d50893; 0xff6a4ceb03ebbf610f970e91;
  0x0d90086300ef0065fd630562; 0x04d030f0206ac5f440aa07d5; 0x08d6017209d706d40c6130f0; 0x21680695b0f3144890670706;
  0x801825189067801812190597; 0x0490036300ef0065fd630562; 0x60a430f0206ac0f1084ae5f2; 0x73c2a1a40373e5f2b4c21c61;
  0x62a4e5f270c263a4e5f271c2; 0x64a465f4809ae5f272c204f0; 0x006b8ceb2923e5f2b0a2e5f2; 0xd1a2e5f2f2a210f0246cbdf4;
  0x104c801854191c1002731a61; 0x62a4e5f270c263a465f4809a; 0xe5f271c2016b6bebe5f272c2; 0x04f0006b8ceb0a23e5f2b0a2;
  0xe5f2d1a210f0246cfdf4004c; 0x8018541930f0206a0597c0f1; 0x084a016be5f276c2006be5f2; 0x75c2036300ef0065f3631962;
  0x18d117d0ff6a8cea14d240f0; 0x060320f01a02006c80c2014a; 0x6aeafb6130f0216b50f3004b; 0x006812d313d06510129320a3;
  0xff710a617d6709e3016b6beb; 0x20f07ac20148ff6a4ce85b10; 0x526a58e930f0206b0e0411e4; 0x60f2084b22c4036d044812ea;
  0x49e376aa63c463a264c420f0; 0x65a26a33aceb30f0206d25f6; 0xa89d65c4ff6c8ce807f7014c; 0xacec0a24d6aae3a210f0246c;
  0x1df5044cb16704d380185419; 0x1493026a4eeb212b30f0206a; 0x2c344ff7004a89e2a3aa0e04; 0x11e4a2c4a3aa0248a235a3c4;
  0x63ca30f0206b25f6689bff6a; 0x4ce807f7014a6cea082210f0; 0x246c3df5084cb167006e8018; 0x54191393ff6a014b4ceb1292;
  0x13d3014a12d21393149243eb; 0x976130f0206b25f6689b08f0; 0x006a6cea28227d6720f05da3; 0x20f0baa320f0dba320f0fca3;
  0x04d220f05ea310f0246c5df5; 0x004c05d220f05fa306d240f0; 0x40a307d240f041a308d240f0; 0x42a309d240f043a30ad240f0;
  0x44a30bd240f045a30cd28018; 0x54197d672c6a40f006cb20f0; 0x58c311970e940f9510968018; 0x66101997189117900d6300ef;
  0xf9630d620cd10bd043a462a4; 0xc0a44032403260334de341a4; 0x0f6dcced4de344a4d236015e; 0x00f6403249e308d2b43206d2;
  0x0693ff6a4ceb06d3036a7867; 0x6fe207d330f0206b25f6689b; 0xe7f71d4a6cea0722089710f0; 0x246c7df51c4c801854198018;
  0x6f18006806914a100893016a; 0x44e96cea1a2230f0206aeff4; 0x084a30f0206b49e025f6689b; 0x40f638c20148ff6a4ce807f7;
  0x014a6cea082210f0246cbdf5; 0x044cb067d167801854190792; 0x4ae8046006921f4a2eea212a; 0x30f0206b25f6689b08f0006a;
  0x6cea122230f0206aeff4084a; 0x40f6d8a240f6f9a240f65aa2; 0x10f0246cddf5044cb06704d2; 0x801854190d20079400688018;
  0x8d1980186f180149ff6a4ce9; 0x0692204a42e9b2610d970c91; 0x0b90076300ef0065f6631362; 0x12d111d010f0246bff6a8cea;
  0x1cf09c9b1cf01c4b087204d4; 0x819b68a305d49d6778c410f0; 0x246b1cf0909b1cf0104b07d4; 0x819b68a308d49d6720f064c4;
  0x376120f00502070004010ed2; 0x40a00b5a01610a6aff6b4ceb; 0x9d6742435bcc0e6a20f048c4; 0x086a20f04ac440a120f04bc4;
  0x006a0e109d6755e4c0a130f0; 0x206cc0f1084c91e2d1e445f2; 0x88a4014a20f08cc5ff6c4cec; 0x63ecee610a940b950c960d97;
  0x01480149801866100e924ae8; 0xcf6138100972366120f00504; 0x070004010fd440a00b5a0161; 0x0a6aff6b4ceb9d6742435bcc;
  0x0e6a20f048c4096a20f04ac4; 0x40a120f04bc4006a0e109d67; 0x55e4c0a130f0206cc0f1084c; 0x91e2d1e485f29ca4014a20f0;
  0x8cc5ff6c4cec63ecee610a94; 0x0b950c960d97014801498018].
Definition fw_rows_68 : list Z := [
  0x66100f924ae8cf6113971291; 0x11900a6300ef0065fc630762; 0x06d105d0446765a2026d81a4; 0xaceb03238018321a341004a2;
  0x22a243a2103008744de80e61; 0x10f0246cfdf50c4c80181219; 0x30f0206ac0f1084a45e145f2; 0x08c11f1009740e6110f0246c;
  0x1df60c4c8018121930f0206a; 0xc0f1084a45e185f21cc10f10; 0x0a740d6110f0246a1cf7e09a; 0x10f0246c1df61c4cf96d28f3;
  0x016e80185419079706910590; 0x046300effb630962ff6a4cec; 0x526b78ec30f0206e60f2084e; 0xacea056d12eb6de6dd67afce;
  0x0f6db0c692c653c620f05da3; 0x0797049454c620f05ea355c6; 0x20f05fa356c6059506968018; 0x66100997056300eff8630f62;
  0x0ed10dd01492159316900ad2; 0xff6a1a65acea08d25867ccea; 0x17911a650a92fff71f6dacef; 0xaceaacebace8ace930f0206d;
  0xc0f1084d65f4c09d0ad28cee; 0x302665f4849d056a4eec2b2c; 0xe5f298ad016a4eec262c9d67; 0x4744194a40a2f4c4e23752c4;
  0x586753c44744214a40a2f5c4; 0x56c40a9482329d6757c4026a; 0x4bea78c41ac43cc450c46233; 0x023022310c6a79c41bc43dc4;
  0x4fcc05950494069607978018; 0x66100f970e910d90086300ef; 0xfb63096208d107d020a45268; 0x30f0206a18e960f2084a216b;
  0x206e6beb12e801e220f052a0; 0x04d242a420f0f5a020f052c0; 0xa3a4eceb016accedadeb20f0; 0x75c0a3a4acea026dabed6ced;
  0x4ded20f0b5c043a4026b6cea; 0xfb4baceb4deb20f075c0a3a4; 0x406a4ced804aff4a6ceaadea; 0x20f055c064a4ccea40f060c0;
  0x0f2291678018002520f0c5a0; 0x036a20f0b2a0ca364ceeff6a; 0x91674cee80184a2420f0f5a0; 0x20f0d2a00495016af6379167;
  0x4cef8018aa1e099708910790; 0x056300effd63056204d003a4; 0x44a4c0a40030003000f64032; 0xa5a4e6a40dea01a482a430f0;
  0x206b0dea8034c0f1084b8dea; 0x65f440dbe5f2d8c30a26016c; 0x4cec0724e5f2b9c3e5f2fac3; 0x022580185824059704900363;
  0x00ef0065fa630b620ad109d0; 0x20a4526862a418e9086a6cea; 0x4e3206d230f0206a60f2084a; 0x7e337c3312e801e220f0a5a0;
  0x7f6aacea6dea20f045c0a2a4; 0x406b6ced804bff4b4cebadeb; 0x20f065c0a1a41f6aacea44c0; 0x41a4036d07d2c2a4046a4bea;
  0x6ceaaceecdea20f045c00693; 0x092b62a46ced0d6b6beba835; 0x4cebadeb20f065c061a420f0; 0xa6a0056a7e334bea6833acea;
  0x6dea20f046c062a420f0a5a0; 0x306a4ceb9f4aacea6dea20f0; 0x45c010f0246d10f0246a1cf7; 0x449a1cf7a89d2c3349e3034c;
  0xade3a0a4014ca0c2014a6aea; 0xfa6130f0206a25f6489a026b; 0x6cea0f2220f0c5a044a010f0; 0x246cda3704d2016a5df6084c;
  0xb167de364cef8018541930f0; 0x206a25f6489a026b6cea1622; 0x20f066a020f0c5a0016c6a33; 0x8ceb0697036aca3504d310f0;
  0x246cd2334ceb7df60c4c4ced; 0x4cee05d38018541910f0246a; 0x1cf7449a2c3349e3609a30f0; 0x206accf156a20172166110f0;
  0x246a1cf74c9a63ea106010f0; 0x246a1cf7509a006b60c210f0; 0x246a1cf7749a10f0246a1cf4; 0x589a60daf01720f045a0036b;
  0x4a326cea30f0206bccf174a3; 0x05731161382210f0246a1cf7; 0x509a006b60c210f0246a1cf7; 0x789a10f0246a1cf4589a60da;
  0xf01706731261025a246110f0; 0x246a1cf7509a006b60c210f0; 0x246a1cf77c9a10f0246a1cf4; 0x589a60daf017077312610372;
  0x106110f0246a1cf7509a006b; 0x60c210f0246a3cf7609a10f0; 0x246a1cf4589a60daf01730f0; 0x206accf157a20272166120f0;
  0x45a0036b52326cea102210f0; 0x246a1cf7509a006b60c210f0; 0x246a3cf7649a10f0246a1cf4; 0x589a60daf0170793606a9167;
  0x6cea563206d28018881f0692; 0x1022069320f0c5a0046a6be2; 0x096da4eaca36036a4ceeff6a; 0x91674ced4cee80184a240b97;
  0x0a910990066300effd630562; 0xff6a4cecc04c4cec0f5c2b60; 0x10f0246a8834dbf7144a89e2; 0x409a00ea85678018211b1f10;
  0x85678018de1a1b1085678018; 0x7d1a17108567801863191310; 0x856780180c1b0f1085678018; 0xee190b1085678018fc1b0710;
  0x856780187618031085678018; 0xe4180597036300effd630562; 0x04d030f0216b30f0206870f3; 0xdaabcef4509881f1106cfff7;
  0x1f6d40eacef45098ff6d81f1; 0x146c014d016e40ea05970490; 0x036300effc63076206d105d0; 0x30f02068cef4509881f11469;
  0x9167016d006e40eacef45098; 0x016d9167c56740ea07970691; 0x0590046300ef006530f0206a; 0xeff4084a006b80f66fc280f6;
  0x6ec2056b80f66dc2006b80f6; 0x74da20e8fc63076206d105d0; 0x60a4806a30f020684beaeff4; 0x08486cea80f64fc060a40f6a;
  0x24676cea80f64cc041a480f6; 0x6ca080f64dc0006a014b80f6; 0x4ec0016a44ebff4a80f652c8; 0x8018d91b30f0206b25f6689b;
  0x10f0006a6cea0a22a1a1c0a1; 0x80f6f2a810f0246c9df6184c; 0x801854190797069105900463; 0x00ef0065fd63056204d010f0;
  0x246abcf4b89aa1f7046c0018; 0x9ce70122016a30f0206b25f6; 0x689b026710f0006a6cea0722; 0x10f0246cbdf6144cb0678018;
  0x5419506705970490036300ef; 0xfd630562a1f7046cfff71f6d; 0x00189ce730f0206c30f0206b; 0x25f6889ceff4084b80f650cb;
  0x10f0006a8cea082280f6b0ab; 0x10f0246cddf6004c80185419].
Definition fw_rows_69 : list Z := [
  0x0597036300ef0065fa630b62; 0x0ad109d030f0206b25f6689b; 0x10f0006aff6904676cea2ce8; 0xace9082210f0246cddf60c4c;
  0xb067d167801854195d6712c2; 0x33c27d672a6a50c3026a4fcb; 0x079704940595069680186610; 0x0b970a910990066300ef0065;
  0xfd63056230f0206aeff4084a; 0x80f66fa2682380f6cea280f6; 0x6da2c3eb626130f0206c25f6; 0x889c10f0006b8ceb082380f6;
  0xb49a10f0246cddf6184c8018; 0x541930f0216a70f37c9a036a; 0x5beb012ae5e810ea3f2a8018; 0x1a1c2c2230f0206b25f6689b;
  0x10f0006a6cea062210f0246c; 0xfdf60c4c8018541980182b1c; 0x30f0206aeff4084a80f672aa; 0xfff71f73136180f690aa646b;
  0x78ec8ff71c4b12ec71e480f6; 0x6ea282348234014b80f66ec2; 0x80f6aea280183c1c30f0206b; 0x25f6689b10f0006a6cea0622;
  0x10f0246cfdf6144c80185419; 0x8018e71b30f0206aeff4084a; 0x80f6749a014b80f674da0597; 0x036300ef10f0246aff6b8ceb;
  0x3cf18c9afe633cf10c4a00d4; 0x819a44aa00f00a0501d49d67; 0x44cc40a443eb0561014b4be3; 0xff6b6cea0410014caaecf561;
  0x006a026320e80065fd630562; 0x04d0ff6a04674ce8acea7f6b; 0x82676cec80188c1c146c98ea; 0x30f0206b4b480c30eff4084b;
  0x6de012ea44c3059704900363; 0x00ef0065ff6301d100d0ff6a; 0x8cea056730f0206943f4a442; 0xc0f10849a435069335e5fff7;
  0x1f6c20ad8cee8cef8cebd3e4; 0x22ec036139e6c0cd0310016c; 0x8bec80cd30f0206dc3f38442; 0xc0f1084d8434b1e4a0acfff7;
  0x1f6efbe6a2ee0361bde7e0cc; 0x0310016dabeda0cc30f0206c; 0xc0f1084c87f1a89c6feea3ee; 0xade30260016b6beb87f168dc;
  0x30f0206cc3f46442c0f1084c; 0x643307968de382abfff71f6d; 0xd7e583ed91e60260016c8bec; 0x82cb43f5044a30f0206bc0f1;
  0x084b443269e262aafff71f6c; 0x13e463ec036161e002ca0310; 0x016b6beb62ca019100900163; 0x20e8006510f0246a3cf7a89a;
  0x30f0206ac0f1084a80a5e5f2; 0xdba2106b8ceb026c8bec7233; 0xccec6dece5f29bc2c0a5206b; 0xcceb77336836056b6beb8ceb;
  0xcdebe5f27bc2a0a5406cacec; 0x9a348435036c8bec6cecadec; 0xe5f29bc220e80065f8630f62; 0x0ed10dd0ff6a4cee526818ee;
  0x30f0206b60f2084b4cec4cef; 0x4ced0ad606d712e801e37f6b; 0x6cec1d2d0c5c056030f0206a; 0xaff0044a1c100693f44c4cec;
  0x082b036a58ec30f0206a6ff2; 0x1c4a12ec3610e04c4cec036a; 0x58ec30f0206a2ff2004a12ec; 0x2c100c5c156030f0206aaff0;
  0x104a91e230f0206a80a44ef5; 0x589a0a95069640ea20f086a0; 0x196b6beb8ceb20f066c0b510; 0x0693f44c4cec082b036a58ec;
  0x30f0206a2ff3004a12ec0910; 0xe04c4cec036a58ec30f0206a; 0xcff2044a12ec91e2016a4bea; 0x7d6709d4006c50c351c352c3;
  0x07d4246708d40bd0099600a6; 0x2c70046106922c68012a0c68; 0x30f0206a4ef5589a0a950696; 0x9067014940eaff72ff6b6ce9;
  0x076146701160089491e16cec; 0x08d407100796bd67d1e5014e; 0x6cee50c407d609920371014a; 0x09d2d86107920b90036cff4a;
  0x8cea20f0a6a04c33196a4bea; 0xacea6dea20f046c00893ff6a; 0x065b596020f067a0026a7633; 0x8ceb20f095a08cea18220694;
  0x052430f0206aaff4084a0410; 0x30f0206aaff4004aaf43016c; 0xa3ec0961dd67b1a6409a84ed; 0x4cec032450a6b0c651c620f0;
  0x95a0406a8cea192206920522; 0x30f0206aaff4184a041030f0; 0x206aaff4104aff4b016c63ec; 0x0a61bd6771a5409a84eb4cec;
  0x0424016a4bea70c551c5dd67; 0x71a6ff73056052a6ff720260; 0x66c00e107d6751a3ff720360; 0x72a3ff7307609d6751a4ff72;
  0x046152a4ff72016045c0bd67; 0x50a50f970e910d90086300ef; 0xfa630b620ad109d0ff6a4cec; 0x4cee526a58ec30f0206a60f2;
  0x084afff71f6b6ced0fd704d5; 0x05d612ec89e2866706d262f5; 0x1c4c30f0206a8434c0f1084a; 0x49e405aa03ed0be502600494;
  0x8be06ceaff4afff71f6b6cea; 0x075a1b60049203ea0c600593; 0x30f0206ac0f1084a62f51c4b; 0x643349e365aaff4b1a100593;
  0x30f0206ac0f1084a62f51c4b; 0x643349e365aa014b0e100593; 0x30f0206ac0f1084a62f51c4b; 0x6433049449e30c330fe38de3;
  0x6f3365ca059330f0206ac0f1; 0x084a62f51c4b64334de365ab; 0x65f4409a07d3026b6cea0922; 0x0795049610f0246c1df7004c;
  0xf06780185419049243e81761; 0x069443e0fff71f6a20f064a4; 0x4ce80f6c6e328cea4432016d; 0xadea8cea804cf84c4c326cec;
  0x4dec069220f084c215100493; 0x0694fff71f6a03e320f064a4; 0x4ce80f6c6e328cea44328cea; 0x4c34796a4bea6cea06938dea;
  0x20f044c3059330f0206a0694; 0xc2f5104b6433c0f1084a49e3; 0x25aa20f044a4036b4e326cea; 0xff4a025a0361035808613e10;
  0x0958096a01605067fff71f68; 0x4ce830f0206ac0f1084a65f4; 0x609a026c8ceb1023069349e0; 0x45f4f2a220f0a4a310f0246c;
  0x0f6bae351df7184c6cedd067; 0x8018541930f0206ac0f1084a; 0x41e045f452a0fff71f6b49e1; 0x6cea0a5a006906612842fe49;
  0x6ce91f5901611e69059330f0; 0x206ac0f1084ac2f5104b6433; 0x49e325ca30f0206ac0f1084a; 0x65f4609a026c8ceb0d230593;
  0x10f0246c3df7104cc2f5104b; 0x643349e3a5aad16780185419].
Definition fw_rows_70 : list Z := [
  0x079211670b5a10611559016a; 0x06600b595867015a5867036b; 0x4be30790f64807ea01e1fff7; 0x1f6a4ce82858016128680359;
  0x0069026004924a3130f0206a; 0x25f6489a026b6cea082210f0; 0x246c5df7004cb167d0678018; 0x5419109220ca0f9300cb0b97;
  0x0a910990066300effa630b62; 0x0ad109d0ff6a4cec526818ec; 0x4cef30f0206b0ed606d40dd5; 0x05d760f2084b20a512e801e3;
  0x60a604d320f0a5a0036b0496; 0xaceb83674cecc2ec03600e92; 0x60c2b010a0f00e242f59a0f0; 0x0b60306baceb4ceba0f00623;
  0x30f0206a25f6489a026b6cea; 0x09220595049610f0246c5df7; 0x184cf1678018541905930173; 0x0360056b016a5310046b006a;
  0x5010059401740261014a0110; 0xff4aff6b6cea30f0206b4834; 0x0ff20c4b6de4c0abff6c036d; 0x66678ceb04d3c2338ceb20f0;
  0x85a00069e467acef62ef0961; 0x0d6f6cedebefa8358cefadef; 0x20f0e5c0016930f0206c0ff2; 0x0c4c483249e4e1aa20f0a5a0;
  0x036ce232acec42ec3f61e5c0; 0x069530f0206ceff4084c4b4d; 0xac3591e542c445a0ff723260; 0x20f086a0196a4bea8cea086c;
  0x8dea20f046c02810014aff6c; 0x8cea63ea446030f0206c4835; 0x0ff20c4c91e5a0acff6cc567; 0x8cee2eee052ea2358ced0494;
  0x8eed9f2530f0206c48350ff2; 0x0c4cb1e4a1acff6cc5678cee; 0x2eeede2e0496a2358cedceed; 0xd92d8d17006809215d678742;
  0x094c0d9280a4016880c20e92; 0x60c230f0206a25f6489a026b; 0x6cea092210f0246c7df7144c; 0xb06780185419011000685067;
  0x0b970a910990066300ef0068; 0xf067d067e6170065fb630962; 0x08d107d0ff680cecace8ff70; 0x3a60526a58ec30f0206a60f2;
  0x084a7f690ce912ec89e204d2; 0x30f0206a2ef5489a916740ea; 0x4beb4deb0492c0f762337f6c; 0x6de240f065a330f0206a25f6;
  0x489a04d38ceb05d3046b6cea; 0x0822049610f0246c9df70c4c; 0xb06780185419059223ea0b61; 0x4ee90a290494806b806a6beb;
  0x0cea8ceb4eeb01230122ff68; 0x5067099708910790056300ef; 0xfc63076206d105d0ff6a4cee; 0x4ced6246a2eb4cececea0461;
  0xfe4ec2ed01612522526938ec; 0x30f0206a60f2084a30f02068; 0xff6d026e12e925e24ef24c98; 0x87413e4c40ea4ef24c988741;
  0x404c006d026e40ea30f0206b; 0x25f6689b00f4006a6cea1322; 0x10f0246c9df7184c0c1030f0; 0x206b25f6689b00f4006a6cea;
  0x062210f0246cbdf7044c8018; 0x5419079706910590046300ef; 0xfc63076206d00068526a58e8; 0x30f0206b60f2084b12ea49e3;
  0x20f085a2806b6beb8cebff6c; 0x8ceb3d2b40f085a2ff740e60; 0x40f087a2635c0460014c40f0; 0x87c2061040f067c2016b6beb;
  0x40f065c240f066a2ff730f60; 0x40f068a2635b0861006b40f0; 0x68c2016b6beb40f066c20310; 0x014b40f068c2172830f0206c;
  0x25f6889c00f4006b8ceb0f23; 0x40f0a5a240f0c6a240f0e7a2; 0x40f048a210f0246cbdf7104c; 0x04d2801854190148ff6a4ce8;
  0x8070ae6107970690046300ef; 0xf9630d620cd10bd0ff6b6cee; 0x526818ee129113926cef6ce9; 0x6cea30f0206b60f2084b08d7;
  0x12e801e320f073a0eeeb062b; 0x7ea0036c6a338ceb2eeb2523; 0x7d678743194c80a455c3006a; 0xd3c392c356c356a838c30696;
  0x57c30c6a50c3076a4fcb0494; 0x05950797801866107d678743; 0x194c60a4036a2cea9ea020f0; 0x73c048330d6a4bea8cea6dea;
  0x5ec00d970c910b90076300ef; 0xf8630f620ed10dd0ff6a8cea; 0xff6b06d26cedff6c7f6aecec; 0xacea0ad407d2cceb069410f0;
  0x246a0bd3fcf6589a806baceb; 0x09d3943349e340a230f0206a; 0x4ef54c9a079509960a9740ea; 0xff722267a0f0056006925268;
  0x069518ea056b30f0206a60f2; 0x084a12e801e230f0206a78ed; 0xc0f1084aff6d12ec49e407f4; 0x4ca2076c4cec0b92acec08d4;
  0x292a63a05fa06eea0c220694; 0x30f0206abd678c334ff7004a; 0x69e26745254ba0aba3ca20f0; 0x66a0416a4bea6cea20f046c0;
  0x23c00694b16780189c1c0a93; 0x0696006a8267a267f16705d2; 0x04d38018fb1e006a82672910; 0x20f086a0406a23c08dea20f0;
  0x46c00a950696006c04d5f167; 0xa46705d38018fb1e079330f0; 0x206a6ff1044a49e340a230f0; 0x206b6ff3084b20f048c00794;
  0x6de460a320f092a063ec0360; 0x044a20f048c0016a406c0a95; 0xac3308956de58deb00f66033; 0xff6c00f663338ceb0694035c;
  0x0a6010f0246c3cf78c9c20c4; 0x10f0246c3cf7989c60c430f0; 0x206cc5f4a3a4046cacec0524; 0x079409918de9ff6c8ce90695;
  0xb43410f0246dfcf6bc9db5e4; 0x20c510f0246dfcf6b89db5e4; 0x60c510f0246b3cf77c9b71e4; 0x40c40f970e910d90086300ef;
  0xfb63096208d107d0ff698ce9; 0x526818e930f0206a60f2084a; 0x12e801e284a00f5c536010f0; 0x246a88333cf0084a69e2409a;
  0x00ea1b6a2e103d6a20f060a0; 0x47c0086a4bea6cea026b3a10; 0x20f060a0136a47c0086a4bea; 0x6cea016b6dea20f040c020f0;
  0x60a0336a47c0086a4bea6cea; 0x016b6dea20f040c0046d3010; 0x20f060a00b6a47c0086a4bea; 0x6cea036e20f040c004d62510;
  0x476a20f060a047c0086a4bea; 0x6cea036b6dea20f040c0056a; 0x04d21710236a20f060a047c0; 0x086a4bea6cea036b6dea056b;
  0x20f040c004d3091020f060a0; 0x086a4bea6cea20f040c0036d].
Definition fw_rows_71 : list Z := [
  0x04d510f0246a1cf7449a2c35; 0x8c3455e510f0306a24f30c4a; 0x91e2e567fd65006a05d50596; 0x483320f0a5a0cde3609bc09c;
  0x1d65b867cceb036eacee0276; 0x0761ff6e4cee01760361416e; 0xcbeecceb4836f5e660dd014a; 0x7f6779e60272609e044ce161;
  0x10f0246b1cf7649b2c329167; 0x6de2a09b10f0246b1cf7689b; 0x69e2c09a10f0246afcf65c9a; 0x343349e340a2ff6b4ceb30f0;
  0x206a6ef5409a05d340ea0596; 0x20f0e5a0806dabedcced4ded; 0xea37036a4cefff6a4cef4ced; 0x006e916780181f1f7d67a743;
  0x094d60a530f0206a916762c0; 0x6ef5449a40ea30f0206a4ef5; 0x489a40ea30f0206a25f6489a; 0x016b6cea0922a0a0c1a0e2a0;
  0x10f0246cddf7084c80185419; 0x099708910790056300ef0065; 0xfa630b620ad109d010f0246a; 0x5cf7409a006860a2ff6a8367;
  0x10f0246b3cf7689b4cec06d4; 0x60a3016c6cea30f0206bc0f1; 0x084b56328ceae5f2bba34834; 0x056a4beaacea8deae5f25bc3;
  0x30f0206a6ef5589a906740ea; 0x6922526938e830f0206a60f2; 0x084a046bff6c12e925e230f0; 0x206ac0f1084ae5f2bba2aceb;
  0x262306930aeb236110f0246b; 0x5cf7649b65f4409a60a3a367; 0x10f0246b5cf7689b8ced04d5; 0x60a36cec106b6cea05d40922;
  0x0596049710f0246cfdf7004c; 0xb06780185419049505979067; 0x006e80181f1f674030f0206a; 0x444b6c33eff4084a49e341a2;
  0x052a20f067a1804a6dea0410; 0x20f067a17f6a6cea20f047c1; 0x112830f0206a25f6489a106b; 0x6cea0a2230f0206a4ff7a1a2;
  0x10f0246cfdf71c4c80185419; 0x674030f0206a444b6c33eff4; 0x084a49e3006b61c20148ff6a; 0x4ce880708b618018ce1e30f0;
  0x206a4ef5489a40ea8018521c; 0x0b970a910990066300ef0065; 0xfb63096208d107d0ff6a8cea; 0x526818ea04d230f0206a60f2;
  0x084a036b12e801e220f086a0; 0x20f0a5a03fa08ceb68340d6b; 0x6bebaceb8deb40a020f065c0; 0x7f6b2ceb63ea0160226730f0;
  0x206a25f6489a046b6cea0c22; 0x20f0c5a010f0246c036aca36; 0x1ef0084cb1674cee80185419; 0x5fa0806dabed4ced20f0e5a0;
  0x2ded00f6a0350494ff6a00f6; 0xa3354cedea37036a4cef006e; 0x80181f1f0997089107900563; 0x00ef0065f663136212d111d0;
  0xff6fecec526818ec30f0206a; 0x60f2084a9433eced09d40cd5; 0x7f6912e801e210f0246afcf6; 0x5c9a49e340a27d6758c398a3;
  0x036b1b6508d4a0a08ce99867; 0x0ad520f0c5a0bd67d2326cea; 0xecea0bd24745ca33194a40a2; 0x8ceb79c520f086a05fc0046a;
  0x4bea8cea6dea016b6beb65c0; 0x66c0099530f0206ceff4084c; 0x4b4dac3595e562c50995ac35; 0x91e50ed540f27bc420f087a0;
  0x116b6beb8ceb20f067c0806b; 0x6beb6dea674b6cea20f046c0; 0x30f0206a25f6489a046b6cea; 0x0c2258677d67ccea0895d9a3;
  0x10f0246c1ef01c4c4cef8018; 0x54190a9483e9796009940605; 0x00f01906016f8018161ea0f0; 0x092abd6720f045a099a5036b;
  0xa3674ceda2ec1a60dd67014c; 0x0d6d99c6abed6cec4ced8834; 0x8ded38c630f0206a20f0a5c0; 0x25f6489a046b6cea0722b9a6;
  0x10f0246c3ef0184c80185419; 0xdd6730f0206a6ef54c9a0994; 0xb8a640eaff7208d208614741; 0x4c4a08d20893ff6a4ceb08d3;
  0x171030f0206a25f6489a046b; 0x6cea0722089510f0246c5ef0; 0x084c801854199d67a744194d; 0xa0a5b8c45f100149ff6a4ce9;
  0x09960b979167006d8018f61c; 0xdd6758c658a6ff7208610a92; 0x43e9026158c6031008948ae9; 0xea6130f0206a25f6489a046b;
  0x6cea4222dd67b8a610f0246c; 0x5ef0184c8018541939100a92; 0x4ee9212920f046a0046b6cea; 0xe0f00c220892806c8bec8cea;
  0xff6daceae0f0042a30f0206a; 0x0a9525f6489add67adec6cea; 0x98c6a0f01f22b8a610f0246c; 0x7ef0044c80185419b71030f0;
  0x206a25f6489a046b6cea0822; 0x5d67b8a210f0246c7ef0104c; 0x801854197d678743214c80a4; 0x98c39fc030f0206a25f6489a;
  0x046b6cea0a22dd67b8a6e6a0; 0xc5a010f0246c7ef01c4c8018; 0x54195d670994b8a28018851e; 0x7d6758c30994a5a08018851e;
  0x45c00994a6a08018851e46c0; 0x30f0206a25f6489a046b6cea; 0x0a22dd67b8a6e6a0c5a010f0; 0x246c9ef00c4c8018541946a0;
  0xff6b85a04eeb015b7867ff74; 0x056145c0016a4bea46c0014b; 0x9d6758a4ff72096145a0014b; 0x58c4016a4bea45c0ff6a4ceb;
  0x0810072b20f066a0196a4bea; 0x6cea106b08100173086120f0; 0x66a0196a4bea6cea086b6dea; 0x071002730f6120f066a0196a;
  0x4bea6cea20f046c030f0206a; 0x25f6489a046b6cea33222210; 0x20f066a0196a4bea6cea20f0; 0x46c030f0206a25f6489a046b;
  0x6cea062210f0246c9ef01c4c; 0x8018541920f066a0036a20f0; 0x85a06cea48330d6a4bea8cea; 0x6dea20f045c02a1020f046a0;
  0xdd67b8a6e6a0c5a04e32036b; 0x10f0246c6ceabef0084c04d2; 0x801854190c92016e01720861; 0x20f066a0196a4bea6cea20f0;
  0x46c0006e20f063a00f6a6cea; 0x106b6dea20f043c07d670994; 0xb8a3f9a380181f1f13971291; 0x11900a6300ef0065f7631162;
  0x10d10fd0ff6fecec526818ec; 0x30f0206a60f2084a9433eced; 0xecee08d40cd607d57f6912e8; 0x01e210f0246afcf65c9a49e3;
  0x40a27d6750c340a0d0a306d2; 0x61a0fe65cce90ad320f0c5a0].
Definition fw_rows_72 : list Z := [
  0xd23209d20993036aca344ceb; 0x0bd64cececebdd6709d391c6; 0x20f0a6a0046b6bebaceb8deb; 0x016c8bec85c086c0089630f0;
  0x206deff4084d4b4ecc36b9e6; 0x82c60896cc36b5e640f29bc5; 0x20f0a7a0116c8becacec20f0; 0x87c0806c8bec8deb674c8ceb;
  0x20f066c030f0206b25f6689b; 0x086c8ceb0c230b9310f0246c; 0xdef0044c6cea7d67d1a3bf67; 0x4cef80185419069623ee0260;
  0x5d67d0c20792006e06d65022; 0x7d6750a3040500f011065fc0; 0x0894026f8018161e432add67; 0x30f0206a6ef5489a0894b0a6;
  0x40eaff72086007967d6750c3; 0xff4eff6a4cee07d631260a92; 0x006b06d323ea2261dd674746; 0x214a40a250c6281008960997;
  0x9167016d8018f61cdd6750c6; 0x0a9223ea026150c60a10dd67; 0x50a6ff720661ff6aff494ce9; 0x0b924ae9e9610693ff6a014b;
  0x4ceb06d30696079243ee0660; 0x6841b44bff6a4ceb0bd3da17; 0x016e06d60c920172096120f0; 0x66a0196a4bea6cea006b20f0;
  0x46c006d330f0206a25f6489a; 0x086b6cea0922dd67b0a6d1a6; 0x10f0246cfef0004c80185419; 0x20f063a00f6a6cea206b6dea;
  0x20f043c05d67f1a20894b0a2; 0x069680181f1f119710910f90; 0x096300eff663136212d111d0; 0xff6a4cec526818ec30f0206b;
  0x60f2084b09d49d6712e801e3; 0x006b6ccc6dcc20f086a0406b; 0x8ceb4ceb0d2330f0206a25f6; 0x489a026b6cea20f2112210f0;
  0x246cfef0104c2a12099510f0; 0x246cfcf69c9cb4337f6e91e3; 0x20a4806c4ce92cee2cec0ad6; 0x0ed420f085a040f024c00a95;
  0x8a340cd40c96036c8cee10f0; 0x246cfcf6989c4cee0cd68de3; 0x60a383674cec0fd460a0a3eb; 0x08600e960ad3236704268069;
  0x2be96de94ce9099330f0206a; 0xc0f1084aa2f7144b64334de3; 0x60abe0f11123099323f0144b; 0x64334de360ab035b0b6165f4;
  0x409a026b6cea062210f0246c; 0xfef01c4c8018541930f0206a; 0x08d20992089330f0206ea2f7; 0x144ac0f1084b443269e2a0aa;
  0x099208d3a3f0144a443269e2; 0x80aa0bd24ef5409e93e540ea; 0x0dd2099208930b9623f1144a; 0x443269e2a0aa30f0206b80ae;
  0x4ef5409b93e540ea9d67a744; 0x2d4d80ad0bd2026b96c80895; 0x65f4409d6cea08220d950b96; 0x10f0246c1ef1044c80185419;
  0x30f0206cc0f1084c65f4409c; 0x026b6cea1822099209960993; 0xa3f0144aa2f7144e23f0144b; 0x4432c436643389e299e68de3;
  0xa0aac0aee0ab10f0246c1ef1; 0x144c8018541930f0206a25f6; 0x489a026b6cea0c220f96186d; 0x10f0246ccced0c963ef1044c;
  0xae35f1678018541909940d95; 0x0a9600f01a02060704d28018; 0x781d0e930a6a082b0a9430f0; 0x206ac0f1084a49e485f25ca2;
  0xbd678caddd676daea34455e5; 0xa2eb00690560234467e125e2; 0xff6a4ce90a9330f0206ac0f1; 0x084a49e3bd6745f248a28cad;
  0xdd676dae95e2a2eb006d08d5; 0x05606fe44de3ff6a4ceb08d3; 0x30f0206ac0f1084a65f4609a; 0x026c8ceb0c230a9610f0246c;
  0x3ef11c4c49e645f2a8a285f2; 0xdca28018541930f0206a25f6; 0x489a026b6cea0822089510f0; 0x246c5ef10c4cd16780185419;
  0x40f040a03f6b6cea40f06080; 0x0053136043e9026000690310; 0x47e1ff6b6ce9089343eb0360; 0x006c08d40e10089557e5ff6a;
  0x4ced08d5081007220896ff6b; 0x45e159e66cee6ce908d65b59; 0x516701615a6aff6b82676cec; 0x0ad40894bd67c7458ceb194e;
  0x425b40a60161416aff694ce9; 0x30f0206a25f6489a026b6cea; 0x08220a9610f0246c5ef11c4c; 0xb1678018541930f0206ac0f1;
  0x084ae5f29ba2046b8ceb0b23; 0x65f4409a026b6ceaa0f01c22; 0x10f0246c7ef10c4cb5100d95; 0x0a96c3ed03600b931e5b5961;
  0x0b94505c1d6130f0206a25f6; 0x489a026b6cea062210f0246c; 0x7ef1184c801854190994016d; 0xc56780186d2120f060a0396a;
  0x4bea6cea20f040c0006a20f0; 0x41c0901020f080a0076a8e33; 0x4ceb014b4ceb6c35396b6beb; 0x8cebadeb20f060c030f0206b;
  0x25f6689b026c8ceb0a2320f0; 0xa0a010f0246c9ef1044cae35; 0x4ced8018541920f040a0076b; 0x4e326cea02526a6130f0206a;
  0x25f6489a026b6cea062210f0; 0x246c9ef1144c801854190994; 0x016d006e80186d212a100d95; 0x23ed326020f061a0014b20f0;
  0x61c065f4409a026b6cea0822; 0x20f0a1a010f0246cbef1004c; 0x8018541920f041a0035a3e61; 0x30f0206a25f6489a026b6cea;
  0x062210f0246cbef10c4c8018; 0x54190994006d80187c20006a; 0x20f060a020f041c0396a4bea; 0x6cea20f040c0221020f041a0;
  0x0322ff4a20f041c020f060a0; 0x076c6e328cea0922ff4a8cea; 0x4c34396a4bea6cea8dea20f0; 0x40c030f0206a25f6489a026b;
  0x6cea062210f0246cbef1144c; 0x80185419099480180e251397; 0x129111900a6300effb630962; 0x08d107d0ff6a4cec526818ec;
  0x30f0206b60f2084b04d44ced; 0x12e801e3943310f0246cfcf6; 0x9c9c91e380a4c46710f0246c; 0x4ceefcf6989c05d620f0c6a0;
  0x8de380a3406bcceb4ceb4cec; 0xa0f0012318698ce92f310175; 0x4ce9236130f0206b25f6689b; 0x00f1014a6cea062210f0246c;
  0xdef1004c8018541920f063a0; 0x106a4bea6cea20f043c00494; 0x0595006ef16780181f1f20f0; 0x66a0196a4bea6cea20f046c0;
  0x781030f0206b25f6689b00f2; 0x006a6cea062210f0246cdef1].
Definition fw_rows_73 : list Z := [
  0x0c4c8018541920f083a00f6a; 0x20f0a6a064674ceb014b4ceb; 0xe14a8cea6deaae35036b6ced; 0x20f043c043456cea025a5260;
  0x30f0206b25f6689b00f2006a; 0x6cea082210f0246cff6adef1; 0x144c4ced8018541920f0a6a0; 0x036cff6eae328cea6f42cceb;
  0x79e0c5a6034a8cea05d64c36; 0x196a4beaaceacdea20f046c0; 0x049630f0206aeff4084acc35; 0x49e56de240f25aa3ff720b60;
  0x20f065a04cec22670d6a4bea; 0x88346cea8dea20f045c030f0; 0x206b25f6689b00f2006a6cea; 0x0822059610f0246cfef1004c;
  0xb1678018541904940595016e; 0xf16780181f1f031004948018; 0x5420099708910790056300ef; 0xf663136212d111d0ff6a2467;
  0x4ce9526818e930f0206b60f2; 0x084b7f6e12e801e376a88367; 0x4cec0dd410f0246cfcf69c9c; 0x343391e380a48cea09d2ccea;
  0x08d210f0246afcf6589a4de3; 0x60a3186a6cea4e320cd233f0; 0x644130f0206a6433c0f1084a; 0x4de360ab035b156165f4409a;
  0x00f2006b4ceb062310f0246c; 0xfef01c4c80185419016d9167; 0xc56780186d219167006d8018; 0x142330f0206f33f24441c0f1;
  0x084f4432e9e2a0aa0ed2b3f1; 0x44414432e9e230f0206b80aa; 0x07d24ef5409b93e506d740ea; 0x06940bd2079633f344414432;
  0x89e2a0aa80ae30f0206f0fd2; 0x4ef5409f93e540ea06940ad2; 0x00f2006a65f4609c6cea1222; 0x07960e97b3f244410f934432;
  0x89e2a0aec0afe0aa40ab10f0; 0x246cfef10c4c04d280185419; 0x30f0206b25f6689b00f2006a; 0x6cea0b2209940b950a960c97;
  0x04d410f0246c1ef2044c8018; 0x54190996de321222089730f0; 0x206aaff31c4ae43349e360aa; 0x7234763249e449e37e3369e2;
  0xfff71f6b6cea0810089430f0; 0x206aaff31c4a843349e340aa; 0x40f064800053156040f084a0; 0x7f6b6cec30f0206baff31c4b;
  0x843471e480ac923596336de5; 0x6de49e348de3fff71f6c8ceb; 0x0b1040f084a07f6d30f0206b; 0xacecaff31c4b843471e460ac;
  0x20f0a3a0106c8becacecff6d; 0xacec106d8eed015d0d97b867; 0xabed056cacec646dfbe5d8eb; 0x644c0b9712eb98eb20f086a0;
  0x036b8ceb0c9412eec4ebefe5; 0xb8eb07d612ed58ed00f2006a; 0x12eb64ec06d330f0206b25f6; 0x689b6cea08220d9510f0246c;
  0x3ef2044cc7678018541930f0; 0x206b25f6689b00f2006a6cea; 0x092240f0a4a0089610f0246c; 0x3ef2104c8018541930f0206b;
  0x25f6689b00f2006a6cea0c22; 0x0796069710f0246cc235e236; 0x3ef21c4caa35ca3680185419; 0x0692079363ea03610a941e5c;
  0x2f6120f063a0106a4bea6cea; 0xff6b6cea10724c6130f0206b; 0x25f6689b00f2006a6cea0622; 0x10f0246c5ef2084c80185419;
  0x0a961e5e3b6130f0206a2ef5; 0x489a089440ea0722fd674747; 0x1d4ae0a240f0e6c02d105d67; 0x67421d4b40a340f045c02610;
  0x30f0206b25f6689b00f2006a; 0x6cea0722099510f0246c5ef2; 0x104c80185419006a20f063a0; 0x40f042c0106a4bea6ceaff6b;
  0x6cea1072016d0b6120f060a0; 0x396a4bea6cea086b6dea20f0; 0x40c00110006d916780181423; 0x1397129111900a6300ef0065;
  0xfc63076206d105d030f0206a; 0xff6b046726674ef55c9a6ce8; 0x6ce96ced9067d16740eaa267; 0x9067f167006e80181f1f0797;
  0x06910590046300effb630962; 0x30f0206bc0f1084be5f29aa3; 0x526ae5f279a358ec30f0206d; 0x60f2084dff4b12ea49e5ff6d;
  0xaceb055be0f0136010f0246d; 0x68337cf0044d75e5609d00eb; 0x0c6b9d676fccbd670e6c90c5; 0x72c520f072a2036cdd6773c5;
  0x63a274c520f065a26a358ced; 0xb5c6a3678cedb6c6a5a2b7c6; 0xa6a2b8c67e3572338ceb7ac6; 0xb9c620f046a2016b4a326cea;
  0x5bc6006a5cc66d10bd670c6b; 0x6fcd0e6b70c50d6b72c564a2; 0x8c3473c560a274c541a255c5; 0x10f0246a1cf7449a49e440a2;
  0x56c510f0246a5cf74c9a49e4; 0x40a257c510f0246a5cf7509a; 0x49e440a258c510f0246a5cf7; 0x549a49e440a259c510f0246a;
  0x1cf7489a49e440a25ac510f0; 0x246a5cf7589a49e440a25bc5; 0x10f0246a5cf75c9a49e440a2; 0x5cc510f0246a7cf7409a7610;
  0xdd670c6a4fce0e6a50c652c6; 0x30f0206ac0f1084a45f472a2; 0x73c645f473a274c645f474a2; 0x75c645f475a276c645f476a2;
  0x77c645f477a278c645f478a2; 0x79c645f479a27ac645f47aa2; 0x45f45ba27bc65cc6006a5dc6; 0x4e107d67036a4fcb0e6a50c3;
  0x0f6a52c330f0206aeff460a2; 0xeff4004a41a29d6773c454c4; 0x3c10bd670c6b6fcd0e6b70c5; 0x106b72c540f064a28c3473c5;
  0x77aa044b6f3374c576aa044b; 0x6f3375c560a276c565a277c5; 0x46a258c510f0246a1cf7449a; 0x49e440a259c510f0246a5cf7;
  0x4c9a49e440a25ac510f0246a; 0x5cf7509a49e440a25bc510f0; 0x246a5cf7549a49e440a25cc5; 0x10f0246a1cf7489a51e440a4;
  0x5dc504940595069607978018; 0x66100997056300ef006ab3f0; 0xa44230f0206bc0f1084ba435; 0x006c75e580cd33f0a442a435;
  0x75e580cdb2f7a442a43575e5; 0x80cdb3f1a442a43575e580cd; 0x33f2a442a43575e580cdb3f2; 0xa442a43575e580cd43f4a442;
  0xa43575e580cdc3f3a442a435; 0x75e580cdc3f4a442a43575e5; 0x82cd43f5a442a43575e582cd; 0x014aff6c8cea8072c4615867;
  0x87f148db20e80065ff6a8cea; 0x43f4a44230f0206bc0f1084b].
Definition fw_rows_74 : list Z := [
  0xa435006c75e580cdc3f3a442; 0xa43575e580cdc3f4a44243f5; 0x044aa435443275e56de282cd; 0x82cb20e8ff6a8ceab3f0a442;
  0x30f0206bc0f1084ba435006c; 0x75e580cd33f1a442a43575e5; 0x80cd33f0a442a2f7144aa435; 0x443275e56de280cd80cb20e8;
  0xff6a8ceab3f1a44230f0206b; 0xc0f1084ba435006c75e580cd; 0x33f3a442a43575e580cd33f2; 0xa442a43575e580cdb3f2a442;
  0xa43575e580cd526c98ea804c; 0xee4c12ea6de2e0f041a34cec; 0xe0f081c320e80065f4631762; 0x16d115d010f0246bff6a7cf7;
  0x649b4cec90346de400a310f0; 0x246b7cf7689b4ce86de4a0a3; 0x10f0246b7cf76c9b4ced6de4; 0x60a3c36710f0246b7cf7709b;
  0x4cee0fd66de460a3e36710f0; 0x246b7cf7d49b4cef10d7d9e4; 0x60a6e36710f0246b7cf7789b; 0x4cef09d76de460a3e36710f0;
  0x246b7cf77c9b4cef0bd76de4; 0xe0a34cef10f0246a9cf7409a; 0x49e440a210f0246a9cf7449a; 0x51e460a4016a4ceba0f2062b;
  0x526938e830f0206b60f2084b; 0x12e925e360a600f6603300f6; 0x63330053006b0ed3056020f0; 0x66a17a334ceb0ed310f0246a;
  0xfcf65c9a14330f9449e3c0a2; 0xff6b6ceecaec106030f0206a; 0x25f6489a016b6cea60f21c22; 0x0f9510f0246c5ef21c4c8018;
  0x5419741220f085a1806a4bea; 0x8cea6cea40f21e2a0e961926; 0x30f0206ab3f16440c0f1084a; 0x64334de360ab0ad333f36440;
  0x64334de360ab11d3b3f26440; 0x64334de360ab12d333f26440; 0x181030f0206ab3f06440c0f1; 0x084a64334de360ab0ad333f1;
  0x644064334de360ab11d333f0; 0x644064334de360ab12d3b2f7; 0x6440643349e340aa08d240f0; 0x61a1406a6cea0522406a4bea;
  0x6cea40f041c109930b947f6a; 0xacea0dd23f6a4ceb4cec4cef; 0x69e4eeea09d30bd40cd740f1; 0x1d2a30f0206ac0f1084a65f4;
  0x609a016c8ceb142309950b96; 0xb2f76440643304d505d606d7; 0x49e340aa0f9510960d9710f0; 0x246c7ef2104c07d280185419;
  0x10920f97eeea26220e920522; 0x30f0206ac5f468a2041030f0; 0x206ac5f467a240f081a13f6a; 0x016d8cea62ea036057e3ff6a;
  0x4ced40f061a1406a6cea0322; 0x014dff6a4ced0c926f450894; 0x78eafff71f6a12eb6de41f10; 0x40f0c1a10d973f6b406aff6c;
  0xccebccea77e78cea8ced0322; 0x014d8ced04100d9242eb0161; 0x016d0a930994fff71f6a0896; 0x8de30c944ceb0ad398ed12eb;
  0x6de64ceb30f0206a25f6489a; 0x016e08d3ccea0c2240f041a1; 0x10f0246c3f6f5a33bef2004c; 0x6cee4cef801854190b920994;
  0x129711935de78de3fff71f6a; 0x4ceb4cef0bd709d340f061a1; 0x406a6dea40f041c130f0206a; 0x25f6489a0895016b6cea0cd5;
  0x0822089610f0246cbef2104c; 0xb0678018541909960a970894; 0x0b95ebe6fff71f6b6cea04d2; 0xcbe4abe20b960c9509979067;
  0x05d28018aa1c0e963826fd67; 0x8747214ce0ac30f0206a9d67; 0xb3f16440c0f1084aa7446433; 0x4de31d4de0cb80ad33f36440;
  0xbd67c74564334de3254e80cb; 0xa0aeb3f26440dd67e7466433; 0x4de3194fa0cbc0af33f26440; 0x643349e3c0ca20f048a10893;
  0xfff71f6fecea43eb00f11e61; 0x906780187b23906780181c25; 0x1711bd67c74530f0206a4ff7; 0x004a214e0c34a0ae91e2dd67;
  0x30f0206ab3f06440c0f1084a; 0xe74664334de31d4fa0cbc0af; 0x33f16440fd67a74764334de3; 0x254dc0cbe0ad33f064406433;
  0x4de3e0cbb2f76440643349e3; 0x7d67a743194d60ad0896fff7; 0x1f6d60ca43accfe562ea0260; 0x49e643cca74030f0206b444d;
  0x30f0206ab2f78440ac35eff4; 0x084b6de58434c0f1084a51e4; 0x0ad380ac64a363ec08619067; 0x8018e7210a9741a7014a41c7;
  0xc31020f087a1806b6beb8ceb; 0xff6c8ceba0f01a2365f4409a; 0x016b6cea072210f0246cdef2; 0x004cb0678018541990678018;
  0xe72120f067a17f6a6cea20f0; 0x47c1a41030f0206ac0f1084a; 0x65f4609a016c8ceb15230993; 0x0b940c9504d3b2f764406433;
  0x05d406d549e340aa0f951096; 0x0d9710f0246cdef20c4c07d2; 0x8018541910920f96006dceea; 0x212a40f0c1a10d973f6b406a;
  0xff6cccebccea77e78cea8ced; 0x0322014d8ced04100d9242eb; 0x0161016d0a930994fff71f6a; 0x08968de30c944ceb0ad398ed;
  0x12eb79e64cee08d630f0206a; 0x25f6489a016eccea0c2240f0; 0x41a110f0246c3f6f5a33bef2; 0x004c6cee4cef801854191297;
  0x0b931195099669e7fff71f6c; 0xcde540f0a1a18cea8ceb416c; 0x8becacec40f081c10e971a27; 0xdd67e746214fb3f1a44030f0;
  0x206cc0afc0f1084ca43595e5; 0xc0cd33f3a440a43595e560cd; 0xb3f2644064338de340cb23f2; 0x14481910dd67e746214fb3f0;
  0xa44030f0206cc0afc0f1084c; 0xa43595e5c0cd33f1a440a435; 0x95e560cd33f0644064338de3; 0x40cba2f71448fd674747194a;
  0xe0aa043091e0e0cc0d9240f0; 0x81a13f6b4ceb406a4bea8cea; 0x6dea40f041c10e1030f0206a; 0x25f6489a016b6cea072210f0;
  0x246cfef21c4cb06780185419; 0x1797169115900c6300ef0065; 0x016a20e820e8006520e80065; 0x20e80065fc63076206d105d0;
  0x01751f6110f0246a7cf43c9a; 0x30f02068cef45098b16741f1; 0x086c026e40eacef45098b167; 0x41f10c6c026e40ea10f0246a;
  0xdcf5249a21f4006ccef45098; 0xb167006e46100275266110f0].
Definition fw_rows_75 : list Z := [
  0x246a7cf43c9a30f02068cef4; 0x5098b16741f1086c026e40ea; 0xcef45098b16741f10c6c016e; 0x40ea10f0246adcf5249acef4;
  0x509821f4006cb167006e40ea; 0xcef45098e1f0106cb167016e; 0x251010f0246a7cf43c9a30f0; 0x2068cef45098b16741f1086c;
  0x026e40eacef45098b16741f1; 0x0c6c026e40ea10f0246adcf5; 0x249acef4509821f4006cb167; 0x016e40eacef45098e1f0106c;
  0xb167006e40ea079706910590; 0x046300effb63096208d107d0; 0x0bd56ba4ff6a276704674ce9; 0x122310f0246adcf45c9a609c;
  0x6cea4b2210f0246c10f0246d; 0x1ef3084c7cf1104d80185419; 0x4010022e5459146110f0246a; 0xdcf47c9a40984ceb006a3623;
  0x10f0246c10f0246d3ef30c4c; 0x7cf1104d80185419006a2a10; 0x046c8bec2cec4cec30f0206a; 0xcef4509a0b96fff71f6b03f5;
  0x004c016d6cecabed40ea10f0; 0x246adcf45c9a60986cea1122; 0x03f5404104d20b9210f0246c; 0x10f0246d5ef30c4c7cf1104d;
  0x006ef16705d280185419016a; 0x099708910790056300ef0065; 0xfa630b620ad109d0ff692cee; 0x0cd4456706d6022d545e1561;
  0x0c9510f0246bdcf47c9b809d; 0xff698ceb542310f0246c10f0; 0x246d3ef30c4c5cf1104dc267; 0x80185419481010f0246b30f0;
  0x2068bcf4184ba09bcef45098; 0x83f1186c006e40eacef45098; 0x069683f1186cff6d40ea10f0; 0x246bbcf4184ba09bcef45098;
  0x016e83f1186c40ea10f0246a; 0x9cf7a89a21f5106c00189ce7; 0x10f0246bbcf4184ba09b4ce9; 0xcef4509883f1186c006e40ea;
  0x0c9410f0246adcf45c9a609c; 0x6cea0d22069710f0246c10f0; 0x246d7ef31c4c5cf1104d006e; 0x04d18018541951670b970a91;
  0x0990066300ef0065f9630d62; 0x0cd10bd0ff68ece8fc6a036b; 0x0cea0ceb0ed40fd508d209d3; 0x062e54580460006907d206d1;
  0x15100e9410f0246adcf47c9a; 0x409c4ceb006a4f2310f0246c; 0x10f0246d3ef30c4c9cf1104d; 0x80185419006a43100993ff6a;
  0x2cea6eea06220e940796006d; 0x8018202703100f933f6a6cea; 0x06942c3344eb4dec07920149; 0x0471014a07d20793ff6a06d4;
  0x4ceb07d3e361089430f0206a; 0xcef4509a0696016d03f5004c; 0xabed40ea0e9410f0246adcf4; 0x7c9a409c4ceb016a122303f5;
  0x404004d20f9210f0246c10f0; 0x246d5ef30c4c9cf1104d006e; 0xf06705d280185419016a0d97; 0x0c910b90076300effa630b62;
  0x0ad109d00cd445671a2510f0; 0x246bdcf47c9b809c8ceb042b; 0x016a4bea06d2341010f0246c; 0x10f0246d3ef30c4c3cf2184d;
  0xc26780185419016c8bec06d4; 0x251010f0246a5cf6009aff69; 0xcce9ece82834b06705f0004c; 0x00189ce70c9506d210f0246a;
  0xdcf45c9a609d6cea0f220692; 0x10f0246c10f0246dbef3044c; 0x3cf2184d006ef16704d205d0; 0x8018541906920b970a910990;
  0x066300eff9630d620cd10bd0; 0x0ed445671291132510f0246b; 0xdcf47c9b809c8ceb7f2310f0; 0x246c10f0246d3ef30c4c1cf2;
  0x184dc26780185419731010f0; 0x246a5cf6409aff68006b4cef; 0x4aefcce808d709d330600e94; 0xa367d067e2678018912709d2;
  0x014a132a0e9410f0246adcf4; 0x5c9a609c6cea562210f0246c; 0x10f0246ddef3104c1cf2184d; 0x801854194b10006b43670894;
  0x016d86ebacec072c014aff6c; 0x8cea1472014bf561146a0895; 0x099324eaafea6cea4de910f0; 0x246a5cf6409a00f50033016d;
  0x2cea6dea30f0206bcef4f09b; 0x10f0246bbcf7c09b81f4106c; 0xabed4cee40ef0e9410f0246a; 0xdcf45c9a609c6cea11220995;
  0x089210f0246c05d510f0246d; 0xfef3144c1cf2184d006ef067; 0x04d106d28018541930f0206a; 0xcef45c9a0d6c40ea016a0110;
  0x006a0d970c910b90076300ef; 0xf9630d620cd10bd010f0246a; 0xdcf45c9a609cff6824676cea; 0xace80a2210f0246c10f0246d;
  0x3ef4104cdcf1144d80185419; 0x4ba1132210f0246adcf45c9a; 0x60996ceac0f11a2210f0246c; 0x10f0246d1ef3084cdcf1144d;
  0x80185419cf1130f0216ad0f4; 0x04c210f0246a5cf6e09a9167; 0x006d186e8018912709d20993; 0x006a014b0123016a016b4ceb;
  0x07d360f250a1006b08d3122a; 0x10f0246a5cf6e09aa3679167; 0xb86e8018912708d20893006a; 0x014b0123016a07934ceb07d3;
  0x0f58716010f0246abcf7449a; 0x099301f41c6c01f7006d4ceb; 0x0deb06d330f0206bcef4509b; 0x006e40ea30f0206bcef4509b;
  0x10f0246bbcf7a89b61f0006c; 0x61f10a6e40ea60f250a1072a; 0x10f0246a0893dcf4449a4deb; 0x08d30e70206130f0206bcef4;
  0x509b016d21f2046cabed17f0; 0x1c6e40ea30f0206bcef4509b; 0x21f2086cfff71f6d006e40ea; 0x30f0206b016dcef4509ba1f2;
  0x0c6cabed66f6076e241030f0; 0x206acef4709a10f0246abcf7; 0xcc9a016d21f2046cabed40eb; 0x30f0206bcef4509b21f2086c;
  0xfff71f6d11f0106e40ea30f0; 0x206bcef4509b10f0246bbcf7; 0xd09b016da1f20c6cabed40ea; 0xe5102458c0f0166110f0246a;
  0xbcf7449a09934ceb0deb06d3; 0x6840e44bff6a4ceb1d5b2161; 0x6840a44b4ceb295b056010f0; 0x246abcf45c9a06108d580861;
  0x10f0246adcf4409a06934deb; 0x06d30d1010f0246adcf45c9a; 0x60996cea00f1042210f0246c; 0x5ef40c4ce3106840e44bff6a;
  0x4ceb1d5b0a6030f0206acef4; 0x509a01f41c6c01f7006d016e].
Definition fw_rows_76 : list Z := [
  0x1a106840a44b4ceb2d5b0a60; 0x30f0206acef4509a01f41c6c; 0x01f7006d026e0b1095581161; 0x30f0206acef4509a01f41c6c;
  0x01f7006d036e40ea6840e44b; 0xff6a4ceb0d5b1b600d1010f0; 0x246adcf45c9a60996ceac0f0; 0x052210f0246c7ef41c4ca410;
  0x30f0206a10f0246bcef4509a; 0x61f0006cbcf7a89b80f4146e; 0x35106840d44b4ceb0d5b0d60; 0x30f0206a10f0246bcef4509a;
  0x61f0006cbcf7a89b40f4136e; 0x23106840a44b4ceb115b0d60; 0x30f0206a10f0246bcef4509a; 0x61f0006cbcf7a89b40f4126e;
  0x11106840924b4ceb3c5b1160; 0x30f0206a10f0246bcef4509a; 0xbcf7a89b61f0006c00f4126e; 0x40ea60f250a12e2a0c1010f0;
  0x246adcf45c9a60996cea7222; 0x10f0246cbef40c4c51104840; 0xcf4aff6b6cea135a076010f0; 0x246abcf7549a08934ceb0610;
  0x10f0246adcf4449a08934deb; 0x08d30c1010f0246adcf45c9a; 0x60996cea512210f0246cfef4; 0x004c301010f0246b5cf6004b;
  0x0692e09b9167006d186e04d2; 0x8018b72707934ceb07d360f2; 0x50a1112a10f0246b5cf6004b; 0x0892e09b9167006db86e04d2;
  0x8018b72707934cebff6a4ceb; 0x07d30792132a10f0246adcf4; 0x5c9a60996cea202210f0246c; 0x1ef5044c10f0246ddcf1144d;
  0xd06780185419141010f0246a; 0xdcf45c9a60996cea0b2210f0; 0x246c10f0246d5ef5104cdcf1; 0x144dd06780185419016a0110;
  0x006a0d970c910b90076300ef; 0xfa630b620ad109d0ff6aacea; 0x06d210f0246adcf45c9a609c; 0x04676cea0a2210f0246c10f0;
  0x246d7ef51c4cfcf1184d8018; 0x54194ba0132210f0246adcf4; 0x5c9a60986ceac0f0132210f0; 0x246c10f0246d1ef3084cfcf1;
  0x184d80185419c81010f0246a; 0x5cf6e09a9067006d186e8018; 0x912707d206920f5a486030f0; 0x206910f0246b7cf4b49bcef4;
  0x509901f0086c016e40eacef4; 0x509940f4146c806d006e40ea; 0x10f0246bcef45099dcf4a09b; 0x81f2006c006e40eacef45099;
  0x01f0146c1ff4006d0f6e40ea; 0x10f0246abcf7389a07924ce9; 0x30f0216a70f351a203229067; 0x006d02109067016d001886c5;
  0x10f0246a5cf6e09a9067006d; 0x186e04d18018b72706959067; 0x22678018ae26432a71100692; 0x245a336130f0206910f0246b;
  0xdcf4a09bcef4509981f2006c; 0x016e40eacef4509940f4146c; 0x806d016e40ea10f0246bcef4; 0x50997cf4b49b01f0086c006e;
  0x40eacef4509901f0146c1ff4; 0x006d0f6e40ea10f0246abcf7; 0x389a07929067026d4ce910f0; 0x246abcf75c9a4de9b71710f0;
  0x246adcf45c9a60986cea3422; 0x10f0246cfef4004c14100792; 0x006b014a0122016bff6a2cea; 0x6cea132a10f0246adcf45c9a;
  0x60986cea1f2210f0246c9ef5; 0x1c4c069610f0246dfcf1184d; 0x80185419131010f0246adcf4; 0x5c9a60986cea0e22069610f0;
  0x246c10f0246dfef5084cfcf1; 0x184d801854190210006a0110; 0x016a0b970a910990066300ef; 0xfa630b620ad109d0ff6aacea;
  0x06d210f0246adcf45c9a609c; 0x046726676cea0a2210f0246c; 0x10f0246d1ef6104cbcf1104d; 0x801854194ba0132210f0246a;
  0xdcf45c9a60986cea80f10122; 0x10f0246c10f0246d1ef3084c; 0xbcf1104d8018541976110659; 0x0a60017103610693035b0410;
  0x027110610694055c0d6110f0; 0x246adcf45c9a60986cea60f1; 0x042210f0246c3ef60c4c3d11; 0x30f0216ad0f420da10f0246a;
  0x5cf6e09a9067006d186e8018; 0x9127065907d2e0f0196010f0; 0x246a28333cf1184a69e2409a; 0x00ea016da1f00c6cabed0018;
  0x9ce710f0246bdcf7609b016d; 0xa1f00c6c4ceb30f0206acef4; 0xf09a10f0246adcf7c49aabed; 0x6dee40ef30f0206bcef4509b;
  0x10f0246b9cf4a09bc1f0046c; 0x016e40ea079401f4006a8dea; 0xdc1006920172096130f0206a; 0xcef4509a01f2006c106d016e;
  0x081030f0206acef4509a01f2; 0x006c106d006e40ea016da1f0; 0x0c6cabed00189ce710f0246b; 0xdcf7689b06940f6e4ceb10f0;
  0x246adcf74c9a8ceec83630f0; 0x206c4deecef4509c016d6dee; 0xa1f00c6cabed40ea30f0206b; 0xcef4509b10f0246b9cf4a09b;
  0xc1f0046c016e40ea079401f4; 0x016a4bea8cea01f0006b3110; 0x016da1f00c6cabed00189ce7; 0x10f0246bdcf7709b0f6e30f0;
  0x206c4ceb0692016dabed4cee; 0x10f0246adcf7549ac8364dee; 0xcef4509c6deea1f00c6c40ea; 0x30f0206bcef4509b10f0246b;
  0x9cf4a09bc1f0046c016e40ea; 0x079401f4016a4bea8cea00f4; 0x006b6dea6210016da1f00c6c; 0xabed00189ce710f0246bdcf7;
  0x789b016da1f00c6c4ceb30f0; 0x206acef4f09a10f0246aabed; 0xdcf7dc9a1710016da1f00c6c; 0xabed00189ce710f0246bdcf7;
  0x789b30f0206c016d4ceb10f0; 0x246afcf7c09acef4f09cabed; 0xa1f00c6c6dee40ef30f0206b; 0xcef4509b10f0246b9cf4a09b;
  0xc1f0046c006e40ea10f0246b; 0x30f0206ccef4509cdcf5a49b; 0xc1f0086c016e40ea01f4006a; 0x0793b11710f0246adcf47c9a;
  0x40984ceb07920d23069710f0; 0x246c10f0246d3ef60c4cbcf1; 0x104dd16780185419079204d2; 0x10f0246a5cf6e09a9067006d;
  0x186e8018b7270793006c014b; 0x0123016cff6b4ceb8ceb142b; 0x10f0246adcf45c9a60986cea; 0x262210f0246c7ef6084c0697;
  0x10f0246dbcf1104dd1678018; 0x541919109067b1678018b226].
Definition fw_rows_77 : list Z := [
  0x10f0246adcf45c9a60986cea; 0x0c22069710f0246c10f0246d; 0xdef6084cbcf1104dd1678018; 0x5419016a0110006a0b970a91;
  0x0990066300ef0065fb630962; 0x08d107d0ff680ced24670dd7; 0x04d5cce8801803290f220495; 0x9167801801280a220d969167;
  0xb067801881294beb4debc0f7; 0x62320110006a099708910790; 0x056300ef30f0206b86f099a3; 0x30f0206a1f6b8cebeff4084a;
  0x80f664c2ff6dff4baceb006c; 0x075b80f687c2086010f0246a; 0x68335cf2184a69e2409a00ea; 0x016b80f665c280f686c20a10;
  0x30f0206aeff4084a016b80f6; 0x65c280f666c2006c80f689c2; 0x381030f0206aeff4084a016b; 0x80f665c2081030f0206a016b;
  0xeff4084a80f665c2006b80f6; 0x66c2231030f0206aeff4084a; 0x016c006b80f685c280f666c2; 0xdf1730f0206aeff4084a006b;
  0x026c80f665c280f669c280f6; 0x86c2016b0c1030f0206aeff4; 0x084a016b006c80f665c280f6; 0x86c280f669c280f668c220e8;
  0xfb63096208d107d030f0206b; 0xff6aeff4084b8cea80f685a3; 0x4f2480f667a3006901230169; 0x30f0216b70f370a3022b016b;
  0x6ee9052a3b10016a4ee904d2; 0x0210006a04d210f0246b30f0; 0x2068fcf7a49bcef450984c6c; 0x026e40ea0493142bcef45098;
  0xa1f4146cff6d776e40ea0159; 0x386710f0246b026ecef45098; 0xa1f4146c7cf4bc9b3be61210; 0xcef45098a1f4146cff6d666e;
  0x40ea10f0246b0159cef45098; 0x7cf4bc9bd867a1f4146c014e; 0x40ea061030f0216a70f351a2; 0xc022c3170997089107900563;
  0x00ef0065fd63056210f0306b; 0xc1f7b1a3ff6a4cec016baceb; 0x0f5c4ceb0a6010f0246afcf7; 0x889afc6aa0a4acea40c4006c;
  0x0e10245c006c0b6110f0246c; 0xfcf7a89c036e80a54ceccdec; 0x4cec80c5016c022380189e2a; 0x0597036300ef006510f0216a;
  0x84f4084a30f0206b8ef648db; 0x10f0216a24f5004a30f0206b; 0x8ef64cdb10f0216ac4f5144a; 0x30f0206b8ef650db10f0216a;
  0x24f6084a30f0206b8ef654db; 0x10f0216a64f6044a30f0206b; 0x8ef658db10f0216ae4f6004a; 0x30f0206b8ef65cdb10f0216a;
  0xe4f7184a30f0206baef640db; 0x10f0216a65f1144a30f0206b; 0xaef644db10f0216a45f2144a; 0x30f0206baef648db10f0216a;
  0x45f3084a30f0206baef64cdb; 0x10f0216ac5f5104a30f0206b; 0xaef650db10f0216aa5f7144a; 0x30f0206baef654db10f0216a;
  0xa5f7184a30f0206baef658db; 0x10f0216a06f1184a30f0206b; 0xaef65cdb10f0216ac6f10c4a; 0x30f0206bcef640db20e80065].
Definition fw_rows_end : Z := 0xe8d2000000000000.
Definition fw_rows : list (list Z) := [
  fw_rows_00; fw_rows_01; fw_rows_02; fw_rows_03; fw_rows_04; fw_rows_05; fw_rows_06; fw_rows_07;
  fw_rows_08; fw_rows_09; fw_rows_10; fw_rows_11; fw_rows_12; fw_rows_13; fw_rows_14; fw_rows_15;
  fw_rows_16; fw_rows_17; fw_rows_18; fw_rows_19; fw_rows_20; fw_rows_21; fw_rows_22; fw_rows_23;
  fw_rows_24; fw_rows_25; fw_rows_26; fw_rows_27; fw_rows_28; fw_rows_29; fw_rows_30; fw_rows_31;
  fw_rows_32; fw_rows_33; fw_rows_34; fw_rows_35; fw_rows_36; fw_rows_37; fw_rows_38; fw_rows_39;
  fw_rows_40; fw_rows_41; fw_rows_42; fw_rows_43; fw_rows_44; fw_rows_45; fw_rows_46; fw_rows_47;
  fw_rows_48; fw_rows_49; fw_rows_50; fw_rows_51; fw_rows_52; fw_rows_53; fw_rows_54; fw_rows_55;
  fw_rows_56; fw_rows_57; fw_rows_58; fw_rows_59; fw_rows_60; fw_rows_61; fw_rows_62; fw_rows_63;
  fw_rows_64; fw_rows_65; fw_rows_66; fw_rows_67; fw_rows_68; fw_rows_69; fw_rows_70; fw_rows_71;
  fw_rows_72; fw_rows_73; fw_rows_74; fw_rows_75; fw_rows_76; fw_rows_77].
(** The last line holds eight bytes. *)
Definition rtw8821c_fw_data : list Z := concat (map lines fw_rows) ++ be 8 fw_rows_end.
Definition rtw8821c_fw_data_len : Z := 139472.

(** ** It is well formed *)

Lemma be_ok k n : bytes_ok (be k n).
Proof.
  unfold bytes_ok, be. apply List.Forall_map, List.Forall_forall. intros i _. unfold byte_ok. pose proof (land_ones_range 8 (n >> (8 * Z.of_nat i)) ltac:(lia)) as H.
  change (Z.ones 8) with 0xff in H. change (2 ^ 8) with 256 in H. exact H.
Qed.
Lemma be_length k n : length (be k n) = k.
Proof. unfold be. by rewrite length_map, length_rev, length_seq. Qed.
Lemma lines_ok l : bytes_ok (lines l).
Proof. unfold lines, bytes_ok. apply Forall_concat. apply List.Forall_map, List.Forall_forall. intros n _. apply be_ok. Qed.
Lemma lines_length l : Z.of_nat (length (lines l)) = 12 * Z.of_nat (length l).
Proof. unfold lines. induction l as [|n l IH]; [done|]. cbn [map concat]. rewrite length_app, be_length. cbn [length]. lia. Qed.

Lemma fw_bytes_ok : bytes_ok rtw8821c_fw_data.
Proof.
  unfold rtw8821c_fw_data, bytes_ok. apply Forall_app. split; [|apply be_ok]. apply Forall_concat, List.Forall_map, List.Forall_forall. intros l _. apply lines_ok.
Qed.

(** The header lies in the first lines. *)
Definition fw_header : list Z := Eval vm_compute in take 64 (lines fw_rows_00).
Lemma fw_first : take 64 (lines fw_rows_00) = fw_header.
Proof. vm_compute. reflexivity. Qed.
Lemma fw_head i : (i < 64)%nat -> rtw8821c_fw_data.[i] = fw_header.[i].
Proof.
  intros Hi. rewrite <- fw_first. unfold rtw8821c_fw_data, fw_rows. cbn [map concat]. rewrite <- app_assoc. pose proof (lines_length fw_rows_00) as Hl.
  assert (E : Z.of_nat (length fw_rows_00) = 150) by reflexivity. rewrite app_nth1 by lia.
  rewrite <- (take_drop 64 (lines fw_rows_00)) at 1. rewrite app_nth1; [reflexivity|]. rewrite length_take. lia.
Qed.
Lemma fw_word off : (off + 4 <= 64)%nat -> word_at rtw8821c_fw_data off = word_at fw_header off.
Proof. intros H. unfold word_at. by rewrite !fw_head by lia. Qed.
Lemma rows_length (ls : list (list Z)) : Z.of_nat (length (concat (map lines ls))) = 12 * foldr (fun l n => Z.of_nat (length l) + n) 0 ls.
Proof. induction ls as [|l ls IH]; [done|]. cbn [concat map foldr]. rewrite length_app, Nat2Z.inj_add, IH, lines_length. lia. Qed.
Lemma fw_length : Z.of_nat (length rtw8821c_fw_data) = rtw8821c_fw_data_len.
Proof.
  unfold rtw8821c_fw_data. rewrite length_app, be_length, Nat2Z.inj_add, rows_length.
  assert (E : foldr (fun l n => Z.of_nat (length l) + n) 0 fw_rows = 11622) by (vm_compute; reflexivity). by rewrite E.
Qed.
(** The proofs below use only these facts of it. *)
#[local] Opaque rtw8821c_fw_data.

Lemma fw_sizes_are : dmem_len rtw8821c_fw_data = 31984 /\ imem_len rtw8821c_fw_data = 63248 /\ emem_len rtw8821c_fw_data = 44176.
Proof. unfold dmem_len, imem_len, emem_len, hdr_emem. rewrite !fw_word, fw_head by lia. vm_compute. done. Qed.
Lemma fw_image_ok : image_ok rtw8821c_fw_data.
Proof.
  destruct fw_sizes_are as (E1 & E2 & E3). unfold image_ok. rewrite E1, E2, E3, fw_length. pose proof fw_length as Hl. unfold rtw8821c_fw_data_len in *.
  split; [apply fw_bytes_ok|]. split; [lia|]. split; [change (2 ^ 32) with 4294967296; lia|unfold FW_HDR_SIZE; lia].
Qed.

(** ** Where it goes *)

(** A section in pieces of at most [max_size]: addresses and lengths. *)
Fixpoint pieces (fuel : nat) (a n : Z) : list (Z * Z) :=
  match fuel with
  | O => []
  | S fuel => if n <=? 0 then [] else (a, Z.min max_size n) :: pieces fuel (a + max_size) (n - max_size)
  end.
(** Data, instruction and emulation memory. *)
Definition fw_plan : list (Z * Z) := pieces 8 0x200000 31984 ++ pieces 16 0x30000 63248 ++ pieces 11 0x100000 44176.

Lemma chunks_pieces fuel dst : forall off bs, 0 <= dst -> 0 <= off -> dst + off + Z.of_nat (length bs) < 2 ^ 32 ->
  map (fun '(a, bs) => (a, Z.of_nat (length bs))) (chunks fuel dst off bs) = pieces fuel (dst + off) (Z.of_nat (length bs)).
Proof.
  induction fuel as [|fuel IH]; intros off bs Hd Ho Hl; [by destruct bs|]. destruct bs as [|b bs]; [done|]. cbn [chunks pieces]. set (l := b :: bs) in *.
  assert (Hp : 0 < Z.of_nat (length l)) by (subst l; cbn; lia). clearbody l. destruct (Z.leb_spec (Z.of_nat (length l)) 0); [lia|]. cbn [map]. rewrite u32_small by lia.
  rewrite length_take. assert (Em : Z.of_nat (Z.to_nat max_size) = max_size) by done. f_equal; [f_equal; lia|].
  destruct (Z.le_gt_cases (Z.of_nat (length l)) max_size) as [Hs|Hs].
  - rewrite drop_ge by lia. destruct fuel; [done|]. cbn [chunks map pieces]. destruct (Z.leb_spec (Z.of_nat (length l) - max_size) 0); [done|lia].
  - rewrite IH; [|lia|unfold max_size in *; lia|rewrite length_drop; unfold max_size in *; lia]. rewrite length_drop. f_equal; lia.
Qed.

Lemma section_pieces k dst off n : 0 <= dst -> 0 <= off -> 0 <= n -> off + n <= rtw8821c_fw_data_len -> dst + n < 2 ^ 32 ->
  S (Z.to_nat n / Z.to_nat max_size) = k ->
  map (fun '(a, bs) => (a, Z.of_nat (length bs))) (section_chunks dst (section rtw8821c_fw_data off n)) = pieces k dst n.
Proof.
  intros Hd Ho Hn Hl Hw <-. pose proof (section_length rtw8821c_fw_data off n Ho Hn ltac:(rewrite fw_length; lia)) as El. unfold section_chunks.
  replace (length (section rtw8821c_fw_data off n)) with (Z.to_nat n) by lia. rewrite chunks_pieces by lia. by rewrite El, Z.add_0_r.
Qed.

Lemma fw_plan_is : map (fun '(a, bs) => (a, Z.of_nat (length bs))) (concat (map (fun '(a, bs) => section_chunks a bs) (image_sections_at rtw8821c_fw_data))) = fw_plan.
Proof.
  destruct fw_sizes_are as (E1 & E2 & E3). unfold image_sections_at. rewrite !fw_word, E1, E2, E3 by lia. cbn [map concat]. rewrite app_nil_r, !map_app.
  assert (A : word_at fw_header 32 .& .~ (BIT 31) = 0x200000 /\ word_at fw_header 60 .& .~ (BIT 31) = 0x30000 /\ word_at fw_header 56 .& .~ (BIT 31) = 0x100000) by (by vm_compute).
  destruct A as (-> & -> & ->). unfold fw_plan, FW_HDR_SIZE, rtw8821c_fw_data_len in *.
  rewrite (section_pieces 8), (section_pieces 16), (section_pieces 11); try (change (2 ^ 32) with 4294967296; unfold rtw8821c_fw_data_len; lia); try (by vm_compute).
Qed.

(** No byte of the chip is named twice. *)
Definition apart (x y : Z * Z) : bool := (x.1 + x.2 <=? y.1) || (y.1 + y.2 <=? x.1).
Fixpoint all_apart (l : list (Z * Z)) : bool := match l with [] => true | x :: l => forallb (apart x) l && all_apart l end.

(** C28: where the shipped firmware goes.  With the rings up, a download of the
    image the driver ships that returns 0 has started the chip's copy engine for
    exactly 35 pieces: 31984 bytes of data memory at 0x200000, 63248 of
    instruction memory at 0x30000 and 44176 of emulation memory at 0x100000, each
    piece at most 4096 bytes, none over another, and together every byte of the
    file after its header, once and in order. *)
Theorem shipped_firmware_placed (d : rtw_dev) (s : trx_state) (m : gmap Z Z) : trx_chip d -> trx_up s m ->
  wp (dl_mon (d_handle (g_pkt s))) (download_firmware d s rtw8821c_fw_data) dl_log0 (fun '(ret, _, _) l =>
    ret = 0 -> map (fun '(a, bs) => (a, Z.of_nat (length bs))) (dl_out l) = fw_plan /\ all_apart fw_plan = true /\
               concat (map snd (dl_out l)) = drop 64 rtw8821c_fw_data).
Proof.
  intros Hd Hs. eapply wp_mono; [by apply (download_places d s rtw8821c_fw_data m Hd Hs fw_image_ok)|]. intros [[ret d'] s'] l H Hret.
  destruct (H Hret) as [E1 E2]. split; [rewrite E1; exact fw_plan_is|]. split; [vm_compute; reflexivity|exact E2].
Qed.
Lemma shipped_firmware_placed_witness :
  wp (dl_mon 2) (download_firmware (example_dev [] []) trx_up_example rtw8821c_fw_data) dl_log0 (fun '(ret, _, _) l =>
    ret = 0 -> map (fun '(a, bs) => (a, Z.of_nat (length bs))) (dl_out l) = fw_plan /\ all_apart fw_plan = true /\
               concat (map snd (dl_out l)) = drop 64 rtw8821c_fw_data).
Proof. apply (shipped_firmware_placed (example_dev [] []) trx_up_example mem_example); [by constructor|apply trx_up_example_ok]. Defined.
