(* ===== verification/MacInit.v ===== *)
(** * MacInit: MAC configuration after the firmware download (core/macinit.c)

    Queue mapping, the transmit FIFO's page layout, the host-to-chip queue, the
    protocol registers.  Proved: the layout's regions tile the reserved part of
    the FIFO and its consistency check never fires; the page registers split the
    available pages exactly among the queues. *)
From stdpp Require Import gmap.
From S2P Require Import Prelude Hw Regs Dev.
Open Scope Z_scope.
Open Scope rtw_scope.

Definition RSVD_PG_H2C_EXTRAINFO_NUM : Z := 0x18.
Definition RSVD_PG_H2C_STATICINFO_NUM : Z := 8.
Definition RSVD_PG_H2CQ_NUM : Z := 8.
Definition RSVD_PG_CPU_INSTRUCTION_NUM : Z := 0.
Definition RSVD_PG_FW_TXBUF_NUM : Z := 4.
Definition C2H_PKT_BUF : Z := 0x100.
Definition PHY_STATUS_SIZE : Z := 4.
Definition TX_PAGE_SIZE_SHIFT : Z := 7.
Definition WLAN_SLOT_TIME : Z := 9.
Definition WLAN_PIFS_TIME : Z := 0x19.
Definition WLAN_SIFS_CCK_CONT_TX : Z := 0xa.
Definition WLAN_SIFS_OFDM_CONT_TX : Z := 0xe.
Definition WLAN_SIFS_CCK_TRX : Z := 0x10.
Definition WLAN_SIFS_OFDM_TRX : Z := 0x10.
Definition WLAN_VO_TXOP_LIMIT : Z := 0x186.
Definition WLAN_VI_TXOP_LIMIT : Z := 0x3bc.
Definition WLAN_RDG_NAV : Z := 5.
Definition WLAN_TXOP_NAV : Z := 0x1b.
Definition WLAN_CCK_RX_TSF : Z := 0x30.
Definition WLAN_OFDM_RX_TSF : Z := 0x30.
Definition WLAN_TBTT_PROHIBIT : Z := 4.
Definition WLAN_TBTT_HOLD_TIME : Z := 0x64.
Definition WLAN_DRV_EARLY_INT : Z := 4.
Definition WLAN_BCN_DMA_TIME : Z := 2.
Definition WLAN_RX_FILTER0 : Z := 0xfffffff.
Definition WLAN_RX_FILTER2 : Z := 0xffff.
Definition WLAN_RCR_CFG : Z := 0xe400220e.
Definition WLAN_RXPKT_MAX_SZ : Z := 0x3000.
Definition WLAN_RXPKT_MAX_SZ_512 : Z := 0x18.
Definition WLAN_AMPDU_MAX_TIME : Z := 0x70.
Definition WLAN_RTS_LEN_TH : Z := 0xff.
Definition WLAN_RTS_TX_TIME_TH : Z := 8.
Definition WLAN_MAX_AGG_PKT_LIMIT : Z := 0x20.
Definition WLAN_RTS_MAX_AGG_PKT_LIMIT : Z := 0x20.
Definition FAST_EDCA_VO_TH : Z := 6.
Definition FAST_EDCA_VI_TH : Z := 6.
Definition FAST_EDCA_BE_TH : Z := 6.
Definition FAST_EDCA_BK_TH : Z := 6.
Definition WLAN_BAR_RETRY_LIMIT : Z := 1.
Definition WLAN_RA_TRY_RATE_AGG_LIMIT : Z := 8.
Definition WLAN_TX_FUNC_CFG1 : Z := 0x30.
Definition WLAN_TX_FUNC_CFG2 : Z := 0x30.
Definition WLAN_MAC_OPT_NORM_FUNC1 : Z := 0x98.
Definition WLAN_MAC_OPT_LB_FUNC1 : Z := 0x80.
Definition WLAN_MAC_OPT_FUNC2 : Z := 0xb0810041.
Definition WLAN_SIFS_CFG : Z := 0x10100e0a.
Definition WLAN_TBTT_TIME : Z := 0x6404.
Definition WLAN_NAV_CFG : Z := 0x1b0005.
Definition WLAN_RX_TSF_CFG : Z := 0x3030.
Definition WLAN_PRE_TXCNT_TIME_TH : Z := 0x1e4.
Definition REG_INIRTS_RATE_SEL : Z := 0x480.

(** ** Tables *)

Definition page_table_8821c : list rtw_page_table := [
  PageTable 16 16 16 14 1;
  PageTable 16 16 16 14 1;
  PageTable 16 16 0 0 1;
  PageTable 16 16 16 0 1;
  PageTable 16 16 16 14 1
].
Definition rqpn_table_8821c : list rtw_rqpn := [
  Rqpn RTW_DMA_MAPPING_NORMAL RTW_DMA_MAPPING_NORMAL
       RTW_DMA_MAPPING_LOW RTW_DMA_MAPPING_LOW
       RTW_DMA_MAPPING_EXTRA RTW_DMA_MAPPING_HIGH;
  Rqpn RTW_DMA_MAPPING_NORMAL RTW_DMA_MAPPING_NORMAL
       RTW_DMA_MAPPING_LOW RTW_DMA_MAPPING_LOW
       RTW_DMA_MAPPING_EXTRA RTW_DMA_MAPPING_HIGH;
  Rqpn RTW_DMA_MAPPING_NORMAL RTW_DMA_MAPPING_NORMAL
       RTW_DMA_MAPPING_NORMAL RTW_DMA_MAPPING_HIGH
       RTW_DMA_MAPPING_HIGH RTW_DMA_MAPPING_HIGH;
  Rqpn RTW_DMA_MAPPING_NORMAL RTW_DMA_MAPPING_NORMAL
       RTW_DMA_MAPPING_LOW RTW_DMA_MAPPING_LOW
       RTW_DMA_MAPPING_HIGH RTW_DMA_MAPPING_HIGH;
  Rqpn RTW_DMA_MAPPING_NORMAL RTW_DMA_MAPPING_NORMAL
       RTW_DMA_MAPPING_LOW RTW_DMA_MAPPING_LOW
       RTW_DMA_MAPPING_EXTRA RTW_DMA_MAPPING_HIGH
].

(** ** Queue mapping *)

Definition BIT_TXDMA_VOQ_MAP (x : Z) : Z := (x .& 0x3) << 4.
Definition BIT_TXDMA_VIQ_MAP (x : Z) : Z := (x .& 0x3) << 6.
Definition BIT_TXDMA_BEQ_MAP (x : Z) : Z := (x .& 0x3) << 8.
Definition BIT_TXDMA_BKQ_MAP (x : Z) : Z := (x .& 0x3) << 10.
Definition BIT_TXDMA_MGQ_MAP (x : Z) : Z := (x .& 0x3) << 12.
Definition BIT_TXDMA_HIQ_MAP (x : Z) : Z := (x .& 0x3) << 14.

Definition set_rqpn (r : option rtw_rqpn) (f : rtw_fifo_conf) : rtw_fifo_conf :=
  FifoConf (rsvd_drv_pg_num f) (txff_pg_num f) (rsvd_pg_num f) (acq_pg_num f) (rsvd_boundary f)
    (rsvd_csibuf_addr f) (rsvd_fw_txbuf_addr f) (rsvd_cpu_instr_addr f) (rsvd_h2cq_addr f)
    (rsvd_h2c_sta_info_addr f) (rsvd_h2c_info_addr f) (rsvd_drv_addr f) r.

(** An entry beyond the table is a read outside it. *)
Definition txdma_queue_mapping (d : rtw_dev) : prog (Z * rtw_dev) :=
  match hci_type d with
  | RTW_HCI_TYPE_PCIE =>
      match rqpn_table (chip d) !! 1%nat with
      | None => act Fault;; mret (- EINVAL, d)
      | Some rqpn =>
          let d := set_fifo (set_rqpn (Some rqpn) (fifo d)) d in
          let txdma_pq_map := BIT_TXDMA_HIQ_MAP (dma_map_hi rqpn) .| BIT_TXDMA_MGQ_MAP (dma_map_mg rqpn)
            .| BIT_TXDMA_BKQ_MAP (dma_map_bk rqpn) .| BIT_TXDMA_BEQ_MAP (dma_map_be rqpn)
            .| BIT_TXDMA_VIQ_MAP (dma_map_vi rqpn) .| BIT_TXDMA_VOQ_MAP (dma_map_vo rqpn) in
          hw_write16 REG_TXDMA_PQ_MAP txdma_pq_map;;
          hw_write8 REG_CR 0;;
          hw_write8 REG_CR MAC_TRX_ENABLE;;
          (if rtw_chip_wcpu_3081 d then hw_write32 REG_H2CQ_CSR BIT_H2CQ_FULL else mret tt);;
          mret (0, d)
      end
  | _ => mret (- EINVAL, d)
  end.

(** ** The transmit FIFO *)

(** All fields are 16-bit; a page size of zero is a division by zero. *)
Definition rtw_set_trx_fifo_info (d : rtw_dev) : prog (Z * rtw_dev) :=
  let c := chip d in
  let csi := csi_buf_pg_num c in
  pages ← (if page_size c =? 0 then act Fault else mret (txff_size c / page_size c));
  let f := fifo d in
  let drv := u16 (chip_rsvd_drv_pg_num c) in
  let txff := u16 pages in
  let rsvd := u16 (drv + RSVD_PG_H2C_EXTRAINFO_NUM + RSVD_PG_H2C_STATICINFO_NUM + RSVD_PG_H2CQ_NUM +
                   RSVD_PG_CPU_INSTRUCTION_NUM + RSVD_PG_FW_TXBUF_NUM + csi) in
  if txff <? rsvd then
    mret (- ENOMEM, set_fifo (FifoConf drv txff rsvd (acq_pg_num f) (rsvd_boundary f)
      (rsvd_csibuf_addr f) (rsvd_fw_txbuf_addr f) (rsvd_cpu_instr_addr f) (rsvd_h2cq_addr f)
      (rsvd_h2c_sta_info_addr f) (rsvd_h2c_info_addr f) (rsvd_drv_addr f) (fifo_rqpn f)) d)
  else
  let acq := u16 (txff - rsvd) in
  let boundary := u16 (txff - rsvd) in
  let csibuf := u16 (txff - csi) in
  let fw_txbuf := u16 (csibuf - RSVD_PG_FW_TXBUF_NUM) in
  let cpu_instr := u16 (fw_txbuf - RSVD_PG_CPU_INSTRUCTION_NUM) in
  let h2cq := u16 (cpu_instr - RSVD_PG_H2CQ_NUM) in
  let sta_info := u16 (h2cq - RSVD_PG_H2C_STATICINFO_NUM) in
  let h2c_info := u16 (sta_info - RSVD_PG_H2C_EXTRAINFO_NUM) in
  let drv_addr := u16 (h2c_info - drv) in
  let d := set_fifo (FifoConf drv txff rsvd acq boundary csibuf fw_txbuf cpu_instr h2cq sta_info h2c_info
                       drv_addr (fifo_rqpn f)) d in
  if negb (boundary =? drv_addr) then mret (- EINVAL, d) else mret (0, d).

Definition __priority_queue_cfg (d : rtw_dev) (pg_tbl : rtw_page_table) (pubq_num : Z) : prog Z :=
  hw_write16 REG_FIFOPAGE_INFO_1 (hq_num pg_tbl);;
  hw_write16 REG_FIFOPAGE_INFO_2 (lq_num pg_tbl);;
  hw_write16 REG_FIFOPAGE_INFO_3 (nq_num pg_tbl);;
  hw_write16 REG_FIFOPAGE_INFO_4 (exq_num pg_tbl);;
  hw_write16 REG_FIFOPAGE_INFO_5 pubq_num;;
  rtw_write32_set REG_RQPN_CTRL_2 BIT_LD_RQPN;;
  hw_write16 REG_FIFOPAGE_CTRL_2 (rsvd_boundary (fifo d));;
  rtw_write8_set (REG_FWHW_TXQ_CTRL + 2) (BIT_EN_WR_FREE_TAIL >> 16);;
  hw_write16 REG_BCNQ_BDNY_V1 (rsvd_boundary (fifo d));;
  hw_write16 (REG_FIFOPAGE_CTRL_2 + 2) (rsvd_boundary (fifo d));;
  hw_write16 REG_BCNQ1_BDNY_V1 (rsvd_boundary (fifo d));;
  hw_write32 REG_RXFF_BNDY (rxff_size (chip d) - C2H_PKT_BUF - 1);;
  rtw_write8_set REG_AUTO_LLT_V1 BIT_AUTO_INIT_LLT_V1;;
  ready ← check_hw_ready REG_AUTO_LLT_V1 BIT_AUTO_INIT_LLT_V1 0;
  if negb ready then mret (- EBUSY) else
  hw_write8 (REG_CR + 3) 0;;
  mret 0.

Definition priority_queue_cfg (d : rtw_dev) : prog (Z * rtw_dev) :=
  '(ret, d) ← rtw_set_trx_fifo_info d;
  if nz ret then mret (ret, d) else
  match hci_type d with
  | RTW_HCI_TYPE_PCIE =>
      match page_table (chip d) !! 1%nat with
      | None => act Fault;; mret (- EINVAL, d)
      | Some pg_tbl =>
          let pubq_num := u16 (acq_pg_num (fifo d) - hq_num pg_tbl - lq_num pg_tbl - nq_num pg_tbl -
                               exq_num pg_tbl - gapq_num pg_tbl) in
          ret ← __priority_queue_cfg d pg_tbl pubq_num;
          mret (ret, d)
      end
  | _ => mret (- EINVAL, d)
  end.

(** ** The host-to-chip queue *)

Definition init_h2c (d : rtw_dev) : prog Z :=
  let h2cq_addr := u32 (rsvd_h2cq_addr (fifo d) << TX_PAGE_SIZE_SHIFT) in
  let h2cq_size := RSVD_PG_H2CQ_NUM << TX_PAGE_SIZE_SHIFT in
  v ← hw_read32 REG_H2C_HEAD;
  hw_write32 REG_H2C_HEAD ((v .& 0xFFFC0000) .| h2cq_addr);;
  v ← hw_read32 REG_H2C_READ_ADDR;
  hw_write32 REG_H2C_READ_ADDR ((v .& 0xFFFC0000) .| h2cq_addr);;
  v ← hw_read32 REG_H2C_TAIL;
  hw_write32 REG_H2C_TAIL ((v .& 0xFFFC0000) .| u32 (h2cq_addr + h2cq_size));;
  v ← hw_read8 REG_H2C_INFO;
  hw_write8 REG_H2C_INFO ((v .& 0xFC) .| 0x01);;
  v ← hw_read8 REG_H2C_INFO;
  hw_write8 REG_H2C_INFO ((v .& 0xFB) .| 0x04);;
  v ← hw_read8 (REG_TXDMA_OFFSET_CHK + 1);
  hw_write8 (REG_TXDMA_OFFSET_CHK + 1) ((v .& 0x7f) .| 0x80);;
  wp ← hw_read32 REG_H2C_PKT_WRITEADDR; let wp := wp .& 0x3FFFF in
  rp ← hw_read32 REG_H2C_PKT_READADDR; let rp := rp .& 0x3FFFF in
  let h2cq_free := if rp <=? wp then u32 (h2cq_size - (wp - rp)) else rp - wp in
  if negb (h2cq_size =? h2cq_free) then mret (- EINVAL) else mret 0.

Definition rtw_init_trx_cfg (d : rtw_dev) : prog (Z * rtw_dev) :=
  '(ret, d) ← txdma_queue_mapping d;
  if nz ret then mret (ret, d) else
  '(ret, d) ← priority_queue_cfg d;
  if nz ret then mret (ret, d) else
  ret ← init_h2c d;
  mret (ret, d).

(** ** Protocol and receive configuration *)

Definition rtw_drv_info_cfg (d : rtw_dev) : prog Z :=
  hw_write8 REG_RX_DRVINFO_SZ PHY_STATUS_SIZE;;
  (if rtw_chip_wcpu_3081 d then
     v ← hw_read8 (REG_TRXFF_BNDY + 1);
     hw_write8 (REG_TRXFF_BNDY + 1) ((v .& 0xF0) .| 0xF)
   else mret tt);;
  rtw_write32_set REG_RCR BIT_APP_PHYSTS;;
  rtw_write32_clr (REG_WMAC_OPTION_FUNCTION + 4) (BIT 8 .| BIT 9);;
  mret 0.

Definition rtw8821c_mac_init (d : rtw_dev) : prog Z :=
  hw_write8 REG_AMPDU_MAX_TIME_V1 WLAN_AMPDU_MAX_TIME;;
  rtw_write8_set REG_TX_HANG_CTRL BIT_EN_EOF_V1;;
  let pre_txcnt := u16 (WLAN_PRE_TXCNT_TIME_TH .| BIT_EN_PRECNT) in
  hw_write8 REG_PRECNT_CTRL (pre_txcnt .& 0xFF);;
  hw_write8 (REG_PRECNT_CTRL + 1) (pre_txcnt >> 8);;
  hw_write32 REG_PROT_MODE_CTRL (WLAN_RTS_LEN_TH .| (WLAN_RTS_TX_TIME_TH << 8) .|
    (WLAN_MAX_AGG_PKT_LIMIT << 16) .| (WLAN_RTS_MAX_AGG_PKT_LIMIT << 24));;
  hw_write16 (REG_BAR_MODE_CTRL + 2) (WLAN_BAR_RETRY_LIMIT .| (WLAN_RA_TRY_RATE_AGG_LIMIT << 8));;
  hw_write8 REG_FAST_EDCA_VOVI_SETTING FAST_EDCA_VO_TH;;
  hw_write8 (REG_FAST_EDCA_VOVI_SETTING + 2) FAST_EDCA_VI_TH;;
  hw_write8 REG_FAST_EDCA_BEBK_SETTING FAST_EDCA_BE_TH;;
  hw_write8 (REG_FAST_EDCA_BEBK_SETTING + 2) FAST_EDCA_BK_TH;;
  rtw_write8_set REG_INIRTS_RATE_SEL (BIT 5);;
  rtw_write8_clr REG_TIMER0_SRC_SEL BIT_TSFT_SEL_TIMER0;;
  hw_write16 REG_TXPAUSE 0;;
  hw_write8 REG_SLOT WLAN_SLOT_TIME;;
  hw_write8 REG_PIFS WLAN_PIFS_TIME;;
  hw_write32 REG_SIFS WLAN_SIFS_CFG;;
  hw_write16 (REG_EDCA_VO_PARAM + 2) WLAN_VO_TXOP_LIMIT;;
  hw_write16 (REG_EDCA_VI_PARAM + 2) WLAN_VI_TXOP_LIMIT;;
  hw_write32 REG_RD_NAV_NXT WLAN_NAV_CFG;;
  hw_write16 REG_RXTSF_OFFSET_CCK WLAN_RX_TSF_CFG;;
  rtw_write8_set REG_BCN_CTRL BIT_EN_BCN_FUNCTION;;
  hw_write32 REG_TBTT_PROHIBIT WLAN_TBTT_TIME;;
  hw_write8 REG_DRVERLYINT WLAN_DRV_EARLY_INT;;
  hw_write8 REG_BCNDMATIM WLAN_BCN_DMA_TIME;;
  rtw_write8_clr (REG_TX_PTCL_CTRL + 1) (BIT_SIFS_BK_EN >> 8);;
  hw_write32 REG_RXFLTMAP0 WLAN_RX_FILTER0;;
  hw_write16 REG_RXFLTMAP2 WLAN_RX_FILTER2;;
  hw_write32 REG_RCR WLAN_RCR_CFG;;
  hw_write8 REG_RX_PKT_LIMIT WLAN_RXPKT_MAX_SZ_512;;
  hw_write8 (REG_TCR + 2) WLAN_TX_FUNC_CFG2;;
  hw_write8 (REG_TCR + 1) WLAN_TX_FUNC_CFG1;;
  hw_write8 REG_ACKTO_CCK 0x40;;
  rtw_write8_set REG_WMAC_TRXPTCL_CTL_H (BIT 1);;
  rtw_write8_set 0x0718 (BIT 6);;
  hw_write32 (REG_WMAC_OPTION_FUNCTION + 8) WLAN_MAC_OPT_FUNC2;;
  hw_write8 (REG_WMAC_OPTION_FUNCTION + 4) WLAN_MAC_OPT_NORM_FUNC1;;
  mret 0.

Definition mac_init (d : rtw_dev) : prog (Z * rtw_dev) :=
  '(ret, d) ← rtw_init_trx_cfg d;
  if nz ret then mret (ret, d) else
  ret ← rtw8821c_mac_init d;
  if nz ret then mret (ret, d) else
  ret ← rtw_drv_info_cfg d;
  if nz ret then mret (ret, d) else
  mret (0, d).

(** ** The layout *)

(** Regions that follow each other from [lo] to [hi]. *)
Fixpoint tiles (lo hi : Z) (l : list (Z * Z)) : Prop :=
  match l with
  | [] => lo = hi
  | (a, n) :: l => a = lo /\ 0 <= n /\ tiles (lo + n) hi l
  end.

(** The reserved regions of a layout, start page and number of pages. *)
Definition fifo_regions (f : rtw_fifo_conf) (csi : Z) : list (Z * Z) :=
  [(rsvd_drv_addr f, rsvd_drv_pg_num f); (rsvd_h2c_info_addr f, RSVD_PG_H2C_EXTRAINFO_NUM);
   (rsvd_h2c_sta_info_addr f, RSVD_PG_H2C_STATICINFO_NUM); (rsvd_h2cq_addr f, RSVD_PG_H2CQ_NUM);
   (rsvd_cpu_instr_addr f, RSVD_PG_CPU_INSTRUCTION_NUM); (rsvd_fw_txbuf_addr f, RSVD_PG_FW_TXBUF_NUM);
   (rsvd_csibuf_addr f, csi)].

(** Pages a chip reserves. *)
Definition reserved (c : rtw_chip_info) : Z := chip_rsvd_drv_pg_num c + 44 + csi_buf_pg_num c.

(** The fields are of their C types and the pages fit the 16-bit counters. *)
Definition fifo_chip (c : rtw_chip_info) : Prop :=
  0 < page_size c /\ 0 <= txff_size c /\ txff_size c / page_size c < 2 ^ 16 /\
  0 <= chip_rsvd_drv_pg_num c < 2 ^ 8 /\ 0 <= csi_buf_pg_num c < 2 ^ 8.

Definition fifo_laid_out (c : rtw_chip_info) (f : rtw_fifo_conf) : Prop :=
  txff_pg_num f = txff_size c / page_size c /\
  rsvd_pg_num f = reserved c /\
  acq_pg_num f = txff_pg_num f - rsvd_pg_num f /\
  rsvd_boundary f = acq_pg_num f /\
  rsvd_drv_pg_num f = chip_rsvd_drv_pg_num c /\
  tiles (rsvd_boundary f) (txff_pg_num f) (fifo_regions f (csi_buf_pg_num c)).

(** The outcomes of the layout. *)
Lemma trx_fifo_info_outcomes (d : rtw_dev) :
  fifo_chip (chip d) ->
  exists ret d', rtw_set_trx_fifo_info d = mret (ret, d') /\
    ((ret = - ENOMEM /\ txff_size (chip d) / page_size (chip d) < reserved (chip d)) \/
     (ret = 0 /\ reserved (chip d) <= txff_size (chip d) / page_size (chip d) /\
      fifo_laid_out (chip d) (fifo d') /\ d' = set_fifo (fifo d') d /\ fifo_rqpn (fifo d') = fifo_rqpn (fifo d))).
Proof.
  intros (Hp & Ht & Hpg & Hd & Hc).
  pose proof (Z.div_pos (txff_size (chip d)) (page_size (chip d)) Ht Hp) as Hpos.
  unfold rtw_set_trx_fifo_info, fifo_laid_out, reserved. destruct (Z.eqb_spec (page_size (chip d)) 0); [lia|].
  cbn [mbind prog_mbind prog_bind mret prog_ret].
  unfold RSVD_PG_H2C_EXTRAINFO_NUM, RSVD_PG_H2C_STATICINFO_NUM, RSVD_PG_H2CQ_NUM,
    RSVD_PG_CPU_INSTRUCTION_NUM, RSVD_PG_FW_TXBUF_NUM.
  set (pages := txff_size (chip d) / page_size (chip d)) in *. set (drv := chip_rsvd_drv_pg_num (chip d)) in *.
  set (csi := csi_buf_pg_num (chip d)) in *. clearbody pages drv csi.
  rewrite (wrap_small 16 drv), (wrap_small 16 pages) by lia.
  rewrite (wrap_small 16 (drv + 24 + 8 + 8 + 0 + 4 + csi)) by lia.
  destruct (Z.ltb_spec pages (drv + 24 + 8 + 8 + 0 + 4 + csi)) as [Hlt|Hge].
  { eexists _, _. split; [reflexivity|]. left. split; [done|lia]. }
  rewrite (wrap_small 16 (pages - (drv + 24 + 8 + 8 + 0 + 4 + csi))) by lia.
  repeat (rewrite (wrap_small 16 (pages - csi)) by lia).
  rewrite (wrap_small 16 (pages - csi - 4)) by lia. rewrite (wrap_small 16 (pages - csi - 4 - 0)) by lia.
  rewrite (wrap_small 16 (pages - csi - 4 - 0 - 8)) by lia. rewrite (wrap_small 16 (pages - csi - 4 - 0 - 8 - 8)) by lia.
  rewrite (wrap_small 16 (pages - csi - 4 - 0 - 8 - 8 - 24)) by lia.
  rewrite (wrap_small 16 (pages - csi - 4 - 0 - 8 - 8 - 24 - drv)) by lia.
  destruct (Z.eqb_spec (pages - (drv + 24 + 8 + 8 + 0 + 4 + csi)) (pages - csi - 4 - 0 - 8 - 8 - 24 - drv)) as [_|Hne];
    [|lia].
  cbn [negb]. eexists _, _. split; [reflexivity|]. right. cbn.
  unfold RSVD_PG_H2C_EXTRAINFO_NUM, RSVD_PG_H2C_STATICINFO_NUM, RSVD_PG_H2CQ_NUM,
    RSVD_PG_CPU_INSTRUCTION_NUM, RSVD_PG_FW_TXBUF_NUM. split_and!; try done; lia.
Qed.

(** The layout fails exactly when the chip reserves more pages than the FIFO
    has; otherwise the reserved regions follow each other without gap or overlap
    from the boundary to the end of the FIFO, every page below the boundary is
    for the queues, and the final consistency check never fires. *)
Theorem rtw_set_trx_fifo_info_layout (d : rtw_dev) :
  fifo_chip (chip d) ->
  exists ret d', rtw_set_trx_fifo_info d = mret (ret, d') /\
    ((ret = - ENOMEM /\ txff_size (chip d) / page_size (chip d) < reserved (chip d)) \/
     (ret = 0 /\ reserved (chip d) <= txff_size (chip d) / page_size (chip d) /\
      fifo_laid_out (chip d) (fifo d') /\ d' = set_fifo (fifo d') d /\ fifo_rqpn (fifo d') = fifo_rqpn (fifo d))).
Proof. apply trx_fifo_info_outcomes. Qed.

(** ** The page registers *)

(** The last value written to a 16-bit register. *)
Definition last_mon (reg : Z) (st : option Z) (o : hwop) : hwres o -> option (option Z) :=
  match o as o return hwres o -> option (option Z) with
  | Write W16 a v => fun _ => Some (if a =? reg then Some v else st)
  | _ => fun _ => Some st
  end.

(** What the registers of the split should hold when [acq] pages are available:
    pages per queue, and where the reserved part begins. *)
Definition page_expect (t : rtw_page_table) (acq : Z) : list (Z * Z) :=
  [(REG_FIFOPAGE_INFO_1, hq_num t); (REG_FIFOPAGE_INFO_2, lq_num t); (REG_FIFOPAGE_INFO_3, nq_num t);
   (REG_FIFOPAGE_INFO_4, exq_num t);
   (REG_FIFOPAGE_INFO_5, acq - (hq_num t + lq_num t + nq_num t + exq_num t + gapq_num t));
   (REG_FIFOPAGE_CTRL_2, acq); (REG_FIFOPAGE_CTRL_2 + 2, acq);
   (REG_BCNQ_BDNY_V1, acq); (REG_BCNQ1_BDNY_V1, acq)].
Definition page_regs : list Z :=
  [REG_FIFOPAGE_INFO_1; REG_FIFOPAGE_INFO_2; REG_FIFOPAGE_INFO_3; REG_FIFOPAGE_INFO_4; REG_FIFOPAGE_INFO_5;
   REG_FIFOPAGE_CTRL_2; REG_FIFOPAGE_CTRL_2 + 2; REG_BCNQ_BDNY_V1; REG_BCNQ1_BDNY_V1].

(** Calls that leave those registers alone. *)
Definition page_quiet (o : hwop) : bool :=
  match o with Write W16 a _ => negb (bool_decide (a ∈ page_regs)) | Fault => false | _ => true end.

Lemma last_frame reg st o r : reg ∈ page_regs -> page_quiet o = true -> last_mon reg st o r = Some st.
Proof.
  intros Hr. destruct o as [|w a v| | | | | | | | | | | | | | | | | | | | |]; try done; destruct w; try done.
  cbn [last_mon page_quiet]. rewrite negb_true_iff, bool_decide_eq_false. intros Ha.
  by destruct (Z.eqb_spec a reg) as [->|].
Qed.

Lemma last_quiet reg {A} (p : prog A) st (Q : A -> Prop) : reg ∈ page_regs ->
  safe page_quiet p Q -> wp (last_mon reg) p st (fun x st' => st' = st /\ Q x).
Proof. intros Hr Hp. eapply wp_safe_frame; [|exact Hp]. intros o r. by apply last_frame. Qed.

Lemma last_bind_quiet reg {A B} (f : A -> prog B) (p : prog A) st Q : reg ∈ page_regs ->
  safe page_quiet p (fun _ => True) -> (forall x, wp (last_mon reg) (f x) st Q) -> wp (last_mon reg) (p ≫= f) st Q.
Proof. intros Hr Hp Hf. apply wp_bind. eapply wp_mono; [by apply last_quiet|]. intros x st' [-> _]. apply Hf. Qed.

Lemma last_write reg {B} a v (f : unit -> prog B) st Q :
  wp (last_mon reg) (f tt) (if a =? reg then Some (u16 v) else st) Q ->
  wp (last_mon reg) (hw_write16 a v ≫= f) st Q.
Proof. intros Hf. apply wp_bind. intros []. exact Hf. Qed.

(** The counts are of their C type and fit the available pages. *)
Definition pages_fit (t : rtw_page_table) (acq : Z) : Prop :=
  0 <= hq_num t < 2 ^ 16 /\ 0 <= lq_num t < 2 ^ 16 /\ 0 <= nq_num t < 2 ^ 16 /\
  0 <= exq_num t < 2 ^ 16 /\ 0 <= gapq_num t < 2 ^ 16 /\
  hq_num t + lq_num t + nq_num t + exq_num t + gapq_num t <= acq < 2 ^ 16.

Lemma page_expect_regs t acq reg v : (reg, v) ∈ page_expect t acq -> reg ∈ page_regs.
Proof.
  intros H. assert (E : page_regs = map fst (page_expect t acq)) by done. rewrite E.
  by apply list_elem_of_fmap_2 with (f := fst) in H.
Qed.

Lemma priority_queue_pages d t acq pub reg v st : (reg, v) ∈ page_expect t acq -> pages_fit t acq ->
  rsvd_boundary (fifo d) = acq -> pub = acq - (hq_num t + lq_num t + nq_num t + exq_num t + gapq_num t) ->
  wp (last_mon reg) (__priority_queue_cfg d t pub) st (fun _ st' => st' = Some v).
Proof.
  intros Hr (H1 & H2 & H3 & H4 & H5 & H6 & H7) Hb Hpub. pose proof (page_expect_regs _ _ _ _ Hr) as Hreg.
  unfold __priority_queue_cfg. rewrite Hb. do 5 apply last_write.
  apply last_bind_quiet; [done|by safe_go|intros _]. apply last_write.
  apply last_bind_quiet; [done|by safe_go|intros _]. do 3 apply last_write.
  do 2 (apply last_bind_quiet; [done|by safe_go|intros _]).
  apply last_bind_quiet; [done|by apply check_ready_safe|intros ready].
  set (st' := if REG_BCNQ1_BDNY_V1 =? reg then _ else _).
  assert (Hst : st' = Some v).
  { unfold st'. rewrite !(wrap_small 16) by lia. unfold page_expect in Hr. rewrite !elem_of_cons in Hr.
    destruct Hr as [Hr|[Hr|[Hr|[Hr|[Hr|[Hr|[Hr|[Hr|[Hr|Hr]]]]]]]]]; [injection Hr as -> ->..|by apply elem_of_nil in Hr];
      first [reflexivity | by rewrite Hpub]. }
  destruct (negb ready); [by apply wp_ret|]. apply last_bind_quiet; [done|by safe_go|intros _]. by apply wp_ret.
Qed.

(** On a PCIe device whose chip reserves no more pages than its FIFO has, an
    initialisation, whatever it returns, leaves in the page registers the table's
    page counts and a public queue of exactly the pages left over, so that all
    queues with the gap add up to the available pages, and in the four boundary
    registers the first reserved page; nothing later disturbs them. *)
Theorem mac_init_pages (d : rtw_dev) (rq : rtw_rqpn) (t : rtw_page_table) (reg v : Z) :
  let acq := txff_size (chip d) / page_size (chip d) - reserved (chip d) in
  hci_type d = RTW_HCI_TYPE_PCIE -> rqpn_table (chip d) !! 1%nat = Some rq ->
  page_table (chip d) !! 1%nat = Some t -> fifo_chip (chip d) -> pages_fit t acq ->
  (reg, v) ∈ page_expect t acq ->
  wp (last_mon reg) (mac_init d) None (fun _ st => st = Some v).
Proof.
  intros acq Hci Hrq Ht Hchip Hfit Hr. pose proof (page_expect_regs _ _ _ _ Hr) as Hreg.
  assert (Hacq : 0 <= acq) by (unfold pages_fit in Hfit; lia).
  unfold mac_init, rtw_init_trx_cfg, txdma_queue_mapping. rewrite Hci, Hrq.
  set (d1 := set_fifo _ d). apply wp_bind, wp_bind.
  do 4 (apply last_bind_quiet; [done|by safe_go|intros _]). apply wp_ret. cbn [nz].
  change (nz 0) with false. cbn iota. apply wp_bind. unfold priority_queue_cfg.
  destruct (trx_fifo_info_outcomes d1 Hchip) as (ret & d2 & -> & [[_ Hlt]|(-> & _ & Hl & Hd2 & _)]);
    [unfold acq in Hacq; change (chip d1) with (chip d) in Hlt; lia|].
  cbn [mbind prog_mbind prog_bind mret prog_ret]. change (nz 0) with false. cbn iota.
  assert (Hc2 : chip d2 = chip d) by by rewrite Hd2.
  assert (Hh2 : hci_type d2 = RTW_HCI_TYPE_PCIE) by by rewrite Hd2.
  rewrite Hh2, Hc2, Ht. destruct Hl as (L1 & L2 & L3 & L4 & _). change (chip d1) with (chip d) in *.
  assert (Ha2 : acq_pg_num (fifo d2) = acq) by (unfold acq; lia).
  clearbody acq. rewrite Ha2 in L4. clear Hchip L1 L2 L3 Hacq.
  apply wp_bind. eapply wp_mono; [apply (priority_queue_pages d2 t acq _ reg v _ Hr Hfit L4)|].
  { rewrite Ha2. unfold pages_fit in Hfit. rewrite wrap_small; lia. }
  intros r st ->. apply wp_ret. destruct (nz r) eqn:Er; [apply wp_ret; rewrite Er; by apply wp_ret|].
  apply last_bind_quiet; [done|unfold init_h2c; by safe_go|intros r2]. apply wp_ret.
  destruct (nz r2); [by apply wp_ret|].
  apply last_bind_quiet; [done|unfold rtw8821c_mac_init; by safe_go|intros r3]. destruct (nz r3); [by apply wp_ret|].
  apply last_bind_quiet; [done|unfold rtw_drv_info_cfg; by safe_go|intros r4]. by destruct (nz r4); apply wp_ret.
Qed.

(** ** Witnesses *)

(** The 8821C's FIFO: 512 pages of 128 bytes, 52 of them reserved. *)
Definition mac_dev_example : rtw_dev :=
  let d := example_dev [] [] in
  let c := chip d in
  Dev (ChipInfo (chip_id c) (wlan_cpu c) (chip_sys_func_en c) [] [] (tx_pkt_desc_sz c) (tx_buf_desc_sz c)
         (rx_pkt_desc_sz c) (rx_buf_desc_sz c) (ltecoex_addr c) 65536 16384 8 0 128
         page_table_8821c rqpn_table_8821c 512 512 96)
    (hci_type d) (rpwm_addr d) (hal d) (fifo d) (efuse d) (flags d).

Lemma rtw_set_trx_fifo_info_layout_witness :
  fifo_chip (chip mac_dev_example) /\
  exists ret d', rtw_set_trx_fifo_info mac_dev_example = mret (ret, d') /\
    ((ret = - ENOMEM /\ 512 < reserved (chip mac_dev_example)) \/
     (ret = 0 /\ reserved (chip mac_dev_example) <= 512 /\
      fifo_laid_out (chip mac_dev_example) (fifo d') /\ d' = set_fifo (fifo d') mac_dev_example /\
      fifo_rqpn (fifo d') = fifo_rqpn (fifo mac_dev_example))).
Proof.
  assert (H : fifo_chip (chip mac_dev_example)) by (repeat split; by vm_compute).
  split; [exact H|]. apply (rtw_set_trx_fifo_info_layout mac_dev_example H).
Defined.

(** The public queue of the 8821C: 460 pages less 16 + 16 + 16 + 14 + 1. *)
Lemma mac_init_pages_witness :
  wp (last_mon REG_FIFOPAGE_INFO_5) (mac_init mac_dev_example) None (fun _ st => st = Some 397).
Proof.
  apply (mac_init_pages mac_dev_example (Rqpn 2 2 1 1 0 3) (PageTable 16 16 16 14 1) REG_FIFOPAGE_INFO_5 397);
    [done|done|done|repeat split; by vm_compute|repeat split; by vm_compute|].
  apply (bool_decide_unpack _). by vm_compute.
Defined.
