(* ===== verification/Phy.v ===== *)
(** * Phy: baseband and RF set-up (core/phy.c)

    RF register access, the conditional table interpreter, the parameter load and
    the firmware calibration request.  The parameter tables themselves
    (core/upstream/rtw8821c_table.c) are arguments; PhyTables holds them.  Proved: on a
    well-formed table the interpreter applies exactly the plain entries and, of
    each conditional, the first arm that matches the chip; a masked RF write
    replaces exactly the field. *)
From stdpp Require Import gmap.
From S2P Require Import Prelude Hw Regs Dev Trx.
Open Scope Z_scope.
Open Scope rtw_scope.

(** ** RF registers *)

Inductive rtw_rf_path := RF_PATH_A | RF_PATH_B.
Definition path_idx (p : rtw_rf_path) : Z := match p with RF_PATH_A => 0 | RF_PATH_B => 1 end.

Definition INV_RF_DATA : Z := 0xffffffff.
Definition rf_sipi_addr (p : rtw_rf_path) : Z := match p with RF_PATH_A => 0x0c90 | RF_PATH_B => 0x0e90 end.
Definition rf_base_addr (p : rtw_rf_path) : Z := match p with RF_PATH_A => 0x2800 | RF_PATH_B => 0x2c00 end.

Definition rtw_phy_read_rf (d : rtw_dev) (path : rtw_rf_path) (addr mask : Z) : prog Z :=
  let m := mask .& RFREG_MASK in
  if rf_phy_num (hal d) <=? path_idx path then mret INV_RF_DATA else
  let addr := addr .& 0xff in
  v ← hw_read32 (rf_base_addr path + (addr << 2));
  mret ((v .& m) >> ctz m).

Definition rtw_write_rf (d : rtw_dev) (path : rtw_rf_path) (addr mask data : Z) : prog bool :=
  if rf_phy_num (hal d) <=? path_idx path then mret false else
  let addr := addr .& 0xff in
  let mask := mask .& RFREG_MASK in
  old_data ← (if negb (mask =? RFREG_MASK) then rtw_phy_read_rf d path addr RFREG_MASK else mret 0);
  if negb (mask =? RFREG_MASK) && (old_data =? INV_RF_DATA) then mret false else
  let data := if negb (mask =? RFREG_MASK)
              then (old_data .& .~ mask) .| u32 (data << ctz mask) else data in
  hw_write32 (rf_sipi_addr path) (((addr << 20) .| (data .& 0x000fffff)) .& 0x0fffffff);;
  udelay 13;;
  mret true.

(** ** Calibration *)

(** [seq] is the function's static counter. *)
Fixpoint iqk_poll (fuel : nat) (d : rtw_dev) (rfk_seen : bool) : prog bool :=
  match fuel with
  | O => mret rfk_seen
  | S fuel =>
      rfk_seen ← (if negb rfk_seen then v ← hw_read32 REG_ARFR4; mret (nz (v .& BIT_WL_RFK)) else mret rfk_seen);
      v ← rtw_phy_read_rf d RF_PATH_A 0x08 RFREG_MASK;
      if v =? 0xabcde then mret rfk_seen
      else (usleep_range 20000 20000;; iqk_poll fuel d rfk_seen)
  end.

Definition rtw_do_iqk (d : rtw_dev) (s : trx_state) (seq : Z) : prog (trx_state * Z) :=
  let pkt := le32 (0x01 .| (0xFF << 8) .| (0x0E << 16)) ++ le32 (9 .| (seq << 16)) ++ le32 0 ++ replicate 20 0 in
  hw_read32 REG_H2C_PKT_READADDR;;
  hw_read32 REG_H2C_PKT_WRITEADDR;;
  hw_read32 REG_ARFR4;;
  hw_read32 0xA8;;
  '(_, s) ← trx_tx_h2c d s pkt;
  iqk_poll 300 d false;;
  hw_read32 REG_H2C_PKT_READADDR;;
  hw_read32 REG_H2C_PKT_WRITEADDR;;
  rtw_write_rf d RF_PATH_A 0x08 RFREG_MASK 0x0;;
  hw_read32 0x1bf0;;
  mret (s, u16 (seq + 1)).

(** ** Table appliers: whether the entry is counted *)

Definition rtw_phy_cfg_mac (d : rtw_dev) (path : rtw_rf_path) (addr data : Z) : prog bool :=
  hw_write8 addr data;; mret true.
Definition rtw_phy_cfg_agc (d : rtw_dev) (path : rtw_rf_path) (addr data : Z) : prog bool :=
  hw_write32 addr data;; mret true.
Definition rtw_phy_cfg_bb (d : rtw_dev) (path : rtw_rf_path) (addr data : Z) : prog bool :=
  if addr =? 0xfe then (mdelay 50;; mret false)
  else if addr =? 0xfd then (mdelay 5;; mret false)
  else if addr =? 0xfc then (mdelay 1;; mret false)
  else if addr =? 0xfb then (usleep_range 50 60;; mret false)
  else if addr =? 0xfa then (udelay 5;; mret false)
  else if addr =? 0xf9 then (udelay 1;; mret false)
  else (hw_write32 addr data;; mret true).
Definition rtw_phy_cfg_rf (d : rtw_dev) (path : rtw_rf_path) (addr data : Z) : prog bool :=
  if addr =? 0xffe then (mdelay 50;; mret false)
  else if addr =? 0xfe then (usleep_range 100 110;; mret false)
  else (rtw_write_rf d path addr RFREG_MASK data;; udelay 1;; mret true).

(** ** The conditional tables *)

Definition rtw_phy_setup_phy_cond (d : rtw_dev) (pkg : Z) : rtw_dev :=
  let h := hal d in
  let cut := if nz (cut_version h) then cut_version h else 15 in
  let pkg := if nz pkg then pkg else 15 in
  set_hal (Hal (cut_version h) (pkg_type h) (rfe_btg h) (rf_path_num h) (rf_phy_num h)
    (PhyCond (rfe_option (efuse d) .& 0xff) INTF_PCIE (pkg .& 0xf) 4 0 (cut .& 0xf) 0 0 0) (ch_param h)) d.

Definition check_positive (d : rtw_dev) (cond : rtw_phy_cond) : bool :=
  let drv := phy_cond (hal d) in
  if nz (cond_cut cond) && negb (cond_cut cond =? cond_cut drv) then false else
  if nz (cond_pkg cond) && negb (cond_pkg cond =? cond_pkg drv) then false else
  if nz (cond_intf cond) && negb (cond_intf cond =? cond_intf drv) then false else
  if negb (cond_rfe cond =? cond_rfe drv) then false else true.

(** The bit fields of a tile's first word. *)
Definition cond_of (w : Z) : rtw_phy_cond :=
  PhyCond (w .& 0xff) ((w >> 8) .& 0xf) ((w >> 12) .& 0xf) ((w >> 16) .& 0xf) ((w >> 20) .& 0xf)
    ((w >> 24) .& 0xf) ((w >> 28) .& 0x3) ((w >> 30) .& 0x1) ((w >> 31) .& 0x1).

(** [union phy_table_tile]: the address word and the data word; [size / 2] tiles
    of a table of words. *)
Fixpoint tiles_of (data : list Z) : list (Z * Z) :=
  match data with
  | a :: b :: data => (a, b) :: tiles_of data
  | _ => []
  end.

Definition applier : Type := rtw_dev -> rtw_rf_path -> Z -> Z -> prog bool.
Record rtw_table := Table { t_data : list Z; do_cfg : applier; t_path : rtw_rf_path }.

Fixpoint parse_tiles (d : rtw_dev) (cfg : applier) (path : rtw_rf_path) (p : list (Z * Z))
    (pos_cond : rtw_phy_cond) (is_matched is_skipped : bool) (count : Z) : prog Z :=
  match p with
  | [] => mret count
  | (addr, data) :: p =>
      let c := cond_of addr in
      if nz (cond_pos c) then
        if cond_branch c =? BRANCH_ENDIF then parse_tiles d cfg path p pos_cond true false count
        else if cond_branch c =? BRANCH_ELSE then
          parse_tiles d cfg path p pos_cond (if is_skipped then false else true) is_skipped count
        else parse_tiles d cfg path p c is_matched is_skipped count
      else if nz (cond_neg c) then
        if negb is_skipped then
          if check_positive d pos_cond then parse_tiles d cfg path p pos_cond true true count
          else parse_tiles d cfg path p pos_cond false false count
        else parse_tiles d cfg path p pos_cond false is_skipped count
      else if is_matched then
        counted ← cfg d path addr data;
        parse_tiles d cfg path p pos_cond is_matched is_skipped (if counted : bool then u32 (count + 1) else count)
      else parse_tiles d cfg path p pos_cond is_matched is_skipped count
  end.

(** The count starts from the global [g_cfg_count]. *)
Definition rtw_parse_tbl_phy_cond (d : rtw_dev) (tbl : rtw_table) (g_cfg_count : Z) : prog Z :=
  parse_tiles d (do_cfg tbl) (t_path tbl) (tiles_of (t_data tbl)) phy_cond0 true false g_cfg_count.

Definition load_one (d : rtw_dev) (tbl : rtw_table) : prog Z := rtw_parse_tbl_phy_cond d tbl 0.

(** ** The parameter load *)

Record phy_tables := PhyTables {
  rtw8821c_mac : list Z; rtw8821c_bb : list Z; rtw8821c_agc : list Z;
  rtw8821c_agc_btg_type2 : list Z; rtw8821c_rf_a : list Z;
}.

Definition BIT_GET_CHIP_VER (x : Z) : Z := (x >> 12) .& 0xf.
Definition set_cut (v : Z) (d : rtw_dev) : rtw_dev :=
  let h := hal d in
  set_hal (Hal v (pkg_type h) (rfe_btg h) (rf_path_num h) (rf_phy_num h) (phy_cond h) (ch_param h)) d.

Definition phy_set_param (d : rtw_dev) (t : phy_tables) : prog (Z * rtw_dev) :=
  let d := rtw_phy_setup_phy_cond d (pkg_type (hal d)) in
  let bb_rst := BIT_FEN_BB_RSTB .| BIT_FEN_BB_GLB_RST in
  let rf_on := BIT_RF_EN .| BIT_RF_RSTB .| BIT_RF_SDM_RSTB in
  val ← hw_read8 REG_SYS_FUNC_EN;
  let val := val .| BIT_FEN_PCIEA in
  hw_write8 REG_SYS_FUNC_EN val;;
  let val := val .| bb_rst in
  hw_write8 REG_SYS_FUNC_EN val;;
  let val := val .& .~ bb_rst in
  hw_write8 REG_SYS_FUNC_EN val;;
  let val := val .| bb_rst in
  hw_write8 REG_SYS_FUNC_EN val;;
  hw_write8 REG_RF_CTRL rf_on;;
  usleep_range 10 11;;
  hw_write8 (REG_WLRF1 + 3) rf_on;;
  usleep_range 10 11;;
  rtw_write32_clr REG_RXPSEL BIT_RX_PSEL_RST;;
  load_one d (Table (rtw8821c_mac t) rtw_phy_cfg_mac RF_PATH_A);;
  bb ← load_one d (Table (rtw8821c_bb t) rtw_phy_cfg_bb RF_PATH_A);
  agc ← load_one d (Table (rtw8821c_agc t) rtw_phy_cfg_agc RF_PATH_A);
  agc ← (if (rfe_option (efuse d) =? 0x2) || (rfe_option (efuse d) =? 0x4) then
           n ← load_one d (Table (rtw8821c_agc_btg_type2 t) rtw_phy_cfg_agc RF_PATH_A); mret (u32 (agc + n))
         else mret agc);
  rtw_phy_read_rf d RF_PATH_A 0x00 RFREG_MASK;;
  rf ← load_one d (Table (rtw8821c_rf_a t) rtw_phy_cfg_rf RF_PATH_A);
  rf0_after ← rtw_phy_read_rf d RF_PATH_A 0x00 RFREG_MASK;
  let cap := crystal_cap (efuse d) .& 0x3F in
  rtw_write32_mask REG_AFE_XTAL_CTRL 0x7e000000 cap;;
  rtw_write32_mask REG_AFE_PLL_CTRL 0x7e cap;;
  rtw_write32_mask REG_CCK0_FAREPORT (BIT 18 .| BIT 22) 0;;
  rtw_write32_set REG_RXPSEL BIT_RX_PSEL_RST;;
  cfg1 ← hw_read32 REG_SYS_CFG1;
  let d := set_cut (BIT_GET_CHIP_VER cfg1) d in
  let rf_alive := negb (rf0_after =? 0) && negb (rf0_after =? 0xfffff) in
  mret (if (100 <? bb) && (100 <? agc) && (100 <? rf) && rf_alive then 0 else -1, d).

(** ** Well-formed tables *)

(** A conditional arm: the condition word and the entries under it. *)
Record arm := Arm { arm_cond : Z; arm_body : list (Z * Z) }.
Inductive block :=
| Plain (e : Z * Z)
| Branches (arms : list arm) (els : option (list (Z * Z))).

(** Their tiles: a condition with [pos], the matching [neg] tile, the body; then
    the else tile and its body, if any, and the closing tile. *)
Definition NEG_TILE : Z * Z := (0x40000000, 0).
Definition ELSE_TILE : Z * Z := (0xA0000000, 0).
Definition ENDIF_TILE : Z * Z := (0xB0000000, 0).
Definition arm_tiles (a : arm) : list (Z * Z) := (arm_cond a, 0) :: NEG_TILE :: arm_body a.
Definition block_tiles (b : block) : list (Z * Z) :=
  match b with
  | Plain e => [e]
  | Branches arms els =>
      concat (map arm_tiles arms) ++ match els with Some l => ELSE_TILE :: l | None => [] end ++ [ENDIF_TILE]
  end.
Definition table_words (l : list block) : list Z :=
  concat (map (fun '(a, b) => [a; b]) (concat (map block_tiles l))).

Definition plain_entry (e : Z * Z) : bool :=
  negb (nz (cond_pos (cond_of e.1))) && negb (nz (cond_neg (cond_of e.1))).
Definition arm_wf (a : arm) : Prop :=
  nz (cond_pos (cond_of (arm_cond a))) = true /\
  (cond_branch (cond_of (arm_cond a)) =? BRANCH_ENDIF) = false /\
  (cond_branch (cond_of (arm_cond a)) =? BRANCH_ELSE) = false /\
  Forall (fun e => plain_entry e = true) (arm_body a).
Definition block_wf (b : block) : Prop :=
  match b with
  | Plain e => plain_entry e = true
  | Branches arms els =>
      arms <> [] /\ Forall arm_wf arms /\
      match els with Some l => Forall (fun e => plain_entry e = true) l | None => True end
  end.

(** ** What a table means *)

Fixpoint first_match (d : rtw_dev) (arms : list arm) (els : list (Z * Z)) : list (Z * Z) :=
  match arms with
  | [] => els
  | a :: arms => if check_positive d (cond_of (arm_cond a)) then arm_body a else first_match d arms els
  end.
Definition selected (d : rtw_dev) (b : block) : list (Z * Z) :=
  match b with
  | Plain e => [e]
  | Branches arms els => first_match d arms (default [] els)
  end.

Fixpoint apply_all (d : rtw_dev) (cfg : applier) (path : rtw_rf_path) (l : list (Z * Z)) (n : Z) : prog Z :=
  match l with
  | [] => mret n
  | (a, b) :: l => counted ← cfg d path a b; apply_all d cfg path l (if counted : bool then u32 (n + 1) else n)
  end.

Lemma tiles_of_words l : tiles_of (concat (map (fun '(a, b) => [a; b]) l)) = l.
Proof. induction l as [|[a b] l IH]; [done|]. cbn. by rewrite IH. Qed.

Section Parse.
Context (d : rtw_dev) (cfg : applier) (path : rtw_rf_path).

Lemma apply_all_app l l' n : apply_all d cfg path (l ++ l') n ≡ n' ← apply_all d cfg path l n; apply_all d cfg path l' n'.
Proof.
  revert n. induction l as [|[a b] l IH]; intros n; [done|]. cbn [app apply_all].
  etransitivity; [|symmetry; apply prog_bind_assoc]. apply prog_bind_proper; [|done]. intros c. apply IH.
Qed.

(** Entries under a condition that holds are applied, others are skipped. *)
Lemma parse_body l rest pos m sk : Forall (fun e => plain_entry e = true) l -> forall n,
  parse_tiles d cfg path (l ++ rest) pos m sk n ≡
  if m then n' ← apply_all d cfg path l n; parse_tiles d cfg path rest pos m sk n'
  else parse_tiles d cfg path rest pos m sk n.
Proof.
  induction 1 as [|[a b] l He _ IH]; intros n; [by destruct m|]. cbn [app parse_tiles].
  apply andb_true_iff in He as [Hp Hn]. cbn [fst] in *. rewrite negb_true_iff in Hp, Hn. rewrite Hp, Hn.
  destruct m; [|apply IH]. cbn [apply_all].
  etransitivity; [|symmetry; apply prog_bind_assoc]. apply prog_bind_proper; [|done]. intros c. apply IH.
Qed.

(** Once an arm has matched the rest are skipped. *)
Lemma parse_arms_skipped arms rest : Forall arm_wf arms -> forall pos m,
  exists pos' m', forall n, parse_tiles d cfg path (concat (map arm_tiles arms) ++ rest) pos m true n ≡
                  parse_tiles d cfg path rest pos' m' true n.
Proof.
  induction 1 as [|a arms (H1 & H2 & H3 & H4) _ IH]; intros pos m; [by exists pos, m|].
  destruct (IH (cond_of (arm_cond a)) false) as (pos' & m' & E). exists pos', m'. intros n. rewrite <- E.
  cbn [map concat arm_tiles app parse_tiles]. rewrite H1, H2, H3. rewrite <- app_assoc. by apply parse_body.
Qed.

(** The else arm and the closing tile. *)
Definition tail_tiles (els : option (list (Z * Z))) : list (Z * Z) :=
  match els with Some l => ELSE_TILE :: l | None => [] end ++ [ENDIF_TILE].

Lemma parse_tail els rest pos m sk n :
  match els with Some l => Forall (fun e => plain_entry e = true) l | None => True end -> (sk = false -> m = false) ->
  parse_tiles d cfg path (tail_tiles els ++ rest) pos m sk n ≡
  n' ← apply_all d cfg path (if sk then [] else default [] els) n; parse_tiles d cfg path rest pos true false n'.
Proof.
  intros Hl Hm. destruct els as [l|]; unfold tail_tiles.
  - cbn [app]. rewrite <- app_assoc. change (parse_tiles d cfg path (ELSE_TILE :: l ++ [ENDIF_TILE] ++ rest) pos m sk n)
      with (parse_tiles d cfg path (l ++ [ENDIF_TILE] ++ rest) pos (if sk then false else true) sk n).
    rewrite (parse_body l _ _ _ _ Hl). destruct sk; reflexivity.
  - change (parse_tiles d cfg path (([] ++ [ENDIF_TILE]) ++ rest) pos m sk n)
      with (parse_tiles d cfg path rest pos true false n). destruct sk; reflexivity.
Qed.

Lemma parse_arms els rest : 
  match els with Some l => Forall (fun e => plain_entry e = true) l | None => True end ->
  forall arms, Forall arm_wf arms -> forall pos m n, (arms = [] -> m = false) ->
  exists pos', parse_tiles d cfg path (concat (map arm_tiles arms) ++ tail_tiles els ++ rest) pos m false n ≡
    n' ← apply_all d cfg path (first_match d arms (default [] els)) n; parse_tiles d cfg path rest pos' true false n'.
Proof.
  intros Hl. induction 1 as [|a arms (H1 & H2 & H3 & H4) Ha IH]; intros pos m n Hm.
  { exists pos. cbn [map concat app first_match]. apply parse_tail; [done|]. intros _. by apply Hm. }
  cbn [map concat arm_tiles app parse_tiles first_match NEG_TILE]. rewrite H1, H2, H3. rewrite <- app_assoc.
  change (nz (cond_pos (cond_of 0x40000000))) with false. change (nz (cond_neg (cond_of 0x40000000))) with true.
  cbn [negb]. destruct (check_positive d (cond_of (arm_cond a))).
  - destruct (parse_arms_skipped arms (tail_tiles els ++ rest) Ha (cond_of (arm_cond a)) true) as (pos' & m' & E).
    exists pos'. etransitivity; [by apply (parse_body (arm_body a))|]. cbn iota.
    apply prog_bind_proper; [|done]. intros n'. rewrite E. by apply (parse_tail els rest pos' m' true).
  - destruct (IH (cond_of (arm_cond a)) false n (fun _ => eq_refl)) as (pos' & E). exists pos'.
    etransitivity; [by apply (parse_body (arm_body a))|]. exact E.
Qed.

Lemma parse_blocks l : Forall block_wf l -> forall pos n,
  parse_tiles d cfg path (concat (map block_tiles l)) pos true false n ≡
  apply_all d cfg path (concat (map (selected d) l)) n.
Proof.
  induction 1 as [|b l Hb _ IH]; intros pos n; [done|]. cbn [map concat].
  rewrite apply_all_app. destruct b as [e|arms els]; cbn [block_tiles selected block_wf] in *.
  - etransitivity; [apply parse_body; by constructor|]. cbn iota.
    apply prog_bind_proper; [|done]. intros n'. apply IH.
  - destruct Hb as (Hne & Ha & Hl). rewrite <- app_assoc. fold (tail_tiles els).
    destruct (parse_arms els (concat (map block_tiles l)) Hl arms Ha pos true n) as [pos' E]; [done|].
    etransitivity; [exact E|]. apply prog_bind_proper; [|done]. intros n'. apply IH.
Qed.
End Parse.

(** On a table made of plain entries and conditionals (if, else-if and else
    arms), the interpreter makes exactly the calls of applying, in order, every
    plain entry and of each conditional the body of the first arm whose condition
    the chip meets (the else body if there is none), and counts them. *)
Theorem rtw_parse_tbl_phy_cond_selects (d : rtw_dev) (tbl : rtw_table) (l : list block) (n : Z) :
  Forall block_wf l -> t_data tbl = table_words l ->
  rtw_parse_tbl_phy_cond d tbl n ≡ apply_all d (do_cfg tbl) (t_path tbl) (concat (map (selected d) l)) n.
Proof.
  intros Hl Ht. unfold rtw_parse_tbl_phy_cond. rewrite Ht. unfold table_words. rewrite tiles_of_words.
  by apply parse_blocks.
Qed.

(** ** RF writes *)

(** A field of a 20-bit RF register replaced. *)
Definition rf_merge (old mask data : Z) : Z := (old .& .~ mask) .| (data << ctz mask).

(** The word of the serial write: an 8-bit register and 20 bits of data. *)
Definition sipi_reg (w : Z) : Z := (w >> 20) .& 0xff.
Definition sipi_data (w : Z) : Z := w .& 0xfffff.

Lemma sipi_word a v : 0 <= a < 2 ^ 8 ->
  sipi_reg (u32 (((a << 20) .| (v .& 0x000fffff)) .& 0x0fffffff)) = a /\
  sipi_data (u32 (((a << 20) .| (v .& 0x000fffff)) .& 0x0fffffff)) = v .& 0xfffff.
Proof.
  intros Ha. unfold sipi_reg, sipi_data.
  change 0x000fffff with (Z.ones 20). change 0x0fffffff with (Z.ones 28). change 0xff with (Z.ones 8).
  split; apply Z.bits_inj'; intros i Hi; rewrite ?Z.land_spec, ?Z.shiftr_spec, ?wrap_testbit, ?Z.land_spec, ?Z.lor_spec,
    ?Z.land_spec, ?Z.shiftl_spec, ?Z.testbit_ones_nonneg by lia.
  - rewrite Z.add_simpl_r. repeat (case_bool; try lia); cbn [andb]; rewrite ?andb_true_r, ?andb_false_r, ?orb_false_r; try done;
      symmetry; apply (testbit_high 8); lia.
  - repeat (case_bool; try lia); cbn [andb]; rewrite ?andb_true_r, ?andb_false_r, ?orb_false_r; try done;
      by rewrite Z.testbit_neg_r by lia.
Qed.

(** What the driver relies on of the RF bus: a read answers the register, a
    serial write sets the register it names, a pause changes nothing.  [rf] is the
    register file of path [path] inside the device's world. *)
Class RfBus {W : Type} (dev : Device W) (path : rtw_rf_path) (rf : W -> Z -> Z) : Prop := {
  rf_range : forall w a, 0 <= rf w a < 2 ^ 20;
  rf_read : forall w a, 0 <= a < 2 ^ 8 ->
    dev_step (Read W32 (rf_base_addr path + (a << 2))) w = (rf w a, w);
  rf_write : forall w v a,
    rf (dev_step (Write W32 (rf_sipi_addr path) v) w).2 a =
      if a =? sipi_reg v then sipi_data v else rf w a;
  rf_pause : forall w us a, rf (dev_step (Udelay us) w).2 a = rf w a;
}.

Lemma ctz_nonneg m : 0 <= ctz m.
Proof.
  destruct m as [|p|p]; cbn [ctz]; try lia. induction p as [p IH|p IH|]; cbn [ctz_pos]; lia.
Qed.

Section RfWrite.
Context {W : Type} (dev : Device W) (path : rtw_rf_path) (rf : W -> Z -> Z) `{!RfBus dev path rf}.
Context (d : rtw_dev) (Hpath : path_idx path < rf_phy_num (hal d)).

Lemma path_ok : (rf_phy_num (hal d) <=? path_idx path) = false.
Proof. lia. Qed.

Lemma read_rf_run addr mask w : 0 <= addr < 2 ^ 8 -> mask .& RFREG_MASK = mask ->
  run (rtw_phy_read_rf d path addr mask) w = ((rf w addr .& mask) >> ctz mask, w).
Proof.
  intros Ha Hm. unfold rtw_phy_read_rf. rewrite path_ok, Hm.
  assert (E : addr .& 0xff = addr) by (change 0xff with (Z.ones 8); rewrite Z.land_ones by done; by apply Z.mod_small).
  rewrite E. unfold hw_read32. rewrite !run_bind. cbn [run act].
  rewrite (rf_read w addr Ha). cbn [run]. pose proof (rf_range w addr).
  by rewrite u32_small by lia.
Qed.

(** The masked value fits the field. *)
Definition fits_mask (mask data : Z) : Prop := 0 <= data /\ (data << ctz mask) .& mask = data << ctz mask.

(** The serial write of a word. *)
Lemma sipi_run addr v w : 0 <= addr < 2 ^ 8 ->
  exists w', run (hw_write32 (rf_sipi_addr path) (((addr << 20) .| (v .& 0x000fffff)) .& 0x0fffffff);;
                  udelay 13;; mret true) w = (true, w') /\
    forall a, rf w' a = if a =? addr then v .& 0xfffff else rf w a.
Proof.
  intros Ha. destruct (sipi_word addr v Ha) as [H1 H2]. set (word := _ .& 0x0fffffff) in *. clearbody word.
  unfold hw_write32, udelay. rewrite run_bind. cbn [run act].
  pose proof (rf_write w (u32 word)) as Hw. rewrite H1, H2 in Hw.
  destruct (dev_step (Write W32 (rf_sipi_addr path) (u32 word)) w) as [[] w1]. cbn [snd] in Hw. cbn [run].
  rewrite run_bind. cbn [run act]. change (13 =? 0) with false. cbn iota.
  pose proof (rf_pause w1 13) as Hp. destruct (dev_step (Udelay 13) w1) as [[] w2]. cbn [snd] in Hp. cbn [run].
  exists w2. split; [done|]. intros a. by rewrite Hp, Hw.
Qed.

Lemma merge_range old mask data : 0 <= old < 2 ^ 20 -> mask .& RFREG_MASK = mask -> fits_mask mask data ->
  rf_merge old mask data .& 0xfffff = rf_merge old mask data.
Proof.
  intros Ho Hm [_ Hf]. unfold rf_merge. rewrite <- Hf, <- Hm. change 0xfffff with RFREG_MASK.
  rewrite Z.land_lor_distr_l. f_equal.
  - assert (E : old .& RFREG_MASK = old) by (change RFREG_MASK with (Z.ones 20); rewrite Z.land_ones by done; by apply Z.mod_small).
    rewrite <- E at 2. rewrite <- !Z.land_assoc. f_equal. apply Z.land_comm.
  - rewrite <- !Z.land_assoc. by rewrite Z.land_diag.
Qed.

Lemma write_rf_run addr mask data w :
  0 <= addr < 2 ^ 8 -> mask .& RFREG_MASK = mask -> fits_mask mask data ->
  exists w', run (rtw_write_rf d path addr mask data) w = (true, w') /\
    forall a, rf w' a = if a =? addr then rf_merge (rf w addr) mask data else rf w a.
Proof.
  intros Ha Hm Hfit. pose proof (rf_range w addr) as Hold.
  pose proof (merge_range (rf w addr) mask data Hold Hm Hfit) as Hmr.
  unfold rtw_write_rf. rewrite path_ok, Hm.
  assert (E : addr .& 0xff = addr) by (change 0xff with (Z.ones 8); rewrite Z.land_ones by done; by apply Z.mod_small).
  rewrite E. destruct (Z.eqb_spec mask RFREG_MASK) as [->|Hne]; cbn [negb andb].
  - cbn [mbind prog_mbind prog_bind mret prog_ret].
    destruct (sipi_run addr data w Ha) as (w' & Hr & Hw). exists w'. split; [exact Hr|].
    intros a. rewrite Hw. destruct (a =? addr); [|done]. destruct Hfit as [_ Hf].
    unfold rf_merge in *. change (ctz RFREG_MASK) with 0 in *. rewrite Z.shiftl_0_r in *.
    change 0xfffff with RFREG_MASK. rewrite Hf. symmetry.
    assert (Z0 : rf w addr .& .~ RFREG_MASK = 0).
    { apply Z.bits_inj'. intros i Hi. rewrite Z.land_spec, Z.lnot_spec, Z.bits_0 by done.
      change RFREG_MASK with (Z.ones 20). rewrite Z.testbit_ones_nonneg by lia.
      destruct (Z.ltb_spec i 20); [by rewrite andb_false_r|]. by rewrite (testbit_high 20) by lia. }
    by rewrite Z0.
  - rewrite run_bind, (read_rf_run addr RFREG_MASK w Ha eq_refl).
    change (ctz RFREG_MASK) with 0. rewrite Z.shiftr_0_r.
    assert (Eo : rf w addr .& RFREG_MASK = rf w addr)
      by (change RFREG_MASK with (Z.ones 20); rewrite Z.land_ones by done; by apply Z.mod_small).
    rewrite Eo. destruct (Z.eqb_spec (rf w addr) INV_RF_DATA) as [Hinv|_]; [unfold INV_RF_DATA in Hinv; lia|].
    cbn [andb]. destruct Hfit as [Hd Hf].
    assert (Eu : u32 (data << ctz mask) = data << ctz mask).
    { assert (Hx : RFREG_MASK .& (data << ctz mask) = data << ctz mask)
        by (by rewrite Z.land_comm, <- Hf, <- Z.land_assoc, Hm).
      apply u32_small. rewrite <- Hx.
      pose proof (land_range 20 RFREG_MASK (data << ctz mask) ltac:(lia) ltac:(by vm_compute)). lia. }
    rewrite Eu. fold (rf_merge (rf w addr) mask data).
    destruct (sipi_run addr (rf_merge (rf w addr) mask data) w Ha) as (w' & Hr & Hw). exists w'. split; [exact Hr|].
    intros a. rewrite Hw. by rewrite Hmr.
Qed.
End RfWrite.

(** Two selections from a merge agree, bit by bit. *)
Ltac merge_bits old mask :=
  apply Z.bits_inj'; intros ?i ?Hi;
  rewrite ?Z.land_spec, ?Z.lor_spec, ?Z.land_spec, ?Z.lnot_spec by done;
  destruct (Z.testbit old i), (Z.testbit mask i); cbn; rewrite ?andb_true_r, ?andb_false_r, ?orb_false_r; done.

(** Over a bus that reads and writes the RF registers, a masked write of a
    value that fits succeeds, puts the value in the field, keeps the register's
    other bits and every other register, and reading the field back answers it. *)
Theorem rtw_write_rf_roundtrip (W : Type) (dev : Device W) (path : rtw_rf_path) (rf : W -> Z -> Z)
    (bus : RfBus dev path rf) (d : rtw_dev) (addr mask data : Z) (w : W) :
  path_idx path < rf_phy_num (hal d) -> 0 <= addr < 2 ^ 8 -> mask .& RFREG_MASK = mask -> fits_mask mask data ->
  let '(ok, w') := run (rtw_write_rf d path addr mask data) w in
  ok = true /\
  rf w' addr .& mask = data << ctz mask /\
  rf w' addr .& .~ mask = rf w addr .& .~ mask /\
  (forall a, a <> addr -> rf w' a = rf w a) /\
  run (rtw_phy_read_rf d path addr mask) w' = (data, w').
Proof.
  intros Hp Ha Hm Hfit. destruct (write_rf_run dev path rf d Hp addr mask data w Ha Hm Hfit) as (w' & -> & Hw).
  pose proof (Hw addr) as Haddr. rewrite Z.eqb_refl in Haddr. pose proof (proj2 Hfit) as Hf.
  assert (Hin : rf w' addr .& mask = data << ctz mask).
  { rewrite Haddr. unfold rf_merge. rewrite <- Hf. merge_bits (rf w addr) mask. }
  split_and!; [done|done| | |].
  - rewrite Haddr. unfold rf_merge. rewrite <- Hf. merge_bits (rf w addr) mask.
  - intros a Hne. rewrite Hw. by destruct (Z.eqb_spec a addr).
  - rewrite (read_rf_run dev path rf d Hp addr mask w' Ha Hm), Hin.
    rewrite Z.shiftr_shiftl_l by (apply ctz_nonneg). by rewrite Z.sub_diag, Z.shiftl_0_r.
Qed.

(** ** Witnesses *)

(** A chip of RFE type 2 and a table with a three-way conditional. *)
Definition phy_dev_example : rtw_dev := rtw_phy_setup_phy_cond (set_efuse (Efuse 0 [] 2 0 0 0 false) (example_dev [] [])) 0.
Definition table_example : list block :=
  [Plain (0x800, 7);
   Branches [Arm 0x80000001 [(0x804, 1)]; Arm 0x90000002 [(0x804, 2); (0x808, 5)]; Arm 0x90000002 [(0x804, 3)]]
     (Some [(0x804, 4)]);
   Plain (0x80c, 9)].

Lemma rtw_parse_tbl_phy_cond_selects_witness :
  rtw_parse_tbl_phy_cond phy_dev_example (Table (table_words table_example) rtw_phy_cfg_agc RF_PATH_A) 0 ≡
  apply_all phy_dev_example rtw_phy_cfg_agc RF_PATH_A [(0x800, 7); (0x804, 2); (0x808, 5); (0x80c, 9)] 0.
Proof.
  refine (rtw_parse_tbl_phy_cond_selects phy_dev_example
           (Table (table_words table_example) rtw_phy_cfg_agc RF_PATH_A) table_example 0 _ eq_refl).
  repeat constructor; done.
Defined.

(** A bus whose world is the register file of path A. *)
Definition rf_file (w : Z -> Z) (a : Z) : Z := w a .& 0xfffff.
#[local] Instance rf_file_dev : Device (Z -> Z) := fun o w =>
  match o as o return hwres o * (Z -> Z) with
  | Read W32 off => (rf_file w ((off - 0x2800) >> 2), w)
  | Write W32 off v => (tt, if off =? 0x0c90 then fun a => if a =? sipi_reg v then sipi_data v else w a else w)
  | o => (hw_default o, w)
  end.
#[local] Instance rf_file_bus : RfBus rf_file_dev RF_PATH_A rf_file.
Proof.
  split.
  - intros w a. apply (land_ones_range 20). done.
  - intros w a Ha. cbn. rewrite Z.add_simpl_l, Z.shiftr_shiftl_l by done. by rewrite Z.shiftl_0_r.
  - intros w v a. cbn. unfold rf_file. destruct (a =? sipi_reg v); [|done].
    unfold sipi_data. by rewrite <- Z.land_assoc, Z.land_diag.
  - done.
Qed.

Lemma rtw_write_rf_roundtrip_witness :
  let w := fun _ : Z => 0x12345 in
  let '(ok, w') := run (rtw_write_rf (example_dev [] []) RF_PATH_A 0x64 0xf 0xa) w in
  ok = true /\
  rf_file w' 0x64 .& 0xf = 0xa << ctz 0xf /\
  rf_file w' 0x64 .& .~ 0xf = rf_file w 0x64 .& .~ 0xf /\
  (forall a, a <> 0x64 -> rf_file w' a = rf_file w a) /\
  run (rtw_phy_read_rf (example_dev [] []) RF_PATH_A 0x64 0xf) w' = (0xa, w').
Proof.
  intros w. apply (rtw_write_rf_roundtrip (Z -> Z) rf_file_dev RF_PATH_A rf_file rf_file_bus (example_dev [] [])
                     0x64 0xf 0xa w); [done|done|done|split; done].
Defined.
