(* ===== verification/PhyTables.v ===== *)
(** * PhyTables: the parameter tables (core/upstream/rtw8821c_table.c)

    The five tables [phy_set_param] loads, word for word in blocks of 150 lines of
    the source, and what loading them does on any chip: they are well formed, name
    no DMA-ring register, and apply the same number of entries whichever arms of
    their conditionals are taken.
    The power-by-rate and power-limit tables are not loaded by this driver. *)
From stdpp Require Import list.
From S2P Require Import Prelude Hw Regs Dev Phy.
Open Scope Z_scope.
Open Scope rtw_scope.

(** ** The tables *)

Definition rtw8821c_mac_00 : list Z := [
  0x10; 0x43; 0x25; 0x1d; 0x26; 0xce; 0x4f; 1;
  0x29; 0xf9; 0x420; 0x80; 0x421; 0x1f; 0x428; 0xa;
  0x429; 0x10; 0x430; 0; 0x431; 0; 0x432; 0;
  0x433; 1; 0x434; 4; 0x435; 5; 0x436; 7;
  0x437; 8; 0x43c; 4; 0x43d; 5; 0x43e; 7;
  0x43f; 8; 0x440; 0x5d; 0x441; 1; 0x442; 0;
  0x444; 0x10; 0x445; 0xf0; 0x446; 1; 0x447; 0xfe;
  0x448; 0; 0x449; 0; 0x44a; 0; 0x44b; 0x40;
  0x44c; 0x10; 0x44d; 0xf0; 0x44e; 0x3f; 0x44f; 0;
  0x450; 0; 0x451; 0; 0x452; 0; 0x453; 0x40;
  0x455; 0x70; 0x45e; 4; 0x49c; 0x10; 0x49d; 0xf0;
  0x49e; 0; 0x49f; 6; 0x4a0; 0xe0; 0x4a1; 3;
  0x4a2; 0; 0x4a3; 0x40; 0x4a4; 0x15; 0x4a5; 0xf0;
  0x4a6; 0; 0x4a7; 6; 0x4a8; 0xe0; 0x4a9; 0;
  0x4aa; 0; 0x4ab; 0; 0x7da; 8; 0x1448; 6;
  0x144a; 6; 0x144c; 6; 0x144e; 6; 0x4c8; 0xff;
  0x4c9; 8; 0x4cc; 0xff; 0x4cd; 0xff; 0x4ce; 1;
  0x4cf; 8; 0x500; 0x26; 0x501; 0xa2; 0x502; 0x2f;
  0x503; 0; 0x504; 0x28; 0x505; 0xa3; 0x506; 0x5e;
  0x507; 0; 0x508; 0x2b; 0x509; 0xa4; 0x50a; 0x5e;
  0x50b; 0; 0x50c; 0x4f; 0x50d; 0xa4; 0x50e; 0;
  0x50f; 0; 0x512; 0x1c; 0x514; 0xa; 0x516; 0xa;
  0x521; 0x2f; 0x525; 0x4f; 0x551; 0x10; 0x559; 2;
  0x55c; 0x50; 0x55d; 0xff; 0x577; 0xb; 0x578; 0x14;
  0x579; 0x14; 0x57a; 0x14; 0x5be; 0x64; 0x605; 0x30;
  0x608; 0xe; 0x609; 0x22; 0x60c; 0x18; 0x6a0; 0xff;
  0x6a1; 0xff; 0x6a2; 0xff; 0x6a3; 0xff; 0x6a4; 0xff;
  0x6a5; 0xff; 0x6de; 0x84; 0x620; 0xff; 0x621; 0xff;
  0x622; 0xff; 0x623; 0xff; 0x624; 0xff; 0x625; 0xff;
  0x626; 0xff; 0x627; 0xff; 0x638; 0x50; 0x63c; 0xa;
  0x63d; 0xa; 0x63e; 0xe; 0x63f; 0xe; 0x640; 0x40;
  0x642; 0x40; 0x643; 0; 0x652; 0xc8; 0x66e; 5;
  0x700; 0x21; 0x701; 0x43; 0x702; 0x65; 0x703; 0x87;
  0x708; 0x21; 0x709; 0x43; 0x70a; 0x65; 0x70b; 0x87;
  0x718; 0x40; 0x7d4; 0x98].
Definition rtw8821c_mac : list Z := concat [rtw8821c_mac_00].

Definition rtw8821c_agc_00 : list Z := [
  0x80001004; 0; 0x40000000; 0; 0x81c; 0xfb000003; 0x81c; 0xfa020003;
  0x81c; 0xf9040003; 0x81c; 0xf8060003; 0x81c; 0xf7080003; 0x81c; 0xf60a0003;
  0x81c; 0xf50c0003; 0x81c; 0xf40e0003; 0x81c; 0xf3100003; 0x81c; 0xf2120003;
  0x81c; 0xf1140003; 0x81c; 0xf0160003; 0x81c; 0xef180003; 0x81c; 0xee1a0003;
  0x81c; 0xed1c0003; 0x81c; 0xec1e0003; 0x81c; 0xeb200003; 0x81c; 0xea220003;
  0x81c; 0xe9240003; 0x81c; 0xe8260003; 0x81c; 0xe7280003; 0x81c; 0xe62a0003;
  0x81c; 0xe52c0003; 0x81c; 0xe42e0003; 0x81c; 0xe3300003; 0x81c; 0xe2320003;
  0x81c; 0xe1340003; 0x81c; 0xc4360003; 0x81c; 0xc3380003; 0x81c; 0xc23a0003;
  0x81c; 0xc13c0003; 0x81c; 0x883e0003; 0x81c; 0x87400003; 0x81c; 0x86420003;
  0x81c; 0x85440003; 0x81c; 0x84460003; 0x81c; 0x83480003; 0x81c; 0x824a0003;
  0x81c; 0x814c0003; 0x81c; 0x804e0003; 0x81c; 0x64500003; 0x81c; 0x63520003;
  0x81c; 0x62540003; 0x81c; 0x61560003; 0x81c; 0x60580003; 0x81c; 0x475a0003;
  0x81c; 0x465c0003; 0x81c; 0x455e0003; 0x81c; 0x44600003; 0x81c; 0x43620003;
  0x81c; 0x42640003; 0x81c; 0x41660003; 0x81c; 0x40680003; 0x81c; 0x236a0003;
  0x81c; 0x226c0003; 0x81c; 0x56e0003; 0x81c; 0x4700003; 0x81c; 0x3720003;
  0x81c; 0x2740003; 0x81c; 0x1760003; 0x81c; 0x1780003; 0x81c; 0x17a0003;
  0x81c; 0x17c0003; 0x81c; 0x17e0003; 0x90001005; 0; 0x40000000; 0;
  0x81c; 0xfb000003; 0x81c; 0xfa020003; 0x81c; 0xf9040003; 0x81c; 0xf8060003;
  0x81c; 0xf7080003; 0x81c; 0xf60a0003; 0x81c; 0xf50c0003; 0x81c; 0xf40e0003;
  0x81c; 0xf3100003; 0x81c; 0xf2120003; 0x81c; 0xf1140003; 0x81c; 0xf0160003;
  0x81c; 0xef180003; 0x81c; 0xee1a0003; 0x81c; 0xed1c0003; 0x81c; 0xec1e0003;
  0x81c; 0xeb200003; 0x81c; 0xea220003; 0x81c; 0xe9240003; 0x81c; 0xe8260003;
  0x81c; 0xe7280003; 0x81c; 0xe62a0003; 0x81c; 0xe52c0003; 0x81c; 0xe42e0003;
  0x81c; 0xe3300003; 0x81c; 0xe2320003; 0x81c; 0xe1340003; 0x81c; 0xc4360003;
  0x81c; 0xc3380003; 0x81c; 0xc23a0003; 0x81c; 0xc13c0003; 0x81c; 0x883e0003;
  0x81c; 0x87400003; 0x81c; 0x86420003; 0x81c; 0x85440003; 0x81c; 0x84460003;
  0x81c; 0x83480003; 0x81c; 0x824a0003; 0x81c; 0x814c0003; 0x81c; 0x804e0003;
  0x81c; 0x64500003; 0x81c; 0x63520003; 0x81c; 0x62540003; 0x81c; 0x61560003;
  0x81c; 0x60580003; 0x81c; 0x475a0003; 0x81c; 0x465c0003; 0x81c; 0x455e0003;
  0x81c; 0x44600003; 0x81c; 0x43620003; 0x81c; 0x42640003; 0x81c; 0x41660003;
  0x81c; 0x40680003; 0x81c; 0x236a0003; 0x81c; 0x226c0003; 0x81c; 0x56e0003;
  0x81c; 0x4700003; 0x81c; 0x3720003; 0x81c; 0x2740003; 0x81c; 0x1760003;
  0x81c; 0x1780003; 0x81c; 0x17a0003; 0x81c; 0x17c0003; 0x81c; 0x17e0003;
  0xa0000000; 0; 0x81c; 0xfb000003; 0x81c; 0xfa020003; 0x81c; 0xf9040003;
  0x81c; 0xf8060003; 0x81c; 0xf7080003; 0x81c; 0xf60a0003; 0x81c; 0xf50c0003;
  0x81c; 0xf40e0003; 0x81c; 0xf3100003; 0x81c; 0xf2120003; 0x81c; 0xf1140003;
  0x81c; 0xf0160003; 0x81c; 0xef180003; 0x81c; 0xee1a0003; 0x81c; 0xed1c0003;
  0x81c; 0xec1e0003; 0x81c; 0xeb200003; 0x81c; 0xea220003; 0x81c; 0xe9240003].
Definition rtw8821c_agc_01 : list Z := [
  0x81c; 0xe8260003; 0x81c; 0xe7280003; 0x81c; 0xe62a0003; 0x81c; 0xca2c0003;
  0x81c; 0xc92e0003; 0x81c; 0xc8300003; 0x81c; 0xc7320003; 0x81c; 0xc6340003;
  0x81c; 0xc5360003; 0x81c; 0xc4380003; 0x81c; 0xc33a0003; 0x81c; 0xc23c0003;
  0x81c; 0xc13e0003; 0x81c; 0x88400003; 0x81c; 0x87420003; 0x81c; 0x86440003;
  0x81c; 0x85460003; 0x81c; 0x84480003; 0x81c; 0x834a0003; 0x81c; 0x674c0003;
  0x81c; 0x664e0003; 0x81c; 0x65500003; 0x81c; 0x64520003; 0x81c; 0x63540003;
  0x81c; 0x62560003; 0x81c; 0x61580003; 0x81c; 0x455a0003; 0x81c; 0x445c0003;
  0x81c; 0x435e0003; 0x81c; 0x42600003; 0x81c; 0x41620003; 0x81c; 0x25640003;
  0x81c; 0x24660003; 0x81c; 0x23680003; 0x81c; 0x226a0003; 0x81c; 0x216c0003;
  0x81c; 0x16e0003; 0x81c; 0x1700003; 0x81c; 0x1720003; 0x81c; 0x1740003;
  0x81c; 0x1760003; 0x81c; 0x1780003; 0x81c; 0x17a0003; 0x81c; 0x17c0003;
  0x81c; 0x17e0003; 0xb0000000; 0; 0x80001004; 0; 0x40000000; 0;
  0x81c; 0xfd000103; 0x81c; 0xfc020103; 0x81c; 0xfb040103; 0x81c; 0xfa060103;
  0x81c; 0xf9080103; 0x81c; 0xf80a0103; 0x81c; 0xf70c0103; 0x81c; 0xf60e0103;
  0x81c; 0xf5100103; 0x81c; 0xf4120103; 0x81c; 0xf3140103; 0x81c; 0xf2160103;
  0x81c; 0xf1180103; 0x81c; 0xf01a0103; 0x81c; 0xef1c0103; 0x81c; 0xee1e0103;
  0x81c; 0xed200103; 0x81c; 0xec220103; 0x81c; 0xeb240103; 0x81c; 0xea260103;
  0x81c; 0xe9280103; 0x81c; 0xe82a0103; 0x81c; 0xe72c0103; 0x81c; 0xe62e0103;
  0x81c; 0xe5300103; 0x81c; 0xe4320103; 0x81c; 0xe3340103; 0x81c; 0xe2360103;
  0x81c; 0xe1380103; 0x81c; 0xe03a0103; 0x81c; 0xc33c0103; 0x81c; 0xc23e0103;
  0x81c; 0xc1400103; 0x81c; 0xc0420103; 0x81c; 0xa3440103; 0x81c; 0xa2460103;
  0x81c; 0xa1480103; 0x81c; 0xa04a0103; 0x81c; 0x824c0103; 0x81c; 0x814e0103;
  0x81c; 0x80500103; 0x81c; 0x62520103; 0x81c; 0x61540103; 0x81c; 0x60560103;
  0x81c; 0x24580103; 0x81c; 0x235a0103; 0x81c; 0x225c0103; 0x81c; 0x215e0103;
  0x81c; 0x20600103; 0x81c; 0x3620103; 0x81c; 0x2640103; 0x81c; 0x1660103;
  0x81c; 0x1680103; 0x81c; 0x16a0103; 0x81c; 0x16c0103; 0x81c; 0x16e0103;
  0x81c; 0x1700103; 0x81c; 0x1720103; 0x81c; 0x1740103; 0x81c; 0x1760103;
  0x81c; 0x1780103; 0x81c; 0x17a0103; 0x81c; 0x17c0103; 0x81c; 0x17e0103;
  0x90001005; 0; 0x40000000; 0; 0x81c; 0xf6000103; 0x81c; 0xf5020103;
  0x81c; 0xf4040103; 0x81c; 0xf3060103; 0x81c; 0xf2080103; 0x81c; 0xf10a0103;
  0x81c; 0xf00c0103; 0x81c; 0xef0e0103; 0x81c; 0xee100103; 0x81c; 0xed120103;
  0x81c; 0xec140103; 0x81c; 0xce160103; 0x81c; 0xea180103; 0x81c; 0xe91a0103;
  0x81c; 0xe81c0103; 0x81c; 0xe71e0103; 0x81c; 0xe6200103; 0x81c; 0xe5220103;
  0x81c; 0xe4240103; 0x81c; 0xe3260103; 0x81c; 0xe2280103; 0x81c; 0xe12a0103;
  0x81c; 0xc32c0103; 0x81c; 0xa62e0103; 0x81c; 0xc1300103; 0x81c; 0xa4320103;
  0x81c; 0xa3340103; 0x81c; 0xa2360103; 0x81c; 0xa1380103; 0x81c; 0x833a0103;
  0x81c; 0x823c0103; 0x81c; 0x813e0103; 0x81c; 0x63400103; 0x81c; 0x62420103;
  0x81c; 0x61440103; 0x81c; 0x60460103; 0x81c; 0x25480103; 0x81c; 0x244a0103].
Definition rtw8821c_agc_02 : list Z := [
  0x81c; 0x234c0103; 0x81c; 0x64e0103; 0x81c; 0x21500103; 0x81c; 0x4520103;
  0x81c; 0x3540103; 0x81c; 0x2560103; 0x81c; 0x1580103; 0x81c; 0x5a0103;
  0x81c; 0x5c0103; 0x81c; 0x5e0103; 0x81c; 0x600103; 0x81c; 0x620103;
  0x81c; 0x640103; 0x81c; 0x660103; 0x81c; 0x680103; 0x81c; 0x6a0103;
  0x81c; 0x6c0103; 0x81c; 0x6e0103; 0x81c; 0x700103; 0x81c; 0x720103;
  0x81c; 0x740103; 0x81c; 0x760103; 0x81c; 0x780103; 0x81c; 0x7a0103;
  0x81c; 0x7c0103; 0x81c; 0x7e0103; 0xa0000000; 0; 0x81c; 0xfd000103;
  0x81c; 0xfc020103; 0x81c; 0xfb040103; 0x81c; 0xfa060103; 0x81c; 0xf9080103;
  0x81c; 0xf80a0103; 0x81c; 0xf70c0103; 0x81c; 0xf60e0103; 0x81c; 0xf5100103;
  0x81c; 0xf4120103; 0x81c; 0xf3140103; 0x81c; 0xf2160103; 0x81c; 0xf1180103;
  0x81c; 0xf01a0103; 0x81c; 0xef1c0103; 0x81c; 0xee1e0103; 0x81c; 0xed200103;
  0x81c; 0xec220103; 0x81c; 0xeb240103; 0x81c; 0xea260103; 0x81c; 0xe9280103;
  0x81c; 0xe82a0103; 0x81c; 0xe72c0103; 0x81c; 0xe62e0103; 0x81c; 0xe5300103;
  0x81c; 0xe4320103; 0x81c; 0xe3340103; 0x81c; 0xe2360103; 0x81c; 0xe1380103;
  0x81c; 0xe03a0103; 0x81c; 0xa83c0103; 0x81c; 0xa73e0103; 0x81c; 0xa6400103;
  0x81c; 0xa5420103; 0x81c; 0xa4440103; 0x81c; 0xa3460103; 0x81c; 0xa2480103;
  0x81c; 0xa14a0103; 0x81c; 0x834c0103; 0x81c; 0x824e0103; 0x81c; 0x81500103;
  0x81c; 0x63520103; 0x81c; 0x62540103; 0x81c; 0x61560103; 0x81c; 0x25580103;
  0x81c; 0x245a0103; 0x81c; 0x235c0103; 0x81c; 0x225e0103; 0x81c; 0x4600103;
  0x81c; 0x3620103; 0x81c; 0x2640103; 0x81c; 0x1660103; 0x81c; 0x1680103;
  0x81c; 0x16a0103; 0x81c; 0x16c0103; 0x81c; 0x16e0103; 0x81c; 0x1700103;
  0x81c; 0x1720103; 0x81c; 0x1740103; 0x81c; 0x1760103; 0x81c; 0x1780103;
  0x81c; 0x17a0103; 0x81c; 0x17c0103; 0x81c; 0x17e0103; 0xb0000000; 0;
  0x80001004; 0; 0x40000000; 0; 0x81c; 0xfb000203; 0x81c; 0xfa020203;
  0x81c; 0xf9040203; 0x81c; 0xf8060203; 0x81c; 0xf7080203; 0x81c; 0xf60a0203;
  0x81c; 0xf50c0203; 0x81c; 0xf40e0203; 0x81c; 0xf3100203; 0x81c; 0xf2120203;
  0x81c; 0xf1140203; 0x81c; 0xf0160203; 0x81c; 0xef180203; 0x81c; 0xee1a0203;
  0x81c; 0xed1c0203; 0x81c; 0xec1e0203; 0x81c; 0xeb200203; 0x81c; 0xea220203;
  0x81c; 0xe9240203; 0x81c; 0xe8260203; 0x81c; 0xe7280203; 0x81c; 0xe62a0203;
  0x81c; 0xe52c0203; 0x81c; 0xe42e0203; 0x81c; 0xe3300203; 0x81c; 0xe2320203;
  0x81c; 0xe1340203; 0x81c; 0xc5360203; 0x81c; 0xc4380203; 0x81c; 0xc33a0203;
  0x81c; 0xc23c0203; 0x81c; 0xc13e0203; 0x81c; 0xa4400203; 0x81c; 0xa3420203;
  0x81c; 0xa2440203; 0x81c; 0xa1460203; 0x81c; 0xa0480203; 0x81c; 0x834a0203;
  0x81c; 0x824c0203; 0x81c; 0x814e0203; 0x81c; 0x63500203; 0x81c; 0x62520203;
  0x81c; 0x61540203; 0x81c; 0x60560203; 0x81c; 0x23580203; 0x81c; 0x225a0203;
  0x81c; 0x215c0203; 0x81c; 0x205e0203; 0x81c; 0x4600203; 0x81c; 0x3620203;
  0x81c; 0x2640203; 0x81c; 0x1660203; 0x81c; 0x1680203; 0x81c; 0x16a0203;
  0x81c; 0x16c0203; 0x81c; 0x16e0203; 0x81c; 0x1700203].
Definition rtw8821c_agc_03 : list Z := [
  0x81c; 0x1720203; 0x81c; 0x1740203; 0x81c; 0x1760203; 0x81c; 0x1780203;
  0x81c; 0x17a0203; 0x81c; 0x17c0203; 0x81c; 0x17e0203; 0x90001005; 0;
  0x40000000; 0; 0x81c; 0xf6000203; 0x81c; 0xf5020203; 0x81c; 0xf4040203;
  0x81c; 0xf3060203; 0x81c; 0xf2080203; 0x81c; 0xf10a0203; 0x81c; 0xf00c0203;
  0x81c; 0xef0e0203; 0x81c; 0xee100203; 0x81c; 0xed120203; 0x81c; 0xec140203;
  0x81c; 0xeb160203; 0x81c; 0xea180203; 0x81c; 0xe91a0203; 0x81c; 0xe81c0203;
  0x81c; 0xe71e0203; 0x81c; 0xe6200203; 0x81c; 0xe5220203; 0x81c; 0xe4240203;
  0x81c; 0xe3260203; 0x81c; 0xe2280203; 0x81c; 0xe12a0203; 0x81c; 0xe02c0203;
  0x81c; 0xc22e0203; 0x81c; 0xc1300203; 0x81c; 0xc0320203; 0x81c; 0xa3340203;
  0x81c; 0xa2360203; 0x81c; 0xa1380203; 0x81c; 0xa03a0203; 0x81c; 0x833c0203;
  0x81c; 0x823e0203; 0x81c; 0x81400203; 0x81c; 0x80420203; 0x81c; 0x62440203;
  0x81c; 0x61460203; 0x81c; 0x42480203; 0x81c; 0x414a0203; 0x81c; 0x234c0203;
  0x81c; 0x224e0203; 0x81c; 0x21500203; 0x81c; 0x20520203; 0x81c; 0x3540203;
  0x81c; 0x2560203; 0x81c; 0x1580203; 0x81c; 0x5a0203; 0x81c; 0x5c0203;
  0x81c; 0x5e0203; 0x81c; 0x600203; 0x81c; 0x620203; 0x81c; 0x640203;
  0x81c; 0x660203; 0x81c; 0x680203; 0x81c; 0x6a0203; 0x81c; 0x6c0203;
  0x81c; 0x6e0203; 0x81c; 0x700203; 0x81c; 0x720203; 0x81c; 0x740203;
  0x81c; 0x760203; 0x81c; 0x780203; 0x81c; 0x7a0203; 0x81c; 0x7c0203;
  0x81c; 0x7e0203; 0xa0000000; 0; 0x81c; 0xfc000203; 0x81c; 0xfb020203;
  0x81c; 0xfa040203; 0x81c; 0xf9060203; 0x81c; 0xf8080203; 0x81c; 0xf70a0203;
  0x81c; 0xf60c0203; 0x81c; 0xf50e0203; 0x81c; 0xf4100203; 0x81c; 0xf3120203;
  0x81c; 0xf2140203; 0x81c; 0xf1160203; 0x81c; 0xf0180203; 0x81c; 0xef1a0203;
  0x81c; 0xee1c0203; 0x81c; 0xed1e0203; 0x81c; 0xec200203; 0x81c; 0xeb220203;
  0x81c; 0xea240203; 0x81c; 0xe9260203; 0x81c; 0xe8280203; 0x81c; 0xe72a0203;
  0x81c; 0xe62c0203; 0x81c; 0xe52e0203; 0x81c; 0xe4300203; 0x81c; 0xe3320203;
  0x81c; 0xe2340203; 0x81c; 0xe1360203; 0x81c; 0xc5380203; 0x81c; 0xc43a0203;
  0x81c; 0xc33c0203; 0x81c; 0xc23e0203; 0x81c; 0xa6400203; 0x81c; 0xa5420203;
  0x81c; 0xa4440203; 0x81c; 0xa3460203; 0x81c; 0xa2480203; 0x81c; 0x844a0203;
  0x81c; 0x834c0203; 0x81c; 0x824e0203; 0x81c; 0x64500203; 0x81c; 0x63520203;
  0x81c; 0x62540203; 0x81c; 0x61560203; 0x81c; 0x60580203; 0x81c; 0x235a0203;
  0x81c; 0x225c0203; 0x81c; 0x215e0203; 0x81c; 0x4600203; 0x81c; 0x3620203;
  0x81c; 0x2640203; 0x81c; 0x1660203; 0x81c; 0x1680203; 0x81c; 0x16a0203;
  0x81c; 0x16c0203; 0x81c; 0x16e0203; 0x81c; 0x1700203; 0x81c; 0x1720203;
  0x81c; 0x1740203; 0x81c; 0x1760203; 0x81c; 0x1780203; 0x81c; 0x17a0203;
  0x81c; 0x17c0203; 0x81c; 0x17e0203; 0xb0000000; 0; 0x80001004; 0;
  0x40000000; 0; 0x81c; 0xfb000303; 0x81c; 0xfa020303; 0x81c; 0xf9040303;
  0x81c; 0xf8060303; 0x81c; 0xf7080303; 0x81c; 0xf60a0303; 0x81c; 0xf50c0303;
  0x81c; 0xf40e0303; 0x81c; 0xf3100303; 0x81c; 0xf2120303; 0x81c; 0xf1140303].
Definition rtw8821c_agc_04 : list Z := [
  0x81c; 0xf0160303; 0x81c; 0xef180303; 0x81c; 0xee1a0303; 0x81c; 0xed1c0303;
  0x81c; 0xec1e0303; 0x81c; 0xeb200303; 0x81c; 0xea220303; 0x81c; 0xe9240303;
  0x81c; 0xe8260303; 0x81c; 0xe7280303; 0x81c; 0xe62a0303; 0x81c; 0xe52c0303;
  0x81c; 0xe42e0303; 0x81c; 0xe3300303; 0x81c; 0xe2320303; 0x81c; 0xe1340303;
  0x81c; 0xc4360303; 0x81c; 0xc3380303; 0x81c; 0xc23a0303; 0x81c; 0xc13c0303;
  0x81c; 0xa53e0303; 0x81c; 0xa4400303; 0x81c; 0xa3420303; 0x81c; 0xa2440303;
  0x81c; 0xa1460303; 0x81c; 0x83480303; 0x81c; 0x824a0303; 0x81c; 0x814c0303;
  0x81c; 0x644e0303; 0x81c; 0x63500303; 0x81c; 0x62520303; 0x81c; 0x61540303;
  0x81c; 0x60560303; 0x81c; 0x23580303; 0x81c; 0x225a0303; 0x81c; 0x215c0303;
  0x81c; 0x45e0303; 0x81c; 0x3600303; 0x81c; 0x2620303; 0x81c; 0x1640303;
  0x81c; 0x1660303; 0x81c; 0x1680303; 0x81c; 0x16a0303; 0x81c; 0x16c0303;
  0x81c; 0x16e0303; 0x81c; 0x1700303; 0x81c; 0x1720303; 0x81c; 0x1740303;
  0x81c; 0x1760303; 0x81c; 0x1780303; 0x81c; 0x17a0303; 0x81c; 0x17c0303;
  0x81c; 0x17e0303; 0x90001005; 0; 0x40000000; 0; 0x81c; 0xf5000303;
  0x81c; 0xf4020303; 0x81c; 0xf3040303; 0x81c; 0xf2060303; 0x81c; 0xf1080303;
  0x81c; 0xf00a0303; 0x81c; 0xef0c0303; 0x81c; 0xee0e0303; 0x81c; 0xed100303;
  0x81c; 0xec120303; 0x81c; 0xeb140303; 0x81c; 0xea160303; 0x81c; 0xe9180303;
  0x81c; 0xe81a0303; 0x81c; 0xe71c0303; 0x81c; 0xe61e0303; 0x81c; 0xe5200303;
  0x81c; 0xe4220303; 0x81c; 0xe3240303; 0x81c; 0xe2260303; 0x81c; 0xe1280303;
  0x81c; 0xe02a0303; 0x81c; 0xa72c0303; 0x81c; 0xa62e0303; 0x81c; 0xa5300303;
  0x81c; 0xa4320303; 0x81c; 0xa3340303; 0x81c; 0xa2360303; 0x81c; 0xa1380303;
  0x81c; 0xa03a0303; 0x81c; 0x823c0303; 0x81c; 0x643e0303; 0x81c; 0x63400303;
  0x81c; 0x62420303; 0x81c; 0x61440303; 0x81c; 0x60460303; 0x81c; 0x24480303;
  0x81c; 0x234a0303; 0x81c; 0x224c0303; 0x81c; 0x54e0303; 0x81c; 0x4500303;
  0x81c; 0x3520303; 0x81c; 0x2540303; 0x81c; 0x1560303; 0x81c; 0x580303;
  0x81c; 0x5a0303; 0x81c; 0x5c0303; 0x81c; 0x5e0303; 0x81c; 0x600303;
  0x81c; 0x620303; 0x81c; 0x640303; 0x81c; 0x660303; 0x81c; 0x680303;
  0x81c; 0x6a0303; 0x81c; 0x6c0303; 0x81c; 0x6e0303; 0x81c; 0x700303;
  0x81c; 0x720303; 0x81c; 0x740303; 0x81c; 0x760303; 0x81c; 0x780303;
  0x81c; 0x7a0303; 0x81c; 0x7c0303; 0x81c; 0x7e0303; 0xa0000000; 0;
  0x81c; 0xfc000303; 0x81c; 0xfb020303; 0x81c; 0xfa040303; 0x81c; 0xf9060303;
  0x81c; 0xf8080303; 0x81c; 0xf70a0303; 0x81c; 0xf60c0303; 0x81c; 0xf50e0303;
  0x81c; 0xf4100303; 0x81c; 0xf3120303; 0x81c; 0xf2140303; 0x81c; 0xf1160303;
  0x81c; 0xf0180303; 0x81c; 0xef1a0303; 0x81c; 0xee1c0303; 0x81c; 0xed1e0303;
  0x81c; 0xec200303; 0x81c; 0xeb220303; 0x81c; 0xea240303; 0x81c; 0xe9260303;
  0x81c; 0xe8280303; 0x81c; 0xe72a0303; 0x81c; 0xe62c0303; 0x81c; 0xe52e0303;
  0x81c; 0xe4300303; 0x81c; 0xe3320303; 0x81c; 0xe2340303; 0x81c; 0xe1360303;
  0x81c; 0xc4380303; 0x81c; 0xc33a0303; 0x81c; 0xc23c0303].
Definition rtw8821c_agc_05 : list Z := [
  0x81c; 0xc13e0303; 0x81c; 0xa5400303; 0x81c; 0xa4420303; 0x81c; 0xa3440303;
  0x81c; 0xa2460303; 0x81c; 0xa1480303; 0x81c; 0x834a0303; 0x81c; 0x824c0303;
  0x81c; 0x814e0303; 0x81c; 0x64500303; 0x81c; 0x63520303; 0x81c; 0x62540303;
  0x81c; 0x61560303; 0x81c; 0x24580303; 0x81c; 0x235a0303; 0x81c; 0x225c0303;
  0x81c; 0x215e0303; 0x81c; 0x4600303; 0x81c; 0x3620303; 0x81c; 0x2640303;
  0x81c; 0x1660303; 0x81c; 0x1680303; 0x81c; 0x16a0303; 0x81c; 0x16c0303;
  0x81c; 0x16e0303; 0x81c; 0x1700303; 0x81c; 0x1720303; 0x81c; 0x1740303;
  0x81c; 0x1760303; 0x81c; 0x1780303; 0x81c; 0x17a0303; 0x81c; 0x17c0303;
  0x81c; 0x17e0303; 0xb0000000; 0; 0x80001004; 0; 0x40000000; 0;
  0x81c; 0xfc000803; 0x81c; 0xfb020803; 0x81c; 0xfa040803; 0x81c; 0xf9060803;
  0x81c; 0xf8080803; 0x81c; 0xf70a0803; 0x81c; 0xf60c0803; 0x81c; 0xf50e0803;
  0x81c; 0xf4100803; 0x81c; 0xf3120803; 0x81c; 0xf2140803; 0x81c; 0xf1160803;
  0x81c; 0xf0180803; 0x81c; 0xef1a0803; 0x81c; 0xee1c0803; 0x81c; 0xed1e0803;
  0x81c; 0xb5200803; 0x81c; 0xb4220803; 0x81c; 0xb3240803; 0x81c; 0xb2260803;
  0x81c; 0xb1280803; 0x81c; 0xb02a0803; 0x81c; 0xaf2c0803; 0x81c; 0xae2e0803;
  0x81c; 0xad300803; 0x81c; 0xac320803; 0x81c; 0xab340803; 0x81c; 0xaa360803;
  0x81c; 0xa9380803; 0x81c; 0xa83a0803; 0x81c; 0xa73c0803; 0x81c; 0xa63e0803;
  0x81c; 0x88400803; 0x81c; 0x87420803; 0x81c; 0x86440803; 0x81c; 0x85460803;
  0x81c; 0x84480803; 0x81c; 0x834a0803; 0x81c; 0x674c0803; 0x81c; 0x664e0803;
  0x81c; 0x65500803; 0x81c; 0x64520803; 0x81c; 0x63540803; 0x81c; 0x62560803;
  0x81c; 0x61580803; 0x81c; 0x455a0803; 0x81c; 0x445c0803; 0x81c; 0x435e0803;
  0x81c; 0x42600803; 0x81c; 0x41620803; 0x81c; 0x25640803; 0x81c; 0x24660803;
  0x81c; 0x23680803; 0x81c; 0x226a0803; 0x81c; 0x216c0803; 0x81c; 0x16e0803;
  0x81c; 0x1700803; 0x81c; 0x1720803; 0x81c; 0x1740803; 0x81c; 0x1760803;
  0x81c; 0x1780803; 0x81c; 0x17a0803; 0x81c; 0x17c0803; 0x81c; 0x17e0803;
  0x90001005; 0; 0x40000000; 0; 0x81c; 0xfc000803; 0x81c; 0xfb020803;
  0x81c; 0xfa040803; 0x81c; 0xf9060803; 0x81c; 0xf8080803; 0x81c; 0xf70a0803;
  0x81c; 0xf60c0803; 0x81c; 0xf50e0803; 0x81c; 0xf4100803; 0x81c; 0xf3120803;
  0x81c; 0xf2140803; 0x81c; 0xf1160803; 0x81c; 0xf0180803; 0x81c; 0xef1a0803;
  0x81c; 0xee1c0803; 0x81c; 0xed1e0803; 0x81c; 0xb5200803; 0x81c; 0xb4220803;
  0x81c; 0xb3240803; 0x81c; 0xb2260803; 0x81c; 0xb1280803; 0x81c; 0xb02a0803;
  0x81c; 0xaf2c0803; 0x81c; 0xae2e0803; 0x81c; 0xad300803; 0x81c; 0xac320803;
  0x81c; 0xab340803; 0x81c; 0xaa360803; 0x81c; 0xa9380803; 0x81c; 0xa83a0803;
  0x81c; 0xa73c0803; 0x81c; 0xa63e0803; 0x81c; 0x88400803; 0x81c; 0x87420803;
  0x81c; 0x86440803; 0x81c; 0x85460803; 0x81c; 0x84480803; 0x81c; 0x834a0803;
  0x81c; 0x674c0803; 0x81c; 0x664e0803; 0x81c; 0x65500803; 0x81c; 0x64520803;
  0x81c; 0x63540803; 0x81c; 0x62560803; 0x81c; 0x61580803; 0x81c; 0x455a0803;
  0x81c; 0x445c0803; 0x81c; 0x435e0803; 0x81c; 0x42600803; 0x81c; 0x41620803].
Definition rtw8821c_agc_06 : list Z := [
  0x81c; 0x25640803; 0x81c; 0x24660803; 0x81c; 0x23680803; 0x81c; 0x226a0803;
  0x81c; 0x216c0803; 0x81c; 0x16e0803; 0x81c; 0x1700803; 0x81c; 0x1720803;
  0x81c; 0x1740803; 0x81c; 0x1760803; 0x81c; 0x1780803; 0x81c; 0x17a0803;
  0x81c; 0x17c0803; 0x81c; 0x17e0803; 0xa0000000; 0; 0x81c; 0xfc000803;
  0x81c; 0xfb020803; 0x81c; 0xfa040803; 0x81c; 0xf9060803; 0x81c; 0xf8080803;
  0x81c; 0xf70a0803; 0x81c; 0xf60c0803; 0x81c; 0xf50e0803; 0x81c; 0xf4100803;
  0x81c; 0xf3120803; 0x81c; 0xf2140803; 0x81c; 0xf1160803; 0x81c; 0xf0180803;
  0x81c; 0xef1a0803; 0x81c; 0xee1c0803; 0x81c; 0xed1e0803; 0x81c; 0xb5200803;
  0x81c; 0xb4220803; 0x81c; 0xb3240803; 0x81c; 0xb2260803; 0x81c; 0xb1280803;
  0x81c; 0xb02a0803; 0x81c; 0xaf2c0803; 0x81c; 0xae2e0803; 0x81c; 0xad300803;
  0x81c; 0xac320803; 0x81c; 0xab340803; 0x81c; 0xaa360803; 0x81c; 0xa9380803;
  0x81c; 0xa83a0803; 0x81c; 0xa73c0803; 0x81c; 0xa63e0803; 0x81c; 0x88400803;
  0x81c; 0x87420803; 0x81c; 0x86440803; 0x81c; 0x85460803; 0x81c; 0x84480803;
  0x81c; 0x834a0803; 0x81c; 0x674c0803; 0x81c; 0x664e0803; 0x81c; 0x65500803;
  0x81c; 0x64520803; 0x81c; 0x63540803; 0x81c; 0x62560803; 0x81c; 0x61580803;
  0x81c; 0x455a0803; 0x81c; 0x445c0803; 0x81c; 0x435e0803; 0x81c; 0x42600803;
  0x81c; 0x41620803; 0x81c; 0x25640803; 0x81c; 0x24660803; 0x81c; 0x23680803;
  0x81c; 0x226a0803; 0x81c; 0x216c0803; 0x81c; 0x16e0803; 0x81c; 0x1700803;
  0x81c; 0x1720803; 0x81c; 0x1740803; 0x81c; 0x1760803; 0x81c; 0x1780803;
  0x81c; 0x17a0803; 0x81c; 0x17c0803; 0x81c; 0x17e0803; 0xb0000000; 0;
  0x80001004; 0; 0x40000000; 0; 0x81c; 0xff000913; 0x81c; 0xfe020913;
  0x81c; 0xfd040913; 0x81c; 0xfc060913; 0x81c; 0xfb080913; 0x81c; 0xfa0a0913;
  0x81c; 0xf90c0913; 0x81c; 0xf80e0913; 0x81c; 0xf7100913; 0x81c; 0xf6120913;
  0x81c; 0xf5140913; 0x81c; 0xf4160913; 0x81c; 0xf3180913; 0x81c; 0xf21a0913;
  0x81c; 0xf11c0913; 0x81c; 0x941e0913; 0x81c; 0x93200913; 0x81c; 0x92220913;
  0x81c; 0x91240913; 0x81c; 0x90260913; 0x81c; 0x8f280913; 0x81c; 0x8e2a0913;
  0x81c; 0x8d2c0913; 0x81c; 0x8c2e0913; 0x81c; 0x8b300913; 0x81c; 0x8a320913;
  0x81c; 0x89340913; 0x81c; 0x88360913; 0x81c; 0x87380913; 0x81c; 0x863a0913;
  0x81c; 0x853c0913; 0x81c; 0x843e0913; 0x81c; 0x83400913; 0x81c; 0x82420913;
  0x81c; 0x81440913; 0x81c; 0x7460913; 0x81c; 0x6480913; 0x81c; 0x54a0913;
  0x81c; 0x44c0913; 0x81c; 0x34e0913; 0x81c; 0x2500913; 0x81c; 0x1520913;
  0x81c; 0x88540903; 0x81c; 0x87560903; 0x81c; 0x86580903; 0x81c; 0x855a0903;
  0x81c; 0x845c0903; 0x81c; 0x835e0903; 0x81c; 0x82600903; 0x81c; 0x81620903;
  0x81c; 0x7640903; 0x81c; 0x6660903; 0x81c; 0x5680903; 0x81c; 0x46a0903;
  0x81c; 0x36c0903; 0x81c; 0x26e0903; 0x81c; 0x1700903; 0x81c; 0x1720903;
  0x81c; 0x1740903; 0x81c; 0x1760903; 0x81c; 0x1780903; 0x81c; 0x17a0903;
  0x81c; 0x17c0903; 0x81c; 0x17e0903; 0x90001005; 0; 0x40000000; 0;
  0x81c; 0xff000913; 0x81c; 0xfe020913; 0x81c; 0xfd040913; 0x81c; 0xfc060913].
Definition rtw8821c_agc_07 : list Z := [
  0x81c; 0xfb080913; 0x81c; 0xfa0a0913; 0x81c; 0xf90c0913; 0x81c; 0xf80e0913;
  0x81c; 0xf7100913; 0x81c; 0xf6120913; 0x81c; 0xf5140913; 0x81c; 0xf4160913;
  0x81c; 0xf3180913; 0x81c; 0xf21a0913; 0x81c; 0xf11c0913; 0x81c; 0x941e0913;
  0x81c; 0x93200913; 0x81c; 0x92220913; 0x81c; 0x91240913; 0x81c; 0x90260913;
  0x81c; 0x8f280913; 0x81c; 0x8e2a0913; 0x81c; 0x8d2c0913; 0x81c; 0x8c2e0913;
  0x81c; 0x8b300913; 0x81c; 0x8a320913; 0x81c; 0x89340913; 0x81c; 0x88360913;
  0x81c; 0x87380913; 0x81c; 0x863a0913; 0x81c; 0x853c0913; 0x81c; 0x843e0913;
  0x81c; 0x83400913; 0x81c; 0x82420913; 0x81c; 0x81440913; 0x81c; 0x7460913;
  0x81c; 0x6480913; 0x81c; 0x54a0913; 0x81c; 0x44c0913; 0x81c; 0x34e0913;
  0x81c; 0x2500913; 0x81c; 0x1520913; 0x81c; 0x88540903; 0x81c; 0x87560903;
  0x81c; 0x86580903; 0x81c; 0x855a0903; 0x81c; 0x845c0903; 0x81c; 0x835e0903;
  0x81c; 0x82600903; 0x81c; 0x81620903; 0x81c; 0x7640903; 0x81c; 0x6660903;
  0x81c; 0x5680903; 0x81c; 0x46a0903; 0x81c; 0x36c0903; 0x81c; 0x26e0903;
  0x81c; 0x1700903; 0x81c; 0x1720903; 0x81c; 0x1740903; 0x81c; 0x1760903;
  0x81c; 0x1780903; 0x81c; 0x17a0903; 0x81c; 0x17c0903; 0x81c; 0x17e0903;
  0xa0000000; 0; 0x81c; 0xff000913; 0x81c; 0xfe020913; 0x81c; 0xfd040913;
  0x81c; 0xfc060913; 0x81c; 0xfb080913; 0x81c; 0xfa0a0913; 0x81c; 0xf90c0913;
  0x81c; 0xf80e0913; 0x81c; 0xf7100913; 0x81c; 0xf6120913; 0x81c; 0xf5140913;
  0x81c; 0xf4160913; 0x81c; 0xf3180913; 0x81c; 0xf21a0913; 0x81c; 0xf11c0913;
  0x81c; 0x941e0913; 0x81c; 0x93200913; 0x81c; 0x92220913; 0x81c; 0x91240913;
  0x81c; 0x90260913; 0x81c; 0x8f280913; 0x81c; 0x8e2a0913; 0x81c; 0x8d2c0913;
  0x81c; 0x8c2e0913; 0x81c; 0x8b300913; 0x81c; 0x8a320913; 0x81c; 0x89340913;
  0x81c; 0x88360913; 0x81c; 0x87380913; 0x81c; 0x863a0913; 0x81c; 0x853c0913;
  0x81c; 0x843e0913; 0x81c; 0x83400913; 0x81c; 0x82420913; 0x81c; 0x81440913;
  0x81c; 0x7460913; 0x81c; 0x6480913; 0x81c; 0x54a0913; 0x81c; 0x44c0913;
  0x81c; 0x34e0913; 0x81c; 0x2500913; 0x81c; 0x1520913; 0x81c; 0x88540903;
  0x81c; 0x87560903; 0x81c; 0x86580903; 0x81c; 0x855a0903; 0x81c; 0x845c0903;
  0x81c; 0x835e0903; 0x81c; 0x82600903; 0x81c; 0x81620903; 0x81c; 0x7640903;
  0x81c; 0x6660903; 0x81c; 0x5680903; 0x81c; 0x46a0903; 0x81c; 0x36c0903;
  0x81c; 0x26e0903; 0x81c; 0x1700903; 0x81c; 0x1720903; 0x81c; 0x1740903;
  0x81c; 0x1760903; 0x81c; 0x1780903; 0x81c; 0x17a0903; 0x81c; 0x17c0903;
  0x81c; 0x17e0903; 0xb0000000; 0; 0x80001004; 0; 0x40000000; 0;
  0xc50; 0x22; 0xc50; 0x20; 0x90001005; 0; 0x40000000; 0;
  0xc50; 0x22; 0xc50; 0x22; 0xa0000000; 0; 0xc50; 0x22;
  0xc50; 0x20; 0xb0000000; 0].
Definition rtw8821c_agc : list Z := concat [rtw8821c_agc_00; rtw8821c_agc_01; rtw8821c_agc_02; rtw8821c_agc_03; rtw8821c_agc_04; rtw8821c_agc_05; rtw8821c_agc_06; rtw8821c_agc_07].

Definition rtw8821c_agc_btg_type2_00 : list Z := [
  0x80001004; 0; 0x40000000; 0; 0x81c; 0xff000013; 0x81c; 0xfe020013;
  0x81c; 0xfd040013; 0x81c; 0xfc060013; 0x81c; 0xfb080013; 0x81c; 0xfa0a0013;
  0x81c; 0xf90c0013; 0x81c; 0xf80e0013; 0x81c; 0xf7100013; 0x81c; 0xf6120013;
  0x81c; 0xf5140013; 0x81c; 0xf4160013; 0x81c; 0xf3180013; 0x81c; 0xf21a0013;
  0x81c; 0xf11c0013; 0x81c; 0xf01e0013; 0x81c; 0xef200013; 0x81c; 0xee220013;
  0x81c; 0xed240013; 0x81c; 0xec260013; 0x81c; 0xeb280013; 0x81c; 0xea2a0013;
  0x81c; 0xe92c0013; 0x81c; 0xe82e0013; 0x81c; 0xe7300013; 0x81c; 0x8b320013;
  0x81c; 0x8a340013; 0x81c; 0x89360013; 0x81c; 0x88380013; 0x81c; 0x873a0013;
  0x81c; 0x863c0013; 0x81c; 0x853e0013; 0x81c; 0x84400013; 0x81c; 0x83420013;
  0x81c; 0x82440013; 0x81c; 0x81460013; 0x81c; 0x8480013; 0x81c; 0x74a0013;
  0x81c; 0x64c0013; 0x81c; 0x54e0013; 0x81c; 0x4500013; 0x81c; 0x3520013;
  0x81c; 0x88540003; 0x81c; 0x87560003; 0x81c; 0x86580003; 0x81c; 0x855a0003;
  0x81c; 0x845c0003; 0x81c; 0x835e0003; 0x81c; 0x82600003; 0x81c; 0x81620003;
  0x81c; 0x7640003; 0x81c; 0x6660003; 0x81c; 0x5680003; 0x81c; 0x46a0003;
  0x81c; 0x36c0003; 0x81c; 0x26e0003; 0x81c; 0x1700003; 0x81c; 0x1720003;
  0x81c; 0x1740003; 0x81c; 0x1760003; 0x81c; 0x1780003; 0x81c; 0x17a0003;
  0x81c; 0x17c0003; 0x81c; 0x17e0003; 0x81c; 0xff000813; 0x81c; 0xfe020813;
  0x81c; 0xfd040813; 0x81c; 0xfc060813; 0x81c; 0xfb080813; 0x81c; 0xfa0a0813;
  0x81c; 0xf90c0813; 0x81c; 0xf80e0813; 0x81c; 0xf7100813; 0x81c; 0xf6120813;
  0x81c; 0xf5140813; 0x81c; 0xf4160813; 0x81c; 0xf3180813; 0x81c; 0xf21a0813;
  0x81c; 0xf11c0813; 0x81c; 0x941e0813; 0x81c; 0x93200813; 0x81c; 0x92220813;
  0x81c; 0x91240813; 0x81c; 0x90260813; 0x81c; 0x8f280813; 0x81c; 0x8e2a0813;
  0x81c; 0x8d2c0813; 0x81c; 0x8c2e0813; 0x81c; 0x8b300813; 0x81c; 0x8a320813;
  0x81c; 0x89340813; 0x81c; 0x88360813; 0x81c; 0x87380813; 0x81c; 0x863a0813;
  0x81c; 0x853c0813; 0x81c; 0x843e0813; 0x81c; 0x83400813; 0x81c; 0x82420813;
  0x81c; 0x81440813; 0x81c; 0x7460813; 0x81c; 0x6480813; 0x81c; 0x54a0813;
  0x81c; 0x44c0813; 0x81c; 0x34e0813; 0x81c; 0x2500813; 0x81c; 0x1520813;
  0x81c; 0x88540803; 0x81c; 0x87560803; 0x81c; 0x86580803; 0x81c; 0x855a0803;
  0x81c; 0x845c0803; 0x81c; 0x835e0803; 0x81c; 0x82600803; 0x81c; 0x81620803;
  0x81c; 0x7640803; 0x81c; 0x6660803; 0x81c; 0x5680803; 0x81c; 0x46a0803;
  0x81c; 0x36c0803; 0x81c; 0x26e0803; 0x81c; 0x1700803; 0x81c; 0x1720803;
  0x81c; 0x1740803; 0x81c; 0x1760803; 0x81c; 0x1780803; 0x81c; 0x17a0803;
  0x81c; 0x17c0803; 0x81c; 0x17e0803; 0x90001005; 0; 0x40000000; 0;
  0x81c; 0xff000013; 0x81c; 0xfe020013; 0x81c; 0xfd040013; 0x81c; 0xfc060013;
  0x81c; 0xfb080013; 0x81c; 0xfa0a0013; 0x81c; 0xf90c0013; 0x81c; 0xf80e0013;
  0x81c; 0xf7100013; 0x81c; 0xf6120013; 0x81c; 0xf5140013; 0x81c; 0xf4160013;
  0x81c; 0xf3180013; 0x81c; 0xf21a0013; 0x81c; 0xf11c0013; 0x81c; 0xf01e0013;
  0x81c; 0xef200013; 0x81c; 0xee220013; 0x81c; 0xed240013; 0x81c; 0xec260013].
Definition rtw8821c_agc_btg_type2_01 : list Z := [
  0x81c; 0xeb280013; 0x81c; 0xea2a0013; 0x81c; 0xe92c0013; 0x81c; 0xe82e0013;
  0x81c; 0xe7300013; 0x81c; 0x8b320013; 0x81c; 0x8a340013; 0x81c; 0x89360013;
  0x81c; 0x88380013; 0x81c; 0x873a0013; 0x81c; 0x863c0013; 0x81c; 0x853e0013;
  0x81c; 0x84400013; 0x81c; 0x83420013; 0x81c; 0x82440013; 0x81c; 0x81460013;
  0x81c; 0x8480013; 0x81c; 0x74a0013; 0x81c; 0x64c0013; 0x81c; 0x54e0013;
  0x81c; 0x4500013; 0x81c; 0x3520013; 0x81c; 0x88540003; 0x81c; 0x87560003;
  0x81c; 0x86580003; 0x81c; 0x855a0003; 0x81c; 0x845c0003; 0x81c; 0x835e0003;
  0x81c; 0x82600003; 0x81c; 0x81620003; 0x81c; 0x7640003; 0x81c; 0x6660003;
  0x81c; 0x5680003; 0x81c; 0x46a0003; 0x81c; 0x36c0003; 0x81c; 0x26e0003;
  0x81c; 0x1700003; 0x81c; 0x1720003; 0x81c; 0x1740003; 0x81c; 0x1760003;
  0x81c; 0x1780003; 0x81c; 0x17a0003; 0x81c; 0x17c0003; 0x81c; 0x17e0003;
  0x81c; 0xff000813; 0x81c; 0xfe020813; 0x81c; 0xfd040813; 0x81c; 0xfc060813;
  0x81c; 0xfb080813; 0x81c; 0xfa0a0813; 0x81c; 0xf90c0813; 0x81c; 0xf80e0813;
  0x81c; 0xf7100813; 0x81c; 0xf6120813; 0x81c; 0xf5140813; 0x81c; 0xf4160813;
  0x81c; 0xf3180813; 0x81c; 0xf21a0813; 0x81c; 0xf11c0813; 0x81c; 0x941e0813;
  0x81c; 0x93200813; 0x81c; 0x92220813; 0x81c; 0x91240813; 0x81c; 0x90260813;
  0x81c; 0x8f280813; 0x81c; 0x8e2a0813; 0x81c; 0x8d2c0813; 0x81c; 0x8c2e0813;
  0x81c; 0x8b300813; 0x81c; 0x8a320813; 0x81c; 0x89340813; 0x81c; 0x88360813;
  0x81c; 0x87380813; 0x81c; 0x863a0813; 0x81c; 0x853c0813; 0x81c; 0x843e0813;
  0x81c; 0x83400813; 0x81c; 0x82420813; 0x81c; 0x81440813; 0x81c; 0x7460813;
  0x81c; 0x6480813; 0x81c; 0x54a0813; 0x81c; 0x44c0813; 0x81c; 0x34e0813;
  0x81c; 0x2500813; 0x81c; 0x1520813; 0x81c; 0x88540803; 0x81c; 0x87560803;
  0x81c; 0x86580803; 0x81c; 0x855a0803; 0x81c; 0x845c0803; 0x81c; 0x835e0803;
  0x81c; 0x82600803; 0x81c; 0x81620803; 0x81c; 0x7640803; 0x81c; 0x6660803;
  0x81c; 0x5680803; 0x81c; 0x46a0803; 0x81c; 0x36c0803; 0x81c; 0x26e0803;
  0x81c; 0x1700803; 0x81c; 0x1720803; 0x81c; 0x1740803; 0x81c; 0x1760803;
  0x81c; 0x1780803; 0x81c; 0x17a0803; 0x81c; 0x17c0803; 0x81c; 0x17e0803;
  0xa0000000; 0; 0x81c; 0xff000013; 0x81c; 0xfe020013; 0x81c; 0xfd040013;
  0x81c; 0xfc060013; 0x81c; 0xfb080013; 0x81c; 0xfa0a0013; 0x81c; 0xf90c0013;
  0x81c; 0xf80e0013; 0x81c; 0xf7100013; 0x81c; 0xf6120013; 0x81c; 0xf5140013;
  0x81c; 0xf4160013; 0x81c; 0xf3180013; 0x81c; 0xf21a0013; 0x81c; 0xf11c0013;
  0x81c; 0xf01e0013; 0x81c; 0xef200013; 0x81c; 0xee220013; 0x81c; 0xed240013;
  0x81c; 0xec260013; 0x81c; 0xeb280013; 0x81c; 0xea2a0013; 0x81c; 0xe92c0013;
  0x81c; 0xe82e0013; 0x81c; 0xe7300013; 0x81c; 0x8a320013; 0x81c; 0x89340013;
  0x81c; 0x88360013; 0x81c; 0x87380013; 0x81c; 0x863a0013; 0x81c; 0x853c0013;
  0x81c; 0x843e0013; 0x81c; 0x83400013; 0x81c; 0x82420013; 0x81c; 0x81440013;
  0x81c; 0x7460013; 0x81c; 0x6480013; 0x81c; 0x54a0013; 0x81c; 0x44c0013;
  0x81c; 0x34e0013; 0x81c; 0x2500013].
Definition rtw8821c_agc_btg_type2_02 : list Z := [
  0x81c; 0x1520013; 0x81c; 0x88540003; 0x81c; 0x87560003; 0x81c; 0x86580003;
  0x81c; 0x855a0003; 0x81c; 0x845c0003; 0x81c; 0x835e0003; 0x81c; 0x82600003;
  0x81c; 0x81620003; 0x81c; 0x7640003; 0x81c; 0x6660003; 0x81c; 0x5680003;
  0x81c; 0x46a0003; 0x81c; 0x36c0003; 0x81c; 0x26e0003; 0x81c; 0x1700003;
  0x81c; 0x1720003; 0x81c; 0x1740003; 0x81c; 0x1760003; 0x81c; 0x1780003;
  0x81c; 0x17a0003; 0x81c; 0x17c0003; 0x81c; 0x17e0003; 0x81c; 0xff000813;
  0x81c; 0xfe020813; 0x81c; 0xfd040813; 0x81c; 0xfc060813; 0x81c; 0xfb080813;
  0x81c; 0xfa0a0813; 0x81c; 0xf90c0813; 0x81c; 0xf80e0813; 0x81c; 0xf7100813;
  0x81c; 0xf6120813; 0x81c; 0xf5140813; 0x81c; 0xf4160813; 0x81c; 0xf3180813;
  0x81c; 0xf21a0813; 0x81c; 0xf11c0813; 0x81c; 0x961e0813; 0x81c; 0x95200813;
  0x81c; 0x94220813; 0x81c; 0x93240813; 0x81c; 0x92260813; 0x81c; 0x91280813;
  0x81c; 0x8f2a0813; 0x81c; 0x8e2c0813; 0x81c; 0x8d2e0813; 0x81c; 0x8c300813;
  0x81c; 0x8b320813; 0x81c; 0x8a340813; 0x81c; 0x89360813; 0x81c; 0x88380813;
  0x81c; 0x873a0813; 0x81c; 0x863c0813; 0x81c; 0x853e0813; 0x81c; 0x84400813;
  0x81c; 0x83420813; 0x81c; 0x82440813; 0x81c; 0x8460813; 0x81c; 0x7480813;
  0x81c; 0x64a0813; 0x81c; 0x54c0813; 0x81c; 0x44e0813; 0x81c; 0x3500813;
  0x81c; 0x2520813; 0x81c; 0x89540803; 0x81c; 0x88560803; 0x81c; 0x87580803;
  0x81c; 0x865a0803; 0x81c; 0x855c0803; 0x81c; 0x845e0803; 0x81c; 0x83600803;
  0x81c; 0x82620803; 0x81c; 0x7640803; 0x81c; 0x6660803; 0x81c; 0x5680803;
  0x81c; 0x46a0803; 0x81c; 0x36c0803; 0x81c; 0x26e0803; 0x81c; 0x1700803;
  0x81c; 0x1720803; 0x81c; 0x1740803; 0x81c; 0x1760803; 0x81c; 0x1780803;
  0x81c; 0x17a0803; 0x81c; 0x17c0803; 0x81c; 0x17e0803; 0xb0000000; 0].
Definition rtw8821c_agc_btg_type2 : list Z := concat [rtw8821c_agc_btg_type2_00; rtw8821c_agc_btg_type2_01; rtw8821c_agc_btg_type2_02].

Definition rtw8821c_bb_00 : list Z := [
  0x800; 0x9020d010; 0x804; 0x80018180; 0x808; 0x4028211; 0x80c; 0x13d10011;
  0x810; 0x21104255; 0x814; 0x20c3d10; 0x818; 0x84a10385; 0x81c; 0x1e1e081f;
  0x820; 0x1aaaa; 0x824; 0x30fe0; 0x828; 0xcccc; 0x82c; 0x75cb7010;
  0x830; 0x79a0eaaa; 0x834; 0x72e698a; 0x838; 0x87766461; 0x83c; 0x9194b2b6;
  0x840; 0x171740e0; 0x844; 0x4d3d7cdb; 0x848; 0x4ad0408b; 0x84c; 0x6afbf7a5;
  0x850; 0x28a74706; 0x854; 0x1520c; 0x858; 0x4060c000; 0x85c; 0x74010160;
  0x860; 0x68a7c321; 0x864; 0x79f27432; 0x868; 0x8ca7a314; 0x86c; 0x558c2878;
  0x870; 0x55555555; 0x874; 0x27612c2e; 0x878; 0xc0003152; 0x87c; 0x5c8fc000;
  0x880; 0; 0x884; 0; 0x888; 0; 0x88c; 0;
  0x890; 0; 0x894; 0; 0x898; 0; 0x89c; 0;
  0x8a0; 0x13; 0x8a4; 0x7f7f7f7f; 0x8a8; 0x2202033e; 0x8ac; 0xf00f000a;
  0x8b0; 0x600; 0x8b4; 0xfc080; 0x8b8; 0xec0057ff; 0x8bc; 0x2cb520a3;
  0x8c0; 0xffe04020; 0x8c4; 0x47c00000; 0x8c8; 0x25165; 0x82000400; 0;
  0x40000000; 0; 0x8cc; 0x8190492; 0xa0000000; 0; 0x8cc; 0x8188492;
  0xb0000000; 0; 0x8d0; 0xb800; 0x8d4; 0x860308a0; 0x8d8; 0x290b5612;
  0x8dc; 0; 0x8e0; 0x32d16777; 0x8e4; 0x49092925; 0x8e8; 0xffffc42c;
  0x8ec; 0x99999999; 0x8f0; 0x9999; 0x8f4; 0xd80fa1; 0x8f8; 0x400000c0;
  0x8fc; 0x130; 0x900; 0xc00000; 0x904; 0xfff0fff; 0x908; 0;
  0x90c; 0x13000000; 0x910; 0xfc00; 0x914; 0xc6380000; 0x918; 0x1c1028c0;
  0x91c; 0x64b11a1c; 0x920; 0xe0767233; 0x924; 0x855a2500; 0x928; 0x4ab0e4e4;
  0x92c; 0xfffeb200; 0x930; 0xfffffffe; 0x934; 0x1fffff; 0x938; 0x8480;
  0x93c; 0xe41c0642; 0x940; 0xe470430; 0x944; 0; 0x948; 0xac000000;
  0x94c; 0x10000083; 0x950; 0xb2010080; 0x954; 0x86510080; 0x958; 0x181;
  0x95c; 0x4248000; 0x960; 0; 0x964; 0; 0x968; 0;
  0x96c; 0; 0x970; 0x1fff; 0x974; 0x4000fff; 0x978; 0;
  0x97c; 0; 0x980; 0; 0x984; 0; 0x988; 0;
  0x98c; 0x23440000; 0x990; 0x27100000; 0x994; 0xffff0100; 0x998; 0xffffff5c;
  0x99c; 0xffffffff; 0x9a0; 0xff; 0x9a4; 0x80000088; 0x9a8; 0xc2f0000;
  0x9ac; 0x1560000; 0x9b0; 0x70000000; 0x9b4; 0; 0x9b8; 0;
  0x9bc; 0; 0x9c0; 0; 0x9c4; 0; 0x9c8; 0;
  0x9cc; 0; 0x9d0; 0; 0x9d4; 0; 0x9d8; 0;
  0x9dc; 0; 0x9e0; 0; 0x9e4; 0x2000402; 0x9e8; 0x22d4;
  0x9ec; 0; 0x9f0; 0; 0x9f4; 0; 0x9f8; 0;
  0x9fc; 0xeffff7ff; 0xa00; 0xd040c8; 0xa04; 0x80ff800c; 0xa08; 0x9c838300;
  0xa0c; 0x297e000f; 0xa10; 0x9500bb78; 0xa14; 0x1114d028; 0xa18; 0x881117;
  0xa1c; 0x89140f00; 0xa20; 0xe82c0000; 0xa24; 0x64b80c1c; 0xa28; 0x8810;
  0xa2c; 0xd20000; 0xa70; 0x101fbf00; 0xa74; 0x107; 0xa78; 0x8900;
  0xa7c; 0x225b0606; 0xa80; 0x21807532; 0xa84; 0x80120000].
Definition rtw8821c_bb_01 : list Z := [
  0xa88; 0x48c0000; 0xa8c; 0x12345678; 0xa90; 0xabcdef00; 0xa94; 0x1b1b89;
  0xa98; 0; 0xa9c; 0x3f000000; 0xaa0; 0; 0xaa4; 0x80000;
  0xaa8; 0xeacf0004; 0xaac; 0x1235667; 0xab0; 0; 0xb00; 0xe1000440;
  0xb04; 0x800000; 0xb08; 0xff02030b; 0xb0c; 0x1eaa406; 0xb10; 0x30690;
  0xb14; 0x6000fa; 0xb18; 2; 0xb1c; 2; 0xb20; 0x4b00001f;
  0xb24; 0x4e8e3e40; 0xb28; 0x3020100; 0xb2c; 0x7060504; 0xb30; 0xb0a0908;
  0xb34; 0xf0e0d0c; 0xb38; 0x13121110; 0xb3c; 0x3a; 0xb40; 0;
  0xb44; 0x80000000; 0xb48; 0x3f0000fa; 0xb4c; 0x88c80020; 0xb50; 0;
  0xb54; 0x4241; 0xb58; 0xe0008208; 0xb5c; 0x41effff9; 0xb60; 0;
  0xb64; 0x200063; 0xb68; 0x3a; 0xb6c; 0x102; 0xb70; 0x4e6d1870;
  0xb74; 0x3020100; 0xb78; 0x7060504; 0xb7c; 0xb0a0908; 0xb80; 0xf0e0d0c;
  0xb84; 0x13121110; 0xb88; 0; 0xb8c; 0; 0xc00; 7;
  0xc04; 0x3050020; 0xc08; 0x60403231; 0xc0c; 0x12345; 0xc10; 0x100;
  0xc14; 0x1000000; 0xc18; 0; 0xc1c; 0x40040053; 0xc20; 0x400503a3;
  0xc24; 0; 0xc28; 0; 0xc2c; 0; 0xc30; 0;
  0xc34; 0; 0xc38; 0; 0xc3c; 0; 0xc40; 0;
  0xc44; 0; 0xc48; 0; 0xc4c; 0; 0xc50; 0x20;
  0xc54; 0; 0xc58; 0xd8020402; 0xc5c; 0xde000120; 0xc68; 0x3f;
  0xc6c; 0x122a; 0xc70; 0; 0xc74; 0; 0xc78; 0;
  0xc7c; 0; 0xc80; 0; 0xc84; 0; 0xc88; 0;
  0xc8c; 0x7000000; 0xc94; 0x1000100; 0xc98; 0x201c8000; 0xc9c; 0;
  0xca0; 0xa555; 0xca4; 0x8040201; 0xca8; 0x80402010; 0xcac; 0;
  0x80001005; 0; 0x40000000; 0; 0xcb0; 0x77777717; 0xcb4; 0x73;
  0xa0000000; 0; 0xcb0; 0x77775747; 0xcb4; 0x10000077; 0xb0000000; 0;
  0xcb8; 0; 0xcbc; 0; 0xcc0; 0; 0xcc4; 0;
  0xcc8; 0; 0xccc; 0; 0xcd0; 0; 0xcd4; 0;
  0xcd8; 0; 0xcdc; 0; 0xce0; 0; 0xce4; 0;
  0xce8; 0; 0xcec; 0; 0xe00; 7; 0xe04; 0x20;
  0xe08; 0x60403231; 0xe0c; 0x12345; 0xe10; 0x100; 0xe14; 0x1000000;
  0xe18; 0; 0xe1c; 0x40040053; 0xe20; 0x20103; 0xe24; 0;
  0xe28; 0; 0xe2c; 0; 0xe30; 0; 0xe34; 0;
  0xe38; 0; 0xe3c; 0; 0xe40; 0; 0xe44; 0;
  0xe48; 0; 0xe4c; 0; 0xe50; 0x20; 0xe54; 0;
  0xe58; 0xd8020402; 0xe5c; 0xde000120; 0xe68; 0x59799979; 0xe6c; 0x122a;
  0xe70; 0x99795979; 0xe74; 0x99795979; 0xe78; 0x99799979; 0xe7c; 0x99791979;
  0xe80; 0x19791979; 0xe84; 0x19791979; 0xe88; 0; 0xe8c; 0x7000000;
  0xe94; 0x1000100; 0xe98; 0x201c8000; 0xe9c; 0; 0xea0; 0xa555;
  0xea4; 0x8040201; 0xea8; 0x80402010; 0xeac; 0].
Definition rtw8821c_bb_02 : list Z := [
  0xeb0; 0x98543210; 0xeb4; 0xba; 0xeb8; 0; 0xebc; 0;
  0xec0; 0; 0xec4; 0; 0xec8; 0; 0xecc; 0;
  0xed0; 0; 0xed4; 0; 0xed8; 0; 0xedc; 0;
  0xee0; 0; 0xee4; 0; 0xee8; 0; 0xeec; 0;
  0x1900; 0; 0x1904; 0x238000; 0x1908; 0; 0x190c; 0;
  0x1910; 0x1800; 0x1914; 0; 0x1918; 0; 0x191c; 0;
  0x1920; 0; 0x1924; 0; 0x1928; 0; 0x192c; 0;
  0x1930; 0; 0x1934; 0; 0x1938; 0; 0x193c; 0;
  0x1940; 0; 0x1944; 0; 0x1948; 0; 0x194c; 0;
  0x1950; 0; 0x1954; 0; 0x1958; 0; 0x195c; 0;
  0x1960; 0; 0x1964; 0; 0x1968; 0; 0x196c; 0;
  0x1970; 0; 0x1974; 0; 0x1978; 0; 0x197c; 0;
  0x1980; 0; 0x1984; 0x3000000; 0x1988; 0x21401e88; 0x198c; 0x4000;
  0x1990; 0; 0x1994; 0; 0x1998; 0x53; 0x199c; 0;
  0x19a0; 0; 0x19a4; 0; 0x19a8; 0x10a0000; 0x19ac; 0xe47e47f;
  0x19b0; 0x8000; 0x19b4; 0xe47e47f; 0x19b8; 0; 0x19bc; 0;
  0x19c0; 0; 0x19c4; 0; 0x19c8; 0; 0x19cc; 0;
  0x19d0; 0; 0x19d4; 0x77777777; 0x19d8; 0x777; 0x19dc; 0x133e0f37;
  0x19e0; 0; 0x19e4; 0; 0x19e8; 0; 0x19ec; 0;
  0x19f0; 0; 0x19f4; 0; 0x19f8; 0x1a00000; 0x19fc; 0;
  0x1c00; 0x100; 0x1c04; 0x1000000; 0x1c08; 0x100; 0x1c0c; 0x1000000;
  0x1c10; 0x100; 0x1c14; 0x1000000; 0x1c18; 0x100; 0x1c1c; 0x1000000;
  0x1c20; 0x100; 0x1c24; 0x1000000; 0x1c28; 0x100; 0x1c2c; 0x1000000;
  0x1c30; 0x100; 0x1c34; 0x1000000; 0x1c38; 0; 0x1c3c; 0x8000;
  0x1c40; 0xc0100; 0x1c44; 0xf3; 0x1c48; 0x1a8249a8; 0x1c4c; 0x1461c826;
  0x1c50; 0x1469e; 0x1c54; 0x58d158d1; 0x1c58; 0x4490088; 0x1c5c; 0x4004400;
  0x1c60; 0; 0x1c64; 0x4004400; 0x1c68; 0xb7b7b75; 0x1c6c; 0x1000000;
  0x1c70; 0xa08145; 0x1c74; 0x2080e0e0; 0x1c78; 0; 0x1c7c; 0x10;
  0x1c80; 0x100; 0x1c84; 0x1000000; 0x1c88; 0x100; 0x1c8c; 0x1000000;
  0x1c90; 0x100; 0x1c94; 0x1000000; 0x1c98; 0x100; 0x1c9c; 0x1000000;
  0x1ca0; 0x100; 0x1ca4; 0x1000000; 0x1ca8; 0x100; 0x1cac; 0x1000000;
  0x1cb0; 0x100; 0x1cb4; 0x1000000; 0x1cb8; 0; 0x1cbc; 0;
  0x1cc0; 0x201b0100; 0x1cc4; 0x308000; 0x1cc8; 0x5b74b6e9; 0x1ccc; 0x1000000;
  0x1cd0; 0x400; 0x1cd4; 0x1000000; 0x1cd8; 0x1b8adeb; 0x1cdc; 0x1000000;
  0x1ce0; 0x30003; 0x1ce4; 0x4e4a0306; 0x1ce8; 0x100; 0x1cec; 0x1000000;
  0x1cf0; 0x100; 0x1cf4; 0x1000000; 0x1cf8; 0x1b8adeb; 0x1cfc; 0;
  0xc60; 0x700b8040; 0xc60; 0x700b8040; 0xc60; 0x70146040; 0xc60; 0x70246040;
  0xc60; 0x70346040; 0xc60; 0x70446040].
Definition rtw8821c_bb_03 : list Z := [
  0xc60; 0x705b2040; 0xc60; 0x70646040; 0xc60; 0x707b8040; 0xc60; 0x708b8040;
  0xc60; 0x709b8040; 0xc60; 0x70ab8040; 0xc60; 0x70bb6040; 0xc60; 0x70c06040;
  0xc60; 0x70d06040; 0xc60; 0x70ef6040; 0xc60; 0x70f06040; 0xe60; 0x700b8040;
  0xe60; 0x700b8040; 0xe60; 0x70146040; 0xe60; 0x70246040; 0xe60; 0x70346040;
  0xe60; 0x70446040; 0xe60; 0x705b2040; 0xe60; 0x70646040; 0xe60; 0x707b8040;
  0xe60; 0x708b8040; 0xe60; 0x709b8040; 0xe60; 0x70ab8040; 0xe60; 0x70bb6040;
  0xe60; 0x70c06040; 0xe60; 0x70d06040; 0xe60; 0x70ef6040; 0xe60; 0x70f06040;
  0xc64; 0x800000; 0xc64; 0x8800001; 0xc64; 0x800002; 0xc64; 0x800003;
  0xc64; 0x800004; 0xc64; 0x800005; 0xc64; 0x800006; 0xc64; 0x8800007;
  0xc64; 0x4000; 0xe64; 0x800000; 0xe64; 0x8800001; 0xe64; 0x800002;
  0xe64; 0x800003; 0xe64; 0x800004; 0xe64; 0x800005; 0xe64; 0x800006;
  0xe64; 0x8800007; 0xe64; 0x4000; 0x1b00; 0xf8000008; 0x1b00; 0xf80a7008;
  0x1b00; 0xf8015008; 0x1b00; 0xf8000008; 0x1b04; 0xe24629d2; 0x1b08; 0x80;
  0x1b0c; 0; 0x1b10; 0x11c00; 0x1b14; 0; 0x1b18; 0x292903;
  0x1b1c; 0xa2193c32; 0x1b20; 0x1840008; 0x1b24; 0x1860008; 0x1b28; 0x80060300;
  0x1b2c; 3; 0x1b30; 0x20000000; 0x1b34; 0x800; 0x1b3c; 0x20000000;
  0x1bc0; 0x1000000; 0x1bcc; 0; 0x1b90; 0x1e018; 0x1b94; 0xf76d9f84;
  0x1bc8; 0xc44aa; 0x1bcc; 0x11978200; 0x1b8c; 0x2000; 0x1b9c; 0x5b554f48;
  0x1ba0; 0x6f6b6661; 0x1ba4; 0x817d7874; 0x1ba8; 0x908c8884; 0x1bac; 0x9d9a9793;
  0x1bb0; 0xaaa7a4a1; 0x1bb4; 0xb6b3b0ad; 0x1b40; 0x2ce03e8; 0x1b44; 0x1fd024c;
  0x1b48; 0x1a101c9; 0x1b4c; 0x16a0183; 0x1b50; 0x1430153; 0x1b54; 0x1280134;
  0x1b58; 0x112011c; 0x1b5c; 0x1000107; 0x1b60; 0xf200f9; 0x1b64; 0xe500eb;
  0x1b68; 0xda00e0; 0x1b6c; 0xd200d6; 0x1b70; 0xc900cd; 0x1b74; 0xc200c5;
  0x1b78; 0xbb00be; 0x1b7c; 0xb500b8; 0x1bdc; 0x40caffe1; 0x1bdc; 0x4080a1e3;
  0x1bdc; 0x405165e5; 0x1bdc; 0x403340e7; 0x1bdc; 0x402028e9; 0x1bdc; 0x401419eb;
  0x1bdc; 0x400d10ed; 0x1bdc; 0x40080aef; 0x1bdc; 0x400506f1; 0x1bdc; 0x400304f3;
  0x1bdc; 0x400203f5; 0x1bdc; 0x400102f7; 0x1bdc; 0x400101f9; 0x1bdc; 0x400101fb;
  0x1bdc; 0x400101fd; 0x1bdc; 0x400101ff; 0x1bdc; 0x40caff81; 0x1bdc; 0x4080a183;
  0x1bdc; 0x40516585; 0x1bdc; 0x40334087; 0x1bdc; 0x40202889; 0x1bdc; 0x4014198b;
  0x1bdc; 0x400d108d; 0x1bdc; 0x40080a8f; 0x1bdc; 0x40050691; 0x1bdc; 0x40030493;
  0x1bdc; 0x40020395; 0x1bdc; 0x40010297; 0x1bdc; 0x40010199; 0x1bdc; 0x4001019b;
  0x1bdc; 0x4001019d; 0x1bdc; 0x4001019f; 0x1bdc; 0; 0x1bdc; 0xd0000001;
  0x1bdc; 0xd0000003; 0x1bdc; 0xd0000005; 0x1bdc; 0xd0000007; 0x1bdc; 0xd0000009;
  0x1bdc; 0xd000000b; 0x1bdc; 0xd000000d; 0x1bdc; 0xd000000f; 0x1bdc; 0xd0000011;
  0x1bdc; 0xd0000013; 0x1bdc; 0xd0000015; 0x1bdc; 0xd0000017; 0x1bdc; 0xd0000019;
  0x1bdc; 0xd000001b; 0x1bdc; 0xd000001d; 0x1bdc; 0xd000001f; 0x1bdc; 0xd0000021;
  0x1bdc; 0xd0000023; 0x1bdc; 0xd0000025; 0x1bdc; 0xd0000027; 0x1bdc; 0xd0000029;
  0x1bdc; 0xd000002b; 0x1bdc; 0xd000002d].
Definition rtw8821c_bb_04 : list Z := [
  0x1bdc; 0xd000002f; 0x1bdc; 0xd0000031; 0x1bdc; 0xd0000033; 0x1bdc; 0xd0000035;
  0x1bdc; 0xd0000037; 0x1bdc; 0xd0000039; 0x1bdc; 0xd000003b; 0x1bdc; 0xd000003d;
  0x1bdc; 0xd000003f; 0x1bdc; 0xd0000041; 0x1bdc; 0xd0000043; 0x1bdc; 0xd0000045;
  0x1bdc; 0xd0000047; 0x1bdc; 0xd0000049; 0x1bdc; 0xd000004b; 0x1bdc; 0xd000004d;
  0x1bdc; 0xd000004f; 0x1bdc; 0xd0000051; 0x1bdc; 0xd0000053; 0x1bdc; 0xd0000055;
  0x1bdc; 0xd0000057; 0x1bdc; 0xd0000059; 0x1bdc; 0xd000005b; 0x1bdc; 0xd000005d;
  0x1bdc; 0xd000005f; 0x1bdc; 0xd0000061; 0x1bdc; 0xd0000063; 0x1bdc; 0xd0000065;
  0x1bdc; 0xd0000067; 0x1bdc; 0xd0000069; 0x1bdc; 0xd000006b; 0x1bdc; 0xd000006d;
  0x1bdc; 0xd000006f; 0x1bdc; 0xd0000071; 0x1bdc; 0xd0000073; 0x1bdc; 0xd0000075;
  0x1bdc; 0xd0000077; 0x1bdc; 0xd0000079; 0x1bdc; 0xd000007b; 0x1bdc; 0xd000007d;
  0x1bdc; 0xd000007f; 0x1bdc; 0x90000081; 0x1bdc; 0x90000083; 0x1bdc; 0x90000085;
  0x1bdc; 0x90000087; 0x1bdc; 0x90000089; 0x1bdc; 0x9000008b; 0x1bdc; 0x9000008d;
  0x1bdc; 0x9000008f; 0x1bdc; 0x90000091; 0x1bdc; 0x90000093; 0x1bdc; 0x90000095;
  0x1bdc; 0x90000097; 0x1bdc; 0x90000099; 0x1bdc; 0x9000009b; 0x1bdc; 0x9000009d;
  0x1bdc; 0x9000009f; 0x1bdc; 0x900000a1; 0x1bdc; 0x900000a3; 0x1bdc; 0x900000a5;
  0x1bdc; 0x900000a7; 0x1bdc; 0x900000a9; 0x1bdc; 0x900000ab; 0x1bdc; 0x900000ad;
  0x1bdc; 0x900000af; 0x1bdc; 0x900000b1; 0x1bdc; 0x900000b3; 0x1bdc; 0x900000b5;
  0x1bdc; 0x900000b7; 0x1bdc; 0x900000b9; 0x1bdc; 0x900000bb; 0x1bdc; 0x900000bd;
  0x1bdc; 0x900000bf; 0x1bdc; 0x900000c1; 0x1bdc; 0x900000c3; 0x1bdc; 0x900000c5;
  0x1bdc; 0x900000c7; 0x1bdc; 0x900000c9; 0x1bdc; 0x900000cb; 0x1bdc; 0x900000cd;
  0x1bdc; 0x900000cf; 0x1bdc; 0x900000d1; 0x1bdc; 0x900000d3; 0x1bdc; 0x900000d5;
  0x1bdc; 0x900000d7; 0x1bdc; 0x900000d9; 0x1bdc; 0x900000db; 0x1bdc; 0x900000dd;
  0x1bdc; 0x900000df; 0x1bdc; 0x900000e1; 0x1bdc; 0x900000e3; 0x1bdc; 0x900000e5;
  0x1bdc; 0x900000e7; 0x1bdc; 0x900000e9; 0x1bdc; 0x900000eb; 0x1bdc; 0x900000ed;
  0x1bdc; 0x900000ef; 0x1bdc; 0x900000f1; 0x1bdc; 0x900000f3; 0x1bdc; 0x900000f5;
  0x1bdc; 0x900000f7; 0x1bdc; 0x900000f9; 0x1bdc; 0x900000fb; 0x1bdc; 0x900000fd;
  0x1bdc; 0x900000ff; 0x1bdc; 0; 0x1b00; 0xf8000000; 0x1b80; 7;
  0x1b80; 0x90a0005; 0x1b80; 0x90a0007; 0x1b80; 0xffe0015; 0x1b80; 0xffe0017;
  0x1b80; 0x220025; 0x1b80; 0x220027; 0x1b80; 0x40035; 0x1b80; 0x40037;
  0x1b80; 0x5c00045; 0x1b80; 0x5c00047; 0x1b80; 0x70055; 0x1b80; 0x70057;
  0x1b80; 0x64000065; 0x1b80; 0x64000067; 0x1b80; 0x20075; 0x1b80; 0x20077;
  0x1b80; 0x80085; 0x1b80; 0x80087; 0x1b80; 0x80000095; 0x1b80; 0x80000097;
  0x1b80; 0x90800a5; 0x1b80; 0x90800a7; 0x1b80; 0xf0200b5; 0x1b80; 0xf0200b7;
  0x1b80; 0x2200c5; 0x1b80; 0x2200c7; 0x1b80; 0x400d5; 0x1b80; 0x400d7;
  0x1b80; 0x5c000e5; 0x1b80; 0x5c000e7; 0x1b80; 0x700f5; 0x1b80; 0x700f7;
  0x1b80; 0x64020105; 0x1b80; 0x64020107; 0x1b80; 0x20115; 0x1b80; 0x20117;
  0x1b80; 0x40125; 0x1b80; 0x40127; 0x1b80; 0x4a000135; 0x1b80; 0x4a000137;
  0x1b80; 0x4b040145; 0x1b80; 0x4b040147].
Definition rtw8821c_bb_05 : list Z := [
  0x1b80; 0x85030155; 0x1b80; 0x85030157; 0x1b80; 0x40090165; 0x1b80; 0x40090167;
  0x1b80; 0xe02a0175; 0x1b80; 0xe02a0177; 0x1b80; 0x4b050185; 0x1b80; 0x4b050187;
  0x1b80; 0x86030195; 0x1b80; 0x86030197; 0x1b80; 0x400b01a5; 0x1b80; 0x400b01a7;
  0x1b80; 0xe02a01b5; 0x1b80; 0xe02a01b7; 0x1b80; 0x4b0001c5; 0x1b80; 0x4b0001c7;
  0x1b80; 0x701d5; 0x1b80; 0x701d7; 0x1b80; 0x4c0001e5; 0x1b80; 0x4c0001e7;
  0x1b80; 0x401f5; 0x1b80; 0x401f7; 0x1b80; 0x4d040205; 0x1b80; 0x4d040207;
  0x1b80; 0x2ee00215; 0x1b80; 0x2ee00217; 0x1b80; 0x225; 0x1b80; 0x227;
  0x1b80; 0x2ef00235; 0x1b80; 0x2ef00237; 0x1b80; 0x245; 0x1b80; 0x247;
  0x1b80; 0x20810255; 0x1b80; 0x20810257; 0x1b80; 0x23450265; 0x1b80; 0x23450267;
  0x1b80; 0x4d000275; 0x1b80; 0x4d000277; 0x1b80; 0x40285; 0x1b80; 0x40287;
  0x1b80; 0x30000295; 0x1b80; 0x30000297; 0x1b80; 0xe1d602a5; 0x1b80; 0xe1d602a7;
  0x1b80; 0xf01102b5; 0x1b80; 0xf01102b7; 0x1b80; 0xf11102c5; 0x1b80; 0xf11102c7;
  0x1b80; 0xf21102d5; 0x1b80; 0xf21102d7; 0x1b80; 0xf31102e5; 0x1b80; 0xf31102e7;
  0x1b80; 0xf41102f5; 0x1b80; 0xf41102f7; 0x1b80; 0xf5110305; 0x1b80; 0xf5110307;
  0x1b80; 0xf6110315; 0x1b80; 0xf6110317; 0x1b80; 0xf7110325; 0x1b80; 0xf7110327;
  0x1b80; 0xf8110335; 0x1b80; 0xf8110337; 0x1b80; 0xf9110345; 0x1b80; 0xf9110347;
  0x1b80; 0xfa110355; 0x1b80; 0xfa110357; 0x1b80; 0xfb110365; 0x1b80; 0xfb110367;
  0x1b80; 0xfc110375; 0x1b80; 0xfc110377; 0x1b80; 0xfd110385; 0x1b80; 0xfd110387;
  0x1b80; 0xfe110395; 0x1b80; 0xfe110397; 0x1b80; 0xff1103a5; 0x1b80; 0xff1103a7;
  0x1b80; 0x103b5; 0x1b80; 0x103b7; 0x1b80; 0x305503c5; 0x1b80; 0x305503c7;
  0x1b80; 0x306d03d5; 0x1b80; 0x306d03d7; 0x1b80; 0x30b803e5; 0x1b80; 0x30b803e7;
  0x1b80; 0x30bb03f5; 0x1b80; 0x30bb03f7; 0x1b80; 0x306f0405; 0x1b80; 0x306f0407;
  0x1b80; 0x307a0415; 0x1b80; 0x307a0417; 0x1b80; 0x30850425; 0x1b80; 0x30850427;
  0x1b80; 0x30c50435; 0x1b80; 0x30c50437; 0x1b80; 0x30bf0445; 0x1b80; 0x30bf0447;
  0x1b80; 0x30d30455; 0x1b80; 0x30d30457; 0x1b80; 0x30de0465; 0x1b80; 0x30de0467;
  0x1b80; 0x30e90475; 0x1b80; 0x30e90477; 0x1b80; 0x304c0485; 0x1b80; 0x304c0487;
  0x1b80; 0x31180495; 0x1b80; 0x31180497; 0x1b80; 0x312904a5; 0x1b80; 0x312904a7;
  0x1b80; 0x313e04b5; 0x1b80; 0x313e04b7; 0x1b80; 0x4d0404c5; 0x1b80; 0x4d0404c7;
  0x1b80; 0x2ee004d5; 0x1b80; 0x2ee004d7; 0x1b80; 0x4e5; 0x1b80; 0x4e7;
  0x1b80; 0x2ef004f5; 0x1b80; 0x2ef004f7; 0x1b80; 0x505; 0x1b80; 0x507;
  0x1b80; 0x20810515; 0x1b80; 0x20810517; 0x1b80; 0xa3b50525; 0x1b80; 0xa3b50527;
  0x1b80; 0x4d000535; 0x1b80; 0x4d000537; 0x1b80; 0x30000545; 0x1b80; 0x30000547;
  0x1b80; 0xe1690555; 0x1b80; 0xe1690557; 0x1b80; 0x4d040565; 0x1b80; 0x4d040567;
  0x1b80; 0x20800575; 0x1b80; 0x20800577; 0x1b80; 0x585; 0x1b80; 0x587;
  0x1b80; 0x4d000595; 0x1b80; 0x4d000597; 0x1b80; 0x550705a5; 0x1b80; 0x550705a7;
  0x1b80; 0xe16105b5; 0x1b80; 0xe16105b7; 0x1b80; 0xe16105c5; 0x1b80; 0xe16105c7;
  0x1b80; 0x4d0405d5; 0x1b80; 0x4d0405d7; 0x1b80; 0x208805e5; 0x1b80; 0x208805e7;
  0x1b80; 0x20005f5; 0x1b80; 0x20005f7].
Definition rtw8821c_bb_06 : list Z := [
  0x1b80; 0x4d000605; 0x1b80; 0x4d000607; 0x1b80; 0x550f0615; 0x1b80; 0x550f0617;
  0x1b80; 0xe1610625; 0x1b80; 0xe1610627; 0x1b80; 0x4f020635; 0x1b80; 0x4f020637;
  0x1b80; 0x4e000645; 0x1b80; 0x4e000647; 0x1b80; 0x53020655; 0x1b80; 0x53020657;
  0x1b80; 0x52010665; 0x1b80; 0x52010667; 0x1b80; 0xe1650675; 0x1b80; 0xe1650677;
  0x1b80; 0x4d080685; 0x1b80; 0x4d080687; 0x1b80; 0x57100695; 0x1b80; 0x57100697;
  0x1b80; 0x570006a5; 0x1b80; 0x570006a7; 0x1b80; 0x4d0006b5; 0x1b80; 0x4d0006b7;
  0x1b80; 0x106c5; 0x1b80; 0x106c7; 0x1b80; 0xe16906d5; 0x1b80; 0xe16906d7;
  0x1b80; 0x106e5; 0x1b80; 0x106e7; 0x1b80; 0x308f06f5; 0x1b80; 0x308f06f7;
  0x1b80; 0x230705; 0x1b80; 0x230707; 0x1b80; 0xe1c90715; 0x1b80; 0xe1c90717;
  0x1b80; 0x20725; 0x1b80; 0x20727; 0x1b80; 0x54e90735; 0x1b80; 0x54e90737;
  0x1b80; 0xba60745; 0x1b80; 0xba60747; 0x1b80; 0x230755; 0x1b80; 0x230757;
  0x1b80; 0xe1c90765; 0x1b80; 0xe1c90767; 0x1b80; 0x20775; 0x1b80; 0x20777;
  0x1b80; 0x4d300785; 0x1b80; 0x4d300787; 0x1b80; 0x30a80795; 0x1b80; 0x30a80797;
  0x1b80; 0x308b07a5; 0x1b80; 0x308b07a7; 0x1b80; 0x2207b5; 0x1b80; 0x2207b7;
  0x1b80; 0xe1c907c5; 0x1b80; 0xe1c907c7; 0x1b80; 0x207d5; 0x1b80; 0x207d7;
  0x1b80; 0x54e807e5; 0x1b80; 0x54e807e7; 0x1b80; 0xba607f5; 0x1b80; 0xba607f7;
  0x1b80; 0x220805; 0x1b80; 0x220807; 0x1b80; 0xe1c90815; 0x1b80; 0xe1c90817;
  0x1b80; 0x20825; 0x1b80; 0x20827; 0x1b80; 0x4d300835; 0x1b80; 0x4d300837;
  0x1b80; 0x30a80845; 0x1b80; 0x30a80847; 0x1b80; 0x63f10855; 0x1b80; 0x63f10857;
  0x1b80; 0xe1690865; 0x1b80; 0xe1690867; 0x1b80; 0xe1c90875; 0x1b80; 0xe1c90877;
  0x1b80; 0x63f40885; 0x1b80; 0x63f40887; 0x1b80; 0xe1690895; 0x1b80; 0xe1690897;
  0x1b80; 0xe1c908a5; 0x1b80; 0xe1c908a7; 0x1b80; 0xba808b5; 0x1b80; 0xba808b7;
  0x1b80; 0x63f808c5; 0x1b80; 0x63f808c7; 0x1b80; 0xe16908d5; 0x1b80; 0xe16908d7;
  0x1b80; 0xe1c908e5; 0x1b80; 0xe1c908e7; 0x1b80; 0xba908f5; 0x1b80; 0xba908f7;
  0x1b80; 0x63fc0905; 0x1b80; 0x63fc0907; 0x1b80; 0xe1690915; 0x1b80; 0xe1690917;
  0x1b80; 0xe1c90925; 0x1b80; 0xe1c90927; 0x1b80; 0x63ff0935; 0x1b80; 0x63ff0937;
  0x1b80; 0xe1690945; 0x1b80; 0xe1690947; 0x1b80; 0xe1c90955; 0x1b80; 0xe1c90957;
  0x1b80; 0x63000965; 0x1b80; 0x63000967; 0x1b80; 0xe1690975; 0x1b80; 0xe1690977;
  0x1b80; 0xe1c90985; 0x1b80; 0xe1c90987; 0x1b80; 0x63030995; 0x1b80; 0x63030997;
  0x1b80; 0xe16909a5; 0x1b80; 0xe16909a7; 0x1b80; 0xe1c909b5; 0x1b80; 0xe1c909b7;
  0x1b80; 0xf4d409c5; 0x1b80; 0xf4d409c7; 0x1b80; 0x630709d5; 0x1b80; 0x630709d7;
  0x1b80; 0xe16909e5; 0x1b80; 0xe16909e7; 0x1b80; 0xe1c909f5; 0x1b80; 0xe1c909f7;
  0x1b80; 0xf5db0a05; 0x1b80; 0xf5db0a07; 0x1b80; 0x630b0a15; 0x1b80; 0x630b0a17;
  0x1b80; 0xe1690a25; 0x1b80; 0xe1690a27; 0x1b80; 0xe1c90a35; 0x1b80; 0xe1c90a37;
  0x1b80; 0x630e0a45; 0x1b80; 0x630e0a47; 0x1b80; 0xe1690a55; 0x1b80; 0xe1690a57;
  0x1b80; 0xe1c90a65; 0x1b80; 0xe1c90a67; 0x1b80; 0x4d300a75; 0x1b80; 0x4d300a77;
  0x1b80; 0x55010a85; 0x1b80; 0x55010a87; 0x1b80; 0x57040a95; 0x1b80; 0x57040a97;
  0x1b80; 0x57000aa5; 0x1b80; 0x57000aa7].
Definition rtw8821c_bb_07 : list Z := [
  0x1b80; 0x96000ab5; 0x1b80; 0x96000ab7; 0x1b80; 0x57080ac5; 0x1b80; 0x57080ac7;
  0x1b80; 0x57000ad5; 0x1b80; 0x57000ad7; 0x1b80; 0x95000ae5; 0x1b80; 0x95000ae7;
  0x1b80; 0x4d000af5; 0x1b80; 0x4d000af7; 0x1b80; 0x6c070b05; 0x1b80; 0x6c070b07;
  0x1b80; 0x7b200b15; 0x1b80; 0x7b200b17; 0x1b80; 0x7a000b25; 0x1b80; 0x7a000b27;
  0x1b80; 0x79000b35; 0x1b80; 0x79000b37; 0x1b80; 0x7f200b45; 0x1b80; 0x7f200b47;
  0x1b80; 0x7e000b55; 0x1b80; 0x7e000b57; 0x1b80; 0x7d000b65; 0x1b80; 0x7d000b67;
  0x1b80; 0x10b75; 0x1b80; 0x10b77; 0x1b80; 0x62850b85; 0x1b80; 0x62850b87;
  0x1b80; 0xe1690b95; 0x1b80; 0xe1690b97; 0x1b80; 0x10ba5; 0x1b80; 0x10ba7;
  0x1b80; 0x5c320bb5; 0x1b80; 0x5c320bb7; 0x1b80; 0xe1c50bc5; 0x1b80; 0xe1c50bc7;
  0x1b80; 0xe1950bd5; 0x1b80; 0xe1950bd7; 0x1b80; 0x10be5; 0x1b80; 0x10be7;
  0x1b80; 0x5c320bf5; 0x1b80; 0x5c320bf7; 0x1b80; 0x63f40c05; 0x1b80; 0x63f40c07;
  0x1b80; 0x62850c15; 0x1b80; 0x62850c17; 0x1b80; 0xbb00c25; 0x1b80; 0xbb00c27;
  0x1b80; 0xe1690c35; 0x1b80; 0xe1690c37; 0x1b80; 0xe1c90c45; 0x1b80; 0xe1c90c47;
  0x1b80; 0x5c320c55; 0x1b80; 0x5c320c57; 0x1b80; 0x63fc0c65; 0x1b80; 0x63fc0c67;
  0x1b80; 0x62850c75; 0x1b80; 0x62850c77; 0x1b80; 0xbb10c85; 0x1b80; 0xbb10c87;
  0x1b80; 0xe1690c95; 0x1b80; 0xe1690c97; 0x1b80; 0xe1c90ca5; 0x1b80; 0xe1c90ca7;
  0x1b80; 0x63030cb5; 0x1b80; 0x63030cb7; 0x1b80; 0xe1690cc5; 0x1b80; 0xe1690cc7;
  0x1b80; 0xe1c90cd5; 0x1b80; 0xe1c90cd7; 0x1b80; 0xf7040ce5; 0x1b80; 0xf7040ce7;
  0x1b80; 0x630b0cf5; 0x1b80; 0x630b0cf7; 0x1b80; 0xe1690d05; 0x1b80; 0xe1690d07;
  0x1b80; 0xe1c90d15; 0x1b80; 0xe1c90d17; 0x1b80; 0x10d25; 0x1b80; 0x10d27;
  0x1b80; 0x30f70d35; 0x1b80; 0x30f70d37; 0x1b80; 0x230d45; 0x1b80; 0x230d47;
  0x1b80; 0xe1ce0d55; 0x1b80; 0xe1ce0d57; 0x1b80; 0x20d65; 0x1b80; 0x20d67;
  0x1b80; 0x54e90d75; 0x1b80; 0x54e90d77; 0x1b80; 0xba60d85; 0x1b80; 0xba60d87;
  0x1b80; 0x230d95; 0x1b80; 0x230d97; 0x1b80; 0xe1ce0da5; 0x1b80; 0xe1ce0da7;
  0x1b80; 0x20db5; 0x1b80; 0x20db7; 0x1b80; 0x4d100dc5; 0x1b80; 0x4d100dc7;
  0x1b80; 0x30a80dd5; 0x1b80; 0x30a80dd7; 0x1b80; 0x30f10de5; 0x1b80; 0x30f10de7;
  0x1b80; 0x220df5; 0x1b80; 0x220df7; 0x1b80; 0xe1ce0e05; 0x1b80; 0xe1ce0e07;
  0x1b80; 0x20e15; 0x1b80; 0x20e17; 0x1b80; 0x54e80e25; 0x1b80; 0x54e80e27;
  0x1b80; 0xba60e35; 0x1b80; 0xba60e37; 0x1b80; 0x220e45; 0x1b80; 0x220e47;
  0x1b80; 0xe1ce0e55; 0x1b80; 0xe1ce0e57; 0x1b80; 0x20e65; 0x1b80; 0x20e67;
  0x1b80; 0x4d100e75; 0x1b80; 0x4d100e77; 0x1b80; 0x30a80e85; 0x1b80; 0x30a80e87;
  0x1b80; 0x5c320e95; 0x1b80; 0x5c320e97; 0x1b80; 0x54f00ea5; 0x1b80; 0x54f00ea7;
  0x1b80; 0x67f10eb5; 0x1b80; 0x67f10eb7; 0x1b80; 0xe1950ec5; 0x1b80; 0xe1950ec7;
  0x1b80; 0xe1ce0ed5; 0x1b80; 0xe1ce0ed7; 0x1b80; 0x67f40ee5; 0x1b80; 0x67f40ee7;
  0x1b80; 0xe1950ef5; 0x1b80; 0xe1950ef7; 0x1b80; 0xe1ce0f05; 0x1b80; 0xe1ce0f07;
  0x1b80; 0x5c320f15; 0x1b80; 0x5c320f17; 0x1b80; 0x54f10f25; 0x1b80; 0x54f10f27;
  0x1b80; 0xba80f35; 0x1b80; 0xba80f37; 0x1b80; 0x67f80f45; 0x1b80; 0x67f80f47;
  0x1b80; 0xe1950f55; 0x1b80; 0xe1950f57].
Definition rtw8821c_bb_08 : list Z := [
  0x1b80; 0xe1ce0f65; 0x1b80; 0xe1ce0f67; 0x1b80; 0x5c320f75; 0x1b80; 0x5c320f77;
  0x1b80; 0x54f10f85; 0x1b80; 0x54f10f87; 0x1b80; 0xba90f95; 0x1b80; 0xba90f97;
  0x1b80; 0x67fc0fa5; 0x1b80; 0x67fc0fa7; 0x1b80; 0xe1950fb5; 0x1b80; 0xe1950fb7;
  0x1b80; 0xe1ce0fc5; 0x1b80; 0xe1ce0fc7; 0x1b80; 0x67ff0fd5; 0x1b80; 0x67ff0fd7;
  0x1b80; 0xe1950fe5; 0x1b80; 0xe1950fe7; 0x1b80; 0xe1ce0ff5; 0x1b80; 0xe1ce0ff7;
  0x1b80; 0x5c321005; 0x1b80; 0x5c321007; 0x1b80; 0x54f21015; 0x1b80; 0x54f21017;
  0x1b80; 0x67001025; 0x1b80; 0x67001027; 0x1b80; 0xe1951035; 0x1b80; 0xe1951037;
  0x1b80; 0xe1ce1045; 0x1b80; 0xe1ce1047; 0x1b80; 0x67031055; 0x1b80; 0x67031057;
  0x1b80; 0xe1951065; 0x1b80; 0xe1951067; 0x1b80; 0xe1ce1075; 0x1b80; 0xe1ce1077;
  0x1b80; 0xf9cc1085; 0x1b80; 0xf9cc1087; 0x1b80; 0x67071095; 0x1b80; 0x67071097;
  0x1b80; 0xe19510a5; 0x1b80; 0xe19510a7; 0x1b80; 0xe1ce10b5; 0x1b80; 0xe1ce10b7;
  0x1b80; 0xfad310c5; 0x1b80; 0xfad310c7; 0x1b80; 0x5c3210d5; 0x1b80; 0x5c3210d7;
  0x1b80; 0x54f310e5; 0x1b80; 0x54f310e7; 0x1b80; 0x670b10f5; 0x1b80; 0x670b10f7;
  0x1b80; 0xe1951105; 0x1b80; 0xe1951107; 0x1b80; 0xe1ce1115; 0x1b80; 0xe1ce1117;
  0x1b80; 0x670e1125; 0x1b80; 0x670e1127; 0x1b80; 0xe1951135; 0x1b80; 0xe1951137;
  0x1b80; 0xe1ce1145; 0x1b80; 0xe1ce1147; 0x1b80; 0x4d101155; 0x1b80; 0x4d101157;
  0x1b80; 0x30a81165; 0x1b80; 0x30a81167; 0x1b80; 0x11175; 0x1b80; 0x11177;
  0x1b80; 0x6c001185; 0x1b80; 0x6c001187; 0x1b80; 0x61195; 0x1b80; 0x61197;
  0x1b80; 0x530011a5; 0x1b80; 0x530011a7; 0x1b80; 0x57f711b5; 0x1b80; 0x57f711b7;
  0x1b80; 0x582111c5; 0x1b80; 0x582111c7; 0x1b80; 0x592e11d5; 0x1b80; 0x592e11d7;
  0x1b80; 0x5a3811e5; 0x1b80; 0x5a3811e7; 0x1b80; 0x5b4111f5; 0x1b80; 0x5b4111f7;
  0x1b80; 0x71205; 0x1b80; 0x71207; 0x1b80; 0x5c001215; 0x1b80; 0x5c001217;
  0x1b80; 0x4b001225; 0x1b80; 0x4b001227; 0x1b80; 0x4e8f1235; 0x1b80; 0x4e8f1237;
  0x1b80; 0x4f151245; 0x1b80; 0x4f151247; 0x1b80; 0x41255; 0x1b80; 0x41257;
  0x1b80; 0xe1b31265; 0x1b80; 0xe1b31267; 0x1b80; 0xab001275; 0x1b80; 0xab001277;
  0x1b80; 0x11285; 0x1b80; 0x11287; 0x1b80; 0x6c001295; 0x1b80; 0x6c001297;
  0x1b80; 0x612a5; 0x1b80; 0x612a7; 0x1b80; 0x530012b5; 0x1b80; 0x530012b7;
  0x1b80; 0x57f712c5; 0x1b80; 0x57f712c7; 0x1b80; 0x582112d5; 0x1b80; 0x582112d7;
  0x1b80; 0x592e12e5; 0x1b80; 0x592e12e7; 0x1b80; 0x5a3812f5; 0x1b80; 0x5a3812f7;
  0x1b80; 0x5b411305; 0x1b80; 0x5b411307; 0x1b80; 0x71315; 0x1b80; 0x71317;
  0x1b80; 0x5c001325; 0x1b80; 0x5c001327; 0x1b80; 0x4b401335; 0x1b80; 0x4b401337;
  0x1b80; 0x4e971345; 0x1b80; 0x4e971347; 0x1b80; 0x4f111355; 0x1b80; 0x4f111357;
  0x1b80; 0x41365; 0x1b80; 0x41367; 0x1b80; 0xe1b31375; 0x1b80; 0xe1b31377;
  0x1b80; 0xab001385; 0x1b80; 0xab001387; 0x1b80; 0x8b001395; 0x1b80; 0x8b001397;
  0x1b80; 0xab0013a5; 0x1b80; 0xab0013a7; 0x1b80; 0x8a1913b5; 0x1b80; 0x8a1913b7;
  0x1b80; 0x301d13c5; 0x1b80; 0x301d13c7; 0x1b80; 0x113d5; 0x1b80; 0x113d7;
  0x1b80; 0x6c0113e5; 0x1b80; 0x6c0113e7; 0x1b80; 0x613f5; 0x1b80; 0x613f7;
  0x1b80; 0x53011405; 0x1b80; 0x53011407].
Definition rtw8821c_bb_09 : list Z := [
  0x1b80; 0x57f71415; 0x1b80; 0x57f71417; 0x1b80; 0x58211425; 0x1b80; 0x58211427;
  0x1b80; 0x592e1435; 0x1b80; 0x592e1437; 0x1b80; 0x5a381445; 0x1b80; 0x5a381447;
  0x1b80; 0x5b411455; 0x1b80; 0x5b411457; 0x1b80; 0x71465; 0x1b80; 0x71467;
  0x1b80; 0x5c001475; 0x1b80; 0x5c001477; 0x1b80; 0x4b001485; 0x1b80; 0x4b001487;
  0x1b80; 0x4e871495; 0x1b80; 0x4e871497; 0x1b80; 0x4f1114a5; 0x1b80; 0x4f1114a7;
  0x1b80; 0x414b5; 0x1b80; 0x414b7; 0x1b80; 0xe1b314c5; 0x1b80; 0xe1b314c7;
  0x1b80; 0xab0014d5; 0x1b80; 0xab0014d7; 0x1b80; 0x614e5; 0x1b80; 0x614e7;
  0x1b80; 0x577714f5; 0x1b80; 0x577714f7; 0x1b80; 0x71505; 0x1b80; 0x71507;
  0x1b80; 0x4e861515; 0x1b80; 0x4e861517; 0x1b80; 0x41525; 0x1b80; 0x41527;
  0x1b80; 0x11535; 0x1b80; 0x11537; 0x1b80; 0x11545; 0x1b80; 0x11547;
  0x1b80; 0x7b241555; 0x1b80; 0x7b241557; 0x1b80; 0x7a401565; 0x1b80; 0x7a401567;
  0x1b80; 0x79001575; 0x1b80; 0x79001577; 0x1b80; 0x55031585; 0x1b80; 0x55031587;
  0x1b80; 0x31611595; 0x1b80; 0x31611597; 0x1b80; 0x7b1c15a5; 0x1b80; 0x7b1c15a7;
  0x1b80; 0x7a4015b5; 0x1b80; 0x7a4015b7; 0x1b80; 0x550b15c5; 0x1b80; 0x550b15c7;
  0x1b80; 0x316115d5; 0x1b80; 0x316115d7; 0x1b80; 0x7b2015e5; 0x1b80; 0x7b2015e7;
  0x1b80; 0x7a0015f5; 0x1b80; 0x7a0015f7; 0x1b80; 0x55131605; 0x1b80; 0x55131607;
  0x1b80; 0x74011615; 0x1b80; 0x74011617; 0x1b80; 0x74001625; 0x1b80; 0x74001627;
  0x1b80; 0x8e001635; 0x1b80; 0x8e001637; 0x1b80; 0x11645; 0x1b80; 0x11647;
  0x1b80; 0x57021655; 0x1b80; 0x57021657; 0x1b80; 0x57001665; 0x1b80; 0x57001667;
  0x1b80; 0x97001675; 0x1b80; 0x97001677; 0x1b80; 0x11685; 0x1b80; 0x11687;
  0x1b80; 0x4f781695; 0x1b80; 0x4f781697; 0x1b80; 0x538816a5; 0x1b80; 0x538816a7;
  0x1b80; 0xe17516b5; 0x1b80; 0xe17516b7; 0x1b80; 0x548016c5; 0x1b80; 0x548016c7;
  0x1b80; 0x540016d5; 0x1b80; 0x540016d7; 0x1b80; 0x548116e5; 0x1b80; 0x548116e7;
  0x1b80; 0x540016f5; 0x1b80; 0x540016f7; 0x1b80; 0x54821705; 0x1b80; 0x54821707;
  0x1b80; 0x54001715; 0x1b80; 0x54001717; 0x1b80; 0xe1801725; 0x1b80; 0xe1801727;
  0x1b80; 0xbf1d1735; 0x1b80; 0xbf1d1737; 0x1b80; 0x301d1745; 0x1b80; 0x301d1747;
  0x1b80; 0xe1551755; 0x1b80; 0xe1551757; 0x1b80; 0xe15a1765; 0x1b80; 0xe15a1767;
  0x1b80; 0xe15e1775; 0x1b80; 0xe15e1777; 0x1b80; 0xe1651785; 0x1b80; 0xe1651787;
  0x1b80; 0xe1c51795; 0x1b80; 0xe1c51797; 0x1b80; 0x551317a5; 0x1b80; 0x551317a7;
  0x1b80; 0xe16117b5; 0x1b80; 0xe16117b7; 0x1b80; 0x551517c5; 0x1b80; 0x551517c7;
  0x1b80; 0xe16517d5; 0x1b80; 0xe16517d7; 0x1b80; 0xe1c517e5; 0x1b80; 0xe1c517e7;
  0x1b80; 0x117f5; 0x1b80; 0x117f7; 0x1b80; 0x54bf1805; 0x1b80; 0x54bf1807;
  0x1b80; 0x54c01815; 0x1b80; 0x54c01817; 0x1b80; 0x54a31825; 0x1b80; 0x54a31827;
  0x1b80; 0x54c11835; 0x1b80; 0x54c11837; 0x1b80; 0x54a41845; 0x1b80; 0x54a41847;
  0x1b80; 0x4c181855; 0x1b80; 0x4c181857; 0x1b80; 0xbf071865; 0x1b80; 0xbf071867;
  0x1b80; 0x54c21875; 0x1b80; 0x54c21877; 0x1b80; 0x54a41885; 0x1b80; 0x54a41887;
  0x1b80; 0xbf041895; 0x1b80; 0xbf041897; 0x1b80; 0x54c118a5; 0x1b80; 0x54c118a7;
  0x1b80; 0x54a318b5; 0x1b80; 0x54a318b7].
Definition rtw8821c_bb_10 : list Z := [
  0x1b80; 0xbf0118c5; 0x1b80; 0xbf0118c7; 0x1b80; 0xe1d318d5; 0x1b80; 0xe1d318d7;
  0x1b80; 0x54df18e5; 0x1b80; 0x54df18e7; 0x1b80; 0x118f5; 0x1b80; 0x118f7;
  0x1b80; 0x54bf1905; 0x1b80; 0x54bf1907; 0x1b80; 0x54e51915; 0x1b80; 0x54e51917;
  0x1b80; 0x50a1925; 0x1b80; 0x50a1927; 0x1b80; 0x54df1935; 0x1b80; 0x54df1937;
  0x1b80; 0x11945; 0x1b80; 0x11947; 0x1b80; 0x7f201955; 0x1b80; 0x7f201957;
  0x1b80; 0x7e001965; 0x1b80; 0x7e001967; 0x1b80; 0x7d001975; 0x1b80; 0x7d001977;
  0x1b80; 0x55011985; 0x1b80; 0x55011987; 0x1b80; 0x5c311995; 0x1b80; 0x5c311997;
  0x1b80; 0xe16119a5; 0x1b80; 0xe16119a7; 0x1b80; 0xe16519b5; 0x1b80; 0xe16519b7;
  0x1b80; 0x548019c5; 0x1b80; 0x548019c7; 0x1b80; 0x540019d5; 0x1b80; 0x540019d7;
  0x1b80; 0x548119e5; 0x1b80; 0x548119e7; 0x1b80; 0x540019f5; 0x1b80; 0x540019f7;
  0x1b80; 0x54821a05; 0x1b80; 0x54821a07; 0x1b80; 0x54001a15; 0x1b80; 0x54001a17;
  0x1b80; 0xe1801a25; 0x1b80; 0xe1801a27; 0x1b80; 0xbfed1a35; 0x1b80; 0xbfed1a37;
  0x1b80; 0x301d1a45; 0x1b80; 0x301d1a47; 0x1b80; 0x231a55; 0x1b80; 0x231a57;
  0x1b80; 0x7b201a65; 0x1b80; 0x7b201a67; 0x1b80; 0x7a001a75; 0x1b80; 0x7a001a77;
  0x1b80; 0x79001a85; 0x1b80; 0x79001a87; 0x1b80; 0xe1c91a95; 0x1b80; 0xe1c91a97;
  0x1b80; 0x21aa5; 0x1b80; 0x21aa7; 0x1b80; 0x11ab5; 0x1b80; 0x11ab7;
  0x1b80; 0x221ac5; 0x1b80; 0x221ac7; 0x1b80; 0x7b201ad5; 0x1b80; 0x7b201ad7;
  0x1b80; 0x7a001ae5; 0x1b80; 0x7a001ae7; 0x1b80; 0x79001af5; 0x1b80; 0x79001af7;
  0x1b80; 0xe1c91b05; 0x1b80; 0xe1c91b07; 0x1b80; 0x21b15; 0x1b80; 0x21b17;
  0x1b80; 0x11b25; 0x1b80; 0x11b27; 0x1b80; 0x74021b35; 0x1b80; 0x74021b37;
  0x1b80; 0x3f1b45; 0x1b80; 0x3f1b47; 0x1b80; 0x74001b55; 0x1b80; 0x74001b57;
  0x1b80; 0x21b65; 0x1b80; 0x21b67; 0x1b80; 0x11b75; 0x1b80; 0x11b77;
  0x1b80; 0x4d041b85; 0x1b80; 0x4d041b87; 0x1b80; 0x2ef81b95; 0x1b80; 0x2ef81b97;
  0x1b80; 0x1ba5; 0x1b80; 0x1ba7; 0x1b80; 0x23301bb5; 0x1b80; 0x23301bb7;
  0x1b80; 0x241bc5; 0x1b80; 0x241bc7; 0x1b80; 0x23e01bd5; 0x1b80; 0x23e01bd7;
  0x1b80; 0x3f1be5; 0x1b80; 0x3f1be7; 0x1b80; 0x23fc1bf5; 0x1b80; 0x23fc1bf7;
  0x1b80; 0xbfce1c05; 0x1b80; 0xbfce1c07; 0x1b80; 0x2ef01c15; 0x1b80; 0x2ef01c17;
  0x1b80; 0x1c25; 0x1b80; 0x1c27; 0x1b80; 0x4d001c35; 0x1b80; 0x4d001c37;
  0x1b80; 0x11c45; 0x1b80; 0x11c47; 0x1b80; 0x549f1c55; 0x1b80; 0x549f1c57;
  0x1b80; 0x54ff1c65; 0x1b80; 0x54ff1c67; 0x1b80; 0x54001c75; 0x1b80; 0x54001c77;
  0x1b80; 0x11c85; 0x1b80; 0x11c87; 0x1b80; 0x5c311c95; 0x1b80; 0x5c311c97;
  0x1b80; 0x7141ca5; 0x1b80; 0x7141ca7; 0x1b80; 0x54001cb5; 0x1b80; 0x54001cb7;
  0x1b80; 0x5c321cc5; 0x1b80; 0x5c321cc7; 0x1b80; 0x11cd5; 0x1b80; 0x11cd7;
  0x1b80; 0x5c321ce5; 0x1b80; 0x5c321ce7; 0x1b80; 0x7141cf5; 0x1b80; 0x7141cf7;
  0x1b80; 0x54001d05; 0x1b80; 0x54001d07; 0x1b80; 0x5c311d15; 0x1b80; 0x5c311d17;
  0x1b80; 0x11d25; 0x1b80; 0x11d27; 0x1b80; 0x4c981d35; 0x1b80; 0x4c981d37;
  0x1b80; 0x4c181d45; 0x1b80; 0x4c181d47; 0x1b80; 0x11d55; 0x1b80; 0x11d57;
  0x1b80; 0x5c321d65; 0x1b80; 0x5c321d67].
Definition rtw8821c_bb_11 : list Z := [
  0x1b80; 0x62841d75; 0x1b80; 0x62841d77; 0x1b80; 0x66861d85; 0x1b80; 0x66861d87;
  0x1b80; 0x6c031d95; 0x1b80; 0x6c031d97; 0x1b80; 0x7b201da5; 0x1b80; 0x7b201da7;
  0x1b80; 0x7a001db5; 0x1b80; 0x7a001db7; 0x1b80; 0x79001dc5; 0x1b80; 0x79001dc7;
  0x1b80; 0x7f201dd5; 0x1b80; 0x7f201dd7; 0x1b80; 0x7e001de5; 0x1b80; 0x7e001de7;
  0x1b80; 0x7d001df5; 0x1b80; 0x7d001df7; 0x1b80; 0x9011e05; 0x1b80; 0x9011e07;
  0x1b80; 0xc011e15; 0x1b80; 0xc011e17; 0x1b80; 0xba61e25; 0x1b80; 0xba61e27;
  0x1b80; 0x11e35; 0x1b80; 0x11e37; 0x1b80; 6; 0x1b80; 2].
Definition rtw8821c_bb : list Z := concat [rtw8821c_bb_00; rtw8821c_bb_01; rtw8821c_bb_02; rtw8821c_bb_03; rtw8821c_bb_04; rtw8821c_bb_05; rtw8821c_bb_06; rtw8821c_bb_07; rtw8821c_bb_08; rtw8821c_bb_09; rtw8821c_bb_10; rtw8821c_bb_11].

Definition rtw8821c_rf_a_00 : list Z := [
  0x80001005; 0; 0x40000000; 0; 0; 0x10000; 0x18; 0x10d24;
  0x90001004; 0; 0x40000000; 0; 0; 0x10000; 0x18; 0x10d24;
  0x90000400; 0; 0x40000000; 0; 0; 0x10000; 0x18; 0x10d24;
  0xa0000000; 0; 0; 0x10000; 0x18; 0x10d24; 0xb0000000; 0;
  0x80001005; 0; 0x40000000; 0; 0xef; 0x80000; 0x33; 2;
  0x3e; 0x3f; 0x3f; 0xc0f4e; 0x33; 1; 0x3e; 0x34;
  0x3f; 0x4080e; 0x90001004; 0; 0x40000000; 0; 0xef; 0x80000;
  0x33; 2; 0x3e; 0x3f; 0x3f; 0xc0f4e; 0x33; 1;
  0x3e; 0x34; 0x3f; 0x4080e; 0x90000400; 0; 0x40000000; 0;
  0xef; 0x80000; 0x33; 2; 0x3e; 0x3f; 0x3f; 0xc0f4e;
  0x33; 1; 0x3e; 0x34; 0x3f; 0x4080e; 0xa0000000; 0;
  0xef; 0x80000; 0x33; 2; 0x3e; 0x3f; 0x3f; 0xc0f4e;
  0x33; 1; 0x3e; 0x34; 0x3f; 0x4080e; 0xb0000000; 0;
  0x80001005; 0; 0x40000000; 0; 0xef; 0x2000; 0x33; 0;
  0x3f; 0x5df; 0xef; 0; 0x90001004; 0; 0x40000000; 0;
  0xef; 0x2000; 0x33; 0; 0x3f; 0x5df; 0xef; 0;
  0x90000400; 0; 0x40000000; 0; 0xef; 0x2000; 0x33; 0;
  0x3f; 0x5df; 0xef; 0; 0xa0000000; 0; 0xef; 0x2000;
  0x33; 0; 0x3f; 0x5df; 0xef; 0; 0xb0000000; 0;
  0x80001005; 0; 0x40000000; 0; 0xee; 0x400; 0x33; 0;
  0x3f; 0x5df; 0xee; 0; 0x90001004; 0; 0x40000000; 0;
  0xee; 0x400; 0x33; 0; 0x3f; 0x5df; 0xee; 0;
  0x90000400; 0; 0x40000000; 0; 0xee; 0x400; 0x33; 0;
  0x3f; 0x5df; 0xee; 0; 0xa0000000; 0; 0xee; 0x400;
  0x33; 0; 0x3f; 0x5df; 0xee; 0; 0xb0000000; 0;
  0x80001005; 0; 0x40000000; 0; 0xb0; 0xff0f8; 0xb1; 0x7dbe4;
  0xb2; 0x225d1; 0xb3; 0xfc760; 0xb4; 0x99dd0; 0xb5; 0x400fc;
  0xb6; 0x187f0; 0xb7; 0x30018; 0xb8; 0x80800; 0xb9; 0;
  0xba; 0x8000; 0xbb; 4; 0xbc; 0x40000; 0xbd; 0;
  0xbe; 0; 0xbf; 0; 0xc0; 0; 0xc1; 0;
  0xc2; 0; 0xc3; 0; 0xc4; 0x2402; 0xc5; 9;
  0xc6; 0x40299; 0xc7; 0x55555; 0xc8; 0xc16c; 0xc9; 0x1c140;
  0xca; 0; 0xcb; 0; 0xcc; 0; 0xcd; 0;
  0xce; 0x90c00; 0xcf; 0x6d200; 0xdf; 9; 0x90001004; 0;
  0x40000000; 0; 0xb0; 0xff0f8; 0xb1; 0x7dbe4; 0xb2; 0x225d1;
  0xb3; 0xfc760; 0xb4; 0x99dd0; 0xb5; 0x400fc; 0xb6; 0x187f0;
  0xb7; 0x30018; 0xb8; 0x80800; 0xb9; 0; 0xba; 0x8000;
  0xbb; 4; 0xbc; 0x40000; 0xbd; 0; 0xbe; 0;
  0xbf; 0; 0xc0; 0; 0xc1; 0; 0xc2; 0;
  0xc3; 0; 0xc4; 0x2402; 0xc5; 9; 0xc6; 0x40299;
  0xc7; 0x55555; 0xc8; 0xc16c; 0xc9; 0x1c140; 0xca; 0].
Definition rtw8821c_rf_a_01 : list Z := [
  0xcb; 0; 0xcc; 0; 0xcd; 0; 0xce; 0x90c00;
  0xcf; 0x6d200; 0xdf; 9; 0x90000400; 0; 0x40000000; 0;
  0xb0; 0xff0f8; 0xb1; 0x7dbe4; 0xb2; 0x225d1; 0xb3; 0xfc760;
  0xb4; 0x99dd0; 0xb5; 0x400fc; 0xb6; 0x187f0; 0xb7; 0x30018;
  0xb8; 0x80800; 0xb9; 0; 0xba; 0x8000; 0xbb; 4;
  0xbc; 0x40000; 0xbd; 0; 0xbe; 0; 0xbf; 0;
  0xc0; 0; 0xc1; 0; 0xc2; 0; 0xc3; 0;
  0xc4; 0x2402; 0xc5; 9; 0xc6; 0x40299; 0xc7; 0x55555;
  0xc8; 0xc16c; 0xc9; 0x1c140; 0xca; 0; 0xcb; 0;
  0xcc; 0; 0xcd; 0; 0xce; 0x90c00; 0xcf; 0x6d200;
  0xdf; 9; 0xa0000000; 0; 0xb0; 0xff0f8; 0xb1; 0x7dbe4;
  0xb2; 0x225d1; 0xb3; 0xfc760; 0xb4; 0x99dd0; 0xb5; 0x400fc;
  0xb6; 0x187f0; 0xb7; 0x30018; 0xb8; 0x80800; 0xb9; 0;
  0xba; 0x8000; 0xbb; 4; 0xbc; 0x40000; 0xbd; 0;
  0xbe; 0; 0xbf; 0; 0xc0; 0; 0xc1; 0;
  0xc2; 0; 0xc3; 0; 0xc4; 0x2402; 0xc5; 9;
  0xc6; 0x40299; 0xc7; 0x55555; 0xc8; 0xc16c; 0xc9; 0x1c140;
  0xca; 0; 0xcb; 0; 0xcc; 0; 0xcd; 0;
  0xce; 0x90c00; 0xcf; 0x6d200; 0xdf; 9; 0xb0000000; 0;
  0x80001005; 0; 0x40000000; 0; 0xee; 0x10000; 0x33; 0x58;
  0x3f; 0x1c; 0xee; 0; 0x90001004; 0; 0x40000000; 0;
  0xee; 0x10000; 0x33; 0x58; 0x3f; 0x1c; 0xee; 0;
  0x90000400; 0; 0x40000000; 0; 0xee; 0x10000; 0x33; 0x58;
  0x3f; 0x1c; 0xee; 0; 0xa0000000; 0; 0xee; 0x10000;
  0x33; 0x58; 0x3f; 0x1c; 0xee; 0; 0xb0000000; 0;
  0x80001005; 0; 0x40000000; 0; 0x18; 0x10524; 0x81; 0xfcc1;
  0x89; 4; 0x8a; 0x8a186; 0x8b; 0x6fffc; 0x8c; 0x312c7;
  0x8d; 0x20888; 0x8e; 0x64140; 0x8f; 0xa8010; 0x90001004; 0;
  0x40000000; 0; 0x18; 0x10524; 0x81; 0xfcc1; 0x89; 4;
  0x8a; 0x8a186; 0x8b; 0x6fffc; 0x8c; 0x312c7; 0x8d; 0x20888;
  0x8e; 0x64140; 0x8f; 0xa8010; 0x90000400; 0; 0x40000000; 0;
  0x18; 0x10524; 0x81; 0xfcc1; 0x89; 4; 0x8a; 0x8a186;
  0x8b; 0x7060c; 0x8c; 0x312c7; 0x8d; 0x20888; 0x8e; 0x64140;
  0x8f; 0xa8010; 0xa0000000; 0; 0x18; 0x10524; 0x81; 0xfcc1;
  0x89; 4; 0x8a; 0x8a186; 0x8b; 0x7060c; 0x8c; 0x312c7;
  0x8d; 0x20888; 0x8e; 0x64140; 0x8f; 0xa8010; 0xb0000000; 0;
  0x80001005; 0; 0x40000000; 0; 0xdd; 0x20; 0x90001004; 0;
  0x40000000; 0; 0xdd; 0x20; 0x90000400; 0; 0x40000000; 0;
  0xdd; 0x20; 0xa0000000; 0; 0xdd; 0x20; 0xb0000000; 0;
  0x80001005; 0; 0x40000000; 0; 0xef; 0x20000; 0x90001004; 0;
  0x40000000; 0; 0xef; 0x20000].
Definition rtw8821c_rf_a_02 : list Z := [
  0x90000400; 0; 0x40000000; 0; 0xef; 0x20000; 0xa0000000; 0;
  0xef; 0x20000; 0xb0000000; 0; 0x80001005; 0; 0x40000000; 0;
  0x33; 7; 0x3e; 0x38000; 0x3f; 0xc3186; 0x33; 6;
  0x3e; 0x38080; 0x3f; 0xc3186; 0x33; 5; 0x3e; 0x380c8;
  0x3f; 0xc3186; 0x33; 4; 0x3e; 0x38190; 0x3f; 0xc3186;
  0x33; 3; 0x3e; 0x38998; 0x3f; 0xc3186; 0x33; 2;
  0x3e; 0x39840; 0x3f; 0xc3186; 0x33; 1; 0x3e; 0x398c4;
  0x3f; 0xc3186; 0x33; 0; 0x3e; 0x39930; 0x3f; 0xc3186;
  0x90001004; 0; 0x40000000; 0; 0x33; 7; 0x3e; 0x38000;
  0x3f; 0xc3186; 0x33; 6; 0x3e; 0x38080; 0x3f; 0xc3186;
  0x33; 5; 0x3e; 0x380c8; 0x3f; 0xc3186; 0x33; 4;
  0x3e; 0x38190; 0x3f; 0xc3186; 0x33; 3; 0x3e; 0x38998;
  0x3f; 0xc3186; 0x33; 2; 0x3e; 0x39840; 0x3f; 0xc3186;
  0x33; 1; 0x3e; 0x398c4; 0x3f; 0xc3186; 0x33; 0;
  0x3e; 0x39930; 0x3f; 0xc3186; 0x90000400; 0; 0x40000000; 0;
  0x33; 7; 0x3e; 0x38000; 0x3f; 0xc3186; 0x33; 6;
  0x3e; 0x38080; 0x3f; 0xc3186; 0x33; 5; 0x3e; 0x380c8;
  0x3f; 0xc3186; 0x33; 4; 0x3e; 0x38190; 0x3f; 0xc3186;
  0x33; 3; 0x3e; 0x38998; 0x3f; 0xc3186; 0x33; 2;
  0x3e; 0x39840; 0x3f; 0xc3186; 0x33; 1; 0x3e; 0x398c4;
  0x3f; 0xc3186; 0x33; 0; 0x3e; 0x39930; 0x3f; 0xc3186;
  0xa0000000; 0; 0x33; 7; 0x3e; 0x38000; 0x3f; 0xc3186;
  0x33; 6; 0x3e; 0x38080; 0x3f; 0xc3186; 0x33; 5;
  0x3e; 0x380c8; 0x3f; 0xc3186; 0x33; 4; 0x3e; 0x38190;
  0x3f; 0xc3186; 0x33; 3; 0x3e; 0x38998; 0x3f; 0xc3186;
  0x33; 2; 0x3e; 0x39840; 0x3f; 0xc3186; 0x33; 1;
  0x3e; 0x398c4; 0x3f; 0xc3186; 0x33; 0; 0x3e; 0x39930;
  0x3f; 0xc3186; 0xb0000000; 0; 0x80001005; 0; 0x40000000; 0;
  0x33; 0xf; 0x3e; 0x38000; 0x3f; 0xc3186; 0x33; 0xe;
  0x3e; 0x38080; 0x3f; 0xc3186; 0x33; 0xd; 0x3e; 0x380c8;
  0x3f; 0xc3186; 0x33; 0xc; 0x3e; 0x38190; 0x3f; 0xc3186;
  0x33; 0xb; 0x3e; 0x38998; 0x3f; 0xc3186; 0x33; 0xa;
  0x3e; 0x39840; 0x3f; 0xc3186; 0x33; 9; 0x3e; 0x398c4;
  0x3f; 0xc3186; 0x33; 8; 0x3e; 0x39930; 0x3f; 0xc3186;
  0x90001004; 0; 0x40000000; 0; 0x33; 0xf; 0x3e; 0x38000;
  0x3f; 0xc3186; 0x33; 0xe; 0x3e; 0x38080; 0x3f; 0xc3186;
  0x33; 0xd; 0x3e; 0x380c8; 0x3f; 0xc3186; 0x33; 0xc;
  0x3e; 0x38190; 0x3f; 0xc3186; 0x33; 0xb; 0x3e; 0x38998;
  0x3f; 0xc3186; 0x33; 0xa; 0x3e; 0x39840; 0x3f; 0xc3186].
Definition rtw8821c_rf_a_03 : list Z := [
  0x33; 9; 0x3e; 0x398c4; 0x3f; 0xc3186; 0x33; 8;
  0x3e; 0x39930; 0x3f; 0xc3186; 0x90000400; 0; 0x40000000; 0;
  0x33; 0xf; 0x3e; 0x38000; 0x3f; 0xc3186; 0x33; 0xe;
  0x3e; 0x38080; 0x3f; 0xc3186; 0x33; 0xd; 0x3e; 0x380c8;
  0x3f; 0xc3186; 0x33; 0xc; 0x3e; 0x38190; 0x3f; 0xc3186;
  0x33; 0xb; 0x3e; 0x38998; 0x3f; 0xc3186; 0x33; 0xa;
  0x3e; 0x39840; 0x3f; 0xc3186; 0x33; 9; 0x3e; 0x398c4;
  0x3f; 0xc3186; 0x33; 8; 0x3e; 0x39930; 0x3f; 0xc3186;
  0xa0000000; 0; 0x33; 0xf; 0x3e; 0x38000; 0x3f; 0xc3186;
  0x33; 0xe; 0x3e; 0x38080; 0x3f; 0xc3186; 0x33; 0xd;
  0x3e; 0x380c8; 0x3f; 0xc3186; 0x33; 0xc; 0x3e; 0x38190;
  0x3f; 0xc3186; 0x33; 0xb; 0x3e; 0x38998; 0x3f; 0xc3186;
  0x33; 0xa; 0x3e; 0x39840; 0x3f; 0xc3186; 0x33; 9;
  0x3e; 0x398c4; 0x3f; 0xc3186; 0x33; 8; 0x3e; 0x39930;
  0x3f; 0xc3186; 0xb0000000; 0; 0x80001005; 0; 0x40000000; 0;
  0x33; 0x17; 0x3e; 0x38000; 0x3f; 0xc3186; 0x33; 0x16;
  0x3e; 0x38080; 0x3f; 0xc3186; 0x33; 0x15; 0x3e; 0x380c8;
  0x3f; 0xc3186; 0x33; 0x14; 0x3e; 0x38190; 0x3f; 0xc3186;
  0x33; 0x13; 0x3e; 0x38998; 0x3f; 0xc3186; 0x33; 0x12;
  0x3e; 0x39840; 0x3f; 0xc3186; 0x33; 0x11; 0x3e; 0x398c4;
  0x3f; 0xc3186; 0x33; 0x10; 0x3e; 0x39930; 0x3f; 0xc3186;
  0xef; 0; 0x90001004; 0; 0x40000000; 0; 0x33; 0x17;
  0x3e; 0x38000; 0x3f; 0xc3186; 0x33; 0x16; 0x3e; 0x38080;
  0x3f; 0xc3186; 0x33; 0x15; 0x3e; 0x380c8; 0x3f; 0xc3186;
  0x33; 0x14; 0x3e; 0x38190; 0x3f; 0xc3186; 0x33; 0x13;
  0x3e; 0x38998; 0x3f; 0xc3186; 0x33; 0x12; 0x3e; 0x39840;
  0x3f; 0xc3186; 0x33; 0x11; 0x3e; 0x398c4; 0x3f; 0xc3186;
  0x33; 0x10; 0x3e; 0x39930; 0x3f; 0xc3186; 0xef; 0;
  0x90000400; 0; 0x40000000; 0; 0x33; 0x17; 0x3e; 0x38000;
  0x3f; 0xc3186; 0x33; 0x16; 0x3e; 0x38080; 0x3f; 0xc3186;
  0x33; 0x15; 0x3e; 0x380c8; 0x3f; 0xc3186; 0x33; 0x14;
  0x3e; 0x38190; 0x3f; 0xc3186; 0x33; 0x13; 0x3e; 0x38998;
  0x3f; 0xc3186; 0x33; 0x12; 0x3e; 0x39840; 0x3f; 0xc3186;
  0x33; 0x11; 0x3e; 0x398c4; 0x3f; 0xc3186; 0x33; 0x10;
  0x3e; 0x39930; 0x3f; 0xc3186; 0xef; 0; 0xa0000000; 0;
  0x33; 0x17; 0x3e; 0x38000; 0x3f; 0xc3186; 0x33; 0x16;
  0x3e; 0x38080; 0x3f; 0xc3186; 0x33; 0x15; 0x3e; 0x380c8;
  0x3f; 0xc3186; 0x33; 0x14; 0x3e; 0x38190; 0x3f; 0xc3186;
  0x33; 0x13; 0x3e; 0x38998].
Definition rtw8821c_rf_a_04 : list Z := [
  0x3f; 0xc3186; 0x33; 0x12; 0x3e; 0x39840; 0x3f; 0xc3186;
  0x33; 0x11; 0x3e; 0x398c4; 0x3f; 0xc3186; 0x33; 0x10;
  0x3e; 0x39930; 0x3f; 0xc3186; 0xef; 0; 0xb0000000; 0;
  0x80001005; 0; 0x40000000; 0; 0xef; 0x4000; 0x33; 0;
  0x3f; 0xf; 0x33; 1; 0x3f; 0xa; 0x33; 2;
  0x3f; 5; 0xef; 0; 0x90001004; 0; 0x40000000; 0;
  0xef; 0x4000; 0x33; 0; 0x3f; 0xf; 0x33; 1;
  0x3f; 0xa; 0x33; 2; 0x3f; 5; 0xef; 0;
  0x90000400; 0; 0x40000000; 0; 0xef; 0x4000; 0x33; 0;
  0x3f; 0xf; 0x33; 1; 0x3f; 0xa; 0x33; 2;
  0x3f; 5; 0xef; 0; 0xa0000000; 0; 0xef; 0x4000;
  0x33; 0; 0x3f; 0xf; 0x33; 1; 0x3f; 0xa;
  0x33; 2; 0x3f; 5; 0xef; 0; 0xb0000000; 0;
  0x80001005; 0; 0x40000000; 0; 0x18; 0x401; 0x84; 0x1209;
  0x86; 0x1a0; 0x87; 0xe8180; 0x88; 0x6020; 0xdf; 0x8009;
  0x90001004; 0; 0x40000000; 0; 0x18; 0x401; 0x84; 0x1209;
  0x86; 0x1a0; 0x87; 0xe8180; 0x88; 0x6020; 0xdf; 0x8009;
  0x90000400; 0; 0x40000000; 0; 0x18; 0x401; 0x84; 0x1209;
  0x86; 0x1a0; 0x87; 0xe8180; 0x88; 0x6020; 0xdf; 0x8009;
  0xa0000000; 0; 0x18; 0x401; 0x84; 0x1209; 0x86; 0x1a0;
  0x87; 0xe8180; 0x88; 0x6020; 0xdf; 0x8009; 0xb0000000; 0;
  0x80001005; 0; 0x40000000; 0; 0xef; 0x8000; 0x33; 0xf;
  0x3f; 0x3c; 0x33; 0xe; 0x3f; 0x38; 0x33; 0xd;
  0x3f; 0x30; 0x33; 0xc; 0x3f; 0x28; 0x33; 0xb;
  0x3f; 0x20; 0x33; 0xa; 0x3f; 0x18; 0x33; 9;
  0x3f; 0x10; 0x33; 8; 0x3f; 8; 0x33; 7;
  0x3f; 0x3c; 0x33; 6; 0x3f; 0x38; 0x33; 5;
  0x3f; 0x30; 0x33; 4; 0x3f; 0x28; 0x33; 3;
  0x3f; 0x20; 0x33; 2; 0x3f; 0x18; 0x33; 1;
  0x3f; 0x10; 0x33; 0; 0x3f; 8; 0xef; 0;
  0x90001004; 0; 0x40000000; 0; 0xef; 0x8000; 0x33; 0xf;
  0x3f; 0x3c; 0x33; 0xe; 0x3f; 0x38; 0x33; 0xd;
  0x3f; 0x30; 0x33; 0xc; 0x3f; 0x28; 0x33; 0xb;
  0x3f; 0x20; 0x33; 0xa; 0x3f; 0x18; 0x33; 9;
  0x3f; 0x10; 0x33; 8; 0x3f; 8; 0x33; 7;
  0x3f; 0x3c; 0x33; 6; 0x3f; 0x38; 0x33; 5;
  0x3f; 0x30; 0x33; 4; 0x3f; 0x28; 0x33; 3;
  0x3f; 0x20; 0x33; 2; 0x3f; 0x18; 0x33; 1;
  0x3f; 0x10; 0x33; 0; 0x3f; 8; 0xef; 0;
  0x90000400; 0; 0x40000000; 0; 0xef; 0x8000].
Definition rtw8821c_rf_a_05 : list Z := [
  0x33; 0xf; 0x3f; 0x3c; 0x33; 0xe; 0x3f; 0x38;
  0x33; 0xd; 0x3f; 0x30; 0x33; 0xc; 0x3f; 0x28;
  0x33; 0xb; 0x3f; 0x20; 0x33; 0xa; 0x3f; 0x18;
  0x33; 9; 0x3f; 0x10; 0x33; 8; 0x3f; 8;
  0x33; 7; 0x3f; 0x3c; 0x33; 6; 0x3f; 0x38;
  0x33; 5; 0x3f; 0x30; 0x33; 4; 0x3f; 0x28;
  0x33; 3; 0x3f; 0x20; 0x33; 2; 0x3f; 0x18;
  0x33; 1; 0x3f; 0x10; 0x33; 0; 0x3f; 8;
  0xef; 0; 0xa0000000; 0; 0xef; 0x8000; 0x33; 0xf;
  0x3f; 0x3c; 0x33; 0xe; 0x3f; 0x38; 0x33; 0xd;
  0x3f; 0x30; 0x33; 0xc; 0x3f; 0x28; 0x33; 0xb;
  0x3f; 0x20; 0x33; 0xa; 0x3f; 0x18; 0x33; 9;
  0x3f; 0x10; 0x33; 8; 0x3f; 8; 0x33; 7;
  0x3f; 0x3c; 0x33; 6; 0x3f; 0x38; 0x33; 5;
  0x3f; 0x30; 0x33; 4; 0x3f; 0x28; 0x33; 3;
  0x3f; 0x20; 0x33; 2; 0x3f; 0x18; 0x33; 1;
  0x3f; 0x10; 0x33; 0; 0x3f; 8; 0xef; 0;
  0xb0000000; 0; 0x80001005; 0; 0x40000000; 0; 0xee; 2;
  0x33; 0x1e; 0x3f; 0; 0x33; 0x1c; 0x3f; 0;
  0x33; 0xe; 0x3f; 0; 0x33; 0xc; 0x3f; 0;
  0x33; 0xa; 0x3f; 2; 0x33; 8; 0x3f; 0;
  0x33; 0x36; 0x3f; 0; 0x33; 0x37; 0x3f; 0;
  0x33; 0x34; 0x3f; 0; 0x33; 0x26; 0x3f; 6;
  0x33; 0x27; 0x3f; 6; 0x33; 0x24; 0x3f; 6;
  0x33; 0x22; 0x3f; 6; 0x33; 0x20; 0x3f; 6;
  0x33; 6; 0x3f; 0; 0x33; 7; 0x3f; 6;
  0x33; 4; 0x3f; 6; 0x33; 2; 0x3f; 6;
  0x33; 0; 0x3f; 6; 0xee; 0; 0x90001004; 0;
  0x40000000; 0; 0xee; 2; 0x33; 0x1e; 0x3f; 0;
  0x33; 0x1c; 0x3f; 0; 0x33; 0xe; 0x3f; 0;
  0x33; 0xc; 0x3f; 0; 0x33; 0xa; 0x3f; 2;
  0x33; 8; 0x3f; 0; 0x33; 0x36; 0x3f; 0;
  0x33; 0x37; 0x3f; 0; 0x33; 0x34; 0x3f; 0;
  0x33; 0x26; 0x3f; 6; 0x33; 0x27; 0x3f; 6;
  0x33; 0x24; 0x3f; 6; 0x33; 0x22; 0x3f; 6;
  0x33; 0x20; 0x3f; 6; 0x33; 6; 0x3f; 0;
  0x33; 7; 0x3f; 6; 0x33; 4; 0x3f; 6;
  0x33; 2; 0x3f; 6; 0x33; 0; 0x3f; 6].
Definition rtw8821c_rf_a_06 : list Z := [
  0xee; 0; 0x90000400; 0; 0x40000000; 0; 0xee; 2;
  0x33; 0x1e; 0x3f; 0; 0x33; 0x1c; 0x3f; 0;
  0x33; 0xe; 0x3f; 0; 0x33; 0xc; 0x3f; 0;
  0x33; 0xa; 0x3f; 2; 0x33; 8; 0x3f; 0;
  0x33; 0x36; 0x3f; 0; 0x33; 0x37; 0x3f; 0;
  0x33; 0x34; 0x3f; 0; 0x33; 0x26; 0x3f; 6;
  0x33; 0x27; 0x3f; 6; 0x33; 0x24; 0x3f; 6;
  0x33; 0x22; 0x3f; 6; 0x33; 0x20; 0x3f; 6;
  0x33; 6; 0x3f; 0; 0x33; 7; 0x3f; 6;
  0x33; 4; 0x3f; 6; 0x33; 2; 0x3f; 6;
  0x33; 0; 0x3f; 6; 0xee; 0; 0xa0000000; 0;
  0xee; 2; 0x33; 0x1e; 0x3f; 0; 0x33; 0x1c;
  0x3f; 0; 0x33; 0xe; 0x3f; 0; 0x33; 0xc;
  0x3f; 0; 0x33; 0xa; 0x3f; 2; 0x33; 8;
  0x3f; 0; 0x33; 0x36; 0x3f; 0; 0x33; 0x37;
  0x3f; 0; 0x33; 0x34; 0x3f; 0; 0x33; 0x26;
  0x3f; 6; 0x33; 0x27; 0x3f; 6; 0x33; 0x24;
  0x3f; 6; 0x33; 0x22; 0x3f; 6; 0x33; 0x20;
  0x3f; 6; 0x33; 6; 0x3f; 0; 0x33; 7;
  0x3f; 6; 0x33; 4; 0x3f; 6; 0x33; 2;
  0x3f; 6; 0x33; 0; 0x3f; 6; 0xee; 0;
  0xb0000000; 0; 0x80001005; 0; 0x40000000; 0; 0xa0; 0xf0005;
  0xa1; 0x6c000; 0xa2; 0x161b; 0xa3; 0xb9cbd; 0xaf; 0x70000;
  0x90001004; 0; 0x40000000; 0; 0xa0; 0xf0005; 0xa1; 0x6c000;
  0xa2; 0x161b; 0xa3; 0xb9cbd; 0xaf; 0x70000; 0x90000400; 0;
  0x40000000; 0; 0xa0; 0xf0005; 0xa1; 0x6c000; 0xa2; 0x161b;
  0xa3; 0xb9cbd; 0xaf; 0x70000; 0xa0000000; 0; 0xa0; 0xf0005;
  0xa1; 0x6c000; 0xa2; 0x161b; 0xa3; 0xb9cbd; 0xaf; 0x70000;
  0xb0000000; 0; 0x80001005; 0; 0x40000000; 0; 0xde; 0x200;
  0xee; 0x100; 0x33; 7; 0x3f; 0x43; 0x33; 6;
  0x3f; 0x7a; 0x33; 5; 0x3f; 0x41; 0x33; 4;
  0x3f; 0x79; 0x33; 3; 0x3f; 0x43; 0x33; 2;
  0x3f; 0x7a; 0x33; 1; 0x3f; 0x41; 0x33; 0;
  0x3f; 0x79; 0xee; 0; 0x90001004; 0; 0x40000000; 0;
  0xde; 0x200; 0xee; 0x100; 0x33; 7; 0x3f; 0x43;
  0x33; 6; 0x3f; 0x7a; 0x33; 5; 0x3f; 0x41;
  0x33; 4; 0x3f; 0x79; 0x33; 3; 0x3f; 0x43;
  0x33; 2; 0x3f; 0x7a; 0x33; 1; 0x3f; 0x41;
  0x33; 0; 0x3f; 0x79; 0xee; 0; 0x90000400; 0;
  0x40000000; 0].
Definition rtw8821c_rf_a_07 : list Z := [
  0xde; 0x200; 0xee; 0x100; 0x33; 7; 0x3f; 0x43;
  0x33; 6; 0x3f; 0x7a; 0x33; 5; 0x3f; 0x41;
  0x33; 4; 0x3f; 0x79; 0x33; 3; 0x3f; 0x43;
  0x33; 2; 0x3f; 0x7a; 0x33; 1; 0x3f; 0x41;
  0x33; 0; 0x3f; 0x79; 0xee; 0; 0xa0000000; 0;
  0xde; 0x200; 0xee; 0x100; 0x33; 7; 0x3f; 0x43;
  0x33; 6; 0x3f; 0x7a; 0x33; 5; 0x3f; 0x41;
  0x33; 4; 0x3f; 0x79; 0x33; 3; 0x3f; 0x43;
  0x33; 2; 0x3f; 0x7a; 0x33; 1; 0x3f; 0x41;
  0x33; 0; 0x3f; 0x79; 0xee; 0; 0xb0000000; 0;
  0x80001005; 0; 0x40000000; 0; 0xb8; 0x80a00; 0xb0; 0xff0fa;
  0x90001004; 0; 0x40000000; 0; 0xb8; 0x80a00; 0xb0; 0xff0fa;
  0x90000400; 0; 0x40000000; 0; 0xb8; 0x80a00; 0xb0; 0xff0fa;
  0xa0000000; 0; 0xb8; 0x80a00; 0xb0; 0xff0fa; 0xb0000000; 0;
  0xffe; 0; 0x80001005; 0; 0x40000000; 0; 0xca; 0x80000;
  0xc9; 0x1c141; 0x90001004; 0; 0x40000000; 0; 0xca; 0x80000;
  0xc9; 0x1c141; 0x90000400; 0; 0x40000000; 0; 0xca; 0x80000;
  0xc9; 0x1c141; 0xa0000000; 0; 0xca; 0x80000; 0xc9; 0x1c141;
  0xb0000000; 0; 0xffe; 0; 0x80001005; 0; 0x40000000; 0;
  0xb0; 0xff0f8; 0x90001004; 0; 0x40000000; 0; 0xb0; 0xff0f8;
  0x90000400; 0; 0x40000000; 0; 0xb0; 0xff0f8; 0xa0000000; 0;
  0xb0; 0xff0f8; 0xb0000000; 0; 0x80001005; 0; 0x40000000; 0;
  0x18; 0x18d24; 0x90001004; 0; 0x40000000; 0; 0x18; 0x18d24;
  0x90000400; 0; 0x40000000; 0; 0x18; 0x18d24; 0xa0000000; 0;
  0x18; 0x18d24; 0xb0000000; 0; 0xffe; 0; 0xffe; 0;
  0xffe; 0; 0xffe; 0; 0xffe; 0; 0xffe; 0;
  0x80001005; 0; 0x40000000; 0; 0x18; 0x10d24; 0x90001004; 0;
  0x40000000; 0; 0x18; 0x10d24; 0x90000400; 0; 0x40000000; 0;
  0x18; 0x10d24; 0xa0000000; 0; 0x18; 0x10d24; 0xb0000000; 0;
  0x80001005; 0; 0x40000000; 0; 0x1b; 0x3a40; 0x90001004; 0;
  0x40000000; 0; 0x1b; 0x3a40; 0x90000400; 0; 0x40000000; 0;
  0x1b; 0x3a40; 0xa0000000; 0; 0x1b; 0x3a40; 0xb0000000; 0;
  0x80001005; 0; 0x40000000; 0; 0x61; 0x4d3a3; 0x62; 0xd303;
  0x63; 2; 0x90001004; 0; 0x40000000; 0; 0x61; 0x4d3a3;
  0x62; 0xd303; 0x63; 2; 0x90000400; 0; 0x40000000; 0;
  0x61; 0x4d3a1; 0x62; 0xd3a3; 0x63; 2; 0xa0000000; 0;
  0x61; 0x4d3a1; 0x62; 0xd3a3; 0x63; 2; 0xb0000000; 0;
  0x80001005; 0; 0x40000000; 0; 0xef; 0x200; 0x30; 0;
  0x3f; 0x33303; 0x30; 0x1000; 0x3f; 0x33303; 0x30; 0x2000;
  0x3f; 0x33303; 0x30; 0x3000; 0x3f; 0x33303; 0x30; 0x4000;
  0x3f; 0x33303; 0x30; 0x5000; 0x3f; 0x33303; 0x30; 0x6000;
  0x3f; 0x33303; 0x30; 0x7000; 0x3f; 0x33303; 0x30; 0x8000;
  0x3f; 0x33303; 0x30; 0x9000; 0x3f; 0x33303; 0x30; 0xa000].
Definition rtw8821c_rf_a_08 : list Z := [
  0x3f; 0x33303; 0x30; 0xb000; 0x3f; 0x33303; 0xef; 0;
  0x90001004; 0; 0x40000000; 0; 0xef; 0x200; 0x30; 0;
  0x3f; 0x333a3; 0x30; 0x1000; 0x3f; 0x333a3; 0x30; 0x2000;
  0x3f; 0x333a3; 0x30; 0x3000; 0x3f; 0x333a3; 0x30; 0x4000;
  0x3f; 0x313a3; 0x30; 0x5000; 0x3f; 0x313a3; 0x30; 0x6000;
  0x3f; 0x313a3; 0x30; 0x7000; 0x3f; 0x313a3; 0x30; 0x8000;
  0x3f; 0x333a3; 0x30; 0x9000; 0x3f; 0x333a3; 0x30; 0xa000;
  0x3f; 0x333a3; 0x30; 0xb000; 0x3f; 0x333a3; 0xef; 0;
  0x90000400; 0; 0x40000000; 0; 0xef; 0x200; 0x30; 0;
  0x3f; 0x335a3; 0x30; 0x1000; 0x3f; 0x335a3; 0x30; 0x2000;
  0x3f; 0x335a3; 0x30; 0x3000; 0x3f; 0x335a3; 0x30; 0x4000;
  0x3f; 0x335a3; 0x30; 0x5000; 0x3f; 0x335a3; 0x30; 0x6000;
  0x3f; 0x335a3; 0x30; 0x7000; 0x3f; 0x335a3; 0x30; 0x8000;
  0x3f; 0x335a3; 0x30; 0x9000; 0x3f; 0x335a3; 0x30; 0xa000;
  0x3f; 0x335a3; 0x30; 0xb000; 0x3f; 0x335a3; 0xef; 0;
  0xa0000000; 0; 0xef; 0x200; 0x30; 0; 0x3f; 0x335a3;
  0x30; 0x1000; 0x3f; 0x335a3; 0x30; 0x2000; 0x3f; 0x335a3;
  0x30; 0x3000; 0x3f; 0x335a3; 0x30; 0x4000; 0x3f; 0x335a3;
  0x30; 0x5000; 0x3f; 0x335a3; 0x30; 0x6000; 0x3f; 0x335a3;
  0x30; 0x7000; 0x3f; 0x335a3; 0x30; 0x8000; 0x3f; 0x335a3;
  0x30; 0x9000; 0x3f; 0x335a3; 0x30; 0xa000; 0x3f; 0x335a3;
  0x30; 0xb000; 0x3f; 0x335a3; 0xef; 0; 0xb0000000; 0;
  0x80001005; 0; 0x40000000; 0; 0xef; 0x80; 0x33; 0;
  0x3f; 0x33303; 0x33; 1; 0x3f; 0x33303; 0x33; 2;
  0x3f; 0x33303; 0x33; 3; 0x3f; 0x33303; 0x33; 4;
  0x3f; 0x33303; 0x33; 5; 0x3f; 0x33303; 0x33; 6;
  0x3f; 0x33303; 0x33; 7; 0x3f; 0x33303; 0x33; 8;
  0x3f; 0x33303; 0x33; 9; 0x3f; 0x33303; 0x33; 0xa;
  0x3f; 0x33303; 0x33; 0xb; 0x3f; 0x33303; 0x33; 0xc;
  0x3f; 0x33303; 0x33; 0xd; 0x3f; 0x33303; 0x33; 0xe;
  0x3f; 0x33303; 0x33; 0xf; 0x3f; 0x33303; 0x33; 0x10;
  0x3f; 0x33303; 0x33; 0x11; 0x3f; 0x33303; 0x33; 0x12;
  0x3f; 0x33303; 0xef; 0; 0x90001004; 0; 0x40000000; 0;
  0xef; 0x80; 0x33; 0; 0x3f; 0x333a3; 0x33; 1;
  0x3f; 0x333a3; 0x33; 2; 0x3f; 0x333a3; 0x33; 3;
  0x3f; 0x333a3; 0x33; 4; 0x3f; 0x333a3; 0x33; 5;
  0x3f; 0x333a3; 0x33; 6; 0x3f; 0x333a3; 0x33; 7;
  0x3f; 0x333a3; 0x33; 8; 0x3f; 0x313a3; 0x33; 9;
  0x3f; 0x313a3; 0x33; 0xa].
Definition rtw8821c_rf_a_09 : list Z := [
  0x3f; 0x313a3; 0x33; 0xb; 0x3f; 0x313a3; 0x33; 0xc;
  0x3f; 0x313a3; 0x33; 0xd; 0x3f; 0x333a3; 0x33; 0xe;
  0x3f; 0x333a3; 0x33; 0xf; 0x3f; 0x333a3; 0x33; 0x10;
  0x3f; 0x333a3; 0x33; 0x11; 0x3f; 0x333a3; 0x33; 0x12;
  0x3f; 0x333a3; 0xef; 0; 0x90000400; 0; 0x40000000; 0;
  0xef; 0x80; 0x33; 0; 0x3f; 0x335a3; 0x33; 1;
  0x3f; 0x335a3; 0x33; 2; 0x3f; 0x335a3; 0x33; 3;
  0x3f; 0x335a3; 0x33; 4; 0x3f; 0x335a3; 0x33; 5;
  0x3f; 0x335a3; 0x33; 6; 0x3f; 0x335a3; 0x33; 7;
  0x3f; 0x335a3; 0x33; 8; 0x3f; 0x335a3; 0x33; 9;
  0x3f; 0x335a3; 0x33; 0xa; 0x3f; 0x335a3; 0x33; 0xb;
  0x3f; 0x335a3; 0x33; 0xc; 0x3f; 0x335a3; 0x33; 0xd;
  0x3f; 0x335a3; 0x33; 0xe; 0x3f; 0x335a3; 0x33; 0xf;
  0x3f; 0x335a3; 0x33; 0x10; 0x3f; 0x335a3; 0x33; 0x11;
  0x3f; 0x335a3; 0x33; 0x12; 0x3f; 0x335a3; 0xef; 0;
  0xa0000000; 0; 0xef; 0x80; 0x33; 0; 0x3f; 0x335a3;
  0x33; 1; 0x3f; 0x335a3; 0x33; 2; 0x3f; 0x335a3;
  0x33; 3; 0x3f; 0x335a3; 0x33; 4; 0x3f; 0x335a3;
  0x33; 5; 0x3f; 0x335a3; 0x33; 6; 0x3f; 0x335a3;
  0x33; 7; 0x3f; 0x335a3; 0x33; 8; 0x3f; 0x335a3;
  0x33; 9; 0x3f; 0x335a3; 0x33; 0xa; 0x3f; 0x335a3;
  0x33; 0xb; 0x3f; 0x335a3; 0x33; 0xc; 0x3f; 0x335a3;
  0x33; 0xd; 0x3f; 0x335a3; 0x33; 0xe; 0x3f; 0x335a3;
  0x33; 0xf; 0x3f; 0x335a3; 0x33; 0x10; 0x3f; 0x335a3;
  0x33; 0x11; 0x3f; 0x335a3; 0x33; 0x12; 0x3f; 0x335a3;
  0xef; 0; 0xb0000000; 0; 0x80001005; 0; 0x40000000; 0;
  0xef; 0x40; 0x30; 0x644; 0x30; 0x1135; 0x30; 0x2133;
  0x30; 0x4000; 0x30; 0x5000; 0x30; 0x6000; 0xef; 0;
  0x90001004; 0; 0x40000000; 0; 0xef; 0x40; 0x30; 0x644;
  0x30; 0x1412; 0x30; 0x2202; 0x30; 0x4000; 0x30; 0x5000;
  0x30; 0x6000; 0xef; 0; 0x90000400; 0; 0x40000000; 0;
  0xef; 0x40; 0x30; 0x640; 0x30; 0x1512; 0x30; 0x2202;
  0x30; 0x4000; 0x30; 0x5000; 0x30; 0x6000; 0xef; 0;
  0xa0000000; 0; 0xef; 0x40; 0x30; 0x640; 0x30; 0x1512;
  0x30; 0x2202; 0x30; 0x4000; 0x30; 0x5000; 0x30; 0x6000;
  0xef; 0; 0xb0000000; 0; 0x80001005; 0; 0x40000000; 0;
  0xef; 0x800; 0x90001004; 0; 0x40000000; 0; 0xef; 0x800;
  0x90000400; 0; 0x40000000; 0; 0xef; 0x800; 0xa0000000; 0;
  0xef; 0x800; 0xb0000000; 0; 0x80001005; 0; 0x40000000; 0;
  0x33; 0x20; 0x3f; 1].
Definition rtw8821c_rf_a_10 : list Z := [
  0x33; 0x21; 0x3f; 4; 0x33; 0x22; 0x3f; 7;
  0x33; 0x23; 0x3f; 0x24; 0x33; 0x24; 0x3f; 0x27;
  0x33; 0x25; 0x3f; 0x2a; 0x33; 0x26; 0x3f; 0x2d;
  0x33; 0x27; 0x3f; 0x30; 0x33; 0x28; 0x3f; 0x33;
  0x33; 0x29; 0x3f; 0x36; 0x33; 0x2a; 0x3f; 0x39;
  0x90001004; 0; 0x40000000; 0; 0x33; 0x20; 0x3f; 0xe42;
  0x33; 0x21; 0x3f; 0xe45; 0x33; 0x22; 0x3f; 0xe65;
  0x33; 0x23; 0x3f; 0xe68; 0x33; 0x24; 0x3f; 0xee4;
  0x33; 0x25; 0x3f; 0xee7; 0x33; 0x26; 0x3f; 0xeea;
  0x33; 0x27; 0x3f; 0xeed; 0x33; 0x28; 0x3f; 0xef0;
  0x33; 0x29; 0x3f; 0xef3; 0x33; 0x2a; 0x3f; 0xef6;
  0x90000400; 0; 0x40000000; 0; 0x33; 0x20; 0x3f; 0xe42;
  0x33; 0x21; 0x3f; 0xe45; 0x33; 0x22; 0x3f; 0xe48;
  0x33; 0x23; 0x3f; 0xe68; 0x33; 0x24; 0x3f; 0xe6b;
  0x33; 0x25; 0x3f; 0xeaa; 0x33; 0x26; 0x3f; 0xeea;
  0x33; 0x27; 0x3f; 0xeed; 0x33; 0x28; 0x3f; 0xef0;
  0x33; 0x29; 0x3f; 0xef3; 0x33; 0x2a; 0x3f; 0xef6;
  0xa0000000; 0; 0x33; 0x20; 0x3f; 0xe42; 0x33; 0x21;
  0x3f; 0xe45; 0x33; 0x22; 0x3f; 0xe65; 0x33; 0x23;
  0x3f; 0xe68; 0x33; 0x24; 0x3f; 0xee4; 0x33; 0x25;
  0x3f; 0xee7; 0x33; 0x26; 0x3f; 0xeea; 0x33; 0x27;
  0x3f; 0xeed; 0x33; 0x28; 0x3f; 0xef0; 0x33; 0x29;
  0x3f; 0xef3; 0x33; 0x2a; 0x3f; 0xef6; 0xb0000000; 0;
  0x80001005; 0; 0x40000000; 0; 0x33; 0x60; 0x3f; 1;
  0x33; 0x61; 0x3f; 4; 0x33; 0x62; 0x3f; 7;
  0x33; 0x63; 0x3f; 0x24; 0x33; 0x64; 0x3f; 0x27;
  0x33; 0x65; 0x3f; 0x2a; 0x33; 0x66; 0x3f; 0x2d;
  0x33; 0x67; 0x3f; 0x30; 0x33; 0x68; 0x3f; 0x33;
  0x33; 0x69; 0x3f; 0x36; 0x33; 0x6a; 0x3f; 0x39;
  0x90001004; 0; 0x40000000; 0; 0x33; 0x60; 0x3f; 0xe42;
  0x33; 0x61; 0x3f; 0xe45; 0x33; 0x62; 0x3f; 0xe65;
  0x33; 0x63; 0x3f; 0xe68; 0x33; 0x64; 0x3f; 0xee5;
  0x33; 0x65; 0x3f; 0xee8; 0x33; 0x66; 0x3f; 0xeeb;
  0x33; 0x67; 0x3f; 0xeee; 0x33; 0x68; 0x3f; 0xef1;
  0x33; 0x69; 0x3f; 0xef4; 0x33; 0x6a; 0x3f; 0xef7;
  0x90000400; 0; 0x40000000; 0; 0x33; 0x60; 0x3f; 0xe09;
  0x33; 0x61; 0x3f; 0xe43; 0x33; 0x62; 0x3f; 0xe46;
  0x33; 0x63; 0x3f; 0xe49; 0x33; 0x64; 0x3f; 0xe88;
  0x33; 0x65; 0x3f; 0xe8b; 0x33; 0x66].
Definition rtw8821c_rf_a_11 : list Z := [
  0x3f; 0xecb; 0x33; 0x67; 0x3f; 0xece; 0x33; 0x68;
  0x3f; 0xef0; 0x33; 0x69; 0x3f; 0xef3; 0x33; 0x6a;
  0x3f; 0xef6; 0xa0000000; 0; 0x33; 0x60; 0x3f; 0xe42;
  0x33; 0x61; 0x3f; 0xe45; 0x33; 0x62; 0x3f; 0xe65;
  0x33; 0x63; 0x3f; 0xe68; 0x33; 0x64; 0x3f; 0xee5;
  0x33; 0x65; 0x3f; 0xee8; 0x33; 0x66; 0x3f; 0xeeb;
  0x33; 0x67; 0x3f; 0xeee; 0x33; 0x68; 0x3f; 0xef1;
  0x33; 0x69; 0x3f; 0xef4; 0x33; 0x6a; 0x3f; 0xef7;
  0xb0000000; 0; 0x80001005; 0; 0x40000000; 0; 0x33; 0xa0;
  0x3f; 1; 0x33; 0xa1; 0x3f; 4; 0x33; 0xa2;
  0x3f; 7; 0x33; 0xa3; 0x3f; 0x25; 0x33; 0xa4;
  0x3f; 0x28; 0x33; 0xa5; 0x3f; 0x2b; 0x33; 0xa6;
  0x3f; 0x2e; 0x33; 0xa7; 0x3f; 0x31; 0x33; 0xa8;
  0x3f; 0x34; 0x33; 0xa9; 0x3f; 0x37; 0x33; 0xaa;
  0x3f; 0x3a; 0xef; 0; 0x90001004; 0; 0x40000000; 0;
  0x33; 0xa0; 0x3f; 0xe09; 0x33; 0xa1; 0x3f; 0xe43;
  0x33; 0xa2; 0x3f; 0xe64; 0x33; 0xa3; 0x3f; 0xe67;
  0x33; 0xa4; 0x3f; 0xee4; 0x33; 0xa5; 0x3f; 0xee7;
  0x33; 0xa6; 0x3f; 0xeea; 0x33; 0xa7; 0x3f; 0xeed;
  0x33; 0xa8; 0x3f; 0xef0; 0x33; 0xa9; 0x3f; 0xef3;
  0x33; 0xaa; 0x3f; 0xef6; 0xef; 0; 0x90000400; 0;
  0x40000000; 0; 0x33; 0xa0; 0x3f; 0xe08; 0x33; 0xa1;
  0x3f; 0xe42; 0x33; 0xa2; 0x3f; 0xe45; 0x33; 0xa3;
  0x3f; 0xe48; 0x33; 0xa4; 0x3f; 0xea5; 0x33; 0xa5;
  0x3f; 0xea8; 0x33; 0xa6; 0x3f; 0xeca; 0x33; 0xa7;
  0x3f; 0xecd; 0x33; 0xa8; 0x3f; 0xeef; 0x33; 0xa9;
  0x3f; 0xef2; 0x33; 0xaa; 0x3f; 0xef5; 0xef; 0;
  0xa0000000; 0; 0x33; 0xa0; 0x3f; 0xe09; 0x33; 0xa1;
  0x3f; 0xe43; 0x33; 0xa2; 0x3f; 0xe64; 0x33; 0xa3;
  0x3f; 0xe67; 0x33; 0xa4; 0x3f; 0xee4; 0x33; 0xa5;
  0x3f; 0xee7; 0x33; 0xa6; 0x3f; 0xeea; 0x33; 0xa7;
  0x3f; 0xeed; 0x33; 0xa8; 0x3f; 0xef0; 0x33; 0xa9;
  0x3f; 0xef3; 0x33; 0xaa; 0x3f; 0xef6; 0xef; 0;
  0xb0000000; 0; 0x80001005; 0; 0x40000000; 0; 0xef; 0x400;
  0x33; 0; 0x3f; 0x6ac00; 0x33; 1; 0x3f; 0x60c00;
  0x33; 2; 0x3f; 0x6ac00; 0x33; 3; 0x3f; 0x86a00;
  0xef; 0; 0x90001004; 0; 0x40000000; 0; 0xef; 0x400;
  0x33; 0; 0x3f; 0x6ac00; 0x33; 1; 0x3f; 0x60c00;
  0x33; 2; 0x3f; 0x6ac00; 0x33; 3].
Definition rtw8821c_rf_a_12 : list Z := [
  0x3f; 0x86a00; 0xef; 0; 0x90000400; 0; 0x40000000; 0;
  0xef; 0x400; 0x33; 0; 0x3f; 0x6ac00; 0x33; 1;
  0x3f; 0x60c00; 0x33; 2; 0x3f; 0x6ac00; 0x33; 3;
  0x3f; 0x86a00; 0xef; 0; 0xa0000000; 0; 0xef; 0x400;
  0x33; 0; 0x3f; 0x6ac00; 0x33; 1; 0x3f; 0x60c00;
  0x33; 2; 0x3f; 0x6ac00; 0x33; 3; 0x3f; 0x86a00;
  0xef; 0; 0xb0000000; 0; 0x80001005; 0; 0x40000000; 0;
  0xef; 0x100; 0x33; 0; 0x3f; 0x40; 0x33; 1;
  0x3f; 0x40; 0x33; 2; 0x3f; 0x40; 0x33; 3;
  0x3f; 0x40; 0xef; 0; 0x90001004; 0; 0x40000000; 0;
  0xef; 0x100; 0x33; 0; 0x3f; 0x40; 0x33; 1;
  0x3f; 0x40; 0x33; 2; 0x3f; 0x40; 0x33; 3;
  0x3f; 0x40; 0xef; 0; 0x90000400; 0; 0x40000000; 0;
  0xef; 0x100; 0x33; 0; 0x3f; 0x40; 0x33; 1;
  0x3f; 0x40; 0x33; 2; 0x3f; 0x40; 0x33; 3;
  0x3f; 0x40; 0xef; 0; 0xa0000000; 0; 0xef; 0x100;
  0x33; 0; 0x3f; 0x40; 0x33; 1; 0x3f; 0x40;
  0x33; 2; 0x3f; 0x40; 0x33; 3; 0x3f; 0x40;
  0xef; 0; 0xb0000000; 0; 0x80001005; 0; 0x40000000; 0;
  0xef; 0x40000; 0x33; 0; 0x3f; 0x86a40; 0x33; 1;
  0x3f; 0x86a40; 0x33; 2; 0x3f; 0x86a40; 0x33; 3;
  0x3f; 0x86a40; 0x33; 4; 0x3f; 0x86a40; 0x33; 5;
  0x3f; 0x86a40; 0x33; 6; 0x3f; 0x84a40; 0x33; 7;
  0x3f; 0x84a40; 0xef; 0; 0x90001004; 0; 0x40000000; 0;
  0xef; 0x40000; 0x33; 0; 0x3f; 0x86a40; 0x33; 1;
  0x3f; 0x86a40; 0x33; 2; 0x3f; 0x86a40; 0x33; 3;
  0x3f; 0x86a40; 0x33; 4; 0x3f; 0x86a40; 0x33; 5;
  0x3f; 0x86a40; 0x33; 6; 0x3f; 0x84a40; 0x33; 7;
  0x3f; 0x84a40; 0xef; 0; 0x90000400; 0; 0x40000000; 0;
  0xef; 0x40000; 0x33; 0; 0x3f; 0x86a40; 0x33; 1;
  0x3f; 0x86a40; 0x33; 2; 0x3f; 0x86a40; 0x33; 3;
  0x3f; 0x86a40; 0x33; 4; 0x3f; 0x86a40; 0x33; 5;
  0x3f; 0x86a40; 0x33; 6; 0x3f; 0x84a40; 0x33; 7;
  0x3f; 0x84a40; 0xef; 0; 0xa0000000; 0; 0xef; 0x40000;
  0x33; 0; 0x3f; 0x86a40; 0x33; 1; 0x3f; 0x86a40;
  0x33; 2; 0x3f; 0x86a40; 0x33; 3; 0x3f; 0x86a40;
  0x33; 4; 0x3f; 0x86a40; 0x33; 5; 0x3f; 0x86a40;
  0x33; 6; 0x3f; 0x84a40; 0x33; 7; 0x3f; 0x84a40;
  0xef; 0; 0xb0000000; 0; 0x80001005; 0; 0x40000000; 0;
  0x51; 0x801a8; 0x52; 0x972e3].
Definition rtw8821c_rf_a_13 : list Z := [
  0x53; 0x8069; 0x54; 0x30032; 0x55; 0x82003; 0x56; 0x51ccb;
  0x57; 0xcfc2; 0x58; 0x10; 0x59; 0x30000; 0x90001004; 0;
  0x40000000; 0; 0x51; 0x801a8; 0x52; 0x972e3; 0x53; 0x8069;
  0x54; 0x30032; 0x55; 0x82003; 0x56; 0x51ccb; 0x57; 0xcfc2;
  0x58; 0x10; 0x59; 0x30000; 0x90000400; 0; 0x40000000; 0;
  0x51; 0x801a8; 0x52; 0x972e3; 0x53; 0x8069; 0x54; 0x30032;
  0x55; 0x82003; 0x56; 0x51ccb; 0x57; 0xcfc2; 0x58; 0x10;
  0x59; 0x30000; 0xa0000000; 0; 0x51; 0x801a8; 0x52; 0x972e3;
  0x53; 0x8069; 0x54; 0x30032; 0x55; 0x82003; 0x56; 0x51ccb;
  0x57; 0xcfc2; 0x58; 0x10; 0x59; 0x30000; 0xb0000000; 0;
  0x80001005; 0; 0x40000000; 0; 0xef; 0x800; 0x33; 0;
  0x3f; 0x51429; 0x33; 1; 0x3f; 0x51449; 0x33; 2;
  0x3f; 0x5144c; 0x33; 3; 0x3f; 0x51c66; 0x33; 4;
  0x3f; 0x51c69; 0x33; 5; 0x3f; 0x51c6c; 0x33; 6;
  0x3f; 0x51ce8; 0x33; 7; 0x3f; 0x51ceb; 0x33; 8;
  0x3f; 0x51cee; 0x33; 9; 0x3f; 0x51cf1; 0x33; 0xa;
  0x3f; 0x51cf4; 0xef; 0; 0x90001004; 0; 0x40000000; 0;
  0xef; 0x800; 0x33; 0; 0x3f; 0x51429; 0x33; 1;
  0x3f; 0x51449; 0x33; 2; 0x3f; 0x5144c; 0x33; 3;
  0x3f; 0x51c66; 0x33; 4; 0x3f; 0x51c69; 0x33; 5;
  0x3f; 0x51c6c; 0x33; 6; 0x3f; 0x51ce8; 0x33; 7;
  0x3f; 0x51ceb; 0x33; 8; 0x3f; 0x51cee; 0x33; 9;
  0x3f; 0x51cf1; 0x33; 0xa; 0x3f; 0x51cf4; 0xef; 0;
  0x90000400; 0; 0x40000000; 0; 0xef; 0x800; 0x33; 0;
  0x3f; 0x51427; 0x33; 1; 0x3f; 0x51446; 0x33; 2;
  0x3f; 0x51449; 0x33; 3; 0x3f; 0x5144c; 0x33; 4;
  0x3f; 0x51c67; 0x33; 5; 0x3f; 0x51c6a; 0x33; 6;
  0x3f; 0x51c8b; 0x33; 7; 0x3f; 0x51ce9; 0x33; 8;
  0x3f; 0x51cec; 0x33; 9; 0x3f; 0x51cef; 0x33; 0xa;
  0x3f; 0x51cf2; 0xef; 0; 0xa0000000; 0; 0xef; 0x800;
  0x33; 0; 0x3f; 0x51427; 0x33; 1; 0x3f; 0x51446;
  0x33; 2; 0x3f; 0x51449; 0x33; 3; 0x3f; 0x5144c;
  0x33; 4; 0x3f; 0x51c67; 0x33; 5; 0x3f; 0x51c6a;
  0x33; 6; 0x3f; 0x51c8b; 0x33; 7; 0x3f; 0x51ce9;
  0x33; 8; 0x3f; 0x51cec; 0x33; 9; 0x3f; 0x51cef;
  0x33; 0xa; 0x3f; 0x51cf2; 0xef; 0; 0xb0000000; 0;
  0x80001005; 0; 0x40000000; 0; 0xee; 0x4000; 0x33; 0;
  0x3f; 0x48400; 0x33; 1; 0x3f; 0x86e00; 0x33; 2;
  0x3f; 0x48400; 0x33; 3; 0x3f; 0x48400; 0xee; 0].
Definition rtw8821c_rf_a_14 : list Z := [
  0x90001004; 0; 0x40000000; 0; 0xee; 0x4000; 0x33; 0;
  0x3f; 0x48400; 0x33; 1; 0x3f; 0x86e00; 0x33; 2;
  0x3f; 0x48400; 0x33; 3; 0x3f; 0x48400; 0xee; 0;
  0x90000400; 0; 0x40000000; 0; 0xee; 0x4000; 0x33; 0;
  0x3f; 0x48400; 0x33; 1; 0x3f; 0x86e00; 0x33; 2;
  0x3f; 0x48400; 0x33; 3; 0x3f; 0x48400; 0xee; 0;
  0xa0000000; 0; 0xee; 0x4000; 0x33; 0; 0x3f; 0x48400;
  0x33; 1; 0x3f; 0x86e00; 0x33; 2; 0x3f; 0x48400;
  0x33; 3; 0x3f; 0x48400; 0xee; 0; 0xb0000000; 0;
  0x80001005; 0; 0x40000000; 0; 0xee; 0x2000; 0x33; 0;
  0x3f; 0; 0x33; 1; 0x3f; 0; 0x33; 2;
  0x3f; 0; 0x33; 3; 0x3f; 0; 0xee; 0;
  0x90001004; 0; 0x40000000; 0; 0xee; 0x2000; 0x33; 0;
  0x3f; 0; 0x33; 1; 0x3f; 0; 0x33; 2;
  0x3f; 0; 0x33; 3; 0x3f; 0; 0xee; 0;
  0x90000400; 0; 0x40000000; 0; 0xee; 0x2000; 0x33; 0;
  0x3f; 0; 0x33; 1; 0x3f; 0; 0x33; 2;
  0x3f; 0; 0x33; 3; 0x3f; 0; 0xee; 0;
  0xa0000000; 0; 0xee; 0x2000; 0x33; 0; 0x3f; 0;
  0x33; 1; 0x3f; 0; 0x33; 2; 0x3f; 0;
  0x33; 3; 0x3f; 0; 0xee; 0; 0xb0000000; 0;
  0x80001005; 0; 0x40000000; 0; 0xee; 0x80000; 0x33; 0;
  0x3f; 0x48400; 0x33; 1; 0x3f; 0x48400; 0x33; 2;
  0x3f; 0x48400; 0x33; 3; 0x3f; 0x48400; 0x33; 4;
  0x3f; 0x48400; 0x33; 5; 0x3f; 0x48400; 0x33; 6;
  0x3f; 0x48400; 0x33; 7; 0x3f; 0x48400; 0xee; 0;
  0x90001004; 0; 0x40000000; 0; 0xee; 0x80000; 0x33; 0;
  0x3f; 0x48400; 0x33; 1; 0x3f; 0x48400; 0x33; 2;
  0x3f; 0x48400; 0x33; 3; 0x3f; 0x48400; 0x33; 4;
  0x3f; 0x48400; 0x33; 5; 0x3f; 0x48400; 0x33; 6;
  0x3f; 0x48400; 0x33; 7; 0x3f; 0x48400; 0xee; 0;
  0x90000400; 0; 0x40000000; 0; 0xee; 0x80000; 0x33; 0;
  0x3f; 0x48400; 0x33; 1; 0x3f; 0x48400; 0x33; 2;
  0x3f; 0x48400; 0x33; 3; 0x3f; 0x48400; 0x33; 4;
  0x3f; 0x48400; 0x33; 5; 0x3f; 0x48400; 0x33; 6;
  0x3f; 0x48400; 0x33; 7; 0x3f; 0x48400; 0xee; 0;
  0xa0000000; 0; 0xee; 0x80000; 0x33; 0; 0x3f; 0x48400;
  0x33; 1; 0x3f; 0x48400; 0x33; 2; 0x3f; 0x48400;
  0x33; 3; 0x3f; 0x48400; 0x33; 4; 0x3f; 0x48400;
  0x33; 5; 0x3f; 0x48400].
Definition rtw8821c_rf_a_15 : list Z := [
  0x33; 6; 0x3f; 0x48400; 0x33; 7; 0x3f; 0x48400;
  0xee; 0; 0xb0000000; 0; 0x80001005; 0; 0x40000000; 0;
  0x70; 0x8000; 0x75; 0x27da; 0x76; 0x6997; 0x77; 0x70418;
  0x78; 0xbb000; 0x7d; 0x7600; 0x7f; 0; 0x6a; 0xf4c00;
  0x65; 0x82030; 0x90001004; 0; 0x40000000; 0; 0x70; 0x8000;
  0x75; 0x27da; 0x76; 0x6997; 0x77; 0x70418; 0x78; 0xbb000;
  0x7d; 0x7600; 0x7f; 0; 0x6a; 0xf4c00; 0x65; 0x82030;
  0x90000400; 0; 0x40000000; 0; 0x70; 0x8000; 0x75; 0x27da;
  0x76; 0x6997; 0x77; 0x70418; 0x78; 0xbb000; 0x7d; 0x7600;
  0x7f; 0; 0x6a; 0xf4c00; 0x65; 0x82030; 0xa0000000; 0;
  0x70; 0x8000; 0x75; 0x27da; 0x76; 0x6997; 0x77; 0x70418;
  0x78; 0xbb000; 0x7d; 0x7600; 0x7f; 0; 0x6a; 0xf4c00;
  0x65; 0x82030; 0xb0000000; 0; 0x80001005; 0; 0x40000000; 0;
  0xee; 0x8000; 0x33; 0; 0x3f; 0x51427; 0x33; 1;
  0x3f; 0x51446; 0x33; 2; 0x3f; 0x51449; 0x33; 3;
  0x3f; 0x5144c; 0x33; 4; 0x3f; 0x51c69; 0x33; 5;
  0x3f; 0x51c6c; 0x33; 6; 0x3f; 0x51c8d; 0x33; 7;
  0x3f; 0x51ceb; 0x33; 8; 0x3f; 0x51cee; 0x33; 9;
  0x3f; 0x51cf1; 0x33; 0xa; 0x3f; 0x51cf4; 0xee; 0;
  0x90001004; 0; 0x40000000; 0; 0xee; 0x8000; 0x33; 0;
  0x3f; 0x51427; 0x33; 1; 0x3f; 0x51446; 0x33; 2;
  0x3f; 0x51449; 0x33; 3; 0x3f; 0x5144c; 0x33; 4;
  0x3f; 0x51c69; 0x33; 5; 0x3f; 0x51c6c; 0x33; 6;
  0x3f; 0x51c8d; 0x33; 7; 0x3f; 0x51ceb; 0x33; 8;
  0x3f; 0x51cee; 0x33; 9; 0x3f; 0x51cf1; 0x33; 0xa;
  0x3f; 0x51cf4; 0xee; 0; 0x90000400; 0; 0x40000000; 0;
  0xee; 0x8000; 0x33; 0; 0x3f; 0x51427; 0x33; 1;
  0x3f; 0x51446; 0x33; 2; 0x3f; 0x51449; 0x33; 3;
  0x3f; 0x5144c; 0x33; 4; 0x3f; 0x51c69; 0x33; 5;
  0x3f; 0x51c6c; 0x33; 6; 0x3f; 0x51c8d; 0x33; 7;
  0x3f; 0x51ceb; 0x33; 8; 0x3f; 0x51cee; 0x33; 9;
  0x3f; 0x51cf1; 0x33; 0xa; 0x3f; 0x51cf4; 0xee; 0;
  0xa0000000; 0; 0xee; 0x8000; 0x33; 0; 0x3f; 0x51427;
  0x33; 1; 0x3f; 0x51446; 0x33; 2; 0x3f; 0x51449;
  0x33; 3; 0x3f; 0x5144c; 0x33; 4; 0x3f; 0x51c69;
  0x33; 5; 0x3f; 0x51c6c; 0x33; 6; 0x3f; 0x51c8d;
  0x33; 7; 0x3f; 0x51ceb; 0x33; 8; 0x3f; 0x51cee;
  0x33; 9; 0x3f; 0x51cf1; 0x33; 0xa; 0x3f; 0x51cf4;
  0xee; 0; 0xb0000000; 0; 0x80001005; 0; 0x40000000; 0;
  0xef; 0x10].
Definition rtw8821c_rf_a_16 : list Z := [
  0x33; 0; 8; 0x9c060; 0x33; 1; 8; 0x9c060;
  0xef; 0; 0x90001004; 0; 0x40000000; 0; 0xef; 0x10;
  0x33; 0; 8; 0x9c060; 0x33; 1; 8; 0x9c060;
  0xef; 0; 0x90000400; 0; 0x40000000; 0; 0xef; 0x10;
  0x33; 0; 8; 0x9c060; 0x33; 1; 8; 0x9c060;
  0xef; 0; 0xa0000000; 0; 0xef; 0x10; 0x33; 0;
  8; 0x9c060; 0x33; 1; 8; 0x9c060; 0xef; 0;
  0xb0000000; 0; 0x80001005; 0; 0x40000000; 0; 0xef; 0x80000;
  0x33; 0x24; 0x3e; 0x3f; 0x3f; 0x60fde; 0xef; 0;
  0x90001004; 0; 0x40000000; 0; 0xef; 0x80000; 0x33; 0x24;
  0x3e; 0x3f; 0x3f; 0x60fde; 0xef; 0; 0x90000400; 0;
  0x40000000; 0; 0xef; 0x80000; 0x33; 0x24; 0x3e; 0x3f;
  0x3f; 0x60fde; 0xef; 0; 0xa0000000; 0; 0xef; 0x80000;
  0x33; 0x24; 0x3e; 0x3f; 0x3f; 0x60fde; 0xef; 0;
  0xb0000000; 0; 0x80001005; 0; 0x40000000; 0; 0xef; 0x80000;
  0x33; 0x25; 0x3e; 0x37; 0x3f; 0x7efce; 0xef; 0;
  0x90001004; 0; 0x40000000; 0; 0xef; 0x80000; 0x33; 0x25;
  0x3e; 0x37; 0x3f; 0x7efce; 0xef; 0; 0x90000400; 0;
  0x40000000; 0; 0xef; 0x80000; 0x33; 0x25; 0x3e; 0x37;
  0x3f; 0x7efce; 0xef; 0; 0xa0000000; 0; 0xef; 0x80000;
  0x33; 0x25; 0x3e; 0x37; 0x3f; 0x7efce; 0xef; 0;
  0xb0000000; 0; 0x80001005; 0; 0x40000000; 0; 0xef; 0x80000;
  0x33; 0x26; 0x3e; 0x37; 0x3f; 0x5efce; 0xef; 0;
  0x90001004; 0; 0x40000000; 0; 0xef; 0x80000; 0x33; 0x26;
  0x3e; 0x37; 0x3f; 0x5efce; 0xef; 0; 0x90000400; 0;
  0x40000000; 0; 0xef; 0x80000; 0x33; 0x26; 0x3e; 0x37;
  0x3f; 0x5efce; 0xef; 0; 0xa0000000; 0; 0xef; 0x80000;
  0x33; 0x26; 0x3e; 0x37; 0x3f; 0x5efce; 0xef; 0;
  0xb0000000; 0; 0x80001005; 0; 0x40000000; 0; 0xee; 0x1000;
  0x33; 4; 0x3f; 0x1ec1; 0xee; 0; 0x90001004; 0;
  0x40000000; 0; 0xee; 0x1000; 0x33; 4; 0x3f; 0x1ec1;
  0xee; 0; 0x90000400; 0; 0x40000000; 0; 0xee; 0x1000;
  0x33; 4; 0x3f; 0x1ec1; 0xee; 0; 0xa0000000; 0;
  0xee; 0x1000; 0x33; 4; 0x3f; 0x1ec1; 0xee; 0;
  0xb0000000; 0; 0x80001005; 0; 0x40000000; 0; 0xee; 0x1000;
  0x33; 5; 0x3f; 0x1ecf; 0xee; 0; 0x90001004; 0;
  0x40000000; 0; 0xee; 0x1000; 0x33; 5; 0x3f; 0x1ecf;
  0xee; 0; 0x90000400; 0; 0x40000000; 0; 0xee; 0x1000;
  0x33; 5; 0x3f; 0x1ecf; 0xee; 0; 0xa0000000; 0;
  0xee; 0x1000; 0x33; 5; 0x3f; 0x1ecf; 0xee; 0;
  0xb0000000; 0; 0x80001005; 0; 0x40000000; 0; 0xee; 0x1000;
  0x33; 6; 0x3f; 0x1f9d; 0xee; 0; 0x90001004; 0;
  0x40000000; 0].
Definition rtw8821c_rf_a_17 : list Z := [
  0xee; 0x1000; 0x33; 6; 0x3f; 0x1f9d; 0xee; 0;
  0x90000400; 0; 0x40000000; 0; 0xee; 0x1000; 0x33; 6;
  0x3f; 0x1f9d; 0xee; 0; 0xa0000000; 0; 0xee; 0x1000;
  0x33; 6; 0x3f; 0x1f9d; 0xee; 0; 0xb0000000; 0].
Definition rtw8821c_rf_a : list Z := concat [rtw8821c_rf_a_00; rtw8821c_rf_a_01; rtw8821c_rf_a_02; rtw8821c_rf_a_03; rtw8821c_rf_a_04; rtw8821c_rf_a_05; rtw8821c_rf_a_06; rtw8821c_rf_a_07; rtw8821c_rf_a_08; rtw8821c_rf_a_09; rtw8821c_rf_a_10; rtw8821c_rf_a_11; rtw8821c_rf_a_12; rtw8821c_rf_a_13; rtw8821c_rf_a_14; rtw8821c_rf_a_15; rtw8821c_rf_a_16; rtw8821c_rf_a_17].

Definition shipped_tables : phy_tables :=
  PhyTables rtw8821c_mac rtw8821c_bb rtw8821c_agc rtw8821c_agc_btg_type2 rtw8821c_rf_a.

(** ** Reading a table back as blocks *)

Fixpoint take_plain (l : list (Z * Z)) : list (Z * Z) * list (Z * Z) :=
  match l with
  | e :: l' => if plain_entry e then let '(b, r) := take_plain l' in (e :: b, r) else ([], l)
  | [] => ([], [])
  end.
Definition else_tile (e : Z * Z) : bool := cond_branch (cond_of e.1) =? BRANCH_ELSE.
Definition end_tile (e : Z * Z) : bool := cond_branch (cond_of e.1) =? BRANCH_ENDIF.

(** The arms read so far, most recent first; [None] on a tile out of place. *)
Fixpoint read_blocks (fuel : nat) (open : option (list arm)) (l : list (Z * Z)) : option (list block) :=
  match fuel with
  | O => None
  | S fuel =>
      match open, l with
      | None, [] => Some []
      | None, e :: r =>
          if plain_entry e then cons (Plain e) <$> read_blocks fuel None r
          else read_blocks fuel (Some []) l
      | Some arms, e :: r =>
          if end_tile e then cons (Branches (rev arms) None) <$> read_blocks fuel None r
          else if else_tile e then
            let '(b, r') := take_plain r in
            match r' with
            | e' :: r'' => if end_tile e' then cons (Branches (rev arms) (Some b)) <$> read_blocks fuel None r'' else None
            | [] => None
            end
          else
            match r with
            | _ :: r' => let '(b, r'') := take_plain r' in read_blocks fuel (Some (Arm e.1 b :: arms)) r''
            | [] => None
            end
      | Some _, [] => None
      end
  end.
Definition blocks_of (tbl : list Z) : list block :=
  default [] (read_blocks (S (2 * length tbl)) None (tiles_of tbl)).

Definition arm_wfb (a : arm) : bool :=
  nz (cond_pos (cond_of (arm_cond a))) && negb (cond_branch (cond_of (arm_cond a)) =? BRANCH_ENDIF) &&
  negb (cond_branch (cond_of (arm_cond a)) =? BRANCH_ELSE) && forallb plain_entry (arm_body a).
Definition block_wfb (b : block) : bool :=
  match b with
  | Plain e => plain_entry e
  | Branches arms els =>
      negb (length arms =? 0)%nat && forallb arm_wfb arms && match els with Some l => forallb plain_entry l | None => true end
  end.

Lemma arm_wfb_wf a : arm_wfb a = true -> arm_wf a.
Proof.
  unfold arm_wfb. intros [[[H1 H2%negb_true_iff]%andb_true_iff H3%negb_true_iff]%andb_true_iff H4]%andb_true_iff.
  split_and!; [done|done|done|by apply forallb_Forall'].
Qed.
Lemma block_wfb_wf b : block_wfb b = true -> block_wf b.
Proof.
  destruct b as [e|arms els]; [done|]. cbn. intros [[H1 H2]%andb_true_iff H3]%andb_true_iff.
  split; [by destruct arms|]. split; [|destruct els; [by apply forallb_Forall'|done]].
  apply forallb_Forall' in H2. eapply List.Forall_impl; [|exact H2]. apply arm_wfb_wf.
Qed.

(** ** Entries counted *)

(** Whether an applier counts the entry at an address. *)
Definition counts_all (a : Z) : bool := true.
Definition counts_bb (a : Z) : bool := negb ((0xf9 <=? a) && (a <=? 0xfe)).
Definition counts_rf (a : Z) : bool := negb ((a =? 0xffe) || (a =? 0xfe)).

Definition counted (c : Z -> bool) (l : list (Z * Z)) : Z := Z.of_nat (length (List.filter (fun e => c e.1) l)).

(** What every choice of arms counts, if they agree. *)
Definition block_count (c : Z -> bool) (b : block) : option Z :=
  match b with
  | Plain e => Some (counted c [e])
  | Branches arms els =>
      let n := counted c (default [] els) in
      if forallb (fun a => counted c (arm_body a) =? n) arms then Some n else None
  end.
Fixpoint total_count (c : Z -> bool) (l : list block) : option Z :=
  match l with
  | [] => Some 0
  | b :: l => n ← block_count c b; n' ← total_count c l; Some (n + n')
  end.

(** All at once, for one table: read back, well formed, and [n] entries. *)
Definition table_check (c : Z -> bool) (tbl : list Z) (n : Z) : bool :=
  let bs := blocks_of tbl in
  bool_decide (concat (map block_tiles bs) = tiles_of tbl) && forallb block_wfb bs &&
  bool_decide (total_count c bs = Some n).

Lemma counted_app c l l' : counted c (l ++ l') = counted c l + counted c l'.
Proof. unfold counted. rewrite List.filter_app, length_app. lia. Qed.
Lemma counted_nonneg c l : 0 <= counted c l.
Proof. unfold counted. lia. Qed.

Lemma first_match_count c d arms els n : Forall (fun a => counted c (arm_body a) = n) arms -> counted c els = n ->
  counted c (first_match d arms els) = n.
Proof. intros Ha He. induction Ha as [|a arms H _ IH]; [done|]. cbn. by destruct (check_positive _ _). Qed.

Lemma selected_count c d b n : block_count c b = Some n -> counted c (selected d b) = n.
Proof.
  destruct b as [e|arms els]; cbn [block_count selected]; [by intros [= <-]|].
  destruct (forallb _ arms) eqn:E; [|done]. intros [= <-]. apply first_match_count; [|done].
  apply forallb_Forall' in E. eapply List.Forall_impl; [|exact E]. intros a Ha. by apply Z.eqb_eq.
Qed.
Lemma total_selected c d l : forall n, total_count c l = Some n -> counted c (concat (map (selected d) l)) = n.
Proof.
  induction l as [|b l IH]; cbn; intros n; [by intros [= <-]|].
  destruct (block_count c b) as [n1|] eqn:E1; [|done]. cbn. destruct (total_count c l) as [n2|] eqn:E2; [|done].
  cbn. intros [= <-]. by rewrite counted_app, (selected_count _ _ _ _ E1), (IH _ eq_refl).
Qed.

(** ** Loading *)

Section Load.
Context (d : rtw_dev) (cfg : applier) (c : Z -> bool).
Context (Hcfg : forall a x, safe any_call (cfg d RF_PATH_A a x) (fun b => b = c a)).

Lemma apply_all_count l : forall n, 0 <= n -> n + counted c l < 2 ^ 32 ->
  safe any_call (apply_all d cfg RF_PATH_A l n) (fun k => k = n + counted c l).
Proof.
  induction l as [|[a x] l IH]; intros n Hn Hb; cbn [apply_all]; [apply safe_ret; unfold counted; cbn; lia|].
  assert (E : counted c ((a, x) :: l) = (if c a then 1 else 0) + counted c l).
  { unfold counted. cbn. destruct (c a); cbn; lia. }
  pose proof (counted_nonneg c l). rewrite E in *.
  eapply safe_bind; [apply Hcfg|]. intros b ->. destruct (c a).
  - rewrite u32_small by lia. eapply safe_mono; [apply IH; lia|]. intros k ->. lia.
  - eapply safe_mono; [apply IH; lia|]. intros k ->. lia.
Qed.

Lemma load_count tbl n : table_check c tbl n = true -> 0 <= n < 2 ^ 32 ->
  safe any_call (load_one d (Table tbl cfg RF_PATH_A)) (fun k => k = n).
Proof.
  unfold table_check. intros [[Ht%bool_decide_eq_true Hw]%andb_true_iff Hn%bool_decide_eq_true]%andb_true_iff Hb.
  unfold load_one, rtw_parse_tbl_phy_cond. cbn [t_data do_cfg t_path]. rewrite <- Ht.
  pose proof (total_selected c d _ _ Hn) as E.
  eapply safe_equiv; [symmetry; apply parse_blocks|].
  - apply forallb_Forall' in Hw. eapply List.Forall_impl; [|exact Hw]. apply block_wfb_wf.
  - eapply safe_mono; [apply apply_all_count; rewrite ?E; lia|]. intros k ->. lia.
Qed.
End Load.

Lemma cfg_mac_counts d a x : safe any_call (rtw_phy_cfg_mac d RF_PATH_A a x) (fun b => b = counts_all a).
Proof. unfold rtw_phy_cfg_mac. by safe_go. Qed.
Lemma cfg_agc_counts d a x : safe any_call (rtw_phy_cfg_agc d RF_PATH_A a x) (fun b => b = counts_all a).
Proof. unfold rtw_phy_cfg_agc. by safe_go. Qed.
Lemma cfg_bb_counts d a x : safe any_call (rtw_phy_cfg_bb d RF_PATH_A a x) (fun b => b = counts_bb a).
Proof.
  unfold rtw_phy_cfg_bb, counts_bb.
  repeat (match goal with |- context [a =? ?k] => destruct (Z.eqb_spec a k) as [->|] end;
    [apply safe_bind_any; [by safe_go|intros _; by apply safe_ret]|]).
  apply safe_bind_any; [by safe_go|intros _]. apply safe_ret. lia.
Qed.
Lemma cfg_rf_counts d a x : safe any_call (rtw_phy_cfg_rf d RF_PATH_A a x) (fun b => b = counts_rf a).
Proof.
  unfold rtw_phy_cfg_rf, counts_rf. destruct (a =? 0xffe); [by safe_go|]. destruct (a =? 0xfe); [by safe_go|].
  apply safe_bind_any; [unfold rtw_write_rf, rtw_phy_read_rf; by safe_go|intros _]. by safe_go.
Qed.

(** The five tables, checked. *)
Lemma mac_checked : table_check counts_all rtw8821c_mac 138 = true.
Proof. by vm_compute. Qed.
Lemma bb_checked : table_check counts_bb rtw8821c_bb 1669 = true.
Proof. by vm_compute. Qed.
Lemma agc_checked : table_check counts_all rtw8821c_agc 386 = true.
Proof. by vm_compute. Qed.
Lemma btg_checked : table_check counts_all rtw8821c_agc_btg_type2 128 = true.
Proof. by vm_compute. Qed.
Lemma rf_checked : table_check counts_rf rtw8821c_rf_a 578 = true.
Proof. by vm_compute. Qed.

(** ** The self-check of the parameter load *)

(** The last answer to a read of RF register 0. *)
Definition rf0_mon (st : option Z) (o : hwop) : hwres o -> option (option Z) :=
  match o as o return hwres o -> option (option Z) with
  | Read W32 a => fun r => Some (if a =? rf_base_addr RF_PATH_A then Some (u32 r .& RFREG_MASK) else st)
  | _ => fun _ => Some st
  end.

Lemma rf0_any {A} (p : prog A) Q : safe any_call p Q -> forall st, wp rf0_mon p st (fun x _ => Q x).
Proof.
  induction p as [x|o k IH]; intros Hp st; [by apply safe_ret_inv in Hp|].
  intros r. pose proof (safe_act_inv _ _ _ _ Hp r) as Hk.
  destruct o as [w a| | | | | | | | | | | | | | | | | | | | | |]; try (by apply IH). destruct w; by apply IH.
Qed.
Lemma rf0_bind {A B} (f : A -> prog B) (p : prog A) R st Q : safe any_call p R ->
  (forall x st', R x -> wp rf0_mon (f x) st' Q) -> wp rf0_mon (p ≫= f) st Q.
Proof. intros Hp Hf. apply wp_bind. eapply wp_mono; [by apply rf0_any|]. intros x st' Hx. by apply Hf. Qed.

(** Calls that are not such a read. *)
Definition rf0_quiet (o : hwop) : bool := match o with Read W32 a => negb (a =? 0x2800) | _ => true end.
Lemma rf0_frame st o r : rf0_quiet o = true -> rf0_mon st o r = Some st.
Proof.
  destruct o as [w a| | | | | | | | | | | | | | | | | | | | | |]; try done. destruct w; try done.
  cbn. intros H%negb_true_iff. by rewrite H.
Qed.
Lemma rf0_bind_quiet {A B} (f : A -> prog B) (p : prog A) R st Q : safe rf0_quiet p R ->
  (forall x, R x -> wp rf0_mon (f x) st Q) -> wp rf0_mon (p ≫= f) st Q.
Proof.
  intros Hp Hf. apply wp_bind. eapply wp_mono; [apply (wp_safe_frame rf0_mon rf0_quiet); [apply rf0_frame|exact Hp]|].
  intros x st' [-> Hx]. by apply Hf.
Qed.

(** With the shipped tables, on every chip and for every board option the
    EFUSE may hold, each table applies a fixed number of entries whichever arms
    its conditionals take, so the parameter load fails exactly when RF register 0
    reads all zeroes or all ones at its end. *)
Theorem phy_set_param_check (d : rtw_dev) :
  0 < rf_phy_num (hal d) ->
  wp rf0_mon (phy_set_param d shipped_tables) None (fun x st =>
    exists v, st = Some v /\ x.1 = (if (v =? 0) || (v =? 0xfffff) then -1 else 0)).
Proof.
  intros Hn. unfold phy_set_param. cbv zeta.
  set (d1 := rtw_phy_setup_phy_cond d (pkg_type (hal d))).
  eapply (rf0_bind _ _ (fun _ => True)); [by safe_go|intros val st _].
  do 9 (eapply (rf0_bind _ _ (fun _ => True)); [by safe_go|intros _ ? _]).
  eapply rf0_bind; [apply (load_count d1 _ _ (cfg_mac_counts d1) _ _ mac_checked); lia|intros _ ? _].
  eapply rf0_bind; [apply (load_count d1 _ _ (cfg_bb_counts d1) _ _ bb_checked); lia|intros bb ? ->].
  eapply rf0_bind; [apply (load_count d1 _ _ (cfg_agc_counts d1) _ _ agc_checked); lia|intros agc ? ->].
  eapply (rf0_bind _ _ (fun k => 100 < k)).
  { case_match; [|by apply safe_ret].
    eapply safe_bind; [apply (load_count d1 _ _ (cfg_agc_counts d1) _ _ btg_checked); lia|]. intros k ->. by apply safe_ret. }
  intros agc ? Hagc.
  eapply (rf0_bind _ _ (fun _ => True)); [unfold rtw_phy_read_rf; by safe_go|intros _ ? _].
  eapply rf0_bind; [apply (load_count d1 _ _ (cfg_rf_counts d1) _ _ rf_checked); lia|intros rf st1 ->].
  apply wp_bind. eapply (wp_mono rf0_mon) with (Q := fun v st => st = Some v).
  { unfold rtw_phy_read_rf. change (rf_phy_num (hal d1)) with (rf_phy_num (hal d)).
    destruct (Z.leb_spec (rf_phy_num (hal d)) (path_idx RF_PATH_A)) as [H|_]; [cbn in H; lia|].
    intros r. cbn. by rewrite Z.shiftr_0_r. }
  intros v st2 ->.
  do 4 (eapply (rf0_bind_quiet _ _ (fun _ => True)); [by safe_go|intros _ _]).
  eapply (rf0_bind_quiet _ _ (fun _ => True)); [by safe_go|intros cfg1 _].
  apply wp_ret. exists v. split; [done|]. cbn [fst].
  change (100 <? 1669) with true. change (100 <? 578) with true. apply Z.ltb_lt in Hagc. rewrite Hagc. cbn [andb].
  by destruct (v =? 0), (v =? 0xfffff).
Qed.

Lemma phy_set_param_check_witness :
  wp rf0_mon (phy_set_param (example_dev [] []) shipped_tables) None (fun x st =>
    exists v, st = Some v /\ x.1 = (if (v =? 0) || (v =? 0xfffff) then -1 else 0)).
Proof. apply (phy_set_param_check (example_dev [] [])). reflexivity. Defined.
