(* ===== verification/Channel.v ===== *)
(** * Channel: tuning (core/channel.c)

    The baseband, RF and receive-filter programming of a channel change, and the
    cached filter parameters.  Proved: no history of tuning, channel 14 included,
    leaves another 2.4 GHz channel with the wrong filter; an 80 MHz request is a
    20 MHz one; the RF channel register holds the channel, its band and width. *)
From stdpp Require Import gmap.
From S2P Require Import Prelude Hw Regs Dev Trx Phy.
Open Scope Z_scope.
Open Scope rtw_scope.

Definition RTW_CHANNEL_WIDTH_20 : Z := 0.
Definition RTW_CHANNEL_WIDTH_40 : Z := 1.
Definition RTW_CHANNEL_WIDTH_80 : Z := 2.

Definition MASKBYTE0 : Z := 0xff.
Definition MASKBYTE2 : Z := 0xff0000.
Definition MASKLWORD : Z := 0xffff.
Definition MASKHWORD : Z := 0xffff0000.
Definition MASKDWORD : Z := 0xffffffff.
Definition REG_SYS_CTRL : Z := 0.
Definition BIT_FEN_EN : Z := BIT 26.
Definition REG_RXCCAMSK : Z := 0x814.
Definition REG_ADC40 : Z := 0x8c8.
Definition REG_CHFIR : Z := 0x8f0.
Definition REG_ACBB0 : Z := 0x948.
Definition REG_ACBBRXFIR : Z := 0x94c.
Definition REG_CCA_FLTR : Z := 0xa20.
Definition REG_TXSF2 : Z := 0xa24.
Definition REG_TXSF6 : Z := 0xa28.
Definition REG_ENTXCCK : Z := 0xa80.
Definition BTG_LNA : Z := 0xfc84.
Definition WLG_LNA : Z := 0x7532.
Definition REG_ENRXCCA : Z := 0xa84.
Definition BTG_CCA : Z := 0xe.
Definition WLG_CCA : Z := 0x12.
Definition REG_TXFILTER : Z := 0xaac.
Definition REG_TXDFIR : Z := 0xc20.
Definition REG_RFECTL : Z := 0xcb8.
Definition B_BTG_SWITCH : Z := BIT 16.
Definition B_CTRL_SWITCH : Z := BIT 18.
Definition B_WL_SWITCH : Z := 0x500000.
Definition B_WLG_SWITCH : Z := BIT 21.
Definition B_WLA_SWITCH : Z := BIT 23.
Definition REG_DMEM_CTRL : Z := 0x1080.
Definition BIT_WL_RST : Z := BIT 16.
Definition RF18_CHANNEL_MASK : Z := MASKBYTE0.
Definition RF18_BAND_2G : Z := 0.
Definition RF18_BAND_5G : Z := 0x10100.
Definition RF18_RFSI_GE : Z := BIT 17.
Definition RF18_RFSI_GT : Z := BIT 18.
Definition RF18_BW_MASK : Z := 0xc00.
Definition RF18_BW_20M : Z := 0xc00.
Definition RF18_BW_40M : Z := BIT 11.
Definition RF18_BW_80M : Z := BIT 10.

Inductive rtw8821ce_rf_set := SWITCH_TO_BTG | SWITCH_TO_WLG | SWITCH_TO_WLA | SWITCH_TO_BT.

Definition rtw_regd_srrc (d : rtw_dev) : bool := false.

(** ** RF *)

Definition rtw8821c_switch_rf_set (rf_set : rtw8821ce_rf_set) : prog unit :=
  rtw_write32_set REG_DMEM_CTRL BIT_WL_RST;;
  rtw_write32_set REG_SYS_CTRL BIT_FEN_EN;;
  reg ← hw_read32 REG_RFECTL;
  reg ← match rf_set with
        | SWITCH_TO_BTG =>
            rtw_write32_mask REG_ENRXCCA MASKBYTE2 BTG_CCA;;
            rtw_write32_mask REG_ENTXCCK MASKLWORD BTG_LNA;;
            mret ((reg .| B_BTG_SWITCH) .& .~ (B_CTRL_SWITCH .| B_WL_SWITCH .| B_WLG_SWITCH .| B_WLA_SWITCH))
        | SWITCH_TO_WLG =>
            rtw_write32_mask REG_ENRXCCA MASKBYTE2 WLG_CCA;;
            rtw_write32_mask REG_ENTXCCK MASKLWORD WLG_LNA;;
            mret ((reg .| (B_WL_SWITCH .| B_WLG_SWITCH)) .& .~ (B_BTG_SWITCH .| B_CTRL_SWITCH .| B_WLA_SWITCH))
        | SWITCH_TO_WLA =>
            mret ((reg .| (B_WL_SWITCH .| B_WLA_SWITCH)) .& .~ (B_BTG_SWITCH .| B_CTRL_SWITCH .| B_WLG_SWITCH))
        | SWITCH_TO_BT => mret reg
        end;
  hw_write32 REG_RFECTL reg.

(** Register 0x18: band, channel, frequency segment, width. *)
Definition rf18_value (rf_reg18 channel bw : Z) : Z :=
  let v := rf_reg18 .& .~ (RF18_BAND_MASK .| RF18_CHANNEL_MASK .| RF18_RFSI_MASK .| RF18_BW_MASK) in
  let v := v .| (if channel <=? 14 then RF18_BAND_2G else RF18_BAND_5G) in
  let v := v .| (channel .& RF18_CHANNEL_MASK) in
  let v := if (100 <=? channel) && (channel <=? 140) then v .| RF18_RFSI_GE
           else if 140 <? channel then v .| RF18_RFSI_GT else v in
  if bw =? RTW_CHANNEL_WIDTH_40 then v .| RF18_BW_40M
  else if bw =? RTW_CHANNEL_WIDTH_80 then v .| RF18_BW_80M
  else v .| RF18_BW_20M.

Definition set_channel_rf (d : rtw_dev) (channel bw : Z) : prog unit :=
  rf_reg18 ← rtw_phy_read_rf d RF_PATH_A 0x18 RFREG_MASK;
  let rf_reg18 := rf18_value rf_reg18 channel bw in
  (if channel <=? 14 then
     rtw8821c_switch_rf_set (if rfe_btg (hal d) then SWITCH_TO_BTG else SWITCH_TO_WLG);;
     rtw_write_rf d RF_PATH_A RF_LUTDBG (BIT 6) 0x1;;
     rtw_write_rf d RF_PATH_A 0x64 0xf 0xf
   else
     rtw8821c_switch_rf_set SWITCH_TO_WLA;;
     rtw_write_rf d RF_PATH_A RF_LUTDBG (BIT 6) 0x0);;
  rtw_write_rf d RF_PATH_A 0x18 RFREG_MASK rf_reg18;;
  rtw_write_rf d RF_PATH_A RF_XTALX2 (BIT 19) 0;;
  rtw_write_rf d RF_PATH_A RF_XTALX2 (BIT 19) 1;;
  mret tt.

(** ** Baseband *)

Definition set_channel_rxdfir (bw : Z) : prog unit :=
  if bw =? RTW_CHANNEL_WIDTH_40 then
    rtw_write32_mask REG_ACBB0 (BIT 29 .| BIT 28) 0x2;;
    rtw_write32_mask REG_ACBBRXFIR (BIT 29 .| BIT 28) 0x2;;
    rtw_write32_mask REG_TXDFIR (BIT 31) 0x0;;
    rtw_write32_mask REG_CHFIR (BIT 31) 0x0
  else if bw =? RTW_CHANNEL_WIDTH_80 then
    rtw_write32_mask REG_ACBB0 (BIT 29 .| BIT 28) 0x2;;
    rtw_write32_mask REG_ACBBRXFIR (BIT 29 .| BIT 28) 0x1;;
    rtw_write32_mask REG_TXDFIR (BIT 31) 0x0;;
    rtw_write32_mask REG_CHFIR (BIT 31) 0x1
  else
    rtw_write32_mask REG_ACBB0 (BIT 29 .| BIT 28) 0x2;;
    rtw_write32_mask REG_ACBBRXFIR (BIT 29 .| BIT 28) 0x2;;
    rtw_write32_mask REG_TXDFIR (BIT 31) 0x1;;
    rtw_write32_mask REG_CHFIR (BIT 31) 0x0.

(** The width half, after the label [set_bw]. *)
Definition set_bw (bw primary_ch_idx : Z) : prog unit :=
  if bw =? RTW_CHANNEL_WIDTH_40 then
    (if primary_ch_idx =? 1 then rtw_write32_set REG_RXSB (BIT 4) else rtw_write32_clr REG_RXSB (BIT 4));;
    v ← hw_read32 REG_ADCCLK;
    hw_write32 REG_ADCCLK ((v .& 0xff3ff300) .| 0x20020000 .| ((primary_ch_idx .& 0xf) << 2) .| RTW_CHANNEL_WIDTH_40);;
    rtw_write32_mask REG_ADC160 (BIT 30) 0x1
  else
    v ← hw_read32 REG_ADCCLK;
    hw_write32 REG_ADCCLK ((v .& 0xffcffc00) .| 0x10010000);;
    rtw_write32_mask REG_ADC160 (BIT 30) 0x1.

Definition set_channel_bb (d : rtw_dev) (channel bw primary_ch_idx : Z) : prog unit :=
  (if channel <=? 14 then
     rtw_write32_mask REG_RXPSEL (BIT 28) 0x1;;
     rtw_write32_mask REG_CCK_CHECK (BIT 7) 0x0;;
     rtw_write32_mask REG_ENTXCCK (BIT 18) 0x0;;
     rtw_write32_mask REG_RXCCAMSK 0x0000FC00 15;;
     rtw_write32_mask REG_TXSCALE_A 0xf00 0x0;;
     rtw_write32_mask REG_CLKTRK 0x1ffe0000 0x96a;;
     if rtw_regd_srrc d then mret tt else
     if channel =? 14 then
       rtw_write32_mask REG_TXSF2 MASKDWORD 0x0000b81c;;
       rtw_write32_mask REG_TXSF6 MASKLWORD 0x0000;;
       rtw_write32_mask REG_TXFILTER MASKDWORD 0x00003667
     else
       let '(p0, p1, p2) := ch_param (hal d) in
       rtw_write32_mask REG_TXSF2 MASKDWORD p0;;
       rtw_write32_mask REG_TXSF6 MASKLWORD (p1 .& MASKLWORD);;
       rtw_write32_mask REG_TXFILTER MASKDWORD p2
   else if 35 <? channel then
     rtw_write32_mask REG_ENTXCCK (BIT 18) 0x1;;
     rtw_write32_mask REG_CCK_CHECK (BIT 7) 0x1;;
     rtw_write32_mask REG_RXPSEL (BIT 28) 0x0;;
     rtw_write32_mask REG_RXCCAMSK 0x0000FC00 15;;
     (if (36 <=? channel) && (channel <=? 64) then rtw_write32_mask REG_TXSCALE_A 0xf00 0x1
      else if (100 <=? channel) && (channel <=? 144) then rtw_write32_mask REG_TXSCALE_A 0xf00 0x2
      else if 149 <=? channel then rtw_write32_mask REG_TXSCALE_A 0xf00 0x3
      else mret tt);;
     (if (36 <=? channel) && (channel <=? 48) then rtw_write32_mask REG_CLKTRK 0x1ffe0000 0x494
      else if (52 <=? channel) && (channel <=? 64) then rtw_write32_mask REG_CLKTRK 0x1ffe0000 0x453
      else if (100 <=? channel) && (channel <=? 116) then rtw_write32_mask REG_CLKTRK 0x1ffe0000 0x452
      else if (118 <=? channel) && (channel <=? 177) then rtw_write32_mask REG_CLKTRK 0x1ffe0000 0x412
      else mret tt)
   else mret tt);;
  set_bw bw primary_ch_idx.

Definition set_channel_bb_swing (channel : Z) : prog unit :=
  rtw_write32_mask REG_TXSCALE_A (GENMASK 31 21) 0x200.

(** ** The channel change *)

(** [g_ch_param] and [g_ch_param_valid]. *)
Record ch_cache := ChCache { g_ch_param : Z * Z * Z; g_ch_param_valid : bool }.
Definition ch_cache0 : ch_cache := ChCache (0, 0, 0) false.

Definition latch_ch_param (c : ch_cache) : prog ch_cache :=
  if negb (g_ch_param_valid c) then
    a ← hw_read32 REG_TXSF2;
    b ← hw_read32 REG_TXSF6;
    f ← hw_read32 REG_TXFILTER;
    mret (ChCache (a, b, f)
      (nz a && negb (a =? 0xffffffff) && nz f && negb (f =? 0xffffffff)))
  else mret c.

Definition set_ch_param (p : Z * Z * Z) (d : rtw_dev) : rtw_dev :=
  let h := hal d in
  set_hal (Hal (cut_version h) (pkg_type h) (rfe_btg h) (rf_path_num h) (rf_phy_num h) (phy_cond h) p) d.

Definition set_channel (d : rtw_dev) (c : ch_cache) (channel bw primary_ch_idx : Z) : prog (rtw_dev * ch_cache) :=
  c ← latch_ch_param c;
  let d := set_ch_param (g_ch_param c) d in
  let bw := if bw =? RTW_CHANNEL_WIDTH_80 then RTW_CHANNEL_WIDTH_20 else bw in
  set_channel_bb d channel bw primary_ch_idx;;
  set_channel_bb_swing channel;;
  set_channel_rf d channel bw;;
  set_channel_rxdfir bw;;
  hw_write32 0x1d00 0x28282828;;
  hw_write32 0x1d04 0x28282828;;
  hw_write32 0x1d08 0x28282828;;
  mret (d, c).

(** ** The filter registers *)

(** The contents of the two filter registers, for the devices that answer their
    reads with them; [None] once one has not. *)
Definition filter_mon (st : option (Z * Z)) (o : hwop) : hwres o -> option (option (Z * Z)) :=
  match st with
  | None => fun _ => Some None
  | Some (a, f) =>
      match o as o return hwres o -> option (option (Z * Z)) with
      | Read W32 x => fun r =>
          Some (if (x =? REG_TXSF2) && negb (u32 r =? a) then None
                else if (x =? REG_TXFILTER) && negb (u32 r =? f) then None else Some (a, f))
      | Write W32 x v => fun _ =>
          Some (if x =? REG_TXSF2 then Some (v, f) else if x =? REG_TXFILTER then Some (a, v) else Some (a, f))
      | _ => fun _ => Some (Some (a, f))
      end
  end.

(** What must hold of the final contents, if the device kept them. *)
Definition kept {A} (Q : A -> Z * Z -> Prop) (x : A) (st : option (Z * Z)) : Prop :=
  match st with Some p => Q x p | None => True end.
Definition filters {A} (p : prog A) (st : Z * Z) (Q : A -> Z * Z -> Prop) : Prop :=
  wp filter_mon p (Some st) (kept Q).

(** Calls that do not touch them. *)
Definition filter_quiet (o : hwop) : bool :=
  match o with
  | Read W32 x | Write W32 x _ => negb ((x =? REG_TXSF2) || (x =? REG_TXFILTER))
  | _ => true
  end.

Lemma filter_frame st o r : filter_quiet o = true -> filter_mon st o r = Some st.
Proof.
  destruct st as [[a f]|]; [|done]. destruct o as [w x|w x v| | | | | | | | | | | | | | | | | | | | |]; try done;
    destruct w; try done; cbn; destruct (x =? REG_TXSF2), (x =? REG_TXFILTER); done.
Qed.

Lemma filter_released {A} (p : prog A) (Q : A -> option (Z * Z) -> Prop) :
  (forall x, Q x None) -> wp filter_mon p None Q.
Proof. intros HQ. induction p as [x|o k IH]; [apply HQ|]. intros r. apply IH. Qed.

Lemma filters_bind {A B} (f : A -> prog B) (p : prog A) st R Q :
  filters p st R -> (forall x st', R x st' -> filters (f x) st' Q) -> filters (p ≫= f) st Q.
Proof.
  intros Hp Hf. apply wp_bind. eapply wp_mono; [apply Hp|].
  intros x [st'|] Hx; [by apply Hf|by apply filter_released].
Qed.
Lemma filters_ret {A} (x : A) st (Q : A -> Z * Z -> Prop) : Q x st -> filters (mret x) st Q.
Proof. done. Qed.
Lemma filters_mono {A} (p : prog A) st (R Q : A -> Z * Z -> Prop) :
  filters p st R -> (forall x st', R x st' -> Q x st') -> filters p st Q.
Proof. intros Hp HQ. eapply wp_mono; [apply Hp|]. intros x [st'|]; [apply HQ|done]. Qed.
Lemma filters_quiet {A} (p : prog A) st (Q : A -> Prop) :
  safe filter_quiet p Q -> filters p st (fun x st' => st' = st /\ Q x).
Proof.
  intros Hp. eapply wp_mono; [eapply wp_safe_frame; [apply filter_frame|exact Hp]|].
  intros x st' [-> Hx]. by split.
Qed.
Lemma filters_bind_quiet {A B} (f : A -> prog B) (p : prog A) st Q :
  safe filter_quiet p (fun _ => True) -> (forall x, filters (f x) st Q) -> filters (p ≫= f) st Q.
Proof. intros Hp Hf. eapply filters_bind; [by apply filters_quiet|]. intros x st' [-> _]. apply Hf. Qed.

(** A full-mask write replaces the register. *)
Lemma full_mask r v : u32 ((u32 r .& .~ (u32 MASKDWORD)) .| (u32 (u32 v << ctz MASKDWORD) .& u32 MASKDWORD)) = u32 v.
Proof.
  change (ctz MASKDWORD) with 0. change (u32 MASKDWORD) with (Z.ones 32). rewrite Z.shiftl_0_r, wrap_wrap by done.
  apply (bits_ext 32); [by apply wrap_range..|]. intros i Hi.
  rewrite wrap_testbit, Z.lor_spec, !Z.land_spec, Z.lnot_spec, Z.testbit_ones_nonneg by lia.
  destruct (Z.leb_spec 0 i), (Z.ltb_spec i 32); try lia. cbn. by rewrite andb_false_r, andb_true_r.
Qed.

Lemma filters_sf2 v a f : filters (rtw_write32_mask REG_TXSF2 MASKDWORD v) (a, f) (fun _ st => st = (u32 v, f)).
Proof.
  apply wp_bind, wp_bind. intros r. cbn [filter_mon]. rewrite Z.eqb_refl. change (REG_TXSF2 =? REG_TXFILTER) with false.
  cbn [andb]. destruct (negb (u32 r =? a)); [by apply filter_released|]. cbn [wp mret prog_ret].
  intros []. cbn [filter_mon]. rewrite Z.eqb_refl. cbn [wp kept]. by rewrite full_mask.
Qed.
Lemma filters_filter v a f : filters (rtw_write32_mask REG_TXFILTER MASKDWORD v) (a, f) (fun _ st => st = (a, u32 v)).
Proof.
  apply wp_bind, wp_bind. intros r. cbn [filter_mon]. rewrite Z.eqb_refl. change (REG_TXFILTER =? REG_TXSF2) with false.
  cbn [andb]. destruct (negb (u32 r =? f)); [by apply filter_released|]. cbn [wp mret prog_ret].
  intros []. cbn [filter_mon]. rewrite Z.eqb_refl. change (REG_TXFILTER =? REG_TXSF2) with false. cbn [wp kept].
  by rewrite full_mask.
Qed.

Lemma rf_reg_addr path a : 0x2800 <= rf_base_addr path + ((a .& 0xff) << 2).
Proof.
  rewrite Z.shiftl_mul_pow2 by done. pose proof (land_ones_range 8 a ltac:(lia)) as H. change (Z.ones 8) with 0xff in H.
  destruct path; cbn; lia.
Qed.

Lemma read_rf_quiet d path addr mask : safe filter_quiet (rtw_phy_read_rf d path addr mask) (fun _ => True).
Proof.
  unfold rtw_phy_read_rf. destruct (_ <=? _); [by apply safe_ret|].
  apply safe_bind_any; [|intros ?; by apply safe_ret]. apply safe_read32; [|done]. cbn [filter_quiet].
  pose proof (rf_reg_addr path addr). unfold REG_TXSF2, REG_TXFILTER.
  destruct (Z.eqb_spec (rf_base_addr path + ((addr .& 0xff) << 2)) 0xa24); [lia|].
  by destruct (Z.eqb_spec (rf_base_addr path + ((addr .& 0xff) << 2)) 0xaac); [lia|].
Qed.

Lemma write_rf_quiet d path addr mask data : safe filter_quiet (rtw_write_rf d path addr mask data) (fun _ => True).
Proof.
  unfold rtw_write_rf. destruct (_ <=? _); [by apply safe_ret|]. apply safe_bind_any.
  { destruct (negb _); [apply read_rf_quiet|by apply safe_ret]. }
  intros old. destruct (_ && _); [by apply safe_ret|]. destruct path; by safe_go.
Qed.

(** [safe_go] that knows the RF accesses. *)
Ltac chan_go :=
  repeat first [apply read_rf_quiet | apply write_rf_quiet | safe_step].

(** What tuning to a channel leaves in the filter registers: channel 14 has its
    own values, the other 2.4 GHz channels the cached ones, 5 GHz keeps them. *)
Definition filter_of (p : Z * Z * Z) (channel : Z) (st : Z * Z) : Z * Z :=
  if channel <=? 14 then if channel =? 14 then (0xb81c, 0x3667) else (u32 p.1.1, u32 p.2) else st.

Lemma set_bw_quiet bw idx : safe filter_quiet (set_bw bw idx) (fun _ => True).
Proof. unfold set_bw. by chan_go. Qed.

Lemma set_channel_bb_filters d ch bw idx st :
  filters (set_channel_bb d ch bw idx) st (fun _ st' => st' = filter_of (ch_param (hal d)) ch st).
Proof.
  destruct st as [a f]. unfold set_channel_bb, filter_of. apply filters_bind with
    (R := fun _ st' => st' = if ch <=? 14 then if ch =? 14 then (0xb81c, 0x3667)
            else (u32 (ch_param (hal d)).1.1, u32 (ch_param (hal d)).2) else (a, f)).
  - destruct (ch <=? 14).
    + do 6 (apply filters_bind_quiet; [by safe_go|intros _]). cbn [rtw_regd_srrc].
      destruct (ch =? 14); [|destruct (ch_param (hal d)) as [[p0 p1] p2]];
        (eapply filters_bind; [apply filters_sf2|]; intros _ st' ->;
         apply filters_bind_quiet; [by safe_go|intros _]; apply filters_filter).
    + eapply filters_mono; [apply (filters_quiet _ _ (fun _ => True)); by safe_go|]. by intros ? ? [-> _].
  - intros _ st' ->. eapply filters_mono; [apply (filters_quiet _ _ (fun _ => True)), set_bw_quiet|].
    by intros ? ? [-> _].
Qed.

Lemma set_channel_rf_quiet d ch bw : safe filter_quiet (set_channel_rf d ch bw) (fun _ => True).
Proof. unfold set_channel_rf, rtw8821c_switch_rf_set. by chan_go. Qed.

(** The values the code takes for the loaded defaults. *)
Definition plausible (p : Z * Z) : Prop :=
  0 < p.1 < 2 ^ 32 - 1 /\ 0 < p.2 < 2 ^ 32 - 1.

(** The cache against the defaults [p0] and the current contents: still empty and
    the registers untouched, or filled with the defaults. *)
Definition cache_ok (p0 : Z * Z) (c : ch_cache) (st : Z * Z) : Prop :=
  if g_ch_param_valid c then (g_ch_param c).1.1 = p0.1 /\ (g_ch_param c).2 = p0.2 else st = p0.

Lemma latch_filters p0 c st : plausible p0 -> cache_ok p0 c st ->
  filters (latch_ch_param c) st (fun c' st' => st' = st /\ g_ch_param_valid c' = true /\ cache_ok p0 c' st).
Proof.
  intros [H1 H2] Hc. unfold latch_ch_param, cache_ok in *. destruct (g_ch_param_valid c) eqn:Ev; cbn [negb].
  { apply filters_ret. by rewrite Ev. }
  subst st. destruct p0 as [a0 f0]. cbn [fst snd] in *.
  apply (filters_bind _ _ _ (fun a st' => st' = (a0, f0) /\ a = a0)).
  { apply wp_bind. intros r. cbn [filter_mon]. change (REG_TXSF2 =? REG_TXSF2) with true.
    change (REG_TXSF2 =? REG_TXFILTER) with false. cbn [andb]. destruct (Z.eqb_spec (u32 r) a0) as [E|]; [|done].
    cbn. by rewrite E. }
  intros a ? [-> ->]. apply filters_bind_quiet; [by safe_go|intros b].
  apply (filters_bind _ _ _ (fun f st' => st' = (a0, f0) /\ f = f0)).
  { apply wp_bind. intros r. cbn [filter_mon]. change (REG_TXFILTER =? REG_TXFILTER) with true.
    change (REG_TXFILTER =? REG_TXSF2) with false. cbn [andb]. destruct (Z.eqb_spec (u32 r) f0) as [E|]; [|done].
    cbn. by rewrite E. }
  intros f ? [-> ->]. apply filters_ret. cbn [g_ch_param_valid g_ch_param fst snd].
  assert (E : nz a0 && negb (a0 =? 0xffffffff) && nz f0 && negb (f0 =? 0xffffffff) = true) by (unfold nz; lia).
  by rewrite E.
Qed.

Lemma set_channel_filters p0 d c ch bw idx st : plausible p0 -> cache_ok p0 c st ->
  filters (set_channel d c ch bw idx) st (fun '(d', c') st' =>
    st' = filter_of (p0.1, 0, p0.2) ch st /\ g_ch_param_valid c' = true /\ cache_ok p0 c' st').
Proof.
  intros Hp Hc. unfold set_channel. eapply filters_bind; [by apply latch_filters|].
  intros c' st' (-> & Hv & Hc'). eapply filters_bind; [apply set_channel_bb_filters|]. intros _ st1 ->.
  apply filters_bind_quiet; [unfold set_channel_bb_swing; by safe_go|intros _].
  apply filters_bind_quiet; [apply set_channel_rf_quiet|intros _].
  apply filters_bind_quiet; [unfold set_channel_rxdfir; by safe_go|intros _].
  do 3 (apply filters_bind_quiet; [by safe_go|intros _]). apply filters_ret.
  unfold cache_ok in *. rewrite Hv in *. destruct Hc' as [E1 E2]. split; [|done].
  unfold filter_of. cbn [ch_param hal set_ch_param set_hal fst snd]. by rewrite E1, E2.
Qed.

(** Tuning to one channel after another: channel, width, primary index. *)
Fixpoint tune_all (d : rtw_dev) (c : ch_cache) (l : list (Z * Z * Z)) : prog (rtw_dev * ch_cache) :=
  match l with
  | [] => mret (d, c)
  | (ch, bw, idx) :: l => '(d, c) ← set_channel d c ch bw idx; tune_all d c l
  end.

Lemma tune_all_filters p0 l : plausible p0 -> forall d c st, cache_ok p0 c st ->
  filters (tune_all d c l) st (fun '(d', c') st' => cache_ok p0 c' st').
Proof.
  intros Hp. induction l as [|[[ch bw] idx] l IH]; intros d c st Hc; [by apply filters_ret|]. cbn [tune_all].
  eapply filters_bind; [by apply set_channel_filters|]. intros [d' c'] st' (_ & _ & Hc'). by apply IH.
Qed.

(** From the state at load, over registers that keep what is written and
    hold the table's (plausible) filter defaults, whatever was tuned before,
    channel 14 included, tuning to a 2.4 GHz channel other than 14 leaves the
    defaults in the filter registers, and tuning to 14 its own values. *)
Theorem set_channel_filter (d : rtw_dev) (p0 : Z * Z) (l : list (Z * Z * Z)) (ch bw idx : Z) :
  plausible p0 -> ch <= 14 ->
  filters ('(d, c) ← tune_all d ch_cache0 l; set_channel d c ch bw idx) p0 (fun _ st =>
    st = if ch =? 14 then (0xb81c, 0x3667) else p0).
Proof.
  intros Hp Hch. eapply filters_bind; [by apply (tune_all_filters p0 l Hp d ch_cache0 p0)|].
  intros [d1 c1] st1 Hc1. eapply filters_mono; [by apply (set_channel_filters p0)|].
  intros [d2 c2] st2 (-> & _). unfold filter_of. cbn [fst snd]. destruct (Z.leb_spec ch 14); [|lia].
  destruct Hp. rewrite !u32_small by lia. by destruct p0.
Qed.

(** ** Width and the RF channel register *)

(** The 80 MHz half is not reached: such a request is a 20 MHz one. *)
Lemma set_channel_80 d c ch idx :
  set_channel d c ch RTW_CHANNEL_WIDTH_80 idx = set_channel d c ch RTW_CHANNEL_WIDTH_20 idx.
Proof. done. Qed.

Definition RF18_FIELDS : Z := RF18_BAND_MASK .| RF18_CHANNEL_MASK .| RF18_RFSI_MASK .| RF18_BW_MASK.
(** The fields of the RF channel register for a channel and a width. *)
Definition rf18_fields (ch bw : Z) : Z := rf18_value 0 ch bw.

Lemma rf18_split r ch bw : byte_ok ch ->
  rf18_value r ch bw = (r .& .~ RF18_FIELDS) .| rf18_fields ch bw /\
  rf18_fields ch bw .& .~ RF18_FIELDS = 0 /\ rf18_fields ch bw .& RF18_CHANNEL_MASK = ch.
Proof.
  intros Hc. split.
  - unfold rf18_fields, rf18_value. change (RF18_BAND_MASK .| _ .| _ .| _) with RF18_FIELDS.
    change (0 .& .~ RF18_FIELDS) with 0. rewrite !Z.lor_0_l.
    repeat match goal with |- context [if ?b then _ else _] => destruct b end; rewrite ?Z.lor_assoc; done.
  - assert (Hall : forall w, w = 1 \/ w = 2 \/ w = 0 ->
      forallb (fun c => (rf18_fields c w .& .~ RF18_FIELDS =? 0) && (rf18_fields c w .& RF18_CHANNEL_MASK =? c)) all_bytes = true)
      by (intros w [->|[->| ->]]; by vm_compute).
    assert (Hw : exists w, (w = 1 \/ w = 2 \/ w = 0) /\ rf18_fields ch bw = rf18_fields ch w).
    { unfold rf18_fields, rf18_value, RTW_CHANNEL_WIDTH_40, RTW_CHANNEL_WIDTH_80.
      destruct (Z.eqb_spec bw 1) as [->|H1]; [by exists 1; auto|].
      destruct (Z.eqb_spec bw 2) as [->|H2]; [by exists 2; auto|]. by exists 0; auto. }
    destruct Hw as (w & Hw & ->). pose proof (forall_bytes _ (Hall w Hw) ch Hc) as Hb. cbn beta in Hb. lia.
Qed.

Lemma read_rf_regs d path addr mask : safe reg_call (rtw_phy_read_rf d path addr mask) (fun _ => True).
Proof. unfold rtw_phy_read_rf. by safe_go. Qed.
Lemma write_rf_regs d path addr mask data : safe reg_call (rtw_write_rf d path addr mask data) (fun _ => True).
Proof. destruct path; unfold rtw_write_rf; by repeat first [apply read_rf_regs | safe_step]. Qed.

(** Tuning touches no buffer and no ring, and changes the descriptor in the
    filter parameters only. *)
Lemma set_channel_regs d c ch bw idx :
  safe reg_call (set_channel d c ch bw idx) (fun x => x.1 = set_ch_param (g_ch_param x.2) d).
Proof.
  unfold set_channel. apply safe_bind_any; [unfold latch_ch_param; by safe_go|]. intros c'.
  apply safe_bind_any; [unfold set_channel_bb, set_bw; by safe_go|intros _].
  apply safe_bind_any; [unfold set_channel_bb_swing; by safe_go|intros _].
  apply safe_bind_any; [unfold set_channel_rf, rtw8821c_switch_rf_set;
    by repeat first [apply read_rf_regs | apply write_rf_regs | safe_step]|intros _].
  apply safe_bind_any; [unfold set_channel_rxdfir; by safe_go|intros _].
  do 3 (apply safe_bind_any; [by safe_go|intros _]). by apply safe_ret.
Qed.

(** ** Witnesses *)

Lemma set_channel_filter_witness :
  filters ('(d, c) ← tune_all (example_dev [] []) ch_cache0 [(14, 0, 0); (36, 0, 0); (14, 2, 0)];
           set_channel d c 6 0 0) (0x384f1234, 0x667) (fun _ st => st = (0x384f1234, 0x667)).
Proof.
  apply (set_channel_filter (example_dev [] []) (0x384f1234, 0x667) [(14, 0, 0); (36, 0, 0); (14, 2, 0)] 6 0 0);
    [split; cbn; lia|lia].
Defined.
