(* ===== verification/Scan.v ===== *)
(** * Scan: the network scan (core/scan.c)

    The list of networks heard, the beacon parser that fills it from the receive
    ring, the dwell on each channel with its probe requests, and the lookups a
    connection starts from.  Proved: a scan never leaves its buffers, whatever
    the chip writes into the ring, and its list stays well formed; a beacon that
    advertises an SSID is recorded under it and found again by name. *)
From stdpp Require Import gmap.
From S2P Require Import Prelude Hw Regs Dev Trx Rx Phy Channel.
Open Scope Z_scope.
Open Scope rtw_scope.

(** ** State *)

Definition RTK_PCI_HIMR0 : Z := 0xb0.
Definition RTK_PCI_HISR0 : Z := 0xb4.
Definition IMR_ROK : Z := BIT 0.
Definition IMR_RDU : Z := BIT 1.

(** [ssid] is the whole 33-byte array: what an earlier string left behind the
    terminator stays there. *)
Record net_entry := NetEntry {
  bssid : list Z; ssid : list Z; channel : Z; beacons : Z; hidden : bool; privacy : bool;
}.
Definition net_entry0 : net_entry := NetEntry (replicate 6 0) (replicate 33 0) 0 0 false false.

Record scan_state := ScanState { g_nets : list net_entry; g_nnets : nat; g_probe_resp : Z }.
Definition scan_state0 : scan_state := ScanState (replicate 128 net_entry0) 0 0.

(** The entries in use. *)
Definition nets (st : scan_state) : list net_entry := take (g_nnets st) (g_nets st).

(** ** The probe request *)

Definition build_probe_req (src_mac : list Z) : list Z :=
  [0x40; 0x00; 0x00; 0x00] ++ replicate 6 0xff ++ src_mac ++ replicate 6 0xff ++
  [0x00; 0x00; 0x00; 0x00; 0x01; 0x08; 0x82; 0x84; 0x8b; 0x96; 0x0c; 0x12; 0x18; 0x24].

(** ** Recording a network: the arguments are addresses inside the frame *)

(** The loop that looks for the BSSID; it is read once per entry. *)
Fixpoint find_net (l : list net_entry) (i : nat) (mac : Z * Z) : prog (option nat) :=
  match l with
  | [] => mret None
  | n :: l =>
      b ← slot_bytes mac 0 6;
      if memcmp (bssid n) b =? 0 then mret (Some i) else find_net l (S i) mac
  end.

(** [for (k...) if (ssid[k] == 0) printable = 0;], [n] bytes still to look at. *)
Fixpoint no_nul (n : nat) (name : Z * Z) (k : Z) (printable : bool) : prog bool :=
  match n with
  | O => mret printable
  | S n => b ← slot8 name k; no_nul n name (k + 1) (if b =? 0 then false else printable)
  end.

Definition HIDDEN_NAME : list Z := [0x3c; 0x68; 0x69; 0x64; 0x64; 0x65; 0x6e; 0x3e].   (* "<hidden>" *)

Definition set_entry (i : nat) (n : net_entry) (st : scan_state) : scan_state :=
  ScanState (<[i := n]> (g_nets st)) (g_nnets st) (g_probe_resp st).

(** Follow a pointer that may be null. *)
Definition deref {A} (p : option (Z * Z)) (dflt : A) (f : Z * Z -> prog A) : prog A :=
  match p with
  | Some a => f a
  | None => act Fault;; mret dflt
  end.

(** [name] is null when the frame has no SSID element. *)
Definition add_net (mac : Z * Z) (name : option (Z * Z)) (ssid_len ch : Z) (priv : bool) (st : scan_state)
    : prog scan_state :=
  hit ← find_net (nets st) 0 mac;
  match hit with
  | Some i =>
      let n := nth i (g_nets st) net_entry0 in
      mret (set_entry i (NetEntry (bssid n) (ssid n) (channel n) (i32 (beacons n + 1)) (hidden n) (privacy n)) st)
  | None =>
      if (128 <=? g_nnets st)%nat then mret st else
      let i := g_nnets st in
      let old := nth i (g_nets st) net_entry0 in
      mac ← slot_bytes mac 0 6;
      let len := if 32 <? ssid_len then 32 else ssid_len in
      printable ← (if 0 <? len then deref name false (fun a => no_nul (Z.to_nat len) a 0 true) else mret false);
      text ← (if printable
              then deref name (ssid old) (fun a => b ← slot_bytes a 0 len; mret (splice (ssid old) 0 (b ++ [0])))
              else mret (splice (ssid old) 0 (HIDDEN_NAME ++ [0])));
      mret (ScanState (<[i := NetEntry mac text ch 1 (negb printable) priv]> (g_nets st)) (S i) (g_probe_resp st))
  end.

(** ** Parsing a received frame *)

(** The element walk from offset [i] of the frame at [f]; the fuel is the
    frame's length, of which every element takes at least two bytes. *)
Fixpoint parse_ies (fuel : nat) (f : Z * Z) (i pkt_len ch : Z) (priv : bool) (st : scan_state)
    : prog scan_state :=
  let no_ssid := add_net (addr_plus f 16) None 0 ch priv st in
  match fuel with
  | O => act Hang;; mret st
  | S fuel =>
      if i + 2 <=? pkt_len then
        tag ← slot8 f i;
        len ← slot8 f (i + 1);
        if pkt_len <? i + 2 + len then no_ssid
        else if tag =? 0 then add_net (addr_plus f 16) (Some (addr_plus f (i + 2))) len ch priv st
        else parse_ies fuel f (i + (2 + len)) pkt_len ch priv st
      else no_ssid
  end.

Definition count_probe_resp (st : scan_state) : scan_state :=
  ScanState (g_nets st) (g_nnets st) (g_probe_resp st + 1).

Definition parse_frame (buf : Z * Z) (ch : Z) (st : scan_state) : prog scan_state :=
  w0 ← slot32 buf 0;
  let pkt_len := rx_pkt_len w0 in
  if rx_error w0 then mret st else
  if (pkt_len <? 36) || (2048 <? pkt_len) then mret st else
  let f := rx_frame buf w0 in
  fc ← frame_control f;
  if negb (fc_type fc =? 0) then mret st else
  if negb (fc_subtype fc =? 8) && negb (fc_subtype fc =? 5) then mret st else
  let st := if fc_subtype fc =? 5 then count_probe_resp st else st in
  cap ← slot8 f (24 + 10);
  parse_ies (Z.to_nat pkt_len) f (24 + 12) pkt_len ch (nz (cap .& 0x10)) st.

(** Every frame between the driver's read index and the chip's. *)
Definition drain (s : trx_state) (ch rp : Z) (st : scan_state) : prog (scan_state * Z) :=
  hw ← trx_rx_hw_idx;
  '(v, rp) ← rx_drain (drain_fuel s) s
      (at_slot s (fun buf st => st ← parse_frame buf ch st; mret (Go (R := scan_state) st))) hw rp st;
  trx_rx_set_host_idx rp;;
  mret (match v with Go st => st | Stop st => st end, rp).

(** ** The scan *)

(** What a scan uses and changes. *)
Record radio := Radio { ra_dev : rtw_dev; ra_cache : ch_cache; ra_trx : trx_state; ra_scan : scan_state }.
Definition set_ra_trx (s : trx_state) (r : radio) : radio := Radio (ra_dev r) (ra_cache r) s (ra_scan r).
Definition set_ra_scan (st : scan_state) (r : radio) : radio := Radio (ra_dev r) (ra_cache r) (ra_trx r) st.

Definition send_probe (probe : list Z) (rate : Z) (r : radio) : prog radio :=
  '(_, s) ← trx_tx_mgmt (ra_dev r) (ra_trx r) probe rate true;
  mret (set_ra_trx s r).

(** The rest of a channel's dwell: round [i] of [iters], [k] rounds to go. *)
Fixpoint dwell (k : nat) (i iters ch rate : Z) (probe : list Z) (rp : Z) (r : radio) : prog radio :=
  match k with
  | O => mret r
  | S k =>
      act (IrqWait 50);;
      isr ← hw_read32 RTK_PCI_HISR0;
      (if nz isr then hw_write32 RTK_PCI_HISR0 isr else mret tt);;
      '(st, rp) ← drain (ra_trx r) ch rp (ra_scan r);
      let r := set_ra_scan st r in
      r ← (if i =? iters / 2 then send_probe probe rate r else mret r);
      dwell k (i + 1) iters ch rate probe rp r
  end.

Definition scan_channel (probe : list Z) (ms_per ch : Z) (r : radio) : prog radio :=
  '(d, c) ← set_channel (ra_dev r) (ra_cache r) ch RTW_CHANNEL_WIDTH_20 0;
  let r := Radio d c (ra_trx r) (ra_scan r) in
  rp ← trx_rx_hw_idx;
  trx_rx_set_host_idx rp;;
  let rate := if ch <=? 14 then DESC_RATE1M else DESC_RATE6M in
  r ← send_probe probe rate r;
  let iters := ms_per / 50 in
  dwell (Z.to_nat iters) 0 iters ch rate probe rp r.

Fixpoint scan_channels (probe : list Z) (ms_per : Z) (channels : list Z) (r : radio) : prog radio :=
  match channels with
  | [] => mret r
  | ch :: channels => r ← scan_channel probe ms_per ch r; scan_channels probe ms_per channels r
  end.

(** The printed report is left out. *)
Definition scan_networks (r : radio) (channels : list Z) (ms_per : Z) : prog (Z * radio) :=
  let r := set_ra_scan (ScanState (g_nets (ra_scan r)) 0 0) r in
  if negb (trx_rx_ok (ra_trx r)) then mret (-1, r) else
  irq ← act IrqEnable;
  if negb (irq =? 0) then mret (-1, r) else
  hw_write32 RTK_PCI_HIMR0 (IMR_ROK .| IMR_RDU);;
  r ← scan_channels (build_probe_req (ef_addr (efuse (ra_dev r)))) ms_per channels r;
  act IrqDisable;;
  mret (Z.of_nat (g_nnets (ra_scan r)), r).

(** ** Results *)

Definition RTW_SCAN_MAX : nat := 64.
(** The ABI entry: bssid, channel, hidden, privacy, ssid, beacons. *)
Definition scan_marshal (st : scan_state) : list net_entry :=
  take (if (RTW_SCAN_MAX <? g_nnets st)%nat then RTW_SCAN_MAX else g_nnets st) (g_nets st).

Definition find_by_ssid (st : scan_state) (name : list Z) : option (list Z * Z) :=
  n ← find (fun n => negb (hidden n) && str_eq (ssid n) name) (nets st);
  Some (bssid n, channel n).

(** [best_target] over the networks [known] has a passphrase for. *)
Fixpoint best_of (known : list Z -> bool) (l : list net_entry) (best : option net_entry) : option net_entry :=
  match l with
  | [] => best
  | n :: l =>
      best_of known l
        (if hidden n then best else if negb (known (ssid n)) then best else
         match best with
         | None => Some n
         | Some b => if beacons b <? beacons n then Some n else best
         end)
  end.
Definition best_target (known : list Z -> bool) (st : scan_state) : option (list Z * list Z * Z * Z) :=
  b ← best_of known (nets st) None;
  Some (bssid b, c_str (ssid b), u8 (Z.of_nat (length (c_str (ssid b)))), channel b).

(** ** A scan stays inside its buffers *)

(** Every entry holds a terminated string of its array's size. *)
Definition entry_ok (n : net_entry) : Prop :=
  length (bssid n) = 6%nat /\ bytes_ok (bssid n) /\ length (ssid n) = 33%nat /\ bytes_ok (ssid n) /\ 0 ∈ ssid n.
Definition table_ok (st : scan_state) : Prop :=
  length (g_nets st) = 128%nat /\ (g_nnets st <= 128)%nat /\ Forall entry_ok (g_nets st).

#[export] Instance table_ok_dec st : Decision (table_ok st).
Proof. unfold table_ok, entry_ok, bytes_ok. apply _. Defined.

Lemma entry0_ok : entry_ok net_entry0.
Proof. apply (bool_decide_unpack _). by vm_compute. Qed.

Lemma nth_entry_ok st i : table_ok st -> entry_ok (nth i (g_nets st) net_entry0).
Proof.
  intros (_ & _ & Hall). destruct (nth_in_or_default i (g_nets st) net_entry0) as [Hin| ->]; [|apply entry0_ok].
  by apply (proj1 (Forall_forall _ _) Hall).
Qed.

(** A string copied to the start of an entry's array. *)
Lemma copied_ok old text : length old = 33%nat -> bytes_ok old -> bytes_ok text -> (length text <= 32)%nat ->
  length (splice old 0 (text ++ [0])) = 33%nat /\ bytes_ok (splice old 0 (text ++ [0])) /\
  0 ∈ splice old 0 (text ++ [0]).
Proof.
  intros Hl Ho Ht Hle. split_and!.
  - rewrite splice_length; [done|]. rewrite length_app. cbn. lia.
  - unfold splice, bytes_ok. rewrite !Forall_app. split_and!; [constructor|done|by repeat constructor|].
    by apply bytes_ok_drop.
  - unfold splice. rewrite !elem_of_app. right. left. right. by left.
Qed.

Lemma set_entry_ok i n st : table_ok st -> entry_ok n -> table_ok (set_entry i n st).
Proof.
  intros (H1 & H2 & H3) Hn. split_and!; cbn; [by rewrite length_insert|done|by apply Forall_insert].
Qed.

Lemma frame_at_safe m f k i n : frame_live m f -> 0 <= k + i -> 0 <= n -> k + i + n <= 2048 ->
  mem_safe (slot_bytes (addr_plus f k) i n) m (fun bs m' => m' = m /\ length bs = Z.to_nat n /\ bytes_ok bs).
Proof.
  intros Hf Hk Hn Hle. unfold slot_bytes, addr_plus. cbn [fst snd]. rewrite <- Z.add_assoc.
  by apply frame_bytes_safe.
Qed.
Lemma frame_at8_safe m f k i : frame_live m f -> 0 <= k + i < 2048 ->
  mem_safe (slot8 (addr_plus f k) i) m (fun b m' => m' = m /\ byte_ok b).
Proof.
  intros Hf Hk. unfold slot8, slot_bytes, addr_plus. cbn [fst snd]. rewrite <- Z.add_assoc.
  by apply frame8_safe.
Qed.

Lemma find_net_safe m f : frame_live m f -> forall l i,
  mem_safe (find_net l i (addr_plus f 16)) m (fun _ m' => m' = m).
Proof.
  intros Hf. induction l as [|n l IH]; intros i; cbn [find_net]; [by apply mem_safe_ret|].
  eapply mem_safe_bind; [by apply frame_at_safe|]. intros b m' (-> & _).
  destruct (_ =? 0); [by apply mem_safe_ret|apply IH].
Qed.

Lemma no_nul_safe m f k0 : frame_live m f -> forall n k p, 0 <= k0 + k -> k0 + k + Z.of_nat n <= 2048 ->
  mem_safe (no_nul n (addr_plus f k0) k p) m (fun _ m' => m' = m).
Proof.
  intros Hf. induction n as [|n IH]; intros k p Hk Hle; cbn [no_nul]; [by apply mem_safe_ret|].
  eapply mem_safe_bind; [apply frame_at8_safe; [done|lia]|]. intros b m' (-> & _). apply IH; lia.
Qed.

(** The name a frame gives: none, or inside the frame. *)
Definition name_at (f : Z * Z) (name : option (Z * Z)) (len : Z) : Prop :=
  match name with
  | None => len = 0
  | Some a => exists k, a = addr_plus f k /\ 0 <= k /\ 0 <= len /\ k + len <= 2048
  end.

Lemma add_net_safe m f name len ch priv st : frame_live m f -> name_at f name len -> table_ok st ->
  mem_safe (add_net (addr_plus f 16) name len ch priv st) m (fun st' m' => m' = m /\ table_ok st').
Proof.
  intros Hf Hname Hst. unfold add_net. eapply mem_safe_bind; [by apply find_net_safe|].
  intros [i|] m' ->.
  { apply mem_safe_ret. split; [done|]. apply set_entry_ok; [done|]. by apply (nth_entry_ok st). }
  destruct (Nat.leb_spec 128 (g_nnets st)); [by apply mem_safe_ret|]. cbv zeta.
  set (n := if 32 <? len then 32 else len).
  assert (Hn : name_at f name n /\ n <= 32).
  { unfold n. destruct name as [a|]; cbn in *; [|case_bool; lia].
    destruct Hname as (k & -> & ?). case_bool; (split; [exists k; split; [done|lia]|lia]). }
  clearbody n. clear Hname len. destruct Hn as [Hname Hn32].
  destruct (nth_entry_ok st (g_nnets st) Hst) as (_ & _ & Ho & Hob & _).
  set (old := nth _ _ _) in *. clearbody old.
  eapply mem_safe_bind; [by apply frame_at_safe|]. intros mac m' (-> & Hmac & Hmacb).
  eapply (mem_safe_bind _ _ _ (fun p m' => m' = m /\ (p = true -> 0 < n))).
  { destruct (Z.ltb_spec 0 n); [|by apply mem_safe_ret]. destruct name as [a|]; cbn in *; [|lia].
    destruct Hname as (k & -> & ? & ? & ?). eapply mem_safe_mono; [apply no_nul_safe; [done|lia..]|].
    by intros p m' ->. }
  intros p m' [-> Hp]. eapply (mem_safe_bind _ _ _ (fun text m' => m' = m /\
    length text = 33%nat /\ bytes_ok text /\ 0 ∈ text)).
  - destruct p; [|apply mem_safe_ret; split; [done|by apply copied_ok; [done|done|apply (bool_decide_unpack _)|cbn; lia]]].
    destruct name as [a|]; cbn [deref name_at] in *; [|specialize (Hp eq_refl); lia].
    destruct Hname as (k & -> & ? & ? & ?).
    eapply mem_safe_bind; [apply frame_at_safe; [done|lia..]|]. intros b m' (-> & Hb & Hbb).
    apply mem_safe_ret. split; [done|]. apply copied_ok; [done|done|done|lia].
  - intros text m' (-> & Ht). apply mem_safe_ret. split; [done|]. destruct Hst as (H1 & H2 & H3).
    split_and!; cbn; [by rewrite length_insert|lia|]. by apply Forall_insert.
Qed.

Lemma parse_ies_safe m f pkt_len ch priv : frame_live m f -> pkt_len <= 2048 -> forall fuel i st,
  0 <= i <= pkt_len -> pkt_len - i < Z.of_nat fuel -> table_ok st ->
  mem_safe (parse_ies fuel f i pkt_len ch priv st) m (fun st' m' => m' = m /\ table_ok st').
Proof.
  intros Hf Hp. induction fuel as [|fuel IH]; intros i st Hi Hfuel Hst; cbn [parse_ies]; [lia|].
  destruct (Z.leb_spec (i + 2) pkt_len); [|by apply add_net_safe].
  eapply mem_safe_bind; [apply frame8_safe; [done|lia]|]. intros tag m' [-> Ht].
  eapply mem_safe_bind; [apply frame8_safe; [done|lia]|]. intros len m' [-> Hl].
  unfold byte_ok in Hl. destruct (Z.ltb_spec pkt_len (i + 2 + len)); [by apply add_net_safe|].
  destruct (tag =? 0); [|apply IH; [lia..|done]].
  apply add_net_safe; [done|exists (i + 2); split; [done|lia]|done].
Qed.

Lemma parse_frame_safe m buf ch st : slot_live m buf -> table_ok st ->
  mem_safe (parse_frame buf ch st) m (fun st' m' => m' = m /\ table_ok st').
Proof.
  intros Hb Hst. unfold parse_frame. pose proof (rx_frame_ok m buf) as Hf.
  eapply mem_safe_bind; [by apply slot32_safe|]. intros w0 m' [-> _]. specialize (Hf w0 Hb).
  destruct (rx_error w0); [by apply mem_safe_ret|].
  destruct (Z.ltb_spec (rx_pkt_len w0) 36); [by apply mem_safe_ret|].
  destruct (Z.ltb_spec 2048 (rx_pkt_len w0)); [by apply mem_safe_ret|]. cbn [orb].
  eapply mem_safe_bind; [by apply frame_control_safe|]. intros fc m' [-> _].
  destruct (negb (fc_type fc =? 0)); [by apply mem_safe_ret|].
  destruct (_ && _); [by apply mem_safe_ret|].
  eapply mem_safe_bind; [apply frame8_safe; [done|lia]|]. intros cap m' [-> _].
  apply parse_ies_safe; [done|lia..|]. by destruct (_ =? 5).
Qed.

Lemma drain_safe s m ch rp st : rx_live s m -> 0 <= rp < g_rx_n s -> table_ok st ->
  rx_safe s (drain s ch rp st) m (fun '(st', rp') m' => m' = m /\ table_ok st' /\ 0 <= rp' < g_rx_n s).
Proof.
  intros Hs Hrp Hst. unfold drain. eapply mem_safe_if_bind; [apply rx_hw_idx_safe|]. intros hw m' [-> Hhw].
  eapply mem_safe_if_bind.
  { apply (rx_drain_all_safe s m table_ok table_ok); [|done|done|done].
    intros slot st1 Hslot Hst1. apply at_slot_safe; [done|done|done|]. intros buf Hbuf.
    eapply mem_safe_bind; [by apply parse_frame_safe|]. intros st2 m' [-> ?]. by apply mem_safe_ret. }
  intros [v rp'] m' (-> & Hv & Hrp').
  apply mem_safe_if_bind_regs; [by unfold trx_rx_set_host_idx; safe_go|]. intros _.
  apply mem_safe_if_ret. by destruct v.
Qed.

(** The radio as a scan starting from [s0]'s rings keeps it. *)
Record radio_ok (s0 : trx_state) (m : gmap Z Z) (r : radio) : Prop := {
  ro_chip : trx_chip (ra_dev r);
  ro_addr : length (ef_addr (efuse (ra_dev r))) = 6%nat;
  ro_rings : rings_up (ra_trx r) m;
  ro_rx : same_rx s0 (ra_trx r);
  ro_table : table_ok (ra_scan r);
}.

Section ScanSafe.
Context (s0 : trx_state) (m : gmap Z Z).

Lemma send_probe_safe probe rate r : radio_ok s0 m r -> Z.of_nat (length probe) < 2 ^ 31 ->
  mem_safe (send_probe probe rate r) m (fun r' m' => m' = m /\ radio_ok s0 m r').
Proof.
  intros [Hc Ha Hr Hs Ht] Hp. unfold send_probe.
  eapply mem_safe_bind; [apply tx_mgmt_safe; [done|apply Hr|done]|]. intros [ret s'] m' Hpost.
  apply leaf_rings in Hpost as (-> & Hup & Hsame); [|done]. apply mem_safe_ret.
  split; [done|]. split; [done..|by eapply same_rx_trans|done].
Qed.

Lemma dwell_safe iters ch rate probe : Z.of_nat (length probe) < 2 ^ 31 -> forall k i rp r,
  radio_ok s0 m r -> 0 <= rp < g_rx_n s0 ->
  rx_safe s0 (dwell k i iters ch rate probe rp r) m (fun r' m' => m' = m /\ radio_ok s0 m r').
Proof.
  intros Hp. induction k as [|k IH]; intros i rp r Hr Hrp; cbn [dwell]; [by apply mem_safe_if_ret|].
  apply mem_safe_if_bind_regs; [by apply (safe_op no_mem (IrqWait 50) (fun _ => True))|]. intros _.
  apply mem_safe_if_bind_regs; [by safe_go|]. intros isr.
  apply mem_safe_if_bind_regs; [by safe_go|]. intros _.
  pose proof (ro_rx _ _ _ Hr) as [En _]. eapply mem_safe_if_bind.
  { apply (rx_safe_same s0 (ra_trx r)); [apply (ro_rx _ _ _ Hr)|].
    apply drain_safe; [apply (ro_rings _ _ _ Hr)|by rewrite En|apply (ro_table _ _ _ Hr)]. }
  intros [st rp'] m' (-> & Hst & Hrp'). rewrite En in Hrp'. cbv zeta.
  assert (Hr' : radio_ok s0 m (set_ra_scan st r)) by (destruct Hr; by split).
  eapply mem_safe_if_bind.
  { destruct (i =? iters / 2); [apply mem_safe_if_lift; by apply send_probe_safe|by apply mem_safe_if_ret]. }
  intros r' m' [-> Hr'']. by apply IH.
Qed.

Lemma scan_channels_safe probe ms_per : Z.of_nat (length probe) < 2 ^ 31 -> forall channels r,
  radio_ok s0 m r ->
  rx_safe s0 (scan_channels probe ms_per channels r) m (fun r' m' => m' = m /\ radio_ok s0 m r').
Proof.
  intros Hp. induction channels as [|ch l IH]; intros r Hr; cbn [scan_channels]; [by apply mem_safe_if_ret|].
  eapply (mem_safe_if_bind _ _ _ _ (fun r' m' => m' = m /\ radio_ok s0 m r')); [|intros r' m' [-> Hr']; by apply IH].
  unfold scan_channel.
  eapply mem_safe_if_bind; [apply mem_safe_if_lift, mem_safe_regs, regs_mem, set_channel_regs|].
  intros [d c] m' [-> Hd]. cbn in Hd. subst d. cbv zeta. set (r1 := Radio _ _ _ _).
  assert (Hr1 : radio_ok s0 m r1) by (destruct Hr as [[] ? ? ? ?]; split; first [done|by split]).
  eapply mem_safe_if_bind.
  { apply (rx_safe_same s0 (ra_trx r)); [apply (ro_rx _ _ _ Hr)|apply rx_hw_idx_safe]. }
  intros rp m' [-> Hrp]. rewrite (proj1 (ro_rx _ _ _ Hr)) in Hrp.
  apply mem_safe_if_bind_regs; [by unfold trx_rx_set_host_idx; safe_go|]. intros _.
  eapply mem_safe_if_bind; [apply mem_safe_if_lift; by apply send_probe_safe|]. intros r2 m' [-> Hr2].
  by apply dwell_safe.
Qed.
End ScanSafe.

Lemma scan_networks_mem (r : radio) (m : gmap Z Z) (channels : list Z) (ms_per : Z) :
  trx_chip (ra_dev r) -> length (ef_addr (efuse (ra_dev r))) = 6%nat ->
  trx_inv (ra_trx r) m -> table_ok (ra_scan r) ->
  rx_safe (ra_trx r) (scan_networks r channels ms_per) m (fun '(ret, r') m' =>
    m' = m /\ trx_inv (ra_trx r') m /\ same_rx (ra_trx r) (ra_trx r') /\ table_ok (ra_scan r') /\
    (ret = -1 /\ nets (ra_scan r') = [] \/
     ret = Z.of_nat (length (nets (ra_scan r'))) /\ trx_rx_ok (ra_trx r') = true) /\
    trx_chip (ra_dev r') /\ length (ef_addr (efuse (ra_dev r'))) = 6%nat).
Proof.
  intros Hc Ha Hinv (T1 & T2 & T3). unfold scan_networks. set (r1 := set_ra_scan _ r).
  assert (Ht : table_ok (ra_scan r1)) by (split_and!; [done|cbn; lia|done]).
  assert (Hfail : rx_safe (ra_trx r) (mret (-1, r1)) m (fun '(ret, r') m' =>
    m' = m /\ trx_inv (ra_trx r') m /\ same_rx (ra_trx r) (ra_trx r') /\ table_ok (ra_scan r') /\
    (ret = -1 /\ nets (ra_scan r') = [] \/
     ret = Z.of_nat (length (nets (ra_scan r'))) /\ trx_rx_ok (ra_trx r') = true) /\
    trx_chip (ra_dev r') /\ length (ef_addr (efuse (ra_dev r'))) = 6%nat)).
  { apply mem_safe_if_ret. do 4 (split; [done|]). split; [by left|done]. }
  destruct (trx_rx_ok (ra_trx r1)) eqn:Hok; [|done]. cbn [negb].
  apply mem_safe_if_bind_regs; [by apply (safe_op no_mem IrqEnable (fun _ => True))|]. intros irq.
  destruct (negb (irq =? 0)); [done|].
  apply mem_safe_if_bind_regs; [by safe_go|]. intros _. eapply mem_safe_if_bind.
  { apply (scan_channels_safe (ra_trx r) m).
    - unfold build_probe_req. rewrite !length_app. cbn in *. rewrite Ha. done.
    - split; [done|done| |done|done]. split; [done|by apply inv_rx_live]. }
  intros r2 m' [-> [Hc2 Ha2 [Hi _] Hs Ht2]].
  apply mem_safe_if_bind_regs; [by apply (safe_op no_mem IrqDisable (fun _ => True))|]. intros _.
  apply mem_safe_if_ret. do 4 (split; [done|]). split; [right|done].
  destruct Ht2 as (L1 & L2 & _). unfold nets. rewrite length_take. split; [f_equal; lia|].
  unfold trx_rx_ok. by rewrite (proj2 (proj2 Hs)).
Qed.

(** C15: whatever the chip writes into the receive ring (its index inside the
    ring), a scan reads and writes only live memory, its bus-master state stays
    usable, and the network list stays well formed: at most 128 entries, every
    name terminated inside its array.  The result is -1 or the number of
    entries. *)
Theorem scan_networks_safe (r : radio) (m : gmap Z Z) (channels : list Z) (ms_per : Z) :
  trx_chip (ra_dev r) -> length (ef_addr (efuse (ra_dev r))) = 6%nat ->
  trx_inv (ra_trx r) m -> table_ok (ra_scan r) ->
  rx_safe (ra_trx r) (scan_networks r channels ms_per) m (fun '(ret, r') m' =>
    m' = m /\ trx_inv (ra_trx r') m /\ same_rx (ra_trx r) (ra_trx r') /\ table_ok (ra_scan r') /\
    (ret = -1 \/ ret = Z.of_nat (length (nets (ra_scan r'))))).
Proof.
  intros Hc Ha Hi Ht. eapply mem_safe_if_mono; [by apply scan_networks_mem|].
  intros [ret r'] m' (-> & ? & ? & ? & [[-> _]|[-> _]] & _); do 4 (split; [done|]); auto.
Qed.

(** ** A beacon heard is a network found *)

(** A name a scan can show. *)
Definition printable (name : list Z) : bool := negb (bool_decide (name = [])) && forallb (fun b => negb (b =? 0)) name.

Lemma printable_nonzero name : printable name = true -> Forall (fun b => b <> 0) name.
Proof.
  unfold printable. intros [_ H]%andb_true_iff. rewrite forallb_forall in H. apply Forall_forall.
  intros b Hb%H. by destruct (Z.eqb_spec b 0).
Qed.

(** The entry a new network gets: the name as it was sent, cut to 32 bytes. *)
Definition heard (mac name : list Z) (ch : Z) (priv : bool) (n : net_entry) : Prop :=
  let name := take 32 name in
  bssid n = mac /\ channel n = ch /\ beacons n = 1 /\ privacy n = priv /\
  hidden n = negb (printable name) /\ c_str (ssid n) = if printable name then name else HIDDEN_NAME.

Lemma splice_c_str old text : Forall (fun b => b <> 0) text -> c_str (splice old 0 (text ++ [0])) = text.
Proof. intros Ht. unfold splice. cbn [take]. rewrite <- app_assoc. by apply c_str_app. Qed.

Section Heard.
Context {W : Type} (dev : Device W) (h : Z) (img : list Z) {SM : SlotMem dev h img}.
Context (foff : Z) (frame : list Z) (Hf : holds img foff frame).

Lemma run_frame_bytes k i n w : 0 <= k -> 0 <= i -> 0 <= n -> k + i + n <= Z.of_nat (length frame) ->
  run (slot_bytes (addr_plus (h, foff) k) i n) w = (take (Z.to_nat n) (drop (Z.to_nat (k + i)) frame), w).
Proof.
  intros Hk Hi Hn Hle. unfold slot_bytes, addr_plus. cbn [fst snd]. rewrite <- Z.add_assoc.
  apply (run_slot_bytes dev h img foff frame); [done|lia..].
Qed.
Lemma run_frame8 k i w : 0 <= k -> 0 <= i -> k + i < Z.of_nat (length frame) ->
  run (slot8 (addr_plus (h, foff) k) i) w = (frame.[Z.to_nat (k + i)], w).
Proof.
  intros Hk Hi Hle. unfold slot8, slot_bytes, addr_plus. cbn [fst snd]. rewrite <- Z.add_assoc.
  apply (run_slot8 dev h img foff frame); [done|lia].
Qed.

Lemma run_find_net l w : Forall (fun n => length (bssid n) = 6%nat) l -> (22 <= length frame)%nat -> forall i,
  run (find_net l i (addr_plus (h, foff) 16)) w =
    ((fun x => (i + x.1)%nat) <$> list_find (fun n => bssid n = take 6 (drop 16 frame)) l, w).
Proof.
  intros Hl Hlen. induction Hl as [|n l Hn _ IH]; intros i; cbn [find_net list_find]; [done|].
  rewrite run_bind, run_frame_bytes by lia. change (Z.to_nat (16 + 0)) with 16%nat. change (Z.to_nat 6) with 6%nat.
  rewrite memcmp_eqb by (rewrite length_take, length_drop; lia).
  destruct (decide (bssid n = _)) as [E|E].
  - rewrite bool_decide_eq_true_2 by done. cbn. by rewrite Nat.add_0_r.
  - rewrite bool_decide_eq_false_2 by done. rewrite IH. f_equal.
    destruct (list_find _ l) as [[j x]|]; [|done]. cbn. f_equal. lia.
Qed.

Lemma run_no_nul k0 w : 0 <= k0 -> forall n k p, 0 <= k -> k0 + k + Z.of_nat n <= Z.of_nat (length frame) ->
  run (no_nul n (addr_plus (h, foff) k0) k p) w =
    (p && forallb (fun b => negb (b =? 0)) (take n (drop (Z.to_nat (k0 + k)) frame)), w).
Proof.
  intros Hk0. induction n as [|n IH]; intros k p Hk Hle; cbn [no_nul].
  { cbn. by rewrite andb_true_r. }
  rewrite run_bind, run_frame8 by lia. rewrite IH by lia.
  destruct (lookup_lt_is_Some_2 frame (Z.to_nat (k0 + k))) as [b Hb]; [lia|].
  rewrite (drop_S _ b _ Hb), (nth_lookup_Some _ _ 0 b Hb). cbn [take forallb].
  replace (Z.to_nat (k0 + (k + 1))) with (S (Z.to_nat (k0 + k))) by lia.
  destruct (b =? 0); cbn; [by rewrite andb_false_r|done].
Qed.

(** What [add_net] does with the name at [k] of the frame. *)
Lemma run_add_net k len ch priv st w : table_ok st -> (22 <= length frame)%nat ->
  0 <= k -> 0 <= len -> k + len <= Z.of_nat (length frame) ->
  let mac := take 6 (drop 16 frame) in
  let name := take (Z.to_nat len) (drop (Z.to_nat k) frame) in
  let known := list_find (fun n => bssid n = mac) (nets st) in
  exists st', run (add_net (addr_plus (h, foff) 16) (Some (addr_plus (h, foff) k)) len ch priv st) w = (st', w) /\
    g_probe_resp st' = g_probe_resp st /\
    match known with
    | Some (i, n) => nets st' = <[i := NetEntry (bssid n) (ssid n) (channel n) (i32 (beacons n + 1)) (hidden n) (privacy n)]> (nets st)
    | None => if (128 <=? g_nnets st)%nat then st' = st
              else exists n, nets st' = nets st ++ [n] /\ heard mac name ch priv n
    end.
Proof.
  intros (T1 & T2 & T3) Hlen Hk Hl Hle mac name known.
  assert (Hmacs : Forall (fun n => length (bssid n) = 6%nat) (nets st)).
  { apply Forall_take. eapply List.Forall_impl; [|apply T3]. by intros n [? _]. }
  unfold add_net. rewrite run_bind, run_find_net by done. fold mac. fold known.
  destruct known as [[i n]|] eqn:Hknown; cbn [fmap option_fmap option_map].
  { eexists; split; [done|]. split; [done|]. unfold known in Hknown. apply list_find_Some in Hknown as (Hi & _ & _).
    cbn [fst Nat.add]. unfold nets in *. apply lookup_take_Some in Hi as [Hi Hlt].
    rewrite (nth_lookup_Some _ _ net_entry0 n Hi). unfold set_entry. cbn [g_nets g_nnets].
    by rewrite take_insert_lt. }
  destruct (Nat.leb_spec 128 (g_nnets st)); [by eexists|]. cbv zeta. cbn [deref].
  rewrite run_bind, run_frame_bytes by lia. change (take (Z.to_nat 6) (drop (Z.to_nat (16 + 0)) frame)) with mac.
  set (n := if 32 <? len then 32 else len).
  assert (Hn : n = Z.min 32 len) by (unfold n; case_bool; lia). clearbody n. subst n.
  assert (Hname : take (Z.to_nat (Z.min 32 len)) (drop (Z.to_nat k) frame) = take 32 name).
  { unfold name. rewrite take_take. f_equal. lia. }
  assert (Hlname : length (take 32 name) = Z.to_nat (Z.min 32 len)).
  { rewrite <- Hname, length_take, length_drop. lia. }
  rewrite run_bind.
  replace (run (if 0 <? Z.min 32 len then _ else _) w) with (printable (take 32 name), w).
  2:{ unfold printable. destruct (Z.ltb_spec 0 (Z.min 32 len)).
      - rewrite run_no_nul by lia. rewrite Z.add_0_r, Hname. rewrite bool_decide_eq_false_2; [done|].
        intros E. rewrite E in Hlname. cbn in Hlname. lia.
      - cbn. rewrite bool_decide_eq_true_2; [done|]. apply length_zero_iff_nil. lia. }
  rewrite run_bind. set (old := nth (g_nnets st) (g_nets st) net_entry0).
  set (text := splice (ssid old) 0 ((if printable (take 32 name) then take 32 name else HIDDEN_NAME) ++ [0])).
  replace (run (if printable (take 32 name) then _ else _) w) with (text, w).
  2:{ unfold text. destruct (printable (take 32 name)); [|done].
      rewrite run_bind, run_frame_bytes by lia. rewrite Z.add_0_r. cbn [run mret prog_ret]. by rewrite Hname. }
  cbn [run mret prog_ret]. eexists; split; [done|]. split; [done|]. eexists; split.
  - unfold nets. cbn [g_nets g_nnets]. erewrite take_S_r; [|by apply list_lookup_insert_eq; lia].
    by rewrite take_insert_ge.
  - split_and!; try done. unfold text. cbn [ssid].
    destruct (printable (take 32 name)) eqn:Hp; apply splice_c_str; [by apply printable_nonzero|].
    apply (bool_decide_unpack _). by vm_compute.
Qed.

(** An element the walk passes over. *)
Definition passed (e : Z * list Z) : Prop := e.1 <> 0 /\ (length e.2 < 256)%nat.

Lemma run_parse_ies name tail ch priv st w : (length name < 256)%nat -> forall before pre fuel,
  frame = pre ++ concat (map tlv before) ++ tlv (0, name) ++ tail ->
  Forall passed before -> (length before < fuel)%nat ->
  run (parse_ies fuel (h, foff) (Z.of_nat (length pre)) (Z.of_nat (length frame)) ch priv st) w =
  run (add_net (addr_plus (h, foff) 16)
         (Some (addr_plus (h, foff) (Z.of_nat (length pre + length (concat (map tlv before)) + 2))))
         (Z.of_nat (length name)) ch priv st) w.
Proof.
  intros Hname. induction before as [|[t b] before IH]; intros pre fuel Hfr Hp Hfuel;
    (destruct fuel as [|fuel]; [cbn in Hfuel; lia|]); cbn [parse_ies].
  - assert (H0 : frame.[length pre] = 0 /\ frame.[S (length pre)] = Z.of_nat (length name)).
    { rewrite Hfr. split; [by rewrite app_nth2, Nat.sub_diag by lia|].
      rewrite app_nth2 by lia. by replace (S (length pre) - length pre)%nat with 1%nat by lia. }
    assert (Hlen : (length frame = length pre + 2 + length name + length tail)%nat)
      by (rewrite Hfr; cbn; rewrite !length_app; cbn; rewrite length_app; lia).
    destruct (Z.leb_spec (Z.of_nat (length pre) + 2) (Z.of_nat (length frame))); [|lia].
    rewrite run_bind, (run_slot8 dev h img foff frame) by (done || lia).
    rewrite run_bind, (run_slot8 dev h img foff frame) by (done || lia).
    rewrite Nat2Z.id. replace (Z.to_nat (Z.of_nat (length pre) + 1)) with (S (length pre)) by lia.
    destruct H0 as [-> ->]. case_bool; [lia|]. cbn [Z.eqb]. repeat f_equal. cbn. lia.
  - apply Forall_cons_1 in Hp as [[Ht Hb] Hp]. cbn [fst snd] in *.
    assert (H0 : frame.[length pre] = t /\ frame.[S (length pre)] = Z.of_nat (length b)).
    { rewrite Hfr. split; [by rewrite app_nth2, Nat.sub_diag by lia|].
      rewrite app_nth2 by lia. by replace (S (length pre) - length pre)%nat with 1%nat by lia. }
    assert (Hlen : (length pre + 2 + length b <= length frame)%nat)
      by (rewrite Hfr; cbn; rewrite !length_app; cbn; rewrite !length_app; lia).
    destruct (Z.leb_spec (Z.of_nat (length pre) + 2) (Z.of_nat (length frame))); [|lia].
    rewrite run_bind, (run_slot8 dev h img foff frame) by (done || lia).
    rewrite run_bind, (run_slot8 dev h img foff frame) by (done || lia).
    rewrite Nat2Z.id. replace (Z.to_nat (Z.of_nat (length pre) + 1)) with (S (length pre)) by lia.
    destruct H0 as [-> ->]. case_bool; [lia|]. case_bool; [done|].
    specialize (IH (pre ++ tlv (t, b)) fuel). rewrite length_app in IH. cbn [tlv length fst snd] in IH.
    replace (Z.of_nat (length pre) + (2 + Z.of_nat (length b))) with (Z.of_nat (length pre + S (S (length b)))) by lia.
    rewrite IH; [|rewrite Hfr; cbn; by rewrite <- !app_assoc|done|cbn in Hfuel; lia].
    do 4 f_equal. cbn. rewrite !length_app. cbn. lia.
Qed.
End Heard.

Lemma elements_length l : (length l <= length (concat (map tlv l)))%nat.
Proof. induction l as [|e l IH]; [done|]. cbn. rewrite length_app. lia. Qed.

(** The new network is found by its name, unless an earlier entry has it. *)
Lemma find_appended (st st' : scan_state) n name rest :
  nets st' = nets st ++ [n] -> hidden n = false -> c_str (ssid n) = name -> Forall (fun b => b <> 0) name ->
  Forall (fun n' => hidden n' = true \/ c_str (ssid n') <> name) (nets st) ->
  find_by_ssid st' (name ++ 0 :: rest) = Some (bssid n, channel n).
Proof.
  intros Hn Hh Hs Hz Hall. unfold find_by_ssid. rewrite Hn.
  assert (Hfind : forall l, Forall (fun n' => hidden n' = true \/ c_str (ssid n') <> name) l ->
    find (fun n' => negb (hidden n') && str_eq (ssid n') (name ++ 0 :: rest)) (l ++ [n]) = Some n).
  { unfold str_eq. rewrite c_str_app by done. induction 1 as [|n' l Hn' _ IH]; cbn.
    - by rewrite Hh, Hs, bool_decide_eq_true_2.
    - destruct Hn' as [-> |Hne]; [done|]. rewrite bool_decide_eq_false_2 by done. by rewrite andb_false_r. }
  by rewrite Hfind.
Qed.

(** C30: a beacon (or probe response) in a slot the chip is not writing is
    recorded as it was sent.  If its BSSID is listed, only that entry's count
    goes up, by one as an int counts; if it is new and the table has room, one entry is appended that
    carries its BSSID, channel, privacy bit and its first SSID element, cut to
    32 bytes, or "<hidden>" when that is empty or holds a NUL.  Such an entry is
    what a lookup by that name answers, unless an earlier entry has the name. *)
Theorem beacon_recorded (W : Type) (dev : Device W) (h : Z) (img : list Z) (SM : SlotMem dev h img)
    (off w0 : Z) (head : list Z) (before : list (Z * list Z)) (name tail : list Z) (ch : Z)
    (st : scan_state) (w : W) :
  let frame := head ++ concat (map tlv before) ++ tlv (0, name) ++ tail in
  let fc := u16 (head.[0] .| (head.[1] << 8)) in
  let mac := take 6 (drop 16 head) in
  let priv := nz (head.[34] .& 0x10) in
  holds img off (le32 w0) -> 0 <= w0 < 2 ^ 32 -> rx_error w0 = false ->
  rx_pkt_len w0 = Z.of_nat (length frame) -> Z.of_nat (length frame) <= 2048 ->
  holds img (rx_frame (h, off) w0).2 frame ->
  length head = 36%nat -> fc_type fc = 0 -> fc_subtype fc = 8 \/ fc_subtype fc = 5 ->
  Forall passed before -> (length name < 256)%nat -> table_ok st ->
  exists st', run (parse_frame (h, off) ch st) w = (st', w) /\
    g_probe_resp st' = g_probe_resp st + (if fc_subtype fc =? 5 then 1 else 0) /\
    match list_find (fun n => bssid n = mac) (nets st) with
    | Some (i, n) =>
        nets st' = <[i := NetEntry (bssid n) (ssid n) (channel n) (i32 (beacons n + 1)) (hidden n) (privacy n)]> (nets st)
    | None =>
        if (128 <=? g_nnets st)%nat then nets st' = nets st
        else exists n, nets st' = nets st ++ [n] /\ heard mac name ch priv n /\
          (printable name = true -> (length name <= 32)%nat ->
           Forall (fun n' => hidden n' = true \/ c_str (ssid n') <> name) (nets st) ->
           forall rest, find_by_ssid st' (name ++ 0 :: rest) = Some (mac, ch))
    end.
Proof.
  intros frame fc mac priv Hw0 Hr Herr Hlen H2048 Hf Hhead Hty Hsub Hbefore Hname Hst.
  unfold parse_frame. rewrite run_bind, (run_slot32 dev h img off w0) by done. rewrite Herr, Hlen.
  assert (Hlfr : length frame = (36 + length (concat (map tlv before)) + 2 + length name + length tail)%nat)
    by (unfold frame; rewrite length_app, length_app; cbn; rewrite length_app; lia).
  destruct (Z.ltb_spec (Z.of_nat (length frame)) 36); [lia|].
  destruct (Z.ltb_spec 2048 (Z.of_nat (length frame))); [lia|]. cbn [orb].
  set (foff := (rx_frame (h, off) w0).2) in *.
  change (rx_frame (h, off) w0) with (h, foff).
  assert (Hat : forall i, (i < 36)%nat -> frame.[i] = head.[i]) by (intros i Hi; unfold frame; by rewrite app_nth1 by lia).
  unfold frame_control. rewrite run_bind, run_bind, (run_slot8 dev h img foff frame) by (done || lia).
  rewrite run_bind, (run_slot8 dev h img foff frame) by (done || lia).
  rewrite !Hat by (cbn; lia). cbn [run mret prog_ret]. change (u16 _) with fc. rewrite Hty. cbn [Z.eqb negb].
  replace (negb (fc_subtype fc =? 8) && negb (fc_subtype fc =? 5)) with false by lia.
  rewrite run_bind, (run_slot8 dev h img foff frame) by (done || lia). rewrite Hat by (cbn; lia).
  change (nz _) with priv. set (st0 := if fc_subtype fc =? 5 then count_probe_resp st else st).
  assert (Hst0 : table_ok st0 /\ nets st0 = nets st /\ g_nnets st0 = g_nnets st /\
    g_probe_resp st0 = g_probe_resp st + (if fc_subtype fc =? 5 then 1 else 0)).
  { unfold st0. destruct (fc_subtype fc =? 5); [done|]. split_and!; try done. lia. }
  clearbody st0. destruct Hst0 as (Hst0 & Hnets & Hnn & Hpr).
  rewrite Nat2Z.id. replace (24 + 12) with (Z.of_nat (length head)) by lia.
  rewrite (run_parse_ies dev h img foff frame Hf name tail ch priv st0 w Hname before head); [|done|done|].
  2:{ pose proof (elements_length before). lia. }
  set (k := (length head + _ + 2)%nat).
  assert (Hdrop : drop k frame = name ++ tail).
  { replace frame with ((head ++ concat (map tlv before) ++ [0; Z.of_nat (length name)]) ++ name ++ tail)
      by (unfold frame; by rewrite <- !app_assoc).
    apply drop_app_length'. unfold k. rewrite !length_app. cbn. lia. }
  assert (Hkl : (k + length name <= length frame)%nat).
  { apply (f_equal length) in Hdrop. rewrite length_drop, length_app in Hdrop. lia. }
  destruct (run_add_net dev h img foff frame Hf (Z.of_nat k) (Z.of_nat (length name)) ch priv st0 w Hst0)
    as (st' & -> & Hpr' & Hres); [lia..|].
  rewrite !Nat2Z.id, Hdrop, take_app_length, Hnets, Hnn in Hres.
  assert (Hmac : take 6 (drop 16 frame) = mac) by (unfold frame, mac; rewrite drop_app_le, take_app_le by (rewrite ?length_drop; lia); done).
  rewrite Hmac in Hres. exists st'. split; [done|]. split; [by rewrite Hpr', Hpr|].
  destruct (list_find _ (nets st)) as [[i n]|]; [done|]. destruct (128 <=? g_nnets st)%nat; [by rewrite Hres, Hnets|].
  destruct Hres as (n & Hn & Hheard). exists n. split; [done|]. split; [done|].
  intros Hp Hle Hall rest. destruct Hheard as (E1 & E2 & _ & _ & Hh & Hs).
  rewrite take_ge in Hh, Hs by lia. rewrite Hp in Hh, Hs. rewrite <- E1, <- E2.
  apply (find_appended st st'); try done; by apply printable_nonzero.
Qed.

(** The target of an automatic join is a known, named network no other such
    network was heard more often than. *)
Lemma best_of_spec known l : forall best,
  match best_of known l best with
  | Some b =>
      (best = Some b \/ b ∈ l /\ hidden b = false /\ known (ssid b) = true) /\
      (forall n, best = Some n \/ n ∈ l /\ hidden n = false /\ known (ssid n) = true -> beacons n <= beacons b)
  | None => best = None /\ forall n, n ∈ l -> hidden n = true \/ known (ssid n) = false
  end.
Proof.
  induction l as [|n l IH]; intros best; cbn [best_of].
  { destruct best as [b|]; [|split; [done|intros n Hn; inversion Hn]].
    split; [by left|]. intros n [[= ->]|(Hn & _)]; [lia|inversion Hn]. }
  set (best' := if hidden n then _ else _). specialize (IH best').
  assert (Hcase : (best' = best /\ (hidden n = true \/ known (ssid n) = false \/ exists b, best = Some b /\ beacons n <= beacons b)) \/
    (best' = Some n /\ hidden n = false /\ known (ssid n) = true /\ forall b, best = Some b -> beacons b <= beacons n)).
  { unfold best'. destruct (hidden n); [by left; auto|]. destruct (known (ssid n)); cbn [negb]; [|by left; auto].
    destruct best as [b|]; [|right; by auto]. destruct (Z.ltb_spec (beacons b) (beacons n)).
    - right. split_and!; try done. intros b' [= <-]. lia.
    - left. split; [done|]. right. right. eauto. }
  clearbody best'. destruct (best_of known l best') as [b|].
  - destruct IH as [H1 H2]. split.
    + destruct H1 as [E|(Hin & H1)]; [|right; split; [by right|done]].
      destruct Hcase as [[-> _]|(E' & Hh & Hk & _)]; [by left|].
      rewrite E' in E. injection E as ->. right. split; [by left|done].
    + intros n' [E|(Hin & Hn')].
      * destruct Hcase as [[-> _]|(-> & _ & _ & Hle)]; [apply H2; by left|].
        specialize (Hle n' E). specialize (H2 n (or_introl eq_refl)). lia.
      * apply elem_of_cons in Hin as [->|Hin]; [|apply H2; by right].
        destruct Hcase as [[-> [|[|(b' & -> & Hle)]]]|(-> & _)]; try (destruct Hn'; congruence).
        -- specialize (H2 b' (or_introl eq_refl)). lia.
        -- apply H2. by left.
  - destruct IH as [-> IH]. destruct Hcase as [[<- Hn]|(? & _)]; [|done]. split; [done|].
    intros n' [->|Hin]%elem_of_cons; [|by apply IH]. destruct Hn as [|[|(b & ? & _)]]; [by left|by right|done].
Qed.

(** ** Witnesses *)

Definition radio_example : radio := Radio (example_dev [] []) ch_cache0 trx_up_example scan_state0.

Lemma scan_networks_safe_witness :
  rx_safe (ra_trx radio_example) (scan_networks radio_example [1; 6; 36] 150) mem_example (fun '(ret, r') m' =>
    m' = mem_example /\ trx_inv (ra_trx r') mem_example /\ same_rx (ra_trx radio_example) (ra_trx r') /\
    table_ok (ra_scan r') /\ (ret = -1 \/ ret = Z.of_nat (length (nets (ra_scan r'))))).
Proof.
  refine (scan_networks_safe radio_example mem_example [1; 6; 36] 150 _ eq_refl (proj1 rings_up_example) _).
  - by constructor.
  - apply (bool_decide_unpack _). by vm_compute.
Defined.

(** A beacon of "home" on channel 6, with a rates element before the name. *)
Definition beacon_head : list Z :=
  [0x80; 0; 0; 0] ++ replicate 6 0xff ++ replicate 6 2 ++ replicate 6 2 ++ replicate 2 0 ++ replicate 8 0 ++
  [100; 0; 0x11; 0x04].
Definition home : list Z := [0x68; 0x6f; 0x6d; 0x65].
Definition beacon_frame : list Z :=
  beacon_head ++ concat (map tlv [(1, [0x82; 0x84])]) ++ tlv (0, home) ++ tlv (3, [6]).
Definition beacon_slot : list Z := le32 49 ++ replicate 20 0 ++ beacon_frame.

Definition still_dev : Device unit := fun o w =>
  match o as o return hwres o * unit with
  | MemRead _ off n => (take (Z.to_nat n) (drop (Z.to_nat off) beacon_slot), w)
  | o => (hw_default o, w)
  end.
Lemma still_slot : SlotMem still_dev 5 beacon_slot.
Proof. split; [apply (bool_decide_unpack _); by vm_compute|done]. Qed.

Lemma beacon_recorded_witness :
  exists st', run (H := still_dev) (parse_frame (5, 0) 6 scan_state0) tt = (st', tt) /\
    g_probe_resp st' = 0 /\
    exists n, nets st' = [n] /\ heard (replicate 6 2) home 6 true n /\
      (printable home = true -> (length home <= 32)%nat ->
       Forall (fun n' => hidden n' = true \/ c_str (ssid n') <> home) [] ->
       forall rest, find_by_ssid st' (home ++ 0 :: rest) = Some (replicate 6 2, 6)).
Proof.
  refine (beacon_recorded unit still_dev 5 beacon_slot still_slot 0 49 beacon_head [(1, [0x82; 0x84])] home
    (tlv (3, [6])) 6 scan_state0 tt _ _ eq_refl eq_refl _ _ eq_refl eq_refl (or_introl eq_refl) _ _ _);
    try (apply (bool_decide_unpack _); by vm_compute); try by vm_compute.
Defined.
