(* ===== verification/Assoc.v ===== *)
(** * Assoc: 802.11 authentication and association (core/assoc.c)

    Building the two requests, waiting for the access point's answers on the
    receive ring, learning its capabilities and handing over to the WPA2
    handshake.  Proved: joining stays inside its buffers whatever frames arrive,
    ends with one of its four results, and reports success only after an
    authentication and an association response of the access point that both
    say so. *)
From stdpp Require Import gmap.
From S2P Require Import Prelude Hw Regs Dev Aes Sec Media Wpa Trx Rx Handshake Phy Channel.
Open Scope Z_scope.
Open Scope rtw_scope.

(** ** State: the globals a join uses and changes *)

Record station := Station { st_supp : supp; st_cache : ch_cache; st_iqk_seq : Z }.
Definition set_supp (u : supp) (g : station) : station := Station u (st_cache g) (st_iqk_seq g).
Definition st_trx (g : station) : trx_state := su_trx (st_supp g).
Definition set_st_trx (s : trx_state) (g : station) : station := set_supp (set_trx s (st_supp g)) g.
Definition set_caps (ht vht : bool) (u : supp) : supp :=
  let s := su_session u in
  Supp (su_trx u) (su_keys u) (su_rsbox u) (Session ht vht (s_raid s) (init_rate s)) (su_box u).

(** ** Frame builders *)

Definition put_hdr (subtype : Z) (da sa bssid : list Z) : list Z :=
  [u8 (subtype << 4); 0x00; 0; 0] ++ da ++ sa ++ bssid ++ [0; 0].

Definition build_auth_req (sa bssid : list Z) : list Z :=
  put_hdr 11 bssid sa bssid ++ [0; 0; 1; 0; 0; 0].

Definition RTW_ADVERTISE_VHT : bool := false.

Definition build_assoc_req (sa bssid ssid : list Z) (ssid_len : Z) (five_ghz : bool) : list Z :=
  put_hdr 0 bssid sa bssid ++
  [0x11; 0x04; 0x0a; 0x00] ++
  [0; ssid_len] ++ take (Z.to_nat ssid_len) ssid ++
  [1] ++
  (if five_ghz then [8; 0x8c; 0x12; 0x98; 0x24; 0xb0; 0x48; 0x60; 0x6c]
   else [8; 0x82; 0x84; 0x8b; 0x96; 0x0c; 0x12; 0x18; 0x24]) ++
  [48; 20; 0x01; 0x00; 0x00; 0x0f; 0xac; 0x04; 0x01; 0x00; 0x00; 0x0f; 0xac; 0x04;
   0x01; 0x00; 0x00; 0x0f; 0xac; 0x02; 0x00; 0x00] ++
  [45; 26; 0x20; 0x08; 0x1b; 0xff] ++ replicate 15 0x00 ++ [0x00; 0x00; 0x00; 0x00; 0x00; 0x00; 0x00] ++
  (if five_ghz && RTW_ADVERTISE_VHT
   then [191; 12; 0x02; 0x00; 0x00; 0x00; 0xfe; 0xff; 0x00; 0x00; 0xfe; 0xff; 0x00; 0x00]
   else []).

(** ** Waiting for a response *)

(** What [wait_mgmt_resp] does with one slot: the frame body, copied to the
    caller's array of [room] bytes; [cap] is the size it was told. *)
Definition mgmt_in_slot (bssid : list Z) (want room cap : Z) (buf : Z * Z) : prog (visit unit (list Z)) :=
  let skip := mret (Go tt) in
  w0 ← slot32 buf 0;
  let pkt_len := rx_pkt_len w0 in
  if rx_error w0 || (pkt_len <? 30) || (2048 <? pkt_len) then skip else
  let f := rx_frame buf w0 in
  fc ← frame_control f;
  if negb (fc_type fc =? 0) || negb (fc_subtype fc =? want) then skip else
  from ← slot_bytes f 16 6;
  if negb (memcmp from bssid =? 0) then skip else
  let blen := pkt_len - 24 in
  let blen := if cap <? blen then cap else blen in
  if 6 <=? blen then
    bytes ← slot_bytes f 24 blen;
    body ← copy_out room bytes;
    mret (Stop body)
  else skip.

Definition wait_mgmt_resp (s : trx_state) (bssid : list Z) (want room cap ms : Z) : prog (option (list Z)) :=
  rp ← trx_rx_hw_idx;
  trx_rx_set_host_idx rp;;
  '(v, rp) ← poll_ring (poll_rounds ms) s (fun buf _ => mgmt_in_slot bssid want room cap buf) (fun _ => false) rp tt;
  mret (match v with Stop body => Some body | Go _ => None end).

(** [listen_eapol]: counts of data and EAPOL frames from the access point. *)
Definition listen_slot (bssid : list Z) (buf : Z * Z) (a : Z * Z) : prog (visit (Z * Z) unit) :=
  let '(data, eapol) := a in
  w0 ← slot32 buf 0;
  let pkt_len := rx_pkt_len w0 in
  if rx_error w0 || (pkt_len <? 32) || (2048 <? pkt_len) then mret (Go a) else
  let f := rx_frame buf w0 in
  fc ← frame_control f;
  if negb (fc_type fc =? 2) then mret (Go a) else
  from ← slot_bytes f 10 6;
  if negb (memcmp from bssid =? 0) then mret (Go a) else
  let data := data + 1 in
  let hdr := 24 + (if nz (fc_subtype fc .& 0x8) then 2 else 0) in
  if pkt_len <? hdr + 8 then mret (Go (data, eapol)) else
  l0 ← slot8 f hdr;
  if negb (l0 =? 0xaa) then mret (Go (data, eapol)) else
  l1 ← slot8 f (hdr + 1);
  if negb (l1 =? 0xaa) then mret (Go (data, eapol)) else
  l6 ← slot8 f (hdr + 6);
  if negb (l6 =? 0x88) then mret (Go (data, eapol)) else
  l7 ← slot8 f (hdr + 7);
  mret (Go (data, if l7 =? 0x8e then eapol + 1 else eapol)).

Definition listen_eapol (s : trx_state) (bssid : list Z) : prog unit :=
  rp ← trx_rx_hw_idx;
  trx_rx_set_host_idx rp;;
  poll_ring (poll_rounds 2000) s (listen_slot bssid) (fun a => negb (a.2 =? 0)) rp (0, 0);;
  mret tt.

(** ** The join *)

(** A field of a response body. *)
Definition body16 (body : list Z) (i : nat) : Z := u16 (body.[i] .| (body.[S i] << 8)).

(** [u8 body[160]], and [blen = sizeof(body)] before each call. *)
Definition body_size : Z := 160.

(** At most [t] authentication attempts; true once the status is 0. *)
Fixpoint auth_try (t : nat) (d : rtw_dev) (s : trx_state) (bssid : list Z) (rate : Z) : prog (bool * trx_state) :=
  match t with
  | O => mret (false, s)
  | S t =>
      '(_, s) ← trx_tx_mgmt d s (build_auth_req (ef_addr (efuse d)) bssid) rate false;
      r ← wait_mgmt_resp s bssid 11 body_size body_size 250;
      match r with
      | Some body => mret (body16 body 4 =? 0, s)
      | None => auth_try t d s bssid rate
      end
  end.

(** The walk over the response's elements from offset [i]: HT and VHT seen. *)
Fixpoint caps_walk (fuel : nat) (body : list Z) (i : nat) (ht vht : bool) : bool * bool :=
  match fuel with
  | O => (ht, vht)
  | S fuel =>
      if (i + 2 <=? length body)%nat then
        let t := body.[i] in
        let l := Z.to_nat body.[S i] in
        if (length body <? i + 2 + l)%nat then (ht, vht)
        else if t =? 45 then caps_walk fuel body (i + (2 + l)) true vht
        else if t =? 191 then caps_walk fuel body (i + (2 + l)) ht true
        else caps_walk fuel body (i + (2 + l)) ht vht
      else (ht, vht)
  end.
Definition learn_caps (body : list Z) : bool * bool := caps_walk (S (length body)) body 6 false false.

(** After an association response with status 0. *)
Definition joined (d : rtw_dev) (g : station) (bssid ssid : list Z) (channel : Z) (pass : option (list Z))
    (body : list Z) : prog station :=
  let '(ht, vht) := learn_caps body in
  let u := set_caps ht vht (st_supp g) in
  match pass with
  | Some p =>
      if nz p.[0] then
        '(_, u) ← wpa_handshake d u bssid (c_str ssid) (c_str p) channel;
        mret (set_supp u g)
      else (listen_eapol (su_trx u) bssid;; mret (set_supp u g))
  | None => listen_eapol (su_trx u) bssid;; mret (set_supp u g)
  end.

Fixpoint assoc_try (t : nat) (d : rtw_dev) (g : station) (bssid ssid : list Z) (ssid_len channel rate : Z)
    (five : bool) (pass : option (list Z)) : prog (Z * station) :=
  match t with
  | O => mret (-3, g)
  | S t =>
      '(_, s) ← trx_tx_mgmt d (st_trx g) (build_assoc_req (ef_addr (efuse d)) bssid ssid ssid_len five) rate false;
      let g := set_st_trx s g in
      r ← wait_mgmt_resp s bssid 1 body_size body_size 250;
      match r with
      | Some body =>
          if body16 body 2 =? 0 then
            g ← joined d g bssid ssid channel pass body;
            mret (0, g)
          else mret (-2, g)
      | None => assoc_try t d g bssid ssid ssid_len channel rate five pass
      end
  end.

(** Program the receive identity. *)
Definition set_identity (a bssid : list Z) (five : bool) : prog unit :=
  hw_write32 REG_MACID (a.[0] .| (a.[1] << 8) .| (a.[2] << 16) .| (a.[3] << 24));;
  hw_write16 (REG_MACID + 4) (a.[4] .| (a.[5] << 8));;
  hw_write32 REG_BSSID (bssid.[0] .| (bssid.[1] << 8) .| (bssid.[2] << 16) .| (bssid.[3] << 24));;
  hw_write16 (REG_BSSID + 4) (bssid.[4] .| (bssid.[5] << 8));;
  hw_write32 REG_RRSR (if five then 0x150 else 0x15f).

Definition associate (d : rtw_dev) (g : station) (bssid ssid : list Z) (ssid_len channel : Z)
    (pass : option (list Z)) : prog (Z * rtw_dev * station) :=
  let five := 14 <? channel in
  let rate := if five then DESC_RATE6M else DESC_RATE1M in
  '(d, c) ← set_channel d (st_cache g) channel RTW_CHANNEL_WIDTH_20 0;
  set_identity (ef_addr (efuse d)) bssid five;;
  '(s, seq) ← (if five then rtw_do_iqk d (st_trx g) (st_iqk_seq g) else mret (st_trx g, st_iqk_seq g));
  let g := set_st_trx s (Station (st_supp g) c seq) in
  '(auth_ok, s) ← auth_try 6 d s bssid rate;
  let g := set_st_trx s g in
  if negb auth_ok then mret (-1, d, g) else
  '(rc, g) ← assoc_try 6 d g bssid ssid ssid_len channel rate five pass;
  mret (rc, d, g).

(** ** Frames fit their buffer *)

Lemma build_auth_req_length sa bssid : length sa = 6%nat -> length bssid = 6%nat ->
  length (build_auth_req sa bssid) = 30%nat.
Proof. intros H1 H2. unfold build_auth_req, put_hdr. rewrite !length_app, H1, H2. done. Qed.

(** [u8 frame[256]]: an SSID of up to 166 bytes fits. *)
Lemma build_assoc_req_length sa bssid ssid n five : length sa = 6%nat -> length bssid = 6%nat ->
  0 <= n <= Z.of_nat (length ssid) -> Z.of_nat (length (build_assoc_req sa bssid ssid n five)) = n + 90.
Proof.
  intros H1 H2 Hn. unfold build_assoc_req, put_hdr. rewrite !length_app, length_take, H1, H2.
  destruct five; cbn [andb RTW_ADVERTISE_VHT]; cbn -[Z.of_nat Z.to_nat]; lia.
Qed.

(** ** The join stays inside its buffers *)

Definition body_ok (cap : Z) (b : list Z) : Prop := bytes_ok b /\ 6 <= Z.of_nat (length b) <= cap.

Lemma mgmt_in_slot_safe m bssid want room cap buf : cap <= room -> slot_live m buf ->
  mem_safe (mgmt_in_slot bssid want room cap buf) m (fun v m' => m' = m /\ visit_ok (fun _ => True) (body_ok cap) v).
Proof.
  intros Hroom Hb. unfold mgmt_in_slot.
  assert (Hskip : mem_safe (mret (Go tt)) m (fun (v : visit unit (list Z)) m' =>
    m' = m /\ visit_ok (fun _ => True) (body_ok cap) v)) by by apply mem_safe_ret.
  eapply mem_safe_bind; [by apply slot32_safe|]. intros w0 m' [-> _].
  destruct (rx_error w0); [done|]. destruct (Z.ltb_spec (rx_pkt_len w0) 30); [done|].
  destruct (Z.ltb_spec 2048 (rx_pkt_len w0)); [done|]. cbn [orb].
  pose proof (rx_frame_ok m buf w0 Hb) as Hf. set (f := rx_frame buf w0) in *.
  eapply mem_safe_bind; [by apply frame_control_safe|]. intros fc m' [-> _].
  destruct (_ || _); [done|].
  eapply mem_safe_bind; [apply frame_bytes_safe; [done|lia..]|]. intros from m' [-> _].
  destruct (negb _); [done|]. set (blen := if _ <? _ then _ else _).
  assert (Hle : blen <= rx_pkt_len w0 - 24 /\ blen <= cap) by (unfold blen; case_bool; lia).
  destruct (Z.leb_spec 6 blen); [|done].
  eapply mem_safe_bind; [apply frame_bytes_safe; [done|lia..]|]. intros bytes m' (-> & Hl & Hok).
  eapply mem_safe_bind; [apply copy_out_safe; lia|]. intros body m' [-> ->].
  apply mem_safe_ret. split; [done|]. split; [done|lia].
Qed.

Lemma listen_slot_safe m bssid buf a : slot_live m buf ->
  mem_safe (listen_slot bssid buf a) m (fun v m' => m' = m /\ visit_ok (fun _ => True) (fun _ => True) v).
Proof.
  intros Hb. unfold listen_slot. destruct a as [data eapol].
  assert (Hgo : forall a, mem_safe (mret (Go a)) m (fun (v : visit (Z * Z) unit) m' =>
    m' = m /\ visit_ok (fun _ => True) (fun _ => True) v)) by by intros; apply mem_safe_ret.
  eapply mem_safe_bind; [by apply slot32_safe|]. intros w0 m' [-> _].
  destruct (rx_error w0); [done|]. destruct (Z.ltb_spec (rx_pkt_len w0) 32); [done|].
  destruct (Z.ltb_spec 2048 (rx_pkt_len w0)); [done|]. cbn [orb].
  pose proof (rx_frame_ok m buf w0 Hb) as Hf. set (f := rx_frame buf w0) in *.
  eapply mem_safe_bind; [by apply frame_control_safe|]. intros fc m' [-> _].
  destruct (negb _); [done|].
  eapply mem_safe_bind; [apply frame_bytes_safe; [done|lia..]|]. intros from m' [-> _].
  destruct (negb _); [done|]. set (hdr := 24 + _).
  assert (Hhdr : 24 <= hdr <= 26) by (unfold hdr; destruct (nz _); lia).
  destruct (_ <? hdr + 8); [done|].
  do 3 (eapply mem_safe_bind; [apply frame8_safe; [done|lia]|]; intros ? m' [-> _]; destruct (negb _); [done|]).
  eapply mem_safe_bind; [apply frame8_safe; [done|lia]|]. intros l7 m' [-> _]. done.
Qed.

Lemma wait_mgmt_safe s m bssid want room cap ms : cap <= room -> rx_live s m ->
  rx_safe s (wait_mgmt_resp s bssid want room cap ms) m (fun r m' =>
    m' = m /\ (if r is Some b then body_ok cap b else True)).
Proof.
  intros Hroom Hs. unfold wait_mgmt_resp. eapply mem_safe_if_bind; [apply rx_hw_idx_safe|]. intros rp m' [-> Hrp].
  apply mem_safe_if_bind_regs; [by unfold trx_rx_set_host_idx; safe_go|]. intros _.
  eapply mem_safe_if_bind.
  { apply (poll_ring_safe s m _ _ (fun _ : unit => True) (body_ok cap)); [done| |done|done].
    intros buf a Hbuf _. by apply mgmt_in_slot_safe. }
  intros [v rp'] m' (-> & Hv & _). apply mem_safe_if_ret. by destruct v.
Qed.

Lemma listen_safe s m bssid : rx_live s m -> rx_safe s (listen_eapol s bssid) m (fun _ m' => m' = m).
Proof.
  intros Hs. unfold listen_eapol. eapply mem_safe_if_bind; [apply rx_hw_idx_safe|]. intros rp m' [-> Hrp].
  apply mem_safe_if_bind_regs; [by unfold trx_rx_set_host_idx; safe_go|]. intros _.
  eapply mem_safe_if_bind.
  { apply (poll_ring_safe s m _ _ (fun _ : Z * Z => True) (fun _ : unit => True)); [done| |done|done].
    intros buf a Hbuf _. by apply listen_slot_safe. }
  intros [v rp'] m' (-> & _). by apply mem_safe_if_ret.
Qed.

(** What a join keeps of the rings and keys it started with. *)
Record station_ok (s0 : trx_state) (m : gmap Z Z) (g : station) : Prop := {
  so_rings : rings_up (st_trx g) m;
  so_rx : same_rx s0 (st_trx g);
  so_rsbox : rsbox_ok (su_rsbox (st_supp g));
}.

Lemma station_set_trx s0 m g s : station_ok s0 m g -> rings_up s m -> same_rx s0 s -> station_ok s0 m (set_st_trx s g).
Proof. intros [? ? ?] ? ?. by split. Qed.

Section JoinSafe.
Context (d : rtw_dev) (bssid : list Z) (s0 : trx_state) (m : gmap Z Z).
Context (Hd : trx_chip d) (Ha : length (ef_addr (efuse d)) = 6%nat) (Hb : length bssid = 6%nat).

Lemma send_mgmt_safe s frame rate : rings_up s m -> same_rx s0 s -> Z.of_nat (length frame) < 2 ^ 31 ->
  mem_safe (trx_tx_mgmt d s frame rate false) m (fun '(_, s') m' => m' = m /\ rings_up s' m /\ same_rx s0 s').
Proof.
  intros Hs Hsame Hf. eapply mem_safe_mono; [by apply tx_mgmt_safe; [|apply Hs|]|]. intros [ret s'] m' Hpost.
  apply leaf_rings in Hpost as (-> & Hup & Hsame'); [|done]. split; [done|]. split; [done|by eapply same_rx_trans].
Qed.

Lemma wait_same s want room cap ms : cap <= room -> rings_up s m -> same_rx s0 s ->
  rx_safe s0 (wait_mgmt_resp s bssid want room cap ms) m (fun r m' =>
    m' = m /\ (if r is Some b then body_ok cap b else True)).
Proof. intros Hroom Hs Hsame. apply (rx_safe_same s0 s); [done|]. by apply wait_mgmt_safe; [|apply Hs]. Qed.

Lemma auth_try_safe rate t : forall s, rings_up s m -> same_rx s0 s ->
  rx_safe s0 (auth_try t d s bssid rate) m (fun '(_, s') m' => m' = m /\ rings_up s' m /\ same_rx s0 s').
Proof.
  induction t as [|t IH]; intros s Hs Hsame; cbn [auth_try]; [by apply mem_safe_if_ret|].
  eapply mem_safe_if_bind.
  { apply mem_safe_if_lift, send_mgmt_safe; [done|done|]. by rewrite build_auth_req_length. }
  intros [ret s1] m' (-> & Hs1 & Hsame1).
  eapply mem_safe_if_bind; [by apply wait_same|]. intros [body|] m' [-> _]; [by apply mem_safe_if_ret|by apply IH].
Qed.

Lemma joined_safe g ssid channel pass body : station_ok s0 m g ->
  rx_safe s0 (joined d g bssid ssid channel pass body) m (fun g' m' => m' = m /\ station_ok s0 m g').
Proof.
  intros [Hr Hs Hk]. unfold joined. destruct (learn_caps body) as [ht vht]. set (u := set_caps ht vht (st_supp g)).
  assert (Hlisten : rx_safe s0 (listen_eapol (su_trx u) bssid;; mret (set_supp u g)) m
    (fun g' m' => m' = m /\ station_ok s0 m g')).
  { eapply mem_safe_if_bind; [apply (rx_safe_same s0 (su_trx u)); [done|]; apply listen_safe, Hr|].
    intros _ m' ->. apply mem_safe_if_ret. split; [done|by split]. }
  destruct pass as [p|]; [|done]. destruct (nz p.[0]); [|done].
  eapply mem_safe_if_bind.
  { apply (rx_safe_same s0 (su_trx u)); [done|]. by apply wpa_handshake_mem. }
  intros [rc u'] m' (-> & Hr' & Hs' & Hk' & _). apply mem_safe_if_ret. split; [done|].
  split; [done|by eapply same_rx_trans|done].
Qed.
Lemma assoc_try_safe ssid ssid_len channel rate five pass t :
  0 <= ssid_len <= Z.of_nat (length ssid) -> ssid_len < 256 -> forall g, station_ok s0 m g ->
  rx_safe s0 (assoc_try t d g bssid ssid ssid_len channel rate five pass) m (fun '(rc, g') m' =>
    m' = m /\ station_ok s0 m g' /\ (rc = 0 \/ rc = -2 \/ rc = -3)).
Proof.
  intros Hn Hn'. induction t as [|t IH]; intros g Hg; cbn [assoc_try]; [apply mem_safe_if_ret; auto|].
  eapply mem_safe_if_bind.
  { apply mem_safe_if_lift, send_mgmt_safe; [apply Hg|apply Hg|]. rewrite build_assoc_req_length by done. lia. }
  intros [ret s1] m' (-> & Hs1 & Hsame1). cbv zeta. pose proof (station_set_trx s0 m g s1 Hg Hs1 Hsame1) as Hg1.
  eapply mem_safe_if_bind; [by apply wait_same|]. intros [body|] m' [-> _]; [|by apply IH].
  destruct (_ =? 0); [|apply mem_safe_if_ret; auto].
  eapply mem_safe_if_bind; [by apply joined_safe|]. intros g' m' [-> Hg']. apply mem_safe_if_ret; auto.
Qed.
End JoinSafe.

Lemma iqk_poll_regs d : forall fuel seen, safe no_mem (iqk_poll fuel d seen) (fun _ => True).
Proof.
  induction fuel as [|fuel IH]; intros seen; cbn [iqk_poll]; [by apply safe_ret|].
  apply safe_bind_any; [by safe_go|]. intros seen'.
  apply safe_bind_any; [unfold rtw_phy_read_rf; by safe_go|]. intros v.
  destruct (_ =? _); [by apply safe_ret|]. apply safe_bind_any; [by safe_go|]. intros _. apply IH.
Qed.

Lemma iqk_safe d s m seq : trx_chip d -> rings_up s m ->
  mem_safe (rtw_do_iqk d s seq) m (fun '(s', _) m' => m' = m /\ rings_up s' m /\ same_rx s s').
Proof.
  intros Hd Hs. unfold rtw_do_iqk. do 4 (apply mem_safe_bind_regs; [by safe_go|intros _]).
  eapply mem_safe_bind; [by apply tx_h2c_safe; [|apply Hs]|]. intros [ret s'] m' Hpost.
  apply leaf_rings in Hpost as (-> & Hup & Hsame); [|done].
  apply mem_safe_bind_regs; [apply iqk_poll_regs|intros _].
  do 2 (apply mem_safe_bind_regs; [by safe_go|intros _]).
  apply mem_safe_bind_regs; [unfold rtw_write_rf, rtw_phy_read_rf; by safe_go|intros _].
  apply mem_safe_bind_regs; [by safe_go|intros _]. by apply mem_safe_ret.
Qed.

Lemma associate_mem (d : rtw_dev) (g : station) (bssid ssid : list Z) (ssid_len channel : Z)
    (pass : option (list Z)) (m : gmap Z Z) :
  trx_chip d -> length (ef_addr (efuse d)) = 6%nat -> length bssid = 6%nat ->
  0 <= ssid_len <= Z.of_nat (length ssid) -> ssid_len < 256 ->
  rings_up (st_trx g) m -> rsbox_ok (su_rsbox (st_supp g)) ->
  rx_safe (st_trx g) (associate d g bssid ssid ssid_len channel pass) m (fun '(rc, d', g') m' =>
    m' = m /\ trx_chip d' /\ efuse d' = efuse d /\ station_ok (st_trx g) m g' /\
    (rc = 0 \/ rc = -1 \/ rc = -2 \/ rc = -3)).
Proof.
  intros Hd Ha Hb Hn Hn' Hr Hk. unfold associate.
  eapply mem_safe_if_bind; [apply mem_safe_if_lift, mem_safe_regs, regs_mem, set_channel_regs|].
  intros [d' c] m' [-> Hd']. cbn [fst snd] in Hd'. subst d'.
  set (d' := set_ch_param _ d). assert (Hd' : trx_chip d') by by destruct Hd.
  apply mem_safe_if_bind_regs; [unfold set_identity; by safe_go|]. intros _.
  eapply (mem_safe_if_bind _ _ _ _ (fun x m' => m' = m /\ rings_up x.1 m /\ same_rx (st_trx g) x.1)).
  { destruct (14 <? channel); [|by apply mem_safe_if_ret].
    apply mem_safe_if_lift. eapply mem_safe_mono; [by apply iqk_safe|]. intros [s' q] m' (-> & ? & ?). done. }
  intros [s seq] m' (-> & Hs & Hsame). cbn [fst] in Hs, Hsame. cbv zeta. set (g1 := set_st_trx s _).
  assert (Hg1 : station_ok (st_trx g) m g1) by by split.
  eapply mem_safe_if_bind; [by apply auth_try_safe|]. intros [ok s'] m' (-> & Hs' & Hsame').
  pose proof (station_set_trx _ _ g1 s' Hg1 Hs' Hsame') as Hg2.
  destruct (negb ok); [apply mem_safe_if_ret; do 4 (split; [done|]); auto|].
  eapply mem_safe_if_bind; [by apply assoc_try_safe|]. intros [rc g'] m' (-> & Hg' & Hrc).
  apply mem_safe_if_ret. do 4 (split; [done|]). destruct Hrc as [->|[->| ->]]; auto.
Qed.

(** C20: joining a network is memory safe on every chip whose ring index is
    sound, whatever frames arrive: requests fit their buffer, responses are read
    inside their slot, what is copied of them fits the body array of 160 bytes, the
    rings stay as usable as they were, nothing hangs and the result is 0, -1, -2 or
    -3. *)
Theorem associate_safe (d : rtw_dev) (g : station) (bssid ssid : list Z) (ssid_len channel : Z)
    (pass : option (list Z)) (m : gmap Z Z) :
  trx_chip d -> length (ef_addr (efuse d)) = 6%nat -> length bssid = 6%nat ->
  0 <= ssid_len <= Z.of_nat (length ssid) -> ssid_len <= 32 ->
  rings_up (st_trx g) m -> rsbox_ok (su_rsbox (st_supp g)) ->
  rx_safe (st_trx g) (associate d g bssid ssid ssid_len channel pass) m (fun '(rc, d', g') m' =>
    m' = m /\ rings_up (st_trx g') m /\ (rc = 0 \/ rc = -1 \/ rc = -2 \/ rc = -3)) /\
  Z.of_nat (length (build_assoc_req (ef_addr (efuse d)) bssid ssid ssid_len (14 <? channel))) <= 256.
Proof.
  intros Hd Ha Hb Hn Hn' Hr Hk. split.
  - eapply mem_safe_if_mono; [apply associate_mem; done || lia|].
    intros [[rc d'] g'] m' (-> & _ & _ & Hg & Hrc). by destruct Hg.
  - rewrite build_assoc_req_length by done. lia.
Qed.

(** ** What the access point granted *)

(** What the 160-byte copy leaves of an element it cut off. *)
Definition cut_off (tail : list Z) : Prop :=
  match tail with
  | _ :: n :: r => Z.of_nat (length r) < n
  | _ => True
  end.

Lemma caps_walk_elements tail : cut_off tail -> forall l pre fuel ht vht,
  (length l < fuel)%nat ->
  caps_walk fuel (pre ++ concat (map tlv l) ++ tail) (length pre) ht vht =
    (ht || bool_decide (45 ∈ l.*1), vht || bool_decide (191 ∈ l.*1)).
Proof.
  intros Hcut. induction l as [|[t b] l IH]; intros pre fuel ht vht Hfuel;
    (destruct fuel as [|fuel]; [cbn in Hfuel; lia|]); cbn [caps_walk].
  - cbn [map concat app fmap list_fmap]. rewrite !bool_decide_eq_false_2 by (intros H; inversion H).
    rewrite !orb_false_r, length_app. destruct tail as [|t [|n r]]; cbn [length];
      (case_match; [|done]); match goal with H : (_ <=? _)%nat = true |- _ => apply Nat.leb_le in H end; [lia..|].
    rewrite (app_nth2 pre) by lia. replace (S (length pre) - length pre)%nat with 1%nat by lia.
    cbn [nth]. cbn in Hcut. destruct (Nat.ltb_spec (length pre + S (S (length r))) (length pre + 2 + Z.to_nat n)); [done|lia].
  - cbn [map concat app fmap list_fmap fst snd tlv]. set (body := pre ++ _).
    assert (Hlen : (length pre + 2 + length b <= length body)%nat)
      by (unfold body; rewrite length_app; cbn; rewrite !length_app; lia).
    assert (E1 : body.[length pre] = t) by (unfold body; by rewrite app_nth2, Nat.sub_diag by lia).
    assert (E2 : body.[S (length pre)] = Z.of_nat (length b)).
    { unfold body. rewrite app_nth2 by lia. by replace (S (length pre) - length pre)%nat with 1%nat by lia. }
    destruct (Nat.leb_spec (length pre + 2) (length body)); [|lia]. rewrite E1, E2, Nat2Z.id.
    destruct (Nat.ltb_spec (length body) (length pre + 2 + length b)); [lia|].
    assert (Hrec : forall h v, caps_walk fuel body (length pre + (2 + length b)) h v =
      (h || bool_decide (45 ∈ l.*1), v || bool_decide (191 ∈ l.*1))).
    { intros h v. rewrite <- (IH (pre ++ tlv (t, b)) fuel) by (cbn in Hfuel; lia).
      rewrite length_app. cbn [tlv fst snd length Nat.add]. unfold body. cbn. by rewrite <- !app_assoc. }
    assert (Hin : forall x, bool_decide (x ∈ t :: l.*1) = (t =? x) || bool_decide (x ∈ l.*1)).
    { intros x. destruct (Z.eqb_spec t x) as [->|Hne]; [apply bool_decide_eq_true_2; by left|].
      cbn [orb]. apply bool_decide_ext. rewrite elem_of_cons. split; [intros [->|]; done|by right]. }
    rewrite !Hin. destruct (Z.eqb_spec t 45) as [->|]; [rewrite Hrec; cbn; by rewrite orb_true_r|].
    destruct (Z.eqb_spec t 191); rewrite Hrec; cbn; [by rewrite orb_true_r|done].
Qed.

(** Of an association response made of its fixed fields and any elements,
    the last possibly cut off by the copy, the driver learns exactly whether an
    HT (45) and a VHT (191) capabilities element are among the complete ones. *)
Theorem learn_caps_elements (fixed : list Z) (l : list (Z * list Z)) (tail : list Z) :
  length fixed = 6%nat -> cut_off tail ->
  learn_caps (fixed ++ concat (map tlv l) ++ tail) =
    (bool_decide (45 ∈ l.*1), bool_decide (191 ∈ l.*1)).
Proof.
  intros Hf Ht. unfold learn_caps. rewrite <- Hf. apply (caps_walk_elements tail Ht l fixed _ false false).
  assert (Hl : (length l <= length (concat (map tlv l)))%nat).
  { clear. induction l as [|e l IH]; [done|]. cbn. rewrite length_app. lia. }
  rewrite !length_app. lia.
Qed.

(** ** A join that fails installs nothing *)

(** Not a write to the CAM, the crypto engine, the network type or a mailbox. *)
Definition key_quiet (o : hwop) : bool :=
  match o with
  | Write _ a _ => negb (bool_decide (a ∈
      [RTW_SEC_WRITE_REG; RTW_SEC_CMD_REG; RTW_SEC_CONFIG; REG_MSR;
       REG_HMEBOX0; REG_HMEBOX1; REG_HMEBOX2; REG_HMEBOX3]))
  | _ => true
  end.

Lemma link_key_quiet o : link_quiet o = true -> key_quiet o = true.
Proof.
  destruct o; cbn; try done. rewrite !negb_true_iff, !bool_decide_eq_false, !elem_of_cons. tauto.
Qed.

Lemma mgmt_in_slot_calls bssid want room cap buf : safe rx_call (mgmt_in_slot bssid want room cap buf) (fun _ => True).
Proof.
  unfold mgmt_in_slot. apply safe_bind_any; [apply slot32_calls|]. intros w0.
  destruct (_ || _); [by apply safe_ret|].
  apply safe_bind_any; [apply frame_control_calls|]. intros fc. destruct (_ || _); [by apply safe_ret|].
  apply safe_bind_any; [apply slot_bytes_calls|]. intros from. destruct (negb _); [by apply safe_ret|].
  destruct (6 <=? _); [|by apply safe_ret]. apply safe_bind_any; [apply slot_bytes_calls|]. intros b.
  apply safe_bind_any; [apply copy_out_calls|]. intros ?. by apply safe_ret.
Qed.

Lemma wait_mgmt_air s bssid want room cap ms : safe air_call (wait_mgmt_resp s bssid want room cap ms) (fun _ => True).
Proof.
  unfold wait_mgmt_resp. apply rx_air.
  apply safe_bind_any; [apply rx_hw_idx_calls|intros rp]. apply safe_bind_any; [apply rx_set_host_calls|intros _].
  apply safe_bind_any; [apply poll_ring_calls; intros; apply mgmt_in_slot_calls|intros [v rp']]. by apply safe_ret.
Qed.

Lemma listen_slot_calls bssid buf a : safe rx_call (listen_slot bssid buf a) (fun _ => True).
Proof.
  unfold listen_slot. destruct a as [data eapol]. apply safe_bind_any; [apply slot32_calls|]. intros w0.
  destruct (_ || _); [by apply safe_ret|].
  apply safe_bind_any; [apply frame_control_calls|]. intros fc. destruct (negb _); [by apply safe_ret|].
  apply safe_bind_any; [apply slot_bytes_calls|]. intros from. destruct (negb _); [by apply safe_ret|].
  destruct (_ <? _); [by apply safe_ret|].
  do 3 (apply safe_bind_any; [apply slot8_calls|]; intros ?; destruct (negb _); [by apply safe_ret|]).
  apply safe_bind_any; [apply slot8_calls|]. intros l7. by apply safe_ret.
Qed.
Lemma listen_air s bssid : safe air_call (listen_eapol s bssid) (fun _ => True).
Proof.
  unfold listen_eapol. apply rx_air.
  apply safe_bind_any; [apply rx_hw_idx_calls|intros rp]. apply safe_bind_any; [apply rx_set_host_calls|intros _].
  apply safe_bind_any; [apply poll_ring_calls; intros; apply listen_slot_calls|intros [v rp']]. by apply safe_ret.
Qed.

Lemma auth_try_air d bssid rate t : forall s, safe air_call (auth_try t d s bssid rate) (fun _ => True).
Proof.
  induction t as [|t IH]; intros s; cbn [auth_try]; [by apply safe_ret|].
  apply safe_bind_any; [apply leaf_air, tx_mgmt_calls|intros [r s']].
  apply safe_bind_any; [apply wait_mgmt_air|intros [b|]]; [by apply safe_ret|apply IH].
Qed.

Lemma air_key_quiet o : air_call o = true -> key_quiet o = true.
Proof. intros Ho. by apply link_key_quiet, air_quiet. Qed.

(** What a failed attempt leaves of the globals: all but the ring pointers. *)
Definition same_keys (g g' : station) : Prop :=
  su_keys (st_supp g') = su_keys (st_supp g) /\ su_session (st_supp g') = su_session (st_supp g) /\
  su_box (st_supp g') = su_box (st_supp g).

Lemma assoc_try_fails d bssid ssid ssid_len channel rate five pass t : forall g,
  wp (watch key_quiet) (assoc_try t d g bssid ssid ssid_len channel rate five pass) true
    (fun x b => x.1 <> 0 -> b = true /\ same_keys g x.2).
Proof.
  induction t as [|t IH]; intros g; cbn [assoc_try]; [by apply wp_ret|]. apply wp_bind.
  eapply wp_mono; [apply watch_safe; eapply safe_weaken; [apply leaf_air, tx_mgmt_calls|apply air_key_quiet|done]|].
  intros [r s] b [-> _]. apply wp_bind.
  eapply wp_mono; [apply watch_safe; eapply safe_weaken; [apply wait_mgmt_air|apply air_key_quiet|done]|].
  intros [body|] b [-> _]; [|eapply wp_mono; [apply IH|]; by intros [rc g'] b].
  destruct (_ =? 0).
  - apply wp_bind. eapply wp_mono; [apply watch_any|]. intros g' b _. by apply wp_ret.
  - by apply wp_ret.
Qed.

Lemma set_channel_quiet d c ch bw idx : safe key_quiet (set_channel d c ch bw idx) (fun _ => True).
Proof.
  unfold set_channel, set_channel_bb, set_bw, set_channel_bb_swing, set_channel_rf, rtw8821c_switch_rf_set,
    rtw_write_rf, rtw_phy_read_rf, set_channel_rxdfir, latch_ch_param.
  by safe_go.
Qed.

Lemma iqk_quiet d s seq : safe key_quiet (rtw_do_iqk d s seq) (fun _ => True).
Proof.
  unfold rtw_do_iqk. do 4 (apply safe_bind_any; [by safe_go|intros _]).
  apply safe_bind_any; [eapply safe_weaken; [apply tx_h2c_calls|intros o Ho; by apply link_key_quiet, leaf_quiet|done]|intros [r s']].
  apply safe_bind_any; [|intros _].
  { generalize false. generalize 300%nat. induction n as [|n IH]; intros seen; cbn [iqk_poll]; [by apply safe_ret|].
    apply safe_bind_any; [by safe_go|intros seen']. apply safe_bind_any; [unfold rtw_phy_read_rf; by safe_go|intros v].
    destruct (_ =? _); [by apply safe_ret|]. apply safe_bind_any; [by safe_go|intros _]. apply IH. }
  do 2 (apply safe_bind_any; [by safe_go|intros _]).
  apply safe_bind_any; [unfold rtw_write_rf, rtw_phy_read_rf; by safe_go|intros _]. by safe_go.
Qed.

(** A join that is refused or never answered (-1, -2, -3) has written no
    key, switched no crypto engine on, told the firmware nothing of a link, and
    left the key globals and the negotiated session as they were. *)
Theorem associate_failure_quiet (d : rtw_dev) (g : station) (bssid ssid : list Z) (ssid_len channel : Z)
    (pass : option (list Z)) :
  forall (W : Type) (dev : Device W) (w : W),
    let run := exec (associate d g bssid ssid ssid_len channel pass) w in
    let '(rc, _, g') := result run in
    rc = 0 \/ (Forall (fun o => key_quiet o = true) (ops run) /\ same_keys g g').
Proof.
  intros W dev w run.
  assert (H : wp (watch key_quiet) (associate d g bssid ssid ssid_len channel pass) true
    (fun x b => x.1.1 <> 0 -> b = true /\ same_keys g x.2)).
  { unfold associate. apply wp_bind. eapply wp_mono; [apply watch_safe, set_channel_quiet|].
    intros [d' c] b [-> _]. apply wp_bind.
    eapply wp_mono; [apply (watch_safe key_quiet _ _ (fun _ => True)); unfold set_identity; by safe_go|].
    intros _ b [-> _]. apply wp_bind.
    eapply wp_mono; [apply (watch_safe key_quiet _ _ (fun _ => True))|].
    { destruct (14 <? channel); [apply iqk_quiet|by apply safe_ret]. }
    intros [s seq] b [-> _]. cbv zeta. apply wp_bind.
    eapply wp_mono; [apply watch_safe; eapply safe_weaken; [apply auth_try_air|apply air_key_quiet|done]|].
    intros [ok s'] b [-> _]. destruct (negb ok); [by apply wp_ret|]. apply wp_bind.
    eapply wp_mono; [apply assoc_try_fails|]. intros [rc g'] b Hg. apply wp_ret. apply Hg. }
  apply (watch_exec key_quiet _ w) in H as (b & HQ & HF). fold run in HQ, HF.
  destruct (result run) as [[rc d'] g']. destruct (Z.eq_dec rc 0) as [|Hrc]; [by left|right].
  destruct (HQ Hrc) as [Hb Hk]. split; [by apply HF|done].
Qed.

(** ** Witnesses *)

Definition station_example : station := Station supp_example ch_cache0 0.

Lemma associate_safe_witness :
  rx_safe (st_trx station_example)
    (associate (example_dev [] []) station_example (replicate 6 2) [104; 105; 0] 2 36 (Some (replicate 8 97 ++ [0])))
    mem_example (fun '(rc, d', g') m' =>
      m' = mem_example /\ rings_up (st_trx g') mem_example /\ (rc = 0 \/ rc = -1 \/ rc = -2 \/ rc = -3)) /\
  Z.of_nat (length (build_assoc_req (ef_addr (efuse (example_dev [] []))) (replicate 6 2) [104; 105; 0] 2 (14 <? 36))) <= 256.
Proof.
  refine (associate_safe (example_dev [] []) station_example (replicate 6 2) [104; 105; 0] 2 36
            (Some (replicate 8 97 ++ [0])) mem_example _ eq_refl eq_refl _ _ rings_up_example rsbox_init_ok).
  - by constructor.
  - cbn. lia.
  - lia.
Defined.

(** Rates, HT and a vendor element that the copy cut off. *)
Lemma learn_caps_elements_witness :
  learn_caps ([0x11; 4; 0; 0; 1; 0xc0] ++ concat (map tlv [(1, [0x82; 0x84]); (45, replicate 26 0)]) ++ [0xdd; 9; 1]) =
    (true, false).
Proof. apply (learn_caps_elements [0x11; 4; 0; 0; 1; 0xc0] [(1, [0x82; 0x84]); (45, replicate 26 0)] [0xdd; 9; 1]); done. Defined.
