(* ===== verification/Bringup.v ===== *)
(** * Bringup: what the bring-up stages promise each other

    The in-kernel control code (server/kctl.c) chains the components: power-on,
    rings, firmware, MAC, EFUSE, PHY, scan, join.  This file states what each
    stage keeps of the rings and of the device record, and the monitor under
    which they compose: memory safety for chips whose receive index stays inside
    the ring they were last told of, and no reprogramming of the chip while the
    data path runs on the rings. *)
From stdpp Require Import gmap.
From S2P Require Import Prelude Hw Regs Dev Pwr Efuse Aes Trx Rx Sec Media Coex Wpa Handshake Fw MacInit Phy Channel Scan Assoc.
Open Scope Z_scope.
Open Scope rtw_scope.

(** ** The monitor *)

(** What the machine was last told about the rings: the receive-ring size
    ([None]: not known), and whether the data path runs on them. *)
Record view := View { v_num : option Z; v_live : bool }.

Definition over_num (w : width) (a : Z) : bool :=
  (a <? RTK_PCI_RXBD_NUM_MPDUQ + 2) && (RTK_PCI_RXBD_NUM_MPDUQ <? a + bytes_of w).
(** A ring base is one word or two, inside the mapping. *)
Definition dma_over_num (a : Z) : bool := (a <? 0) || (0xfffffff0 <? a) || over_num W32 a || over_num W32 (a + 4).
Definition ring_num (t : option Z) (o : hwop) : option Z :=
  match o with
  | Write W16 a v => if a =? RTK_PCI_RXBD_NUM_MPDUQ then Some v else if over_num W16 a then None else t
  | Write W8 a v =>
      (* the beacon doorbell is the high byte of the size register *)
      if a =? RTK_PCI_TXBD_BCN_WORK then n ← t; Some ((n .& 0xff) .| ((v .& 0xf) << 8))
      else if over_num W8 a then None else t
  | Write w a _ => if over_num w a then None else t
  | RegWriteDma a _ _ _ => if dma_over_num a then None else t
  | _ => t
  end.

(** The data path runs from a start that succeeds to a stop. *)
Definition live_after (l : bool) (o : hwop) : hwres o -> bool :=
  match o as o return hwres o -> bool with
  | DataStart _ => fun r => (r =? 0) || l
  | DataStop => fun _ => false
  | _ => fun _ => l
  end.

(** What is allowed while it runs: to look, to send on the management ring, to
    report the link, to stop it; not to power, reset or reprogram the chip. *)
Definition live_ok (o : hwop) : bool :=
  match o with
  | Read _ _ | Udelay _ | MemWrite _ _ _ | MemSet _ _ _ _ | DataLink _ | DataStop => true
  | Fault => true   (* refused by the memory monitor *)
  | Write W16 a _ => a =? RTK_PCI_TXBD_IDX_MGMTQ
  | _ => false
  end.

(** What is assumed of the chip: its index stays inside the ring it was told of
    (at 0 if there is none), and the size register reads back what it holds. *)
Definition chip_fair (t : option Z) (o : hwop) : hwres o -> bool :=
  match t with
  | Some n =>
      match o as o return hwres o -> bool with
      | Read W8 a => fun r => if a =? RTK_PCI_TXBD_BCN_WORK then u8 r .& 0xf =? (n >> 8) .& 0xf else true
      | o => idx_ok (Z.max n 1) o
      end
  | None => fun _ => true
  end.

(** The view alone; [None]: the chip has broken the assumption. *)
Definition view_mon (st : option view) (o : hwop) (r : hwres o) : option (option view) :=
  match st with
  | None => Some None
  | Some v =>
      if chip_fair (v_num v) o r then
        if v_live v && negb (live_ok o) then None
        else Some (Some (View (ring_num (v_num v) o) (live_after (v_live v) o r)))
      else Some None
  end.
Definition view_safe {B} (p : prog B) (v : view) (Q : B -> view -> Prop) : Prop :=
  wp view_mon p (Some v) (fun x st => match st with Some v' => Q x v' | None => True end).

Definition ring_mon (st : option (gmap Z Z * view)) (o : hwop) (r : hwres o) : option (option (gmap Z Z * view)) :=
  match st with
  | None => Some None
  | Some (m, v) =>
      match view_mon (Some v) o r with
      | None => None
      | Some None => Some None
      | Some (Some v') =>
          match mem_mon (Some m) o r with
          | Some (Some m') => Some (Some (m', v'))
          | Some None => Some None
          | None => None
          end
      end
  end.

(** From live buffers [m] and view [v], on the chips of which that is true:
    memory safety, and no reprogramming under a running data path. *)
Definition ring_safe {B} (p : prog B) (m : gmap Z Z) (v : view) (Q : B -> gmap Z Z -> view -> Prop) : Prop :=
  wp ring_mon p (Some (m, v)) (fun x st => match st with Some (m', v') => Q x m' v' | None => True end).

Lemma ring_released {B} (p : prog B) (Q : B -> option (gmap Z Z * view) -> Prop) :
  (forall x, Q x None) -> wp ring_mon p None Q.
Proof. intros HQ. induction p as [x|o k IH]; [apply HQ|]. intros r. apply IH. Qed.

Lemma ring_safe_ret {B} (x : B) m v (Q : B -> gmap Z Z -> view -> Prop) : Q x m v -> ring_safe (mret x) m v Q.
Proof. done. Qed.
Lemma ring_safe_bind {B C} (f : B -> prog C) (p : prog B) m v R Q :
  ring_safe p m v R -> (forall x m' v', R x m' v' -> ring_safe (f x) m' v' Q) -> ring_safe (p ≫= f) m v Q.
Proof.
  intros Hp Hf. apply wp_bind. eapply wp_mono; [apply Hp|].
  intros x [[m' v']|] Hx; [by apply Hf|by apply ring_released].
Qed.
Lemma ring_safe_mono {B} (p : prog B) m v (R Q : B -> gmap Z Z -> view -> Prop) :
  ring_safe p m v R -> (forall x m' v', R x m' v' -> Q x m' v') -> ring_safe p m v Q.
Proof. intros Hp HQ. eapply wp_mono; [apply Hp|]. intros x [[m' v']|]; auto. Qed.

Lemma view_released {B} (p : prog B) (Q : B -> option view -> Prop) :
  (forall x, Q x None) -> wp view_mon p None Q.
Proof. intros HQ. induction p as [x|o k IH]; [apply HQ|]. intros r. apply IH. Qed.
Lemma view_ret {B} (x : B) v (Q : B -> view -> Prop) : Q x v -> view_safe (mret x) v Q.
Proof. done. Qed.
Lemma view_bind {B C} (f : B -> prog C) (p : prog B) v R Q :
  view_safe p v R -> (forall x v', R x v' -> view_safe (f x) v' Q) -> view_safe (p ≫= f) v Q.
Proof.
  intros Hp Hf. apply wp_bind. eapply wp_mono; [apply Hp|].
  intros x [v'|] Hx; [by apply Hf|by apply view_released].
Qed.
Lemma view_mono {B} (p : prog B) v (R Q : B -> view -> Prop) :
  view_safe p v R -> (forall x v', R x v' -> Q x v') -> view_safe p v Q.
Proof. intros Hp HQ. eapply wp_mono; [apply Hp|]. intros x [v'|]; auto. Qed.
(** One call, while no data path runs. *)
Lemma view_act o v (Q : hwres o -> view -> Prop) : v_live v = false ->
  (forall r, chip_fair (v_num v) o r = true -> Q r (View (ring_num (v_num v) o) (live_after false o r))) ->
  view_safe (act o) v Q.
Proof.
  intros Hv HQ r. cbn [view_mon]. rewrite Hv. cbn [andb].
  destruct (chip_fair (v_num v) o r) eqn:E; [by apply HQ|done].
Qed.

(** ** Calls that leave the view as it is *)

Definition num_keeps (o : hwop) : bool :=
  match o with
  | Write w a _ => negb (over_num w a)
  | RegWriteDma a _ _ _ => negb (dma_over_num a)
  | DataStart _ => false
  | _ => true
  end.
Lemma num_keeps_eq v o r : v_live v = false -> num_keeps o = true ->
  View (ring_num (v_num v) o) (live_after (v_live v) o r) = v.
Proof.
  intros Hv Ho. destruct v as [t l]. cbn [v_num v_live] in *. subst l.
  destruct o as [| w a x | | | | | a h b w' | | | | | | | | | | | | | | | |]; cbn in *; try done.
  - destruct w; apply negb_true_iff in Ho; rewrite Ho; try done.
    + by destruct (Z.eqb_spec a RTK_PCI_TXBD_BCN_WORK) as [->|].
    + by destruct (Z.eqb_spec a RTK_PCI_RXBD_NUM_MPDUQ) as [->|].
  - apply negb_true_iff in Ho. by rewrite Ho.
Qed.

Lemma ring_num_reg w a : ring_reg w a = false -> over_num w a = false.
Proof. unfold ring_reg, over_num, RTK_PCI_RXBD_NUM_MPDUQ. destruct w; cbn; lia. Qed.
Lemma reg_num_keeps o : reg_call o = true -> num_keeps o = true.
Proof.
  unfold reg_call. destruct o; cbn; try done. intros H%negb_true_iff. by rewrite ring_num_reg.
Qed.
Lemma air_num_keeps o : air_call o = true -> num_keeps o = true.
Proof.
  unfold air_call, leaf_call, rx_call. destruct o as [| w a v | | | | | | | | | | | | | | | | | | | | |]; cbn; try done. destruct w; try done.
  intros [H|[[H|H]%orb_true_iff|H]%orb_true_iff]%orb_true_iff; apply Z.eqb_eq in H; by subst a.
Qed.
Lemma regs_keep {B} (p : prog B) Q : safe reg_call p Q -> safe num_keeps p Q.
Proof. intros Hp. eapply safe_weaken; [apply Hp|apply reg_num_keeps|done]. Qed.
Lemma air_keep {B} (p : prog B) Q : safe air_call p Q -> safe num_keeps p Q.
Proof. intros Hp. eapply safe_weaken; [apply Hp|apply air_num_keeps|done]. Qed.

Lemma view_frame {B} (p : prog B) v R : v_live v = false -> safe num_keeps p R ->
  view_safe p v (fun x v' => v' = v /\ R x).
Proof.
  intros Hv. induction p as [x|o k IH]; intros Hp; [by apply safe_ret_inv in Hp|].
  intros r. pose proof (safe_act_inv _ _ _ _ Hp r) as Hk. apply safe_act_op in Hp.
  cbn [view_mon]. destruct (chip_fair (v_num v) o r); [|by apply view_released].
  rewrite num_keeps_eq, Hv by done. cbn [andb]. by apply IH.
Qed.
Lemma view_bind_frame {B C} (f : B -> prog C) (p : prog B) v R Q : v_live v = false -> safe num_keeps p R ->
  (forall x, R x -> view_safe (f x) v Q) -> view_safe (p ≫= f) v Q.
Proof.
  intros Hv Hp Hf. eapply view_bind; [by apply view_frame|]. intros x v' [-> Hx]. by apply Hf.
Qed.

(** ** Composing the two *)

#[local] Transparent mem_safe mem_safe_if.

Lemma ring_safe_track {B} (p : prog B) m v (Q : B -> gmap Z Z -> Prop) (Q' : B -> view -> Prop) :
  mem_safe p m Q -> view_safe p v Q' -> ring_safe p m v (fun x m' v' => Q x m' /\ Q' x v').
Proof.
  unfold mem_safe, view_safe, ring_safe. revert m v. induction p as [x|o k IH]; intros m v Hm Hn; [by split|].
  intros r. specialize (Hm r). specialize (Hn r). cbn [ring_mon].
  destruct (view_mon (Some v) o r) as [[v1|]|]; [|by apply ring_released|done].
  destruct (mem_mon (Some m) o r) as [[m1|]|]; [|by apply ring_released|done]. by apply IH.
Qed.

Lemma ring_safe_mem {B} (p : prog B) m v Q R : v_live v = false -> mem_safe p m Q -> safe num_keeps p R ->
  ring_safe p m v (fun x m' v' => Q x m' /\ v' = v /\ R x).
Proof.
  intros Hv Hm Hn. exact (ring_safe_track p m v _ _ Hm (view_frame p v R Hv Hn)).
Qed.

(** For the chips whose index is below a size at least what the chip was told. *)
Lemma ring_safe_if {B} n (p : prog B) m v k Q : v_live v = false -> v_num v = Some k -> Z.max k 1 <= n ->
  mem_safe_if (idx_ok n) p m Q -> safe num_keeps p (fun _ => True) ->
  ring_safe p m v (fun x m' v' => Q x m' /\ v' = v).
Proof.
  intros Hv Hk Hn. unfold mem_safe_if, ring_safe. revert m. induction p as [x|o f IH]; intros m Hm Hs; [by split|].
  intros r. specialize (Hm r). pose proof (safe_act_inv _ _ _ _ Hs r) as Hf. apply safe_act_op in Hs.
  cbn [mem_mon_if ring_mon view_mon] in *. destruct (chip_fair (v_num v) o r) eqn:Hi; [|by apply ring_released].
  assert (idx_ok n o r = true) as E; [|rewrite E in Hm].
  { revert Hi. rewrite Hk. destruct o as [w a| | | | | | | | | | | | | | | | | | | | | |]; cbn; try done.
    destruct w; try done. destruct (a =? _); [|done]. lia. }
  rewrite num_keeps_eq by done. rewrite Hv. cbn [andb].
  destruct (mem_mon (Some m) o r) as [[m1|]|]; [|by apply ring_released|done]. by apply (IH r).
Qed.

Lemma ring_safe_regs {B} (p : prog B) m v (R : B -> Prop) : v_live v = false -> safe reg_call p R ->
  ring_safe p m v (fun x m' v' => m' = m /\ v' = v /\ R x).
Proof.
  intros Hv Hp. eapply ring_safe_mono.
  - apply ring_safe_mem; [done| |by apply regs_keep].
    apply mem_safe_regs. eapply safe_weaken; [apply Hp|by apply reg_no_mem|]. intros x Hx; exact Hx.
  - intros x m' v' ((? & _) & ? & ?). done.
Qed.
Lemma ring_safe_bind_regs {B C} (f : B -> prog C) (p : prog B) m v R Q : v_live v = false ->
  safe reg_call p R -> (forall x, R x -> ring_safe (f x) m v Q) -> ring_safe (p ≫= f) m v Q.
Proof.
  intros Hv Hp Hf. eapply ring_safe_bind; [by apply ring_safe_regs|]. intros x m' v' (-> & -> & Hx). by apply Hf.
Qed.
#[global] Opaque mem_safe mem_safe_if view_safe ring_safe.

(** ** The stages of a bring-up *)

(** What the view knows of the rings of [s]: idle, and as deep as told. *)
Definition ring_known (s : trx_state) (v : view) : Prop :=
  v_live v = false /\ (g_rx_ok s = true -> v_num v = Some (g_rx_n s)).
Definition rx_kept (s s' : trx_state) : Prop :=
  g_rx_ok s' = g_rx_ok s /\ g_rx_n s' = g_rx_n s /\ g_trx_alloced s' = g_trx_alloced s.

Lemma rx_kept_trans s s' s'' : rx_kept s s' -> rx_kept s' s'' -> rx_kept s s''.
Proof. unfold rx_kept. intros (-> & -> & ->) (-> & -> & ->). done. Qed.
Lemma known_kept s s' v : rx_kept s s' -> ring_known s v -> ring_known s' v.
Proof. unfold ring_known. intros (-> & -> & _) H. done. Qed.

(** *** Power *)

Lemma pwr_reg o : pwr_call o = true -> reg_call o = true.
Proof. unfold pwr_call, reg_call. destruct o; cbn; try done. by intros [_ ?]%andb_true_iff. Qed.
Lemma power_on_regs d : pcie_8821c d ->
  safe reg_call (rtw_mac_power_on d) (fun x => exists f, x.2 = set_flags f d).
Proof. intros Hd. eapply safe_weaken; [by apply power_on_calls|apply pwr_reg|done]. Qed.

(** *** Rings *)

Lemma reset_rings_view h l : forall s v, v_live v = false ->
  view_safe (trx_reset_rings h s l) v (fun s' v' => v_live v' = false /\ rx_kept s s').
Proof.
  induction l as [|[[q a] b] l IH]; intros s v Hv; cbn [trx_reset_rings]; [by apply view_ret|].
  eapply view_bind with (R := fun s' v' => v_live v' = false /\ rx_kept s s').
  - unfold trx_reset_ring. eapply view_bind with (R := fun _ v' => v_live v' = false).
    { destruct (nz _); [by apply (view_act (Write W16 _ _))|by apply view_ret]. }
    intros _ v1 Hv1. eapply view_bind with (R := fun _ v' => v_live v' = false); [by apply (view_act (RegWriteDma _ _ _ _))|].
    intros _ v2 Hv2. by apply view_ret.
  - intros s1 v1 [Hv1 Hk]. eapply view_mono; [by apply IH|]. intros s2 v2 [? ?]. split; [done|by eapply rx_kept_trans].
Qed.

(** After a reset the chip knows the ring size. *)
Lemma reset_view d s v : v_live v = false -> (g_rx_ok s = true -> g_rx_n s ∈ rx_try) ->
  view_safe (trx_reset d s) v (fun s' v' => ring_known s' v' /\ rx_kept s s').
Proof.
  intros Hv Hn. unfold trx_reset.
  do 2 (eapply (view_bind_frame _ _ _ (fun _ => True)); [done|by safe_go|intros ? _]).
  eapply view_bind; [by apply reset_rings_view|]. intros s1 v1 [Hv1 (E1 & E2 & E3)].
  eapply view_bind with (R := fun _ v' => ring_known s1 v').
  { destruct (g_rx_ok s1) eqn:Hok; [|apply view_ret; by split; [|rewrite Hok]].
    assert (Hw : u16 (g_rx_n s1 .& 0xfff) = g_rx_n s1).
    { symmetry in E1. apply Hn in E1. rewrite E2. unfold rx_try, USCAN_RX_DESC_NUM in E1. set_unfold in E1.
      destruct E1 as [->|[->|[->|[->|[->|[]]]]]]; reflexivity. }
    eapply view_bind with (R := fun _ v' => v' = View (Some (g_rx_n s1)) false).
    { apply (view_act (Write W16 _ _)); [done|]. intros r _. cbn. by rewrite Hw. }
    intros _ v2 ->. by apply (view_act (RegWriteDma _ _ _ _)). }
  intros _ v2 [Hv2 Hk2].
  eapply (view_bind_frame _ _ _ (fun _ => True)); [done|by safe_go|intros ? _].
  eapply (view_bind_frame _ _ _ (fun _ => True)); [done|by safe_go|intros ? _].
  by apply view_ret.
Qed.

Lemma fill_rx_bds_keeps rxbd rxdata sz k : forall i, safe num_keeps (fill_rx_bds k rxbd rxdata sz i) (fun _ => True).
Proof.
  induction k as [|k IH]; intros i; cbn [fill_rx_bds]; [by apply safe_ret|].
  apply safe_bind_any; [|intros _; apply IH]. eapply safe_weaken; [apply leaf_mem_calls| |done].
  intros o Ho. by apply air_num_keeps; unfold air_call; rewrite Ho, orb_true_r.
Qed.
Lemma set_keeps b off n x : safe num_keeps (mem_set b off n x) (fun _ => True).
Proof.
  eapply safe_weaken; [apply leaf_set_calls| |done].
  intros o Ho. by apply air_num_keeps; unfold air_call; rewrite Ho, orb_true_r.
Qed.
Lemma alloc_keeps n : safe num_keeps (act (DmaAlloc n)) (fun _ => True).
Proof. by apply (safe_op num_keeps (DmaAlloc n)). Qed.
Lemma free_keeps h : safe num_keeps (act (DmaFree h)) (fun _ => True).
Proof. by apply (safe_op num_keeps (DmaFree h)). Qed.

Lemma rx_ring_try_keeps tries sz : forall s, g_rx_ok s = false ->
  safe num_keeps (rx_ring_try tries sz s) (fun s' => g_rx_ok s' = true -> g_rx_n s' ∈ tries).
Proof.
  induction tries as [|n tries IH]; intros s Hs; cbn [rx_ring_try]; [apply safe_ret; by rewrite Hs|].
  assert (Hrec : forall s', g_rx_ok s' = false ->
    safe num_keeps (rx_ring_try tries sz s') (fun s' => g_rx_ok s' = true -> g_rx_n s' ∈ n :: tries)).
  { intros s' Hs'. eapply safe_mono; [by apply IH|]. intros s'' Hin Hok. right. by apply Hin. }
  apply safe_bind_any; [apply alloc_keeps|]. intros [[h pa]|]; [|by apply Hrec].
  apply safe_bind_any; [apply alloc_keeps|]. intros [[h' pa']|].
  - apply safe_bind_any; [apply set_keeps|intros _]. apply safe_bind_any; [apply fill_rx_bds_keeps|intros _].
    apply safe_ret. intros _. by left.
  - apply safe_bind_any; [apply free_keeps|intros _]. by apply Hrec.
Qed.

Lemma init_view d s v : v_live v = false -> (g_rx_ok s = true -> g_rx_n s ∈ rx_try) ->
  view_safe (trx_init d s) v (fun '(ret, s') v' =>
    v_live v' = false /\ (ret = 0 -> ring_known s' v') /\ (g_trx_alloced s = true -> ret = 0)).
Proof.
  intros Hv Hn. unfold trx_init. destruct (g_trx_alloced s); cbn iota.
  { eapply view_bind; [by apply reset_view|]. intros s' v' [[? ?] _]. by apply view_ret. }
  destruct (trx_layout _ _) as [size rings]. cbv zeta.
  eapply view_bind_frame; [done|apply alloc_keeps|]. intros [[h pa]|] _; [|by apply view_ret].
  eapply view_bind_frame; [done|apply set_keeps|intros _ _].
  eapply view_bind_frame; [done|apply alloc_keeps|]. intros [[hp pap]|] _.
  2:{ eapply view_bind_frame; [done|apply free_keeps|intros _ _]. by apply view_ret. }
  eapply view_bind_frame; [done|apply alloc_keeps|]. intros [[ht pat]|] _.
  2:{ do 2 (eapply view_bind_frame; [done|apply free_keeps|intros _ _]). by apply view_ret. }
  eapply view_bind_frame; [done|apply set_keeps|intros _ _].
  eapply view_bind_frame; [done|by apply rx_ring_try_keeps|]. intros s1 Hs1.
  eapply view_bind; [by apply reset_view|]. intros s2 v2 [[? ?] _]. by apply view_ret.
Qed.

(** Initialisation in a bring-up: memory safe; after success the rings are up
    and the chip knows how deep the receive ring is. *)
Lemma inv_rx_try s m : trx_inv s m -> g_rx_ok s = true -> g_rx_n s ∈ rx_try.
Proof.
  unfold trx_inv. intros Hi Hok. destruct (g_trx_alloced s); [|by rewrite (td_rx s Hi) in Hok].
  pose proof (tu_rx s m Hi) as H. rewrite Hok in H. apply H.
Qed.
Lemma init_ring d s m v : trx_chip d -> trx_inv s m -> v_live v = false ->
  ring_safe (trx_init d s) m v (fun '(ret, s') m' v' =>
    trx_inv s' m' /\ m ⊆ m' /\ v_live v' = false /\ (ret = 0 \/ ret = -1) /\
    (ret = 0 -> g_trx_alloced s' = true /\ ring_known s' v') /\ (g_trx_alloced s = true -> ret = 0)).
Proof.
  intros Hd Hi Hv. eapply ring_safe_mono.
  { apply ring_safe_track; [by apply init_safe|apply init_view; [done|by eapply inv_rx_try]]. }
  intros [ret s'] m' v' [[Hi' Hret] (Hv' & Hk & Ha)]. do 2 (split; [done || by destruct Hret as [(_ & _ & ?)|(_ & _ & ->)]|]).
  split; [done|]. destruct Hret as [(-> & ? & _)|(-> & _ & _)].
  - split; [by left|]. split; [intros _; split; [done|by apply Hk]|done].
  - split; [by right|]. by split.
Qed.

Lemma free_ring m v : v_live v = false ->
  ring_safe trx_free m v (fun _ m' v' => m' = m /\ v' = View (Some 0) false).
Proof.
  intros Hv. unfold trx_free, usleep.
  eapply ring_safe_bind with (R := fun _ m' v' => m' = m /\ v' = View (Some 0) false).
  - apply (ring_safe_track _ _ _ (fun _ m' => m' = m) (fun _ v' => v' = View (Some 0) false)).
    + eapply mem_safe_mono; [apply (mem_safe_regs _ _ (fun _ => True)); by safe_go|]. by intros _ m' [-> _].
    + by apply (view_act (Write W16 _ _)).
  - intros _ m' v' [-> ->]. apply ring_safe_mono with (R := fun _ m' v' => (m' = m /\ True) /\ v' = View (Some 0) false /\ True);
      [apply ring_safe_mem; [done|apply (mem_safe_regs _ _ (fun _ => True))|]; safe_go; by apply (safe_op _ (Udelay _))|].
    intros _ m' v' ((-> & _) & -> & _). done.
Qed.

(** *** Firmware *)

Section Download.
Context (d : rtw_dev) (data : list Z).

Lemma img_bytes_keeps off n : safe num_keeps (img_bytes data off n) (fun _ => True).
Proof.
  unfold img_bytes. destruct (rd_bytes data off n); [by apply safe_ret|].
  apply safe_bind_any; [by apply (safe_op num_keeps Fault)|intros ?; by apply safe_ret].
Qed.
Lemma img32_keeps off : safe num_keeps (img32 data off) (fun _ => True).
Proof. apply safe_bind_any; [apply img_bytes_keeps|intros ?; by apply safe_ret]. Qed.
Lemma fw_sizes_keeps : safe num_keeps (fw_sizes data) (fun _ => True).
Proof.
  unfold fw_sizes, img8. do 2 (apply safe_bind_any; [apply img32_keeps|intros ?]).
  apply safe_bind_any; [apply safe_bind_any; [apply img_bytes_keeps|intros ?; by apply safe_ret]|intros ?].
  apply safe_bind_any; [case_match; [apply img32_keeps|by apply safe_ret]|intros ?]. by apply safe_ret.
Qed.

(** What the stages of a download keep. *)
Definition fw_known (s : trx_state) (v : view) : Prop :=
  ring_known s v /\ (g_rx_ok s = true -> g_rx_n s ∈ rx_try).
Definition fw_kept (s : trx_state) (x : Z * trx_state) (v : view) : Prop := rx_kept s x.2 /\ fw_known x.2 v.

Lemma fw_same s s' v r : rx_kept s s' -> fw_known s v -> fw_kept s (r, s') v.
Proof. intros Hk [H Hi]. split; [done|]. split; [by eapply known_kept|]. cbn. destruct Hk as (-> & -> & _). done. Qed.
Lemma fw_kept_trans s x v y v' : fw_kept s x v -> fw_kept x.2 y v' -> fw_kept s y v'.
Proof. intros [H1 _] [H2 H3]. split; [by eapply rx_kept_trans|done]. Qed.

(** The beacon doorbell shares its register with the ring size, and is written
    back with the size bits it read. *)
Lemma doorbell_size n r : n ∈ rx_try -> (u8 r .& 0xf =? (n >> 8) .& 0xf) = true ->
  (n .& 0xff) .| ((u8 (u8 r .| u8 BIT_PCI_BCNQ_FLAG) .& 0xf) << 8) = n.
Proof.
  intros Hn Hr. assert (Hz : u8 r .& 0xf = 0).
  { unfold rx_try, USCAN_RX_DESC_NUM in Hn. set_unfold in Hn. apply Z.eqb_eq in Hr. rewrite Hr.
    destruct Hn as [->|[->|[->|[->|[->|[]]]]]]; reflexivity. }
  assert (E : u8 (u8 r .| u8 BIT_PCI_BCNQ_FLAG) .& 0xf = 0).
  { assert (L : forall x, u8 x .& 0xf = x .& 0xf).
    { intros x. unfold u8, wrap. rewrite <- Z.land_ones, <- Z.land_assoc by lia. done. }
    rewrite L, Z.land_lor_distr_l, Hz. reflexivity. }
  rewrite E. unfold rx_try, USCAN_RX_DESC_NUM in Hn. set_unfold in Hn.
  destruct Hn as [->|[->|[->|[->|[->|[]]]]]]; reflexivity.
Qed.

Lemma doorbell_view s v (f : unit -> prog (Z * trx_state)) Q : fw_known s v ->
  (forall v', fw_known s v' -> view_safe (f tt) v' Q) ->
  view_safe (work ← hw_read8 RTK_PCI_TXBD_BCN_WORK;
             x ← hw_write8 RTK_PCI_TXBD_BCN_WORK (work .| u8 BIT_PCI_BCNQ_FLAG); f x) v Q.
Proof.
  intros [[Hv Hn] Hi] Hf. unfold hw_read8, hw_write8.
  eapply view_bind with (R := fun x v' => v' = v /\ exists r, x = u8 r /\
    forall n, v_num v = Some n -> (u8 r .& 0xf =? (n >> 8) .& 0xf) = true).
  { eapply view_bind; [apply (view_act (Read W8 _)); [done|]|].
    - intros r Hr. instantiate (1 := fun r v' => v' = v /\
        forall n, v_num v = Some n -> (u8 r .& 0xf =? (n >> 8) .& 0xf) = true).
      split; [destruct v; by cbn in *; subst|]. intros n En. rewrite En in Hr. exact Hr.
    - intros r v' [-> Hr]. apply view_ret. eauto. }
  intros work v' (-> & r & -> & Hr).
  eapply view_bind with (R := fun _ v' => fw_known s v').
  { apply (view_act (Write W8 _ _)); [done|]. intros ? _. split; [split; [done|]|done].
    intros Hok. cbn [v_num ring_num]. rewrite Z.eqb_refl, (Hn Hok). cbn [mbind option_bind].
    rewrite (doorbell_size _ _ (Hi Hok) (Hr _ (Hn Hok))). done. }
  intros [] v'. apply Hf.
Qed.

Lemma rsvd_view s v buf : fw_known s v -> view_safe (trx_write_data_rsvd_page d s buf) v (fw_kept s).
Proof.
  intros Hk. unfold trx_write_data_rsvd_page, put_w, bd_write. destruct (_ <? _); [by apply view_ret, fw_same|].
  do 6 (eapply (view_bind_frame _ _ _ (fun _ => True)); [apply Hk|first [by apply safe_mem_set|by apply safe_mem_write
    |case_match; [case_match; by apply (safe_op num_keeps (MemWrite _ _ _))|by apply safe_fault]]|intros ? _]).
  apply (doorbell_view s); [done|]. intros v' Hk'. by apply view_ret, fw_same.
Qed.
Lemma rsvd_page_view s v pg buf : fw_known s v -> view_safe (rtw_fw_write_data_rsvd_page d s pg buf) v (fw_kept s).
Proof.
  intros Hk. unfold rtw_fw_write_data_rsvd_page. destruct (_ =? _)%nat; [by apply view_ret, fw_same|].
  do 7 (eapply (view_bind_frame _ _ _ (fun _ => True)); [apply Hk|by fw_go|intros ? _]).
  eapply view_bind; [by apply rsvd_view|]. intros [ret s'] v' [Hs Hk'].
  do 5 (eapply (view_bind_frame _ _ _ (fun _ => True)); [apply Hk'|by fw_go|intros ? _]). by apply view_ret.
Qed.
Lemma send_view s v pg off n : fw_known s v -> view_safe (send_firmware_pkt d s pg data off n) v (fw_kept s).
Proof.
  intros Hk. unfold send_firmware_pkt.
  eapply (view_bind_frame _ _ _ (fun _ => True)); [apply Hk|by apply (safe_op num_keeps (Malloc n))|]. intros ok _.
  destruct (negb ok); [by apply view_ret, fw_same|].
  eapply view_bind_frame; [apply Hk|apply img_bytes_keeps|intros ? _]. by apply rsvd_page_view.
Qed.

Lemma iddma_keeps src dst n first : safe num_keeps (iddma_download_firmware src dst n first) (fun _ => True).
Proof. unfold iddma_download_firmware, iddma_enable. by fw_go. Qed.

Lemma to_mem_loop_view base src dst fuel : forall s v mo res first, fw_known s v ->
  view_safe (to_mem_loop fuel d s data base src dst mo res first) v (fw_kept s).
Proof.
  induction fuel as [|fuel IH]; intros s v mo res first Hk; cbn [to_mem_loop];
    (destruct (res =? 0); [by apply view_ret, fw_same|]).
  { eapply (view_bind_frame _ _ _ (fun _ => True)); [apply Hk|by apply (safe_op num_keeps Hang)|intros _ _; by apply view_ret, fw_same]. }
  cbv zeta. eapply view_bind; [by apply send_view|]. intros [ret s1] v1 Hs1. pose proof (proj2 Hs1) as Hk1. cbn [snd] in Hk1.
  destruct (nz ret); [by apply view_ret|].
  eapply view_bind_frame; [apply Hk1|apply iddma_keeps|intros ret2 _].
  destruct (nz ret2); [by apply view_ret|]. eapply view_mono; [by apply IH|].
  intros x v' Hx. by eapply (fw_kept_trans s (ret, s1)).
Qed.
Lemma to_mem_view s v base src dst size : fw_known s v ->
  view_safe (download_firmware_to_mem d s data base src dst size) v (fw_kept s).
Proof.
  intros Hk. unfold download_firmware_to_mem.
  do 2 (eapply (view_bind_frame _ _ _ (fun _ => True)); [apply Hk|by safe_go|intros ? _]).
  eapply view_bind; [by apply to_mem_loop_view|]. intros [ret s1] v1 Hs1. destruct (nz ret); [by apply view_ret|].
  eapply (view_bind_frame _ _ _ (fun _ => True)); [apply Hs1|unfold check_fw_checksum; by safe_go|intros ? _]. by apply view_ret.
Qed.
Lemma start_view s v : fw_known s v -> view_safe (start_download_firmware d s data) v (fw_kept s).
Proof.
  intros Hk. unfold start_download_firmware.
  eapply view_bind_frame; [apply Hk|apply fw_sizes_keeps|intros [[a b] c] _].
  do 2 (eapply (view_bind_frame _ _ _ (fun _ => True)); [apply Hk|by safe_go|intros ? _]).
  eapply view_bind_frame; [apply Hk|apply img32_keeps|intros ? _].
  eapply view_bind; [by apply to_mem_view|]. intros [r1 s1] v1 H1. destruct (nz r1); [by apply view_ret|].
  pose proof (proj2 H1) as Hk1. cbn [snd] in Hk1.
  eapply view_bind_frame; [apply Hk1|apply img32_keeps|intros ? _].
  eapply view_bind; [by apply to_mem_view|]. intros [r2 s2] v2 H2.
  pose proof (fw_kept_trans s (r1, s1) v1 (r2, s2) v2 H1 H2) as H12. pose proof (proj2 H12) as Hk2. cbn [snd] in Hk2.
  destruct (nz r2); [by apply view_ret|]. destruct (nz c); [|by apply view_ret].
  eapply view_bind_frame; [apply Hk2|apply img32_keeps|intros ? _]. eapply view_mono; [by apply to_mem_view|].
  intros y v' H3. by eapply (fw_kept_trans s (r2, s2)).
Qed.

(** The registers put back are none of the rings'. *)
Definition backup_ok (e : rtw_backup_info) : Prop := forall w, over_num w e.1.2 = false.
Lemma restore_keeps l : Forall backup_ok l -> safe num_keeps (rtw_restore_reg l) (fun _ => True).
Proof.
  induction 1 as [|[[len reg] val] l He _ IH]; cbn [rtw_restore_reg]; [by apply safe_ret|].
  pose proof (He W8). pose proof (He W16). pose proof (He W32). cbn [fst snd] in *.
  apply safe_bind_any; [|intros _; exact IH].
  repeat (destruct (_ =? _); [first [apply safe_write8; [cbn; by apply negb_true_iff|done]
    |apply safe_write16; [cbn; by apply negb_true_iff|done]|apply safe_write32; [cbn; by apply negb_true_iff|done]]|]).
  by apply safe_ret.
Qed.
Lemma backup_keeps : safe num_keeps download_firmware_reg_backup (Forall backup_ok).
Proof.
  unfold download_firmware_reg_backup. repeat (apply safe_bind_any; [by safe_go|intros ?]).
  apply safe_ret. repeat constructor; intros []; done.
Qed.
Lemma dlfw_fail_keeps s ret : safe num_keeps (dlfw_fail ret d s) (fun x => x.2 = s).
Proof. unfold dlfw_fail. do 2 (apply safe_bind_any; [by safe_go|intros ?]). by apply safe_ret. Qed.

Lemma download_view s v : fw_known s v -> view_safe (download_firmware d s data) v (fun x v' => ring_known x.2 v' /\ rx_kept s x.2).
Proof.
  intros Hk. unfold download_firmware.
  eapply (view_bind_frame _ _ _ (fun _ => True)); [apply Hk|unfold check_firmware_size; apply safe_bind_any; [apply fw_sizes_keeps|intros [[? ?] ?]; by apply safe_ret]|intros ok _].
  destruct (negb ok); [by apply view_ret; split; [apply Hk|]|].
  eapply (view_bind_frame _ _ _ (fun _ => True)); [apply Hk|unfold wlan_cpu_enable; by safe_go|intros _ _].
  eapply view_bind_frame; [apply Hk|apply backup_keeps|intros bckp Hb].
  eapply (view_bind_frame _ _ _ (fun _ => True)); [apply Hk|unfold download_firmware_reset_platform; by safe_go|intros _ _].
  eapply view_bind; [by apply start_view|intros [ret s1] v1 [Hkept [H1 Hi]]]. cbn [snd] in *.
  assert (Hfail : forall ret, view_safe (dlfw_fail ret d s1) v1 (fun x v' => ring_known x.2 v' /\ rx_kept s x.2)).
  { intros r. eapply view_mono; [apply view_frame, dlfw_fail_keeps; apply H1|]. intros [? ?] v' [-> E]. cbn in *. by subst. }
  destruct (nz ret); [apply Hfail|].
  eapply view_bind_frame; [apply H1|by apply restore_keeps|intros _ _].
  eapply (view_bind_frame _ _ _ (fun _ => True)); [apply H1|unfold download_firmware_end_flow; by safe_go|intros _ _].
  eapply (view_bind_frame _ _ _ (fun _ => True)); [apply H1|unfold wlan_cpu_enable; by safe_go|intros _ _].
  eapply (view_bind_frame _ _ _ (fun _ => True)); [apply H1|unfold download_firmware_validate; by fw_go|intros ret2 _].
  destruct (nz ret2); [apply Hfail|].
  eapply view_bind; [by apply reset_view; [apply H1|]|]. intros s2 v2 [? ?]. apply view_ret. split; [done|by eapply rx_kept_trans].
Qed.
End Download.

Lemma download_ring d s data m v : trx_chip d -> trx_up s m -> image_ok data -> ring_known s v ->
  ring_safe (download_firmware d s data) m v (fun x m' v' => dl_post d m x m' /\ ring_known x.2 v' /\ rx_kept s x.2).
Proof.
  intros Hd Hs Hi Hk. apply ring_safe_track; [by apply download_firmware_mem|apply download_view; split; [done|]].
  intros Hok. pose proof (tu_rx s m Hs) as H. rewrite Hok in H. apply H.
Qed.

(** *** Register-only stages *)

(** What a stage keeps of the device record. *)
Definition dev_kept (d d' : rtw_dev) : Prop :=
  chip d' = chip d /\ hci_type d' = hci_type d /\ efuse d' = efuse d /\ hal d' = hal d.

(** The tables of a PCIe chip have their PCIe entries. *)
Record mac_chip (d : rtw_dev) : Prop := {
  mc_hci : hci_type d = RTW_HCI_TYPE_PCIE;
  mc_rqpn : is_Some (rqpn_table (chip d) !! 1%nat);
  mc_page : is_Some (page_table (chip d) !! 1%nat);
  mc_size : page_size (chip d) <> 0;
}.

Lemma queue_mapping_regs d : mac_chip d -> safe reg_call (txdma_queue_mapping d) (fun x => dev_kept d x.2).
Proof.
  intros [Hh [rq Hr] _ _]. unfold txdma_queue_mapping. rewrite Hh, Hr. cbv zeta.
  do 3 (apply safe_bind_any; [by safe_go|intros _]).
  apply safe_bind_any; [by safe_go|intros _]. by apply safe_ret.
Qed.
Lemma fifo_info_regs d : mac_chip d -> safe reg_call (rtw_set_trx_fifo_info d) (fun x => dev_kept d x.2).
Proof.
  intros [_ _ _ Hp]. unfold rtw_set_trx_fifo_info. destruct (Z.eqb_spec (page_size (chip d)) 0); [done|].
  apply safe_bind_any; [by apply safe_ret|intros pages]. case_match; [by apply safe_ret|]. case_match; by apply safe_ret.
Qed.
Lemma queue_cfg_regs d : mac_chip d -> safe reg_call (priority_queue_cfg d) (fun x => dev_kept d x.2).
Proof.
  intros Hd. unfold priority_queue_cfg. eapply safe_bind; [by apply fifo_info_regs|]. intros [ret d1] Hk.
  cbn [snd] in Hk. destruct (nz ret); [by apply safe_ret|]. pose proof Hk as (E1 & E2 & _).
  destruct Hd as [Hh _ [pt Hpt] _]. rewrite E2, Hh, E1, Hpt.
  apply safe_bind_any; [unfold __priority_queue_cfg; by fw_go|intros ?]. by apply safe_ret.
Qed.
Lemma mac_init_regs d : mac_chip d -> safe reg_call (mac_init d) (fun x => dev_kept d x.2).
Proof.
  intros Hd. unfold mac_init. eapply safe_bind with (R := fun x => dev_kept d x.2).
  { unfold rtw_init_trx_cfg. eapply safe_bind; [by apply queue_mapping_regs|]. intros [r1 d1] Hk1. cbn [snd] in Hk1.
    destruct (nz r1); [by apply safe_ret|]. pose proof Hk1 as (E1 & E2 & E3 & E4).
    eapply safe_bind; [apply queue_cfg_regs; destruct Hd; split; by rewrite ?E1, ?E2|]. intros [r2 d2] (F1 & F2 & F3 & F4).
    assert (Hk : dev_kept d d2) by (cbn [snd] in *; unfold dev_kept; rewrite F1, F2, F3, F4; done).
    destruct (nz r2); [by apply safe_ret|]. apply safe_bind_any; [unfold init_h2c; by fw_go|intros ?]. by apply safe_ret. }
  intros [ret d1] Hk. cbn [snd] in Hk. destruct (nz ret); [by apply safe_ret|].
  apply safe_bind_any; [unfold rtw8821c_mac_init; by fw_go|intros r2]. destruct (nz r2); [by apply safe_ret|].
  apply safe_bind_any; [unfold rtw_drv_info_cfg; by fw_go|intros r3]. destruct (nz r3); by apply safe_ret.
Qed.

Lemma coex_regs : safe reg_call coex_wifi_antenna (fun _ => True).
Proof. unfold coex_wifi_antenna, indirect_write, lte_read, lte_write. by fw_go. Qed.

(** *** PHY parameters *)

(** A table none of whose entries names a ring register. *)
Definition entries_clear (w : width) (tbl : list Z) : bool :=
  forallb (fun e => negb (plain_entry e) || negb (ring_reg w e.1)) (tiles_of tbl).
Definition tables_clear (t : phy_tables) : Prop :=
  entries_clear W8 (rtw8821c_mac t) = true /\ entries_clear W32 (rtw8821c_bb t) = true /\
  entries_clear W32 (rtw8821c_agc t) = true /\ entries_clear W32 (rtw8821c_agc_btg_type2 t) = true.

Lemma parse_tiles_regs P d (cfg : applier) path l :
  Forall (fun e => plain_entry e = true -> safe P (cfg d path e.1 e.2) (fun _ => True)) l ->
  forall pos mt sk n, safe P (parse_tiles d cfg path l pos mt sk n) (fun _ => True).
Proof.
  induction 1 as [|[a x] l Hc _ IH]; intros pos mt sk n; cbn [parse_tiles]; [by apply safe_ret|].
  unfold plain_entry in Hc. cbn [fst snd] in Hc. destruct (nz (cond_pos (cond_of a))).
  { repeat (case_match; try apply IH). }
  destruct (nz (cond_neg (cond_of a))).
  { repeat (case_match; try apply IH). }
  destruct mt; [|apply IH]. apply safe_bind_any; [by apply Hc|intros c]. apply IH.
Qed.

Lemma load_regs d (cfg : applier) w tbl :
  (forall a x, ring_reg w a = false -> safe reg_call (cfg d RF_PATH_A a x) (fun _ => True)) ->
  entries_clear w tbl = true -> safe reg_call (load_one d (Table tbl cfg RF_PATH_A)) (fun _ => True).
Proof.
  intros Hcfg Ht. apply parse_tiles_regs. cbn [t_data]. apply Forall_forall. intros e He Hp.
  unfold entries_clear in Ht. rewrite forallb_forall in Ht. specialize (Ht e He).
  rewrite Hp in Ht. apply Hcfg. by apply negb_true_iff.
Qed.

Lemma write_reg8 a x : ring_reg W8 a = false -> safe reg_call (hw_write8 a x) (fun _ => True).
Proof. intros Ha. apply safe_write8; [|done]. unfold reg_call. cbn [no_mem]. by rewrite Ha. Qed.
Lemma write_reg32 a x : ring_reg W32 a = false -> safe reg_call (hw_write32 a x) (fun _ => True).
Proof. intros Ha. apply safe_write32; [|done]. unfold reg_call. cbn [no_mem]. by rewrite Ha. Qed.

Lemma phy_set_param_regs d t : tables_clear t ->
  safe reg_call (phy_set_param d t) (fun x => chip x.2 = chip d /\ efuse x.2 = efuse d).
Proof.
  intros (Hmac & Hbb & Hagc & Hbtg). unfold phy_set_param.
  assert (A : forall d a x, ring_reg W32 a = false -> safe reg_call (rtw_phy_cfg_agc d RF_PATH_A a x) (fun _ => True)).
  { intros d0 a x Ha. apply safe_bind_any; [by apply write_reg32|intros _; by apply safe_ret]. }
  set (d1 := rtw_phy_setup_phy_cond d (pkg_type (hal d))). cbv zeta.
  apply safe_bind_any; [by safe_go|intros val]. do 8 (apply safe_bind_any; [by safe_go|intros _]).
  apply safe_bind_any; [by safe_go|intros _].
  apply safe_bind_any; [apply (load_regs _ _ W8); [|done]|intros _].
  { intros a x Ha. apply safe_bind_any; [by apply write_reg8|intros _; by apply safe_ret]. }
  apply safe_bind_any; [apply (load_regs _ _ W32); [|done]|intros bb].
  { intros a x Ha. unfold rtw_phy_cfg_bb.
    repeat (destruct (a =? _); [apply safe_bind_any; [by safe_go|intros _; by apply safe_ret]|]).
    apply safe_bind_any; [by apply write_reg32|intros _; by apply safe_ret]. }
  apply safe_bind_any; [apply (load_regs _ _ W32); [apply A|done]|intros agc].
  apply safe_bind_any; [case_match; [apply safe_bind_any; [apply (load_regs _ _ W32); [apply A|done]|]|]|intros agc'];
    [intros ?; by apply safe_ret|by apply safe_ret|].
  apply safe_bind_any; [apply read_rf_regs|intros _].
  apply safe_bind_any; [apply parse_tiles_regs|intros rf].
  { apply Forall_forall. intros e _ _. unfold do_cfg, rtw_phy_cfg_rf.
    repeat (destruct (e.1 =? _); [apply safe_bind_any; [by safe_go|intros _; by apply safe_ret]|]).
    apply safe_bind_any; [apply write_rf_regs|intros _]. by safe_go. }
  apply safe_bind_any; [apply read_rf_regs|intros rf0].
  do 4 (apply safe_bind_any; [by safe_go|intros _]). apply safe_bind_any; [by safe_go|intros cfg1].
  by apply safe_ret.
Qed.

(** *** Scan and join: the calls *)

Lemma find_net_calls mac l : forall i, safe rx_call (find_net l i mac) (fun _ => True).
Proof.
  induction l as [|n l IH]; intros i; cbn [find_net]; [by apply safe_ret|].
  apply safe_bind_any; [apply slot_bytes_calls|intros b]. destruct (_ =? _); [by apply safe_ret|apply IH].
Qed.
Lemma no_nul_calls name n : forall k p, safe rx_call (no_nul n name k p) (fun _ => True).
Proof.
  induction n as [|n IH]; intros k p; cbn [no_nul]; [by apply safe_ret|].
  apply safe_bind_any; [apply slot8_calls|intros b; apply IH].
Qed.
Lemma deref_calls {A} p (dflt : A) f : (forall a, safe rx_call (f a) (fun _ => True)) ->
  safe rx_call (deref p dflt f) (fun _ => True).
Proof.
  intros Hf. unfold deref. destruct p; [apply Hf|].
  apply safe_bind_any; [by apply (safe_op rx_call Fault)|intros ?; by apply safe_ret].
Qed.
Lemma add_net_calls mac name len ch priv st : safe rx_call (add_net mac name len ch priv st) (fun _ => True).
Proof.
  unfold add_net. apply safe_bind_any; [apply find_net_calls|]. intros [i|]; [by apply safe_ret|].
  destruct (_ <=? _)%nat; [by apply safe_ret|]. cbv zeta.
  apply safe_bind_any; [apply slot_bytes_calls|intros b].
  apply safe_bind_any; [destruct (0 <? _); [apply deref_calls; intros; apply no_nul_calls|by apply safe_ret]|intros p].
  apply safe_bind_any; [|intros ?; by apply safe_ret].
  destruct p; [|by apply safe_ret]. apply deref_calls. intros a.
  apply safe_bind_any; [apply slot_bytes_calls|intros ?; by apply safe_ret].
Qed.
Lemma parse_ies_calls f pkt_len ch priv fuel : forall i st, safe rx_call (parse_ies fuel f i pkt_len ch priv st) (fun _ => True).
Proof.
  induction fuel as [|fuel IH]; intros i st; cbn [parse_ies].
  { apply safe_bind_any; [by apply (safe_op rx_call Hang)|intros ?; by apply safe_ret]. }
  destruct (_ <=? _); [|apply add_net_calls].
  do 2 (apply safe_bind_any; [apply slot8_calls|intros ?]).
  destruct (_ <? _); [apply add_net_calls|]. destruct (_ =? _); [apply add_net_calls|apply IH].
Qed.
Lemma parse_frame_calls buf ch st : safe rx_call (parse_frame buf ch st) (fun _ => True).
Proof.
  unfold parse_frame. apply safe_bind_any; [apply slot32_calls|intros w0].
  do 2 (case_match; [by apply safe_ret|]).
  apply safe_bind_any; [apply frame_control_calls|intros fc]. do 2 (case_match; [by apply safe_ret|]).
  apply safe_bind_any; [apply slot8_calls|intros cap]. apply parse_ies_calls.
Qed.
Lemma drain_keeps s ch rp st : safe num_keeps (drain s ch rp st) (fun _ => True).
Proof.
  apply air_keep, rx_air. unfold drain. apply safe_bind_any; [apply rx_hw_idx_calls|intros hw].
  apply safe_bind_any; [apply rx_drain_calls; intros; apply at_slot_calls; intros;
    apply safe_bind_any; [apply parse_frame_calls|intros ?; by apply safe_ret]|intros [v rp']].
  apply safe_bind_any; [apply rx_set_host_calls|intros _]. by apply safe_ret.
Qed.
Lemma send_probe_keeps probe rate r : safe num_keeps (send_probe probe rate r) (fun _ => True).
Proof.
  apply air_keep, leaf_air. unfold send_probe. apply safe_bind_any; [apply tx_mgmt_calls|intros [? ?]; by apply safe_ret].
Qed.
Lemma dwell_keeps iters ch rate probe k : forall i rp r, safe num_keeps (dwell k i iters ch rate probe rp r) (fun _ => True).
Proof.
  induction k as [|k IH]; intros i rp r; cbn [dwell]; [by apply safe_ret|].
  do 3 (apply safe_bind_any; [by safe_go|intros ?]).
  apply safe_bind_any; [apply drain_keeps|intros [st rp']].
  apply safe_bind_any; [case_match; [apply send_probe_keeps|by apply safe_ret]|intros r']. apply IH.
Qed.
Lemma scan_networks_keeps r channels ms_per : safe num_keeps (scan_networks r channels ms_per) (fun _ => True).
Proof.
  unfold scan_networks. case_match; [by apply safe_ret|].
  apply safe_bind_any; [by apply (safe_op num_keeps IrqEnable)|intros irq]. case_match; [by apply safe_ret|].
  apply safe_bind_any; [by safe_go|intros _]. apply safe_bind_any; [|intros r'].
  - generalize (build_probe_req (ef_addr (efuse (ra_dev (set_ra_scan (ScanState (g_nets (ra_scan r)) 0 0) r))))) as probe.
    intros probe. generalize (set_ra_scan (ScanState (g_nets (ra_scan r)) 0 0) r) as r0.
    induction channels as [|ch l IH]; intros r0; cbn [scan_channels]; [by apply safe_ret|].
    apply safe_bind_any; [|intros ?; apply IH]. unfold scan_channel.
    apply safe_bind_any; [eapply safe_mono; [apply regs_keep, set_channel_regs|done]|intros [d c]].
    apply safe_bind_any; [apply air_keep, rx_air, rx_hw_idx_calls|intros rp].
    apply safe_bind_any; [apply air_keep, rx_air, rx_set_host_calls|intros _].
    apply safe_bind_any; [apply send_probe_keeps|intros r']. apply dwell_keeps.
  - apply safe_bind_any; [by apply (safe_op num_keeps IrqDisable)|intros _]. by apply safe_ret.
Qed.

Lemma wpa_handshake_keeps d u bssid ssid pass channel :
  safe num_keeps (wpa_handshake d u bssid ssid pass channel) (fun _ => True).
Proof.
  unfold wpa_handshake. apply safe_bind_any; [by apply (safe_op num_keeps (RandomBuf 32))|intros nonce].
  apply safe_bind_any; [apply air_keep, wpa_exchange_air|intros [rc u1]].
  apply safe_bind_any; [case_match; [unfold wpa_link_up|by apply safe_ret]|intros ?; by apply safe_ret].
  apply safe_bind_any; [apply regs_keep, install_keys_regs|intros _].
  apply safe_bind_any; [apply regs_keep, media_connect_regs|intros [? ?]]. by apply safe_ret.
Qed.
Lemma iqk_keeps d s seq : safe num_keeps (rtw_do_iqk d s seq) (fun _ => True).
Proof.
  unfold rtw_do_iqk. do 4 (apply safe_bind_any; [by safe_go|intros _]).
  apply safe_bind_any; [apply air_keep, leaf_air, tx_h2c_calls|intros [r s']].
  apply safe_bind_any; [|intros _].
  { generalize false. generalize 300%nat. induction n as [|n IH]; intros seen; cbn [iqk_poll]; [by apply safe_ret|].
    apply safe_bind_any; [by safe_go|intros seen']. apply safe_bind_any; [apply regs_keep, read_rf_regs|intros v].
    destruct (_ =? _); [by apply safe_ret|]. apply safe_bind_any; [by safe_go|intros _]. apply IH. }
  do 2 (apply safe_bind_any; [by safe_go|intros _]).
  apply safe_bind_any; [apply regs_keep, write_rf_regs|intros _]. by safe_go.
Qed.
Lemma assoc_try_keeps d bssid ssid ssid_len channel rate five pass t : forall g,
  safe num_keeps (assoc_try t d g bssid ssid ssid_len channel rate five pass) (fun _ => True).
Proof.
  induction t as [|t IH]; intros g; cbn [assoc_try]; [by apply safe_ret|].
  apply safe_bind_any; [apply air_keep, leaf_air, tx_mgmt_calls|intros [r s]].
  apply safe_bind_any; [apply air_keep, wait_mgmt_air|intros [body|]]; [|apply IH].
  case_match; [|by apply safe_ret]. apply safe_bind_any; [|intros g'; by apply safe_ret]. unfold joined.
  destruct (learn_caps body) as [ht vht].
  assert (Hl : forall s g, safe num_keeps (listen_eapol s bssid;; mret (g : station)) (fun _ => True)).
  { intros s0 g0. apply safe_bind_any; [apply air_keep, listen_air|intros _; by apply safe_ret]. }
  destruct pass as [p|]; [|apply Hl]. destruct (nz _); [|apply Hl].
  apply safe_bind_any; [apply wpa_handshake_keeps|intros [rc u]]. by apply safe_ret.
Qed.
Lemma associate_keeps d g bssid ssid ssid_len channel pass :
  safe num_keeps (associate d g bssid ssid ssid_len channel pass) (fun _ => True).
Proof.
  unfold associate. apply safe_bind_any; [eapply safe_mono; [apply regs_keep, set_channel_regs|done]|intros [d' c]].
  apply safe_bind_any; [unfold set_identity; by safe_go|intros _].
  apply safe_bind_any; [case_match; [apply iqk_keeps|by apply safe_ret]|intros [s seq]].
  apply safe_bind_any; [apply air_keep, auth_try_air|intros [ok s']]. case_match; [by apply safe_ret|].
  apply safe_bind_any; [apply assoc_try_keeps|intros [rc g']]. by apply safe_ret.
Qed.

(** *** Scan and join: safe in a bring-up *)

(** The chip was told a receive ring no deeper than the driver's (or none, after
    a halt). *)
Definition ring_within (s : trx_state) (v : view) : Prop :=
  v_live v = false /\ (g_rx_ok s = true -> exists k, v_num v = Some k /\ Z.max k 1 <= g_rx_n s).

Lemma rx_try_pos n : n ∈ rx_try -> 8 <= n.
Proof. unfold rx_try, USCAN_RX_DESC_NUM. intros Hn. set_unfold in Hn. lia. Qed.
Lemma known_within s m v : trx_inv s m -> ring_known s v -> ring_within s v.
Proof.
  intros Hi [Hv Hn]. split; [done|]. intros Hok. exists (g_rx_n s). split; [by apply Hn|].
  pose proof (rx_try_pos _ (inv_rx_try s m Hi Hok)). lia.
Qed.
Lemma within_same s s' v : same_rx s s' -> ring_within s v -> ring_within s' v.
Proof. unfold ring_within. intros (-> & _ & ->). done. Qed.

Lemma leaf_same q s m x m' : leaf_post q s m x m' -> same_rx s x.2.
Proof. intros [_ [[_ ->]|(_ & -> & _)]]; done. Qed.

Lemma leaf_ring {A} (p : prog (Z * trx_state)) (f : Z * trx_state -> prog A) q s m v Q :
  trx_inv s m -> v_live v = false -> mem_safe p m (leaf_post q s m) -> safe leaf_call p (fun _ => True) ->
  (forall x, trx_inv x.2 m -> same_rx s x.2 -> ring_safe (f x) m v Q) -> ring_safe (p ≫= f) m v Q.
Proof.
  intros Hi Hv Hp Hk Hf. eapply ring_safe_bind.
  { apply ring_safe_mem; [done|exact Hp|by apply air_keep, leaf_air]. }
  intros x m' v' (Hpost & -> & _). pose proof (leaf_same _ _ _ _ _ Hpost) as Hs.
  apply leaf_inv in Hpost as [-> Hx]; [|done]. by apply Hf.
Qed.

Lemma handshake_ring d s m v : trx_chip d -> trx_inv s m -> v_live v = false ->
  ring_safe (fw_handshake d s) m v (fun s' m' v' => m' = m /\ v' = v /\ trx_inv s' m /\ same_rx s s').
Proof.
  intros Hd Hi Hv. unfold fw_handshake.
  eapply leaf_ring; [exact Hi|done|by apply tx_h2c_safe|apply tx_h2c_calls|]. intros [r1 s1] Hi1 Hs1. cbn [snd] in *.
  apply (ring_safe_bind_regs _ _ _ _ (fun _ => True)); [done|by safe_go|intros _ _].
  eapply leaf_ring; [exact Hi1|done|by apply tx_h2c_safe|apply tx_h2c_calls|]. intros [r2 s2] Hi2 Hs2. cbn [snd] in *.
  apply (ring_safe_bind_regs _ _ _ _ (fun _ => True)); [done|by safe_go|intros _ _].
  apply ring_safe_ret. do 3 (split; [done|]). by eapply same_rx_trans.
Qed.

Lemma scan_ring (r : radio) m v channels ms_per :
  trx_chip (ra_dev r) -> length (ef_addr (efuse (ra_dev r))) = 6%nat ->
  trx_inv (ra_trx r) m -> table_ok (ra_scan r) -> ring_within (ra_trx r) v ->
  ring_safe (scan_networks r channels ms_per) m v (fun '(ret, r') m' v' =>
    m' = m /\ v' = v /\ trx_inv (ra_trx r') m /\ same_rx (ra_trx r) (ra_trx r') /\ table_ok (ra_scan r') /\
    (ret = -1 /\ nets (ra_scan r') = [] \/ trx_rx_ok (ra_trx r') = true) /\
    trx_chip (ra_dev r') /\ length (ef_addr (efuse (ra_dev r'))) = 6%nat).
Proof.
  intros Hd Ha Hi Ht [Hv Hw]. destruct (g_rx_ok (ra_trx r)) eqn:Hok.
  - destruct (Hw eq_refl) as (k & Hk & Hle). eapply ring_safe_mono.
    { eapply (ring_safe_if (g_rx_n (ra_trx r))); [done|exact Hk|done|by apply scan_networks_mem|apply scan_networks_keeps]. }
    intros [ret r'] m' v' [(-> & Hi' & Hs' & Ht' & Hret & Hd' & Ha') ->].
    do 5 (split; [done|]). split; [destruct Hret as [?|[_ ?]]; auto|done].
  - unfold scan_networks, trx_rx_ok. cbn [set_ra_scan ra_trx]. rewrite Hok. apply ring_safe_ret.
    do 4 (split; [done|]). split; [|split; [by left|done]].
    destruct Ht as (T1 & T2 & T3). split; [done|]. cbn. split; [lia|done].
Qed.

Lemma associate_ring d g m v bssid ssid ssid_len channel pass :
  trx_chip d -> length (ef_addr (efuse d)) = 6%nat -> length bssid = 6%nat ->
  0 <= ssid_len <= Z.of_nat (length ssid) -> ssid_len < 256 ->
  trx_inv (st_trx g) m -> trx_rx_ok (st_trx g) = true -> rsbox_ok (su_rsbox (st_supp g)) -> ring_within (st_trx g) v ->
  ring_safe (associate d g bssid ssid ssid_len channel pass) m v (fun '(rc, d', g') m' v' =>
    m' = m /\ v' = v /\ trx_chip d' /\ efuse d' = efuse d /\ station_ok (st_trx g) m g').
Proof.
  intros Hd Ha Hb Hn Hn' Hi Hok Hr [Hv Hw]. destruct (Hw Hok) as (k & Hk & Hle). eapply ring_safe_mono.
  { eapply (ring_safe_if (g_rx_n (st_trx g))); [done|exact Hk|done| |apply associate_keeps].
    apply associate_mem; try done. split; [done|]. by apply inv_rx_live. }
  intros [[rc d'] g'] m' v' [(-> & ? & ? & ? & _) ->]. done.
Qed.
