(* ===== verification/Judge.v ===== *)
(** * Judge: the terms under which a control call is judged

    The monitor of Bringup allows no reprogramming of the chip while the data path
    runs, and covers every answer of the allocator.  Two groups of entry points of
    server/kctl.c do less: the diagnostics tear nothing down first, and bring-up
    and the scans go on whatever [trx_init] returned.  Here both are terms of the
    judgement: [t_strict], no reprogramming under a running data path; and
    [t_granted], only the runs in which the allocator refuses nothing are looked
    at.  The rest (buffers, faults, endless loops, the ring size) is judged in any
    case.  Also the halt: what the chip was last told of its rings, its MAC and
    the bus. *)
From stdpp Require Import gmap.
From S2P Require Import Prelude Hw Regs Dev Pwr Efuse Aes Trx Rx Sec Media Coex Wpa Handshake Fw MacInit Phy Channel Scan Assoc Bringup.
Open Scope Z_scope.
Open Scope rtw_scope.

(** ** The monitor *)

Record terms := Terms { t_strict : bool; t_granted : bool }.

Definition refused (o : hwop) : hwres o -> bool :=
  match o as o return hwres o -> bool with
  | DmaAlloc _ => fun r => match r with None => true | Some _ => false end
  | _ => fun _ => false
  end.
(** What leaves the data path and the buffers it runs on in place. *)
Definition kept_call (o : hwop) : bool :=
  match o with DmaAlloc _ | DmaFree _ | DataStart _ | DataStop => false | _ => true end.

Definition judge_mon (T : terms) (st : option (gmap Z Z * view)) (o : hwop) (r : hwres o) : option (option (gmap Z Z * view)) :=
  match st with
  | None => Some None
  | Some (m, v) =>
      if t_granted T && refused o r then Some None else
      if chip_fair (v_num v) o r then
        if v_live v && negb (if t_strict T then live_ok o else kept_call o) then None else
        match mem_mon (Some m) o r with
        | Some (Some m') => Some (Some (m', View (ring_num (v_num v) o) (live_after (v_live v) o r)))
        | Some None => Some None
        | None => None
        end
      else Some None
  end.
Definition judged {B} (T : terms) (p : prog B) (m : gmap Z Z) (v : view) (Q : B -> gmap Z Z -> view -> Prop) : Prop :=
  wp (judge_mon T) p (Some (m, v)) (fun x st => match st with Some (m', v') => Q x m' v' | None => True end).

Lemma judge_released {B} T (p : prog B) (Q : B -> option (gmap Z Z * view) -> Prop) :
  (forall x, Q x None) -> wp (judge_mon T) p None Q.
Proof. intros HQ. induction p as [x|o k IH]; [apply HQ|]. intros r. apply IH. Qed.
Lemma judged_ret {B} T (x : B) m v (Q : B -> gmap Z Z -> view -> Prop) : Q x m v -> judged T (mret x) m v Q.
Proof. done. Qed.
Lemma judged_bind {B C} T (f : B -> prog C) (p : prog B) m v R Q :
  judged T p m v R -> (forall x m' v', R x m' v' -> judged T (f x) m' v' Q) -> judged T (p ≫= f) m v Q.
Proof.
  intros Hp Hf. apply wp_bind. eapply wp_mono; [apply Hp|].
  intros x [[m' v']|] Hx; [by apply Hf|by apply judge_released].
Qed.
Lemma judged_mono {B} T (p : prog B) m v (R Q : B -> gmap Z Z -> view -> Prop) :
  judged T p m v R -> (forall x m' v', R x m' v' -> Q x m' v') -> judged T p m v Q.
Proof. intros Hp HQ. eapply wp_mono; [apply Hp|]. intros x [[m' v']|]; auto. Qed.

(** ** What is safe on every answer is so on granted ones *)

#[local] Transparent ring_safe.
Lemma judged_ring {B} g (p : prog B) m v Q : ring_safe p m v Q -> judged (Terms true g) p m v Q.
Proof.
  unfold ring_safe, judged. revert m v. induction p as [x|o k IH]; intros m v Hp; [done|]. intros r. specialize (Hp r).
  cbn [judge_mon ring_mon view_mon t_strict t_granted] in *. destruct (g && refused o r); [by apply judge_released|].
  destruct (chip_fair _ o r); [|by apply judge_released]. destruct (v_live v && negb (live_ok o)); [done|].
  destruct (mem_mon (Some m) o r) as [[m1|]|]; [by apply IH|by apply judge_released|done].
Qed.
#[local] Opaque ring_safe.
Lemma judged_bind_ring {B C} g (f : B -> prog C) (p : prog B) m v R Q :
  ring_safe p m v R -> (forall x m' v', R x m' v' -> judged (Terms true g) (f x) m' v' Q) -> judged (Terms true g) (p ≫= f) m v Q.
Proof. intros Hp. apply judged_bind. by apply judged_ring. Qed.
Lemma judged_bind_regs {B C} g (f : B -> prog C) (p : prog B) m v R Q : v_live v = false ->
  safe reg_call p R -> (forall x, R x -> judged (Terms true g) (f x) m v Q) -> judged (Terms true g) (p ≫= f) m v Q.
Proof.
  intros Hv Hp Hf. eapply judged_bind_ring; [by apply ring_safe_regs|]. intros x m' v' (-> & -> & Hx). by apply Hf.
Qed.

(** ** Runs in which nothing is refused *)

Definition grant_mon (st : bool) (o : hwop) (r : hwres o) : option bool := Some (st && negb (refused o r)).
Definition if_granted {B} (p : prog B) (R : B -> Prop) : Prop := wp grant_mon p true (fun x (st : bool) => st = true -> R x).
Lemma grant_released {B} (p : prog B) (Q : B -> bool -> Prop) : (forall x, Q x false) -> wp grant_mon p false Q.
Proof. intros HQ. induction p as [x|o k IH]; [apply HQ|]. intros r. apply IH. Qed.
Lemma granted_ret {B} (x : B) (R : B -> Prop) : R x -> if_granted (mret x) R.
Proof. intros H _. exact H. Qed.
Lemma granted_bind {B C} (f : B -> prog C) (p : prog B) R Q :
  if_granted p R -> (forall x, R x -> if_granted (f x) Q) -> if_granted (p ≫= f) Q.
Proof.
  intros Hp Hf. apply wp_bind. eapply wp_mono; [apply Hp|]. intros x [|] Hx; [by apply Hf, Hx|by apply grant_released].
Qed.
Lemma granted_any {B} (p : prog B) : if_granted p (fun _ => True).
Proof.
  assert (H : forall st, wp grant_mon p st (fun _ (st : bool) => st = true -> True)); [|exact (H true)].
  induction p as [x|o k IH]; intros st; [done|]. intros r. apply IH.
Qed.
Lemma granted_bind_any {B C} (f : B -> prog C) (p : prog B) Q : (forall x, if_granted (f x) Q) -> if_granted (p ≫= f) Q.
Proof. intros Hf. eapply granted_bind; [apply granted_any|auto]. Qed.
Lemma granted_alloc n : if_granted (act (DmaAlloc n)) is_Some.
Proof. intros [x|]; cbn; [by intros _; exists x|done]. Qed.
#[local] Opaque if_granted.

#[local] Transparent if_granted.
Lemma judged_granted {B} s (p : prog B) m v Q R : judged (Terms s true) p m v Q -> if_granted p R ->
  judged (Terms s true) p m v (fun x m' v' => Q x m' v' /\ R x).
Proof.
  unfold judged, if_granted. revert m v. induction p as [x|o k IH]; intros m v Hp Hg; [by split; [|apply Hg]|].
  intros r. specialize (Hp r). specialize (Hg r). cbn [judge_mon t_granted t_strict andb grant_mon] in *.
  destruct (refused o r); cbn [negb] in Hg; [by apply judge_released|].
  destruct (chip_fair _ o r); [|by apply judge_released]. destruct (v_live v && _); [done|].
  destruct (mem_mon (Some m) o r) as [[m1|]|]; [by apply IH|by apply judge_released|done].
Qed.
#[local] Opaque if_granted.

(** [trx_init] fails for want of memory only. *)
Lemma granted_init d s : if_granted (trx_init d s) (fun x => x.1 = 0).
Proof.
  unfold trx_init. destruct (g_trx_alloced s); [by apply granted_bind_any; intros s'; apply granted_ret|].
  destruct (trx_layout _ _) as [size rings]. cbv zeta.
  eapply granted_bind; [apply granted_alloc|]. intros ? [[h pa] ->]. apply granted_bind_any; intros _.
  eapply granted_bind; [apply granted_alloc|]. intros ? [[hp pap] ->].
  eapply granted_bind; [apply granted_alloc|]. intros ? [[ht pat] ->].
  do 3 (apply granted_bind_any; intros ?). by apply granted_ret.
Qed.

(** ** Calls made while the data path runs *)

(** What is safe with the running data path set aside, and leaves it and its
    buffers in place, is safe under it but for the reprogramming. *)
Lemma judged_attach {B} g (p : prog B) m t Q R : judged (Terms true g) p m (View t false) Q -> safe kept_call p R ->
  judged (Terms false g) p m (View t true) (fun x m' v' => v_live v' = true /\ Q x m' (View (v_num v') false) /\ R x).
Proof.
  unfold judged. revert m t. induction p as [x|o k IH]; intros m t Hp Hs; [apply safe_ret_inv in Hs; done|].
  intros r. pose proof (safe_act_inv _ _ _ _ Hs r) as Hk. apply safe_act_op in Hs. specialize (Hp r).
  cbn [judge_mon t_strict t_granted v_num v_live andb] in *. destruct (g && refused o r); [by apply judge_released|].
  destruct (chip_fair t o r); [|by apply judge_released]. rewrite Hs. cbn [negb].
  destruct (mem_mon (Some m) o r) as [[m1|]|]; [|by apply judge_released|done].
  assert (forall l, live_after l o r = l) as Hl by (intros l; by destruct o). rewrite Hl in *. by apply IH.
Qed.

(** Register code leaves both in place. *)
Lemma reg_kept o : reg_call o = true -> kept_call o = true.
Proof. by destruct o. Qed.
Lemma regs_kept {B} (p : prog B) R : safe reg_call p R -> safe kept_call p (fun _ => True).
Proof. intros Hp. eapply safe_weaken; [apply Hp|apply reg_kept|done]. Qed.

Ltac kept_go :=
  repeat first [safe_step
    | match goal with |- safe ?P (act ?o) _ => apply (safe_op P o (fun _ => True)); [done|done] end
    | apply check_ready_safe; [done|done]
    | progress unfold put_w, bd_write, mem_set, mem_write, fault, usleep, rtw_write16_clr | progress cbv zeta].

Lemma reset_rings_kept h l : forall s, safe kept_call (trx_reset_rings h s l) (fun _ => True).
Proof.
  induction l as [|[[q a] b] l IH]; intros s; cbn [trx_reset_rings]; [by apply safe_ret|].
  apply safe_bind_any; [unfold trx_reset_ring; by kept_go|]. intros s'. apply IH.
Qed.
Lemma reset_kept d s : safe kept_call (trx_reset d s) (fun _ => True).
Proof. unfold trx_reset. do 2 (apply safe_bind_any; [by kept_go|intros ?]). apply safe_bind_any; [apply reset_rings_kept|]. by kept_go. Qed.
(** Rings already allocated are kept: only reprogrammed. *)
Lemma init_kept d s : g_trx_alloced s = true -> safe kept_call (trx_init d s) (fun _ => True).
Proof. intros Ha. unfold trx_init. rewrite Ha. apply safe_bind_any; [apply reset_kept|]. by kept_go. Qed.

Section Download.
Context (d : rtw_dev) (data : list Z).

Lemma img32_kept off : safe kept_call (img32 data off) (fun _ => True).
Proof. unfold img32, img_bytes. by kept_go. Qed.
Lemma sizes_kept : safe kept_call (fw_sizes data) (fun _ => True).
Proof. unfold fw_sizes, img8, img32, img_bytes. by kept_go. Qed.
Lemma send_kept s pg off n : safe kept_call (send_firmware_pkt d s pg data off n) (fun _ => True).
Proof. unfold send_firmware_pkt, img_bytes, rtw_fw_write_data_rsvd_page, trx_write_data_rsvd_page. by kept_go. Qed.
Lemma to_mem_loop_kept base src dst fuel : forall s mo res first,
  safe kept_call (to_mem_loop fuel d s data base src dst mo res first) (fun _ => True).
Proof.
  induction fuel as [|fuel IH]; intros s mo res first; cbn [to_mem_loop]; (destruct (res =? 0); [by apply safe_ret|]); [by kept_go|].
  cbv zeta. apply safe_bind_any; [apply send_kept|]. intros [ret s1]. destruct (nz ret); [by apply safe_ret|].
  apply safe_bind_any; [unfold iddma_download_firmware, iddma_enable; by kept_go|]. intros ret2. destruct (nz ret2); [by apply safe_ret|]. apply IH.
Qed.
Lemma to_mem_kept s base src dst n : safe kept_call (download_firmware_to_mem d s data base src dst n) (fun _ => True).
Proof.
  unfold download_firmware_to_mem. do 2 (apply safe_bind_any; [by kept_go|intros ?]). apply safe_bind_any; [apply to_mem_loop_kept|].
  intros [ret s1]. unfold check_fw_checksum. by kept_go.
Qed.
Lemma start_kept s : safe kept_call (start_download_firmware d s data) (fun _ => True).
Proof.
  unfold start_download_firmware. apply safe_bind_any; [apply sizes_kept|]. intros [[a b] c].
  do 2 (apply safe_bind_any; [by kept_go|intros ?]).
  do 2 (apply safe_bind_any; [apply img32_kept|intros ?]; apply safe_bind_any; [apply to_mem_kept|intros [? ?]]; case_match; [by apply safe_ret|]).
  case_match; [|by apply safe_ret]. apply safe_bind_any; [apply img32_kept|intros ?]. apply to_mem_kept.
Qed.
Definition fw_flagged (x : Z * rtw_dev * trx_state) : Prop := x.1.2 = d \/ x.1.2 = set_bit RTW_FLAG_FW_RUNNING d.
Lemma fail_kept ret s : safe kept_call (dlfw_fail ret d s) fw_flagged.
Proof. unfold dlfw_fail. do 2 (apply safe_bind_any; [by kept_go|intros _]). apply safe_ret. by left. Qed.
Lemma download_kept s : safe kept_call (download_firmware d s data) fw_flagged.
Proof.
  unfold download_firmware, check_firmware_size. apply safe_bind_any; [apply safe_bind_any; [apply sizes_kept|by kept_go]|]. intros ok.
  destruct (negb ok); [by apply safe_ret; left|].
  do 3 (apply safe_bind_any; [unfold wlan_cpu_enable, download_firmware_reg_backup, download_firmware_reset_platform; by kept_go|intros ?]).
  apply safe_bind_any; [apply start_kept|]. intros [ret s1].
  destruct (nz ret); [apply fail_kept|]. apply safe_bind_any; [by apply restore_regs|intros _].
  do 3 (apply safe_bind_any; [unfold download_firmware_end_flow, wlan_cpu_enable, download_firmware_validate; by kept_go|intros ?]).
  case_match; [apply fail_kept|]. apply safe_bind_any; [apply reset_kept|]. intros s2. apply safe_ret. by right.
Qed.
End Download.

(** ** The halt *)

(** What the chip was last told, [None] where it was not, or by a write of another
    width: the receive-ring size and base, the byte of [REG_CR] that enables the
    MAC and its DMA, and bus mastering. *)
Record orders := Orders { td_num : option Z; td_base : option Z; td_cr : option Z; td_bus : option bool }.
Definition orders0 : orders := Orders None None None None.

(** The field of [n] bytes at [a] after a write of width [w] at [x]. *)
Definition order_field (a n : Z) (w : width) (x v : Z) (old : option Z) : option Z :=
  if (x =? a) && (bytes_of w =? n) then Some v else if (x <? a + n) && (a <? x + bytes_of w) then None else old.
Definition order_step (h : orders) (o : hwop) : orders :=
  match o with
  | Write w x v =>
      Orders (order_field RTK_PCI_RXBD_NUM_MPDUQ 2 w x v (td_num h)) (order_field RTK_PCI_RXBD_DESA_MPDUQ 4 w x v (td_base h))
        (order_field REG_CR 1 w x v (td_cr h)) (td_bus h)
  | RegWriteDma _ _ _ _ => Orders None None None (td_bus h)
  | PciPower _ bm => Orders (td_num h) (td_base h) (td_cr h) (Some bm)
  | _ => h
  end.
Definition order_mon (h : orders) (o : hwop) (_ : hwres o) : option orders := Some (order_step h o).
Definition tells {B} (p : prog B) (h : orders) (Q : B -> orders -> Prop) : Prop := wp order_mon p h Q.

(** No ring, MAC off, off the bus. *)
Definition halted : orders := Orders (Some 0) (Some 0) (Some 0) (Some false).

Lemma tells_any {B} (p : prog B) h : tells p h (fun _ _ => True).
Proof. revert h. induction p as [x|o k IH]; intros h; [done|]. intros r. apply IH. Qed.
Lemma tells_bind_any {B C} (f : B -> prog C) (p : prog B) h Q : (forall x h', tells (f x) h' Q) -> tells (p ≫= f) h Q.
Proof. intros Hf. apply wp_bind. eapply wp_mono; [apply tells_any|]. intros x h' _. apply Hf. Qed.
Lemma tells_ret {B} (x : B) h (Q : B -> orders -> Prop) : Q x h -> tells (mret x) h Q.
Proof. done. Qed.
(** Whatever came before. *)
Lemma tells_halt {B} (x : B) h (Q : B -> orders -> Prop) : Q x halted -> tells (trx_free;; mret x) h Q.
Proof. intros HQ. unfold trx_free, usleep, hw_write16, hw_write32, hw_write8, tells. cbn [act mbind prog_mbind prog_bind mret prog_ret wp]. intros [] [] [] [] []. exact HQ. Qed.

#[global] Opaque judged if_granted tells.
