(* ===== verification/Kctl.v ===== *)
(** * Kctl: the in-kernel control entry points (server/kctl.c)

    Bring-up, scan, streamed scan, connect, disconnect and status, composed of
    the components the way the file composes them.  The firmware image is an
    argument (core/fw_blob.c, generated data).  Proved: any sequence of calls
    from load, each run in whatever state the one before left, is memory safe on
    the terms of Judge, and none but the two diagnostics reprograms the chip under
    a running data path; a connect that ends without keys leaves the chip halted;
    and what connect publishes. *)
From stdpp Require Import gmap.
From S2P Require Import Prelude Hw Regs Dev Pwr Efuse Aes Trx Rx Sec Media Coex Wpa Handshake Fw MacInit Phy.
From S2P Require PhyTables.
From S2P Require Import Channel Scan Assoc Bringup Judge.
Open Scope Z_scope.
Open Scope rtw_scope.

(** ** The device descriptor *)

Definition chip_8821c : rtw_chip_info :=
  ChipInfo RTW_CHIP_TYPE_8821C RTW_WCPU_3081 0xD8 card_enable_flow_8821c card_disable_flow_8821c
    48 16 24 8 0 65536 16384 8 0 128 page_table_8821c rqpn_table_8821c 512 512 96.

(** [memset] and the fields that are set. *)
Definition kdev_init : rtw_dev :=
  Dev chip_8821c RTW_HCI_TYPE_PCIE 0x03d9 (Hal 0 0 false 1 1 phy_cond0 (0, 0, 0))
    (FifoConf 0 0 0 0 0 0 0 0 0 0 0 0 None) (Efuse 0 (replicate 6 0) 0 0 0 0 false) 0.

(** ** State *)

(** The live connection, [g_cur_*]; the name is the whole 33-byte array. *)
Record link := Link {
  g_cur_connected : bool; g_cur_ssid : list Z; g_cur_bssid : list Z; g_cur_mac : list Z; g_cur_channel : Z;
}.
Definition link0 : link := Link false (replicate 33 0) (replicate 6 0) (replicate 6 0) 0.
Definition set_connected (b : bool) (l : link) : link :=
  Link b (g_cur_ssid l) (g_cur_bssid l) (g_cur_mac l) (g_cur_channel l).

(** The globals of the file and of the components it drives; [k_mapped]:
    whether [g_kmmio] is set. *)
Record kctl := Kctl {
  k_mapped : bool; k_station : station; k_scan : scan_state; k_link : link;
  g_scan_dev : rtw_dev; g_scan_active : bool;
}.
Definition k_trx (k : kctl) : trx_state := st_trx (k_station k).
Definition set_station (g : station) (k : kctl) : kctl :=
  Kctl (k_mapped k) g (k_scan k) (k_link k) (g_scan_dev k) (g_scan_active k).
Definition set_k_trx (s : trx_state) (k : kctl) : kctl := set_station (set_st_trx s (k_station k)) k.
Definition set_link (l : link) (k : kctl) : kctl :=
  Kctl (k_mapped k) (k_station k) (k_scan k) l (g_scan_dev k) (g_scan_active k).
Definition set_scan_dev (d : rtw_dev) (active : bool) (k : kctl) : kctl :=
  Kctl (k_mapped k) (k_station k) (k_scan k) (k_link k) d active.

Definition kctl0 (mapped : bool) : kctl :=
  Kctl mapped
    (Station (Supp trx_state0 (WpaKeys (replicate 16 0) (replicate 16 0) (replicate 16 0) (replicate 32 0) 0 0 false)
                rsbox_init (Session false false 0 0) 0) ch_cache0 0)
    scan_state0 link0 kdev_init false.

(** What a scan uses and leaves of it, for device [d]. *)
Definition radio_of (d : rtw_dev) (k : kctl) : radio :=
  Radio d (st_cache (k_station k)) (k_trx k) (k_scan k).
Definition put_radio (r : radio) (k : kctl) : kctl :=
  Kctl (k_mapped k) (Station (set_trx (ra_trx r) (st_supp (k_station k))) (ra_cache r) (st_iqk_seq (k_station k)))
    (ra_scan r) (k_link k) (g_scan_dev k) (g_scan_active k).

(** The network list a scan leaves. *)
Definition scan_list (k : kctl) : list net_entry := scan_marshal (k_scan k).

Definition chans : list Z :=
  [36; 40; 44; 48; 52; 56; 60; 64; 100; 104; 108; 112; 116; 120; 124; 128;
   132; 136; 140; 149; 153; 157; 161; 165;
   1; 2; 3; 4; 5; 6; 7; 8; 9; 10; 11; 12; 13].

(** ** Power-on alone *)

Definition rtw_kctl_poweron : prog Z :=
  '(ret, d) ← rtw_mac_power_on kdev_init;
  cr ← hw_read8 REG_CR;
  let poweron := if test_bit RTW_FLAG_POWERON d then 1 else 0 in
  mret (((ret .& 0xff) << 16) .| (cr << 8) .| poweron).

Section Entry.
Context (fw : list Z).

(** ** The stages, each run whatever the earlier ones returned *)

(** Power, rings, firmware. *)
Definition stages_rings (d : rtw_dev) (k : kctl) : prog (Z * Z * Z * rtw_dev * kctl) :=
  '(pr, d) ← rtw_mac_power_on d;
  act (SetMacPower true);;
  '(tr, s) ← trx_init d (k_trx k);
  '(fr, d, s) ← download_firmware d s fw;
  mret (pr, tr, fr, d, set_k_trx s k).

(** MAC, EFUSE, PHY. *)
Definition stages_phy (d : rtw_dev) : prog (Z * Z * Z * rtw_dev) :=
  '(mr, d) ← mac_init d;
  '(er, d) ← efuse_read d;
  '(pe, d) ← phy_set_param d PhyTables.shipped_tables;
  mret (mr, er, pe, d).

Definition rtw_kctl_bringup (k : kctl) : prog (Z * kctl) :=
  '(pr, tr, fr, d, k) ← stages_rings kdev_init k;
  mcufw ← hw_read16 REG_MCUFW_CTRL;
  '(mr, er, pe, d) ← stages_phy d;
  let ok := (pr =? 0) && (tr =? 0) && (fr =? 0) && (mr =? 0) && (er =? 0) && (pe =? 0) && nz (mcufw .& 0xc000) in
  trx_free;;
  mret (((if ok then 1 else 0) << 16) .| mcufw, k).

(** ** Scans *)

(** Stop the data path and the chip's DMA, and forget scan and connection. *)
Definition teardown (k : kctl) : prog kctl :=
  act DataStop;;
  trx_free;;
  mret (set_link (set_connected false (k_link k)) (set_scan_dev (g_scan_dev k) false k)).

(** The firmware handshake and the antenna grant. *)
Definition stages_air (d : rtw_dev) (k : kctl) : prog kctl :=
  s ← fw_handshake d (k_trx k);
  coex_wifi_antenna;;
  mret (set_k_trx s k).

(** The count and the list copied out. *)
Definition rtw_kctl_scan (k : kctl) : prog (Z * list net_entry * kctl) :=
  k ← teardown k;
  act (PciPower true true);;
  '(_, _, _, d, k) ← stages_rings kdev_init k;
  _ ← hw_read16 REG_MCUFW_CTRL;
  '(_, _, _, d) ← stages_phy d;
  k ← stages_air d k;
  '(n, r) ← scan_networks (radio_of d k) chans 300;
  let k := put_radio r k in
  let n := if n <? 0 then 0 else n in
  trx_free;;
  mret (n, scan_list k, k).

Definition RTW_SCAN_F_BEGIN : Z := 0x1.
Definition RTW_SCAN_F_END : Z := 0x2.

(** [struct rtw_scan_chans]: flags, count and the 40-byte channel array. *)
Definition scan_begin (flags : Z) (k : kctl) : prog kctl :=
  if nz (flags .& RTW_SCAN_F_BEGIN) then
    k ← teardown k;
    act (PciPower true true);;
    '(_, _, _, d, k) ← stages_rings kdev_init k;
    '(_, _, _, d) ← stages_phy d;
    k ← stages_air d k;
    mret (set_scan_dev d true k)
  else mret k.
Definition scan_some (count : Z) (ch : list Z) (k : kctl) : prog (list net_entry * kctl) :=
  if g_scan_active k && nz count then
    let cnt := if 40 <? count then 40 else count in
    '(_, r) ← scan_networks (radio_of (g_scan_dev k) k) (take (Z.to_nat cnt) ch) 250;
    let k := set_scan_dev (ra_dev r) (g_scan_active k) (put_radio r k) in
    mret (scan_list k, k)
  else mret ([], k).
Definition scan_end (flags : Z) (k : kctl) : prog kctl :=
  if nz (flags .& RTW_SCAN_F_END) && g_scan_active k then
    trx_free;;
    mret (set_scan_dev (g_scan_dev k) false k)
  else mret k.
Definition rtw_kctl_scan_chunk (flags count : Z) (ch : list Z) (k : kctl) : prog (list net_entry * kctl) :=
  k ← scan_begin flags k;
  '(out, k) ← scan_some count ch k;
  k ← scan_end flags k;
  mret (out, k).

(** ** Connect *)

(** [struct rtw_connect_result]; zeroed first. *)
Record connect_result := ConnectResult { cr_status : Z; cr_mac : list Z; cr_channel : Z }.
Definition connect_result0 : connect_result := ConnectResult 0 (replicate 6 0) 0.

(** The last byte of the caller's arrays (33 and 64 bytes) is forced to zero. *)
Definition terminate (n : nat) (s : list Z) : list Z := <[(n - 1)%nat := 0]> s.

(** [strncpy] of the name into the 33-byte array, and its terminator. *)
Definition strncpy32 (s : list Z) : list Z := take 32 (c_str s ++ replicate 32 0) ++ [0].

(** [struct rtw_data_cfg] as handed over. *)
Definition cfg_words (mac bssid : list Z) (rate rate_id : Z) (c : rtw_data_cfg) : list Z :=
  mac ++ bssid ++ [u8 rate; u8 rate_id] ++
  [cfg_txbd_handle c; cfg_txbd_be_off c; cfg_be_len c; cfg_bd_sz c; cfg_desc_sz c;
   cfg_rxdata_handle c; cfg_rx_nslots c; cfg_rx_buf_size c; cfg_rx_desc_sz c; cfg_txpool_handle c].

(** Each stage only if the one before succeeded. *)
Definition stages_checked (d : rtw_dev) (k : kctl) : prog (bool * rtw_dev * kctl) :=
  '(pr, d) ← rtw_mac_power_on d;
  act (SetMacPower true);;
  '(tr, s) ← (if pr =? 0 then trx_init d (k_trx k) else mret (-1, k_trx k));
  '(fr, d, s) ← (if tr =? 0 then download_firmware d s fw else mret (-1, d, s));
  '(mr, d) ← (if fr =? 0 then mac_init d else mret (-1, d));
  '(er, d) ← (if mr =? 0 then efuse_read d else mret (-1, d));
  '(pe, d) ← (if er =? 0 then phy_set_param d PhyTables.shipped_tables else mret (-1, d));
  mret (negb (nz pr || nz tr || nz fr || nz mr || nz er || nz pe), d, set_k_trx s k).

Definition clear_wpa_done (g : station) : station :=
  let u := st_supp g in
  let y := su_keys u in
  set_supp (set_keys (WpaKeys (g_kck y) (g_kek y) (g_tk y) (g_gtk y) (g_gtk_len y) (g_gtk_keyidx y) false) u) g.

(** The join to the network found, and the hand-over to the data path. *)
Definition connect_join (d : rtw_dev) (ssid pass bssid : list Z) (channel : Z) (k : kctl)
    : prog (connect_result * kctl) :=
  let ssid_len := u8 (Z.of_nat (length (c_str ssid))) in
  '(ar, d, g) ← associate d (clear_wpa_done (k_station k)) bssid ssid ssid_len channel (Some pass);
  let k := set_station g k in
  let associated := ar =? 0 in
  let wpa := g_wpa_done (su_keys (st_supp g)) in
  let bits := 1 .| ((if associated then 1 else 0) << 1) .| ((if wpa then 1 else 0) << 2) in
  if associated && wpa then
    let session := su_session (st_supp g) in
    let a := ef_addr (efuse d) in
    rc ← act (DataStart (cfg_words a bssid (init_rate session) (s_raid session) (trx_fill_data_cfg d (k_trx k))));
    let data_up := rc =? 0 in
    k ← (if data_up then
           act (DataLink true);;
           mret (set_link (Link true (strncpy32 ssid) bssid a channel) k)
         else mret k);
    mret (ConnectResult (bits .| ((if data_up then 1 else 0) << 3)) a channel, k)
  else
    (trx_free;;
     mret (ConnectResult bits (replicate 6 0) channel, k)).

Definition rtw_kctl_connect (req_ssid req_pass : list Z) (k : kctl) : prog (connect_result * kctl) :=
  let ssid := terminate 33 req_ssid in
  let pass := terminate 64 req_pass in
  k ← teardown k;
  act (PciPower true true);;
  '(ok, d, k) ← stages_checked kdev_init k;
  if negb ok then trx_free;; mret (connect_result0, k) else
  k ← stages_air d k;
  '(_, r) ← scan_networks (radio_of d k) chans 300;
  let k := put_radio r k in
  match find_by_ssid (k_scan k) ssid with
  | None => trx_free;; mret (connect_result0, k)
  | Some (bssid, channel) => connect_join (ra_dev r) ssid pass bssid channel k
  end.

(** ** Disconnect, reset, status *)

Definition deauth_frame (l : link) : list Z :=
  [0xc0; 0x00; 0; 0] ++ g_cur_bssid l ++ g_cur_mac l ++ g_cur_bssid l ++ [0; 0; 3; 0].

Definition rtw_kctl_disconnect (k : kctl) : prog kctl :=
  let l := k_link k in
  k ← (if g_cur_connected l && k_mapped k then
         '(_, s) ← trx_tx_mgmt kdev_init (k_trx k) (deauth_frame l)
                     (if 14 <? g_cur_channel l then 0x04 else 0x00) false;
         usleep_range 20000 20000;;
         mret (set_k_trx s k)
       else mret k);
  act DataStop;;
  trx_free;;
  mret (set_link (Link false (<[0%nat := 0]> (g_cur_ssid l)) (g_cur_bssid l) (g_cur_mac l) (g_cur_channel l)) k).

Definition rtw_kctl_unload_reset (k : kctl) : kctl :=
  set_scan_dev (g_scan_dev k) false
    (set_link (Link false (<[0%nat := 0]> (g_cur_ssid (k_link k))) (replicate 6 0) (replicate 6 0) 0) k).

(** [struct rtw_status_result], zeroed first. *)
Record status_result := StatusResult {
  sr_connected : Z; sr_mac : list Z; sr_bssid : list Z; sr_channel : Z; sr_ssid : list Z;
}.
Definition status_result0 : status_result := StatusResult 0 (replicate 6 0) (replicate 6 0) 0 (replicate 33 0).
Definition rtw_kctl_status (k : kctl) : status_result :=
  let l := k_link k in
  if g_cur_connected l then
    StatusResult 1 (g_cur_mac l) (g_cur_bssid l) (g_cur_channel l) (strncpy32 (g_cur_ssid l))
  else status_result0.
End Entry.

(** ** What the descriptor meets *)

Definition dev_ok (d : rtw_dev) : Prop :=
  chip d = chip_8821c /\ hci_type d = RTW_HCI_TYPE_PCIE /\ length (ef_addr (efuse d)) = 6%nat.

Lemma kdev_pcie : pcie_8821c kdev_init.
Proof. by split. Qed.
Lemma kdev_ok : dev_ok kdev_init.
Proof. done. Qed.
Lemma dev_ok_trx d : dev_ok d -> trx_chip d.
Proof. intros (E & _ & _). split; by rewrite E. Qed.
Lemma dev_ok_mac d : dev_ok d -> mac_chip d.
Proof. intros (E & Eh & _). split; [done|..]; rewrite E; [by eexists|by eexists|done]. Qed.
Lemma dev_ok_efuse d : dev_ok d -> efuse_sizes_ok d /\ 0xD6 <= log_efuse_size (chip d).
Proof. intros (E & _ & _). split; [split|]; rewrite E; done. Qed.

(** None of the shipped tables names a ring register. *)
Lemma shipped_clear : tables_clear PhyTables.shipped_tables.
Proof. split_and!; by vm_compute. Qed.

Lemma efuse_stage d : dev_ok d -> safe reg_call (efuse_read d) (fun x => dev_ok x.2).
Proof.
  intros Hd. pose proof (dev_ok_efuse d Hd) as [Hs Hl]. eapply safe_mono; [by apply efuse_read_calls|].
  intros [ret d'] [[_ ->]|(_ & phy & lg & _ & Hx & _ & Hd')]; [done|]. cbn [snd].
  destruct Hd as (E1 & E2 & _). rewrite Hd'. split; [done|]. split; [done|]. by eapply efuse_extract_addr.
Qed.
Lemma mac_stage d : dev_ok d -> safe reg_call (mac_init d) (fun x => dev_ok x.2).
Proof.
  intros Hd. eapply safe_mono; [by apply mac_init_regs, dev_ok_mac|]. intros x (E1 & E2 & E3 & _).
  unfold dev_ok. by rewrite E1, E2, E3.
Qed.
(** After it only the chip and the address matter. *)
Definition radio_dev (d : rtw_dev) : Prop := trx_chip d /\ length (ef_addr (efuse d)) = 6%nat.
Lemma phy_stage d : dev_ok d -> safe reg_call (phy_set_param d PhyTables.shipped_tables) (fun x => radio_dev x.2).
Proof.
  intros Hd. eapply safe_mono; [by apply phy_set_param_regs, shipped_clear|]. intros x (E1 & E2).
  split; [apply dev_ok_trx in Hd; destruct Hd; split; by rewrite E1|]. rewrite E2. apply Hd.
Qed.

(** ** The invariant *)

Record kctl_ok (k : kctl) (m : gmap Z Z) (v : view) : Prop := {
  ko_trx : trx_inv (k_trx k) m;
  ko_rsbox : rsbox_ok (su_rsbox (st_supp (k_station k)));
  ko_scan : table_ok (k_scan k);
  ko_link : length (g_cur_ssid (k_link k)) = 33%nat /\ length (g_cur_bssid (k_link k)) = 6%nat /\
            length (g_cur_mac (k_link k)) = 6%nat;
  ko_live : v_live v = g_cur_connected (k_link k);
  ko_rings : g_cur_connected (k_link k) = true -> g_trx_alloced (k_trx k) = true;
  ko_active : g_scan_active k = true -> radio_dev (g_scan_dev k) /\ ring_within (k_trx k) v;
}.

(** The same inside a call, with any running data path set aside; [a], [c]: whether
    a streamed scan is open, and whether the driver says it is connected. *)
Record kctl_idle (a c : bool) (k : kctl) (m : gmap Z Z) (v : view) : Prop := {
  ki_trx : trx_inv (k_trx k) m;
  ki_rsbox : rsbox_ok (su_rsbox (st_supp (k_station k)));
  ki_scan : table_ok (k_scan k);
  ki_link : length (g_cur_ssid (k_link k)) = 33%nat /\ length (g_cur_bssid (k_link k)) = 6%nat /\
            length (g_cur_mac (k_link k)) = 6%nat;
  ki_conn : g_cur_connected (k_link k) = c;
  ki_rings : c = true -> g_trx_alloced (k_trx k) = true;
  ki_scanning : g_scan_active k = a;
  ki_active : a = true -> radio_dev (g_scan_dev k);
  ki_live : v_live v = false;
}.

Lemma ok_idle {a} k m v : kctl_ok k m v -> g_cur_connected (k_link k) = false -> g_scan_active k = a ->
  kctl_idle a false k m v.
Proof. intros [? ? ? ? Hl _ Ha] Hc <-. split; try done; [intros H; by apply Ha|by rewrite Hl]. Qed.
Lemma idle_ok {a} k m v : kctl_idle a false k m v -> ring_within (k_trx k) v -> kctl_ok k m v.
Proof. intros [? ? ? ? Hc _ E Ha Hl] Hw. split; try done; [by rewrite Hl, Hc|by rewrite Hc|rewrite E; by split; [apply Ha|]]. Qed.
Lemma idle_view {a c} k m v v' : v_live v' = false -> kctl_idle a c k m v -> kctl_idle a c k m v'.
Proof. intros Hv []. by split. Qed.
Lemma idle_trx {a c} k m m' s v v' : trx_inv s m' -> v_live v' = false -> (c = true -> g_trx_alloced s = true) ->
  kctl_idle a c k m v -> kctl_idle a c (set_k_trx s k) m' v'.
Proof. intros Hs Hv Ha []. by split. Qed.
(** While connected no scan is open; the data path set aside and put back. *)
Lemma live_scan k m v : kctl_ok k m v -> g_cur_connected (k_link k) = true -> g_scan_active k = false.
Proof.
  intros Hk Hc. destruct (g_scan_active k) eqn:Ha; [|done]. destruct (ko_active _ _ _ Hk Ha) as [_ [Hv _]].
  pose proof (ko_live _ _ _ Hk) as H. by rewrite Hc, Hv in H.
Qed.
Lemma live_idle k m v : kctl_ok k m v -> g_cur_connected (k_link k) = true -> kctl_idle false true k m (View (v_num v) false).
Proof. intros Hk Hc. pose proof (live_scan k m v Hk Hc). destruct Hk. split; try done. by intros _; auto. Qed.
Lemma idle_live k m v : kctl_idle false true k m (View (v_num v) false) -> v_live v = true -> kctl_ok k m v.
Proof. intros [? ? ? ? Hc Hr E Ha Hl] Hv. split; try done; [by rewrite Hv, Hc|by auto|by rewrite E]. Qed.
Lemma halted_within s m : trx_inv s m -> ring_within s (View (Some 0) false).
Proof.
  intros Hi. split; [done|]. intros Hok. exists 0. split; [done|].
  pose proof (rx_try_pos _ (inv_rx_try s m Hi Hok)). lia.
Qed.

Lemma halted_ok {a} k m v : kctl_idle a false k m v -> kctl_ok k m (View (Some 0) false).
Proof. intros Hk. eapply idle_ok; [by eapply idle_view|]. eapply halted_within, Hk. Qed.

(** A halt at the end of a call. *)
Lemma halt_ring {B} {a} (x : B) k m v (Q : B -> gmap Z Z -> view -> Prop) : kctl_idle a false k m v ->
  (kctl_ok k m (View (Some 0) false) -> Q x m (View (Some 0) false)) ->
  ring_safe (trx_free;; mret x) m v Q.
Proof.
  intros Hk HQ. eapply ring_safe_bind; [apply free_ring, Hk|]. intros _ m' v' [-> ->].
  apply ring_safe_ret, HQ. by eapply halted_ok.
Qed.

(** One call outside DMA memory, allowed while the data path runs. *)
#[local] Transparent ring_safe.
Lemma ring_stop m v : ring_safe (act DataStop) m v (fun _ m' v' => m' = m /\ v_live v' = false).
Proof. intros []. cbn. destruct (chip_fair _ _ _); [|done]. by rewrite andb_false_r. Qed.
Lemma ring_start cfg m v : v_live v = false ->
  ring_safe (act (DataStart cfg)) m v (fun rc m' v' => m' = m /\ v' = View (v_num v) (rc =? 0)).
Proof. intros Hv r. cbn. destruct (chip_fair _ _ _); [|done]. rewrite Hv. cbn. by rewrite orb_false_r. Qed.
Lemma ring_link up m v : ring_safe (act (DataLink up)) m v (fun _ m' v' => m' = m /\ v' = v).
Proof. intros []. cbn. destruct (chip_fair _ _ _); [|done]. rewrite andb_false_r. by destruct v. Qed.
#[local] Opaque ring_safe.

Lemma teardown_ring k m v : kctl_ok k m v ->
  ring_safe (teardown k) m v (fun k' m' v' =>
    m' = m /\ kctl_idle false false k' m v' /\ k_trx k' = k_trx k /\ v' = View (Some 0) false).
Proof.
  intros [H1 H2 H3 H4 H5 _ _]. unfold teardown.
  eapply ring_safe_bind; [apply ring_stop|]. intros _ m1 v1 [-> Hv1].
  eapply ring_safe_bind; [by apply free_ring|]. intros _ m2 v2 [-> ->].
  apply ring_safe_ret. split; [done|]. split; [by split|done].
Qed.

Section Safe.
Context (fw : list Z) (Hfw : image_ok fw).

(** Power, rings and firmware where the allocator refuses nothing: whatever else
    fails, the rings are up. *)
Lemma stages_rings_judged {a c} k m v : kctl_idle a c k m v ->
  judged (Terms true true) (stages_rings fw kdev_init k) m v (fun '(_, d, k') m' v' =>
    m ⊆ m' /\ dev_ok d /\ kctl_idle a c k' m' v' /\ ring_known (k_trx k') v').
Proof.
  intros Hk. unfold stages_rings.
  eapply judged_bind_regs; [apply Hk|by apply power_on_regs, kdev_pcie|]. intros [pr d1] [f Hd1]. cbn [snd] in Hd1.
  eapply (judged_bind_regs _ _ _ _ _ (fun _ => True)); [apply Hk|by apply (safe_op reg_call (SetMacPower true))|intros _ _].
  assert (Ho : dev_ok d1) by by rewrite Hd1.
  eapply judged_bind; [apply judged_granted; [apply judged_ring, init_ring; [by apply dev_ok_trx|apply Hk|apply Hk]|apply granted_init]|].
  intros [tr s1] m1 v1 [(Hi1 & Hm & Hv1 & _ & Hup & _) Htr]. destruct (Hup Htr) as [Ha1 Hn1].
  pose proof Hi1 as Hu1. unfold trx_inv in Hu1. rewrite Ha1 in Hu1.
  eapply judged_bind_ring; [by apply download_ring; [by apply dev_ok_trx| | |]|].
  intros [[fr d2] s2] m2 v2 ((-> & Hu2 & Hd2) & Hn2 & Hk2). cbn [fst snd] in *.
  assert (Hi2 : trx_inv s2 m1) by (unfold trx_inv; rewrite (proj2 (proj2 Hk2)), Ha1; exact Hu2).
  apply judged_ret. split; [done|]. split; [destruct Hd2 as [[_ ->]|[_ ->]]; exact Ho|].
  split; [eapply idle_trx; [done|apply Hn2|by rewrite (proj2 (proj2 Hk2))|done]|done].
Qed.

Lemma stages_phy_safe d m v : dev_ok d -> v_live v = false ->
  ring_safe (stages_phy d) m v (fun '(_, d') m' v' => m' = m /\ v' = v /\ radio_dev d').
Proof.
  intros Hd Hv. unfold stages_phy.
  eapply ring_safe_bind_regs; [done|by apply mac_stage|]. intros [mr d1] H1. cbn [snd] in H1.
  eapply ring_safe_bind_regs; [done|by apply efuse_stage|]. intros [er d2] H2. cbn [snd] in H2.
  eapply ring_safe_bind_regs; [done|by apply phy_stage|]. intros [pe d3] H3. cbn [snd] in H3.
  by apply ring_safe_ret.
Qed.

Lemma stages_air_safe {a} d k m v : radio_dev d -> kctl_idle a false k m v -> ring_within (k_trx k) v ->
  ring_safe (stages_air d k) m v (fun k' m' v' => m' = m /\ v' = v /\ kctl_idle a false k' m v /\ ring_within (k_trx k') v).
Proof.
  intros Hd Hk Hw. unfold stages_air.
  eapply ring_safe_bind; [apply handshake_ring; [apply Hd|apply Hk|apply Hk]|].
  intros s m1 v1 (-> & -> & Hi & Hs).
  eapply ring_safe_bind_regs; [apply Hk|apply coex_regs|intros _ _].
  apply ring_safe_ret. do 2 (split; [done|]). split; [|by eapply within_same].
  by eapply idle_trx; [|apply Hk| |].
Qed.

(** A scan of [channels] with device [d]. *)
Lemma scan_stage {a} d k m v channels ms : radio_dev d -> kctl_idle a false k m v -> ring_within (k_trx k) v ->
  ring_safe (scan_networks (radio_of d k) channels ms) m v (fun '(ret, r) m' v' =>
    m' = m /\ v' = v /\ kctl_idle a false (put_radio r k) m v /\ ring_within (ra_trx r) v /\ radio_dev (ra_dev r) /\
    (nets (ra_scan r) = [] \/ trx_rx_ok (ra_trx r) = true)).
Proof.
  intros [Hd Ha] Hk Hw. eapply ring_safe_mono; [apply scan_ring; [done|done|apply Hk|apply Hk|done]|].
  intros [ret r] m' v' (-> & -> & Hi & Hs & Ht & Hret & Hd' & Ha'). do 2 (split; [done|]).
  split; [destruct Hk; by split|]. split; [by eapply within_same|]. split; [done|]. destruct Hret as [[_ ?]|?]; auto.
Qed.

(** ** The entry points *)

(** What every call leaves: nothing that was live is lost, the state is sound. *)
Definition after_halt (k' : kctl) (m m' : gmap Z Z) (v' : view) : Prop := m ⊆ m' /\ kctl_ok k' m' v'.

(** *** The diagnostics, with any running data path set aside *)

Lemma poweron_idle m v : v_live v = false -> ring_safe rtw_kctl_poweron m v (fun _ m' v' => m' = m /\ v' = v).
Proof.
  intros Hv. unfold rtw_kctl_poweron.
  eapply ring_safe_bind_regs; [done|by apply power_on_regs, kdev_pcie|]. intros [ret d] _.
  eapply (ring_safe_bind_regs _ _ _ _ (fun _ => True)); [done|by safe_go|intros cr _]. by apply ring_safe_ret.
Qed.
Lemma bringup_idle {a c} k m v : kctl_idle a c k m v ->
  judged (Terms true true) (rtw_kctl_bringup fw k) m v (fun '(_, k') m' v' =>
    m ⊆ m' /\ kctl_idle a c k' m' v' /\ v' = View (Some 0) false).
Proof.
  intros Hk. unfold rtw_kctl_bringup.
  eapply judged_bind; [by eapply stages_rings_judged|]. intros [[[[pr tr] fr] d1] k2] m2 v2 (Hm & Hd1 & Hk2 & Hn2).
  eapply (judged_bind_regs _ _ _ _ _ (fun _ => True)); [apply Hk2|by safe_go|intros mcufw _].
  eapply judged_bind_ring; [apply stages_phy_safe; [done|apply Hk2]|].
  intros [[[mr er] pe] d2] m3 v3 (-> & -> & Hd2). cbv zeta.
  eapply judged_bind_ring; [apply free_ring, Hk2|]. intros _ m' v' [-> ->].
  apply judged_ret. split; [done|]. split; [by eapply idle_view|done].
Qed.
(** They stop nothing that runs, and free nothing. *)
Lemma poweron_kept : safe kept_call rtw_kctl_poweron (fun _ => True).
Proof.
  unfold rtw_kctl_poweron. apply safe_bind_any; [by eapply regs_kept, power_on_regs, kdev_pcie|]. intros [ret d]. by kept_go.
Qed.
Lemma stages_phy_kept d : dev_ok d -> safe kept_call (stages_phy d) (fun _ => True).
Proof.
  intros Hd. eapply safe_weaken; [|apply reg_kept|intros x Hx; exact Hx]. unfold stages_phy.
  eapply safe_bind; [by apply mac_stage|]. intros [mr d1] H1. eapply safe_bind; [by apply efuse_stage|]. intros [er d2] H2.
  eapply safe_bind; [by apply phy_stage|]. intros [pe d3] _. by apply safe_ret.
Qed.
Lemma stages_rings_kept k : g_trx_alloced (k_trx k) = true -> safe kept_call (stages_rings fw kdev_init k) (fun '(_, d, _) => dev_ok d).
Proof.
  intros Ha. unfold stages_rings. eapply safe_bind; [eapply safe_weaken; [by apply power_on_regs, kdev_pcie|apply reg_kept|intros x Hx; exact Hx]|].
  intros [pr d1] [f Hd1]. cbn [snd] in Hd1. assert (Ho : dev_ok d1) by by rewrite Hd1.
  apply safe_bind_any; [by apply (safe_op kept_call (SetMacPower true))|intros _]. apply safe_bind_any; [by apply init_kept|]. intros [tr s1].
  eapply safe_bind; [apply (download_kept d1 fw s1)|]. intros [[fr d2] s2] Hd2. apply safe_ret.
  destruct Hd2 as [E|E]; cbn in E; rewrite E; exact Ho.
Qed.
Lemma bringup_kept k : g_trx_alloced (k_trx k) = true -> safe kept_call (rtw_kctl_bringup fw k) (fun _ => True).
Proof.
  intros Ha. unfold rtw_kctl_bringup. eapply safe_bind; [by apply stages_rings_kept|]. intros [[[[pr tr] fr] d1] k2] Hd1.
  apply safe_bind_any; [by kept_go|intros ?]. apply safe_bind_any; [by apply stages_phy_kept|]. intros [[[mr er] pe] d2]. unfold trx_free. by kept_go.
Qed.

(** Not connected, in full; connected, but for the reprogramming. *)
Lemma poweron_judged k m v : kctl_ok k m v ->
  judged (Terms (negb (g_cur_connected (k_link k))) false) rtw_kctl_poweron m v (fun _ m' v' => m' = m /\ v' = v).
Proof.
  intros Hk. pose proof (ko_live _ _ _ Hk) as Hv. destruct v as [t l]. cbn in Hv. subst l. destruct (g_cur_connected (k_link k)) eqn:Hc; cbn [negb].
  - eapply judged_mono; [apply judged_attach; [by apply judged_ring, poweron_idle|apply poweron_kept]|].
    intros _ m' [t' l'] (Hl & [-> [= ->]] & _). cbn in Hl. by subst l'.
  - by apply judged_ring, poweron_idle.
Qed.
Lemma bringup_judged k m v : kctl_ok k m v ->
  judged (Terms (negb (g_cur_connected (k_link k))) true) (rtw_kctl_bringup fw k) m v (fun '(_, k') m' v' => after_halt k' m m' v').
Proof.
  intros Hk. pose proof (ko_live _ _ _ Hk) as Hv. destruct (g_cur_connected (k_link k)) eqn:Hc; cbn [negb].
  - destruct v as [t l]. cbn in Hv. subst l. eapply judged_mono; [apply judged_attach; [eapply (bringup_idle k m (View t false)), (live_idle _ _ _ Hk Hc)|by apply bringup_kept, (ko_rings _ _ _ Hk)]|].
    intros [r k'] m' v' (Hv' & (Hm & Hi & _) & _). split; [done|]. by apply idle_live.
  - eapply judged_mono; [eapply bringup_idle, (ok_idle _ _ _ Hk Hc eq_refl)|].
    intros [r k'] m' v' (Hm & Hi & ->). split; [done|]. by eapply halted_ok.
Qed.

(** *** Scans *)

Lemma scan_judged k m v : kctl_ok k m v ->
  judged (Terms true true) (rtw_kctl_scan fw k) m v (fun '(_, k') m' v' => after_halt k' m m' v').
Proof.
  intros Hk. unfold rtw_kctl_scan.
  eapply judged_bind_ring; [by apply teardown_ring|]. intros k1 m1 v1 (-> & Hk1 & _).
  eapply (judged_bind_regs _ _ _ _ _ (fun _ => True)); [apply Hk1|by apply (safe_op reg_call (PciPower true true))|intros _ _].
  eapply judged_bind; [by eapply stages_rings_judged|].
  intros [[[[pr tr] fr] d1] k2] m2 v2 (Hm & Hd1 & Hk2 & Hn2).
  eapply (judged_bind_regs _ _ _ _ _ (fun _ => True)); [apply Hk2|by safe_go|intros _ _].
  eapply judged_bind_ring; [apply stages_phy_safe; [done|apply Hk2]|].
  intros [[[mr er] pe] d2] m3 v3 (-> & -> & Hd2).
  eapply judged_bind_ring; [eapply stages_air_safe; [done|done|eapply known_within; [apply Hk2|done]]|].
  intros k3 m3 v3 (-> & -> & Hk3 & Hw3).
  eapply judged_bind_ring; [by eapply scan_stage|]. intros [n r] m3 v3 (-> & -> & Hk4 & _). cbv zeta.
  eapply judged_ring, (halt_ring _ (put_radio r k3)); [done|]. by split.
Qed.

(** *** The streamed scan *)

Lemma scan_begin_judged flags k m v : kctl_ok k m v ->
  judged (Terms true true) (scan_begin fw flags k) m v (fun k' m' v' => after_halt k' m m' v').
Proof.
  intros Hk. unfold scan_begin. destruct (nz _); [|by apply judged_ret].
  eapply judged_bind_ring; [by apply teardown_ring|]. intros k1 m1 v1 (-> & Hk1 & _).
  eapply (judged_bind_regs _ _ _ _ _ (fun _ => True)); [apply Hk1|by apply (safe_op reg_call (PciPower true true))|intros _ _].
  eapply judged_bind; [by eapply stages_rings_judged|].
  intros [[[[pr tr] fr] d1] k2] m2 v2 (Hm & Hd1 & Hk2 & Hn2).
  eapply judged_bind_ring; [apply stages_phy_safe; [done|apply Hk2]|].
  intros [[[mr er] pe] d2] m3 v3 (-> & -> & Hd2).
  eapply judged_bind_ring; [eapply stages_air_safe; [done|done|eapply known_within; [apply Hk2|done]]|].
  intros k3 m3 v3 (-> & -> & Hk3 & Hw3). apply judged_ret. split; [done|].
  apply (idle_ok (a := true)); [destruct Hk3; by split|done].
Qed.

Lemma scan_some_safe count ch k m v : kctl_ok k m v ->
  ring_safe (scan_some count ch k) m v (fun '(_, k') m' v' => after_halt k' m m' v').
Proof.
  intros Hk. unfold scan_some. destruct (g_scan_active k) eqn:Ha; [|by apply ring_safe_ret].
  destruct (nz count); [|by apply ring_safe_ret]. cbn [andb]. destruct (ko_active _ _ _ Hk Ha) as [Hd Hw].
  assert (Hi : kctl_idle true false k m v) by (apply ok_idle; [done|rewrite <- (ko_live _ _ _ Hk); apply Hw|done]).
  eapply ring_safe_bind; [by eapply scan_stage|]. intros [n r] m1 v1 (-> & -> & Hk1 & Hw1 & Hd1 & _).
  apply ring_safe_ret. split; [done|]. apply (idle_ok (a := true)); [destruct Hk1; by split|done].
Qed.

Lemma scan_end_safe flags k m v : kctl_ok k m v ->
  ring_safe (scan_end flags k) m v (fun k' m' v' => after_halt k' m m' v').
Proof.
  intros Hk. unfold scan_end. destruct (g_scan_active k) eqn:Ha; [|rewrite andb_false_r; by apply ring_safe_ret].
  destruct (nz _); [|by apply ring_safe_ret]. cbn [andb]. destruct (ko_active _ _ _ Hk Ha) as [Hd Hw].
  assert (Hi : kctl_idle true false k m v) by (apply ok_idle; [done|rewrite <- (ko_live _ _ _ Hk); apply Hw|done]).
  eapply (halt_ring _ k); [done|]. intros H. split; [done|]. by destruct H; split.
Qed.

Lemma scan_chunk_judged flags count ch k m v : kctl_ok k m v ->
  judged (Terms true true) (rtw_kctl_scan_chunk fw flags count ch k) m v (fun '(_, k') m' v' => after_halt k' m m' v').
Proof.
  intros Hk. unfold rtw_kctl_scan_chunk.
  eapply judged_bind; [by apply scan_begin_judged|]. intros k1 m1 v1 [Hm1 Hk1].
  eapply judged_bind_ring; [by apply scan_some_safe|]. intros [out k2] m2 v2 [Hm2 Hk2].
  eapply judged_bind_ring; [by apply scan_end_safe|]. intros k3 m3 v3 [Hm3 Hk3].
  apply judged_ret. split; [|done]. do 2 (etransitivity; [done|]). done.
Qed.

(** *** Connect *)

(** After the checked stages: sound whatever failed, and up if nothing did. *)
Lemma stages_checked_safe {a} k m v : kctl_idle a false k m v ->
  ring_safe (stages_checked fw kdev_init k) m v (fun '(ok, d, k') m' v' =>
    m ⊆ m' /\ kctl_idle a false k' m' v' /\ (ok = true -> radio_dev d /\ ring_known (k_trx k') v')).
Proof.
  intros Hk. unfold stages_checked.
  eapply ring_safe_bind_regs; [apply Hk|by apply power_on_regs, kdev_pcie|]. intros [pr d1] [f Hd1]. cbn [snd] in Hd1.
  eapply (ring_safe_bind_regs _ _ _ _ (fun _ => True)); [apply Hk|by apply (safe_op reg_call (SetMacPower true))|intros _ _].
  assert (Ho : dev_ok d1) by by rewrite Hd1.
  eapply ring_safe_bind with (R := fun '(tr, s) m1 v1 => trx_inv s m1 /\ m ⊆ m1 /\ v_live v1 = false /\
    (tr = 0 -> g_trx_alloced s = true /\ ring_known s v1)).
  { destruct (pr =? 0); [|apply ring_safe_ret; split; [apply Hk|split; [done|by split; [apply Hk|]]]].
    eapply ring_safe_mono; [apply init_ring; [by apply dev_ok_trx|apply Hk|apply Hk]|].
    intros [tr s1] m1 v1 (Hi1 & Hm & Hv1 & _ & Hup & _). done. }
  intros [tr s1] m1 v1 (Hi1 & Hm & Hv1 & Hup).
  eapply ring_safe_bind with (R := fun '(fr, d, s) m2 v2 => m2 = m1 /\ trx_inv s m1 /\ dev_ok d /\ v_live v2 = false /\
    (fr = 0 -> ring_known s v2)).
  { destruct (Z.eqb_spec tr 0) as [->|]; [|by apply ring_safe_ret].
    destruct (Hup eq_refl) as [Ha1 Hn1]. pose proof Hi1 as Hu1. unfold trx_inv in Hu1. rewrite Ha1 in Hu1.
    eapply ring_safe_mono; [by apply download_ring; [by apply dev_ok_trx| | |]|].
    intros [[fr d2] s2] m2 v2 ((-> & Hu2 & Hd2) & Hn2 & Hk2). cbn [fst snd] in *. split; [done|].
    split; [unfold trx_inv; rewrite (proj2 (proj2 Hk2)), Ha1; exact Hu2|].
    split; [destruct Hd2 as [[_ ->]|[_ ->]]; exact Ho|]. split; [apply Hn2|done]. }
  intros [[fr d2] s2] m2 v2 (-> & Hi2 & Hd2 & Hv2 & Hn2).
  eapply ring_safe_bind_regs with (R := fun x => dev_ok x.2); [done|destruct (fr =? 0); [by apply mac_stage|by apply safe_ret]|].
  intros [mr d3] Hd3. cbn [snd] in Hd3.
  eapply ring_safe_bind_regs with (R := fun x => dev_ok x.2); [done|destruct (mr =? 0); [by apply efuse_stage|by apply safe_ret]|].
  intros [er d4] Hd4. cbn [snd] in Hd4.
  eapply ring_safe_bind_regs with (R := fun x => x.1 = 0 -> radio_dev x.2); [done| |].
  { destruct (er =? 0); [|by apply safe_ret]. eapply safe_mono; [by apply phy_stage|]. done. }
  intros [pe d5] Hd5. cbn [fst snd] in Hd5. apply ring_safe_ret. split; [done|]. split; [by eapply idle_trx|].
  intros Hok. rewrite !negb_orb, !andb_true_iff in Hok. unfold nz in Hok. rewrite !negb_involutive in Hok.
  destruct Hok as (((((_ & _) & Hfr%Z.eqb_eq) & _) & _) & Hpe%Z.eqb_eq). split; [by apply Hd5|by apply Hn2].
Qed.

(** A network found was heard: its address has six bytes. *)
Lemma found_entry st name b c : table_ok st -> find_by_ssid st name = Some (b, c) ->
  length b = 6%nat /\ nets st <> [].
Proof.
  intros (_ & _ & Ht) Hf. unfold find_by_ssid in Hf.
  destruct (find _ (nets st)) as [n|] eqn:E; [|done]. cbn in Hf. simplify_eq.
  apply find_some in E as [Hin _]. split; [|by intros E; rewrite E in Hin].
  unfold nets in Hin. apply list_elem_of_In in Hin.
  assert (Hn : n ∈ g_nets st) by by eapply subseteq_take.
  rewrite Forall_forall in Ht. by apply list_elem_of_In, Ht in Hn as (? & _).
Qed.

Lemma strncpy32_length s : length (strncpy32 s) = 33%nat.
Proof. unfold strncpy32. rewrite length_app, length_take, length_app, length_replicate. cbn [length]. lia. Qed.

Lemma connect_join_safe d ssid pass bssid channel k m v :
  radio_dev d -> kctl_idle false false k m v -> ring_within (k_trx k) v -> trx_rx_ok (k_trx k) = true ->
  length ssid = 33%nat -> length bssid = 6%nat ->
  ring_safe (connect_join d ssid pass bssid channel k) m v (fun '(_, k') m' v' => after_halt k' m m' v').
Proof.
  intros [Hd Ha] Hk Hw Hok Hs Hb. unfold connect_join. cbv zeta.
  pose proof (c_str_length ssid) as Hl.
  assert (Eu : u8 (Z.of_nat (length (c_str ssid))) = Z.of_nat (length (c_str ssid))) by (apply wrap_small; lia).
  eapply ring_safe_bind.
  { apply (associate_ring d (clear_wpa_done (k_station k)) m v bssid ssid); try done; rewrite ?Eu; try lia; apply Hk. }
  intros [[ar d'] g] m1 v1 (-> & -> & Hd' & Ef & [Hr Hsame Hbox]).
  assert (Hk1 : kctl_idle false false (set_station g k) m v) by (destruct Hk, Hr; by split).
  destruct ((ar =? 0) && _) eqn:Ej; [|eapply halt_ring; [exact Hk1|by split]].
  apply andb_true_iff in Ej as [-> ->].
  eapply ring_safe_bind; [apply ring_start, Hk1|]. intros rc m1 v1 [-> ->].
  assert (Hup : g_trx_alloced (k_trx (set_station g k)) = true).
  { pose proof (ki_trx _ _ _ _ _ Hk1) as Hi. unfold trx_inv in Hi. destruct (g_trx_alloced _) eqn:E; [done|]. apply td_rx in Hi.
    destruct Hsame as (_ & _ & E1). change (k_trx (set_station g k)) with (st_trx g) in Hi. unfold trx_rx_ok in Hok. change (st_trx (clear_wpa_done (k_station k))) with (k_trx k) in E1. congruence. }
  destruct Hk1 as [H1 H2 H3 H4 H5 _ H6 H7 H8].
  assert (Hoff : forall l b, length (g_cur_ssid l) = 33%nat /\ length (g_cur_bssid l) = 6%nat /\ length (g_cur_mac l) = 6%nat ->
    g_cur_connected l = b -> kctl_ok (set_link l (set_station g k)) m (View (v_num v) b)).
  { intros l b Hb0 <-. split; try done. cbn. intros E. rewrite (ki_scanning _ _ _ _ _ Hk) in E. done. }
  eapply ring_safe_bind with (R := fun k' m' v' => m' = m /\ kctl_ok k' m v').
  - destruct (rc =? 0).
    + eapply ring_safe_bind; [apply ring_link|intros _ m1 v1 [-> ->]]. apply ring_safe_ret. split; [done|].
      apply Hoff; [|done]. split; [apply strncpy32_length|]. split; [done|]. cbn. by rewrite Ef.
    + apply ring_safe_ret. split; [done|]. apply (Hoff (k_link k)); [done|]. exact H5.
  - intros k' m' v' [-> Hk']. by apply ring_safe_ret.
Qed.

Lemma connect_safe ssid pass k m v : kctl_ok k m v -> length ssid = 33%nat ->
  ring_safe (rtw_kctl_connect fw ssid pass k) m v (fun '(_, k') m' v' => after_halt k' m m' v').
Proof.
  intros Hk Hs. unfold rtw_kctl_connect. cbv zeta.
  assert (Hs' : length (terminate 33 ssid) = 33%nat) by (unfold terminate; by rewrite length_insert).
  eapply ring_safe_bind; [by apply teardown_ring|]. intros k1 m1 v1 (-> & Hk1 & _).
  eapply (ring_safe_bind_regs _ _ _ _ (fun _ => True)); [apply Hk1|by apply (safe_op reg_call (PciPower true true))|intros _ _].
  eapply ring_safe_bind; [by eapply stages_checked_safe|]. intros [[ok d] k2] m2 v2 (Hm & Hk2 & Hok).
  destruct ok; cbn [negb]; [|eapply halt_ring; [exact Hk2|by split]]. destruct (Hok eq_refl) as [Hd Hn2].
  eapply ring_safe_bind; [eapply stages_air_safe; [done|done|eapply known_within; [apply Hk2|done]]|].
  intros k3 m3 v3 (-> & -> & Hk3 & Hw3).
  eapply ring_safe_bind; [by eapply scan_stage|]. intros [n r] m3 v3 (-> & -> & Hk4 & Hw4 & Hd4 & Hr).
  destruct (find_by_ssid _ _) as [[bssid channel]|] eqn:Ef; [|eapply halt_ring; [exact Hk4|by split]].
  apply found_entry in Ef as [Hb Hne]; [|apply Hk4].
  eapply ring_safe_mono; [apply connect_join_safe; try done|].
  - destruct Hr as [Hr|Hr]; [by rewrite <- Hr in Hne|exact Hr].
  - intros [c k'] m' v' [Hm' Hk']. split; [by etransitivity|done].
Qed.

(** *** Disconnect *)

(** The deauthentication frame uses the management ring only. *)
Definition mgmt_call (o : hwop) : bool :=
  match o with
  | MemWrite _ _ _ | MemSet _ _ _ _ | Fault | Udelay _ => true
  | Write W16 a _ => a =? RTK_PCI_TXBD_IDX_MGMTQ
  | _ => false
  end.
Lemma tx_mgmt_only d s frame rate bmc : safe mgmt_call (trx_tx_mgmt d s frame rate bmc) (fun _ => True).
Proof.
  unfold trx_tx_mgmt, put_w. destruct (negb _); [by apply safe_ret|]. destruct (_ <? _); [by apply safe_ret|].
  repeat (apply safe_bind_any; [first [by apply safe_mem_set|by apply safe_mem_write]|intros _]).
  unfold trx_submit, bd_write. apply safe_bind_any.
  { destruct (r_bd _) as [[h base]|]; [by apply (safe_op _ (MemWrite _ _ _))|by apply safe_fault]. }
  intros _. apply safe_bind_any; [by apply safe_write16|]. intros _. by apply safe_ret.
Qed.

#[local] Transparent view_safe.
Lemma mgmt_view {B} (p : prog B) v : safe mgmt_call p (fun _ => True) -> view_safe p v (fun _ v' => v' = v).
Proof.
  induction p as [x|o f IH]; intros Hp; [done|]. intros r.
  pose proof (safe_act_inv _ _ _ _ Hp r) as Hf. apply safe_act_op in Hp.
  cbn [view_mon]. destruct (chip_fair (v_num v) o r); [|by apply view_released].
  assert (live_ok o = true /\ View (ring_num (v_num v) o) (live_after (v_live v) o r) = v) as [-> ->].
  { destruct v as [t l]. destruct o as [|w a x| | | | | | | | | | | | | | | | | | | | |]; try done.
    destruct w; try done. cbn in Hp. apply Z.eqb_eq in Hp as ->. done. }
  rewrite andb_false_r. by apply IH.
Qed.

#[local] Opaque view_safe.

Lemma disconnect_safe k m v : kctl_ok k m v ->
  ring_safe (rtw_kctl_disconnect k) m v (fun k' m' v' => after_halt k' m m' v').
Proof.
  intros Hk. unfold rtw_kctl_disconnect. cbv zeta.
  eapply ring_safe_bind with (R := fun k' m' v' => m' = m /\ v' = v /\ exists s, k' = set_k_trx s k /\ trx_inv s m).
  { destruct (_ && _); [|].
    - eapply ring_safe_bind.
      { apply ring_safe_track; [apply tx_mgmt_safe; [by apply dev_ok_trx|apply Hk|]|apply mgmt_view, tx_mgmt_only].
        destruct (ko_link _ _ _ Hk) as (_ & H1 & H2). unfold deauth_frame. rewrite !length_app, H1, H2. cbn. lia. }
      intros [r s] m1 v1 [Hpost ->]. apply leaf_inv in Hpost as [-> Hs]; [|apply Hk]. cbn [snd] in Hs.
      eapply ring_safe_bind with (R := fun _ m' v' => m' = m /\ v' = v).
      { eapply ring_safe_mono; [apply (ring_safe_track _ m v (fun _ m' => m' = m /\ True) (fun _ v' => v' = v)); [apply (mem_safe_regs _ m (fun _ => True)); by safe_go|
          apply mgmt_view; by safe_go]|]. by intros _ m' v' [[-> _] ->]. }
      intros _ m1 v1 [-> ->]. apply ring_safe_ret. eauto.
    - apply ring_safe_ret. split; [done|]. split; [done|]. exists (k_trx k). split; [by destruct k as [? [[] ? ?] ? ? ? ?]|apply Hk]. }
  intros k1 m1 v1 (-> & -> & s & -> & Hs).
  eapply ring_safe_bind; [apply ring_stop|]. intros _ m1 v1 [-> Hv1].
  eapply ring_safe_bind; [by apply free_ring|]. intros _ m2 v2 [-> ->].
  apply ring_safe_ret. split; [done|]. destruct Hk as [H1 H2 H3 (H4 & H5 & H6) H7 _ H8]. split; try done.
  - cbn. by rewrite length_insert.
  - intros Ha. split; [by apply H8|by eapply halted_within].
Qed.

End Safe.

(** ** Any sequence of calls *)

Inductive kctl_op :=
| KPoweron
| KBringup
| KScan
| KScanChunk (flags count : Z) (ch : list Z)
| KConnect (ssid pass : list Z)
| KDisconnect.

(** The arrays of the request structure. *)
Definition kctl_op_ok (o : kctl_op) : Prop :=
  match o with
  | KConnect ssid pass => length ssid = 33%nat /\ length pass = 64%nat
  | KScanChunk _ _ ch => length ch = 40%nat
  | _ => True
  end.

Definition kctl_do (fw : list Z) (k : kctl) (o : kctl_op) : prog kctl :=
  match o with
  | KPoweron => rtw_kctl_poweron;; mret k
  | KBringup => '(_, k) ← rtw_kctl_bringup fw k; mret k
  | KScan => '(_, k) ← rtw_kctl_scan fw k; mret k
  | KScanChunk flags count ch => '(_, k) ← rtw_kctl_scan_chunk fw flags count ch k; mret k
  | KConnect ssid pass => '(_, k) ← rtw_kctl_connect fw ssid pass k; mret k
  | KDisconnect => rtw_kctl_disconnect k
  end.

(** The terms of a call.  Power-on and bring-up tear nothing down: made while
    connected they reprogram the chip under the running data path.  Bring-up and
    the scans go on whatever [trx_init] returned: only runs in which the allocator
    refuses nothing are promised anything ([stale_size_faults]). *)
Definition diagnostic (o : kctl_op) : bool := match o with KPoweron | KBringup => true | _ => false end.
Definition presses_on (o : kctl_op) : bool := match o with KBringup | KScan | KScanChunk _ _ _ => true | _ => false end.
Definition terms_of (k : kctl) (o : kctl_op) : terms := Terms (negb (diagnostic o && g_cur_connected (k_link k))) (presses_on o).

(** Call after call, each from what the one before left, on its terms. *)
Fixpoint session_judged (fw : list Z) (os : list kctl_op) (k : kctl) (m : gmap Z Z) (v : view) (Q : kctl -> gmap Z Z -> view -> Prop) : Prop :=
  match os with
  | [] => Q k m v
  | o :: os => judged (terms_of k o) (kctl_do fw k o) m v (fun k' m' v' => session_judged fw os k' m' v' Q)
  end.

Lemma kctl0_ok mapped m : kctl_ok (kctl0 mapped) m (View None false).
Proof.
  split; [| | | |done|done|done].
  - apply inv_down. split; repeat constructor.
  - apply rsbox_init_ok.
  - change (table_ok scan_state0). refine (bool_decide_unpack _ _). by vm_compute.
  - done.
Qed.

Lemma kctl_do_judged fw k m v o : image_ok fw -> kctl_op_ok o -> kctl_ok k m v ->
  judged (terms_of k o) (kctl_do fw k o) m v (fun k' m' v' => m ⊆ m' /\ kctl_ok k' m' v').
Proof.
  intros Hfw Ho Hk. unfold terms_of. destruct o as [| | |flags count ch|ssid pass|]; cbn [diagnostic presses_on andb negb kctl_do].
  - eapply judged_bind; [by apply poweron_judged|]. intros _ m' v' [-> ->]. by apply judged_ret.
  - eapply judged_bind; [by apply bringup_judged|]. intros [r k'] m' v' H. by apply judged_ret.
  - eapply judged_bind; [by apply scan_judged|]. intros [[n l] k'] m' v' H. by apply judged_ret.
  - eapply judged_bind; [by apply scan_chunk_judged|]. intros [l k'] m' v' H. by apply judged_ret.
  - destruct Ho as [Hs _]. eapply judged_bind_ring; [by apply connect_safe|]. intros [c k'] m' v' H. by apply judged_ret.
  - by apply judged_ring, disconnect_safe.
Qed.

(** C1: from load, any sequence of power-ons, bring-ups, scans, streamed scans,
    connects and disconnects, each run as the file runs it in whatever state the
    one before left.  Assumed: the chip keeps its receive index inside the ring it
    was told of and its ring-size register reads back what it was told; the
    allocator never hands out a handle in use; and in a bring-up or a scan it
    refuses nothing (a connect and a disconnect are covered whatever it refuses).
    Then, whatever else the chip answers and whatever frames it writes: no access
    leaves a live buffer, no loop hangs, no buffer is lost, the state stays sound;
    the data path runs exactly while the driver says it is connected; and while it
    runs the chip is never powered, reset or reprogrammed, nor a buffer allocated
    or freed, except that a power-on or a bring-up made then does reprogram the
    chip: those two still free nothing and leave the data path running. *)
Theorem kctl_session_safe (fw : list Z) (os : list kctl_op) (mapped : bool) (m : gmap Z Z) :
  image_ok fw -> Forall kctl_op_ok os ->
  session_judged fw os (kctl0 mapped) m (View None false) (fun k m' v' =>
    m ⊆ m' /\ kctl_ok k m' v' /\ v_live v' = g_cur_connected (k_link k)).
Proof.
  intros Hfw Hos. assert (Hm : m ⊆ m) by done. revert Hm. generalize (kctl0_ok mapped m). generalize (kctl0 mapped) as k, (View None false) as v.
  generalize m at 1 3 4 as m1. induction Hos as [|o os Ho _ IH]; intros m1 k v Hk Hm; cbn [session_judged]; [by split_and!; [| |apply Hk]|].
  eapply judged_mono; [by apply kctl_do_judged|]. intros k' m' v' [Hm' Hk']. apply IH; [done|by etransitivity].
Qed.

(** C4: a connect, from any sound state, tears down whatever ran before and is
    safe on the terms above; and on every chip whatever, unless it ends associated
    with keys in place (status 7 or 15), it leaves the chip halted: the last the
    chip was told is a receive ring of size 0, no ring base, MAC and DMA off, and
    it is off the bus. *)
Theorem connect_halts (fw ssid pass : list Z) (k : kctl) (m : gmap Z Z) (v : view) (h : orders) :
  image_ok fw -> kctl_ok k m v -> length ssid = 33%nat ->
  ring_safe (rtw_kctl_connect fw ssid pass k) m v (fun '(_, k') m' v' => m ⊆ m' /\ kctl_ok k' m' v') /\
  tells (rtw_kctl_connect fw ssid pass k) h (fun '(res, _) h' => cr_status res = 7 \/ cr_status res = 15 \/ h' = halted).
Proof.
  intros Hfw Hk Hs. split; [by apply connect_safe|]. unfold rtw_kctl_connect. cbv zeta.
  apply tells_bind_any; intros k1 h1. apply tells_bind_any; intros _ h2. apply tells_bind_any; intros [[ok d] k2] h3.
  destruct ok; cbn [negb]; [|apply tells_halt; auto].
  apply tells_bind_any; intros k3 h4. apply tells_bind_any; intros [n r] h5.
  destruct (find_by_ssid _ _) as [[bssid channel]|]; [|apply tells_halt; auto].
  unfold connect_join. apply tells_bind_any; intros [[ar d'] g] h6. cbv zeta.
  destruct (_ && _) eqn:Ej; [|apply tells_halt; auto]. apply andb_true_iff in Ej as [-> ->].
  apply tells_bind_any; intros rc h7. apply tells_bind_any; intros k' h8. apply tells_ret. cbn. destruct (rc =? 0); auto.
Qed.

(** ** What connect publishes *)

Lemma any_bind {A B} (f : A -> prog B) (p : prog A) Q :
  (forall x, safe any_call (f x) Q) -> safe any_call (p ≫= f) Q.
Proof. intros Hf. apply safe_bind_any; [apply safe_any|exact Hf]. Qed.

(** What the caller and a later status call are told. *)
Definition published (ssid : list Z) (l : link) (res : connect_result) (k' : kctl) : Prop :=
  if g_cur_connected (k_link k') then
    let l' := k_link k' in
    cr_status res = 15 /\ cr_mac res = g_cur_mac l' /\ cr_channel res = g_cur_channel l' /\
    str_eq (g_cur_ssid l') ssid = true /\
    find_by_ssid (k_scan k') ssid = Some (g_cur_bssid l', g_cur_channel l') /\
    g_wpa_done (su_keys (st_supp (k_station k'))) = true
  else cr_status res ∈ [0; 1; 3; 5; 7] /\ k_link k' = set_connected false l.

Lemma strncpy32_eq s : length s = 33%nat -> 0 ∈ s -> str_eq (strncpy32 s) s = true.
Proof.
  intros Hl H0. apply c_str_terminated in H0. unfold str_eq, strncpy32. apply bool_decide_eq_true.
  rewrite take_app_ge, take_replicate, Nat.min_l by lia. rewrite <- app_assoc.
  change [0] with (replicate 1 0). rewrite <- replicate_add, Nat.add_1_r. cbn [replicate].
  apply c_str_app, c_str_nonzero.
Qed.
Lemma terminated_nul n s : (n = 33 \/ n = 64)%nat -> length s = n -> 0 ∈ terminate n s.
Proof.
  intros Hn Hl. unfold terminate. apply (list_elem_of_lookup_2 _ (n - 1)). apply list_lookup_insert_eq. lia.
Qed.

(** The stages leave the connection alone. *)
Lemma teardown_link k : safe any_call (teardown k) (fun k' => k_link k' = set_connected false (k_link k)).
Proof. unfold teardown. do 2 (apply any_bind; intros _). by apply safe_ret. Qed.
Lemma checked_link fw d k : safe any_call (stages_checked fw d k) (fun x => k_link x.2 = k_link k).
Proof.
  unfold stages_checked. apply any_bind; intros [pr d1]. apply any_bind; intros _. apply any_bind; intros [tr s1].
  apply any_bind; intros [[fr d2] s2]. do 3 (apply any_bind; intros [? ?]). by apply safe_ret.
Qed.
Lemma air_link d k : safe any_call (stages_air d k) (fun k' => k_link k' = k_link k).
Proof. unfold stages_air. do 2 (apply any_bind; intros ?). by apply safe_ret. Qed.

(** What a status call answers of a connection to [ssid] that was published. *)
Definition status_of (ssid : list Z) (res : connect_result) (k' : kctl) : Prop :=
  let st := rtw_kctl_status k' in
  sr_connected st = 1 /\ str_eq (sr_ssid st) ssid = true /\ sr_mac st = cr_mac res /\ sr_channel st = cr_channel res /\
  find_by_ssid (k_scan k') ssid = Some (sr_bssid st, sr_channel st).

(** C17: a connect publishes a connection exactly when it reports all four status
    bits.  Then the keys are in place, and the connection as published and as a
    status call answers it has the name asked for, the access point's address and
    channel as the scan found them under that name, and the card's own address as
    the connect reported it; otherwise the old connection is forgotten, nothing
    new is published and a status call answers all zeros. *)
Theorem connect_publishes (fw ssid pass : list Z) (k : kctl) : length ssid = 33%nat ->
  safe any_call (rtw_kctl_connect fw ssid pass k) (fun '(res, k') =>
    published (terminate 33 ssid) (k_link k) res k' /\
    (if cr_status res =? 15 then status_of (terminate 33 ssid) res k' else rtw_kctl_status k' = status_result0)).
Proof.
  intros Hs. set (name := terminate 33 ssid).
  assert (Hl : length name = 33%nat) by (unfold name, terminate; by rewrite length_insert).
  assert (H0 : 0 ∈ name) by (apply terminated_nul; auto).
  apply safe_mono with (Q := fun '(res, k') => published name (k_link k) res k').
  2:{ intros [res k'] H. split; [done|]. unfold published in H. unfold status_of, rtw_kctl_status.
      destruct (g_cur_connected (k_link k')).
      - destruct H as (-> & -> & -> & Hn & Hf & _). change (15 =? 15) with true. cbn [sr_connected sr_ssid sr_mac sr_channel sr_bssid].
        split; [done|]. split; [|done]. unfold str_eq in Hn. apply bool_decide_eq_true in Hn.
        assert (E : strncpy32 (g_cur_ssid (k_link k')) = strncpy32 name) by (unfold strncpy32; by rewrite Hn). rewrite E. by apply strncpy32_eq.
      - destruct H as [H _]. destruct (Z.eqb_spec (cr_status res) 15); [set_unfold in H; lia|done]. }
  assert (Hfail : forall n mac ch k', g_cur_connected (k_link k') = false -> k_link k' = set_connected false (k_link k) ->
    n ∈ [0; 1; 3; 5; 7] -> published name (k_link k) (ConnectResult n mac ch) k').
  { intros n mac ch k' Hc El Hn. unfold published. rewrite Hc. done. }
  unfold rtw_kctl_connect. fold name. cbv zeta.
  eapply safe_bind; [apply teardown_link|]. intros k1 E1. apply any_bind; intros _.
  eapply safe_bind; [apply checked_link|]. intros [[ok d] k2] E2. cbn [snd] in E2.
  destruct ok; cbn [negb]; [|apply any_bind; intros _; apply safe_ret, Hfail; [by rewrite E2, E1|by rewrite E2, E1|set_solver]].
  eapply safe_bind; [apply air_link|]. intros k3 E3. apply any_bind; intros [n r].
  assert (E4 : k_link (put_radio r k3) = set_connected false (k_link k)) by (cbn; by rewrite E3, E2, E1).
  destruct (find_by_ssid _ name) as [[bssid channel]|] eqn:Ef;
    [|apply any_bind; intros _; apply safe_ret, Hfail; [by rewrite E4|done|set_solver]].
  unfold connect_join. apply any_bind; intros [[ar d'] g]. cbv zeta.
  destruct (g_wpa_done (su_keys (st_supp g))) eqn:Ew.
  2:{ rewrite andb_false_r. apply any_bind; intros _. apply safe_ret, Hfail; [by cbn; rewrite E3, E2, E1|done|].
      destruct (ar =? 0); set_solver. }
  destruct (ar =? 0); cbn [andb].
  2:{ apply any_bind; intros _. apply safe_ret, Hfail; [by cbn; rewrite E3, E2, E1|done|set_solver]. }
  apply any_bind; intros rc. destruct (rc =? 0).
  - eapply safe_bind; [apply any_bind; intros _; apply safe_ret; exact (eq_refl _)|]. intros k' <-. apply safe_ret.
    pose proof (strncpy32_eq name Hl H0) as Hn. unfold published. cbn -[str_eq find_by_ssid].
    split_and!; [done|done|done|exact Hn|exact Ef|exact Ew].
  - eapply safe_bind; [apply safe_ret; exact (eq_refl _)|]. intros k' <-.
    apply safe_ret, Hfail; [by cbn; rewrite E3, E2, E1|done|set_solver].
Qed.

(** ** A failed initialisation leaves a size behind *)

(** A bridge with room for two DMA buffers. *)
Definition refuse_dev : Device Z := fun o n =>
  match o as o return hwres o * Z with
  | DmaAlloc _ => (if n <? 2 then Some (n + 1, 0x1000 * n) else None, n + 1)
  | o => (hw_default o, n)
  end.

(** [trx_init] fails, frees both, and leaves [g_pkt_size] at 8192 with no buffer
    behind it: the guard of the next reserved-page write passes, and it clears
    the descriptor through the null pointer.  [rtw_kctl_bringup],
    [rtw_kctl_scan] and [rtw_kctl_scan_chunk] go on to that write. *)
Lemma stale_size_faults (buf : list Z) : Z.of_nat (length buf) <= 8144 ->
  let '(ret, s) := result (@exec _ _ refuse_dev (trx_init kdev_init trx_state0) 0) in
  ret = -1 /\ d_size (g_pkt s) = 0x2000 /\ d_mapped (g_pkt s) = false /\
  head (@ops _ _ (@exec _ _ refuse_dev (trx_write_data_rsvd_page kdev_init s buf) 0)) = Some Fault.
Proof.
  intros Hb. set (run := result _). assert (E : exists s, run = (-1, s) /\ d_size (g_pkt s) = 0x2000 /\ d_mapped (g_pkt s) = false).
  { eexists. split; [by vm_compute|]. done. }
  destruct E as (s & -> & Hs & Hm). do 3 (split; [done|]). unfold trx_write_data_rsvd_page.
  change (tx_pkt_desc_sz (chip kdev_init)) with 48. rewrite u32_small by lia. rewrite Hs.
  destruct (Z.ltb_spec 0x2000 (Z.of_nat (length buf) + 48)); [lia|].
  unfold mem_set. rewrite Hm. unfold ops, trace, fault.
  cbn [mbind prog_mbind prog_bind act exec fst snd dev_step refuse_dev]. by destruct (exec _ _) as [[? ?] ?].
Qed.

(** ** Witnesses *)

Definition name33 : list Z := [0x68; 0x6f; 0x6d; 0x65] ++ replicate 29 0.
Definition pass64 : list Z := replicate 8 0x61 ++ replicate 56 0.

(** Diagnostics and scans while connected or not are among the calls. *)
Lemma kctl_session_safe_witness :
  session_judged image_example [KPoweron; KConnect name33 pass64; KBringup; KScan; KScanChunk 3 1 (replicate 40 6); KDisconnect] (kctl0 true) ∅ (View None false)
    (fun k m' v' => ∅ ⊆ m' /\ kctl_ok k m' v' /\ v_live v' = g_cur_connected (k_link k)).
Proof. apply kctl_session_safe; [exact image_example_ok|]. repeat constructor. Defined.

Lemma connect_halts_witness :
  ring_safe (rtw_kctl_connect image_example name33 pass64 (kctl0 true)) ∅ (View None false) (fun '(_, k') m' v' => ∅ ⊆ m' /\ kctl_ok k' m' v') /\
  tells (rtw_kctl_connect image_example name33 pass64 (kctl0 true)) orders0 (fun '(res, _) h' => cr_status res = 7 \/ cr_status res = 15 \/ h' = halted).
Proof. apply connect_halts; [exact image_example_ok|apply kctl0_ok|reflexivity]. Defined.

Lemma connect_publishes_witness :
  safe any_call (rtw_kctl_connect image_example name33 pass64 (kctl0 true)) (fun '(res, k') =>
    published (terminate 33 name33) link0 res k' /\
    (if cr_status res =? 15 then status_of (terminate 33 name33) res k' else rtw_kctl_status k' = status_result0)).
Proof. apply (connect_publishes image_example name33 pass64 (kctl0 true)). reflexivity. Defined.
