(* ===== verification/Config.v ===== *)
(** * Config: the saved networks (client/config.c, core/config.h)

    The daemon's table of names and passwords, the file it is read from and the
    file it is written to.  Proved: the table's strings stay terminated whatever
    file is read; saving and loading gives the table back; the operations refine
    a map from names to passwords; a save interrupted at any moment leaves the
    old file or the new one.  The address conversions of the C library
    ([inet_aton], [inet_ntoa]) are a class, with their documented inverse law. *)
From stdpp Require Import gmap.
From Stdlib Require Import String Ascii.
From S2P Require Import Prelude.
Open Scope Z_scope.
Open Scope rtw_scope.
Open Scope list_scope.

(** The bytes of a literal. *)
Definition txt (s : string) : list Z := map (fun a => Z.of_N (N_of_ascii a)) (list_ascii_of_string s).
Arguments txt _%_string_scope.

(** ** The table *)

Definition BAND_BOTH : Z := 0.
Definition BAND_24 : Z := 1.
Definition BAND_5 : Z := 2.
Definition MODE_SCAN : Z := 0.
Definition MODE_ETH : Z := 1.
Definition RTW88_MAX_NETWORKS : nat := 16.

(** The two arrays of 33 and 64 bytes. *)
Record wifi_network := Network { n_ssid : list Z; n_password : list Z }.
Definition network0 : wifi_network := Network (replicate 33 0) (replicate 64 0).
#[export] Instance wifi_network_inhabited : Inhabited wifi_network := populate network0.

Record wifi_config := Cfg {
  nets : list wifi_network; n_nets : nat; c_band : Z; c_mode : Z;
  c_ip : Z; c_netmask : Z; c_gateway : Z; c_dns : Z;
}.
Definition g_cfg0 : wifi_config := Cfg (replicate RTW88_MAX_NETWORKS network0) 0 BAND_BOTH (-1) 0 0 0 0.

Definition set_nets (l : list wifi_network) (n : nat) (c : wifi_config) : wifi_config :=
  Cfg l n (c_band c) (c_mode c) (c_ip c) (c_netmask c) (c_gateway c) (c_dns c).

(** [strncpy(dst, src, n)] *)
Definition strncpy (dst src : list Z) (n : nat) : list Z := take n (c_str src ++ replicate n 0) ++ drop n dst.

(** The entries in use. *)
Definition in_use (c : wifi_config) : list wifi_network := take (n_nets c) (nets c).

(** The loop of [network_match], [add_network] and [config_forget_network]: the
    first entry with that name. *)
Definition net_index (ssid : list Z) (c : wifi_config) : option nat :=
  fst <$> list_find (fun n => str_eq (n_ssid n) ssid = true) (in_use c).

Definition network_match (ssid : list Z) (c : wifi_config) : option wifi_network :=
  i ← net_index ssid c; nets c !! i.

(** The entry's index; [None] is the null pointer. *)
Definition add_network (ssid : list Z) (c : wifi_config) : option nat * wifi_config :=
  match net_index ssid c with
  | Some i => (Some i, c)
  | None =>
      if (RTW88_MAX_NETWORKS <=? n_nets c)%nat then (None, c)
      else
        let i := n_nets c in
        let n := Network (strncpy (replicate 33 0) ssid 32) (replicate 64 0) in
        (Some i, set_nets (<[i := n]> (nets c)) (S i) c)
  end.

(** ** Reading *)

Definition is_blank (b : Z) : bool := (b =? 0x20) || (b =? 0x09).
Definition is_trailing (b : Z) : bool := (b =? 0x0a) || (b =? 0x0d) || is_blank b.

Fixpoint skip_blank (s : list Z) : list Z :=
  match s with
  | b :: s' => if is_blank b then skip_blank s' else s
  | [] => []
  end.
Fixpoint drop_trailing (s : list Z) : list Z :=
  match s with
  | [] => []
  | b :: s =>
      match drop_trailing s with
      | [] => if is_trailing b then [] else [b]
      | s => b :: s
      end
  end.
Definition trim (s : list Z) : list Z := drop_trailing (skip_blank s).

Definition strip_comment (line : list Z) : list Z :=
  match skip_blank line with
  | b :: _ => if b =? 0x23 then [] else line
  | [] => line
  end.

(** [!strcmp(v, "...")] *)
Definition is_txt (v : list Z) (s : string) : bool := bool_decide (v = txt s).
Arguments is_txt _ _%_string_scope.

Definition parse_band (v : list Z) : Z :=
  if is_txt v "2.4" || is_txt v "2" || is_txt v "2g" || is_txt v "2.4g" then BAND_24
  else if is_txt v "5" || is_txt v "5g" then BAND_5
  else if is_txt v "both" || is_txt v "all" then BAND_BOTH
  else -1.
Definition parse_mode (v : list Z) : Z :=
  if is_txt v "eth" || is_txt v "ethernet" then MODE_ETH
  else if is_txt v "scan" || is_txt v "none" then MODE_SCAN
  else -1.

(** [inet_aton] and [inet_ntoa] on addresses in host order. *)
Class Inet := { inet_aton : list Z -> option Z; inet_ntoa : Z -> list Z }.
Class InetLaws `{Inet} := {
  inet_inverse v : 0 <= v < 2 ^ 32 -> inet_aton (inet_ntoa v) = Some v;
  inet_text v : 0 <= v < 2 ^ 32 ->
    (length (inet_ntoa v) <= 15)%nat /\ Forall (fun b => b = 0x2e \/ 0x30 <= b <= 0x39) (inet_ntoa v);
}.

(** [strchr(s, '=')]: what precedes and follows it. *)
Fixpoint split_eq (s : list Z) : option (list Z * list Z) :=
  match s with
  | [] => None
  | b :: s => if b =? 0x3d then Some ([], s) else '(k, v) ← split_eq s; Some (b :: k, v)
  end.

(** [fgets] into [n + 1] bytes: the bytes read and the rest of the file. *)
Fixpoint fgets (n : nat) (bs : list Z) : list Z * list Z :=
  match n, bs with
  | S n, b :: bs => if b =? 0x0a then ([b], bs) else let '(l, r) := fgets n bs in (b :: l, r)
  | _, _ => ([], bs)
  end.

Section Inet.
Context `{Inet}.

Definition parse_ip (v : list Z) : Z := default 0 (inet_aton v).

(** The return value and the table. *)
Definition apply_setting (key val : list Z) (c : wifi_config) : Z * wifi_config :=
  if is_txt key "ssid" || is_txt key "network" then
    let '(n, c) := add_network val c in (match n with Some _ => 0 | None => -1 end, c)
  else if is_txt key "password" || is_txt key "pass" then
    if (n_nets c =? 0)%nat then (-1, c)
    else
      let i := (n_nets c - 1)%nat in
      (0, set_nets (alter (fun n => Network (n_ssid n) (strncpy (n_password n) val 63)) i (nets c)) (n_nets c) c)
  else if is_txt key "band" then
    let b := parse_band val in
    if b <? 0 then (-1, c) else (0, Cfg (nets c) (n_nets c) b (c_mode c) (c_ip c) (c_netmask c) (c_gateway c) (c_dns c))
  else if is_txt key "mode" then
    let m := parse_mode val in
    if m <? 0 then (-1, c) else (0, Cfg (nets c) (n_nets c) (c_band c) m (c_ip c) (c_netmask c) (c_gateway c) (c_dns c))
  else if is_txt key "ip" then
    (0, Cfg (nets c) (n_nets c) (c_band c) (c_mode c) (parse_ip val) (c_netmask c) (c_gateway c) (c_dns c))
  else if is_txt key "netmask" then
    (0, Cfg (nets c) (n_nets c) (c_band c) (c_mode c) (c_ip c) (parse_ip val) (c_gateway c) (c_dns c))
  else if is_txt key "gateway" || is_txt key "gw" then
    (0, Cfg (nets c) (n_nets c) (c_band c) (c_mode c) (c_ip c) (c_netmask c) (parse_ip val) (c_dns c))
  else if is_txt key "dns" then
    (0, Cfg (nets c) (n_nets c) (c_band c) (c_mode c) (c_ip c) (c_netmask c) (c_gateway c) (parse_ip val))
  else (-1, c).

(** One line: what [fgets] left in the buffer. *)
Definition load_line (line : list Z) (c : wifi_config) : wifi_config :=
  match split_eq (strip_comment (c_str line)) with
  | None => c
  | Some (k, v) =>
      let key := trim (take 63 k) in
      let val := trim (take 255 v) in
      match key with [] => c | _ => (apply_setting key val c).2 end
  end.

(** [line] is 512 bytes; [fuel] bounds the number of lines. *)
Fixpoint load_lines (fuel : nat) (bs : list Z) (c : wifi_config) : wifi_config :=
  match fuel, bs with
  | S fuel, _ :: _ => let '(line, rest) := fgets 511 bs in load_lines fuel rest (load_line line c)
  | _, _ => c
  end.

(** The file's bytes, [None] if it cannot be opened. *)
Definition load_file (file : option (list Z)) (c : wifi_config) : Z * wifi_config :=
  match file with
  | None => (-1, c)
  | Some bs => (0, load_lines (length bs) bs c)
  end.
Definition config_load_file (file : option (list Z)) (c : wifi_config) : Z * wifi_config :=
  (0, (load_file file c).2).

(** ** Changing *)

Definition config_set_network (ssid pass : option (list Z)) (c : wifi_config) : Z * wifi_config :=
  match c_str <$> ssid with
  | None | Some [] => (-1, c)
  | Some name =>
      match add_network name c with
      | (None, c) => (-1, c)
      | (Some i, c) =>
          let put n :=
            let p := <[0%nat := 0]> (n_password n) in
            Network (n_ssid n) (match pass with Some pass => <[63%nat := 0]> (strncpy p pass 63) | None => p end) in
          (0, set_nets (alter put i (nets c)) (n_nets c) c)
      end
  end.

(** [nets[j - 1] = nets[j]] for [cnt] values of [j]. *)
Fixpoint shift_down (cnt j : nat) (l : list wifi_network) : list wifi_network :=
  match cnt with
  | O => l
  | S cnt => shift_down cnt (S j) (<[(j - 1)%nat := l !!! j]> l)
  end.

Definition config_forget_network (ssid : list Z) (c : wifi_config) : Z * wifi_config :=
  match net_index ssid c with
  | Some i => (0, set_nets (shift_down (n_nets c - (i + 1)) (i + 1) (nets c)) (n_nets c - 1) c)
  | None => (-1, c)
  end.

(** ** Writing *)

Definition band_str (b : Z) : list Z := if b =? BAND_24 then txt "2.4" else if b =? BAND_5 then txt "5" else txt "both".
Definition ip_str (v : Z) : list Z := take 15 (inet_ntoa v).

Definition nl : list Z := [0x0a].
Definition network_text (n : wifi_network) : list Z :=
  txt "network  = " ++ c_str (n_ssid n) ++ nl ++
  (match c_str (n_password n) with [] => [] | p => txt "password = " ++ p ++ nl end) ++ nl.
Definition ip_text (key : list Z) (v : Z) : list Z := if nz v then key ++ ip_str v ++ nl else [].

(** What the calls of [fprintf] write, in order. *)
Definition config_texts (c : wifi_config) : list (list Z) :=
  [txt "# rtw88.conf " ++ [0xe2; 0x80; 0x94] ++ txt " written by rtwd. `key = value`; '#' starts a comment." ++ nl;
   txt "# Known networks (each 'network =' starts an entry; 'password =' is its key)." ++ nl ++ nl] ++
  map network_text (in_use c) ++
  [txt "band = " ++ band_str (c_band c) ++ nl;
   ip_text (txt "ip      = ") (c_ip c); ip_text (txt "netmask = ") (c_netmask c);
   ip_text (txt "gateway = ") (c_gateway c); ip_text (txt "dns     = ") (c_dns c)].
Definition config_text (c : wifi_config) : list Z := concat (config_texts c).

End Inet.

(** ** The file operations of a save *)

(** The calls, each with whether it succeeded; [FsWrite] is an [fprintf], whose
    result the code ignores. *)
Inductive fsop :=
| FsOpen (tmp : list Z)
| FsFdopen
| FsCloseFd
| FsWrite (bs : list Z)
| FsClose
| FsRename (tmp path : list Z)
| FsUnlink (p : list Z).

Inductive io (A : Type) :=
| Ret (x : A)
| Io (o : fsop) (k : bool -> io A).
Arguments Ret {_} _.
Arguments Io {_} _ _.

Definition tmp_of (path : list Z) : list Z := take 511 (path ++ txt ".tmp").

Fixpoint write_all (texts : list (list Z)) (k : io Z) : io Z :=
  match texts with
  | [] => k
  | t :: texts => Io (FsWrite t) (fun _ => write_all texts k)
  end.

Section Inet.
Context `{Inet}.
Definition config_save (path : list Z) (c : wifi_config) : io Z :=
  let tmp := tmp_of path in
  Io (FsOpen tmp) (fun ok =>
  if negb ok then Ret (-1) else
  Io FsFdopen (fun ok =>
  if negb ok then Io FsCloseFd (fun _ => Io (FsUnlink tmp) (fun _ => Ret (-1))) else
  write_all (config_texts c) (
  Io FsClose (fun ok =>
  if negb ok then Io (FsUnlink tmp) (fun _ => Ret (-1)) else
  Io (FsRename tmp path) (fun ok =>
  if negb ok then Io (FsUnlink tmp) (fun _ => Ret (-1)) else
  Ret 0))))).
End Inet.

(** ** Well-formed tables *)

(** An array that holds a terminated string, zero after the last byte a copy
    may fill. *)
Definition terminated (n : nat) (s : list Z) : Prop := length s = S n /\ s !! n = Some 0.
Definition net_ok (n : wifi_network) : Prop := terminated 32 (n_ssid n) /\ terminated 63 (n_password n).
Record cfg_ok (c : wifi_config) : Prop := {
  co_len : length (nets c) = RTW88_MAX_NETWORKS;
  co_n : (n_nets c <= RTW88_MAX_NETWORKS)%nat;
  co_nets : Forall net_ok (nets c);
  co_band : c_band c ∈ [BAND_BOTH; BAND_24; BAND_5];
  co_mode : c_mode c ∈ [-1; MODE_SCAN; MODE_ETH];
}.

Lemma terminated_zero n : terminated n (replicate (S n) 0).
Proof. split; [by rewrite length_replicate|apply lookup_replicate; lia]. Qed.
Lemma strncpy_terminated n d s : terminated n d -> terminated n (strncpy d s n).
Proof.
  intros [Hl H0]. unfold strncpy.
  assert (E : length (take n (c_str s ++ replicate n 0)) = n) by (rewrite length_take, length_app, length_replicate; lia).
  split; [rewrite length_app, E, length_drop; lia|].
  rewrite lookup_app_r, E, Nat.sub_diag, lookup_drop, Nat.add_0_r; [done|by rewrite E].
Qed.
Lemma strncpy_str n d s : terminated n d -> c_str (strncpy d s n) = take n (c_str s).
Proof.
  intros [Hl H0]. unfold strncpy. rewrite (drop_S d 0 n) by done. generalize (drop (S n) d) as r. intros r. clear Hl H0 d.
  destruct (decide (n <= length (c_str s))%nat) as [Hn|Hn].
  - rewrite take_app_le by done. apply c_str_app, Forall_take, c_str_nonzero.
  - rewrite take_app_ge, take_replicate, (take_ge (c_str s)) by lia.
    replace (_ `min` _)%nat with (S (n - length (c_str s) - 1)) by lia. cbn [replicate]. rewrite <- app_assoc.
    apply c_str_app, c_str_nonzero.
Qed.
Lemma terminated_put n d i : terminated n d -> terminated n (<[i := 0]> d).
Proof.
  intros [Hl H0]. split; [by rewrite length_insert|].
  destruct (decide (i = n)) as [->|]; [apply list_lookup_insert_eq; lia|by rewrite list_lookup_insert_ne].
Qed.
Lemma net0_ok : net_ok network0.
Proof. split; apply terminated_zero. Qed.
#[local] Hint Resolve terminated_zero strncpy_terminated terminated_put net0_ok : core.

Lemma cfg0_ok : cfg_ok g_cfg0.
Proof. split; [done|cbn; lia|by apply Forall_replicate|set_solver|set_solver]. Qed.

Lemma set_nets_ok l n c : cfg_ok c -> length l = RTW88_MAX_NETWORKS -> (n <= RTW88_MAX_NETWORKS)%nat -> Forall net_ok l ->
  cfg_ok (set_nets l n c).
Proof. by intros [] ? ? ?; split. Qed.

(** The entry found is in use and has that name; if none is found none has. *)
Lemma net_index_Some s c i : cfg_ok c -> net_index s c = Some i ->
  exists n, in_use c !! i = Some n /\ nets c !! i = Some n /\ (i < n_nets c)%nat /\ c_str (n_ssid n) = c_str s.
Proof.
  intros Hc ([j n] & Hf & ->)%fmap_Some. apply list_find_Some in Hf as (Hj & He & _). exists n. cbn.
  assert (Hlt : (j < n_nets c)%nat).
  { apply lookup_lt_Some in Hj. unfold in_use in Hj. rewrite length_take in Hj. lia. }
  unfold in_use in Hj |- *. rewrite lookup_take_lt in Hj |- * by done. by apply bool_decide_eq_true in He.
Qed.
Lemma net_index_None s c : net_index s c = None -> Forall (fun n => c_str (n_ssid n) <> c_str s) (in_use c).
Proof.
  intros H%fmap_None%list_find_None. eapply Forall_impl; [|exact H]. intros n Hn E. apply Hn. by apply bool_decide_eq_true.
Qed.

Lemma add_network_ok s c : cfg_ok c -> let '(i, c') := add_network s c in
  cfg_ok c' /\ match i with Some i => (i < n_nets c')%nat | None => n_nets c = RTW88_MAX_NETWORKS /\ c' = c end.
Proof.
  intros Hc. unfold add_network. destruct (net_index s c) as [i|] eqn:E.
  - apply net_index_Some in E as (n & _ & _ & Hi & _); [done|done].
  - destruct (Nat.leb_spec RTW88_MAX_NETWORKS (n_nets c)) as [Hn|Hn].
    + split; [done|]. destruct Hc. split; [lia|done].
    + split; [|cbn; lia]. apply set_nets_ok; [done|rewrite length_insert; apply Hc|lia|].
      apply Forall_insert; [apply Hc|]. by split; apply strncpy_terminated || apply terminated_zero; apply terminated_zero.
Qed.

Lemma alter_ok f i c : cfg_ok c -> (forall n, net_ok n -> net_ok (f n)) -> cfg_ok (set_nets (alter f i (nets c)) (n_nets c) c).
Proof.
  intros Hc Hf. apply set_nets_ok; [done|rewrite length_alter; apply Hc|apply Hc|].
  apply Forall_alter; [apply Hc|]. intros n _. apply Hf.
Qed.

Lemma parse_band_range v : parse_band v ∈ [-1; BAND_BOTH; BAND_24; BAND_5].
Proof. unfold parse_band. repeat (destruct (_ || _); [set_solver +|]). set_solver +. Qed.
Lemma parse_mode_range v : parse_mode v ∈ [-1; MODE_SCAN; MODE_ETH].
Proof. unfold parse_mode. repeat (destruct (_ || _); [set_solver +|]). set_solver +. Qed.

Section Inet.
Context `{Inet}.

Lemma apply_setting_ok key v c : cfg_ok c -> cfg_ok (apply_setting key v c).2.
Proof.
  intros Hc. unfold apply_setting.
  destruct (_ || _).
  { pose proof (add_network_ok v c Hc) as Ha. destruct (add_network v c) as [i c']. apply Ha. }
  destruct (_ || _).
  { destruct (_ =? _)%nat; [done|]. apply alter_ok; [done|]. intros n [Hs Hp]. split; cbn; auto. }
  destruct (is_txt _ _).
  { destruct (Z.ltb_spec (parse_band v) 0); [done|]. destruct Hc. split; try done. cbn.
    pose proof (parse_band_range v) as Hv. apply elem_of_cons in Hv as [Hv|Hv]; [lia|done]. }
  destruct (is_txt _ _).
  { destruct (Z.ltb_spec (parse_mode v) 0); [done|]. destruct Hc. split; try done. apply parse_mode_range. }
  destruct Hc. repeat (destruct (is_txt _ _ || _) || destruct (is_txt _ _)); by split.
Qed.

Lemma load_line_ok l c : cfg_ok c -> cfg_ok (load_line l c).
Proof.
  intros Hc. unfold load_line. destruct (split_eq _) as [[k v]|]; [|done]. cbv zeta.
  destruct (trim _) eqn:E; [done|]. by apply apply_setting_ok.
Qed.
Lemma load_lines_ok fuel : forall bs c, cfg_ok c -> cfg_ok (load_lines fuel bs c).
Proof.
  induction fuel as [|fuel IH]; intros [|b bs] c Hc; try done. cbn [load_lines].
  destruct (fgets 511 (b :: bs)) as [l r]. by apply IH, load_line_ok.
Qed.
End Inet.

Lemma set_network_ok s p c : cfg_ok c -> cfg_ok (config_set_network s p c).2.
Proof.
  intros Hc. unfold config_set_network. destruct s as [s|]; [|done]. cbn. destruct (c_str s) as [|b name] eqn:E; [done|].
  pose proof (add_network_ok (b :: name) c Hc) as Ha. destruct (add_network _ c) as [[i|] c']; [|apply Ha].
  destruct Ha as [Ha _]. apply alter_ok; [done|]. intros n [Hs Hp]. split; [done|]. cbn. destruct p; auto.
Qed.

Lemma shift_down_length cnt : forall j l, length (shift_down cnt j l) = length l.
Proof. induction cnt as [|cnt IH]; intros j l; [done|]. cbn. by rewrite IH, length_insert. Qed.
(** The entries in front of [j] stay, the next [cnt] move down by one. *)
Lemma shift_down_take cnt : forall j l, (0 < j)%nat -> (j + cnt <= length l)%nat ->
  take (j - 1 + cnt) (shift_down cnt j l) = take (j - 1) l ++ take cnt (drop j l).
Proof.
  induction cnt as [|cnt IH]; intros j l Hj Hl; cbn [shift_down]; [by rewrite Nat.add_0_r, take_0, app_nil_r|].
  destruct (lookup_lt_is_Some_2 l j) as [x Hx]; [lia|]. rewrite (list_lookup_total_correct _ _ _ Hx).
  replace (j - 1 + S cnt)%nat with (S j - 1 + cnt)%nat by lia. rewrite IH by (rewrite ?length_insert; lia).
  rewrite drop_insert_lt by lia. replace (S j - 1)%nat with (S (j - 1)) by lia.
  rewrite (take_S_r _ (j - 1) x) by (apply list_lookup_insert_eq; lia).
  rewrite take_insert_ge by lia. rewrite (drop_S _ x j) by done. cbn [take]. by rewrite <- app_assoc.
Qed.
Lemma shift_down_ok cnt : forall j l, Forall net_ok l -> (j + cnt <= length l)%nat -> Forall net_ok (shift_down cnt j l).
Proof.
  induction cnt as [|cnt IH]; intros j l Hf Hl; [done|]. cbn. apply IH; [|rewrite length_insert; lia].
  apply Forall_insert; [done|]. destruct (lookup_lt_is_Some_2 l j) as [x Hx]; [lia|].
  rewrite (list_lookup_total_correct _ _ _ Hx). by eapply Forall_lookup_1.
Qed.

Lemma forget_network_ok s c : cfg_ok c -> cfg_ok (config_forget_network s c).2.
Proof.
  intros Hc. unfold config_forget_network. destruct (net_index s c) as [i|] eqn:E; [|done].
  apply net_index_Some in E as (n & _ & _ & Hi & _); [|done]. destruct Hc as [Hl Hn Hf Hb Hm].
  apply set_nets_ok; [by split|by rewrite shift_down_length|lia|]. apply shift_down_ok; [done|lia].
Qed.

(** ** The table as a map *)

(** The names and passwords in use, in order. *)
Definition entry (n : wifi_network) : list Z * list Z := (c_str (n_ssid n), c_str (n_password n)).
Definition saved (c : wifi_config) : list (list Z * list Z) := entry <$> in_use c.
Definition as_map (c : wifi_config) : gmap (list Z) (list Z) := list_to_map (saved c).

(** No name twice. *)
Definition names_distinct (c : wifi_config) : Prop := NoDup (saved c).*1.

Lemma saved_length c : cfg_ok c -> length (saved c) = n_nets c.
Proof. intros []. unfold saved, in_use. rewrite length_fmap, length_take. lia. Qed.

Lemma net_index_saved s c i : cfg_ok c -> net_index s c = Some i -> exists n,
  nets c !! i = Some n /\ (i < n_nets c)%nat /\ c_str (n_ssid n) = c_str s /\ saved c !! i = Some (c_str s, c_str (n_password n)).
Proof.
  intros Hc H. apply net_index_Some in H as (n & Hu & Hn & Hi & E); [|done]. exists n. do 3 (split; [done|]).
  unfold saved. by rewrite <- E, list_lookup_fmap, Hu.
Qed.
Lemma net_index_absent s c : net_index s c = None -> c_str s ∉ (saved c).*1.
Proof.
  intros H%net_index_None. unfold saved. rewrite <- list_fmap_compose. intros (n & E & Hn)%list_elem_of_fmap.
  rewrite Forall_forall in H. apply (H n); [by apply list_elem_of_In|done].
Qed.

Lemma saved_push s c : cfg_ok c -> (n_nets c < RTW88_MAX_NETWORKS)%nat ->
  saved (set_nets (<[n_nets c := Network (strncpy (replicate 33 0) s 32) (replicate 64 0)]> (nets c)) (S (n_nets c)) c) =
  saved c ++ [(take 32 (c_str s), [])].
Proof.
  intros Hc Hn. unfold saved, in_use. cbn [nets n_nets set_nets].
  rewrite (take_S_r _ _ (Network (strncpy (replicate 33 0) s 32) (replicate 64 0))).
  2:{ apply list_lookup_insert_eq. rewrite (co_len _ Hc). lia. }
  rewrite take_insert_ge, fmap_app by lia. cbn [fmap list_fmap]. unfold entry at 2. cbn [n_ssid n_password].
  by rewrite strncpy_str by apply terminated_zero.
Qed.

(** [f] changes only the password, of entry [i]. *)
Lemma saved_alter f p i c : (i < n_nets c)%nat ->
  (forall n, nets c !! i = Some n -> entry (f n) = ((entry n).1, p)) ->
  saved (set_nets (alter f i (nets c)) (n_nets c) c) = alter (fun e => (e.1, p)) i (saved c).
Proof.
  intros Hi Hf. unfold saved, in_use. cbn [nets n_nets set_nets]. rewrite take_alter_lt by done.
  apply list_eq. intros j.
  destruct (decide (i = j)) as [<-|Hne].
  - rewrite list_lookup_alter_eq, !list_lookup_fmap, list_lookup_alter_eq, lookup_take_lt by done.
    destruct (nets c !! i) as [n|] eqn:E; [|done]. cbn. by rewrite Hf.
  - by rewrite list_lookup_alter_ne, !list_lookup_fmap, list_lookup_alter_ne.
Qed.

Lemma saved_remove i c : cfg_ok c -> (i < n_nets c)%nat ->
  saved (set_nets (shift_down (n_nets c - (i + 1)) (i + 1) (nets c)) (n_nets c - 1) c) = delete i (saved c).
Proof.
  intros [Hl Hn _ _ _] Hi. unfold saved, in_use. cbn [nets n_nets set_nets].
  pose proof (shift_down_take (n_nets c - (i + 1)) (i + 1) (nets c)) as E.
  replace (i + 1 - 1 + (n_nets c - (i + 1)))%nat with (n_nets c - 1)%nat in E by lia. rewrite E by lia. clear E.
  rewrite delete_take_drop, <- !fmap_take, <- fmap_drop, <- fmap_app. f_equal. rewrite take_take, Nat.add_1_r.
  f_equal; [f_equal; lia|]. rewrite take_drop_commute. do 2 f_equal. lia.
Qed.

(** What the operations promise: a map from names to passwords, of bounded size. *)
Inductive net_op :=
| OpSet (ssid pass : option (list Z))
| OpForget (ssid : list Z).

Definition spec_do (m : gmap (list Z) (list Z)) (o : net_op) : Z * gmap (list Z) (list Z) :=
  match o with
  | OpSet None _ => (-1, m)
  | OpSet (Some s) p =>
      let name := c_str s in
      if decide (name = []) then (-1, m)
      else if decide (m !! name = None /\ (RTW88_MAX_NETWORKS <= size m)%nat) then (-1, m)
      else (0, <[name := take 63 (c_str (default [] p))]> m)
  | OpForget s =>
      match m !! c_str s with
      | Some _ => (0, delete (c_str s) m)
      | None => (-1, m)
      end
  end.
Definition net_do (c : wifi_config) (o : net_op) : Z * wifi_config :=
  match o with
  | OpSet s p => config_set_network s p c
  | OpForget s => config_forget_network s c
  end.
Definition op_name (o : net_op) : list Z := match o with OpSet s _ => c_str (default [] s) | OpForget s => c_str s end.

Lemma as_map_lookup c i s p : names_distinct c -> saved c !! i = Some (s, p) -> as_map c !! s = Some p.
Proof. intros Hd Hi. apply elem_of_list_to_map_1; [done|]. by eapply list_elem_of_lookup_2. Qed.
Lemma as_map_absent c s : s ∉ (saved c).*1 -> as_map c !! s = None.
Proof. apply not_elem_of_list_to_map_1. Qed.

(** [net_index] finds what the map holds. *)
Lemma net_index_map s c : cfg_ok c -> names_distinct c ->
  match net_index s c with
  | Some i => exists n, nets c !! i = Some n /\ (i < n_nets c)%nat /\ saved c !! i = Some (c_str s, c_str (n_password n)) /\
                        as_map c !! c_str s = Some (c_str (n_password n))
  | None => as_map c !! c_str s = None
  end.
Proof.
  intros Hc Hd. destruct (net_index s c) as [i|] eqn:E.
  - apply net_index_saved in E as (n & Hn & Hi & _ & Hs); [|done]. exists n. do 3 (split; [done|]).
    by eapply as_map_lookup.
  - by apply as_map_absent, net_index_absent.
Qed.

(** Replacing the value of entry [i], and removing it. *)
Lemma alter_entry (l : list (list Z * list Z)) i s p p' : NoDup l.*1 -> l !! i = Some (s, p) ->
  let l' := alter (fun e => (e.1, p')) i l in
  l'.*1 = l.*1 /\ (list_to_map l' : gmap (list Z) (list Z)) = <[s := p']> (list_to_map l).
Proof.
  intros Hd Hi. cbv zeta. set (l' := alter _ i l).
  assert (Hk : l'.*1 = l.*1).
  { unfold l'. apply list_eq. intros j. rewrite !list_lookup_fmap. destruct (decide (i = j)) as [<-|].
    - rewrite list_lookup_alter_eq, Hi. done.
    - by rewrite list_lookup_alter_ne. }
  split; [done|]. apply map_eq. intros k. apply option_eq. intros x.
  rewrite <- elem_of_list_to_map by (by rewrite Hk). rewrite lookup_insert_Some, <- elem_of_list_to_map by done.
  rewrite !list_elem_of_lookup. split.
  - intros (j & Hj). unfold l' in Hj. destruct (decide (i = j)) as [<-|Hne].
    + rewrite list_lookup_alter_eq, Hi in Hj. cbn in Hj. simplify_eq. by left.
    + rewrite list_lookup_alter_ne in Hj by done. right. split; [|by exists j]. intros ->. apply Hne.
      eapply (NoDup_lookup l.*1); [done|by rewrite list_lookup_fmap, Hi|by rewrite list_lookup_fmap, Hj].
  - intros [[-> ->]|[Hne (j & Hj)]].
    + exists i. unfold l'. by rewrite list_lookup_alter_eq, Hi.
    + exists j. unfold l'. rewrite list_lookup_alter_ne; [done|]. intros ->. rewrite Hi in Hj. by simplify_eq.
Qed.
Lemma delete_entry (l : list (list Z * list Z)) i s p : NoDup l.*1 -> l !! i = Some (s, p) ->
  NoDup (delete i l).*1 /\ (list_to_map (delete i l) : gmap (list Z) (list Z)) = delete s (list_to_map l).
Proof.
  intros Hd Hi. pose proof (delete_Permutation l i (s, p) Hi) as HP.
  assert (Hd' : NoDup ((s, p) :: delete i l).*1) by by rewrite <- HP.
  rewrite (list_to_map_proper l _ Hd HP). cbn in Hd' |- *. split; [by apply NoDup_cons_1_2 in Hd'|].
  rewrite delete_insert_id; [done|]. by apply not_elem_of_list_to_map_1, NoDup_cons_1_1.
Qed.

(** A name that fits its array. *)
Lemma long_enough (s : list Z) : (length s <= 32)%nat -> take 32 s = s.
Proof. apply take_ge. Qed.

Lemma map_size c : cfg_ok c -> names_distinct c -> size (as_map c) = n_nets c.
Proof. intros Hc Hd. unfold as_map. rewrite map_size_list_to_map by done. by apply saved_length. Qed.

Lemma c_str_idem s : c_str (c_str s) = c_str s.
Proof. induction s as [|b s IH]; [done|]. cbn. destruct (b =? 0) eqn:E; [done|]. cbn. by rewrite E, IH. Qed.

(** The entry of a name, old or new, in the table [add_network] leaves. *)
Lemma add_network_entry s c : cfg_ok c -> names_distinct c -> (length (c_str s) <= 32)%nat ->
  match add_network s c with
  | (Some i, c') => cfg_ok c' /\ names_distinct c' /\ (i < n_nets c')%nat /\ (exists p, saved c' !! i = Some (c_str s, p)) /\
      (forall p, <[c_str s := p]> (as_map c') = <[c_str s := p]> (as_map c)) /\
      (as_map c !! c_str s = None -> (size (as_map c) < RTW88_MAX_NETWORKS)%nat)
  | (None, c') => c' = c /\ as_map c !! c_str s = None /\ (RTW88_MAX_NETWORKS <= size (as_map c))%nat
  end.
Proof.
  intros Hc Hd Hs. pose proof (add_network_ok s c Hc) as Ho. pose proof (net_index_map s c Hc Hd) as Hi.
  rewrite map_size by done. unfold add_network in *. destruct (net_index s c) as [i|] eqn:E.
  - destruct Hi as (n & _ & Hlt & Hsv & Hm). do 3 (split; [done|]). split; [by eexists|]. split; [done|]. by rewrite Hm.
  - destruct (Nat.leb_spec RTW88_MAX_NETWORKS (n_nets c)) as [Hn|Hn]; [done|]. destruct Ho as [Ho _].
    apply net_index_absent in E. set (c' := set_nets _ _ c) in *.
    assert (Es : saved c' = saved c ++ [(c_str s, [])]) by (unfold c'; by rewrite saved_push, long_enough).
    split; [done|]. split.
    { unfold names_distinct. rewrite Es, fmap_app. cbn.
      rewrite (Permutation_app_comm _ [_]). by apply NoDup_cons_2. }
    split; [cbn; lia|]. split.
    { exists []. rewrite Es, lookup_app_r by (rewrite saved_length by done; lia). by rewrite saved_length, Nat.sub_diag. }
    split; [|done]. intros p. unfold as_map. rewrite Es, list_to_map_snoc by done. by rewrite insert_insert_eq.
Qed.

(** What a password update does to an entry. *)
Definition put_password (pass : option (list Z)) (n : wifi_network) : wifi_network :=
  let p := <[0%nat := 0]> (n_password n) in
  Network (n_ssid n) (match pass with Some pass => <[63%nat := 0]> (strncpy p pass 63) | None => p end).
Lemma put_password_entry p n : net_ok n ->
  net_ok (put_password p n) /\ entry (put_password p n) = ((entry n).1, take 63 (c_str (default [] p))).
Proof.
  intros [Hn1 Hn2]. unfold put_password, entry. destruct p as [p|]; cbn [default n_ssid n_password].
  - assert (H63 : <[63%nat := 0]> (strncpy (<[0%nat := 0]> (n_password n)) p 63) = strncpy (<[0%nat := 0]> (n_password n)) p 63).
    { apply list_insert_id. eapply strncpy_terminated; by apply terminated_put. }
    rewrite H63. split; [split; cbn; auto|]. by rewrite strncpy_str by by apply terminated_put.
  - split; [split; cbn; auto|]. destruct Hn2 as [Hn2 _]. by destruct (n_password n).
Qed.

Definition refined (c : wifi_config) (o : net_op) : Prop :=
  let '(r, c') := net_do c o in (r, as_map c') = spec_do (as_map c) o /\ cfg_ok c' /\ names_distinct c'.

Lemma set_refines c s p : cfg_ok c -> names_distinct c -> (length (c_str s) <= 32)%nat -> refined c (OpSet (Some s) p).
Proof.
  intros Hc Hd Hs. unfold refined. cbn [net_do spec_do].
  unfold config_set_network. cbn [fmap option_fmap option_map]. destruct (decide (c_str s = [])) as [->|Hne]; [done|].
  pose proof (add_network_entry (c_str s) c Hc Hd) as Ha. rewrite c_str_idem in Ha. specialize (Ha Hs).
  destruct (c_str s) as [|b name] eqn:Es; [done|]. rewrite <- Es in *. clear Hne.
  destruct (add_network (c_str s) c) as [[i|] c1]; [|destruct Ha as (-> & Hnone & Hfull); by rewrite decide_True].
  destruct Ha as (Hc1 & Hd1 & Hi & [p0 Hp0] & Hm & Hroom).
  destruct (decide _) as [[H1 H2]|_]; [specialize (Hroom H1); lia|].
  assert (Hs2 : saved (set_nets (alter (put_password p) i (nets c1)) (n_nets c1) c1) =
                alter (fun e => (e.1, take 63 (c_str (default [] p)))) i (saved c1)).
  { apply saved_alter; [done|]. intros n Hn. apply put_password_entry. by eapply Forall_lookup_1; [apply Hc1|]. }
  destruct (alter_entry (saved c1) i _ _ (take 63 (c_str (default [] p))) Hd1 Hp0) as [Hk Hmap].
  split; [|split; [apply alter_ok; [done|]; intros n Hn; by apply put_password_entry|]].
  - unfold as_map at 1. unfold put_password in Hs2. rewrite Hs2, Hmap. f_equal. apply Hm.
  - unfold names_distinct. unfold put_password in Hs2. by rewrite Hs2, Hk.
Qed.
Lemma forget_refines c s : cfg_ok c -> names_distinct c -> refined c (OpForget s).
Proof.
  intros Hc Hd. unfold refined. cbn [net_do spec_do].
  unfold config_forget_network. pose proof (net_index_map s c Hc Hd) as Hi.
  pose proof (forget_network_ok s c Hc) as Ho. unfold config_forget_network in Ho.
  destruct (net_index s c) as [i|]; [|by rewrite Hi].
  destruct Hi as (n & _ & Hlt & Hsv & ->). cbn [snd] in Ho.
  destruct (delete_entry (saved c) i _ _ Hd Hsv) as [Hk Hmap]. rewrite <- (saved_remove i c) in Hk, Hmap by done.
  split; [f_equal; exact Hmap|]. by split.
Qed.

(** C33: on a table with distinct names, setting and forgetting a name of at most
    32 bytes (a longer one is stored cut, and never found again) do to the map
    from names to passwords what they promise, results included: setting adds or
    replaces unless the name is empty or a new name finds sixteen already there,
    forgetting removes; and a lookup answers from the map.  The names stay
    distinct. *)
Theorem config_refines_map (c : wifi_config) (o : net_op) :
  cfg_ok c -> names_distinct c -> (length (op_name o) <= 32)%nat ->
  let '(r, c') := net_do c o in
  (r, as_map c') = spec_do (as_map c) o /\ cfg_ok c' /\ names_distinct c' /\
  (forall s, (fun n => c_str (n_password n)) <$> network_match s c' = as_map c' !! c_str s).
Proof.
  intros Hc Hd Hs. assert (H : refined c o).
  { destruct o as [[s|] p|s]; [by apply set_refines|by split|by apply forget_refines]. }
  unfold refined in H. destruct (net_do c o) as [r c']. destruct H as (H1 & H2 & H3). do 3 (split; [done|]). intros s.
  pose proof (net_index_map s c' H2 H3) as Hi. unfold network_match. destruct (net_index s c') as [i|]; [|by rewrite Hi].
  destruct Hi as (n & Hn & _ & _ & Hm). cbn. by rewrite Hn, Hm.
Qed.

(** ** Saving and loading *)

(** A string the file carries unchanged: one line, no blank at either end. *)
Definition plain (s : list Z) : Prop := trim s = s /\ 0x0a ∉ s.
#[export] Instance plain_dec s : Decision (plain s).
Proof. unfold plain. apply _. Defined.

Lemma skip_blank_length s : (length (skip_blank s) <= length s)%nat.
Proof. induction s as [|b s IH]; [done|]. cbn. destruct (is_blank b); cbn; lia. Qed.
Lemma drop_trailing_length s : (length (drop_trailing s) <= length s)%nat.
Proof.
  induction s as [|b s IH]; [done|]. cbn. destruct (drop_trailing s); [destruct (is_trailing b)|]; cbn in *; lia.
Qed.
Lemma drop_trailing_snoc s b : is_trailing b = true -> drop_trailing (s ++ [b]) = drop_trailing s.
Proof. intros Hb. induction s as [|x s IH]; cbn; [by rewrite Hb|]. by rewrite IH. Qed.
Lemma trim_line s : plain s -> trim (0x20 :: s ++ nl) = s.
Proof.
  intros [Ht _]. unfold trim in *. cbn [skip_blank is_blank Z.eqb Pos.eqb orb].
  destruct s as [|b s]; [done|]. cbn [app skip_blank] in *. destruct (is_blank b).
  - apply (f_equal length) in Ht. pose proof (drop_trailing_length (skip_blank s)). pose proof (skip_blank_length s).
    cbn in Ht. lia.
  - change (b :: s ++ nl) with ((b :: s) ++ [0x0a]). by rewrite drop_trailing_snoc.
Qed.

(** One line of [fgets], and the loop over lines. *)
Lemma fgets_line n l r : 0x0a ∉ l -> (length l < n)%nat -> fgets n (l ++ 0x0a :: r) = (l ++ nl, r).
Proof.
  revert n. induction l as [|b l IH]; intros [|n] Hl Hn; cbn [length] in Hn; try lia; [done|].
  apply not_elem_of_cons in Hl as [Hb Hl]. cbn [app fgets]. destruct (Z.eqb_spec b 0x0a); [done|].
  by rewrite IH by (done || lia).
Qed.
Lemma fgets_length n bs : (length (fgets n bs).2 <= length bs)%nat.
Proof.
  revert bs. induction n as [|n IH]; intros [|b bs]; [cbn; lia..|]. cbn [fgets].
  destruct (b =? 0x0a); [cbn; lia|]. specialize (IH bs). destruct (fgets n bs). cbn in *. lia.
Qed.
Lemma fgets_rest n b bs : (length (fgets (S n) (b :: bs)).2 <= length bs)%nat.
Proof.
  cbn [fgets]. destruct (b =? 0x0a); [cbn; lia|]. pose proof (fgets_length n bs). by destruct (fgets n bs).
Qed.

Lemma not_in1 (b x : Z) : b <> x -> b ∉ [x].
Proof. rewrite not_elem_of_cons. auto using not_elem_of_nil. Qed.
Lemma not_in2 (b x y : Z) : b <> x -> b <> y -> b ∉ [x; y].
Proof. rewrite not_elem_of_cons. auto using not_in1. Qed.
Lemma alter_last {A} (f : A -> A) l x : alter f (length l) (l ++ [x]) = l ++ [f x].
Proof. induction l as [|y l IH]; [done|]. cbn. by f_equal. Qed.

Section Inet.
Context `{Inet}.

(** More fuel than the file has bytes changes nothing. *)
Lemma load_lines_fuel fuel : forall bs c, (length bs <= fuel)%nat -> load_lines fuel bs c = load_lines (length bs) bs c.
Proof.
  induction fuel as [fuel IH] using lt_wf_ind. intros [|b bs] c Hf; [by destruct fuel|].
  destruct fuel as [|fuel]; [cbn in Hf; lia|]. cbn [length] in *. cbn [load_lines].
  pose proof (fgets_rest 510 b bs) as Hr. change (S 510) with 511%nat in Hr. destruct (fgets 511 (b :: bs)) as [l r]. cbn [snd] in Hr.
  rewrite IH by lia. symmetry. destruct (decide (length bs = fuel)) as [->|]; [apply IH; lia|apply IH; lia].
Qed.

Definition loads (bs : list Z) (c : wifi_config) : wifi_config := load_lines (length bs) bs c.

Lemma loads_line l r c : 0x0a ∉ l -> (length l <= 510)%nat -> loads (l ++ 0x0a :: r) c = loads r (load_line (l ++ nl) c).
Proof.
  intros Hl Hn. unfold loads. rewrite length_app. cbn [length]. rewrite Nat.add_succ_r. cbn [load_lines].
  destruct (l ++ 0x0a :: r) as [|b bs] eqn:E; [by destruct l|]. rewrite <- E, fgets_line by (done || lia).
  apply load_lines_fuel. lia.
Qed.

(** Lines that set nothing. *)
Lemma loads_blank r c : loads (0x0a :: r) c = loads r c.
Proof. apply (loads_line [] r c); [apply not_elem_of_nil|cbn; lia]. Qed.

(** A line [key = value]; [pre] is what the save writes before the equals sign. *)
Definition key_text (pre key : list Z) : bool :=
  bool_decide (trim (take 63 pre) = key) && bool_decide (0x3d ∉ pre) && bool_decide (0x0a ∉ pre) && bool_decide (0 ∉ pre) &&
  match skip_blank pre with b :: _ => negb (b =? 0x23) | [] => false end &&
  bool_decide (key <> []) && (length pre <? 100)%nat.

Lemma split_eq_app pre v : 0x3d ∉ pre -> split_eq (pre ++ 0x3d :: v) = Some (pre, v).
Proof.
  induction pre as [|b pre IH]; [done|]. intros [Hb Hp]%not_elem_of_cons. cbn.
  destruct (Z.eqb_spec b 0x3d); [done|]. by rewrite IH.
Qed.
Lemma skip_blank_app a b : skip_blank a <> [] -> skip_blank (a ++ b) = skip_blank a ++ b.
Proof. induction a as [|x a IH]; [done|]. cbn. destruct (is_blank x); [apply IH|done]. Qed.
Lemma c_str_none s : 0 ∉ s -> c_str s = s.
Proof.
  induction s as [|b s IH]; [done|]. intros [Hb Hs]%not_elem_of_cons. cbn. destruct (Z.eqb_spec b 0); [congruence|]. by rewrite IH.
Qed.

Lemma loads_setting pre key v r c : key_text pre key = true -> plain v -> 0 ∉ v -> (length v <= 200)%nat ->
  loads ((pre ++ [0x3d; 0x20]) ++ v ++ 0x0a :: r) c = loads r (apply_setting key v c).2.
Proof.
  unfold key_text. rewrite !andb_true_iff, !bool_decide_eq_true. intros [[[[[[Hk He] Hn] H0] Hc] Hne] Hl] Hv Hv0 Hvl.
  apply Nat.ltb_lt in Hl. rewrite app_assoc, loads_line.
  2:{ rewrite !not_elem_of_app. split; [split; [done|by apply not_in2]|apply Hv]. }
  2:{ rewrite !length_app. cbn. lia. }
  f_equal. unfold load_line. replace (((pre ++ [0x3d; 0x20]) ++ v) ++ nl) with (pre ++ 0x3d :: 0x20 :: v ++ nl) by by rewrite <- !app_assoc.
  rewrite c_str_none by (rewrite !not_elem_of_app, !not_elem_of_cons, not_elem_of_app; split_and!; [done|lia|lia|done|by apply not_in1]).
  unfold strip_comment. rewrite skip_blank_app by (intros E; by rewrite E in Hc).
  destruct (skip_blank pre) as [|b p] eqn:Ep; [done|]. cbn [app]. apply negb_true_iff in Hc. rewrite Hc, split_eq_app by done.
  cbv zeta. rewrite Hk, (take_ge (0x20 :: v ++ nl)) by (cbn; rewrite length_app; cbn; lia).
  rewrite trim_line by done. by destruct key.
Qed.

(** The settings besides the networks. *)
Definition rest (c : wifi_config) : Z * Z * (Z * Z * Z * Z) := (c_band c, c_mode c, (c_ip c, c_netmask c, c_gateway c, c_dns c)).

Definition plain_net (n : wifi_network) : Prop := net_ok n /\ plain (c_str (n_ssid n)) /\ plain (c_str (n_password n)).

Lemma terminated_str n s : terminated n s -> (length (c_str s) <= n)%nat.
Proof.
  intros [Hl H0]. assert (H1 : 0 ∈ s) by by eapply list_elem_of_lookup_2. apply c_str_terminated in H1. lia.
Qed.
Lemma c_str_no_nul s : 0 ∉ c_str s.
Proof.
  intros Hin. pose proof (c_str_nonzero s) as Hf. rewrite Forall_forall in Hf. apply (Hf 0); [by apply list_elem_of_In|done].
Qed.

(** [network =] and [password =]. *)
Lemma apply_network s c : cfg_ok c -> (n_nets c < RTW88_MAX_NETWORKS)%nat -> (length (c_str s) <= 32)%nat -> c_str s ∉ (saved c).*1 ->
  let c' := (apply_setting (txt "network") s c).2 in
  cfg_ok c' /\ saved c' = saved c ++ [(c_str s, [])] /\ n_nets c' = S (n_nets c) /\ rest c' = rest c.
Proof.
  intros Hc Hn Hs Hnew. cbv zeta. pose proof (apply_setting_ok (txt "network") s c Hc) as Ho.
  unfold apply_setting in *. change (is_txt (txt "network") "ssid" || is_txt (txt "network") "network") with true in *. cbv iota in *.
  unfold add_network in *. destruct (net_index s c) as [i|] eqn:E.
  { apply net_index_saved in E as (n & _ & _ & _ & Hi); [|done]. destruct Hnew. apply list_elem_of_fmap.
    exists (c_str s, c_str (n_password n)). split; [done|]. by eapply list_elem_of_lookup_2. }
  destruct (Nat.leb_spec RTW88_MAX_NETWORKS (n_nets c)); [lia|]. split; [done|]. cbn [snd]. by rewrite saved_push, long_enough.
Qed.
Lemma apply_password l s p c : cfg_ok c -> saved c = l ++ [(s, [])] -> (length (c_str p) <= 63)%nat ->
  let c' := (apply_setting (txt "password") p c).2 in
  cfg_ok c' /\ saved c' = l ++ [(s, c_str p)] /\ n_nets c' = n_nets c /\ rest c' = rest c.
Proof.
  intros Hc Hl Hp. cbv zeta. pose proof (apply_setting_ok (txt "password") p c Hc) as Ho.
  pose proof (saved_length c Hc) as Hn. rewrite Hl, length_app in Hn. cbn in Hn.
  unfold apply_setting in *. change (is_txt (txt "password") "ssid" || is_txt (txt "password") "network") with false in *.
  change (is_txt (txt "password") "password" || is_txt (txt "password") "pass") with true in *. cbv iota in *.
  destruct (Nat.eqb_spec (n_nets c) 0); [lia|]. split; [done|]. cbn [snd]. split; [|done].
  rewrite (saved_alter _ (c_str p)) by (lia || (intros n' Hn'; unfold entry; cbn; rewrite strncpy_str, take_ge; [done|lia|];
    pose proof (Forall_lookup_1 _ _ _ _ (co_nets _ Hc) Hn') as [_ ?]; done)).
  rewrite Hl. replace (n_nets c - 1)%nat with (length l) by lia. by rewrite alter_last.
Qed.

Lemma loads_network n r c : cfg_ok c -> (n_nets c < RTW88_MAX_NETWORKS)%nat -> plain_net n -> (entry n).1 ∉ (saved c).*1 ->
  exists c', loads (network_text n ++ r) c = loads r c' /\
    cfg_ok c' /\ saved c' = saved c ++ [entry n] /\ n_nets c' = S (n_nets c) /\ rest c' = rest c.
Proof.
  intros Hc Hn ([Hs Hp] & Ps & Pp) Hnew. unfold entry in *. cbn [fst] in Hnew.
  apply terminated_str in Hs, Hp. revert Hs Hp Ps Pp Hnew.
  pose proof (c_str_no_nul (n_ssid n)) as H0. pose proof (c_str_no_nul (n_password n)) as H0'.
  unfold network_text. generalize dependent (c_str (n_ssid n)). intros s. generalize dependent (c_str (n_password n)).
  intros p Hp0 Hs0 Hs Hp Ps Pp Hnew.
  destruct (apply_network s c Hc Hn) as (Hc1 & Hs1 & Hn1 & Hr1); rewrite ?c_str_none by done; [done|done|].
  rewrite c_str_none in Hs1 by done. set (c1 := (apply_setting _ s c).2) in *.
  assert (El : forall r, loads (txt "network  = " ++ s ++ nl ++ r) c = loads r c1).
  { intros r'. apply (loads_setting (txt "network  ") (txt "network") s r' c); [by vm_compute|done|done|lia]. }
  rewrite <- !app_assoc, El. clear El. destruct p as [|b p].
  { exists c1. rewrite app_nil_l. split; [apply loads_blank|]. done. }
  destruct (apply_password _ s (b :: p) c1 Hc1 Hs1) as (Hc2 & Hs2 & Hn2 & Hr2); rewrite ?c_str_none by done; [done|].
  rewrite c_str_none in Hs2 by done. exists (apply_setting (txt "password") (b :: p) c1).2.
  split; [|split; [done|]; split; [done|]; split; congruence].
  etransitivity; [|apply loads_blank]. rewrite <- !app_assoc.
  apply (loads_setting (txt "password ") (txt "password") (b :: p)); [by vm_compute|done|done|lia].
Qed.

Lemma loads_networks l : forall r c, cfg_ok c -> (n_nets c + length l <= RTW88_MAX_NETWORKS)%nat -> Forall plain_net l ->
  NoDup ((saved c).*1 ++ (entry <$> l).*1) ->
  exists c', loads (concat (map network_text l) ++ r) c = loads r c' /\
    cfg_ok c' /\ saved c' = saved c ++ (entry <$> l) /\ rest c' = rest c.
Proof.
  induction l as [|n l IH]; intros r c Hc Hn Hl Hd; [exists c; by rewrite app_nil_r|].
  apply Forall_cons_1 in Hl as [Hp Hl]. cbn [length] in Hn. rewrite !fmap_cons in Hd.
  destruct (loads_network n (concat (map network_text l) ++ r) c) as (c1 & E1 & Hc1 & Hs1 & Hn1 & Hr1); [done|lia|done| |].
  { rewrite <- Permutation_middle in Hd. apply NoDup_cons_1_1 in Hd. intros Hin. apply Hd, elem_of_app. by left. }
  destruct (IH r c1) as (c2 & E2 & Hc2 & Hs2 & Hr2); [done|lia|done| |].
  { rewrite Hs1, fmap_app, <- app_assoc. exact Hd. }
  exists c2. split; [cbn [map concat]; rewrite <- app_assoc; congruence|]. split; [done|].
  split; [|congruence]. by rewrite Hs2, Hs1, <- app_assoc, fmap_cons.
Qed.
End Inet.

(** Addresses are plain text. *)
Lemma plain_text s : Forall (fun b => is_trailing b = false) s -> plain s.
Proof.
  intros Hs. assert (Ed : drop_trailing s = s).
  { induction Hs as [|b s Hb _ IH]; [done|]. cbn. rewrite IH. destruct s; [by rewrite Hb|done]. }
  split.
  - unfold trim. destruct Hs as [|b s Hb _]; [done|]. cbn [skip_blank].
    unfold is_trailing in Hb. apply orb_false_iff in Hb as [_ ->]. exact Ed.
  - intros Hin. rewrite Forall_forall in Hs. apply list_elem_of_In, Hs in Hin. done.
Qed.

Section Inet.
Context {I : Inet} {IL : InetLaws}.

Lemma ip_plain v : 0 <= v < 2 ^ 32 -> ip_str v = inet_ntoa v /\ plain (inet_ntoa v) /\ (0 ∉ inet_ntoa v) /\ (length (inet_ntoa v) <= 15)%nat.
Proof.
  intros Hv. destruct (inet_text v Hv) as [Hl Ht]. unfold ip_str. rewrite take_ge by done. split; [done|].
  split; [|split; [|done]].
  - apply plain_text. eapply Forall_impl; [|exact Ht]. intros b Hb. cbn beta in Hb. unfold is_trailing, is_blank. repeat (case_bool; try lia).
  - intros Hin. rewrite Forall_forall in Ht. apply list_elem_of_In, Ht in Hin. cbn beta in Hin. lia.
Qed.

Lemma loads_ip pre key (upd : Z -> wifi_config -> wifi_config) v r c : key_text pre key = true ->
  (forall s, (apply_setting key s c).2 = upd (parse_ip s) c) -> upd 0 c = c -> 0 <= v < 2 ^ 32 ->
  loads (ip_text (pre ++ [0x3d; 0x20]) v ++ r) c = loads r (upd v c).
Proof.
  intros Hk Hu H0 Hv. unfold ip_text, nz. destruct (Z.eqb_spec v 0) as [->|_]; cbn [negb]; [by rewrite H0|].
  destruct (ip_plain v Hv) as (-> & Hp & Hn & Hl). transitivity (loads ((pre ++ [0x3d; 0x20]) ++ inet_ntoa v ++ 0x0a :: r) c).
  { f_equal. by rewrite <- !app_assoc. }
  rewrite (loads_setting pre key) by (done || lia). rewrite Hu. unfold parse_ip. by rewrite inet_inverse.
Qed.

Definition storable (c : wifi_config) : Prop :=
  Forall (fun n => plain (c_str (n_ssid n)) /\ plain (c_str (n_password n))) (in_use c) /\ names_distinct c /\
  0 <= c_ip c < 2 ^ 32 /\ 0 <= c_netmask c < 2 ^ 32 /\ 0 <= c_gateway c < 2 ^ 32 /\ 0 <= c_dns c < 2 ^ 32.

Definition set_ip (v : Z) (c : wifi_config) : wifi_config :=
  Cfg (nets c) (n_nets c) (c_band c) (c_mode c) v (c_netmask c) (c_gateway c) (c_dns c).
Definition set_netmask (v : Z) (c : wifi_config) : wifi_config :=
  Cfg (nets c) (n_nets c) (c_band c) (c_mode c) (c_ip c) v (c_gateway c) (c_dns c).
Definition set_gateway (v : Z) (c : wifi_config) : wifi_config :=
  Cfg (nets c) (n_nets c) (c_band c) (c_mode c) (c_ip c) (c_netmask c) v (c_dns c).
Definition set_dns (v : Z) (c : wifi_config) : wifi_config :=
  Cfg (nets c) (n_nets c) (c_band c) (c_mode c) (c_ip c) (c_netmask c) (c_gateway c) v.
Definition set_band (v : Z) (c : wifi_config) : wifi_config :=
  Cfg (nets c) (n_nets c) v (c_mode c) (c_ip c) (c_netmask c) (c_gateway c) (c_dns c).

Lemma loads_band b r c : b ∈ [BAND_BOTH; BAND_24; BAND_5] -> loads (txt "band = " ++ band_str b ++ 0x0a :: r) c = loads r (set_band b c).
Proof.
  intros Hb. assert (E : exists v, band_str b = v /\ plain v /\ (0 ∉ v) /\ (length v <= 200)%nat /\
    (apply_setting (txt "band") v c).2 = set_band b c).
  { rewrite !elem_of_cons in Hb. destruct Hb as [->|[->|[->|[]%not_elem_of_nil]]]; eexists; (split; [by vm_compute|]);
      (split; [refine (bool_decide_unpack _ _); by vm_compute|]); (split; [refine (bool_decide_unpack _ _); by vm_compute|]); split; [cbn; lia|done|cbn; lia|done|cbn; lia|done]. }
  destruct E as (v & -> & Hp & H0 & Hl & <-).
  by apply (loads_setting (txt "band ") (txt "band") v).
Qed.

(** The comment lines and the settings after the networks. *)
Definition head_text : list Z := concat (take 2 (config_texts g_cfg0)).
Definition tail_text (c : wifi_config) : list Z :=
  (txt "band = " ++ band_str (c_band c) ++ nl) ++ ip_text (txt "ip      = ") (c_ip c) ++ ip_text (txt "netmask = ") (c_netmask c) ++
  ip_text (txt "gateway = ") (c_gateway c) ++ ip_text (txt "dns     = ") (c_dns c) ++ [].

(** A comment line. *)
Lemma loads_comment l r c : match skip_blank l with b :: _ => b =? 0x23 | [] => false end = true -> 0 ∉ l -> 0x0a ∉ l -> (length l <= 510)%nat ->
  loads (l ++ 0x0a :: r) c = loads r c.
Proof.
  intros Hc H0 Hn Hl. rewrite loads_line by done. f_equal. unfold load_line.
  rewrite c_str_none by (apply not_elem_of_app; split; [done|by apply not_in1]).
  unfold strip_comment. destruct (skip_blank l) as [|b s] eqn:E; [done|].
  rewrite skip_blank_app by by rewrite E. by rewrite E; cbn [app]; rewrite Hc.
Qed.

Definition comment1 : list Z := take 70 head_text.
Definition comment2 : list Z := take 77 (drop 71 head_text).
Lemma head_lines : head_text = comment1 ++ 0x0a :: comment2 ++ 0x0a :: 0x0a :: [].
Proof. by vm_compute. Qed.

Lemma loads_head r c : loads (head_text ++ r) c = loads r c.
Proof.
  assert (H1 : match skip_blank comment1 with b :: _ => b =? 0x23 | [] => false end = true /\ (0 ∉ comment1) /\ (0x0a ∉ comment1))
    by (refine (bool_decide_unpack _ _); by vm_compute).
  assert (H2 : match skip_blank comment2 with b :: _ => b =? 0x23 | [] => false end = true /\ (0 ∉ comment2) /\ (0x0a ∉ comment2))
    by (refine (bool_decide_unpack _ _); by vm_compute).
  destruct H1 as (Ha & Hb & Hc), H2 as (Hd & He & Hf). rewrite head_lines, <- app_assoc. cbn [app].
  rewrite loads_comment by (done || (unfold comment1; rewrite length_take; lia)). rewrite <- app_assoc. cbn [app].
  rewrite loads_comment by (done || (unfold comment2; rewrite length_take; lia)). apply loads_blank.
Qed.

Lemma loads_tail c c1 : c_band c ∈ [BAND_BOTH; BAND_24; BAND_5] -> storable c -> rest c1 = rest g_cfg0 ->
  loads (tail_text c) c1 = set_dns (c_dns c) (set_gateway (c_gateway c) (set_netmask (c_netmask c) (set_ip (c_ip c) (set_band (c_band c) c1)))).
Proof.
  intros Hb (_ & _ & H1 & H2 & H3 & H4) Hr. destruct c1 as [l n b m ip nm gw dns]. injection Hr as -> -> -> -> -> ->.
  unfold tail_text. rewrite <- !app_assoc. cbn [app nl]. rewrite loads_band by done.
  rewrite (loads_ip (txt "ip      ") (txt "ip") set_ip) by done.
  rewrite (loads_ip (txt "netmask ") (txt "netmask") set_netmask) by done.
  rewrite (loads_ip (txt "gateway ") (txt "gateway") set_gateway) by done.
  rewrite (loads_ip (txt "dns     ") (txt "dns") set_dns) by done. done.
Qed.

Lemma config_text_parts c : config_text c = head_text ++ concat (map network_text (in_use c)) ++ tail_text c.
Proof. unfold config_text, config_texts, head_text, tail_text. by rewrite !concat_app. Qed.

(** C31: what a save writes a load reads back: every saved name and password, in
    order, the band and the static addresses; for any table whose strings hold
    no newline and no blank at either end and whose names are distinct. *)
Theorem config_save_load (c : wifi_config) : cfg_ok c -> storable c ->
  let '(r, c') := config_load_file (Some (config_text c)) g_cfg0 in
  r = 0 /\ cfg_ok c' /\ saved c' = saved c /\
  rest c' = (c_band c, c_mode g_cfg0, (c_ip c, c_netmask c, c_gateway c, c_dns c)).
Proof.
  intros Hc Hs. cbn [config_load_file load_file snd]. split; [done|].
  fold (loads (config_text c) g_cfg0). rewrite config_text_parts, loads_head.
  pose proof Hs as (Hp & Hd & _).
  destruct (loads_networks (in_use c) (tail_text c) g_cfg0) as (c1 & -> & Hc1 & Hs1 & Hr1).
  - apply cfg0_ok.
  - unfold in_use. rewrite length_take. cbn. pose proof (co_n _ Hc). lia.
  - unfold in_use in *. assert (Hn : Forall net_ok (take (n_nets c) (nets c))) by (apply Forall_take, Hc).
    rewrite Forall_forall in Hp, Hn |- *. intros n Hin. split; [by apply Hn|by apply Hp].
  - exact Hd.
  - rewrite loads_tail by (done || apply Hc). destruct Hc1, Hc. split; [by split|]. split; [exact Hs1|].
    unfold rest in *. cbn in *. congruence.
Qed.
End Inet.


(** ** Any sequence of operations *)

Inductive cfg_op :=
| CfgLoad (file : option (list Z))
| CfgNet (o : net_op).
Definition cfg_do `{Inet} (c : wifi_config) (o : cfg_op) : wifi_config :=
  match o with
  | CfgLoad f => (config_load_file f c).2
  | CfgNet o => (net_do c o).2
  end.

(** C40: whatever files are read and whatever is set and forgotten, in any order,
    the table stays well typed: sixteen slots, at most sixteen in use, every
    name and password a terminated string in its array, band and mode among
    their constants. *)
Theorem config_typed `{Inet} (os : list cfg_op) : cfg_ok (foldl cfg_do g_cfg0 os).
Proof.
  generalize cfg0_ok. generalize g_cfg0 as c. induction os as [|o os IH]; intros c Hc; [done|]. cbn. apply IH.
  destruct o as [[bs|]|[s p|s]]; cbn; [by apply load_lines_ok|done|by apply set_network_ok|by apply forget_network_ok].
Qed.

(** ** What a save does to the file system *)

Record file := File { f_mode : Z; f_data : list Z }.
(** The files, and the stream that is open: its path and the bytes not yet
    written out. *)
Record fsys := Fs { fs_files : gmap (list Z) file; fs_open : option (list Z * list Z) }.

(** Read and write for the owner, [0600]. *)
Definition S_0600 : Z := 0x180.

Section Files.
(** The size of a stream's buffer. *)
Context (bufsize : nat).

Definition file_mode (p : list Z) (s : fsys) : Z := default S_0600 (f_mode <$> fs_files s !! p).
Definition put_data (p bs : list Z) (s : fsys) : gmap (list Z) file := <[p := File (file_mode p s) bs]> (fs_files s).
Definition data_of (p : list Z) (s : fsys) : list Z := default [] (f_data <$> fs_files s !! p).

(** What a call may do, by POSIX and the C standard.  A write stays in the
    buffer while it fits; past that the file holds anything.  A close writes the
    buffer out, all of it if it reports success.  A rename replaces the target
    in one step. *)
Definition fs_step (o : fsop) (s : fsys) (ok : bool) (s' : fsys) : Prop :=
  match o with
  | FsOpen p => s' = if ok then Fs (put_data p [] s) (Some (p, [])) else s
  | FsFdopen => s' = s
  | FsCloseFd => s' = Fs (fs_files s) None
  | FsWrite bs =>
      match fs_open s with
      | Some (p, pend) =>
          if decide (length (pend ++ bs) <= bufsize)%nat then s' = Fs (fs_files s) (Some (p, pend ++ bs))
          else exists junk pend', s' = Fs (put_data p junk s) (Some (p, pend'))
      | None => s' = s
      end
  | FsClose =>
      match fs_open s with
      | Some (p, pend) => exists k, s' = Fs (put_data p (data_of p s ++ take k pend) s) None /\ (ok = true -> (length pend <= k)%nat)
      | None => s' = s
      end
  | FsRename a b =>
      s' = if ok then match fs_files s !! a with Some f => Fs (<[b := f]> (delete a (fs_files s))) (fs_open s) | None => s end else s
  | FsUnlink p => s' = if ok then Fs (delete p (fs_files s)) (fs_open s) else s
  end.

(** What runs of a program may come to, stopped at any call. *)
Inductive runs {A} : io A -> fsys -> io A -> fsys -> Prop :=
| runs_stop p s : runs p s p s
| runs_step o k s ok s1 q s2 : fs_step o s ok s1 -> runs (k ok) s1 q s2 -> runs (Io o k) s q s2.

(** [I] holds all along, [Q] at the end. *)
Fixpoint io_wp {A} (I : fsys -> Prop) (p : io A) (s : fsys) (Q : A -> fsys -> Prop) : Prop :=
  I s /\ match p with
         | Ret x => Q x s
         | Io o k => forall ok s', fs_step o s ok s' -> io_wp I (k ok) s' Q
         end.
Lemma io_wp_inv {A} I (p : io A) s Q : io_wp I p s Q -> I s.
Proof. by destruct p as [x|o k]; intros []. Qed.
Lemma io_wp_runs {A} I (p : io A) s q s' Q : runs p s q s' -> io_wp I p s Q ->
  I s' /\ match q with Ret x => Q x s' | Io _ _ => True end.
Proof.
  induction 1 as [p s|o k s ok s1 q s2 Hstep _ IH]; intros Hp.
  - split; [by eapply io_wp_inv|]. by destruct p as [x|o k]; destruct Hp.
  - apply IH. by apply Hp.
Qed.

(** The writes, as long as everything fits the buffer. *)
Lemma wp_write_all texts k I fs p (Q : Z -> fsys -> Prop) : forall pend,
  (length (pend ++ concat texts) <= bufsize)%nat -> (forall pend, I (Fs fs (Some (p, pend)))) ->
  io_wp I k (Fs fs (Some (p, pend ++ concat texts))) Q ->
  io_wp I (write_all texts k) (Fs fs (Some (p, pend))) Q.
Proof.
  induction texts as [|t texts IH]; intros pend Hl HI Hk; cbn [write_all concat] in *; [by rewrite app_nil_r in Hk|].
  split; [apply HI|]. intros ok s'. cbn [fs_step fs_open]. rewrite app_assoc in Hl, Hk.
  rewrite decide_True by (rewrite length_app in Hl; lia). intros ->. by apply IH.
Qed.
End Files.

(** *** The size of the text *)

Section Inet.
Context `{Inet}.

Lemma network_text_length n : net_ok n -> (length (network_text n) <= 120)%nat.
Proof.
  intros [Hs%terminated_str Hp%terminated_str]. unfold network_text. rewrite !length_app. cbn [length nl txt map list_ascii_of_string].
  destruct (c_str (n_password n)) eqn:E; rewrite ?length_app; cbn in *; lia.
Qed.
Lemma ip_text_length key v : length key = 10%nat -> (length (ip_text key v) <= 26)%nat.
Proof.
  intros Hk. unfold ip_text, ip_str. destruct (nz v); [|cbn; lia]. rewrite !length_app, length_take, Hk. cbn [nl length]. lia.
Qed.
Lemma networks_text_length l : Forall net_ok l -> (length (concat (map network_text l)) <= 120 * length l)%nat.
Proof.
  induction 1 as [|n l Hn _ IH]; [done|]. cbn [map concat length]. rewrite length_app.
  pose proof (network_text_length n Hn). lia.
Qed.
Lemma config_text_length c : cfg_ok c -> (length (config_text c) <= 2304)%nat.
Proof.
  intros Hc. rewrite config_text_parts. unfold tail_text. rewrite !length_app.
  assert (Hn : (length (concat (map network_text (in_use c))) <= 120 * 16)%nat).
  { etransitivity; [apply networks_text_length; unfold in_use; apply Forall_take, Hc|].
    unfold in_use. rewrite length_take. pose proof (co_n _ Hc). unfold RTW88_MAX_NETWORKS in *. lia. }
  pose proof (ip_text_length (txt "ip      = ") (c_ip c) eq_refl). pose proof (ip_text_length (txt "netmask = ") (c_netmask c) eq_refl).
  pose proof (ip_text_length (txt "gateway = ") (c_gateway c) eq_refl). pose proof (ip_text_length (txt "dns     = ") (c_dns c) eq_refl).
  assert (Hb : (length (band_str (c_band c)) <= 4)%nat) by (unfold band_str; repeat case_match; cbn; lia).
  assert (Hh : length head_text = 150%nat) by by vm_compute.
  change (length (txt "band = ")) with 7%nat. change (length nl) with 1%nat. change (length (@nil Z)) with 0%nat. lia.
Qed.

Lemma tmp_other path : (length path <= 507)%nat -> tmp_of path <> path.
Proof.
  intros Hl E. apply (f_equal length) in E. unfold tmp_of in E. rewrite length_take, length_app in E.
  change (length (txt ".tmp")) with 4%nat in E. lia.
Qed.

(** Nothing but the temporary file differs from the start. *)
Definition only_tmp (path : list Z) (fs fs' : gmap (list Z) file) : Prop := forall p, p <> tmp_of path -> fs' !! p = fs !! p.
Definition saved_or_kept (path : list Z) (new : file) (fs : gmap (list Z) file) (s : fsys) : Prop :=
  (fs_files s !! path = fs !! path \/ fs_files s !! path = Some new) /\
  (forall p, p <> path -> p <> tmp_of path -> fs_files s !! p = fs !! p).
Definition save_result (path : list Z) (new : file) (fs : gmap (list Z) file) (r : Z) (s : fsys) : Prop :=
  (r = 0 /\ fs_files s !! path = Some new) \/ (r = -1 /\ fs_files s !! path = fs !! path).

Lemma only_tmp_kept path new fs s : tmp_of path <> path -> only_tmp path fs (fs_files s) -> saved_or_kept path new fs s.
Proof. intros Ht Ho. split; [left; by apply Ho|]. intros p _ Hp. by apply Ho. Qed.
Lemma only_tmp_put path fs p f fs' : only_tmp path fs fs' -> p = tmp_of path -> only_tmp path fs (<[p := f]> fs').
Proof. intros Ho -> x Hx. rewrite lookup_insert_ne by done. by apply Ho. Qed.
Lemma only_tmp_delete path fs p fs' : only_tmp path fs fs' -> p = tmp_of path -> only_tmp path fs (delete p fs').
Proof. intros Ho -> x Hx. rewrite lookup_delete_ne by done. by apply Ho. Qed.

(** Giving up: whatever remains touches the temporary file only. *)
Lemma wp_unlink bufsize path new fs s : tmp_of path <> path -> only_tmp path fs (fs_files s) ->
  io_wp bufsize (saved_or_kept path new fs) (Io (FsUnlink (tmp_of path)) (fun _ => Ret (-1))) s (save_result path new fs).
Proof.
  intros Ht Ho. split; [by apply only_tmp_kept|]. intros ok s' ->.
  assert (Ho' : only_tmp path fs (fs_files (if ok then Fs (delete (tmp_of path) (fs_files s)) (fs_open s) else s))).
  { destruct ok; [by apply only_tmp_delete|done]. }
  split; [by apply only_tmp_kept|]. right. split; [done|]. by apply Ho'.
Qed.

Lemma wp_config_save bufsize path c fs : cfg_ok c -> tmp_of path <> path -> (2304 <= bufsize)%nat ->
  let new := File (file_mode (tmp_of path) (Fs fs None)) (config_text c) in
  io_wp bufsize (saved_or_kept path new fs) (config_save path c) (Fs fs None) (save_result path new fs).
Proof.
  intros Hc Ht Hb new. pose proof (config_text_length c Hc) as Hl. set (s0 := Fs fs None) in new.
  set (fs1 := put_data (tmp_of path) [] s0).
  assert (Ho0 : only_tmp path fs fs) by (intros p _; done).
  assert (Ho1 : only_tmp path fs fs1) by by apply only_tmp_put.
  unfold config_save. split; [by apply only_tmp_kept|]. intros ok s1 ->.
  destruct ok; cbn [negb]; [|split; [by apply only_tmp_kept|right; by split]].
  split; [by apply only_tmp_kept|]. intros ok s1 ->. destruct ok; cbn [negb].
  2:{ split; [by apply only_tmp_kept|]. intros ok s1 ->. by apply wp_unlink. }
  apply wp_write_all; [by etransitivity|intros pend; by apply only_tmp_kept|]. fold (config_text c). cbn [app].
  split; [by apply only_tmp_kept|]. intros ok s2 (k & -> & Hk). cbn [fs_files].
  match goal with |- context [Fs ?f None] => set (fs2 := f) end.
  assert (Ho2 : only_tmp path fs fs2) by by apply only_tmp_put.
  destruct ok; cbn [negb]; [|by apply wp_unlink].
  assert (E2 : fs2 !! tmp_of path = Some new).
  { unfold fs2, put_data. rewrite lookup_insert_eq. unfold new. do 2 f_equal.
    - unfold file_mode, fs1, put_data. cbn [fs_files]. by rewrite lookup_insert_eq.
    - rewrite take_ge by (specialize (Hk eq_refl); lia). unfold data_of, fs1, put_data. cbn [fs_files]. by rewrite lookup_insert_eq. }
  split; [by apply only_tmp_kept|]. intros ok s3. cbn [fs_step fs_files fs_open]. rewrite E2. intros ->.
  destruct ok; cbn [negb]; [|by apply wp_unlink].
  split; [|left; split; [done|]; apply lookup_insert_eq].
  split; [right; apply lookup_insert_eq|]. intros p H1 H2. cbn. by rewrite lookup_insert_ne, lookup_delete_ne, Ho2.
Qed.

(** A save whose calls succeed runs to the end. *)
Lemma runs_write_all bufsize texts k fs p q s : forall pend, (length (pend ++ concat texts) <= bufsize)%nat ->
  runs bufsize k (Fs fs (Some (p, pend ++ concat texts))) q s ->
  runs bufsize (write_all texts k) (Fs fs (Some (p, pend))) q s.
Proof.
  induction texts as [|t texts IH]; intros pend Hl Hk; cbn [write_all concat] in *; [by rewrite app_nil_r in Hk|].
  rewrite app_assoc in Hl, Hk. eapply (runs_step _ _ _ _ true); [|by apply IH].
  cbn [fs_step fs_open]. by rewrite decide_True by (rewrite length_app in Hl; lia).
Qed.
Lemma save_completes bufsize path c fs : cfg_ok c -> (2304 <= bufsize)%nat ->
  exists s, runs bufsize (config_save path c) (Fs fs None) (Ret 0) s.
Proof.
  intros Hc Hb. pose proof (config_text_length c Hc) as Hl. eexists. unfold config_save.
  eapply (runs_step _ _ _ _ true); [done|]. eapply (runs_step _ _ _ _ true); [done|]. cbn [negb].
  apply runs_write_all; [by etransitivity|]. fold (config_text c). cbn [app].
  eapply (runs_step _ _ _ _ true); [exists (length (config_text c)); by split|]. cbn [negb].
  eapply (runs_step _ _ _ _ true); [done|]. cbn [negb]. apply runs_stop.
Qed.

(** C32: a save replaces the file whole or not at all.  Wherever it is stopped
    (the process killed between or inside its calls, or any call failing), the
    configuration path holds its old file or the complete new one, and nothing
    but it and the temporary name is touched; it returns 0 exactly when the new
    file is in place.  For a path that leaves room for the suffix and a stream
    buffer of at least 2304 bytes, which the text never exceeds. *)
Theorem config_save_atomic (bufsize : nat) (path : list Z) (c : wifi_config) (fs : gmap (list Z) file) (q : io Z) (s : fsys) :
  cfg_ok c -> (length path <= 507)%nat -> (2304 <= bufsize)%nat ->
  runs bufsize (config_save path c) (Fs fs None) q s ->
  let new := File (file_mode (tmp_of path) (Fs fs None)) (config_text c) in
  (fs_files s !! path = fs !! path \/ fs_files s !! path = Some new) /\
  (forall p, p <> path -> p <> tmp_of path -> fs_files s !! p = fs !! p) /\
  match q with
  | Ret r => (r = 0 /\ fs_files s !! path = Some new) \/ (r = -1 /\ fs_files s !! path = fs !! path)
  | Io _ _ => True
  end.
Proof.
  intros Hc Hp Hb Hrun. cbv zeta. set (new := File _ _). pose proof (tmp_other path Hp) as Ht.
  destruct (io_wp_runs _ _ _ _ _ _ _ Hrun (wp_config_save bufsize path c fs Hc Ht Hb)) as [[? ?] ?]. by split_and!.
Qed.
End Inet.

(** ** Long names *)

(** A name longer than its array is cut, and the table then never finds it
    again: adding it twice takes two entries. *)
Lemma long_name_twice :
  let long := replicate 40 0x61 in
  let c := (config_set_network (Some long) (Some [0x62]) (config_set_network (Some long) (Some [0x63]) g_cfg0).2).2 in
  saved c = [(replicate 32 0x61, [0x63]); (replicate 32 0x61, [0x62])] /\ net_index long c = None.
Proof. by vm_compute. Qed.

(** A password goes to the last entry, whichever name precedes it. *)
Lemma password_last_entry `{Inet} :
  saved (config_load_file (Some (txt "network=a" ++ nl ++ txt "network=b" ++ nl ++ txt "network=a" ++ nl ++ txt "password=x" ++ nl)) g_cfg0).2 =
  [(txt "a", []); (txt "b", txt "x")].
Proof. by vm_compute. Qed.

(** ** Witnesses *)

(** Dotted decimal. *)
Definition dec (b : Z) : list Z :=
  (if 100 <=? b then [0x30 + b / 100] else []) ++ (if 10 <=? b then [0x30 + b / 10 mod 10] else []) ++ [0x30 + b mod 10].
Fixpoint undec (acc : Z) (s : list Z) : Z * list Z :=
  match s with
  | b :: s' => if b =? 0x2e then (acc, s') else undec (10 * acc + (b - 0x30)) s'
  | [] => (acc, [])
  end.
Definition dotted (v : Z) : list Z :=
  dec (v >> 24) ++ 0x2e :: dec ((v >> 16) mod 256) ++ 0x2e :: dec ((v >> 8) mod 256) ++ 0x2e :: dec (v mod 256).
Definition undotted (s : list Z) : option Z :=
  let '(a, s) := undec 0 s in
  let '(b, s) := undec 0 s in
  let '(c, s) := undec 0 s in
  let '(d, s) := undec 0 s in
  Some (((a * 256 + b) * 256 + c) * 256 + d).
#[export] Instance dotted_inet : Inet := {| inet_aton := undotted; inet_ntoa := dotted |}.

Definition dec_good (b : Z) : bool :=
  bool_decide (undec 0 (dec b) = (b, [])) && forallb (fun x => (0x30 <=? x) && (x <=? 0x39)) (dec b) && (length (dec b) <=? 3)%nat.
Lemma dec_all : forallb dec_good all_bytes = true.
Proof. by vm_compute. Qed.

Lemma dec_facts b : 0 <= b < 256 ->
  undec 0 (dec b) = (b, []) /\ Forall (fun x => 0x30 <= x <= 0x39) (dec b) /\ (length (dec b) <= 3)%nat.
Proof.
  intros Hb. pose proof (forall_bytes dec_good dec_all b Hb) as H. unfold dec_good in H.
  apply andb_true_iff in H as [[H1%bool_decide_eq_true H2]%andb_true_iff H3%Nat.leb_le]. split; [done|]. split; [|done].
  rewrite forallb_forall in H2. apply Forall_forall. intros x Hx. apply H2 in Hx. lia.
Qed.
Lemma undec_dot s : Forall (fun x => 0x30 <= x <= 0x39) s -> forall acc r, undec acc (s ++ 0x2e :: r) = ((undec acc s).1, r).
Proof.
  induction 1 as [|x s Hx _ IH]; intros acc r; [done|]. cbn [app undec]. destruct (Z.eqb_spec x 0x2e); [lia|]. apply IH.
Qed.
Lemma four_bytes v : 0 <= v < 2 ^ 32 ->
  0 <= v >> 24 < 256 /\ (((v >> 24) * 256 + (v >> 16) mod 256) * 256 + (v >> 8) mod 256) * 256 + v mod 256 = v.
Proof.
  intros Hv. rewrite !Z.shiftr_div_pow2 by done. change (2 ^ 24) with (256 * 256 * 256). change (2 ^ 16) with (256 * 256).
  change (2 ^ 8) with 256. rewrite <- !Z.div_div by done. split; [|Z.to_euclidean_division_equations; lia].
  Z.to_euclidean_division_equations; lia.
Qed.
Lemma mod_byte x : 0 <= x mod 256 < 256.
Proof. by apply Z.mod_pos_bound. Qed.
#[export] Instance dotted_laws : InetLaws.
Proof.
  split; intros v Hv; destruct (four_bytes v Hv) as [Ha Hv'];
    pose proof (dec_facts (v >> 24) Ha) as (A1 & A2 & A3);
    pose proof (dec_facts _ (mod_byte (v >> 16))) as (B1 & B2 & B3);
    pose proof (dec_facts _ (mod_byte (v >> 8))) as (C1 & C2 & C3);
    pose proof (dec_facts _ (mod_byte v)) as (D1 & D2 & D3).
  - cbn [inet_aton inet_ntoa dotted_inet]. unfold undotted, dotted. rewrite (undec_dot _ A2), A1. cbn [fst].
    rewrite (undec_dot _ B2), B1. cbn [fst]. rewrite (undec_dot _ C2), C1. cbn [fst]. rewrite D1. by f_equal.
  - cbn [inet_ntoa dotted_inet]. unfold dotted. split.
    + rewrite !length_app. cbn [length]. rewrite !length_app. cbn [length]. rewrite length_app. cbn [length]. lia.
    + assert (HD : forall s, Forall (fun x => 0x30 <= x <= 0x39) s -> Forall (fun b => b = 0x2e \/ 0x30 <= b <= 0x39) s).
      { intros s Hs. eapply Forall_impl; [|exact Hs]. intros x Hx. by right. }
      do 3 (apply Forall_app; split; [by apply HD|]; constructor; [by left|]). by apply HD.
Qed.

Definition cfg_example : wifi_config :=
  set_ip 0xC0A80032 (config_set_network (Some (txt "Phone Hotspot")) (Some (txt "a #1 = secret"))
    (config_set_network (Some (txt "home")) (Some (txt "password")) g_cfg0).2).2.
Lemma cfg_example_ok : cfg_ok cfg_example.
Proof. by destruct (set_network_ok (Some (txt "Phone Hotspot")) (Some (txt "a #1 = secret")) _ (set_network_ok (Some (txt "home")) (Some (txt "password")) _ cfg0_ok)). Qed.

Lemma config_refines_map_witness :
  let '(r, c') := net_do cfg_example (OpSet (Some (txt "home")) (Some (txt "changed"))) in
  (r, as_map c') = spec_do (as_map cfg_example) (OpSet (Some (txt "home")) (Some (txt "changed"))) /\ cfg_ok c' /\ names_distinct c' /\
  (forall s, (fun n => c_str (n_password n)) <$> network_match s c' = as_map c' !! c_str s).
Proof.
  apply (config_refines_map cfg_example (OpSet (Some (txt "home")) (Some (txt "changed"))) cfg_example_ok).
  - refine (bool_decide_unpack _ _). by vm_compute.
  - refine (bool_decide_unpack _ _). by vm_compute.
Defined.

Lemma config_save_load_witness :
  let '(r, c') := config_load_file (Some (config_text cfg_example)) g_cfg0 in
  r = 0 /\ cfg_ok c' /\ saved c' = saved cfg_example /\
  rest c' = (BAND_BOTH, c_mode g_cfg0, (0xC0A80032, 0, 0, 0)).
Proof. apply (config_save_load cfg_example cfg_example_ok). refine (bool_decide_unpack _ _). by vm_compute. Defined.

Lemma config_save_atomic_witness :
  let path := txt "/usr/local/etc/rtw88.conf" in
  exists s, runs 4096 (config_save path cfg_example) (Fs ∅ None) (Ret 0) s /\
    fs_files s !! path = Some (File S_0600 (config_text cfg_example)).
Proof.
  destruct (save_completes 4096 (txt "/usr/local/etc/rtw88.conf") cfg_example ∅ cfg_example_ok ltac:(lia)) as [s Hs].
  exists s. split; [exact Hs|]. assert (Hl : (length (txt "/usr/local/etc/rtw88.conf") <= 507)%nat) by (cbn; lia).
  destruct (config_save_atomic 4096 (txt "/usr/local/etc/rtw88.conf") cfg_example ∅ _ s cfg_example_ok Hl ltac:(lia) Hs)
    as (_ & _ & [[_ H]|[H _]]); [exact H|discriminate].
Defined.
