(* ===== verification/Wire.v ===== *)
(** * Wire: the text between the daemon and its clients (client/rtwd.c, client/main.c)

    Requests are TAB-separated lines, replies flat JSON lines.  The daemon's
    writers build a line in a fixed buffer; the command line's readers find a
    field by searching for its key.  A network's name is chosen by whoever sends
    the beacon.  Proved: whatever the name, the reader gets back every field the
    daemon wrote, the line fits its buffer and is one line; the stream of lines
    is read the same however it arrives in pieces; a request is split back into
    the words it was made of. *)
From stdpp Require Import gmap.
From Stdlib Require Import String Ascii.
From S2P Require Import Prelude Scan Config.
Open Scope Z_scope.
Open Scope rtw_scope.
Open Scope list_scope.

(** ** Writing *)

(** A byte at the end of the buffer, if there is room. *)
Definition put (cap : nat) (buf : list Z) (b : Z) : list Z :=
  if (length buf <? cap)%nat then buf ++ [b] else buf.

Fixpoint json_body (cap : nat) (buf s : list Z) : list Z :=
  match s with
  | [] => buf
  | c :: s =>
      if (length buf + 2 <? cap)%nat then
        json_body cap
          (if (c =? 0x22) || (c =? 0x5c) then (buf ++ [0x5c]) ++ [c]
           else if c =? 0x0a then put cap (buf ++ [0x5c]) 0x6e
           else if c <? 0x20 then buf
           else buf ++ [c]) s
      else buf
  end.
Definition json_str (cap : nat) (buf s : list Z) : list Z :=
  put cap (json_body cap (put cap buf 0x22) (c_str s)) 0x22.

(** [vsnprintf] leaves its terminator in the last byte when the text is cut. *)
Definition appendf (cap : nat) (buf text : list Z) : list Z :=
  if (length buf <? cap)%nat then
    if (length buf + length text <? cap)%nat then buf ++ text
    else take (cap - 1) (buf ++ text) ++ [0]
  else buf.

(** The conversions [%u] and [%02x]. *)
Fixpoint digits (fuel : nat) (n : Z) (acc : list Z) : list Z :=
  match fuel with
  | O => acc
  | S fuel => let acc := (0x30 + n mod 10) :: acc in if n <? 10 then acc else digits fuel (n / 10) acc
  end.
Definition fmt_u (n : Z) : list Z := digits 20 n [].
Definition hex_digit (n : Z) : Z := if n <? 10 then 0x30 + n else 0x61 + (n - 10).
Definition fmt_02x (b : Z) : list Z := [hex_digit (b >> 4); hex_digit (b .& 15)].
Definition fmt_mac (m : list Z) : list Z :=
  match m with
  | [a; b; c; d; e; f] =>
      fmt_02x a ++ 0x3a :: fmt_02x b ++ 0x3a :: fmt_02x c ++ 0x3a :: fmt_02x d ++ 0x3a :: fmt_02x e ++ 0x3a :: fmt_02x f
  | _ => []
  end.
Definition fmt_bool (b : bool) : list Z := if b then txt "true" else txt "false".
Definition band_text (channel : Z) : list Z := if channel <=? 14 then txt "2.4" else txt "5".

(** The double quote, for literals. *)
Definition dq : list Z := [0x22].
Definition key_pat (key : list Z) : list Z := dq ++ key ++ dq ++ [0x3a].

(** One network as a line of the scan stream. *)
Definition net_line (cap : nat) (e : net_entry) (saved : bool) : list Z :=
  let buf := appendf cap [] (txt "{" ++ key_pat (txt "network") ++ txt "{" ++ key_pat (txt "ssid")) in
  let buf := json_str cap buf (ssid e) in
  appendf cap buf
    (txt "," ++ key_pat (txt "bssid") ++ dq ++ fmt_mac (bssid e) ++ dq ++
     txt "," ++ key_pat (txt "channel") ++ fmt_u (channel e) ++
     txt "," ++ key_pat (txt "band") ++ dq ++ band_text (channel e) ++ dq ++
     txt "," ++ key_pat (txt "beacons") ++ fmt_u (beacons e) ++
     txt "," ++ key_pat (txt "secure") ++ fmt_bool (privacy e) ++
     txt "," ++ key_pat (txt "saved") ++ fmt_bool saved ++ txt "}}" ++ nl).

(** ** Reading *)

Fixpoint is_prefix (p s : list Z) : bool :=
  match p, s with
  | [], _ => true
  | x :: p, y :: s => (x =? y) && is_prefix p s
  | _ :: _, [] => false
  end.
(** The string from the first occurrence on. *)
Fixpoint strstr (p s : list Z) : option (list Z) :=
  if is_prefix p s then Some s else match s with [] => None | _ :: s => strstr p s end.
(** What follows the first occurrence. *)
Definition after (p s : list Z) : option (list Z) := drop (length p) <$> strstr p s.

(** The copy loop; [room] is what is left of the output short of its NUL. *)
Fixpoint js_copy (room : nat) (p : list Z) : list Z :=
  match room, p with
  | S room, b :: p =>
      if b =? 0x22 then []
      else if b =? 0x5c then
        match p with
        | c :: p => (if c =? 0x6e then 0x0a else c) :: js_copy room p
        | [] => [b]
        end
      else b :: js_copy room p
  | _, _ => []
  end.
(** The value, if the key is there. *)
Definition js_str (line key : list Z) (cap : nat) : option (list Z) :=
  js_copy (cap - 1) <$> after (key_pat key ++ dq) line.
(** -1 absent, 0 false, 1 true *)
Definition js_bool (line key : list Z) : Z :=
  match after (key_pat key) line with
  | None => -1
  | Some p => if is_prefix (txt "true") p then 1 else 0
  end.

(** [strtol(s, NULL, 10)]: blanks, a sign, digits; saturating. *)
Definition is_space (b : Z) : bool := (b =? 0x20) || ((0x09 <=? b) && (b <=? 0x0d)).
Fixpoint skip_space (s : list Z) : list Z :=
  match s with b :: s' => if is_space b then skip_space s' else s | [] => [] end.
Definition is_digit (b : Z) : bool := (0x30 <=? b) && (b <=? 0x39).
Fixpoint read_digits (acc : Z) (s : list Z) : Z :=
  match s with
  | b :: s => if is_digit b then read_digits (10 * acc + (b - 0x30)) s else acc
  | [] => acc
  end.
Definition LONG_MAX : Z := 2 ^ 63 - 1.
Definition strtol10 (s : list Z) : Z :=
  match skip_space s with
  | b :: s' => if b =? 0x2d then Z.max (- LONG_MAX - 1) (- read_digits 0 s')
               else Z.min LONG_MAX (read_digits 0 (if b =? 0x2b then s' else b :: s'))
  | [] => 0
  end.
Definition js_int (line key : list Z) (dflt : Z) : Z :=
  match after (key_pat key) line with Some p => strtol10 p | None => dflt end.

(** A line of a scan: a failure with its text, a row of the table, or neither. *)
Record scan_row := ScanRow {
  row_ssid : list Z; row_bssid : list Z; row_band : list Z; row_channel : Z; row_secure : bool; row_saved : bool; row_beacons : Z;
}.
Inductive scan_event := ScanFailed (err : list Z) | ScanNetwork (r : scan_row) | ScanOther.

Definition scan_line_cb (line : list Z) : scan_event :=
  match (if js_bool line (txt "ok") =? 0 then js_str line (txt "error") 128 else None) with
  | Some err => ScanFailed err
  | None =>
      match strstr (dq ++ txt "network" ++ dq) line with
      | None => ScanOther
      | Some _ =>
          ScanNetwork (ScanRow (default [] (js_str line (txt "ssid") 64)) (default [] (js_str line (txt "bssid") 24))
            (default [] (js_str line (txt "band") 8)) (js_int line (txt "channel") 0)
            (js_bool line (txt "secure") =? 1) (js_bool line (txt "saved") =? 1) (js_int line (txt "beacons") 0))
      end
  end.

(** ** Flat JSON text *)

(** A string between its quotes, and what a reader makes of it. *)
Definition esc_byte (c : Z) : list Z :=
  if (c =? 0x22) || (c =? 0x5c) then [0x5c; c] else if c =? 0x0a then [0x5c; 0x6e] else if c <? 0x20 then [] else [c].
Definition esc (s : list Z) : list Z := concat (map esc_byte s).
Definition printable (s : list Z) : list Z := List.filter (fun c => (0x20 <=? c) || (c =? 0x0a)) s.

Inductive jval := JStr (s : list Z) | JRaw (t : list Z).
Definition val_text (v : jval) : list Z := match v with JStr s => dq ++ esc s ++ dq | JRaw t => t end.
(** What precedes a key, the key and its value. *)
Definition field : Type := list Z * list Z * jval.
Definition field_text (f : field) : list Z := let '(pre, k, v) := f in pre ++ key_pat k ++ val_text v.
Definition fields_text (fs : list field) (tail : list Z) : list Z := concat (map field_text fs) ++ tail.

Definition is_letter (b : Z) : bool := (0x61 <=? b) && (b <=? 0x7a).
Definition is_sep (b : Z) : bool := (b =? 0x2c) || (b =? 0x7b) || (b =? 0x7d).
Definition key_ok (k : list Z) : bool := forallb is_letter k && negb (bool_decide (k = [])).
Definition noquote (t : list Z) : bool := forallb (fun b => negb (b =? 0x22)) t.
Definition sep_first (t : list Z) : bool := match t with b :: _ => is_sep b | [] => false end.
Definition field_ok (f : field) : bool :=
  let '(pre, k, v) := f in
  noquote pre && sep_first pre && key_ok k && match v with JStr _ => true | JRaw t => noquote t end.

Lemma is_prefix_app p r : is_prefix p (p ++ r) = true.
Proof. induction p as [|x p IH]; [done|]. cbn. by rewrite Z.eqb_refl. Qed.
Lemma is_prefix_split p : forall s, is_prefix p s = true -> exists r, s = p ++ r.
Proof.
  induction p as [|x p IH]; intros s H; [by exists s|]. destruct s as [|y s]; [done|]. cbn in H.
  apply andb_true_iff in H as [->%Z.eqb_eq [r ->]%IH]. by exists r.
Qed.
Lemma after_hit p r : after p (p ++ r) = Some r.
Proof.
  unfold after. assert (E : strstr p (p ++ r) = Some (p ++ r)).
  { destruct (p ++ r) as [|b s] eqn:E; cbn [strstr]; rewrite <- E, is_prefix_app; done. }
  rewrite E. cbn. by rewrite drop_app_length.
Qed.
Lemma after_miss p b s : is_prefix p (b :: s) = false -> after p (b :: s) = after p s.
Proof. intros H. unfold after. cbn [strstr]. by rewrite H. Qed.

Lemma key_pat_cons k r : key_pat k ++ r = 0x22 :: k ++ 0x22 :: 0x3a :: r.
Proof. unfold key_pat, dq. rewrite <- !app_assoc. done. Qed.

(** The keys searched for are words of letters between quotes. *)
Section Search.
Context (key m : list Z) (Hk : key_ok key = true).
#[local] Abbreviation pat := (key_pat key ++ m).

Lemma pat_quote : exists p, pat = 0x22 :: p.
Proof. by eexists. Qed.
Lemma after_raw t r : noquote t = true -> after pat (t ++ r) = after pat r.
Proof.
  induction t as [|b t IH]; [done|]. cbn [noquote forallb]. intros [Hb Ht]%andb_true_iff. cbn [app]. rewrite after_miss; [by apply IH|].
  unfold key_pat, dq. cbn [app is_prefix]. rewrite Z.eqb_sym. apply negb_true_iff in Hb. by rewrite Hb.
Qed.

(** At a quote, the key must follow. *)
Lemma quote_match s : is_prefix pat (0x22 :: s) = true -> exists r, s = key ++ 0x22 :: 0x3a :: r.
Proof.
  intros [r Hr]%is_prefix_split. unfold key_pat, dq in Hr. cbn [app] in Hr. injection Hr as ->.
  rewrite <- !app_assoc. by eexists.
Qed.
Lemma quote_miss s : (forall r, s <> key ++ 0x22 :: 0x3a :: r) -> after pat (0x22 :: s) = after pat s.
Proof.
  intros H. apply after_miss. destruct (is_prefix pat (0x22 :: s)) eqn:E; [|done].
  apply quote_match in E as [r Hr]. by apply H in Hr.
Qed.

Lemma key_letters : Forall (fun b => is_letter b = true) key /\ key <> [].
Proof.
  unfold key_ok in Hk. apply andb_true_iff in Hk as [H1 H2%negb_true_iff%bool_decide_eq_false]. split; [|done].
  by apply forallb_Forall'.
Qed.
(** Words that end differently are different. *)
Lemma letters_split (a b x y : list Z) (c d : Z) : Forall (fun b => is_letter b = true) a -> Forall (fun b => is_letter b = true) b ->
  is_letter c = false -> is_letter d = false -> a ++ c :: x = b ++ d :: y -> a = b /\ c = d /\ x = y.
Proof.
  intros Ha. revert b. induction Ha as [|z a Hz _ IH]; intros b Hb Hc Hd E.
  - destruct Hb as [|w b Hw _]; cbn in E; [by injection E|]. injection E as -> _. congruence.
  - destruct Hb as [|w b Hw Hb]; cbn in E; injection E as -> E; [congruence|]. by destruct (IH b Hb Hc Hd E) as (-> & -> & ->).
Qed.
End Search.

Section Fields.
Context (key m : list Z) (Hk : key_ok key = true).
#[local] Abbreviation pat := (key_pat key ++ m).
Let Hl := proj1 (key_letters key Hk).
Let Hne := proj2 (key_letters key Hk).

(** Inside a quoted string every quote follows a backslash, which no key holds. *)
Lemma esc_not_key s h r r' : is_sep h = true -> esc s ++ 0x22 :: h :: r <> key ++ 0x22 :: 0x3a :: r'.
Proof.
  intros Hh E. enough (H : forall a, Forall (fun b => is_letter b = true) a -> a ++ esc s ++ 0x22 :: h :: r <> key ++ 0x22 :: 0x3a :: r').
  { by apply (H []). }
  clear E. induction s as [|c s IH]; intros a Ha E.
  - cbn in E. apply letters_split in E as (_ & _ & E); [|done..]. injection E as -> _. by vm_compute in Hh.
  - unfold esc in E. cbn [map concat] in E. fold (esc s) in E. unfold esc_byte in E.
    destruct ((c =? 0x22) || (c =? 0x5c)) eqn:E1.
    { cbn [app] in E. apply letters_split in E as (_ & E & _); [done|done|done|by vm_compute|by vm_compute]. }
    destruct (c =? 0x0a).
    { cbn [app] in E. apply letters_split in E as (_ & E & _); [done|done|done|by vm_compute|by vm_compute]. }
    destruct (c <? 0x20); [by apply (IH a)|]. destruct (is_letter c) eqn:Ec.
    { rewrite <- app_assoc in E. cbn [app] in E. apply (IH (a ++ [c])); [apply Forall_app; by split; [|constructor]|]. by rewrite <- app_assoc. }
    cbn [app] in E. apply letters_split in E as (_ & -> & _); [by vm_compute in E1|done..].
Qed.

Lemma after_esc s h r : is_sep h = true -> after pat (esc s ++ 0x22 :: h :: r) = after pat (h :: r).
Proof.
  intros Hh. induction s as [|c s IH].
  - cbn [esc map concat app]. apply quote_miss. intros r' E. destruct key as [|x k]; [done|]. cbn in E. injection E as -> E.
    inversion Hl; subst. unfold is_sep, is_letter in *. lia.
  - unfold esc. cbn [map concat]. fold (esc s). unfold esc_byte. destruct ((c =? 0x22) || (c =? 0x5c)) eqn:E1.
    + cbn [app]. rewrite after_miss by done. destruct (Z.eqb_spec c 0x22) as [->|Hc].
      * rewrite quote_miss; [exact IH|]. intros r'. by apply esc_not_key.
      * cbn in E1. apply Z.eqb_eq in E1 as ->. by rewrite after_miss.
    + destruct (c =? 0x0a); [cbn [app]; rewrite !after_miss by done; exact IH|].
      destruct (c <? 0x20); [exact IH|]. cbn [app]. rewrite after_miss; [exact IH|].
      unfold key_pat, dq. cbn [app is_prefix]. apply orb_false_iff in E1 as [E1 _]. by rewrite Z.eqb_sym, E1.
Qed.

Lemma after_other k r : key_ok k = true -> k <> key -> after pat (key_pat k ++ r) = after pat r.
Proof.
  intros Hk' Hkk. pose proof (key_letters k Hk') as [Hl' Hne']. rewrite (key_pat_cons k).
  rewrite quote_miss.
  2:{ intros r' E. apply letters_split in E as (E & _); [done|done|done|by vm_compute|by vm_compute]. }
  rewrite after_raw.
  2:{ apply forallb_forall. intros b Hb. apply list_elem_of_In in Hb. rewrite List.Forall_forall in Hl'.
      apply list_elem_of_In, Hl' in Hb. unfold is_letter in Hb. lia. }
  rewrite quote_miss; [by apply after_miss|]. intros r' E. destruct key as [|x k']; [done|]. cbn in E. injection E as <- _.
  by inversion Hl.
Qed.

(** A field with another key is passed over; whatever its string holds. *)
Lemma after_field_skip f r : field_ok f = true -> (f.1).2 <> key -> sep_first r = true ->
  after pat (field_text f ++ r) = after pat r.
Proof.
  destruct f as [[pre k] v]. cbn [field_ok field_text fst snd]. intros [[[Hp _]%andb_true_iff Hk']%andb_true_iff Hv]%andb_true_iff Hkk Hr.
  rewrite <- !app_assoc, after_raw, after_other by done. destruct v as [s|t]; cbn [val_text]; [|by apply after_raw].
  unfold dq. cbn [app]. rewrite <- app_assoc. cbn [app]. destruct r as [|h r]; [done|].
  rewrite quote_miss by (intros r'; by apply esc_not_key). by apply after_esc.
Qed.

Lemma sep_fields fs tail : forallb field_ok fs = true -> sep_first tail = true -> sep_first (fields_text fs tail) = true.
Proof.
  destruct fs as [|[[pre k] v] fs]; [done|]. cbn [forallb field_ok]. intros [H _]%andb_true_iff _.
  rewrite !andb_true_iff in H. destruct H as [[[_ H] _] _]. by destruct pre.
Qed.

(** Reading a line finds the first field with the key. *)
Lemma after_fields fs1 pre v fs2 tail : forallb field_ok fs1 = true -> Forall (fun f => (f.1).2 <> key) fs1 ->
  field_ok (pre, key, v) = true -> forallb field_ok fs2 = true -> sep_first tail = true ->
  after pat (fields_text (fs1 ++ (pre, key, v) :: fs2) tail) =
  after pat (key_pat key ++ val_text v ++ fields_text fs2 tail).
Proof.
  intros H1 Hne1 Hf H2 Ht. induction fs1 as [|f fs1 IH].
  - unfold fields_text. cbn [app map concat field_text]. rewrite <- !app_assoc. cbn [field_ok] in Hf.
    rewrite !andb_true_iff in Hf. by rewrite after_raw by apply Hf.
  - cbn [forallb] in H1. apply andb_true_iff in H1 as [Hf1 H1]. inversion Hne1; subst.
    unfold fields_text. cbn [app map concat]. rewrite <- app_assoc. fold (fields_text (fs1 ++ (pre, key, v) :: fs2) tail).
    rewrite after_field_skip; [by apply IH|done|done|]. apply sep_fields; [|done]. rewrite forallb_app. cbn [forallb]. by rewrite H1, Hf, H2.
Qed.

(** And nothing when there is none. *)
Lemma after_absent fs tail : forallb field_ok fs = true -> Forall (fun f => (f.1).2 <> key) fs -> sep_first tail = true -> noquote tail = true ->
  after pat (fields_text fs tail) = None.
Proof.
  intros Hf Hne' Ht Hq. induction fs as [|f fs IH].
  - unfold fields_text. cbn [map concat app]. rewrite <- (app_nil_r tail), after_raw by done. done.
  - cbn [forallb] in Hf. apply andb_true_iff in Hf as [Hf1 Hf]. inversion Hne'; subst.
    unfold fields_text. cbn [map concat]. rewrite <- app_assoc. fold (fields_text fs tail).
    rewrite after_field_skip; [by apply IH|done|done|by apply sep_fields].
Qed.
End Fields.

(** *** Values *)

Lemma js_copy_esc s r : forall room, (length (printable s) <= room)%nat -> js_copy room (esc s ++ 0x22 :: r) = printable s.
Proof.
  induction s as [|c s IH]; intros room Hr; [by destruct room|]. unfold esc. cbn [map concat]. fold (esc s).
  unfold printable in *. cbn [List.filter] in *. unfold esc_byte.
  destruct (Z.leb_spec 0x20 c) as [H20|H20].
  - cbn [orb length] in *. destruct room as [|room]; [lia|].
    destruct ((c =? 0x22) || (c =? 0x5c)) eqn:E1.
    + cbn [app js_copy]. change (0x5c =? 0x22) with false. change (0x5c =? 0x5c) with true. cbv iota.
      destruct (Z.eqb_spec c 0x6e) as [->|_]; [done|]. f_equal. apply IH. lia.
    + apply orb_false_iff in E1 as [E1 E2]. destruct (Z.eqb_spec c 0x0a); [lia|]. destruct (Z.ltb_spec c 0x20); [lia|].
      cbn [app js_copy]. rewrite E1, E2. f_equal. apply IH. lia.
  - cbn [orb] in *. destruct (Z.eqb_spec c 0x22); [lia|]. destruct (Z.eqb_spec c 0x5c); [lia|]. cbn [orb].
    destruct (Z.eqb_spec c 0x0a) as [->|Hn].
    + cbn [length] in Hr. destruct room as [|room]; [lia|]. cbn [app js_copy]. change (0x5c =? 0x22) with false.
      change (0x5c =? 0x5c) with true. change (0x6e =? 0x6e) with true. cbv iota. f_equal. apply IH. lia.
    + destruct (Z.ltb_spec c 0x20); [|lia]. cbn [app]. by apply IH.
Qed.
Lemma printable_length s : (length (printable s) <= length s)%nat.
Proof. unfold printable. induction s as [|c s IH]; [done|]. cbn. destruct (_ || _); cbn; lia. Qed.
Lemma esc_length s : (length (esc s) <= 2 * length s)%nat.
Proof.
  unfold esc. induction s as [|c s IH]; [done|]. cbn [map concat]. rewrite length_app.
  assert (Hb : (length (esc_byte c) <= 2)%nat) by (unfold esc_byte; repeat case_match; cbn; lia). cbn [length]. lia.
Qed.

(** Decimal numbers. *)
Lemma digits_text fuel : forall n acc, 0 <= n < 10 ^ Z.of_nat fuel -> (0 < fuel)%nat ->
  exists ds, digits fuel n acc = ds ++ acc /\ ds <> [] /\ Forall (fun b => is_digit b = true) ds /\ (length ds <= fuel)%nat /\
    forall r, read_digits 0 (ds ++ r) = read_digits n r.
Proof.
  induction fuel as [|fuel IH]; intros n acc Hn Hf; [lia|]. cbn [digits].
  assert (Hd : is_digit (0x30 + n mod 10) = true) by (pose proof (Z.mod_pos_bound n 10); unfold is_digit; lia).
  destruct (Z.ltb_spec n 10) as [H10|H10].
  - exists [0x30 + n mod 10]. rewrite Z.mod_small by lia. split; [done|]. split; [done|]. rewrite Z.mod_small in Hd by lia.
    split; [by constructor|]. split; [cbn; lia|]. intros r. cbn [app read_digits]. rewrite Hd. f_equal. lia.
  - rewrite Nat2Z.inj_succ, Z.pow_succ_r in Hn by lia.
    destruct (IH (n / 10) ((0x30 + n mod 10) :: acc)) as (ds & E & _ & Hds & Hlen & Hr).
    { split; [apply Z.div_pos; lia|apply Z.div_lt_upper_bound; lia]. }
    { destruct fuel; [change (10 ^ Z.of_nat 0) with 1 in Hn; lia|lia]. }
    exists (ds ++ [0x30 + n mod 10]). rewrite <- app_assoc. split; [exact E|]. split; [by destruct ds|].
    split; [apply Forall_app; by split; [|constructor]|]. split; [rewrite length_app; cbn; lia|].
    intros r. rewrite <- app_assoc, Hr. cbn [app read_digits]. rewrite Hd. f_equal. pose proof (Z.div_mod n 10). lia.
Qed.
Lemma fmt_u_text n : 0 <= n < 2 ^ 32 ->
  exists ds, fmt_u n = ds /\ noquote ds = true /\ (length ds <= 20)%nat /\ forall h r, is_sep h = true -> strtol10 (ds ++ h :: r) = n.
Proof.
  intros Hn. destruct (digits_text 20 n []) as (ds & E & Hne & Hds & Hlen & Hr); [split; [lia|]; lia|lia|].
  exists ds. unfold fmt_u. rewrite E, app_nil_r. split; [done|]. split.
  { apply forallb_forall. intros b Hb. rewrite List.Forall_forall in Hds. apply Hds in Hb. unfold is_digit in Hb. lia. }
  split; [done|]. intros h r Hh. specialize (Hr (h :: r)). destruct ds as [|d ds]; [done|]. inversion Hds; subst. unfold is_digit in *.
  unfold strtol10. cbn [app skip_space]. assert (Es : is_space d = false) by (unfold is_space; lia). rewrite Es.
  destruct (Z.eqb_spec d 0x2d); [lia|]. destruct (Z.eqb_spec d 0x2b); [lia|]. cbn [app] in Hr. rewrite Hr.
  cbn [read_digits]. assert (Eh : is_digit h = false) by (unfold is_sep, is_digit in *; lia). rewrite Eh.
  unfold LONG_MAX. lia.
Qed.

(** *** Writers that fit their buffer *)

Lemma appendf_fits cap buf t : (length buf + length t < cap)%nat -> appendf cap buf t = buf ++ t.
Proof.
  intros H. unfold appendf. destruct (Nat.ltb_spec (length buf) cap); [|lia].
  by destruct (Nat.ltb_spec (length buf + length t) cap); [|lia].
Qed.
Lemma put_fits cap buf b : (length buf < cap)%nat -> put cap buf b = buf ++ [b].
Proof. intros H. unfold put. by destruct (Nat.ltb_spec (length buf) cap); [|lia]. Qed.
Lemma json_body_fits cap s : forall buf, (length buf + 2 * length s < cap)%nat -> json_body cap buf s = buf ++ esc s.
Proof.
  induction s as [|c s IH]; intros buf H; [by rewrite app_nil_r|]. cbn [json_body length] in *.
  destruct (Nat.ltb_spec (length buf + 2) cap); [|lia]. unfold esc. cbn [map concat]. fold (esc s). unfold esc_byte.
  destruct (_ || _); [rewrite IH by (rewrite !length_app; cbn; lia); by rewrite <- !app_assoc|].
  destruct (c =? 0x0a).
  { rewrite put_fits by (rewrite length_app; cbn; lia). rewrite IH by (rewrite !length_app; cbn; lia). by rewrite <- !app_assoc. }
  destruct (c <? 0x20); [by apply IH; lia|]. rewrite IH by (rewrite length_app; cbn; lia). by rewrite <- app_assoc.
Qed.
Lemma json_str_fits cap buf s : (length buf + 2 * length (c_str s) + 2 < cap)%nat ->
  json_str cap buf s = buf ++ val_text (JStr (c_str s)).
Proof.
  intros H. unfold json_str. rewrite (put_fits cap buf) by lia. rewrite json_body_fits by (rewrite length_app; cbn; lia).
  rewrite put_fits by (rewrite !length_app; pose proof (esc_length (c_str s)); cbn; lia). cbn [val_text]. unfold dq. by rewrite <- !app_assoc.
Qed.

(** Text a string holds unescaped. *)
Definition unescaped (s : list Z) : bool := forallb (fun c => (0x20 <=? c) && negb (c =? 0x22) && negb (c =? 0x5c)) s.
Lemma unescaped_esc s : unescaped s = true -> esc s = s /\ printable s = s.
Proof.
  unfold unescaped, esc, printable. induction s as [|c s IH]; [done|]. cbn. intros [[[H1 H2%negb_true_iff]%andb_true_iff H3%negb_true_iff]%andb_true_iff H]%andb_true_iff.
  destruct (IH H) as [E1 E2]. rewrite E1, E2, H1. unfold esc_byte. rewrite H2, H3. cbn [orb].
  destruct (Z.eqb_spec c 0x0a); [lia|]. destruct (Z.ltb_spec c 0x20); [lia|]. done.
Qed.

(** Addresses. *)
Lemma fmt_byte_all : forallb (fun b => unescaped (fmt_02x b)) all_bytes = true.
Proof. by vm_compute. Qed.
Lemma fmt_mac_text m : length m = 6%nat -> bytes_ok m -> unescaped (fmt_mac m) = true /\ length (fmt_mac m) = 17%nat.
Proof.
  intros Hl Hm. do 7 (destruct m as [|? m]; try done). split; [|done]. unfold fmt_mac, bytes_ok in *.
  repeat match goal with H : Forall _ (_ :: _) |- _ => apply Forall_cons_1 in H as [? H] end.
  unfold unescaped. rewrite !forallb_app. cbn [forallb]. rewrite !forallb_app. cbn [forallb]. rewrite !forallb_app. cbn [forallb].
  rewrite !forallb_app. cbn [forallb]. rewrite !forallb_app. cbn [forallb].
  fold (unescaped (fmt_02x z)) (unescaped (fmt_02x z0)) (unescaped (fmt_02x z1)) (unescaped (fmt_02x z2)) (unescaped (fmt_02x z3)) (unescaped (fmt_02x z4)).
  by rewrite !(forall_bytes _ fmt_byte_all).
Qed.

(** ** A network line *)

Definition net_fields (e : net_entry) (saved : bool) : list field :=
  [(txt "{", txt "network", JRaw []);
   (txt "{", txt "ssid", JStr (c_str (ssid e)));
   (txt ",", txt "bssid", JStr (fmt_mac (bssid e)));
   (txt ",", txt "channel", JRaw (fmt_u (channel e)));
   (txt ",", txt "band", JStr (band_text (channel e)));
   (txt ",", txt "beacons", JRaw (fmt_u (beacons e)));
   (txt ",", txt "secure", JRaw (fmt_bool (privacy e)));
   (txt ",", txt "saved", JRaw (fmt_bool saved))].

(** The values fit their types. *)
Definition entry_typed (e : net_entry) : Prop := entry_ok e /\ 0 <= channel e < 2 ^ 8 /\ 0 <= beacons e < 2 ^ 32.

Lemma entry_name e : entry_ok e -> (length (c_str (ssid e)) <= 32)%nat.
Proof. intros (_ & _ & Hl & _ & H0). apply c_str_terminated in H0. lia. Qed.
Lemma band_unescaped c : unescaped (band_text c) = true.
Proof. unfold band_text. by destruct (c <=? 14). Qed.
Lemma bool_noquote b : noquote (fmt_bool b) = true.
Proof. by destruct b. Qed.

Lemma fmt_u_noquote n : 0 <= n < 2 ^ 32 -> noquote (fmt_u n) = true.
Proof. intros Hn. by destruct (fmt_u_text n Hn) as (ds & -> & ? & _). Qed.

Lemma net_fields_ok e saved : entry_typed e -> forallb field_ok (net_fields e saved) = true.
Proof.
  intros (He & Hc & Hb). unfold net_fields. cbn [forallb field_ok].
  rewrite !fmt_u_noquote, !bool_noquote by lia. done.
Qed.

Lemma net_line_text e saved : entry_typed e ->
  net_line 512 e saved = fields_text (net_fields e saved) (txt "}}") ++ nl /\ (length (net_line 512 e saved) < 512)%nat.
Proof.
  intros (He & Hc & Hb). pose proof (entry_name e He) as Hn. pose proof He as (Hm & Hmb & _).
  destruct (fmt_mac_text (bssid e) Hm Hmb) as [Hmu Hml]. pose proof (unescaped_esc _ Hmu) as [Em _].
  destruct (unescaped_esc _ (band_unescaped (channel e))) as [Eb _].
  destruct (fmt_u_text (channel e)) as (c & Ec & _ & Hcl & _); [lia|].
  destruct (fmt_u_text (beacons e) Hb) as (b & Ebe & _ & Hbl & _).
  unfold net_line. set (head := txt "{" ++ key_pat _ ++ _). assert (Hh : length head = 19%nat) by done.
  rewrite (appendf_fits 512 []) by (rewrite Hh; cbn; lia). rewrite app_nil_l, json_str_fits by lia.
  assert (Hb5 : (length (band_text (channel e)) <= 3)%nat) by (unfold band_text; destruct (_ <=? _); cbn; lia).
  assert (Hbool : forall b, (length (fmt_bool b) <= 5)%nat) by (intros []; cbn; lia).
  pose proof (Hbool (privacy e)). pose proof (Hbool saved). pose proof (esc_length (c_str (ssid e))).
  rewrite Ec, Ebe in *.
  assert (Hlen : forall k, length (key_pat (txt k)) = (3 + length (txt k))%nat) by (intros k; unfold key_pat; rewrite !length_app; cbn; lia).
  rewrite appendf_fits.
  2:{ cbn [val_text]. repeat (rewrite !length_app || rewrite Hlen || rewrite Hh). cbn [length nl dq txt map list_ascii_of_string]. lia. }
  split; [|cbn [val_text]; repeat (rewrite !length_app || rewrite Hlen || rewrite Hh); cbn [length nl dq txt map list_ascii_of_string]; lia].
  unfold head, fields_text, net_fields. cbn [map concat field_text val_text]. rewrite Em, Eb, Ec, Ebe, app_nil_r.
  by rewrite <- !app_assoc.
Qed.

(** The reader's fields of a line: the [n]th is the first with its key. *)
Definition field_at (n : nat) (fs : list field) (key : list Z) : bool :=
  key_ok key && forallb (fun f => negb (bool_decide ((f.1).2 = key))) (take n fs).

Section Line.
Context (fs : list field) (tail : list Z) (Hf : forallb field_ok fs = true) (Ht : sep_first tail = true).

Lemma after_at n key m pre v : field_at n fs key = true -> fs !! n = Some (pre, key, v) -> exists h r, is_sep h = true /\
  after (key_pat key ++ m) (fields_text fs tail) = after (key_pat key ++ m) (key_pat key ++ val_text v ++ h :: r).
Proof.
  unfold field_at. intros [Hk Hn]%andb_true_iff Hi. pose proof (take_drop_middle fs n _ Hi) as E.
  assert (Hne : Forall (fun f : field => (f.1).2 <> key) (take n fs)).
  { apply forallb_Forall' in Hn. eapply List.Forall_impl; [|exact Hn]. intros f Hx. by apply negb_true_iff, bool_decide_eq_false in Hx. }
  rewrite <- E in Hf. rewrite forallb_app in Hf. cbn [forallb] in Hf. rewrite !andb_true_iff in Hf. destruct Hf as (H1 & H2 & H3).
  pose proof (sep_fields _ tail H3 Ht) as Hs. destruct (fields_text (drop (S n) fs) tail) as [|h r] eqn:Er; [done|].
  exists h, r. split; [done|]. rewrite <- E at 1. rewrite after_fields by done. by rewrite Er.
Qed.

Lemma js_str_at n pre key s cap : field_at n fs key = true -> fs !! n = Some (pre, key, JStr s) -> (length (printable s) < cap)%nat ->
  js_str (fields_text fs tail) key cap = Some (printable s).
Proof.
  intros Hn Hi Hc. destruct (after_at n key dq pre _ Hn Hi) as (h & r & _ & E). unfold js_str. rewrite E. cbn [val_text].
  rewrite <- !app_assoc, (app_assoc (key_pat key)), after_hit. unfold dq. cbn [app fmap option_fmap option_map].
  by rewrite js_copy_esc by lia.
Qed.
Lemma raw_at n pre key t : field_at n fs key = true -> fs !! n = Some (pre, key, JRaw t) ->
  exists h r, is_sep h = true /\ after (key_pat key) (fields_text fs tail) = Some (t ++ h :: r).
Proof.
  intros Hn Hi. destruct (after_at n key [] pre _ Hn Hi) as (h & r & Hh & E). rewrite app_nil_r, after_hit in E. by exists h, r.
Qed.
Lemma js_int_at n pre key x dflt : field_at n fs key = true -> fs !! n = Some (pre, key, JRaw (fmt_u x)) -> 0 <= x < 2 ^ 32 ->
  js_int (fields_text fs tail) key dflt = x.
Proof.
  intros Hn Hi Hx. destruct (raw_at n pre key _ Hn Hi) as (h & r & Hh & E). unfold js_int. rewrite E.
  destruct (fmt_u_text x Hx) as (ds & -> & _ & _ & Hd). by apply Hd.
Qed.
Lemma js_bool_at n pre key b : field_at n fs key = true -> fs !! n = Some (pre, key, JRaw (fmt_bool b)) ->
  js_bool (fields_text fs tail) key = if b then 1 else 0.
Proof. intros Hn Hi. destruct (raw_at n pre key _ Hn Hi) as (h & r & Hh & E). unfold js_bool. rewrite E. by destruct b. Qed.
Lemma js_bool_absent key : field_at (length fs) fs key = true -> noquote tail = true -> js_bool (fields_text fs tail) key = -1.
Proof.
  unfold field_at. rewrite firstn_all. intros [Hk Hn]%andb_true_iff Hq. unfold js_bool.
  assert (Hne : Forall (fun f : field => (f.1).2 <> key) fs).
  { apply forallb_Forall' in Hn. eapply List.Forall_impl; [|exact Hn]. intros f Hx. by apply negb_true_iff, bool_decide_eq_false in Hx. }
  pose proof (after_absent key [] Hk fs tail Hf Hne Ht Hq) as E. rewrite app_nil_r in E. by rewrite E.
Qed.
End Line.

(** No line is broken: its text holds no newline and no NUL. *)
Definition one_line (t : list Z) : bool := forallb (fun c => 0x20 <=? c) t.
Lemma esc_one_line s : one_line (esc s) = true.
Proof.
  unfold one_line, esc. induction s as [|c s IH]; [done|]. cbn [map concat]. rewrite forallb_app, IH, andb_true_r. unfold esc_byte.
  destruct ((c =? 0x22) || (c =? 0x5c)) eqn:E; [cbn; lia|]. destruct (c =? 0x0a); [done|]. destruct (Z.ltb_spec c 0x20); [done|]. cbn. lia.
Qed.
Lemma one_line_app a b : one_line (a ++ b) = one_line a && one_line b.
Proof. apply forallb_app. Qed.
Lemma fmt_u_one_line n : 0 <= n < 2 ^ 32 -> one_line (fmt_u n) = true.
Proof.
  intros Hn. destruct (digits_text 20 n []) as (ds & E & _ & Hds & _); [split; [lia|]; lia|lia|].
  unfold fmt_u. rewrite E, app_nil_r. apply forallb_forall. intros b Hb. rewrite List.Forall_forall in Hds. apply Hds in Hb. unfold is_digit in Hb. lia.
Qed.

(** C35: whatever name a beacon carries, the line the daemon writes for it fits
    its buffer and is one line, and the client reads from it exactly the
    network's name (less control characters), address, channel, band, beacon
    count, encryption and whether it is saved: no name can forge another field,
    hide one or break the stream. *)
Theorem network_line_read (e : net_entry) (saved : bool) : entry_typed e -> exists line,
  net_line 512 e saved = line ++ nl /\ (length (line ++ nl) < 512)%nat /\ one_line line = true /\
  scan_line_cb line = ScanNetwork (ScanRow (printable (c_str (ssid e))) (fmt_mac (bssid e)) (band_text (channel e))
                                     (channel e) (privacy e) saved (beacons e)).
Proof.
  intros He. destruct (net_line_text e saved He) as [E Hl]. exists (fields_text (net_fields e saved) (txt "}}")).
  split; [done|]. split; [by rewrite E in Hl|]. pose proof (net_fields_ok e saved He) as Hok. destruct He as (He & Hc & Hb).
  pose proof (entry_name e He) as Hn. pose proof He as (Hm & Hmb & _).
  destruct (fmt_mac_text (bssid e) Hm Hmb) as [Hmu Hml]. destruct (unescaped_esc _ Hmu) as [_ Em].
  destruct (unescaped_esc _ (band_unescaped (channel e))) as [_ Eb].
  split.
  { unfold fields_text, net_fields. cbn [map concat field_text val_text]. unfold key_pat.
    rewrite !one_line_app, !esc_one_line, !fmt_u_one_line by lia. by destruct (privacy e), saved. }
  unfold scan_line_cb. rewrite (js_bool_absent _ _ Hok) by done.
  change (-1 =? 0) with false. cbv iota.
  assert (Ens : exists s, strstr (dq ++ txt "network" ++ dq) (fields_text (net_fields e saved) (txt "}}")) = Some s) by by eexists.
  destruct Ens as [s ->]. f_equal.
  rewrite (js_str_at _ (txt "}}") Hok eq_refl 1 _ _ (c_str (ssid e))) by (done || (pose proof (printable_length (c_str (ssid e))); lia)).
  rewrite (js_str_at _ (txt "}}") Hok eq_refl 2 _ _ (fmt_mac (bssid e))) by (done || (rewrite Em; lia)).
  rewrite (js_str_at _ (txt "}}") Hok eq_refl 4 _ _ (band_text (channel e))) by (done || (rewrite Eb; unfold band_text; destruct (_ <=? _); cbn; lia)).
  rewrite (js_int_at _ (txt "}}") Hok eq_refl 3 _ _ (channel e)), (js_int_at _ (txt "}}") Hok eq_refl 5 _ _ (beacons e)) by (done || lia).
  rewrite (js_bool_at _ (txt "}}") Hok eq_refl 6 _ _ (privacy e)), (js_bool_at _ (txt "}}") Hok eq_refl 7 _ _ saved) by done.
  cbn [default]. rewrite Em, Eb. by destruct (privacy e), saved.
Qed.

(** ** Lines over a stream socket *)

(** What the peer's bytes arrive as, and one [recv] of at most [max] bytes; no
    bytes at the end of the stream or for an empty buffer. *)
Definition recv (max : nat) (chunks : list (list Z)) : list Z * list (list Z) :=
  match chunks with
  | [] => ([], [])
  | c :: cs => if (length c <=? max)%nat then (c, cs) else (take max c, drop max c :: cs)
  end.

(** The lines that are complete and what is left. *)
Fixpoint split_lines (s : list Z) : list (list Z) * list Z :=
  match s with
  | [] => ([], [])
  | b :: s =>
      let '(ls, r) := split_lines s in
      if b =? 0x0a then ([] :: ls, r)
      else match ls with [] => ([], b :: r) | l :: ls => ((b :: l) :: ls, r) end
  end.

(** The client's loop in its 4096-byte buffer: the lines handed to the callback.
    [fuel] bounds the calls of [recv]. *)
Fixpoint reply_loop (fuel : nat) (have : list Z) (chunks : list (list Z)) : list (list Z) :=
  match fuel with
  | O => []
  | S fuel =>
      let '(r, chunks) := recv (4095 - length have) chunks in
      match r with
      | [] => []
      | _ =>
          let '(ls, rest) := split_lines (c_str (have ++ r)) in
          List.filter (fun l => negb (bool_decide (l = []))) ls ++ reply_loop fuel rest chunks
      end
  end.
Definition rtwd_request (chunks : list (list Z)) : list (list Z) := reply_loop (S (length (concat chunks))) [] chunks.

(** The daemon's side: one line of at most [cap - 1] bytes. *)
Inductive line_result := Line (buf : list Z) | TooLong | Incomplete.
Fixpoint read_line_loop (fuel cap : nat) (buf : list Z) (chunks : list (list Z)) : line_result :=
  match fuel with
  | O => TooLong
  | S fuel =>
      if (length buf + 1 <? cap)%nat then
        let '(r, chunks) := recv (cap - 1 - length buf) chunks in
        match r with
        | [] => Incomplete
        | _ => if bool_decide (0x0a ∈ buf ++ r) then Line (buf ++ r) else read_line_loop fuel cap (buf ++ r) chunks
        end
      else TooLong
  end.
Definition read_line (cap : nat) (chunks : list (list Z)) : line_result := read_line_loop cap cap [] chunks.

(** ** Requests *)

Definition arg_clean (s : option (list Z)) : bool := match s with Some s => forallb (fun c => negb (c <? 0x20)) s | None => true end.

(** [strpbrk(req, "\r\n")] *)
Fixpoint cut_line (s : list Z) : list Z :=
  match s with b :: s => if (b =? 0x0d) || (b =? 0x0a) then [] else b :: cut_line s | [] => [] end.
(** [strchr(s, '\t')]: the word before and the rest after it. *)
Fixpoint split_tab (s : list Z) : list Z * option (list Z) :=
  match s with
  | [] => ([], None)
  | b :: s => if b =? 0x09 then ([], Some s) else let '(w, r) := split_tab s in (b :: w, r)
  end.

Inductive command :=
| CScan
| CConnect (ssid pass : option (list Z)) (nosave : bool)
| CDisconnect
| CStatus
| CForget (ssid : option (list Z))
| CPower (arg : option (list Z))
| CUnknown
| CBadArgument.

(** The verb and up to three arguments. *)
Definition split_request (req : list Z) : list Z * option (list Z) * option (list Z) * option (list Z) :=
  let '(verb, r1) := split_tab req in
  match r1 with
  | None => (verb, None, None, None)
  | Some s =>
      let '(a1, r2) := split_tab s in
      match r2 with
      | None => (verb, Some a1, None, None)
      | Some s =>
          let '(a2, r3) := split_tab s in
          (verb, Some a1, Some a2, r3)
      end
  end.
Definition parse_request (buf : list Z) : command :=
  let '(verb, a1, a2, a3) := split_request (cut_line (c_str buf)) in
  if negb (arg_clean a1) || negb (arg_clean a2) || negb (arg_clean a3) then CBadArgument
  else if is_txt verb "scan" then CScan
  else if is_txt verb "connect" then CConnect a1 a2 (match a3 with Some a => is_txt a "nosave" | None => false end)
  else if is_txt verb "disconnect" then CDisconnect
  else if is_txt verb "status" then CStatus
  else if is_txt verb "forget" then CForget a1
  else if is_txt verb "power" then CPower a1
  else CUnknown.

(** The request lines of the command line, with the newline [rtwd_request] adds
    and as its 300-byte buffers cut them. *)
Definition snprintf (cap : nat) (s : list Z) : list Z := take (cap - 1) s.
Definition send_line (cmd : list Z) : list Z := snprintf 300 (cmd ++ nl).
Definition cli_connect_text (ssid pass : list Z) (nosave : bool) : list Z :=
  snprintf 300 (txt "connect" ++ [0x09] ++ ssid ++ [0x09] ++ pass ++ (if nosave then [0x09] ++ txt "nosave" else [])).
Definition cli_forget_text (ssid : list Z) : list Z := snprintf 300 (txt "forget" ++ [0x09] ++ ssid).

(** ** The stream is read the same in any pieces *)

Lemma split_lines_prefix a y : 0x0a ∉ a ->
  split_lines (a ++ y) = let '(ls, r) := split_lines y in match ls with [] => ([], a ++ r) | l :: ls => ((a ++ l) :: ls, r) end.
Proof.
  induction a as [|b a IH]; [intros _; cbn; by destruct (split_lines y) as [[|] ?]|]. intros [Hb Ha]%not_elem_of_cons.
  cbn [app split_lines]. rewrite IH by done. destruct (split_lines y) as [[|l ls] r]; destruct (Z.eqb_spec b 0x0a); congruence.
Qed.
Lemma split_lines_rest s : 0x0a ∉ (split_lines s).2.
Proof.
  induction s as [|b s IH]; [apply not_elem_of_nil|]. cbn. destruct (split_lines s) as [[|l ls] r]; cbn in IH; destruct (Z.eqb_spec b 0x0a); try done.
  cbn. by apply not_elem_of_cons.
Qed.
Lemma split_lines_app x y : split_lines (x ++ y) =
  let '(l1, r1) := split_lines x in let '(l2, r2) := split_lines (r1 ++ y) in (l1 ++ l2, r2).
Proof.
  induction x as [|b x IH]; [by cbn; destruct (split_lines y)|]. cbn [app split_lines]. rewrite IH.
  pose proof (split_lines_rest x) as Hr. destruct (split_lines x) as [l1 r1]. cbn [snd] in Hr. destruct (Z.eqb_spec b 0x0a) as [|Hb].
  - by destruct (split_lines (r1 ++ y)).
  - destruct l1 as [|l l1]; [|by destruct (split_lines (r1 ++ y))]. cbn [app split_lines].
    destruct (split_lines (r1 ++ y)) as [[|l2 ls2] r2]; by destruct (Z.eqb_spec b 0x0a).
Qed.

Lemma recv_some max chunks : (0 < max)%nat -> Forall (fun c => c <> []) chunks -> chunks <> [] ->
  let '(r, cs) := recv max chunks in r <> [] /\ r ++ concat cs = concat chunks /\ Forall (fun c => c <> []) cs /\ (length r <= max)%nat.
Proof.
  intros Hm Hc Hne. destruct Hc as [|c cs Hc Hcs]; [done|]. cbn [recv]. destruct (Nat.leb_spec (length c) max); [done|].
  split; [destruct c; [done|]; destruct max; [lia|done]|]. split; [cbn [concat]; rewrite app_assoc, take_drop; done|].
  split; [|rewrite length_take; lia]. constructor; [|done]. intros E. apply (f_equal length) in E. rewrite length_drop in E. cbn in E. lia.
Qed.

(** Every line fits the client's buffer. *)
Definition short (s : list Z) : Prop :=
  let '(ls, r) := split_lines s in Forall (fun l => (length l <= 4094)%nat) ls /\ (length r <= 4094)%nat.

Lemma short_rest x y : short (x ++ y) -> short ((split_lines x).2 ++ y).
Proof.
  unfold short. rewrite split_lines_app. destruct (split_lines x) as [l1 r1]. cbn [snd]. destruct (split_lines (r1 ++ y)) as [l2 r2].
  intros [H%Forall_app ?]. by split; [apply H|].
Qed.
Lemma short_have a y : 0x0a ∉ a -> short (a ++ y) -> (length a <= 4094)%nat.
Proof.
  intros Ha. unfold short. rewrite split_lines_prefix by done. destruct (split_lines y) as [[|l ls] r]; intros [H1 H2].
  - rewrite length_app in H2. lia.
  - apply Forall_cons_1 in H1 as [H1 _]. rewrite length_app in H1. lia.
Qed.

Lemma reply_loop_lines fuel : forall have chunks, Forall (fun c => c <> []) chunks -> 0x0a ∉ have -> 0 ∉ have ++ concat chunks ->
  short (have ++ concat chunks) -> (length (concat chunks) < fuel)%nat ->
  reply_loop fuel have chunks = List.filter (fun l => negb (bool_decide (l = []))) (split_lines (have ++ concat chunks)).1.
Proof.
  induction fuel as [|fuel IH]; intros have chunks Hc Ha H0 Hs Hf; [lia|]. cbn [reply_loop].
  pose proof (short_have _ _ Ha Hs) as Hl. destruct (decide (chunks = [])) as [->|Hne].
  { cbn [recv concat]. rewrite app_nil_r. rewrite <- (app_nil_r have), split_lines_prefix by done. done. }
  pose proof (recv_some (4095 - length have) chunks ltac:(lia) Hc Hne) as Hr.
  destruct (recv _ chunks) as [r cs]. destruct Hr as (Hr & E & Hcs & Hlen). destruct r as [|b r]; [done|].
  rewrite <- E in *. rewrite (app_assoc have) in *. set (t := have ++ b :: r) in *.
  rewrite c_str_none by (intros Hin; apply H0, elem_of_app; by left).
  pose proof (split_lines_rest t) as Hrest. pose proof (short_rest _ _ Hs) as Hs'.
  assert (H0' : 0 ∉ (split_lines t).2 ++ concat cs).
  { rewrite not_elem_of_app in *. split; [|apply H0]. intros Hin. apply (proj1 H0). clear -Hin.
    induction t as [|x t IH]; [done|]. cbn in Hin. destruct (split_lines t) as [[|l ls] q]; destruct (x =? 0x0a); cbn in *; apply elem_of_cons;
      [right; by apply IH|apply elem_of_cons in Hin as [|]; [by left|right; by apply IH]|right; by apply IH|right; by apply IH]. }
  rewrite split_lines_app. destruct (split_lines t) as [ls rest]. cbn [snd] in *.
  rewrite IH; [|done|done|done|done|]. 2:{ rewrite length_app in Hf. cbn [length] in Hf. lia. }
  destruct (split_lines (rest ++ concat cs)) as [l2 r2]. cbn [fst]. by rewrite List.filter_app.
Qed.

Definition stream_line (l : list Z) : Prop := one_line l = true /\ (0 < length l <= 4094)%nat.

Lemma one_line_none l c : one_line l = true -> 0 <= c < 0x20 -> c ∉ l.
Proof.
  intros Hl Hc Hin. unfold one_line in Hl. rewrite forallb_forall in Hl. apply list_elem_of_In, Hl in Hin. lia.
Qed.
Lemma split_stream ls : Forall stream_line ls -> split_lines (concat (map (fun l => l ++ nl) ls)) = (ls, []) /\
  0 ∉ concat (map (fun l => l ++ nl) ls).
Proof.
  induction 1 as [|l ls [Hl _] _ [IH IH0]]; [split; [done|apply not_elem_of_nil]|]. cbn [map concat]. rewrite <- app_assoc. split.
  - rewrite split_lines_prefix by (apply one_line_none; [done|lia]). cbn [nl app split_lines]. rewrite IH.
    change (0x0a =? 0x0a) with true. cbv iota. by rewrite app_nil_r.
  - rewrite !not_elem_of_app. split; [apply one_line_none; [done|lia]|]. split; [by apply not_in1|done].
Qed.

(** The client hands on exactly the lines the daemon sent, in order, however
    the socket cuts the stream into pieces; for lines that fit its buffer. *)
Theorem reply_lines_any_pieces (ls chunks : list (list Z)) :
  Forall stream_line ls -> Forall (fun c => c <> []) chunks -> concat chunks = concat (map (fun l => l ++ nl) ls) ->
  rtwd_request chunks = ls.
Proof.
  intros Hl Hc E. destruct (split_stream ls Hl) as [Es E0]. unfold rtwd_request.
  rewrite reply_loop_lines; [|done|apply not_elem_of_nil|by rewrite app_nil_l, E| |lia].
  - rewrite app_nil_l, E, Es. cbn [fst]. clear -Hl. induction Hl as [|l ls [_ Hl] _ IH]; [done|]. cbn.
    destruct l; [cbn in Hl; lia|]. cbn. by f_equal.
  - rewrite app_nil_l, E. unfold short. rewrite Es. split; [|cbn; lia]. eapply Forall_impl; [|exact Hl]. intros l [_ H]. lia.
Qed.

(** *** Requests *)

Lemma read_line_pieces fuel cap : forall buf chunks rest, Forall (fun c => c <> []) chunks -> 0x0a ∉ buf ->
  concat chunks = rest ++ nl -> 0x0a ∉ rest -> (length buf + length rest + 1 < cap)%nat -> (length rest < fuel)%nat ->
  read_line_loop fuel cap buf chunks = Line (buf ++ rest ++ nl).
Proof.
  induction fuel as [|fuel IH]; intros buf chunks rest Hc Hb E Hr Hl Hf; [lia|]. cbn [read_line_loop].
  destruct (Nat.ltb_spec (length buf + 1) cap); [|lia].
  assert (Hne : chunks <> []) by (intros ->; by destruct rest).
  pose proof (recv_some (cap - 1 - length buf) chunks ltac:(lia) Hc Hne) as Hv.
  destruct (recv _ chunks) as [r cs]. destruct Hv as (Hrn & Er & Hcs & Hlen). destruct r as [|b r]; [done|].
  rewrite E in Er. set (t := b :: r) in *. destruct (decide (0x0a ∈ t)) as [Ht|Ht].
  - rewrite bool_decide_eq_true_2 by (apply elem_of_app; by right). f_equal. f_equal.
    destruct (concat cs) as [|x l _] eqn:Ecs using rev_ind; [by rewrite app_nil_r in Er|].
    rewrite app_assoc in Er. apply app_inj_tail in Er as [Er _]. destruct Hr. rewrite <- Er. apply elem_of_app. by left.
  - rewrite bool_decide_eq_false_2 by (by rewrite not_elem_of_app).
    destruct (concat cs) as [|x l _] eqn:Ecs using rev_ind.
    { rewrite app_nil_r in Er. destruct Ht. rewrite Er. apply elem_of_app. right. by left. }
    rewrite app_assoc in Er. apply app_inj_tail in Er as [<- ->]. rewrite length_app in Hl, Hf. rewrite not_elem_of_app in Hr.
    rewrite <- !app_assoc, (app_assoc buf). apply IH; [done|by rewrite not_elem_of_app|done|apply Hr|rewrite length_app; lia|].
    unfold t in *. cbn [length] in Hf. lia.
Qed.

Lemma cut_line_app l r : 0x0d ∉ l -> 0x0a ∉ l -> cut_line (l ++ 0x0a :: r) = l.
Proof.
  induction l as [|b l IH]; [done|]. intros [H1 H2]%not_elem_of_cons [H3 H4]%not_elem_of_cons. cbn.
  destruct (Z.eqb_spec b 0x0d); [done|]. destruct (Z.eqb_spec b 0x0a); [done|]. cbn. by rewrite IH.
Qed.
Lemma split_tab_app w r : 0x09 ∉ w -> split_tab (w ++ 0x09 :: r) = (w, Some r).
Proof. induction w as [|b w IH]; [done|]. intros [Hb Hw]%not_elem_of_cons. cbn. destruct (Z.eqb_spec b 0x09); [done|]. by rewrite IH. Qed.
Lemma split_tab_none w : 0x09 ∉ w -> split_tab w = (w, None).
Proof. induction w as [|b w IH]; [done|]. intros [Hb Hw]%not_elem_of_cons. cbn. destruct (Z.eqb_spec b 0x09); [done|]. by rewrite IH. Qed.
Lemma one_line_clean s : one_line s = true -> arg_clean (Some s) = true.
Proof.
  unfold one_line. cbn. intros H. apply forallb_forall. intros c Hc. rewrite forallb_forall in H. apply H in Hc. lia.
Qed.

(** What arrives of a line the client sends. *)
Lemma request_arrives line chunks : (length line <= 254)%nat -> (forall c, c ∈ [0; 0x0a; 0x0d] -> c ∉ line) ->
  Forall (fun c => c <> []) chunks -> concat chunks = send_line line ->
  read_line 256 chunks = Line (line ++ nl) /\ cut_line (c_str (line ++ nl)) = line.
Proof.
  intros Hl Hn Hc E. unfold send_line, snprintf in E. rewrite take_ge in E by (rewrite length_app; cbn; lia).
  assert (H0 : 0 ∉ line) by (apply Hn; set_solver +). assert (Ha : 0x0a ∉ line) by (apply Hn; set_solver +).
  assert (Hd : 0x0d ∉ line) by (apply Hn; set_solver +). split.
  - unfold read_line. rewrite (read_line_pieces 256 256 [] chunks line); [done|done|apply not_elem_of_nil|done|done|cbn; lia|lia].
  - rewrite c_str_none by (apply not_elem_of_app; split; [done|by apply not_in1]). by apply cut_line_app.
Qed.

(** A connect typed at the command line reaches the daemon as the same
    name, password and flag, however the socket cuts the line, for words without
    control characters that fit the daemon's buffer. *)
Theorem connect_request_read (ssid pass : list Z) (nosave : bool) (chunks : list (list Z)) :
  one_line ssid = true -> one_line pass = true -> (length ssid + length pass <= 238)%nat ->
  Forall (fun c => c <> []) chunks -> concat chunks = send_line (cli_connect_text ssid pass nosave) ->
  exists buf, read_line 256 chunks = Line buf /\ parse_request buf = CConnect (Some ssid) (Some pass) nosave.
Proof.
  intros Hs Hp Hl Hc E. set (flag := if nosave then [0x09] ++ txt "nosave" else []).
  assert (Hf : (length flag <= 7)%nat) by (unfold flag; destruct nosave; cbn; lia).
  assert (Et : cli_connect_text ssid pass nosave = txt "connect" ++ 0x09 :: ssid ++ 0x09 :: pass ++ flag).
  { unfold cli_connect_text, snprintf. apply take_ge. cbn [app length txt map list_ascii_of_string]. rewrite !length_app. cbn [length]. fold flag.
    rewrite length_app. lia. }
  rewrite Et in E. set (line := _ ++ _) in E.
  destruct (request_arrives line chunks) as [Er Ec]; [| |done|done|].
  { unfold line. rewrite length_app. cbn [length]. rewrite length_app. cbn [length]. rewrite length_app. change (length (txt "connect")) with 7%nat. lia. }
  { intros c Hcc. assert (0 <= c < 0x20 /\ c <> 0x09) as [Hr1 Hr2] by (rewrite !elem_of_cons in Hcc; destruct Hcc as [->|[->|[->|[]%not_elem_of_nil]]]; lia).
    unfold line. rewrite not_elem_of_app, not_elem_of_cons, not_elem_of_app, not_elem_of_cons, not_elem_of_app.
    split; [by apply one_line_none|]. split; [lia|]. split; [by apply one_line_none|]. split; [lia|]. split; [by apply one_line_none|].
    unfold flag. destruct nosave; [|apply not_elem_of_nil]. apply not_elem_of_app. split; [apply not_in1; lia|by apply one_line_none]. }
  exists (line ++ nl). split; [done|]. unfold parse_request. rewrite Ec. unfold split_request, line.
  rewrite split_tab_app by by apply one_line_none. rewrite split_tab_app by by apply one_line_none.
  unfold flag. destruct nosave; cbn [app].
  - rewrite split_tab_app by by apply one_line_none. rewrite !one_line_clean by done. done.
  - rewrite app_nil_r, split_tab_none by by apply one_line_none. by rewrite !one_line_clean by done.
Qed.

(** ** Witnesses *)

(** A name that tries to close its string and to add fields. *)
Definition forged : list Z := [0x61; 0x22; 0x2c] ++ key_pat (txt "secure") ++ txt "false" ++ [0x5c].
Definition entry_example : net_entry := NetEntry [2; 0; 0x5e; 0x10; 0xab; 0xff] (take 33 (forged ++ replicate 33 0)) 36 12 false true.
Lemma entry_example_ok : entry_typed entry_example.
Proof. split; [|split; [cbn; lia|cbn; lia]]. unfold entry_ok, bytes_ok. refine (bool_decide_unpack _ _). by vm_compute. Qed.

Lemma network_line_read_witness : exists line,
  net_line 512 entry_example true = line ++ nl /\ (length (line ++ nl) < 512)%nat /\ one_line line = true /\
  scan_line_cb line = ScanNetwork (ScanRow forged (txt "02:00:5e:10:ab:ff") (txt "5") 36 true true 12).
Proof. apply (network_line_read entry_example true entry_example_ok). Defined.

Lemma reply_lines_any_pieces_witness : rtwd_request [txt "{}"; nl ++ txt "ab"; txt "c"; nl] = [txt "{}"; txt "abc"].
Proof.
  apply (reply_lines_any_pieces [txt "{}"; txt "abc"]).
  - repeat constructor; cbn; lia.
  - repeat constructor; discriminate.
  - reflexivity.
Defined.

Lemma connect_request_read_witness : exists buf,
  read_line 256 [txt "conn"; txt "ect" ++ [0x09] ++ txt "my net" ++ [0x09]; txt "pass" ++ nl] = Line buf /\
  parse_request buf = CConnect (Some (txt "my net")) (Some (txt "pass")) false.
Proof.
  apply (connect_request_read (txt "my net") (txt "pass") false); [reflexivity|reflexivity|cbn; lia|repeat constructor; discriminate|reflexivity].
Defined.
