(* ===== verification/Calls.v ===== *)
(** * Calls: programs of calls on the system

    User-space code (client/rtwd.c, client/main.c) as a tree of calls: a node is a
    call, a branch is an answer, as [Hw.prog] is for the hardware.  The set of
    calls is a parameter: the daemon, the command line and the start of the daemon
    each have their own.  A monitor reads calls and answers and refuses the ones
    that break a rule; [cwp] is what holds of every run it does not refuse. *)
From S2P Require Import Prelude.

Section Programs.
Context {O : Type} (R : O -> Type).

Inductive calls (A : Type) :=
| Done (x : A)
| Call (o : O) (k : R o -> calls A).
Arguments Done {_} _.
Arguments Call {_} _ _.

Fixpoint calls_bind {A B} (f : A -> calls B) (p : calls A) : calls B :=
  match p with
  | Done x => f x
  | Call o k => Call o (fun r => calls_bind f (k r))
  end.
Definition perform (o : O) : calls (R o) := Call o Done.
End Programs.
Arguments Done {_ _ _} _.
Arguments Call {_ _ _} _ _.
Arguments calls_bind {_ _ _ _} _ _.
#[export] Instance calls_mbind {O} {R : O -> Type} : MBind (calls R) := @calls_bind O R.
#[export] Instance calls_mret {O} {R : O -> Type} : MRet (calls R) := @Done O R.

(** ** Program logic *)

(** [mon] reads the calls and answers; [None] is a breach. *)
Section Monitor.
Context {O : Type} {R : O -> Type} {St : Type} (mon : St -> forall o, R o -> option St).

Fixpoint cwp {A} (p : calls R A) (st : St) (Q : A -> St -> Prop) : Prop :=
  match p with
  | Done x => Q x st
  | Call o k => forall r, match mon st o r with Some st' => cwp (k r) st' Q | None => False end
  end.

Lemma cwp_mono {A} (p : calls R A) : forall st (Q Q' : A -> St -> Prop), cwp p st Q -> (forall x st, Q x st -> Q' x st) -> cwp p st Q'.
Proof.
  induction p as [x|o k IH]; intros st Q Q' Hp H; [by apply H|]. intros r. specialize (Hp r). destruct (mon st o r); [|done]. by eapply IH.
Qed.
Lemma cwp_bind {A B} (f : A -> calls R B) (p : calls R A) : forall st Q, cwp p st (fun x st => cwp (f x) st Q) -> cwp (p ≫= f) st Q.
Proof.
  induction p as [x|o k IH]; intros st Q Hp; [done|]. intros r. specialize (Hp r). destruct (mon st o r); [|done]. by apply IH.
Qed.
Lemma cwp_bind_post {A B} (f : A -> calls R B) (p : calls R A) st (P : A -> St -> Prop) Q : cwp p st P ->
  (forall x st, P x st -> cwp (f x) st Q) -> cwp (p ≫= f) st Q.
Proof. intros Hp Hf. apply cwp_bind. by eapply cwp_mono. Qed.
(** One call. *)
Lemma cwp_call {B} o (f : R o -> calls R B) st Q :
  (forall r, match mon st o r with Some st' => cwp (f r) st' Q | None => False end) -> cwp (perform R o ≫= f) st Q.
Proof. intros H r. exact (H r). Qed.
End Monitor.
