(* ===== verification/Daemon.v ===== *)
(** * Daemon: the control daemon (client/rtwd.c)

    The command handlers, the client connection and the auto-connect thread, as
    trees of calls on the locks, the shared variables, the kernel's control
    interface and the socket; and the two threads interleaved call by call.
    Proved: every handler takes and gives back the locks in one order, so that in
    no interleaving do two threads drive the kernel at once, touch the saved
    networks at once or wait for each other forever; what a scan asks of the
    kernel; what the auto-connect thread may join and when it tries again. *)
From stdpp Require Import gmap.
From Stdlib Require Import String.
From S2P Require Import Prelude Calls Scan Config Wire Kctl.
Open Scope Z_scope.
Open Scope rtw_scope.
Open Scope list_scope.

(** ** Calls *)

(** A call on the kernel stands for its wrapper of client/rtw_hw.c: [None] is a
    failed call, whose output structure is zeroed.  [Send]: [send], with what it
    returns: how many bytes went out, 0 or less if it failed. *)
Inductive dop :=
| KextLock | KextUnlock
| CfgLock | CfgUnlock
| GetCfg | PutCfg (c : wifi_config)
| ConfFile (o : fsop)
| GetUserOff | SetUserOff (b : bool)
| GetRadioOff | SetRadioOff (b : bool)
| HwOpen | HwClose
| KStatus | KScan | KScanChunk (flags : Z) (ch : list Z)
| KConnect (ssid pass : list Z) | KDisconnect
| FlagUnlink | FlagCreate
| DataOnline (mac : list Z) | FindIfname (mac : list Z) | IfaceIpv4 (ifname : list Z)
| Send (text : list Z) | Sleep (seconds : Z).

Definition dres (o : dop) : Type :=
  match o with
  | GetCfg => wifi_config
  | ConfFile _ | GetUserOff | GetRadioOff | HwOpen | KDisconnect => bool
  | KStatus => option status_result
  | KScan | KScanChunk _ _ => option (list net_entry)
  | KConnect _ _ => option connect_result
  | DataOnline _ | IfaceIpv4 _ => list Z
  | FindIfname _ => option (list Z)
  | Send _ => Z
  | _ => unit
  end.

Abbreviation dprog := (calls dres).
Abbreviation call := (perform dres).

(** The file operations of a save, made by the daemon. *)
Fixpoint lift_io {A} (p : io A) : dprog A :=
  match p with
  | Ret x => Done x
  | Io o k => Call (ConfFile o) (fun ok => lift_io (k ok))
  end.

(** ** Replies *)

Definition out_cap : nat := 4096.
(** [snprintf] of a fixed text *)
Definition ok_text (b : bool) : list Z := txt "{" ++ key_pat (txt "ok") ++ fmt_bool b.
Definition err_line (msg : string) : list Z := ok_text false ++ txt "," ++ key_pat (txt "error") ++ dq ++ txt msg ++ dq ++ txt "}" ++ nl.
Arguments err_line _%_string_scope.
Definition ok_line (b : bool) : list Z := ok_text b ++ txt "}" ++ nl.

(** [send_all(fd, out)]: what is left of the string is offered until it is all gone
    or a [send] fails.  A round that goes on takes a byte at least: as many rounds
    as bytes are enough: it ends with all sent or a [send] that failed
    ([Session.send_rule]). *)
Fixpoint send_loop (fuel : nat) (s : list Z) : dprog unit :=
  match fuel, s with
  | O, _ | _, [] => mret ()
  | S fuel, _ =>
      w ← call (Send s);
      if w <=? 0 then mret () else send_loop fuel (drop (Z.to_nat w) s)
  end.
Definition send_all (text : list Z) : dprog unit := send_loop (length (c_str text)) (c_str text).

(** ** Saved networks *)

Definition RTWD_CONF_PATH : list Z := txt "/usr/local/etc/rtw88.conf".

Definition saved_password (ssid : list Z) : dprog (option (list Z)) :=
  call CfgLock;;
  c ← call GetCfg;
  let found := (fun n => take 63 (c_str (n_password n))) <$> network_match ssid c in
  call CfgUnlock;;
  mret found.

Definition net_line_of (e : net_entry) : dprog (list Z) :=
  call CfgLock;;
  c ← call GetCfg;
  let saved := match network_match (ssid e) c with Some _ => true | None => false end in
  call CfgUnlock;;
  mret (net_line 512 e saved).

(** ** The streamed scan *)

Definition chans5 : list Z :=
  [36; 40; 44; 48; 52; 56; 60; 64; 100; 104; 108; 112; 116; 120; 124; 128; 132; 136; 140; 149; 153; 157; 161; 165].
Definition chans24 : list Z := [1; 2; 3; 4; 5; 6; 7; 8; 9; 10; 11; 12; 13].
Definition scan_chans (band : Z) : list Z :=
  (if negb (band =? BAND_24) then chans5 else []) ++ (if negb (band =? BAND_5) then chans24 else []).
Definition CHUNK : nat := 6.

(** The networks of a chunk not seen before, as lines; at most 128 addresses are
    remembered. *)
Fixpoint send_new (nets : list net_entry) (seen : list (list Z)) : dprog (list (list Z)) :=
  match nets with
  | [] => mret seen
  | e :: nets =>
      if existsb (fun s => memcmp s (bssid e) =? 0) seen then send_new nets seen
      else
        let seen := if (length seen <? 128)%nat then seen ++ [bssid e] else seen in
        line ← net_line_of e;
        send_all line;;
        send_new nets seen
  end.

(** The loop over the channel list from [off]; [n] bounds the chunks. *)
Fixpoint scan_chunks (n : nat) (chans : list Z) (off : nat) (seen : list (list Z)) (begun ended : bool) : dprog (bool * bool) :=
  match n with
  | O => mret (begun, ended)
  | S n =>
      let total := length chans in
      if (off <? total)%nat then
        let last := (total <=? off + CHUNK)%nat in
        let flags := (if (off =? 0)%nat then RTW_SCAN_F_BEGIN else 0) .| (if last then RTW_SCAN_F_END else 0) in
        let count := if (off + CHUNK <=? total)%nat then CHUNK else (total - off)%nat in
        r ← call (KScanChunk flags (take count (drop off chans)));
        match r with
        | None => scan_chunks n chans (off + CHUNK) seen begun ended
        | Some nets =>
            seen ← send_new nets seen;
            scan_chunks n chans (off + CHUNK) seen true (if last then true else ended)
        end
      else mret (begun, ended)
  end.

Definition cmd_scan : dprog unit :=
  call CfgLock;;
  c ← call GetCfg;
  call CfgUnlock;;
  let chans := scan_chans (c_band c) in
  off ← call GetRadioOff;
  if off : bool then send_all (err_line "radio is off") else
  call KextLock;;
  ok ← call HwOpen;
  if negb ok then
    call KextUnlock;;
    send_all (err_line "kext not reachable")
  else
    send_all (ok_text true ++ txt "," ++ key_pat (txt "scanning") ++ txt "true}" ++ nl);;
    '(begun, ended) ← scan_chunks (length chans) chans 0 [] false false;
    (if begun && negb ended then _ ← call (KScanChunk RTW_SCAN_F_END []); mret () else mret ());;
    call HwClose;;
    call KextUnlock;;
    send_all (ok_text true ++ txt "," ++ key_pat (txt "done") ++ txt "true}" ++ nl).

(** ** Connecting *)

(** The return code and the result: -2 the kernel is not there, -1 the call
    failed. *)
Definition kconnect (ssid pass : list Z) : dprog (Z * connect_result) :=
  call KextLock;;
  ok ← call HwOpen;
  if negb ok then
    call KextUnlock;;
    mret (-2, connect_result0)
  else
    r ← call (KConnect ssid pass);
    call HwClose;;
    call KextUnlock;;
    mret (match r with Some res => (0, res) | None => (-1, connect_result0) end).

(** Bit [n] of the status. *)
Definition status_bit (res : connect_result) (n : Z) : bool := nz ((cr_status res >> n) .& 1).

Definition connect_failed (res : connect_result) : list Z :=
  let buf := appendf out_cap [] (ok_text false ++ txt "," ++ key_pat (txt "status") ++ fmt_u (cr_status res) ++
    txt "," ++ key_pat (txt "associated") ++ fmt_bool (status_bit res 1) ++
    txt "," ++ key_pat (txt "wpa") ++ fmt_bool (status_bit res 2) ++ txt "," ++ key_pat (txt "error")) in
  let buf := json_str out_cap buf
    (if negb (nz (cr_status res .& 1)) then txt "SSID not found in scan"
     else if negb (status_bit res 1) then txt "association failed"
     else if negb (status_bit res 2) then txt "WPA handshake failed (wrong password?)"
     else txt "data path did not start") in
  appendf out_cap buf (txt "}" ++ nl).
Definition connect_done (res : connect_result) (ifname ssid : list Z) : list Z :=
  let buf := appendf out_cap [] (ok_text true ++ txt "," ++ key_pat (txt "status") ++ fmt_u (cr_status res) ++
    txt "," ++ key_pat (txt "channel") ++ fmt_u (cr_channel res) ++ txt "," ++ key_pat (txt "ifname")) in
  let buf := json_str out_cap buf ifname in
  let buf := appendf out_cap buf (txt "," ++ key_pat (txt "ssid")) in
  let buf := json_str out_cap buf ssid in
  appendf out_cap buf (txt "," ++ key_pat (txt "mac") ++ dq ++ fmt_mac (cr_mac res) ++ dq ++ txt "}" ++ nl).

Section Inet.
Context `{Inet}.

(** Remembering the network that was joined. *)
Definition remember (ssid pass : list Z) : dprog unit :=
  call CfgLock;;
  c ← call GetCfg;
  let '(_, c) := config_set_network (Some ssid) (Some pass) c in
  call (PutCfg c);;
  lift_io (config_save RTWD_CONF_PATH c);;
  call CfgUnlock;;
  mret ().

(** A string argument that is there and not empty. *)
Definition given (s : option (list Z)) : option (list Z) :=
  match s with Some (b :: s) => Some (b :: s) | _ => None end.

Definition cmd_connect (ssid pass : option (list Z)) (nosave : bool) : dprog (list Z) :=
  match given ssid with
  | None => mret (err_line "missing ssid")
  | Some ssid =>
      off ← call GetRadioOff;
      if off : bool then mret (err_line "radio is off") else
      use_pass ← (match given pass with Some p => mret (Some p) | None => saved_password ssid end);
      call (SetUserOff false);;
      '(rc, res) ← kconnect ssid (default [] use_pass);
      if rc =? -2 then mret (err_line "kext not reachable") else
      if negb (rc =? 0) || negb (status_bit res 3) then mret (connect_failed res) else
      match given use_pass with
      | Some p => if nosave then mret () else remember ssid p
      | None => mret ()
      end;;
      ifname ← call (DataOnline (cr_mac res));
      mret (connect_done res ifname ssid)
  end.

(** ** The other commands *)

Definition cmd_disconnect : dprog (list Z) :=
  call (SetUserOff true);;
  call KextLock;;
  ok ← call HwOpen;
  if negb ok then
    call KextUnlock;;
    mret (err_line "kext not reachable")
  else
    rc ← call KDisconnect;
    call HwClose;;
    call KextUnlock;;
    mret (ok_line rc).

Definition cmd_forget (ssid : option (list Z)) : dprog (list Z) :=
  match given ssid with
  | None => mret (err_line "missing ssid")
  | Some ssid =>
      call CfgLock;;
      c ← call GetCfg;
      let '(rc, c) := config_forget_network ssid c in
      call (PutCfg c);;
      let found := rc =? 0 in
      (if found then _ ← lift_io (config_save RTWD_CONF_PATH c); mret () else mret ());;
      call CfgUnlock;;
      mret (ok_line found)
  end.

(** [strcasecmp] with a word in lower case *)
Definition lower (b : Z) : Z := if (0x41 <=? b) && (b <=? 0x5a) then b + 0x20 else b.
Definition is_word (s : list Z) (w : string) : bool := is_txt (map lower s) w.
Arguments is_word _ _%_string_scope.

Definition cmd_power (arg : option (list Z)) : dprog (list Z) :=
  let on := match arg with Some s => is_word s "on" || is_txt s "1" || is_word s "true" | None => false end in
  let off := match arg with Some s => is_word s "off" || is_txt s "0" || is_word s "false" | None => false end in
  if negb on && negb off then mret (err_line "expected on|off") else
  (if on then
     call (SetRadioOff false);;
     call (SetUserOff false);;
     call FlagUnlink
   else
     call (SetRadioOff true);;
     call (SetUserOff true);;
     call FlagCreate;;
     call KextLock;;
     ok ← call HwOpen;
     (if ok : bool then _ ← call KDisconnect; call HwClose else mret ());;
     call KextUnlock);;
  mret (ok_text true ++ txt "," ++ key_pat (txt "powered") ++ fmt_bool on ++ txt "}" ++ nl).

(** The kernel's state, or nothing if it cannot be asked. *)
Definition kstatus : dprog (option status_result) :=
  call KextLock;;
  ok ← call HwOpen;
  st ← (if ok : bool then st ← call KStatus; call HwClose;; mret st else mret None);
  call KextUnlock;;
  mret st.

Definition status_line (powered : bool) (conn : option (status_result * list Z * list Z)) : list Z :=
  let buf := appendf out_cap [] (ok_text true ++ txt "," ++ key_pat (txt "powered") ++ fmt_bool powered ++
    txt "," ++ key_pat (txt "connected") ++ fmt_bool (match conn with Some _ => true | None => false end)) in
  let buf :=
    match conn with
    | Some (st, ifname, ip) =>
        let buf := appendf out_cap buf (txt "," ++ key_pat (txt "ssid")) in
        let buf := json_str out_cap buf (sr_ssid st) in
        let buf := appendf out_cap buf (txt "," ++ key_pat (txt "channel") ++ fmt_u (sr_channel st) ++
          txt "," ++ key_pat (txt "band") ++ dq ++ band_text (sr_channel st) ++ dq ++ txt "," ++ key_pat (txt "ifname")) in
        let buf := json_str out_cap buf ifname in
        let buf := appendf out_cap buf (txt "," ++ key_pat (txt "ip")) in
        json_str out_cap buf ip
    | None => buf
    end in
  appendf out_cap buf (txt "}" ++ nl).

Definition cmd_status : dprog (list Z) :=
  st ← kstatus;
  conn ← (match st with
          | Some st =>
              if nz (sr_connected st) then
                ifn ← call (FindIfname (sr_mac st));
                match ifn with
                | Some ifname => ip ← call (IfaceIpv4 ifname); mret (Some (st, ifname, ip))
                | None => mret (Some (st, [], []))
                end
              else mret None
          | None => mret None
          end);
  off ← call GetRadioOff;
  mret (status_line (negb off) conn).

(** ** One client *)

Definition run_command (cmd : command) : dprog unit :=
  match cmd with
  | CBadArgument => send_all (err_line "bad argument")
  | CScan => cmd_scan
  | CConnect a1 a2 nosave => out ← cmd_connect a1 a2 nosave; send_all out
  | CDisconnect => out ← cmd_disconnect; send_all out
  | CStatus => out ← cmd_status; send_all out
  | CForget a1 => out ← cmd_forget a1; send_all out
  | CPower a1 => out ← cmd_power a1; send_all out
  | CUnknown => send_all (err_line "unknown command")
  end.

(** [allowed]: the answer of [peer_allowed]; [chunks]: what the peer sends. *)
Definition handle_client (allowed : bool) (chunks : list (list Z)) : dprog unit :=
  if negb allowed then send_all (err_line "not authorized") else
  match read_line 256 chunks with
  | TooLong => send_all (err_line "line too long")
  | Incomplete => mret ()
  | Line buf => run_command (parse_request buf)
  end.

(** The accept loop over the clients that come. *)
Fixpoint accept_loop (clients : list (bool * list (list Z))) : dprog unit :=
  match clients with
  | [] => mret ()
  | (allowed, chunks) :: clients => handle_client allowed chunks;; accept_loop clients
  end.

(** ** Auto-connect *)

(** The last of the networks with the most beacons among those saved: its name
    and password, [strlcpy]'d. *)
Definition pick (c : wifi_config) (l : list net_entry) : option (list Z * list Z) * Z :=
  foldl (fun '(found, best) e =>
    match network_match (ssid e) c with
    | Some kn => if best <=? beacons e then (Some (take 32 (c_str (n_ssid kn)), take 63 (c_str (n_password kn))), beacons e) else (found, best)
    | None => (found, best)
    end) (None, 0) l.

(** After a failure: the count and the delay. *)
Definition back_off (fails : Z) : Z * Z :=
  let fails := if fails <? 8 then fails + 1 else fails in
  let mult := if fails <? 3 then 1 << fails else 8 in
  let delay := 15 * mult in
  (if 120 <? delay then 120 else delay, fails).

(** One round of the thread: the next delay and the count of failures. *)
Definition auto_round (delay fails : Z) : dprog (Z * Z) :=
  call (Sleep delay);;
  let delay := 15 in
  call CfgLock;;
  c ← call GetCfg;
  call CfgUnlock;;
  u ← call GetUserOff;
  r ← (if u : bool then mret true else call GetRadioOff);
  if r || (n_nets c =? 0)%nat then mret (delay, 0) else
  st ← kstatus;
  if match st with Some st => nz (sr_connected st) | None => false end then mret (delay, 0) else
  call KextLock;;
  ok ← call HwOpen;
  sr ← (if ok : bool then sr ← call KScan; call HwClose;; mret sr else mret None);
  call KextUnlock;;
  match sr with
  | None | Some [] => mret (delay, fails)
  | Some l =>
      call CfgLock;;
      c ← call GetCfg;
      let found := (pick c l).1 in
      call CfgUnlock;;
      match found with
      | None => mret (delay, fails)
      | Some (name, pass) =>
          u ← call GetUserOff;
          if u : bool then mret (delay, fails) else
          '(rc, res) ← kconnect name pass;
          if (rc =? 0) && status_bit res 3 then
            _ ← call (DataOnline (cr_mac res));
            mret (delay, 0)
          else mret (back_off fails)
      end
  end.

(** The first [rounds] rounds of the thread. *)
Fixpoint auto_connect_thread (rounds : nat) (delay fails : Z) : dprog unit :=
  match rounds with
  | O => mret ()
  | S rounds => '(delay, fails) ← auto_round delay fails; auto_connect_thread rounds delay fails
  end.
End Inet.

(** ** The locks *)

(** What a thread holds: the kernel lock, the open connection, the lock of the
    saved networks. *)
Record held := Held { h_kext : bool; h_open : bool; h_cfg : bool }.
Definition held0 : held := Held false false false.

(** The discipline.  The kernel lock is never asked for under the other one, the
    kernel is only called on an open connection under its lock, the saved
    networks and their file only touched under theirs, and nothing slow is done
    under a lock but talking to the kernel and to the socket. *)
Definition disc (h : held) (o : dop) : dres o -> option held :=
  match o as o return dres o -> option held with
  | KextLock => fun _ => if h_kext h || h_cfg h then None else Some (Held true (h_open h) false)
  | KextUnlock => fun _ => if h_kext h && negb (h_open h) && negb (h_cfg h) then Some held0 else None
  | CfgLock => fun _ => if h_cfg h then None else Some (Held (h_kext h) (h_open h) true)
  | CfgUnlock => fun _ => if h_cfg h then Some (Held (h_kext h) (h_open h) false) else None
  | GetCfg | PutCfg _ | ConfFile _ => fun _ => if h_cfg h then Some h else None
  | HwOpen => fun ok => if h_kext h && negb (h_open h) && negb (h_cfg h) then Some (Held true ok false) else None
  | HwClose => fun _ => if h_kext h && h_open h && negb (h_cfg h) then Some (Held true false false) else None
  | KStatus | KScan | KScanChunk _ _ | KConnect _ _ | KDisconnect =>
      fun _ => if h_kext h && h_open h && negb (h_cfg h) then Some h else None
  | Send _ => fun _ => if h_cfg h then None else Some h
  | GetUserOff | SetUserOff _ | GetRadioOff | SetRadioOff _ | FlagUnlink | FlagCreate => fun _ => Some h
  | Sleep _ | DataOnline _ | FindIfname _ | IfaceIpv4 _ => fun _ => if h_kext h || h_cfg h then None else Some h
  end.
Definition orderly {A} (p : dprog A) (h h' : held) : Prop := cwp disc p h (fun _ h'' => h'' = h').

Lemma orderly_bind {A B} (f : A -> dprog B) (p : dprog A) h1 h2 h3 :
  orderly p h1 h2 -> (forall x, orderly (f x) h2 h3) -> orderly (p ≫= f) h1 h3.
Proof. intros Hp Hf. eapply cwp_bind_post; [exact Hp|]. intros x st ->. apply Hf. Qed.
Lemma orderly_lift {A} (p : io A) h : h_cfg h = true -> orderly (lift_io p) h h.
Proof. intros Hh. induction p as [x|o k IH]; [done|]. intros r. cbn [disc]. rewrite Hh. apply IH. Qed.

#[local] Opaque err_line ok_line ok_text net_line connect_failed connect_done status_line c_str config_set_network
  config_forget_network network_match pick back_off status_bit scan_chans.

Lemma orderly_call {B} o (f : dres o -> dprog B) h h' :
  (forall r, match disc h o r with Some h1 => orderly (f r) h1 h' | None => False end) -> orderly (call o ≫= f) h h'.
Proof. intros H. by apply (cwp_call (R := dres)). Qed.
Ltac dcall p := apply orderly_call; intros p; cbn [disc h_kext h_open h_cfg held0 andb orb negb].

Create HintDb orderly.
Lemma send_orderly text k : orderly (send_all text) (Held k k false) (Held k k false).
Proof.
  unfold send_all. generalize (c_str text) at 2 as s. induction (length (c_str text)) as [|n IH]; intros s; [done|].
  destruct s as [|b s]; [done|]. cbn [send_loop]. dcall w. destruct (w <=? 0); [done|apply IH].
Qed.
Lemma net_line_orderly e : orderly (net_line_of e) (Held true true false) (Held true true false).
Proof. intros [] c []. by cbn. Qed.
Lemma saved_password_orderly s : orderly (saved_password s) held0 held0.
Proof. intros [] c []. by cbn. Qed.
#[export] Hint Resolve send_orderly net_line_orderly saved_password_orderly : orderly.

Lemma send_new_orderly l : forall seen, orderly (send_new l seen) (Held true true false) (Held true true false).
Proof.
  induction l as [|e l IH]; intros seen; [done|]. cbn [send_new]. destruct (existsb _ seen); [apply IH|].
  eapply orderly_bind; [eauto with orderly|intros line]. eapply orderly_bind; [apply send_orderly|intros _]. apply IH.
Qed.
#[export] Hint Resolve send_new_orderly : orderly.
Lemma scan_chunks_orderly n chans : forall off seen begun ended,
  orderly (scan_chunks n chans off seen begun ended) (Held true true false) (Held true true false).
Proof.
  induction n as [|n IH]; intros off seen begun ended; [done|]. cbn [scan_chunks]. destruct (off <? length chans)%nat; [|done].
  dcall r. destruct r as [l|]; [|apply IH]. eapply orderly_bind; [eauto with orderly|intros seen']. apply IH.
Qed.
#[export] Hint Resolve scan_chunks_orderly : orderly.
Lemma cmd_scan_orderly : orderly cmd_scan held0 held0.
Proof.
  unfold cmd_scan. dcall u. dcall c. dcall u'. dcall off. destruct off; [apply (send_orderly _ false)|].
  dcall k. dcall ok. destruct ok; cbn [negb]; [|dcall v; apply (send_orderly _ false)].
  eapply orderly_bind; [apply (send_orderly _ true)|intros _].
  eapply orderly_bind; [eauto with orderly|intros [begun ended]].
  eapply orderly_bind with (h2 := Held true true false); [by destruct begun, ended; [|dcall r|..]|intros _].
  dcall v. dcall w. apply (send_orderly _ false).
Qed.
Lemma kconnect_orderly s p : orderly (kconnect s p) held0 held0.
Proof. intros []. cbn. intros []; cbn; [|by intros []]. intros r. cbn. intros []. cbn. by intros []. Qed.
Lemma kstatus_orderly : orderly kstatus held0 held0.
Proof. intros []. cbn. intros []; cbn; [|by intros []]. intros r. cbn. intros []. cbn. by intros []. Qed.
#[export] Hint Resolve cmd_scan_orderly kconnect_orderly kstatus_orderly : orderly.

Section Inet.
Context `{Inet}.
Lemma remember_orderly s p : orderly (remember s p) held0 held0.
Proof.
  unfold remember. dcall u. dcall c. destruct (config_set_network _ _ c) as [r c']. dcall v.
  eapply orderly_bind; [by apply (orderly_lift _ (Held false false true))|intros z]. by dcall w.
Qed.
Lemma cmd_connect_orderly s p n : orderly (cmd_connect s p n) held0 held0.
Proof.
  unfold cmd_connect. destruct (given s) as [s'|]; [|done]. dcall off. destruct off; [done|].
  eapply orderly_bind with (h2 := held0); [destruct (given p); [done|eauto with orderly]|intros up].
  dcall u. eapply orderly_bind; [eauto with orderly|intros [rc res]].
  destruct (rc =? -2); [done|]. destruct (_ || _); [done|].
  eapply orderly_bind with (h2 := held0); [destruct (given up); [destruct n; [done|apply remember_orderly]|done]|intros _].
  by dcall r.
Qed.
Lemma cmd_disconnect_orderly : orderly cmd_disconnect held0 held0.
Proof. unfold cmd_disconnect. dcall u. dcall k. dcall ok. destruct ok; [dcall rc; dcall v|]; by dcall w. Qed.
Lemma cmd_forget_orderly s : orderly (cmd_forget s) held0 held0.
Proof.
  unfold cmd_forget. destruct (given s) as [s'|]; [|done]. dcall u. dcall c. destruct (config_forget_network s' c) as [r c'].
  dcall v. eapply orderly_bind with (h2 := Held false false true); [|intros _; by dcall w].
  destruct (r =? 0); [|done]. eapply orderly_bind; [by apply orderly_lift|done].
Qed.
Lemma cmd_power_orderly a : orderly (cmd_power a) held0 held0.
Proof.
  unfold cmd_power. cbv zeta. destruct (negb _ && _); [done|].
  eapply orderly_bind with (h2 := held0); [|done]. match goal with |- context [if ?b then _ else _] => destruct b end.
  - dcall u. dcall v. by intros [].
  - dcall u. dcall v. dcall w. dcall k. dcall ok.
    eapply orderly_bind with (h2 := Held true false false); [destruct ok; [dcall rc; by intros []|done]|intros _]. by intros [].
Qed.
Lemma cmd_status_orderly : orderly cmd_status held0 held0.
Proof.
  unfold cmd_status. eapply orderly_bind; [eauto with orderly|intros st].
  eapply orderly_bind with (h2 := held0); [|intros conn; by dcall off].
  destruct st as [st|]; [|done]. destruct (nz _); [|done]. dcall i. destruct i; [by dcall ip|done].
Qed.
Lemma client_orderly allowed chunks : orderly (handle_client allowed chunks) held0 held0.
Proof.
  unfold handle_client. destruct allowed; cbn [negb]; [|apply (send_orderly _ false)].
  destruct (read_line 256 chunks) as [buf| |]; [|apply (send_orderly _ false)|done].
  destruct (parse_request buf); cbn [run_command]; try (apply (send_orderly _ false)); [apply cmd_scan_orderly|..];
    (eapply orderly_bind; [|intros out; apply (send_orderly _ false)]).
  - apply cmd_connect_orderly.
  - apply cmd_disconnect_orderly.
  - apply cmd_status_orderly.
  - apply cmd_forget_orderly.
  - apply cmd_power_orderly.
Qed.
Lemma accept_orderly clients : orderly (accept_loop clients) held0 held0.
Proof.
  induction clients as [|[a c] clients IH]; [done|]. cbn [accept_loop]. eapply orderly_bind; [apply client_orderly|intros _; exact IH].
Qed.

Lemma auto_round_orderly d f : orderly (auto_round d f) held0 held0.
Proof.
  unfold auto_round. cbv zeta. dcall u. dcall v. dcall c. dcall w. dcall off.
  eapply orderly_bind with (h2 := held0); [by destruct off; [|intros r]|intros r]. destruct (r || _); [done|].
  eapply orderly_bind; [eauto with orderly|intros st]. match goal with |- context [if ?b then _ else _] => destruct b end; [done|].
  dcall k. dcall ok. eapply orderly_bind with (h2 := Held true false false).
  { destruct ok; [|done]. dcall l. by dcall x. }
  intros sr. dcall y. destruct sr as [[|e l]|]; [done| |done].
  dcall z. dcall c'. dcall t. destruct (pick c' (e :: l)).1 as [[name pass]|]; [|done].
  dcall u'. destruct u'; [done|]. eapply orderly_bind; [apply kconnect_orderly|intros [rc res]].
  destruct (_ && _); [by dcall i|done].
Qed.
Lemma auto_orderly n : forall d f, orderly (auto_connect_thread n d f) held0 held0.
Proof.
  induction n as [|n IH]; intros d f; [done|]. cbn [auto_connect_thread]. eapply orderly_bind; [apply auto_round_orderly|intros [d' f']; apply IH].
Qed.
End Inet.

(** ** The threads together *)

(** What they share: who holds each lock, whether the connection to the kernel
    is open (one handle for the process), the two switches and the saved
    networks. *)
Record shared := Shared {
  s_kext : option nat; s_cfg : option nat; s_open : bool; s_user_off : bool; s_radio_off : bool; s_nets : wifi_config;
}.

(** One call of thread [i]; a lock that is taken makes it wait.  What the kernel,
    the files and the system answer is left open. *)
Definition sstep (i : nat) (s : shared) (o : dop) : dres o -> shared -> Prop :=
  match o as o return dres o -> shared -> Prop with
  | KextLock => fun _ s' => s_kext s = None /\ s' = Shared (Some i) (s_cfg s) (s_open s) (s_user_off s) (s_radio_off s) (s_nets s)
  | KextUnlock => fun _ s' => s' = Shared None (s_cfg s) (s_open s) (s_user_off s) (s_radio_off s) (s_nets s)
  | CfgLock => fun _ s' => s_cfg s = None /\ s' = Shared (s_kext s) (Some i) (s_open s) (s_user_off s) (s_radio_off s) (s_nets s)
  | CfgUnlock => fun _ s' => s' = Shared (s_kext s) None (s_open s) (s_user_off s) (s_radio_off s) (s_nets s)
  | GetCfg => fun c s' => c = s_nets s /\ s' = s
  | PutCfg c => fun _ s' => s' = Shared (s_kext s) (s_cfg s) (s_open s) (s_user_off s) (s_radio_off s) c
  | GetUserOff => fun b s' => b = s_user_off s /\ s' = s
  | SetUserOff b => fun _ s' => s' = Shared (s_kext s) (s_cfg s) (s_open s) b (s_radio_off s) (s_nets s)
  | GetRadioOff => fun b s' => b = s_radio_off s /\ s' = s
  | SetRadioOff b => fun _ s' => s' = Shared (s_kext s) (s_cfg s) (s_open s) (s_user_off s) b (s_nets s)
  | HwOpen => fun ok s' => s' = Shared (s_kext s) (s_cfg s) ok (s_user_off s) (s_radio_off s) (s_nets s)
  | HwClose => fun _ s' => s' = Shared (s_kext s) (s_cfg s) false (s_user_off s) (s_radio_off s) (s_nets s)
  | _ => fun _ s' => s' = s
  end.

Inductive sys_step : list (dprog unit) * shared -> list (dprog unit) * shared -> Prop :=
| step_at ts s i o k r s' : ts !! i = Some (Call o k) -> sstep i s o r s' -> sys_step (ts, s) (<[i := k r]> ts, s').

(** The daemon as it starts serving: the accept loop and the auto-connect thread,
    with the switch as the flag file had it. *)
Definition daemon_start `{Inet} (clients : list (bool * list (list Z))) (rounds : nat) (radio_off : bool) (c : wifi_config) :
    list (dprog unit) * shared :=
  ([accept_loop clients; auto_connect_thread rounds 3 0], Shared None None false radio_off radio_off c).

(** A thread that holds [h], in state [s]. *)
Record holds_in (i : nat) (h : held) (s : shared) : Prop := {
  hi_kext : h_kext h = true <-> s_kext s = Some i;
  hi_cfg : h_cfg h = true <-> s_cfg s = Some i;
  hi_open : h_open h = h_kext h && s_open s;
}.
Record sys_ok (x : list (dprog unit) * shared) (hs : list held) : Prop := {
  so_len : length hs = length x.1;
  so_orderly i p h : x.1 !! i = Some p -> hs !! i = Some h -> orderly p h held0;
  so_holds i h : hs !! i = Some h -> holds_in i h x.2;
  so_closed : s_kext x.2 = None -> s_open x.2 = false;
  so_kext_owner i : s_kext x.2 = Some i -> (i < length x.1)%nat;
  so_cfg_owner i : s_cfg x.2 = Some i -> (i < length x.1)%nat;
}.

#[local] Set Warnings "-clear-no-such-hyp".
(** The six calls that move a lock or the connection; the others leave both what
    is held and who holds it. *)
Definition moves (o : dop) : bool :=
  match o with KextLock | KextUnlock | CfgLock | CfgUnlock | HwOpen | HwClose => true | _ => false end.
Lemma step_still i h h' s o r s' : moves o = false -> disc h o r = Some h' -> sstep i s o r s' ->
  h' = h /\ s_kext s' = s_kext s /\ s_cfg s' = s_cfg s /\ s_open s' = s_open s.
Proof.
  intros Hm Hd Hs. assert (h' = h) as ->.
  { destruct o; try discriminate Hm; cbn in Hd; repeat case_match; congruence. }
  destruct o; try discriminate Hm; cbn in Hs; first [by subst s'|by destruct Hs as [_ ->]].
Qed.

(** What a call does to the other threads and to the locks as a whole. *)
Definition step_fair (i : nat) (s s' : shared) : Prop :=
  (s_kext s' = None -> s_open s' = false) /\
  (forall j hj, j <> i -> holds_in j hj s -> holds_in j hj s') /\
  (forall j, s_kext s' = Some j -> s_kext s = Some j \/ j = i) /\ (forall j, s_cfg s' = Some j -> s_cfg s = Some j \/ j = i).
Lemma kept_fair i s s' : s_kext s' = s_kext s -> s_cfg s' = s_cfg s -> s_open s' = s_open s ->
  (s_kext s = None -> s_open s = false) -> step_fair i s s'.
Proof.
  intros E1 E2 E3 Hcl. unfold step_fair. rewrite E1, E2, E3. split; [done|]. split; [|auto].
  intros j hj _ []. by constructor; rewrite ?E1, ?E2, ?E3.
Qed.

Lemma not_owner i h s : holds_in i h s -> (h_kext h = false -> s_kext s <> Some i) /\ (h_cfg h = false -> s_cfg s <> Some i).
Proof. intros [Hk Hc _]. split; intros E X; [apply Hk in X|apply Hc in X]; congruence. Qed.

(** A call keeps what its thread holds in step with the shared state, and what
    the other threads hold as it is. *)
Lemma sstep_holds i h h' s o r s' : disc h o r = Some h' -> sstep i s o r s' -> holds_in i h s ->
  (s_kext s = None -> s_open s = false) -> holds_in i h' s' /\ step_fair i s s'.
Proof.
  intros Hd Hs Hi Hcl. destruct (moves o) eqn:Hm.
  2:{ destruct (step_still _ _ _ _ _ _ _ Hm Hd Hs) as (-> & E1 & E2 & E3). split; [|by apply kept_fair].
      destruct Hi. by constructor; rewrite ?E1, ?E2, ?E3. }
  pose proof (not_owner i h s Hi) as [Nk Nc]. destruct Hi as [Hk Hc Ho].
  destruct h as [hk ho hc], s as [sk sc sp u d c]. cbn [h_kext h_open h_cfg s_kext s_cfg s_open] in *.
  destruct o; try discriminate Hm; cbn [disc sstep h_kext h_open h_cfg s_kext s_cfg s_open] in Hd, Hs.
  - destruct Hs as [-> ->]. destruct hk, hc; try discriminate Hd. injection Hd as <-. specialize (Hcl eq_refl). subst sp ho.
    split; [constructor; cbn; naive_solver|]. unfold step_fair. cbn. split; [done|]. split; [|naive_solver].
    intros j hj Hj [A B D]. constructor; cbn in *; naive_solver.
  - subst s'. destruct hk, ho, hc; try discriminate Hd. injection Hd as <-. cbn in Ho. subst sp.
    assert (sk = Some i) as -> by by apply Hk.
    split; [constructor; cbn; naive_solver|]. unfold step_fair. cbn. split; [done|]. split; [|naive_solver].
    intros j hj Hj [A B D]. constructor; cbn in *; naive_solver.
  - destruct Hs as [-> ->]. destruct hc; try discriminate Hd. injection Hd as <-.
    split; [constructor; cbn; naive_solver|]. unfold step_fair. cbn. split; [done|]. split; [|naive_solver].
    intros j hj Hj [A B D]. constructor; cbn in *; naive_solver.
  - subst s'. destruct hc; try discriminate Hd. injection Hd as <-. assert (sc = Some i) as -> by by apply Hc.
    split; [constructor; cbn; naive_solver|]. unfold step_fair. cbn. split; [done|]. split; [|naive_solver].
    intros j hj Hj [A B D]. constructor; cbn in *; naive_solver.
  - subst s'. destruct hk, ho, hc; try discriminate Hd. injection Hd as <-. assert (sk = Some i) as -> by by apply Hk.
    split; [constructor; cbn; naive_solver|]. unfold step_fair. cbn. split; [done|]. split; [|naive_solver].
    intros j hj Hj [A B D]. constructor; cbn in *; [naive_solver..|]. destruct (h_kext hj); [naive_solver|done].
  - subst s'. destruct hk, ho, hc; try discriminate Hd. injection Hd as <-. assert (sk = Some i) as -> by by apply Hk.
    split; [constructor; cbn; naive_solver|]. unfold step_fair. cbn. split; [done|]. split; [|naive_solver].
    intros j hj Hj [A B D]. constructor; cbn in *; [naive_solver..|]. destruct (h_kext hj); [naive_solver|done].
Qed.

Lemma sys_step_ok x y hs : sys_step x y -> sys_ok x hs -> exists hs', sys_ok y hs'.
Proof.
  intros Hstep Hok. destruct Hstep as [ts s i o k r s' Hi Hs]. destruct Hok as [Hl Ho Hh Hcl Hke Hce]. cbn [fst snd] in *.
  pose proof (lookup_lt_Some _ _ _ Hi) as Hlt. destruct (lookup_lt_is_Some_2 hs i) as [h Hhi]; [lia|].
  pose proof (Ho i _ h Hi Hhi r) as Hd. destruct (disc h o r) as [h'|] eqn:E; [|done].
  destruct (sstep_holds i h h' s o r s' E Hs (Hh i h Hhi) Hcl) as (Hi' & Hcl' & Hj & Hk' & Hc').
  exists (<[i := h']> hs). split; cbn [fst snd].
  - by rewrite !length_insert.
  - intros j p hj Hp Hhj. destruct (decide (j = i)) as [Ej|Hne].
    + subst j. rewrite list_lookup_insert_eq in Hp by done. rewrite list_lookup_insert_eq in Hhj by lia. by simplify_eq.
    + rewrite list_lookup_insert_ne in Hp by done. rewrite list_lookup_insert_ne in Hhj by done. by eapply Ho.
  - intros j hj Hhj. destruct (decide (j = i)) as [Ej|Hne].
    + subst j. rewrite list_lookup_insert_eq in Hhj by lia. by simplify_eq.
    + rewrite list_lookup_insert_ne in Hhj by done. apply Hj; [done|]. by apply Hh.
  - exact Hcl'.
  - intros j Hj'. rewrite length_insert. apply Hk' in Hj' as [Hj'| ->]; [by apply Hke|done].
  - intros j Hj'. rewrite length_insert. apply Hc' in Hj' as [Hj'| ->]; [by apply Hce|done].
Qed.
Lemma sys_reachable_ok x y hs : rtc sys_step x y -> sys_ok x hs -> exists hs', sys_ok y hs'.
Proof.
  intros H. revert hs. induction H as [x|x y z Hxy _ IH]; intros hs Hok; [by exists hs|].
  apply (sys_step_ok x y hs Hxy) in Hok as [hs' Hok]. by eapply IH.
Qed.

Section Inet.
Context `{Inet}.
Lemma daemon_start_ok clients rounds off c : sys_ok (daemon_start clients rounds off c) [held0; held0].
Proof.
  split; cbn [daemon_start fst snd]; [done| | |done|done|done].
  - intros [|[|i]] p h Hp Hh; cbn in Hp, Hh; simplify_eq; [apply accept_orderly|apply auto_orderly].
  - intros [|[|i]] h Hh; cbn in Hh; simplify_eq; by constructor.
Qed.

(** The calls that drive the kernel, and those on the saved networks and their
    file. *)
Definition kernel_call (o : dop) : bool :=
  match o with KStatus | KScan | KScanChunk _ _ | KConnect _ _ | KDisconnect => true | _ => false end.
Definition nets_call (o : dop) : bool := match o with GetCfg | PutCfg _ | ConfFile _ => true | _ => false end.

(** An answer to each call, to see what the discipline asks of it. *)
Definition some_answer (o : dop) : dres o :=
  match o as o return dres o with
  | GetCfg => g_cfg0
  | ConfFile _ | GetUserOff | GetRadioOff | HwOpen | KDisconnect => false
  | KStatus | KScan | KScanChunk _ _ | KConnect _ _ | FindIfname _ => None
  | DataOnline _ | IfaceIpv4 _ => []
  | Send text => Z.of_nat (length text)
  | _ => tt
  end.
Lemma disc_kernel h o r h' : disc h o r = Some h' -> kernel_call o = true -> h_kext h = true /\ h_open h = true.
Proof. destruct o; try done; cbn; by destruct (h_kext h), (h_open h). Qed.
Lemma disc_nets h o r h' : disc h o r = Some h' -> nets_call o = true -> h_cfg h = true.
Proof. destruct o; try done; cbn; by destruct (h_cfg h). Qed.

(** C23: while the daemon serves any clients and its auto-connect thread runs, in
    every interleaving of the two: a thread about to drive the kernel holds the
    kernel lock and the process's connection is open, so no other thread can
    close it or drive the kernel at the same time; and a thread about to read or
    change the saved networks or their file holds their lock. *)
Theorem daemon_exclusive (clients : list (bool * list (list Z))) (rounds : nat) (off : bool) (c : wifi_config)
    (ts : list (dprog unit)) (s : shared) (i : nat) (o : dop) (k : dres o -> dprog unit) :
  rtc sys_step (daemon_start clients rounds off c) (ts, s) -> ts !! i = Some (Call o k) ->
  (kernel_call o = true -> s_kext s = Some i /\ s_open s = true) /\ (nets_call o = true -> s_cfg s = Some i).
Proof.
  intros Hr Hi. destruct (sys_reachable_ok _ _ _ Hr (daemon_start_ok clients rounds off c)) as [hs Hok].
  destruct Hok as [Hl Ho Hh _ _ _]. cbn [fst snd] in *. pose proof (lookup_lt_Some _ _ _ Hi) as Hlt.
  destruct (lookup_lt_is_Some_2 hs i) as [h Hhi]; [lia|]. pose proof (Ho i _ h Hi Hhi (some_answer o)) as Hd.
  destruct (disc h o (some_answer o)) as [h'|] eqn:E; [|done]. destruct (Hh i h Hhi) as [Hk Hc Hop]. split.
  - intros H1. destruct (disc_kernel _ _ _ _ E H1) as [H2 H3]. split; [by apply Hk|]. rewrite H2, H3 in Hop. by destruct (s_open s).
  - intros H1. apply Hc. by eapply disc_nets.
Qed.

(** A call that waits for no lock can be made. *)
Definition waits (o : dop) : bool := match o with KextLock | CfgLock => true | _ => false end.
Lemma can_step i s o : waits o = false -> exists r s', sstep i s o r s'.
Proof.
  intros Hw. destruct o; try discriminate Hw; try (exists (some_answer _); eexists; reflexivity).
  - exists (s_nets s), s. done.
  - exists (s_user_off s), s. done.
  - exists (s_radio_off s), s. done.
Qed.
Lemma disc_waits h o r h' : disc h o r = Some h' -> waits o = true -> h_cfg h = false /\ (o = KextLock -> h_kext h = false).
Proof. destruct o; try done; cbn; by destruct (h_kext h), (h_cfg h). Qed.

Lemma done_or_next (ts : list (dprog unit)) :
  Forall (fun p => exists x, p = Done x) ts \/ exists i o k, ts !! i = Some (Call o k).
Proof.
  induction ts as [|[x|o k] ts [IH|(i & o' & k' & Hi)]]; [by left|left; by constructor; [exists x|]|right; by exists (S i), o', k'|right; by exists 0%nat, o, k..].
Qed.
(** A thread that holds something has a next call, and one that does not wait
    for a lock it may not wait for. *)
Lemma holder_next (p : dprog unit) h : orderly p h held0 -> h <> held0 ->
  exists o k, p = Call o k /\ (waits o = true -> h_cfg h = false /\ (o = KextLock -> h_kext h = false)).
Proof.
  intros Hp Hne. destruct p as [x|o k]; [by destruct Hne|]. exists o, k. split; [done|]. intros Hw.
  specialize (Hp (some_answer o)). destruct (disc h o (some_answer o)) eqn:E; [|done]. by eapply disc_waits.
Qed.

(** C24: the daemon never deadlocks: in every state it can reach, either both
    threads are done or some thread can make its next call. *)
Theorem daemon_no_deadlock (clients : list (bool * list (list Z))) (rounds : nat) (off : bool) (c : wifi_config)
    (ts : list (dprog unit)) (s : shared) :
  rtc sys_step (daemon_start clients rounds off c) (ts, s) ->
  Forall (fun p => exists x, p = Done x) ts \/ exists y, sys_step (ts, s) y.
Proof.
  intros Hr. destruct (sys_reachable_ok _ _ _ Hr (daemon_start_ok clients rounds off c)) as [hs Hok].
  destruct Hok as [Hl Ho Hh _ Hke Hce]. cbn [fst snd] in *.
  assert (Hgo : forall i o k, ts !! i = Some (Call o k) -> (exists r s', sstep i s o r s') -> exists y, sys_step (ts, s) y).
  { intros i o k Hi (r & s' & Hs). eexists. by eapply step_at. }
  assert (Hnext : forall i, (i < length ts)%nat -> (s_cfg s = Some i \/ s_kext s = Some i) -> exists h o k, ts !! i = Some (Call o k) /\
    holds_in i h s /\ (waits o = true -> h_cfg h = false /\ (o = KextLock -> h_kext h = false))).
  { intros i Hi Hown. destruct (lookup_lt_is_Some_2 ts i Hi) as [p Hp]. destruct (lookup_lt_is_Some_2 hs i) as [h Hhi]; [lia|].
    pose proof (Hh i h Hhi) as Hhold. destruct (holder_next p h) as (o & k & -> & Hw); [by eapply Ho| |by exists h, o, k].
    intros ->. destruct Hhold as [A B _]. destruct Hown as [X|X]; [apply B in X|apply A in X]; done. }
  destruct (s_cfg s) as [i|] eqn:Ec.
  { right. destruct (Hnext i) as (h & o & k & Hi & Hhold & Hw); [by apply Hce|by left|]. apply (Hgo i o k Hi).
    apply can_step. destruct (waits o) eqn:Ew; [|done]. destruct (Hw eq_refl) as [Hc _]. destruct Hhold as [_ B _].
    rewrite Ec in B. rewrite Hc in B. destruct B as [_ B]. by specialize (B eq_refl). }
  destruct (s_kext s) as [i|] eqn:Ek.
  { right. destruct (Hnext i) as (h & o & k & Hi & Hhold & Hw); [by apply Hke|by right|]. apply (Hgo i o k Hi).
    destruct (waits o) eqn:Ew; [|by apply can_step]. destruct (Hw eq_refl) as [_ Hk].
    assert (h_kext h = true) as Hk' by (apply Hhold; exact Ek).
    destruct o; try discriminate Ew; [by specialize (Hk eq_refl); congruence|]. exists tt. eexists. by split. }
  destruct (done_or_next ts) as [Hd|(i & o & k & Hi)]; [by left|right]. apply (Hgo i o k Hi).
  destruct (waits o) eqn:Ew; [|by apply can_step]. destruct o; try discriminate Ew; exists tt; eexists; by split.
Qed.
End Inet.

(** ** What the auto-connect thread may join *)

Definition known (c : wifi_config) (e : net_entry) : Prop := network_match (ssid e) c <> None.

(** Network [e] of the scan is saved under the name and password, as the arrays hold
    them, and no saved network was heard more. *)
Definition strongest_saved (c : wifi_config) (l : list net_entry) (name pass : list Z) (e : net_entry) : Prop :=
  match network_match (ssid e) c with
  | Some kn => name = take 32 (c_str (n_ssid kn)) /\ pass = take 63 (c_str (n_password kn)) /\
      Forall (fun e' => match network_match (ssid e') c with Some _ => beacons e' <= beacons e | None => True end) l
  | None => False
  end.
#[export] Instance strongest_saved_dec c l name pass e : Decision (strongest_saved c l name pass e).
Proof.
  assert (Hd : forall e', Decision (match network_match (ssid e') c with Some _ => beacons e' <= beacons e | None => True end)) by (intros e'; destruct (network_match (ssid e') c); apply _).
  unfold strongest_saved. destruct (network_match (ssid e) c); apply _.
Defined.
(** What may be joined, of the saved networks and a scan. *)
Definition may_join (c : wifi_config) (l : list net_entry) (name pass : list Z) : Prop := Exists (strongest_saved c l name pass) l.
#[export] Instance may_join_dec c l name pass : Decision (may_join c l name pass).
Proof. unfold may_join. apply _. Defined.

#[local] Transparent pick.
Lemma pick_may_join c l name pass : (pick c l).1 = Some (name, pass) -> may_join c l name pass.
Proof.
  enough (H : match pick c l with
    | (Some (name, pass), best) => exists e kn, e ∈ l /\ network_match (ssid e) c = Some kn /\ best = beacons e /\
        name = take 32 (c_str (n_ssid kn)) /\ pass = take 63 (c_str (n_password kn)) /\
        forall e', e' ∈ l -> known c e' -> beacons e' <= beacons e
    | (None, best) => best = 0 /\ forall e, e ∈ l -> known c e -> beacons e < 0
    end).
  { destruct (pick c l) as [[[name' pass']|] best]; cbn [fst]; [|done]. intros [= <- <-]. destruct H as (e & kn & H1 & H2 & _ & -> & -> & H3).
    apply List.Exists_exists. exists e. split; [by apply list_elem_of_In|]. unfold strongest_saved. rewrite H2. do 2 (split; [done|]). apply List.Forall_forall. intros e' He'%list_elem_of_In.
    specialize (H3 e' He'). unfold known in H3. destruct (network_match (ssid e') c); [by apply H3|done]. }
  unfold pick. clear name pass. induction l as [|e l IH] using rev_ind; [split; [done|]; by intros e ?%not_elem_of_nil|].
  rewrite foldl_app. cbn [foldl].
  destruct (foldl _ _ l) as [[[name pass]|] best]; destruct (network_match (ssid e) c) as [kn|] eqn:En.
  - destruct IH as (e0 & kn0 & Hin & Hm & -> & Hn & Hp & Hmax). destruct (Z.leb_spec (beacons e0) (beacons e)) as [Hb|Hb].
    + exists e, kn. split; [apply elem_of_app; right; by left|]. do 4 (split; [done|]). intros e' [Hin'| ->%list_elem_of_singleton]%elem_of_app Hk; [|lia].
      specialize (Hmax e' Hin' Hk). lia.
    + exists e0, kn0. split; [apply elem_of_app; by left|]. do 4 (split; [done|]).
      intros e' [Hin'| ->%list_elem_of_singleton]%elem_of_app Hk; [by apply Hmax|lia].
  - destruct IH as (e0 & kn0 & Hin & Hm & -> & Hn & Hp & Hmax). exists e0, kn0. split; [apply elem_of_app; by left|].
    do 4 (split; [done|]). intros e' [Hin'| ->%list_elem_of_singleton]%elem_of_app Hk; [by apply Hmax|unfold known in Hk; by rewrite En in Hk].
  - destruct IH as [-> Hno]. destruct (Z.leb_spec 0 (beacons e)).
    + exists e, kn. split; [apply elem_of_app; right; by left|].
      do 4 (split; [done|]). intros e' [Hin'| ->%list_elem_of_singleton]%elem_of_app Hk; [|lia]. specialize (Hno e' Hin' Hk). lia.
    + split; [done|]. intros e' [Hin'| ->%list_elem_of_singleton]%elem_of_app Hk; [by apply Hno|lia].
  - destruct IH as [-> Hno]. split; [done|]. intros e' [Hin'| ->%list_elem_of_singleton]%elem_of_app Hk; [by apply Hno|unfold known in Hk; by rewrite En in Hk].
Qed.
#[local] Opaque pick.

(** The wait after the failures before this one: 30, 60, then 120 seconds. *)
Definition wait_after (fails : Z) : Z := if fails =? 0 then 30 else if fails =? 1 then 60 else 120.
Lemma back_off_waits fails : 0 <= fails <= 8 -> back_off fails = (wait_after fails, Z.min 8 (fails + 1)).
Proof.
  intros Hf. assert (Hall : forallb (fun f => bool_decide (back_off f = (wait_after f, Z.min 8 (f + 1)))) (seqZ 0 9) = true) by by vm_compute.
  rewrite forallb_forall in Hall. specialize (Hall fails). apply (bool_decide_eq_true (back_off fails = _)). apply Hall, list_elem_of_In, elem_of_seqZ. lia.
Qed.

(** The last thing heard of each: the switch the user turns, the saved networks,
    the scan; and how an attempt to join ended, if one was made: the kernel was not
    there for it, or did or did not answer that the data path came up. *)
Record heard := Heard { l_off : option bool; l_cfg : option wifi_config; l_scan : option (list net_entry); l_join : option bool }.
Definition joined_up (r : option connect_result) : bool := match r with Some res => status_bit res 3 | None => false end.
Definition auto_mon (st : heard) (o : dop) : dres o -> option heard :=
  match o as o return dres o -> option heard with
  | GetUserOff => fun b => Some (Heard (Some b) (l_cfg st) (l_scan st) (l_join st))
  | GetCfg => fun c => Some (Heard (l_off st) (Some c) (l_scan st) (l_join st))
  | KScan => fun r => Some (Heard (l_off st) (l_cfg st) r (l_join st))
  | HwOpen => fun ok =>
      Some (Heard (l_off st) (l_cfg st) (l_scan st) (match l_scan st with Some _ => if ok : bool then l_join st else Some false | None => l_join st end))
  | KConnect name pass => fun r =>
      match l_off st, l_cfg st, l_scan st, l_join st with
      | Some false, Some c, Some l, None =>
          if decide (may_join c l name pass) then Some (Heard (l_off st) (l_cfg st) (l_scan st) (Some (joined_up r))) else None
      | _, _, _, _ => None
      end
  | KDisconnect | KScanChunk _ _ | PutCfg _ | ConfFile _ | SetUserOff _ | SetRadioOff _ | FlagUnlink | FlagCreate | Send _ => fun _ => None
  | _ => fun _ => Some st
  end.
Definition heard0 : heard := Heard None None None None.

Lemma kstatus_auto st : l_scan st = None -> cwp auto_mon kstatus st (fun _ st' => st' = st).
Proof. destruct st as [a b c d]. cbn. intros -> []. cbn. intros []; cbn; [|by intros []]. intros r. cbn. intros []. cbn. by intros []. Qed.

Ltac acall p := apply (cwp_call (R := dres)); intros p; cbn [auto_mon l_off l_cfg l_scan l_join].

(** C25: a round of the auto-connect thread makes one attempt to join at most, and
    to nothing but a network of the scan it has just made that is saved, in the
    networks as it read them after that scan, under the name and with the password
    it uses, and than which no saved network of that scan was heard more; and only
    if the user's switch, read last, did not forbid it.  It changes no switch and no
    saved network.  After an attempt that failed, the kernel gone, the call refused
    or no data path at the end of it, it waits 30 seconds the first time, 60 the
    second, then 120 every time, and counts the failure, up to 8; after one that
    succeeded it waits 15 and forgets the failures; after none it waits 15. *)
Theorem auto_round_policy `{Inet} (delay fails : Z) : 0 <= fails <= 8 ->
  cwp auto_mon (auto_round delay fails) heard0 (fun x st =>
    match l_join st with
    | Some false => x = (wait_after fails, Z.min 8 (fails + 1))
    | Some true => x = (15, 0)
    | None => x.1 = 15 /\ (x.2 = 0 \/ x.2 = fails)
    end).
Proof.
  intros Hf. unfold auto_round, heard0. cbv zeta. acall u0. acall u1. acall c. acall u2. acall u.
  eapply cwp_bind_post with (P := fun _ st => st = Heard (Some u) (Some c) None None); [by destruct u; [|intros r]|].
  intros r st ->. destruct (r || _); [by cbn; auto|].
  eapply cwp_bind_post; [by apply kstatus_auto|]. intros st' ? ->.
  match goal with |- context [if ?b then _ else _] => destruct b end; [by cbn; auto|].
  acall u3. acall ok.
  eapply cwp_bind_post with (P := fun (sr : option (list net_entry)) st => l_off st = Some u /\ l_join st = None /\ (forall l, sr = Some l -> l_scan st = Some l)).
  { destruct ok; [|by split]. acall l. acall u4. by split; [|split; [|intros l' ->]]. }
  intros sr st (Hoff & Hj & Hsr). acall u4. destruct sr as [[|e l]|]; [by cbn; rewrite Hj; auto| |by cbn; rewrite Hj; auto].
  specialize (Hsr _ eq_refl). acall u5. acall c'. acall u6.
  destruct ((pick c' (e :: l)).1) as [[name pass]|] eqn:Ep; [|by cbn; rewrite Hj; auto].
  acall u7. destruct u7; [by cbn; rewrite Hj; auto|]. apply pick_may_join in Ep. rewrite Hsr, Hj.
  eapply cwp_bind_post with (P := fun x st => l_join st = Some ((x.1 =? 0) && status_bit x.2 3)).
  { unfold kconnect. acall w1. acall ok'. destruct ok'; cbn [negb]; [|by acall w2]. acall r'.
    rewrite decide_True by done. acall w2. acall w3. cbn. by destruct r' as [res|]. }
  intros [rc res] st2 Hst. cbn [fst snd] in Hst. destruct (_ && _); [intros i; cbn; by rewrite Hst|].
  cbn. rewrite Hst. by apply back_off_waits.
Qed.

(** ** What a scan asks of the kernel *)

(** The requests a channel list makes: the first begins, the last ends. *)
Fixpoint scan_plan (n : nat) (chans : list Z) (off : nat) : list (Z * list Z) :=
  match n with
  | O => []
  | S n =>
      if (off <? length chans)%nat then
        ((if (off =? 0)%nat then RTW_SCAN_F_BEGIN else 0) .| (if (length chans <=? off + CHUNK)%nat then RTW_SCAN_F_END else 0),
         take (if (off + CHUNK <=? length chans)%nat then CHUNK else (length chans - off)%nat) (drop off chans)) ::
        scan_plan n chans (off + CHUNK)
      else []
  end.

(** What is seen of a scan: the configured band, as first read, whether the kernel
    was reached, and the requests made with whether each succeeded. *)
Definition scan_log : Type := list (Z * list Z * bool).
Record scan_seen := ScanSeen { sn_band : option Z; sn_open : bool; sn_log : scan_log }.
Definition scan_mon (st : scan_seen) (o : dop) : dres o -> option scan_seen :=
  match o as o return dres o -> option scan_seen with
  | GetCfg => fun c => Some (ScanSeen (Some (default (c_band c) (sn_band st))) (sn_open st) (sn_log st))
  | HwOpen => fun ok => Some (ScanSeen (sn_band st) ok (sn_log st))
  | KScanChunk flags ch => fun r =>
      Some (ScanSeen (sn_band st) (sn_open st) (sn_log st ++ [(flags, ch, match r with Some _ => true | None => false end)]))
  | _ => fun _ => Some st
  end.
Ltac lcall p := apply (cwp_call (R := dres)); intros p; cbn [scan_mon default sn_band sn_open sn_log from_option id].

Lemma send_unseen text st : cwp scan_mon (send_all text) st (fun _ st' => st' = st).
Proof.
  unfold send_all. generalize (c_str text) at 2 as s. induction (length (c_str text)) as [|n IH]; intros s; [done|].
  destruct s as [|b s]; [done|]. cbn [send_loop]. lcall w. destruct (w <=? 0); [done|apply IH].
Qed.
Lemma send_new_quiet l band : forall seen log, cwp scan_mon (send_new l seen) (ScanSeen (Some band) true log) (fun _ st => st = (ScanSeen (Some band) true log)).
Proof.
  induction l as [|e l IH]; intros seen log; [done|]. cbn [send_new]. destruct (existsb _ seen); [apply IH|].
  unfold net_line_of. apply cwp_bind. lcall u. lcall c. lcall v. cbn [cwp calls_bind].
  eapply cwp_bind_post; [apply send_unseen|]. intros _ st ->. apply IH.
Qed.

(** Whatever fails, the plan is carried out; [begun] says whether a request
    succeeded, [ended] whether the one that ends did. *)
Definition ends (x : Z * list Z * bool) : bool := nz ((x.1).1 .& RTW_SCAN_F_END) && x.2.
Lemma scan_chunks_plan n chans band : forall off seen begun ended log,
  cwp scan_mon (scan_chunks n chans off seen begun ended) (ScanSeen (Some band) true log) (fun x st => exists m, st = ScanSeen (Some band) true (log ++ m) /\
    fst <$> m = scan_plan n chans off /\ x.1 = begun || existsb snd m /\ x.2 = ended || existsb ends m).
Proof.
  induction n as [|n IH]; intros off seen begun ended log; cbn [scan_chunks scan_plan];
    [exists []; rewrite app_nil_r, !orb_false_r; done|].
  destruct (off <? length chans)%nat; [|exists []; by rewrite app_nil_r, !orb_false_r].
  set (flags := _ .| _). set (ch := take _ _). lcall r.
  destruct r as [l|].
  - eapply cwp_bind_post; [apply send_new_quiet|]. intros seen' ? ->. eapply cwp_mono; [apply IH|].
    intros x st (m & -> & Hm & H1 & H2). exists ((flags, ch, true) :: m). rewrite <- app_assoc. split; [done|].
    split; [by rewrite fmap_cons, Hm|]. split; [by rewrite H1, orb_true_r|]. rewrite H2. cbn [existsb]. unfold ends at 2, flags. cbn [fst snd]. destruct (off =? 0)%nat, (length chans <=? off + CHUNK)%nat; cbn; by rewrite ?orb_true_r.
  - eapply cwp_mono; [apply IH|]. intros x st (m & -> & Hm & H1 & H2). exists ((flags, ch, false) :: m). rewrite <- app_assoc.
    split; [done|]. split; [by rewrite fmap_cons, Hm|]. cbn [existsb]. split; [by rewrite H1|]. rewrite H2. unfold ends at 2. cbn [snd]. by rewrite andb_false_r.
Qed.

#[local] Transparent scan_chans.
(** The plan covers the band, in chunks the request holds. *)
Definition plan_good (band : Z) : bool :=
  let chans := scan_chans band in
  let plan := scan_plan (length chans) chans 0 in
  bool_decide (concat (snd <$> plan) = chans) && forallb (fun x => (0 <? length x.2)%nat && (length x.2 <=? 40)%nat) plan &&
  bool_decide (fst <$> plan = RTW_SCAN_F_BEGIN :: replicate (length plan - 2) 0 ++ [RTW_SCAN_F_END]).
Lemma plan_all band : plan_good band = true.
Proof.
  unfold plan_good, scan_chans. destruct (band =? BAND_24) eqn:E1, (band =? BAND_5) eqn:E2; try (by vm_compute).
  apply Z.eqb_eq in E1, E2. by rewrite E1 in E2.
Qed.
#[local] Opaque scan_chans.

(** The requests [m] carry out the plan of [band]. *)
Definition carries_out (band : Z) (plan : list (Z * list Z)) : Prop :=
  concat (snd <$> plan) = scan_chans band /\ Forall (fun x => (0 < length x.2 <= 40)%nat) plan /\
  fst <$> plan = RTW_SCAN_F_BEGIN :: replicate (length plan - 2) 0 ++ [RTW_SCAN_F_END].
Lemma plan_carries band : carries_out band (scan_plan (length (scan_chans band)) (scan_chans band) 0).
Proof.
  pose proof (plan_all band) as H. unfold plan_good in H. apply andb_prop in H as [H H3]. apply andb_prop in H as [H1 H2].
  split; [by apply bool_decide_eq_true in H1|]. split; [|by apply bool_decide_eq_true in H3].
  rewrite forallb_forall in H2. apply List.Forall_forall. intros x Hx. apply H2, andb_prop in Hx as [A B].
  apply Nat.ltb_lt in A. apply Nat.leb_le in B. by split.
Qed.

(** What a scan asks of the kernel.  If the radio is off or the kernel is
    not there, nothing.  Otherwise, whatever the kernel answers to each request:
    every channel of the configured band once, in order, in requests of 1 to 40
    channels, the first marked as the beginning and the last as the end; and then,
    exactly when some request succeeded but the one that ends did not, a request
    of its own that ends the session, so that a scan the kernel began is never
    left open because a chunk failed. *)
Theorem scan_requests :
  cwp scan_mon cmd_scan (ScanSeen None false []) (fun _ st => exists band, sn_band st = Some band /\
    if sn_open st then exists m, carries_out band (fst <$> m) /\
      (if existsb snd m && negb (existsb ends m) then exists ok, sn_log st = m ++ [(RTW_SCAN_F_END, [], ok)] else sn_log st = m)
    else sn_log st = []).
Proof.
  unfold cmd_scan. lcall u. lcall c. lcall v. lcall off. destruct off; [eapply cwp_mono; [apply send_unseen|]; intros ? ? ->; by exists (c_band c)|].
  lcall w. lcall ok. destruct ok; cbn [negb]; [|lcall x; eapply cwp_mono; [apply send_unseen|]; intros ? ? ->; by exists (c_band c)].
  eapply cwp_bind_post; [apply send_unseen|]. intros ? ? ->.
  eapply cwp_bind_post; [apply scan_chunks_plan|]. intros [begun ended] st (m & -> & Hm & Hb & He). cbn [fst snd] in Hb, He. subst begun ended.
  rewrite !orb_false_l. eapply cwp_bind_post with (P := fun _ st => sn_band st = Some (c_band c) /\ sn_open st = true /\
    (if existsb snd m && negb (existsb ends m) then exists ok, sn_log st = m ++ [(RTW_SCAN_F_END, [], ok)] else sn_log st = m)).
  - destruct (existsb snd m && _); [lcall r; cbn; by split_and!; [..|eexists]|done].
  - intros _ st (H1 & H2 & H3). lcall y. lcall z. eapply cwp_mono; [apply send_unseen|]. intros ? ? ->. exists (c_band c). split; [done|]. rewrite H2. exists m.
    split; [|done]. rewrite Hm. apply plan_carries.
Qed.

(** ** A run *)

(** The answer to a call when the kernel and the system answer [ans]. *)
Definition answer (ans : forall o, dres o) (s : shared) (o : dop) : dres o :=
  match o as o return dres o -> dres o with
  | GetCfg => fun _ => s_nets s
  | GetUserOff => fun _ => s_user_off s
  | GetRadioOff => fun _ => s_radio_off s
  | _ => fun r => r
  end (ans o).
(** The state after it; a lock that is held makes the thread wait. *)
Definition after (i : nat) (s : shared) (o : dop) : dres o -> option shared :=
  match o as o return dres o -> option shared with
  | KextLock => fun _ => match s_kext s with None => Some (Shared (Some i) (s_cfg s) (s_open s) (s_user_off s) (s_radio_off s) (s_nets s)) | _ => None end
  | CfgLock => fun _ => match s_cfg s with None => Some (Shared (s_kext s) (Some i) (s_open s) (s_user_off s) (s_radio_off s) (s_nets s)) | _ => None end
  | KextUnlock => fun _ => Some (Shared None (s_cfg s) (s_open s) (s_user_off s) (s_radio_off s) (s_nets s))
  | CfgUnlock => fun _ => Some (Shared (s_kext s) None (s_open s) (s_user_off s) (s_radio_off s) (s_nets s))
  | PutCfg c => fun _ => Some (Shared (s_kext s) (s_cfg s) (s_open s) (s_user_off s) (s_radio_off s) c)
  | SetUserOff b => fun _ => Some (Shared (s_kext s) (s_cfg s) (s_open s) b (s_radio_off s) (s_nets s))
  | SetRadioOff b => fun _ => Some (Shared (s_kext s) (s_cfg s) (s_open s) (s_user_off s) b (s_nets s))
  | HwOpen => fun ok => Some (Shared (s_kext s) (s_cfg s) ok (s_user_off s) (s_radio_off s) (s_nets s))
  | HwClose => fun _ => Some (Shared (s_kext s) (s_cfg s) false (s_user_off s) (s_radio_off s) (s_nets s))
  | _ => fun _ => Some s
  end.
Lemma after_step ans i s o s' : after i s o (answer ans s o) = Some s' -> sstep i s o (answer ans s o) s'.
Proof. destruct o; cbn; intros H; repeat case_match; by simplify_eq. Qed.

(** The calls of the threads in the order of [sched]. *)
Fixpoint run_sched (ans : forall o, dres o) (sched : list nat) (x : list (dprog unit) * shared) : option (list (dprog unit) * shared) :=
  match sched with
  | [] => Some x
  | i :: sched =>
      match x.1 !! i with
      | Some (Call o k) =>
          let r := answer ans x.2 o in
          match after i x.2 o r with Some s' => run_sched ans sched (<[i := k r]> x.1, s') | None => None end
      | _ => None
      end
  end.
Lemma run_sched_rtc ans sched : forall x y, run_sched ans sched x = Some y -> rtc sys_step x y.
Proof.
  induction sched as [|i sched IH]; intros [ts s] y H; cbn [run_sched fst snd] in H; [by injection H as ->|].
  destruct (ts !! i) as [[|o k]|] eqn:Ei; [done| |done]. destruct (after _ _ _ _) as [s'|] eqn:Ea; [|done].
  eapply rtc_l; [|by apply IH]. eapply step_at; [exact Ei|]. by apply after_step.
Qed.

(** A network in the air, and a daemon that knows it. *)
Definition home_entry : net_entry := NetEntry [2; 0; 0x5e; 0x10; 0; 1] (txt "home" ++ replicate 29 0) 36 9 false true.
Definition quiet (o : dop) : dres o :=
  match o as o return dres o with
  | KScan => Some [home_entry]
  | HwOpen => true
  | KDisconnect => true
  | o => some_answer o
  end.
Definition race_start : list (dprog unit) * shared :=
  daemon_start [(true, [txt "disconnect" ++ nl])] 1 false cfg_example.
(** The auto-connect thread up to where it has read the switch for the last time,
    the whole of the client's command, and the thread's next two calls. *)
Definition race_sched : list nat := replicate 20 1%nat ++ replicate 7 0%nat ++ replicate 2 1%nat.
Definition race_shows (x : list (dprog unit) * shared) : bool :=
  match x.1 with
  | [Done _; Call (KConnect name _) _] => s_user_off x.2 && bool_decide (name = txt "home")
  | _ => false
  end.

(** The switch is read before the kernel lock is taken: a client's disconnect that
    runs in between, and has been answered, does not keep the thread from joining
    the network again. *)
Lemma disconnect_undone : exists ts s pass k,
  rtc sys_step race_start (ts, s) /\ ts !! 0%nat = Some (Done tt) /\ s_user_off s = true /\
  ts !! 1%nat = Some (Call (KConnect (txt "home") pass) k).
Proof.
  destruct (run_sched quiet race_sched race_start) as [x|] eqn:E; [|by vm_compute in E].
  assert (Hs : race_shows x = true).
  { assert (Hr : (race_shows <$> run_sched quiet race_sched race_start) = Some true) by by vm_compute. rewrite E in Hr. by injection Hr. }
  apply run_sched_rtc in E. destruct x as [[|[[]|] [|[|o k] []]] s]; try discriminate Hs; destruct o; try discriminate Hs.
  apply andb_prop in Hs as [H1 H2]. apply bool_decide_eq_true in H2. subst. cbn in H1. by eexists _, s, _, k.
Qed.

(** ** Witnesses *)

(** Three calls into its disconnect, the client's thread drives the kernel. *)
Definition driving (x : list (dprog unit) * shared) : bool :=
  match x.1 with Call KDisconnect _ :: _ => true | _ => false end.
Lemma daemon_exclusive_witness : exists (ts : list (dprog unit)) s k,
  rtc sys_step race_start (ts, s) /\ ts !! 0%nat = Some (Call KDisconnect k) /\ s_kext s = Some 0%nat /\ s_open s = true.
Proof.
  destruct (run_sched quiet (replicate 3 0%nat) race_start) as [x|] eqn:E; [|by vm_compute in E].
  assert (Hs : driving x = true).
  { assert (Hr : (driving <$> run_sched quiet (replicate 3 0%nat) race_start) = Some true) by by vm_compute. rewrite E in Hr. by injection Hr. }
  apply run_sched_rtc in E. destruct x as [[|[|o k] ts] s]; try discriminate Hs. destruct o; try discriminate Hs.
  exists (Call KDisconnect k :: ts), s, k. split; [exact E|]. split; [done|].
  by apply (daemon_exclusive _ _ _ _ (Call KDisconnect k :: ts) s 0 KDisconnect k E).
Defined.

Lemma daemon_no_deadlock_witness : exists y, sys_step race_start y.
Proof.
  destruct (daemon_no_deadlock [(true, [txt "disconnect" ++ nl])] 1 false cfg_example race_start.1 race_start.2 (rtc_refl _ _)) as [H|H];
    [|exact H].
  apply Forall_inv in H as [x H]. discriminate H.
Defined.

Lemma auto_round_policy_witness :
  cwp auto_mon (auto_round 3 8) heard0 (fun x st =>
    match l_join st with
    | Some false => x = (120, 8)
    | Some true => x = (15, 0)
    | None => x.1 = 15 /\ (x.2 = 0 \/ x.2 = 8)
    end).
Proof. apply (auto_round_policy 3 8). lia. Defined.
