(* ===== verification/Reorder.v ===== *)
(** * Reorder: the receive reorder buffer (server/RTW88Server.cpp)

    One window per traffic identifier puts the sub-frames of aggregates back in
    order: 64 slots indexed by the sequence number, a head that slides and a
    100 ms limit on how long a missing frame is waited for.  The code works with
    12-bit sequence numbers; the specification is a buffer over unbounded
    numbers, which the code is proved to implement as long as arrivals stay within
    half the number space of the head.  From it: frames are handed on in order, at
    most once, none is lost, and none waits behind a hole past the limit. *)
From stdpp Require Import gmap sorting.
From S2P Require Import Prelude.
Open Scope Z_scope.
Open Scope rtw_scope.
#[local] Set Warnings "-clear-no-such-hyp".

Definition RTW_BA_TID_NUM : nat := 8.
Definition RTW_BA_WIN_MAX : nat := 64.
Definition RTW_REORDER_SLOT_SZ : Z := 12288.
Definition RTW_REORDER_TIMEOUT_NS : Z := 100 * 1000 * 1000.
Definition RTW_REORDER_IDX (sn : Z) : nat := Z.to_nat (u32 (sn .& (Z.of_nat RTW_BA_WIN_MAX - 1))).

(** ** State *)

(** A null [store] is [None]; a slot's memory is its bytes as far as written. *)
Record ReorderTid := Tid {
  rt_active : bool; rt_started : bool; rt_head : Z; rt_win : Z; rt_stored : Z;
  rt_store : option (list (list Z)); rt_len : list Z; rt_t_ns : list Z; rt_occ : list bool;
}.
Definition reorder_tid0 : ReorderTid :=
  Tid false false 0 0 0 None (replicate RTW_BA_WIN_MAX 0) (replicate RTW_BA_WIN_MAX 0) (replicate RTW_BA_WIN_MAX false).

Definition rtw_sn_less (a b : Z) : bool := 0x800 <? u16 (a - b) .& 0xfff.
Definition rtw_sn_inc (a : Z) : Z := u16 ((a + 1) .& 0xfff).
Definition rtw_sn_sub (a b : Z) : Z := u16 ((a - b) .& 0xfff).

(** The counters of the health log. *)
Record reord_counters := RCnt { gReordBuf : Z; gReordTo : Z; gReordRel : Z; gReordStale : Z; gReordDup : Z }.

(** The window at work: what it has handed to [deliverMpdu], its counters, and
    whether a null store was dereferenced. *)
Record rstate := RS { rs_tid : ReorderTid; rs_out : list (list Z); rs_cnt : reord_counters; rs_null : bool }.

Definition set_tid (t : ReorderTid) (s : rstate) : rstate := RS t (rs_out s) (rs_cnt s) (rs_null s).
Definition set_cnt (c : reord_counters) (s : rstate) : rstate := RS (rs_tid s) (rs_out s) c (rs_null s).
Definition set_head (h : Z) (t : ReorderTid) : ReorderTid :=
  Tid (rt_active t) (rt_started t) h (rt_win t) (rt_stored t) (rt_store t) (rt_len t) (rt_t_ns t) (rt_occ t).
Definition set_started (b : bool) (t : ReorderTid) : ReorderTid :=
  Tid (rt_active t) b (rt_head t) (rt_win t) (rt_stored t) (rt_store t) (rt_len t) (rt_t_ns t) (rt_occ t).
Definition count_buf (c : reord_counters) := RCnt (u64 (gReordBuf c + 1)) (gReordTo c) (gReordRel c) (gReordStale c) (gReordDup c).
Definition count_to (n : Z) (c : reord_counters) := RCnt (gReordBuf c) (u64 (gReordTo c + n)) (gReordRel c) (gReordStale c) (gReordDup c).
Definition count_rel (c : reord_counters) := RCnt (gReordBuf c) (gReordTo c) (u64 (gReordRel c + 1)) (gReordStale c) (gReordDup c).
Definition count_stale (c : reord_counters) := RCnt (gReordBuf c) (gReordTo c) (gReordRel c) (u64 (gReordStale c + 1)) (gReordDup c).
Definition count_dup (c : reord_counters) := RCnt (gReordBuf c) (gReordTo c) (gReordRel c) (gReordStale c) (u64 (gReordDup c + 1)).

Definition occ_at (t : ReorderTid) (idx : nat) : bool := nth idx (rt_occ t) false.
Definition emit (f : list Z) (s : rstate) : rstate := RS (rs_tid s) (rs_out s ++ [f]) (rs_cnt s) (rs_null s).

(** ** Operations *)

Definition deliverSlot (idx : nat) (s : rstate) : rstate :=
  let t := rs_tid s in
  if negb (occ_at t idx) then s else
  let '(f, null) := match rt_store t with
                    | Some st => (take (Z.to_nat (nth idx (rt_len t) 0)) (nth idx st []), rs_null s)
                    | None => ([], true)
                    end in
  RS (Tid (rt_active t) (rt_started t) (rt_head t) (rt_win t) (if nz (rt_stored t) then rt_stored t - 1 else rt_stored t)
        (rt_store t) (rt_len t) (rt_t_ns t) (<[idx := false]> (rt_occ t)))
     (rs_out s ++ [f]) (count_rel (rs_cnt s)) null.

(** The occupied ones of the first [n] slots from the head. *)
Definition deliver_window (n : Z) (s : rstate) : rstate :=
  foldl (fun s k => deliverSlot (RTW_REORDER_IDX (rt_head (rs_tid s) + Z.of_nat k)) s) s (seq 0 (Z.to_nat n)).

(** The loop ends at the first free slot; [fuel] bounds it (64 slots). *)
Fixpoint drain_loop (fuel : nat) (s : rstate) (released : Z) : rstate * Z :=
  match fuel with
  | O => (s, released)
  | S fuel =>
      let idx := RTW_REORDER_IDX (rt_head (rs_tid s)) in
      if negb (occ_at (rs_tid s) idx) then (s, released) else
      let s := deliverSlot idx s in
      let s := set_tid (set_head (rtw_sn_inc (rt_head (rs_tid s))) (rs_tid s)) s in
      drain_loop fuel s (u32 (released + 1))
  end.
Definition drain_fuel : nat := 65.
Definition reorderDrainReady (s : rstate) : rstate * Z := drain_loop drain_fuel s 0.

(** [alloc]: whether the allocation of the store succeeds, if it is made. *)
Definition reorderActivate (ssn win : Z) (alloc : bool) (s : rstate) : rstate :=
  let win := if win <? 1 then 1 else win in
  let win := if Z.of_nat RTW_BA_WIN_MAX <? win then Z.of_nat RTW_BA_WIN_MAX else win in
  let t := rs_tid s in
  let s := match rt_store t with
           | Some _ => if rt_active t && nz (rt_stored t) then deliver_window (rt_win t) s else s
           | None => s
           end in
  let t := rs_tid s in
  let store := match rt_store t with
               | Some st => Some st
               | None => if alloc then Some (replicate RTW_BA_WIN_MAX []) else None
               end in
  match store with
  | None => set_tid (Tid false (rt_started t) (rt_head t) (rt_win t) (rt_stored t) None (rt_len t) (rt_t_ns t) (rt_occ t)) s
  | Some st => set_tid (Tid true false (u16 (ssn .& 0xfff)) win 0 (Some st) (rt_len t) (rt_t_ns t) (replicate RTW_BA_WIN_MAX false)) s
  end.

(** [memcpy] into a slot. *)
Definition put_slot (idx : nat) (f : list Z) (len now : Z) (s : rstate) : rstate :=
  let t := rs_tid s in
  match rt_store t with
  | None => RS t (rs_out s) (rs_cnt s) true
  | Some st =>
      let slot := f ++ drop (length f) (nth idx st []) in
      RS (Tid (rt_active t) (rt_started t) (rt_head t) (rt_win t) (u32 (rt_stored t + 1)) (Some (<[idx := slot]> st))
            (<[idx := len]> (rt_len t)) (<[idx := now]> (rt_t_ns t)) (<[idx := true]> (rt_occ t)))
         (rs_out s) (count_buf (rs_cnt s)) (rs_null s)
  end.

(** A frame beyond the window moves it until the frame is its last. *)
Definition slide (sn : Z) (s : rstate) : rstate :=
  let win := rt_win (rs_tid s) in
  let newhead := rtw_sn_inc (rtw_sn_sub sn win) in
  let steps := rtw_sn_sub newhead (rt_head (rs_tid s)) in
  let steps := if win <? steps then win else steps in
  let s := deliver_window steps s in
  set_tid (set_head newhead (rs_tid s)) s.

(** [f] is the frame: its [len] bytes. *)
Definition reorderInsert (sn : Z) (f : list Z) (now : Z) (s : rstate) : rstate :=
  let len := Z.of_nat (length f) in
  let win := rt_win (rs_tid s) in
  if negb (rt_started (rs_tid s)) && rtw_sn_less sn (rt_head (rs_tid s)) then emit f s else
  let s := set_tid (set_started true (rs_tid s)) s in
  if rtw_sn_less sn (rt_head (rs_tid s)) then set_cnt (count_stale (rs_cnt s)) s else
  let s := if negb (rtw_sn_less sn (u16 ((rt_head (rs_tid s) + win) .& 0xfff))) then slide sn s else s in
  let index := RTW_REORDER_IDX sn in
  if occ_at (rs_tid s) index then set_cnt (count_dup (rs_cnt s)) s else
  if (sn =? rt_head (rs_tid s)) && (rt_stored (rs_tid s) =? 0) then
    let s := set_tid (set_head (rtw_sn_inc (rt_head (rs_tid s))) (rs_tid s)) s in
    emit f (set_cnt (count_rel (rs_cnt s)) s)
  else if RTW_REORDER_SLOT_SZ <? len then emit f s
  else (reorderDrainReady (put_slot index f len now s)).1.

(** The nearest occupied slot behind the head: its distance. *)
Fixpoint first_waiting (t : ReorderTid) (n : nat) (k : Z) : option Z :=
  match n with
  | O => None
  | S n => if occ_at t (RTW_REORDER_IDX (rt_head t + k)) then Some k else first_waiting t n (k + 1)
  end.

(** The sweep of one window; every turn skips to a frame that waits. *)
Fixpoint timeout_loop (fuel : nat) (now : Z) (s : rstate) (released : Z) : rstate * Z :=
  match fuel with
  | O => (s, released)
  | S fuel =>
      let t := rs_tid s in
      if occ_at t (RTW_REORDER_IDX (rt_head t)) then
        let '(s, n) := reorderDrainReady s in (s, u32 (released + n))
      else if rt_stored t =? 0 then (s, released) else
      match first_waiting t (Z.to_nat (rt_win t - 1)) 1 with
      | None => (s, released)
      | Some jdist =>
          if now <=? u64 (nth (RTW_REORDER_IDX (rt_head t + jdist)) (rt_t_ns t) 0 + RTW_REORDER_TIMEOUT_NS) then (s, released)
          else
            let s := set_cnt (count_to jdist (rs_cnt s)) s in
            let s := set_tid (set_head (u16 ((rt_head t + jdist) .& 0xfff)) t) s in
            let '(s, n) := reorderDrainReady s in timeout_loop fuel now s (u32 (released + n))
      end
  end.
Definition timeout_fuel : nat := 65.
Definition reorderTimeout (now : Z) (s : rstate) : rstate * Z :=
  let t := rs_tid s in
  if negb (rt_active t) || (rt_stored t =? 0) then (s, 0) else timeout_loop timeout_fuel now s 0.

Definition reorderDeactivate (s : rstate) : rstate :=
  let t := rs_tid s in
  if negb (rt_active t) then s else
  let s := match rt_store t with Some _ => deliver_window (rt_win t) s | None => s end in
  let t := rs_tid s in
  set_tid (Tid false false (rt_head t) (rt_win t) 0 None (rt_len t) (rt_t_ns t) (rt_occ t)) s.

(** The window's buffer freed, whatever it holds. *)
Definition reorderFree (t : ReorderTid) : ReorderTid :=
  Tid false false (rt_head t) (rt_win t) 0 None (rt_len t) (rt_t_ns t) (rt_occ t).

(** ** Specification: a reorder buffer over unbounded numbers *)

Record rspec := RSpec {
  sp_started : bool; sp_head : Z; sp_win : Z;
  sp_buf : gmap Z (list Z * Z);       (* number -> frame, arrival time *)
  sp_out : list (Z * list Z);         (* what was handed on *)
}.
Definition sp_move (h : Z) (p : rspec) : rspec := RSpec (sp_started p) h (sp_win p) (sp_buf p) (sp_out p).
Definition sp_start (p : rspec) : rspec := RSpec true (sp_head p) (sp_win p) (sp_buf p) (sp_out p).
Definition sp_give (n : Z) (f : list Z) (p : rspec) : rspec :=
  RSpec (sp_started p) (sp_head p) (sp_win p) (sp_buf p) (sp_out p ++ [(n, f)]).
Definition sp_put (n : Z) (f : list Z) (t : Z) (p : rspec) : rspec :=
  RSpec (sp_started p) (sp_head p) (sp_win p) (<[n := (f, t)]> (sp_buf p)) (sp_out p).
(** Hand on number [n], if it waits. *)
Definition sp_take (n : Z) (p : rspec) : rspec :=
  match sp_buf p !! n with
  | Some (f, _) => RSpec (sp_started p) (sp_head p) (sp_win p) (delete n (sp_buf p)) (sp_out p ++ [(n, f)])
  | None => p
  end.
Definition sp_window (n : Z) (p : rspec) : rspec :=
  foldl (fun p k => sp_take (sp_head p + Z.of_nat k) p) p (seq 0 (Z.to_nat n)).
Fixpoint sp_drain (fuel : nat) (p : rspec) : rspec :=
  match fuel with
  | O => p
  | S fuel =>
      match sp_buf p !! sp_head p with
      | None => p
      | Some _ => sp_drain fuel (sp_move (sp_head p + 1) (sp_take (sp_head p) p))
      end
  end.
Definition sp_insert (n : Z) (f : list Z) (now : Z) (p : rspec) : rspec :=
  if negb (sp_started p) && (n <? sp_head p) then sp_give n f p else
  let p := sp_start p in
  if n <? sp_head p then p else
  let p := if n <? sp_head p + sp_win p then p
           else sp_move (n - sp_win p + 1) (sp_window (Z.min (n - sp_win p + 1 - sp_head p) (sp_win p)) p) in
  match sp_buf p !! n with
  | Some _ => p
  | None =>
      if (n =? sp_head p) && bool_decide (sp_buf p = ∅) then sp_give n f (sp_move (n + 1) p)
      else sp_drain drain_fuel (sp_put n f now p)
  end.
(** The same for a frame of any length: one that fits no slot is handed on. *)
Definition sp_insert_any (n : Z) (f : list Z) (now : Z) (p : rspec) : rspec :=
  if negb (sp_started p) && (n <? sp_head p) then sp_give n f p else
  let p := sp_start p in
  if n <? sp_head p then p else
  let p := if n <? sp_head p + sp_win p then p
           else sp_move (n - sp_win p + 1) (sp_window (Z.min (n - sp_win p + 1 - sp_head p) (sp_win p)) p) in
  match sp_buf p !! n with
  | Some _ => p
  | None =>
      if (n =? sp_head p) && bool_decide (sp_buf p = ∅) then sp_give n f (sp_move (n + 1) p)
      else if RTW_REORDER_SLOT_SZ <? Z.of_nat (length f) then sp_give n f p
      else sp_drain drain_fuel (sp_put n f now p)
  end.
Fixpoint sp_first (p : rspec) (n : nat) (k : Z) : option Z :=
  match n with
  | O => None
  | S n => match sp_buf p !! (sp_head p + k) with Some _ => Some k | None => sp_first p n (k + 1) end
  end.
Fixpoint sp_timeout (fuel : nat) (now : Z) (p : rspec) : rspec :=
  match fuel with
  | O => p
  | S fuel =>
      match sp_buf p !! sp_head p with
      | Some _ => sp_drain drain_fuel p
      | None =>
          match sp_first p (Z.to_nat (sp_win p - 1)) 1 with
          | None => p
          | Some k =>
              match sp_buf p !! (sp_head p + k) with
              | Some (_, t) =>
                  if now <=? u64 (t + RTW_REORDER_TIMEOUT_NS) then p
                  else sp_timeout fuel now (sp_drain drain_fuel (sp_move (sp_head p + k) p))
              | None => p
              end
          end
      end
  end.

#[local] Opaque drain_fuel timeout_fuel.

(** ** The numbers *)

Lemma land_low n z : 0 <= n -> z .& (2 ^ n - 1) = z mod 2 ^ n.
Proof. intros Hn. rewrite <- Z.land_ones by done. by rewrite Z.ones_equiv. Qed.
Lemma sn_low z : u16 (z .& 0xfff) = z mod 4096.
Proof.
  rewrite (land_low 12) by lia. change (2 ^ 12) with 4096. apply wrap_small. pose proof (Z.mod_pos_bound z 4096). change (2 ^ 16) with 65536. lia.
Qed.
Lemma u16_mod z : u16 z .& 0xfff = z mod 4096.
Proof.
  rewrite (land_low 12) by lia. unfold wrap. apply Z.mod_mod_divide. by exists 16.
Qed.
Definition ix (n : Z) : nat := Z.to_nat (n mod 64).
Lemma idx_ix z : RTW_REORDER_IDX z = ix z.
Proof.
  unfold RTW_REORDER_IDX, ix. change (Z.of_nat RTW_BA_WIN_MAX - 1) with (2 ^ 6 - 1). rewrite land_low by lia.
  change (2 ^ 6) with 64. rewrite wrap_small; [done|]. pose proof (Z.mod_pos_bound z 64). change (2 ^ 32) with 4294967296. lia.
Qed.
Lemma ix_mod z k : ix (z mod 4096 + k) = ix (z + k).
Proof.
  unfold ix. f_equal. rewrite (Z.div_mod z 4096) at 2 by lia. replace (4096 * (z / 4096) + z mod 4096 + k) with (z mod 4096 + k + (64 * (z / 4096)) * 64) by lia.
  by rewrite Z.mod_add by lia.
Qed.
Lemma ix_mod0 z : ix (z mod 4096) = ix z.
Proof. pose proof (ix_mod z 0) as H. by rewrite !Z.add_0_r in H. Qed.
Lemma ix_lt n : (ix n < 64)%nat.
Proof. unfold ix. pose proof (Z.mod_pos_bound n 64). lia. Qed.
Lemma ix_inj h a b : h <= a < h + 64 -> h <= b < h + 64 -> ix a = ix b -> a = b.
Proof.
  unfold ix. intros Ha Hb E. pose proof (Z.mod_pos_bound a 64). pose proof (Z.mod_pos_bound b 64).
  assert (a mod 64 = b mod 64) as E' by lia. rewrite (Z.div_mod a 64), (Z.div_mod b 64) by lia. rewrite E'.
  pose proof (Z.div_mod a 64). pose proof (Z.div_mod b 64). lia.
Qed.

(** The 12-bit comparison against the true numbers. *)
Lemma sn_less_spec n h : -2048 < n - h <= 2048 -> rtw_sn_less (n mod 4096) (h mod 4096) = (n <? h).
Proof.
  intros Hr. unfold rtw_sn_less. rewrite u16_mod. rewrite <- Zminus_mod.
  destruct (Z.ltb_spec n h).
  - replace (n - h) with (n - h + 4096 + (-1) * 4096) by lia. rewrite Z.mod_add by lia. rewrite Z.mod_small by lia. apply Z.ltb_lt. lia.
  - rewrite Z.mod_small by lia. apply Z.ltb_ge. lia.
Qed.
Lemma sn_add z k : u16 ((z mod 4096 + k) .& 0xfff) = (z + k) mod 4096.
Proof. rewrite sn_low. by rewrite Z.add_mod_idemp_l by lia. Qed.
Lemma sn_inc z : rtw_sn_inc (z mod 4096) = (z + 1) mod 4096.
Proof. apply sn_add. Qed.
Lemma sn_sub_win z w : rtw_sn_sub (z mod 4096) w = (z - w) mod 4096.
Proof. unfold rtw_sn_sub. rewrite sn_low. by rewrite Zminus_mod_idemp_l by lia. Qed.
Lemma sn_sub a b : rtw_sn_sub (a mod 4096) (b mod 4096) = (a - b) mod 4096.
Proof. unfold rtw_sn_sub. rewrite sn_low. by rewrite <- Zminus_mod. Qed.

(** ** The code implements the specification *)

(** What the specification keeps of itself. *)
Record sp_ok (p : rspec) : Prop := {
  so_win : 1 <= sp_win p <= 64;
  so_buf n : is_Some (sp_buf p !! n) -> sp_head p <= n < sp_head p + sp_win p;
}.

Record sim (p : rspec) (s : rstate) : Prop := {
  sim_ok : sp_ok p;
  sim_active : rt_active (rs_tid s) = true;
  sim_started : rt_started (rs_tid s) = sp_started p;
  sim_head : rt_head (rs_tid s) = sp_head p mod 4096;
  sim_win : rt_win (rs_tid s) = sp_win p;
  sim_stored : rt_stored (rs_tid s) = Z.of_nat (size (sp_buf p));
  sim_lens : length (rt_occ (rs_tid s)) = 64%nat /\ length (rt_len (rs_tid s)) = 64%nat /\ length (rt_t_ns (rs_tid s)) = 64%nat;
  sim_slot : exists st, rt_store (rs_tid s) = Some st /\ length st = 64%nat /\
    forall n f t, sp_buf p !! n = Some (f, t) -> occ_at (rs_tid s) (ix n) = true /\
      take (Z.to_nat (nth (ix n) (rt_len (rs_tid s)) 0)) (nth (ix n) st []) = f /\ nth (ix n) (rt_t_ns (rs_tid s)) 0 = t;
  sim_only i : occ_at (rs_tid s) i = true -> exists n, is_Some (sp_buf p !! n) /\ ix n = i;
  sim_out : rs_out s = (sp_out p).*2;
  sim_null : rs_null s = false;
}.

Lemma nth_insert {A} (l : list A) (i j : nat) (x d : A) : (i < length l)%nat ->
  nth j (<[i := x]> l) d = if decide (i = j) then x else nth j l d.
Proof.
  intros Hi. rewrite !nth_lookup. destruct (decide (i = j)) as [->|Hne].
  - by rewrite list_lookup_insert_eq.
  - by rewrite list_lookup_insert_ne.
Qed.

Lemma sim_occ p s n : sim p s -> sp_head p <= n < sp_head p + 64 ->
  occ_at (rs_tid s) (ix n) = match sp_buf p !! n with Some _ => true | None => false end.
Proof.
  intros Hs Hn. destruct (sp_buf p !! n) as [[f t]|] eqn:E.
  - destruct (sim_slot _ _ Hs) as (st & _ & _ & H). by apply (H n f t).
  - apply not_true_iff_false. intros Hocc. apply (sim_only _ _ Hs) in Hocc as (m & Hm & Hix).
    pose proof (so_buf _ (sim_ok _ _ Hs) m Hm). pose proof (so_win _ (sim_ok _ _ Hs)).
    assert (m = n) as -> by (apply (ix_inj (sp_head p)); [lia|lia|done]). rewrite E in Hm. by destruct Hm.
Qed.

Lemma size_pos (m : gmap Z (list Z * Z)) n x : m !! n = Some x -> (0 < size m)%nat.
Proof. intros H. assert (size m <> 0)%nat; [|lia]. intros E%map_size_empty_inv. by rewrite E in H. Qed.

(** One slot. *)
Lemma sim_take p s n : sim p s -> sp_head p <= n < sp_head p + 64 -> sim (sp_take n p) (deliverSlot (ix n) s).
Proof.
  intros Hs Hn. pose proof (sim_occ p s n Hs Hn) as Hocc. unfold sp_take, deliverSlot. cbv zeta. rewrite Hocc.
  destruct (sp_buf p !! n) as [[f t]|] eqn:E; [|done]. cbn [negb].
  destruct Hs as [Hok Ha Hst Hh Hw Hsz (L1 & L2 & L3) (st & Est & Lst & Hsl) Hon Ho Hnu]. rewrite Est.
  destruct (Hsl n f t E) as (_ & Hf & _).
  pose proof (ix_lt n) as Hlt. split; cbn [rs_tid rs_out rs_cnt rs_null rt_active rt_started rt_head rt_win rt_stored rt_store rt_len rt_t_ns rt_occ
    sp_started sp_head sp_win sp_buf sp_out]; try done.
  - destruct Hok as [W B]. split; cbn; [done|]. intros m Hm. apply B. destruct Hm as [x Hm]. rewrite lookup_delete_Some in Hm. exists x. apply Hm.
  - rewrite map_size_delete_Some by done. pose proof (size_pos _ _ _ E). rewrite Hsz.
    unfold nz. destruct (Z.eqb_spec (Z.of_nat (size (sp_buf p))) 0); cbn [negb]; lia.
  - by rewrite length_insert.
  - exists st. split; [done|]. split; [done|]. intros m f' t' Hm. rewrite lookup_delete_Some in Hm. destruct Hm as [Hne Hm].
    destruct (Hsl m f' t' Hm) as (Hom & Hfm & Htm). split; [|done]. unfold occ_at. cbn [rt_occ]. rewrite nth_insert by lia.
    destruct (decide (ix n = ix m)) as [Hix|]; [|done]. exfalso. apply Hne. pose proof (so_buf _ Hok m). pose proof (so_win _ Hok).
    apply (ix_inj (sp_head p)); [lia| |done]. assert (is_Some (sp_buf p !! m)) as Hsome by by exists (f', t').
    specialize (H Hsome). lia.
  - intros i. unfold occ_at. cbn [rt_occ]. rewrite nth_insert by lia. destruct (decide (ix n = i)) as [|Hne]; [done|]. intros Hi.
    destruct (Hon i Hi) as (m & Hm & Hix). exists m. split; [|done]. rewrite lookup_delete_ne; [done|]. intros ->. by apply Hne.
  - by rewrite Ho, Hf, fmap_app.
Qed.

Lemma take_keeps n p : sp_head (sp_take n p) = sp_head p /\ sp_win (sp_take n p) = sp_win p /\ sp_started (sp_take n p) = sp_started p.
Proof. unfold sp_take. by destruct (sp_buf p !! n) as [[f t]|]. Qed.

Lemma sim_window_from p s n : forall i, sim p s -> Z.of_nat i + n <= 64 ->
  sim (foldl (fun p k => sp_take (sp_head p + Z.of_nat k) p) p (seq i (Z.to_nat n)))
      (foldl (fun s k => deliverSlot (RTW_REORDER_IDX (rt_head (rs_tid s) + Z.of_nat k)) s) s (seq i (Z.to_nat n))).
Proof.
  intros i. remember (Z.to_nat n) as m eqn:Em. revert n i p s Em. induction m as [|m IH]; intros n i p s Em Hs Hn; [done|].
  cbn [seq foldl]. rewrite (sim_head _ _ Hs), idx_ix, ix_mod. apply (IH (n - 1)); [lia| |lia]. apply sim_take; [done|lia].
Qed.
Lemma sim_window p s n : sim p s -> n <= 64 -> sim (sp_window n p) (deliver_window n s).
Proof. intros Hs Hn. apply (sim_window_from p s n 0 Hs). lia. Qed.

(** Moving the head past numbers that do not wait. *)
Lemma sim_move p s h : sim p s -> sp_head p <= h -> (forall n, is_Some (sp_buf p !! n) -> h <= n) ->
  sim (sp_move h p) (set_tid (set_head (h mod 4096) (rs_tid s)) s).
Proof.
  intros [[W B] Ha Hst Hh Hw Hsz Hl Hsl Hon Ho Hnu] Hle Hb. split; try done. split; [done|]. intros n Hn. cbn in *.
  specialize (B n Hn). specialize (Hb n Hn). lia.
Qed.
Lemma taken n p : sp_buf (sp_take n p) !! n = None.
Proof. unfold sp_take. destruct (sp_buf p !! n) as [[f t]|] eqn:E; [|done]. cbn. apply lookup_delete_eq. Qed.
Lemma take_sub n p m : is_Some (sp_buf (sp_take n p) !! m) -> is_Some (sp_buf p !! m) /\ m <> n.
Proof.
  unfold sp_take. destruct (sp_buf p !! n) as [[f t]|] eqn:E; cbn.
  - intros [x Hx]. rewrite lookup_delete_Some in Hx. destruct Hx as [Hne Hx]. split; [by exists x|done].
  - intros Hm. split; [done|]. intros ->. rewrite E in Hm. by destruct Hm.
Qed.

Lemma sim_drain fuel p : forall s r, sim p s -> sim (sp_drain fuel p) (drain_loop fuel s r).1.
Proof.
  revert p. induction fuel as [|fuel IH]; intros p s r Hs; [done|]. cbn [sp_drain drain_loop].
  pose proof (so_win _ (sim_ok _ _ Hs)). rewrite (sim_head _ _ Hs), idx_ix, ix_mod0. rewrite (sim_occ p s) by (done || lia).
  destruct (sp_buf p !! sp_head p) as [x|] eqn:E; cbn [negb]; [|done]. apply IH.
  pose proof (sim_take p s (sp_head p) Hs ltac:(lia)) as Hs'. destruct (take_keeps (sp_head p) p) as (K1 & K2 & K3).
  rewrite (sim_head _ _ Hs'), K1, sn_inc. apply sim_move; [done|lia|]. intros n Hn.
  apply take_sub in Hn as [Hn Hne]. pose proof (so_buf _ (sim_ok _ _ Hs) n Hn). lia.
Qed.

(** The numbers that wait fit the window. *)
Lemma sp_size p n : sp_ok p -> sp_head p <= n < sp_head p + sp_win p -> sp_buf p !! n = None -> (size (sp_buf p) < Z.to_nat (sp_win p))%nat.
Proof.
  intros [W B] Hn E. rewrite <- size_dom.
  assert (size (dom (sp_buf p) ∪ {[ n ]}) <= Z.to_nat (sp_win p))%nat as H.
  { transitivity (size (list_to_set (seqZ (sp_head p) (sp_win p)) : gset Z)).
    - apply subseteq_size. intros m Hm. apply elem_of_list_to_set, elem_of_seqZ.
      apply elem_of_union in Hm as [Hm%elem_of_dom|Hm%elem_of_singleton]; [by apply B|by subst m].
    - rewrite size_list_to_set by apply NoDup_seqZ. by rewrite length_seqZ. }
  rewrite size_union in H; [rewrite size_singleton in H; lia|]. apply disjoint_singleton_r. by apply not_elem_of_dom.
Qed.

Lemma sim_put p s n f t : sim p s -> sp_head p <= n < sp_head p + sp_win p -> sp_buf p !! n = None ->
  sim (sp_put n f t p) (put_slot (ix n) f (Z.of_nat (length f)) t s).
Proof.
  intros Hs Hn E. pose proof (sp_size p n (sim_ok _ _ Hs) Hn E) as Hlt64. pose proof (so_win _ (sim_ok _ _ Hs)) as Hw64. destruct Hs as [Hok Ha Hst Hh Hw Hsz (L1 & L2 & L3) (st & Est & Lst & Hsl) Hon Ho Hnu].
  unfold put_slot, sp_put. cbv zeta. rewrite Est. pose proof (ix_lt n) as Hlt.
  split; cbn [rs_tid rs_out rs_cnt rs_null rt_active rt_started rt_head rt_win rt_stored rt_store rt_len rt_t_ns rt_occ
    sp_started sp_head sp_win sp_buf sp_out]; try done.
  - destruct Hok as [W B]. split; cbn; [done|]. intros m [x Hm]. rewrite lookup_insert_Some in Hm. destruct Hm as [[<- _]|[_ Hm]]; [done|]. apply B. by exists x.
  - rewrite map_size_insert_None by done. rewrite Hsz. rewrite u32_small by (split; [lia|]; apply Z.lt_trans with 1000; lia). lia.
  - by rewrite !length_insert.
  - eexists. split; [done|]. rewrite length_insert. split; [done|]. intros m f' t' Hm. rewrite lookup_insert_Some in Hm.
    unfold occ_at. cbn [rt_occ]. rewrite !nth_insert by lia. destruct Hm as [[<- Hm]|[Hne Hm]].
    + injection Hm as <- <-. rewrite !decide_True by done. rewrite Nat2Z.id. by rewrite take_app_length.
    + pose proof (so_buf _ Hok m ltac:(by exists (f', t'))). pose proof (so_win _ Hok).
      assert (ix n <> ix m) as Hix by (intros Hix; apply Hne; apply (ix_inj (sp_head p)); [lia|lia|done]). rewrite !decide_False by done. by apply Hsl.
  - intros i. unfold occ_at. cbn [rt_occ]. rewrite nth_insert by lia. destruct (decide (ix n = i)) as [<-|Hne].
    + intros _. exists n. split; [|done]. rewrite lookup_insert_eq. by eexists.
    + intros Hi. destruct (Hon i Hi) as (m & Hm & Hix). exists m. split; [|done]. rewrite lookup_insert_ne; [done|]. intros ->. by apply Hne.
Qed.

Lemma sim_give p s n f : sim p s -> sim (sp_give n f p) (emit f s).
Proof. intros [[W B] Ha Hst Hh Hw Hsz Hl Hsl Hon Ho Hnu]. split; try done. cbn. by rewrite Ho, fmap_app. Qed.
Lemma sim_start p s : sim p s -> sim (sp_start p) (set_tid (set_started true (rs_tid s)) s).
Proof. intros [[W B] Ha Hst Hh Hw Hsz Hl Hsl Hon Ho Hnu]. by split. Qed.
Lemma sim_cnt p s c : sim p s -> sim p (set_cnt c s).
Proof. intros [[W B] Ha Hst Hh Hw Hsz Hl Hsl Hon Ho Hnu]. by split. Qed.

Lemma sp_window_from k : forall i p,
  let p' := foldl (fun p k => sp_take (sp_head p + Z.of_nat k) p) p (seq i k) in
  sp_head p' = sp_head p /\ sp_win p' = sp_win p /\ sp_started p' = sp_started p /\
  forall m, is_Some (sp_buf p' !! m) <-> is_Some (sp_buf p !! m) /\ ~ (sp_head p + Z.of_nat i <= m < sp_head p + Z.of_nat (i + k)).
Proof.
  induction k as [|k IH]; intros i p; cbn [seq foldl].
  - repeat split; try done; [lia|by intros [? _]].
  - destruct (take_keeps (sp_head p + Z.of_nat i) p) as (E1 & E2 & E3).
    destruct (IH (S i) (sp_take (sp_head p + Z.of_nat i) p)) as (H1 & H2 & H3 & H4). rewrite E1 in *. rewrite E2 in *. rewrite E3 in *.
    split; [done|]. split; [done|]. split; [done|]. intros m. rewrite H4. split.
    + intros [Hm Hn]. apply take_sub in Hm as [Hm Hne]. split; [done|]. lia.
    + intros [Hm Hn]. split; [|lia]. unfold sp_take. destruct (sp_buf p !! (sp_head p + Z.of_nat i)) as [[f t]|] eqn:E; [|done]. cbn.
      rewrite lookup_delete_ne; [done|]. lia.
Qed.
Lemma sp_window_spec k p : 0 <= k -> sp_head (sp_window k p) = sp_head p /\ sp_win (sp_window k p) = sp_win p /\
  sp_started (sp_window k p) = sp_started p /\
  forall m, is_Some (sp_buf (sp_window k p) !! m) <-> is_Some (sp_buf p !! m) /\ ~ (sp_head p <= m < sp_head p + k).
Proof.
  intros Hk. destruct (sp_window_from (Z.to_nat k) 0 p) as (H1 & H2 & H3 & H4). unfold sp_window. cbv zeta in *.
  split; [done|]. split; [done|]. split; [done|]. intros m. rewrite H4. by replace (sp_head p + Z.of_nat (0 + Z.to_nat k)) with (sp_head p + k) by lia;
  replace (sp_head p + Z.of_nat 0) with (sp_head p) by lia.
Qed.

Definition sp_slide (n : Z) (p : rspec) : rspec :=
  sp_move (n - sp_win p + 1) (sp_window (Z.min (n - sp_win p + 1 - sp_head p) (sp_win p)) p).
Lemma sim_slide p s n : sim p s -> sp_head p + sp_win p <= n <= sp_head p + 2048 -> sim (sp_slide n p) (slide (n mod 4096) s).
Proof.
  intros Hs Hn. pose proof (so_win _ (sim_ok _ _ Hs)) as Hw. unfold slide, sp_slide. cbv zeta.
  rewrite (sim_win _ _ Hs), (sim_head _ _ Hs), sn_sub_win, sn_inc, sn_sub.
  rewrite (Z.mod_small (n - sp_win p + 1 - sp_head p)) by lia.
  replace (if sp_win p <? n - sp_win p + 1 - sp_head p then sp_win p else n - sp_win p + 1 - sp_head p)
    with (Z.min (n - sp_win p + 1 - sp_head p) (sp_win p)) by (destruct (Z.ltb_spec (sp_win p) (n - sp_win p + 1 - sp_head p)); lia).
  set (k := Z.min _ _). destruct (sp_window_spec k p ltac:(lia)) as (E1 & E2 & E3 & E4).
  apply sim_move; [apply sim_window; [done|lia]|lia|]. intros m Hm. apply E4 in Hm as [Hm Hk].
  pose proof (so_buf _ (sim_ok _ _ Hs) m Hm). lia.
Qed.

Definition arrival_ok (p : rspec) (n : Z) (f : list Z) : Prop :=
  -2048 < n - sp_head p <= 2048 /\ Z.of_nat (length f) <= RTW_REORDER_SLOT_SZ.

Lemma sim_insert_any p s n f now : sim p s -> -2048 < n - sp_head p <= 2048 ->
  sim (sp_insert_any n f now p) (reorderInsert (n mod 4096) f now s).
Proof.
  intros Hs Hn. unfold reorderInsert, sp_insert_any. cbv zeta.
  rewrite (sim_started _ _ Hs), (sim_head _ _ Hs), sn_less_spec by lia.
  destruct (negb (sp_started p) && (n <? sp_head p)); [by apply sim_give|].
  pose proof (sim_start _ _ Hs) as Hs1. rewrite (sim_head _ _ Hs1). change (sp_head (sp_start p)) with (sp_head p).
  rewrite sn_less_spec by lia. destruct (Z.ltb_spec n (sp_head p)) as [Hb|Hb]; [by apply sim_cnt|].
  rewrite (sim_win _ _ Hs), sn_add. pose proof (so_win _ (sim_ok _ _ Hs)) as Hw. rewrite sn_less_spec by lia.
  change (sp_win (sp_start p)) with (sp_win p).
  set (s1 := set_tid (set_started true (rs_tid s)) s) in *. set (p1 := sp_start p) in *.
  set (s2 := if negb (n <? sp_head p + sp_win p) then slide (n mod 4096) s1 else s1).
  set (p2 := if n <? sp_head p + sp_win p then p1 else _).
  assert (Hs2 : sim p2 s2 /\ sp_head p2 <= n < sp_head p2 + sp_win p2).
  { unfold p2, s2. destruct (Z.ltb_spec n (sp_head p + sp_win p)); cbn [negb]; [split; [done|]; cbn; lia|].
    split; [apply (sim_slide p1 s1 n); [done|]; cbn; lia|].
    cbn [sp_move sp_head sp_win]. match goal with |- context [sp_win (sp_window ?k ?q)] => destruct (sp_window_spec k q) as (_ & -> & _) end;
      unfold p1; cbn; lia. }
  clearbody p2 s2. destruct Hs2 as [Hs2 Hn2]. clear Hs Hs1 Hw Hb Hn p1 s1 p s. rename p2 into p, s2 into s.
  pose proof (so_win _ (sim_ok _ _ Hs2)) as Hw. rewrite idx_ix, ix_mod0, (sim_occ p s) by (done || lia).
  destruct (sp_buf p !! n) as [x|] eqn:E; [by apply sim_cnt|].
  rewrite (sim_head _ _ Hs2), (sim_stored _ _ Hs2).
  replace ((n mod 4096 =? sp_head p mod 4096) && (Z.of_nat (size (sp_buf p)) =? 0))
    with ((n =? sp_head p) && bool_decide (sp_buf p = ∅)).
  2:{ f_equal.
      - destruct (Z.eqb_spec n (sp_head p)) as [->|Hne]; [by rewrite Z.eqb_refl|]. symmetry. apply Z.eqb_neq. intros Hm. apply Hne.
        assert ((n - sp_head p) mod 4096 = 0) as Hz by (rewrite Zminus_mod, Hm, Z.sub_diag; done). rewrite Z.mod_small in Hz by lia. lia.
      - case_bool_decide as Hbe; [by rewrite Hbe|]. symmetry. apply Z.eqb_neq. intros Hz. apply Hbe. apply map_size_empty_inv. lia. }
  destruct (_ && _) eqn:Ed.
  - apply andb_prop in Ed as [->%Z.eqb_eq Hemp%bool_decide_eq_true]. rewrite sn_inc. apply sim_give, sim_cnt. apply sim_move; [done|lia|].
    intros m Hm. rewrite Hemp, lookup_empty in Hm. by destruct Hm.
  - destruct (Z.ltb_spec RTW_REORDER_SLOT_SZ (Z.of_nat (length f))); [by apply sim_give|]. apply sim_drain. by apply sim_put.
Qed.
Lemma sim_insert p s n f now : sim p s -> arrival_ok p n f -> sim (sp_insert n f now p) (reorderInsert (n mod 4096) f now s).
Proof.
  intros Hs [Hn Hf]. replace (sp_insert n f now p) with (sp_insert_any n f now p); [by apply sim_insert_any|].
  unfold sp_insert_any, sp_insert. cbv zeta. by destruct (Z.ltb_spec RTW_REORDER_SLOT_SZ (Z.of_nat (length f))); [lia|].
Qed.

Lemma sim_first p s n : forall k, sim p s -> 1 <= k -> k + Z.of_nat n <= 64 -> first_waiting (rs_tid s) n k = sp_first p n k.
Proof.
  induction n as [|n IH]; intros k Hs Hk Hn; [done|]. cbn [first_waiting sp_first].
  rewrite (sim_head _ _ Hs), idx_ix, ix_mod, (sim_occ p s) by (done || lia). destruct (sp_buf p !! _); [done|]. apply IH; [done|lia|lia].
Qed.
Lemma sp_first_spec p n : forall k, match sp_first p n k with
  | Some j => k <= j < k + Z.of_nat n /\ is_Some (sp_buf p !! (sp_head p + j)) /\ forall i, k <= i < j -> sp_buf p !! (sp_head p + i) = None
  | None => forall i, k <= i < k + Z.of_nat n -> sp_buf p !! (sp_head p + i) = None
  end.
Proof.
  induction n as [|n IH]; intros k; cbn [sp_first]; [lia|]. destruct (sp_buf p !! (sp_head p + k)) as [x|] eqn:E.
  - split; [lia|]. split; [by exists x|]. lia.
  - specialize (IH (k + 1)). destruct (sp_first p n (k + 1)) as [j|].
    + destruct IH as (H1 & H2 & H3). split; [lia|]. split; [done|]. intros i Hi. destruct (decide (i = k)) as [->|]; [done|]. apply H3. lia.
    + intros i Hi. destruct (decide (i = k)) as [->|]; [done|]. apply IH. lia.
Qed.

(** Behind a hole something waits if anything does. *)
Lemma first_exists p : sp_ok p -> sp_buf p !! sp_head p = None -> sp_buf p <> ∅ -> sp_first p (Z.to_nat (sp_win p - 1)) 1 <> None.
Proof.
  intros [W B] Hh Hne Hf. apply Hne, map_eq. intros m. rewrite lookup_empty. destruct (sp_buf p !! m) as [x|] eqn:E; [|done].
  pose proof (sp_first_spec p (Z.to_nat (sp_win p - 1)) 1) as H. rewrite Hf in H. specialize (B m ltac:(by exists x)).
  destruct (decide (m = sp_head p)) as [->|]; [congruence|]. specialize (H (m - sp_head p) ltac:(lia)).
  replace (sp_head p + (m - sp_head p)) with m in H by lia. congruence.
Qed.

Lemma sim_timeout_loop fuel now p : forall s r, sim p s -> sim (sp_timeout fuel now p) (timeout_loop fuel now s r).1.
Proof.
  revert p. induction fuel as [|fuel IH]; intros p s r Hs; [done|]. cbn [sp_timeout timeout_loop]. cbv zeta.
  pose proof (so_win _ (sim_ok _ _ Hs)) as Hw. rewrite (sim_head _ _ Hs), idx_ix, ix_mod0, (sim_occ p s) by (done || lia).
  destruct (sp_buf p !! sp_head p) as [x|] eqn:E.
  { destruct (reorderDrainReady s) as [s' r'] eqn:Ed. cbn [fst]. pose proof (sim_drain drain_fuel p s 0 Hs) as H.
    unfold reorderDrainReady in Ed. by rewrite Ed in H. }
  rewrite (sim_stored _ _ Hs), (sim_win _ _ Hs). rewrite (sim_first p s) by (done || lia).
  pose proof (sp_first_spec p (Z.to_nat (sp_win p - 1)) 1) as Hf.
  destruct (Z.eqb_spec (Z.of_nat (size (sp_buf p))) 0) as [Hz|Hz].
  { assert (sp_buf p = ∅) as He by (apply map_size_empty_inv; lia). destruct (sp_first p _ 1) as [j|]; [|done].
    destruct Hf as (_ & Hj & _). rewrite He, lookup_empty in Hj. by destruct Hj. }
  destruct (sp_first p _ 1) as [j|] eqn:Ej; [|done]. destruct Hf as (Hj & [[f t] Hx] & Hno). rewrite Hx.
  rewrite idx_ix, ix_mod. destruct (sim_slot _ _ Hs) as (st & _ & _ & Hsl). destruct (Hsl _ _ _ Hx) as (_ & _ & ->).
  destruct (now <=? _); [done|]. rewrite sn_add.
  match goal with |- context [reorderDrainReady ?x] => set (s1 := x) end.
  assert (Hs1 : sim (sp_move (sp_head p + j) p) s1).
  { apply (sim_move p (set_cnt (count_to j (rs_cnt s)) s)); [by apply sim_cnt|lia|]. intros m Hm.
    pose proof (so_buf _ (sim_ok _ _ Hs) m Hm). destruct (decide (sp_head p + j <= m)); [done|]. exfalso.
    destruct (decide (m = sp_head p)) as [->|]; [rewrite E in Hm; by destruct Hm|].
    specialize (Hno (m - sp_head p) ltac:(lia)). replace (sp_head p + (m - sp_head p)) with m in Hno by lia. rewrite Hno in Hm. by destruct Hm. }
  pose proof (sim_drain drain_fuel _ s1 0 Hs1) as Hd. unfold reorderDrainReady. destruct (drain_loop drain_fuel s1 0) as [s2 r2]. cbn [fst] in Hd.
  by apply IH.
Qed.
Lemma sp_timeout_empty fuel now p : sp_buf p = ∅ -> sp_timeout fuel now p = p.
Proof.
  intros He. destruct fuel as [|fuel]; [done|]. cbn [sp_timeout]. rewrite He, lookup_empty.
  pose proof (sp_first_spec p (Z.to_nat (sp_win p - 1)) 1) as Hf. destruct (sp_first p _ 1) as [j|]; [|done].
  destruct Hf as (_ & Hj & _). rewrite He, lookup_empty in Hj. by destruct Hj.
Qed.
Lemma sim_timeout p s now : sim p s -> sim (sp_timeout timeout_fuel now p) (reorderTimeout now s).1.
Proof.
  intros Hs. unfold reorderTimeout. cbv zeta. rewrite (sim_active _ _ Hs), (sim_stored _ _ Hs). cbn [negb orb].
  destruct (Z.eqb_spec (Z.of_nat (size (sp_buf p))) 0) as [Hz|Hz]; [|by apply sim_timeout_loop].
  rewrite sp_timeout_empty; [done|]. apply map_size_empty_inv. lia.
Qed.

(** ** Sessions *)

(** What happens to a window: a frame arrives, by its true number, or the poll
    loop sweeps. *)
Inductive revent := Arrive (n : Z) (f : list Z) (now : Z) | Sweep (now : Z).
Definition reorder_step (s : rstate) (e : revent) : rstate :=
  match e with
  | Arrive n f now => reorderInsert (n mod 4096) f now s
  | Sweep now => (reorderTimeout now s).1
  end.
Definition sp_step (p : rspec) (e : revent) : rspec :=
  match e with
  | Arrive n f now => sp_insert n f now p
  | Sweep now => sp_timeout timeout_fuel now p
  end.
Definition clamp_win (win : Z) : Z := Z.min (Z.max win 1) 64.
Definition sp_open (h win : Z) (p : rspec) : rspec := RSpec false h (clamp_win win) ∅ (sp_out p).
Definition sp_new (h win : Z) : rspec := sp_open h win (RSpec false 0 1 ∅ []).
Definition reorder_open (h win : Z) (c : reord_counters) : rstate :=
  reorderActivate (h mod 4096) win true (RS reorder_tid0 [] c false).

(** Every arrival is within half the number space of the head and fits a slot. *)
Fixpoint events_ok (p : rspec) (es : list revent) : Prop :=
  match es with
  | [] => True
  | e :: es => match e with Arrive n f _ => arrival_ok p n f | Sweep _ => True end /\ events_ok (sp_step p e) es
  end.

Lemma sim_step p s e : sim p s -> match e with Arrive n f _ => arrival_ok p n f | Sweep _ => True end -> sim (sp_step p e) (reorder_step s e).
Proof. intros Hs He. destruct e as [n f now|now]; [by apply sim_insert|by apply sim_timeout]. Qed.
Lemma sim_steps es : forall p s, sim p s -> events_ok p es -> sim (foldl sp_step p es) (foldl reorder_step s es).
Proof. induction es as [|e es IH]; intros p s Hs He; [done|]. destruct He as [He Hes]. apply IH; [by apply sim_step|done]. Qed.

Lemma clamp_eq win : (if Z.of_nat RTW_BA_WIN_MAX <? (if win <? 1 then 1 else win) then Z.of_nat RTW_BA_WIN_MAX else (if win <? 1 then 1 else win)) = clamp_win win.
Proof. unfold clamp_win. change (Z.of_nat RTW_BA_WIN_MAX) with 64. destruct (Z.ltb_spec win 1); destruct (Z.ltb_spec 64 (if win <? 1 then 1 else win)); case_bool; lia. Qed.
Lemma occ_fresh i : nth i (replicate RTW_BA_WIN_MAX false) false = false.
Proof. rewrite nth_lookup. destruct (replicate RTW_BA_WIN_MAX false !! i) as [b|] eqn:E; [|done]. by apply lookup_replicate_1 in E as [-> _]. Qed.

(** A window opened where none was, and one reopened: what waits is handed on
    first. *)
Lemma sim_open_from h win c t : rt_store t = None -> length (rt_len t) = 64%nat -> length (rt_t_ns t) = 64%nat ->
  sim (sp_new h win) (reorderActivate (h mod 4096) win true (RS t [] c false)).
Proof.
  intros Hst L1 L2. unfold reorderActivate. cbv zeta. rewrite clamp_eq. cbn [rs_tid]. rewrite Hst. cbn [rs_tid]. rewrite Hst.
  split; cbn [rs_tid rs_out rs_null set_tid rt_active rt_started rt_head rt_win rt_stored rt_occ rt_len rt_t_ns rt_store sp_open sp_new sp_buf sp_out sp_started sp_head sp_win]; try done.
  - split; cbn; [unfold clamp_win; lia|]. intros n [x Hx]. by rewrite lookup_empty in Hx.
  - by rewrite sn_low, Z.mod_mod by lia.
  - eexists. split; [done|]. rewrite length_replicate. split; [done|]. intros n f t' Hx. by rewrite lookup_empty in Hx.
  - intros i. unfold occ_at. cbn [rt_occ]. by rewrite occ_fresh.
Qed.
Lemma sim_open h win c : sim (sp_new h win) (reorder_open h win c).
Proof. by apply sim_open_from. Qed.
Lemma window_all p : sp_ok p -> sp_buf (sp_window (sp_win p) p) = ∅.
Proof.
  intros [W B]. apply map_eq. intros m. rewrite lookup_empty. destruct (_ !! m) as [x|] eqn:E; [|done].
  destruct (sp_window_spec (sp_win p) p ltac:(lia)) as (_ & _ & _ & H). destruct (proj1 (H m) ltac:(by exists x)) as [Hm Hn].
  by apply B in Hm.
Qed.
Lemma sim_reopen p s h win alloc : sim p s ->
  sim (sp_open h win (sp_window (sp_win p) p)) (reorderActivate (h mod 4096) win alloc s).
Proof.
  intros Hs. pose proof (so_win _ (sim_ok _ _ Hs)) as Hw. unfold reorderActivate. cbv zeta. rewrite clamp_eq.
  destruct (sim_slot _ _ Hs) as (st & Est & Lst & Hsl). rewrite Est, (sim_active _ _ Hs), (sim_win _ _ Hs), (sim_stored _ _ Hs). cbn [andb].
  assert (Hs' : sim (sp_window (sp_win p) p) (if nz (Z.of_nat (size (sp_buf p))) then deliver_window (sp_win p) s else s)).
  { destruct (nz (Z.of_nat (size (sp_buf p)))) eqn:En; [apply sim_window; [done|lia]|].
    unfold nz in En. assert (sp_buf p = ∅) as He by (apply map_size_empty_inv; lia).
    enough (sp_window (sp_win p) p = p) as -> by done. unfold sp_window. generalize (seq 0 (Z.to_nat (sp_win p))) as l. intros l.
    induction l as [|k l IH]; [done|]. cbn [foldl]. unfold sp_take at 2. by rewrite He, lookup_empty. }
  set (s' := if nz _ then _ else s) in *. clearbody s'. destruct (sim_slot _ _ Hs') as (st' & Est' & Lst' & _). rewrite Est'.
  destruct Hs' as [_ _ _ _ _ _ (L1 & L2 & L3) _ _ Ho Hnu].
  split; cbn [rs_tid rs_out rs_null set_tid rt_active rt_started rt_head rt_win rt_stored rt_occ rt_len rt_t_ns rt_store sp_open sp_buf sp_out sp_started sp_head sp_win]; try done.
  - split; cbn; [unfold clamp_win; lia|]. intros n [x Hx]. by rewrite lookup_empty in Hx.
  - by rewrite sn_low, Z.mod_mod by lia.
  - exists st'. split; [done|]. split; [done|]. intros n f t Hx. by rewrite lookup_empty in Hx.
  - intros i. unfold occ_at. cbn [rt_occ]. by rewrite occ_fresh.
Qed.
(** Closing hands on what waits, and frees the buffer. *)
Lemma sim_close p s : sim p s -> let s' := reorderDeactivate s in
  rs_out s' = (sp_out (sp_window (sp_win p) p)).*2 /\ rs_null s' = false /\ rt_active (rs_tid s') = false /\ rt_store (rs_tid s') = None /\
  length (rt_len (rs_tid s')) = 64%nat /\ length (rt_t_ns (rs_tid s')) = 64%nat.
Proof.
  intros Hs. cbv zeta. pose proof (so_win _ (sim_ok _ _ Hs)) as Hw. unfold reorderDeactivate. cbv zeta. rewrite (sim_active _ _ Hs). cbn [negb].
  destruct (sim_slot _ _ Hs) as (st & -> & _). rewrite (sim_win _ _ Hs). pose proof (sim_window p s (sp_win p) Hs ltac:(lia)) as Hs'.
  destruct (sim_lens _ _ Hs') as (_ & L2 & L3). split; [apply Hs'|]. by split; [apply Hs'|].
Qed.

(** ** What the specification promises *)

(** The frames that arrived. *)
Definition arrivals (es : list revent) : list (Z * list Z) :=
  omap (fun e => match e with Arrive n f _ => Some (n, f) | Sweep _ => None end) es.
(** A number that was handed on or waits. *)
Definition known (p : rspec) (n : Z) : Prop := n ∈ (sp_out p).*1 \/ is_Some (sp_buf p !! n).
Definition in_window (h0 : Z) (l : list Z) : list Z := List.filter (fun n => h0 <=? n) l.

(** [b]: every number handed on from the window is below it. *)
Record orderly (h0 b : Z) (p : rspec) : Prop := {
  or_sorted : StronglySorted Z.lt (in_window h0 (sp_out p).*1);
  or_below : Forall (fun n => n < b) (in_window h0 (sp_out p).*1);
  or_from : h0 <= b;
}.
Lemma in_window_app h0 l1 l2 : in_window h0 (l1 ++ l2) = in_window h0 l1 ++ in_window h0 l2.
Proof. apply List.filter_app. Qed.
Lemma orderly_weaken h0 b b' p : orderly h0 b p -> b <= b' -> orderly h0 b' p.
Proof. intros [A B C] Hb. split; [done| |lia]. eapply Forall_impl; [|exact B]. cbn. lia. Qed.
Lemma orderly_same h0 b p q : sp_out q = sp_out p -> orderly h0 b p -> orderly h0 b q.
Proof. intros E [A B C]. by split; rewrite ?E. Qed.
(** One more, beyond all of them. *)
Lemma orderly_add h0 b p q n f : orderly h0 b p -> sp_out q = sp_out p ++ [(n, f)] -> b <= n -> orderly h0 (n + 1) q.
Proof.
  intros [A B C] E Hn. split; [| |lia]; rewrite E, fmap_app, in_window_app; cbn [fmap list_fmap fst in_window List.filter].
  - destruct (h0 <=? n); [|by rewrite app_nil_r]. apply StronglySorted_app. split; [|split; [done|by repeat constructor]].
    intros x y Hx Hy. apply list_elem_of_singleton in Hy as ->. rewrite List.Forall_forall in B. apply list_elem_of_In in Hx. specialize (B x Hx). lia.
  - apply Forall_app. split; [eapply Forall_impl; [|exact B]; cbn; lia|]. destruct (h0 <=? n); [|done]. constructor; [lia|done].
Qed.
Lemma orderly_take h0 n p : orderly h0 n p -> orderly h0 (n + 1) (sp_take n p).
Proof.
  intros H. unfold sp_take. destruct (sp_buf p !! n) as [[f t]|]; [|by apply (orderly_weaken h0 n); [|lia]].
  by eapply (orderly_add h0 n p _ n f H).
Qed.
Lemma orderly_window_from h0 k : forall i p, orderly h0 (sp_head p + Z.of_nat i) p ->
  orderly h0 (sp_head p + Z.of_nat (i + k)) (foldl (fun p k => sp_take (sp_head p + Z.of_nat k) p) p (seq i k)).
Proof.
  induction k as [|k IH]; intros i p H; cbn [seq foldl]; [by rewrite Nat.add_0_r|].
  destruct (take_keeps (sp_head p + Z.of_nat i) p) as (E & _ & _). specialize (IH (S i) (sp_take (sp_head p + Z.of_nat i) p)).
  rewrite E in IH. replace (i + S k)%nat with (S i + k)%nat by lia. apply IH.
  replace (sp_head p + Z.of_nat (S i)) with (sp_head p + Z.of_nat i + 1) by lia. by apply orderly_take.
Qed.
Lemma orderly_window h0 k p : 0 <= k -> orderly h0 (sp_head p) p -> orderly h0 (sp_head p + k) (sp_window k p).
Proof.
  intros Hk H. pose proof (orderly_window_from h0 (Z.to_nat k) 0 p) as Hw. rewrite Z.add_0_r in Hw. specialize (Hw H).
  by replace (sp_head p + Z.of_nat (0 + Z.to_nat k)) with (sp_head p + k) in Hw by lia.
Qed.
Lemma orderly_drain h0 fuel : forall p, orderly h0 (sp_head p) p -> orderly h0 (sp_head (sp_drain fuel p)) (sp_drain fuel p).
Proof.
  induction fuel as [|fuel IH]; intros p H; [done|]. cbn [sp_drain]. destruct (sp_buf p !! sp_head p) as [x|]; [|done].
  apply IH. eapply orderly_same; [|by apply orderly_take]. done.
Qed.
Lemma drain_head fuel : forall p, sp_head p <= sp_head (sp_drain fuel p).
Proof.
  induction fuel as [|fuel IH]; intros p; [done|]. cbn [sp_drain]. destruct (sp_buf p !! sp_head p); [|done].
  etransitivity; [|apply IH]. cbn. lia.
Qed.
Lemma orderly_insert h0 n f now p : sp_ok p -> orderly h0 (sp_head p) p -> (sp_started p = false -> sp_head p = h0) ->
  orderly h0 (sp_head (sp_insert n f now p)) (sp_insert n f now p).
Proof.
  intros [W _] H Hpre. unfold sp_insert. cbv zeta. destruct (negb (sp_started p) && (n <? sp_head p)) eqn:E.
  { apply andb_prop in E as [Es%negb_true_iff En%Z.ltb_lt]. specialize (Hpre Es). destruct H as [A B C].
    split; [| |done]; cbn [sp_give sp_out sp_head]; rewrite fmap_app, in_window_app; cbn [fmap list_fmap fst in_window List.filter];
      (destruct (Z.leb_spec h0 n); [lia|]); by rewrite app_nil_r. }
  assert (Hs : orderly h0 (sp_head (sp_start p)) (sp_start p)) by (eapply orderly_same; [|exact H]; done).
  change (sp_head (sp_start p)) with (sp_head p) in *. destruct (n <? sp_head p); [exact Hs|].
  match goal with |- context [if ?b then sp_start p else ?q] => set (p2 := if b then sp_start p else q) end.
  assert (Hp2 : orderly h0 (sp_head p2) p2).
  { unfold p2. change (sp_win (sp_start p)) with (sp_win p). destruct (Z.ltb_spec n (sp_head p + sp_win p)) as [Hn|Hn]; [exact Hs|]. cbn [sp_start sp_head sp_win] in *.
    set (k := Z.min _ _). pose proof (orderly_window h0 k (sp_start p) ltac:(lia) Hs) as Hw. cbn in Hw |- *.
    eapply orderly_same; [|eapply (orderly_weaken _ _ (n - sp_win p + 1) _ Hw); cbn; lia]. done. }
  clearbody p2. destruct (sp_buf p2 !! n); [done|]. destruct ((n =? sp_head p2) && bool_decide (sp_buf p2 = ∅)) eqn:Ed.
  - apply andb_prop in Ed as [->%Z.eqb_eq _]. apply (orderly_add h0 (sp_head p2) p2 _ (sp_head p2) f); [done|done|lia].
  - apply orderly_drain. eapply orderly_same; [|exact Hp2]. done.
Qed.
Lemma orderly_timeout h0 fuel now : forall p, orderly h0 (sp_head p) p -> orderly h0 (sp_head (sp_timeout fuel now p)) (sp_timeout fuel now p).
Proof.
  induction fuel as [|fuel IH]; intros p H; [done|]. cbn [sp_timeout]. destruct (sp_buf p !! sp_head p); [by apply orderly_drain|].
  pose proof (sp_first_spec p (Z.to_nat (sp_win p - 1)) 1) as Hf. destruct (sp_first p _ 1) as [k|]; [|done].
  destruct (sp_buf p !! (sp_head p + k)) as [[f t]|]; [|done]. destruct (now <=? _); [done|]. apply IH, orderly_drain.
  eapply orderly_same; [|eapply (orderly_weaken _ _ (sp_head p + k) _ H); lia]. done.
Qed.

(** A property of what was handed on and what waits, kept by each of the
    moves an operation is made of, is kept by the operation. *)
Section Kept.
Context (P : rspec -> Prop).
Context (P_take : forall n p, P p -> P (sp_take n p)) (P_same : forall p q, sp_out q = sp_out p -> sp_buf q = sp_buf p -> P p -> P q).
Lemma kept_window k p : P p -> P (sp_window k p).
Proof. unfold sp_window. revert p. generalize (seq 0 (Z.to_nat k)) as l. intros l. induction l as [|i l IH]; intros p H; [done|]. cbn [foldl]. by apply IH, P_take. Qed.
Lemma kept_drain fuel : forall p, P p -> P (sp_drain fuel p).
Proof.
  induction fuel as [|fuel IH]; intros p H; [done|]. cbn [sp_drain]. destruct (sp_buf p !! sp_head p); [|done].
  apply IH. apply (P_same (sp_take (sp_head p) p)); [done..|]. by apply P_take.
Qed.
Lemma kept_timeout fuel now : forall p, P p -> P (sp_timeout fuel now p).
Proof.
  induction fuel as [|fuel IH]; intros p H; [done|]. cbn [sp_timeout]. destruct (sp_buf p !! sp_head p); [by apply kept_drain|].
  destruct (sp_first p _ 1) as [k|]; [|done]. destruct (sp_buf p !! (sp_head p + k)) as [[f t]|]; [|done]. destruct (now <=? _); [done|].
  apply IH, kept_drain. by apply (P_same p).
Qed.
Lemma kept_insert n f now p : (forall p, P p -> P (sp_give n f p)) -> (forall p, P p -> sp_buf p !! n = None -> P (sp_put n f now p)) ->
  P p -> P (sp_insert n f now p).
Proof.
  intros Hg Hput H. unfold sp_insert. cbv zeta. destruct (_ && _); [by apply Hg|].
  assert (Hs : P (sp_start p)) by by apply (P_same p). destruct (n <? _); [done|].
  match goal with |- context [if ?b then sp_start p else ?q] => set (p2 := if b then sp_start p else q) end.
  assert (Hp2 : P p2) by (unfold p2; destruct (_ <? _); [done|]; apply (P_same (sp_window (Z.min (n - sp_win p + 1 - sp_head p) (sp_win p)) (sp_start p))); [done..|by apply kept_window]).
  clearbody p2. destruct (sp_buf p2 !! n) eqn:E; [done|]. destruct (_ && _); [apply Hg; by apply (P_same p2)|]. apply kept_drain. by apply Hput.
Qed.
Lemma kept_insert_any n f now p : (forall p, P p -> P (sp_give n f p)) -> (forall p, P p -> sp_buf p !! n = None -> P (sp_put n f now p)) ->
  P p -> P (sp_insert_any n f now p).
Proof.
  intros Hg Hput H. unfold sp_insert_any. cbv zeta. destruct (_ && _); [by apply Hg|].
  assert (Hs : P (sp_start p)) by by apply (P_same p). destruct (n <? _); [done|].
  match goal with |- context [if ?b then sp_start p else ?q] => set (p2 := if b then sp_start p else q) end.
  assert (Hp2 : P p2) by (unfold p2; destruct (_ <? _); [done|]; apply (P_same (sp_window (Z.min (n - sp_win p + 1 - sp_head p) (sp_win p)) (sp_start p))); [done..|by apply kept_window]).
  clearbody p2. destruct (sp_buf p2 !! n) eqn:E; [done|]. destruct (_ && _); [apply Hg; by apply (P_same p2)|].
  destruct (_ <? _); [by apply Hg|]. apply kept_drain. by apply Hput.
Qed.
End Kept.

(** What is handed on or waits has arrived. *)
Definition fed (A : list (Z * list Z)) (p : rspec) : Prop :=
  (forall n f, (n, f) ∈ sp_out p -> (n, f) ∈ A) /\ (forall n f t, sp_buf p !! n = Some (f, t) -> (n, f) ∈ A).
Lemma fed_mono A B p : fed A p -> A ⊆ B -> fed B p.
Proof. intros [H1 H2] Hs. split; intros; [by apply Hs, H1|by eapply Hs, H2]. Qed.
Lemma fed_take A n p : fed A p -> fed A (sp_take n p).
Proof.
  intros [H1 H2]. unfold sp_take. destruct (sp_buf p !! n) as [[f t]|] eqn:E; [|done]. split; cbn.
  - intros m g [Hm|Hm%list_elem_of_singleton]%elem_of_app; [by apply H1|]. injection Hm as -> ->. by eapply H2.
  - intros m g t' Hm. rewrite lookup_delete_Some in Hm. by eapply H2, Hm.
Qed.
Lemma fed_same A p q : sp_out q = sp_out p -> sp_buf q = sp_buf p -> fed A p -> fed A q.
Proof. intros E1 E2 [H1 H2]. by split; rewrite ?E1, ?E2. Qed.
Lemma fed_step A p e : fed A p -> fed (A ++ arrivals [e]) (sp_step p e).
Proof.
  intros H. assert (H' : fed (A ++ arrivals [e]) p) by (eapply fed_mono; [done|]; intros x Hx; apply elem_of_app; by left).
  destruct e as [n f now|now]; cbn [sp_step].
  - assert (Hin : (n, f) ∈ A ++ arrivals [Arrive n f now]) by (apply elem_of_app; right; by left).
    apply (kept_insert _ (fed_take _) (fed_same _)); [| |done]; clear p H H'; intros p [H1 H2]; [|intros _]; (split; [|]); cbn.
    + intros m g [Hm|Hm%list_elem_of_singleton]%elem_of_app; [by apply H1|]. by injection Hm as -> ->.
    + done.
    + done.
    + intros m g t Hm. rewrite lookup_insert_Some in Hm. destruct Hm as [[<- Hm]|[_ Hm]]; [by injection Hm as -> _|by eapply H2].
  - by apply (kept_timeout _ (fed_take _) (fed_same _)).
Qed.

(** Nothing known is forgotten. *)
Lemma known_take m n p : known p m -> known (sp_take n p) m.
Proof.
  unfold known, sp_take. destruct (sp_buf p !! n) as [[f t]|] eqn:E; [|done]. cbn. rewrite fmap_app, elem_of_app. intros [H|H]; [by left; left|].
  destruct (decide (m = n)) as [->|]; [left; right; by left|]. right. by rewrite lookup_delete_ne.
Qed.
Lemma known_same m p q : sp_out q = sp_out p -> sp_buf q = sp_buf p -> known p m -> known q m.
Proof. unfold known. by intros -> ->. Qed.
Lemma known_step m p e : known p m -> known (sp_step p e) m.
Proof.
  destruct e as [n f now|now]; cbn [sp_step]; [|by apply (kept_timeout _ (known_take _) (known_same _))].
  apply (kept_insert _ (known_take _) (known_same _)); clear p; intros p; unfold known; cbn.
  - rewrite fmap_app, elem_of_app. by intros [H|H]; [left; left|right].
  - intros [H|H] _; [by left|right]. destruct (decide (n = m)) as [->|]; [by rewrite lookup_insert_eq; eexists|by rewrite lookup_insert_ne].
Qed.

Lemma fuels : drain_fuel = 65%nat /\ timeout_fuel = 65%nat.
Proof. done. Qed.
Lemma sp_size_le p : sp_ok p -> (size (sp_buf p) <= 64)%nat.
Proof.
  intros [W B]. rewrite <- size_dom. transitivity (size (list_to_set (seqZ (sp_head p) (sp_win p)) : gset Z)).
  - apply subseteq_size. intros m Hm%elem_of_dom. apply elem_of_list_to_set, elem_of_seqZ. by apply B.
  - rewrite size_list_to_set by apply NoDup_seqZ. rewrite length_seqZ. lia.
Qed.

Definition drained (p : rspec) : Prop := sp_buf p !! sp_head p = None.
Lemma take_size p n x : sp_buf p !! n = Some x -> S (size (sp_buf (sp_take n p))) = size (sp_buf p).
Proof.
  intros E. unfold sp_take. rewrite E. destruct x as [f t]. cbn. rewrite map_size_delete_Some by by eexists.
  pose proof (size_pos _ _ _ E). lia.
Qed.
Lemma drain_drained fuel : forall p, (size (sp_buf p) < fuel)%nat -> drained (sp_drain fuel p).
Proof.
  induction fuel as [|fuel IH]; intros p Hf; [lia|]. cbn [sp_drain]. destruct (sp_buf p !! sp_head p) as [x|] eqn:E; [|done].
  apply IH. pose proof (take_size p (sp_head p) x E). cbn. lia.
Qed.
Lemma drain_size fuel : forall p, (size (sp_buf (sp_drain fuel p)) <= size (sp_buf p))%nat.
Proof.
  induction fuel as [|fuel IH]; intros p; [done|]. cbn [sp_drain]. destruct (sp_buf p !! sp_head p) as [x|] eqn:E; [|done].
  etransitivity; [apply IH|]. pose proof (take_size p (sp_head p) x E). cbn. lia.
Qed.
Lemma drain_smaller fuel p x : (0 < fuel)%nat -> sp_buf p !! sp_head p = Some x -> (size (sp_buf (sp_drain fuel p)) < size (sp_buf p))%nat.
Proof.
  intros Hf E. destruct fuel as [|fuel]; [lia|]. cbn [sp_drain]. rewrite E.
  match goal with |- context [sp_drain fuel ?q] => pose proof (drain_size fuel q) as Hd end.
  pose proof (take_size p (sp_head p) x E). cbn in Hd. lia.
Qed.
Lemma sp_ok_move p h : sp_ok p -> sp_head p <= h -> (forall n, is_Some (sp_buf p !! n) -> h <= n) -> sp_ok (sp_move h p).
Proof. intros [W B] Hh Hb. split; [done|]. intros n Hn. cbn in *. specialize (B n Hn). specialize (Hb n Hn). lia. Qed.
Lemma sp_ok_take p n : sp_ok p -> sp_ok (sp_take n p).
Proof.
  intros [W B]. destruct (take_keeps n p) as (E1 & E2 & _). split; rewrite ?E1, ?E2; [done|]. intros m Hm. apply B. by eapply take_sub.
Qed.
Lemma sp_ok_drain fuel : forall p, sp_ok p -> sp_ok (sp_drain fuel p).
Proof.
  induction fuel as [|fuel IH]; intros p H; [done|]. cbn [sp_drain]. destruct (sp_buf p !! sp_head p); [|done]. apply IH.
  destruct (take_keeps (sp_head p) p) as (E1 & _ & _). apply sp_ok_move; [by apply sp_ok_take|lia|]. intros n Hn.
  apply take_sub in Hn as [Hn Hne]. pose proof (so_buf _ H n Hn). lia.
Qed.

(** Something known ends where the head begins. *)
Definition topped (p : rspec) : Prop := exists m, known p m /\ sp_head p <= m + 1.
Lemma drain_topped fuel : forall p, topped p -> topped (sp_drain fuel p).
Proof.
  induction fuel as [|fuel IH]; intros p H; [done|]. cbn [sp_drain]. destruct (sp_buf p !! sp_head p) as [x|] eqn:E; [|done]. apply IH.
  exists (sp_head p). split; [|done]. apply (known_same _ (sp_take (sp_head p) p)); [done..|]. apply known_take. right. by exists x.
Qed.

(** Between operations. *)
Record rest (h0 : Z) (p : rspec) : Prop := {
  re_ok : sp_ok p;
  re_order : orderly h0 (sp_head p) p;
  re_pre : sp_started p = false -> sp_head p = h0 /\ sp_buf p = ∅;
  re_drained : drained p;
  re_topped : sp_started p = true -> topped p;
}.

(** The two ways an insertion that is not refused goes. *)
Lemma insert_cases n f now p : sp_ok p ->
  (sp_insert n f now p = sp_give n f p /\ sp_started p = false /\ n < sp_head p) \/
  (sp_insert n f now p = sp_start p /\ n < sp_head p /\ sp_started p = true) \/
  (sp_head p <= n /\ exists p2, sp_head p <= sp_head p2 <= n /\ n < sp_head p2 + sp_win p2 /\ sp_started p2 = true /\ sp_ok p2 /\
    (p2 = sp_start p \/ sp_buf p2 !! n = None) /\ (n < sp_head p + sp_win p -> p2 = sp_start p) /\
    ((is_Some (sp_buf p2 !! n) /\ sp_insert n f now p = p2) \/
     (sp_buf p2 = ∅ /\ n = sp_head p2 /\ sp_insert n f now p = sp_give n f (sp_move (n + 1) p2)) \/
     (sp_buf p2 !! n = None /\ sp_insert n f now p = sp_drain drain_fuel (sp_put n f now p2)))).
Proof.
  intros Hok. pose proof (so_win _ Hok) as Hw. unfold sp_insert. cbv zeta. destruct (negb (sp_started p) && (n <? sp_head p)) eqn:E1.
  { apply andb_prop in E1 as [E1%negb_true_iff E2%Z.ltb_lt]. by left. }
  change (sp_head (sp_start p)) with (sp_head p). change (sp_win (sp_start p)) with (sp_win p).
  destruct (Z.ltb_spec n (sp_head p)) as [Hn|Hn].
  { right; left. rewrite andb_true_r in E1. apply negb_false_iff in E1. done. }
  right; right. split; [done|]. match goal with |- context [if ?b then sp_start p else ?q] => set (p2 := if b then sp_start p else q) end.
  exists p2. assert (H : sp_head p <= sp_head p2 <= n /\ n < sp_head p2 + sp_win p2 /\ sp_started p2 = true /\ sp_ok p2 /\ (p2 = sp_start p \/ sp_buf p2 !! n = None) /\
    (n < sp_head p + sp_win p -> p2 = sp_start p)).
  { unfold p2. destruct (Z.ltb_spec n (sp_head p + sp_win p)).
    - cbn. split_and!; try done; [by destruct Hok|by left].
    - cbn [sp_move sp_head sp_win sp_started]. set (k := Z.min _ _).
      destruct (sp_window_spec k (sp_start p) ltac:(lia)) as (F1 & F2 & F3 & F4). cbn [sp_start sp_head sp_win sp_started sp_buf] in F1, F2, F3, F4.
      split_and!; [lia|lia|rewrite F2; lia|by rewrite F3| | |lia].
      + apply sp_ok_move; [split; rewrite ?F1, ?F2; [done|]; intros m Hm; apply F4 in Hm as [Hm _]; by apply (so_buf _ Hok)|lia|].
        intros m Hm. apply F4 in Hm as [Hm Hk]. pose proof (so_buf _ Hok m Hm). lia.
      + right. destruct (_ !! n) as [x|] eqn:E; [|done]. destruct (proj1 (F4 n) ltac:(by exists x)) as [Hm _]. pose proof (so_buf _ Hok n Hm). lia. }
  destruct H as (H1 & H2 & H3 & H4 & H5 & H6). split_and!; try done; [lia|lia|]. clearbody p2.
  destruct (sp_buf p2 !! n) as [x|] eqn:E; [left; split; [by exists x|done]|right].
  destruct ((n =? sp_head p2) && bool_decide (sp_buf p2 = ∅)) eqn:Ed; [left|by right].
  apply andb_prop in Ed as [->%Z.eqb_eq Hb%bool_decide_eq_true]. done.
Qed.

Lemma sp_ok_put p n f t : sp_ok p -> sp_head p <= n < sp_head p + sp_win p -> sp_ok (sp_put n f t p).
Proof.
  intros [W B] Hn. split; cbn; [done|]. intros m [x Hm]. rewrite lookup_insert_Some in Hm. destruct Hm as [[<- _]|[_ Hm]]; [done|]. apply B. by exists x.
Qed.

Lemma drain_started fuel : forall p, sp_started (sp_drain fuel p) = sp_started p.
Proof.
  induction fuel as [|fuel IH]; intros p; [done|]. cbn [sp_drain]. destruct (sp_buf p !! sp_head p); [|done]. rewrite IH. cbn. apply take_keeps.
Qed.
Lemma drain_win fuel : forall p, sp_win (sp_drain fuel p) = sp_win p.
Proof.
  induction fuel as [|fuel IH]; intros p; [done|]. cbn [sp_drain]. destruct (sp_buf p !! sp_head p); [|done]. rewrite IH. cbn. apply take_keeps.
Qed.
Lemma timeout_started fuel now : forall p, sp_started (sp_timeout fuel now p) = sp_started p.
Proof.
  induction fuel as [|fuel IH]; intros p; [done|]. cbn [sp_timeout]. destruct (sp_buf p !! sp_head p); [apply drain_started|].
  destruct (sp_first p _ 1) as [k|]; [|done]. destruct (sp_buf p !! (sp_head p + k)) as [[f t]|]; [|done]. destruct (now <=? _); [done|].
  rewrite IH, drain_started. done.
Qed.

Lemma rest_insert h0 n f now p : rest h0 p -> rest h0 (sp_insert n f now p).
Proof.
  intros [Hok Hor Hpre Hdr Htop]. pose proof (orderly_insert h0 n f now p Hok Hor ltac:(intros Hs; by apply Hpre)) as Hor'.
  destruct (insert_cases n f now p Hok)
    as [(E & Hs & Hn)|[(E & Hn & Hs)|(Hn & p2 & Hh & Hw2 & Hst & Hok2 & Hp2 & Hin & Hc)]].
  - rewrite E in Hor' |- *. split; try done; [by destruct Hok|]. intros Hs'. cbn in Hs'. congruence.
  - rewrite E in Hor' |- *. split; try done; [by destruct Hok|]. intros _. destruct (Htop Hs) as (m & Hm & Hle). by exists m.
  - destruct Hc as [[[x Hx] E]|[(Hb & -> & E)|(Hb & E)]]; rewrite E in Hor' |- *.
    + split; [done|done|congruence| |intros _; exists n; split; [right; by exists x|lia]].
      destruct Hp2 as [-> | Hnone]; [exact Hdr|congruence].
    + split; [|done|cbn; congruence| |].
      * destruct (sp_ok_move p2 (sp_head p2 + 1) Hok2 ltac:(lia)) as [W B]; [|by split].
        intros m Hm. rewrite Hb, lookup_empty in Hm. by destruct Hm.
      * unfold drained. cbn. by rewrite Hb, lookup_empty.
      * intros _. exists (sp_head p2). split; [left; cbn; rewrite fmap_app, elem_of_app; right; by left|cbn; lia].
    + pose proof (sp_ok_put p2 n f now Hok2 ltac:(lia)) as Hput. split; [by apply sp_ok_drain|done|rewrite drain_started; cbn; congruence| |].
      * apply drain_drained. rewrite (proj1 fuels). pose proof (sp_size_le _ Hput). lia.
      * intros _. apply drain_topped. exists n. split; [right; cbn; by rewrite lookup_insert_eq; eexists|cbn; lia].
Qed.

(** A sweep leaves nothing waiting behind a hole past the limit. *)
Definition fresh (now : Z) (p : rspec) : Prop := forall k f t,
  sp_first p (Z.to_nat (sp_win p - 1)) 1 = Some k -> sp_buf p !! (sp_head p + k) = Some (f, t) -> now <= u64 (t + RTW_REORDER_TIMEOUT_NS).
Lemma timeout_spec fuel now : forall p, sp_ok p -> drained p -> topped p -> (size (sp_buf p) < fuel)%nat ->
  let q := sp_timeout fuel now p in sp_ok q /\ drained q /\ topped q /\ fresh now q.
Proof.
  induction fuel as [|fuel IH]; intros p Hok Hdr Htop Hf; [lia|]. cbv zeta. cbn [sp_timeout]. unfold drained in Hdr. rewrite Hdr.
  pose proof (sp_first_spec p (Z.to_nat (sp_win p - 1)) 1) as Hs. destruct (sp_first p _ 1) as [k|] eqn:Ek.
  2:{ split_and!; try done. intros k f t Hk. congruence. }
  destruct Hs as (Hk & [[f t] Hx] & Hno). rewrite Hx. destruct (Z.leb_spec now (u64 (t + RTW_REORDER_TIMEOUT_NS))) as [Hle|Hgt].
  { split_and!; try done. intros k' f' t' Hk' Hx'. assert (k' = k) as -> by congruence. assert (t' = t) as -> by congruence. done. }
  assert (Hok1 : sp_ok (sp_move (sp_head p + k) p)).
  { apply sp_ok_move; [done|lia|]. intros m Hm. pose proof (so_buf _ Hok m Hm). destruct (decide (sp_head p + k <= m)); [done|]. exfalso.
    destruct (decide (m = sp_head p)) as [->|]; [rewrite Hdr in Hm; by destruct Hm|]. specialize (Hno (m - sp_head p) ltac:(lia)).
    replace (sp_head p + (m - sp_head p)) with m in Hno by lia. rewrite Hno in Hm. by destruct Hm. }
  assert (Hlt : (size (sp_buf (sp_drain drain_fuel (sp_move (sp_head p + k) p))) < size (sp_buf p))%nat).
  { apply (drain_smaller drain_fuel (sp_move (sp_head p + k) p) (f, t)); [rewrite (proj1 fuels); lia|done]. }
  pose proof (sp_size_le _ Hok1) as Hsz. apply IH; [by apply sp_ok_drain| | |lia].
  - apply drain_drained. rewrite (proj1 fuels). lia.
  - apply drain_topped. exists (sp_head p + k). split; [right; by exists (f, t)|cbn; lia].
Qed.
Lemma timeout_rest h0 now p : rest h0 p -> rest h0 (sp_timeout timeout_fuel now p) /\ fresh now (sp_timeout timeout_fuel now p).
Proof.
  intros [Hok Hor Hpre Hdr Htop]. destruct (sp_started p) eqn:Es.
  - destruct (timeout_spec timeout_fuel now p Hok Hdr (Htop eq_refl)) as (H1 & H2 & H3 & H4).
    { rewrite (proj2 fuels). pose proof (sp_size_le _ Hok). lia. }
    split; [|done]. split; try done; [by apply orderly_timeout|]. rewrite timeout_started. congruence.
  - destruct (Hpre eq_refl) as [Hh Hb]. rewrite (sp_timeout_empty _ _ _ Hb). split; [by split; rewrite ?Es|].
    intros k f t _ Hx. by rewrite Hb, lookup_empty in Hx.
Qed.
Lemma rest_step h0 p e : rest h0 p -> rest h0 (sp_step p e).
Proof. intros H. destruct e as [n f now|now]; [by apply rest_insert|by apply timeout_rest]. Qed.
Lemma rest_new h0 win : rest h0 (sp_new h0 win).
Proof.
  split; try done.
  - split; cbn; [unfold clamp_win; lia|]. intros n [x Hx]. by rewrite lookup_empty in Hx.
  - split; [constructor|constructor|done].
Qed.

Lemma known_window m k p : known p m -> known (sp_window k p) m.
Proof. by apply (kept_window _ (known_take m)). Qed.
Lemma insert_known n f now h0 p : rest h0 p -> let q := sp_insert n f now p in known q n \/ exists m, known q m /\ n < m.
Proof.
  intros Hr. cbv zeta. pose proof (re_ok _ _ Hr) as Hok.
  destruct (insert_cases n f now p Hok) as [(E & Hs & Hn)|[(E & Hn & Hs)|(Hn & p2 & Hh & Hw2 & Hst & Hok2 & Hp2 & Hin & Hc)]].
  - rewrite E. left. left. cbn. rewrite fmap_app, elem_of_app. right. by left.
  - rewrite E. destruct (re_topped _ _ Hr Hs) as (m & Hm & Hle). destruct (decide (m = n)) as [->|]; [by left|right]. exists m. split; [done|lia].
  - left. destruct Hc as [[Hx E]|[(Hb & -> & E)|(Hb & E)]]; rewrite E.
    + by right.
    + left. cbn. rewrite fmap_app, elem_of_app. right. by left.
    + apply (kept_drain _ (known_take n) (known_same n)). right. cbn. rewrite lookup_insert_eq. by eexists.
Qed.

(** Over a session: the invariant, what arrived, and that what is not known came
    too late. *)
Lemma session_spec h0 es : forall A p, rest h0 p -> fed A p ->
  (forall n f, (n, f) ∈ A -> known p n \/ exists m, known p m /\ n < m) ->
  let q := foldl sp_step p es in rest h0 q /\ fed (A ++ arrivals es) q /\
  (forall n f, (n, f) ∈ A ++ arrivals es -> known q n \/ exists m, known q m /\ n < m).
Proof.
  induction es as [|e es IH]; intros A p Hr Hf Hk; cbn [foldl]; [by rewrite app_nil_r|].
  replace (A ++ arrivals (e :: es)) with ((A ++ arrivals [e]) ++ arrivals es) by (rewrite <- app_assoc; by destruct e).
  apply IH; [by apply rest_step|by apply fed_step|]. intros n f [Hn|Hn]%elem_of_app.
  - destruct (Hk n f Hn) as [H|(m & H & Hlt)]; [left; by apply known_step|right]. exists m. split; [by apply known_step|done].
  - destruct e as [n' f' now|now]; [|by apply elem_of_nil in Hn]. apply list_elem_of_singleton in Hn. injection Hn as -> ->. by apply (insert_known _ _ _ h0).
Qed.

(** C5: the reorder buffer implements its specification.  From the opening of a
    window, through any arrivals within half the number space of the head and any
    sweeps, the code (12-bit numbers, 64 slots reused by position) hands on
    exactly the frames the buffer over unbounded numbers does, in that order,
    counts what waits exactly, and never uses a store that is not there. *)
Theorem reorder_refines (h0 win : Z) (c : reord_counters) (es : list revent) :
  events_ok (sp_new h0 win) es ->
  let s := foldl reorder_step (reorder_open h0 win c) es in
  let p := foldl sp_step (sp_new h0 win) es in
  rs_out s = (sp_out p).*2 /\ rt_head (rs_tid s) = sp_head p mod 4096 /\
  rt_stored (rs_tid s) = Z.of_nat (size (sp_buf p)) /\ (size (sp_buf p) <= 64)%nat /\ rs_null s = false.
Proof.
  intros He. cbv zeta. pose proof (sim_steps es _ _ (sim_open h0 win c) He) as Hs.
  split_and!; [apply Hs..| |apply Hs]. apply sp_size_le, Hs.
Qed.

(** C7: what a window hands on, from its opening to its closing: only frames
    that arrived; of the numbers from the agreed start on, each at most once and
    in increasing order; and every number that arrived, unless a frame after it
    is handed on, in which case it came too late. *)
Theorem reorder_in_order (h0 win : Z) (c : reord_counters) (es : list revent) :
  events_ok (sp_new h0 win) es ->
  let s := reorderDeactivate (foldl reorder_step (reorder_open h0 win c) es) in
  exists handed : list (Z * list Z), rs_out s = handed.*2 /\ rs_null s = false /\
    (forall x, x ∈ handed -> x ∈ arrivals es) /\
    StronglySorted Z.lt (in_window h0 handed.*1) /\
    (forall n f, (n, f) ∈ arrivals es -> n ∈ handed.*1 \/ exists m, m ∈ handed.*1 /\ n < m).
Proof.
  intros He. cbv zeta. pose proof (sim_steps es _ _ (sim_open h0 win c) He) as Hs.
  destruct (session_spec h0 es [] (sp_new h0 win) (rest_new h0 win)) as (Hr & Hf & Hk); [split; [by intros ? ? ?%elem_of_nil|done]|by intros ? ? ?%elem_of_nil|].
  cbn [app] in *. set (p := foldl sp_step (sp_new h0 win) es) in *. destruct (sim_close _ _ Hs) as (E & Enull & _).
  pose proof (so_win _ (re_ok _ _ Hr)) as Hw. exists (sp_out (sp_window (sp_win p) p)). split; [exact E|]. split; [exact Enull|].
  assert (Hall : forall m, known p m -> m ∈ (sp_out (sp_window (sp_win p) p)).*1).
  { intros m Hm. apply (known_window m (sp_win p)) in Hm as [Hm|Hm]; [done|]. rewrite window_all, lookup_empty in Hm by apply Hr. by destruct Hm. }
  split_and!.
  - intros [n f] Hn. pose proof (kept_window _ (fed_take (arrivals es)) (sp_win p) p Hf) as [H _]. by apply H.
  - apply (orderly_window h0 (sp_win p) p); [lia|apply Hr].
  - intros n f Hn. destruct (Hk n f Hn) as [H|(m & H & Hlt)]; [left; by apply Hall|right]. exists m. split; [by apply Hall|done].
Qed.

(** ** Nothing missing: the frames come out as they were sent *)

Section Complete.
Context (frame : Z -> list Z) (h0 : Z).
Hypothesis frame_fits : forall n, Z.of_nat (length (frame n)) <= RTW_REORDER_SLOT_SZ.

(** The numbers and times of the arrivals. *)
Definition times (es : list revent) : list (Z * Z) :=
  omap (fun e => match e with Arrive n _ t => Some (n, t) | Sweep _ => None end) es.

(** With the arrivals [seen] so far: everything up to the head is out, in order;
    everything else waits, since it arrived. *)
Record complete (seen : list (Z * Z)) (p : rspec) : Prop := {
  co_ok : sp_ok p;
  co_from : h0 <= sp_head p;
  co_out : sp_out p = (fun n => (n, frame n)) <$> seqZ h0 (sp_head p - h0);
  co_buf n f t : sp_buf p !! n = Some (f, t) -> f = frame n /\ (n, t) ∈ seen;
  co_seen n : h0 <= n -> (n ∈ seen.*1 <-> n < sp_head p \/ is_Some (sp_buf p !! n));
}.
Lemma seqZ_snoc m : h0 <= m -> (fun n => (n, frame n)) <$> seqZ h0 (m + 1 - h0) = ((fun n => (n, frame n)) <$> seqZ h0 (m - h0)) ++ [(m, frame m)].
Proof.
  intros Hm. replace (m + 1 - h0) with ((m - h0) + 1) by lia. rewrite seqZ_app by lia. rewrite fmap_app. f_equal.
  replace (h0 + (m - h0)) with m by lia. done.
Qed.
Lemma complete_drain seen fuel : forall p, complete seen p -> complete seen (sp_drain fuel p).
Proof.
  induction fuel as [|fuel IH]; intros p H; [done|]. cbn [sp_drain]. destruct (sp_buf p !! sp_head p) as [[f t]|] eqn:E; [|done]. apply IH.
  pose proof (sp_ok_drain 1 p (co_ok _ _ H)) as Hok. cbn [sp_drain] in Hok. rewrite E in Hok.
  destruct H as [[W B] Hfr Ho Hb Hs]. split; [exact Hok|cbn; lia|..]; unfold sp_take; rewrite E; cbn [sp_move sp_out sp_buf sp_head].
  - rewrite seqZ_snoc by done. destruct (Hb _ _ _ E) as [-> _]. by rewrite Ho.
  - intros n g t' Hn. rewrite lookup_delete_Some in Hn. by eapply Hb, Hn.
  - intros n Hn. rewrite (Hs n Hn). rewrite lookup_delete_is_Some. destruct (decide (n = sp_head p)) as [->|Hne].
    + split; [lia|]. intros _. right. by rewrite E; eexists.
    + split; (intros [?|Hx]; [left; lia|right]); [by split|by apply Hx].
Qed.
Lemma complete_insert seen n now p : complete seen p -> drained p -> (sp_started p = false -> sp_head p = h0) -> h0 <= n -> n < sp_head p + sp_win p ->
  let q := sp_insert n (frame n) now p in complete (seen ++ [(n, now)]) q /\ drained q /\ sp_started q = true /\ sp_win q = sp_win p.
Proof.
  intros H Hdr Hpre Hn Hw. cbv zeta.
  assert (Hmem : forall m, m ∈ (seen ++ [(n, now)]).*1 <-> m ∈ seen.*1 \/ m = n) by (intros m; rewrite fmap_app, elem_of_app; cbn; by rewrite list_elem_of_singleton).
  assert (Hmore : forall x, x ∈ seen -> x ∈ seen ++ [(n, now)]) by (intros x Hx; apply elem_of_app; by left).
  destruct (insert_cases n (frame n) now p (co_ok _ _ H)) as [(E & Hs & Hlt)|[(E & Hlt & Hs)|(Hge & p2 & Hh & Hw2 & Hst & Hok2 & Hp2 & Hin & Hc)]].
  - specialize (Hpre Hs). lia.
  - rewrite E. split; [|by split_and!]. destruct H as [[W B] Hfr Ho Hb Hsn]. split; try done; [intros m f t Hm; destruct (Hb _ _ _ Hm); auto|].
    intros m Hm. rewrite Hmem, (Hsn m Hm). cbn. split; [intros [?| ->]; [done|by left]|by left].
  - specialize (Hin Hw). subst p2. assert (Hadd : forall m, h0 <= m -> (m ∈ (seen ++ [(n, now)]).*1 <-> (m < sp_head p \/ is_Some (sp_buf p !! m)) \/ m = n)).
    { intros m Hm. by rewrite Hmem, (co_seen _ _ H m Hm). }
    destruct H as [[W B] Hfr Ho Hb Hsn]. destruct Hc as [[Hx E]|[(Hemp & -> & E)|(Hnone & E)]]; rewrite E; cbn [sp_start sp_buf sp_head sp_win] in *.
    + split; [|by split_and!]. split; try done; [intros m f t Hm; destruct (Hb _ _ _ Hm); auto|].
      intros m Hm. rewrite (Hadd m Hm). cbn. split; [intros [?| ->]; [done|by right]|by left].
    + split; [|split_and!; try done; unfold drained; cbn; by rewrite Hemp, lookup_empty]. split; cbn; [split; cbn; [done|]; intros m [x Hm]; by rewrite Hemp, lookup_empty in Hm|lia|..].
      * rewrite seqZ_snoc by done. by rewrite Ho.
      * intros m f t Hm. by rewrite Hemp, lookup_empty in Hm.
      * intros m Hm. rewrite (Hadd m Hm), Hemp, lookup_empty. split; [intros [[?|[]]| ->]; [left; lia|done|left; lia]|].
        intros [?|[]]; [|done]. destruct (decide (m = sp_head p)); [by right|left; left; lia].
    + pose proof (sp_ok_put _ n (frame n) now Hok2 ltac:(cbn; lia)) as Hput. split; [|split_and!; [apply drain_drained; rewrite (proj1 fuels); pose proof (sp_size_le _ Hput); lia|by rewrite drain_started|by rewrite drain_win]].
      apply complete_drain. split; [done|done|done|..]; cbn [sp_put sp_start sp_buf sp_head].
      * intros m g t Hm. rewrite lookup_insert_Some in Hm. destruct Hm as [[<- Hm]|[_ Hm]]; [|destruct (Hb _ _ _ Hm); auto].
        injection Hm as <- <-. split; [done|]. apply elem_of_app. right. by left.
      * intros m Hm. rewrite (Hadd m Hm), lookup_insert_is_Some'. split; [intros [[?|?]| ->]; auto|intros [?|[->|?]]; auto].
Qed.
(** A sweep that comes before any frame behind a hole has waited its time changes
    nothing. *)
Lemma complete_sweep seen fuel now p : complete seen p -> drained p ->
  (forall n t, (n, t) ∈ seen -> (exists m, h0 <= m < n /\ m ∉ seen.*1) -> now <= u64 (t + RTW_REORDER_TIMEOUT_NS)) ->
  sp_timeout fuel now p = p.
Proof.
  intros H Hdr Hnow. destruct fuel as [|fuel]; [done|]. cbn [sp_timeout]. unfold drained in Hdr. rewrite Hdr.
  pose proof (sp_first_spec p (Z.to_nat (sp_win p - 1)) 1) as Hf. destruct (sp_first _ _ _) as [k|]; [|done]. destruct Hf as (Hk & [[f t] Hx] & _). rewrite Hx.
  destruct (co_buf _ _ H _ _ _ Hx) as [_ Hin]. destruct (Z.leb_spec now (u64 (t + RTW_REORDER_TIMEOUT_NS))) as [|Hlt]; [done|exfalso].
  specialize (Hnow _ _ Hin). pose proof (co_from _ _ H). enough (now <= u64 (t + RTW_REORDER_TIMEOUT_NS)) by lia. apply Hnow. exists (sp_head p). split; [lia|].
  intros Hs. apply (co_seen _ _ H) in Hs as [Hs|[x Hs]]; [lia| |done]. congruence.
Qed.

(** What is asked of an event, after the arrivals [seen]. *)
Definition timely (win : Z) (seen : list (Z * Z)) (e : revent) : Prop :=
  match e with
  | Arrive n f _ => f = frame n /\ h0 <= n /\ (forall m, h0 <= m <= n - clamp_win win -> m ∈ seen.*1) /\ (forall m, m ∈ seen.*1 -> m - n < 2047)
  | Sweep now => forall n t, (n, t) ∈ seen -> (exists m, h0 <= m < n /\ m ∉ seen.*1) -> now <= u64 (t + RTW_REORDER_TIMEOUT_NS)
  end.
Lemma complete_run win : forall (es : list revent) seen p, complete seen p -> drained p -> (sp_started p = false -> sp_head p = h0) -> sp_win p = clamp_win win ->
  (forall es1 e es2, es = es1 ++ e :: es2 -> timely win (seen ++ times es1) e) ->
  events_ok p es /\ complete (seen ++ times es) (foldl sp_step p es) /\ drained (foldl sp_step p es).
Proof.
  induction es as [|e es IH]; intros seen p H Hdr Hpre Hwin Hl; cbn [foldl events_ok]; [by rewrite app_nil_r|].
  pose proof (Hl [] e es eq_refl) as He. cbn [times omap list_omap] in He. rewrite app_nil_r in He.
  pose proof (co_from _ _ H) as Hfr.
  assert (Htl : forall s1, (forall es1 e' es2, es = es1 ++ e' :: es2 -> times (e :: es1) = s1 ++ times es1) ->
    forall es1 e' es2, es = es1 ++ e' :: es2 -> timely win ((seen ++ s1) ++ times es1) e').
  { intros s1 Hs1 es1 e' es2 E. pose proof (Hl (e :: es1) e' es2 ltac:(by rewrite E)) as Ht. by rewrite (Hs1 es1 e' es2 E), app_assoc in Ht. }
  destruct e as [n f t|now]; cbn [timely] in He.
  - destruct He as (-> & Hn & Hbefore & Hlate). assert (Hlt : n < sp_head p + sp_win p).
    { destruct (decide (n < sp_head p + sp_win p)) as [|Hge]; [done|]. exfalso. assert (Hin : sp_head p ∈ seen.*1) by (apply Hbefore; lia).
      apply (co_seen _ _ H) in Hin as [Hin|[x Hin]]; [lia| |done]. unfold drained in Hdr. congruence. }
    assert (Hgt : -2048 < n - sp_head p).
    { destruct (decide (sp_head p = h0)); [lia|]. assert (Hin : sp_head p - 1 ∈ seen.*1) by (apply (co_seen _ _ H); [lia|left; lia]).
      specialize (Hlate _ Hin). lia. }
    destruct (complete_insert seen n t p H Hdr Hpre Hn Hlt) as (H' & Hdr' & Hst' & Hw').
    pose proof (so_win _ (co_ok _ _ H)) as Hw.
    destruct (IH (seen ++ [(n, t)]) (sp_insert n (frame n) t p) H' Hdr' ltac:(congruence) ltac:(congruence)) as (Hes & Hc & Hd); [by apply (Htl [(n, t)])|].
    rewrite <- app_assoc in Hc. split; [split; [|exact Hes]|by split]. split; [lia|apply frame_fits].
  - cbn [sp_step]. rewrite (complete_sweep seen _ now p H Hdr He).
    destruct (IH seen p H Hdr Hpre Hwin) as (Hes & Hc & Hd); [|by split; [split|]].
    pose proof (Htl []) as Ht. rewrite app_nil_r in Ht. by apply Ht.
Qed.
End Complete.

(** C6: on a link that loses nothing the reorder buffer restores the order
    exactly.  Arrivals may come in any order, resends included, each after every
    number a whole window before it and no more than half the number space late;
    sweeps may come anywhere, but in time: no frame that waits behind a number
    still missing has then been there for more than 100 ms.  Then what has been
    handed on at any time is the frames from the agreed start up to the first
    number that has not arrived, one after the other, each as it arrived. *)
Theorem reorder_complete (frame : Z -> list Z) (h0 win : Z) (c : reord_counters) (es : list revent) :
  (forall n, Z.of_nat (length (frame n)) <= RTW_REORDER_SLOT_SZ) ->
  (forall es1 e es2, es = es1 ++ e :: es2 -> timely frame h0 win (times es1) e) ->
  let s := foldl reorder_step (reorder_open h0 win c) es in
  exists k, 0 <= k /\ rs_out s = frame <$> seqZ h0 k /\
    (forall m, h0 <= m < h0 + k -> m ∈ (arrivals es).*1) /\ (h0 + k) ∉ (arrivals es).*1.
Proof.
  intros Hfit Hl. cbv zeta.
  destruct (complete_run frame h0 Hfit win es [] (sp_new h0 win)) as (He & Hc & Hd); try done.
  { pose proof (re_ok _ _ (rest_new h0 win)) as [W B]. split; cbn; [by split|lia| |intros n f t; by rewrite lookup_empty|].
    - by rewrite Z.sub_diag.
    - intros n Hn. rewrite lookup_empty. split; [by intros ?%elem_of_nil|intros [?|[]]; [lia|done]]. }
  pose proof (sim_steps _ _ _ (sim_open h0 win c) He) as Hs. cbn [app] in Hc. set (p := foldl sp_step _ _) in *.
  assert (Ea : (arrivals es).*1 = (times es).*1).
  { clear. unfold arrivals, times. induction es as [|[n f t|now] es IH]; [done| |exact IH]. cbn. by f_equal. }
  rewrite Ea. pose proof (co_from _ _ _ _ Hc). exists (sp_head p - h0). split; [lia|]. split_and!.
  - rewrite (sim_out _ _ Hs), (co_out _ _ _ _ Hc). rewrite <- list_fmap_compose. done.
  - intros m Hm. apply (co_seen _ _ _ _ Hc); [lia|left; lia].
  - replace (h0 + (sp_head p - h0)) with (sp_head p) by lia. intros Hin. apply (co_seen _ _ _ _ Hc) in Hin as [Hin|[x Hin]]; [lia| |done].
    unfold drained in Hd. congruence.
Qed.

(** No frame waits for a missing one for more than 100 ms.  After a sweep, in
    any session, either nothing waits, or the head is a hole and the nearest frame
    behind it arrived at most 100 ms before. *)
Theorem reorder_sweep_fresh (h0 win : Z) (c : reord_counters) (es : list revent) (now : Z) :
  events_ok (sp_new h0 win) es ->
  let t := rs_tid (foldl reorder_step (reorder_open h0 win c) (es ++ [Sweep now])) in
  rt_stored t = 0 \/
  (occ_at t (RTW_REORDER_IDX (rt_head t)) = false /\ exists k, first_waiting t (Z.to_nat (rt_win t - 1)) 1 = Some k /\
     now <= u64 (nth (RTW_REORDER_IDX (rt_head t + k)) (rt_t_ns t) 0 + RTW_REORDER_TIMEOUT_NS)).
Proof.
  intros He. cbv zeta. rewrite foldl_app. cbn [foldl].
  pose proof (sim_steps es _ _ (sim_open h0 win c) He) as Hs.
  destruct (session_spec h0 es [] (sp_new h0 win) (rest_new h0 win)) as (Hr & _ & _); [split; [by intros ? ? ?%elem_of_nil|done]|by intros ? ? ?%elem_of_nil|].
  set (p := foldl sp_step _ es) in *. set (s := foldl reorder_step _ es) in *. clearbody p s.
  pose proof (sim_step p s (Sweep now) Hs I) as Hs'. cbn [sp_step] in Hs'. destruct (timeout_rest h0 now p Hr) as [Hr' Hf].
  set (q := sp_timeout timeout_fuel now p) in *. clearbody q. set (s' := reorder_step s (Sweep now)) in *. clearbody s'.
  pose proof (so_win _ (re_ok _ _ Hr')) as Hw. pose proof (re_drained _ _ Hr') as Hd. unfold drained in Hd.
  destruct (decide (sp_buf q = ∅)) as [Hb|Hb]; [left; rewrite (sim_stored _ _ Hs'), Hb; done|right].
  rewrite (sim_win _ _ Hs'), (sim_first q s') by (done || lia). rewrite (sim_head _ _ Hs'), idx_ix, ix_mod0, (sim_occ q s') by (done || lia).
  rewrite Hd. split; [done|]. pose proof (first_exists q (re_ok _ _ Hr') Hd Hb) as Hex.
  pose proof (sp_first_spec q (Z.to_nat (sp_win q - 1)) 1) as Hsp. destruct (sp_first q _ 1) as [k|] eqn:Ek; [|done].
  exists k. split; [done|]. destruct Hsp as (_ & [[f t] Hx] & _). rewrite idx_ix, ix_mod.
  destruct (sim_slot _ _ Hs') as (st & _ & _ & Hsl). destruct (Hsl _ _ _ Hx) as (_ & _ & ->). by eapply Hf.
Qed.

(** ** Witnesses *)

#[export] Instance arrival_ok_dec p n f : Decision (arrival_ok p n f).
Proof. unfold arrival_ok. apply _. Defined.
#[export] Instance events_ok_dec : forall es p, Decision (events_ok p es).
Proof.
  induction es as [|e es IH]; intros p; cbn [events_ok]; [apply _|]. apply and_dec; [destruct e; apply _|apply IH].
Defined.

Definition zero_counts : reord_counters := RCnt 0 0 0 0 0.
(** Across the wrap of the numbers, out of order, with a resend and a hole. *)
Definition wrap_events : list revent :=
  [Arrive 4095 [95] 10; Arrive 4094 [94] 20; Arrive 4094 [94] 30; Arrive 4097 [97] 40; Sweep 50; Arrive 4096 [96] 60; Arrive 4099 [99] 70].
Lemma wrap_ok : events_ok (sp_new 4094 8) wrap_events.
Proof. refine (bool_decide_unpack _ _). by vm_compute. Qed.

Lemma reorder_refines_witness :
  let s := foldl reorder_step (reorder_open 4094 8 zero_counts) wrap_events in
  rs_out s = [[94]; [95]; [96]; [97]] /\ rt_head (rs_tid s) = 2 /\ rt_stored (rs_tid s) = 1.
Proof.
  destruct (reorder_refines 4094 8 zero_counts wrap_events wrap_ok) as (H1 & H2 & H3 & _).
  cbv zeta. rewrite H1, H2, H3. split; [vm_compute; reflexivity|split; vm_compute; reflexivity].
Defined.

Lemma reorder_in_order_witness : exists handed : list (Z * list Z),
  rs_out (reorderDeactivate (foldl reorder_step (reorder_open 4094 8 zero_counts) wrap_events)) = handed.*2 /\
  StronglySorted Z.lt (in_window 4094 handed.*1).
Proof.
  destruct (reorder_in_order 4094 8 zero_counts wrap_events wrap_ok) as (handed & H1 & _ & _ & H2 & _). exists handed. exact (conj H1 H2).
Defined.

(** Out of order, a resend, and sweeps while a frame waits and after. *)
Definition late_events : list revent := [Arrive 6 [6] 10; Sweep 99000000; Arrive 5 [5] 99500000; Arrive 6 [6] 99600000; Sweep 700000000; Arrive 7 [7] 700000001].
Fixpoint splits (es1 es : list revent) : list (list revent * revent) :=
  match es with [] => [] | e :: es => (es1, e) :: splits (es1 ++ [e]) es end.
Lemma splits_all es : forall es0 es1 e es2, es = es1 ++ e :: es2 -> (es0 ++ es1, e) ∈ splits es0 es.
Proof.
  induction es as [|x es IH]; intros es0 es1 e es2 E; [by destruct es1|]. destruct es1 as [|y es1]; injection E as -> E; cbn [splits].
  - rewrite app_nil_r. left.
  - right. specialize (IH (es0 ++ [y]) es1 e es2 E). by rewrite <- app_assoc in IH.
Qed.
Lemma reorder_complete_witness : exists k, 0 <= k /\
  rs_out (foldl reorder_step (reorder_open 5 4 zero_counts) late_events) = (fun n => [n]) <$> seqZ 5 k /\
  (forall m, 5 <= m < 5 + k -> m ∈ (arrivals late_events).*1) /\ (5 + k) ∉ (arrivals late_events).*1.
Proof.
  apply (reorder_complete (fun n => [n]) 5 4 zero_counts late_events); [intros n; cbn; unfold RTW_REORDER_SLOT_SZ; lia|].
  intros es1 e es2 E. apply (splits_all late_events []) in E. cbn [app] in E. unfold late_events in E. cbn [splits app] in E.
  rewrite !elem_of_cons in E. destruct E as [[= -> ->]|[[= -> ->]|[[= -> ->]|[[= -> ->]|[[= -> ->]|[[= -> ->]|E]]]]]]; [..|by apply elem_of_nil in E];
    cbn [timely times omap list_omap fmap list_fmap fst]; unfold clamp_win.
  - split_and!; [done|lia|lia|]. by intros m ?%elem_of_nil.
  - intros n t Ht _. apply list_elem_of_singleton in Ht as [= -> ->]. vm_compute. discriminate.
  - split_and!; [done|lia|lia|]. intros m Hm. apply list_elem_of_singleton in Hm. lia.
  - split_and!; [done|lia|lia|]. intros m Hm. rewrite !elem_of_cons in Hm. destruct Hm as [->|[->|Hm]]; [lia..|by apply elem_of_nil in Hm].
  - intros n t Ht (m & Hm & Hno). exfalso. rewrite !elem_of_cons in Ht. destruct Ht as [[= -> ->]|[[= -> ->]|[[= -> ->]|Ht]]]; [..|by apply elem_of_nil in Ht]; try lia;
      apply Hno; (assert (m = 5) as -> by lia); right; left.
  - split_and!; [done|lia|lia|]. intros m Hm. rewrite !elem_of_cons in Hm. destruct Hm as [->|[->|[->|Hm]]]; [lia..|by apply elem_of_nil in Hm].
Defined.

Lemma reorder_sweep_fresh_witness :
  let t := rs_tid (foldl reorder_step (reorder_open 4094 8 zero_counts) (wrap_events ++ [Sweep 100000060])) in
  rt_stored t = 0 \/
  (occ_at t (RTW_REORDER_IDX (rt_head t)) = false /\ exists k, first_waiting t (Z.to_nat (rt_win t - 1)) 1 = Some k /\
     100000060 <= u64 (nth (RTW_REORDER_IDX (rt_head t + k)) (rt_t_ns t) 0 + RTW_REORDER_TIMEOUT_NS)).
Proof. apply (reorder_sweep_fresh 4094 8 zero_counts wrap_events 100000060 wrap_ok). Defined.
