(* ===== verification/Deliver.v ===== *)
(** * Deliver: received frames up to the network stack (server/RTW88Server.cpp)

    What the poll loop does with one received 802.11 frame: Block-Ack management,
    the per-TID reorder windows, the statistics, and turning data frames (single
    or A-MSDU) into Ethernet frames.  Reads of a frame are checked against its
    declared length.  Proved: no frame, however malformed, is read past its end or
    written past the Ethernet buffer; frames built to the standard come out as the
    Ethernet frames they carry; the window agreed with the access point is the one
    that is opened; the drop counters add up. *)
From stdpp Require Import gmap.
From S2P Require Import Prelude Reorder.
Open Scope Z_scope.
Open Scope rtw_scope.

(** ** Parsing one data frame *)

Definition at_ (f : list Z) (i : Z) : option Z := rd f i.
Definition f_len (f : list Z) : Z := Z.of_nat (length f).

(** [l[0] == 0xaa && l[1] == 0xaa && l[2] == 0x03] *)
Definition llc_at (f : list Z) (i : Z) : option bool :=
  a ← at_ f i;
  if negb (a =? 0xaa) then Some false else
  b ← at_ f (i + 1);
  if negb (b =? 0xaa) then Some false else
  c ← at_ f (i + 2);
  Some (c =? 0x03).

Definition be16_at (f : list Z) (i : Z) : option Z :=
  a ← at_ f i; b ← at_ f (i + 1); Some ((a << 8) .| b).

Definition rtw_hdr_ok (f : list Z) (amsdu : bool) (cand : Z) : option bool :=
  let pkt_len := f_len f in
  if pkt_len <? cand + 8 then Some false else
  if amsdu then
    let rem := pkt_len - cand in
    if rem <? 14 + 8 then Some false else
    sublen ← be16_at f (cand + 12);
    if (sublen <? 8) || (rem <? 14 + sublen) then Some false else llc_at f (cand + 14)
  else llc_at f cand.

(** Which path dropped a frame; [gPHtcFix] counts the frames the second guess
    saved. *)
Record parse_counters := PCnt { gPShort : Z; gPLlc : Z; gPAmsdu : Z; gPBig : Z; gPHtcFix : Z; gDrxParse : Z }.
Definition p_short (c : parse_counters) := PCnt (u64 (gPShort c + 1)) (gPLlc c) (gPAmsdu c) (gPBig c) (gPHtcFix c) (u64 (gDrxParse c + 1)).
Definition p_llc (c : parse_counters) := PCnt (gPShort c) (u64 (gPLlc c + 1)) (gPAmsdu c) (gPBig c) (gPHtcFix c) (u64 (gDrxParse c + 1)).
Definition p_amsdu (c : parse_counters) := PCnt (gPShort c) (gPLlc c) (u64 (gPAmsdu c + 1)) (gPBig c) (gPHtcFix c) (u64 (gDrxParse c + 1)).
Definition p_big (c : parse_counters) := PCnt (gPShort c) (gPLlc c) (gPAmsdu c) (u64 (gPBig c + 1)) (gPHtcFix c) (u64 (gDrxParse c + 1)).
Definition p_htcfix (c : parse_counters) := PCnt (gPShort c) (gPLlc c) (gPAmsdu c) (gPBig c) (u64 (gPHtcFix c + 1)) (gDrxParse c).

Definition ETH_BUF : Z := 1614.
(** [eth[1614]] filled with two addresses, the type and [plen] bytes from [i]: an
    access outside the buffer or the frame is [None]. *)
Definition eth_frame (addr : list Z) (f : list Z) (i plen : Z) : option (list Z) :=
  if ETH_BUF <? 14 + plen then None else
  t ← rd_bytes f (i + 6) 2;
  d ← rd_bytes f (i + 8) plen;
  Some (addr ++ t ++ d).

(** The subframe at offset [p]: an Ethernet frame if it has an LLC header and
    fits. *)
Definition amsdu_subframe (f : list Z) (p sublen : Z) : option (list (list Z)) :=
  ok ← llc_at f (p + 14);
  let plen := sublen - 8 in
  if negb ok || (1600 <? plen) then Some [] else
  addr ← rd_bytes f p 12;
  e ← eth_frame addr f (p + 14) plen;
  Some [e].

(** The A-MSDU loop from offset [p]; [fuel] bounds the subframes. *)
Fixpoint amsdu_loop (fuel : nat) (f : list Z) (p rem : Z) : option (list (list Z)) :=
  match fuel with
  | O => None
  | S fuel =>
      if rem <? 14 then Some [] else
      sublen ← be16_at f (p + 12);
      if (sublen <? 8) || (rem <? 14 + sublen) then Some [] else
      one ← amsdu_subframe f p sublen;
      let adv := u32 (14 + sublen + 3) .& .~ 3 in
      if rem <? adv then Some one else
      rest ← amsdu_loop fuel f (p + adv) (rem - adv);
      Some (one ++ rest)
  end.

(** One in-order data frame: the Ethernet frames for [inputEth]. *)
Definition deliverMpdu (f : list Z) (c : parse_counters) : option (list (list Z) * parse_counters) :=
  let pkt_len := f_len f in
  b0 ← at_ f 0; b1 ← at_ f 1;
  let fc := b0 .| (b1 << 8) in
  let qos := nz ((fc >> 4) .& 0x8) && (26 <=? pkt_len) in
  amsdu ← (if qos then q ← at_ f 24; Some (nz (q .& 0x80)) else Some false);
  let base := 24 + (if qos then 2 else 0) + (if nz ((fc >> 14) .& 1) then 8 else 0) in
  let fchtc := if nz ((fc >> 15) .& 1) then 4 else 0 in
  let cand0 := base + fchtc in
  let cand1 := base + (if nz fchtc then 0 else 4) in
  ok0 ← rtw_hdr_ok f amsdu cand0;
  ok1 ← (if ok0 : bool then Some false else rtw_hdr_ok f amsdu cand1);
  if negb ok0 && negb ok1 then
    Some ([], if pkt_len <? base + 8 then p_short c else if amsdu : bool then p_amsdu c else p_llc c)
  else
  let hdr := if ok0 : bool then cand0 else cand1 in
  let c := if ok0 : bool then c else p_htcfix c in
  if amsdu : bool then
    l ← amsdu_loop (S (Z.to_nat (pkt_len - hdr))) f hdr (pkt_len - hdr);
    Some (l, if (length l =? 0)%nat then p_amsdu c else c)
  else
    let plen := pkt_len - hdr - 8 in
    if 1600 <? plen then Some ([], p_big c) else
    da ← rd_bytes f 4 6;
    sa ← rd_bytes f 16 6;
    e ← eth_frame (da ++ sa) f hdr plen;
    Some ([e], c).

(** Handing a frame to the stack: whether it is up, and whether a packet can be
    had and filled. *)
Definition inputEth (running netif alloc filled : bool) (data : list Z) : option (list Z) :=
  if negb running || negb netif || (f_len data <? 14) || (2048 <? f_len data) then None
  else if alloc && filled then Some data else None.

(** ** No frame is read or written out of bounds *)

Lemma at_Some f i : 0 <= i < f_len f -> exists v, at_ f i = Some v.
Proof. intros Hi. destruct (rd_Some f i Hi) as (v & Hv & _). by exists v. Qed.
Lemma llc_at_Some f i : 0 <= i -> i + 3 <= f_len f -> exists b, llc_at f i = Some b.
Proof.
  intros H1 H2. unfold llc_at. destruct (at_Some f i) as [a ->]; [lia|]. destruct (at_Some f (i + 1)) as [b ->]; [lia|].
  destruct (at_Some f (i + 2)) as [c ->]; [lia|]. cbn. repeat case_match; eauto.
Qed.
Lemma be16_at_Some f i : bytes_ok f -> 0 <= i -> i + 2 <= f_len f -> exists v, be16_at f i = Some v /\ 0 <= v < 65536.
Proof.
  intros Hf H1 H2. unfold be16_at, at_. destruct (rd_byte f i Hf) as (a & -> & Ha); [unfold f_len in *; lia|].
  destruct (rd_byte f (i + 1) Hf) as (b & -> & Hb); [unfold f_len in *; lia|]. eexists. split; [done|].
  apply (lor_range 16); [lia| |unfold byte_ok in *; lia]. unfold byte_ok in *. rewrite Z.shiftl_mul_pow2 by lia. lia.
Qed.
Lemma hdr_ok_Some f amsdu cand : bytes_ok f -> 0 <= cand -> exists b, rtw_hdr_ok f amsdu cand = Some b /\
  (b = true -> cand + 8 <= f_len f /\ (amsdu = true -> cand + 22 <= f_len f)).
Proof.
  intros Hf Hc. unfold rtw_hdr_ok. cbv zeta. destruct (Z.ltb_spec (f_len f) (cand + 8)); [by exists false|]. destruct amsdu.
  - destruct (Z.ltb_spec (f_len f - cand) (14 + 8)); [by exists false|].
    destruct (be16_at_Some f (cand + 12) Hf) as (s & -> & Hs); [lia|lia|]. cbn [mbind option_bind].
    destruct (_ || _); [by exists false|]. destruct (llc_at_Some f (cand + 14)) as [b ->]; [lia|lia|]. exists b. split; [done|]. lia.
  - destruct (llc_at_Some f cand) as [b ->]; [lia|lia|]. exists b. split; [done|]. by split.
Qed.
Lemma eth_frame_Some addr f i plen : 0 <= i -> 0 <= plen <= 1600 -> i + 8 + plen <= f_len f -> length addr = 12%nat ->
  exists e, eth_frame addr f i plen = Some e /\ f_len e = 14 + plen.
Proof.
  intros H1 H2 H3 Ha. unfold eth_frame, ETH_BUF, f_len in *. destruct (Z.ltb_spec 1614 (14 + plen)); [lia|].
  rewrite !rd_bytes_Some by lia. cbn [mbind option_bind]. eexists. split; [done|].
  rewrite !length_app, !length_take, !length_drop. lia.
Qed.

Lemma round4 n : 0 <= n < 2 ^ 31 -> n <= u32 (n + 3) .& .~ 3 < n + 4.
Proof.
  intros Hn. rewrite u32_small by (change (2 ^ 32) with (2 * 2 ^ 31); lia).
  assert (E : (n + 3) .& .~ 3 = (n + 3) - (n + 3) mod 4).
  { change 3 with (Z.ones 2) at 2. rewrite <- Z.ldiff_land, Z.ldiff_ones_r by lia. rewrite Z.shiftr_div_pow2, Z.shiftl_mul_pow2 by lia.
    change (2 ^ 2) with 4. pose proof (Z.div_mod (n + 3) 4). lia. }
  rewrite E. pose proof (Z.mod_pos_bound (n + 3) 4). lia.
Qed.

Definition eth_ok (e : list Z) : Prop := 14 <= f_len e <= ETH_BUF.
Lemma amsdu_subframe_Some f p s : 0 <= p -> 8 <= s -> p + 14 + s <= f_len f ->
  exists l, amsdu_subframe f p s = Some l /\ Forall eth_ok l.
Proof.
  intros Hp Hs Hl. unfold amsdu_subframe. destruct (llc_at_Some f (p + 14)) as [ok ->]; [lia|lia|]. cbn [mbind option_bind]. cbv zeta.
  destruct (negb ok || (1600 <? s - 8)) eqn:E; [by exists []|]. apply orb_false_elim in E as [_ E%Z.ltb_ge].
  rewrite rd_bytes_Some by (unfold f_len in *; lia). cbn [mbind option_bind].
  destruct (eth_frame_Some (take (Z.to_nat 12) (drop (Z.to_nat p) f)) f (p + 14) (s - 8)) as (e & -> & He); [lia|lia|lia| |].
  { rewrite length_take, length_drop. unfold f_len in *. lia. }
  exists [e]. split; [done|]. constructor; [|done]. unfold eth_ok, ETH_BUF. lia.
Qed.
Lemma amsdu_loop_Some fuel f : forall p rem, bytes_ok f -> 0 <= p -> p + rem <= f_len f -> (Z.to_nat rem < fuel)%nat ->
  exists l, amsdu_loop fuel f p rem = Some l /\ Forall eth_ok l.
Proof.
  induction fuel as [|fuel IH]; intros p rem Hf Hp Hr Hfu; cbn [amsdu_loop]; [lia|].
  destruct (Z.ltb_spec rem 14); [by exists []|]. destruct (be16_at_Some f (p + 12) Hf) as (s & -> & Hs); [lia|lia|]. cbn [mbind option_bind].
  destruct ((s <? 8) || (rem <? 14 + s)) eqn:Eb; [by exists []|]. apply orb_false_elim in Eb as [E1%Z.ltb_ge E2%Z.ltb_ge].
  destruct (amsdu_subframe_Some f p s) as (l & -> & Hl); [lia|lia|lia|]. cbn [mbind option_bind]. cbv zeta.
  pose proof (round4 (14 + s) ltac:(lia)) as Ha. set (adv := _ .& _) in *. destruct (Z.ltb_spec rem adv); [by exists l|].
  destruct (IH (p + adv) (rem - adv) Hf) as (l' & -> & Hl'); [lia..|]. cbn. exists (l ++ l'). split; [done|]. by apply Forall_app.
Qed.

(** The drop counters: [gDrxParse] counts what the others count between them. *)
Definition parse_agree (c : parse_counters) : Prop :=
  gDrxParse c = u64 (gPShort c + gPLlc c + gPAmsdu c + gPBig c).
Lemma parse_counts c : parse_agree c ->
  parse_agree (p_short c) /\ parse_agree (p_llc c) /\ parse_agree (p_amsdu c) /\ parse_agree (p_big c) /\ parse_agree (p_htcfix c).
Proof.
  unfold parse_agree. intros H. cbn [p_short p_llc p_amsdu p_big p_htcfix gDrxParse gPShort gPLlc gPAmsdu gPBig]. rewrite H. clear H.
  unfold wrap. change (2 ^ 64) with 18446744073709551616. split_and!; Z.to_euclidean_division_equations; lia.
Qed.

(** What one frame does: it is dropped and counted once, or handed on. *)
Lemma deliver_total f c : bytes_ok f -> 24 <= f_len f -> exists l c', deliverMpdu f c = Some (l, c') /\ Forall eth_ok l /\
  (parse_agree c -> parse_agree c') /\ (gDrxParse c' = if (length l =? 0)%nat then u64 (gDrxParse c + 1) else gDrxParse c).
Proof.
  intros Hf Hl. unfold deliverMpdu. cbv zeta. destruct (at_Some f 0) as [b0 ->]; [lia|]. destruct (at_Some f 1) as [b1 ->]; [lia|]. cbn [mbind option_bind].
  set (fc := b0 .| (b1 << 8)). set (qos := nz _ && (26 <=? f_len f)).
  assert (Ha : exists a, (if qos then q ← at_ f 24; Some (nz (q .& 0x80)) else Some false) = Some a).
  { destruct qos eqn:Eq; [|by eexists]. apply andb_prop in Eq as [_ Eq%Z.leb_le]. destruct (at_Some f 24) as [q ->]; [lia|]. by eexists. }
  destruct Ha as [amsdu ->]. cbn [mbind option_bind].
  set (base := 24 + _ + _). set (htc := if nz ((fc >> 15) .& 1) then 4 else 0).
  assert (Hif : forall (b : bool) x, 0 <= x -> 0 <= (if b then x else 0)) by (intros [] x Hx; lia).
  assert (Hb : 24 <= base) by (pose proof (Hif qos 2); pose proof (Hif (nz ((fc >> 14) .& 1)) 8); unfold base; lia).
  assert (Hh : 0 <= htc) by (unfold htc; apply Hif; lia).
  destruct (hdr_ok_Some f amsdu (base + htc) Hf) as (ok0 & -> & H0); [lia|]. cbn [mbind option_bind].
  set (cand1 := base + (if nz htc then 0 else 4)). assert (Hc1 : 0 <= cand1) by (pose proof (Hif (negb (nz htc)) 4); unfold cand1; destruct (nz htc); lia).
  assert (Hok1 : exists ok1, (if ok0 then Some false else rtw_hdr_ok f amsdu cand1) = Some ok1 /\
    (ok1 = true -> cand1 + 8 <= f_len f /\ (amsdu = true -> cand1 + 22 <= f_len f))).
  { destruct ok0; [by exists false|]. destruct (hdr_ok_Some f amsdu cand1 Hf Hc1) as (b & -> & Hb1). by exists b. }
  destruct Hok1 as (ok1 & -> & H1). cbn [mbind option_bind].
  destruct (negb ok0 && negb ok1) eqn:Eok.
  { eexists _, _. split; [done|]. split; [done|]. cbn [length Nat.eqb]. split.
    - intros Hag. destruct (parse_counts c Hag) as (P1 & P2 & P3 & _). by destruct (f_len f <? base + 8); [|destruct amsdu].
    - by destruct (f_len f <? base + 8); [|destruct amsdu]. }
  set (hdr := if ok0 then base + htc else cand1). set (c1 := if ok0 then c else p_htcfix c).
  assert (Hhdr : 24 <= hdr /\ hdr + 8 <= f_len f /\ (amsdu = true -> hdr + 22 <= f_len f)).
  { unfold hdr. destruct ok0; [split; [lia|by apply H0]|]. destruct ok1; [|done]. split; [|by apply H1]. unfold cand1. destruct (nz htc); lia. }
  assert (Hc : (parse_agree c -> parse_agree c1) /\ gDrxParse c1 = gDrxParse c).
  { unfold c1. destruct ok0; [done|]. split; [|done]. intros Hag. by apply (parse_counts c). }
  clearbody hdr c1. clear H0 H1 Eok. destruct Hhdr as (Hh1 & Hh2 & _), Hc as [Hc1' Hc2]. destruct amsdu.
  - destruct (amsdu_loop_Some (S (Z.to_nat (f_len f - hdr))) f hdr (f_len f - hdr) Hf) as (l & -> & Hl'); [lia..|]. cbn [mbind option_bind].
    eexists _, _. split; [done|]. split; [done|]. destruct (length l =? 0)%nat; [|done]. split; [intros Hag; by apply (parse_counts c1), Hc1'|].
    cbn. by rewrite Hc2.
  - destruct (Z.ltb_spec 1600 (f_len f - hdr - 8)).
    { eexists _, _. split; [done|]. split; [done|]. cbn. rewrite Hc2. split; [|done]. intros Hag. by apply (parse_counts c1), Hc1'. }
    rewrite !rd_bytes_Some by (unfold f_len in *; lia). cbn [mbind option_bind].
    destruct (eth_frame_Some (take (Z.to_nat 6) (drop (Z.to_nat 4) f) ++ take (Z.to_nat 6) (drop (Z.to_nat 16) f)) f hdr (f_len f - hdr - 8)) as (e & -> & He);
      [lia|lia|lia|rewrite length_app, !length_take, !length_drop; unfold f_len in *; lia|].
    cbn [mbind option_bind]. eexists _, _. split; [done|]. split; [constructor; [unfold eth_ok, ETH_BUF; lia|done]|done].
Qed.

(** ** Frames built to the standard *)

Definition LLC : list Z := [0xaa; 0xaa; 0x03; 0; 0; 0].
(** A data frame's header from the access point: QoS or not, protected (with the
    8-byte CCMP header) or not, with HT Control or not; [q] is the QoS Control. *)
Definition data_head (qos prot htc : bool) (q dur sc a1 a2 a3 ht iv : list Z) : list Z :=
  [if qos then 0x88 else 0x08; 0x02 .| (if prot then 0x40 else 0) .| (if htc then 0x80 else 0)] ++ dur ++ a1 ++ a2 ++ a3 ++ sc ++
  (if qos then q else []) ++ (if htc then ht else []) ++ (if prot then iv else []).
Record head_ok (q dur sc a1 a2 a3 ht iv : list Z) : Prop := {
  ho_q : length q = 2%nat; ho_dur : length dur = 2%nat; ho_sc : length sc = 2%nat;
  ho_a1 : length a1 = 6%nat; ho_a2 : length a2 = 6%nat; ho_a3 : length a3 = 6%nat;
  ho_ht : length ht = 4%nat; ho_iv : length iv = 8%nat;
}.

Lemma rd_skip pre post i : 0 <= i -> rd (pre ++ post) (Z.of_nat (length pre) + i) = rd post i.
Proof.
  intros Hi. unfold rd. destruct (Z.ltb_spec (Z.of_nat (length pre) + i) 0); [lia|]. destruct (Z.ltb_spec i 0); [lia|].
  rewrite lookup_app_r by lia. f_equal. lia.
Qed.
Lemma rd_bytes_skip pre post i n : 0 <= i -> 0 <= n -> i + n <= f_len post ->
  rd_bytes (pre ++ post) (Z.of_nat (length pre) + i) n = Some (take (Z.to_nat n) (drop (Z.to_nat i) post)).
Proof.
  intros Hi Hn Hl. unfold f_len in Hl. rewrite rd_bytes_Some; [|lia|done|rewrite length_app; lia]. f_equal. f_equal.
  rewrite drop_app. replace (drop (Z.to_nat (Z.of_nat (length pre) + i)) pre) with (@nil Z) by (symmetry; apply drop_ge; lia). cbn. f_equal. lia.
Qed.

Lemma llc_here pre rest : llc_at (pre ++ LLC ++ rest) (Z.of_nat (length pre)) = Some true.
Proof.
  unfold llc_at, at_. rewrite <- (Z.add_0_r (Z.of_nat (length pre))). rewrite <- Z.add_assoc, rd_skip by lia. cbn [LLC app].
  change (rd (0xaa :: ?l) 0) with (Some 0xaa). cbn [mbind option_bind].
  rewrite <- Z.add_assoc, !rd_skip by lia. done.
Qed.
(** An Ethernet frame out of a header at [length pre]. *)
Lemma eth_here addr pre et pay : length et = 2%nat -> (length pay <= 1600)%nat ->
  eth_frame addr (pre ++ LLC ++ et ++ pay) (Z.of_nat (length pre)) (Z.of_nat (length pay)) = Some (addr ++ et ++ pay).
Proof.
  intros Het Hp. unfold eth_frame, ETH_BUF. destruct (Z.ltb_spec 1614 (14 + Z.of_nat (length pay))); [lia|].
  rewrite !rd_bytes_skip by (unfold f_len; rewrite ?length_app, ?Het; cbn [LLC length]; lia). cbn [mbind option_bind].
  rewrite Nat2Z.id. destruct et as [|e0 [|e1 []]]; try done. cbn [LLC app].
  change (drop (Z.to_nat 6) (0xaa :: 0xaa :: 0x03 :: 0 :: 0 :: 0 :: e0 :: e1 :: pay)) with (e0 :: e1 :: pay).
  change (drop (Z.to_nat 8) (0xaa :: 0xaa :: 0x03 :: 0 :: 0 :: 0 :: e0 :: e1 :: pay)) with pay.
  change (take (Z.to_nat 2) (e0 :: e1 :: pay)) with [e0; e1]. by rewrite (firstn_all pay).
Qed.

(** What [deliverMpdu] makes of the header. *)
Lemma deliver_head qos prot htc q dur sc a1 a2 a3 ht iv body c : head_ok q dur sc a1 a2 a3 ht iv -> 2 <= f_len body ->
  let f := data_head qos prot htc q dur sc a1 a2 a3 ht iv ++ body in
  let hdr := Z.of_nat (length (data_head qos prot htc q dur sc a1 a2 a3 ht iv)) in
  let amsdu := qos && nz (nth 0 q 0 .& 0x80) in
  rtw_hdr_ok f amsdu hdr = Some true ->
  deliverMpdu f c =
    if amsdu then
      l ← amsdu_loop (S (Z.to_nat (f_len f - hdr))) f hdr (f_len f - hdr);
      Some (l, if (length l =? 0)%nat then p_amsdu c else c)
    else
      if 1600 <? f_len body - 8 then Some ([], p_big c) else
      e ← eth_frame (a1 ++ a3) f hdr (f_len body - 8);
      Some ([e], c).
Proof.
  intros [Hq Hdur Hsc Ha1 Ha2 Ha3 Hht Hiv] Hb f hdr amsdu Hok.
  assert (Ef : f_len f = hdr + f_len body) by (unfold f, hdr, f_len; rewrite length_app; lia).
  unfold deliverMpdu. cbv zeta.
  destruct q as [|q0 [|q1 []]]; try done. destruct dur as [|d0 [|d1 []]]; try done. destruct sc as [|s0 [|s1 []]]; try done.
  destruct a1 as [|x0 [|x1 [|x2 [|x3 [|x4 [|x5 []]]]]]]; try done. destruct a2 as [|y0 [|y1 [|y2 [|y3 [|y4 [|y5 []]]]]]]; try done.
  destruct a3 as [|z0 [|z1 [|z2 [|z3 [|z4 [|z5 []]]]]]]; try done. destruct ht as [|h0 [|h1 [|h2 [|h3 []]]]]; try done.
  destruct iv as [|i0 [|i1 [|i2 [|i3 [|i4 [|i5 [|i6 [|i7 []]]]]]]]]; try done.
  assert (Eh : hdr = 24 + (if qos then 2 else 0) + (if htc then 4 else 0) + (if prot then 8 else 0)) by (unfold hdr; by destruct qos, prot, htc).
  assert (E0 : at_ f 0 = Some (if qos then 0x88 else 0x08)) by done.
  assert (E1 : at_ f 1 = Some (0x02 .| (if prot then 0x40 else 0) .| (if htc then 0x80 else 0))) by done.
  rewrite E0, E1. cbn [mbind option_bind].
  set (fc := _ .| (_ << 8)).
  assert (F1 : nz ((fc >> 4) .& 8) = qos) by (unfold fc; by destruct qos, prot, htc).
  assert (F2 : nz ((fc >> 14) .& 1) = prot) by (unfold fc; by destruct qos, prot, htc).
  assert (F3 : nz ((fc >> 15) .& 1) = htc) by (unfold fc; by destruct qos, prot, htc).
  rewrite F1, F2, F3. clearbody fc.
  assert (Ea : (if qos && (26 <=? f_len f) then q ← at_ f 24; Some (nz (q .& 0x80)) else Some false) = Some amsdu).
  { unfold amsdu. destruct qos; [|done]. replace (26 <=? f_len f) with true by (symmetry; apply Z.leb_le; rewrite Ef, Eh; destruct htc, prot; lia).
    done. }
  rewrite Ea. cbn [mbind option_bind].
  replace (qos && (26 <=? f_len f)) with qos.
  2:{ destruct qos; [|done]. symmetry. apply Z.leb_le. rewrite Ef, Eh. destruct htc, prot; lia. }
  replace (24 + (if qos then 2 else 0) + (if prot then 8 else 0) + (if htc then 4 else 0)) with hdr by (rewrite Eh; lia).
  rewrite Hok. cbn [mbind option_bind negb andb]. destruct amsdu; [done|].
  replace (f_len f - hdr - 8) with (f_len body - 8) by lia. destruct (1600 <? f_len body - 8); [done|].
  assert (E4 : rd_bytes f 4 6 = Some [x0; x1; x2; x3; x4; x5]).
  { rewrite rd_bytes_Some; [done|lia|lia|]. change (Z.of_nat (length f)) with (f_len f). rewrite Ef, Eh. destruct qos, htc, prot; lia. }
  assert (E16 : rd_bytes f 16 6 = Some [z0; z1; z2; z3; z4; z5]).
  { rewrite rd_bytes_Some; [done|lia|lia|]. change (Z.of_nat (length f)) with (f_len f). rewrite Ef, Eh. destruct qos, htc, prot; lia. }
  rewrite E4, E16. done.
Qed.

Lemma msdu_hdr_ok pre rest : 2 <= f_len rest -> rtw_hdr_ok (pre ++ LLC ++ rest) false (Z.of_nat (length pre)) = Some true.
Proof.
  intros Hr. unfold rtw_hdr_ok. cbv zeta. destruct (Z.ltb_spec (f_len (pre ++ LLC ++ rest)) (Z.of_nat (length pre) + 8)) as [H|]; [|apply llc_here].
  unfold f_len in *. rewrite !length_app in H. cbn [LLC length] in H. lia.
Qed.

(** A single data frame, however its header is built (QoS or not, protected or
    not, with HT Control or not), is handed up as the Ethernet frame it carries:
    destination, source, type and payload, byte for byte, if the payload is at
    most 1600 bytes; a longer one is dropped and counted. *)
Theorem deliver_msdu (qos prot htc : bool) (q dur sc a1 a2 a3 ht iv et pay : list Z) (c : parse_counters) :
  head_ok q dur sc a1 a2 a3 ht iv -> length et = 2%nat -> qos && nz (nth 0 q 0 .& 0x80) = false ->
  deliverMpdu (data_head qos prot htc q dur sc a1 a2 a3 ht iv ++ LLC ++ et ++ pay) c =
    Some (if 1600 <? f_len pay then ([], p_big c) else ([a1 ++ a3 ++ et ++ pay], c)).
Proof.
  intros Hh Het Hq. assert (Hb : f_len (LLC ++ et ++ pay) = 8 + f_len pay) by (unfold f_len; rewrite !length_app, Het; cbn [LLC length]; lia).
  rewrite deliver_head; [|done|rewrite Hb; unfold f_len; lia|rewrite Hq; apply msdu_hdr_ok; unfold f_len; rewrite length_app, Het; lia].
  rewrite Hq, Hb. replace (8 + f_len pay - 8) with (f_len pay) by lia. destruct (Z.ltb_spec 1600 (f_len pay)); [done|].
  unfold f_len in *. rewrite eth_here by (done || lia). cbn. by rewrite <- app_assoc.
Qed.

(** An A-MSDU: addresses, type and payload of each subframe; all but the last are
    padded to four bytes. *)
Definition msdu : Type := (list Z * list Z * list Z * list Z)%type.
Definition msdu_ok (m : msdu) : Prop :=
  let '(da, sa, et, pay) := m in length da = 6%nat /\ length sa = 6%nat /\ length et = 2%nat /\ (length pay <= 1600)%nat.
Definition msdu_eth (m : msdu) : list Z := let '(da, sa, et, pay) := m in da ++ sa ++ et ++ pay.
Definition subframe (m : msdu) : list Z :=
  let '(da, sa, et, pay) := m in (da ++ sa) ++ be16 (8 + f_len pay) ++ LLC ++ et ++ pay.
Definition padding (n : Z) : list Z := replicate (Z.to_nat ((- n) mod 4)) 0.
Fixpoint amsdu_body (l : list msdu) : list Z :=
  match l with
  | [] => []
  | [m] => subframe m
  | m :: l => subframe m ++ padding (f_len (subframe m)) ++ amsdu_body l
  end.

Lemma subframe_len da sa et pay : msdu_ok (da, sa, et, pay) -> f_len (subframe (da, sa, et, pay)) = 22 + f_len pay.
Proof. intros (H1 & H2 & H3 & _). unfold f_len. cbn [subframe]. rewrite !length_app, H1, H2, H3. cbn [LLC be16 length]. lia. Qed.
Lemma pad_round n : 0 <= n < 2 ^ 31 -> u32 (n + 3) .& .~ 3 = n + (- n) mod 4.
Proof.
  intros Hn. rewrite u32_small by (change (2 ^ 32) with (2 * 2 ^ 31); lia).
  change 3 with (Z.ones 2) at 2. rewrite <- Z.ldiff_land, Z.ldiff_ones_r by lia. rewrite Z.shiftr_div_pow2, Z.shiftl_mul_pow2 by lia.
  change (2 ^ 2) with 4. Z.to_euclidean_division_equations. lia.
Qed.
Lemma be16_here pre v rest : 0 <= v < 65536 -> be16_at (pre ++ be16 v ++ rest) (Z.of_nat (length pre)) = Some v.
Proof.
  intros Hv. unfold be16_at, at_. rewrite <- (Z.add_0_r (Z.of_nat (length pre))) at 1. rewrite !rd_skip by lia. cbn [be16 app].
  change (rd (u8 (v >> 8) :: ?l) 0) with (Some (u8 (v >> 8))). change (rd (u8 (v >> 8) :: u8 v :: ?l) 1) with (Some (u8 v)). cbn [mbind option_bind]. f_equal.
  apply (bits_ext 16); [|done|].
  - apply (lor_range 16); [lia| |].
    + rewrite Z.shiftl_mul_pow2 by lia. pose proof (u8_byte_ok (v >> 8)) as H. unfold byte_ok in H. lia.
    + pose proof (u8_byte_ok v) as H. unfold byte_ok in H. lia.
  - intros i Hi. rewrite Z.lor_spec, Z.shiftl_spec, !wrap_testbit by lia. destruct (Z.ltb_spec i 8), (Z.leb_spec 0 (i - 8)); try lia; cbn [andb orb].
    + by destruct (Z.leb_spec 0 i); [|lia].
    + destruct (Z.ltb_spec (i - 8) 8); [|lia]. rewrite Z.shiftr_spec by lia. replace (i - 8 + 8) with i by lia.
      rewrite andb_false_r. cbn. by rewrite orb_false_r.
Qed.

(** One subframe at the end of [pre]. *)
Lemma subframe_here pre m rest : msdu_ok m ->
  let f := pre ++ subframe m ++ rest in let p := Z.of_nat (length pre) in let s := f_len (subframe m) - 14 in
  be16_at f (p + 12) = Some s /\ amsdu_subframe f p s = Some [msdu_eth m] /\ llc_at f (p + 14) = Some true /\ 8 <= s <= 1608.
Proof.
  destruct m as [[[da sa] et] pay]. intros Hm. cbv zeta. pose proof (subframe_len _ _ _ _ Hm) as Hl. rewrite Hl. destruct Hm as (H1 & H2 & H3 & H4).
  assert (Hp : 0 <= f_len pay <= 1600) by (unfold f_len; lia). cbn [subframe].
  set (pre2 := pre ++ da ++ sa). assert (L2 : Z.of_nat (length pre2) = Z.of_nat (length pre) + 12) by (unfold pre2; rewrite !length_app; lia).
  set (pre3 := pre2 ++ be16 (8 + f_len pay)). assert (L3 : Z.of_nat (length pre3) = Z.of_nat (length pre) + 14) by (unfold pre3; rewrite length_app; cbn [be16 length]; lia).
  assert (E2 : pre ++ ((da ++ sa) ++ be16 (8 + f_len pay) ++ LLC ++ et ++ pay) ++ rest = pre2 ++ be16 (8 + f_len pay) ++ LLC ++ et ++ pay ++ rest)
    by (unfold pre2; by rewrite <- !app_assoc).
  assert (E3 : pre ++ ((da ++ sa) ++ be16 (8 + f_len pay) ++ LLC ++ et ++ pay) ++ rest = pre3 ++ LLC ++ et ++ pay ++ rest)
    by (rewrite E2; unfold pre3; by rewrite <- !app_assoc).
  assert (Ellc : llc_at (pre ++ ((da ++ sa) ++ be16 (8 + f_len pay) ++ LLC ++ et ++ pay) ++ rest) (Z.of_nat (length pre) + 14) = Some true)
    by (rewrite E3, <- L3; apply llc_here).
  split_and!; try lia; [|clear E2|done].
  - rewrite E2, <- L2. rewrite be16_here by lia. f_equal. lia.
  - unfold amsdu_subframe. rewrite Ellc. cbn [mbind option_bind negb orb]. cbv zeta. destruct (Z.ltb_spec 1600 (22 + f_len pay - 14 - 8)); [lia|].
    assert (Ea : rd_bytes (pre ++ ((da ++ sa) ++ be16 (8 + f_len pay) ++ LLC ++ et ++ pay) ++ rest) (Z.of_nat (length pre)) 12 = Some (da ++ sa)).
    { rewrite <- !app_assoc. rewrite (app_assoc da sa). replace 12 with (Z.of_nat (length (da ++ sa))) by (rewrite length_app; lia). apply rd_bytes_middle. }
    rewrite Ea. cbn [mbind option_bind]. rewrite E3, <- L3. replace (22 + f_len pay - 14 - 8) with (f_len pay) by lia.
    unfold eth_frame, ETH_BUF. destruct (Z.ltb_spec 1614 (14 + f_len pay)); [lia|].
    rewrite !rd_bytes_skip by (unfold f_len in *; rewrite ?length_app, ?H3; cbn [LLC length]; lia). cbn [mbind option_bind].
    destruct et as [|e0 [|e1 []]]; try done. cbn [LLC app].
    change (drop (Z.to_nat 6) (0xaa :: 0xaa :: 0x03 :: 0 :: 0 :: 0 :: e0 :: e1 :: pay ++ rest)) with (e0 :: e1 :: pay ++ rest).
    change (drop (Z.to_nat 8) (0xaa :: 0xaa :: 0x03 :: 0 :: 0 :: 0 :: e0 :: e1 :: pay ++ rest)) with (pay ++ rest).
    change (take (Z.to_nat 2) (e0 :: e1 :: pay ++ rest)) with [e0; e1]. unfold f_len. rewrite Nat2Z.id, take_app_length. cbn [msdu_eth]. by rewrite <- app_assoc.
Qed.

Lemma amsdu_loop_body l : forall fuel pre, Forall msdu_ok l -> (length (amsdu_body l) < fuel)%nat ->
  amsdu_loop fuel (pre ++ amsdu_body l) (Z.of_nat (length pre)) (f_len (amsdu_body l)) = Some (map msdu_eth l).
Proof.
  induction l as [|m l IH]; intros fuel pre Hl Hf; [destruct fuel; [cbn in Hf; lia|done]|]. apply Forall_cons_1 in Hl as [Hm Hl].
  assert (Hsub : 22 <= f_len (subframe m) <= 1622).
  { destruct m as [[[da sa] et] pay]. rewrite subframe_len by done. destruct Hm as (_ & _ & _ & Hm). unfold f_len. lia. }
  set (rest := match l with [] => [] | _ => padding (f_len (subframe m)) ++ amsdu_body l end).
  assert (Eb : amsdu_body (m :: l) = subframe m ++ rest) by (unfold rest; destruct l; [by rewrite app_nil_r|done]).
  rewrite Eb in Hf |- *. destruct (subframe_here pre m rest Hm) as (H1 & H2 & H3 & H4). rewrite length_app in Hf. unfold f_len in Hsub.
  destruct fuel as [|fuel]; [lia|]. cbn [amsdu_loop]. assert (Er : f_len (subframe m ++ rest) = f_len (subframe m) + f_len rest) by (unfold f_len; rewrite length_app; lia).
  rewrite Er. pose proof (Nat2Z.is_nonneg (length rest)) as Hr0. unfold f_len at 3 in Er. fold (f_len (subframe m)) in Hsub. fold (f_len rest) in Hr0.
  destruct (Z.ltb_spec (f_len (subframe m) + f_len rest) 14); [lia|]. rewrite H1. cbn [mbind option_bind].
  destruct ((f_len (subframe m) - 14 <? 8) || (f_len (subframe m) + f_len rest <? 14 + (f_len (subframe m) - 14))) eqn:Eo.
  { apply orb_true_iff in Eo as [Eo%Z.ltb_lt|Eo%Z.ltb_lt]; lia. }
  rewrite H2. cbn [mbind option_bind]. cbv zeta. replace (14 + (f_len (subframe m) - 14) + 3) with (f_len (subframe m) + 3) by lia.
  rewrite pad_round by (change (2 ^ 31) with 2147483648; lia). set (n := f_len (subframe m)) in *. pose proof (Z.mod_pos_bound (- n) 4 ltac:(lia)).
  destruct l as [|m' l].
  - unfold rest. change (f_len []) with 0. destruct (Z.ltb_spec (n + 0) (n + (- n) mod 4)); [done|]. assert ((- n) mod 4 = 0) as -> by lia.
    replace (n + 0 - (n + 0)) with 0 by lia. destruct fuel as [|fuel]; [cbn in Hf; unfold n, f_len in *; lia|]. done.
  - assert (Hrest : f_len rest = (- n) mod 4 + f_len (amsdu_body (m' :: l))).
    { unfold rest, f_len. rewrite length_app. unfold padding. rewrite length_replicate. lia. }
    destruct (Z.ltb_spec (n + f_len rest) (n + (- n) mod 4)); [unfold f_len in *; lia|].
    set (pre' := pre ++ subframe m ++ padding n).
    assert (Ep : Z.of_nat (length pre') = Z.of_nat (length pre) + (n + (- n) mod 4)).
    { unfold pre'. rewrite !length_app. unfold padding. rewrite length_replicate. unfold n, f_len in *. lia. }
    assert (Ef : pre ++ subframe m ++ rest = pre' ++ amsdu_body (m' :: l)) by (unfold pre', rest; by rewrite <- !app_assoc).
    rewrite Ef, <- Ep. replace (n + f_len rest - (n + (- n) mod 4)) with (f_len (amsdu_body (m' :: l))) by lia.
    rewrite IH; [done|done|]. assert (n = Z.of_nat (length (subframe m))) by done. unfold f_len in Hrest. lia.
Qed.

(** C26: an aggregate of any number of frames, each subframe padded as the standard
    has it, comes apart into exactly the Ethernet frames it was made of, in
    order. *)
Theorem deliver_amsdu (prot htc : bool) (q dur sc a1 a2 a3 ht iv : list Z) (l : list msdu) (c : parse_counters) :
  head_ok q dur sc a1 a2 a3 ht iv -> nz (nth 0 q 0 .& 0x80) = true -> l <> [] -> Forall msdu_ok l ->
  deliverMpdu (data_head true prot htc q dur sc a1 a2 a3 ht iv ++ amsdu_body l) c = Some (map msdu_eth l, c).
Proof.
  intros Hh Hq Hne Hl. destruct l as [|m l]; [done|]. clear Hne. pose proof Hl as [Hm _]%Forall_cons_1.
  set (rest := match l with [] => [] | _ => padding (f_len (subframe m)) ++ amsdu_body l end).
  assert (Eb : amsdu_body (m :: l) = subframe m ++ rest) by (unfold rest; destruct l; [by rewrite app_nil_r|done]).
  set (pre := data_head true prot htc q dur sc a1 a2 a3 ht iv).
  assert (Hsub : 22 <= f_len (subframe m)).
  { destruct m as [[[da sa] et] pay]. rewrite subframe_len by done. unfold f_len. lia. }
  assert (Hlen : f_len (amsdu_body (m :: l)) = f_len (subframe m) + f_len rest) by (rewrite Eb; unfold f_len; rewrite length_app; lia).
  pose proof (Nat2Z.is_nonneg (length rest)) as Hr0. fold (f_len rest) in Hr0.
  assert (Hok : rtw_hdr_ok (pre ++ amsdu_body (m :: l)) true (Z.of_nat (length pre)) = Some true).
  { unfold rtw_hdr_ok. cbv zeta. assert (Ef : f_len (pre ++ amsdu_body (m :: l)) = f_len pre + f_len (amsdu_body (m :: l))) by (unfold f_len; rewrite length_app; lia).
    rewrite Ef. change (f_len pre) with (Z.of_nat (length pre)). destruct (Z.ltb_spec (Z.of_nat (length pre) + f_len (amsdu_body (m :: l))) (Z.of_nat (length pre) + 8)); [lia|].
    replace (Z.of_nat (length pre) + f_len (amsdu_body (m :: l)) - Z.of_nat (length pre)) with (f_len (amsdu_body (m :: l))) by lia.
    destruct (Z.ltb_spec (f_len (amsdu_body (m :: l))) (14 + 8)); [lia|]. rewrite Eb.
    destruct (subframe_here pre m rest Hm) as (H1 & _ & H3 & H4). rewrite H1. cbn [mbind option_bind].
    destruct ((f_len (subframe m) - 14 <? 8) || (f_len (subframe m ++ rest) <? 14 + (f_len (subframe m) - 14))) eqn:Eo; [|exact H3].
    rewrite Eb in Hlen. apply orb_true_iff in Eo as [Eo%Z.ltb_lt|Eo%Z.ltb_lt]; lia. }
  unfold pre in *. rewrite deliver_head; [|done|lia|by rewrite Hq]. rewrite Hq. cbn [andb].
  match goal with |- context [amsdu_loop (S (Z.to_nat ?k)) _ _ _] => replace k with (f_len (amsdu_body (m :: l))) by (unfold f_len; rewrite length_app; lia) end.
  rewrite amsdu_loop_body; [done|done|unfold f_len; lia].
Qed.

(** ** Concrete frames *)

Definition ap_mac : list Z := [2; 0; 0; 0; 0; 1].
Definition our_mac : list Z := [2; 0; 0; 0; 0; 2].
Definition host_mac : list Z := [2; 0; 0; 0; 0; 3].
Definition no_counts : parse_counters := PCnt 0 0 0 0 0 0.

Lemma deliver_msdu_witness :
  deliverMpdu (data_head true true false [0; 0] [0; 0] [0x10; 0] our_mac ap_mac host_mac [0; 0; 0; 0] [1; 0; 0; 0x20; 0; 0; 0; 0] ++
    LLC ++ [8; 0] ++ [0x45; 0x11; 0x22]) no_counts =
  Some ([[2; 0; 0; 0; 0; 2; 2; 0; 0; 0; 0; 3; 8; 0; 0x45; 0x11; 0x22]], no_counts).
Proof. apply (deliver_msdu true true false); [split; reflexivity|reflexivity|reflexivity]. Defined.

Definition two_msdus : list msdu :=
  [(our_mac, host_mac, [8; 0], [0x45; 1; 2; 3; 4]); (our_mac, host_mac, [8; 6], [7])].
Lemma deliver_amsdu_witness :
  deliverMpdu (data_head true false true [0x80; 0] [0; 0] [0x10; 0] our_mac ap_mac host_mac [0; 0; 0; 0] [0; 0; 0; 0; 0; 0; 0; 0] ++
    amsdu_body two_msdus) no_counts =
  Some ([[2; 0; 0; 0; 0; 2; 2; 0; 0; 0; 0; 3; 8; 0; 0x45; 1; 2; 3; 4]; [2; 0; 0; 0; 0; 2; 2; 0; 0; 0; 0; 3; 8; 6; 7]], no_counts).
Proof.
  apply (deliver_amsdu false true _ _ _ _ _ _ _ _ two_msdus); [split; reflexivity|reflexivity|discriminate|].
  repeat constructor; cbn; lia.
Defined.
