(* ===== verification/RxFrame.v ===== *)
(** * RxFrame: one received frame (server/RTW88Server.cpp)

    The dispatch of the poll loop: Block-Ack requests are answered and open or
    close a reorder window, data frames are counted and go through their window
    or straight up.  What a frame leads to is a list of outputs, in order: frames
    for the stack and management frames to transmit.  Proved: no frame whatever is
    read out of bounds or drives a window out of its invariant; an answered
    request opens the window it promises. *)
From stdpp Require Import gmap.
From S2P Require Import Prelude Reorder Deliver.
Open Scope Z_scope.
Open Scope rtw_scope.

(** ** State *)

Record rx_counters := RxCnt {
  gDrx : Z; gDrxRetry : Z; gDrxGap : Z; gDrxBack : Z; gMiss : Z; gBigJump : Z; gRetryDup : Z; gTidMask : Z;
  gLastSeq : Z; gLastSeqTid : list Z; gAddba : Z; gReordActiveMask : Z;
}.
Record rx_state := RxState {
  fBa : list ReorderTid; rx_parse : parse_counters; rx_reord : reord_counters; rx_cnt : rx_counters;
}.
Definition rx_cnt0 : rx_counters := RxCnt 0 0 0 0 0 0 0 0 0xffff (replicate 8 0xffff) 0 0.
Definition rx_state0 : rx_state :=
  RxState (replicate RTW_BA_TID_NUM reorder_tid0) (PCnt 0 0 0 0 0 0) (RCnt 0 0 0 0 0) rx_cnt0.
Definition set_rx_cnt (c : rx_counters) (st : rx_state) : rx_state := RxState (fBa st) (rx_parse st) (rx_reord st) c.

Inductive rx_out := ToStack (eth : list Z) | TxFrame (frame : list Z).

(** ** The windows *)

Fixpoint deliver_all (l : list (list Z)) (c : parse_counters) : option (list (list Z) * parse_counters) :=
  match l with
  | [] => Some ([], c)
  | f :: l => '(e, c) ← deliverMpdu f c; '(es, c) ← deliver_all l c; Some (e ++ es, c)
  end.

(** An operation on one window and the delivery of what it hands on; a null store
    or an index past the windows is [None]. *)
Definition with_tid (tid : nat) (g : rstate -> rstate) (st : rx_state) : option (rx_state * list rx_out) :=
  t ← fBa st !! tid;
  let s := g (RS t [] (rx_reord st) false) in
  if rs_null s then None else
  '(es, pc) ← deliver_all (rs_out s) (rx_parse st);
  Some (RxState (<[tid := rs_tid s]> (fBa st)) pc (rs_cnt s) (rx_cnt st), map ToStack es).

Definition set_mask (m : Z) (c : rx_counters) : rx_counters :=
  RxCnt (gDrx c) (gDrxRetry c) (gDrxGap c) (gDrxBack c) (gMiss c) (gBigJump c) (gRetryDup c) (gTidMask c) (gLastSeq c) (gLastSeqTid c) (gAddba c) m.
Definition set_addba (n : Z) (c : rx_counters) : rx_counters :=
  RxCnt (gDrx c) (gDrxRetry c) (gDrxGap c) (gDrxBack c) (gMiss c) (gBigJump c) (gRetryDup c) (gTidMask c) (gLastSeq c) (gLastSeqTid c) n (gReordActiveMask c).

(** ** Block-Ack management *)

Definition le16_at (f : list Z) (i : Z) : option Z := a ← at_ f i; b ← at_ f (i + 1); Some (a .| (b << 8)).

Definition addba_bufsz (ba_param : Z) : Z :=
  let bufsz := (ba_param >> 6) .& 0x3ff in
  if (bufsz =? 0) || (Z.of_nat RTW_BA_WIN_MAX <? bufsz) then Z.of_nat RTW_BA_WIN_MAX else bufsz.
Definition addba_resp (bssid mac : list Z) (dialog ba_param_out ba_timeout : Z) : list Z :=
  [0xd0; 0; 0; 0] ++ bssid ++ mac ++ bssid ++ [0; 0] ++
  [0x03; 0x01; dialog; 0; 0; u8 ba_param_out; u8 (ba_param_out >> 8); u8 ba_timeout; u8 (ba_timeout >> 8)].

(** [alloc]: whether the window's buffer can be had, if it needs one. *)
Definition handleAddbaReq (bssid mac : list Z) (alloc : bool) (f : list Z) (st : rx_state) : option (rx_state * list rx_out) :=
  if f_len f <? 24 + 9 then Some (st, []) else
  dialog ← at_ f 26;
  ba_param ← le16_at f 27;
  ba_timeout ← le16_at f 29;
  let tid := (ba_param >> 2) .& 0xf in
  if Z.of_nat RTW_BA_TID_NUM <=? tid then Some (st, []) else
  let bufsz := addba_bufsz ba_param in
  let ba_param_out := u16 ((ba_param .& 0x003f) .| (bufsz << 6)) in
  let r := addba_resp bssid mac dialog ba_param_out ba_timeout in
  let st := set_rx_cnt (set_addba (u64 (gAddba (rx_cnt st) + 1)) (rx_cnt st)) st in
  ba_ssc ← le16_at f 31;
  '(st, out) ← with_tid (Z.to_nat tid) (reorderActivate (ba_ssc >> 4) bufsz alloc) st;
  t ← fBa st !! Z.to_nat tid;
  let st := if rt_active t then set_rx_cnt (set_mask (gReordActiveMask (rx_cnt st) .| (1 << tid)) (rx_cnt st)) st else st in
  Some (st, TxFrame r :: out).

Definition reorder_off (tid : Z) (st : rx_state) : option (rx_state * list rx_out) :=
  if Z.of_nat RTW_BA_TID_NUM <=? tid then Some (st, []) else
  t ← fBa st !! Z.to_nat tid;
  if negb (rt_active t) then Some (st, []) else
  '(st, out) ← with_tid (Z.to_nat tid) reorderDeactivate st;
  Some (set_rx_cnt (set_mask (u32 (gReordActiveMask (rx_cnt st) .& .~ (1 << tid))) (rx_cnt st)) st, out).
Definition handleDelba (f : list Z) (st : rx_state) : option (rx_state * list rx_out) :=
  if f_len f <? 24 + 6 then Some (st, []) else
  params ← le16_at f 26;
  reorder_off ((params >> 12) .& 0xf) st.

(** Every window swept, in order. *)
Fixpoint sweep_from (tids : list nat) (now : Z) (st : rx_state) : option (rx_state * list rx_out) :=
  match tids with
  | [] => Some (st, [])
  | tid :: tids =>
      '(st, o1) ← with_tid tid (fun s => (reorderTimeout now s).1) st;
      '(st, o2) ← sweep_from tids now st;
      Some (st, o1 ++ o2)
  end.
Definition reorderTimeoutAll (now : Z) (st : rx_state) : option (rx_state * list rx_out) := sweep_from (seq 0 RTW_BA_TID_NUM) now st.
Definition reorderFreeAll (st : rx_state) : rx_state :=
  set_rx_cnt (set_mask 0 (rx_cnt st)) (RxState (map reorderFree (fBa st)) (rx_parse st) (rx_reord st) (rx_cnt st)).

(** ** Statistics *)

(** A 12-bit difference as a signed number. *)
Definition sn_delta (seq last : Z) : Z :=
  let d := (seq - last) .& 0xfff in
  if nz (d .& 0x800) then d - 0x1000 else d.

Definition seq_stats (b1 seq tid : Z) (c : rx_counters) : option rx_counters :=
  let d := sn_delta seq (gLastSeq c) in
  let first := gLastSeq c =? 0xffff in
  let gap := if negb first && (1 <? d) then u64 (gDrxGap c + 1) else gDrxGap c in
  let back := if negb first && negb (1 <? d) && (d <=? 0) then u64 (gDrxBack c + 1) else gDrxBack c in
  prev ← rd (gLastSeqTid c) tid;
  let dt := sn_delta seq prev in
  let known := negb (prev =? 0xffff) in
  let miss := if known && (1 <? dt) && (dt <=? 64) then u64 (gMiss c + (dt - 1)) else gMiss c in
  let big := if known && negb ((1 <? dt) && (dt <=? 64)) && (64 <? dt) then u64 (gBigJump c + 1) else gBigJump c in
  let dup := if known && nz (b1 .& 0x08) && (dt <=? 0) then u64 (gRetryDup c + 1) else gRetryDup c in
  last ← wr (gLastSeqTid c) tid seq;
  Some (RxCnt (u64 (gDrx c + 1)) (if nz (b1 .& 0x08) then u64 (gDrxRetry c + 1) else gDrxRetry c) gap back miss big dup
    (gTidMask c .| (1 << tid)) seq last (gAddba c) (gReordActiveMask c)).

(** ** Dispatch *)

Definition rxFrame (bssid mac : list Z) (alloc : bool) (now : Z) (f : list Z) (st : rx_state) : option (rx_state * list rx_out) :=
  b0 ← at_ f 0; b1 ← at_ f 1;
  let fc := b0 .| (b1 << 8) in
  if (b0 .& 0x0c) =? 0 then
    if ((b0 .& 0xf0) =? 0xd0) && (26 <=? f_len f) then
      cat ← at_ f 24;
      if cat =? 0x03 then
        action ← at_ f 25;
        if action =? 0 then handleAddbaReq bssid mac alloc f st
        else if action =? 0x02 then handleDelba f st else Some (st, [])
      else Some (st, [])
    else Some (st, [])
  else if negb (((fc >> 2) .& 3) =? 2) then Some (st, [])
  else
  let qos := nz ((fc >> 4) .& 0x8) && (26 <=? f_len f) in
  sc ← le16_at f 22;
  let seq := (sc >> 4) .& 0xfff in
  q ← (if qos then at_ f 24 else Some 0);
  cnt ← seq_stats b1 seq (if qos then q .& 0x07 else 0) (rx_cnt st);
  let st := set_rx_cnt cnt st in
  b4 ← (if qos then at_ f 4 else Some 1);
  let rtid := q .& 0x07 in
  t ← fBa st !! Z.to_nat rtid;
  if qos && negb (nz (b4 .& 0x01)) && rt_active t && negb (((q >> 5) .& 0x03) =? 0x01) then
    with_tid (Z.to_nat rtid) (reorderInsert seq f now) st
  else
    '(es, pc) ← deliverMpdu f (rx_parse st);
    Some (RxState (fBa st) pc (rx_reord st) (rx_cnt st), map ToStack es).

(** ** Every frame is handled within bounds *)

Definition mpdu_ok (f : list Z) : Prop := bytes_ok f /\ 24 <= f_len f.
Definition good_buf (p : rspec) : Prop :=
  (forall x, x ∈ sp_out p -> mpdu_ok x.2) /\ (forall n f t, sp_buf p !! n = Some (f, t) -> mpdu_ok f).

(** A window between frames: closed, or open and within its invariant and
    holding frames. *)
Definition tid_lens (t : ReorderTid) : Prop := length (rt_len t) = 64%nat /\ length (rt_t_ns t) = 64%nat.
Definition tid_ok (t : ReorderTid) : Prop :=
  (rt_active t = false /\ rt_store t = None /\ tid_lens t) \/
  (exists p, sp_out p = [] /\ good_buf p /\ forall c, sim p (RS t [] c false)).
Record rx_ok (st : rx_state) : Prop := {
  rk_ba : length (fBa st) = RTW_BA_TID_NUM /\ Forall tid_ok (fBa st);
  rk_last : length (gLastSeqTid (rx_cnt st)) = 8%nat;
  rk_parse : parse_agree (rx_parse st);
}.

Lemma good_take n p : good_buf p -> good_buf (sp_take n p).
Proof.
  intros [H1 H2]. unfold sp_take. destruct (sp_buf p !! n) as [[f t]|] eqn:E; [|done]. split; cbn.
  - intros x [Hx| ->%list_elem_of_singleton]%elem_of_app; [by apply H1|]. by eapply H2.
  - intros m g t' Hm. rewrite lookup_delete_Some in Hm. by eapply H2, Hm.
Qed.
Lemma good_same p q : sp_out q = sp_out p -> sp_buf q = sp_buf p -> good_buf p -> good_buf q.
Proof. intros E1 E2 [H1 H2]. by split; rewrite ?E1, ?E2. Qed.
Lemma good_insert n f now p : mpdu_ok f -> good_buf p -> good_buf (sp_insert_any n f now p).
Proof.
  intros Hf. apply (kept_insert_any _ good_take good_same); clear p; intros p [H1 H2]; [|intros _]; (split; [|]); cbn.
  - intros x [Hx| ->%list_elem_of_singleton]%elem_of_app; [by apply H1|done].
  - done.
  - done.
  - intros m g t Hm. rewrite lookup_insert_Some in Hm. destruct Hm as [[_ Hm]|[_ Hm]]; [by injection Hm as <- _|by eapply H2].
Qed.

(** Restarting the record of what was handed on. *)
Definition sp_clear (p : rspec) : rspec := RSpec (sp_started p) (sp_head p) (sp_win p) (sp_buf p) [].
Lemma sim_clear p s c : sim p s -> sim (sp_clear p) (RS (rs_tid s) [] c false).
Proof. intros [[W B] Ha Hst Hh Hw Hsz Hl Hsl Hon Ho Hnu]. by split. Qed.
Lemma sim_tid p s : sim p s -> good_buf p -> tid_ok (rs_tid s) /\ Forall mpdu_ok (rs_out s) /\ rs_null s = false.
Proof.
  intros Hs Hg. split; [right; exists (sp_clear p); split; [done|]; split; [|intros c; by apply sim_clear]; split; [by intros x ?%elem_of_nil|apply Hg]|].
  split; [|apply Hs]. rewrite (sim_out _ _ Hs). apply Forall_fmap, List.Forall_forall. intros x Hx. apply Hg. by apply list_elem_of_In.
Qed.

(** Any 12-bit number is within half the space of any head. *)
Lemma sn_lift h sn : 0 <= sn < 4096 -> exists n, sn = n mod 4096 /\ -2048 < n - h <= 2048.
Proof.
  intros Hsn. exists (h + (sn - h + 2047) mod 4096 - 2047). pose proof (Z.mod_pos_bound (sn - h + 2047) 4096). split; [|lia].
  replace (h + (sn - h + 2047) mod 4096 - 2047) with ((h - 2047) + (sn - h + 2047) mod 4096) by lia.
  rewrite Z.add_mod_idemp_r by lia. replace (h - 2047 + (sn - h + 2047)) with sn by lia. by rewrite Z.mod_small.
Qed.

(** What an operation on a window may do. *)
Definition tid_step (g : rstate -> rstate) : Prop := forall t c, tid_ok t -> let s := g (RS t [] c false) in
  tid_ok (rs_tid s) /\ Forall mpdu_ok (rs_out s) /\ rs_null s = false.

Lemma insert_step sn f now t c : 0 <= sn < 4096 -> mpdu_ok f -> tid_ok t -> rt_active t = true -> let s := reorderInsert sn f now (RS t [] c false) in
  tid_ok (rs_tid s) /\ Forall mpdu_ok (rs_out s) /\ rs_null s = false.
Proof.
  intros Hsn Hf [[Ha _]|(p & Ho & Hg & Hs)] Hact; [congruence|]. cbv zeta. destruct (sn_lift (sp_head p) sn Hsn) as (n & -> & Hn).
  apply (sim_tid (sp_insert_any n f now p)); [by apply sim_insert_any|by apply good_insert].
Qed.
Lemma timeout_step now : tid_step (fun s => (reorderTimeout now s).1).
Proof.
  intros t c [(Ha & Hn & Hl)|(p & Ho & Hg & Hs)]; cbv zeta.
  - unfold reorderTimeout. cbn [rs_tid]. rewrite Ha. cbn. split; [by left|done].
  - apply (sim_tid (sp_timeout timeout_fuel now p)); [by apply sim_timeout|]. by apply (kept_timeout _ good_take good_same).
Qed.
Lemma deactivate_step : tid_step reorderDeactivate.
Proof.
  intros t c [(Ha & Hn & Hl)|(p & Ho & Hg & Hs)]; cbv zeta.
  - unfold reorderDeactivate. cbn [rs_tid]. rewrite Ha. cbn. split; [by left|done].
  - destruct (sim_close p _ (Hs c)) as (Eo & En & Ea & Est & L2 & L3).
    split; [left; by split_and!|split; [|done]]. rewrite Eo. apply Forall_fmap, List.Forall_forall. intros x Hx.
    apply (kept_window _ good_take (sp_win p) p Hg). by apply list_elem_of_In.
Qed.
Lemma activate_step ssn win alloc : 0 <= ssn < 4096 -> tid_step (reorderActivate ssn win alloc).
Proof.
  intros Hssn t c [(Ha & Hn & Hl)|(p & Ho & Hg & Hs)]; cbv zeta.
  - destruct alloc.
    + apply (sim_tid (sp_new ssn win)); [|split; [by intros x ?%elem_of_nil|intros n f t' Hx; by cbn in Hx; rewrite lookup_empty in Hx]].
      rewrite <- (Z.mod_small ssn 4096) at 2 by done. apply sim_open_from; [done|apply Hl..].
    + unfold reorderActivate. cbv zeta. cbn [rs_tid]. rewrite Hn. cbn [rs_tid]. rewrite Hn. cbn. split; [|done]. left. by split; [|split].
  - apply (sim_tid (sp_open ssn win (sp_window (sp_win p) p))).
    + rewrite <- (Z.mod_small ssn 4096) at 2 by done. by apply sim_reopen.
    + pose proof (kept_window _ good_take (sp_win p) p Hg) as [H1 _]. split; [exact H1|]. intros n f t' Hx. by cbn in Hx; rewrite lookup_empty in Hx.
Qed.

Lemma deliver_all_total l : forall c, Forall mpdu_ok l -> parse_agree c ->
  exists es c', deliver_all l c = Some (es, c') /\ Forall eth_ok es /\ parse_agree c'.
Proof.
  induction l as [|f l IH]; intros c Hl Hc; cbn [deliver_all]; [by exists [], c|]. apply Forall_cons_1 in Hl as [[Hf Hlen] Hl].
  destruct (deliver_total f c Hf ltac:(lia)) as (e & c1 & -> & He & Hc1 & _). cbn [mbind option_bind].
  destruct (IH c1 Hl (Hc1 Hc)) as (es & c2 & -> & Hes & Hc2). cbn. exists (e ++ es), c2. split; [done|]. split; [by apply Forall_app|done].
Qed.

(** Outputs that are what they should be: Ethernet frames that fit, and 33-byte
    responses. *)
Definition out_ok (o : rx_out) : Prop := match o with ToStack e => eth_ok e | TxFrame r => f_len r = 33 end.
Lemma out_stack es : Forall eth_ok es -> Forall out_ok (map ToStack es).
Proof. induction 1; by constructor. Qed.

Lemma with_tid_total tid g st : rx_ok st -> (tid < RTW_BA_TID_NUM)%nat ->
  (forall t c, fBa st !! tid = Some t -> tid_ok t -> let s := g (RS t [] c false) in tid_ok (rs_tid s) /\ Forall mpdu_ok (rs_out s) /\ rs_null s = false) ->
  exists st' out, with_tid tid g st = Some (st', out) /\ rx_ok st' /\ Forall out_ok out /\ rx_cnt st' = rx_cnt st /\
    forall t, fBa st !! tid = Some t -> fBa st' = <[tid := rs_tid (g (RS t [] (rx_reord st) false))]> (fBa st).
Proof.
  intros [[Hn Hba] Hlast Hp] Htid Hg. unfold with_tid. destruct (lookup_lt_is_Some_2 (fBa st) tid) as [t Ht]; [lia|]. rewrite Ht. cbn [mbind option_bind].
  pose proof (Forall_lookup_1 _ _ _ _ Hba Ht) as Hok. destruct (Hg t (rx_reord st) Ht Hok) as (H1 & H2 & H3). cbv zeta in *. rewrite H3.
  destruct (deliver_all_total _ (rx_parse st) H2 Hp) as (es & pc & -> & Hes & Hpc). cbn [mbind option_bind].
  eexists _, _. split; [done|]. split; [|split; [by apply out_stack|split; [done|]]].
  - split; cbn; [|done|done]. rewrite length_insert. split; [done|]. by apply Forall_insert.
  - intros t' Ht'. by simplify_eq.
Qed.
Lemma with_tid_step tid g st : rx_ok st -> (tid < RTW_BA_TID_NUM)%nat -> tid_step g ->
  exists st' out, with_tid tid g st = Some (st', out) /\ rx_ok st' /\ Forall out_ok out /\ rx_cnt st' = rx_cnt st /\
    forall t, fBa st !! tid = Some t -> fBa st' = <[tid := rs_tid (g (RS t [] (rx_reord st) false))]> (fBa st).
Proof. intros Hst Ht Hg. apply with_tid_total; [done|done|]. intros t c _. by apply Hg. Qed.

Lemma rx_ok_cnt st c : rx_ok st -> length (gLastSeqTid c) = 8%nat -> rx_ok (set_rx_cnt c st).
Proof. intros [H1 H2 H3] Hc. by split. Qed.

Lemma le16_at_Some f i : bytes_ok f -> 0 <= i -> i + 2 <= f_len f -> exists v, le16_at f i = Some v /\ 0 <= v < 65536.
Proof.
  intros Hf H1 H2. unfold le16_at, at_. destruct (rd_byte f i Hf) as (a & -> & Ha); [unfold f_len in *; lia|].
  destruct (rd_byte f (i + 1) Hf) as (b & -> & Hb); [unfold f_len in *; lia|]. eexists. split; [done|].
  apply (lor_range 16); [lia|unfold byte_ok in *; lia|]. unfold byte_ok in *. rewrite Z.shiftl_mul_pow2 by lia. lia.
Qed.
Lemma shr4_range v : 0 <= v < 65536 -> 0 <= v >> 4 < 4096.
Proof. intros Hv. rewrite Z.shiftr_div_pow2 by lia. change (2 ^ 4) with 16. Z.to_euclidean_division_equations. lia. Qed.
Lemma addba_len bssid mac d p t : length bssid = 6%nat -> length mac = 6%nat -> f_len (addba_resp bssid mac d p t) = 33.
Proof. intros Hb Hm. unfold addba_resp, f_len. rewrite !length_app, Hb, Hm. done. Qed.

Lemma addba_total bssid mac alloc f st : bytes_ok f -> length bssid = 6%nat -> length mac = 6%nat -> rx_ok st ->
  exists st' out, handleAddbaReq bssid mac alloc f st = Some (st', out) /\ rx_ok st' /\ Forall out_ok out.
Proof.
  intros Hf Hb Hm Hst. unfold handleAddbaReq. destruct (Z.ltb_spec (f_len f) (24 + 9)); [by exists st, []|].
  destruct (at_Some f 26) as [dl ->]; [lia|]. destruct (le16_at_Some f 27 Hf) as (bp & -> & _); [lia|lia|].
  destruct (le16_at_Some f 29 Hf) as (bt & -> & _); [lia|lia|]. cbn [mbind option_bind]. cbv zeta.
  pose proof (land_ones_range 4 (bp >> 2) ltac:(lia)) as Htid. change (Z.ones 4) with 0xf in Htid. set (tid := _ .& 0xf) in *.
  destruct (Z.leb_spec (Z.of_nat RTW_BA_TID_NUM) tid); [by exists st, []|].
  destruct (le16_at_Some f 31 Hf) as (ssc & -> & Hssc); [lia|lia|]. cbn [mbind option_bind].
  set (st1 := set_rx_cnt _ st). assert (Hst1 : rx_ok st1) by (apply rx_ok_cnt; [done|apply Hst]).
  destruct (with_tid_step (Z.to_nat tid) (reorderActivate (ssc >> 4) (addba_bufsz bp) alloc) st1 Hst1) as (st2 & out & -> & Hst2 & Hout & Hc & _);
    [lia|apply activate_step; by apply shr4_range|]. cbn [mbind option_bind].
  destruct (lookup_lt_is_Some_2 (fBa st2) (Z.to_nat tid)) as [t Ht]; [destruct (rk_ba _ Hst2) as [Hl _]; lia|]. rewrite Ht. cbn [mbind option_bind].
  eexists _, _. split; [done|]. split; [destruct (rt_active t); [apply rx_ok_cnt; [done|apply Hst2]|done]|]. constructor; [by apply addba_len|done].
Qed.
Lemma off_total tid st : 0 <= tid -> rx_ok st -> exists st' out, reorder_off tid st = Some (st', out) /\ rx_ok st' /\ Forall out_ok out.
Proof.
  intros Htid Hst. unfold reorder_off. destruct (Z.leb_spec (Z.of_nat RTW_BA_TID_NUM) tid); [by exists st, []|].
  destruct (lookup_lt_is_Some_2 (fBa st) (Z.to_nat tid)) as [t Ht]; [destruct (rk_ba _ Hst) as [Hl _]; lia|]. rewrite Ht. cbn [mbind option_bind].
  destruct (rt_active t); cbn [negb]; [|by exists st, []].
  destruct (with_tid_step (Z.to_nat tid) reorderDeactivate st Hst) as (st2 & out & -> & Hst2 & Hout & Hc & _); [lia|apply deactivate_step|].
  cbn [mbind option_bind]. eexists _, _. split; [done|]. split; [|done]. apply rx_ok_cnt; [done|apply Hst2].
Qed.
Lemma delba_total f st : bytes_ok f -> rx_ok st -> exists st' out, handleDelba f st = Some (st', out) /\ rx_ok st' /\ Forall out_ok out.
Proof.
  intros Hf Hst. unfold handleDelba. destruct (Z.ltb_spec (f_len f) (24 + 6)); [by exists st, []|].
  destruct (le16_at_Some f 26 Hf) as (pr & -> & _); [lia|lia|]. cbn [mbind option_bind]. apply off_total; [|done]. apply (land_ones_range 4). lia.
Qed.
Lemma sweep_total tids now : forall st, Forall (fun i => (i < RTW_BA_TID_NUM)%nat) tids -> rx_ok st ->
  exists st' out, sweep_from tids now st = Some (st', out) /\ rx_ok st' /\ Forall out_ok out /\ rx_cnt st' = rx_cnt st.
Proof.
  induction tids as [|tid tids IH]; intros st Ht Hst; cbn [sweep_from]; [by exists st, []|]. apply Forall_cons_1 in Ht as [Ht Hts].
  destruct (with_tid_step tid _ st Hst Ht (timeout_step now)) as (st1 & o1 & -> & Hst1 & Ho1 & Hc1 & _). cbn [mbind option_bind].
  destruct (IH st1 Hts Hst1) as (st2 & o2 & -> & Hst2 & Ho2 & Hc2). cbn. eexists _, _. split; [done|]. split; [done|]. split; [by apply Forall_app|congruence].
Qed.
Lemma timeout_all_total now st : rx_ok st -> exists st' out, reorderTimeoutAll now st = Some (st', out) /\ rx_ok st' /\ Forall out_ok out.
Proof.
  intros Hst. destruct (sweep_total (seq 0 RTW_BA_TID_NUM) now st) as (st' & out & E & H1 & H2 & _); [|done|by exists st', out].
  apply List.Forall_forall. intros i Hi%List.in_seq. unfold RTW_BA_TID_NUM in *. lia.
Qed.

Lemma seq_stats_total b1 sn tid c : 0 <= tid < 8 -> length (gLastSeqTid c) = 8%nat ->
  exists c', seq_stats b1 sn tid c = Some c' /\ length (gLastSeqTid c') = 8%nat.
Proof.
  intros Ht Hl. unfold seq_stats. destruct (rd_Some (gLastSeqTid c) tid) as (prev & -> & _); [lia|]. cbn [mbind option_bind]. cbv zeta.
  rewrite wr_Some by lia. cbn [mbind option_bind]. eexists. split; [done|]. cbn. by rewrite length_insert.
Qed.

(** Every frame of at least 24 bytes is handled. *)
Lemma rxFrame_total (bssid mac : list Z) (alloc : bool) (now : Z) (f : list Z) (st : rx_state) :
  length bssid = 6%nat -> length mac = 6%nat -> bytes_ok f -> 24 <= f_len f -> rx_ok st ->
  exists st' out, rxFrame bssid mac alloc now f st = Some (st', out) /\ rx_ok st' /\ Forall out_ok out.
Proof.
  intros Hb Hm Hf Hl Hst. unfold rxFrame. cbv zeta.
  destruct (at_Some f 0) as [b0 ->]; [lia|]. destruct (at_Some f 1) as [b1 ->]; [lia|].
  cbn [mbind option_bind]. set (fc := b0 .| (b1 << 8)).
  destruct ((b0 .& 0x0c) =? 0).
  { destruct (((b0 .& 0xf0) =? 0xd0) && (26 <=? f_len f)) eqn:E; [|by exists st, []]. apply andb_prop in E as [_ E%Z.leb_le].
    destruct (at_Some f 24) as [cat ->]; [lia|]. cbn [mbind option_bind]. destruct (cat =? 0x03); [|by exists st, []].
    destruct (at_Some f 25) as [ac ->]; [lia|]. cbn [mbind option_bind]. destruct (ac =? 0); [by apply addba_total|].
    destruct (ac =? 0x02); [by apply delba_total|by exists st, []]. }
  destruct (negb (((fc >> 2) .& 3) =? 2)); [by exists st, []|]. set (qos := nz _ && (26 <=? f_len f)).
  destruct (le16_at_Some f 22 Hf) as (sc & -> & Hsc); [lia|lia|]. cbn [mbind option_bind].
  assert (Hq : exists q, (if qos then at_ f 24 else Some 0) = Some q).
  { destruct qos eqn:Eq; [|by exists 0]. apply andb_prop in Eq as [_ Eq%Z.leb_le]. apply at_Some. lia. }
  destruct Hq as [q ->]. cbn [mbind option_bind]. pose proof (land_ones_range 3 q ltac:(lia)) as Hq7. change (Z.ones 3) with 0x07 in Hq7.
  destruct (seq_stats_total b1 ((sc >> 4) .& 0xfff) (if qos then q .& 0x07 else 0) (rx_cnt st)) as (cnt & -> & Hcnt);
    [destruct qos; lia|apply Hst|]. cbn [mbind option_bind]. pose proof (rx_ok_cnt st cnt Hst Hcnt) as Hst1. set (st1 := set_rx_cnt cnt st) in *.
  assert (Hb4 : exists b4, (if qos then at_ f 4 else Some 1) = Some b4) by (destruct qos; [apply at_Some; lia|by exists 1]).
  destruct Hb4 as [b4 ->]. cbn [mbind option_bind].
  destruct (lookup_lt_is_Some_2 (fBa st1) (Z.to_nat (q .& 0x07))) as [t Ht]; [destruct (rk_ba _ Hst1) as [Hn _]; unfold RTW_BA_TID_NUM in Hn; lia|].
  rewrite Ht. cbn [mbind option_bind].
  destruct (qos && negb (nz (b4 .& 0x01)) && rt_active t && negb (((q >> 5) .& 0x03) =? 0x01)) eqn:E.
  - apply andb_prop in E as [[[_ _]%andb_prop Hact]%andb_prop _].
    destruct (with_tid_total (Z.to_nat (q .& 0x07)) (reorderInsert ((sc >> 4) .& 0xfff) f now) st1 Hst1) as (st2 & out & -> & H2 & H3 & _); [unfold RTW_BA_TID_NUM; lia| |by exists st2, out].
    intros t' c Ht' Hok. assert (t' = t) as -> by congruence. apply insert_step; [apply (land_ones_range 12); lia|done|done|done].
  - destruct (deliver_total f (rx_parse st1) Hf ltac:(lia)) as (es & pc & -> & Hes & Hpc & _). cbn [mbind option_bind].
    eexists _, _. split; [done|]. split; [|by apply out_stack]. destruct Hst1 as [H1 H2 H3]. split; [done|done|]. by apply Hpc.
Qed.

(** C14: no frame from the air does harm.  Whatever the bytes of a received frame
    of at least 24 bytes, handling it reads no byte past
    its declared length, writes none past the Ethernet buffer, indexes no window
    and no statistic out of range and dereferences no missing buffer; it leaves
    every window within its invariant and the drop counters in agreement; and all
    it produces is Ethernet frames of 14 to 1614 bytes and 33-byte Block-Ack
    responses. *)
Theorem rxFrame_safe (bssid mac : list Z) (alloc : bool) (now : Z) (f : list Z) (st : rx_state) :
  length bssid = 6%nat -> length mac = 6%nat -> bytes_ok f -> 24 <= f_len f -> rx_ok st ->
  exists st' out, rxFrame bssid mac alloc now f st = Some (st', out) /\ rx_ok st' /\ Forall out_ok out.
Proof. apply rxFrame_total. Qed.

(** ** The frames transmitted are never encrypted *)

Definition plain_out (o : rx_out) : Prop := match o with TxFrame r => nth 1 r 0 = 0 | ToStack _ => True end.
Lemma plain_stack es : Forall plain_out (map ToStack es).
Proof. induction es; by constructor. Qed.
Lemma with_tid_plain tid g st st' out : with_tid tid g st = Some (st', out) -> Forall plain_out out.
Proof.
  unfold with_tid. destruct (fBa st !! tid) as [t|]; [|done]. cbn [mbind option_bind]. cbv zeta. destruct (rs_null _); [done|].
  destruct (deliver_all _ _) as [[es pc]|]; [|done]. intros [= _ <-]. apply plain_stack.
Qed.
Lemma addba_plain bssid mac alloc f st st' out : handleAddbaReq bssid mac alloc f st = Some (st', out) -> Forall plain_out out.
Proof.
  unfold handleAddbaReq. destruct (_ <? 24 + 9); [by intros [= _ <-]|]. destruct (at_ f 26) as [dl|]; [|done]. destruct (le16_at f 27) as [bp|]; [|done].
  destruct (le16_at f 29) as [bt|]; [|done]. cbn [mbind option_bind]. cbv zeta. destruct (_ <=? _ .& 0xf); [by intros [= _ <-]|].
  destruct (le16_at f 31) as [ssc|]; [|done]. cbn [mbind option_bind]. destruct (with_tid _ _ _) as [[st1 o1]|] eqn:E; [|done]. cbn [mbind option_bind].
  destruct (fBa st1 !! _) as [t|]; [|done]. intros [= _ <-]. constructor; [done|]. by eapply with_tid_plain.
Qed.
Lemma delba_plain f st st' out : handleDelba f st = Some (st', out) -> Forall plain_out out.
Proof.
  unfold handleDelba. destruct (_ <? 24 + 6); [by intros [= _ <-]|]. destruct (le16_at f 26) as [pr|]; [|done]. cbn [mbind option_bind]. unfold reorder_off.
  destruct (_ <=? _); [by intros [= _ <-]|]. destruct (fBa st !! _) as [t|]; [|done]. cbn [mbind option_bind]. destruct (negb _); [by intros [= _ <-]|].
  destruct (with_tid _ _ _) as [[st1 o1]|] eqn:E; [|done]. intros [= _ <-]. by eapply with_tid_plain.
Qed.
Lemma sweep_plain now : forall tids st st' out, sweep_from tids now st = Some (st', out) -> Forall plain_out out.
Proof.
  induction tids as [|tid tids IH]; intros st st' out; cbn [sweep_from]; [by intros [= _ <-]|]. destruct (with_tid _ _ _) as [[st1 o1]|] eqn:E; [|done].
  cbn [mbind option_bind]. destruct (sweep_from tids now st1) as [[st2 o2]|] eqn:E2; [|done]. intros [= _ <-]. apply Forall_app. split; [by eapply with_tid_plain|by eapply IH].
Qed.
Lemma rxFrame_plain bssid mac alloc now f st st' out : rxFrame bssid mac alloc now f st = Some (st', out) -> Forall plain_out out.
Proof.
  unfold rxFrame. destruct (at_ f 0) as [b0|]; [|done]. destruct (at_ f 1) as [b1|]; [|done]. cbn [mbind option_bind]. cbv zeta.
  destruct (_ =? 0) in |- *.
  { destruct (_ && _); [|by intros [= _ <-]]. destruct (at_ f 24) as [cat|]; [|done]. cbn [mbind option_bind]. destruct (cat =? _); [|by intros [= _ <-]].
    destruct (at_ f 25) as [ac|]; [|done]. cbn [mbind option_bind]. destruct (ac =? 0); [apply addba_plain|]. destruct (ac =? _); [apply delba_plain|by intros [= _ <-]]. }
  destruct (negb _); [by intros [= _ <-]|]. destruct (le16_at f 22) as [sc|]; [|done]. cbn [mbind option_bind].
  set (qos := nz _ && _). destruct (if qos then at_ f 24 else Some 0) as [q|]; [|done]. cbn [mbind option_bind].
  destruct (seq_stats _ _ _ _) as [cnt|]; [|done]. cbn [mbind option_bind]. destruct (if qos then at_ f 4 else Some 1) as [b4|]; [|done]. cbn [mbind option_bind].
  destruct (fBa _ !! _) as [t|]; [|done]. cbn [mbind option_bind]. clearbody qos. destruct (qos && _ && _ && _); [apply with_tid_plain|].
  destruct (deliverMpdu f _) as [[es pc]|]; [|done]. intros [= _ <-]. apply plain_stack.
Qed.

(** ** The window that is agreed *)

Lemma activate_opens ssn win t c : 0 <= ssn < 4096 -> 1 <= win <= 64 -> tid_ok t -> let t' := rs_tid (reorderActivate ssn win true (RS t [] c false)) in
  rt_active t' = true /\ rt_started t' = false /\ rt_head t' = ssn /\ rt_win t' = win.
Proof.
  intros Hssn Hw Ht. cbv zeta.
  assert (Hs : exists h p, ssn = h mod 4096 /\ sim (sp_open h win p) (reorderActivate ssn win true (RS t [] c false))).
  { exists ssn. rewrite (Z.mod_small ssn 4096) by done. destruct Ht as [(Ha & Hn & Hl)|(p & Ho & Hg & Hs)].
    - exists (RSpec false 0 1 ∅ []). split; [done|]. rewrite <- (Z.mod_small ssn 4096) at 2 by done. apply sim_open_from; [done|apply Hl..].
    - exists (sp_window (sp_win p) p). split; [done|]. rewrite <- (Z.mod_small ssn 4096) at 2 by done. by apply sim_reopen. }
  destruct Hs as (h & p & -> & Hs). rewrite (sim_active _ _ Hs), (sim_started _ _ Hs), (sim_head _ _ Hs), (sim_win _ _ Hs). split_and!; try done.
  cbn. unfold clamp_win. lia.
Qed.

Lemma le16_split v : 0 <= v < 65536 -> u8 v .| (u8 (v >> 8) << 8) = v.
Proof.
  intros Hv. apply (bits_ext 16); [|done|].
  - apply (lor_range 16); [lia| |].
    + pose proof (u8_byte_ok v) as H. unfold byte_ok in H. lia.
    + rewrite Z.shiftl_mul_pow2 by lia. pose proof (u8_byte_ok (v >> 8)) as H. unfold byte_ok in H. lia.
  - intros i Hi. rewrite Z.lor_spec, Z.shiftl_spec, !wrap_testbit by lia. destruct (Z.ltb_spec i 8), (Z.leb_spec 0 (i - 8)); try lia; cbn [andb orb].
    + destruct (Z.leb_spec 0 i); [|lia]. cbn. by rewrite orb_false_r.
    + destruct (Z.leb_spec 0 i); [|lia]. destruct (Z.ltb_spec (i - 8) 8); [|lia]. cbn. rewrite Z.shiftr_spec by lia. f_equal. lia.
Qed.
(** The answer's parameters: the window in the high bits, the rest as asked. *)
Lemma out_params bp w : 1 <= w <= 64 -> let o := u16 ((bp .& 0x003f) .| (w << 6)) in
  0 <= o < 65536 /\ o >> 6 = w /\ o .& 0x3f = bp .& 0x3f.
Proof.
  intros Hw. cbv zeta. change 0x003f with (Z.ones 6). pose proof (land_ones_range 6 bp ltac:(lia)) as Hl.
  assert (E : (bp .& Z.ones 6) .| (w << 6) = (bp .& Z.ones 6) + w * 64).
  { rewrite Z.shiftl_mul_pow2 by lia. change (w * 2 ^ 6) with (w * 64). rewrite Z.add_nocarry_lxor, Z.lxor_lor; [done| |].
    all: apply Z.bits_inj'; intros n Hn; rewrite !Z.land_spec, Z.bits_0; change (w * 64) with (w * 2 ^ 6); rewrite Z.mul_pow2_bits by lia.
    all: rewrite Z.testbit_ones_nonneg by lia; destruct (Z.ltb_spec n 6); [rewrite (Z.testbit_neg_r w) by lia; by rewrite andb_false_r|by rewrite andb_false_r]. }
  rewrite E. rewrite wrap_small by (change (2 ^ 16) with 65536; lia). rewrite Z.shiftr_div_pow2 by lia. change (2 ^ 6) with 64 in *. split; [lia|].
  split; [Z.to_euclidean_division_equations; lia|]. rewrite !Z.land_ones in * by lia. change (2 ^ 6) with 64 in *. rewrite Z.mod_add by lia. by rewrite Z.mod_mod.
Qed.
Lemma bufsz_range bp : 1 <= addba_bufsz bp <= 64 /\ (1 <= (bp >> 6) .& 0x3ff -> addba_bufsz bp <= (bp >> 6) .& 0x3ff).
Proof.
  unfold addba_bufsz. cbv zeta. change (Z.of_nat RTW_BA_WIN_MAX) with 64. pose proof (land_ones_range 10 (bp >> 6) ltac:(lia)) as H. change (Z.ones 10) with 0x3ff in H.
  destruct (Z.eqb_spec ((bp >> 6) .& 0x3ff) 0), (Z.ltb_spec 64 ((bp >> 6) .& 0x3ff)); cbn [orb]; lia.
Qed.

(** The window promised to the access point is the window that is opened.  A
    well-formed ADDBA request for one of the eight TIDs is answered with its own
    dialog token, timeout and subfields, status 0 and a buffer size between 1 and
    64 that is never more than was asked for (0 asking for the largest); if memory
    can be had that TID's window is then open, of exactly that size, at the
    requested sequence number, and no other window changes. *)
Theorem addba_agrees (bssid mac f : list Z) (st : rx_state) (bp ssc : Z) :
  length bssid = 6%nat -> length mac = 6%nat -> rx_ok st -> bytes_ok f -> 33 <= f_len f ->
  le16_at f 27 = Some bp -> le16_at f 31 = Some ssc -> (bp >> 2) .& 0xf < 8 ->
  let tid := Z.to_nat ((bp >> 2) .& 0xf) in
  exists st' r out t bp', handleAddbaReq bssid mac true f st = Some (st', TxFrame r :: out) /\
    fBa st' !! tid = Some t /\ rt_active t = true /\ rt_started t = false /\ rt_head t = ssc >> 4 /\
    at_ r 26 = at_ f 26 /\ le16_at r 27 = Some 0 /\ le16_at r 29 = Some bp' /\ le16_at r 31 = le16_at f 29 /\
    bp' >> 6 = rt_win t /\ bp' .& 0x3f = bp .& 0x3f /\
    1 <= rt_win t <= 64 /\ (1 <= (bp >> 6) .& 0x3ff -> rt_win t <= (bp >> 6) .& 0x3ff) /\
    forall j, j <> tid -> fBa st' !! j = fBa st !! j.
Proof.
  intros Hb Hm Hst Hf Hl Ebp Essc Htid. cbv zeta. unfold handleAddbaReq. destruct (Z.ltb_spec (f_len f) (24 + 9)); [lia|].
  destruct (at_Some f 26) as [dl Edl]; [lia|]. rewrite Edl, Ebp. destruct (le16_at_Some f 27 Hf) as (bp1 & Ebp1 & Hbp); [lia|lia|]. assert (bp1 = bp) as -> by congruence.
  destruct (le16_at_Some f 29 Hf) as (bt & Ebt & Hbt); [lia|lia|]. rewrite Ebt. cbn [mbind option_bind]. cbv zeta.
  pose proof (land_ones_range 4 (bp >> 2) ltac:(lia)) as Htr. change (Z.ones 4) with 0xf in Htr. set (tid := _ .& 0xf) in *.
  destruct (Z.leb_spec (Z.of_nat RTW_BA_TID_NUM) tid); [unfold RTW_BA_TID_NUM in *; lia|].
  rewrite Essc. destruct (le16_at_Some f 31 Hf) as (ssc1 & Essc1 & Hssc); [lia|lia|]. assert (ssc1 = ssc) as -> by congruence. cbn [mbind option_bind].
  set (st1 := set_rx_cnt _ st). assert (Hst1 : rx_ok st1) by (apply rx_ok_cnt; [done|apply Hst]).
  destruct (lookup_lt_is_Some_2 (fBa st) (Z.to_nat tid)) as [t0 Ht0]; [destruct (rk_ba _ Hst) as [Hn _]; lia|].
  destruct (with_tid_step (Z.to_nat tid) (reorderActivate (ssc >> 4) (addba_bufsz bp) true) st1 Hst1) as (st2 & out & -> & Hst2 & _ & _ & Eba);
    [lia|apply activate_step; by apply shr4_range|]. specialize (Eba t0 Ht0). cbn [mbind option_bind].
  destruct (bufsz_range bp) as [Hw1 Hw2]. pose proof (out_params bp _ Hw1) as (Ho1 & Ho2 & Ho3). set (o := u16 _) in *.
  destruct (activate_opens (ssc >> 4) (addba_bufsz bp) t0 (rx_reord st1) (shr4_range _ Hssc) Hw1) as (A1 & A2 & A3 & A4);
    [apply (Forall_lookup_1 _ _ _ _ (proj2 (rk_ba _ Hst)) Ht0)|]. set (t := rs_tid _) in *.
  assert (Ht : fBa st2 !! Z.to_nat tid = Some t) by (rewrite Eba; apply list_lookup_insert_eq; by eapply lookup_lt_Some).
  rewrite Ht. cbn [mbind option_bind]. rewrite A1. eexists _, _, out, t, o. split; [done|].
  destruct bssid as [|x0 [|x1 [|x2 [|x3 [|x4 [|x5 []]]]]]]; try done. destruct mac as [|y0 [|y1 [|y2 [|y3 [|y4 [|y5 []]]]]]]; try done.
  split; [done|]. split; [done|]. split; [done|]. split; [done|]. split; [done|]. split; [done|].
  split; [change (Some (u8 o .| (u8 (o >> 8) << 8)) = Some o); by rewrite le16_split|].
  split; [change (Some (u8 bt .| (u8 (bt >> 8) << 8)) = Some bt); by rewrite le16_split|].
  rewrite A4. split; [done|]. split; [done|]. split; [done|]. split; [done|].
  intros j Hj. cbn. rewrite Eba. by rewrite list_lookup_insert_ne.
Qed.

(** ** Concrete requests *)

Lemma rx_ok0 : rx_ok rx_state0.
Proof.
  split; [split; [done|]|done|done]. apply Forall_replicate. left. by repeat split.
Qed.

(** A request for TID 5, 20 slots, from sequence number 4095. *)
Definition addba_frame : list Z :=
  [0xd0; 0; 0; 0] ++ our_mac ++ ap_mac ++ ap_mac ++ [0x30; 0] ++ [0x03; 0; 0x7a; 0x16; 0x05; 0x10; 0x27; 0xf0; 0xff].

Lemma rxFrame_safe_witness : exists st' out, rxFrame ap_mac our_mac true 0 addba_frame rx_state0 = Some (st', out) /\ rx_ok st' /\ Forall out_ok out.
Proof.
  apply rxFrame_safe; [reflexivity|reflexivity| |unfold f_len; cbn; lia|apply rx_ok0].
  apply List.Forall_forall. intros x Hx. cbn in Hx. unfold byte_ok. lia.
Defined.
Lemma addba_agrees_witness : exists st' r out t, handleAddbaReq ap_mac our_mac true addba_frame rx_state0 = Some (st', TxFrame r :: out) /\
  fBa st' !! 5%nat = Some t /\ rt_active t = true /\ rt_head t = 4095 /\ rt_win t = 20.
Proof.
  destruct (addba_agrees ap_mac our_mac addba_frame rx_state0 0x0516 0xfff0) as (st' & r & out & t & bp' & H1 & H2 & H3 & _ & H5 & _ & _ & H6 & _ & H7 & _);
    [reflexivity|reflexivity|apply rx_ok0| |unfold f_len; cbn; lia|reflexivity|reflexivity|reflexivity|].
  - apply List.Forall_forall. intros x Hx. cbn in Hx. unfold byte_ok. lia.
  - exists st', r, out, t. split; [exact H1|]. split; [exact H2|]. split; [exact H3|]. split; [exact H5|].
    vm_compute in H1. injection H1 as _ Hr _. rewrite <- Hr in H6. injection H6 as <-. rewrite <- H7. reflexivity.
Defined.
