(* ===== verification/Bridge.v ===== *)
(** * Bridge: registers, DMA memory and interrupts of the driver object
    (RTW88Server of server/RTW88Server.cpp)

    The checks in front of every access a client asks for, the table of DMA
    buffers that owns all bus addresses, the power guard of the interrupt
    registers, and the C shims the in-kernel code calls.  Proved: client accesses
    stay in the register window, aligned, and off the ring-base registers; the
    table implements what the rest of the development assumes of an allocator; an
    armed register points into a live buffer; nothing touches the interrupt
    registers of an unpowered MAC. *)
From stdpp Require Import gmap.
From S2P Require Import Prelude Hw.
Open Scope Z_scope.
Open Scope rtw_scope.

(** The IOReturn codes the file uses. *)
Inductive ioreturn := kIOReturnSuccess | kIOReturnBadArgument | kIOReturnNoDevice | kIOReturnNotReady | kIOReturnNotPermitted
  | kIOReturnNoResources | kIOReturnNoSpace | kIOReturnNoMemory | kIOReturnBusy | kIOReturnError | kIOReturnNotAttached | kIOReturnUnsupported.
#[export] Instance ioreturn_eq_dec : EqDecision ioreturn.
Proof. solve_decision. Defined.

(** ** State *)

Definition RTW_BRIDGE_MAX_DMA : nat := 16.
(** A slot in use: where its memory is and how much. *)
Record rtw_dma_slot := DmaSlot { paddr : Z; size : Z }.
(** Pointers are modelled by whether they are set. *)
Record bridge := Bridge {
  fPci : bool; fMmio : bool; fBarLen : Z; fVendor : Z; fDevice : Z;
  fDma : list (option rtw_dma_slot);
  fWorkLoop : bool; fIrqSrc : bool; fIrqCount : Z; fMsiIndex : Z; fMacOn : bool;
}.
Definition set_fDma (t : list (option rtw_dma_slot)) (b : bridge) : bridge :=
  Bridge (fPci b) (fMmio b) (fBarLen b) (fVendor b) (fDevice b) t (fWorkLoop b) (fIrqSrc b) (fIrqCount b) (fMsiIndex b) (fMacOn b).
Definition set_irq (wl src : bool) (b : bridge) : bridge :=
  Bridge (fPci b) (fMmio b) (fBarLen b) (fVendor b) (fDevice b) (fDma b) wl src (fIrqCount b) (fMsiIndex b) (fMacOn b).
Definition set_irq_count (n : Z) (b : bridge) : bridge :=
  Bridge (fPci b) (fMmio b) (fBarLen b) (fVendor b) (fDevice b) (fDma b) (fWorkLoop b) (fIrqSrc b) n (fMsiIndex b) (fMacOn b).
Definition set_mac_on (on : bool) (b : bridge) : bridge :=
  Bridge (fPci b) (fMmio b) (fBarLen b) (fVendor b) (fDevice b) (fDma b) (fWorkLoop b) (fIrqSrc b) (fIrqCount b) (fMsiIndex b) on.

(** ** Registers *)

Definition reg_width (w : Z) : option width :=
  if w =? 1 then Some W8 else if w =? 2 then Some W16 else if w =? 4 then Some W32 else None.
Definition reg_in (b : bridge) (off w : Z) : bool := negb ((fBarLen b <? off + w) || nz (off .& (w - 1))).

Definition regRead (b : bridge) (off w : Z) : prog (ioreturn * option Z) :=
  if negb (fMmio b) then mret (kIOReturnNoDevice, None) else
  match reg_width w with
  | None => mret (kIOReturnBadArgument, None)
  | Some wd =>
      if negb (reg_in b off w) then mret (kIOReturnBadArgument, None) else
      v ← match wd with W8 => hw_read8 off | W16 => hw_read16 off | W32 => hw_read32 off end;
      mret (kIOReturnSuccess, Some v)
  end.

Definition rawRegWrite (off w val : Z) : prog ioreturn :=
  (if w =? 1 then hw_write8 off val else if w =? 2 then hw_write16 off val else hw_write32 off val);;
  mret kIOReturnSuccess.

(** The ring-base registers no raw write reaches. *)
Definition desa_reg (off : Z) : bool := ((0x308 <=? off) && (off <? 0x348)) || ((0x1320 <=? off) && (off <? 0x1328)).

Definition regWrite (b : bridge) (off w val : Z) : prog ioreturn :=
  if negb (fMmio b) then mret kIOReturnNoDevice else
  match reg_width w with
  | None => mret kIOReturnBadArgument
  | Some _ =>
      if negb (reg_in b off w) then mret kIOReturnBadArgument else
      if desa_reg off then mret kIOReturnNotPermitted else rawRegWrite off w val
  end.

Definition cfgRead (b : bridge) (off w : Z) : prog (ioreturn * option Z) :=
  if negb (fPci b) then mret (kIOReturnNoDevice, None) else
  if 0x1000 <? off + w then mret (kIOReturnBadArgument, None) else
  match reg_width w with
  | None => mret (kIOReturnBadArgument, None)
  | Some wd => v ← act (CfgRead wd off); mret (kIOReturnSuccess, Some (wrap (bits_of wd) v))
  end.
Definition cfgWrite (b : bridge) (off w val : Z) : prog ioreturn :=
  if negb (fPci b) then mret kIOReturnNoDevice else
  if 0x1000 <? off + w then mret kIOReturnBadArgument else
  match reg_width w with
  | None => mret kIOReturnBadArgument
  | Some wd => act (CfgWrite wd off (wrap (bits_of wd) val));; mret kIOReturnSuccess
  end.

(** ** DMA buffers *)

(** The first free slot from [i]. *)
Fixpoint free_slot (t : list (option rtw_dma_slot)) (i : Z) : option Z :=
  match t with
  | [] => None
  | None :: _ => Some i
  | Some _ :: t => free_slot t (i + 1)
  end.
Definition dma_slot (b : bridge) (handle : Z) : option rtw_dma_slot :=
  if Z.of_nat RTW_BRIDGE_MAX_DMA <=? handle then None else mjoin (fDma b !! Z.to_nat handle).

(** [mem]: what the kernel answers a request for contiguous memory below 4 GB: the
    address and length of its first segment, if it can be had and prepared. *)
Definition dmaAlloc (b : bridge) (n : Z) (mem : option (Z * Z)) : prog (ioreturn * option (Z * Z) * bridge) :=
  if (n =? 0) || (16 << 20 <? n) then mret (kIOReturnBadArgument, None, b) else
  match free_slot (fDma b) 0, mem with
  | Some i, Some (pa, seglen) =>
      if (pa =? 0) || (seglen <? n) then mret (kIOReturnNoResources, None, b) else
      act (MemSet i 0 n 0);;
      mret (kIOReturnSuccess, Some (i, pa), set_fDma (<[Z.to_nat i := Some (DmaSlot pa n)]> (fDma b)) b)
  | _, _ => mret (kIOReturnNoResources, None, b)
  end.
Definition dmaFree (b : bridge) (handle : Z) : ioreturn * bridge :=
  if Z.of_nat RTW_BRIDGE_MAX_DMA <=? handle then (kIOReturnBadArgument, b)
  else (kIOReturnSuccess, set_fDma (<[Z.to_nat handle := None]> (fDma b)) b).

(** A kernel buffer is mapped in the kernel for as long as it lives. *)
Definition dmaResolve (b : bridge) (handle : Z) : option dma :=
  match dma_slot b handle with
  | Some s => Some (Dma handle (paddr s) true (size s))
  | None => None
  end.
Definition dmaVaddr (b : bridge) (handle : Z) : bool := match dma_slot b handle with Some _ => true | None => false end.
Definition dmaDescriptorForHandle (b : bridge) (handle : Z) : option rtw_dma_slot := dma_slot b handle.

Definition regWriteDma (b : bridge) (regOff handle bufOff w : Z) : prog ioreturn :=
  if Z.of_nat RTW_BRIDGE_MAX_DMA <=? handle then mret kIOReturnBadArgument else
  if negb (w =? 4) && negb (w =? 8) then mret kIOReturnBadArgument else
  match dma_slot b handle with
  | None => mret kIOReturnBadArgument
  | Some s =>
      if size s <=? bufOff then mret kIOReturnBadArgument else
      if negb (fMmio b) then mret kIOReturnNoDevice else
      if (fBarLen b <? regOff + (if w =? 8 then 8 else 4)) || nz (regOff .& 3) then mret kIOReturnBadArgument else
      let pa := u64 (paddr s + bufOff) in
      if w =? 4 then
        if 0xffffffff <? pa then mret kIOReturnNotPermitted else rawRegWrite regOff 4 (u32 pa)
      else
        _ ← rawRegWrite regOff 4 (u32 (pa .& 0xffffffff));
        rawRegWrite (u32 (regOff + 4)) 4 (u32 (pa >> 32))
  end.

(** ** Power and interrupts *)

Definition setMacPower (on : bool) (b : bridge) : bridge := set_mac_on on b.
Definition power (mem_enable busmaster : bool) : prog ioreturn := act (PciPower mem_enable busmaster);; mret kIOReturnSuccess.

(** [cap]: where the PCI Express capability is, 0 if there is none. *)
Definition disableAspm (b : bridge) (cap : Z) : prog unit :=
  if negb (fPci b) then mret tt else
  let cap := cap .& 0xff in
  if cap =? 0 then mret tt else
  let lctl_off := cap + 0x10 in
  v ← act (CfgRead W16 lctl_off);
  let lctl := u16 v in
  let neu := u16 (lctl .& .~ 0x0003) in
  (if negb (neu =? lctl) then act (CfgWrite W16 lctl_off neu) else mret tt);;
  _ ← act (CfgRead W16 lctl_off);
  mret tt.

Definition irqStatus (b : bridge) (off w : Z) : prog (ioreturn * option Z) :=
  if negb (fMacOn b) then mret (kIOReturnNotReady, None) else regRead b off w.

Definition interruptOccurred (count : Z) (b : bridge) : bridge :=
  set_irq_count (u64 (fIrqCount b + (if 0 <? count then count else 1))) b.

(** [wl], [src], [add]: whether a work loop and an event source can be had, and
    the source added. *)
Definition irqEnable (wl src add : bool) (b : bridge) : prog (ioreturn * bridge) :=
  if negb (fMacOn b) then mret (kIOReturnNotReady, b) else
  if fIrqSrc b then mret (kIOReturnSuccess, b) else
  if negb (fWorkLoop b) && negb wl then mret (kIOReturnNoResources, b) else
  let b := set_irq true (fIrqSrc b) b in
  if negb src then mret (kIOReturnNoResources, b) else
  if negb add then mret (kIOReturnError, b) else
  rc ← act IrqEnable;
  mret (kIOReturnSuccess, set_irq true true b).
Definition irqDisable (b : bridge) : prog (ioreturn * bridge) :=
  if fIrqSrc b && fWorkLoop b then
    act IrqDisable;;
    mret (kIOReturnSuccess, set_irq (fWorkLoop b) false b)
  else mret (kIOReturnSuccess, b).

(** A sleep until the deadline: the interrupts that come while asleep, and why it
    ended. *)
Inductive wake := Awakened | TimedOut | Interrupted.
Fixpoint irq_sleep (start : Z) (naps : list (list Z * wake)) (b : bridge) : bridge :=
  match naps with
  | [] => b
  | (fired, w) :: naps =>
      if negb (fIrqCount b =? start) then b else
      let b := foldl (fun b c => interruptOccurred c b) b fired in
      match w with Awakened => irq_sleep start naps b | _ => b end
  end.
Definition irqWait (naps : list (list Z * wake)) (b : bridge) : Z * bridge :=
  let start := fIrqCount b in
  let b := irq_sleep start naps b in
  (u64 (fIrqCount b - start), b).

(** ** The C shims, as the device the in-kernel code runs on *)

Section Shims.
(** The chip behind the bridge; the kernel's answers to requests for memory and
    for interrupt machinery, and what happens in a sleep. *)
Context {C : Type} (chip : Device C) (mem : Z -> C -> option (Z * Z) * C).
Context (irq_machinery : C -> bool * bool * bool) (naps : Z -> C -> list (list Z * wake)).

Definition hw_dma_alloc (n : Z) (b : bridge) (c : C) : option (Z * Z) * (bridge * C) :=
  let '(m, c) := mem n c in
  let '((rc, r, b), c) := run (dmaAlloc b n m) c in
  match rc, r with
  | kIOReturnSuccess, Some (h, pa) => (if dmaVaddr b h then Some (h, pa) else None, (b, c))
  | _, _ => (None, (b, c))
  end.
Definition hw_irq_enable (b : bridge) (c : C) : Z * (bridge * C) :=
  let '(wl, src, add) := irq_machinery c in
  let '((rc, b), c) := run (irqEnable wl src add b) c in
  (if decide (rc = kIOReturnSuccess) then 0 else -1, (b, c)).

Definition bridge_dev : Device (bridge * C) := fun o '(b, c) =>
  match o as o return hwres o * (bridge * C) with
  | DmaAlloc n => hw_dma_alloc n b c
  | DmaFree h => (tt, ((dmaFree b h).2, c))
  | RegWriteDma reg h off w => (tt, (b, (run (regWriteDma b reg h off w) c).2))
  | PciPower me bm => (tt, (b, (run (power me bm) c).2))
  | SetMacPower on => (tt, (setMacPower on b, c))
  | IrqEnable => hw_irq_enable b c
  | IrqDisable => let '((_, b), c) := run (irqDisable b) c in (tt, (b, c))
  | IrqWait ms => let '(n, b) := irqWait (naps ms c) b in (n, (b, c))
  | o => let '(r, c) := dev_step o c in (r, (b, c))
  end.
#[local] Existing Instance bridge_dev.

(** ** The table is the allocator the memory monitor assumes *)

(** The live buffers are the slots in use. *)
Definition tracks (m : gmap Z Z) (b : bridge) : Prop :=
  length (fDma b) = RTW_BRIDGE_MAX_DMA /\ forall h, m !! h = if 0 <=? h then size <$> dma_slot b h else None.

Lemma free_slot_spec t : forall i, match free_slot t i with
  | Some j => i <= j < i + Z.of_nat (length t) /\ t !! Z.to_nat (j - i) = Some None
  | None => forall k s, t !! k = Some s -> is_Some s
  end.
Proof.
  induction t as [|[s|] t IH]; intros i; cbn [free_slot]; [done| |split; [cbn; lia|by rewrite Z.sub_diag]].
  specialize (IH (i + 1)). destruct (free_slot t (i + 1)) as [j|].
  - destruct IH as [H1 H2]. cbn [length]. split; [lia|]. replace (Z.to_nat (j - i)) with (S (Z.to_nat (j - (i + 1)))) by lia. done.
  - intros [|k] s' Hk; cbn in Hk; [by simplify_eq|by eapply IH].
Qed.

Lemma tracks_slot m b h n : tracks m b -> m !! h = Some n -> 0 <= h < 16 /\ exists s, dma_slot b h = Some s /\ size s = n.
Proof.
  intros [Hl Ht] Hm. rewrite Ht in Hm. destruct (Z.leb_spec 0 h); [|done]. apply fmap_Some in Hm as (s & Hs & ->). split; [|by exists s].
  unfold dma_slot in Hs. change (Z.of_nat RTW_BRIDGE_MAX_DMA) with 16 in Hs. destruct (Z.leb_spec 16 h); [done|lia].
Qed.
Lemma dma_slot_set b h h' s : length (fDma b) = RTW_BRIDGE_MAX_DMA -> 0 <= h < 16 -> 0 <= h' ->
  dma_slot (set_fDma (<[Z.to_nat h := s]> (fDma b)) b) h' = if h' =? h then s else dma_slot b h'.
Proof.
  intros Hl Hh Hh'. unfold dma_slot. change (Z.of_nat RTW_BRIDGE_MAX_DMA) with 16. cbn [set_fDma fDma]. unfold RTW_BRIDGE_MAX_DMA in Hl.
  destruct (Z.eqb_spec h' h) as [->|Hne].
  - destruct (Z.leb_spec 16 h); [lia|]. rewrite list_lookup_insert_eq by lia. done.
  - destruct (Z.leb_spec 16 h'); [done|]. by rewrite list_lookup_insert_ne by lia.
Qed.
Lemma tracks_set m b h s : tracks m b -> 0 <= h < 16 -> tracks (partial_alter (fun _ => size <$> s) h m) (set_fDma (<[Z.to_nat h := s]> (fDma b)) b).
Proof.
  intros [Hl Ht] Hh. split; [cbn; by rewrite length_insert|]. intros h'. destruct (Z.leb_spec 0 h').
  - rewrite dma_slot_set by done. destruct (Z.eqb_spec h' h) as [->|Hne]; [by rewrite lookup_partial_alter_eq|].
    rewrite lookup_partial_alter_ne by done. rewrite Ht. by destruct (Z.leb_spec 0 h'); [|lia].
  - rewrite lookup_partial_alter_ne by lia. rewrite Ht. by destruct (Z.leb_spec 0 h'); [lia|].
Qed.

(** What an allocation does to the table. *)
Lemma alloc_tracks n m (b : bridge) (c : C) : tracks m b -> let '(r, (b', c')) := hw_dma_alloc n b c in
  match r with
  | Some (h, pa) => m !! h = None /\ tracks (<[h := n]> m) b' /\ exists s, dma_slot b' h = Some s /\ paddr s = pa
  | None => tracks m b'
  end.
Proof.
  intros Ht. unfold hw_dma_alloc, dmaAlloc. destruct (mem n c) as [a c1]. destruct (_ || _); [done|].
  pose proof (free_slot_spec (fDma b) 0) as Hf. destruct (free_slot (fDma b) 0) as [i|]; [|done]. destruct a as [[pa seg]|]; [|done].
  destruct (_ || _); [done|]. destruct Hf as [Hi Hfree]. destruct Ht as [Hl Ht]. rewrite Z.sub_0_r in Hfree. unfold RTW_BRIDGE_MAX_DMA in Hl.
  cbn [mbind prog_mbind prog_bind act run mret prog_ret]. destruct (dev_step _ c1) as [[] c2].
  pose proof (dma_slot_set b i i (Some (DmaSlot pa n)) Hl ltac:(lia) ltac:(lia)) as Hs. rewrite Z.eqb_refl in Hs.
  unfold dmaVaddr. rewrite Hs. split; [|split; [|by exists (DmaSlot pa n)]].
  - rewrite Ht. destruct (Z.leb_spec 0 i); [|done]. unfold dma_slot. destruct (_ <=? i); [done|]. by rewrite Hfree.
  - by apply (tracks_set m b i (Some (DmaSlot pa n))); [|lia].
Qed.
Lemma free_tracks h m b : tracks m b -> is_Some (m !! h) -> tracks (delete h m) (dmaFree b h).2.
Proof.
  intros Ht [n Hm]. destruct (tracks_slot _ _ _ _ Ht Hm) as [Hh _]. unfold dmaFree. change (Z.of_nat RTW_BRIDGE_MAX_DMA) with 16.
  destruct (Z.leb_spec 16 h); [lia|]. by apply (tracks_set m b h None).
Qed.
Lemma irq_sleep_dma start l : forall b, fDma (irq_sleep start l b) = fDma b.
Proof.
  induction l as [|[fired w] l IH]; intros b; [done|]. cbn [irq_sleep]. destruct (negb _); [done|].
  assert (E : forall b, fDma (foldl (fun b c => interruptOccurred c b) b fired) = fDma b) by (induction fired as [|x fired IHf]; intros b'; [done|cbn; by rewrite IHf]).
  destruct w; [by rewrite IH, E|by rewrite E|by rewrite E].
Qed.
Lemma irq_sleep_bar start l : forall b, fBarLen (irq_sleep start l b) = fBarLen b.
Proof.
  induction l as [|[fired w] l IH]; intros b; [done|]. cbn [irq_sleep]. destruct (negb _); [done|].
  assert (E : forall b, fBarLen (foldl (fun b c => interruptOccurred c b) b fired) = fBarLen b) by (induction fired as [|x fired IHf]; intros b'; [done|cbn; by rewrite IHf]).
  destruct w; [by rewrite IH, E|by rewrite E|by rewrite E].
Qed.
Lemma tracks_same m b b' : fDma b' = fDma b -> tracks m b -> tracks m b'.
Proof. intros E [H1 H2]. split; [by rewrite E|]. unfold dma_slot in *. by rewrite E. Qed.

Lemma irq_enable_dma (b : bridge) (c : C) : fDma (hw_irq_enable b c).2.1 = fDma b.
Proof.
  unfold hw_irq_enable. destruct (irq_machinery c) as [[wl src] add]. unfold irqEnable.
  destruct (negb (fMacOn b)); [done|]. destruct (fIrqSrc b); [done|]. destruct (_ && _); [done|]. destruct src; [|done]. destruct add; [|done].
  cbn [negb mbind prog_mbind prog_bind act run mret prog_ret]. by destruct (@dev_step C chip IrqEnable c) as [r c2].
Qed.
Lemma irq_disable_dma (b : bridge) (c : C) : fDma (run (irqDisable b) c).1.2 = fDma b.
Proof.
  unfold irqDisable. destruct (_ && _); [|done]. cbn [mbind prog_mbind prog_bind act run mret prog_ret]. by destruct (@dev_step C chip IrqDisable c) as [[] c2].
Qed.

(** One call. *)
Lemma dev_tracks o m (b : bridge) (c : C) : tracks m b -> let '(r, (b', c')) := dev_step o (b, c) in
  match mem_mon (Some m) o r with
  | Some (Some m') => tracks m' b'
  | Some None => False
  | None => True
  end.
Proof.
  intros Ht. destruct o as [w off|w off v|us|n|n|h|reg h off w|h off n|h off bs|h off n v|me bm|w off|w off v|on| | |ms|n|cfg| |up| |];
    cbn [dev_step bridge_dev]; try (by destruct (@dev_step C chip _ c) as [r c']; cbn; repeat case_match; simplify_eq); try done.
  - pose proof (alloc_tracks n m b c Ht) as H. destruct (hw_dma_alloc n b c) as [[[h pa]|] [b' c']]; cbn [mem_mon]; [|done].
    by destruct H as (-> & H & _).
  - cbn [mem_mon]. destruct (m !! h) eqn:E; [by apply free_tracks|done].
  - cbn [mem_mon]. by destruct (in_buf _ _ _ _).
  - pose proof (irq_enable_dma b c) as E. destruct (hw_irq_enable b c) as [r [b' c']]. by eapply tracks_same.
  - pose proof (irq_disable_dma b c) as E. destruct (run (irqDisable b) c) as [[rc b'] c']. by eapply tracks_same.
  - unfold irqWait. cbn [mem_mon]. by eapply tracks_same; [apply irq_sleep_dma|].
Qed.

#[local] Transparent mem_safe.
(** C12: the table of DMA buffers is the allocator the in-kernel code was verified
    against.  A program that is memory safe in the monitor, which promises nothing
    once a live handle is handed out a second time, runs on the bridge from any
    table with the live buffers it assumes and ends in a table with the live
    buffers it leaves: handles are never reused while live, a buffer is as large
    as was asked for, a free takes effect, and no other call changes the table. *)
Theorem bridge_refines (A : Type) (p : prog A) (m : gmap Z Z) (Q : A -> gmap Z Z -> Prop) (b : bridge) (c : C) :
  tracks m b -> mem_safe p m Q -> let '(x, (b', _)) := run p (b, c) in exists m', tracks m' b' /\ Q x m'.
Proof.
  intros Ht Hp. unfold mem_safe in Hp. revert m b c Ht Hp. induction p as [x|o k IH]; intros m b c Ht Hp; cbn [run]; [by exists m|].
  pose proof (dev_tracks o m b c Ht) as H. destruct (dev_step o (b, c)) as [r [b1 c1]]. specialize (Hp r).
  destruct (mem_mon (Some m) o r) as [[m'|]|]; [by apply (IH r m')|done|done].
Qed.
End Shims.

(** ** Client accesses *)

(** An access inside the register window and aligned; a write, besides, off every
    byte of the ring-base registers. *)
Definition confined (b : bridge) (o : hwop) : bool :=
  match o with
  | Read w off => (0 <=? off) && (off + bytes_of w <=? fBarLen b) && (off mod bytes_of w =? 0)
  | Write w off _ => (0 <=? off) && (off + bytes_of w <=? fBarLen b) && (off mod bytes_of w =? 0) &&
      forallb (fun k => negb (desa_reg (off + Z.of_nat k))) (seq 0 (Z.to_nat (bytes_of w)))
  | _ => false
  end.

Lemma reg_width_bytes w wd : reg_width w = Some wd -> w = bytes_of wd.
Proof. unfold reg_width. by destruct (Z.eqb_spec w 1), (Z.eqb_spec w 2), (Z.eqb_spec w 4); intros [= <-]. Qed.
Lemma reg_in_spec b off wd : reg_in b off (bytes_of wd) = true -> off + bytes_of wd <= fBarLen b /\ off mod bytes_of wd = 0.
Proof.
  unfold reg_in, nz. intros H%negb_true_iff%orb_false_elim. destruct H as [H1%Z.ltb_ge H2%negb_false_iff%Z.eqb_eq]. split; [lia|].
  destruct wd; cbn [bytes_of] in *; [by rewrite Z.mod_1_r|change (2 - 1) with (Z.ones 1) in H2|change (4 - 1) with (Z.ones 2) in H2]; by rewrite Z.land_ones in H2 by lia.
Qed.
(** The ring-base ranges begin and end on dwords, so an aligned access outside at
    its first byte is outside at every byte. *)
Lemma desa_aligned off wd : 0 <= off -> off mod bytes_of wd = 0 -> desa_reg off = false ->
  forallb (fun k => negb (desa_reg (off + Z.of_nat k))) (seq 0 (Z.to_nat (bytes_of wd))) = true.
Proof.
  intros H0 Ha Hd. apply forallb_forall. intros k Hk%List.in_seq. unfold desa_reg in *.
  assert (Hm : off mod bytes_of wd = 0 -> exists q, off = bytes_of wd * q) by (intros Hm; exists (off / bytes_of wd); pose proof (Z.div_mod off (bytes_of wd)); destruct wd; cbn in *; lia).
  destruct (Hm Ha) as [q ->]. destruct wd; cbn [bytes_of] in *; change (Z.to_nat 1) with 1%nat in *; change (Z.to_nat 2) with 2%nat in *; change (Z.to_nat 4) with 4%nat in *; lia.
Qed.

Lemma hw_read_confined b wd off : 0 <= off -> reg_in b off (bytes_of wd) = true ->
  safe (confined b) (match wd with W8 => hw_read8 off | W16 => hw_read16 off | W32 => hw_read32 off end) (fun _ => True).
Proof.
  intros H0 Hr. apply reg_in_spec in Hr as [H1 H2].
  assert (Hc : confined b (Read wd off) = true) by (cbn [confined]; rewrite H2; lia).
  destruct wd; apply safe_act; first [done|by intros r; apply safe_ret].
Qed.
Lemma raw_confined b wd off v : 0 <= off -> reg_in b off (bytes_of wd) = true -> desa_reg off = false ->
  safe (confined b) (rawRegWrite off (bytes_of wd) v) (fun _ => True).
Proof.
  intros H0 Hr Hd. apply reg_in_spec in Hr as [H1 H2].
  assert (Hc : forall x, confined b (Write wd off x) = true).
  { intros x. cbn [confined]. rewrite desa_aligned by done. rewrite H2. lia. }
  destruct wd; apply safe_act; first [apply Hc|by intros r; apply safe_ret].
Qed.

(** What a client can reach through the register calls.  Whatever offset,
    width and value it passes, every access made is inside the mapped register
    window and aligned to its width, and no write touches a single byte of the
    ring-base registers; a request that would is refused without touching the
    chip. *)
Theorem regs_confined (b : bridge) (off w v : Z) :
  0 <= off ->
  safe (confined b) (regRead b off w) (fun _ => True) /\ safe (confined b) (irqStatus b off w) (fun _ => True) /\
  safe (confined b) (regWrite b off w v) (fun _ => True) /\
  (desa_reg off = true -> exists rc, regWrite b off w v = mret rc /\ rc <> kIOReturnSuccess).
Proof.
  intros H0.
  assert (Hr : safe (confined b) (regRead b off w) (fun _ => True)).
  { unfold regRead. destruct (negb _); [by apply safe_ret|]. destruct (reg_width w) as [wd|] eqn:E; [|by apply safe_ret].
    apply reg_width_bytes in E as ->. destruct (reg_in b off (bytes_of wd)) eqn:Ei; [|by apply safe_ret]. cbn [negb].
    apply safe_bind_any; [by apply hw_read_confined|]. intros x. by apply safe_ret. }
  split; [done|]. split; [unfold irqStatus; destruct (negb _); [by apply safe_ret|done]|]. unfold regWrite.
  destruct (negb _); [split; [by apply safe_ret|by eexists]|]. destruct (reg_width w) as [wd|] eqn:E; [|split; [by apply safe_ret|by eexists]].
  apply reg_width_bytes in E as ->. destruct (reg_in b off (bytes_of wd)) eqn:Ei; [|split; [by apply safe_ret|by eexists]]. cbn [negb].
  destruct (desa_reg off) eqn:Ed; [split; [by apply safe_ret|by eexists]|]. split; [by apply raw_confined|done].
Qed.

(** ** Arming a register with a buffer's address *)

(** Every buffer lies below 4 GB, as the allocation asks for. *)
Definition slots_low (b : bridge) : Prop := forall h s, dma_slot b h = Some s -> 0 < paddr s /\ 0 < size s /\ paddr s + size s <= 2 ^ 32.

Definition arm_writes (regOff pa w : Z) : list hwop :=
  Write W32 regOff pa :: (if w =? 8 then [Write W32 (regOff + 4) 0] else []).
Lemma run_writes regOff pa w (C : Type) (chip : Device C) (c : C) : 0 <= regOff -> (w = 8 -> regOff + 8 < 2 ^ 32) -> 0 <= pa < 2 ^ 32 -> (w = 4 \/ w = 8) ->
  let e := exec (if w =? 4 then if 0xffffffff <? pa then mret kIOReturnNotPermitted else rawRegWrite regOff 4 (u32 pa)
        else _ ← rawRegWrite regOff 4 (u32 (pa .& 0xffffffff)); rawRegWrite (u32 (regOff + 4)) 4 (u32 (pa >> 32))) c in
  result e = kIOReturnSuccess /\ ops e = arm_writes regOff pa w.
Proof.
  intros H1 H2 Hp Hw. cbv zeta. assert (Hu : u32 pa = pa) by (by apply wrap_small). destruct Hw as [-> | ->]; cbn [Z.eqb Pos.eqb].
  - destruct (Z.ltb_spec 0xffffffff pa); [change (2 ^ 32) with 4294967296 in Hp; lia|].
    unfold rawRegWrite, hw_write32. cbn [Z.eqb Pos.eqb mbind prog_mbind prog_bind act mret prog_ret exec]. rewrite !Hu.
    by destruct (dev_step _ c) as [[] c1].
  - change 0xffffffff with (Z.ones 32). rewrite Z.land_ones by lia. rewrite (Z.mod_small pa) by done.
    assert (Hs : pa >> 32 = 0) by (rewrite Z.shiftr_div_pow2 by lia; by apply Z.div_small).
    unfold rawRegWrite, hw_write32. cbn [Z.eqb Pos.eqb mbind prog_mbind prog_bind act mret prog_ret exec]. rewrite !Hu, Hs, (wrap_small 32 (regOff + 4)) by lia.
    destruct (dev_step _ c) as [[] c1]. by destruct (dev_step _ c1) as [[] c2].
Qed.

(** A register is only ever armed with an address inside a live buffer.  For
    every request: it either makes no access at all and reports an error, or it
    names a live buffer and an offset inside it and writes exactly that buffer's
    address plus the offset, in the register and (for a 64-bit base) a zero high
    dword, inside the register window. *)
Theorem regWriteDma_arms (b : bridge) (regOff handle bufOff w : Z) (C : Type) (chip : Device C) (c : C) :
  0 <= regOff -> 0 <= handle -> 0 <= bufOff -> fBarLen b < 2 ^ 32 -> slots_low b ->
  let e := exec (regWriteDma b regOff handle bufOff w) c in
  (result e <> kIOReturnSuccess /\ ops e = []) \/
  (exists s, dma_slot b handle = Some s /\ bufOff < size s /\ result e = kIOReturnSuccess /\
    ops e = arm_writes regOff (paddr s + bufOff) w /\ regOff + w <= fBarLen b /\ regOff mod 4 = 0).
Proof.
  intros H1 H2 H3 Hbar Hlow. cbv zeta. unfold regWriteDma. destruct (_ <=? handle); [by left|].
  destruct (Z.eqb_spec w 4) as [E4|N4], (Z.eqb_spec w 8) as [E8|N8]; cbn [negb andb]; try lia; [| |by left].
  all: destruct (dma_slot b handle) as [s|] eqn:Es; [|by left]; destruct (Z.leb_spec (size s) bufOff); [by left|].
  all: destruct (fMmio b); cbn [negb]; [|by left].
  all: match goal with |- context [if ?x || ?y then _ else _] => destruct (x || y) eqn:Eo end; [by left|]; right; exists s.
  all: apply orb_false_elim in Eo as [Eo1%Z.ltb_ge Eo2%negb_false_iff%Z.eqb_eq]; destruct (Hlow _ _ Es) as (P1 & P2 & P3).
  all: change 3 with (Z.ones 2) in Eo2; rewrite Z.land_ones in Eo2 by lia; change (2 ^ 2) with 4 in Eo2.
  all: assert (Hu : u64 (paddr s + bufOff) = paddr s + bufOff) by (apply wrap_small; change (2 ^ 64) with (2 ^ 32 * 2 ^ 32); lia); cbv zeta; rewrite Hu.
  - pose proof (run_writes regOff (paddr s + bufOff) 4 C chip c) as Hr. cbn [Z.eqb Pos.eqb] in Hr.
    destruct Hr as [Hr1 Hr2]; [lia|lia|lia|by left|]. split_and!; try done; subst w; done.
  - pose proof (run_writes regOff (paddr s + bufOff) 8 C chip c) as Hr. cbn [Z.eqb Pos.eqb] in Hr.
    destruct Hr as [Hr1 Hr2]; [lia|lia|lia|by right|]. split_and!; try done; subst w; done.
Qed.

Lemma rf_read_write32 (m : regfile) a v : 0 <= v < 2 ^ 32 -> rf_read (rf_write m W32 a v) W32 a = v.
Proof.
  intros Hv. unfold regfile in m. cbn [rf_read]. unfold rf_byte, rf_write, regfile.
  assert (E0 : <[a + 3 := u8 (v >> 24)]> (<[a + 2 := u8 (v >> 16)]> (<[a + 1 := u8 (v >> 8)]> (<[a := u8 v]> m))) !! a = Some (u8 v))
    by (do 3 rewrite lookup_insert_ne by lia; apply lookup_insert_eq).
  assert (E1 : <[a + 3 := u8 (v >> 24)]> (<[a + 2 := u8 (v >> 16)]> (<[a + 1 := u8 (v >> 8)]> (<[a := u8 v]> m))) !! (a + 1) = Some (u8 (v >> 8)))
    by (do 2 rewrite lookup_insert_ne by lia; apply lookup_insert_eq).
  assert (E2 : <[a + 3 := u8 (v >> 24)]> (<[a + 2 := u8 (v >> 16)]> (<[a + 1 := u8 (v >> 8)]> (<[a := u8 v]> m))) !! (a + 2) = Some (u8 (v >> 16)))
    by (rewrite lookup_insert_ne by lia; apply lookup_insert_eq).
  rewrite E0, E1, E2, lookup_insert_eq. cbn [default].
  unfold wrap. rewrite !Z.shiftr_div_pow2 by lia. change (2 ^ 8) with 256. change (2 ^ 16) with (256 * 256). change (2 ^ 24) with (256 * 256 * 256).
  rewrite <- !Z.div_div by lia. change (2 ^ 32) with (256 * 256 * 256 * 256) in Hv.
  pose proof (Z.div_mod v 256). pose proof (Z.div_mod (v / 256) 256). pose proof (Z.div_mod (v / 256 / 256) 256).
  rewrite (Z.mod_small (v / 256 / 256 / 256)); [|rewrite !Z.div_div by lia; split; [apply Z.div_pos; lia|apply Z.div_lt_upper_bound; lia]]. cbn [id]. lia.
Qed.
Lemma rf_byte_other (m : regfile) a a' v : a' < a -> rf_byte (rf_write m W32 a v) a' = rf_byte m a'.
Proof. intros Ha. unfold rf_byte, rf_write. f_equal. do 3 (etrans; [apply lookup_insert_ne; lia|]). apply lookup_insert_ne. lia. Qed.
Lemma rf_read_other (m : regfile) a a' v : a' + 4 <= a -> rf_read (rf_write m W32 a v) W32 a' = rf_read m W32 a'.
Proof. intros Ha. cbn [rf_read]. by rewrite !rf_byte_other by lia. Qed.

(** The high dword of a ring base is a register of its own, and a 32-bit request
    arms it as well: the 64-bit base the chip then holds lies above every buffer. *)
Lemma high_dword_armed (b : bridge) (s : rtw_dma_slot) (m : regfile) :
  fMmio b = true -> 0x348 <= fBarLen b -> dma_slot b 0 = Some s -> slots_low b ->
  let m' := (run (regWriteDma b 0x30c 0 0 4) m).2 in
  rf_read m' W32 0x308 = rf_read m W32 0x308 /\ rf_read m' W32 0x30c = paddr s /\ 0 < paddr s.
Proof.
  intros Hm Hbar Hs Hlow. cbv zeta. unfold regWriteDma. rewrite Hs, Hm. destruct (Hlow _ _ Hs) as (P1 & P2 & P3).
  change (Z.of_nat RTW_BRIDGE_MAX_DMA <=? 0) with false. cbn [Z.eqb Pos.eqb negb andb].
  destruct (Z.leb_spec (size s) 0); [lia|]. destruct (Z.ltb_spec (fBarLen b) (0x30c + 4)); [lia|]. change (nz (0x30c .& 3)) with false. cbn [orb].
  rewrite Z.add_0_r. assert (Hp : 0 <= paddr s < 2 ^ 32) by lia. assert (Hu : u64 (paddr s) = paddr s) by (apply wrap_small; change (2 ^ 64) with (2 ^ 32 * 2 ^ 32); lia). rewrite Hu.
  destruct (Z.ltb_spec 0xffffffff (paddr s)); [change (2 ^ 32) with 4294967296 in Hp; lia|].
  unfold rawRegWrite, hw_write32. cbn [Z.eqb Pos.eqb mbind prog_mbind prog_bind act mret prog_ret run dev_step regfile_dev snd].
  rewrite !(wrap_small 32 (paddr s)) by done. cbn [run dev_step regfile_dev snd mret prog_ret]. by rewrite rf_read_other, rf_read_write32 by (done || lia).
Qed.

(** ** A concrete bridge *)

Definition bridge1 : bridge :=
  Bridge true true 0x10000 0x10ec 0xc821 (Some (DmaSlot 0x7f000000 0x4000) :: replicate 15 None) false false 0 (-1) true.
Lemma bridge1_low : slots_low bridge1.
Proof.
  intros h s Hs. unfold dma_slot in Hs. cbn [fDma bridge1] in Hs. destruct (_ <=? h); [done|]. destruct (Z.to_nat h) as [|n]; [cbn in Hs; injection Hs as <-; cbn; lia|].
  change (mjoin (replicate 15 (@None rtw_dma_slot) !! n) = Some s) in Hs.
  destruct (replicate 15 None !! n) as [y|] eqn:Ey; [|done]. by apply lookup_replicate in Ey as [-> _].
Qed.

Lemma regs_confined_witness : exists rc, regWrite bridge1 0x340 4 0x1000 = mret rc /\ rc <> kIOReturnSuccess.
Proof. apply (regs_confined bridge1 0x340 4 0x1000); [lia|reflexivity]. Defined.
Lemma regWriteDma_arms_witness :
  let e := exec (regWriteDma bridge1 0x308 0 0x1000 4) (∅ : regfile) in
  (result e <> kIOReturnSuccess /\ ops e = []) \/
  (exists s, dma_slot bridge1 0 = Some s /\ 0x1000 < size s /\ result e = kIOReturnSuccess /\
    ops e = arm_writes 0x308 (paddr s + 0x1000) 4 /\ 0x308 + 4 <= fBarLen bridge1 /\ 0x308 mod 4 = 0).
Proof. apply (regWriteDma_arms bridge1 0x308 0 0x1000 4 regfile); [lia|lia|lia|reflexivity|apply bridge1_low]. Defined.
Lemma bridge1_tracks : tracks {[0 := 0x4000]} bridge1.
Proof.
  split; [reflexivity|]. intros h. destruct (Z.leb_spec 0 h) as [H|H]; [|by rewrite lookup_singleton_ne by lia].
  unfold dma_slot. change (Z.of_nat RTW_BRIDGE_MAX_DMA) with 16. destruct (Z.leb_spec 16 h); [by rewrite lookup_singleton_ne by lia|].
  assert (Hh : h = 0 \/ h <> 0) by lia. destruct Hh as [-> |Hh]; [done|]. rewrite lookup_singleton_ne by done.
  destruct (Z.to_nat h) as [|n] eqn:E; [lia|]. change (None = size <$> mjoin (replicate 15 (@None rtw_dma_slot) !! n)).
  destruct (replicate 15 None !! n) as [y|] eqn:Ey; [|done]. by apply lookup_replicate in Ey as [-> _].
Qed.
Lemma bridge_refines_witness :
  let '(x, (b', _)) := run (H := bridge_dev regfile_dev (fun n c => (Some (0x7f010000, n), c)) (fun _ => (true, true, true)) (fun _ _ => []))
    (act (DmaAlloc 0x2000)) (bridge1, (∅ : regfile)) in
  exists m', tracks m' b' /\ match x with None => m' = {[0 := 0x4000]} | Some (h, _) => ({[0 := 0x4000]} : gmap Z Z) !! h = None /\ m' = <[h := 0x2000]> {[0 := 0x4000]} end.
Proof.
  apply (bridge_refines regfile_dev (fun n c => (Some (0x7f010000, n), c)) (fun _ => (true, true, true)) (fun _ _ => []) _ (act (DmaAlloc 0x2000)) {[0 := 0x4000]}
    (fun x m' => match x with None => m' = {[0 := 0x4000]} | Some (h, _) => ({[0 := 0x4000]} : gmap Z Z) !! h = None /\ m' = <[h := 0x2000]> {[0 := 0x4000]} end)).
  - apply bridge1_tracks.
  - apply mem_safe_alloc.
Defined.
