(* ===== verification/DataPath.v ===== *)
(** * DataPath: the in-kernel data path (RTW88Ethernet of server/RTW88Server.cpp)

    Outgoing packets become 802.11 frames in the slots of the best-effort ring;
    a poll loop drains the receive ring, answers Block-Ack requests, feeds the
    stack and steers the receiver's gain.  Proved: whatever geometry passes the
    check at the start, every later access is inside the buffers it names; the
    frame in the slot is the packet; packet numbers never repeat in a session; a
    slot the chip still owns is not written; the gain settles. *)
From stdpp Require Import gmap.
From S2P Require Import Prelude Hw Regs Trx Rx Reorder Deliver RxFrame Bridge.
Open Scope Z_scope.
Open Scope rtw_scope.

(** ** State *)

(** Where the rings are and their shape; a pool is a buffer's handle. *)
Record geometry := Geometry {
  fBeBd : Z * Z; fBeLen : Z; fBdSz : Z; fDescSz : Z;
  fRxData : Z; fRxN : Z; fRxBufSz : Z; fRxDescSz : Z;
  fTxPoolV : option Z; fTxPoolPa : Z; fTxSlotSz : Z;
}.
Record link_params := LinkParams { fMac : list Z; fBssid : list Z; fRate : Z; fRateId : Z }.
Record dig_state := Dig { fDigInit : bool; fDigIgi : Z; fDigLastNs : Z; gDigFa : Z; gDigIgi : Z }.
Record data_counters := DCnt {
  gDtx : Z; gDtxDrop : Z; gDtxBytes : Z; gDrxBytes : Z; gDrxMcs : Z; gDrxMaxDepth : Z; gDrxErr : Z;
  gRxRingFull : Z; gRateSum : Z; gRateN : Z; gRateMax : Z; gRateMin : Z;
}.
Record eth := Eth {
  e_geo : geometry; e_link : link_params;
  fRunning : bool; fNetif : bool; fDataMode : bool; fRxStop : bool; fRxDone : bool;
  fBeWp : Z; fRxRp : Z; fCcmpPn : Z;
  e_dig : dig_state; fHealthLastNs : Z; e_rx : rx_state; fPendingFlush : bool; e_cnt : data_counters;
}.
Definition set_rx (r : rx_state) (e : eth) : eth :=
  Eth (e_geo e) (e_link e) (fRunning e) (fNetif e) (fDataMode e) (fRxStop e) (fRxDone e) (fBeWp e) (fRxRp e) (fCcmpPn e) (e_dig e) (fHealthLastNs e) r (fPendingFlush e) (e_cnt e).
Definition set_rp (p : Z) (e : eth) : eth :=
  Eth (e_geo e) (e_link e) (fRunning e) (fNetif e) (fDataMode e) (fRxStop e) (fRxDone e) (fBeWp e) p (fCcmpPn e) (e_dig e) (fHealthLastNs e) (e_rx e) (fPendingFlush e) (e_cnt e).
Definition set_wp (p pn : Z) (e : eth) : eth :=
  Eth (e_geo e) (e_link e) (fRunning e) (fNetif e) (fDataMode e) (fRxStop e) (fRxDone e) p (fRxRp e) pn (e_dig e) (fHealthLastNs e) (e_rx e) (fPendingFlush e) (e_cnt e).
Definition set_dig (d : dig_state) (e : eth) : eth :=
  Eth (e_geo e) (e_link e) (fRunning e) (fNetif e) (fDataMode e) (fRxStop e) (fRxDone e) (fBeWp e) (fRxRp e) (fCcmpPn e) d (fHealthLastNs e) (e_rx e) (fPendingFlush e) (e_cnt e).
Definition set_flush (b : bool) (e : eth) : eth :=
  Eth (e_geo e) (e_link e) (fRunning e) (fNetif e) (fDataMode e) (fRxStop e) (fRxDone e) (fBeWp e) (fRxRp e) (fCcmpPn e) (e_dig e) (fHealthLastNs e) (e_rx e) b (e_cnt e).
Definition set_dcnt (c : data_counters) (e : eth) : eth :=
  Eth (e_geo e) (e_link e) (fRunning e) (fNetif e) (fDataMode e) (fRxStop e) (fRxDone e) (fBeWp e) (fRxRp e) (fCcmpPn e) (e_dig e) (fHealthLastNs e) (e_rx e) (fPendingFlush e) c.
Definition set_running (b : bool) (e : eth) : eth :=
  Eth (e_geo e) (e_link e) b (fNetif e) (fDataMode e) (fRxStop e) (fRxDone e) (fBeWp e) (fRxRp e) (fCcmpPn e) (e_dig e) (fHealthLastNs e) (e_rx e) (fPendingFlush e) (e_cnt e).

Definition count_tx (n : Z) (c : data_counters) : data_counters :=
  DCnt (u64 (gDtx c + 1)) (gDtxDrop c) (u64 (gDtxBytes c + n)) (gDrxBytes c) (gDrxMcs c) (gDrxMaxDepth c) (gDrxErr c) (gRxRingFull c) (gRateSum c) (gRateN c) (gRateMax c) (gRateMin c).
Definition count_drop (c : data_counters) : data_counters :=
  DCnt (gDtx c) (u64 (gDtxDrop c + 1)) (gDtxBytes c) (gDrxBytes c) (gDrxMcs c) (gDrxMaxDepth c) (gDrxErr c) (gRxRingFull c) (gRateSum c) (gRateN c) (gRateMax c) (gRateMin c).
Definition count_depth (depth : Z) (full : bool) (c : data_counters) : data_counters :=
  DCnt (gDtx c) (gDtxDrop c) (gDtxBytes c) (gDrxBytes c) (gDrxMcs c) (if gDrxMaxDepth c <? depth then depth else gDrxMaxDepth c) (gDrxErr c)
    (if full then u64 (gRxRingFull c + 1) else gRxRingFull c) (gRateSum c) (gRateN c) (gRateMax c) (gRateMin c).
Definition count_err (c : data_counters) : data_counters :=
  DCnt (gDtx c) (gDtxDrop c) (gDtxBytes c) (gDrxBytes c) (gDrxMcs c) (gDrxMaxDepth c) (u64 (gDrxErr c + 1)) (gRxRingFull c) (gRateSum c) (gRateN c) (gRateMax c) (gRateMin c).
Definition count_rx (rate n : Z) (c : data_counters) : data_counters :=
  DCnt (gDtx c) (gDtxDrop c) (gDtxBytes c) (u64 (gDrxBytes c + n)) (if 12 <=? rate then u64 (gDrxMcs c + 1) else gDrxMcs c) (gDrxMaxDepth c) (gDrxErr c)
    (gRxRingFull c) (u64 (gRateSum c + rate)) (u64 (gRateN c + 1)) (if gRateMax c <? rate then rate else gRateMax c) (if rate <? gRateMin c then rate else gRateMin c).

(** ** Sending *)

Definition RTK_PCI_TXBD_IDX_BEQ_K : Z := 0x3a8.
Definition RTK_PCI_RXBD_IDX_MPDUQ_K : Z := 0x3b4.
Definition KTX_W0_OFFSET_SHIFT : Z := 16.
Definition KTX_W0_LS : Z := u32 (1 << 26).
Definition KTX_W1_RATEID_SHIFT : Z := 16.
Definition KTX_W1_SECTYPE_SHIFT : Z := 22.
Definition KTX_W3_USE_RATE : Z := u32 (1 << 8).
Definition KTX_W3_DISDATAFB : Z := u32 (1 << 10).
Definition KTX_W8_EN_HWSEQ : Z := u32 (1 << 15).

(** [a % n] *)
Definition umod (a n : Z) : prog Z := if n =? 0 then act Fault else mret (u32 a mod n).

(** Writing through the pool's pointer, null outside a session. *)
Definition pool_write (g : geometry) (off : Z) (bs : list Z) : prog unit :=
  match fTxPoolV g with Some h => act (MemWrite h off bs) | None => fault end.
Definition pool_set (g : geometry) (off n v : Z) : prog unit :=
  match fTxPoolV g with Some h => act (MemSet h off n v) | None => fault end.
Definition bd_put (g : geometry) (off : Z) (bs : list Z) : prog unit := act (MemWrite (fBeBd g).1 ((fBeBd g).2 + off) bs).

(** The slot to write, the next one, and whether the chip still owns it. *)
Definition be_reserve (e : eth) : prog (Z * Z * bool) :=
  let slot := fBeWp e in
  next ← umod (slot + 1) (fBeLen (e_geo e));
  v ← hw_read32 RTK_PCI_TXBD_IDX_BEQ_K;
  hwrd ← umod ((v >> 16) .& 0xfff) (fBeLen (e_geo e));
  mret (slot, next, next =? hwrd).

(** The buffer descriptor of a frame of [len] bytes, and the doorbell. *)
Definition be_post (g : geometry) (slot next len bufpa : Z) : prog unit :=
  let total := u32 (len + fDescSz g) in
  let psb := u32 (total - 1) / 128 + 1 in
  let bd := slot * fBdSz g in
  bd_put g bd (le16 (fDescSz g));;
  bd_put g (bd + 2) (le16 psb);;
  bd_put g (bd + 4) (le32 bufpa);;
  bd_put g (bd + 8) (le16 len);;
  bd_put g (bd + 10) (le16 0);;
  bd_put g (bd + 12) (le32 (bufpa + fDescSz g));;
  hw_write16 RTK_PCI_TXBD_IDX_BEQ_K (next .& 0xfff).

(** The CCMP header: the packet number and key 0. *)
Definition ccmp_iv (pn : Z) : list Z :=
  [u8 pn; u8 (pn >> 8); 0; 0x20; u8 (pn >> 16); u8 (pn >> 24); u8 (pn >> 32); u8 (pn >> 40)].
(** The 42 bytes before the payload. *)
Definition air_head (l : link_params) (dst : list Z) (pn et : Z) : list Z :=
  [0x88; 0x41; 0; 0] ++ fBssid l ++ fMac l ++ dst ++ [0; 0] ++ [0; 0] ++ ccmp_iv pn ++ [0xaa; 0xaa; 0x03; 0; 0; 0; u8 (et >> 8); u8 et].

Definition txEthFrame (pkt : list Z) (e : eth) : prog eth :=
  let g := e_geo e in
  let ethlen := Z.of_nat (length pkt) in
  if ethlen <? 14 then mret e else
  let dst := take 6 pkt in
  let et := (nth 12 pkt 0 << 8) .| nth 13 pkt 0 in
  let plen := ethlen - 14 in
  let airlen := u32 (26 + 8 + 8 + plen) in
  if fTxSlotSz g <? u32 (fDescSz g + airlen) then mret e else
  '(slot, next, full) ← be_reserve e;
  if full : bool then mret (set_dcnt (count_drop (e_cnt e)) e) else
  let e := set_dcnt (count_tx plen (e_cnt e)) e in
  let buf := slot * fTxSlotSz g in
  let bufpa := u64 (fTxPoolPa g + slot * fTxSlotSz g) in
  let body := buf + fDescSz g in
  let pn := fCcmpPn e in
  pool_write g body (air_head (e_link e) dst pn et);;
  pool_write g (body + 42) (drop 14 pkt);;
  pool_set g buf (fDescSz g) 0;;
  pool_write g buf (le32 ((airlen .& 0xffff) .| u32 ((fDescSz g .& 0xff) << KTX_W0_OFFSET_SHIFT) .| KTX_W0_LS));;
  pool_write g (buf + 4) (le32 (u32 (3 << KTX_W1_SECTYPE_SHIFT) .| u32 (fRateId (e_link e) << KTX_W1_RATEID_SHIFT)));;
  pool_write g (buf + 16) (le32 (fRate (e_link e) .& 0x7f));;
  pool_write g (buf + 32) (le32 KTX_W8_EN_HWSEQ);;
  be_post g slot next airlen bufpa;;
  mret (set_wp next (u64 (pn + 1)) e).

Definition txAction (frame : list Z) (e : eth) : prog eth :=
  let g := e_geo e in
  let flen := Z.of_nat (length frame) in
  if negb (fRunning e) || (flen <? 24) || (fTxSlotSz g <? u32 (fDescSz g + flen)) then mret e else
  '(slot, next, full) ← be_reserve e;
  if full : bool then mret e else
  let buf := slot * fTxSlotSz g in
  let bufpa := u64 (fTxPoolPa g + slot * fTxSlotSz g) in
  pool_write g (buf + fDescSz g) frame;;
  pool_set g buf (fDescSz g) 0;;
  pool_write g buf (le32 ((flen .& 0xffff) .| u32 ((fDescSz g .& 0xff) << KTX_W0_OFFSET_SHIFT) .| KTX_W0_LS));;
  pool_write g (buf + 4) (le32 0);;
  pool_write g (buf + 12) (le32 (KTX_W3_USE_RATE .| KTX_W3_DISDATAFB));;
  pool_write g (buf + 16) (le32 0x04);;
  pool_write g (buf + 32) (le32 KTX_W8_EN_HWSEQ);;
  be_post g slot next flen bufpa;;
  mret (set_wp next (fCcmpPn e) e).

(** A packet from the stack: its bytes, and whether they can be copied out. *)
Definition outputPacket (m : list Z) (copied : bool) (e : eth) : prog eth :=
  let len := Z.of_nat (length m) in
  if fDataMode e && fRunning e && (14 <=? len) && (len <=? 1614) && copied then txEthFrame m e else mret e.
Definition enable (e : eth) : eth := set_running true e.
Definition disable (e : eth) : eth := set_running false e.

(** ** Receiving *)

(** What the rest of the kernel answers during one pass: whether a reorder buffer
    can be had, whether a packet can be had and filled, the two clocks, and at
    which check of the drain the stop flag is first seen. *)
Record kenv := KEnv { k_alloc : bool; k_packet : list Z -> bool * bool; k_now : Z; k_dig_now : Z; k_health_now : Z; k_stop : nat -> bool }.

Definition rx_output (k : kenv) (o : rx_out) (e : eth) : prog (eth * list (list Z)) :=
  match o with
  | TxFrame r => e ← txAction r e; mret (e, [])
  | ToStack d =>
      let '(alloc, filled) := k_packet k d in
      match inputEth (fRunning e) (fNetif e) alloc filled d with
      | Some p => mret (set_flush true e, [p])
      | None => mret (e, [])
      end
  end.
Fixpoint rx_outputs (k : kenv) (l : list rx_out) (e : eth) : prog (eth * list (list Z)) :=
  match l with
  | [] => mret (e, [])
  | o :: l => '(e, a) ← rx_output k o e; '(e, b) ← rx_outputs k l e; mret (e, a ++ b)
  end.
(** A step of the receive state and its outputs; undefined behaviour faults. *)
Definition rx_do (k : kenv) (r : option (rx_state * list rx_out)) (e : eth) : prog (eth * list (list Z)) :=
  match r with
  | None => fault;; mret (e, [])
  | Some (st, out) => rx_outputs k out (set_rx st e)
  end.

Definition rx32 (g : geometry) (off : Z) : prog Z :=
  b ← mem_read (fRxData g) off 4; mret (word32 b.[0%nat] b.[1%nat] b.[2%nat] b.[3%nat]).

Definition rx_slot (k : kenv) (e : eth) : prog (eth * list (list Z)) :=
  let g := e_geo e in
  let buf := fRxRp e * fRxBufSz g in
  w0 ← rx32 g buf;
  let pkt_len := w0 .& 0x3fff in
  let drv := (w0 >> 16) .& 0xf in
  let shift := (w0 >> 24) .& 0x3 in
  '(e, out) ←
    (if nz (w0 .& (u32 (1 << 14) .| u32 (1 << 15))) then mret (set_dcnt (count_err (e_cnt e)) e, [])
     else if (24 <=? pkt_len) && (pkt_len <=? fRxBufSz g) then
       w3 ← rx32 g (buf + 12);
       let e := set_dcnt (count_rx (w3 .& 0x7f) pkt_len (e_cnt e)) e in
       let off := u32 (fRxDescSz g + shift + drv * 8) in
       if u32 (off + pkt_len) <=? fRxBufSz g then
         f ← mem_read (fRxData g) (buf + off) pkt_len;
         rx_do k (rxFrame (fBssid (e_link e)) (fMac (e_link e)) (k_alloc k) (k_now k) f (e_rx e)) e
       else mret (e, [])
     else mret (e, []));
  rp ← umod (fRxRp e + 1) (fRxN g);
  mret (set_rp rp e, out).

(** [while (fRxRp != hw && !fRxStop)]; more slots than the ring has, and the loop
    never meets [hw]. *)
Fixpoint rx_slots (fuel : nat) (k : kenv) (hw : Z) (i : nat) (e : eth) : prog (eth * list (list Z) * bool) :=
  if (fRxRp e =? hw) || k_stop k i then mret (e, [], nz (Z.of_nat i)) else
  match fuel with
  | O => act Hang;; mret (e, [], true)
  | S fuel =>
      '(e, a) ← rx_slot k e;
      '(e, b, got) ← rx_slots fuel k hw (S i) e;
      mret (e, a ++ b, got)
  end.

(** ** The receiver's gain *)

Definition DIG_TARGET : Z := 0x32.
Definition dig_next (fa igi : Z) : Z :=
  let igi :=
    if (750 <? fa) && (igi <? 0x3e) then u32 (igi + 2)
    else if (250 <? fa) && (igi <? 0x3e) then u32 (igi + 1)
    else if DIG_TARGET <? igi then igi - 1
    else if igi <? DIG_TARGET then u32 (igi + 1) else igi in
  if 0x3e <? igi then 0x3e else igi.
Definition dig_step (k : kenv) (e : eth) : prog eth :=
  let d := e_dig e in
  igi ← (if fDigInit d then mret (fDigIgi d) else v ← hw_read32 0xc50; mret (v .& 0x7f));
  if negb (2000000000 <? u64 (k_dig_now k - fDigLastNs d)) then mret (set_dig (Dig true (fDigIgi d) (fDigLastNs d) (gDigFa d) (gDigIgi d)) e) else
  v ← hw_read32 0x0f48;
  let fa := v .& 0xffff in
  fas ← hw_read32 0x09a4;
  hw_write32 0x09a4 (fas .| u32 (1 << 17));;
  hw_write32 0x09a4 (fas .& .~ (u32 (1 << 17)));;
  let igi := dig_next fa igi in
  w ← hw_read32 0xc50;
  hw_write32 0xc50 ((w .& .~ 0x7f) .| (igi .& 0x7f));;
  mret (set_dig (Dig true igi (k_dig_now k) fa igi) e).

(** One turn of the poll loop; [idle]: empty turns in a row. *)
Definition rx_pass (k : kenv) (idle : Z) (e : eth) : prog (eth * list (list Z) * Z) :=
  let g := e_geo e in
  v ← hw_read32 RTK_PCI_RXBD_IDX_MPDUQ_K;
  let hw := (v >> 16) .& 0xfff in
  depth ← umod (hw - fRxRp e + fRxN g) (fRxN g);
  let e := set_dcnt (count_depth depth (u32 (fRxN g - 2) <=? depth) (e_cnt e)) e in
  '(e, a, got) ← rx_slots (S (Z.to_nat (fRxN g))) k hw 0 e;
  (if got : bool then hw_write16 RTK_PCI_RXBD_IDX_MPDUQ_K (fRxRp e .& 0xfff) else mret tt);;
  '(e, b) ← rx_do k (reorderTimeoutAll (k_now k) (e_rx e)) e;
  let e : eth := if fPendingFlush e && fRunning e && fNetif e then set_flush false e else e in
  e ← dig_step k e;
  let e : eth := if 10000000000 <? u64 (k_health_now k - fHealthLastNs e) then
             Eth (e_geo e) (e_link e) (fRunning e) (fNetif e) (fDataMode e) (fRxStop e) (fRxDone e) (fBeWp e) (fRxRp e) (fCcmpPn e) (e_dig e) (k_health_now k) (e_rx e) (fPendingFlush e) (e_cnt e)
           else e in
  let idle := if (got : bool) then 0 else u32 (idle + 1) in
  (if got then mret tt else if idle <? 20 then udelay 50 else mdelay 1);;
  mret (e, a ++ b, idle).

(** ** Start and stop *)

Record data_cfg := DataCfg' { dc_mac : list Z; dc_bssid : list Z; dc_rate : Z; dc_rate_id : Z; dc_rings : rtw_data_cfg }.

(** The checks on the geometry, and the buffers it names. *)
Definition cfg_check (b : bridge) (c : rtw_data_cfg) : option (dma * dma * dma) :=
  if (cfg_bd_sz c <? 16) || (cfg_desc_sz c <? 36) || (64 <? cfg_desc_sz c) then None else
  if (cfg_be_len c =? 0) || (4096 <? cfg_be_len c) || (cfg_rx_nslots c =? 0) || (4096 <? cfg_rx_nslots c) then None else
  if (64 <? cfg_rx_desc_sz c) || (cfg_rx_buf_size c <? u32 (cfg_rx_desc_sz c + 24)) then None else
  txbd ← dmaResolve b (cfg_txbd_handle c);
  if d_size txbd <? u64 (cfg_txbd_be_off c + cfg_be_len c * cfg_bd_sz c) then None else
  rx ← dmaResolve b (cfg_rxdata_handle c);
  if d_size rx <? u64 (cfg_rx_nslots c * cfg_rx_buf_size c) then None else
  pool ← dmaResolve b (cfg_txpool_handle c);
  if d_size pool <? u64 (cfg_be_len c * RTW_ETH_SLOT_SIZE) then None else Some (txbd, rx, pool).

(** [thread]: whether the poll thread can be started. *)
Definition startData (b : bridge) (c : data_cfg) (thread : bool) (e : eth) : prog (option eth) :=
  if negb (fMmio b) then mret None else
  let r := dc_rings c in
  match cfg_check b r with
  | None => mret None
  | Some (txbd, rx, pool) =>
      let g := Geometry (d_handle txbd, cfg_txbd_be_off r) (cfg_be_len r) (cfg_bd_sz r) (cfg_desc_sz r)
        (d_handle rx) (cfg_rx_nslots r) (cfg_rx_buf_size r) (cfg_rx_desc_sz r)
        (Some (d_handle pool)) (d_paddr pool) RTW_ETH_SLOT_SIZE in
      v ← hw_read32 RTK_PCI_TXBD_IDX_BEQ_K;
      wp ← umod (v .& 0xfff) (fBeLen g);
      v ← hw_read32 RTK_PCI_RXBD_IDX_MPDUQ_K;
      rp ← umod ((v >> 16) .& 0xfff) (fRxN g);
      let off (t : ReorderTid) := Tid false false (rt_head t) (rt_win t) 0 None (rt_len t) (rt_t_ns t) (rt_occ t) in
      let rs := RxState (map off (fBa (e_rx e))) (rx_parse (e_rx e)) (rx_reord (e_rx e)) (rx_cnt (e_rx e)) in
      if negb thread then mret None else
      mret (Some (Eth g (LinkParams (dc_mac c) (dc_bssid c) (dc_rate c) (if nz (dc_rate_id c) then dc_rate_id c else 7))
        (fRunning e) (fNetif e) true false false wp rp 1 (Dig false 0x20 0 (gDigFa (e_dig e)) (gDigIgi (e_dig e))) 0 rs false (e_cnt e)))
  end.

(** The wait for the poll thread: [done_at] is the nap after which it has exited,
    if it ever does. *)
Fixpoint stop_wait (n : nat) (i : nat) (done_at : option nat) : prog bool :=
  let done := match done_at with Some k => (k <=? i)%nat | None => false end in
  match n with
  | O => mret done
  | S n => if done : bool then mret true else mdelay 5;; stop_wait n (S i) done_at
  end.
Definition stopData (done_at : option nat) (e : eth) : prog (bool * eth) :=
  if negb (fDataMode e) then mret (true, e) else
  done ← stop_wait 2000 0 done_at;
  let g := e_geo e in
  let g := Geometry (fBeBd g) (fBeLen g) (fBdSz g) (fDescSz g) (fRxData g) (fRxN g) (fRxBufSz g) (fRxDescSz g) None (fTxPoolPa g) (fTxSlotSz g) in
  mret (done, Eth g (e_link e) (fRunning e) (fNetif e) false true done (fBeWp e) (fRxRp e) (fCcmpPn e) (e_dig e) (fHealthLastNs e)
    (if done : bool then reorderFreeAll (e_rx e) else e_rx e) (fPendingFlush e) (e_cnt e)).

(** ** Every access is inside the buffers the geometry names *)

Record geo_ok (m : gmap Z Z) (g : geometry) : Prop := {
  go_bd : exists n, m !! (fBeBd g).1 = Some n /\ 0 <= (fBeBd g).2 /\ (fBeBd g).2 + fBeLen g * fBdSz g <= n;
  go_len : 0 < fBeLen g <= 4096; go_bdsz : 16 <= fBdSz g; go_desc : 36 <= fDescSz g <= 64;
  go_rx : exists n, m !! fRxData g = Some n /\ fRxN g * fRxBufSz g <= n; go_rxn : 0 < fRxN g <= 4096;
  go_rxd : 0 <= fRxDescSz g <= 64; go_buf : fRxDescSz g + 24 <= fRxBufSz g < 2 ^ 32;
  go_pool : exists h n, fTxPoolV g = Some h /\ m !! h = Some n /\ fBeLen g * RTW_ETH_SLOT_SIZE <= n;
  go_slot : fTxSlotSz g = RTW_ETH_SLOT_SIZE;
}.
Record eth_live (m : gmap Z Z) (e : eth) : Prop := {
  el_geo : geo_ok m (e_geo e);
  el_wp : 0 <= fBeWp e < fBeLen (e_geo e);
  el_rp : 0 <= fRxRp e < fRxN (e_geo e);
  el_rx : rx_ok (e_rx e);
  el_mac : length (fMac (e_link e)) = 6%nat /\ length (fBssid (e_link e)) = 6%nat;
}.

Lemma ms_seq {A B} (p : prog A) (f : A -> prog B) m Q :
  mem_safe p m (fun _ m' => m' = m) -> (forall x, mem_safe (f x) m Q) -> mem_safe (p ≫= f) m Q.
Proof. intros Hp Hf. eapply mem_safe_bind; [apply Hp|]. intros x m' ->. apply Hf. Qed.
Lemma ms_read off m (Q : Z -> gmap Z Z -> Prop) : (forall v, 0 <= v < 2 ^ 32 -> Q v m) -> mem_safe (hw_read32 off) m Q.
Proof.
  intros HQ. eapply mem_safe_mono; [apply (mem_safe_regs _ m (fun v => 0 <= v < 2 ^ 32))|intros v m' [-> Hv]; by apply HQ].
  unfold hw_read32. apply safe_act; [done|]. intros r. apply safe_ret. by apply wrap_range.
Qed.
Lemma umod_safe a n m : 0 < n -> mem_safe (umod a n) m (fun r m' => m' = m /\ r = u32 a mod n).
Proof. intros Hn. unfold umod. destruct (Z.eqb_spec n 0); [lia|]. by apply mem_safe_ret. Qed.

Lemma slot_in n slot k : 0 <= slot < n -> 0 <= k -> slot * k + k <= n * k.
Proof. nia. Qed.
Lemma pool_write_safe m g slot o bs : geo_ok m g -> 0 <= slot < fBeLen g -> 0 <= o -> o + Z.of_nat (length bs) <= 2048 ->
  mem_safe (pool_write g (slot * fTxSlotSz g + o) bs) m (fun _ m' => m' = m).
Proof.
  intros Hg Hs H1 H2. unfold pool_write. destruct (go_pool _ _ Hg) as (h & n & -> & Hm & Hn). rewrite (go_slot _ _ Hg). unfold RTW_ETH_SLOT_SIZE in *.
  apply mem_safe_memwrite. pose proof (slot_in (fBeLen g) slot 2048 Hs ltac:(lia)). eapply in_buf_true; [done|lia|lia|lia].
Qed.
Lemma pool_set_safe m g slot k v : geo_ok m g -> 0 <= slot < fBeLen g -> 0 <= k <= 2048 ->
  mem_safe (pool_set g (slot * fTxSlotSz g) k v) m (fun _ m' => m' = m).
Proof.
  intros Hg Hs H1. unfold pool_set. destruct (go_pool _ _ Hg) as (h & n & -> & Hm & Hn). rewrite (go_slot _ _ Hg). unfold RTW_ETH_SLOT_SIZE in *.
  pose proof (slot_in (fBeLen g) slot 2048 Hs ltac:(lia)).
  apply (mem_safe_set (Dma h 0 true n)); [done|]. eapply in_buf_true; [done|lia|lia|lia].
Qed.
Lemma bd_put_safe m g slot o bs : geo_ok m g -> 0 <= slot < fBeLen g -> 0 <= o -> o + Z.of_nat (length bs) <= 16 ->
  mem_safe (bd_put g (slot * fBdSz g + o) bs) m (fun _ m' => m' = m).
Proof.
  intros Hg Hs H1 H2. unfold bd_put. destruct (go_bd _ _ Hg) as (n & Hm & H0 & Hn). pose proof (go_bdsz _ _ Hg).
  pose proof (slot_in (fBeLen g) slot (fBdSz g) Hs ltac:(lia)). apply mem_safe_memwrite. eapply in_buf_true; [done|nia|lia|lia].
Qed.

Lemma be_reserve_safe m e : geo_ok m (e_geo e) ->
  mem_safe (be_reserve e) m (fun r m' => m' = m /\ r.1.1 = fBeWp e /\ 0 <= r.1.2 < fBeLen (e_geo e)).
Proof.
  intros Hg. unfold be_reserve. pose proof (go_len _ _ Hg). eapply mem_safe_bind; [apply umod_safe; lia|]. intros nx m' [-> ->].
  eapply mem_safe_bind; [apply (ms_read _ m (fun _ m' => m' = m)); done|]. intros v m' ->.
  eapply mem_safe_bind; [apply umod_safe; lia|]. intros hw m' [-> _]. apply mem_safe_ret. split; [done|]. split; [done|]. cbn. apply Z.mod_pos_bound. lia.
Qed.
Lemma be_post_safe m g slot next len pa : geo_ok m g -> 0 <= slot < fBeLen g -> mem_safe (be_post g slot next len pa) m (fun _ m' => m' = m).
Proof.
  intros Hg Hs. unfold be_post. cbv zeta. rewrite <- (Z.add_0_r (slot * fBdSz g)) at 1.
  do 6 (apply ms_seq; [apply bd_put_safe; [done|done|lia|cbn; lia]|intros _]).
  eapply mem_safe_mono; [by apply mem_safe_regs, (safe_op no_mem (Write W16 _ _) (fun _ => True))|]. by intros [] m' [-> _].
Qed.

Lemma live_wp m e wp pn : eth_live m e -> 0 <= wp < fBeLen (e_geo e) -> eth_live m (set_wp wp pn e).
Proof. intros [H1 H2 H3 H4 H5] Hw. by split. Qed.
Lemma live_cnt m e c : eth_live m e -> eth_live m (set_dcnt c e).
Proof. intros [H1 H2 H3 H4 H5]. by split. Qed.
Lemma live_rx m e r : eth_live m e -> rx_ok r -> eth_live m (set_rx r e).
Proof. intros [H1 H2 H3 H4 H5] Hr. by split. Qed.
Lemma live_rp m e p : eth_live m e -> 0 <= p < fRxN (e_geo e) -> eth_live m (set_rp p e).
Proof. intros [H1 H2 H3 H4 H5] Hr. by split. Qed.
Lemma live_flush m e b : eth_live m e -> eth_live m (set_flush b e).
Proof. intros [H1 H2 H3 H4 H5]. by split. Qed.
Lemma live_dig m e d : eth_live m e -> eth_live m (set_dig d e).
Proof. intros [H1 H2 H3 H4 H5]. by split. Qed.

(** A frame still goes where it is live: same rings, same poll position. *)
Definition same_rings (e e' : eth) : Prop := e_geo e' = e_geo e /\ fRxRp e' = fRxRp e /\ e_link e' = e_link e.
Lemma same_refl e : same_rings e e.
Proof. done. Qed.
Lemma same_trans e1 e2 e3 : same_rings e1 e2 -> same_rings e2 e3 -> same_rings e1 e3.
Proof. intros (A1 & A2 & A3) (B1 & B2 & B3). split_and!; congruence. Qed.

Lemma air_head_len l dst pn et : length (fMac l) = 6%nat -> length (fBssid l) = 6%nat -> length dst = 6%nat -> length (air_head l dst pn et) = 42%nat.
Proof. intros H1 H2 H3. unfold air_head. rewrite !length_app, H1, H2, H3. done. Qed.

Lemma txEthFrame_safe m e pkt : eth_live m e -> Z.of_nat (length pkt) <= 1614 ->
  mem_safe (txEthFrame pkt e) m (fun e' m' => m' = m /\ eth_live m e' /\ same_rings e e').
Proof.
  intros He Hp. unfold txEthFrame. cbv zeta. destruct (Z.ltb_spec (Z.of_nat (length pkt)) 14); [by apply mem_safe_ret|].
  destruct He as [Hg Hwp Hrp Hrx [Hmac Hbss]] eqn:EE. clear EE. pose proof (go_desc _ _ Hg) as Hd. pose proof (go_slot _ _ Hg) as Hsl.
  rewrite !(wrap_small 32 (26 + 8 + 8 + (Z.of_nat (length pkt) - 14))) by (change (2 ^ 32) with 4294967296; lia).
  rewrite (wrap_small 32 (fDescSz (e_geo e) + _)) by (change (2 ^ 32) with 4294967296; lia).
  destruct (Z.ltb_spec (fTxSlotSz (e_geo e)) (fDescSz (e_geo e) + (26 + 8 + 8 + (Z.of_nat (length pkt) - 14)))); [by apply mem_safe_ret|].
  rewrite Hsl in *. unfold RTW_ETH_SLOT_SIZE in *.
  eapply mem_safe_bind; [by apply be_reserve_safe|]. intros [[slot next] full] m' (-> & Hslot & Hn). cbn [fst snd] in Hslot, Hn. subst slot.
  destruct full; [by apply mem_safe_ret|].
  set (g := e_geo e) in *. cbn [set_dcnt e_link fCcmpPn]. rewrite <- Hsl.
  assert (Hdst : length (take 6 pkt) = 6%nat) by (rewrite length_take; lia).
  apply ms_seq; [apply pool_write_safe; [done|done|lia|rewrite air_head_len by done; lia]|intros _].
  rewrite <- (Z.add_assoc (fBeWp e * fTxSlotSz g) (fDescSz g) 42).
  apply ms_seq; [apply pool_write_safe; [done|done|lia|rewrite length_drop; lia]|intros _].
  apply ms_seq; [apply pool_set_safe; [done|done|lia]|intros _].
  rewrite <- (Z.add_0_r (fBeWp e * fTxSlotSz g)) at 1.
  do 4 (apply ms_seq; [apply pool_write_safe; [done|done|lia|cbn; lia]|intros _]).
  apply ms_seq; [by apply be_post_safe|intros _]. apply mem_safe_ret. split; [done|]. split; [by apply live_wp|done].
Qed.

Lemma txAction_safe m e frame : eth_live m e -> Z.of_nat (length frame) <= 1614 ->
  mem_safe (txAction frame e) m (fun e' m' => m' = m /\ eth_live m e' /\ same_rings e e').
Proof.
  intros He Hp. unfold txAction. cbv zeta. destruct He as [Hg Hwp Hrp Hrx Hma] eqn:EE. clear EE.
  pose proof (go_desc _ _ Hg) as Hd. pose proof (go_slot _ _ Hg) as Hsl. rewrite (wrap_small 32 (fDescSz (e_geo e) + _)) by (change (2 ^ 32) with 4294967296; lia).
  rewrite Hsl. unfold RTW_ETH_SLOT_SIZE.
  destruct (negb (fRunning e) || (Z.of_nat (length frame) <? 24) || (2048 <? fDescSz (e_geo e) + Z.of_nat (length frame))) eqn:Ef; [by apply mem_safe_ret|].
  apply orb_false_elim in Ef as [_ Ef%Z.ltb_ge].
  eapply mem_safe_bind; [by apply be_reserve_safe|]. intros [[slot next] full] m' (-> & Hslot & Hn). cbn [fst snd] in Hslot, Hn. subst slot.
  destruct full; [by apply mem_safe_ret|]. set (g := e_geo e) in *. change 2048 with RTW_ETH_SLOT_SIZE. rewrite <- Hsl.
  apply ms_seq; [apply pool_write_safe; [done|done|lia|lia]|intros _].
  apply ms_seq; [apply pool_set_safe; [done|done|lia]|intros _].
  rewrite <- (Z.add_0_r (fBeWp e * fTxSlotSz g)) at 1.
  do 5 (apply ms_seq; [apply pool_write_safe; [done|done|lia|cbn; lia]|intros _]).
  apply ms_seq; [by apply be_post_safe|intros _]. apply mem_safe_ret. split; [done|]. split; [by apply live_wp|done].
Qed.

(** *** Receiving *)

Abbreviation live_in m e := (fun (r : eth * list (list Z)) m' => m' = m /\ eth_live m r.1 /\ same_rings e r.1).

Lemma rx_output_safe m k o e : eth_live m e -> out_ok o -> mem_safe (rx_output k o e) m (live_in m e).
Proof.
  intros He Ho. destruct o as [d|r]; cbn [rx_output].
  - destruct (k_packet k d) as [al fi]. destruct (inputEth _ _ _ _ _); apply mem_safe_ret; [split; [done|]; split; [by apply live_flush|done]|done].
  - eapply mem_safe_bind; [apply (txAction_safe m); [done|cbn in Ho; unfold f_len in Ho; lia]|]. intros e' m' (-> & He' & Hs). by apply mem_safe_ret.
Qed.
Lemma rx_outputs_safe m k l : forall e, eth_live m e -> Forall out_ok l -> mem_safe (rx_outputs k l e) m (live_in m e).
Proof.
  induction l as [|o l IH]; intros e He Hl; cbn [rx_outputs]; [by apply mem_safe_ret|]. apply Forall_cons_1 in Hl as [Ho Hl].
  eapply mem_safe_bind; [by apply rx_output_safe|]. intros [e1 a] m' (-> & He1 & Hs1). cbn [fst] in *.
  eapply mem_safe_bind; [by apply IH|]. intros [e2 b] m' (-> & He2 & Hs2). cbn [fst] in *. apply mem_safe_ret.
  split; [done|]. split; [done|]. by eapply same_trans.
Qed.
Lemma rx_do_safe m k r e : eth_live m e -> (exists st out, r = Some (st, out) /\ rx_ok st /\ Forall out_ok out) -> mem_safe (rx_do k r e) m (live_in m e).
Proof.
  intros He (st & out & -> & Hst & Hout). cbn [rx_do]. eapply mem_safe_mono; [apply (rx_outputs_safe m); [by apply live_rx|done]|].
  intros [e' a] m' (-> & He' & Hs). done.
Qed.

Lemma rx32_safe m g slot o : geo_ok m g -> 0 <= slot < fRxN g -> 0 <= o -> o + 4 <= fRxBufSz g ->
  mem_safe (rx32 g (slot * fRxBufSz g + o)) m (fun v m' => m' = m /\ 0 <= v < 2 ^ 32).
Proof.
  intros Hg Hs H1 H2. unfold rx32. destruct (go_rx _ _ Hg) as (n & Hm & Hn). pose proof (slot_in (fRxN g) slot (fRxBufSz g) Hs ltac:(pose proof (go_buf _ _ Hg); pose proof (go_rxd _ _ Hg); lia)).
  eapply mem_safe_bind; [apply mem_safe_read; eapply in_buf_true; [done|nia|lia|lia]|]. intros bs m' (-> & Hl & Hok). apply mem_safe_ret. split; [done|].
  destruct bs as [|b0 [|b1 [|b2 [|b3 [|]]]]]; try done. unfold bytes_ok in Hok. rewrite !Forall_cons_iff in Hok. apply word32_range; tauto.
Qed.

Lemma rx_slot_safe m k e : eth_live m e ->
  mem_safe (rx_slot k e) m (fun r m' => m' = m /\ eth_live m r.1 /\ e_geo r.1 = e_geo e /\ fRxRp r.1 = (fRxRp e + 1) mod fRxN (e_geo e)).
Proof.
  intros He. unfold rx_slot. cbv zeta. destruct He as [Hg Hwp Hrp Hrx [Hma Hbs]] eqn:EE. clear EE.
  pose proof (go_buf _ _ Hg) as Hb. pose proof (go_rxd _ _ Hg) as Hrd. pose proof (go_rxn _ _ Hg) as Hrn.
  eapply mem_safe_bind; [rewrite <- (Z.add_0_r (_ * _)); apply (rx32_safe m); [done|done|lia|lia]|]. intros w0 m' [-> Hw0].
  eapply (mem_safe_bind _ _ _ (live_in m e)).
  - destruct (nz _); [apply mem_safe_ret; split; [done|]; split; [by apply live_cnt|done]|].
    destruct ((24 <=? w0 .& 0x3fff) && (w0 .& 0x3fff <=? fRxBufSz (e_geo e))) eqn:Ep; [|by apply mem_safe_ret].
    apply andb_prop in Ep as [E1%Z.leb_le E2%Z.leb_le].
    eapply mem_safe_bind; [apply (rx32_safe m); [done|done|lia|lia]|]. intros w3 m' [-> _].
    pose proof (land_ones_range 14 w0 ltac:(lia)) as R1. pose proof (land_ones_range 2 (w0 >> 24) ltac:(lia)) as R2. pose proof (land_ones_range 4 (w0 >> 16) ltac:(lia)) as R3.
    change (Z.ones 14) with 0x3fff in R1. change (Z.ones 2) with 0x3 in R2. change (Z.ones 4) with 0xf in R3. change (2 ^ 14) with 16384 in R1. change (2 ^ 2) with 4 in R2. change (2 ^ 4) with 16 in R3.
    rewrite !(wrap_small 32 (fRxDescSz _ + _ + _)) by (change (2 ^ 32) with 4294967296; lia).
    rewrite (wrap_small 32 (_ + w0 .& 0x3fff)) by (change (2 ^ 32) with 4294967296; lia).
    match goal with |- context [if ?a <=? ?b then _ else _] => destruct (Z.leb_spec a b) as [El|El] end; [|apply mem_safe_ret; split; [done|]; split; [by apply live_cnt|done]].
    eapply mem_safe_bind.
    { destruct (go_rx _ _ Hg) as (n & Hm & Hn). pose proof (slot_in (fRxN (e_geo e)) (fRxRp e) (fRxBufSz (e_geo e)) Hrp ltac:(lia)).
      apply mem_safe_read. eapply in_buf_true; [done|nia|lia|lia]. }
    intros f m' (-> & Hf & Hok). eapply mem_safe_mono; [apply (rx_do_safe m); [by apply live_cnt|]|intros [e' a] m' (-> & He' & Hs); done].
    apply rxFrame_total; [done|done|done|unfold f_len; rewrite Hf; lia|done].
  - intros [e1 out] m' (-> & He1 & (S1 & S2 & S3)). cbn [fst] in *. eapply mem_safe_bind; [apply umod_safe; lia|]. intros rp m' [-> ->]. apply mem_safe_ret.
    assert (Hmod : u32 (fRxRp e + 1) mod fRxN (e_geo e) = (fRxRp e + 1) mod fRxN (e_geo e)) by (rewrite wrap_small; [done|change (2 ^ 32) with 4294967296; lia]).
    cbn [fst]. rewrite S2, Hmod. split; [done|]. split; [apply live_rp; [done|rewrite S1; apply Z.mod_pos_bound; lia]|]. split; [exact S1|done].
Qed.

(** The chip's index is inside the ring. *)
Abbreviation in_ring e := (mem_safe_if (idx_ok (fRxN (e_geo e)))).

Lemma rx_slots_safe m k hw : forall fuel i e, eth_live m e -> 0 <= hw < fRxN (e_geo e) -> (ring_dist (fRxN (e_geo e)) (fRxRp e) hw <= fuel)%nat ->
  mem_safe (rx_slots fuel k hw i e) m (fun r m' => m' = m /\ eth_live m r.1.1 /\ e_geo r.1.1 = e_geo e).
Proof.
  induction fuel as [|fuel IH]; intros i e He Hh Hf; cbn [rx_slots]; (destruct ((fRxRp e =? hw) || k_stop k i) eqn:E; [by apply mem_safe_ret|]);
    apply orb_false_elim in E as [E%Z.eqb_neq _].
  - exfalso. apply E, (ring_dist_zero (fRxN (e_geo e))); [apply He|done|lia].
  - eapply mem_safe_bind; [by apply rx_slot_safe|]. intros [e1 a] m' (-> & He1 & Hg1 & Hp1). cbn [fst] in *.
    rewrite (ring_dist_next _ _ _ (el_rp _ _ He) Hh E) in Hf. rewrite <- Hp1, <- Hg1 in Hf.
    eapply mem_safe_bind; [apply IH; [done|by rewrite Hg1|lia]|]. intros [[e2 b] got] m' (-> & He2 & Hg2). cbn [fst] in *. apply mem_safe_ret. cbn [fst].
    split; [done|]. split; [done|congruence].
Qed.

Lemma dig_step_safe m k e : eth_live m e -> mem_safe (dig_step k e) m (fun e' m' => m' = m /\ eth_live m e' /\ e_geo e' = e_geo e).
Proof.
  intros He. unfold dig_step. cbv zeta. eapply mem_safe_bind; [instantiate (1 := fun _ m' => m' = m)|].
  { destruct (fDigInit _); [by apply mem_safe_ret|]. apply ms_seq; [by apply ms_read|]. intros v. by apply mem_safe_ret. }
  intros igi m' ->. destruct (negb _); [apply mem_safe_ret; split; [done|]; split; [by apply live_dig|done]|].
  assert (Hw : forall a v, mem_safe (hw_write32 a v) m (fun _ m' => m' = m)).
  { intros a v. eapply mem_safe_mono; [by apply mem_safe_regs, (safe_op no_mem (Write W32 _ _) (fun _ => True))|]. by intros [] m' [-> _]. }
  apply ms_seq; [by apply ms_read|intros v]. apply ms_seq; [by apply ms_read|intros fas].
  do 2 (apply ms_seq; [apply Hw|intros _]). apply ms_seq; [by apply ms_read|intros w]. apply ms_seq; [apply Hw|intros _].
  apply mem_safe_ret. split; [done|]. split; [by apply live_dig|done].
Qed.

Lemma umod_range a n m : 0 < n -> mem_safe (umod a n) m (fun r m' => m' = m /\ 0 <= r < n).
Proof. intros Hn. eapply mem_safe_mono; [by apply umod_safe|]. intros r m' [-> ->]. split; [done|]. by apply Z.mod_pos_bound. Qed.

Lemma rx_pass_safe m k idle e : eth_live m e ->
  in_ring e (rx_pass k idle e) m (fun r m' => m' = m /\ eth_live m r.1.1 /\ e_geo r.1.1 = e_geo e).
Proof.
  intros He. unfold rx_pass. cbv zeta. pose proof (go_rxn _ _ (el_geo _ _ He)) as Hrn.
  eapply (mem_safe_if_bind _ _ _ _ (fun v m' => m' = m /\ 0 <= (v >> 16) .& 0xfff < fRxN (e_geo e))).
  { unfold hw_read32. eapply mem_safe_if_bind; [by apply (mem_safe_if_act (idx_ok (fRxN (e_geo e))) (Read W32 RTK_PCI_RXBD_IDX_MPDUQ_K))|].
    intros r m' [-> Hr]. apply mem_safe_if_ret. split; [done|]. cbn [idx_ok] in Hr. change (RTK_PCI_RXBD_IDX_MPDUQ_K =? RTK_PCI_RXBD_IDX_MPDUQ) with true in Hr.
    apply Z.ltb_lt in Hr. pose proof (land_ones_range 12 (u32 r >> 16) ltac:(lia)) as Hl. change (Z.ones 12) with 0xfff in Hl. lia. }
  intros v m' [-> Hv]. set (hw := (v >> 16) .& 0xfff) in *. apply mem_safe_if_lift.
  eapply mem_safe_bind; [apply umod_safe; lia|]. intros depth m' [-> _]. set (e1 := set_dcnt _ e). assert (He1 : eth_live m e1) by by apply live_cnt.
  eapply mem_safe_bind; [apply (rx_slots_safe m); [done|done|]|].
  { pose proof (ring_dist_lt (fRxN (e_geo e1)) (fRxRp e1) hw ltac:(cbn; lia)). cbn in *. lia. }
  intros [[e2 a] got] m' (-> & He2 & Hg2). cbn [fst] in *.
  apply ms_seq; [destruct got; [|by apply mem_safe_ret]; eapply mem_safe_mono; [by apply mem_safe_regs, (safe_op no_mem (Write W16 _ _) (fun _ => True))|]; by intros [] m' [-> _]|intros _].
  eapply mem_safe_bind; [apply (rx_do_safe m); [done|apply timeout_all_total, (el_rx _ _ He2)]|]. intros [e3 b] m' (-> & He3 & Hs3). cbn [fst] in *.
  set (e4 := if _ && _ && _ then _ else e3). assert (He4 : eth_live m e4 /\ e_geo e4 = e_geo e3) by (unfold e4; destruct (_ && _); [split; [by apply live_flush|done]|done]).
  clearbody e4. eapply mem_safe_bind; [apply (dig_step_safe m), He4|]. intros e5 m' (-> & He5 & Hg5).
  set (e6 := if _ <? _ then _ else e5). assert (He6 : eth_live m e6 /\ e_geo e6 = e_geo e5) by (unfold e6; destruct (_ <? _); [split; [|done]; destruct He5; by split|done]).
  clearbody e6. apply ms_seq.
  { destruct got; [by apply mem_safe_ret|]. destruct (_ <? 20); (eapply mem_safe_mono; [apply mem_safe_regs, (safe_op no_mem (Udelay _) (fun _ => True)); done|]; by intros [] m' [-> _]). }
  intros _. apply mem_safe_ret. cbn [fst]. split; [done|]. split; [apply He6|]. destruct He6, He4, Hs3. cbn in *. congruence.
Qed.

(** *** The whole session *)

(** What can happen to a running data path, in any order. *)
Inductive data_event := Packet (m : list Z) (copied : bool) | Pass (k : kenv) (idle : Z) | Enable | Disable.
Definition data_step (v : data_event) (e : eth) : prog eth :=
  match v with
  | Packet p copied => outputPacket p copied e
  | Pass k idle => '(e, _, _) ← rx_pass k idle e; mret e
  | Enable => mret (enable e)
  | Disable => mret (disable e)
  end.
Fixpoint data_run (l : list data_event) (e : eth) : prog eth :=
  match l with [] => mret e | v :: l => e ← data_step v e; data_run l e end.
(** A session: the start, and if it succeeds the events. *)
Definition data_session (b : bridge) (c : data_cfg) (thread : bool) (e : eth) (l : list data_event) : prog (option eth) :=
  r ← startData b c thread e;
  match r with None => mret None | Some e => e ← data_run l e; mret (Some e) end.

Lemma data_step_safe m v e : eth_live m e ->
  mem_safe_if (idx_ok (fRxN (e_geo e))) (data_step v e) m (fun e' m' => m' = m /\ eth_live m e' /\ e_geo e' = e_geo e).
Proof.
  intros He. destruct v as [p copied|k idle| |]; cbn [data_step].
  - unfold outputPacket. destruct (_ && _ && (14 <=? _) && (_ <=? 1614) && copied) eqn:E; [|by apply mem_safe_if_ret].
    apply andb_prop in E as [[_ E%Z.leb_le]%andb_prop _]. apply mem_safe_if_lift. eapply mem_safe_mono; [by apply (txEthFrame_safe m)|].
    intros e' m' (-> & He' & Hs). split; [done|]. split; [done|apply Hs].
  - eapply mem_safe_if_bind; [by apply rx_pass_safe|]. intros [[e' a] id] m' (-> & He' & Hg). by apply mem_safe_if_ret.
  - apply mem_safe_if_ret. split; [done|]. split; [|done]. destruct He. by split.
  - apply mem_safe_if_ret. split; [done|]. split; [|done]. destruct He. by split.
Qed.
Lemma data_run_safe m n : forall l e, eth_live m e -> fRxN (e_geo e) = n ->
  mem_safe_if (idx_ok n) (data_run l e) m (fun e' m' => m' = m /\ eth_live m e').
Proof.
  induction l as [|v l IH]; intros e He Hn; cbn [data_run]; [by apply mem_safe_if_ret|]. subst n.
  eapply mem_safe_if_bind; [by apply data_step_safe|]. intros e' m' (-> & He' & Hg). apply IH; [done|congruence].
Qed.

(** The configuration's fields are 32-bit, its addresses six bytes. *)
Record cfg_range (c : data_cfg) : Prop := {
  cr_mac : length (dc_mac c) = 6%nat /\ length (dc_bssid c) = 6%nat;
  cr_words : Forall (fun v => 0 <= v < 2 ^ 32) [cfg_txbd_handle (dc_rings c); cfg_txbd_be_off (dc_rings c); cfg_be_len (dc_rings c); cfg_bd_sz (dc_rings c);
    cfg_desc_sz (dc_rings c); cfg_rxdata_handle (dc_rings c); cfg_rx_nslots (dc_rings c); cfg_rx_buf_size (dc_rings c); cfg_rx_desc_sz (dc_rings c); cfg_txpool_handle (dc_rings c)];
}.

Lemma resolve_live m b h d : tracks m b -> 0 <= h -> dmaResolve b h = Some d -> m !! h = Some (d_size d) /\ d_handle d = h.
Proof.
  intros [_ Ht] Hh Hd. unfold dmaResolve in Hd. destruct (dma_slot b h) as [s|] eqn:Es; [|done]. injection Hd as <-. rewrite Ht, Es.
  by destruct (Z.leb_spec 0 h); [|lia].
Qed.

(** Passing the check means the geometry is in bounds. *)
Lemma cfg_check_ok m b c txbd rx pool l : tracks m b -> cfg_range (DataCfg' (fMac l) (fBssid l) (fRate l) (fRateId l) c) ->
  cfg_check b c = Some (txbd, rx, pool) ->
  geo_ok m (Geometry (d_handle txbd, cfg_txbd_be_off c) (cfg_be_len c) (cfg_bd_sz c) (cfg_desc_sz c) (d_handle rx) (cfg_rx_nslots c) (cfg_rx_buf_size c)
    (cfg_rx_desc_sz c) (Some (d_handle pool)) (d_paddr pool) RTW_ETH_SLOT_SIZE).
Proof.
  intros Ht [_ Hc] E. cbn [dc_rings] in Hc. rewrite !Forall_cons_iff in Hc. destruct Hc as (R1 & R2 & R3 & R4 & R5 & R6 & R7 & R8 & R9 & R10 & _).
  unfold cfg_check in E. change (2 ^ 32) with 4294967296 in *.
  match type of E with context [if ?a || ?b || ?d then _ else _] => destruct (a || b || d) eqn:E1; [done|] end. apply orb_false_elim in E1 as [[E1a%Z.ltb_ge E1b%Z.ltb_ge]%orb_false_elim E1c%Z.ltb_ge].
  match type of E with context [if ?a || ?b || ?d || ?f then _ else _] => destruct (a || b || d || f) eqn:E2; [done|] end.
  apply orb_false_elim in E2 as [[[E2a%Z.eqb_neq E2b%Z.ltb_ge]%orb_false_elim E2c%Z.eqb_neq]%orb_false_elim E2d%Z.ltb_ge].
  match type of E with context [if ?a || ?b then _ else _] => destruct (a || b) eqn:E3; [done|] end. apply orb_false_elim in E3 as [E3a%Z.ltb_ge E3b%Z.ltb_ge].
  rewrite wrap_small in E3b by (change (2 ^ 32) with 4294967296; lia).
  destruct (dmaResolve b (cfg_txbd_handle c)) as [d1|] eqn:D1; [|done]. cbn [mbind option_bind] in E.
  destruct (resolve_live _ _ _ _ Ht (proj1 R1) D1) as [M1 _].
  match type of E with context [if ?a then _ else _] => destruct a eqn:E4; [done|] end. apply Z.ltb_ge in E4. rewrite wrap_small in E4 by (change (2 ^ 64) with (4294967296 * 4294967296); nia).
  destruct (dmaResolve b (cfg_rxdata_handle c)) as [d2|] eqn:D2; [|done]. cbn [mbind option_bind] in E.
  match type of E with context [if ?a then _ else _] => destruct a eqn:E5; [done|] end. apply Z.ltb_ge in E5. rewrite wrap_small in E5 by (change (2 ^ 64) with (4294967296 * 4294967296); nia).
  destruct (dmaResolve b (cfg_txpool_handle c)) as [d3|] eqn:D3; [|done]. cbn [mbind option_bind] in E.
  match type of E with context [if ?a then _ else _] => destruct a eqn:E6; [done|] end. apply Z.ltb_ge in E6. unfold RTW_ETH_SLOT_SIZE in *.
  rewrite wrap_small in E6 by (change (2 ^ 64) with (4294967296 * 4294967296); nia). injection E as <- <- <-.
  destruct (resolve_live _ _ _ _ Ht (proj1 R6) D2) as [M2 H2]. destruct (resolve_live _ _ _ _ Ht (proj1 R10) D3) as [M3 H3]. destruct (resolve_live _ _ _ _ Ht (proj1 R1) D1) as [_ H1].
  split; cbn [fBeBd fBeLen fBdSz fDescSz fRxData fRxN fRxBufSz fRxDescSz fTxPoolV fTxPoolPa fTxSlotSz fst snd]; try lia.
  - exists (d_size d1). rewrite H1. split; [done|]. split; lia.
  - exists (d_size d2). rewrite H2. done.
  - exists (d_handle d3), (d_size d3). rewrite H3. split; [done|]. split; [done|]. unfold RTW_ETH_SLOT_SIZE. lia.
  - done.
Qed.

Lemma rx_ok_reset r : rx_ok r -> rx_ok (RxState (map (fun t => Tid false false (rt_head t) (rt_win t) 0 None (rt_len t) (rt_t_ns t) (rt_occ t)) (fBa r)) (rx_parse r) (rx_reord r) (rx_cnt r)).
Proof.
  intros [[Hn Hb] Hl Hp]. split; cbn; [|done|done]. split; [by rewrite length_map|]. apply Forall_fmap. eapply List.Forall_impl; [|exact Hb].
  intros t Ht. left. split; [done|]. split; [done|]. destruct Ht as [(_ & _ & Hlen)|(p & _ & _ & Hs)]; [done|]. specialize (Hs (RCnt 0 0 0 0 0)).
  destruct (sim_lens _ _ Hs) as (_ & H1 & H2). by split.
Qed.

(** A start only reads the two indices; what it accepts is live, and it refuses for
    one of three reasons. *)
Lemma data_start_safe m b c thread e : tracks m b -> cfg_range c -> rx_ok (e_rx e) ->
  safe no_mem (startData b c thread e) (fun r => match r with
    | Some e' => eth_live m e' /\ fRxN (e_geo e') = cfg_rx_nslots (dc_rings c) /\ fCcmpPn e' = 1 /\ fDataMode e' = true
    | None => fMmio b = false \/ cfg_check b (dc_rings c) = None \/ thread = false
    end).
Proof.
  intros Ht Hc He. unfold startData. destruct (fMmio b); cbn [negb]; [|apply safe_ret; by left]. cbv zeta.
  destruct (cfg_check b (dc_rings c)) as [[[txbd rx] pool]|] eqn:E; [|apply safe_ret; by right; left].
  pose proof (cfg_check_ok m b (dc_rings c) txbd rx pool (LinkParams (dc_mac c) (dc_bssid c) (dc_rate c) (dc_rate_id c)) Ht) as Hg.
  specialize (Hg ltac:(destruct c, Hc; by split) E). set (g := Geometry _ _ _ _ _ _ _ _ _ _ _) in *.
  pose proof (go_len _ _ Hg) as Hl. pose proof (go_rxn _ _ Hg) as Hn.
  assert (Hmod : forall a n, 0 < n -> safe no_mem (umod a n) (fun r => 0 <= r < n)).
  { intros a n H. unfold umod. destruct (Z.eqb_spec n 0); [lia|]. apply safe_ret. by apply Z.mod_pos_bound. }
  apply safe_bind_any; [by apply safe_read32|]. intros v. eapply safe_bind; [apply Hmod; lia|]. intros wp Hwp.
  apply safe_bind_any; [by apply safe_read32|]. intros v'. eapply safe_bind; [apply Hmod; lia|]. intros rp Hrp.
  destruct thread; cbn [negb]; apply safe_ret; [|by right; right]. split; [|done]. split; cbn; [done|done|done|by apply rx_ok_reset|apply Hc].
Qed.

(** C3: a session is memory safe, whatever geometry it was asked for.  For any
    configuration a client passes, against any table of buffers: if the start
    accepts it, then packets of any content, polls of the receive ring with any
    bytes in it, and the link going up and down, in any order and number, read
    and write only inside the three buffers the configuration names, use no null
    or stale pointer and divide by no zero; and no poll spins forever, provided
    the chip keeps its receive index below the number of slots. *)
Theorem data_session_safe (b : bridge) (m : gmap Z Z) (c : data_cfg) (thread : bool) (e : eth) (l : list data_event) :
  tracks m b -> cfg_range c -> rx_ok (e_rx e) ->
  mem_safe_if (idx_ok (cfg_rx_nslots (dc_rings c))) (data_session b c thread e l) m
    (fun r m' => m' = m /\ match r with Some e' => eth_live m e' | None => True end).
Proof.
  intros Ht Hc He. unfold data_session.
  eapply mem_safe_if_bind; [by apply mem_safe_if_lift, mem_safe_regs, (data_start_safe m)|].
  intros [e'|] m' [-> He']; [|by apply mem_safe_if_ret]. destruct He' as (He' & Hn & _).
  eapply mem_safe_if_bind; [by apply (data_run_safe m (cfg_rx_nslots (dc_rings c)))|]. intros e2 m' [-> He2]. by apply mem_safe_if_ret.
Qed.

(** ** Packet numbers *)

(** The packet number of a CCMP header. *)
Definition le_val (l : list Z) : Z := foldr (fun b v => b + 256 * v) 0 l.
Definition iv_pn (iv : list Z) : Z :=
  le_val [nth 0 iv 0; nth 1 iv 0; nth 4 iv 0; nth 5 iv 0; nth 6 iv 0; nth 7 iv 0].
Lemma byte_split v k : 0 <= v -> 0 <= k -> u8 (v >> k) + 256 * (v >> (k + 8)) = v >> k.
Proof.
  intros Hv Hk. rewrite <- Z.shiftr_shiftr by lia. unfold wrap. rewrite (Z.shiftr_div_pow2 (v >> k) 8) by lia. change (2 ^ 8) with 256.
  pose proof (Z.div_mod (v >> k) 256). lia.
Qed.
Lemma iv_pn_ccmp pn : 0 <= pn < 2 ^ 48 -> iv_pn (ccmp_iv pn) = pn.
Proof.
  intros Hp. cbn. pose proof (byte_split pn 0 ltac:(lia) ltac:(lia)) as B0. pose proof (byte_split pn 8 ltac:(lia) ltac:(lia)) as B1. pose proof (byte_split pn 16 ltac:(lia) ltac:(lia)) as B2.
  pose proof (byte_split pn 24 ltac:(lia) ltac:(lia)) as B3. pose proof (byte_split pn 32 ltac:(lia) ltac:(lia)) as B4. pose proof (byte_split pn 40 ltac:(lia) ltac:(lia)) as B5.
  change (0 + 8) with 8 in B0. change (8 + 8) with 16 in B1. change (16 + 8) with 24 in B2. change (24 + 8) with 32 in B3. change (32 + 8) with 40 in B4. change (40 + 8) with 48 in B5.
  rewrite Z.shiftr_0_r in B0. assert (E : pn >> 48 = 0) by (rewrite Z.shiftr_div_pow2 by lia; by apply Z.div_small). lia.
Qed.

Lemma head_pn l dst pn et : length (fMac l) = 6%nat -> length (fBssid l) = 6%nat -> length dst = 6%nat -> 0 <= pn < 2 ^ 48 ->
  iv_pn (drop 26 (air_head l dst pn et)) = pn.
Proof.
  intros Hm Hb Hd Hp. unfold air_head. destruct l as [mac bssid rt rid]. cbn [fMac fBssid] in *.
  do 6 (destruct mac as [|? mac]; [done|]). destruct mac; [|done]. do 6 (destruct bssid as [|? bssid]; [done|]). destruct bssid; [|done].
  do 6 (destruct dst as [|? dst]; [done|]). destruct dst; [|done]. cbn [app drop]. change (iv_pn (ccmp_iv pn) = pn). by apply iv_pn_ccmp.
Qed.

Section Pn.
(** The pool's handle and the descriptor's size. *)
Context (h d : Z).

(** The packet number of a protected frame's header written into a slot. *)
Definition frame_pn (o : hwop) : option Z :=
  match o with
  | MemWrite h' off bs =>
      if (h' =? h) && (off mod RTW_ETH_SLOT_SIZE =? d) && (34 <=? Z.of_nat (length bs)) && nz (nth 1 bs 0 .& 0x40)
      then Some (iv_pn (drop 26 bs)) else None
  | _ => None
  end.
(** The packet numbers put into slots by a run, in order. *)
Definition pns (l : list hwop) : list Z := omap frame_pn l.
Definition quiet (o : hwop) : bool := match frame_pn o with Some _ => false | None => true end.
(** The next number is the only one that may be put into a slot. *)
Definition pn_mon (s : Z) (o : hwop) (_ : hwres o) : option Z :=
  match frame_pn o with Some pn => if pn =? s then Some (s + 1) else None | None => Some s end.

Lemma pn_trace t : forall s s', mon_trace pn_mon s t = Some s' -> s <= s' /\ pns (map ev_op t) = seqZ s (s' - s).
Proof.
  induction t as [|[o r] t IH]; intros s s' H; [injection H as <-; split; [lia|by rewrite Z.sub_diag]|].
  cbn [mon_trace] in H. unfold pn_mon in H at 1. unfold pns. cbn [map omap list_omap ev_op]. destruct (frame_pn o) as [pn|] eqn:E.
  - destruct (Z.eqb_spec pn s) as [->|]; [|done]. destruct (IH _ _ H) as [H1 H2]. split; [lia|]. change (omap frame_pn (map ev_op t)) with (pns (map ev_op t)). rewrite H2.
    rewrite (seqZ_cons s) by lia. f_equal; f_equal; lia.
  - by apply IH.
Qed.

Record pn_geo (g : geometry) : Prop := { pg_pool : fTxPoolV g = Some h; pg_desc : fDescSz g = d; pg_d : 36 <= d <= 64; pg_slot : fTxSlotSz g = RTW_ETH_SLOT_SIZE }.

Lemma quiet_small h' off bs : Z.of_nat (length bs) < 34 -> quiet (MemWrite h' off bs) = true.
Proof. intros Hl. unfold quiet, frame_pn. destruct (Z.leb_spec 34 (Z.of_nat (length bs))); [lia|]. by rewrite andb_false_r. Qed.
Lemma safe_mw h' off bs : quiet (MemWrite h' off bs) = true -> safe quiet (act (MemWrite h' off bs)) (fun _ : unit => True).
Proof. intros Hq. by apply (safe_op quiet (MemWrite h' off bs) (fun _ => True)). Qed.
Lemma safe_pool g off bs : Z.of_nat (length bs) < 34 -> safe quiet (pool_write g off bs) (fun _ => True).
Proof.
  intros Hl. unfold pool_write. destruct (fTxPoolV g) as [hp|]; [by apply safe_mw, quiet_small|]. unfold fault. safe_go.
Qed.
Lemma safe_poolset g off n v : safe quiet (pool_set g off n v) (fun _ => True).
Proof. unfold pool_set. destruct (fTxPoolV g) as [hp|]; [by apply (safe_op quiet (MemSet hp off n v) (fun _ => True))|]. unfold fault. safe_go. Qed.
Lemma safe_umod a n (Q : Z -> Prop) : (forall r, Q r) -> safe quiet (umod a n) Q.
Proof. intros HQ. unfold umod. destruct (n =? 0); [by apply (safe_op quiet Fault)|by apply safe_ret]. Qed.
Lemma safe_reserve e : safe quiet (be_reserve e) (fun _ => True).
Proof.
  unfold be_reserve. apply safe_bind_any; [by apply safe_umod|intros nx]. apply safe_bind_any; [by apply safe_read32|intros v].
  apply safe_bind_any; [by apply safe_umod|intros hw]. by apply safe_ret.
Qed.
Lemma safe_post g slot next len pa : safe quiet (be_post g slot next len pa) (fun _ => True).
Proof.
  unfold be_post, bd_put. cbv zeta. do 6 (apply safe_bind_any; [by apply safe_mw, quiet_small|intros _]). by apply safe_write16.
Qed.

Lemma pn_quiet {A} (p : prog A) s Q : safe quiet p Q -> wp pn_mon p s (fun x s' => s' = s /\ Q x).
Proof. apply wp_safe_frame. intros o r Ho. unfold pn_mon, quiet in *. by destruct (frame_pn o). Qed.
Lemma pn_seq {A B} (p : prog A) (f : A -> prog B) s Q : safe quiet p (fun _ => True) -> (forall x, wp pn_mon (f x) s Q) -> wp pn_mon (p ≫= f) s Q.
Proof. intros Hp Hf. apply wp_bind. eapply wp_mono; [by apply pn_quiet|]. intros x s' [-> _]. apply Hf. Qed.

(** Nothing but the frame counter moves. *)
Definition pn_same (e e' : eth) : Prop := e_geo e' = e_geo e /\ e_link e' = e_link e.

Lemma tx_pn pkt e : pn_geo (e_geo e) -> length (fMac (e_link e)) = 6%nat -> length (fBssid (e_link e)) = 6%nat -> Z.of_nat (length pkt) <= 1614 ->
  0 <= fCcmpPn e < 2 ^ 48 - 1 -> wp pn_mon (txEthFrame pkt e) (fCcmpPn e)
    (fun e' s' => s' = fCcmpPn e' /\ fCcmpPn e <= s' <= fCcmpPn e + 1 /\ pn_same e e').
Proof.
  intros [G1 G2 G3 G4] Hm Hb Hp Hpn. unfold txEthFrame. cbv zeta. assert (Hsame : fCcmpPn e = fCcmpPn e /\ fCcmpPn e <= fCcmpPn e <= fCcmpPn e + 1 /\ pn_same e e) by (split_and!; done || lia).
  destruct (_ <? 14) eqn:El; [by apply wp_ret|]. apply Z.ltb_ge in El. destruct (_ <? u32 _); [by apply wp_ret|].
  apply pn_seq; [apply safe_reserve|]. intros [[slot next] full]. destruct full; [by apply wp_ret|].
  cbn [set_dcnt e_link fCcmpPn].
  assert (Hdst : length (take 6 pkt) = 6%nat) by (rewrite length_take; lia).
  apply wp_bind. unfold pool_write at 1. rewrite G1, G2, G4. intros [].
  unfold pn_mon at 1, frame_pn. rewrite Z.eqb_refl.
  assert (Hoff : (slot * RTW_ETH_SLOT_SIZE + d) mod RTW_ETH_SLOT_SIZE = d) by (unfold RTW_ETH_SLOT_SIZE; rewrite Z.add_comm, Z.mod_add by lia; apply Z.mod_small; lia).
  rewrite Hoff, Z.eqb_refl, air_head_len by done. set (hd := air_head _ _ _ _).
  assert (Hprot : nz (nth 1 hd 0 .& 0x40) = true) by done. rewrite Hprot. change (true && true && (34 <=? Z.of_nat 42) && true) with true. cbv iota.
  assert (Hiv : iv_pn (drop 26 hd) = fCcmpPn e) by (apply head_pn; done || lia).
  rewrite Hiv, Z.eqb_refl. apply wp_ret.
  apply pn_seq.
  { unfold pool_write. rewrite G1. apply safe_mw. unfold quiet, frame_pn.
    assert (Hoff2 : (slot * RTW_ETH_SLOT_SIZE + d + 42) mod RTW_ETH_SLOT_SIZE = d + 42)
      by (unfold RTW_ETH_SLOT_SIZE; rewrite <- Z.add_assoc, Z.add_comm, Z.mod_add by lia; apply Z.mod_small; lia).
    rewrite Hoff2. destruct (Z.eqb_spec (d + 42) d); [lia|]. by rewrite andb_false_r. }
  intros _. apply pn_seq; [apply safe_poolset|intros _]. do 4 (apply pn_seq; [by apply safe_pool|intros _]). apply pn_seq; [apply safe_post|intros _].
  apply wp_ret. cbn [set_wp fCcmpPn]. rewrite wrap_small by (change (2 ^ 64) with (2 ^ 48 * 65536); lia). split_and!; done || lia.
Qed.

(** The poll loop puts no protected frame anywhere. *)
Abbreviation still e := (fun e' => pn_same e e' /\ fCcmpPn e' = fCcmpPn e).
Abbreviation still1 e := (fun (r : eth * list (list Z)) => pn_same e r.1 /\ fCcmpPn r.1 = fCcmpPn e).
Lemma still_trans e1 e2 e3 : pn_same e1 e2 /\ fCcmpPn e2 = fCcmpPn e1 -> pn_same e2 e3 /\ fCcmpPn e3 = fCcmpPn e2 -> pn_same e1 e3 /\ fCcmpPn e3 = fCcmpPn e1.
Proof. intros [[A1 A2] A3] [[B1 B2] B3]. repeat split; congruence. Qed.

Lemma action_still r e : nth 1 r 0 = 0 -> safe quiet (txAction r e) (still e).
Proof.
  intros Hr. unfold txAction. cbv zeta. destruct (_ || _); [by apply safe_ret|]. apply safe_bind_any; [apply safe_reserve|]. intros [[slot next] full].
  destruct full; [by apply safe_ret|]. apply safe_bind_any.
  { unfold pool_write. destruct (fTxPoolV _) as [hp|]; [|unfold fault; safe_go]. apply safe_mw. unfold quiet, frame_pn. rewrite Hr. change (nz (0 .& 0x40)) with false. by rewrite andb_false_r. }
  intros _. apply safe_bind_any; [apply safe_poolset|intros _]. do 5 (apply safe_bind_any; [by apply safe_pool|intros _]). apply safe_bind_any; [apply safe_post|intros _].
  by apply safe_ret.
Qed.
Lemma outputs_still k l : forall e, Forall plain_out l -> safe quiet (rx_outputs k l e) (still1 e).
Proof.
  induction l as [|o l IH]; intros e Hl; cbn [rx_outputs]; [by apply safe_ret|]. apply Forall_cons_1 in Hl as [Ho Hl].
  eapply (safe_bind _ _ _ (still1 e)).
  - destruct o as [p|r]; cbn [rx_output].
    + destruct (k_packet k p) as [al fi]. destruct (inputEth _ _ _ _ _); by apply safe_ret.
    + eapply safe_bind; [by apply action_still|]. intros e' He'. by apply safe_ret.
  - intros [e1 a] H1. eapply safe_bind; [by apply IH|]. intros [e2 b] H2. apply safe_ret. by eapply still_trans.
Qed.
Lemma do_still k r e : (forall st out, r = Some (st, out) -> Forall plain_out out) -> safe quiet (rx_do k r e) (still1 e).
Proof.
  intros Hr. destruct r as [[st out]|]; cbn [rx_do]; [apply (outputs_still k out (set_rx st e)); by eapply Hr|]. unfold fault. safe_go.
Qed.
Lemma mem_read_quiet hh off n : safe quiet (mem_read hh off n) (fun _ => True).
Proof. unfold mem_read. apply safe_bind_any; [by apply (safe_op quiet (MemRead hh off n))|]. intros bs. by apply safe_ret. Qed.
Lemma rx32_quiet g off : safe quiet (rx32 g off) (fun _ => True).
Proof. unfold rx32. apply safe_bind_any; [apply mem_read_quiet|]. intros b. by apply safe_ret. Qed.
Lemma slot_still k e : safe quiet (rx_slot k e) (still1 e).
Proof.
  unfold rx_slot. cbv zeta. apply safe_bind_any; [apply rx32_quiet|]. intros w0. eapply (safe_bind _ _ _ (still1 e)).
  - destruct (nz _); [by apply safe_ret|]. destruct (_ && _); [|by apply safe_ret]. apply safe_bind_any; [apply rx32_quiet|]. intros w3.
    destruct (_ <=? _); [|by apply safe_ret]. apply safe_bind_any; [apply mem_read_quiet|]. intros f.
    match goal with |- safe _ (rx_do k ?r ?e1) _ => apply (do_still k r e1) end. intros st out. apply rxFrame_plain.
  - intros [e1 out] H1. apply safe_bind_any; [by apply safe_umod|]. intros rp. by apply safe_ret.
Qed.
Lemma slots_still k hw : forall fuel i e, safe quiet (rx_slots fuel k hw i e) (fun r => pn_same e r.1.1 /\ fCcmpPn r.1.1 = fCcmpPn e).
Proof.
  induction fuel as [|fuel IH]; intros i e; cbn [rx_slots]; (destruct (_ || _); [by apply safe_ret|]).
  - apply safe_bind_any; [by apply (safe_op quiet Hang)|]. intros _. by apply safe_ret.
  - eapply safe_bind; [apply slot_still|]. intros [e1 a] H1. eapply safe_bind; [apply IH|]. intros [[e2 b] got] H2. apply safe_ret. by eapply still_trans.
Qed.
Lemma dig_still k e : safe quiet (dig_step k e) (still e).
Proof.
  unfold dig_step. cbv zeta. apply safe_bind_any; [safe_go|]. intros igi. destruct (negb _); [by apply safe_ret|]. repeat first [apply safe_bind_any; [by apply safe_read32 || by apply safe_write32|intros ?]|by apply safe_ret].
Qed.
Lemma pass_still k idle e : safe quiet (rx_pass k idle e) (fun r => pn_same e r.1.1 /\ fCcmpPn r.1.1 = fCcmpPn e).
Proof.
  unfold rx_pass. cbv zeta. apply safe_bind_any; [by apply safe_read32|]. intros v. apply safe_bind_any; [by apply safe_umod|]. intros depth.
  eapply safe_bind; [apply slots_still|]. intros [[e2 a] got] H2. apply safe_bind_any; [destruct got; [by apply safe_write16|by apply safe_ret]|]. intros _.
  eapply safe_bind; [apply do_still; intros st out; apply sweep_plain|]. intros [e3 b] H3. set (e4 := if _ && _ && _ then _ else e3).
  assert (H4 : pn_same e3 e4 /\ fCcmpPn e4 = fCcmpPn e3) by (unfold e4; by destruct (_ && _)). clearbody e4.
  eapply safe_bind; [apply dig_still|]. intros e5 H5. set (e6 := if _ <? _ then _ else e5).
  assert (H6 : pn_same e5 e6 /\ fCcmpPn e6 = fCcmpPn e5) by (unfold e6; by destruct (_ <? _)). clearbody e6.
  apply safe_bind_any; [destruct got; [by apply safe_ret|]; destruct (_ <? 20); [by apply safe_udelay|by apply safe_mdelay]|]. intros _.
  apply safe_ret. cbn [fst] in *. do 4 (eapply still_trans; [eassumption|]). done.
Qed.

Lemma run_pn l : forall e, pn_geo (e_geo e) -> length (fMac (e_link e)) = 6%nat -> length (fBssid (e_link e)) = 6%nat ->
  0 <= fCcmpPn e -> fCcmpPn e + Z.of_nat (length l) < 2 ^ 48 ->
  wp pn_mon (data_run l e) (fCcmpPn e) (fun e' s' => s' = fCcmpPn e').
Proof.
  induction l as [|v l IH]; intros e Hg Hm Hb Hp Hl; cbn [data_run]; [by apply wp_ret|]. cbn [length] in Hl. apply wp_bind.
  eapply (wp_mono _ _ _ (fun e' s' => s' = fCcmpPn e' /\ fCcmpPn e <= s' <= fCcmpPn e + 1 /\ pn_same e e')).
  - destruct v as [p copied|k idle| |]; cbn [data_step].
    + unfold outputPacket. destruct (_ && _ && (14 <=? _) && (_ <=? 1614) && copied) eqn:E; [|apply wp_ret; split_and!; done || lia].
      apply andb_prop in E as [[_ E%Z.leb_le]%andb_prop _]. apply tx_pn; [done..|lia].
    + apply wp_bind. eapply wp_mono; [apply pn_quiet, pass_still|]. intros [[e' a] id] s' [-> [Hs Hpn]]. apply wp_ret. cbn [fst] in *. split_and!; done || lia.
    + apply wp_ret. split_and!; done || (cbn; lia).
    + apply wp_ret. split_and!; done || (cbn; lia).
  - intros e' s' (-> & Hs & [S1 S2]). apply IH; [by rewrite S1|by rewrite S2|by rewrite S2|lia|lia].
Qed.
End Pn.

(** C13: packet numbers never repeat under a key.  In a session of fewer than 2^48
    events, on any device and with any packets and received frames, the protected
    frames put into the transmit slots carry the packet numbers 1, 2, 3 and so
    on, one each: none is used twice and none is skipped. *)
Theorem ccmp_pn_fresh (b : bridge) (c : data_cfg) (thread : bool) (e : eth) (l : list data_event) (W : Type) (dev : Device W) (w : W) :
  cfg_range c -> Z.of_nat (length l) < 2 ^ 48 - 1 ->
  let used := pns (cfg_txpool_handle (dc_rings c)) (cfg_desc_sz (dc_rings c)) (ops (exec (data_session b c thread e l) w)) in
  used = seqZ 1 (Z.of_nat (length used)) /\ NoDup used.
Proof.
  intros Hc Hl used. set (h := cfg_txpool_handle (dc_rings c)) in *. set (d := cfg_desc_sz (dc_rings c)) in *.
  assert (Hw : wp (pn_mon h d) (data_session b c thread e l) 1 (fun _ _ => True)).
  { unfold data_session, startData. destruct (fMmio b); cbn [negb]; [|by apply wp_ret]. cbv zeta.
    destruct (cfg_check b (dc_rings c)) as [[[txbd rx] pool]|] eqn:E; [|by apply wp_ret]. apply wp_bind.
    assert (Hpool : d_handle pool = h /\ 36 <= d <= 64).
    { unfold cfg_check in E. fold d in E. match type of E with context [if ?a || ?b' || ?d' then _ else _] => destruct (a || b' || d') eqn:E1; [done|] end.
      apply orb_false_elim in E1 as [[_ E1b%Z.ltb_ge]%orb_false_elim E1c%Z.ltb_ge]. split; [|lia].
      destruct (_ || _ || _ || _); [done|]. destruct (_ || _); [done|]. destruct (dmaResolve b (cfg_txbd_handle _)); [|done]. cbn [mbind option_bind] in E. destruct (_ <? _); [done|].
      destruct (dmaResolve b (cfg_rxdata_handle _)); [|done]. cbn [mbind option_bind] in E. destruct (_ <? _); [done|].
      unfold h. destruct (dmaResolve b (cfg_txpool_handle _)) as [x|] eqn:Er; [|done]. cbn [mbind option_bind] in E. destruct (_ <? _); [done|]. injection E as _ _ <-.
      unfold dmaResolve in Er. by destruct (dma_slot b _); simplify_eq. }
    destruct Hpool as [Hh Hd].
    apply pn_seq; [by apply safe_read32|]. intros v. apply pn_seq; [by apply safe_umod|]. intros wp. apply pn_seq; [by apply safe_read32|]. intros v'. apply pn_seq; [by apply safe_umod|]. intros rp.
    destruct thread; [|by apply wp_ret]. cbn [negb]. apply wp_ret. apply wp_bind. destruct Hc as [[Hm Hb] _].
    eapply wp_mono; [apply (run_pn h d l (Eth _ _ _ _ _ _ _ _ _ 1 _ _ _ _ _)); cbn [e_geo e_link fMac fBssid fCcmpPn]; [split; cbn; [by rewrite Hh|done|done|done]|done|done|lia|lia]|].
    intros e' s' _. by apply wp_ret. }
  destruct (wp_exec (pn_mon h d) _ w 1 _ Hw) as (s' & Ht & _). apply pn_trace in Ht as [H1 H2].
  assert (Hu : used = seqZ 1 (s' - 1)) by done. assert (Hlen : Z.of_nat (length used) = s' - 1) by (rewrite Hu, length_seqZ; lia).
  rewrite Hlen. split; [done|]. rewrite Hu. apply NoDup_seqZ.
Qed.

(** ** What the chip finds in the slot *)

(** A device that is memory: registers, and the bytes of every buffer. *)
Record dma_world := DmaWorld { dw_regs : regfile; dw_mem : gmap (Z * Z) Z }.
Fixpoint poke (m : gmap (Z * Z) Z) (h off : Z) (bs : list Z) : gmap (Z * Z) Z :=
  match bs with [] => m | b :: bs => <[(h, off) := b]> (poke m h (off + 1) bs) end.
Definition peek (m : gmap (Z * Z) Z) (h off : Z) (n : nat) : list Z := map (fun i => default 0 (m !! (h, off + Z.of_nat i))) (seq 0 n).
#[local] Instance dma_dev : Device dma_world := fun o w =>
  match o as o return hwres o * dma_world with
  | MemRead h off n => (peek (dw_mem w) h off (Z.to_nat n), w)
  | MemWrite h off bs => (tt, DmaWorld (dw_regs w) (poke (dw_mem w) h off bs))
  | MemSet h off n v => (tt, DmaWorld (dw_regs w) (poke (dw_mem w) h off (replicate (Z.to_nat n) v)))
  | o => let '(r, m) := regfile_dev o (dw_regs w) in (r, DmaWorld m (dw_mem w))
  end.

Lemma poke_lookup bs : forall m h off h' o, poke m h off bs !! (h', o) =
  if (h' =? h) && (off <=? o) && (o <? off + Z.of_nat (length bs)) then Some (nth (Z.to_nat (o - off)) bs 0) else m !! (h', o).
Proof.
  induction bs as [|b bs IH]; intros m h off h' o; cbn [poke length].
  { destruct (Z.leb_spec off o), (Z.ltb_spec o (off + Z.of_nat 0)); try lia; by rewrite ?andb_false_r. }
  destruct (decide ((h, off) = (h', o))) as [E|E].
  - injection E as -> ->. rewrite lookup_insert_eq, Z.eqb_refl, Z.leb_refl. destruct (Z.ltb_spec o (o + Z.of_nat (S (length bs)))); [|lia]. by rewrite Z.sub_diag.
  - rewrite lookup_insert_ne by done. rewrite IH. destruct (Z.eqb_spec h' h) as [->|]; [|done]. cbn [andb].
    assert (o <> off) by congruence. destruct (Z.leb_spec (off + 1) o), (Z.leb_spec off o); try lia; [|done].
    destruct (Z.ltb_spec o (off + 1 + Z.of_nat (length bs))), (Z.ltb_spec o (off + Z.of_nat (S (length bs)))); try lia; [|done]. cbn [andb].
    replace (Z.to_nat (o - off)) with (S (Z.to_nat (o - (off + 1)))) by lia. done.
Qed.
Lemma peek_same m h off bs : peek (poke m h off bs) h off (length bs) = bs.
Proof.
  apply (list_eq_same_length _ _ (length bs)); [done|by unfold peek; rewrite length_map, length_seq|]. intros i x y Hi Hx Hy. unfold peek in Hx.
  rewrite list_lookup_fmap in Hx. rewrite lookup_seq_lt in Hx by done. cbn in Hx. injection Hx as <-. rewrite poke_lookup, Z.eqb_refl.
  destruct (Z.leb_spec off (off + Z.of_nat i)), (Z.ltb_spec (off + Z.of_nat i) (off + Z.of_nat (length bs))); try lia. cbn [andb default].
  replace (Z.to_nat (off + Z.of_nat i - off)) with i by lia. by apply nth_lookup_Some with (d := 0) in Hy.
Qed.
(** Disjoint writes do not show. *)
Definition apart (h off : Z) (n : nat) (h' off' : Z) (n' : nat) : Prop := h <> h' \/ off + Z.of_nat n <= off' \/ off' + Z.of_nat n' <= off.
Lemma peek_other m h off bs h' off' n : apart h off (length bs) h' off' n -> peek (poke m h off bs) h' off' n = peek m h' off' n.
Proof.
  intros Ha. unfold peek. apply map_ext_in. intros i Hi%in_seq. f_equal. rewrite poke_lookup. destruct (Z.eqb_spec h' h) as [->|]; [|done].
  destruct (Z.leb_spec off (off' + Z.of_nat i)), (Z.ltb_spec (off' + Z.of_nat i) (off + Z.of_nat (length bs))); try done.
  exfalso. destruct Ha as [?|[?|?]]; [done|lia|lia].
Qed.
Lemma peek_app m h off a b : peek m h off (a + b) = peek m h off a ++ peek m h (off + Z.of_nat a) b.
Proof.
  unfold peek. rewrite seq_app, map_app. f_equal. replace (0 + a)%nat with (a + 0)%nat by lia. rewrite <- fmap_add_seq, map_map. apply map_ext. intros i. do 3 f_equal. lia.
Qed.

(** A frame as the chip is to send it: to which station, from which, for whom, under
    which packet number, and the packet's type and payload. *)
Definition air_parse (f : list Z) : option (list Z * list Z * list Z * Z * list Z) :=
  if decide (take 4 f = [0x88; 0x41; 0; 0] /\ take 4 (drop 22 f) = [0; 0; 0; 0] /\ take 2 (drop 28 f) = [0; 0x20] /\ take 6 (drop 34 f) = LLC)
  then Some (take 6 (drop 4 f), take 6 (drop 10 f), take 6 (drop 16 f), iv_pn (drop 26 f), drop 40 f)
  else None.

Lemma air_parse_head l dst pn et pay : length (fMac l) = 6%nat -> length (fBssid l) = 6%nat -> length dst = 6%nat -> 0 <= pn < 2 ^ 48 ->
  air_parse (air_head l dst pn et ++ pay) = Some (fBssid l, fMac l, dst, pn, [u8 (et >> 8); u8 et] ++ pay).
Proof.
  intros Hm Hb Hd Hp. unfold air_head, air_parse. destruct l as [mac bssid rt rid]. cbn [fMac fBssid] in *.
  destruct mac as [|x0 [|x1 [|x2 [|x3 [|x4 [|x5 []]]]]]]; try done. destruct bssid as [|y0 [|y1 [|y2 [|y3 [|y4 [|y5 []]]]]]]; try done.
  destruct dst as [|z0 [|z1 [|z2 [|z3 [|z4 [|z5 []]]]]]]; try done. rewrite decide_True by done.
  cbn [app drop take]. pose proof (iv_pn_ccmp pn Hp) as Hiv. cbn in Hiv |- *. by rewrite Hiv.
Qed.

(** The 48 bytes of the descriptor that matter. *)
Definition data_desc (l : link_params) (airlen descsz : Z) : list Z :=
  le32 ((airlen .& 0xffff) .| u32 ((descsz .& 0xff) << KTX_W0_OFFSET_SHIFT) .| KTX_W0_LS) ++
  le32 (u32 (3 << KTX_W1_SECTYPE_SHIFT) .| u32 (fRateId l << KTX_W1_RATEID_SHIFT)) ++ replicate 8 0 ++
  le32 (fRate l .& 0x7f) ++ replicate 12 0 ++ le32 KTX_W8_EN_HWSEQ.

(** Running one call after another. *)
Lemma run_seq {W A B} `{Device W} (p : prog A) (f : A -> prog B) (w w1 : W) (x : A) : run p w = (x, w1) -> run (p ≫= f) w = run (f x) w1.
Proof. intros E. by rewrite run_bind, E. Qed.
Definition stored (h off : Z) (bs : list Z) (w : dma_world) : dma_world := DmaWorld (dw_regs w) (poke (dw_mem w) h off bs).
Lemma run_pool g h off bs w : fTxPoolV g = Some h -> run (pool_write g off bs) w = (tt, stored h off bs w).
Proof. intros Hg. unfold pool_write. by rewrite Hg. Qed.
Lemma run_poolset g h off n v w : fTxPoolV g = Some h -> run (pool_set g off n v) w = (tt, stored h off (replicate (Z.to_nat n) v) w).
Proof. intros Hg. unfold pool_set. by rewrite Hg. Qed.
Lemma run_bd g off bs w : run (bd_put g off bs) w = (tt, stored (fBeBd g).1 ((fBeBd g).2 + off) bs w).
Proof. done. Qed.
Lemma run_umod a n w : 0 < n -> run (umod a n) w = (u32 a mod n, w).
Proof. intros Hn. unfold umod. by destruct (Z.eqb_spec n 0); [lia|]. Qed.

Lemma run_read32 off (w : dma_world) : run (hw_read32 off) w = (u32 (rf_read (dw_regs w) W32 off), w).
Proof. by destruct w. Qed.
Lemma run_write16 off v (w : dma_world) : run (hw_write16 off v) w = (tt, DmaWorld (rf_write (dw_regs w) W16 off (u16 v)) (dw_mem w)).
Proof. done. Qed.

(** Where the chip's read index is. *)
Definition be_chip (g : geometry) (w : dma_world) : Z := ((u32 (rf_read (dw_regs w) W32 RTK_PCI_TXBD_IDX_BEQ_K) >> 16) .& 0xfff) mod fBeLen g.
Lemma run_reserve e w : 0 < fBeLen (e_geo e) <= 4096 -> 0 <= fBeWp e < fBeLen (e_geo e) ->
  run (be_reserve e) w = ((fBeWp e, (fBeWp e + 1) mod fBeLen (e_geo e), (fBeWp e + 1) mod fBeLen (e_geo e) =? be_chip (e_geo e) w), w).
Proof.
  intros Hn Hwp. unfold be_reserve. erewrite run_seq by (apply run_umod; lia). rewrite (wrap_small 32 (fBeWp e + 1)) by (change (2 ^ 32) with 4294967296; lia).
  erewrite run_seq by apply run_read32. erewrite run_seq by (apply run_umod; lia). unfold be_chip.
  set (v := u32 (rf_read _ _ _)).
  pose proof (land_ones_range 12 (v >> 16) ltac:(lia)) as Hl. change (Z.ones 12) with 0xfff in Hl. rewrite (wrap_small 32 (_ .& 0xfff)); [done|].
  change (2 ^ 12) with 4096 in Hl. change (2 ^ 32) with 4294967296. lia.
Qed.

Lemma apart_sub h off n h' off' n' off2 n2 : apart h off n h' off' n' -> off <= off2 -> off2 + Z.of_nat n2 <= off + Z.of_nat n -> apart h off2 n2 h' off' n'.
Proof. unfold apart. intros [?|[?|?]] H1 H2; [by left|right; left; lia|right; right; lia]. Qed.
Lemma peek_fill m h off n v o k : off <= o -> o + Z.of_nat k <= off + Z.of_nat n -> peek (poke m h off (replicate n v)) h o k = replicate k v.
Proof.
  intros H1 H2. apply (list_eq_same_length _ _ k); [by rewrite length_replicate|by unfold peek; rewrite length_map, length_seq|]. intros i x y Hi Hx Hy.
  unfold peek in Hx. rewrite list_lookup_fmap, lookup_seq_lt in Hx by done. cbn in Hx. injection Hx as <-. apply lookup_replicate in Hy as [-> _].
  rewrite poke_lookup, Z.eqb_refl, length_replicate. destruct (Z.leb_spec off (o + Z.of_nat i)), (Z.ltb_spec (o + Z.of_nat i) (off + Z.of_nat n)); try lia. cbn [andb default].
  rewrite nth_lookup, lookup_replicate_2; [done|lia].
Qed.
(** Reading past the writes that are elsewhere. *)
Ltac peek_skip := repeat (rewrite peek_other by (unfold apart; rewrite ?length_replicate; cbn [length le16 le32]; first [by left|by right; left; lia|by right; right; lia])).

Lemma le16_u16 v : 0 <= v < 65536 -> le16 (u16 v) = le16 v.
Proof. intros Hv. by rewrite wrap_small. Qed.

Lemma run_post g slot next len pa w : 36 <= fDescSz g <= 64 -> 16 <= fBdSz g -> 0 <= slot -> 0 <= len <= 1984 -> 0 <= pa -> pa + 2048 <= 2 ^ 32 -> 0 <= next < 4096 ->
  exists w', run (be_post g slot next len pa) w = (tt, w') /\
    peek (dw_mem w') (fBeBd g).1 ((fBeBd g).2 + slot * fBdSz g) 16 = tx_bd (fDescSz g) ((len + fDescSz g - 1) / 128 + 1) pa len (fDescSz g) /\
    rf_read (dw_regs w') W16 RTK_PCI_TXBD_IDX_BEQ_K = next /\
    forall h o n, apart (fBeBd g).1 ((fBeBd g).2 + slot * fBdSz g) 16 h o n -> peek (dw_mem w') h o n = peek (dw_mem w) h o n.
Proof.
  intros Hd Hb Hs Hl Hp1 Hp2 Hn. unfold be_post. cbv zeta. rewrite !(wrap_small 32 (len + fDescSz g)), (wrap_small 32 (len + fDescSz g - 1)) by (change (2 ^ 32) with 4294967296; lia).
  set (psb := (len + fDescSz g - 1) / 128 + 1). set (B := (fBeBd g).2 + slot * fBdSz g). set (h0 := (fBeBd g).1).
  assert (Hpsb : 0 <= psb < 65536) by (unfold psb; Z.to_euclidean_division_equations; lia).
  do 6 (erewrite run_seq by apply run_bd). rewrite run_write16. eexists. split; [done|]. unfold stored. cbn [dw_mem dw_regs]. fold h0.
  replace ((fBeBd g).2 + (slot * fBdSz g + 2)) with (B + 2) by (unfold B; lia). replace ((fBeBd g).2 + (slot * fBdSz g + 4)) with (B + 4) by (unfold B; lia).
  replace ((fBeBd g).2 + (slot * fBdSz g + 8)) with (B + 8) by (unfold B; lia). replace ((fBeBd g).2 + (slot * fBdSz g + 10)) with (B + 10) by (unfold B; lia).
  replace ((fBeBd g).2 + (slot * fBdSz g + 12)) with (B + 12) by (unfold B; lia). fold B.
  split; [|split].
  - unfold tx_bd. rewrite !le16_u16, !(wrap_small 32) by (change (2 ^ 32) with 4294967296 in *; lia).
    change 16%nat with (2 + (2 + (4 + (2 + (2 + 4)))))%nat. rewrite !peek_app. change (Z.of_nat 2) with 2. change (Z.of_nat 4) with 4.
    replace (B + 2 + 2) with (B + 4) by lia. replace (B + 4 + 4) with (B + 8) by lia. replace (B + 8 + 2) with (B + 10) by lia. replace (B + 10 + 2) with (B + 12) by lia.
    do 4 (f_equal; [peek_skip; apply (peek_same _ _ _ (le16 _)) || apply (peek_same _ _ _ (le32 _))|]). f_equal; [peek_skip; apply (peek_same _ _ _ (le16 _))|].
    apply (peek_same _ _ _ (le32 _)).
  - assert (Hnx : u16 (next .& 0xfff) = next).
    { change 0xfff with (Z.ones 12). rewrite Z.land_ones by lia. change (2 ^ 12) with 4096. rewrite Z.mod_small by lia. apply wrap_small. change (2 ^ 16) with 65536. lia. }
    rewrite Hnx. cbn [rf_read]. unfold rf_byte, rf_write, regfile. rewrite lookup_insert_ne by done. rewrite !lookup_insert_eq. cbn [default].
    pose proof (byte_split next 0 ltac:(lia) ltac:(lia)) as B0. rewrite Z.shiftr_0_r in B0. change (0 + 8) with 8 in B0.
    assert (E : u8 (next >> 8) = next >> 8) by (apply wrap_small; rewrite Z.shiftr_div_pow2 by lia; change (2 ^ 8) with 256; Z.to_euclidean_division_equations; lia). cbn [id]. lia.
  - intros h o n Ha. do 6 (rewrite peek_other by (eapply apart_sub; [exact Ha|cbn; lia|cbn; lia])). done.
Qed.

Lemma et_bytes a b : byte_ok a -> byte_ok b -> [u8 (((a << 8) .| b) >> 8); u8 ((a << 8) .| b)] = [a; b].
Proof.
  intros Ha Hb. pose proof (le32_word32 b a 0 0 Hb Ha) as H. unfold word32 in H. rewrite !Z.shiftl_0_l, !Z.lor_0_r, (Z.lor_comm b) in H.
  specialize (H ltac:(unfold byte_ok; lia) ltac:(unfold byte_ok; lia)). unfold le32 in H. by injection H as -> -> _ _.
Qed.

(** C27: the frame in the slot is the packet.  Unless the ring is full, sending an
    Ethernet packet leaves in the next transmit slot a protected QoS frame that
    reads back as: to our access point, from us, for the packet's destination,
    under the session's packet number, with the packet's type and payload; before
    it the descriptor the chip needs, in the ring a buffer descriptor (the one the
    other transmit paths build) that points at both; then the doorbell moves to
    the next slot.  No other byte of any buffer changes. *)
Theorem tx_frame_in_slot (e : eth) (pkt : list Z) (w : dma_world) (h : Z) :
  let g := e_geo e in let slot := fBeWp e in let B := slot * RTW_ETH_SLOT_SIZE in
  fTxPoolV g = Some h -> h <> (fBeBd g).1 -> 0 < fBeLen g <= 4096 -> 16 <= fBdSz g -> 36 <= fDescSz g <= 64 -> fTxSlotSz g = RTW_ETH_SLOT_SIZE ->
  0 <= fBeWp e < fBeLen g -> length (fMac (e_link e)) = 6%nat -> length (fBssid (e_link e)) = 6%nat -> bytes_ok pkt -> (14 <= length pkt <= 1614)%nat ->
  0 <= fCcmpPn e < 2 ^ 48 -> 0 <= fTxPoolPa g -> fTxPoolPa g + fBeLen g * RTW_ETH_SLOT_SIZE <= 2 ^ 32 ->
  be_chip g w <> (slot + 1) mod fBeLen g ->
  exists e' w', run (txEthFrame pkt e) w = (e', w') /\
    air_parse (peek (dw_mem w') h (B + fDescSz g) (28 + length pkt)) = Some (fBssid (e_link e), fMac (e_link e), take 6 pkt, fCcmpPn e, drop 12 pkt) /\
    peek (dw_mem w') h B 36 = data_desc (e_link e) (28 + Z.of_nat (length pkt)) (fDescSz g) /\
    peek (dw_mem w') (fBeBd g).1 ((fBeBd g).2 + slot * fBdSz g) 16 =
      tx_bd (fDescSz g) ((28 + Z.of_nat (length pkt) + fDescSz g - 1) / 128 + 1) (fTxPoolPa g + B) (28 + Z.of_nat (length pkt)) (fDescSz g) /\
    rf_read (dw_regs w') W16 RTK_PCI_TXBD_IDX_BEQ_K = (slot + 1) mod fBeLen g /\ fBeWp e' = (slot + 1) mod fBeLen g /\ fCcmpPn e' = fCcmpPn e + 1 /\
    forall h' o n, apart h B 2048 h' o n -> apart (fBeBd g).1 ((fBeBd g).2 + slot * fBdSz g) 16 h' o n -> peek (dw_mem w') h' o n = peek (dw_mem w) h' o n.
Proof.
  intros g slot B Hpool Hne Hlen Hbd Hd Hsz Hwp Hm Hb Hbytes Hpkt Hpn Hpa1 Hpa2 Hfull. unfold txEthFrame. cbv zeta. fold g slot.
  destruct (Z.ltb_spec (Z.of_nat (length pkt)) 14); [lia|].
  assert (Ha : u32 (26 + 8 + 8 + (Z.of_nat (length pkt) - 14)) = 28 + Z.of_nat (length pkt)) by (rewrite wrap_small by (change (2 ^ 32) with 4294967296; lia); lia).
  rewrite Ha, Hsz. rewrite (wrap_small 32 (fDescSz g + _)) by (change (2 ^ 32) with 4294967296; lia).
  destruct (Z.ltb_spec RTW_ETH_SLOT_SIZE (fDescSz g + (28 + Z.of_nat (length pkt)))); [unfold RTW_ETH_SLOT_SIZE in *; lia|].
  erewrite run_seq by (by apply run_reserve). cbn [fst snd]. fold g slot. destruct (Z.eqb_spec ((slot + 1) mod fBeLen g) (be_chip g w)); [congruence|].
  change (e_link (set_dcnt _ e)) with (e_link e). change (fCcmpPn (set_dcnt _ e)) with (fCcmpPn e). fold B.
  assert (HB : B + 2048 <= fBeLen g * 2048) by (unfold B, RTW_ETH_SLOT_SIZE; lia).
  assert (HB0 : 0 <= B) by (unfold B, RTW_ETH_SLOT_SIZE; lia). unfold RTW_ETH_SLOT_SIZE in Hpa2. change (2 ^ 32) with 4294967296 in Hpa2.
  rewrite (wrap_small 64 (fTxPoolPa g + B)) by (change (2 ^ 64) with (4294967296 * 4294967296); lia).
  set (et := (nth 12 pkt 0 << 8) .| nth 13 pkt 0). set (hd := air_head (e_link e) (take 6 pkt) (fCcmpPn e) et).
  assert (Hdst : length (take 6 pkt) = 6%nat) by (rewrite length_take; lia). assert (Hhd : length hd = 42%nat) by by apply air_head_len.
  erewrite run_seq by (by apply run_pool). erewrite run_seq by (by apply run_pool). erewrite run_seq by (by apply run_poolset).
  do 4 (erewrite run_seq by (by apply run_pool)).
  match goal with |- context [run (_ ≫= _) ?x] => set (w7 := x) end.
  destruct (run_post g slot ((slot + 1) mod fBeLen g) (28 + Z.of_nat (length pkt)) (fTxPoolPa g + B) w7) as (w' & Er & Hbdr & Hreg & Hkeep);
    [lia|lia|lia|lia|lia|change (2 ^ 32) with 4294967296; lia|pose proof (Z.mod_pos_bound (slot + 1) (fBeLen g)); lia|].
  erewrite run_seq by exact Er. eexists _, w'. split; [done|]. cbn [set_wp fBeWp fCcmpPn].
  assert (Hat : forall o n, peek (dw_mem w') h o n = peek (dw_mem w7) h o n) by (intros o k; apply Hkeep; left; congruence).
  assert (Hpay : length (drop 14 pkt) = (length pkt - 14)%nat) by by rewrite length_drop.
  split; [|split; [|split; [exact Hbdr|split; [exact Hreg|split; [done|split]]]]].
  - rewrite Hat. unfold w7, stored. cbn [dw_mem]. replace (28 + length pkt)%nat with (42 + length (drop 14 pkt))%nat by lia.
    do 5 (rewrite peek_other by (right; rewrite ?length_replicate; cbn [length le32]; left; lia)). rewrite peek_app. change (Z.of_nat 42) with 42.
    rewrite peek_same. rewrite peek_other by (right; right; lia). rewrite <- Hhd at 1. rewrite peek_same. unfold hd. rewrite air_parse_head by done. do 3 f_equal.
    destruct pkt as [|p0 [|p1 [|p2 [|p3 [|p4 [|p5 [|p6 [|p7 [|p8 [|p9 [|p10 [|p11 [|p12 [|p13 pay]]]]]]]]]]]]]]; cbn [length] in Hpkt; try lia.
    unfold bytes_ok in Hbytes. rewrite !Forall_cons_iff in Hbytes. unfold et. cbn [nth drop]. rewrite et_bytes by tauto. done.
  - rewrite Hat. unfold w7, stored, data_desc. cbn [dw_mem]. change 36%nat with (4 + (4 + (8 + (4 + (12 + 4)))))%nat. rewrite !peek_app. change (Z.of_nat 4) with 4. change (Z.of_nat 8) with 8. change (Z.of_nat 12) with 12.
    replace (B + 4 + 4) with (B + 8) by lia. replace (B + 8 + 8) with (B + 16) by lia. replace (B + 16 + 4) with (B + 20) by lia. replace (B + 20 + 12) with (B + 32) by lia.
    f_equal; [peek_skip; apply (peek_same _ _ _ (le32 _))|]. f_equal; [peek_skip; apply (peek_same _ _ _ (le32 _))|]. f_equal; [peek_skip; apply peek_fill; lia|].
    f_equal; [peek_skip; apply (peek_same _ _ _ (le32 _))|]. f_equal; [peek_skip; apply peek_fill; lia|]. apply (peek_same _ _ _ (le32 _)).
  - apply wrap_small. change (2 ^ 64) with (2 ^ 48 * 65536). lia.
  - intros h' o k Hap1 Hap2. rewrite Hkeep by done. unfold w7, stored. cbn [dw_mem].
    do 7 (rewrite peek_other by (eapply apart_sub; [exact Hap1|lia|rewrite ?length_replicate, ?Hhd, ?Hpay; cbn [length le32]; lia])). done.
Qed.

(** ** The ring never laps the chip *)

(** Producer and consumer counted without wrap: the chip sends a frame it was
    given; a frame is posted when the code's test finds room. *)
Inductive be_ring (n : Z) : Z -> Z -> Prop :=
| ring_start i : 0 <= i -> be_ring n i i
| ring_sent w r : be_ring n w r -> r < w -> be_ring n w (r + 1)
| ring_posted w r : be_ring n w r -> ((w mod n + 1) mod n =? r mod n) = false -> be_ring n (w + 1) r.

Lemma mod_eq_near n a b : 0 < n -> b <= a < b + n -> a mod n = b mod n -> a = b.
Proof.
  intros Hn Hab E. assert (Hz : (a - b) mod n = 0) by (rewrite Zminus_mod, E, Z.sub_diag; apply Z.mod_0_l; lia). rewrite Z.mod_small in Hz by lia. lia.
Qed.
Lemma full_test n w r : 0 < n -> r <= w <= r + n - 1 -> ((w mod n + 1) mod n =? r mod n) = bool_decide (w - r = n - 1).
Proof.
  intros Hn Hw. rewrite Z.add_mod_idemp_l by lia. case_bool_decide as H.
  - apply Z.eqb_eq. replace (w + 1) with (r + 1 * n) by lia. apply Z.mod_add. lia.
  - apply Z.eqb_neq. intros E. apply mod_eq_near in E; lia.
Qed.
Lemma be_ring_room n w r : 0 < n -> be_ring n w r -> 0 <= r <= w /\ w <= r + n - 1.
Proof.
  intros Hn H. induction H as [i Hi|w r _ IH Hlt|w r _ IH Hf]; [lia|lia|]. rewrite full_test in Hf by lia. apply bool_decide_eq_false in Hf. lia.
Qed.

(** A slot the chip still owns is never written.  Whatever the chip has sent
    so far, the code's test finds the ring full exactly when all but one of the
    slots wait to be sent, the slot it hands out otherwise is not one of those
    that wait, and what is outstanding never reaches the size of the ring. *)
Theorem tx_ring_never_laps (e : eth) (d : dma_world) (w r : Z) :
  let n := fBeLen (e_geo e) in
  0 < n <= 4096 -> be_ring n w r -> fBeWp e = w mod n -> be_chip (e_geo e) d = r mod n ->
  run (be_reserve e) d = ((w mod n, (w + 1) mod n, bool_decide (w - r = n - 1)), d) /\
  0 <= w - r <= n - 1 /\ forall i, r <= i < w -> i mod n <> w mod n.
Proof.
  intros n Hn Hr Hwp Hchip. pose proof (be_ring_room n w r ltac:(lia) Hr) as Hb. split; [|split; [lia|]].
  - rewrite run_reserve by (fold n; rewrite ?Hwp; try done; apply Z.mod_pos_bound; lia). fold n. rewrite Hwp, Hchip, full_test by lia. by rewrite Z.add_mod_idemp_l by lia.
  - intros i Hi E. symmetry in E. apply mod_eq_near in E; lia.
Qed.

(** ** The gain *)

Definition dig_run (g : Z) (fas : list Z) : Z := foldl (fun g fa => dig_next fa g) g fas.

Lemma dig_next_cases fa g : 0 <= g < 128 ->
  dig_next fa g = Z.min 0x3e (if (750 <? fa) && (g <? 0x3e) then g + 2 else if (250 <? fa) && (g <? 0x3e) then g + 1 else g + Z.sgn (0x32 - g)).
Proof.
  intros Hg. unfold dig_next, DIG_TARGET. rewrite !(wrap_small 32) by (change (2 ^ 32) with 4294967296; lia). cbv zeta.
  destruct (_ && _); [destruct (Z.ltb_spec 0x3e (g + 2)); lia|]. destruct (_ && _); [destruct (Z.ltb_spec 0x3e (g + 1)); lia|].
  destruct (Z.ltb_spec 0x32 g); [destruct (Z.ltb_spec 0x3e (g - 1)); lia|]. destruct (Z.ltb_spec g 0x32); [destruct (Z.ltb_spec 0x3e (g + 1)); lia|]. destruct (Z.ltb_spec 0x3e g); lia.
Qed.
Lemma dig_next_range fa g : 0 <= g < 128 -> Z.min g 0x32 <= dig_next fa g <= 0x3e.
Proof. intros Hg. rewrite dig_next_cases by done. repeat case_match; lia. Qed.
Lemma dig_run_range fas : forall g, 0 <= g < 128 -> Z.min g 0x32 <= dig_run g fas < 128 /\ (fas <> [] -> dig_run g fas <= 0x3e).
Proof.
  induction fas as [|fa fas IH]; intros g Hg; [cbn; split; [lia|done]|]. pose proof (dig_next_range fa g Hg) as H. destruct (IH (dig_next fa g) ltac:(lia)) as [H1 H2].
  change (dig_run g (fa :: fas)) with (dig_run (dig_next fa g) fas). split; [lia|]. intros _. destruct fas as [|x fas]; [cbn; lia|by apply H2].
Qed.
Lemma dig_quiet fas : forall g, 0 <= g <= 0x3e -> Forall (fun fa => fa <= 250) fas ->
  (g <= 0x32 -> dig_run g fas = Z.min 0x32 (g + Z.of_nat (length fas))) /\ (0x32 <= g -> dig_run g fas = Z.max 0x32 (g - Z.of_nat (length fas))).
Proof.
  induction fas as [|fa fas IH]; intros g Hg Hq; [cbn; lia|]. apply Forall_cons_1 in Hq as [Hfa Hq].
  change (dig_run g (fa :: fas)) with (dig_run (dig_next fa g) fas).
  assert (E : dig_next fa g = Z.min 0x3e (g + Z.sgn (0x32 - g))).
  { rewrite dig_next_cases by lia. destruct (Z.ltb_spec 750 fa); [lia|]. destruct (Z.ltb_spec 250 fa); [lia|]. done. }
  rewrite E. destruct (IH (Z.min 0x3e (g + Z.sgn (0x32 - g))) ltac:(lia) Hq) as [H1 H2]. cbn [length]. split; intros Hg2.
  - destruct (Z.eq_dec g 0x32) as [->|]; [rewrite H1; lia|]. rewrite H1; lia.
  - destruct (Z.eq_dec g 0x32) as [->|]; [rewrite H1; lia|]. rewrite H2; lia.
Qed.

(** The receiver's gain cannot run away and comes to rest.  From any starting
    value and whatever false-alarm counts are read, after the first adjustment the
    gain stays at or below 0x3e and never falls below the target 0x32 (or the
    start, if that was lower); and once the counts stay low, at most fifty
    adjustments later it is the target and stays there. *)
Theorem dig_settles (g : Z) (noisy quiet : list Z) :
  0 <= g < 128 -> Forall (fun fa => fa <= 250) quiet ->
  (noisy <> [] -> Z.min g 0x32 <= dig_run g noisy <= 0x3e) /\
  (50 <= Z.of_nat (length quiet) -> dig_run g (noisy ++ quiet) = DIG_TARGET).
Proof.
  intros Hg Hq. destruct (dig_run_range noisy g Hg) as [H1 H2]. split; [intros Hn; specialize (H2 Hn); lia|].
  intros Hl. assert (Ea : dig_run g (noisy ++ quiet) = dig_run (dig_run g noisy) quiet) by apply foldl_app. rewrite Ea. clear Ea H2.
  assert (Hg1 : 0 <= dig_run g noisy < 128) by lia. revert Hg1. generalize (dig_run g noisy). clear H1 Hg g. intros g1 Hg1. destruct quiet as [|fa quiet]; [cbn in Hl; lia|]. apply Forall_cons_1 in Hq as [Hfa Hq].
  change (dig_run g1 (fa :: quiet)) with (dig_run (dig_next fa g1) quiet). pose proof (dig_next_range fa g1 Hg1) as Hr.
  destruct (dig_quiet quiet (dig_next fa g1) ltac:(lia) Hq) as [Q1 Q2]. cbn [length] in Hl. unfold DIG_TARGET.
  assert (E : dig_next fa g1 = Z.min 0x3e (g1 + Z.sgn (0x32 - g1))).
  { rewrite dig_next_cases by lia. destruct (Z.ltb_spec 750 fa); [lia|]. destruct (Z.ltb_spec 250 fa); [lia|]. done. }
  destruct (Z.le_ge_cases (dig_next fa g1) 0x32) as [Hle|Hge]; [rewrite Q1 by done; lia|rewrite Q2 by done; lia].
Qed.
(** At its ceiling the gain steps down however many false alarms there are. *)
Lemma dig_at_cap fa : dig_next fa 0x3e = 0x3d.
Proof. unfold dig_next. by rewrite !andb_false_r. Qed.

(** ** Stopping *)

Definition nap_us (o : hwop) : Z := match o with Udelay us => us | _ => 0 end.
Definition exits_by (n : nat) (done_at : option nat) : bool := match done_at with Some k => (k <=? n)%nat | None => false end.
Definition naps_until (n : nat) (done_at : option nat) : nat := match done_at with Some k => Nat.min k n | None => n end.
Lemma stop_wait_spec n : forall i done_at W (dev : Device W) (w : W), let x := exec (stop_wait n i done_at) w in
  result x = exits_by (i + n) done_at /\ ops x = replicate (naps_until (i + n) done_at - i) (Udelay 5000).
Proof.
  induction n as [|n IH]; intros i done_at W dev w; cbn [stop_wait].
  - rewrite Nat.add_0_r. cbn. split; [done|]. replace (naps_until i done_at - i)%nat with 0%nat by (unfold naps_until; destruct done_at; lia). done.
  - change (match done_at with Some k => (k <=? i)%nat | None => false end) with (exits_by i done_at). destruct (exits_by i done_at) eqn:E.
    + cbn. unfold exits_by, naps_until in *. destruct done_at as [k|]; [|done]. apply Nat.leb_le in E. split; [symmetry; apply Nat.leb_le; lia|].
      replace (Nat.min k (i + S n) - i)%nat with 0%nat by lia. done.
    + cbv zeta. unfold ops, trace, result. rewrite exec_bind. unfold mdelay. change (1000 * (if 5 =? 0 then 1 else 5)) with 5000. cbn [act exec]. destruct (dev_step (Udelay 5000) w) as [[] w1].
      specialize (IH (S i) done_at W dev w1). unfold ops, trace, result in IH. destruct (exec (stop_wait n (S i) done_at) w1) as [[r w2] t]. cbn in *.
      destruct IH as [-> IH]. rewrite Nat.add_succ_r. split; [done|]. rewrite IH.
      replace (naps_until (S (i + n)) done_at - i)%nat with (S (naps_until (S (i + n)) done_at - S i)); [done|].
      unfold exits_by, naps_until in *. destruct done_at as [k|]; [apply Nat.leb_gt in E; lia|lia].
Qed.

(** Stopping never frees what the poll thread may still use, and never waits
    for ever.  The stop reports success exactly if the thread was seen to exit
    within 2000 naps of 5 ms (ten seconds); only then are the reorder windows
    freed; otherwise they are left in place.  Either way the data path is off
    afterwards: a packet from the stack is dropped without touching the chip. *)
Theorem stopData_sound (done_at : option nat) (e : eth) (W : Type) (dev : Device W) (w : W) :
  fDataMode e = true ->
  let x := exec (stopData done_at e) w in let e' := (result x).2 in
  (result x).1 = exits_by 2000 done_at /\
  ops x = replicate (naps_until 2000 done_at) (Udelay 5000) /\
  e_rx e' = (if exits_by 2000 done_at then reorderFreeAll (e_rx e) else e_rx e) /\
  Forall (fun t => exits_by 2000 done_at = true -> rt_store t = None /\ rt_active t = false) (fBa (e_rx e')) /\
  forall pkt copied, outputPacket pkt copied e' = mret e'.
Proof.
  intros Hm. cbv zeta. unfold stopData. rewrite Hm. cbn [negb]. pose proof (stop_wait_spec 2000 0 done_at W dev w) as H. cbv zeta in H. unfold ops, trace, result in *.
  rewrite exec_bind. destruct (exec (stop_wait 2000 0 done_at) w) as [[r w1] t]. cbn [fst snd] in H. destruct H as [-> H]. cbn [mret prog_ret exec fst snd e_rx fBa].
  rewrite Nat.add_0_l, Nat.sub_0_r in *. rewrite app_nil_r. split; [done|]. split; [done|]. split; [done|]. split; [|by intros].
  destruct (exits_by 2000 done_at); [|by apply List.Forall_forall]. apply Forall_fmap, List.Forall_forall. intros t' _ _. done.
Qed.

(** ** A concrete session *)

Definition data_bridge : bridge :=
  Bridge true true 0x10000 0x10ec 0xc821
    (Some (DmaSlot 0x7f000000 0x1000) :: Some (DmaSlot 0x7f010000 0xc000) :: Some (DmaSlot 0x7f020000 0x4000) :: replicate 13 None) false false 0 (-1) true.
Definition data_live : gmap Z Z := {[0 := 0x1000; 1 := 0xc000; 2 := 0x4000]}.
Lemma data_tracks : tracks data_live data_bridge.
Proof.
  split; [done|]. intros h. unfold data_live. destruct (Z.leb_spec 0 h) as [H|H].
  - unfold dma_slot. change (Z.of_nat RTW_BRIDGE_MAX_DMA) with 16. destruct (Z.leb_spec 16 h); [by rewrite !lookup_insert_ne, lookup_singleton_ne by lia|].
    destruct (Z.to_nat h) as [|[|[|n]]] eqn:E; [replace h with 0 by lia; done|replace h with 1 by lia; done|replace h with 2 by lia; done|].
    rewrite !lookup_insert_ne, lookup_singleton_ne by lia. change (None = size <$> mjoin (replicate 13 (@None rtw_dma_slot) !! n)).
    destruct (replicate 13 None !! n) as [y|] eqn:Ey; [|done]. by apply lookup_replicate in Ey as [-> _].
  - by rewrite !lookup_insert_ne, lookup_singleton_ne by lia.
Qed.
Definition ex_data_cfg : data_cfg := DataCfg' our_mac ap_mac 4 9 (DataCfg 0 0 8 16 48 1 4 11478 24 2).
Lemma ex_cfg_range : cfg_range ex_data_cfg.
Proof. split; [done|]. repeat constructor; cbn; lia. Qed.
Definition eth0 : eth :=
  Eth (Geometry (0, 0) 0 0 0 0 0 0 0 None 0 0) (LinkParams (replicate 6 0) (replicate 6 0) 0 7) true true false false false 0 0 1
    (Dig false 0x20 0 0 0) 0 rx_state0 false (DCnt 0 0 0 0 0 0 0 0 0 0 0 0xff).
Definition quiet_env : kenv := KEnv true (fun _ => (true, true)) 1 1 1 (fun _ => false).
Definition arp_packet : list Z := host_mac ++ our_mac ++ [0x08; 0x06; 0; 1; 8; 0].

Lemma data_session_safe_witness : exists m,
  mem_safe_if (idx_ok 4) (data_session data_bridge ex_data_cfg true eth0 [Packet arp_packet true; Pass quiet_env 0]) m
    (fun r m' => m' = m /\ match r with Some e' => eth_live m e' | None => True end).
Proof. exists data_live. apply (data_session_safe data_bridge data_live ex_data_cfg); [apply data_tracks|apply ex_cfg_range|apply rx_ok0]. Defined.

Lemma ccmp_pn_fresh_witness :
  let used := pns 2 48 (ops (exec (data_session data_bridge ex_data_cfg true eth0 [Packet arp_packet true; Packet arp_packet true]) (∅ : regfile))) in
  used = [1; 2] /\ NoDup used.
Proof.
  pose proof (ccmp_pn_fresh data_bridge ex_data_cfg true eth0 [Packet arp_packet true; Packet arp_packet true] regfile regfile_dev ∅ ex_cfg_range ltac:(cbn; lia)) as H.
  split; [vm_compute; reflexivity|apply H].
Defined.

Definition eth1 : eth :=
  Eth (Geometry (0, 0) 8 16 48 1 4 11478 24 (Some 2) 0x7f020000 2048) (LinkParams our_mac ap_mac 4 9) true true true false false 7 0 5
    (Dig false 0x20 0 0 0) 0 rx_state0 false (DCnt 0 0 0 0 0 0 0 0 0 0 0 0xff).
(** The chip has read up to slot 3. *)
Definition dma_world1 : dma_world := DmaWorld (rf_write ∅ W32 RTK_PCI_TXBD_IDX_BEQ_K (3 << 16)) ∅.
Lemma tx_frame_in_slot_witness : exists e' w', run (txEthFrame arp_packet eth1) dma_world1 = (e', w') /\
  air_parse (peek (dw_mem w') 2 (7 * 2048 + 48) (28 + 18)) = Some (ap_mac, our_mac, host_mac, 5, [0x08; 0x06; 0; 1; 8; 0]).
Proof.
  destruct (tx_frame_in_slot eth1 arp_packet dma_world1 2) as (e' & w' & H1 & H2 & _);
    [reflexivity|discriminate|cbn; lia|cbn; lia|cbn; lia|reflexivity|cbn; lia|reflexivity|reflexivity| |cbn; lia|cbn; lia|cbn; lia|vm_compute; discriminate|vm_compute; discriminate|].
  - apply List.Forall_forall. intros x Hx. cbn in Hx. unfold byte_ok. lia.
  - exists e', w'. split; [exact H1|exact H2].
Defined.

Lemma tx_ring_never_laps_witness : run (be_reserve eth1) dma_world1 = ((7, 0, false), dma_world1) /\ 0 <= 7 - 3 <= 7.
Proof.
  destruct (tx_ring_never_laps eth1 dma_world1 7 3) as (H1 & H2 & _); [cbn; lia| |reflexivity|vm_compute; reflexivity|split; [exact H1|exact H2]].
  apply (ring_posted 8 6); [|reflexivity]. apply (ring_posted 8 5); [|reflexivity]. apply (ring_posted 8 4); [|reflexivity].
  apply (ring_posted 8 3); [|reflexivity]. apply ring_start. lia.
Defined.

Lemma dig_settles_witness : dig_run 0x7f ([900; 900] ++ replicate 50 3) = DIG_TARGET /\ dig_run 0x7f [900; 900] <= 0x3e.
Proof.
  destruct (dig_settles 0x7f [900; 900] (replicate 50 3)) as [H1 H2]; [lia|by apply Forall_replicate|].
  split; [apply H2; cbn; lia|apply H1; discriminate].
Defined.

Lemma stopData_sound_witness :
  (result (exec (stopData (Some 3%nat) eth1) (∅ : regfile))).1 = true /\ ops (exec (stopData (Some 3%nat) eth1) (∅ : regfile)) = replicate 3 (Udelay 5000).
Proof. destruct (stopData_sound (Some 3%nat) eth1 regfile regfile_dev ∅ eq_refl) as (H1 & H2 & _). split; [exact H1|exact H2]. Defined.
