(* ===== verification/Server.v ===== *)
(** * Server: the driver object's life and its clients (RTW88Server and
    RTW88ServerUserClient of server/RTW88Server.cpp)

    Starting and stopping the data path and the object itself, the statistics, and
    the external methods a client calls.  Proved: the driver's own hand-over to the
    data path is always accepted; no method of the bridge frees or moves a live DMA
    buffer or writes a ring-base register except through the table
    ([bridge_call_guarded], of which Abi makes the statement about every request);
    tearing the object down quiesces the chip before a buffer is given back, and
    never frees what the poll thread may still use; the statistics stay consistent
    across resets. *)
From stdpp Require Import gmap.
From S2P Require Import Prelude Hw Regs Dev Aes Trx Sec Wpa Handshake Scan Assoc Bringup Kctl Reorder Deliver RxFrame Bridge DataPath.
Open Scope Z_scope.
Open Scope rtw_scope.

(** ** State *)

(** The file's static counters, which outlive any one data path. *)
Record globals := Globals { gl_parse : parse_counters; gl_reord : reord_counters; gl_rx : rx_counters; gl_cnt : data_counters; gl_fa : Z; gl_igi : Z }.
Definition globals_of (e : eth) : globals :=
  Globals (rx_parse (e_rx e)) (rx_reord (e_rx e)) (rx_cnt (e_rx e)) (e_cnt e) (gDigFa (e_dig e)) (gDigIgi (e_dig e)).

(** [fEth]: the published interface, if any; without one the counters rest in
    [sv_glob].  [sv_leaked]: interfaces whose poll thread never exited. *)
Record server := Server { sv_bridge : bridge; fEth : option eth; sv_glob : globals; fDataStopClean : bool; sv_leaked : nat }.
Definition set_bridge (b : bridge) (s : server) : server := Server b (fEth s) (sv_glob s) (fDataStopClean s) (sv_leaked s).
Definition sv_globals (s : server) : globals := match fEth s with Some e => globals_of e | None => sv_glob s end.

(** ** The interface object *)

(** A new object: zeroed memory and the members' initialisers, then [prepare]. *)
Definition eth_new (g : globals) : eth :=
  Eth (Geometry (0, 0) 0 0 0 0 0 0 0 None 0 0) (LinkParams (replicate 6 0) (replicate 6 0) 0 7) false false false false false 0 0 1
    (Dig false 0x20 0 (gl_fa g) (gl_igi g)) 0 (RxState (replicate RTW_BA_TID_NUM reorder_tid0) (gl_parse g) (gl_reord g) (gl_rx g)) false (gl_cnt g).
Definition prepare (mac : list Z) (e : eth) : eth :=
  Eth (e_geo e) (LinkParams mac (fBssid (e_link e)) (fRate (e_link e)) (fRateId (e_link e))) (fRunning e) (fNetif e) (fDataMode e) (fRxStop e) (fRxDone e)
    (fBeWp e) (fRxRp e) (fCcmpPn e) (e_dig e) (fHealthLastNs e) (e_rx e) (fPendingFlush e) (e_cnt e).

(** What the network stack grants an interface that starts: the superclass, the
    lock, the dictionary, the attachment. *)
Record start_env := StartEnv { se_super : bool; se_lock : bool; se_dict : bool; se_attach_if : bool }.
Definition eth_start (v : start_env) (e : eth) : option eth :=
  if se_super v && se_lock v && se_dict v && se_attach_if v then
    Some (Eth (e_geo e) (e_link e) (fRunning e) true (fDataMode e) (fRxStop e) (fRxDone e) (fBeWp e) (fRxRp e) (fCcmpPn e) (e_dig e) (fHealthLastNs e) (e_rx e) (fPendingFlush e) (e_cnt e))
  else None.

(** ** The data path *)

(** [da_new], [da_init], [da_attach], [da_thread]: whether the object can be made,
    initialised, attached, and its poll thread started; [da_cap]: where the PCI
    Express capability is. *)
Record data_env := DataEnv { da_cap : Z; da_new : bool; da_init : bool; da_attach : bool; da_start : start_env; da_thread : bool }.
Definition dataStart (c : data_cfg) (v : data_env) (s : server) : prog (ioreturn * server) :=
  match fEth s with
  | Some _ => mret (kIOReturnBusy, s)
  | None =>
      disableAspm (sv_bridge s) (da_cap v);;
      if negb (da_new v) then mret (kIOReturnNoMemory, s) else
      if negb (da_init v) then mret (kIOReturnError, s) else
      let e := prepare (dc_mac c) (eth_new (sv_glob s)) in
      if negb (da_attach v) then mret (kIOReturnError, s) else
      match eth_start (da_start v) e with
      | None => mret (kIOReturnError, s)
      | Some e =>
          r ← startData (sv_bridge s) c (da_thread v) e;
          match r with
          | None => mret (kIOReturnError, s)
          | Some e => mret (kIOReturnSuccess, Server (sv_bridge s) (Some e) (sv_glob s) (fDataStopClean s) (sv_leaked s))
          end
      end
  end.

Definition dataStop (done_at : option nat) (s : server) : prog (ioreturn * server) :=
  match fEth s with
  | None => mret (kIOReturnSuccess, s)
  | Some e =>
      act (DataLink false);;
      '(clean, e) ← stopData done_at e;
      mret (kIOReturnSuccess, Server (sv_bridge s) None (globals_of e) (fDataStopClean s && (clean : bool)) (if clean then sv_leaked s else S (sv_leaked s)))
  end.

Definition dataLink (up : bool) (s : server) : prog (ioreturn * server) :=
  match fEth s with
  | None => mret (kIOReturnNotReady, s)
  | Some _ => act (DataLink up);; mret (kIOReturnSuccess, s)
  end.

(** The 21 values, and what is reset. *)
Definition stats_out (g : globals) : list Z :=
  let d := gl_cnt g in let r := gl_rx g in
  [gDtx d; gDtxDrop d; gDtxBytes d; gDrx r; gDrxBytes d; gDrxRetry r; gDrxMcs d; gDrxMaxDepth d; gAddba r; gDrxErr d; gDrxParse (gl_parse g); gDrxGap r; gDrxBack r;
   gMiss r; gRxRingFull d; gRateSum d; gRateN d; gRateMax d; gRetryDup r; gTidMask r; gBigJump r].
Definition stats_reset (g : globals) : globals :=
  Globals (PCnt 0 0 0 0 0 0) (RCnt 0 0 0 0 0)
    (RxCnt 0 0 0 0 0 0 0 0 (gLastSeq (gl_rx g)) (gLastSeqTid (gl_rx g)) (gAddba (gl_rx g)) (gReordActiveMask (gl_rx g)))
    (DCnt 0 0 0 0 0 0 0 0 0 0 0 0xff) (gl_fa g) (gl_igi g).
Definition put_globals (g : globals) (e : eth) : eth :=
  let d := e_dig e in
  Eth (e_geo e) (e_link e) (fRunning e) (fNetif e) (fDataMode e) (fRxStop e) (fRxDone e) (fBeWp e) (fRxRp e) (fCcmpPn e)
    (Dig (fDigInit d) (fDigIgi d) (fDigLastNs d) (gl_fa g) (gl_igi g)) (fHealthLastNs e) (RxState (fBa (e_rx e)) (gl_parse g) (gl_reord g) (gl_rx g)) (fPendingFlush e) (gl_cnt g).
Definition set_globals (g : globals) (s : server) : server :=
  match fEth s with
  | Some e => Server (sv_bridge s) (Some (put_globals g e)) (sv_glob s) (fDataStopClean s) (sv_leaked s)
  | None => Server (sv_bridge s) None g (fDataStopClean s) (sv_leaked s)
  end.
Definition dataStats (s : server) : ioreturn * list Z * server :=
  (kIOReturnSuccess, stats_out (sv_globals s), set_globals (stats_reset (sv_globals s)) s).

(** ** The object itself *)

(** [vendor], [device], [bar]: config space and the mapping, if it can be had;
    [locks]: whether the three locks can; [types]: for each interrupt the nub
    lists, in order, whether it is message signalled. *)
Record probe := Probe { pr_super : bool; pr_pci : bool; pr_cap : Z; pr_bar : option Z; pr_locks : bool; pr_types : list bool }.
Fixpoint msi_index (i : Z) (types : list bool) : Z :=
  match types with [] => -1 | t :: types => if (t : bool) then i else msi_index (i + 1) types end.
(** The bridge a successful start leaves; [None]: the start is refused. *)
Definition server_start (p : probe) : prog (option bridge) :=
  if negb (pr_super p) || negb (pr_pci p) then mret None else
  vendor ← act (CfgRead W16 0x00);
  device ← act (CfgRead W16 0x02);
  act (PciPower true true);;
  let b := Bridge true false 0 (u16 vendor) (u16 device) (replicate RTW_BRIDGE_MAX_DMA None) false false 0 (-1) false in
  disableAspm b (pr_cap p);;
  match pr_bar p with
  | None => mret None
  | Some len =>
      if negb (pr_locks p) then mret None else
      mret (Some (Bridge true true len (u16 vendor) (u16 device) (replicate RTW_BRIDGE_MAX_DMA None) false false 0 (msi_index 0 (pr_types p)) false))
  end.

(** The release loop, slot by slot; [DmaFree h]: the buffer of slot [h] goes back
    to the system. *)
Fixpoint release_slots (h : Z) (l : list (option rtw_dma_slot)) : prog (list (option rtw_dma_slot)) :=
  match l with
  | [] => mret []
  | x :: l =>
      (match x with Some _ => act (DmaFree h) | None => mret tt end);;
      l ← release_slots (h + 1) l;
      mret (None :: l)
  end.

(** [stop]: what is left of the object, and of the statics of kctl.c and trx.c,
    which outlive it. *)
Definition server_stop (done_at : option nat) (s : server) (k : kctl) : prog (server * kctl) :=
  '(_, s) ← dataStop done_at s;
  (if fMmio (sv_bridge s) then trx_free else mret tt);;
  let k := rtw_kctl_unload_reset k in
  let k := Kctl false (k_station k) (k_scan k) (k_link k) (g_scan_dev k) (g_scan_active k) in
  '(_, b) ← irqDisable (sv_bridge s);
  let b := set_irq false (fIrqSrc b) b in
  if fDataStopClean s then
    slots ← release_slots 0 (fDma b);
    let b := Bridge (fPci b) false (fBarLen b) (fVendor b) (fDevice b) slots (fWorkLoop b) (fIrqSrc b) (fIrqCount b) (fMsiIndex b) (fMacOn b) in
    mret (set_bridge b s, set_k_trx (trx_unload_reset (k_trx k)) k)
  else mret (set_bridge b s, k).


(** ** Clients *)

Definition RTW_BRIDGE_ABI_VERSION : Z := 14.
Definition RTW_BRIDGE_PING_MAGIC : Z := 0x52545742.
(** The external methods of the bridge, 0 to 17, with what the kernel answers
    each; the control methods, 18 to 24, and the dispatch of all of them over the
    bytes of a request are in Abi. *)
Inductive client_call :=
| CPing
| CRegRead (off w : Z) | CRegWrite (off w v : Z)
| CCfgRead (off w : Z) | CCfgWrite (off w v : Z)
| CDmaAlloc (n : Z) (mem : option (Z * Z)) | CDmaFree (handle : Z)
| CRegWriteDma (reg handle off w : Z)
| CSetMacPower (on : Z)
| CIrqEnable (wl src add : bool) | CIrqDisable | CIrqWait (naps : list (list Z * wake)) | CIrqStatus (off w : Z)
| CPower (mem_enable busmaster : Z)
| CDataStart (c : data_cfg) (v : data_env) | CDataStop (done_at : option nat) | CDataLink (up : Z) | CDataStats.

Definition outs (v : option Z) : list Z := match v with Some v => [v] | None => [] end.
(** The method's code, what it puts out, and the object afterwards. *)
Definition client_do (o : client_call) (s : server) : prog (ioreturn * list Z * server) :=
  let b := sv_bridge s in
  match o with
  | CPing => mret (kIOReturnSuccess, [RTW_BRIDGE_PING_MAGIC; RTW_BRIDGE_ABI_VERSION; (fVendor b << 16) .| fDevice b; fBarLen b], s)
  | CRegRead off w => '(rc, v) ← regRead b (u32 off) (u32 w); mret (rc, outs v, s)
  | CRegWrite off w v => rc ← regWrite b (u32 off) (u32 w) v; mret (rc, [], s)
  | CCfgRead off w => '(rc, v) ← cfgRead b (u32 off) (u32 w); mret (rc, outs v, s)
  | CCfgWrite off w v => rc ← cfgWrite b (u32 off) (u32 w) v; mret (rc, [], s)
  | CDmaAlloc n mem =>
      '(rc, r, b) ← dmaAlloc b n mem;
      let '(h, pa) := default (0, 0) r in
      mret (rc, [h; pa .& 0xffffffff; pa >> 32], set_bridge b s)
  | CDmaFree _ => mret (kIOReturnUnsupported, [], s)
  | CRegWriteDma reg handle off w => rc ← regWriteDma b (u32 reg) handle off (u32 w); mret (rc, [], s)
  | CSetMacPower on => mret (kIOReturnSuccess, [], set_bridge (setMacPower (nz on) b) s)
  | CIrqEnable wl src add => '(rc, b) ← irqEnable wl src add b; mret (rc, [], set_bridge b s)
  | CIrqDisable => '(rc, b) ← irqDisable b; mret (rc, [], set_bridge b s)
  | CIrqWait naps => let '(d, b) := irqWait naps b in mret (kIOReturnSuccess, [d], set_bridge b s)
  | CIrqStatus off w => '(rc, v) ← irqStatus b (u32 off) (u32 w); mret (rc, outs v, s)
  | CPower me bm => rc ← power (nz me) (nz bm); mret (rc, [], s)
  | CDataStart c v => '(rc, s) ← dataStart c v s; mret (rc, [], s)
  | CDataStop done_at => '(rc, s) ← dataStop done_at s; mret (rc, [], s)
  | CDataLink up => '(rc, s) ← dataLink (nz up) s; mret (rc, [], s)
  | CDataStats => let '(rc, l, s) := dataStats s in mret (rc, l, s)
  end.

(** A connection: only for an administrator, and only to this object. *)
Definition newUserClient (alloc admin super attach started : bool) : ioreturn :=
  if negb alloc then kIOReturnNoMemory else
  if negb (admin && super) || negb attach || negb started then kIOReturnError else kIOReturnSuccess.
Definition clientMemoryForType (b : bridge) (type : Z) : ioreturn * option rtw_dma_slot :=
  match dmaDescriptorForHandle b type with Some s => (kIOReturnSuccess, Some s) | None => (kIOReturnBadArgument, None) end.

(** ** The driver's own hand-over *)

(** The geometry a connect hands over, with what the link negotiated. *)
Definition handover_cfg (d : rtw_dev) (t : trx_state) (mac bssid : list Z) (rate rate_id : Z) : data_cfg :=
  DataCfg' mac bssid rate rate_id (trx_fill_data_cfg d t).

(** C18: the hand-over from the in-kernel connect to the data path cannot be
    refused.  If the rings are up, with a receive ring, and the table holds the
    buffers they live in, then the geometry the driver fills in passes every
    check of the start, on every chip; and it names the receive ring of the depth
    the chip was told of. *)
Theorem handover_accepted (d : rtw_dev) (t : trx_state) (m : gmap Z Z) (b : bridge) (mac bssid : list Z) (rate rate_id : Z) (e : eth)
    (W : Type) (dev : Device W) (w : W) :
  trx_chip d -> trx_up t m -> g_rx_ok t = true -> tracks m b -> fMmio b = true ->
  length mac = 6%nat -> length bssid = 6%nat -> rx_ok (e_rx e) ->
  let c := handover_cfg d t mac bssid rate rate_id in
  exists e', result (exec (startData b c true e) w) = Some e' /\ eth_live m e' /\ fRxN (e_geo e') = g_rx_n t /\ fCcmpPn e' = 1 /\ fDataMode e' = true.
Proof.
  intros [C1 C2 C3] Hup Hrx Ht Hmm Hmac Hbss He c.
  pose proof (tu_rx t m Hup) as Hr. rewrite Hrx in Hr. destruct Hr as (Hn & _ & _ & Hdata).
  pose proof (ring_up t m RTW_TX_QUEUE_BE _ Hup eq_refl) as (_ & Hoff & Hlen & _). cbn [fst snd] in Hoff, Hlen.
  assert (Hin : g_rx_n t = 64 \/ g_rx_n t = 48 \/ g_rx_n t = 32 \/ g_rx_n t = 16 \/ g_rx_n t = 8).
  { unfold rx_try, USCAN_RX_DESC_NUM in Hn. set_unfold in Hn. tauto. }
  assert (Hres : forall h n, m !! h = Some n -> u32 h = h /\ exists x, dmaResolve b h = Some x /\ d_size x = n).
  { intros h n Hm. destruct (tracks_slot _ _ _ _ Ht Hm) as (Hh & s & Hs & <-). split; [apply wrap_small; change (2 ^ 32) with 4294967296; lia|].
    eexists. unfold dmaResolve. rewrite Hs. done. }
  destruct (Hres _ _ (tu_txbd t m Hup)) as (U1 & x1 & R1 & S1). destruct (Hres _ _ Hdata) as (U2 & x2 & R2 & S2).
  destruct (Hres _ _ (tu_pool t m Hup)) as (U3 & x3 & R3 & S3).
  assert (Hcheck : cfg_check b (dc_rings c) = Some (x1, x2, x3)).
  { unfold cfg_check, c, handover_cfg. cbn [dc_rings trx_fill_data_cfg cfg_bd_sz cfg_desc_sz cfg_be_len cfg_rx_nslots cfg_rx_desc_sz cfg_rx_buf_size cfg_txbd_handle cfg_txbd_be_off cfg_rxdata_handle cfg_txpool_handle].
    rewrite C1, C3, Hoff, Hlen, U1, U2, U3, R1, R2, R3. cbn [mbind option_bind]. rewrite S1, S2, S3.
    destruct Hin as [-> |[-> |[-> |[-> | ->]]]]; by vm_compute. }
  assert (Hrange : cfg_range c).
  { split; [done|]. unfold c, handover_cfg. cbn [dc_rings trx_fill_data_cfg cfg_bd_sz cfg_desc_sz cfg_be_len cfg_rx_nslots cfg_rx_desc_sz cfg_rx_buf_size cfg_txbd_handle cfg_txbd_be_off cfg_rxdata_handle cfg_txpool_handle].
    rewrite C1, C3, Hoff, Hlen. change (2 ^ 32) with 4294967296.
    assert (Hw : forall x, 0 <= u32 x < 4294967296) by (intros x; by apply (wrap_range 32)).
    repeat (apply List.Forall_cons; [first [apply Hw|lia|by (split; vm_compute; congruence)]|]). apply List.Forall_nil. }
  destruct (safe_exec no_mem _ w _ (data_start_safe m b c true e Ht Hrange He)) as [_ H].
  destruct (result (exec (startData b c true e) w)) as [e'|]; [by exists e'|]. destruct H as [H|[H|H]]; congruence.
Qed.

(** ** What clients can do *)

Definition touches_desa (w : width) (a : Z) : bool := existsb (fun k => desa_reg (a + Z.of_nat k)) (seq 0 (Z.to_nat (bytes_of w))).
(** Everything but a write to a ring-base register. *)
Definition off_base (o : hwop) : bool := match o with Write w a _ => negb (touches_desa w a) | _ => true end.
(** The low word of a base; each is eight bytes. *)
Definition base_word (a : Z) : bool := desa_reg a && (a .& 7 =? 0).
(** What [regWriteDma] writes is a base, aimed as one, or none. *)
Definition aimed_well (reg w : Z) : bool := base_word reg || negb (desa_reg reg || ((w =? 8) && desa_reg (reg + 4))).
(** An address inside a live buffer. *)
Definition in_some_buffer (b : bridge) (v : Z) : bool :=
  existsb (fun o => match o with Some s => (paddr s <=? v) && (v <? paddr s + size s) | None => false end) (fDma b).
(** What method [o] may have the chip do: only [regWriteDma] writes ring bases; the
    low word gets the address at the offset asked for, inside the buffer asked for,
    the high word zero; named anything but a base's low word, it is still confined
    to such addresses and zero, but not to where they make sense. *)
Definition guard (b : bridge) (o : client_call) (op : hwop) : bool :=
  off_base op ||
  match o, op with
  | CRegWriteDma reg h off w, Write W32 a v =>
      if aimed_well (u32 reg) (u32 w) then
        ((a =? u32 reg) && (match dma_slot b h with Some x => (v =? paddr x + off) && (off <? size x) | None => false end)) ||
        ((a =? u32 reg + 4) && (v =? 0))
      else (v =? 0) || in_some_buffer b v
  | _, _ => false
  end.
Lemma off_guard b o op : off_base op = true -> guard b o op = true.
Proof. unfold guard. by intros ->. Qed.
(** The driver object between calls. *)
Record sv_ok (s : server) : Prop := {
  so_len : length (fDma (sv_bridge s)) = RTW_BRIDGE_MAX_DMA;
  so_low : slots_low (sv_bridge s);
  so_bar : fBarLen (sv_bridge s) < 2 ^ 32;
}.
(** Arguments are unsigned; the kernel grants memory as it was asked to. *)
Definition call_ok (o : client_call) : Prop :=
  match o with
  | CRegWriteDma reg handle off w => 0 <= handle /\ 0 <= off
  | CDmaAlloc n (Some (pa, seg)) => 0 <= n /\ 0 <= pa /\ pa + n <= 2 ^ 32
  | CDmaAlloc n None => 0 <= n
  | _ => True
  end.
Definition keeps (b b' : bridge) : Prop := forall h x, 0 <= h -> dma_slot b h = Some x -> dma_slot b' h = Some x.

Lemma keeps_same b b' : fDma b' = fDma b -> keeps b b'.
Proof. intros E h x _. unfold dma_slot. by rewrite E. Qed.
Lemma ok_same s s' : fDma (sv_bridge s') = fDma (sv_bridge s) -> fBarLen (sv_bridge s') = fBarLen (sv_bridge s) -> sv_ok s -> sv_ok s'.
Proof. intros E1 E2 [H1 H2 H3]. split; [by rewrite E1| |by rewrite E2]. intros h x Hx. apply (H2 h). unfold dma_slot in *. by rewrite <- E1. Qed.

(** After a call: nothing freed, nothing moved, still sound. *)
Definition after (s : server) (r : ioreturn * list Z * server) : Prop := keeps (sv_bridge s) (sv_bridge r.2) /\ sv_ok r.2.
Lemma after_same s rc l s' : sv_ok s -> fDma (sv_bridge s') = fDma (sv_bridge s) -> fBarLen (sv_bridge s') = fBarLen (sv_bridge s) -> after s (rc, l, s').
Proof. intros Hs E1 E2. split; cbn [snd]; [by apply keeps_same|by eapply ok_same]. Qed.

Lemma slot_member b h x : 0 <= h -> dma_slot b h = Some x -> Some x ∈ fDma b.
Proof.
  intros Hh H. unfold dma_slot in H. destruct (_ <=? h); [done|]. destruct (fDma b !! Z.to_nat h) as [o|] eqn:E; [|done]. cbn in H. subst o. by eapply list_elem_of_lookup_2.
Qed.
Lemma in_buffer_true b h x v : 0 <= h -> dma_slot b h = Some x -> paddr x <= v < paddr x + size x -> in_some_buffer b v = true.
Proof.
  intros Hh Hx Hv. unfold in_some_buffer. apply existsb_exists. exists (Some x). split; [by apply list_elem_of_In, (slot_member b h)|lia].
Qed.

Lemma confined_off b o : confined b o = true -> off_base o = true.
Proof.
  destruct o; try done. cbn [confined off_base]. intros H. apply andb_prop in H as [_ H].
  apply negb_true_iff. unfold touches_desa. rewrite forallb_forall in H. apply not_true_is_false. intros Ht. apply existsb_exists in Ht as (k & Hk & Hd). specialize (H k Hk). by rewrite Hd in H.
Qed.

Lemma regRead_off b off w : safe off_base (regRead b off w) (fun _ => True).
Proof.
  unfold regRead. destruct (negb _); [by apply safe_ret|]. destruct (reg_width w) as [wd|]; [|by apply safe_ret]. destruct (negb _); [by apply safe_ret|].
  apply safe_bind_any; [destruct wd; [by apply safe_read8|by apply safe_read16|by apply safe_read32]|]. intros v. by apply safe_ret.
Qed.
Lemma regWrite_off b off w v : 0 <= off -> safe off_base (regWrite b off w v) (fun _ => True).
Proof.
  intros Hoff. unfold regWrite. destruct (negb _); [by apply safe_ret|]. destruct (reg_width w) as [wd|] eqn:E; [|by apply safe_ret]. apply reg_width_bytes in E as ->.
  destruct (reg_in b off (bytes_of wd)) eqn:Ei; [|by apply safe_ret]. cbn [negb]. destruct (desa_reg off) eqn:Ed; [by apply safe_ret|].
  eapply safe_weaken; [by apply (raw_confined b wd)|apply confined_off|done].
Qed.
Lemma regWriteDma_guard b reg h off w : 0 <= h -> 0 <= off -> slots_low b -> fBarLen b < 2 ^ 32 ->
  safe (guard b (CRegWriteDma reg h off w)) (regWriteDma b (u32 reg) h off (u32 w)) (fun _ => True).
Proof.
  intros Hh Hoff Hlow Hbar. unfold regWriteDma. destruct (_ <=? h); [by apply safe_ret|]. destruct (_ && _) eqn:Ew; [by apply safe_ret|].
  destruct (dma_slot b h) as [x|] eqn:Ex; [|by apply safe_ret]. destruct (Z.leb_spec (size x) off) as [|Hlt]; [by apply safe_ret|]. destruct (negb (fMmio b)); [by apply safe_ret|].
  pose proof (wrap_range 32 reg) as Hreg. destruct (_ || nz _) eqn:Eb; [by apply safe_ret|]. apply orb_false_elim in Eb as [Eb%Z.ltb_ge Em].
  unfold nz in Em. apply negb_false_iff, Z.eqb_eq in Em. destruct (Hlow _ _ Ex) as (P1 & P2 & P3). cbv zeta.
  rewrite (wrap_small 64 (paddr x + off)) by (change (2 ^ 64) with (2 ^ 32 * 2 ^ 32); lia).
  assert (Hin : in_some_buffer b (paddr x + off) = true) by (eapply in_buffer_true; [exact Hh|exact Ex|lia]).
  assert (Hu : u32 (paddr x + off) = paddr x + off) by (apply wrap_small; lia).
  set (P := guard b (CRegWriteDma reg h off w)).
  assert (Hlow' : P (Write W32 (u32 reg) (paddr x + off)) = true).
  { unfold P, guard. apply orb_true_iff. right. destruct (aimed_well _ _); [|by rewrite Hin, orb_true_r]. rewrite Ex, !Z.eqb_refl. destruct (Z.ltb_spec off (size x)); [done|lia]. }
  destruct (u32 w =? 4) eqn:E4; [destruct (_ <? _); [by apply safe_ret|]|].
  - unfold rawRegWrite, hw_write32. cbn [Z.eqb Pos.eqb]. rewrite !Hu. apply safe_bind_any; [by apply (safe_op P (Write W32 _ _) (fun _ => True))|]. intros _. by apply safe_ret.
  - cbn [negb andb] in Ew. apply negb_false_iff in Ew. rewrite Ew in Eb.
    assert (Hm : u32 ((paddr x + off) .& 0xffffffff) = paddr x + off) by (change 0xffffffff with (Z.ones 32); rewrite Z.land_ones by lia; rewrite (Z.mod_small (paddr x + off)) by lia; exact Hu).
    assert (Hz : u32 ((paddr x + off) >> 32) = 0) by (rewrite Z.shiftr_div_pow2 by lia; rewrite Z.div_small by lia; done).
    assert (H4 : u32 (u32 reg + 4) = u32 reg + 4) by (apply wrap_small; lia).
    assert (Hhigh : P (Write W32 (u32 reg + 4) 0) = true).
    { unfold P, guard. apply orb_true_iff. right. destruct (aimed_well _ _); [|done]. by rewrite !Z.eqb_refl, orb_true_r. }
    unfold rawRegWrite, hw_write32. cbn [Z.eqb Pos.eqb]. rewrite !Hm, !Hz, H4. change (u32 0) with 0. rewrite Hu.
    repeat (apply safe_bind_any; [|intros _]); first [by apply (safe_op P (Write W32 _ _) (fun _ => True))|by apply safe_ret].
Qed.

Lemma alloc_after s n mem : sv_ok s -> call_ok (CDmaAlloc n mem) -> safe off_base (dmaAlloc (sv_bridge s) n mem)
  (fun r => keeps (sv_bridge s) r.2 /\ sv_ok (set_bridge r.2 s)).
Proof.
  intros Hs Hc. assert (Hid : keeps (sv_bridge s) (sv_bridge s) /\ sv_ok (set_bridge (sv_bridge s) s)) by (split; [by apply keeps_same|by apply (ok_same s)]).
  unfold dmaAlloc. destruct ((n =? 0) || _) eqn:En; [by apply safe_ret|]. apply orb_false_elim in En as [En%Z.eqb_neq _]. destruct Hs as [Hl Hlow Hbar].
  pose proof (free_slot_spec (fDma (sv_bridge s)) 0) as Hf. destruct (free_slot _ 0) as [i|]; [|by apply safe_ret]. destruct mem as [[pa seg]|]; [|by apply safe_ret].
  destruct ((pa =? 0) || _) eqn:Ep; [by apply safe_ret|]. apply orb_false_elim in Ep as [Ep%Z.eqb_neq _]. destruct Hc as (Hn & Hpa & Hsum).
  destruct Hf as [Hi Hfree]. rewrite Z.sub_0_r in Hfree. pose proof Hl as Hl'. unfold RTW_BRIDGE_MAX_DMA in Hl'.
  assert (Hsl : forall h', 0 <= h' -> dma_slot (set_fDma (<[Z.to_nat i := Some (DmaSlot pa n)]> (fDma (sv_bridge s))) (sv_bridge s)) h' = if h' =? i then Some (DmaSlot pa n) else dma_slot (sv_bridge s) h')
    by (intros h' Hh'; apply dma_slot_set; [done|lia|done]).
  apply safe_bind_any; [by apply (safe_op off_base (MemSet i 0 n 0) (fun _ => True))|]. intros _. apply safe_ret. cbn [snd]. split.
  - intros h x Hh Hx. rewrite Hsl by done. destruct (Z.eqb_spec h i) as [->|]; [|done]. exfalso. unfold dma_slot in Hx. destruct (_ <=? i); [done|]. by rewrite Hfree in Hx.
  - split; cbn [set_bridge sv_bridge set_fDma fDma fBarLen]; [by rewrite length_insert| |done]. intros h x Hx.
    destruct (Z.leb_spec 0 h) as [Hh|Hh].
    + change (dma_slot (set_fDma (<[Z.to_nat i := Some (DmaSlot pa n)]> (fDma (sv_bridge s))) (sv_bridge s)) h = Some x) in Hx. rewrite Hsl in Hx by done.
      destruct (Z.eqb_spec h i) as [->|]; [|by apply (Hlow h)]. injection Hx as <-. cbn. lia.
    + assert (E : forall b, dma_slot b h = mjoin (fDma b !! 0%nat)).
      { intros b. unfold dma_slot. change (Z.of_nat RTW_BRIDGE_MAX_DMA) with 16. destruct (Z.leb_spec 16 h); [lia|]. by replace (Z.to_nat h) with 0%nat by lia. }
      assert (E0 : forall b, dma_slot b 0 = mjoin (fDma b !! 0%nat)) by done.
      rewrite E, <- E0 in Hx. change (dma_slot (set_fDma (<[Z.to_nat i := Some (DmaSlot pa n)]> (fDma (sv_bridge s))) (sv_bridge s)) 0 = Some x) in Hx. rewrite Hsl in Hx by lia.
      destruct (Z.eqb_spec 0 i); [injection Hx as <-; cbn; lia|by apply (Hlow 0)].
Qed.

(** Code that makes no register write at all. *)
Definition no_write (o : hwop) : bool := match o with Write _ _ _ | RegWriteDma _ _ _ _ => false | _ => true end.
Lemma no_write_off o : no_write o = true -> off_base o = true.
Proof. by destruct o. Qed.
Lemma aspm_quiet b cap : safe no_write (disableAspm b cap) (fun _ => True).
Proof.
  unfold disableAspm. destruct (negb _); [by apply safe_ret|]. cbv zeta. destruct (_ =? 0); [by apply safe_ret|].
  apply safe_bind_any; [by apply (safe_op no_write (CfgRead W16 _) (fun _ => True))|]. intros v.
  apply safe_bind_any; [destruct (negb _); [by apply (safe_op no_write (CfgWrite W16 _ _) (fun _ => True))|by apply safe_ret]|]. intros _.
  apply safe_bind_any; [by apply (safe_op no_write (CfgRead W16 _) (fun _ => True))|]. intros _. by apply safe_ret.
Qed.
Lemma startData_quiet b c thread e : safe no_write (startData b c thread e) (fun _ => True).
Proof.
  unfold startData. destruct (negb _); [by apply safe_ret|]. cbv zeta. destruct (cfg_check _ _) as [[[x1 x2] x3]|]; [|by apply safe_ret].
  assert (Hm : forall a n, safe no_write (umod a n) (fun _ => True)) by (intros a n; unfold umod; destruct (n =? 0); [by apply (safe_op no_write Fault)|by apply safe_ret]).
  apply safe_bind_any; [by apply safe_read32|]. intros v. apply safe_bind_any; [apply Hm|]. intros wp. apply safe_bind_any; [by apply safe_read32|]. intros v'. apply safe_bind_any; [apply Hm|]. intros rp.
  destruct (negb thread); by apply safe_ret.
Qed.
Lemma dataStart_quiet c v s : safe no_write (dataStart c v s) (fun r => sv_bridge r.2 = sv_bridge s).
Proof.
  unfold dataStart. destruct (fEth s); [by apply safe_ret|]. apply safe_bind_any; [apply aspm_quiet|]. intros _. cbv zeta.
  destruct (negb (da_new v)); [by apply safe_ret|]. destruct (negb (da_init v)); [by apply safe_ret|]. destruct (negb (da_attach v)); [by apply safe_ret|].
  destruct (eth_start _ _); [|by apply safe_ret]. apply safe_bind_any; [apply startData_quiet|]. intros [e'|]; by apply safe_ret.
Qed.
Lemma stop_wait_quiet n : forall i d, safe no_write (stop_wait n i d) (fun _ => True).
Proof.
  induction n as [|n IH]; intros i d; cbn [stop_wait]; [by apply safe_ret|]. destruct (match d with Some k => (k <=? i)%nat | None => false end); [by apply safe_ret|].
  apply safe_bind_any; [by apply safe_mdelay|]. intros _. apply IH.
Qed.
Lemma dataStop_quiet d s : safe no_write (dataStop d s) (fun r => sv_bridge r.2 = sv_bridge s).
Proof.
  unfold dataStop. destruct (fEth s) as [e|]; [|by apply safe_ret]. apply safe_bind_any; [by apply (safe_op no_write (DataLink false) (fun _ => True))|]. intros []. eapply (safe_bind _ _ _ (fun _ => True)).
  - unfold stopData. destruct (negb _); [by apply safe_ret|]. apply safe_bind_any; [apply stop_wait_quiet|]. intros b. by apply safe_ret.
  - intros [clean e'] _. by apply safe_ret.
Qed.

(** A method of the bridge moves no buffer, and has the chip do only what its guard
    lets it. *)
Lemma bridge_call_guarded (o : client_call) (s : server) :
  sv_ok s -> call_ok o -> safe (guard (sv_bridge s) o) (client_do o s) (after s).
Proof.
  intros Hs Ho. assert (Hu : forall z, 0 <= u32 z) by (intros z; by apply (wrap_range 32)).
  destruct (match o with CRegWriteDma _ _ _ _ => true | _ => false end) eqn:Edma.
  { destruct o as [| | | | | | |reg h off w| | | | | | | | | |]; try done. destruct Ho. cbn [client_do].
    apply safe_bind_any; [apply regWriteDma_guard; [done|done|apply Hs|apply Hs]|]. intros rc. apply safe_ret. by apply after_same. }
  eapply safe_weaken; [|apply off_guard|intros x Hx; exact Hx].
  assert (Hsame : forall rc l s', sv_bridge s' = sv_bridge s -> after s (rc, l, s')) by (intros rc l s' E; apply after_same; [done|by rewrite E..]).
  pose proof no_write_off as Hnw.
  destruct o as [|off w|off w v|off w|off w v|n mem|h|reg h off w|on|wl src add| |naps|off w|me bm|c v|d|up|]; cbn [client_do].
  - by apply safe_ret, Hsame.
  - apply safe_bind_any; [apply regRead_off|]. intros [rc v]. by apply safe_ret, Hsame.
  - apply safe_bind_any; [by apply regWrite_off|]. intros rc. by apply safe_ret, Hsame.
  - unfold cfgRead. apply safe_bind_any; [|intros [rc v]; by apply safe_ret, Hsame]. destruct (negb _); [by apply safe_ret|]. destruct (_ <? _); [by apply safe_ret|].
    destruct (reg_width _) as [wd|]; [|by apply safe_ret]. apply safe_bind_any; [by apply (safe_op _ (CfgRead wd _) (fun _ => True))|]. intros v. by apply safe_ret.
  - unfold cfgWrite. apply safe_bind_any; [|intros rc; by apply safe_ret, Hsame]. destruct (negb _); [by apply safe_ret|]. destruct (_ <? _); [by apply safe_ret|].
    destruct (reg_width _) as [wd|]; [|by apply safe_ret]. apply safe_bind_any; [by apply (safe_op _ (CfgWrite wd _ _) (fun _ => True))|]. intros []. by apply safe_ret.
  - eapply safe_bind; [by apply alloc_after|]. intros [[rc r] b'] [H1 H2]. destruct (default (0, 0) r) as [h pa]. apply safe_ret. by split.
  - by apply safe_ret, Hsame.
  - done.
  - by apply safe_ret, after_same.
  - unfold irqEnable. eapply (safe_bind _ _ _ (fun r => fDma r.2 = fDma (sv_bridge s) /\ fBarLen r.2 = fBarLen (sv_bridge s))).
    + destruct (negb _); [by apply safe_ret|]. destruct (fIrqSrc _); [by apply safe_ret|]. destruct (_ && _); [by apply safe_ret|]. cbv zeta. destruct (negb src); [by apply safe_ret|].
      destruct (negb add); [by apply safe_ret|]. apply safe_bind_any; [by apply (safe_op _ IrqEnable (fun _ => True))|]. intros rc. by apply safe_ret.
    + intros [rc b'] [E1 E2]. by apply safe_ret, after_same.
  - unfold irqDisable. eapply (safe_bind _ _ _ (fun r => fDma r.2 = fDma (sv_bridge s) /\ fBarLen r.2 = fBarLen (sv_bridge s))).
    + destruct (_ && _); [|by apply safe_ret]. apply safe_bind_any; [by apply (safe_op _ IrqDisable (fun _ => True))|]. intros []. by apply safe_ret.
    + intros [rc b'] [E1 E2]. by apply safe_ret, after_same.
  - unfold irqWait. apply safe_ret, after_same; [done|apply irq_sleep_dma|apply irq_sleep_bar].
  - unfold irqStatus. apply safe_bind_any; [destruct (negb _); [by apply safe_ret|apply regRead_off]|]. intros [rc v]. by apply safe_ret, Hsame.
  - unfold power. apply safe_bind_any; [apply safe_bind_any; [by apply (safe_op _ (PciPower _ _) (fun _ => True))|]; intros []; by apply safe_ret|]. intros rc. by apply safe_ret, Hsame.
  - eapply safe_bind; [eapply safe_weaken; [apply dataStart_quiet|exact Hnw|intros x Hx; exact Hx]|]. intros [rc s'] E. cbn [snd] in E. by apply safe_ret, Hsame.
  - eapply safe_bind; [eapply safe_weaken; [apply dataStop_quiet|exact Hnw|intros x Hx; exact Hx]|]. intros [rc s'] E. cbn [snd] in E. by apply safe_ret, Hsame.
  - unfold dataLink. eapply (safe_bind _ _ _ (fun r => sv_bridge r.2 = sv_bridge s)).
    + destruct (fEth s); [|by apply safe_ret]. apply safe_bind_any; [by apply (safe_op _ (DataLink _) (fun _ => True))|]. intros []. by apply safe_ret.
    + intros [rc s'] E. by apply safe_ret, Hsame.
  - unfold dataStats. apply safe_ret, Hsame. unfold set_globals. by destruct (fEth s).
Qed.

(** ** Tearing the object down *)

(** The flag says whether a poll thread was ever left running. *)
Definition sv_clean (s : server) : Prop := fDataStopClean s = (sv_leaked s =? 0)%nat.
(** Whether the interface's poll thread, if there is one, exits in time. *)
Definition thread_out (done_at : option nat) (s : server) : bool :=
  match fEth s with Some e => negb (fDataMode e) || exits_by 2000 done_at | None => true end.
Definition naps_of (done_at : option nat) (s : server) : list hwop :=
  match fEth s with
  | Some e => DataLink false :: (if fDataMode e then replicate (naps_until 2000 done_at) (Udelay 5000) else [])
  | None => []
  end.
Definition quiesce_ops : list hwop :=
  [Write W16 RTK_PCI_RXBD_NUM_MPDUQ 0; Write W32 RTK_PCI_RXBD_DESA_MPDUQ 0; Write W8 REG_CR 0; PciPower true false; Udelay 30000].

Lemma stopData_run done_at e W (dev : Device W) (w : W) : let x := exec (stopData done_at e) w in
  (result x).1 = negb (fDataMode e) || exits_by 2000 done_at /\
  ops x = (if fDataMode e then replicate (naps_until 2000 done_at) (Udelay 5000) else []).
Proof.
  cbv zeta. unfold stopData. destruct (fDataMode e); [|done]. cbn [negb orb]. pose proof (stop_wait_spec 2000 0 done_at W dev w) as H. cbv zeta in H. unfold ops, trace, result in *.
  rewrite exec_bind. destruct (exec (stop_wait 2000 0 done_at) w) as [[r w1] t]. cbn [fst snd] in H. destruct H as [-> H].
  rewrite Nat.add_0_l, Nat.sub_0_r in *. cbn [mret prog_ret exec fst snd]. by rewrite app_nil_r.
Qed.
Lemma dataStop_run done_at s W (dev : Device W) (w : W) : let x := exec (dataStop done_at s) w in let s' := (result x).2 in
  fEth s' = None /\ sv_bridge s' = sv_bridge s /\ fDataStopClean s' = fDataStopClean s && thread_out done_at s /\
  sv_leaked s' = (if thread_out done_at s then sv_leaked s else S (sv_leaked s)) /\ ops x = naps_of done_at s.
Proof.
  cbv zeta. unfold dataStop, thread_out, naps_of. destruct (fEth s) as [e|] eqn:E; [|by rewrite andb_true_r].
  unfold ops, trace, result. rewrite exec_bind. cbn [act exec]. destruct (dev_step (DataLink false) w) as [[] w1]. rewrite exec_bind.
  pose proof (stopData_run done_at e W dev w1) as H. cbv zeta in H. unfold ops, trace, result in H. destruct (exec (stopData done_at e) w1) as [[[clean e'] w2] t].
  cbn [fst snd] in H. destruct H as [-> H]. cbn [mret prog_ret exec fst snd app map ev_op fEth sv_bridge fDataStopClean sv_leaked]. rewrite app_nil_r, H. done.
Qed.
Lemma trx_free_ops W (dev : Device W) (w : W) : ops (exec trx_free w) = quiesce_ops.
Proof.
  unfold ops, trace, trx_free, hw_write16, hw_write32, hw_write8, usleep. cbn [act mbind prog_mbind prog_bind exec mret prog_ret].
  repeat match goal with |- context [dev_step ?o ?v] => destruct (dev_step o v) as [[] ?] end. done.
Qed.
Lemma unload_down s m : trx_inv s m -> trx_down (trx_unload_reset s).
Proof.
  intros Hs. assert (Hl : length (g_tx s) = RTK_MAX_TX_QUEUE_NUM).
  { unfold trx_inv in Hs. destruct (g_trx_alloced s); [|by apply td_len]. pose proof (Forall2_length (tu_rings s m Hs)) as E. rewrite <- E. done. }
  split; try done; [cbn; by rewrite length_map|]. cbn. by apply Forall_map, Forall_forall.
Qed.

(** The buffers given back, in slot order. *)
Fixpoint releases (h : Z) (l : list (option rtw_dma_slot)) : list hwop :=
  match l with [] => [] | x :: l => (match x with Some _ => [DmaFree h] | None => [] end) ++ releases (h + 1) l end.
Lemma release_run l W (dev : Device W) : forall h (w : W), let x := exec (release_slots h l) w in
  result x = map (fun _ => None) l /\ ops x = releases h l.
Proof.
  unfold ops, trace, result. induction l as [|x l IH]; intros h w; cbn [release_slots releases]; [done|].
  rewrite exec_bind. destruct x as [x|]; cbn [act exec mret prog_ret].
  - destruct (dev_step (DmaFree h) w) as [[] w1]. rewrite exec_bind. specialize (IH (h + 1) w1). destruct (exec (release_slots (h + 1) l) w1) as [[l' w2] t].
    cbn [fst snd] in IH. destruct IH as [-> E]. cbn [mret prog_ret exec fst snd app map ev_op]. by rewrite app_nil_r, E.
  - rewrite exec_bind. specialize (IH (h + 1) w). destruct (exec (release_slots (h + 1) l) w) as [[l' w2] t].
    cbn [fst snd] in IH. destruct IH as [-> E]. cbn [mret prog_ret exec fst snd app map]. by rewrite app_nil_r, E.
Qed.

(** C10: tearing the driver object down is safe in every case, and complete
    whenever it may be.  What it does, in this order: it stops the data path; it
    quiesces the chip (receive ring emptied and unaimed, MAC off, bus mastering
    off, the in-flight transfers drained); it disarms the interrupt; and only then,
    if no poll thread was ever left running, it gives each buffer back, once.  In
    the end, if no poll thread was ever left running, no buffer and no
    mapping is left, and the statics of the control code are those of a fresh
    start: they hold no buffer and no connection, whatever memory a new object
    has.  If one was, every buffer and the mapping stay as they were for it. *)
Theorem server_stop_sound (done_at : option nat) (s : server) (k : kctl) (m : gmap Z Z) (v : view) (W : Type) (dev : Device W) (w : W) :
  kctl_ok k m v -> length (fDma (sv_bridge s)) = RTW_BRIDGE_MAX_DMA -> sv_clean s ->
  let x := exec (server_stop done_at s k) w in let s' := (result x).1 in let k' := (result x).2 in
  fEth s' = None /\ sv_clean s' /\
  ops x = naps_of done_at s ++ (if fMmio (sv_bridge s) then quiesce_ops else []) ++ (if fIrqSrc (sv_bridge s) && fWorkLoop (sv_bridge s) then [IrqDisable] else []) ++
    (if (sv_leaked s' =? 0)%nat then releases 0 (fDma (sv_bridge s)) else []) /\
  sv_leaked s' = (if thread_out done_at s then sv_leaked s else S (sv_leaked s)) /\
  if (sv_leaked s' =? 0)%nat then
    tracks ∅ (sv_bridge s') /\ fMmio (sv_bridge s') = false /\ forall m', kctl_ok k' m' (View (Some 0) false)
  else fDma (sv_bridge s') = fDma (sv_bridge s) /\ fMmio (sv_bridge s') = fMmio (sv_bridge s) /\ k_trx k' = k_trx k.
Proof.
  intros Hk Hlen Hc. cbv zeta. unfold server_stop. pose proof (dataStop_run done_at s W dev w) as H. cbv zeta in H. unfold ops, trace, result in *.
  rewrite exec_bind. destruct (exec (dataStop done_at s) w) as [[[rc s1] w1] t1]. cbn [fst snd] in H. destruct H as (E1 & E2 & E3 & E4 & E5).
  rewrite exec_bind, E2. set (free := if fMmio (sv_bridge s) then trx_free else mret tt).
  assert (Hf : map ev_op (exec free w1).2 = (if fMmio (sv_bridge s) then quiesce_ops else [])) by (unfold free; destruct (fMmio (sv_bridge s)); [apply trx_free_ops|done]).
  destruct (exec free w1) as [[[] w2] t2]. cbn [snd] in Hf. rewrite exec_bind.
  set (b := sv_bridge s) in *.
  assert (Hi : exists b1 w3 t3, exec (irqDisable b) w2 = (kIOReturnSuccess, b1, w3, t3) /\ fDma b1 = fDma b /\ fMmio b1 = fMmio b /\
    map ev_op t3 = (if fIrqSrc b && fWorkLoop b then [IrqDisable] else [])).
  { unfold irqDisable. destruct (fIrqSrc b && fWorkLoop b); [|by exists b, w2, []]. cbn [act mbind prog_mbind prog_bind exec mret prog_ret]. destruct (dev_step IrqDisable w2) as [[] w3]. by exists (set_irq (fWorkLoop b) false b), w3, [Ev IrqDisable tt]. }
  destruct Hi as (b1 & w3 & t3 & -> & B1 & B2 & B3).
  assert (Hcl : fDataStopClean s1 = (sv_leaked s1 =? 0)%nat) by (rewrite E3, E4, Hc; destruct (thread_out done_at s); [by rewrite andb_true_r|by rewrite andb_false_r]).
  rewrite Hcl. destruct (sv_leaked s1 =? 0)%nat eqn:El;
    [cbn [fDma set_irq]; rewrite B1, exec_bind; pose proof (release_run (fDma b) W dev 0 w3) as Hrel; cbv zeta in Hrel; unfold ops, trace, result in Hrel;
     destruct (exec (release_slots 0 (fDma b)) w3) as [[l' w4] t4]; cbn [fst snd] in Hrel; destruct Hrel as [-> B4]|]; cbn [mret prog_ret exec fst snd set_bridge fEth sv_leaked fDataStopClean sv_bridge fMmio fDma set_irq];
    unfold sv_clean; cbn [fDataStopClean sv_leaked]; rewrite ?map_app, E5, Hf, B3, ?B4, ?app_nil_r, El, <- ?E4, ?app_nil_r; (split; [exact E1|]); (split; [etrans; [exact Hcl|first [exact El|done]]|]); (do 2 (split; [done|])).
  - split; [|split; [done|]].
    + split; cbn [fDma]; [by rewrite length_map|]. intros h. rewrite lookup_empty. destruct (0 <=? h); [|done]. unfold dma_slot. cbn [fDma]. destruct (_ <=? h); [done|]. rewrite list_lookup_fmap. by destruct (_ !! _).
    + intros m'. pose proof (unload_down _ _ (ko_trx _ _ _ Hk)) as Hd. destruct Hk as [H1 H2 H3 (H4 & H5 & H6) H7 _ H8]. split; try done; cbn. by rewrite length_insert.
  - by rewrite B1, B2.
Qed.

(** ** Statistics *)

(** Reading the statistics resets them and nothing else.  The answer has 21
    values; the interface, its reorder windows, its parse breakdown, its sequence
    tracking, its keys and rings stay as the running poll thread relies on; a read
    that follows at once answers zero everywhere but for the running total of
    Block Ack sessions; and the same values are answered whether or not the data
    path is still up. *)
Theorem dataStats_resets (m : gmap Z Z) (s : server) (e : eth) :
  fEth s = Some e -> eth_live m e ->
  let '(rc, l, s') := dataStats s in
  rc = kIOReturnSuccess /\ length l = 21%nat /\ sv_bridge s' = sv_bridge s /\
  (exists e', fEth s' = Some e' /\ eth_live m e' /\ e_geo e' = e_geo e /\ fCcmpPn e' = fCcmpPn e /\ fBeWp e' = fBeWp e /\ fRxRp e' = fRxRp e /\
    fBa (e_rx e') = fBa (e_rx e) /\ gLastSeqTid (rx_cnt (e_rx e')) = gLastSeqTid (rx_cnt (e_rx e)) /\ gReordActiveMask (rx_cnt (e_rx e')) = gReordActiveMask (rx_cnt (e_rx e))) /\
  (dataStats s').1 = (kIOReturnSuccess, <[8%nat := gAddba (rx_cnt (e_rx e))]> (replicate 21 0)) /\
  (dataStats (Server (sv_bridge s) None (globals_of e) (fDataStopClean s) (sv_leaked s))).1 = (rc, l).
Proof.
  intros E He. unfold dataStats, set_globals, sv_globals. rewrite E. cbn [fEth]. split; [done|]. split; [done|]. split; [done|].
  split; [|done]. eexists. split; [done|]. split; [|done]. destruct He as [H1 H2 H3 H4 H5]. split; try done.
  destruct H4 as [R1 R2 R3]. split; try done.
Qed.

(** ** Concrete objects *)

Definition kext_bridge : bridge :=
  Bridge true true 0x10000 0x10ec 0xc821
    (None :: Some (DmaSlot 0x7f000000 rings_size) :: Some (DmaSlot 0x7f010000 0x2000) :: Some (DmaSlot 0x7f100000 (RTK_BEQ_TX_DESC_NUM * RTW_ETH_SLOT_SIZE)) ::
     Some (DmaSlot 0x7f020000 (64 * 8)) :: Some (DmaSlot 0x7f200000 (64 * USCAN_RX_BUF_SIZE)) :: replicate 10 None) false false 0 (-1) true.
Lemma kext_tracks : tracks mem_example kext_bridge.
Proof.
  split; [done|]. intros h. destruct (Z.leb_spec 0 h) as [H|H].
  - destruct (decide (h < 16)) as [H'|H'].
    + assert (Hh : h ∈ (Z.of_nat <$> seq 0 16)) by (apply list_elem_of_fmap; exists (Z.to_nat h); split; [lia|apply elem_of_seq; lia]).
      clear H H'. apply list_elem_of_In in Hh. revert h Hh. apply List.Forall_forall. repeat (apply List.Forall_cons; [by vm_compute|]). apply List.Forall_nil.
    + unfold dma_slot. change (Z.of_nat RTW_BRIDGE_MAX_DMA) with 16. destruct (Z.leb_spec 16 h); [|lia]. unfold mem_example. by rewrite !lookup_insert_ne, lookup_empty by lia.
  - unfold mem_example. by rewrite !lookup_insert_ne, lookup_empty by lia.
Qed.
Lemma handover_accepted_witness :
  let c := handover_cfg (example_dev [] []) trx_up_example our_mac ap_mac 4 9 in
  exists e', result (exec (startData kext_bridge c true eth0) (∅ : regfile)) = Some e' /\ eth_live mem_example e' /\
    fRxN (e_geo e') = g_rx_n trx_up_example /\ fCcmpPn e' = 1 /\ fDataMode e' = true.
Proof.
  apply (handover_accepted (example_dev [] []) trx_up_example mem_example kext_bridge our_mac ap_mac 4 9 eth0 regfile regfile_dev ∅);
    [by split|apply trx_up_example_ok|by vm_compute|apply kext_tracks|reflexivity..|apply rx_ok0].
Defined.

Definition server1 : server := Server bridge1 None (globals_of eth0) true 0.
Lemma server1_ok : sv_ok server1.
Proof. split; [done|apply bridge1_low|done]. Qed.
(** A running interface whose thread exits at the third nap, and one whose thread
    never does. *)
Definition server2 : server := Server kext_bridge (Some eth1) (globals_of eth0) true 0.
Lemma server_stop_sound_witness :
  (let x := exec (server_stop (Some 3%nat) server2 (kctl0 true)) (∅ : regfile) in
   sv_leaked (result x).1 = 0%nat /\ tracks ∅ (sv_bridge (result x).1)) /\
  (let x := exec (server_stop None server2 (kctl0 true)) (∅ : regfile) in
   sv_leaked (result x).1 = 1%nat /\ fDma (sv_bridge (result x).1) = fDma kext_bridge).
Proof.
  split.
  - pose proof (server_stop_sound (Some 3%nat) server2 (kctl0 true) ∅ (View None false) regfile regfile_dev ∅ (kctl0_ok true ∅) eq_refl eq_refl) as H.
    cbv zeta in *. set (x := exec _ _) in *. clearbody x. destruct H as (_ & _ & _ & E & H). change (sv_leaked (result x).1 = 0%nat) in E. rewrite E in *. split; [reflexivity|]. exact (proj1 H).
  - pose proof (server_stop_sound None server2 (kctl0 true) ∅ (View None false) regfile regfile_dev ∅ (kctl0_ok true ∅) eq_refl eq_refl) as H.
    cbv zeta in *. set (x := exec _ _) in *. clearbody x. destruct H as (_ & _ & _ & E & H). change (sv_leaked (result x).1 = 1%nat) in E. rewrite E in *. split; [reflexivity|]. exact (proj1 H).
Defined.
Lemma eth1_live : eth_live data_live eth1.
Proof.
  split; [|cbn; lia|cbn; lia|apply rx_ok0|done]. split; cbn; try lia.
  - exists 0x1000. split; [done|lia].
  - exists 0xc000. split; [done|lia].
  - exists 2, 0x4000. split_and!; [done|done|vm_compute; congruence].
  - done.
Qed.
Lemma dataStats_resets_witness :
  let '(rc, l, s') := dataStats (Server data_bridge (Some eth1) (globals_of eth0) true 0) in rc = kIOReturnSuccess /\ length l = 21%nat /\ sv_bridge s' = data_bridge.
Proof.
  pose proof (dataStats_resets data_live (Server data_bridge (Some eth1) (globals_of eth0) true 0) eth1 eq_refl eth1_live) as H.
  destruct (dataStats _) as [[rc l] s']. destruct H as (H1 & H2 & H3 & _). split; [exact H1|]. split; [exact H2|exact H3].
Defined.
