(* ===== verification/Driver.v ===== *)
(** * Driver: the whole driver, composed

    The control code of server/kctl.c, verified in Kctl against a monitor, running
    on the driver object of Server through the C shims, with the data path of
    DataPath started and stopped by it.  Proved: in every state the driver
    reaches, the table holds the buffers the control code counts on, the driver
    says it is connected exactly when an interface is published, and that
    interface's rings are live buffers of the table. *)
From stdpp Require Import gmap.
From S2P Require Import Prelude Hw Regs Dev Aes Trx Rx Sec Wpa Handshake Fw Scan Assoc Bringup Judge Kctl Reorder Deliver RxFrame Bridge DataPath Server.
Open Scope Z_scope.
Open Scope rtw_scope.

(** ** The configuration, as the structure carries it *)

Definition word_of (l : list Z) (i : nat) : Z := u32 (nth i l 0).
Definition mac_of (l : list Z) (i : nat) : list Z := map (fun k => nth (i + k) l 0) (seq 0 6).
Definition cfg_of (l : list Z) : data_cfg :=
  DataCfg' (mac_of l 0) (mac_of l 6) (nth 12 l 0) (nth 13 l 0)
    (DataCfg (word_of l 14) (word_of l 15) (word_of l 16) (word_of l 17) (word_of l 18) (word_of l 19) (word_of l 20) (word_of l 21) (word_of l 22) (word_of l 23)).

Lemma cfg_of_range l : cfg_range (cfg_of l).
Proof.
  split; [done|]. cbn [cfg_of dc_rings cfg_txbd_handle cfg_txbd_be_off cfg_be_len cfg_bd_sz cfg_desc_sz cfg_rxdata_handle cfg_rx_nslots cfg_rx_buf_size cfg_rx_desc_sz cfg_txpool_handle].
  repeat (apply List.Forall_cons; [by apply (wrap_range 32)|]). apply List.Forall_nil.
Qed.
Lemma cfg_of_words mac bssid rate rate_id c : length mac = 6%nat -> length bssid = 6%nat ->
  cfg_range (DataCfg' mac bssid rate rate_id c) -> cfg_of (cfg_words mac bssid rate rate_id c) = DataCfg' mac bssid (u8 rate) (u8 rate_id) c.
Proof.
  intros Hm Hb [_ Hw]. cbn [dc_rings] in Hw. destruct c as [c0 c1 c2 c3 c4 c5 c6 c7 c8 c9].
  cbn [cfg_txbd_handle cfg_txbd_be_off cfg_be_len cfg_bd_sz cfg_desc_sz cfg_rxdata_handle cfg_rx_nslots cfg_rx_buf_size cfg_rx_desc_sz cfg_txpool_handle] in Hw.
  destruct mac as [|m0 [|m1 [|m2 [|m3 [|m4 [|m5 [|]]]]]]]; try done. destruct bssid as [|b0 [|b1 [|b2 [|b3 [|b4 [|b5 [|]]]]]]]; try done.
  rewrite !Forall_cons_iff in Hw. destruct Hw as (R0 & R1 & R2 & R3 & R4 & R5 & R6 & R7 & R8 & R9 & _).
  unfold cfg_of, word_of, mac_of, cfg_words. cbn. by rewrite !(wrap_small 32) by done.
Qed.

(** ** The control code on the driver object *)

Section Driver.
(** The chip, and the kernel's answers: memory, interrupt machinery, sleeps, what
    an interface needs, and when a poll thread exits. *)
Context {C : Type} (chip : Device C) (mem : Z -> C -> option (Z * Z) * C) (irq_machinery : C -> bool * bool * bool) (naps : Z -> C -> list (list Z * wake)).
Context (kernel : C -> data_env) (exits : C -> option nat).

Definition driver_dev : Device (server * C) := fun o '(s, c) =>
  match o as o return hwres o * (server * C) with
  | DataStart cfg => let '((rc, s), c) := run (dataStart (cfg_of cfg) (kernel c) s) c in (if decide (rc = kIOReturnSuccess) then 0 else -1, (s, c))
  | DataStop => let '((_, s), c) := run (dataStop (exits c) s) c in (tt, (s, c))
  | DataLink up => let '((_, s), c) := run (dataLink up s) c in (tt, (s, c))
  | o => let '(r, (b, c)) := bridge_dev chip mem irq_machinery naps o (sv_bridge s, c) in (r, (set_bridge b s, c))
  end.

(** A chip that keeps its word: its receive index stays inside the ring it was
    told of, [num]; only calls to it change what it was told. *)
Context (num : C -> option Z).
Record fair_chip : Prop := {
  fc_fair : forall o c, chip_fair (num c) o (dev_step o c).1 = true;
  fc_num : forall o c, num (dev_step o c).2 = ring_num (num c) o;
  fc_mem : forall n c, num (mem n c).2 = num c;
}.
Context (Hchip : fair_chip).

Definition num_still (o : hwop) : bool :=
  match o with
  | Write w a _ => negb (over_num w a) && negb (match w with W8 => a =? RTK_PCI_TXBD_BCN_WORK | _ => false end)
  | RegWriteDma a _ _ _ => negb (dma_over_num a)
  | _ => true
  end.
Lemma still_num t o : num_still o = true -> ring_num t o = t.
Proof.
  intros H. destruct o as [| w a x | | | | | a h b w' | | | | | | | | | | | | | | | |]; cbn in *; try done.
  - apply andb_prop in H as [H1%negb_true_iff H2]. destruct w.
    + apply negb_true_iff in H2. by rewrite H2, H1.
    + destruct (Z.eqb_spec a RTK_PCI_RXBD_NUM_MPDUQ) as [->|]; [done|]. by rewrite H1.
    + by rewrite H1.
  - by apply negb_true_iff in H as ->.
Qed.
#[local] Transparent safe.
Lemma run_safe {A} P (p : prog A) Q (c : C) : safe P p Q -> (forall o, P o = true -> num_still o = true) -> Q (run p c).1 /\ num (run p c).2 = num c.
Proof.
  unfold safe. intros Hp HP. revert c. induction p as [x|o k IH]; intros c; cbn [wp] in Hp; [done|]. cbn [run].
  pose proof (fc_num Hchip o c) as Hn. destruct (dev_step o c) as [r c1]. specialize (Hp r). unfold only in Hp. destruct (P o) eqn:E; [|done].
  cbn [snd] in Hn. rewrite still_num in Hn by by apply HP. rewrite <- Hn. by apply IH.
Qed.
(** Two postconditions of the same code. *)
Lemma safe_both {A} P P' (p : prog A) Q Q' : safe P p Q -> safe P' p Q' -> safe P p (fun x => Q x /\ Q' x).
Proof.
  unfold safe. induction p as [x|o k IH]; cbn [wp]; [done|]. intros H1 H2 r. specialize (H1 r). specialize (H2 r). unfold only in *.
  destruct (P o); [|done]. destruct (P' o); [|done]. by apply IH.
Qed.
#[local] Opaque safe.

(** ** What holds between calls *)

Definition glob_ok (g : globals) : Prop := length (gLastSeqTid (gl_rx g)) = 8%nat /\ parse_agree (gl_parse g).
(** From live buffers [m] and what the control code knows of the rings, [v]. *)
Record driver_ok (m : gmap Z Z) (v : view) (s : server) (c : C) : Prop := {
  dk_tracks : tracks m (sv_bridge s);
  dk_num : v_num v = None \/ v_num v = num c;
  dk_live : v_live v = bool_decide (is_Some (fEth s));
  dk_eth : match fEth s with Some e => eth_live m e | None => glob_ok (sv_glob s) end;
}.

Lemma live_glob m e : eth_live m e -> glob_ok (globals_of e).
Proof. intros He. destruct (el_rx _ _ He) as [_ H1 H2]. by split. Qed.
Lemma eth_new_rx g : glob_ok g -> rx_ok (e_rx (eth_new g)).
Proof. intros [H1 H2]. destruct rx_ok0 as [H _ _]. by split. Qed.

Lemma start_live m cfg env s : tracks m (sv_bridge s) -> cfg_range cfg -> fEth s = None -> glob_ok (sv_glob s) ->
  safe no_write (dataStart cfg env s) (fun r => sv_bridge r.2 = sv_bridge s /\ sv_glob r.2 = sv_glob s /\
    match fEth r.2 with Some e => r.1 = kIOReturnSuccess /\ eth_live m e | None => r.1 <> kIOReturnSuccess end).
Proof.
  intros Ht Hc He Hg. unfold dataStart. rewrite He. apply safe_bind_any; [apply aspm_quiet|]. intros _. cbv zeta.
  assert (Hno : forall rc, rc <> kIOReturnSuccess -> sv_bridge (rc, s).2 = sv_bridge s /\ sv_glob (rc, s).2 = sv_glob s /\
    match fEth (rc, s).2 with Some e => (rc, s).1 = kIOReturnSuccess /\ eth_live m e | None => (rc, s).1 <> kIOReturnSuccess end)
    by (intros rc Hrc; cbn [fst snd]; rewrite He; done).
  destruct (negb (da_new env)); [by apply safe_ret, Hno|]. destruct (negb (da_init env)); [by apply safe_ret, Hno|]. destruct (negb (da_attach env)); [by apply safe_ret, Hno|].
  destruct (eth_start _ _) as [e|] eqn:Ee; [|by apply safe_ret, Hno].
  assert (Hr : rx_ok (e_rx e)).
  { unfold eth_start in Ee. destruct (_ && _); [|done]. injection Ee as <-. by apply eth_new_rx. }
  eapply safe_bind; [apply (safe_both no_write no_mem); [apply startData_quiet|by apply (data_start_safe m)]|]. intros [e'|] [_ H]; [|by apply safe_ret, Hno].
  apply safe_ret. split; [done|]. split; [done|]. split; [done|apply H].
Qed.

Lemma stopData_glob m done_at e : eth_live m e -> safe no_write (stopData done_at e) (fun r => glob_ok (globals_of r.2)).
Proof.
  intros He. pose proof (live_glob _ _ He) as [H1 H2]. unfold stopData. destruct (negb _); [by apply safe_ret|].
  apply safe_bind_any; [apply stop_wait_quiet|]. intros b. apply safe_ret. by destruct b.
Qed.
Lemma stop_dead m done_at s e : fEth s = Some e -> eth_live m e ->
  safe no_write (dataStop done_at s) (fun r => sv_bridge r.2 = sv_bridge s /\ fEth r.2 = None /\ glob_ok (sv_glob r.2)).
Proof.
  intros E He. unfold dataStop. rewrite E. apply safe_bind_any; [by apply (safe_op no_write (DataLink false) (fun _ => True))|]. intros [].
  eapply safe_bind; [by eapply stopData_glob|]. intros [clean e'] H. by apply safe_ret.
Qed.

(** ** One call keeps it *)

Lemma quiet_num {A} (p : prog A) Q (c : C) : safe no_write p Q -> Q (run p c).1 /\ num (run p c).2 = num c.
Proof.
  intros Hp. apply (run_safe no_write); [done|]. intros o Ho. destruct o; done.
Qed.
Lemma num_forward t o c : t = None \/ t = num c ->
  chip_fair t o (dev_step o c).1 = true /\ (ring_num t o = None \/ ring_num t o = num (dev_step o c).2).
Proof.
  intros Ht. rewrite (fc_num Hchip). destruct Ht as [-> | ->]; [|split; [apply (fc_fair Hchip)|by right]]. split; [done|].
  destruct o as [|w a x| | | | |reg h off w| | | | | | | | | | | | | | | |]; try (by left); [|cbn; left; by destruct (dma_over_num reg)]. destruct w; cbn.
  - left. by destruct (a =? RTK_PCI_TXBD_BCN_WORK), (over_num W8 a).
  - destruct (a =? RTK_PCI_RXBD_NUM_MPDUQ); [by right|]. left. by destruct (over_num W16 a).
  - left. by destruct (over_num W32 a).
Qed.
Lemma dma_still b reg h off w : dma_over_num reg = false -> safe num_still (regWriteDma b reg h off w) (fun _ => True).
Proof.
  unfold dma_over_num. intros [[[H1%Z.ltb_ge H2%Z.ltb_ge]%orb_false_elim H3]%orb_false_elim H4]%orb_false_elim.
  assert (Hw : forall a v, over_num W32 a = false -> safe num_still (rawRegWrite a 4 v) (fun _ => True)).
  { intros a v Ha. unfold rawRegWrite, hw_write32. cbn [Z.eqb Pos.eqb]. apply safe_bind_any; [|intros _; by apply safe_ret].
    apply (safe_op num_still (Write W32 a (u32 v)) (fun _ => True)); [|done]. cbn. by rewrite Ha. }
  unfold regWriteDma. destruct (_ <=? h); [by apply safe_ret|]. destruct (_ && _); [by apply safe_ret|]. destruct (dma_slot b h) as [x|]; [|by apply safe_ret].
  destruct (_ <=? off); [by apply safe_ret|]. destruct (negb _); [by apply safe_ret|]. match goal with |- context [if ?p || ?q then _ else _] => destruct (p || q) end; [by apply safe_ret|]. cbv zeta.
  rewrite (wrap_small 32 (reg + 4)) by (change (2 ^ 32) with 4294967296; lia).
  destruct (w =? 4); [destruct (_ <? _); [by apply safe_ret|by apply Hw]|]. apply safe_bind_any; [by apply Hw|]. intros _. by apply Hw.
Qed.

(** The shims tell the chip what the monitor thinks they do. *)
Definition data_op (o : hwop) : bool := match o with DataStart _ | DataStop | DataLink _ => true | _ => false end.
Lemma bridge_num o b c t : data_op o = false -> t = None \/ t = num c -> let '(r, (_, c')) := bridge_dev chip mem irq_machinery naps o (b, c) in
  chip_fair t o r = true /\ (ring_num t o = None \/ ring_num t o = num c').
Proof.
  intros Ho Ht. assert (Hq : forall c', num c' = num c -> t = None \/ t = num c') by (intros c' ->; done).
  assert (Hf : forall o r, (match o with Read _ _ => False | _ => True end) -> chip_fair t o r = true) by (intros o' r; destruct t, o'; done).
  destruct o as [w off|w off v|us|n|n|h|reg h off w|h off n|h off bs|h off n v|me bm|w off|w off v|on| | |ms|n|cfg| |up| |]; try done; cbn [bridge_dev];
    try match goal with |- context [@dev_step C chip ?o c] => pose proof (num_forward t o c Ht) as H; destruct (@dev_step C chip o c) as [r c']; exact H end.
  - unfold hw_dma_alloc. pose proof (fc_mem Hchip n c) as Hm. destruct (mem n c) as [mm c1]. cbn [snd] in Hm. 
    assert (Hs : safe num_still (dmaAlloc b n mm) (fun _ => True)).
    { unfold dmaAlloc. destruct (_ || _); [by apply safe_ret|]. destruct (free_slot _ _) as [i|]; [|by apply safe_ret]. destruct mm as [[pa seg]|]; [|by apply safe_ret].
      destruct (_ || _); [by apply safe_ret|]. apply safe_bind_any; [by apply (safe_op num_still (MemSet _ _ _ _) (fun _ => True))|]. intros _. by apply safe_ret. }
    destruct (run_safe _ _ _ c1 Hs (fun o H => H)) as [_ E]. destruct (run _ c1) as [[[rc r] b'] c2]. cbn [snd] in E.
    assert (Hc : num c2 = num c) by congruence. destruct rc, r as [[? ?]|]; (split; [by apply Hf|by apply Hq]).
  - by split; [apply Hf|apply Hq].
  - split; [by apply Hf|]. destruct (dma_over_num reg) eqn:E; [left; cbn; by rewrite E|]. cbn [ring_num]. rewrite E. apply Hq.
    exact (proj2 (run_safe _ _ _ c (dma_still b reg h off w E) (fun o H => H))).
  - split; [by apply Hf|]. apply Hq. unfold power. cbn [act mbind prog_mbind prog_bind run mret prog_ret]. pose proof (fc_num Hchip (PciPower me bm) c) as H. destruct (dev_step (PciPower me bm) c) as [[] c']. exact H.
  - by split; [apply Hf|apply Hq].
  - unfold hw_irq_enable. destruct (irq_machinery c) as [[wl src] add].
    assert (Hs : safe num_still (irqEnable wl src add b) (fun _ => True)).
    { unfold irqEnable. destruct (negb _); [by apply safe_ret|]. destruct (fIrqSrc b); [by apply safe_ret|]. destruct (_ && _); [by apply safe_ret|]. cbv zeta. destruct (negb src); [by apply safe_ret|].
      destruct (negb add); [by apply safe_ret|]. apply safe_bind_any; [by apply (safe_op _ IrqEnable (fun _ => True))|]. intros rc. by apply safe_ret. }
    destruct (run_safe _ _ _ c Hs (fun o H => H)) as [_ E]. destruct (run _ c) as [[rc b'] c2]. split; [by apply Hf|by apply Hq].
  - assert (Hs : safe num_still (irqDisable b) (fun _ => True)).
    { unfold irqDisable. destruct (_ && _); [|by apply safe_ret]. apply safe_bind_any; [by apply (safe_op _ IrqDisable (fun _ => True))|]. intros []. by apply safe_ret. }
    destruct (run_safe _ _ _ c Hs (fun o H => H)) as [_ E]. destruct (run _ c) as [[rc b'] c2]. split; [by apply Hf|by apply Hq].
  - destruct (irqWait _ b) as [n b']. by split; [apply Hf|apply Hq].
Qed.

Lemma kept_mem o m m' r : kept_call o = true -> mem_mon (Some m) o r = Some (Some m') -> m' = m.
Proof.
  destruct o as [w off|w off v|us|n|n|h|reg h off w|h off n|h off bs|h off n v|me bm|w off|w off v|on| | |ms|n|cfg| |up| |]; cbn; intros Ho H; try done; simplify_eq; try done;
    by destruct (in_buf _ _ _ _); simplify_eq.
Qed.
Lemma live_kept o : data_op o = false -> live_ok o = true -> kept_call o = true.
Proof. by destruct o. Qed.
Lemma fair_data t o r : data_op o = true -> chip_fair t o r = true.
Proof. by destruct o, t. Qed.

(** A call that is not about the data path, through the bridge. *)
Lemma bridge_call T o m v s c : data_op o = false -> driver_ok m v s c -> let '(r, (b, c')) := bridge_dev chip mem irq_machinery naps o (sv_bridge s, c) in
  match judge_mon T (Some (m, v)) o r with
  | Some (Some (m', v')) => driver_ok m' v' (set_bridge b s) c'
  | Some None => t_granted T && refused o r = true
  | None => True
  end.
Proof.
  intros Ho [D1 D2 D3 D4]. pose proof (bridge_num o (sv_bridge s) c (v_num v) Ho D2) as Hn. pose proof (dev_tracks chip mem irq_machinery naps o m (sv_bridge s) c D1) as Ht.
  change (@dev_step (bridge * C) (bridge_dev chip mem irq_machinery naps) o (sv_bridge s, c)) with (bridge_dev chip mem irq_machinery naps o (sv_bridge s, c)) in Ht.
  destruct (bridge_dev chip mem irq_machinery naps o (sv_bridge s, c)) as [r [b c']]. destruct Hn as [Hf Hn]. cbn [judge_mon]. destruct (t_granted T && refused o r); [done|]. rewrite Hf.
  destruct (v_live v && _) eqn:El; [done|]. destruct (mem_mon (Some m) o r) as [[m'|]|] eqn:Em; [|done|done].
  assert (Hl : live_after (v_live v) o r = v_live v) by by destruct o.
  split; cbn [sv_bridge set_bridge fEth sv_glob v_num v_live]; [done|done|by rewrite Hl|].
  destruct (fEth s) as [e|] eqn:Ee; [|done]. rewrite D3 in El. cbn in El. apply negb_false_iff in El.
  assert (Hkept : kept_call o = true) by (destruct (t_strict T); [by apply live_kept|done]). by rewrite (kept_mem _ _ _ _ Hkept Em).
Qed.
Lemma driver_call T o m v s c : driver_ok m v s c -> let '(r, (s', c')) := driver_dev o (s, c) in
  match judge_mon T (Some (m, v)) o r with
  | Some (Some (m', v')) => driver_ok m' v' s' c'
  | Some None => t_granted T && refused o r = true
  | None => True
  end.
Proof.
  intros Hd. destruct (data_op o) eqn:Eo.
  - destruct Hd as [D1 D2 D3 D4]. destruct o as [| | | | | | | | | | | | | | | | | |cfg| |up| |]; try done; cbn [driver_dev].
    + destruct (fEth s) as [e|] eqn:Ee.
      { unfold dataStart. rewrite Ee. cbn [run mret prog_ret]. cbn [judge_mon refused]. rewrite ?andb_false_r. rewrite fair_data by done. rewrite D3. by destruct (t_strict T). }
      destruct (quiet_num _ _ c (start_live m (cfg_of cfg) (kernel c) s D1 (cfg_of_range cfg) Ee D4)) as [(E1 & E2 & E3) E4].
      destruct (run (dataStart (cfg_of cfg) (kernel c) s) c) as [[rc s'] c']. cbn [fst snd] in *. cbn [judge_mon refused]. rewrite ?andb_false_r. rewrite fair_data by done. rewrite D3. cbn [bool_decide andb mem_mon ring_num live_after v_num].
      change (bool_decide (is_Some None)) with false. cbn [andb].
      destruct (fEth s') as [e'|] eqn:Ee'.
      * destruct E3 as [-> He']. split; cbn [v_num v_live]; rewrite ?E1, ?Ee'; try done. by rewrite E4.
      * rewrite decide_False by done. split; cbn [v_num v_live]; rewrite ?E1, ?Ee', ?E2; try done. by rewrite E4.
    + cbn [judge_mon refused]. rewrite ?andb_false_r. destruct (fEth s) as [e|] eqn:Ee.
      * destruct (quiet_num _ _ c (stop_dead m (exits c) s e Ee D4)) as [(E1 & E2 & E3) E4]. destruct (run (dataStop (exits c) s) c) as [[rc s'] c']. cbn [fst snd] in *.
        rewrite fair_data by done. destruct (v_live v && _); [done|]. cbn [mem_mon]. split; cbn [v_num v_live ring_num live_after]; rewrite ?E1, ?E2; try done. by rewrite E4.
      * unfold dataStop. rewrite Ee. cbn [run mret prog_ret]. rewrite fair_data by done. rewrite D3. change (bool_decide (is_Some None)) with false. cbn [andb]. cbn [mem_mon]. split; cbn [v_num v_live ring_num live_after]; rewrite ?Ee; done.
    + assert (Hs : safe no_write (dataLink up s) (fun r => r.2 = s)).
      { unfold dataLink. destruct (fEth s); [|by apply safe_ret]. apply safe_bind_any; [by apply (safe_op no_write (DataLink up) (fun _ => True))|]. intros []. by apply safe_ret. }
      destruct (quiet_num _ _ c Hs) as [E1 E2]. destruct (run (dataLink up s) c) as [[rc s'] c']. cbn [fst snd] in *. subst s'.
      cbn [judge_mon refused]. rewrite ?andb_false_r. rewrite fair_data by done. destruct (v_live v && _); [done|]. cbn [mem_mon]. split; cbn [v_num v_live ring_num live_after]; rewrite ?E2; done.
  - pose proof (bridge_call T o m v s c Eo Hd) as H.
    assert (E : driver_dev o (s, c) = let '(r, (b, c)) := bridge_dev chip mem irq_machinery naps o (sv_bridge s, c) in (r, (set_bridge b s, c))) by by destruct o.
    rewrite E. by destruct (bridge_dev chip mem irq_machinery naps o (sv_bridge s, c)) as [r [b c']].
Qed.

(** The allocator refuses nothing in a run. *)
Definition all_given (t : list event) : Prop := Forall (fun ev => refused (ev_op ev) (ev_res ev) = false) t.

#[local] Transparent judged.
(** Code judged by the monitor, run on the driver object. *)
Lemma driver_run {A} T (p : prog A) m v Q s c : judged T p m v Q -> driver_ok m v s c ->
  let '(x, (s', c'), t) := exec (H := driver_dev) p (s, c) in (t_granted T = true -> all_given t) -> exists m' v', driver_ok m' v' s' c' /\ Q x m' v'.
Proof.
  unfold judged. intros Hp Hd. revert m v s c Hp Hd. induction p as [x|o k IH]; intros m v s c Hp Hd; cbn [exec]; [by exists m, v|].
  pose proof (driver_call T o m v s c Hd) as H. change (@dev_step (server * C) driver_dev o (s, c)) with (driver_dev o (s, c)).
  destruct (driver_dev o (s, c)) as [r [s1 c1]]. cbn [wp] in Hp. specialize (Hp r).
  destruct (judge_mon T (Some (m, v)) o r) as [[[m1 v1]|]|]; [|..|done].
  - specialize (IH r m1 v1 s1 c1 Hp H). destruct (exec (k r) (s1, c1)) as [[x [s' c']] t]. intros Ha. apply IH. intros Hg.
    specialize (Ha Hg). by apply Forall_cons_1 in Ha as [_ Ha].
  - apply andb_prop in H as [Hg Hr]. destruct (exec (k r) (s1, c1)) as [[x [s' c']] t]. intros Ha.
    specialize (Ha Hg). apply Forall_cons_1 in Ha as [Ha _]. cbn [ev_op ev_res] in Ha. congruence.
Qed.
#[local] Opaque judged.

(** ** The data path in between *)

(** What the data path asks of the chip. *)
Definition data_call (o : hwop) : bool := num_still o && match o with DmaAlloc _ | DmaFree _ => false | _ => true end.
Ltac calls_go :=
  repeat first [safe_step
    | match goal with |- safe ?P (act ?o) _ => apply (safe_op P o (fun _ => True)); [done|done] end
    | progress unfold be_reserve, be_post, umod, pool_write, pool_set, bd_put, fault, mem_read, rx32, udelay, mdelay | progress cbv zeta].

Lemma tx_calls pkt e : safe data_call (txEthFrame pkt e) (fun _ => True).
Proof. unfold txEthFrame. calls_go. Qed.
Lemma action_calls r e : safe data_call (txAction r e) (fun _ => True).
Proof. unfold txAction. calls_go. Qed.
Lemma outputs_calls k l : forall e, safe data_call (rx_outputs k l e) (fun _ => True).
Proof.
  induction l as [|o l IH]; intros e; cbn [rx_outputs]; [by apply safe_ret|].
  apply safe_bind_any; [destruct o; cbn [rx_output]; [calls_go|apply safe_bind_any; [apply action_calls|calls_go]]|]. intros [e1 a]. apply safe_bind_any; [apply IH|calls_go].
Qed.
Lemma rx_do_calls k r e : safe data_call (rx_do k r e) (fun _ => True).
Proof. unfold rx_do. destruct r as [[st out]|]; [apply outputs_calls|calls_go]. Qed.
Lemma slot_calls k e : safe data_call (rx_slot k e) (fun _ => True).
Proof.
  unfold rx_slot. cbv zeta. apply safe_bind_any; [calls_go|]. intros w0. apply safe_bind_any; [|calls_go].
  destruct (nz _); [calls_go|]. destruct (_ && _); [|calls_go]. apply safe_bind_any; [calls_go|]. intros w3. destruct (_ <=? _); [|calls_go]. apply safe_bind_any; [calls_go|]. intros f. apply rx_do_calls.
Qed.
Lemma slots_calls fuel k hw : forall i e, safe data_call (rx_slots fuel k hw i e) (fun _ => True).
Proof.
  induction fuel as [|fuel IH]; intros i e; cbn [rx_slots]; (destruct (_ || _); [calls_go|]); [calls_go|].
  apply safe_bind_any; [apply slot_calls|]. intros [e1 a]. apply safe_bind_any; [apply IH|calls_go].
Qed.
Lemma pass_calls k idle e : safe data_call (rx_pass k idle e) (fun _ => True).
Proof.
  unfold rx_pass. cbv zeta. apply safe_bind_any; [calls_go|]. intros v. apply safe_bind_any; [calls_go|]. intros depth.
  apply safe_bind_any; [apply slots_calls|]. intros [[e1 a] got]. apply safe_bind_any; [calls_go|]. intros _. apply safe_bind_any; [apply rx_do_calls|]. intros [e2 b].
  apply safe_bind_any; [unfold dig_step; calls_go|]. intros e3. calls_go.
Qed.
Lemma step_calls ev e : safe data_call (data_step ev e) (fun _ => True).
Proof.
  destruct ev as [p copied|k idle| |]; cbn [data_step]; [|apply safe_bind_any; [apply pass_calls|calls_go]|calls_go|calls_go].
  unfold outputPacket. cbv zeta. destruct (_ && _ && _ && _ && _); [apply tx_calls|calls_go].
Qed.

(** The answers of the chip to it, in a run. *)
Definition answers_ok (n : Z) (t : list event) : Prop := Forall (fun ev => idx_ok n (ev_op ev) (ev_res ev) = true) t.
Lemma kept_trace n t : forall m st, answers_ok n t -> Forall (fun o => data_call o = true) (map ev_op t) ->
  mon_trace (mem_mon_if (idx_ok n)) (Some m) t = Some st -> is_Some st.
Proof.
  induction t as [|[o r] t IH]; intros m st Ha Hc H; cbn [mon_trace] in H; [by injection H as <-|].
  apply Forall_cons_1 in Ha as [Ha1 Ha]. apply Forall_cons_1 in Hc as [Hc1 Hc]. cbn [ev_op ev_res] in Ha1, Hc1. cbn [mem_mon_if] in H. rewrite Ha1 in H.
  destruct (mem_mon (Some m) o r) as [[m1|]|] eqn:E; [by apply (IH m1)|exfalso|done].
  unfold data_call in Hc1. apply andb_prop in Hc1 as [_ Hc1]. destruct o; cbn in E, Hc1; repeat case_match; done.
Qed.
Lemma data_step_live m ev e c : eth_live m e -> let '(e', c', t) := exec (data_step ev e) c in
  answers_ok (fRxN (e_geo e)) t -> eth_live m e' /\ num c' = num c.
Proof.
  intros He. destruct (run_safe _ _ _ c (step_calls ev e)) as [_ Hn]; [by intros o [H _]%andb_prop|].
  destruct (safe_exec _ _ c _ (step_calls ev e)) as [Hc _].
  pose proof (data_step_safe m ev e He) as Hs.
  destruct (wp_exec _ _ c _ _ Hs) as (st & Ht & HQ).
  rewrite <- run_exec in Hn. unfold ops, trace, result in *.
  destruct (exec (data_step ev e) c) as [[e' c'] t]. cbn [fst snd] in *. intros Ha.
  destruct (kept_trace _ _ _ _ Ha Hc Ht) as [m' ->]. destruct HQ as (-> & HQ & _). done.
Qed.

(** ** The driver's life *)

Definition with_eth (e : eth) (s : server) : server := Server (sv_bridge s) (Some e) (sv_glob s) (fDataStopClean s) (sv_leaked s).
(** One step: an entry point of the control code, in whatever state, the allocator
    refusing nothing in a bring-up or a scan; the running data path, with the
    chip's index inside its ring; a read of the statistics. *)
Inductive driver_step (fw : list Z) : kctl * (server * C) -> kctl * (server * C) -> Prop :=
| step_call o k w k' w' t : kctl_op_ok o -> exec (H := driver_dev) (kctl_do fw k o) w = (k', w', t) -> (presses_on o = true -> all_given t) ->
    driver_step fw (k, w) (k', w')
| step_data ev k s c e e' c' t : fEth s = Some e -> exec (data_step ev e) c = (e', c', t) -> answers_ok (fRxN (e_geo e)) t ->
    driver_step fw (k, (s, c)) (k, (with_eth e' s, c'))
| step_stats k s c : driver_step fw (k, (s, c)) (k, ((dataStats s).2, c)).

Definition driver_inv (m0 : gmap Z Z) (x : kctl * (server * C)) : Prop :=
  exists m v, m0 ⊆ m /\ driver_ok m v x.2.1 x.2.2 /\ kctl_ok x.1 m v.
Lemma stats_live m e : eth_live m e -> eth_live m (put_globals (stats_reset (globals_of e)) e).
Proof. intros [H1 H2 H3 [R1 R2 R3] H5]. split; try done. Qed.
Lemma driver_step_inv fw m0 x y : image_ok fw -> driver_step fw x y -> driver_inv m0 x -> driver_inv m0 y.
Proof.
  intros Hfw Hs (m & v & Hm & Hd & Hk). destruct Hs as [o k [s c] k' w' t Ho Hrun Hg|ev k s c e e' c' t He Hex Ha|k s c]; cbn [fst snd] in *.
  - pose proof (driver_run _ _ m v _ s c (kctl_do_judged fw k m v o Hfw Ho Hk) Hd) as H. rewrite Hrun in H. destruct w' as [s' c'].
    destruct (H Hg) as (m' & v' & Hd' & Hsub & Hk'). exists m', v'. split; [by etransitivity|done].
  - destruct Hd as [D1 D2 D3 D4]. rewrite He in D3, D4. pose proof (data_step_live m ev e c D4) as H. rewrite Hex in H. destruct (H Ha) as [He' Hn].
    exists m, v. split; [done|]. split; [|done]. cbn [fst snd]. split; [done|by rewrite Hn|done|done].
  - exists m, v. split; [done|]. split; [|done]. destruct Hd as [D1 D2 D3 D4]. unfold dataStats, set_globals, sv_globals. cbn [snd]. destruct (fEth s) as [e|] eqn:E; cbn [snd].
    + split; cbn [sv_bridge fEth]; [done|done|done|by apply stats_live].
    + split; cbn [sv_bridge fEth sv_glob]; [done|done|done|]. destruct D4 as [G1 G2]. by split.
Qed.

Lemma driver_steps_inv fw m0 x y : image_ok fw -> rtc (driver_step fw) x y -> driver_inv m0 x -> driver_inv m0 y.
Proof. intros Hfw Hr. induction Hr as [|x y z Hxy _ IH]; [done|]. intros Hx. apply IH. by eapply driver_step_inv. Qed.

(** C2: the parts fit together.  On a chip that keeps its receive index inside
    the ring it was told of and reads its ring size back as told, in every state
    the driver reaches from load by entry points of the control code (connects,
    disconnects, scans, streamed scans and the two diagnostics, each made in
    whatever state the driver is in), turns of the running data path and reads of
    the statistics, in any order and number, the allocator refusing nothing in a
    bring-up or a scan: the table holds every buffer the control code counts on
    and has lost none; the control code's state is sound; the driver says it is
    connected exactly when an interface is published; and that interface's rings
    and pool are live buffers of the table. *)
Theorem driver_composed (fw : list Z) (mapped : bool) (m0 : gmap Z Z) (b : bridge) (g : globals) (c0 : C) (k : kctl) (s : server) (c : C) :
  image_ok fw -> tracks m0 b -> glob_ok g ->
  rtc (driver_step fw) (kctl0 mapped, (Server b None g true 0, c0)) (k, (s, c)) ->
  exists m v, m0 ⊆ m /\ tracks m (sv_bridge s) /\ kctl_ok k m v /\
    (g_cur_connected (k_link k) = true <-> is_Some (fEth s)) /\ (forall e, fEth s = Some e -> eth_live m e).
Proof.
  intros Hfw Ht Hg Hr. assert (Hi : driver_inv m0 (k, (s, c))).
  { eapply driver_steps_inv; [exact Hfw|exact Hr|]. exists m0, (View None false). split; [done|]. split; [|apply kctl0_ok]. cbn [fst snd]. split; [done|by left|done|done]. }
  destruct Hi as (m & v & Hm & [D1 D2 D3 D4] & Hk). cbn [fst snd] in *. exists m, v. split; [done|]. split; [done|]. split; [done|].
  rewrite <- (ko_live _ _ _ Hk), D3. split; [by rewrite bool_decide_eq_true|]. intros e He. by rewrite He in D4.
Qed.
End Driver.

(** ** A chip that keeps its word *)

(** It answers nothing but what the ring-size register must read back. *)
Definition word_chip : Device (option Z) := fun o t =>
  (match o as o return hwres o with
   | Read W8 a => if a =? RTK_PCI_TXBD_BCN_WORK then (default 0 t >> 8) .& 0xf else 0
   | o => hw_default o
   end, ring_num t o).
Definition give_mem (n : Z) (t : option Z) : option (Z * Z) * option Z := (Some (0x7f000000, n), t).
Lemma word_chip_fair : fair_chip word_chip give_mem (fun t => t).
Proof.
  split; [|done|done]. intros o [n|]; [|done]. destruct o as [w a| | | | | | | | | | | | | | | | | | | | | |]; try done. destruct w; [|done|].
  - unfold chip_fair. cbn [dev_step word_chip fst default]. destruct (a =? RTK_PCI_TXBD_BCN_WORK); [|done]. cbn [default from_option id].
    rewrite wrap_small; [|pose proof (land_ones_range 4 (n >> 8) ltac:(lia)) as H; change (Z.ones 4) with 0xf in H; change (2 ^ 4) with 16 in H; change (2 ^ 8) with 256; lia].
    rewrite <- Z.land_assoc, Z.land_diag. apply Z.eqb_refl.
  - unfold chip_fair, idx_ok. cbn [dev_step word_chip fst hw_default]. destruct (a =? RTK_PCI_RXBD_IDX_MPDUQ); [|done]. apply Z.ltb_lt. change ((u32 0 >> 16) .& 0xfff) with 0. lia.
Qed.
Definition all_granted : data_env := DataEnv 0x70 true true true (StartEnv true true true true) true.
Lemma exec_triple {A W} (dev : Device W) (p : prog A) (w : W) : exists x w' t, exec p w = (x, w', t).
Proof. destruct (exec p w) as [[x w'] t]. by exists x, w', t. Qed.
Lemma driver_composed_witness : exists k s c m v,
  rtc (driver_step word_chip give_mem (fun _ => (true, true, true)) (fun _ _ => []) (fun _ => all_granted) (fun _ => Some 0%nat) image_example)
    (kctl0 true, (server1, None)) (k, (s, c)) /\
  tracks m (sv_bridge s) /\ kctl_ok k m v /\ (g_cur_connected (k_link k) = true <-> is_Some (fEth s)).
Proof.
  destruct (exec_triple (W := server * option Z) (driver_dev word_chip give_mem (fun _ => (true, true, true)) (fun _ _ => []) (fun _ => all_granted) (fun _ => Some 0%nat))
    (kctl_do image_example (kctl0 true) (KConnect name33 pass64)) (server1, None)) as (k & [s c] & t & E).
  assert (Hr : rtc (driver_step word_chip give_mem (fun _ => (true, true, true)) (fun _ _ => []) (fun _ => all_granted) (fun _ => Some 0%nat) image_example)
    (kctl0 true, (server1, None)) (k, (s, c))) by (apply rtc_once; eapply step_call; [|exact E|]; [split; reflexivity|done]).
  destruct (driver_composed word_chip give_mem (fun _ => (true, true, true)) (fun _ _ => []) (fun _ => all_granted) (fun _ => Some 0%nat) (fun t => t) word_chip_fair
    image_example true {[0 := 0x4000]} bridge1 (globals_of eth0) None k s c image_example_ok bridge1_tracks (conj eq_refl eq_refl) Hr) as (m & v & _ & H1 & H2 & H3 & _).
  exists k, s, c, m, v. split; [exact Hr|]. split; [exact H1|]. split; [exact H2|exact H3].
Defined.
