(* ===== verification/Client.v ===== *)
(** * Client: the command line and its calls into the kernel (client/main.c,
    client/rtw_hw.c)

    What [rtwd COMMAND] does: asks the running daemon, or, when there is none,
    opens the driver object and calls its control methods itself.  What is printed
    is left out but for what decides the exit code.  Proved: the driver object is
    opened only when no daemon runs, or for a forced diagnostic; every call goes
    through a connection that was opened, recognised and not closed yet, no
    connection is left behind, and every connect request is two terminated strings
    of the size the kernel expects. *)
From stdpp Require Import gmap.
From Stdlib Require Import String Ascii.
From S2P Require Import Prelude Hw Handshake Scan Kctl Bridge Server.
From S2P Require Import Config Wire Calls.
Open Scope Z_scope.
Open Scope rtw_scope.
Open Scope list_scope.

(** ** What the client asks of the system *)

(** [rtwd_connect]: connected, refused, or any other failure. *)
Inductive sock := SockUp | SockRefused | SockDown.
(** The control methods of the driver object ([kBridgeK*], [kBridgeDataStats]). *)
Inductive hw_call :=
| HInit | HBringup | HScan | HScanChunk (flags count : Z) (ch : list Z)
| HConnect (ssid pass : list Z) | HDisconnect | HStatus | HDataStats.
(** What a call that succeeds puts out; a scan, its count and its entries. *)
Definition hw_ans (o : hw_call) : Type :=
  match o with
  | HInit | HBringup => Z
  | HScan | HScanChunk _ _ _ => Z * list net_entry
  | HConnect _ _ => connect_result
  | HDisconnect => unit
  | HStatus => status_result
  | HDataStats => list Z
  end.
Inductive cop :=
| SockConnect | SockClose | StatSock | SendText (text : list Z) | RecvReply
| FindService | ServiceOpen | ReleaseService | ServiceClose | Ping | KCall (o : hw_call)
| ReadConf | DataOnline (mac : list Z) | FindIfname (mac : list Z) | IfaceIpv4 (ifname : list Z) | SleepSec
| RunDaemon.
Definition cres (o : cop) : Type :=
  match o with
  | SockConnect => sock
  | StatSock | FindService | ServiceOpen => bool
  | RecvReply => list (list Z)
  | Ping => option (Z * Z)
  | KCall o => option (hw_ans o)
  | ReadConf => option (list Z)
  | FindIfname _ => option (list Z)
  | IfaceIpv4 _ => list Z
  | RunDaemon => Z
  | _ => unit
  end.

Abbreviation cprog := (calls cres).
Abbreviation ask := (perform cres).

(** ** rtw_hw.c: [g_conn] is [true] while a connection is open *)

Definition rtw_hw_close (conn : bool) : cprog bool := if conn then ask ServiceClose;; mret false else mret false.
Definition rtw_hw_open : cprog (Z * bool) :=
  svc ← ask FindService;
  if negb svc then mret (-1, false) else
  kr ← ask ServiceOpen;
  ask ReleaseService;;
  if negb kr then mret (-1, false) else
  out ← ask Ping;
  match out with
  | None => conn ← rtw_hw_close true; mret (-1, conn)
  | Some (magic, version) =>
      if negb (magic =? RTW_BRIDGE_PING_MAGIC) || negb (version =? RTW_BRIDGE_ABI_VERSION) then
        conn ← rtw_hw_close true; mret (-1, conn)
      else mret (0, true)
  end.

Definition hw_data_stats : cprog (list Z) := r ← ask (KCall HDataStats); mret (default (replicate 21 0) r).
Definition hw_kctl_poweron : cprog Z := r ← ask (KCall HInit); mret (match r with Some o => u32 o | None => 0xffffffff end).
Definition hw_kctl_bringup : cprog Z := r ← ask (KCall HBringup); mret (match r with Some o => u32 o | None => 0xffffffff end).
(** [(int)r->count]. *)
Definition c_int (v : Z) : Z := if u32 v <? 2 ^ 31 then u32 v else u32 v - 2 ^ 32.
Definition hw_kctl_scan : cprog (Z * list net_entry) :=
  r ← ask (KCall HScan); mret (match r with Some (n, l) => (c_int n, l) | None => (-1, []) end).
(** The request structure: zeroed, then each string cut to its field less one. *)
Definition req_ssid (ssid : list Z) : list Z := strncpy (replicate 33 0) ssid 32.
Definition req_pass (pass : list Z) : list Z := strncpy (replicate 64 0) pass 63.
Definition hw_kctl_connect (ssid pass : list Z) : cprog (Z * connect_result) :=
  r ← ask (KCall (HConnect (req_ssid ssid) (req_pass pass)));
  mret (match r with Some res => (0, res) | None => (-1, connect_result0) end).
Definition hw_kctl_disconnect : cprog Z := r ← ask (KCall HDisconnect); mret (match r with Some _ => 0 | None => -1 end).
Definition hw_kctl_status : cprog (Z * status_result) :=
  r ← ask (KCall HStatus); mret (match r with Some st => (0, st) | None => (-1, status_result0) end).
Definition hw_kctl_scan_chunk (flags count : Z) (ch : list Z) : cprog (Z * list net_entry) :=
  r ← ask (KCall (HScanChunk flags count ch)); mret (match r with Some (n, l) => (c_int n, l) | None => (-1, []) end).

(** ** main.c: through the daemon *)

Definition rtwd_running : cprog bool :=
  fd ← ask SockConnect;
  match fd with
  | SockUp => ask SockClose;; mret true
  | SockRefused => ask StatSock
  | SockDown => mret false
  end.
(** [None]: no connection; otherwise the lines of the reply. *)
Definition request (line : list Z) : cprog (option (list (list Z))) :=
  fd ← ask SockConnect;
  match fd with
  | SockUp =>
      ask (SendText (send_line line));;
      chunks ← ask RecvReply;
      ask SockClose;;
      mret (Some (rtwd_request chunks))
  | _ => mret None
  end.
(** [last_line_cb]: the last line, in a buffer of 2048 bytes. *)
Definition last_line (lines : list (list Z)) : list Z := take 2047 (default [] (head (rev lines))).

(** Rows printed, and whether the scan failed. *)
Definition scan_count (lines : list (list Z)) : Z * bool :=
  foldl (fun '(rows, failed) line => match scan_line_cb line with ScanFailed _ => (rows, true) | ScanNetwork _ => (rows + 1, failed) | ScanOther => (rows, failed) end) (0, false) lines.
Definition cli_scan : cprog Z :=
  r ← request (txt "scan");
  mret (match r with None => -1 | Some lines => if (scan_count lines).2 then 1 else 0 end).
Definition cli_simple (cmd : list Z) : cprog Z :=
  r ← request cmd;
  mret (match r with None => -1 | Some lines => if js_bool (last_line lines) (txt "ok") =? 1 then 0 else 1 end).
Definition cli_connect (ssid : list Z) (pass : option (list Z)) (nosave : bool) : cprog Z :=
  r ← request (cli_connect_text ssid (default [] pass) nosave);
  mret (match r with None => -1 | Some lines => if js_bool (last_line lines) (txt "ok") =? 1 then 0 else 1 end).
Definition cli_status : cprog Z :=
  r ← request (txt "status");
  mret (match r with None => -1 | Some lines => if js_bool (last_line lines) (txt "ok") =? 1 then 0 else 1 end).

(** ** main.c: straight to the driver object *)

Section Inet.
Context `{Inet}.

Definition direct_scan : cprog Z :=
  '(rc, conn) ← rtw_hw_open;
  if negb (rc =? 0) then mret 1 else
  '(n, _) ← hw_kctl_scan;
  _ ← rtw_hw_close conn;
  mret (if n <? 0 then 1 else 0).

(** [data_online]: up to 40 looks for the interface, then the helper. *)
Definition direct_connect (ssid : list Z) (pass : option (list Z)) : cprog Z :=
  pass ← (if negb (match pass with Some (_ :: _) => true | _ => false end) then
            file ← ask ReadConf;
            let c := (config_load_file file g_cfg0).2 in
            mret (match network_match ssid c with
                  | Some kn => match c_str (n_password kn) with [] => pass | p => Some p end
                  | None => pass
                  end)
          else mret pass);
  '(rc, conn) ← rtw_hw_open;
  if negb (rc =? 0) then mret 1 else
  '(rc, res) ← hw_kctl_connect ssid (default [] pass);
  _ ← rtw_hw_close conn;
  if negb (rc =? 0) then mret 1 else
  let bit n := nz ((cr_status res >> n) .& 1) in
  if negb (bit 0 && bit 1 && bit 2 && bit 3) then mret 1 else
  ask (DataOnline (cr_mac res));;
  mret 0.

Definition direct_disconnect : cprog Z :=
  '(rc, conn) ← rtw_hw_open;
  if negb (rc =? 0) then mret 1 else
  rc ← hw_kctl_disconnect;
  _ ← rtw_hw_close conn;
  mret (if rc =? 0 then 0 else 1).

Definition direct_status : cprog Z :=
  '(rc, conn) ← rtw_hw_open;
  if negb (rc =? 0) then mret 1 else
  '(rc, st) ← hw_kctl_status;
  _ ← rtw_hw_close conn;
  if negb (rc =? 0) then mret 1 else
  if nz (sr_connected st) then
    ifname ← ask (FindIfname (sr_mac st));
    match ifname with
    | Some n => _ ← ask (IfaceIpv4 n); mret 0
    | None => mret 0
    end
  else mret 0.

(** ** main.c: diagnostics *)

Definition diag_guard (force : bool) : cprog Z :=
  r ← rtwd_running;
  mret (if negb r then 0 else if force then 0 else -1).
Definition diag_kpoweron : cprog Z :=
  '(rc, conn) ← rtw_hw_open;
  if negb (rc =? 0) then mret 1 else
  _ ← hw_kctl_poweron;
  _ ← rtw_hw_close conn;
  mret 0.
Definition diag_kbringup : cprog Z :=
  '(rc, conn) ← rtw_hw_open;
  if negb (rc =? 0) then mret 1 else
  _ ← hw_kctl_bringup;
  _ ← rtw_hw_close conn;
  mret 0.
(** It polls until it is interrupted, here after [ticks] rounds. *)
Fixpoint kstats_loop (ticks : nat) : cprog unit :=
  match ticks with O => mret tt | S n => ask SleepSec;; _ ← hw_data_stats; kstats_loop n end.
Definition diag_kstats (ticks : nat) : cprog (option Z) :=
  '(rc, _) ← rtw_hw_open;
  if negb (rc =? 0) then mret (Some 1) else
  _ ← hw_data_stats;
  kstats_loop ticks;;
  mret None.

(** ** main *)

Definition is_arg (a : list Z) (s : string) : bool := is_txt a s.
Definition exits (p : cprog Z) : cprog (option Z) := rc ← p; mret (Some rc).
Definition diag (argv : list (list Z)) (cmd : list Z) (ticks : nat) : cprog (option Z) :=
  let force := existsb (fun a => is_arg a "--force") (drop 1 argv) in
  g ← diag_guard force;
  if negb (g =? 0) then mret (Some 2) else
  if is_arg cmd "--kpoweron" then exits diag_kpoweron
  else if is_arg cmd "--kbringup" then exits diag_kbringup
  else if is_arg cmd "--kscan" then exits direct_scan
  else if is_arg cmd "--kstats" then diag_kstats ticks
  else if is_arg cmd "--kdisconnect" then exits direct_disconnect
  else if is_arg cmd "--kconnect" then
    match argv with
    | _ :: _ :: ssid :: pass :: _ => exits (direct_connect ssid (Some pass))
    | _ => mret (Some 2)
    end
  else mret (Some 2).
Definition is_help (cmd : list Z) : bool := is_arg cmd "help" || is_arg cmd "--help" || is_arg cmd "-h".
(** [None]: killed while polling. *)
Definition main (argv : list (list Z)) (ticks : nat) : cprog (option Z) :=
  match argv with
  | [] | [_] => exits (ask RunDaemon)
  | _ :: cmd :: args =>
      if is_help cmd then mret (Some 0) else
      if is_prefix (txt "--k") cmd then diag argv cmd ticks else
      have ← rtwd_running;
      if is_arg cmd "scan" then exits (if have : bool then cli_scan else direct_scan)
      else if is_arg cmd "connect" then
        match args with
        | [] => mret (Some 2)
        | ssid :: rest =>
            let pass := match rest with p :: _ => if is_arg p "--nosave" then None else Some p | [] => None end in
            let nosave := existsb (fun a => is_arg a "--nosave") rest in
            exits (if have then cli_connect ssid pass nosave else direct_connect ssid pass)
        end
      else if is_arg cmd "disconnect" then exits (if have then cli_simple (txt "disconnect") else direct_disconnect)
      else if is_arg cmd "status" then exits (if have then cli_status else direct_status)
      else if is_arg cmd "forget" then
        match args with
        | [] => mret (Some 2)
        | ssid :: _ => if negb have then mret (Some 1) else exits (cli_simple (cli_forget_text ssid))
        end
      else if is_arg cmd "power" then
        match args with
        | [] => mret (Some 2)
        | arg :: _ =>
            if negb have then mret (Some 1) else
            rc ← cli_simple (snprintf 64 (txt "power" ++ [0x09] ++ arg));
            mret (Some (if rc =? 0 then 0 else 1))
        end
      else mret (Some 2)
  end.
End Inet.

(** ** Rules of use *)

(** [may]: no daemon was found, or the command is a forced diagnostic; [pend]: the
    daemon's socket refused, its file not looked at yet; [conn]: a connection is
    open; [known]: it answered as this version of the driver. *)
Record cl := Cl { may : bool; pend : bool; conn : bool; known : bool }.
Definition terminated_array (n : nat) (s : list Z) : bool := bool_decide (length s = n) && existsb (fun b => b =? 0) s.
Definition hw_call_ok (o : hw_call) : bool :=
  match o with HConnect ssid pass => terminated_array 33 ssid && terminated_array 64 pass | _ => true end.
Definition cl_mon (forced : bool) (s : cl) (o : cop) : cres o -> option cl :=
  match o as o return cres o -> option cl with
  | SockConnect => fun r => Some (Cl (forced || match r with SockDown => true | _ => false end) (match r with SockRefused => true | _ => false end) (conn s) (known s))
  | StatSock => fun r => Some (Cl (forced || (pend s && negb r)) false (conn s) (known s))
  | FindService => fun _ => if may s then Some s else None
  | ServiceOpen => fun r => if may s && negb (conn s) then Some (Cl (may s) (pend s) r false) else None
  | Ping => fun r => if conn s then
      Some (Cl (may s) (pend s) true (match r with Some (magic, version) => (magic =? RTW_BRIDGE_PING_MAGIC) && (version =? RTW_BRIDGE_ABI_VERSION) | None => false end)) else None
  | KCall o => fun _ => if may s && conn s && known s && hw_call_ok o then Some s else None
  | ServiceClose => fun _ => if conn s then Some (Cl (may s) (pend s) false false) else None
  | _ => fun _ => Some s
  end.

Section Rules.
Context (forced : bool).
Abbreviation W := (cwp (cl_mon forced)).
(** Ready to open, and with a connection open. *)
Definition closed (s : cl) : Prop := conn s = false.
Definition ready (s : cl) : Prop := may s = true /\ conn s = false.
Definition opened (s : cl) : Prop := may s = true /\ conn s = true /\ known s = true.

Lemma close_rule s : opened s -> W (rtw_hw_close true) s (fun c s' => c = false /\ closed s').
Proof. intros (H1 & H2 & H3). cbn. rewrite H2. by intros []. Qed.
Lemma open_rule s : ready s -> W rtw_hw_open s (fun '(rc, c) s' => (rc = 0 /\ c = true /\ opened s') \/ (rc = -1 /\ c = false /\ closed s')).
Proof.
  intros [H1 H2]. unfold rtw_hw_open. cbn. rewrite H1. intros [|]; [|cbn; by right]. cbn. rewrite H1, H2. cbn. intros [|]; cbn; [|intros []; by right].
  intros []. intros [[m v]|]; cbn; [|intros []; by right]. destruct ((m =? RTW_BRIDGE_PING_MAGIC) && (v =? RTW_BRIDGE_ABI_VERSION)) eqn:E.
  - apply andb_prop in E as [-> ->]. cbn. left. by split_and!.
  - assert (En : negb (m =? RTW_BRIDGE_PING_MAGIC) || negb (v =? RTW_BRIDGE_ABI_VERSION) = true) by (rewrite <- negb_andb, E; done). rewrite En. cbn. intros []. by right.
Qed.
Lemma call_rule o s : opened s -> hw_call_ok o = true -> W (ask (KCall o)) s (fun _ s' => s' = s).
Proof. intros (H1 & H2 & H3) Ho. cbn. by rewrite H1, H2, H3, Ho. Qed.

Lemma running_rule s : closed s -> W rtwd_running s (fun b s' => closed s' /\ (b = false -> may s' = true)).
Proof.
  intros H. unfold rtwd_running. cbn. intros [| |]; cbn.
  - intros []. by split.
  - intros b. split; [done|]. intros ->. cbn. apply orb_true_r.
  - split; [done|]. intros _. apply orb_true_r.
Qed.
Lemma running_forced s : forced = true -> closed s -> W rtwd_running s (fun b s' => ready s').
Proof.
  intros Hf H. unfold rtwd_running. cbn. rewrite Hf. intros [| |]; cbn; [intros []|intros b|]; by split.
Qed.
Lemma hw_rule {A} (o : hw_call) (f : option (hw_ans o) -> A) s : opened s -> hw_call_ok o = true -> W (r ← ask (KCall o); mret (f r)) s (fun _ s' => s' = s).
Proof. intros Hs Ho. apply cwp_bind. eapply cwp_mono; [by apply call_rule|]. by intros r s' ->. Qed.
Lemma request_rule line s : closed s -> W (request line) s (fun _ s' => closed s').
Proof. intros H. unfold request. cbn. intros [| |]; cbn; [intros [] chunks []| |]; done. Qed.
End Rules.

(** ** The requests *)

Lemma c_str_nonul s : 0 ∉ c_str s.
Proof. induction s as [|b s IH]; cbn; [apply not_elem_of_nil|]. destruct (Z.eqb_spec b 0); [apply not_elem_of_nil|]. by apply not_elem_of_cons. Qed.
Lemma req_terminated n s : terminated_array (S n) (strncpy (replicate (S n) 0) s n) = true.
Proof.
  unfold terminated_array, strncpy. apply andb_true_iff. split.
  - apply bool_decide_eq_true. rewrite length_app, length_take, length_app, length_drop, !length_replicate. lia.
  - apply existsb_exists. exists 0. split; [|done]. apply in_or_app. right. replace (S n) with (n + 1)%nat by lia. rewrite replicate_add, drop_app_length' by by rewrite length_replicate. by left.
Qed.
Lemma connect_req_ok ssid pass : hw_call_ok (HConnect (req_ssid ssid) (req_pass pass)) = true.
Proof. cbn. unfold req_ssid, req_pass. by rewrite !req_terminated. Qed.
(** What the kernel reads of it: the name, cut at 32 bytes. *)
Lemma c_str_short l : 0 ∉ l -> forall n, c_str (l ++ replicate n 0) = l.
Proof.
  induction l as [|b l IH]; intros Hl n; [by destruct n|]. apply not_elem_of_cons in Hl as [Hb Hl]. cbn. destruct (Z.eqb_spec b 0); [congruence|]. by rewrite IH.
Qed.
Lemma req_ssid_read ssid : c_str (req_ssid ssid) = take 32 (c_str ssid).
Proof.
  unfold req_ssid, strncpy. change (drop 32 (replicate 33 0)) with (replicate 1 0).
  assert (E : exists n, take 32 (c_str ssid ++ replicate 32 0) ++ replicate 1 0 = take 32 (c_str ssid) ++ replicate n 0).
  { rewrite take_app, take_replicate. rewrite <- app_assoc, <- replicate_add. by eexists. }
  destruct E as [n ->]. apply c_str_short. intros H. apply (c_str_nonul ssid). by eapply elem_of_take in H as (i & H & _); apply list_elem_of_lookup_2 in H.
Qed.

(** ** Every command keeps the rules *)

Section Commands.
Context (forced : bool) `{Inet}.
Abbreviation W := (cwp (cl_mon forced)).
Abbreviation done_closed := (fun (_ : Z) (s : cl) => closed s).
Ltac direct_open s1 Hs1 :=
  apply cwp_bind; eapply cwp_mono; [by apply open_rule|]; intros [rc c] s1 [(-> & -> & Hs1)|(-> & -> & Hs1)]; cbn [negb Z.eqb]; [|exact Hs1].
Ltac direct_close := apply cwp_bind; eapply cwp_mono; [by apply close_rule|]; intros ? s2 [-> Hs2].
Ltac direct_call := apply cwp_bind; eapply cwp_mono; [by apply hw_rule|].

Lemma scan_direct s : ready s -> W direct_scan s done_closed.
Proof. intros Hs. unfold direct_scan. direct_open s1 Hs1. direct_call. intros [n l] s' ->. direct_close. by destruct (n <? 0). Qed.
Lemma disconnect_direct s : ready s -> W direct_disconnect s done_closed.
Proof. intros Hs. unfold direct_disconnect. direct_open s1 Hs1. direct_call. intros rc s' ->. direct_close. exact Hs2. Qed.
Lemma status_direct s : ready s -> W direct_status s done_closed.
Proof.
  intros Hs. unfold direct_status. direct_open s1 Hs1. direct_call. intros [rc st] s' ->. direct_close. destruct (negb _); [exact Hs2|]. destruct (nz _); [|exact Hs2].
  cbn. intros [n|]; cbn; [by intros|done].
Qed.
Lemma connect_direct ssid pass s : ready s -> W (direct_connect ssid pass) s done_closed.
Proof.
  intros Hs. unfold direct_connect. apply cwp_bind. eapply (cwp_mono _ _ _ (fun _ s' => ready s')).
  { destruct (negb _); [|exact Hs]. cbn. intros file. exact Hs. }
  intros p s0 Hs0. direct_open s1 Hs1. apply cwp_bind. eapply cwp_mono; [by apply hw_rule, connect_req_ok|]. intros [rc res] s' ->. direct_close.
  destruct (negb _); [exact Hs2|]. cbv zeta. destruct (negb _); [exact Hs2|]. cbn. by intros [].
Qed.
Lemma poweron_direct s : ready s -> W diag_kpoweron s done_closed.
Proof. intros Hs. unfold diag_kpoweron. direct_open s1 Hs1. direct_call. intros rc s' ->. direct_close. exact Hs2. Qed.
Lemma bringup_direct s : ready s -> W diag_kbringup s done_closed.
Proof. intros Hs. unfold diag_kbringup. direct_open s1 Hs1. direct_call. intros rc s' ->. direct_close. exact Hs2. Qed.

(** The end of a run. *)
Definition ended (r : option Z) (s : cl) : Prop := is_Some r -> closed s.
Lemma kstats_direct ticks s : ready s -> W (diag_kstats ticks) s ended.
Proof.
  intros Hs. unfold diag_kstats. apply cwp_bind. eapply cwp_mono; [by apply open_rule|]. intros [rc c] s1 [(-> & -> & Hs1)|(-> & -> & Hs1)]; cbn [negb Z.eqb]; [|by intros _].
  direct_call. intros l s' ->. apply cwp_bind. eapply (cwp_mono _ _ _ (fun _ s' => opened s')).
  - revert s1 Hs1. induction ticks as [|n IH]; intros s1 Hs1; cbn [kstats_loop]; [exact Hs1|]. apply cwp_bind. intros []. cbn [cl_mon cwp].
    direct_call. intros l' s' ->. by apply IH.
  - intros [] s2 _ [? [=]].
Qed.
Lemma exits_rule (p : cprog Z) s : W p s done_closed -> W (exits p) s ended.
Proof. intros Hp. unfold exits. apply cwp_bind. eapply cwp_mono; [exact Hp|]. intros rc s' Hs _. exact Hs. Qed.
Lemma simple_rule cmd s : closed s -> W (cli_simple cmd) s done_closed.
Proof. intros Hs. unfold cli_simple. apply cwp_bind. eapply cwp_mono; [by apply request_rule|]. intros [lines|] s' Hs'; exact Hs'. Qed.

Lemma diag_rule argv cmd ticks s : forced = existsb (fun a => is_arg a "--force") (drop 1 argv) -> closed s -> W (diag argv cmd ticks) s ended.
Proof.
  intros Hf Hs. unfold diag. rewrite <- Hf. unfold diag_guard.
  assert (Hg : W (r ← rtwd_running; mret (if negb r then 0 else if forced then 0 else -1)) s (fun g s' => closed s' /\ (g = 0 -> may s' = true))).
  { apply cwp_bind. destruct (decide (forced = true)) as [E|E].
    - eapply cwp_mono; [by apply running_forced|]. intros b s' [H1 H2]. cbn. by split.
    - apply not_true_is_false in E. eapply cwp_mono; [by apply running_rule|]. intros b s' [H1 H2]. cbn. split; [done|]. rewrite E. by destruct b; [|intros _; apply H2]. }
  apply cwp_bind. eapply cwp_mono; [exact Hg|]. intros g s1 [Hc Hm]. destruct (Z.eqb_spec g 0) as [->|]; cbn [negb]; [|by intros _].
  assert (Hr : ready s1) by (split; [by apply Hm|done]).
  destruct (is_arg cmd "--kpoweron"); [by apply exits_rule, poweron_direct|]. destruct (is_arg cmd "--kbringup"); [by apply exits_rule, bringup_direct|].
  destruct (is_arg cmd "--kscan"); [by apply exits_rule, scan_direct|]. destruct (is_arg cmd "--kstats"); [by apply kstats_direct|].
  destruct (is_arg cmd "--kdisconnect"); [by apply exits_rule, disconnect_direct|]. destruct (is_arg cmd "--kconnect"); [|by intros _].
  destruct argv as [|a0 [|a1 [|ssid [|pass rest]]]]; try (by intros _). by apply exits_rule, connect_direct.
Qed.
End Commands.

(** A forced diagnostic: the command begins with --k and --force is among the
    arguments. *)
Definition forced_diag (argv : list (list Z)) : bool :=
  match argv with
  | _ :: cmd :: _ => is_prefix (txt "--k") cmd && existsb (fun a => is_arg a "--force") (drop 1 argv)
  | _ => false
  end.
Definition cl0 (argv : list (list Z)) : cl := Cl (forced_diag argv) false false false.

(** C22: one path to the chip.  Whatever the arguments, the daemon's replies, the
    saved file and the answers of the system: the command line opens the driver
    object only after it has found no daemon (no one listening, and on a refused
    connection no socket file either), unless the command is a diagnostic with
    --force; every call it makes goes through a connection that was opened,
    answered as this version of the driver and is not closed yet; every connect
    request is two zero-terminated arrays of 33 and 64 bytes; and a run that ends
    leaves no connection open. *)
Theorem client_one_path `{Inet} (argv : list (list Z)) (ticks : nat) :
  cwp (cl_mon (forced_diag argv)) (main argv ticks) (cl0 argv) ended.
Proof.
  unfold cl0. set (s := Cl (forced_diag argv) false false false). assert (Hs : closed s) by done. clearbody s. unfold main.
  destruct argv as [|a0 [|cmd args]]; [apply exits_rule; cbn; intros r; exact Hs|apply exits_rule; cbn; intros r; exact Hs|].
  destruct (is_help cmd); [by intros _|]. destruct (is_prefix (txt "--k") cmd) eqn:Ek.
  { apply diag_rule; [|exact Hs]. cbn [forced_diag]. by rewrite Ek. }
  assert (Ef : forced_diag (a0 :: cmd :: args) = false) by (cbn [forced_diag]; by rewrite Ek). rewrite Ef.
  apply cwp_bind. eapply cwp_mono; [by apply running_rule|]. intros have s1 [Hc Hm].
  assert (Hpick : forall p q : cprog Z, cwp (cl_mon false) p s1 (fun _ s' => closed s') -> (ready s1 -> cwp (cl_mon false) q s1 (fun _ s' => closed s')) ->
    cwp (cl_mon false) (exits (if have then p else q)) s1 ended).
  { intros p q Hp Hq. apply exits_rule. destruct have; [exact Hp|]. apply Hq. split; [by apply Hm|exact Hc]. }
  assert (Hreq : forall line f, cwp (cl_mon false) (r ← request line; mret (f r : Z)) s1 (fun _ s' => closed s')).
  { intros line f. apply cwp_bind. eapply cwp_mono; [by apply request_rule|]. intros r s' H'. exact H'. }
  destruct (is_arg cmd "scan"); [apply Hpick; [apply Hreq|apply scan_direct]|].
  destruct (is_arg cmd "connect"); [destruct args as [|ssid rest]; [by intros _|]; cbv zeta; apply Hpick; [apply Hreq|apply connect_direct]|].
  destruct (is_arg cmd "disconnect"); [apply Hpick; [by apply simple_rule|apply disconnect_direct]|].
  destruct (is_arg cmd "status"); [apply Hpick; [apply Hreq|apply status_direct]|].
  destruct (is_arg cmd "forget"); [destruct args as [|ssid rest]; [by intros _|]; destruct (negb have); [by intros _|by apply exits_rule, simple_rule]|].
  destruct (is_arg cmd "power"); [|by intros _]. destruct args as [|arg rest]; [by intros _|]. destruct (negb have); [by intros _|].
  apply cwp_bind. eapply cwp_mono; [by apply simple_rule|]. intros rc s' H' _. exact H'.
Qed.

(** A chip already carrying a connection is powered on under it: with no daemon,
    the diagnostic asks for nothing but the absence of the daemon. *)
Fixpoint run_client {A} (p : cprog A) (ans : list (forall o, cres o)) : list cop :=
  match p, ans with
  | Call o k, a :: ans => o :: run_client (k (a o)) ans
  | Call o _, [] => [o]
  | Done _, _ => []
  end.
Definition no_daemon (o : cop) : cres o :=
  match o as o return cres o with
  | SockConnect => SockDown
  | StatSock => false
  | FindService | ServiceOpen => true
  | Ping => Some (RTW_BRIDGE_PING_MAGIC, RTW_BRIDGE_ABI_VERSION)
  | RecvReply => [] | KCall _ => None | ReadConf => None | FindIfname _ => None | IfaceIpv4 _ => [] | RunDaemon => 0
  | _ => tt
  end.
Lemma kpoweron_unguarded `{Inet} : run_client (main [txt "rtwd"; txt "--kpoweron"] 0) (replicate 9 no_daemon) =
  [SockConnect; FindService; ServiceOpen; ReleaseService; Ping; KCall HInit; ServiceClose].
Proof. reflexivity. Qed.
