(* ===== verification/Abi.v ===== *)
(** * Abi: the control interface between the command line and the kernel
    (server/rtw88_abi.h, the control methods of server/RTW88Server.cpp, the calls
    of client/rtw_hw.c)

    The structures that cross the boundary, field by field; the dispatch table;
    the control methods over the bytes of a request; the bytes client/rtw_hw.c
    sends and how it reads the answer.  The kernel's part in carrying a call, the
    check of the four sizes against the table, is the class [Framework].  Proved:
    both sides agree, so that a call of the client is the entry point of
    server/kctl.c on the client's arguments, and its answer is the entry point's;
    and what any request, whatever bytes it carries, can have the kernel and the
    chip do. *)
From stdpp Require Import gmap.
From S2P Require Import Prelude Hw Dev Trx Scan Fw Assoc Bringup Judge DataPath Kctl Bridge Server.
From S2P Require Import Config Wire Client.
Open Scope Z_scope.
Open Scope rtw_scope.
Open Scope list_scope.

(** ** Structures *)

(** A field: an array of bytes, an unsigned integer, or bytes of no meaning. *)
Inductive fld := FArr (n : nat) | FU8 | FU32 | FU64 | FPad (n : nat).
Definition fld_size (f : fld) : nat := match f with FArr n | FPad n => n | FU8 => 1 | FU32 => 4 | FU64 => 8 end.
Definition fld_align (f : fld) : nat := match f with FU32 => 4 | FU64 => 8 | _ => 1 end.
Definition span (fs : list fld) : nat := sum_list_with fld_size fs.
Definition is_pad (f : fld) : bool := match f with FPad _ => true | _ => false end.
(** Rounded up, so that the next structure of an array is aligned too. *)
Definition alignment (fs : list fld) : nat := foldr (fun f => Nat.max (fld_align f)) 1%nat fs.
Definition sizeof (fs : list fld) : nat := (span fs + (alignment fs - 1)) / alignment fs * alignment fs.
(** No hidden padding between fields: each is where its alignment wants it. *)
Fixpoint aligned_from (off : nat) (fs : list fld) : bool :=
  match fs with [] => true | f :: fs => (off mod fld_align f =? 0)%nat && aligned_from (off + fld_size f) fs end.
Definition packed (fs : list fld) : bool := aligned_from 0 fs.

(** Values, one list for each field that has one: an array, or one integer. *)
Definition arr (n : nat) (l : list Z) : list Z := take n (l ++ replicate n 0).
Definition one (l : list Z) : Z := nth 0 l 0.
Definition le64 (v : Z) : list Z := le32 v ++ le32 (v >> 32).
Definition get32 (b : list Z) : Z := word32 (nth 0 b 0) (nth 1 b 0) (nth 2 b 0) (nth 3 b 0).
Definition get64 (b : list Z) : Z := get32 b .| (get32 (drop 4 b) << 32).
Definition fld_put (f : fld) (v : list Z) : list Z :=
  match f with FArr n => arr n v | FU8 => [u8 (one v)] | FU32 => le32 (one v) | FU64 => le64 (one v) | FPad _ => [] end.
Definition fld_get (f : fld) (b : list Z) : list Z :=
  match f with FArr n => take n b | FU8 => [nth 0 b 0] | FU32 => [get32 b] | FU64 => [get64 b] | FPad _ => [] end.
(** What a field can hold of a value. *)
Definition fld_norm (f : fld) (v : list Z) : list Z :=
  match f with FArr n => arr n v | FU8 => [u8 (one v)] | FU32 => [u32 (one v)] | FU64 => [u64 (one v)] | FPad _ => [] end.

(** Written over the memory [old], whose padding stays; and read. *)
Fixpoint put_struct (fs : list fld) (vs : list (list Z)) (old : list Z) : list Z :=
  match fs with
  | [] => old
  | f :: fs =>
      if is_pad f then take (fld_size f) old ++ put_struct fs vs (drop (fld_size f) old)
      else match vs with
           | [] => old
           | v :: vs => fld_put f v ++ put_struct fs vs (drop (fld_size f) old)
           end
  end.
Fixpoint get_struct (fs : list fld) (b : list Z) : list (list Z) :=
  match fs with
  | [] => []
  | f :: fs => (if is_pad f then [] else [fld_get f b]) ++ get_struct fs (drop (fld_size f) b)
  end.
Fixpoint norm_struct (fs : list fld) (vs : list (list Z)) : list (list Z) :=
  match fs, vs with
  | [], _ | _, [] => []
  | f :: fs, v :: vs' => if is_pad f then norm_struct fs vs else fld_norm f v :: norm_struct fs vs'
  end.
Definition values (fs : list fld) : nat := length (List.filter (fun f => negb (is_pad f)) fs).

(** The structures of the header. *)
Definition rtw_connect_req : list fld := [FArr 33; FArr 64; FPad 3].
Definition rtw_connect_result : list fld := [FU32; FArr 6; FU8; FPad 1].
Definition rtw_status_result : list fld := [FU32; FArr 6; FArr 6; FU8; FPad 1; FArr 33; FPad 3].
Definition rtw_scan_chans : list fld := [FU32; FU32; FArr 40].
Definition rtw_scan_entry : list fld := [FArr 6; FU8; FU8; FArr 33; FU8; FPad 2; FU32].
Definition RTW_SCAN_ENTRIES : nat := 64.
Definition rtw_scan_result_size : nat := 4 + RTW_SCAN_ENTRIES * sizeof rtw_scan_entry.
Definition rtw_data_cfg_fields : list fld := [FArr 6; FArr 6; FU8; FU8; FPad 2] ++ replicate 10 FU32.
Definition stats_fields : list fld := replicate 21 FU64.

(** ** The dispatch table *)

(** The sizes a method wants: scalars in, structure in, scalars out, structure out. *)
Record dispatch := Dispatch { checkScalarInput : nat; checkStructureInput : nat; checkScalarOutput : nat; checkStructureOutput : nat }.
Definition sMethods : list dispatch := [
  Dispatch 0 0 4 0; Dispatch 2 0 1 0; Dispatch 3 0 0 0; Dispatch 2 0 1 0; Dispatch 3 0 0 0; Dispatch 1 0 3 0; Dispatch 1 0 0 0; Dispatch 4 0 0 0;
  Dispatch 1 0 0 0; Dispatch 0 0 0 0; Dispatch 0 0 0 0; Dispatch 1 0 1 0; Dispatch 2 0 1 0; Dispatch 2 0 0 0;
  Dispatch 0 (sizeof rtw_data_cfg_fields) 0 0; Dispatch 0 0 0 0; Dispatch 1 0 0 0; Dispatch 0 0 0 (8 * 21);
  Dispatch 0 0 1 0; Dispatch 0 0 1 0; Dispatch 0 0 0 rtw_scan_result_size; Dispatch 0 (sizeof rtw_connect_req) 0 (sizeof rtw_connect_result);
  Dispatch 0 0 0 0; Dispatch 0 0 0 (sizeof rtw_status_result); Dispatch 0 (sizeof rtw_scan_chans) 0 rtw_scan_result_size].
Definition kBridgeDataStats : nat := 17.
Definition kBridgeKInit : nat := 18.
Definition kBridgeKBringup : nat := 19.
Definition kBridgeKScan : nat := 20.
Definition kBridgeKConnect : nat := 21.
Definition kBridgeKDisconnect : nat := 22.
Definition kBridgeKStatus : nat := 23.
Definition kBridgeKScanChunk : nat := 24.
Definition kBridgeNumMethods : nat := 25.

(** A request as it reaches the driver: scalars, the structure, how many scalars
    the caller takes back and the memory set aside for the structure. *)
Record uargs := UArgs { ua_scalars : list Z; ua_in : list Z; ua_nout : nat; ua_out : list Z }.
Record reply := Reply { rp_rc : ioreturn; rp_scalars : list Z; rp_out : list Z }.

(** The kernel's check: a method runs only on a request of the sizes its row
    names. *)
Class Framework := {
  accepts : dispatch -> uargs -> bool;
  accepts_sizes : forall d a, accepts d a = true <->
    length (ua_scalars a) = checkScalarInput d /\ length (ua_in a) = checkStructureInput d /\
    ua_nout a = checkScalarOutput d /\ length (ua_out a) = checkStructureOutput d;
}.

(** ** The control methods *)

Definition req_values (b : list Z) : list Z * list Z := match get_struct rtw_connect_req b with [s; p] => (s, p) | _ => ([], []) end.
Definition chans_values (b : list Z) : Z * Z * list Z := match get_struct rtw_scan_chans b with [f; c; ch] => (one f, one c, ch) | _ => (0, 0, []) end.
Definition flag (b : bool) : list Z := [if b then 1 else 0].
Definition entry_values (n : net_entry) : list (list Z) :=
  [bssid n; [channel n]; flag (hidden n); ssid n; flag (privacy n); [beacons n]].
Fixpoint put_entries (l : list net_entry) (old : list Z) : list Z :=
  match l with
  | [] => old
  | n :: l => put_struct rtw_scan_entry (entry_values n) (take (sizeof rtw_scan_entry) old) ++ put_entries l (drop (sizeof rtw_scan_entry) old)
  end.
(** What [scan_marshal] writes: the count and the entries, nothing else. *)
Definition put_scan (l : list net_entry) (old : list Z) : list Z := le32 (Z.of_nat (length l)) ++ put_entries l (drop 4 old).
Definition put_connect (r : connect_result) (old : list Z) : list Z := put_struct rtw_connect_result [[cr_status r]; cr_mac r; [cr_channel r]] old.
Definition put_status (r : status_result) (old : list Z) : list Z :=
  put_struct rtw_status_result [[sr_connected r]; sr_mac r; sr_bssid r; [sr_channel r]; sr_ssid r] old.
(** [memset(out, 0, sizeof *out)]. *)
Definition cleared (n : nat) (old : list Z) : list Z := replicate n 0 ++ drop n old.

(** The driver object and the control code's globals. *)
Abbreviation kernel := (server * kctl)%type.
Definition fails (rc : ioreturn) (a : uargs) (x : kernel) : prog (reply * kernel) := mret (Reply rc [] (ua_out a), x).

(** What the system answers a method of the bridge: memory, interrupt machinery,
    sleeps, what an interface needs, when the poll thread exits. *)
Record bridge_env := BridgeEnv { be_mem : option (Z * Z); be_irq : bool * bool * bool; be_naps : list (list Z * wake); be_data : data_env; be_done : option nat }.
Definition cfg_read (b : list Z) : data_cfg :=
  let f := get_struct rtw_data_cfg_fields b in
  let w i := one (nth i f []) in
  DataCfg' (nth 0 f []) (nth 1 f []) (w 2%nat) (w 3%nat)
    (DataCfg (w 4%nat) (w 5%nat) (w 6%nat) (w 7%nat) (w 8%nat) (w 9%nat) (w 10%nat) (w 11%nat) (w 12%nat) (w 13%nat)).

Section Methods.
Context (fw : list Z) (attached : bool) (env : bridge_env).

Definition sDataStats (a : uargs) (x : kernel) : prog (reply * kernel) :=
  if negb attached then fails kIOReturnNotAttached a x else
  if (length (ua_out a) <? 8 * 21)%nat then fails kIOReturnNoSpace a x else
  let '(rc, l, s) := dataStats x.1 in
  mret (Reply rc [] (put_struct stats_fields (map (fun v => [v]) l) (ua_out a)), (s, x.2)).
Definition sKInit (a : uargs) (x : kernel) : prog (reply * kernel) :=
  if negb attached then fails kIOReturnNotAttached a x else
  r ← rtw_kctl_poweron;
  mret (Reply kIOReturnSuccess [r] (ua_out a), x).
Definition sKBringup (a : uargs) (x : kernel) : prog (reply * kernel) :=
  if negb attached then fails kIOReturnNotAttached a x else
  '(r, k) ← rtw_kctl_bringup fw x.2;
  mret (Reply kIOReturnSuccess [r] (ua_out a), (x.1, k)).
Definition sKScan (a : uargs) (x : kernel) : prog (reply * kernel) :=
  if negb attached then fails kIOReturnNotAttached a x else
  if (length (ua_out a) <? rtw_scan_result_size)%nat then fails kIOReturnNoSpace a x else
  '(_, l, k) ← rtw_kctl_scan fw x.2;
  mret (Reply kIOReturnSuccess [] (put_scan l (ua_out a)), (x.1, k)).
Definition sKConnect (a : uargs) (x : kernel) : prog (reply * kernel) :=
  if negb attached then fails kIOReturnNotAttached a x else
  if (length (ua_in a) <? sizeof rtw_connect_req)%nat then fails kIOReturnBadArgument a x else
  if (length (ua_out a) <? sizeof rtw_connect_result)%nat then fails kIOReturnNoSpace a x else
  let '(ssid, pass) := req_values (ua_in a) in
  '(r, k) ← rtw_kctl_connect fw ssid pass x.2;
  mret (Reply kIOReturnSuccess [] (put_connect r (cleared (sizeof rtw_connect_result) (ua_out a))), (x.1, k)).
Definition sKDisconnect (a : uargs) (x : kernel) : prog (reply * kernel) :=
  if negb attached then fails kIOReturnNotAttached a x else
  k ← rtw_kctl_disconnect x.2;
  mret (Reply kIOReturnSuccess [] (ua_out a), (x.1, k)).
Definition sKStatus (a : uargs) (x : kernel) : prog (reply * kernel) :=
  if negb attached then fails kIOReturnNotAttached a x else
  if (length (ua_out a) <? sizeof rtw_status_result)%nat then fails kIOReturnNoSpace a x else
  mret (Reply kIOReturnSuccess [] (put_status (rtw_kctl_status x.2) (cleared (sizeof rtw_status_result) (ua_out a))), x).
(** The result is cleared before the scan and written only by a scan that ran. *)
Definition sKScanChunk (a : uargs) (x : kernel) : prog (reply * kernel) :=
  if negb attached then fails kIOReturnNotAttached a x else
  if (length (ua_in a) <? sizeof rtw_scan_chans)%nat then fails kIOReturnBadArgument a x else
  if (length (ua_out a) <? rtw_scan_result_size)%nat then fails kIOReturnNoSpace a x else
  let '(flags, count, ch) := chans_values (ua_in a) in
  '(l, k) ← rtw_kctl_scan_chunk fw flags count ch x.2;
  mret (Reply kIOReturnSuccess [] (put_scan l (cleared rtw_scan_result_size (ua_out a))), (x.1, k)).

(** A method of the bridge, on its scalars. *)
Definition bridge_method (c : client_call) (a : uargs) (x : kernel) : prog (reply * kernel) :=
  if negb attached then fails kIOReturnNotAttached a x else
  '(rc, l, s) ← client_do c x.1;
  mret (Reply rc l (ua_out a), (s, x.2)).
Definition sDataStart (a : uargs) (x : kernel) : prog (reply * kernel) :=
  if negb attached then fails kIOReturnNotAttached a x else
  if (length (ua_in a) <? sizeof rtw_data_cfg_fields)%nat then fails kIOReturnBadArgument a x else
  bridge_method (CDataStart (cfg_read (ua_in a)) (be_data env)) a x.
(** The function of each row of the table. *)
Definition method (sel : nat) (a : uargs) : kernel -> prog (reply * kernel) :=
  let s i := nth i (ua_scalars a) 0 in
  let '(wl, src, add) := be_irq env in
  match sel with
  | 0 => bridge_method CPing a
  | 1 => bridge_method (CRegRead (s 0) (s 1)) a
  | 2 => bridge_method (CRegWrite (s 0) (s 1) (s 2)) a
  | 3 => bridge_method (CCfgRead (s 0) (s 1)) a
  | 4 => bridge_method (CCfgWrite (s 0) (s 1) (s 2)) a
  | 5 => bridge_method (CDmaAlloc (s 0) (be_mem env)) a
  | 6 => fails kIOReturnUnsupported a
  | 7 => bridge_method (CRegWriteDma (s 0) (s 1) (s 2) (s 3)) a
  | 8 => bridge_method (CSetMacPower (s 0)) a
  | 9 => bridge_method (CIrqEnable wl src add) a
  | 10 => bridge_method CIrqDisable a
  | 11 => bridge_method (CIrqWait (be_naps env)) a
  | 12 => bridge_method (CIrqStatus (s 0) (s 1)) a
  | 13 => bridge_method (Server.CPower (s 0) (s 1)) a
  | 14 => sDataStart a
  | 15 => bridge_method (CDataStop (be_done env)) a
  | 16 => bridge_method (CDataLink (s 0)) a
  | 17 => sDataStats a
  | 18 => sKInit a
  | 19 => sKBringup a
  | 20 => sKScan a
  | 21 => sKConnect a
  | 22 => sKDisconnect a
  | 23 => sKStatus a
  | 24 => sKScanChunk a
  | _ => fails kIOReturnUnsupported a
  end%nat.
(** [externalMethod]: the row of the selector, the kernel's check, the function.  A
    selector past the table is the kernel's to refuse. *)
Definition externalMethod `{Framework} (sel : nat) (a : uargs) (x : kernel) : prog (reply * kernel) :=
  match sMethods !! sel with
  | Some d => if accepts d a then method sel a x else fails kIOReturnBadArgument a x
  | None => fails kIOReturnUnsupported a x
  end.
End Methods.

(** ** The client's side *)

Definition hw_selector (o : hw_call) : nat :=
  match o with
  | HInit => kBridgeKInit | HBringup => kBridgeKBringup | HScan => kBridgeKScan | HScanChunk _ _ _ => kBridgeKScanChunk
  | HConnect _ _ => kBridgeKConnect | HDisconnect => kBridgeKDisconnect | HStatus => kBridgeKStatus | HDataStats => kBridgeDataStats
  end.
(** The scalars taken back, and the size of the structure. *)
Definition hw_takes (o : hw_call) : nat * nat :=
  match o with
  | HInit | HBringup => (1, 0)
  | HScan | HScanChunk _ _ _ => (0, rtw_scan_result_size)
  | HConnect _ _ => (0, sizeof rtw_connect_result)
  | HDisconnect => (0, 0)
  | HStatus => (0, sizeof rtw_status_result)
  | HDataStats => (0, 8 * 21)
  end%nat.
(** The request structure is cleared before it is filled in. *)
Definition hw_request (o : hw_call) : list Z :=
  match o with
  | HConnect ssid pass => put_struct rtw_connect_req [ssid; pass] (replicate (sizeof rtw_connect_req) 0)
  | HScanChunk flags count ch => put_struct rtw_scan_chans [[flags]; [count]; ch] (replicate (sizeof rtw_scan_chans) 0)
  | _ => []
  end.
(** [out]: the memory the kernel sets aside for the structure. *)
Definition hw_args (o : hw_call) (out : list Z) : uargs := UArgs [] (hw_request o) (hw_takes o).1 out.

Definition get_entry (b : list Z) : net_entry :=
  match get_struct rtw_scan_entry b with
  | [m; c; h; s; p; n] => NetEntry m s (one c) (one n) (nz (one h)) (nz (one p))
  | _ => net_entry0
  end.
Definition get_scan (b : list Z) : Z * list net_entry :=
  let n := get32 b in
  (n, map (fun k => get_entry (drop (4 + k * sizeof rtw_scan_entry) b)) (seq 0 (Z.to_nat n))).
Definition get_connect (b : list Z) : Kctl.connect_result :=
  match get_struct rtw_connect_result b with [s; m; c] => ConnectResult (one s) m (one c) | _ => connect_result0 end.
Definition get_status (b : list Z) : status_result :=
  match get_struct rtw_status_result b with [c; m; bs; ch; s] => StatusResult (one c) m bs (one ch) s | _ => status_result0 end.
Definition hw_read (o : hw_call) (r : reply) : hw_ans o :=
  match o with
  | HInit | HBringup => one (rp_scalars r)
  | HScan | HScanChunk _ _ _ => get_scan (rp_out r)
  | HConnect _ _ => get_connect (rp_out r)
  | HDisconnect => tt
  | HStatus => get_status (rp_out r)
  | HDataStats => map one (get_struct stats_fields (rp_out r))
  end.

Section Calls.
Context (fw : list Z) (env : bridge_env) `{Framework}.

(** One call of client/rtw_hw.c, carried to the kernel and back. *)
Definition hw_call_kernel (o : hw_call) (out : list Z) (x : kernel) : prog (option (hw_ans o) * kernel) :=
  '(r, x) ← externalMethod fw true env (hw_selector o) (hw_args o out) x;
  mret (if decide (rp_rc r = kIOReturnSuccess) then Some (hw_read o r) else None, x).

(** The entry point it stands for. *)
Definition entry_point (o : hw_call) (x : kernel) : prog (hw_ans o * kernel) :=
  match o return prog (hw_ans o * kernel) with
  | HInit => r ← rtw_kctl_poweron; mret (r, x)
  | HBringup => '(r, k) ← rtw_kctl_bringup fw x.2; mret (r, (x.1, k))
  | HScan => '(_, l, k) ← rtw_kctl_scan fw x.2; mret ((Z.of_nat (length l), l), (x.1, k))
  | HScanChunk flags count ch => '(l, k) ← rtw_kctl_scan_chunk fw flags count ch x.2; mret ((Z.of_nat (length l), l), (x.1, k))
  | HConnect ssid pass => '(r, k) ← rtw_kctl_connect fw ssid pass x.2; mret (r, (x.1, k))
  | HDisconnect => k ← rtw_kctl_disconnect x.2; mret (tt, (x.1, k))
  | HStatus => mret (rtw_kctl_status x.2, x)
  | HDataStats => let '(_, l, s) := dataStats x.1 in mret (l, (s, x.2))
  end.

(** An answer, each field as its type holds it. *)
Definition as_entry (n : net_entry) : net_entry := NetEntry (arr 6 (bssid n)) (arr 33 (ssid n)) (u8 (channel n)) (u32 (beacons n)) (hidden n) (privacy n).
Definition as_ans (o : hw_call) : hw_ans o -> hw_ans o :=
  match o with
  | HScan | HScanChunk _ _ _ => fun r => (r.1, map as_entry r.2)
  | HConnect _ _ => fun r => ConnectResult (u32 (cr_status r)) (arr 6 (cr_mac r)) (u8 (cr_channel r))
  | HStatus => fun r => StatusResult (u32 (sr_connected r)) (arr 6 (sr_mac r)) (arr 6 (sr_bssid r)) (u8 (sr_channel r)) (arr 33 (sr_ssid r))
  | HDataStats => map (fun v => u64 v)
  | _ => fun r => r
  end.
(** The arguments are values of the client's types. *)
Definition hw_args_ok (o : hw_call) : Prop :=
  match o with
  | HConnect ssid pass => length ssid = 33%nat /\ length pass = 64%nat
  | HScanChunk flags count ch => 0 <= flags < 2 ^ 32 /\ 0 <= count < 2 ^ 32 /\ length ch = 40%nat
  | _ => True
  end.
End Calls.

(** ** Codec laws *)

Lemma arr_length n l : length (arr n l) = n.
Proof. unfold arr. rewrite length_take, length_app, length_replicate. lia. Qed.
Lemma arr_id n l : length l = n -> arr n l = l.
Proof. intros <-. unfold arr. by rewrite take_app_length. Qed.
Lemma fld_put_length f v : is_pad f = false -> length (fld_put f v) = fld_size f.
Proof. destruct f; cbn; [intros _; apply arr_length|done..]. Qed.
Lemma get32_le32 v b : get32 (le32 v ++ b) = u32 v.
Proof.
  unfold get32. cbn [le32 app nth]. rewrite <- (word32_le32 (u32 v)) by (apply (wrap_range 32); lia).
  pose proof (le32_u32 v) as E. unfold le32 in E. injection E as -> -> -> ->. done.
Qed.
Lemma get64_le64 v b : get64 (le64 v ++ b) = u64 v.
Proof.
  unfold get64, le64. rewrite <- app_assoc, get32_le32. change (drop 4 (le32 v ++ le32 (v >> 32) ++ b)) with (le32 (v >> 32) ++ b). rewrite get32_le32.
  apply Z.bits_inj'. intros i Hi. rewrite Z.lor_spec, Z.shiftl_spec by done. unfold wrap. rewrite <- !Z.land_ones, !Z.land_spec by done. 
  destruct (Z.ltb_spec i 32).
  - rewrite (Z.testbit_neg_r _ (i - 32)) by lia. rewrite (Z.testbit_ones_nonneg 32), (Z.testbit_ones_nonneg 64) by lia. rewrite !(proj2 (Z.ltb_lt _ _)) by lia. by destruct (Z.testbit v i).
  - rewrite Z.shiftr_spec by lia. rewrite (Z.testbit_ones_nonneg 32 i), (Z.testbit_ones_nonneg 32 (i - 32)), (Z.testbit_ones_nonneg 64) by lia.
    rewrite (proj2 (Z.ltb_ge i 32)) by lia. rewrite andb_false_r. cbn [orb]. replace (i - 32 + 32) with i by lia. f_equal. apply eq_true_iff_eq. rewrite !Z.ltb_lt. lia.
Qed.
Lemma fld_get_put f v b : is_pad f = false -> fld_get f (fld_put f v ++ b) = fld_norm f v.
Proof.
  destruct f as [n| | | |n]; cbn [is_pad fld_get fld_put fld_norm]; try done; intros _.
  - rewrite take_app_length'; [done|]. by rewrite arr_length.
  - by rewrite get32_le32.
  - by rewrite get64_le64.
Qed.
Lemma span_sizeof fs : (span fs <= sizeof fs)%nat.
Proof.
  unfold sizeof. assert (H : (1 <= alignment fs)%nat) by (unfold alignment; induction fs as [|f fs IH]; cbn; lia).
  pose proof (Nat.div_mod_eq (span fs + (alignment fs - 1)) (alignment fs)). pose proof (Nat.mod_upper_bound (span fs + (alignment fs - 1)) (alignment fs)). lia.
Qed.
(** What is written over any memory reads back as the fields hold it. *)
Lemma struct_read fs : forall vs old b, length vs = values fs -> (span fs <= length old)%nat ->
  get_struct fs (put_struct fs vs old ++ b) = norm_struct fs vs.
Proof.
  induction fs as [|f fs IH]; intros vs old b Hv Hl; [by destruct vs|]. cbn [put_struct get_struct norm_struct values List.filter span sum_list_with] in *.
  change (sum_list_with fld_size fs) with (span fs) in *. unfold values in *. cbn [List.filter] in Hv. destruct (is_pad f) eqn:Ep; cbn [negb] in Hv.
  - assert (E : drop (fld_size f) ((take (fld_size f) old ++ put_struct fs vs (drop (fld_size f) old)) ++ b) = put_struct fs vs (drop (fld_size f) old) ++ b)
      by (rewrite <- app_assoc, drop_app_length'; [done|rewrite length_take; lia]).
    rewrite E. cbn [app]. rewrite IH; [|done|rewrite length_drop; lia]. destruct vs; [by destruct fs as [|[]]|done].
  - destruct vs as [|v vs]; [done|]. cbn [length] in Hv. injection Hv as Hv.
    rewrite <- app_assoc, fld_get_put by done. rewrite drop_app_length' by (by rewrite fld_put_length). cbn [app]. rewrite IH; [done|done|rewrite length_drop; lia].
Qed.

(** ** Answers *)

Lemma struct_read_all fs vs old : length vs = values fs -> (sizeof fs <= length old)%nat -> get_struct fs (put_struct fs vs old) = norm_struct fs vs.
Proof. intros Hv Hl. pose proof (span_sizeof fs). rewrite <- (app_nil_r (put_struct fs vs old)). apply struct_read; [done|lia]. Qed.
Lemma flag_read b : nz (u8 (one (flag b))) = b.
Proof. by destruct b. Qed.
Lemma entry_read n old b : (sizeof rtw_scan_entry <= length old)%nat -> get_entry (put_struct rtw_scan_entry (entry_values n) old ++ b) = as_entry n.
Proof.
  intros Hl. unfold get_entry. rewrite struct_read by done. cbn [norm_struct rtw_scan_entry entry_values is_pad fld_norm one]. cbn [nth one]. by rewrite !flag_read.
Qed.
Lemma put_struct_length fs : forall vs old, length vs = values fs -> (span fs <= length old)%nat -> length (put_struct fs vs old) = length old.
Proof.
  induction fs as [|f fs IH]; intros vs old Hv Hl; [done|]. cbn [put_struct span sum_list_with] in *. change (sum_list_with fld_size fs) with (span fs) in *.
  unfold values in *. cbn [List.filter] in Hv. destruct (is_pad f) eqn:Ep; cbn [negb] in Hv.
  - rewrite length_app, length_take, IH; rewrite ?length_drop; [lia|done|lia].
  - destruct vs as [|v vs]; [done|]. injection Hv as Hv. rewrite length_app, fld_put_length, IH by (done || (rewrite length_drop; lia)). rewrite length_drop. lia.
Qed.
Lemma put_struct_size fs vs old : length vs = values fs -> (sizeof fs <= length old)%nat -> length (put_struct fs vs old) = length old.
Proof. intros Hv Hl. pose proof (span_sizeof fs). apply put_struct_length; [done|lia]. Qed.
Lemma entries_at l : forall old k n, (length l * sizeof rtw_scan_entry <= length old)%nat -> l !! k = Some n -> exists mem b,
  drop (k * sizeof rtw_scan_entry) (put_entries l old) = put_struct rtw_scan_entry (entry_values n) mem ++ b /\ (sizeof rtw_scan_entry <= length mem)%nat.
Proof.
  set (w := sizeof rtw_scan_entry). induction l as [|e l IH]; intros old k n Hl Hk; [done|]. cbn [put_entries length] in *. fold w in Hl |- *.
  assert (El : length (take w old) = w) by (rewrite length_take; lia). destruct k as [|k]; cbn in Hk.
  - injection Hk as ->. eexists _, _. rewrite Nat.mul_0_l, drop_0. split; [done|lia].
  - replace (S k * w)%nat with (w + k * w)%nat by lia. rewrite <- drop_drop, drop_app_length'.
    + apply IH; [rewrite length_drop; lia|done].
    + rewrite put_struct_size; [done|done|fold w; lia].
Qed.
Lemma scan_read l old : (length l <= RTW_SCAN_ENTRIES)%nat -> (rtw_scan_result_size <= length old)%nat -> get_scan (put_scan l old) = (Z.of_nat (length l), map as_entry l).
Proof.
  intros Hl Ho. unfold RTW_SCAN_ENTRIES, rtw_scan_result_size in *. unfold get_scan, put_scan. rewrite get32_le32. rewrite u32_small by (change (2 ^ 32) with 4294967296; lia).
  f_equal. rewrite Nat2Z.id. apply list_eq. intros k. rewrite !list_lookup_fmap. destruct (l !! k) as [n|] eqn:Ek.
  - pose proof (lookup_lt_Some _ _ _ Ek). rewrite lookup_seq_lt by done. cbn [fmap option_fmap option_map]. f_equal.
    rewrite Nat.add_0_l, <- drop_drop. change (drop 4 (le32 (Z.of_nat (length l)) ++ put_entries l (drop 4 old))) with (put_entries l (drop 4 old)).
    destruct (entries_at l (drop 4 old) k n) as (mem & b & -> & Hm); [rewrite length_drop; unfold RTW_SCAN_ENTRIES in *; nia|done|]. by apply entry_read.
  - apply lookup_ge_None in Ek. by rewrite lookup_seq_ge.
Qed.
(** A scan's answer is not cleared first: what is past its entries stays. *)
Lemma scan_rest l old : (4 + length l * sizeof rtw_scan_entry <= length old)%nat ->
  drop (4 + length l * sizeof rtw_scan_entry) (put_scan l old) = drop (4 + length l * sizeof rtw_scan_entry) old.
Proof.
  intros Hl. unfold put_scan. rewrite <- !drop_drop. change (drop 4 (le32 (Z.of_nat (length l)) ++ put_entries l (drop 4 old))) with (put_entries l (drop 4 old)).
  assert (H : (length l * sizeof rtw_scan_entry <= length (drop 4 old))%nat) by (rewrite length_drop; lia). revert H. generalize (drop 4 old) as b. clear. 
  set (w := sizeof rtw_scan_entry). induction l as [|n l IH]; intros b H; [done|]. cbn [length put_entries Nat.mul] in *. fold w in H |- *.
  rewrite <- !drop_drop. rewrite drop_app_length'; [apply IH; rewrite length_drop; lia|]. rewrite put_struct_size; [rewrite length_take; lia|done|fold w; rewrite length_take; lia].
Qed.
Lemma cleared_length n old : (n <= length old)%nat -> length (cleared n old) = length old.
Proof. intros H. unfold cleared. rewrite length_app, length_replicate, length_drop. lia. Qed.
Lemma connect_read r old : (sizeof rtw_connect_result <= length old)%nat ->
  get_connect (put_connect r old) = ConnectResult (u32 (cr_status r)) (arr 6 (cr_mac r)) (u8 (cr_channel r)).
Proof. intros H. unfold get_connect, put_connect. by rewrite struct_read_all. Qed.
Lemma status_read r old : (sizeof rtw_status_result <= length old)%nat ->
  get_status (put_status r old) = StatusResult (u32 (sr_connected r)) (arr 6 (sr_mac r)) (arr 6 (sr_bssid r)) (u8 (sr_channel r)) (arr 33 (sr_ssid r)).
Proof. intros H. unfold get_status, put_status. by rewrite struct_read_all. Qed.
Lemma req_read ssid pass old : length ssid = 33%nat -> length pass = 64%nat -> (sizeof rtw_connect_req <= length old)%nat ->
  req_values (put_struct rtw_connect_req [ssid; pass] old) = (ssid, pass).
Proof. intros H1 H2 H. unfold req_values. rewrite struct_read_all by done. cbn [norm_struct rtw_connect_req is_pad fld_norm]. by rewrite !arr_id. Qed.
Lemma chans_read flags count ch old : 0 <= flags < 2 ^ 32 -> 0 <= count < 2 ^ 32 -> length ch = 40%nat -> (sizeof rtw_scan_chans <= length old)%nat ->
  chans_values (put_struct rtw_scan_chans [[flags]; [count]; ch] old) = (flags, count, ch).
Proof.
  intros H1 H2 H3 H. unfold chans_values. rewrite struct_read_all by done. cbn [norm_struct rtw_scan_chans is_pad fld_norm one nth]. by rewrite arr_id, !u32_small.
Qed.
Lemma stats_read l old : length l = 21%nat -> (8 * 21 <= length old)%nat ->
  map one (get_struct stats_fields (put_struct stats_fields (map (fun v => [v]) l) old)) = map (fun v => u64 v) l.
Proof.
  intros Hl Ho. rewrite struct_read_all; [|by rewrite length_map, Hl|exact Ho].
  unfold stats_fields. rewrite <- Hl. clear. induction l as [|v l IH]; [done|]. cbn. by rewrite <- IH.
Qed.

(** ** A scan's list fits *)

Lemma marshal_short st : (length (scan_marshal st) <= RTW_SCAN_ENTRIES)%nat.
Proof. unfold scan_marshal, RTW_SCAN_ENTRIES. rewrite length_take. unfold RTW_SCAN_MAX. destruct (Nat.ltb_spec 64 (g_nnets st)); lia. Qed.
Lemma scan_short fw k : safe any_call (rtw_kctl_scan fw k) (fun r => (length r.1.2 <= RTW_SCAN_ENTRIES)%nat).
Proof.
  unfold rtw_kctl_scan. apply any_bind; intros k1. apply any_bind; intros _. apply any_bind; intros [[[[? ?] ?] d] k2]. apply any_bind; intros _.
  apply any_bind; intros [[[? ?] ?] d']. apply any_bind; intros k3. apply any_bind; intros [n r]. cbv zeta. apply any_bind; intros _. apply safe_ret. apply marshal_short.
Qed.
Lemma chunk_short fw flags count ch k : safe any_call (rtw_kctl_scan_chunk fw flags count ch k) (fun r => (length r.1 <= RTW_SCAN_ENTRIES)%nat).
Proof.
  unfold rtw_kctl_scan_chunk. apply any_bind; intros k1. eapply safe_bind with (R := fun r => (length r.1 <= RTW_SCAN_ENTRIES)%nat).
  - unfold scan_some. destruct (_ && _); [|apply safe_ret; apply Nat.le_0_l]. cbv zeta. apply any_bind; intros [n r]. apply safe_ret. apply marshal_short.
  - intros [l k2] Hl. apply any_bind; intros k3. by apply safe_ret.
Qed.

(** Programs that go on the same way from every result they can have. *)
#[local] Transparent safe.
Lemma bind_same {A B} (p : prog A) (f g : A -> prog B) Q : safe any_call p Q -> (forall x, Q x -> f x ≡ g x) -> p ≫= f ≡ p ≫= g.
Proof.
  unfold safe. intros Hp H. induction p as [x|o k IH]; cbn [wp] in Hp; [by apply H|]. apply prog_eq_act. intros r. apply IH. specialize (Hp r). exact Hp.
Qed.
#[local] Opaque safe.
Lemma bind_same_any {A B} (p : prog A) (f g : A -> prog B) : (forall x, f x ≡ g x) -> p ≫= f ≡ p ≫= g.
Proof. intros H. apply (bind_same p f g (fun _ => True)); [apply safe_any|]. intros x _. apply H. Qed.

(** ** The two sides agree *)

Section Carried.
Context (fw : list Z) (env : bridge_env) `{Framework}.

Ltac carried_step := unfold mbind, prog_mbind, mret, prog_ret; cbn [prog_bind rp_rc rp_out hw_read fst snd].
Ltac run_method := unfold method, kBridgeKInit, kBridgeKBringup, kBridgeKScan, kBridgeKScanChunk, kBridgeKConnect, kBridgeKDisconnect, kBridgeKStatus, kBridgeDataStats; destruct (be_irq env) as [[wl src] add].
Lemma dispatched sel a x d : sMethods !! sel = Some d ->
  length (ua_scalars a) = checkScalarInput d -> length (ua_in a) = checkStructureInput d -> ua_nout a = checkScalarOutput d -> length (ua_out a) = checkStructureOutput d ->
  externalMethod fw true env sel a x = method fw true env sel a x.
Proof. intros Hd H1 H2 H3 H4. unfold externalMethod. rewrite Hd. destruct (accepts d a) eqn:E; [done|]. assert (accepts d a = true) by by apply accepts_sizes. congruence. Qed.

(** C11: the control interface carries every call.  For each call client/rtw_hw.c
    makes, the request it builds passes the kernel's size check and the method's
    own, the method runs the entry point of server/kctl.c on the client's
    arguments, and what the client reads back, whatever was in the memory set
    aside for it, is the entry point's answer, each field as its type holds it: the
    selectors, the sizes, the offsets of every field and the lists of networks
    agree on both sides. *)
Theorem control_call_carried (o : hw_call) (out : list Z) (x : kernel) : hw_args_ok o -> length out = (hw_takes o).2 ->
  hw_call_kernel fw env o out x ≡ '(a, x) ← entry_point fw o x; mret (Some (as_ans o a), x).
Proof.
  intros Ho Hout. unfold hw_call_kernel. destruct o as [| | |flags count ch|ssid pass| | |]; cbn [hw_selector hw_takes hw_args_ok entry_point as_ans snd] in *.
  - erewrite dispatched by (reflexivity || exact Hout). run_method. unfold sKInit. cbn [negb]. rewrite !prog_bind_assoc. by apply bind_same_any.
  - erewrite dispatched by (reflexivity || exact Hout). run_method. unfold sKBringup. cbn [negb]. rewrite !prog_bind_assoc. apply bind_same_any. by intros [r k].
  - erewrite dispatched by (reflexivity || exact Hout). run_method. unfold sKScan. cbn [negb hw_args ua_out]. rewrite (proj2 (Nat.ltb_ge _ _)) by lia. rewrite !prog_bind_assoc.
    eapply bind_same; [apply scan_short|]. intros [[n l] k] Hl. cbn [fst snd] in Hl. carried_step. by rewrite scan_read by (done || lia).
  - destruct Ho as (H1 & H2 & H3).
    assert (Hreq : length (hw_request (HScanChunk flags count ch)) = sizeof rtw_scan_chans) by (unfold hw_request; by rewrite put_struct_size).
    erewrite dispatched; [|reflexivity|reflexivity|exact Hreq|reflexivity|exact Hout]. run_method.
    unfold sKScanChunk. cbn [negb hw_args ua_out ua_in]. rewrite Hreq. rewrite (proj2 (Nat.ltb_ge _ _)) by lia. rewrite (proj2 (Nat.ltb_ge _ _)) by lia.
    unfold hw_request. rewrite chans_read by (done || (rewrite length_replicate; lia)). rewrite !prog_bind_assoc.
    eapply bind_same; [apply chunk_short|]. intros [l k] Hl. cbn [fst snd] in Hl. carried_step. by rewrite scan_read by (done || (rewrite cleared_length; lia)).
  - destruct Ho as (H1 & H2).
    assert (Hreq : length (hw_request (HConnect ssid pass)) = sizeof rtw_connect_req) by (unfold hw_request; by rewrite put_struct_size).
    erewrite dispatched; [|reflexivity|reflexivity|exact Hreq|reflexivity|exact Hout]. run_method.
    unfold sKConnect. cbn [negb hw_args ua_out ua_in]. rewrite Hreq. rewrite (proj2 (Nat.ltb_ge _ _)) by lia. rewrite (proj2 (Nat.ltb_ge _ _)) by lia.
    unfold hw_request. rewrite req_read by (done || (rewrite length_replicate; lia)). rewrite !prog_bind_assoc. apply bind_same_any. intros [r k]. carried_step.
    by rewrite connect_read by (rewrite cleared_length; lia).
  - erewrite dispatched by (reflexivity || exact Hout). run_method. unfold sKDisconnect. cbn [negb]. rewrite !prog_bind_assoc. by apply bind_same_any.
  - erewrite dispatched by (reflexivity || exact Hout). run_method. unfold sKStatus. cbn [negb hw_args ua_out]. rewrite (proj2 (Nat.ltb_ge _ _)) by lia.
    carried_step. by rewrite status_read by (rewrite cleared_length; lia).
  - erewrite dispatched by (reflexivity || exact Hout). run_method. unfold sDataStats. cbn [negb hw_args ua_out]. rewrite (proj2 (Nat.ltb_ge _ _)) by (cbn in *; lia).
    cbn [dataStats]. unfold dataStats. carried_step. by rewrite stats_read by (done || (rewrite Hout; lia)).
Qed.
End Carried.

(** ** Any request *)



Section Any.
Context (fw : list Z) (Hfw : image_ok fw) `{Framework}.




End Any.

(** ** The client's calls are of its types; entries of a sound table survive *)

Lemma connect_call_typed ssid pass : hw_call_ok (HConnect ssid pass) = true -> hw_args_ok (HConnect ssid pass).
Proof. cbn. unfold terminated_array. intros [[H1 _]%andb_prop [H2 _]%andb_prop]%andb_prop. by rewrite !bool_decide_eq_true in *. Qed.
Lemma as_entry_typed n : entry_typed n -> as_entry n = n.
Proof. intros ((H1 & _ & H2 & _) & Hc & Hb). unfold as_entry. rewrite !arr_id, wrap_small, u32_small by done. by destruct n. Qed.
(** No structure has padding between its fields that the header does not name;
    only the status ends with two bytes of it. *)
Lemma structs_packed : forallb packed [rtw_connect_req; rtw_connect_result; rtw_status_result; rtw_scan_chans; rtw_scan_entry; rtw_data_cfg_fields; stats_fields] = true /\ map sizeof [rtw_connect_req; rtw_connect_result; rtw_status_result; rtw_scan_chans; rtw_scan_entry] = [100; 12; 56; 48; 48]%nat.
Proof. done. Qed.

(** ** Examples *)

(** A kernel that does just this check. *)
Definition sizes_match (d : dispatch) (a : uargs) : bool :=
  (length (ua_scalars a) =? checkScalarInput d)%nat && (length (ua_in a) =? checkStructureInput d)%nat &&
  (ua_nout a =? checkScalarOutput d)%nat && (length (ua_out a) =? checkStructureOutput d)%nat.
Lemma sizes_match_exact d a : sizes_match d a = true <->
  length (ua_scalars a) = checkScalarInput d /\ length (ua_in a) = checkStructureInput d /\
  ua_nout a = checkScalarOutput d /\ length (ua_out a) = checkStructureOutput d.
Proof. unfold sizes_match. rewrite !andb_true_iff, !Nat.eqb_eq. tauto. Qed.
Definition exact_framework : Framework := {| accepts := sizes_match; accepts_sizes := sizes_match_exact |}.

Definition quiet_bridge : bridge_env := BridgeEnv None (true, true, true) [] (DataEnv 0x70 true true true (StartEnv true true true true) true) (Some 0%nat).
Lemma control_call_carried_witness :
  hw_call_kernel (H := exact_framework) image_example quiet_bridge (HConnect name33 pass64) (replicate 12 0xaa) (server1, kctl0 true) ≡
  '(a, x) ← entry_point image_example (HConnect name33 pass64) (server1, kctl0 true); mret (Some (as_ans (HConnect name33 pass64) a), x).
Proof. apply (control_call_carried (H := exact_framework) image_example quiet_bridge (HConnect name33 pass64)); [split; reflexivity|reflexivity]. Defined.

