(* ===== verification/Startup.v ===== *)
(** * Startup: the daemon's start and the interface it brings up
    (client/rtwd.c: rtwd_daemon_main, peer_allowed, find_ifname, iface_ipv4,
    find_netcfg, data_online)

    Processes that run [rtwd_daemon_main] on one machine, with the lock file and
    the socket they share, as one transition system in which a process may start,
    be answered, exit or be killed at any time; and the commands the daemon runs as
    root for the interface of the card.  Proved: while the lock file can be opened
    at most one process drives the kernel or serves the socket, and the socket's
    path names the process that serves it; at most one command is run, on the
    interface with the card's address. *)
From stdpp Require Import gmap.
From Stdlib Require Import String Ascii.
From S2P Require Import Prelude Config Wire Calls.
Open Scope Z_scope.
Open Scope rtw_scope.
Open Scope list_scope.

(** ** Who may connect *)

(** [getsockopt]: the version and the user of the peer, if it answers; [stat]:
    the owner of the console. *)
Definition XUCRED_VERSION : Z := 0.
Definition peer_allowed (cred : option (Z * Z)) (console : option Z) : bool :=
  match cred with
  | Some (version, uid) =>
      if negb (version =? XUCRED_VERSION) then false else
      if uid =? 0 then true else
      match console with Some owner => uid =? owner | None => false end
  | None => false
  end.
Lemma peer_allowed_iff cred console : peer_allowed cred console = true <->
  exists uid, cred = Some (XUCRED_VERSION, uid) /\ (uid = 0 \/ console = Some uid).
Proof.
  unfold peer_allowed. split.
  - destruct cred as [[ver uid]|]; [|done]. destruct (Z.eqb_spec ver XUCRED_VERSION) as [->|]; [|done]. cbn [negb]. intros H. exists uid. split; [done|].
    destruct (Z.eqb_spec uid 0); [by left|right]. destruct console as [o|]; [|done]. apply Z.eqb_eq in H. by subst.
  - intros (uid & -> & [-> | ->]); rewrite Z.eqb_refl; cbn [negb]; [done|]. destruct (uid =? 0); [done|]. apply Z.eqb_refl.
Qed.

(** ** The interface of the card *)

(** One entry of [getifaddrs]: no address, or one of a family. *)
Inductive ifaddr := AfNone (name : list Z) | AfLink (name : list Z) (lladdr : list Z) | AfInet (name : list Z) (ip : list Z) | AfOther (name : list Z).
Definition IFNAMSIZ : nat := 16.
Definition strlcpy (n : nat) (s : list Z) : list Z := take (n - 1) (c_str s).
(** [None]: not found; otherwise the name as copied out. *)
Definition find_ifname (mac : list Z) (sz : nat) (ifa : option (list ifaddr)) : option (list Z) :=
  l ← ifa;
  p ← List.find (fun p => match p with AfLink _ dl => bool_decide (length dl = 6%nat) && bool_decide (dl = mac) | _ => false end) l;
  match p with AfLink name _ => Some (strlcpy sz name) | _ => None end.
(** [inet_ntop] into the caller's buffer is an argument of the model. *)
Definition iface_ipv4 (inet_ntop : list Z -> nat -> list Z) (ifname : list Z) (sz : nat) (ifa : option (list ifaddr)) : list Z :=
  match l ← ifa; List.find (fun p => match p with AfInet name _ => str_eq name ifname | _ => false end) l with
  | Some (AfInet _ ip) => inet_ntop ip sz
  | _ => []
  end.

Inductive netop := GetIfaddrs | USleep (us : Z) | AccessRead (path : list Z) | System (cmd : list Z).
Definition netres (o : netop) : Type :=
  match o with GetIfaddrs => option (list ifaddr) | AccessRead _ => bool | USleep _ => unit | System _ => Z end.
Definition cands : list (list Z) := [txt "/usr/local/libexec/rtw88-eth-netcfg.sh"; txt "/usr/local/bin/rtw88-eth-netcfg.sh"].
Fixpoint find_readable (l : list (list Z)) : calls netres (option (list Z)) :=
  match l with
  | [] => mret None
  | c :: l => ok ← perform netres (AccessRead c); if ok : bool then mret (Some c) else find_readable l
  end.
Definition find_netcfg : calls netres (option (list Z)) := find_readable cands.
(** The loop looks at most [n] times, a tenth of a second apart. *)
Fixpoint await_ifname (n : nat) (mac : list Z) : calls netres (list Z) :=
  match n with
  | O => mret []
  | S n =>
      ifa ← perform netres GetIfaddrs;
      match find_ifname mac IFNAMSIZ ifa with
      | Some name => mret name
      | None => perform netres (USleep 100000);; await_ifname n mac
      end
  end.
Definition dhcp_helper (netcfg ifname : list Z) : list Z := txt "bash " ++ netcfg ++ txt " " ++ ifname ++ txt " dhcp".
Definition dhcp_direct (ifname : list Z) : list Z := txt "ipconfig set " ++ ifname ++ txt " DHCP".
Definition data_online (mac : list Z) : calls netres (list Z) :=
  ifname ← await_ifname 40 mac;
  match ifname with
  | [] => mret []
  | _ =>
      netcfg ← find_netcfg;
      _ ← perform netres (System (match netcfg with Some c => snprintf 256 (dhcp_helper c ifname) | None => snprintf 128 (dhcp_direct ifname) end));
      mret ifname
  end.

(** A monitor of the commands: the name last found for the card's address, whether
    a command has been run, and how often the interfaces were looked at. *)
Record online := Online { on_name : option (list Z); on_ran : bool; on_looks : nat }.
Section Commands.
Context (mac : list Z).
(** The three commands there are. *)
Definition dhcp_commands (name : list Z) : list (list Z) := dhcp_direct name :: map (fun c => dhcp_helper c name) cands.
Definition online_mon (s : online) (o : netop) : netres o -> option online :=
  match o as o return netres o -> option online with
  | GetIfaddrs => fun ifa => if on_ran s then None else Some (Online (find_ifname mac IFNAMSIZ ifa) false (S (on_looks s)))
  | System cmd => fun _ =>
      match on_name s with
      | Some name => if negb (on_ran s) && negb (bool_decide (name = [])) && bool_decide (cmd ∈ dhcp_commands name) then Some (Online (Some name) true (on_looks s)) else None
      | None => None
      end
  | AccessRead path => fun _ => if bool_decide (path ∈ cands) then Some s else None
  | _ => fun _ => Some s
  end.

Lemma find_ifname_short ifa name : find_ifname mac IFNAMSIZ ifa = Some name -> (length name <= 15)%nat.
Proof.
  unfold find_ifname. destruct ifa as [l|]; [|done]. cbn. destruct (List.find _ l) as [[]|]; try done. cbn. intros [= <-]. unfold strlcpy, IFNAMSIZ. rewrite length_take. lia.
Qed.
Lemma await_rule n : forall looks nm, cwp online_mon (await_ifname n mac) (Online nm false looks)
  (fun name s => on_ran s = false /\ (on_looks s <= looks + n)%nat /\ (name <> [] -> on_name s = Some name /\ (length name <= 15)%nat)).
Proof.
  induction n as [|n IH]; intros looks nm; cbn [await_ifname]; [cbn; split; [done|split; [lia|done]]|].
  apply (cwp_call (R := netres)). intros ifa. cbn [online_mon on_ran on_looks]. destruct (find_ifname mac IFNAMSIZ ifa) as [name|] eqn:E.
  - cbn. split; [done|]. split; [lia|]. intros _. split; [done|]. by eapply find_ifname_short.
  - apply (cwp_call (R := netres)). intros []. cbn [online_mon]. eapply cwp_mono; [apply IH|]. intros name s (H1 & H2 & H3). split; [done|]. split; [lia|done].
Qed.
Lemma readable_rule l s : (forall c, c ∈ l -> c ∈ cands) -> cwp online_mon (find_readable l) s (fun r s' => s' = s /\ match r with Some c => c ∈ l | None => True end).
Proof.
  induction l as [|c l IH]; intros Hl; cbn [find_readable]; [done|]. apply (cwp_call (R := netres)). intros ok. cbn [online_mon].
  rewrite bool_decide_true by (apply Hl, list_elem_of_here). destruct ok; [split; [done|apply list_elem_of_here]|].
  eapply cwp_mono; [apply IH; intros d Hd; by apply Hl, list_elem_of_further|]. intros r s' [-> H]. split; [done|]. destruct r; [by apply list_elem_of_further|done].
Qed.

(** What bringing the interface up runs as root.  Whatever the interfaces
    are and whenever they appear, the list is read at most 40 times; at most one
    command is run, after the last reading, and only on a name that reading gave
    for the card's own address; and it is, whole, one of three: the system's own
    tool, or the helper at one of its two absolute paths. *)
Theorem data_online_commands : cwp online_mon (data_online mac) (Online None false 0) (fun name s =>
  (on_looks s <= 40)%nat /\ (on_ran s = true <-> name <> []) /\ (name <> [] -> on_name s = Some name)).
Proof.
  unfold data_online. apply cwp_bind. eapply cwp_mono; [apply await_rule|]. intros name s (Hr & Hl & Hn). destruct name as [|b name].
  - cbn. rewrite Hr. split; [lia|]. split; [by split|done].
  - destruct (Hn ltac:(done)) as [Hs Hlen]. set (nm := b :: name) in *. assert (Hne : nm <> []) by done. clearbody nm. clear Hn.
    apply cwp_bind. eapply cwp_mono; [by apply readable_rule|]. intros netcfg s' [-> Hc]. apply (cwp_call (R := netres)). intros rc. cbn [online_mon]. rewrite Hs, Hr.
    rewrite bool_decide_false by done. cbn [negb andb]. rewrite bool_decide_true; [cbn; split; [lia|]; split; [done|done]|].
    assert (Hcut : forall n (t : list Z), (length t < n)%nat -> snprintf n t = t) by (intros n t Ht; unfold snprintf; apply take_ge; lia).
    destruct netcfg as [c|].
    + rewrite Hcut; [apply list_elem_of_further, list_elem_of_fmap; by exists c|]. unfold dhcp_helper. rewrite !length_app.
      assert (length c <= 40)%nat by (unfold cands in Hc; rewrite elem_of_cons, list_elem_of_singleton in Hc; destruct Hc as [-> | ->]; cbn; lia). cbn [length txt map list_ascii_of_string]. lia.
    + rewrite Hcut; [apply list_elem_of_here|]. unfold dhcp_direct. rewrite !length_app. cbn [length txt map list_ascii_of_string]. lia.
Qed.
End Commands.

(** ** The start of a daemon *)

(** An answer to [accept]. *)
Inductive accepted := AClient | AIntr | AError.
(** The calls that matter between processes; [Serve]: handle one client. *)
Inductive sysop := OpenLock | Flock | UnlinkSock | Socket | Bind | Chmod | Listen | LoadConf | RadioFlag | SetOff | SpawnAuto | Accept | Serve | CloseClient | CloseSock.
Definition sysres (o : sysop) : Type :=
  match o with
  | OpenLock | Flock | Socket | Bind | Listen | RadioFlag | SpawnAuto => bool
  | Accept => accepted
  | _ => unit
  end.
Abbreviation sys := (perform sysres).

(** [None]: still serving after [turns] answers of [accept]. *)
Fixpoint serve_loop (turns : nat) : calls sysres (option Z) :=
  match turns with
  | O => mret None
  | S turns =>
      c ← sys Accept;
      match c with
      | AClient => sys Serve;; sys CloseClient;; serve_loop turns
      | AIntr => serve_loop turns
      | AError => sys CloseSock;; sys UnlinkSock;; mret (Some 0)
      end
  end.
Definition rtwd_daemon_main (turns : nat) : calls sysres (option Z) :=
  lock_fd ← sys OpenLock;
  alone ← (if lock_fd : bool then sys Flock else mret true);
  if negb alone then mret (Some 1) else
  sys UnlinkSock;;
  s ← sys Socket;
  if negb s then mret (Some 1) else
  b ← sys Bind;
  if negb b then mret (Some 1) else
  sys Chmod;;
  l ← sys Listen;
  if negb l then mret (Some 1) else
  sys LoadConf;;
  off ← sys RadioFlag;
  (if off : bool then sys SetOff else mret tt);;
  _ ← sys SpawnAuto;
  serve_loop turns.

(** ** Many processes *)

(** What a process has: the lock, a bound socket, a running auto-connect thread. *)
Record flags := Flags { f_locked : bool; f_bound : bool; f_auto : bool }.
Definition flags0 : flags := Flags false false false.
Definition flags_after (o : sysop) : sysres o -> flags -> flags :=
  match o as o return sysres o -> flags -> flags with
  | Flock => fun r f => Flags (r || f_locked f) (f_bound f) (f_auto f)
  | UnlinkSock | CloseSock => fun _ f => Flags (f_locked f) false (f_auto f)
  | Bind => fun r f => Flags (f_locked f) (r || f_bound f) (f_auto f)
  | SpawnAuto => fun r f => Flags (f_locked f) (f_bound f) (r || f_auto f)
  | _ => fun _ f => f
  end.
Record proc := Proc { p_code : calls sysres (option Z); p_flags : flags }.
(** Who holds the lock, whose socket the path names, and the processes. *)
Record machine := Machine { m_lock : option nat; m_sock : option nat; m_procs : gmap nat proc }.
Definition lock_after (p : nat) (o : sysop) : sysres o -> option nat -> option nat :=
  match o as o return sysres o -> option nat -> option nat with Flock => fun r l => if r then Some p else l | _ => fun _ l => l end.
Definition sock_after (p : nat) (o : sysop) : sysres o -> option nat -> option nat :=
  match o as o return sysres o -> option nat -> option nat with
  | UnlinkSock => fun _ _ => None
  | Bind => fun r s => if r then Some p else s
  | _ => fun _ s => s
  end.
(** An exclusive lock is given to one holder; a path that exists is not bound
    again; [lockable]: whether the lock file can be opened.  Any call may fail. *)
Definition may_answer (lockable : bool) (p : nat) (m : machine) (o : sysop) : sysres o -> Prop :=
  match o as o return sysres o -> Prop with
  | OpenLock => fun r => r = lockable
  | Flock => fun r => r = true -> m_lock m = None \/ m_lock m = Some p
  | Bind => fun r => r = true -> m_sock m = None
  | _ => fun _ => True
  end.
Inductive machine_step (lockable : bool) : machine -> machine -> Prop :=
| ms_start m p turns : m_procs m !! p = None ->
    machine_step lockable m (Machine (m_lock m) (m_sock m) (<[p := Proc (rtwd_daemon_main turns) flags0]> (m_procs m)))
| ms_call m p o k r f : m_procs m !! p = Some (Proc (Call o k) f) -> may_answer lockable p m o r ->
    machine_step lockable m (Machine (lock_after p o r (m_lock m)) (sock_after p o r (m_sock m)) (<[p := Proc (k r) (flags_after o r f)]> (m_procs m)))
(** It returns or is killed: its lock goes, the path of its socket stays. *)
| ms_exit m p pr : m_procs m !! p = Some pr ->
    machine_step lockable m (Machine (if decide (m_lock m = Some p) then None else m_lock m) (m_sock m) (delete p (m_procs m))).
Definition machine0 (sock : option nat) : machine := Machine None sock ∅.

(** A process that is at the controls, and one that answers clients. *)
Definition at_serve (c : calls sysres (option Z)) : bool := match c with Call Serve _ => true | _ => false end.
Definition drives (m : machine) (p : nat) : Prop := exists pr, m_procs m !! p = Some pr /\
  (f_locked (p_flags pr) || f_bound (p_flags pr) || f_auto (p_flags pr) || at_serve (p_code pr)) = true.
Definition serves (m : machine) (p : nat) : Prop := exists pr, m_procs m !! p = Some pr /\ (f_bound (p_flags pr) || at_serve (p_code pr)) = true.

(** *** One process: without the lock it touches nothing *)

(** [None] in the state: the lock file could not be opened, nothing is judged. *)
Definition start_mon (s : option flags) (o : sysop) : sysres o -> option (option flags) :=
  match s with
  | None => fun _ => Some None
  | Some f =>
      match o as o return sysres o -> option (option flags) with
      | OpenLock => fun r => Some (if r then Some f else None)
      | Flock => fun r => Some (Some (flags_after Flock r f))
      | Serve => fun r => if f_locked f && f_bound f then Some (Some f) else None
      | o => fun r => if f_locked f then Some (Some (flags_after o r f)) else None
      end
  end.
Definition anyhow {A} (_ : A) (_ : option flags) : Prop := True.
Lemma unjudged {A} (p : calls sysres A) : cwp start_mon p None anyhow.
Proof. induction p as [x|o k IH]; [done|]. intros r. apply IH. Qed.
Lemma serve_rule turns a : cwp start_mon (serve_loop turns) (Some (Flags true true a)) anyhow.
Proof.
  induction turns as [|n IH]; cbn [serve_loop]; [done|]. apply (cwp_call (R := sysres)). intros [| |]; cbn [start_mon f_locked].
  - apply (cwp_call (R := sysres)). intros []. cbn. intros []. apply IH.
  - apply IH.
  - cbn. by intros [] [].
Qed.
Lemma main_rule turns : cwp start_mon (rtwd_daemon_main turns) (Some flags0) anyhow.
Proof.
  unfold rtwd_daemon_main. apply (cwp_call (R := sysres)). intros [|]; cbn [start_mon]; [|apply unjudged].
  apply (cwp_call (R := sysres)). intros [|]; cbn [negb start_mon]; [|done]. change (flags_after Flock true flags0) with (Flags true false false).
  apply (cwp_call (R := sysres)). intros []; cbn [start_mon f_locked].
  apply (cwp_call (R := sysres)). intros [|]; cbn [negb start_mon f_locked]; [|done].
  apply (cwp_call (R := sysres)). intros [|]; cbn [negb start_mon f_locked]; [|done]. cbn [flags_after f_locked f_bound f_auto orb].
  apply (cwp_call (R := sysres)). intros []; cbn [start_mon f_locked].
  apply (cwp_call (R := sysres)). intros [|]; cbn [negb start_mon f_locked]; [|done].
  apply (cwp_call (R := sysres)). intros []; cbn [start_mon f_locked].
  apply (cwp_call (R := sysres)). intros off; cbn [start_mon f_locked].
  apply cwp_bind. eapply (cwp_mono _ _ _ (fun _ s => s = Some (Flags true true false))); [destruct off; [by intros []|done]|]. intros [] ? ->.
  apply (cwp_call (R := sysres)). intros au; cbn [start_mon f_locked]. apply serve_rule.
Qed.

(** *** All of them *)

Record proc_ok (m : machine) (p : nat) (pr : proc) : Prop := {
  po_code : cwp start_mon (p_code pr) (Some (p_flags pr)) anyhow;
  po_lock : f_locked (p_flags pr) = true -> m_lock m = Some p;
  po_bound : f_bound (p_flags pr) = true -> f_locked (p_flags pr) = true /\ m_sock m = Some p;
  po_auto : f_auto (p_flags pr) = true -> f_locked (p_flags pr) = true;
}.
Definition machine_ok (m : machine) : Prop := forall p pr, m_procs m !! p = Some pr -> proc_ok m p pr.

(** What one judged call does to the flags, and that it needs the lock. *)
Lemma judged m p o r f s' : may_answer true p m o r -> start_mon (Some f) o r = Some s' ->
  s' = Some (flags_after o r f) /\ (o = OpenLock \/ o = Flock \/ f_locked f = true).
Proof.
  intros Hr H. destruct f as [l b a]. destruct o; cbn in Hr, H; try (destruct l; [|done]; injection H as <-; by auto).
  - subst r. injection H as <-. by auto.
  - injection H as <-. by auto.
  - destruct l, b; try done. injection H as <-. by auto.
Qed.
(** Another process is left alone by a call that needs the lock. *)
Lemma other_ok m m' p q pr : q <> p -> proc_ok m q pr -> m_lock m' = m_lock m \/ m_lock m = None \/ m_lock m = Some p ->
  m_sock m' = m_sock m \/ m_lock m = Some p -> proc_ok m' q pr.
Proof.
  intros Hq [H1 H2 H3 H4] Hl Hs.
  assert (Hlock : f_locked (p_flags pr) = true -> m_lock m = Some q /\ m_lock m' = m_lock m).
  { intros E. specialize (H2 E). split; [done|]. destruct Hl as [Hl|[Hl|Hl]]; congruence. }
  split; [done|intros E; destruct (Hlock E); congruence| |done]. intros E. destruct (H3 E) as [E1 E2]. split; [done|]. destruct (Hlock E1) as [El _].
  destruct Hs as [Hs|Hs]; congruence.
Qed.
Lemma lock_moves m p o r : may_answer true p m o r -> let l := lock_after p o r (m_lock m) in l = m_lock m \/ (l = Some p /\ (m_lock m = None \/ m_lock m = Some p)).
Proof. destruct o; cbn; auto. destruct r; auto. Qed.

Lemma call_ok m p o k r f : machine_ok m -> m_procs m !! p = Some (Proc (Call o k) f) -> may_answer true p m o r ->
  machine_ok (Machine (lock_after p o r (m_lock m)) (sock_after p o r (m_sock m)) (<[p := Proc (k r) (flags_after o r f)]> (m_procs m))).
Proof.
  intros Hm Hp Hr. destruct (Hm p _ Hp) as [Hc Hl Hb Ha]. cbn [p_code p_flags] in *. specialize (Hc r). destruct (start_mon (Some f) o r) as [s'|] eqn:E; [|done].
  apply (judged m p) in E as [-> Hneed]; [|done]. intros q pr Hq. cbn [m_procs] in Hq. destruct (decide (q = p)) as [->|Hne].
  - rewrite lookup_insert_eq in Hq. injection Hq as <-. split; cbn [p_code p_flags m_lock m_sock]; [exact Hc|..].
    + destruct o; cbn in *; auto. destruct r; auto.
    + destruct o; cbn in *; try done; auto.
      * intros E. destruct (Hb E) as [-> ?]. by rewrite orb_true_r.
      * destruct r; cbn; [|exact Hb]. intros _. split; [|done]. destruct Hneed as [|[|]]; done.
    + destruct o; cbn in *; try done; auto.
      * intros E. rewrite (Ha E). by rewrite orb_true_r.
      * destruct r; cbn; [|exact Ha]. intros _. destruct Hneed as [|[|]]; done.
  - rewrite lookup_insert_ne in Hq by done. pose proof (lock_moves m p o r Hr) as Hmv. cbv zeta in Hmv. eapply (other_ok m); [exact Hne|by apply Hm|..]; cbn [m_lock m_sock].
    + destruct Hmv as [?|[_ ?]]; auto.
    + destruct Hneed as [->|[->|Hk]]; [by left|by left|right; by apply Hl].
Qed.
Lemma step_ok m m' : machine_step true m m' -> machine_ok m -> machine_ok m'.
Proof.
  intros Hs Hm. destruct Hs as [m p turns Hp|m p o k r f Hp Hr|m p pr Hp]; [|by apply call_ok|]; intros q qr Hq; cbn [m_procs] in Hq.
  - destruct (decide (q = p)) as [->|Hne].
    + rewrite lookup_insert_eq in Hq. injection Hq as <-. split; [apply main_rule|done..].
    + rewrite lookup_insert_ne in Hq by done. destruct (Hm q qr Hq). by split.
  - apply lookup_delete_Some in Hq as [Hne Hq]. pose proof (Hm q qr Hq) as Hok. eapply (other_ok m _ p); [done|exact Hok|..]; cbn [m_lock m_sock]; [|by left].
    case_decide; auto.
Qed.
Lemma drives_locked m p : machine_ok m -> drives m p -> m_lock m = Some p.
Proof.
  intros Hm (pr & Hp & Hd). destruct (Hm p pr Hp) as [Hc Hl Hb Ha]. apply Hl. destruct (f_locked (p_flags pr)) eqn:E; [done|]. cbn in Hd.
  destruct (f_bound (p_flags pr)); [by destruct (Hb eq_refl)|]. destruct (f_auto (p_flags pr)); [by apply Ha|]. cbn in Hd.
  destruct (p_code pr) as [|[] k]; try done. specialize (Hc tt). cbn in Hc. by rewrite E in Hc.
Qed.
Lemma serves_bound m p : machine_ok m -> serves m p -> m_sock m = Some p.
Proof.
  intros Hm (pr & Hp & Hd). destruct (Hm p pr Hp) as [Hc Hl Hb Ha]. destruct (f_bound (p_flags pr)) eqn:E; [by apply Hb|]. cbn in Hd.
  destruct (p_code pr) as [|[] k]; try done. specialize (Hc tt). cbn in Hc. rewrite E, andb_false_r in Hc. done.
Qed.

(** C19: one daemon.  Let any number of processes run the daemon's start, in any
    interleaving, some killed at any point, with any system call failing, on a
    machine where the lock file can be opened and whatever socket an earlier
    daemon left behind: at no moment are two of them at the controls (past the
    lock, with a socket, with an auto-connect thread or serving a client), and the
    path of the socket names the one that serves it, so that none ever removes the
    socket of another. *)
Theorem single_daemon (sock : option nat) (m : machine) : rtc (machine_step true) (machine0 sock) m ->
  (forall p q, drives m p -> drives m q -> p = q) /\ (forall p, serves m p -> m_sock m = Some p).
Proof.
  intros Hr. assert (Hm : machine_ok m).
  { assert (H0 : machine_ok (machine0 sock)) by (intros p pr H; cbn in H; by rewrite lookup_empty in H). revert H0. induction Hr as [|x y z Hxy _ IH]; [done|]. intros Hx. by eapply IH, step_ok. }
  split; [|intros p; by apply serves_bound]. intros p q Hp Hq. apply drives_locked in Hp; [|done]. apply drives_locked in Hq; [|done]. congruence.
Qed.

(** ** Examples *)

(** An executable schedule: who starts, who is answered how, who is killed. *)
Inductive turn := TStart (p turns : nat) | TCall (p : nat) (ok : bool) | TExit (p : nat).
Definition reply_with (ok : bool) (o : sysop) : sysres o :=
  match o as o return sysres o with
  | OpenLock | Flock | Socket | Bind | Listen | SpawnAuto => ok
  | RadioFlag => false
  | Accept => if ok then AClient else AError
  | _ => tt
  end.
Definition may_answerb (lockable : bool) (p : nat) (m : machine) (o : sysop) : sysres o -> bool :=
  match o as o return sysres o -> bool with
  | OpenLock => fun r => eqb r lockable
  | Flock => fun r => negb r || bool_decide (m_lock m = None \/ m_lock m = Some p)
  | Bind => fun r => negb r || bool_decide (m_sock m = None)
  | _ => fun _ => true
  end.
Definition play_turn (lockable : bool) (t : turn) (m : machine) : option machine :=
  match t with
  | TStart p turns => if decide (m_procs m !! p = None) then Some (Machine (m_lock m) (m_sock m) (<[p := Proc (rtwd_daemon_main turns) flags0]> (m_procs m))) else None
  | TCall p ok =>
      match m_procs m !! p with
      | Some (Proc (Call o k) f) =>
          let r := reply_with ok o in
          if may_answerb lockable p m o r then
            Some (Machine (lock_after p o r (m_lock m)) (sock_after p o r (m_sock m)) (<[p := Proc (k r) (flags_after o r f)]> (m_procs m)))
          else None
      | _ => None
      end
  | TExit p =>
      match m_procs m !! p with
      | Some _ => Some (Machine (if decide (m_lock m = Some p) then None else m_lock m) (m_sock m) (delete p (m_procs m)))
      | None => None
      end
  end.
Fixpoint play (lockable : bool) (l : list turn) (m : machine) : option machine :=
  match l with [] => Some m | t :: l => m ← play_turn lockable t m; play lockable l m end.

Lemma may_answerb_true lockable p m o r : may_answerb lockable p m o r = true -> may_answer lockable p m o r.
Proof.
  destruct o; cbn; try done; [by intros H%eqb_prop|..]; destruct r; cbn; try done; intros H%bool_decide_eq_true; auto.
Qed.
Lemma play_turn_step lockable t m m' : play_turn lockable t m = Some m' -> machine_step lockable m m'.
Proof.
  destruct t as [p n|p ok|p]; cbn.
  - case_decide; [|done]. intros [= <-]. by constructor.
  - destruct (m_procs m !! p) as [[[x|o k] f]|] eqn:E; try done. destruct (may_answerb _ _ _ _ _) eqn:Ea; [|done]. intros [= <-]. apply ms_call; [done|by apply may_answerb_true].
  - destruct (m_procs m !! p) as [pr|] eqn:E; [|done]. intros [= <-]. by eapply ms_exit.
Qed.
Lemma play_steps lockable l : forall m m', play lockable l m = Some m' -> rtc (machine_step lockable) m m'.
Proof.
  induction l as [|t l IH]; intros m m'; cbn [play]; [by intros [= <-]|]. destruct (play_turn lockable t m) as [m1|] eqn:E; [|done]. cbn. intros H.
  eapply rtc_l; [by eapply play_turn_step|by apply IH].
Qed.
Definition drivesb (m : machine) (p : nat) : bool :=
  match m_procs m !! p with Some pr => f_locked (p_flags pr) || f_bound (p_flags pr) || f_auto (p_flags pr) || at_serve (p_code pr) | None => false end.
Lemma drivesb_true m p : drivesb m p = true -> drives m p.
Proof. unfold drivesb, drives. destruct (m_procs m !! p) as [pr|]; [|done]. intros H. by exists pr. Qed.
Lemma play_shows lockable l m0 (test : machine -> bool) : match play lockable l m0 with Some m => test m | None => false end = true ->
  exists m, rtc (machine_step lockable) m0 m /\ test m = true.
Proof. destruct (play lockable l m0) as [m|] eqn:E; [|done]. intros H. exists m. split; [by eapply play_steps|done]. Qed.

(** A daemon takes over from one that was killed, and a third gives up. *)
Definition up (p : nat) : list turn := TStart p 1 :: replicate 11 (TCall p true).
Definition takeover : list turn := up 1 ++ [TExit 1] ++ up 2 ++ [TStart 3 1; TCall 3 true; TCall 3 false].
Definition served (m : machine) : bool := drivesb m 2 && match m_procs m !! 2%nat with Some pr => at_serve (p_code pr) | None => false end.
Lemma single_daemon_witness : exists m, rtc (machine_step true) (machine0 (Some 7%nat)) m /\ served m = true /\
  (forall p q, drives m p -> drives m q -> p = q) /\ (forall p, serves m p -> m_sock m = Some p).
Proof.
  destruct (play_shows true takeover (machine0 (Some 7%nat)) served) as (m & Hr & Ht); [vm_compute; reflexivity|].
  exists m. split; [exact Hr|]. split; [exact Ht|]. exact (single_daemon (Some 7%nat) m Hr).
Defined.

(** Where the lock file cannot be opened the guard is passed over: two daemons run
    side by side, and the second takes the path of the first's socket. *)
Definition up_unlocked (p : nat) : list turn := TStart p 1 :: TCall p false :: replicate 9 (TCall p true).
Lemma two_daemons : exists m, rtc (machine_step false) (machine0 None) m /\ drives m 1 /\ drives m 2.
Proof.
  destruct (play_shows false (up_unlocked 1 ++ up_unlocked 2) (machine0 None) (fun m => drivesb m 1 && drivesb m 2)) as (m & Hr & [H1 H2]%andb_prop); [vm_compute; reflexivity|].
  exists m. split; [done|]. by split; apply drivesb_true.
Qed.
