(* ===== verification/Session.v ===== *)
(** * Session: the command line and the daemon together (client/main.c,
    client/rtwd.c)

    What the daemon says of a command and what the command line makes of it, with
    the socket between them cutting both ways as it likes.  Proved: everything the
    daemon sends until a send fails is whole lines that fit its buffer and the
    client's, so the client reads them as they were written; and a connect typed
    at the command line asks the kernel for that network and no other, once at
    most, and ends well exactly if the kernel said the network carries data. *)
From stdpp Require Import gmap.
From Stdlib Require Import String Ascii.
From S2P Require Import Prelude Scan Config Wire Kctl Calls Client Daemon.
Open Scope Z_scope.
Open Scope rtw_scope.
Open Scope list_scope.

(** ** What the kernel and the system may answer *)

(** Numbers of 32 bits, addresses of six bytes, names that fit their buffers. *)
Definition fits_u32 (n : Z) : Prop := 0 <= n < 2 ^ 32.
Definition mac_bytes (m : list Z) : Prop := length m = 6%nat /\ bytes_ok m.
Definition name_fits (n : nat) (s : list Z) : Prop := (length (c_str s) <= n)%nat.
#[export] Instance entry_typed_dec e : Decision (entry_typed e).
Proof. unfold entry_typed, entry_ok, bytes_ok. apply _. Defined.
#[export] Instance mac_bytes_dec m : Decision (mac_bytes m).
Proof. unfold mac_bytes, bytes_ok. apply _. Defined.
#[export] Instance fits_u32_dec n : Decision (fits_u32 n).
Proof. unfold fits_u32. apply _. Defined.
#[export] Instance name_fits_dec n s : Decision (name_fits n s).
Proof. unfold name_fits. apply _. Defined.

Definition typed (o : dop) : dres o -> bool :=
  match o as o return dres o -> bool with
  | KConnect _ _ => fun r =>
      match r with
      | Some res => bool_decide (fits_u32 (cr_status res) /\ fits_u32 (cr_channel res) /\ mac_bytes (cr_mac res))
      | None => true
      end
  | KStatus => fun r => match r with Some st => bool_decide (fits_u32 (sr_channel st) /\ name_fits 32 (sr_ssid st)) | None => true end
  | KScanChunk _ _ => fun r => match r with Some l => bool_decide (Forall entry_typed l) | None => true end
  | DataOnline _ | IfaceIpv4 _ => fun s => bool_decide (name_fits 15 s)
  | FindIfname _ => fun r => match r with Some s => bool_decide (name_fits 15 s) | None => true end
  | _ => fun _ => true
  end.

(** One whole line, not empty and short enough for the client's buffer. *)
Definition whole_line (text : list Z) : Prop :=
  let line := take (length text - 1) text in text = line ++ nl /\ one_line line = true /\ (0 < length line <= 4094)%nat.
#[export] Instance whole_line_dec text : Decision (whole_line text).
Proof. unfold whole_line. apply _. Defined.

(** What went out: all of it; whether a [send] has failed; and what went out before
    the first that did. *)
Record sending := Sending { w_sent : list Z; w_cut : bool; w_clean : list Z }.
(** [text] was offered and [w] returned. *)
Definition offered (text : list Z) (w : Z) (x : sending) : sending :=
  let out := if w <=? 0 then [] else take (Z.to_nat w) text in
  Sending (w_sent x ++ out) (w_cut x || (w <=? 0)) (if w_cut x then w_clean x else w_clean x ++ out).

(** What is seen of a command: whether every answer so far was typed, the connect
    request made, whether the kernel said the data path came up, and what was
    sent. *)
Record told := Told { t_typed : bool; t_asked : option (list Z * list Z); t_up : bool; t_out : sending }.
Definition told0 : told := Told true None false (Sending [] false []).
Definition kernel_up (r : option connect_result) : bool := match r with Some res => status_bit res 3 | None => false end.

(** The daemon makes one connect request at most, for the network [wanted] and with
    its password if there is one. *)
Definition wanted_by (wanted : option (list Z * list Z)) (s p : list Z) : bool :=
  match wanted with Some (ssid, pass) => bool_decide (s = ssid) && (bool_decide (pass = []) || bool_decide (p = pass)) | None => true end.
Definition say_mon (wanted : option (list Z * list Z)) (st : told) (o : dop) : dres o -> option told :=
  match o as o return dres o -> option told with
  | KConnect s p => fun r =>
      if wanted_by wanted s p && bool_decide (t_asked st = None) then
        Some (Told (t_typed st && typed (KConnect s p) r) (Some (s, p)) (kernel_up r) (t_out st))
      else None
  | Send text => fun w => Some (Told (t_typed st) (t_asked st) (t_up st) (offered text w (t_out st)))
  | o => fun r => Some (Told (t_typed st && typed o r) (t_asked st) (t_up st) (t_out st))
  end.

(** ** Lines *)

Lemma whole_intro line : one_line line = true -> (0 < length line <= 4094)%nat -> whole_line (line ++ nl).
Proof.
  intros H1 H2. unfold whole_line. rewrite length_app. cbn [length nl]. replace (length line + 1 - 1)%nat with (length line) by lia.
  by rewrite take_app_length.
Qed.
Lemma whole_c_str text : whole_line text -> c_str text = text.
Proof.
  intros (E & H1 & _). apply c_str_none. rewrite E, not_elem_of_app. split; [|by apply not_in1].
  apply one_line_none; [done|lia].
Qed.
Lemma whole_stream text : whole_line text -> exists l, text = l ++ nl /\ stream_line l.
Proof. intros (E & H1 & H2). exists (take (length text - 1) text). by split; [|split]. Qed.
Definition lines_of (ls : list (list Z)) : list Z := concat (map (fun l => l ++ nl) ls).

(** A piece of a reply: no control characters, and at most [n] bytes. *)
Definition piece (n : nat) (t : list Z) : Prop := one_line t = true /\ (length t <= n)%nat.
Lemma piece_app n m a b : piece n a -> piece m b -> piece (n + m) (a ++ b).
Proof. intros [H1 H2] [H3 H4]. split; [by rewrite one_line_app, H1, H3|rewrite length_app; lia]. Qed.
Lemma piece_str n s : name_fits n s -> piece (2 * n + 2) (val_text (JStr (c_str s))).
Proof.
  intros Hn. unfold name_fits in Hn. split; cbn [val_text].
  - by rewrite !one_line_app, esc_one_line.
  - rewrite !length_app. pose proof (esc_length (c_str s)). cbn [dq length]. lia.
Qed.
Lemma piece_u n : fits_u32 n -> piece 20 (fmt_u n).
Proof. intros Hn. split; [by apply fmt_u_one_line|]. by destruct (fmt_u_text n Hn) as (ds & -> & _ & Hl & _). Qed.
Lemma piece_mac m : mac_bytes m -> piece 17 (fmt_mac m).
Proof.
  intros [H1 H2]. destruct (fmt_mac_text m H1 H2) as [Hu Hl]. split; [|lia]. unfold unescaped in Hu. unfold one_line.
  rewrite forallb_forall in *. intros c Hc. apply Hu in Hc. lia.
Qed.
Lemma piece_bool b : piece 5 (fmt_bool b).
Proof. destruct b; by split; cbn; [|lia]. Qed.
Lemma piece_band c : piece 3 (band_text c).
Proof. unfold band_text. destruct (_ <=? _); by split; cbn; [|lia]. Qed.
(** A text that is there to read. *)
Lemma piece_text t : one_line t = true -> piece (length t) t.
Proof. done. Qed.

(** ** Replies *)

(** A reply that begins with the verdict [b]. *)
Definition says (b : bool) (out : list Z) : Prop := whole_line out /\ exists rest, out = ok_text b ++ rest.
Lemma says_line b n rest : piece n rest -> (n <= 4000)%nat -> says b (ok_text b ++ rest ++ nl).
Proof.
  intros [H1 H2] Hn. split; [|by eexists]. rewrite app_assoc. apply whole_intro; [|rewrite length_app; destruct b; cbn; lia].
  rewrite one_line_app, H1. by destruct b.
Qed.
Lemma says_whole b out : says b out -> whole_line out.
Proof. by intros [H _]. Qed.
Lemma err_says msg : one_line (txt msg) = true -> (length (txt msg) <= 100)%nat -> says false (err_line msg).
Proof.
  intros H1 H2. unfold err_line. rewrite !(app_assoc _ _ nl), <- !(app_assoc (ok_text false)).
  apply (says_line _ 200); [|lia]. repeat rewrite app_assoc. split; [rewrite !one_line_app, H1; done|].
  rewrite !length_app. cbn [txt length map list_ascii_of_string key_pat dq app] in *. lia.
Qed.

(** A reply in the making: what is in the buffer is all that was put there. *)
Definition builds (b : bool) (n : nat) (buf : list Z) : Prop := piece n buf /\ exists rest, buf = ok_text b ++ rest.
Lemma ok_text_piece b : piece 11 (ok_text b).
Proof. destruct b; by split; cbn; [|lia]. Qed.
Lemma builds_start b n t : piece n t -> (11 + n < 4096)%nat -> builds b (11 + n) (appendf out_cap [] (ok_text b ++ t)).
Proof.
  intros Ht Hn. pose proof (piece_app _ _ _ _ (ok_text_piece b) Ht) as Hp. rewrite appendf_fits by (unfold out_cap; cbn [length]; destruct Hp; lia).
  split; [exact Hp|by eexists].
Qed.
Lemma builds_text b n m buf t : builds b n buf -> piece m t -> (n + m < 4096)%nat -> builds b (n + m) (appendf out_cap buf t).
Proof.
  intros [Hb [rest ->]] Ht Hn. pose proof (piece_app _ _ _ _ Hb Ht) as Hp.
  rewrite appendf_fits by (unfold out_cap; destruct Hb, Ht; lia). split; [exact Hp|]. rewrite <- app_assoc. by eexists.
Qed.
Lemma builds_str b n m buf s : builds b n buf -> name_fits m s -> (n + (2 * m + 2) < 4096)%nat -> builds b (n + (2 * m + 2)) (json_str out_cap buf s).
Proof.
  intros [Hb [rest ->]] Hs Hn. pose proof (piece_app _ _ _ _ Hb (piece_str _ _ Hs)) as Hp. unfold name_fits in Hs.
  rewrite json_str_fits by (unfold out_cap; destruct Hb; lia). split; [exact Hp|]. rewrite <- app_assoc. by eexists.
Qed.
Lemma builds_end b n m buf t : builds b n buf -> piece m t -> (n + m < 4095)%nat -> says b (appendf out_cap buf (t ++ nl)).
Proof.
  intros [Hb [rest ->]] Ht Hn. rewrite appendf_fits by (unfold out_cap; rewrite (length_app t); destruct Hb, Ht; cbn [nl length]; lia).
  pose proof (piece_app _ _ _ _ Hb Ht) as [H1 H2]. rewrite app_assoc. split; [|rewrite <- !app_assoc; by eexists].
  apply whole_intro; [done|]. rewrite !length_app. rewrite !length_app in H2. assert (0 < length (ok_text b))%nat by (destruct b; cbn; lia). lia.
Qed.

(** A reply goes through: each piece by its kind, then the sizes. *)
Ltac piece_of :=
  repeat match goal with
  | |- piece _ (_ ++ _) => apply piece_app
  | |- piece _ (fmt_u _) => apply piece_u
  | |- piece _ (fmt_bool _) => apply piece_bool
  | |- piece _ (fmt_mac _) => apply piece_mac
  | |- piece _ (band_text _) => apply piece_band
  | |- piece _ (key_pat _) => by apply piece_text
  | |- piece _ (txt _) => by apply piece_text
  | |- piece _ dq => by apply piece_text
  end.
Ltac builds_with :=
  first [eapply builds_start; [piece_of; done|cbn; lia] | eapply builds_text; [builds_with|piece_of; done|cbn; lia] | eapply builds_str; [builds_with|eassumption|cbn; lia]].

Lemma connect_failed_says res : fits_u32 (cr_status res) -> says false (connect_failed res).
Proof.
  intros Hs. unfold connect_failed. set (msg := if negb (nz _) then _ else _).
  assert (Hm : name_fits 45 msg) by (unfold msg, name_fits; repeat case_match; vm_compute; lia). clearbody msg.
  eapply builds_end; [builds_with|by piece_of|cbn; lia].
Qed.
Lemma connect_done_says res ifname ssid : fits_u32 (cr_status res) -> fits_u32 (cr_channel res) -> mac_bytes (cr_mac res) ->
  name_fits 15 ifname -> name_fits 255 ssid -> says true (connect_done res ifname ssid).
Proof.
  intros H1 H2 H3 H4 H5. unfold connect_done. rewrite !(app_assoc _ _ nl). eapply builds_end; [builds_with|by piece_of|cbn; lia].
Qed.
Lemma status_line_says powered conn : match conn with
    | Some (st, ifname, ip) => fits_u32 (sr_channel st) /\ name_fits 32 (sr_ssid st) /\ name_fits 15 ifname /\ name_fits 15 ip
    | None => True
    end -> says true (status_line powered conn).
Proof.
  unfold status_line. destruct conn as [[[st ifname] ip]|]; [intros (H1 & H2 & H3 & H4)|intros _];
    (eapply builds_end; [builds_with|by piece_of|cbn; lia]).
Qed.

(** ** What each command says *)

Section Said.
Context (wanted : option (list Z * list Z)) `{Inet}.
#[local] Abbreviation W := (cwp (say_mon wanted)).

(** Nothing sent, nothing asked; what was not typed is not typed now. *)
Definition hushed (st st' : told) : Prop :=
  t_asked st' = t_asked st /\ t_up st' = t_up st /\ t_out st' = t_out st /\ (t_typed st' = true -> t_typed st = true).
Lemma hushed_refl st : hushed st st.
Proof. done. Qed.
Lemma hushed_trans a b c : hushed a b -> hushed b c -> hushed a c.
Proof. intros (H1 & H2 & H3 & H4) (H5 & H6 & H7 & H8). split_and!; [congruence..|auto]. Qed.
Lemma hushed_typed st b : hushed st (Told (t_typed st && b) (t_asked st) (t_up st) (t_out st)).
Proof. split_and!; [done..|]. cbn. by intros [??]%andb_true_iff. Qed.
#[local] Hint Resolve hushed_refl hushed_typed : core.

(** A call that neither sends nor joins. *)
Definition plain_call (o : dop) : bool := match o with KConnect _ _ | Send _ => false | _ => true end.
Lemma plain_rule {A} o (f : dres o -> dprog A) st Q : plain_call o = true ->
  (forall r st', hushed st st' -> (t_typed st' = true -> typed o r = true) -> W (f r) st' Q) -> W (call o ≫= f) st Q.
Proof.
  intros Ho Hf. apply (cwp_call (R := dres)). intros r.
  assert (E : say_mon wanted st o r = Some (Told (t_typed st && typed o r) (t_asked st) (t_up st) (t_out st))) by by destruct o.
  rewrite E. apply Hf; [apply hushed_typed|]. cbn. by intros [??]%andb_true_iff.
Qed.
(** What [send_all] leaves: all of the text went out, or its beginning and a [send]
    failed. *)
Definition sent_text (text : list Z) (x y : sending) : Prop := exists out, out `prefix_of` text /\
  w_sent y = w_sent x ++ out /\ w_clean y = (if w_cut x then w_clean x else w_clean x ++ out) /\ (w_cut y = false -> w_cut x = false /\ out = text).
Lemma sent_step text w x y : (w <=? 0) = false -> sent_text (drop (Z.to_nat w) text) (offered text w x) y -> sent_text text x y.
Proof.
  intros Ew (out & Hp & H1 & H2 & H3). unfold offered in H1, H2, H3. rewrite Ew in H1, H2, H3. cbn [w_sent w_cut w_clean] in *. rewrite orb_false_r in *.
  exists (take (Z.to_nat w) text ++ out). split; [rewrite <- (take_drop (Z.to_nat w) text) at 2; by apply prefix_app|].
  split; [by rewrite H1, app_assoc|]. split; [by destruct (w_cut x); [|rewrite H2, app_assoc]|].
  intros Hc. destruct (H3 Hc) as [? ->]. by rewrite take_drop.
Qed.
Lemma send_rule text st : W (send_all text) st (fun _ st' =>
  t_asked st' = t_asked st /\ t_up st' = t_up st /\ t_typed st' = t_typed st /\ sent_text (c_str text) (t_out st) (t_out st')).
Proof.
  unfold send_all. set (s := c_str text). assert (Hn : (length s <= length s)%nat) by done. revert Hn. generalize (length s) at 2 3 as n.
  generalize s. clear s. intros s n. revert s st. induction n as [|n IH]; intros s st Hn.
  { destruct s; [|cbn in Hn; lia]. split_and!; [done..|]. exists []. rewrite !app_nil_r. by destruct (w_cut _). }
  destruct s as [|b s]; [split_and!; [done..|]; exists []; rewrite !app_nil_r; by destruct (w_cut _)|].
  cbn [send_loop]. apply (cwp_call (R := dres)). intros w. cbn [say_mon]. destruct (w <=? 0) eqn:Ew.
  - split_and!; [done..|]. exists []. unfold offered. rewrite Ew, orb_true_r. cbn [t_out w_sent w_cut w_clean]. rewrite !app_nil_r. split; [apply prefix_nil|]. by destruct (w_cut _).
  - eapply cwp_mono; [apply IH; rewrite length_drop; apply Z.leb_gt in Ew; cbn [length] in *; lia|]. cbn [t_asked t_up t_typed t_out].
    intros _ st' (H1 & H2 & H3 & H4). split_and!; [done..|]. by eapply sent_step.
Qed.

(** What went out before the first [send] that failed is whole lines, the last
    perhaps not to its end; all that went out if none did. *)
Definition lines_ok (st : told) : Prop := t_typed st = true -> exists ls, Forall stream_line ls /\ w_clean (t_out st) `prefix_of` lines_of ls /\
  (w_cut (t_out st) = false -> w_sent (t_out st) = lines_of ls /\ w_clean (t_out st) = lines_of ls).
Lemma lines_ok0 : lines_ok told0.
Proof. intros _. by exists []. Qed.
Lemma hushed_lines st st' : hushed st st' -> lines_ok st -> lines_ok st'.
Proof. intros (_ & _ & E & T) Hl Ht. rewrite E. by apply Hl, T. Qed.
Lemma send_lines text st : lines_ok st -> (t_typed st = true -> whole_line text) ->
  W (send_all text) st (fun _ st' => lines_ok st' /\ t_typed st' = t_typed st).
Proof.
  intros Hl Hw. eapply cwp_mono; [apply send_rule|]. intros _ st' (_ & _ & Et & out & Hp & H1 & H2 & H3). split; [|done]. intros Ht. rewrite Et in Ht.
  destruct (Hl Ht) as (ls & Hs & Hc & Hfull). specialize (Hw Ht). rewrite (whole_c_str _ Hw) in *. destruct (whole_stream _ Hw) as (l & -> & Hst).
  destruct (w_cut (t_out st)) eqn:Ec.
  - exists ls. split; [done|]. split; [by rewrite H2|]. intros Hn. by destruct (H3 Hn).
  - destruct (Hfull eq_refl) as [E1 E2]. exists (ls ++ [l]). split; [apply Forall_app; by split; [|constructor]|].
    assert (E : lines_of (ls ++ [l]) = lines_of ls ++ l ++ nl) by (unfold lines_of; by rewrite map_app, concat_app; cbn [map concat]; rewrite app_nil_r).
    rewrite E, H1, H2, E1, E2. split; [by apply prefix_app|]. intros Hn. by destruct (H3 Hn) as [_ ->].
Qed.
Lemma plain_lines {A} o (f : dres o -> dprog A) st Q : plain_call o = true -> lines_ok st ->
  (forall r st', lines_ok st' -> (t_typed st' = true -> typed o r = true) -> W (f r) st' Q) -> W (call o ≫= f) st Q.
Proof. intros Ho Hl Hf. apply plain_rule; [done|]. intros r st' Hq Ht. apply Hf; [by eapply hushed_lines|done]. Qed.
(** A plain program ends quietly. *)
Definition calm {A} (p : dprog A) : Prop := forall st, W p st (fun _ st' => hushed st st').
Lemma calm_call {A} o (f : dres o -> dprog A) : plain_call o = true -> (forall r, calm (f r)) -> calm (call o ≫= f).
Proof.
  intros Ho Hf st. apply plain_rule; [done|]. intros r st' Hq _. eapply cwp_mono; [apply Hf|]. intros ? st'' Hq'. exact (hushed_trans _ _ _ Hq Hq').
Qed.
Lemma calm_ret {A} (x : A) : calm (Done x).
Proof. intros st. cbn. apply hushed_refl. Qed.
Lemma calm_bind {A B} (p : dprog A) (f : A -> dprog B) : calm p -> (forall x, calm (f x)) -> calm (p ≫= f).
Proof.
  intros Hp Hf st. eapply cwp_bind_post; [apply Hp|]. intros x st' Hq. eapply cwp_mono; [apply Hf|]. intros ? st'' Hq'. exact (hushed_trans _ _ _ Hq Hq').
Qed.
Lemma calm_lift {A} (p : io A) : calm (lift_io p).
Proof.
  induction p as [x|o k IH]; [apply calm_ret|]. intros st r. eapply cwp_mono; [apply IH|]. intros x st' Hq. exact (hushed_trans _ _ _ (hushed_typed _ _) Hq).
Qed.
Ltac calmly := repeat first [apply calm_ret | apply calm_lift | apply calm_call; [done|intros ?] | apply calm_bind; [|intros ?] | case_match].
Lemma saved_password_calm s : calm (saved_password s).
Proof. unfold saved_password. calmly. Qed.
Lemma net_line_of_calm e : calm (net_line_of e).
Proof. unfold net_line_of. calmly. Qed.
Lemma remember_calm s p : calm (remember s p).
Proof. unfold remember. calmly. Qed.

(** *** Connecting *)

(** The verdict of a finished call: the code and what the kernel put in. *)
Definition verdict (x : Z * connect_result) (st : told) : Prop :=
  (x.1 = 0 /\ t_up st = status_bit x.2 3 /\
   (t_typed st = true -> fits_u32 (cr_status x.2) /\ fits_u32 (cr_channel x.2) /\ mac_bytes (cr_mac x.2))) \/
  (x.1 <> 0 /\ t_up st = false /\ x.2 = connect_result0).
Lemma kconnect_verdict s p st : wanted_by wanted s p = true -> t_asked st = None -> t_up st = false ->
  W (kconnect s p) st (fun x st' => verdict x st' /\ t_out st' = t_out st).
Proof.
  intros Hw Ha Hu. unfold kconnect. apply plain_rule; [done|]. intros ? s1 (A1 & U1 & S1 & _) _.
  apply plain_rule; [done|]. intros ok s2 (A2 & U2 & S2 & _) _. destruct ok; cbn [negb].
  2:{ apply plain_rule; [done|]. intros ? s3 (A3 & U3 & S3 & _) _. split; [right|congruence]. cbn. split; [done|]. split; [congruence|done]. }
  apply (cwp_call (R := dres)). intros res. cbn [say_mon]. rewrite Hw, bool_decide_eq_true_2 by congruence. cbn [andb].
  apply plain_rule; [done|]. intros ? s3 (A3 & U3 & S3 & T3) _. apply plain_rule; [done|]. intros ? s4 (A4 & U4 & S4 & T4) _.
  split; [|rewrite S4, S3; cbn; congruence]. rewrite <- U4 in U3. cbn [t_up] in U3. destruct res as [res|]; [left|right]; cbn [fst snd kernel_up] in *.
  - split; [done|]. split; [congruence|]. intros Ht. apply T4, T3 in Ht. cbn [t_typed typed] in Ht. apply andb_prop in Ht as [_ Ht].
    by apply bool_decide_eq_true in Ht.
  - split; [done|]. split; [congruence|done].
Qed.

Lemma cmd_connect_says s p nosave st : t_asked st = None -> t_up st = false ->
  (forall s' pass, given s = Some s' -> (forall q, given p = Some q -> pass = q) -> wanted_by wanted s' pass = true) ->
  (forall s', s = Some s' -> name_fits 255 s') ->
  W (cmd_connect s p nosave) st (fun out st' => t_out st' = t_out st /\ (t_typed st' = true -> says (t_up st') out)).
Proof.
  intros Ha Hu Hw Hn. unfold cmd_connect. destruct (given s) as [s'|] eqn:Es.
  2:{ split; [done|]. intros _. rewrite Hu. by apply err_says; [|cbn; lia]. }
  assert (Hs' : name_fits 255 s') by (apply Hn; destruct s as [[|]|]; cbn in *; congruence).
  apply plain_rule; [done|]. intros off s1 (A1 & U1 & S1 & _) _. destruct off.
  { split; [done|]. intros _. rewrite U1, Hu. by apply err_says; [|cbn; lia]. }
  eapply cwp_bind_post with (P := fun up st' => hushed s1 st' /\ (forall q, given p = Some q -> up = Some q)).
  { destruct (given p) as [q|]; [by split; [|intros ? [= ->]]|]. eapply cwp_mono; [apply saved_password_calm|]. intros x st' Hq. by split. }
  intros up s2 [(A2 & U2 & S2 & _) Hup]. apply plain_rule; [done|]. intros ? s3 (A3 & U3 & S3 & _) _.
  eapply cwp_bind_post; [apply kconnect_verdict; [|congruence|congruence]|].
  { apply Hw; [done|]. intros q Hq. by rewrite (Hup q Hq). }
  intros [rc res] s4 [Hv S4]. unfold verdict in Hv. cbn [fst snd] in Hv. destruct (Z.eqb_spec rc (-2)) as [->|_].
  { split; [congruence|]. intros _. destruct Hv as [[??]|(_ & -> & _)]; [done|]. by apply err_says; [|cbn; lia]. }
  destruct (negb (rc =? 0) || negb (status_bit res 3)) eqn:Eb.
  { split; [congruence|]. intros Ht. destruct Hv as [(-> & Hup' & Hty)|(_ & -> & ->)].
    - cbn in Eb. rewrite Hup'. destruct (status_bit res 3); [done|]. by apply connect_failed_says, Hty.
    - apply connect_failed_says. by vm_compute. }
  apply orb_false_iff in Eb as [E1%negb_false_iff%Z.eqb_eq E2%negb_false_iff]. destruct Hv as [(_ & Hup' & Hty)|[? _]]; [|done].
  eapply cwp_bind_post with (P := fun _ st' => hushed s4 st').
  { destruct (given up); [destruct nosave; [apply hushed_refl|apply remember_calm]|apply hushed_refl]. }
  intros _ s5 (A5 & U5 & S5 & T5). apply plain_rule; [done|]. intros ifn s6 (A6 & U6 & S6 & T6) Hif. split; [congruence|].
  intros Ht. rewrite U6, U5, Hup', E2. specialize (Hif Ht). apply T6, T5, Hty in Ht as (H1 & H2 & H3).
  apply bool_decide_eq_true in Hif. by apply connect_done_says.
Qed.

(** *** The other commands *)

(** Nothing is sent on the way, and what comes out is a line. *)
Definition replies (p : dprog (list Z)) : Prop := forall st, W p st (fun out st' => hushed st st' /\ (t_typed st' = true -> whole_line out)).
Lemma replies_ret out : whole_line out -> replies (Done out).
Proof. intros Hw st. by split. Qed.
Lemma replies_bind {A} (p : dprog A) (f : A -> dprog (list Z)) : calm p -> (forall x, replies (f x)) -> replies (p ≫= f).
Proof.
  intros Hp Hf st. eapply cwp_bind_post; [apply Hp|]. intros x st' Hq. eapply cwp_mono; [apply Hf|]. intros out st'' [Hq' Ho].
  split; [exact (hushed_trans _ _ _ Hq Hq')|exact Ho].
Qed.
Lemma replies_call o (f : dres o -> dprog (list Z)) : plain_call o = true -> (forall r, replies (f r)) -> replies (call o ≫= f).
Proof. intros Ho. apply replies_bind. intros st r. pose proof (plain_rule o Done st (fun _ st' => hushed st st') Ho) as Hr. by apply Hr. Qed.
Lemma ok_line_whole b : whole_line (ok_line b).
Proof. destruct b; apply (bool_decide_unpack _); by vm_compute. Qed.
Lemma err_whole msg : one_line (txt msg) = true -> (length (txt msg) <= 100)%nat -> whole_line (err_line msg).
Proof. intros H1 H2. by apply (says_whole false), err_says. Qed.

Lemma cmd_disconnect_replies : replies cmd_disconnect.
Proof.
  unfold cmd_disconnect. do 3 (apply replies_call; [done|intros ?]). case_match.
  - apply replies_call; [done|intros ?]. apply replies_ret, err_whole; [done|cbn; lia].
  - do 3 (apply replies_call; [done|intros ?]). apply replies_ret, ok_line_whole.
Qed.
Lemma cmd_forget_replies s : replies (cmd_forget s).
Proof.
  unfold cmd_forget. destruct (given s); [|apply replies_ret, err_whole; [done|cbn; lia]].
  do 2 (apply replies_call; [done|intros ?]). case_match. apply replies_call; [done|intros ?].
  apply replies_bind; [case_match; calmly|intros ?]. apply replies_call; [done|intros ?]. apply replies_ret, ok_line_whole.
Qed.
Lemma cmd_power_replies a : replies (cmd_power a).
Proof.
  unfold cmd_power. cbv zeta. case_match; [apply replies_ret, err_whole; [done|cbn; lia]|]. apply replies_bind; [calmly|intros ?]. apply replies_ret.
  match goal with |- context [fmt_bool ?b] => destruct b end; apply (bool_decide_unpack _); by vm_compute.
Qed.
Lemma kstatus_typed st : W kstatus st (fun x st' => hushed st st' /\ (t_typed st' = true -> forall res, x = Some res ->
  fits_u32 (sr_channel res) /\ name_fits 32 (sr_ssid res))).
Proof.
  unfold kstatus. apply plain_rule; [done|]. intros ? s1 Q1 _. apply plain_rule; [done|]. intros ok s2 Q2 _.
  eapply cwp_bind_post with (P := fun x st' => hushed s2 st' /\ (t_typed st' = true -> forall res, x = Some res ->
    fits_u32 (sr_channel res) /\ name_fits 32 (sr_ssid res))).
  { destruct ok; [|by split]. apply plain_rule; [done|]. intros x s3 Q3 T3. apply plain_rule; [done|]. intros ? s4 Q4 _.
    split; [exact (hushed_trans _ _ _ Q3 Q4)|]. intros Ht res ->. destruct Q4 as (_ & _ & _ & T4). specialize (T3 (T4 Ht)). by apply bool_decide_eq_true in T3. }
  intros x s3 [Q3 T3]. apply plain_rule; [done|]. intros ? s4 Q4 _. split; [exact (hushed_trans _ _ _ Q1 (hushed_trans _ _ _ Q2 (hushed_trans _ _ _ Q3 Q4)))|].
  intros Ht. apply T3. by apply Q4.
Qed.
Lemma cmd_status_replies : replies cmd_status.
Proof.
  intros st. unfold cmd_status. eapply cwp_bind_post; [apply kstatus_typed|]. intros x s1 [Q1 T1].
  eapply cwp_bind_post with (P := fun conn st' => hushed s1 st' /\ (t_typed st' = true -> match conn with
    | Some (res, ifname, ip) => fits_u32 (sr_channel res) /\ name_fits 32 (sr_ssid res) /\ name_fits 15 ifname /\ name_fits 15 ip
    | None => True end)).
  - destruct x as [res|]; [|by split]. destruct (nz _); [|by split].
    apply plain_rule; [done|]. intros ifn s2 Q2 T2. destruct ifn as [ifname|].
    + apply plain_rule; [done|]. intros ip s3 Q3 T3. split; [exact (hushed_trans _ _ _ Q2 Q3)|]. intros Ht. pose proof Ht as Ht2. apply Q3 in Ht2.
      pose proof Ht2 as Ht1. apply Q2 in Ht1. destruct (T1 Ht1 _ eq_refl) as [H1 H2]. specialize (T2 Ht2). specialize (T3 Ht).
      apply bool_decide_eq_true in T2, T3. done.
    + split; [exact Q2|]. intros Ht. apply Q2 in Ht. destruct (T1 Ht _ eq_refl) as [H1 H2]. split_and!; [apply H1..|exact H2|unfold name_fits; cbn; lia|unfold name_fits; cbn; lia].
  - intros conn s2 [Q2 T2]. apply plain_rule; [done|]. intros off s3 Q3 _. split; [exact (hushed_trans _ _ _ Q1 (hushed_trans _ _ _ Q2 Q3))|].
    intros Ht. apply (says_whole true), status_line_says, T2. by apply Q3.
Qed.
(** *** Scanning *)

Lemma net_line_whole e saved : entry_typed e -> whole_line (net_line 512 e saved).
Proof.
  intros He. destruct (net_line_text e saved He) as [E Hl]. rewrite E in Hl |- *. rewrite length_app in Hl. cbn [nl length] in Hl.
  apply whole_intro; [|split; [|lia]].
  - destruct He as (He & Hc & Hb). pose proof He as (Hm & Hmb & _). destruct (piece_mac (bssid e)) as [Hmac _]; [by split|].
    unfold fields_text, net_fields. cbn [map concat field_text val_text]. unfold key_pat.
    rewrite !one_line_app, !esc_one_line, !fmt_u_one_line by lia. by destruct (privacy e), saved.
  - unfold fields_text, net_fields. cbn [map concat field_text]. rewrite !length_app. cbn [length txt map list_ascii_of_string]. lia.
Qed.
Lemma net_line_of_whole e st : W (net_line_of e) st (fun line st' => hushed st st' /\ exists saved, line = net_line 512 e saved).
Proof.
  unfold net_line_of. apply plain_rule; [done|]. intros ? s1 Q1 _. apply plain_rule; [done|]. intros c s2 Q2 _.
  apply plain_rule; [done|]. intros ? s3 Q3 _. split; [exact (hushed_trans _ _ _ Q1 (hushed_trans _ _ _ Q2 Q3))|by eexists].
Qed.

Lemma send_new_says l : forall seen st, lines_ok st -> (t_typed st = true -> Forall entry_typed l) -> W (send_new l seen) st (fun _ st' => lines_ok st').
Proof.
  induction l as [|e l IH]; intros seen st Hok Hl; [done|]. cbn [send_new].
  assert (Hl' : t_typed st = true -> Forall entry_typed l) by (intros Ht; by apply Hl, Forall_cons_1 in Ht as [_ Ht]).
  destruct (existsb _ seen); [by apply IH|]. eapply cwp_bind_post; [apply net_line_of_whole|]. intros line s1 [Q1 [saved ->]].
  eapply cwp_bind_post; [apply send_lines; [by eapply hushed_lines|]|].
  { intros Ht. apply Q1, Hl, Forall_cons_1 in Ht as [He _]. by apply net_line_whole. }
  intros _ s2 [Hok2 T2]. apply IH; [done|]. intros Ht. apply Hl', Q1. congruence.
Qed.
Lemma scan_chunks_says n chans : forall off seen begun ended st, lines_ok st -> W (scan_chunks n chans off seen begun ended) st (fun _ st' => lines_ok st').
Proof.
  induction n as [|n IH]; intros off seen begun ended st Hok; [done|]. cbn [scan_chunks]. destruct (off <? length chans)%nat; [|done].
  apply plain_lines; [done|done|]. intros r s1 Hok1 T1. destruct r as [l|]; [|by apply IH].
  eapply cwp_bind_post; [apply send_new_says; [done|]; intros Ht; apply T1 in Ht; by apply bool_decide_eq_true in Ht|]. intros seen' s2 Hok2. by apply IH.
Qed.
Lemma say_line text st : lines_ok st -> whole_line text -> W (send_all text) st (fun _ st' => lines_ok st').
Proof. intros Hok Hw. eapply cwp_mono; [by apply send_lines|]. by intros ? ? [? _]. Qed.
Lemma cmd_scan_says st : lines_ok st -> W cmd_scan st (fun _ st' => lines_ok st').
Proof.
  intros Hok. unfold cmd_scan. do 4 (apply plain_lines; [done|done|clear st Hok; intros ? st Hok _]). case_match; [apply say_line; [done|]; apply err_whole; [done|cbn; lia]|].
  do 2 (apply plain_lines; [done|done|clear st Hok; intros ? st Hok _]). case_match.
  { apply plain_lines; [done|done|clear st Hok; intros ? st Hok _]. apply say_line; [done|]; apply err_whole; [done|cbn; lia]. }
  eapply cwp_bind_post; [apply say_line; [done|]; apply (bool_decide_unpack _); by vm_compute|]. clear st Hok. intros ? st Hok.
  eapply cwp_bind_post; [by apply scan_chunks_says|]. clear st Hok. intros [begun ended] st Hok.
  eapply cwp_bind_post with (P := fun _ st' => lines_ok st'); [case_match; [by apply plain_lines|done]|]. clear st Hok. intros ? st Hok.
  do 2 (apply plain_lines; [done|done|clear st Hok; intros ? st Hok _]). apply say_line; [done|]. apply (bool_decide_unpack _). by vm_compute.
Qed.
End Said.

(** *** The words of a request *)

Lemma recv_length max chunks : (length (recv max chunks).1 <= max)%nat.
Proof. destruct chunks as [|c cs]; cbn; [lia|]. case_match; cbn; [by apply Nat.leb_le|rewrite length_take; lia]. Qed.
Lemma read_line_length fuel cap : forall buf chunks l, (length buf < cap)%nat -> read_line_loop fuel cap buf chunks = Line l -> (length l < cap)%nat.
Proof.
  induction fuel as [|fuel IH]; intros buf chunks l Hb; [done|]. cbn [read_line_loop]. destruct (Nat.ltb_spec (length buf + 1) cap); [|done].
  pose proof (recv_length (cap - 1 - length buf) chunks) as Hr. destruct (recv _ chunks) as [[|b r] cs]; [done|]. cbn [fst] in Hr.
  case_match; [intros [= <-]|apply IH]; rewrite length_app; lia.
Qed.
Lemma cut_line_length s : (length (cut_line s) <= length s)%nat.
Proof. induction s as [|b s IH]; [done|]. cbn. case_match; cbn; lia. Qed.
Lemma split_tab_length s : (length (split_tab s).1 <= length s)%nat /\ forall r, (split_tab s).2 = Some r -> (length r <= length s)%nat.
Proof.
  induction s as [|b s [IH1 IH2]]; [by split|]. cbn. case_match; cbn; [split; [lia|]; intros r [= <-]; lia|].
  destruct (split_tab s) as [w r']. cbn in *. split; [lia|]. intros r Hr. specialize (IH2 r Hr). lia.
Qed.
Lemma connect_words buf a1 a2 nosave : parse_request buf = CConnect (Some a1) a2 nosave -> (length a1 <= length buf)%nat.
Proof.
  unfold parse_request. set (s := cut_line (c_str buf)). assert (Hs : (length s <= length buf)%nat).
  { unfold s. pose proof (cut_line_length (c_str buf)). pose proof (c_str_length buf). lia. }
  unfold split_request. pose proof (split_tab_length s) as [_ H1]. destruct (split_tab s) as [verb [r1|]]; [specialize (H1 r1 eq_refl)|by (repeat case_match)].
  pose proof (split_tab_length r1) as [H2 _]. destruct (split_tab r1) as [w [r2|]]; cbn [fst] in H2.
  - destruct (split_tab r2) as [w2 r3]. repeat case_match; try done; intros [= <- _ _]; lia.
  - repeat case_match; try done; intros [= <- _ _]; lia.
Qed.

(** ** What the client reads *)

Section Read.
Context `{Inet}.

Lemma handle_client_says allowed chunks : cwp (say_mon None) (handle_client allowed chunks) told0 (fun _ st => lines_ok st).
Proof.
  assert (He : forall msg st, one_line (txt msg) = true -> (length (txt msg) <= 100)%nat -> lines_ok st ->
    cwp (say_mon None) (send_all (err_line msg)) st (fun _ st' => lines_ok st')) by (intros; apply say_line; [done|by apply err_whole]).
  pose proof lines_ok0 as H0.
  unfold handle_client. destruct allowed; cbn [negb]; [|apply He; [done|cbn; lia|done]].
  destruct (read_line 256 chunks) as [buf| |] eqn:Er; [|apply He; [done|cbn; lia|done]|done].
  assert (Hr : forall p st, lines_ok st -> replies None p -> cwp (say_mon None) (out ← p; send_all out) st (fun _ st' => lines_ok st')).
  { intros p st Hok Hp. eapply cwp_bind_post; [apply Hp|]. intros out st' [Hq Ho]. eapply cwp_mono; [apply send_lines; [by eapply hushed_lines|done]|]. by intros ? ? [? _]. }
  destruct (parse_request buf) as [|a1 a2 ns| | |a1|a| |] eqn:Ep; cbn [run_command]; try (apply He; [done|cbn; lia|done]).
  - by apply cmd_scan_says.
  - eapply cwp_bind_post; [apply cmd_connect_says; [done..|]|].
    + intros s' ->. apply connect_words in Ep. apply read_line_length in Er; [|cbn; lia]. unfold name_fits. pose proof (c_str_length s'). lia.
    + intros out st' [Eo Ho]. eapply cwp_mono; [apply send_lines; [intros _; rewrite Eo; by exists []|intros Ht; by eapply says_whole, Ho]|]. by intros ? ? [? _].
  - apply Hr; [done|apply cmd_disconnect_replies].
  - apply Hr; [done|apply cmd_status_replies].
  - apply Hr; [done|apply cmd_forget_replies].
  - apply Hr; [done|apply cmd_power_replies].
Qed.

(** C34: whatever a peer sends, allowed or not, whatever the kernel and the system
    answer within the types of their answers, and however each [send] cuts what it
    is given: what the daemon sends until a [send] fails is whole lines, with no
    control character, that fit its own buffer of 4096 bytes and the client's, the
    last of them perhaps cut short by the failure.  If none fails, it is whole lines
    to the end, and a client reads exactly these lines, in order, however the socket
    cuts them into pieces.  (Once one has failed a scan goes on sending later lines:
    [cut_line_joined].) *)
Theorem daemon_lines_read (allowed : bool) (chunks : list (list Z)) :
  cwp (say_mon None) (handle_client allowed chunks) told0 (fun _ st => t_typed st = true -> exists ls,
    Forall stream_line ls /\ w_clean (t_out st) `prefix_of` concat (map (fun l => l ++ nl) ls) /\
    (w_cut (t_out st) = false -> w_sent (t_out st) = concat (map (fun l => l ++ nl) ls) /\
      forall pieces, Forall (fun c => c <> []) pieces -> concat pieces = w_sent (t_out st) -> rtwd_request pieces = ls)).
Proof.
  eapply cwp_mono; [apply handle_client_says|]. cbv beta. intros _ st Hok Ht. destruct (Hok Ht) as (ls & Hl & Hp & Hfull). exists ls.
  split; [done|]. split; [done|]. intros Hc. destruct (Hfull Hc) as [E _]. split; [done|]. intros pieces Hne Hcc. apply reply_lines_any_pieces; [done..|]. by rewrite Hcc, E.
Qed.
End Read.

(** ** The command line against the daemon *)

(** What the command line sends and returns when the daemon is there and its
    reply arrives as [chunks]. *)
Definition served (chunks : list (list Z)) (o : cop) : cres o :=
  match o as o return cres o with
  | SockConnect => SockUp
  | RecvReply => chunks
  | StatSock => true
  | FindService | ServiceOpen => false
  | Ping => None | KCall _ => None | ReadConf => None | Client.FindIfname _ => None | Client.IfaceIpv4 _ => [] | RunDaemon => 0
  | _ => tt
  end.
Fixpoint against {A} (chunks : list (list Z)) (p : cprog A) : list (list Z) * A :=
  match p with
  | Done x => ([], x)
  | Call o k =>
      let '(sent, x) := against chunks (k (served chunks o)) in
      (match o with SendText text => [text] | _ => [] end ++ sent, x)
  end.

(** The verdict at the head of a line is read back. *)
Lemma verdict_read b line rest : line ++ nl = ok_text b ++ rest -> js_bool (last_line [line]) (txt "ok") = if b then 1 else 0.
Proof.
  intros E. assert (exists r, line = ok_text b ++ r) as [r ->].
  { destruct rest as [|x rest _] using rev_ind.
    - rewrite app_nil_r in E. apply (f_equal (@List.rev Z)) in E. rewrite rev_app_distr in E. destruct b; discriminate E.
    - rewrite app_assoc in E. apply app_inj_tail in E as [-> _]. by eexists. }
  unfold last_line. cbn [rev app head default from_option id]. rewrite take_app_ge by (destruct (ok_text_piece b); lia).
  set (r' := take _ r). assert (E' : ok_text b ++ r' = 0x7b :: key_pat (txt "ok") ++ fmt_bool b ++ r') by by destruct b.
  rewrite E'. unfold js_bool. rewrite after_miss by done. rewrite after_hit. by destruct b.
Qed.

Section Told.
Context `{Inet}.

Lemma against_connect chunks ssid pass nosave : against chunks (cli_connect ssid pass nosave) =
  ([send_line (cli_connect_text ssid (default [] pass) nosave)], if js_bool (last_line (rtwd_request chunks)) (txt "ok") =? 1 then 0 else 1).
Proof. done. Qed.
(** C21: a connect typed at the command line, for words without control
    characters that fit the daemon's line, whatever pieces its line and the reply
    arrive in: the daemon asks the kernel at most once to connect, and then to
    that network, and with the typed password if one was typed; it sends exactly
    one line; and, as long as the kernel and the system answer within the types of
    their answers, the command ends with 0 exactly if the kernel answered that the
    data path came up, and with 1 otherwise (the radio off, the driver gone, the
    network not found, a wrong password). *)
Theorem connect_told_true (ssid : list Z) (pass : option (list Z)) (nosave : bool) (rchunks : list (list Z)) :
  one_line ssid = true -> one_line (default [] pass) = true -> ssid <> [] -> (length ssid + length (default [] pass) <= 238)%nat ->
  Forall (fun c => c <> []) rchunks -> concat rchunks = concat (against [] (cli_connect ssid pass nosave)).1 ->
  cwp (say_mon (Some (ssid, default [] pass))) (handle_client true rchunks) told0 (fun _ st => exists reply,
    w_sent (t_out st) `prefix_of` reply /\ (w_cut (t_out st) = false -> w_sent (t_out st) = reply) /\
    (t_typed st = true -> whole_line reply /\ forall chunks, Forall (fun c => c <> []) chunks -> concat chunks = reply ->
      (against chunks (cli_connect ssid pass nosave)).2 = if t_up st then 0 else 1)).
Proof.
  intros H1 H2 Hne Hl Hr Ec. rewrite against_connect in Ec. cbn [fst concat] in Ec. rewrite app_nil_r in Ec.
  destruct (connect_request_read ssid (default [] pass) nosave rchunks H1 H2 Hl Hr Ec) as (buf & Hb & Hp).
  unfold handle_client. cbn [negb]. rewrite Hb, Hp. cbn [run_command].
  eapply cwp_bind_post; [apply cmd_connect_says; [done|done| |]|].
  - intros s' p Hs Hpp. assert (s' = ssid) as -> by (destruct ssid; [done|by injection Hs]). cbn [wanted_by]. rewrite bool_decide_eq_true_2 by done. cbn [andb].
    destruct (default [] pass) as [|x q]; [done|]. apply orb_true_iff. right. apply bool_decide_eq_true. by apply Hpp.
  - intros s' [= <-]. unfold name_fits. pose proof (c_str_length ssid). lia.
  - intros out st [Hs Ho]. eapply cwp_mono; [apply send_rule|]. intros _ st' (_ & Eu & Et & o & Hpre & E1 & _ & Hc). rewrite Hs in E1. cbn [told0 t_out w_sent app] in E1.
    exists (c_str out). split; [by rewrite E1|]. split; [intros Hn; by destruct (Hc Hn) as [_ <-]|]. rewrite Et, Eu. intros Ht.
    destruct (Ho Ht) as [Hw [rest Hrest]]. rewrite (whole_c_str _ Hw). split; [done|]. intros chunks Hpn Hcc. rewrite against_connect. cbn [snd]. destruct Hw as (E & Hone & Hlen).
    set (line := take (length out - 1) out) in *. rewrite (reply_lines_any_pieces [line] chunks); [|by constructor; [split|]|done|by cbn; rewrite app_nil_r, <- E].
    rewrite (verdict_read (t_up st) line rest) by (by rewrite <- E). by destruct (t_up st).
Qed.
End Told.

(** ** Witnesses *)

(** One run, with the answers [ans]. *)
Fixpoint replay {A} (wanted : option (list Z * list Z)) (ans : forall o, dres o) (p : dprog A) (st : told) : option (A * told) :=
  match p with
  | Done x => Some (x, st)
  | Call o k => match say_mon wanted st o (ans o) with Some st' => replay wanted ans (k (ans o)) st' | None => None end
  end.
Lemma replay_cwp {A} wanted ans (p : dprog A) : forall st Q, cwp (say_mon wanted) p st Q ->
  exists x st', replay wanted ans p st = Some (x, st') /\ Q x st'.
Proof.
  induction p as [x|o k IH]; intros st Q Hp; [by eexists _, _|]. specialize (Hp (ans o)). cbn [replay].
  destruct (say_mon wanted st o (ans o)) as [st'|]; [|done]. by apply IH.
Qed.

(** A kernel that answers [r] to a connect request. *)
Definition kernel_says (r : option connect_result) (o : dop) : dres o :=
  match o as o return dres o with
  | KConnect _ _ => r
  | HwOpen => true
  | o => some_answer o
  end.
Definition up_answer : connect_result := ConnectResult 15 [2; 0; 0x5e; 0x10; 0; 1] 36.
Definition down_answer : connect_result := ConnectResult 3 [2; 0; 0x5e; 0x10; 0; 1] 36.
Definition typed_line : list (list Z) := [txt "conn"; txt "ect" ++ [0x09] ++ txt "home" ++ [0x09]; txt "secret12" ++ nl].
Definition run_connect (r : option connect_result) : option (unit * told) :=
  replay (Some (txt "home", txt "secret12")) (kernel_says r) (handle_client true typed_line) told0.

(** The reply [reply], in two pieces, ends the command with [code]. *)
Definition ends_with (res : connect_result) (code : Z) : Prop := exists reply st,
  run_connect (Some res) = Some (tt, st) /\ w_cut (t_out st) = false /\ w_sent (t_out st) = reply /\
  (against [take 9 reply; drop 9 reply] (cli_connect (txt "home") (Some (txt "secret12")) false)).2 = code.

(** A connect that was made and one that was not. *)
Lemma connect_told_true_witness : ends_with up_answer 0 /\ ends_with down_answer 1.
Proof.
  assert (Hrun : forall r, exists x st, run_connect r = Some (x, st) /\ exists reply,
    w_sent (t_out st) `prefix_of` reply /\ (w_cut (t_out st) = false -> w_sent (t_out st) = reply) /\
    (t_typed st = true -> whole_line reply /\ forall chunks, Forall (fun c => c <> []) chunks -> concat chunks = reply ->
      (against chunks (cli_connect (txt "home") (Some (txt "secret12")) false)).2 = if t_up st then 0 else 1)).
  { intros r. apply replay_cwp. apply (connect_told_true (txt "home") (Some (txt "secret12")) false typed_line);
      [reflexivity|reflexivity|discriminate|cbn; lia|repeat constructor; discriminate|reflexivity]. }
  split.
  - destruct (Hrun (Some up_answer)) as ([] & st & Hr & reply & _ & Hs & Hc). exists reply, st. split; [exact Hr|].
    vm_compute in Hr. injection Hr as <-. split; [reflexivity|]. specialize (Hs eq_refl). split; [exact Hs|]. vm_compute in Hs. subst reply.
    destruct Hc as [_ Hc]; [reflexivity|]. rewrite Hc; [reflexivity|repeat constructor; discriminate|by rewrite <- (take_drop 9)].
  - destruct (Hrun (Some down_answer)) as ([] & st & Hr & reply & _ & Hs & Hc). exists reply, st. split; [exact Hr|].
    vm_compute in Hr. injection Hr as <-. split; [reflexivity|]. specialize (Hs eq_refl). split; [exact Hs|]. vm_compute in Hs. subst reply.
    destruct Hc as [_ Hc]; [reflexivity|]. rewrite Hc; [reflexivity|repeat constructor; discriminate|by rewrite <- (take_drop 9)].
Defined.

(** A socket that takes five bytes of a scan's first line, times out on the rest,
    and takes everything again: what the client reads as one line is the beginning
    of the first and the whole of the last. *)
Definition scanning_line : list Z := ok_text true ++ txt "," ++ key_pat (txt "scanning") ++ txt "true}" ++ nl.
Definition done_line : list Z := ok_text true ++ txt "," ++ key_pat (txt "done") ++ txt "true}" ++ nl.
Definition stalls (o : dop) : dres o :=
  match o as o return dres o with
  | HwOpen => true
  | Send text => if decide (text = scanning_line) then 5 else if decide (text = drop 5 scanning_line) then -1 else Z.of_nat (length text)
  | o => some_answer o
  end.
Lemma cut_line_joined : exists st, replay None stalls cmd_scan told0 = Some (tt, st) /\ w_cut (t_out st) = true /\
  rtwd_request [w_sent (t_out st)] = [take 5 scanning_line ++ take (length done_line - 1) done_line].
Proof.
  destruct (replay None stalls cmd_scan told0) as [[[] st]|] eqn:E; [|by vm_compute in E]. exists st. split; [done|].
  vm_compute in E. injection E as <-. by vm_compute.
Qed.
